(* ===== verification/_CoqProject ===== *)
-Q . S2P
Prelude.v
Bytes.v
Message.v
FrameBitmap.v
Task.v
Timer.v
Paging.v
IdentityMap.v
PageFault.v
PageClean.v
PageCopy.v
Vm.v
KernelLog.v
ArgVector.v
Loader.v
LoadElf.v
LoadApp.v
Syscall.v
Newlib.v
Fat.v
FatChain.v
FatSample.v
FatDir.v
FsServer.v
FsExec.v
FsRead.v
FsWrite.v
AmFd.v
AmPipe.v
AmApps.v
AmServer.v
AmExec.v
AmTypes.v
GuiGraphics.v
GuiLayer.v
GuiDraw.v
GuiActivate.v
GuiClient.v
GuiServer.v
GuiDrag.v
GuiInit.v
TextArea.v
Terminal.v
TerminalSafe.v
UsbMemory.v
UsbRing.v
BitField.v
UsbTrb.v
UsbDevice.v
UsbTransfer.v
UsbEnum.v
Keyboard.v
Xhci.v
XhciPorts.v
EventRing.v
SystemTask.v
Init.v
Supervisor.v
Launch.v
Pci.v
XhciStart.v
Acpi.v
Segment.v
Interrupt.v
Logging.v
Boot.v
KernelStart.v
Programs.v
Blocks.v
