(* ===== verification/Prelude.v ===== *)
(** * kinOS: a verification development

    kinOS is a small operating system for x86-64: a kernel written in C++ that
    manages memory, tasks, interrupts and system calls, and servers, programs
    in user mode, that provide the file system, the management of applications,
    the graphical interface, terminals and logging. Programs, servers and the
    kernel talk by messages in the mailboxes of tasks. This library
    models the core of the kernel and of its servers as functions translated
    from the source, and proves what they do.

    ** How the parts of the program interact

    A program is linked to [libs/kinos/common/newlib_support.c], which turns
    [open], [read] and [write] into messages to the application manager
    (servers/am). The manager keeps the table of applications and their file
    descriptors; for files it exchanges messages with the file system server
    (servers/fs), for keys and text with a terminal, and a pipe it keeps
    itself. The file system server reads and writes the FAT32 volume by sectors
    through the kernel (kernel/system.cpp), and copies the image of a program
    to be run into the buffer of a new task. The kernel's main task then loads
    the image (kernel/system.cpp, [LoadApp]) into an address space made of page
    tables (kernel/paging.cpp), whose frames come from the frame allocator
    (kernel/memory_manager.cpp). Tasks are run by level and in turn
    (kernel/task.cpp); a timer interrupt (kernel/timer.cpp) preempts them, and a
    page fault (kernel/paging.cpp) maps a page on demand or copies it on write.
    The GUI server (servers/gui) draws windows into shadow buffers and copies
    the visible parts to the frame buffer by system calls. The USB driver
    (kernel/usb) passes commands to the host controller through rings in memory.
    All of it is started by a boot loader under UEFI (kinLoaderPkg) that loads the
    kernel and hands it the map of the memory.

    ** The files

    - Prelude, Bytes: integers of a width, error codes, undefined behaviour,
      arrays, keyed lists, counting loops, blocks of memory.
    - Message (libs/common/message.hpp): messages; the argument union is its
      block of bytes, so that fields of different members overlap as in C++.
    - FrameBitmap (kernel/memory_manager.cpp): the bitmap of frames.
    - Task (kernel/task.cpp), Timer (kernel/timer.cpp): the scheduler, the
      mailboxes, the timers. A [Task*] is the identifier of the task.
    - Paging (kernel/paging.cpp): page tables in a physical memory of frames,
      over any allocator of the class [FrameAllocator], which FrameBitmap
      implements; IdentityMap the tables made at boot; PageFault, PageClean,
      PageCopy the proofs about page faults, the end and the sharing of an
      address space; Vm bytes of virtual memory.
    - KernelLog, ArgVector (kernel/system.cpp): the log ring and the volume
      image; the argument vector of a program.
    - Loader (kernel/system.cpp, elf.hpp): ELF images and the start of
      programs; LoadElf, LoadApp the proofs.
    - Syscall (kernel/syscall.cpp): the handlers of system calls.
    - Newlib (libs/kinos/common/newlib_support.c): the system layer of C
      programs, against a sequence of answers.
    - Fat (servers/fs/fs.cpp): the file system over any [BlockDevice]; FatChain,
      FatDir the proofs on cluster chains and on directories; FatSample a small
      volume.
    - FsServer (servers/fs/serverstate.cpp): the state machine of the file
      system server; FsExec, FsRead, FsWrite the proofs on its requests.
    - AmFd, AmApps, AmServer (servers/am/filedescriptor.cpp, appmanager.cpp,
      serverstate.cpp): descriptors, the application table, and the state
      machine of the application manager; AmPipe, AmExec, AmTypes the proofs.
    - GuiGraphics, GuiLayer (servers/gui/graphics.cpp, shadow_buffer.cpp,
      window.cpp, layer.cpp, font.cpp): pixels, shadow buffers, windows and the
      stack of layers; GuiDraw, GuiActivate the proofs.
    - GuiClient (libs/kinos/app/gui/guisyscall.cpp), GuiServer (servers/gui/gui.cpp,
      mouse.cpp, console.cpp): the window calls of programs, and the server with
      its messages, mouse and console; GuiDrag the proofs about dragging, GuiInit
      those about its start.
    - TextArea, Terminal (servers/terminal/terminal.cpp): a window of text, and the
      terminal; TerminalSafe its safety.
    - BitField: the bit fields of words shared with the hardware.
    - UsbMemory, UsbRing, UsbTrb (kernel/usb/memory.cpp, xhci/ring.cpp, trb.hpp):
      the memory pool of the USB driver, its rings against a controller of the
      class [Controller], the fields of the blocks.
    - UsbDevice (kernel/usb/device.cpp, xhci/device.cpp, classdriver/): a device,
      its control and interrupt transfers, its descriptors and its drivers;
      UsbTransfer, UsbEnum the proofs on transfers and on enumeration; Keyboard
      (kernel/keyboard.cpp, mouse.cpp) from the reports of a keyboard to the
      messages of the GUI server.
    - Xhci (kernel/usb/xhci/xhci.cpp, devmgr.cpp, port.cpp): the ports of the root
      hub and the events that drive them; XhciPorts the proofs. XhciStart
      (xhci.cpp, registers.cpp): the start of the controller, against what its
      registers answer. EventRing
      (xhci/ring.cpp, registers.hpp): the ring of events and the loop that handles
      them, against the stores of the controller.
    - SystemTask (kernel/main.cpp, system.cpp): the loop of the main task of the
      kernel, and the ends of the tasks it starts; Init (servers/init/init.cpp): the
      init server over a class of system calls; Supervisor the init server over
      the kernel and the system task; Launch the application manager, the file
      system server and the system task over one kernel, in any order of their turns.
    - Pci (kernel/pci.cpp): the scan of the buses and message signalled interrupts,
      over the configuration space. Acpi (kernel/acpi.cpp, timer.cpp): the tables,
      waiting by the timer, and the calibration of the local one. Segment
      (kernel/segment.cpp): the descriptor table and the task state. Interrupt
      (kernel/interrupt.cpp): the gates, and the ends of faults.
    - Logging (kernel/logger.cpp, system.cpp, libs/kinos/common/print.cpp,
      servers/log/log.cpp): printing, from programs to the window of the log server.
    - Boot (kinLoaderPkg/Main.c): the boot loader over the class [Firmware].
    - KernelStart (kernel/main.cpp): segments, page tables, frames, heap, stacks and
      gates, set up in the order of the code.

    - Programs (apps/rpn, sort, cat, cp, more, ls): programs over the C library and the
      application manager; Blocks (apps/blocks): a game over the window calls.

    Every definition that translates code says which lines it translates. The
    state of a part is a record with the members of its classes; an operation is
    a function from the state to the state and its result. Error results are
    values ([Code], [WithError]); undefined behaviour is [None], or [Undefined]
    in the monad [outcome] of routines that can also wait for a message for
    ever ([Waits]). A server is a function [turn] on a state with the messages
    still to come ([inbox]) and the trace of what it did ([out]).

    ** What the theorems show

    Where the code is right only under a condition that nothing enforces, the
    theorem has the condition as a hypothesis and its comment names it.

    Memory: allocation is first fit and freeing undoes it; the initial bitmap
    marks exactly the unavailable frames and the heap, from a map of the memory
    in order and below the end of the bitmap; mapping maps exactly the pages asked
    for; page faults of applications in their own half, copying and freeing address
    spaces keep every other page and all data, and memory is said to be short only
    when the allocator has no frame left; the boot tables map the first 64 GiB
    to themselves; loading a program puts its image into a new address space, when
    no segment reaches past the pages that are mapped for it.

    Tasks: the scheduler never reaches undefined behaviour from its initial
    state, whatever the calls of its callers, who keep a few rules; preemption is
    round robin; a message wakes its receiver, at the back of the queue of its level,
    and touches nothing else; a waiting task gets the exit code; due timers fire in
    order and the scheduler timer for ever.

    System calls and programs: a closed receive filters a mailbox by sender;
    [write] delivers a buffer once; [sbrk] never hands out memory twice; the
    argument vector is the words of the command line; the log is a queue.

    Files: allocation of clusters extends one chain and leaves the others;
    names and paths resolve as the directories list them; reading, writing and
    executing a file transfer its bytes and nothing else. A read from an offset that
    is not at the start of a cluster sends other bytes, which FsRead says exactly.

    Applications: starting a program, its errors, unknown descriptors, the end
    of an application, pipes as queues of bytes. On messages its clients may send the
    manager never does anything undefined and its tables stay well formed; it does
    not check that they may.

    Screen: moving a layer, which redraws two rectangles, shows the same pixels
    as redrawing everything; activating a window raises it below the cursor and
    leaves the screen complete; a window dragged by its title follows the mouse;
    the server starts without touching memory that is not its own.

    Terminal: whatever is typed, but a percent sign, and run, with outputs that fit
    a message, the terminal stays inside of its buffers, of which one is a message as
    a whole.

    USB: blocks of the pool do not overlap and keep their constraints; the
    controller reads the blocks of a ring complete, once and in order, however
    its reads interleave with the stores of the driver; one port at a time is on
    its way to its address and none that waits is forgotten; a control request is
    completed as it was made; a device with well-formed descriptors is
    enumerated; key presses reach the GUI server, each once and in order; events
    are handled each once and in order, however the controller stores them; the
    controller is told all it needs before it runs, and every wait for it ends.

    Start: on a firmware that keeps what UEFI documents (the record [documented] of
    Boot), the boot loader enters the kernel of the file, loaded, with the volume and
    the map of the memory the firmware left; the PCI scan ends and finds what
    answers; waiting by the ACPI timer is not too short, but for whole turns of
    the timer, nor too long; the kernel that is entered with a map in order and memory
    below 64 GiB has gates, segments, page tables, frames and stacks as the processor
    is to find them, before anything interrupts it.

    Programs: the calculator computes what its words say; text is sorted, shown, copied
    and paged without loss; a directory is listed as the manager answers; the game
    draws in its window and its ball stays there.

    Together: a program asked for is launched by the servers and the kernel in
    whatever order they run; a server that ends is started again from its file, by
    the init server, the system task and the task manager, but without its name,
    which the init server reads through a pointer after it has been overwritten; what
    programs print appears in the window of the log server, as long as it is short
    and has no percent sign.

    ** Fuel and bounds

    Loops that are not structural get fuel. Where the definition of an operation
    sets the fuel itself it is enough for every run: the length of the list the
    loop consumes plus one (messages of an inbox, entries of a table, characters
    of a string, timers of the queue, bits of the frame bitmap). The loops of
    Fat take a fuel as parameter, and the theorems ask for the number of clusters
    of the volume, which no chain and no search exceeds; those of Acpi and XhciStart
    wait for hardware, and the theorems give the fuel with which they return if the
    hardware answers as documented; the scan of Pci needs one more than the devices
    its array holds. That the loops return is part of each theorem: none says only
    what holds if a result comes. The boot loader, which may halt at any error of the
    firmware, is shown to do nothing undefined.
    Counters that the program lets wrap around are written with [u8] to [u64]
    and [s32]; theorems that need a counter not to wrap say so.

    ** What is not modelled

    Hardware is modelled by its documented effect only: what the reads of its
    registers answer and what is written to them. Assembly (context switch,
    [CallApp], the entry of interrupts) is left out, the frame buffer is the memory
    it is. The services of UEFI are an interface, and so are the registers of the
    USB controller; [None] or [Halted] stand for a kernel or loader that stops.
    Memory that the firmware keeps for itself is not part of the memory of Boot.
    [printf]-style formatting is the C library's, a parameter of Logging. Of apps/ the demonstrations that draw
    with floating point, [grep], which is [std::regex], and programs of a few calls are
    left out; tools/ holds headers of the cross compiler. Sums of [int]
    coordinates are taken not to overflow, which the program leaves undefined. *)

From stdpp Require Import base list numbers option gmap.
From Stdlib Require Import ZArith Lia.

Local Open Scope Z_scope.

(** ** Machine integers

    A value of a w-bit C type is a [Z]; the wrap-around of unsigned
    arithmetic is written out with these truncations. *)
Definition u8 (x : Z) : Z := x mod 2 ^ 8.
Definition u16 (x : Z) : Z := x mod 2 ^ 16.
Definition u32 (x : Z) : Z := x mod 2 ^ 32.
Definition u64 (x : Z) : Z := x mod 2 ^ 64.
(** Conversion to a signed 32-bit [int] (two's complement). *)
Definition s32 (x : Z) : Z := (x + 2 ^ 31) mod 2 ^ 32 - 2 ^ 31.

Lemma u64_small x : 0 <= x < 2 ^ 64 -> u64 x = x.
Proof. intros; unfold u64; by rewrite Z.mod_small. Qed.

Lemma u32_small x : 0 <= x < 2 ^ 32 -> u32 x = x.
Proof. intros; unfold u32; by rewrite Z.mod_small. Qed.

Lemma u16_small x : 0 <= x < 2 ^ 16 -> u16 x = x.
Proof. intros; unfold u16; by rewrite Z.mod_small. Qed.

Lemma u8_small x : 0 <= x < 2 ^ 8 -> u8 x = x.
Proof. intros; unfold u8; by rewrite Z.mod_small. Qed.

Lemma s32_small x : - 2 ^ 31 <= x < 2 ^ 31 -> s32 x = x.
Proof. intros; unfold s32; rewrite Z.mod_small; lia. Qed.

Lemma u64_range x : 0 <= u64 x < 2 ^ 64.
Proof. apply Z.mod_pos_bound; lia. Qed.

Lemma u32_range x : 0 <= u32 x < 2 ^ 32.
Proof. apply Z.mod_pos_bound; lia. Qed.

Lemma u8_range x : 0 <= u8 x < 2 ^ 8.
Proof. apply Z.mod_pos_bound; lia. Qed.

Lemma s32_range x : - 2 ^ 31 <= s32 x < 2 ^ 31.
Proof.
  unfold s32. pose proof (Z.mod_pos_bound (x + 2 ^ 31) (2 ^ 32)). lia.
Qed.

(** ** Error codes (kernel/error.hpp) *)

(** [src/kernel/error.hpp:8-39] [Error::Code] *)
Inductive Code : Type :=
| kSuccess | kFull | kEmpty | kNoEnoughMemory | kIndexOutOfRange
| kHostControllerNotHalted | kInvalidSlotID | kPortNotConnected
| kInvalidEndpointNumber | kTransferRingNotSet | kAlreadyAllocated
| kNotImplemented | kInvalidDescriptor | kBufferTooSmall | kUnknownDevice
| kNoCorrespondingSetupStage | kTransferFailed | kInvalidPhase
| kUnknownXHCISpeedID | kNoWaiter | kNoPCIMSI | kUnknownPixelFormat
| kNoSuchTask | kInvalidFormat | kFrameTooSmall | kInvalidFile
| kIsDirectory | kNoSuchEntry | kNotOSServerRunning | kLastOfCode.

#[export] Instance Code_eq_dec : EqDecision Code.
Proof. solve_decision. Defined.

(** [src/kernel/error.hpp:81-81] [Error::operator bool] *)
Definition is_error (c : Code) : bool := bool_decide (c ≠ kSuccess).

(** [src/kernel/error.hpp:99-103] [WithError] *)
Definition WithError (A : Type) : Type := (A * Code)%type.

Lemma is_error_false c : is_error c = false <-> c = kSuccess.
Proof. unfold is_error; rewrite bool_decide_eq_false; destruct (decide (c = kSuccess)); naive_solver. Qed.

(** ** Undefined behaviour

    A C++ expression whose behaviour is undefined (an index outside an
    array, a null dereference) is [None] in the option monad; a defined
    outcome, error results included, is [Some]. *)

(** A task that receives messages can also be left waiting for one that never
    comes: the outcome of a routine that blocks. *)
Inductive outcome (A : Type) : Type :=
| Ok (a : A)
| Waits
| Undefined.
Arguments Ok {A} a.
Arguments Waits {A}.
Arguments Undefined {A}.

#[export] Instance outcome_ret : MRet outcome := fun _ => Ok.
#[export] Instance outcome_bind : MBind outcome := fun _ _ f m =>
  match m with Ok a => f a | Waits => Waits | Undefined => Undefined end.

(** An expression that is undefined behaviour when the option is empty. *)
Definition defined {A} (o : option A) : outcome A :=
  match o with Some a => Ok a | None => Undefined end.

Lemma ok_bind {A B} (e : outcome A) (f : A -> outcome B) y : (a ← e; f a) = Ok y -> exists a, e = Ok a /\ f a = Ok y.
Proof. destruct e; [eauto|done..]. Qed.

(** The routine has no undefined behaviour, and [P] holds if it returns. *)
Definition safe {A} (P : A -> Prop) (o : outcome A) : Prop :=
  match o with Ok a => P a | Waits => True | Undefined => False end.

Lemma safe_bind {A B} (P : A -> Prop) (Q : B -> Prop) (o : outcome A) (f : A -> outcome B) :
  safe P o -> (forall a, P a -> safe Q (f a)) -> safe Q (a ← o; f a).
Proof. destruct o; simpl; auto. Qed.

Lemma safe_impl {A} (P Q : A -> Prop) (o : outcome A) : safe P o -> (forall a, P a -> Q a) -> safe Q o.
Proof. destruct o; simpl; auto. Qed.

Lemma safe_defined {A} (P : A -> Prop) (o : option A) x : o = Some x -> P x -> safe P (defined o).
Proof. by intros ->. Qed.

(** Read and write of an array by a [Z] index; [None] out of range. *)
Definition getZ {A} (l : list A) (i : Z) : option A :=
  if decide (0 <= i) then l !! Z.to_nat i else None.

Definition setZ {A} (l : list A) (i : Z) (x : A) : option (list A) :=
  if decide (0 <= i < Z.of_nat (length l))
  then Some (<[Z.to_nat i := x]> l) else None.

Section arrays.
Context {A : Type}.
Implicit Types (l : list A) (i j : Z) (x : A).

Lemma getZ_Some l i : 0 <= i < Z.of_nat (length l) -> is_Some (getZ l i).
Proof. intros ?; unfold getZ; case_decide as Hi; [apply lookup_lt_is_Some; lia | lia]. Qed.

Lemma getZ_inv l i x : getZ l i = Some x -> 0 <= i < Z.of_nat (length l).
Proof.
  unfold getZ; case_decide; [|done]. intros ?%lookup_lt_Some; lia.
Qed.

Lemma getZ_lookup l i x : getZ l i = Some x -> l !! Z.to_nat i = Some x.
Proof. unfold getZ; by case_decide. Qed.

Lemma setZ_Some l i x :
  0 <= i < Z.of_nat (length l) -> setZ l i x = Some (<[Z.to_nat i := x]> l).
Proof. intros; unfold setZ; by rewrite decide_True. Qed.

Lemma setZ_inv l i x l' :
  setZ l i x = Some l' ->
  0 <= i < Z.of_nat (length l) /\ l' = <[Z.to_nat i := x]> l.
Proof. unfold setZ; case_decide; naive_solver. Qed.

Lemma getZ_setZ l i j x l' :
  setZ l i x = Some l' ->
  getZ l' j = if decide (i = j) then Some x else getZ l j.
Proof.
  intros (? & ->)%setZ_inv. unfold getZ.
  repeat case_decide; subst; try done; try lia.
  - apply list_lookup_insert_eq; lia.
  - apply list_lookup_insert_ne; lia.
Qed.

Lemma length_setZ l i x l' : setZ l i x = Some l' -> length l' = length l.
Proof. intros (_ & ->)%setZ_inv; apply length_insert. Qed.
End arrays.

(** ** Lists searched by a key

    [std::find_if] over a vector of objects, comparing an identifier, and the
    update or erasure of the object found. *)
Section keyed.
Context {A : Type} (key : A -> Z).
Implicit Types (l : list A) (k : Z).

Definition find_key k l : option A := List.find (fun x => key x =? k) l.

Fixpoint alter_key k (f : A -> A) l : list A :=
  match l with
  | [] => []
  | x :: l' => if key x =? k then f x :: l' else x :: alter_key k f l'
  end.

Fixpoint erase_key k l : list A :=
  match l with
  | [] => []
  | x :: l' => if key x =? k then l' else x :: erase_key k l'
  end.

Lemma find_key_Some k l x : find_key k l = Some x -> x ∈ l /\ key x = k.
Proof. intros [? ?%Z.eqb_eq]%find_some. by rewrite list_elem_of_In. Qed.

Lemma find_key_None k l : find_key k l = None <-> k ∉ map key l.
Proof.
  unfold find_key. induction l as [|x l IH]; simpl; [split; [intros _ H; inversion H|done]|].
  rewrite elem_of_cons. destruct (Z.eqb_spec (key x) k); naive_solver.
Qed.

Lemma find_key_app k l x :
  find_key k (l ++ [x]) =
  match find_key k l with
  | Some y => Some y
  | None => if key x =? k then Some x else None
  end.
Proof.
  unfold find_key. induction l as [|y l IH]; simpl; [done|]. by destruct (key y =? k).
Qed.

Section alter.
Context (f : A -> A) (Hf : forall x, key (f x) = key x).

Lemma find_alter_key k k' l :
  find_key k' (alter_key k f l) =
  if decide (k' = k) then f <$> find_key k l else find_key k' l.
Proof.
  unfold find_key. induction l as [|x l IH]; simpl; [by case_decide|].
  destruct (Z.eqb_spec (key x) k) as [<-|]; simpl.
  - rewrite Hf. case_decide as H; [subst; by rewrite Z.eqb_refl|].
    by destruct (Z.eqb_spec (key x) k').
  - rewrite IH. destruct (Z.eqb_spec (key x) k'); case_decide; subst; done.
Qed.

Lemma map_key_alter k l : map key (alter_key k f l) = map key l.
Proof.
  induction l as [|x l IH]; simpl; [done|]. destruct (key x =? k); simpl; by rewrite ?Hf, ?IH.
Qed.
End alter.

Lemma find_erase_key k k' l :
  NoDup (map key l) ->
  find_key k' (erase_key k l) = if decide (k' = k) then None else find_key k' l.
Proof.
  unfold find_key. induction l as [|x l IH]; simpl; [by case_decide|].
  rewrite NoDup_cons. intros [Hx Hl]. destruct (Z.eqb_spec (key x) k) as [<-|]; simpl.
  - case_decide; subst; [by apply find_key_None|]. by destruct (Z.eqb_spec (key x) k').
  - rewrite IH by done. destruct (Z.eqb_spec (key x) k'); case_decide; subst; done.
Qed.

Lemma erase_key_sublist k l : erase_key k l `sublist_of` l.
Proof.
  induction l as [|x l IH]; simpl; [done|].
  destruct (key x =? k); [by apply sublist_cons|by apply sublist_skip].
Qed.
End keyed.

(** ** Counting loops *)

(** [k] turns of a counting loop from [i] on. *)
Fixpoint for_loop {S} (body : Z -> S -> option S) (k : nat) (i : Z) (s : S) : option S :=
  match k with
  | O => Some s
  | Datatypes.S k' => s' ← body i s; for_loop body k' (i + 1) s'
  end.

Lemma for_loop_ind {S} (body : Z -> S -> option S) (I : Z -> S -> Prop) k : forall i s,
  I i s -> (forall j s, i <= j < i + Z.of_nat k -> I j s -> exists s', body j s = Some s' /\ I (j + 1) s') ->
  exists s', for_loop body k i s = Some s' /\ I (i + Z.of_nat k) s'.
Proof.
  induction k as [|k IH]; intros i s Hi Hstep; cbn [for_loop].
  { exists s. split; [done|]. by rewrite Z.add_0_r. }
  destruct (Hstep i s) as (s1 & -> & H1); [lia|done|]. cbn [mbind option_bind].
  destruct (IH (i + 1) s1 H1) as (s2 & -> & H2).
  { intros j s' Hj. apply Hstep. lia. }
  exists s2. split; [done|]. by replace (i + Z.of_nat (Datatypes.S k)) with (i + 1 + Z.of_nat k) by lia.
Qed.

(** ** Bit lemmas *)

Lemma testbit_shiftl_1 b i :
  0 <= b -> Z.testbit (Z.shiftl 1 b) i = bool_decide (i = b).
Proof.
  intros. rewrite Z.shiftl_1_l, Z.pow2_bits_eqb by lia.
  rewrite bool_decide_decide. destruct (Z.eqb_spec b i); case_decide; lia.
Qed.

Lemma testbit_u64 x i : 0 <= i -> Z.testbit (u64 x) i = bool_decide (i < 64) && Z.testbit x i.
Proof.
  intros. unfold u64. rewrite Z.testbit_mod_pow2 by lia.
  f_equal. rewrite bool_decide_decide. case_decide; lia.
Qed.

Lemma land_bit_nonzero x b :
  0 <= b -> negb (Z.land x (Z.shiftl 1 b) =? 0) = Z.testbit x b.
Proof.
  intros. destruct (Z.testbit x b) eqn:E.
  - apply negb_true_iff, Z.eqb_neq. intros Hz.
    assert (Z.testbit (Z.land x (Z.shiftl 1 b)) b = false) as Hf
      by (by rewrite Hz, Z.bits_0).
    rewrite Z.land_spec, E, testbit_shiftl_1, bool_decide_true in Hf by lia. done.
  - apply negb_false_iff, Z.eqb_eq. apply Z.bits_inj_0. intros i.
    rewrite Z.land_spec. destruct (decide (i = b)) as [->|].
    + by rewrite E.
    + rewrite testbit_shiftl_1, bool_decide_false by lia. apply andb_false_r.
Qed.

Lemma testbit_high x w i : 0 <= x < 2 ^ w -> 0 <= w <= i -> Z.testbit x i = false.
Proof.
  intros. rewrite <- (Z.mod_small x (2 ^ w)) by done.
  apply Z.mod_pow2_bits_high; lia.
Qed.

Lemma bits_lt_pow2 x w :
  0 <= w -> 0 <= x -> (forall i, w <= i -> Z.testbit x i = false) -> x < 2 ^ w.
Proof.
  intros Hw Hx Hb.
  assert (x = x mod 2 ^ w) as ->.
  { apply Z.bits_inj'. intros i Hi. rewrite Z.testbit_mod_pow2 by lia.
    destruct (Z.ltb_spec i w); [done|]. by rewrite Hb. }
  apply Z.mod_pos_bound; lia.
Qed.

(** ** Tactics *)

(** Case analysis on every [decide], boolean comparison and option bind in
    the goal and hypotheses, closed by [lia] where possible. *)
Ltac zify_bools :=
  repeat match goal with
  | H : (_ =? _) = true |- _ => apply Z.eqb_eq in H
  | H : (_ =? _) = false |- _ => apply Z.eqb_neq in H
  | H : (_ <=? _) = true |- _ => apply Z.leb_le in H
  | H : (_ <=? _) = false |- _ => apply Z.leb_gt in H
  | H : (_ <? _) = true |- _ => apply Z.ltb_lt in H
  | H : (_ <? _) = false |- _ => apply Z.ltb_ge in H
  | H : _ && _ = true |- _ => apply andb_true_iff in H; destruct H
  | H : _ || _ = false |- _ => apply orb_false_iff in H; destruct H
  | H : negb _ = true |- _ => apply negb_true_iff in H
  | H : negb _ = false |- _ => apply negb_false_iff in H
  end.

(** Destruct the scrutinee of a monadic bind in hypothesis [H]. *)
Ltac bind_in H :=
  repeat match type of H with
  | (mbind _ ?e) = Some _ =>
      let E := fresh "E" in destruct e eqn:E; simpl in H; [|discriminate H]
  end.
