(* ===== verification/Bytes.v ===== *)
(** * Byte buffers

    Memory blocks as lists of bytes: sub-ranges, overwriting a sub-range
    ([memcpy] into a larger block), little-endian integers and C strings. *)

From S2P Require Import Prelude.
From stdpp Require Import base list numbers option.
From Stdlib Require Import ZArith Lia.

Local Open Scope Z_scope.

(** The [n] bytes of [l] from offset [off]. *)
Definition slice (l : list Z) (off n : nat) : list Z := take n (drop off l).

(** [l] with [s] written at offset [off]; writing past the end of the block is
    undefined behaviour. *)
Definition splice (l : list Z) (off : nat) (s : list Z) : list Z :=
  take off l ++ s ++ drop (off + length s) l.

Definition write_at (l : list Z) (off : nat) (s : list Z) : option (list Z) :=
  if decide (off + length s <= length l)%nat then Some (splice l off s) else None.

Definition read_at (l : list Z) (off n : nat) : option (list Z) :=
  if decide (off + n <= length l)%nat then Some (slice l off n) else None.

(** A byte value, and a block of them. *)
Definition is_byte (b : Z) : Prop := 0 <= b < 256.
Definition bytes (l : list Z) : Prop := Forall is_byte l.

Create HintDb bytes.

Lemma length_slice l off n :
  (off + n <= length l)%nat -> length (slice l off n) = n.
Proof. intros. unfold slice. rewrite length_take, length_drop. lia. Qed.

Lemma length_splice l off s :
  (off + length s <= length l)%nat -> length (splice l off s) = length l.
Proof. intros. unfold splice. rewrite !length_app, length_take, length_drop. lia. Qed.

Lemma lookup_slice l off n i :
  slice l off n !! i = if decide (i < n)%nat then l !! (off + i)%nat else None.
Proof.
  unfold slice. case_decide.
  - by rewrite lookup_take_lt, lookup_drop by lia.
  - by rewrite lookup_take_ge by lia.
Qed.

Lemma lookup_splice l off s i :
  (off + length s <= length l)%nat ->
  splice l off s !! i =
    if decide (off <= i < off + length s)%nat then s !! (i - off)%nat else l !! i.
Proof.
  intros Hlen. unfold splice.
  assert (length (take off l) = off) as Ht by (rewrite length_take; lia).
  destruct (decide (i < off)%nat).
  - rewrite lookup_app_l, lookup_take_lt, decide_False by lia. done.
  - rewrite lookup_app_r, Ht by lia. case_decide.
    + by rewrite lookup_app_l by lia.
    + rewrite lookup_app_r, lookup_drop by lia. f_equal. lia.
Qed.

Lemma slice_splice_same l off s :
  (off + length s <= length l)%nat -> slice (splice l off s) off (length s) = s.
Proof.
  intros. apply list_eq. intros i. rewrite lookup_slice. case_decide.
  - rewrite lookup_splice, decide_True by lia. f_equal. lia.
  - symmetry. apply lookup_ge_None. lia.
Qed.

Lemma slice_splice_disjoint l off s o n :
  (off + length s <= length l)%nat ->
  (o + n <= off \/ off + length s <= o)%nat ->
  slice (splice l off s) o n = slice l o n.
Proof.
  intros. apply list_eq. intros i. rewrite !lookup_slice. case_decide; [|done].
  rewrite lookup_splice, decide_False by lia. done.
Qed.

Lemma splice_slice_id l off n :
  (off + n <= length l)%nat -> splice l off (slice l off n) = l.
Proof.
  intros. apply list_eq. intros i.
  rewrite lookup_splice by (rewrite length_slice; lia). rewrite length_slice by lia.
  case_decide; [|done]. rewrite lookup_slice, decide_True by lia. f_equal. lia.
Qed.

Lemma splice_splice l off s s' :
  length s = length s' -> (off + length s <= length l)%nat ->
  splice (splice l off s) off s' = splice l off s'.
Proof.
  intros. apply list_eq. intros i.
  rewrite !lookup_splice by (rewrite ?length_splice; lia).
  repeat case_decide; (done || lia).
Qed.

Lemma slice_split l off m n :
  (m <= n)%nat -> slice l off n = slice l off m ++ slice l (off + m) (n - m).
Proof. intros. unfold slice. by rewrite <- drop_drop, take_take_drop, Nat.add_sub_assoc, Nat.add_comm, Nat.add_sub by lia. Qed.

Lemma write_at_Some l off s :
  (off + length s <= length l)%nat -> write_at l off s = Some (splice l off s).
Proof. intros. unfold write_at. by rewrite decide_True. Qed.

Lemma read_at_Some l off n :
  (off + n <= length l)%nat -> read_at l off n = Some (slice l off n).
Proof. intros. unfold read_at. by rewrite decide_True. Qed.

Lemma write_at_inv l off s l' :
  write_at l off s = Some l' ->
  (off + length s <= length l)%nat /\ l' = splice l off s.
Proof. unfold write_at. case_decide; naive_solver. Qed.

Lemma read_at_inv l off n s :
  read_at l off n = Some s -> (off + n <= length l)%nat /\ s = slice l off n.
Proof. unfold read_at. case_decide; naive_solver. Qed.

Lemma bytes_slice l off n : bytes l -> bytes (slice l off n).
Proof. intros. unfold slice, bytes. by apply Forall_take, Forall_drop. Qed.

Lemma bytes_splice l off s : bytes l -> bytes s -> bytes (splice l off s).
Proof.
  intros. unfold splice, bytes. rewrite !Forall_app.
  split_and!; [by apply Forall_take|done|by apply Forall_drop].
Qed.

#[export] Hint Resolve bytes_slice bytes_splice : bytes.

(** ** Little-endian integers *)

Fixpoint le_bytes (n : nat) (x : Z) : list Z :=
  match n with
  | O => []
  | S n' => x mod 256 :: le_bytes n' (x / 256)
  end.

Fixpoint le_num (l : list Z) : Z :=
  match l with
  | [] => 0
  | b :: l' => b + 256 * le_num l'
  end.

Lemma length_le_bytes n x : length (le_bytes n x) = n.
Proof. revert x; induction n; intros; simpl; [done|by rewrite IHn]. Qed.

Lemma bytes_le_bytes n x : bytes (le_bytes n x).
Proof.
  revert x; induction n; intros; simpl; constructor; [|apply IHn].
  unfold is_byte. apply Z.mod_pos_bound; lia.
Qed.

Lemma le_num_range l : bytes l -> 0 <= le_num l < 256 ^ Z.of_nat (length l).
Proof.
  induction 1 as [|b l Hb _ IH]; cbn [le_num length]; [lia|].
  rewrite Nat2Z.inj_succ, Z.pow_succ_r by lia. unfold is_byte in Hb. lia.
Qed.

Lemma le_num_le_bytes n x : le_num (le_bytes n x) = x mod 256 ^ Z.of_nat n.
Proof.
  revert x; induction n as [|n IH]; intros x; cbn [le_num le_bytes].
  - by rewrite Z.mod_1_r.
  - rewrite IH, Nat2Z.inj_succ, Z.pow_succ_r by lia.
    rewrite Z.rem_mul_r by lia. done.
Qed.

Lemma le_bytes_le_num l : bytes l -> le_bytes (length l) (le_num l) = l.
Proof.
  induction 1 as [|b l Hb Hl IH]; cbn [le_num le_bytes length]; [done|].
  unfold is_byte in Hb.
  rewrite (Z.mul_comm 256), Z.mod_add, Z.mod_small, Z.div_add by lia.
  rewrite Z.div_small, Z.add_0_l by lia. by rewrite IH.
Qed.

(** Fixed-width fields of a block. *)
Definition get_le (n : nat) (l : list Z) (off : nat) : Z := le_num (slice l off n).
Definition set_le (n : nat) (l : list Z) (off : nat) (x : Z) : list Z :=
  splice l off (le_bytes n x).

Lemma length_set_le n l off x :
  (off + n <= length l)%nat -> length (set_le n l off x) = length l.
Proof. intros. apply length_splice. rewrite length_le_bytes. lia. Qed.

Lemma get_set_le n l off x :
  (off + n <= length l)%nat -> get_le n (set_le n l off x) off = x mod 256 ^ Z.of_nat n.
Proof.
  intros. unfold get_le, set_le.
  pose proof (slice_splice_same l off (le_bytes n x)) as Hs.
  rewrite length_le_bytes in Hs. rewrite Hs by done. apply le_num_le_bytes.
Qed.

Lemma get_set_le_ne n m l off o x :
  (off + n <= length l)%nat -> (o + m <= off \/ off + n <= o)%nat ->
  get_le m (set_le n l off x) o = get_le m l o.
Proof.
  intros. unfold get_le, set_le.
  rewrite slice_splice_disjoint; rewrite ?length_le_bytes; done.
Qed.

Lemma slice_set_le_ne n m l off o x :
  (off + n <= length l)%nat -> (o + m <= off \/ off + n <= o)%nat ->
  slice (set_le n l off x) o m = slice l o m.
Proof.
  intros. unfold set_le. rewrite slice_splice_disjoint; rewrite ?length_le_bytes; done.
Qed.

Lemma bytes_set_le n l off x : bytes l -> bytes (set_le n l off x).
Proof. intros. apply bytes_splice; [done|apply bytes_le_bytes]. Qed.

Lemma get_le_range n l off :
  bytes l -> (off + n <= length l)%nat -> 0 <= get_le n l off < 256 ^ Z.of_nat n.
Proof.
  intros Hl Hn. pose proof (le_num_range (slice l off n)) as H.
  rewrite length_slice in H by done. apply H. by apply bytes_slice.
Qed.

#[export] Hint Resolve bytes_le_bytes bytes_set_le : bytes.

(** ** C strings *)

(** The characters before the first NUL; [None] when the block holds none,
    where a [str...] function would read past it. *)
Fixpoint c_str (l : list Z) : option (list Z) :=
  match l with
  | [] => None
  | c :: l' => if decide (c = 0) then Some [] else cons c <$> c_str l'
  end.

(** [strlen] + 1 bytes of a string with its terminator. *)
Definition c_chars (s : list Z) : list Z := s ++ [0].

(** Characters of a C string: no NUL inside. *)
Definition no_nul (s : list Z) : Prop := Forall (fun c => c <> 0) s.

(** [strcpy(dst + off, src)] into the block [dst]. *)
Definition strcpy (dst : list Z) (off : nat) (s : list Z) : option (list Z) :=
  write_at dst off (c_chars s).

Lemma c_str_chars s rest : no_nul s -> c_str (c_chars s ++ rest) = Some s.
Proof.
  induction 1 as [|c s Hc _ IH]; cbn; [done|].
  rewrite decide_False by done. unfold c_chars in IH. by rewrite IH.
Qed.

Lemma c_str_no_nul l s : c_str l = Some s -> no_nul s.
Proof.
  revert s; induction l as [|c l IH]; intros s; simpl; [done|].
  case_decide; [intros [= <-]; constructor|].
  destruct (c_str l) as [s'|]; simpl; [|done]. intros [= <-]. constructor; [done|].
  by apply IH.
Qed.

Lemma c_str_split l s :
  c_str l = Some s -> exists rest, l = c_chars s ++ rest.
Proof.
  revert s; induction l as [|c l IH]; intros s; simpl; [done|].
  case_decide as Hc; [intros [= <-]; exists l; by rewrite Hc|].
  destruct (c_str l) as [s'|]; simpl; [|done]. intros [= <-].
  destruct (IH s' eq_refl) as [rest ->]. by exists rest.
Qed.

Lemma length_c_chars s : length (c_chars s) = S (length s).
Proof. unfold c_chars. rewrite length_app. simpl. lia. Qed.

(** A string copied into a block is read back. *)
Lemma c_str_strcpy dst off s dst' :
  no_nul s -> strcpy dst off s = Some dst' ->
  c_str (drop off dst') = Some s /\ length dst' = length dst.
Proof.
  intros Hs [Hlen ->]%write_at_inv. split; [|by apply length_splice].
  unfold splice. rewrite drop_app_length' by (rewrite length_take; lia).
  by apply c_str_chars.
Qed.
