(* ===== verification/Message.v ===== *)
(** * Messages (libs/common/message.hpp)

    The inter-task message: its type, its sender and the argument union. The
    union is the block of bytes the C++ compiler lays out, so that a field
    written through one member and read through another (which the servers do)
    means here what it means there. Offsets are those of the x86-64 ABI. *)

From S2P Require Import Prelude Bytes.
From stdpp Require Import base list numbers option.
From Stdlib Require Import ZArith Lia.

Local Open Scope Z_scope.

(** [src/libs/common/message.hpp:7-54] [Message::Type] *)
Inductive MsgType : Type :=
| kError | kReady | kReceived
| kInterruptXHCI | kTimerTimeout | kLayer | kLayerFinish | kWindowActive | kPipe
| kExpandTaskBuffer | kStartServer | kStartApp | kExitServer | kExitApp
| kMouseMove | kKeyPush | kOpenWindow | kLayerId | kWinFillRectangle
| kWinWriteChar | kWinRedraw | kQuit | kCloseWindow | kMouseButton
| kWinDrawLine | kWinMoveRec | kWrite | kOpen | kOpenDir | kRead | kCreateTask
| kExecuteFile | kRedirect | kWaitingKey.

#[export] Instance MsgType_eq_dec : EqDecision MsgType.
Proof. solve_decision. Defined.

(** [src/libs/common/message.hpp:6-205] [Message] *)
Record Message := MkMessage {
  type : MsgType;
  src_task : Z;
  arg : list Z;
}.

#[export] Instance Message_eq_dec : EqDecision Message.
Proof. solve_decision. Defined.

(** [sizeof(Message::arg)]: the largest member is [executefile]. *)
Definition arg_size : nat := 88.

Definition message_ok (m : Message) : Prop :=
  length (arg m) = arg_size /\ bytes (arg m).

(** [Message m{t}]: value-initialised. *)
Definition zero_message (t : MsgType) : Message := MkMessage t 0 (replicate arg_size 0).

(** A scalar field of the union: byte offset and width. *)
Record field := Field { f_off : nat; f_width : nat }.

Definition getU (f : field) (m : Message) : Z := get_le (f_width f) (arg m) (f_off f).
(** An [int] field read as a signed value. *)
Definition getI (f : field) (m : Message) : Z := s32 (getU f m).
Definition setF (f : field) (x : Z) (m : Message) : Message :=
  MkMessage (type m) (src_task m) (set_le (f_width f) (arg m) (f_off f) x).

Definition set_type (t : MsgType) (m : Message) : Message := MkMessage t (src_task m) (arg m).
Definition set_src (s : Z) (m : Message) : Message := MkMessage (type m) s (arg m).
Definition set_arg (a : list Z) (m : Message) : Message := MkMessage (type m) (src_task m) a.

(** The bytes of a [char] array member, and the string it holds. *)
Definition getB (off n : nat) (m : Message) : list Z := slice (arg m) off n.
Definition getS (off : nat) (m : Message) : option (list Z) := c_str (drop off (arg m)).
Definition putB (off : nat) (s : list Z) (m : Message) : option Message :=
  a ← write_at (arg m) off s; Some (set_arg a m).
Definition putS (off : nat) (s : list Z) (m : Message) : option Message :=
  putB off (c_chars s) m.

(** [src/libs/common/message.hpp:59-62] [arg.error] *)
Definition error_retry : field := Field 0 4.
Definition error_err : field := Field 4 4.
(** [src/libs/common/message.hpp:64-67] [arg.timer] *)
Definition timer_timeout : field := Field 0 8.
Definition timer_value : field := Field 8 4.
(** [src/libs/common/message.hpp:69-74] [arg.keyboard] *)
Definition keyboard_modifier : field := Field 0 1.
Definition keyboard_keycode : field := Field 1 1.
Definition keyboard_ascii : field := Field 2 1.
Definition keyboard_press : field := Field 4 4.
(** [src/libs/common/message.hpp:76-80] [arg.mouse_move] *)
Definition mouse_move_x : field := Field 0 4.
Definition mouse_move_y : field := Field 4 4.
Definition mouse_move_dx : field := Field 8 4.
Definition mouse_move_dy : field := Field 12 4.
Definition mouse_move_buttons : field := Field 16 1.
(** [src/libs/common/message.hpp:82-86] [arg.mouse_button] *)
Definition mouse_button_x : field := Field 0 4.
Definition mouse_button_y : field := Field 4 4.
Definition mouse_button_press : field := Field 8 4.
Definition mouse_button_button : field := Field 12 4.
(** [src/libs/common/message.hpp:101-103] [arg.starttask] *)
Definition starttask_id : field := Field 0 8.
(** [src/libs/common/message.hpp:105-108] [arg.expand] *)
Definition expand_id : field := Field 0 8.
Definition expand_bytes : field := Field 8 4.
(** [src/libs/common/message.hpp:110-113] [arg.exitapp] *)
Definition exitapp_id : field := Field 0 8.
Definition exitapp_result : field := Field 8 8.
(** [src/libs/common/message.hpp:115-117] [arg.exitserver] *)
Definition exitserver_name : nat := 0.
(** [src/libs/common/message.hpp:119-125] [arg.open] *)
Definition open_filename : nat := 0.
Definition open_flags : field := Field 32 4.
Definition open_exist : field := Field 36 4.
Definition open_isdirectory : field := Field 40 4.
Definition open_fd : field := Field 44 4.
(** [src/libs/common/message.hpp:127-132] [arg.opendir] *)
Definition opendir_dirname : nat := 0.
Definition opendir_exist : field := Field 32 4.
Definition opendir_isdirectory : field := Field 36 4.
Definition opendir_fd : field := Field 40 4.
(** [src/libs/common/message.hpp:134-142] [arg.read] *)
Definition read_filename : nat := 0.
Definition read_fd : field := Field 32 4.
Definition read_data : nat := 36.
Definition read_len : field := Field 52 1.
Definition read_count : field := Field 56 4.
Definition read_offset : field := Field 60 4.
Definition read_cluster : field := Field 64 4.
(** [src/libs/common/message.hpp:144-152] [arg.write] *)
Definition write_filename : nat := 0.
Definition write_fd : field := Field 32 4.
Definition write_data : nat := 36.
Definition write_len : field := Field 52 1.
Definition write_count : field := Field 56 4.
Definition write_offset : field := Field 60 4.
(** [sizeof(arg.read.data)] and [sizeof(arg.write.data)]. *)
Definition data_size : nat := 16.
(** [src/libs/common/message.hpp:154-157] [arg.openwindow] *)
Definition openwindow_w : field := Field 0 4.
Definition openwindow_h : field := Field 4 4.
Definition openwindow_x : field := Field 8 4.
Definition openwindow_y : field := Field 12 4.
Definition openwindow_title : nat := 16.
(** [src/libs/common/message.hpp:159-161] [arg.layerid] *)
Definition layerid_layerid : field := Field 0 4.
(** [src/libs/common/message.hpp:163-167] [arg.winfillrectangle] *)
Definition winfillrectangle_layer_id : field := Field 0 4.
Definition winfillrectangle_x : field := Field 4 4.
Definition winfillrectangle_y : field := Field 8 4.
Definition winfillrectangle_w : field := Field 12 4.
Definition winfillrectangle_h : field := Field 16 4.
Definition winfillrectangle_draw : field := Field 20 4.
Definition winfillrectangle_color : field := Field 24 4.
(** [src/libs/common/message.hpp:169-174] [arg.winwritechar] *)
Definition winwritechar_layer_id : field := Field 0 4.
Definition winwritechar_x : field := Field 4 4.
Definition winwritechar_y : field := Field 8 4.
Definition winwritechar_draw : field := Field 12 4.
Definition winwritechar_color : field := Field 16 4.
Definition winwritechar_c : field := Field 20 1.
(** [src/libs/common/message.hpp:176-180] [arg.windrawline] *)
Definition windrawline_layer_id : field := Field 0 4.
Definition windrawline_x0 : field := Field 4 4.
Definition windrawline_y0 : field := Field 8 4.
Definition windrawline_x1 : field := Field 12 4.
Definition windrawline_y1 : field := Field 16 4.
Definition windrawline_draw : field := Field 20 4.
Definition windrawline_color : field := Field 24 4.
(** [src/libs/common/message.hpp:182-185] [arg.winmoverec] *)
Definition winmoverec_layer_id : field := Field 0 4.
Definition winmoverec_x0 : field := Field 4 4.
Definition winmoverec_y0 : field := Field 8 4.
Definition winmoverec_rx0 : field := Field 12 4.
Definition winmoverec_ry0 : field := Field 16 4.
Definition winmoverec_rx1 : field := Field 20 4.
Definition winmoverec_ry1 : field := Field 24 4.
Definition winmoverec_draw : field := Field 28 4.
(** [src/libs/common/message.hpp:187-195] [arg.executefile] *)
Definition executefile_filename : nat := 0.
Definition executefile_arg : nat := 32.
Definition executefile_redirect : field := Field 64 4.
Definition executefile_pipe : field := Field 68 4.
Definition executefile_id : field := Field 72 8.
Definition executefile_exist : field := Field 80 4.
Definition executefile_isdirectory : field := Field 84 4.
(** [src/libs/common/message.hpp:197-199] [arg.redirect] *)
Definition redirect_filename : nat := 0.

(** ** Field laws *)

(** The field lies inside the union. *)
Definition field_ok (f : field) : bool := bool_decide (f_off f + f_width f <= arg_size)%nat.

(** Two fields do not share a byte. *)
Definition fields_apart (f g : field) : bool :=
  bool_decide (f_off f + f_width f <= f_off g \/ f_off g + f_width g <= f_off f)%nat.

Lemma getU_setF f x m :
  message_ok m -> field_ok f = true ->
  getU f (setF f x m) = x mod 256 ^ Z.of_nat (f_width f).
Proof.
  intros [Hlen _] Hf%bool_decide_eq_true. unfold getU, setF; simpl.
  apply get_set_le. lia.
Qed.

Lemma getU_setF_ne f g x m :
  message_ok m -> field_ok f = true -> fields_apart f g = true ->
  getU g (setF f x m) = getU g m.
Proof.
  intros [Hlen _] Hf%bool_decide_eq_true Ha%bool_decide_eq_true.
  unfold getU, setF; simpl. apply get_set_le_ne; lia.
Qed.

Lemma message_ok_setF f x m : message_ok m -> field_ok f = true -> message_ok (setF f x m).
Proof.
  intros [Hlen Hb] Hf%bool_decide_eq_true. split; simpl.
  - rewrite length_set_le; lia.
  - auto with bytes.
Qed.

Lemma message_ok_set_type t m : message_ok m -> message_ok (set_type t m).
Proof. done. Qed.

Lemma message_ok_set_src s m : message_ok m -> message_ok (set_src s m).
Proof. done. Qed.

Lemma zero_message_ok t : message_ok (zero_message t).
Proof. split; [done|]. apply Forall_replicate. unfold is_byte. lia. Qed.

Lemma getU_range f m :
  message_ok m -> field_ok f = true -> 0 <= getU f m < 256 ^ Z.of_nat (f_width f).
Proof. intros [Hlen Hb] Hf%bool_decide_eq_true. apply get_le_range; [done|lia]. Qed.

#[export] Hint Resolve message_ok_setF message_ok_set_type message_ok_set_src
  zero_message_ok : bytes.

(** ** Strings in the union *)

Lemma getS_bytes off m s : message_ok m -> getS off m = Some s -> no_nul s /\ bytes s.
Proof.
  intros [_ Hb] Hs. split; [by eapply c_str_no_nul|].
  destruct (c_str_split _ _ Hs) as [rest Hd].
  assert (bytes (drop off (arg m))) as Hbd by by apply Forall_drop.
  rewrite Hd in Hbd. unfold bytes, c_chars in Hbd. rewrite !list.Forall_app in Hbd. tauto.
Qed.

(** A string written into the union is read back; the rest of the message stays. *)
Lemma putS_spec off s m :
  message_ok m -> no_nul s -> bytes s -> (off + length s < arg_size)%nat ->
  exists m', putS off s m = Some m' /\ message_ok m' /\ getS off m' = Some s /\
    type m' = type m /\ src_task m' = src_task m.
Proof.
  intros [Hlen Hb] Hs Hsb Hfit. unfold putS, putB.
  destruct (strcpy (arg m) off s) as [a|] eqn:E; unfold strcpy in E.
  - rewrite E. cbn [mbind option_bind]. eexists; split; [reflexivity|].
    destruct (c_str_strcpy _ _ _ _ Hs E) as [Hr Hl]. split_and!; try done.
    split; cbn [arg set_arg]; [by rewrite Hl|]. apply write_at_inv in E. destruct E as [_ ->].
    apply bytes_splice; [done|]. apply list.Forall_app. split; [done|]. constructor; [|constructor].
    unfold is_byte. lia.
  - exfalso. revert E. rewrite write_at_Some; [done|]. rewrite length_c_chars. lia.
Qed.

Lemma c_str_prefix l l' s :
  c_str l = Some s -> take (S (length s)) l' = take (S (length s)) l -> c_str l' = Some s.
Proof.
  intros Hs Ht. destruct (c_str_split _ _ Hs) as [rest ->].
  rewrite take_app_length' in Ht by (by rewrite length_c_chars).
  rewrite <- (take_drop (S (length s)) l'), Ht. apply c_str_chars. by eapply c_str_no_nul.
Qed.

(** Fields behind a string do not change it. *)
Lemma getS_setF off f x m s :
  message_ok m -> field_ok f = true -> getS off m = Some s -> (off + length s < f_off f)%nat ->
  getS off (setF f x m) = Some s.
Proof.
  intros [Hlen _] Hf%bool_decide_eq_true Hs Hoff. unfold getS, setF; cbn [arg].
  eapply c_str_prefix; [exact Hs|].
  pose proof (slice_set_le_ne (f_width f) (S (length s)) (arg m) (f_off f) off x) as H.
  unfold slice in H. apply H; lia.
Qed.
