(* ===== verification/FrameBitmap.v ===== *)
(** * Physical frame allocator (kernel/memory_manager.cpp)

    The bitmap allocator, its first-fit search, and the construction of the
    initial bitmap from the UEFI memory map. *)

From S2P Require Import Prelude.
From stdpp Require Import base list numbers option.
From Stdlib Require Import ZArith Lia.

Local Open Scope Z_scope.

(** [src/kernel/memory_manager.hpp:23-23] [kBytesPerFrame] *)
Definition kBytesPerFrame : Z := 4096.
(** [src/kernel/memory_manager.hpp:46-47] [BitmapMemoryManager::kFrameCount] *)
Definition kFrameCount : Z := 128 * 1024 * 1024 * 1024 / kBytesPerFrame.
(** [src/kernel/memory_manager.hpp:49-50] [BitmapMemoryManager::kBitsPerMapLine] *)
Definition kBitsPerMapLine : Z := 8 * 8.
(** [src/kernel/memory_manager.hpp:37-37] [kNullFrame] *)
Definition kNullFrame : Z := 2 ^ 64 - 1.

(** A [FrameID] is its number.
    [src/kernel/memory_manager.hpp:44-69] [BitmapMemoryManager] *)
Record BitmapMemoryManager := MkManager {
  alloc_map : list Z;
  range_begin : Z;
  range_end : Z;
}.

(** [src/kernel/memory_manager.cpp:7-10] [BitmapMemoryManager::BitmapMemoryManager] *)
Definition NewManager : BitmapMemoryManager :=
  MkManager (replicate (Z.to_nat (kFrameCount / kBitsPerMapLine)) 0) 0 kFrameCount.

(** [src/kernel/memory_manager.cpp:64-70] [BitmapMemoryManager::GetBit] *)
Definition GetBit (m : BitmapMemoryManager) (frame : Z) : option bool :=
  let line_index := frame / kBitsPerMapLine in
  let bit_index := frame mod kBitsPerMapLine in
  line ← getZ (alloc_map m) line_index;
  Some (negb (Z.land line (Z.shiftl 1 bit_index) =? 0)).

(** [src/kernel/memory_manager.cpp:72-81] [BitmapMemoryManager::SetBit] *)
Definition SetBit (m : BitmapMemoryManager) (frame : Z) (allocated : bool) :
    option BitmapMemoryManager :=
  let line_index := frame / kBitsPerMapLine in
  let bit_index := frame mod kBitsPerMapLine in
  line ← getZ (alloc_map m) line_index;
  map' ← setZ (alloc_map m) line_index
    (if allocated then Z.lor line (Z.shiftl 1 bit_index)
     else Z.land line (u64 (Z.lnot (Z.shiftl 1 bit_index))));
  Some (MkManager map' (range_begin m) (range_end m)).

(** The loop shared by [Free] and [MarkAllocated]:
    [for (i = 0; i < num_frames; ++i) SetBit(start + i, allocated)]. *)
Fixpoint SetBits (m : BitmapMemoryManager) (start : Z) (k : nat) (allocated : bool) :
    option BitmapMemoryManager :=
  match k with
  | O => Some m
  | S k' => m' ← SetBit m start allocated; SetBits m' (start + 1) k' allocated
  end.

(** [src/kernel/memory_manager.cpp:35-40] [BitmapMemoryManager::Free] *)
Definition Free (m : BitmapMemoryManager) (start_frame num_frames : Z) :
    option (BitmapMemoryManager * Code) :=
  m' ← SetBits m start_frame (Z.to_nat num_frames) false; Some (m', kSuccess).

(** [src/kernel/memory_manager.cpp:42-47] [BitmapMemoryManager::MarkAllocated] *)
Definition MarkAllocated (m : BitmapMemoryManager) (start_frame num_frames : Z) :
    option BitmapMemoryManager :=
  SetBits m start_frame (Z.to_nat num_frames) true.

(** [src/kernel/memory_manager.cpp:49-53] [BitmapMemoryManager::SetMemoryRange] *)
Definition SetMemoryRange (m : BitmapMemoryManager) (rb re : Z) : BitmapMemoryManager :=
  MkManager (alloc_map m) rb re.

(** How the inner [for] loop of [Allocate] ends: past the managed range, at
    an allocated frame (offset [i]), or with [num_frames] free frames. *)
Inductive scan_result := ScanEnd | ScanHit (i : Z) | ScanClear.

(** [k] is [num_frames - i].
    [src/kernel/memory_manager.cpp:15-23] [BitmapMemoryManager::Allocate] *)
Fixpoint scan (m : BitmapMemoryManager) (start i : Z) (k : nat) : option scan_result :=
  match k with
  | O => Some ScanClear
  | S k' =>
      if decide (range_end m <= start + i) then Some ScanEnd
      else b ← GetBit m (start + i);
           if (b : bool) then Some (ScanHit i) else scan m start (i + 1) k'
  end.

(** [src/kernel/memory_manager.cpp:14-32] [BitmapMemoryManager::Allocate] *)
Fixpoint Allocate_loop (fuel : nat) (m : BitmapMemoryManager) (start num_frames : Z) :
    option (BitmapMemoryManager * WithError Z) :=
  match fuel with
  | O => None
  | S fuel' =>
      r ← scan m start 0 (Z.to_nat num_frames);
      match r with
      | ScanEnd => Some (m, (kNullFrame, kNoEnoughMemory))
      | ScanClear =>
          m' ← MarkAllocated m start num_frames; Some (m', (start, kSuccess))
      | ScanHit i => Allocate_loop fuel' m (start + (i + 1)) num_frames
      end
  end.

(** Every iteration that does not return moves [start] past an allocated
    frame below [range_end], so this fuel is never exhausted.
    [src/kernel/memory_manager.cpp:12-33] [BitmapMemoryManager::Allocate] *)
Definition Allocate (m : BitmapMemoryManager) (num_frames : Z) :
    option (BitmapMemoryManager * WithError Z) :=
  Allocate_loop (S (Z.to_nat (range_end m - range_begin m))) m (range_begin m) num_frames.

(** ** Abstract view: the set of allocated frames *)

(** Whether frame [f] is marked in the bitmap. *)
Definition allocated (m : BitmapMemoryManager) (f : Z) : bool :=
  match getZ (alloc_map m) (f / kBitsPerMapLine) with
  | Some line => Z.testbit line (f mod kBitsPerMapLine)
  | None => false
  end.

(** The type invariant: a [std::array] of [kFrameCount / 64] 64-bit lines and
    a managed range inside it. *)
Record manager_ok (m : BitmapMemoryManager) : Prop := {
  ok_length : Z.of_nat (length (alloc_map m)) = kFrameCount / kBitsPerMapLine;
  ok_lines : Forall (fun l => 0 <= l < 2 ^ 64) (alloc_map m);
  ok_begin : 0 <= range_begin m;
  ok_end : range_end m <= kFrameCount;
}.

(** [m'] differs from [m] only in that the frames [s .. s+n) are now [b]. *)
Record frames_set (m m' : BitmapMemoryManager) (s n : Z) (b : bool) : Prop := {
  fs_ok : manager_ok m';
  fs_begin : range_begin m' = range_begin m;
  fs_end : range_end m' = range_end m;
  fs_bits : forall g, 0 <= g ->
    allocated m' g = if decide (s <= g < s + n) then b else allocated m g;
}.

Create HintDb frames.
#[export] Hint Resolve ok_begin ok_end ok_lines fs_ok fs_begin fs_end : frames.

Lemma line_index_range f :
  0 <= f < kFrameCount <-> 0 <= f / kBitsPerMapLine < kFrameCount / kBitsPerMapLine.
Proof.
  change kFrameCount with 33554432. change kBitsPerMapLine with 64.
  change (33554432 / 64) with 524288. pose proof (Z.div_mod f 64). 
  pose proof (Z.mod_pos_bound f 64). lia.
Qed.

Lemma bit_index_range f : 0 <= f mod kBitsPerMapLine < 64.
Proof. apply Z.mod_pos_bound; done. Qed.

Lemma frame_inj f g :
  f / kBitsPerMapLine = g / kBitsPerMapLine ->
  f mod kBitsPerMapLine = g mod kBitsPerMapLine -> f = g.
Proof.
  intros. rewrite (Z.div_mod f kBitsPerMapLine), (Z.div_mod g kBitsPerMapLine) by done.
  congruence.
Qed.

Lemma line_exists m f :
  manager_ok m -> 0 <= f < kFrameCount ->
  exists line, getZ (alloc_map m) (f / kBitsPerMapLine) = Some line /\ 0 <= line < 2 ^ 64.
Proof.
  intros Hok Hf%line_index_range. rewrite <- (ok_length m Hok) in Hf.
  destruct (getZ_Some _ _ Hf) as [line Hl]. exists line. split; [done|].
  exact (Forall_lookup_1 _ _ _ _ (ok_lines m Hok) (getZ_lookup _ _ _ Hl)).
Qed.

Lemma GetBit_allocated m f :
  manager_ok m -> 0 <= f < kFrameCount -> GetBit m f = Some (allocated m f).
Proof.
  intros Hok Hf. destruct (line_exists m f Hok Hf) as (line & Hl & _).
  unfold GetBit, allocated. rewrite Hl. simpl.
  by rewrite land_bit_nonzero by apply bit_index_range.
Qed.

(** The word written by [SetBit]: bit [b] replaced, the others kept, still a
    64-bit value. *)
Lemma set_line_bits line bit (v : bool) :
  0 <= line < 2 ^ 64 -> 0 <= bit < 64 ->
  let line' := if v then Z.lor line (Z.shiftl 1 bit)
               else Z.land line (u64 (Z.lnot (Z.shiftl 1 bit))) in
  0 <= line' < 2 ^ 64 /\
  forall i, 0 <= i < 64 ->
    Z.testbit line' i = if decide (i = bit) then v else Z.testbit line i.
Proof.
  intros Hl Hb line'.
  assert (Hbits : forall i, 0 <= i -> Z.testbit line' i =
    if decide (i = bit) then v else Z.testbit line i).
  { intros i Hi. subst line'. destruct v.
    - rewrite Z.lor_spec, testbit_shiftl_1 by lia. case_decide.
      + rewrite bool_decide_true by done. apply orb_true_r.
      + rewrite bool_decide_false by done. apply orb_false_r.
    - rewrite Z.land_spec, testbit_u64, Z.lnot_spec, testbit_shiftl_1 by lia.
      case_decide.
      + rewrite (bool_decide_true (i = bit)) by done. simpl. by rewrite !andb_false_r.
      + rewrite (bool_decide_false (i = bit)) by done. rewrite andb_true_r.
        case_bool_decide; [by rewrite andb_true_r|].
        rewrite (testbit_high line 64) by lia. done. }
  assert (0 <= line').
  { subst line'. destruct v; [apply Z.lor_nonneg | apply Z.land_nonneg; lia].
    split; [lia|]. apply Z.shiftl_nonneg; lia. }
  repeat split; [done| |intros; apply Hbits; lia].
  apply bits_lt_pow2; [lia|done|]. intros i Hi. rewrite Hbits by lia.
  case_decide; [lia|]. apply (testbit_high line 64); lia.
Qed.

Lemma SetBit_spec m f (b : bool) :
  manager_ok m -> 0 <= f < kFrameCount ->
  exists m', SetBit m f b = Some m' /\ frames_set m m' f 1 b.
Proof.
  intros Hok Hf. destruct (line_exists m f Hok Hf) as (line & Hl & Hr).
  unfold SetBit. rewrite Hl. simpl.
  pose proof (set_line_bits line _ b Hr (bit_index_range f)) as [Hr' Hbits].
  set (line' := if b then _ else _) in *.
  rewrite setZ_Some by (eapply getZ_inv; eauto). simpl.
  eexists; split; [done|].
  assert (Hset : setZ (alloc_map m) (f / kBitsPerMapLine) line' =
    Some (<[Z.to_nat (f / kBitsPerMapLine) := line']> (alloc_map m)))
    by (apply setZ_Some; eapply getZ_inv; eauto).
  constructor; simpl; try done.
  - destruct Hok. constructor; simpl; [by rewrite length_insert| |done|done].
    by apply Forall_insert.
  - intros g Hg. unfold allocated; simpl. rewrite (getZ_setZ _ _ _ _ _ Hset).
    case_decide as Hline.
    + rewrite Hbits by apply bit_index_range. case_decide as Hbit.
      * rewrite decide_True; [done|].
        enough (g = f) by lia. by apply frame_inj.
      * rewrite decide_False by (intros ?; assert (g = f) by lia; congruence).
        by rewrite <- Hline, Hl.
    + rewrite decide_False; [done|]. intros ?. assert (g = f) by lia. congruence.
Qed.

Lemma frames_set_refl m s b : manager_ok m -> frames_set m m s 0 b.
Proof. intros; constructor; try done. intros. by rewrite decide_False by lia. Qed.

Lemma frames_set_trans m m1 m2 s n1 n2 b :
  0 <= n1 -> 0 <= n2 ->
  frames_set m m1 s n1 b -> frames_set m1 m2 (s + n1) n2 b ->
  frames_set m m2 s (n1 + n2) b.
Proof.
  intros ?? [] []. constructor; [done|congruence|congruence|].
  intros g Hg. rewrite fs_bits1, fs_bits0 by done. repeat case_decide; lia || done.
Qed.

Lemma SetBits_spec k : forall m s (b : bool),
  manager_ok m -> 0 <= s -> s + Z.of_nat k <= kFrameCount ->
  exists m', SetBits m s k b = Some m' /\ frames_set m m' s (Z.of_nat k) b.
Proof.
  induction k as [|k IH]; intros m s b Hok Hs Hk; cbn [SetBits].
  - exists m. split; [done|]. by apply frames_set_refl.
  - destruct (SetBit_spec m s b Hok) as (m1 & -> & H1); [lia|]. simpl.
    destruct (IH m1 (s + 1) b) as (m2 & -> & H2); [eauto with frames|lia|lia|].
    exists m2. split; [done|]. replace (Z.of_nat (S k)) with (1 + Z.of_nat k) by lia.
    eapply frames_set_trans; eauto; lia.
Qed.

Lemma MarkAllocated_spec m s n :
  manager_ok m -> 0 <= s -> 0 <= n -> s + n <= kFrameCount ->
  exists m', MarkAllocated m s n = Some m' /\ frames_set m m' s n true.
Proof.
  intros. unfold MarkAllocated.
  destruct (SetBits_spec (Z.to_nat n) m s true) as (m' & ? & H'); [done|lia|lia|].
  rewrite Z2Nat.id in H' by lia. eauto.
Qed.

Lemma Free_spec m s n :
  manager_ok m -> 0 <= s -> 0 <= n -> s + n <= kFrameCount ->
  exists m', Free m s n = Some (m', kSuccess) /\ frames_set m m' s n false.
Proof.
  intros. unfold Free.
  destruct (SetBits_spec (Z.to_nat n) m s false) as (m' & -> & H'); [done|lia|lia|].
  rewrite Z2Nat.id in H' by lia. simpl. eauto.
Qed.

(** ** First-fit search *)

(** The frames [s .. s+n) are all free. *)
Definition free_run (m : BitmapMemoryManager) (s n : Z) : Prop :=
  forall f, s <= f < s + n -> allocated m f = false.

(** A candidate start the allocator may return for [n] frames. *)
Definition fits (m : BitmapMemoryManager) (s n : Z) : Prop :=
  range_begin m <= s /\ (0 < n -> s + n <= range_end m) /\ free_run m s n.

Lemma scan_spec k : forall m s i,
  manager_ok m -> 0 <= s -> 0 <= i ->
  exists r, scan m s i k = Some r /\
  match r with
  | ScanEnd => range_end m < s + i + Z.of_nat k
  | ScanHit j => i <= j < i + Z.of_nat k /\ s + j < range_end m /\ allocated m (s + j) = true
  | ScanClear => (0 < Z.of_nat k -> s + i + Z.of_nat k <= range_end m) /\ 
                 free_run m (s + i) (Z.of_nat k)
  end.
Proof.
  induction k as [|k IH]; intros m s i Hok Hs Hi; cbn [scan].
  - eexists; split; [done|]. split; [lia|]. intros f ?; lia.
  - case_decide; [eexists; split; [done|]; simpl; lia|].
    pose proof (ok_end m Hok). rewrite GetBit_allocated by (done || lia). simpl.
    destruct (allocated m (s + i)) eqn:Ha; [eexists; split; [done|]; simpl; split_and!; done || lia|].
    destruct (IH m s (i + 1) Hok Hs) as (r & -> & Hr); [lia|]. eexists; split; [done|].
    destruct r as [|j|]; [lia|destruct Hr as (?&?&?); split_and!; done || lia|].
    destruct Hr as [Hlt Hfree]. split; [lia|]. intros f Hf.
    destruct (decide (f = s + i)) as [->|]; [done|]. apply Hfree. lia.
Qed.

(** The outcome of [Allocate] from the search position [start]. *)
Definition allocate_post (m : BitmapMemoryManager) (start n : Z)
    (out : BitmapMemoryManager * WithError Z) : Prop :=
  let '(m', (s, e)) := out in
  (e = kSuccess /\ start <= s /\ (0 < n -> s + n <= range_end m) /\ free_run m s n /\
   (forall s', start <= s' < s -> ~ free_run m s' n) /\ frames_set m m' s n true) \/
  (e = kNoEnoughMemory /\ s = kNullFrame /\ m' = m /\
   forall s', start <= s' -> s' + n <= range_end m -> ~ free_run m s' n).

Lemma Allocate_loop_spec fuel : forall m start n,
  manager_ok m -> 0 <= start -> 0 <= n -> (n = 0 -> start <= kFrameCount) ->
  (0 < fuel)%nat -> range_end m - start < Z.of_nat fuel ->
  exists out, Allocate_loop fuel m start n = Some out /\ allocate_post m start n out.
Proof.
  induction fuel as [|fuel IH]; intros m start n Hok Hs Hn Hz Hpos Hf; [lia|].
  cbn [Allocate_loop].
  destruct (scan_spec (Z.to_nat n) m start 0 Hok Hs) as (r & -> & Hr); [lia|].
  rewrite Z2Nat.id in Hr by lia. rewrite Z.add_0_r in Hr. simpl.
  destruct r as [|j|].
  - eexists; split; [done|]. right. split_and!; try done. lia.
  - destruct Hr as (Hj & Hend & Ha).
    destruct (IH m (start + (j + 1)) n) as (out & -> & Hpost); try (done || lia).
    eexists; split; [done|].
    assert (Hskip : forall s', start <= s' < start + (j + 1) -> ~ free_run m s' n).
    { intros s' ? Hfree. rewrite Hfree in Ha by lia. done. }
    destruct out as [m' [s e]].
    destruct Hpost as [(?&?&?&?&Hno&?)|(?&?&?&Hno)]; [left|right]; split_and!; try (done || lia).
    + intros s' ?. destruct (decide (s' < start + (j + 1))); [apply Hskip|apply Hno]; lia.
    + intros s' ??. destruct (decide (s' < start + (j + 1))); [apply Hskip|apply Hno]; lia.
  - destruct Hr as (Hend & Hfree). pose proof (ok_end m Hok).
    destruct (MarkAllocated_spec m start n Hok Hs Hn) as (m' & -> & Hset).
    { destruct (decide (n = 0)); lia. }
    eexists; split; [done|]. left. split_and!; try (done || lia).
Qed.

Lemma Allocate_spec m n :
  manager_ok m -> 0 <= n -> range_begin m <= kFrameCount ->
  exists out, Allocate m n = Some out /\ allocate_post m (range_begin m) n out.
Proof.
  intros Hok Hn Hb. pose proof (ok_begin m Hok).
  apply Allocate_loop_spec; done || lia.
Qed.

(** The reference search: the first start position, in increasing order, whose
    [n] frames are all free. *)
Definition run_is_free (m : BitmapMemoryManager) (n s : Z) : bool :=
  forallb (fun f => negb (allocated m f)) (seqZ s n).

Definition first_fit (m : BitmapMemoryManager) (n : Z) : option Z :=
  List.find (run_is_free m n)
    (seqZ (range_begin m) (range_end m - n - range_begin m + 1)).

Lemma run_is_free_spec m n s : run_is_free m n s = true <-> free_run m s n.
Proof.
  unfold run_is_free, free_run. rewrite forallb_forall. split.
  - intros H f Hf. apply negb_true_iff, H, list_elem_of_In, elem_of_seqZ. lia.
  - intros H f Hf%list_elem_of_In%elem_of_seqZ. apply negb_true_iff, H. lia.
Qed.

Lemma find_seqZ (P : Z -> bool) b k :
  match List.find P (seqZ b k) with
  | Some s => b <= s < b + k /\ P s = true /\ forall s', b <= s' < s -> P s' = false
  | None => forall s', b <= s' < b + k -> P s' = false
  end.
Proof.
  remember (Z.to_nat k) as n eqn:Hn. revert b k Hn.
  induction n as [|n IH]; intros b k Hn.
  - rewrite seqZ_nil by lia. simpl. lia.
  - rewrite seqZ_cons by lia. simpl. destruct (P b) eqn:Hb.
    + split_and!; [lia..|done|]. intros; lia.
    + specialize (IH (Z.succ b) (Z.pred k) ltac:(lia)).
      destruct (List.find P _) as [s|].
      * destruct IH as (?&?&IH). split_and!; [lia..|done|].
        intros s' ?. destruct (decide (s' = b)) as [->|]; [done|apply IH; lia].
      * intros s' ?. destruct (decide (s' = b)) as [->|]; [done|apply IH; lia].
Qed.

Lemma first_fit_spec m n :
  match first_fit m n with
  | Some s => range_begin m <= s /\ s + n <= range_end m /\ free_run m s n /\
              forall s', range_begin m <= s' < s -> ~ free_run m s' n
  | None => forall s', range_begin m <= s' -> s' + n <= range_end m -> ~ free_run m s' n
  end.
Proof.
  unfold first_fit.
  pose proof (find_seqZ (run_is_free m n) (range_begin m)
    (range_end m - n - range_begin m + 1)) as H.
  destruct (List.find _ _) as [s|].
  - destruct H as (?&Hs&Hno). split_and!; [lia..|by apply run_is_free_spec|].
    intros s' Hs' Hf%run_is_free_spec. rewrite Hno in Hf by lia. done.
  - intros s' ?? Hf%run_is_free_spec. rewrite H in Hf by lia. done.
Qed.

(** Two bitmaps that agree on every frame are the same bitmap. *)
Lemma manager_ext m m' :
  manager_ok m -> manager_ok m' ->
  range_begin m = range_begin m' -> range_end m = range_end m' ->
  (forall g, 0 <= g < kFrameCount -> allocated m g = allocated m' g) -> m = m'.
Proof.
  intros Hok Hok' Hb He Hbits. destruct m as [l b e], m' as [l' b' e']; simpl in *; subst.
  f_equal. apply list_eq_same_length with (n := length l); [|done|].
  { pose proof (ok_length _ Hok). pose proof (ok_length _ Hok'). simpl in *. lia. }
  intros i x y Hi Hx Hy.
  pose proof (Forall_lookup_1 _ _ _ _ (ok_lines _ Hok) Hx) as Hxr.
  pose proof (Forall_lookup_1 _ _ _ _ (ok_lines _ Hok') Hy) as Hyr. simpl in Hxr, Hyr.
  apply Z.bits_inj'. intros j Hj. destruct (decide (j < 64)).
  - pose proof (ok_length _ Hok) as Hlen; simpl in Hlen.
    assert (Hdiv : (64 * Z.of_nat i + j) / kBitsPerMapLine = Z.of_nat i).
    { symmetry. apply (Z.div_unique _ _ _ j); unfold kBitsPerMapLine; lia. }
    assert (Hmod : (64 * Z.of_nat i + j) mod kBitsPerMapLine = j).
    { symmetry. apply (Z.mod_unique _ _ (Z.of_nat i)); unfold kBitsPerMapLine; lia. }
    specialize (Hbits (64 * Z.of_nat i + j)).
    unfold allocated in Hbits; simpl in Hbits. rewrite Hdiv, Hmod in Hbits.
    unfold getZ in Hbits. rewrite !decide_True, !Nat2Z.id, Hx, Hy in Hbits by lia.
    apply Hbits. apply line_index_range. rewrite Hdiv. lia.
  - rewrite !(testbit_high _ 64) by lia. done.
Qed.

(** C2. [Allocate] refines first fit: on a well-formed manager it always
    returns; it succeeds with the first start frame of the managed range whose
    [num_frames] frames are free, marks exactly those frames, and otherwise
    fails with [kNoEnoughMemory] leaving the bitmap as it was. *)
Theorem Allocate_refines_first_fit m n :
  manager_ok m -> 0 <= n -> range_begin m <= range_end m ->
  exists m',
    Allocate m n = Some (m',
      match first_fit m n with
      | Some s => (s, kSuccess)
      | None => (kNullFrame, kNoEnoughMemory)
      end) /\
    match first_fit m n with
    | Some s => frames_set m m' s n true
    | None => m' = m
    end.
Proof.
  intros Hok Hn Hr. pose proof (ok_end m Hok).
  destruct (Allocate_spec m n Hok Hn) as ([m' [s e]] & -> & Hpost); [lia|].
  pose proof (first_fit_spec m n) as Hff. exists m'.
  destruct (first_fit m n) as [s0|]; destruct Hpost as [(->&?&Hend&Hfree&Hno&?)|(->&->&->&Hno)].
  - destruct Hff as (?&?&Hf0&Hno0).
    assert (s = s0) as ->; [|done].
    destruct (Z.lt_trichotomy s s0) as [?|[?|?]]; [exfalso|done|exfalso].
    + by apply (Hno0 s); [lia|].
    + by apply (Hno s0); [lia|].
  - destruct Hff as (?&?&Hf0&_). exfalso. by apply (Hno s0).
  - exfalso. destruct (decide (n = 0)) as [->|].
    + apply (Hff (range_begin m)); [lia|lia|]. intros f ?; lia.
    + apply (Hff s); [lia|lia|done].
  - done.
Qed.

(** Freeing what [Allocate] returned restores the bitmap exactly. *)
Theorem Free_undoes_Allocate m n m' s :
  manager_ok m -> 0 <= n -> range_begin m <= range_end m ->
  Allocate m n = Some (m', (s, kSuccess)) -> Free m' s n = Some (m, kSuccess).
Proof.
  intros Hok Hn Hr HA. pose proof (ok_end m Hok). pose proof (ok_begin m Hok).
  destruct (Allocate_spec m n Hok Hn) as ([m1 [s1 e1]] & HA' & Hpost); [lia|].
  rewrite HA in HA'. injection HA' as <- <- <-.
  destruct Hpost as [(_&?&Hend&Hfree&Hno&Hset)|(?&_)]; [|done].
  assert (0 < n \/ n = 0 /\ s = range_begin m) as Hs.
  { destruct (decide (n = 0)) as [->|]; [right|lia]. split; [done|].
    destruct (decide (s = range_begin m)); [done|]. exfalso.
    apply (Hno (range_begin m)); [lia|]. intros f ?; lia. }
  destruct (Free_spec m' s n) as (m2 & -> & Hset2); [eauto with frames|lia..|].
  do 2 f_equal. symmetry. destruct Hset, Hset2.
  apply manager_ext; try done; try congruence. intros g Hg.
  rewrite fs_bits1, fs_bits0 by lia. case_decide; [|done]. by apply Hfree.
Qed.

(** ** Construction from the UEFI memory map *)

(** The entries of the map's buffer, in order, with the fields the kernel
    reads; walking the buffer by [descriptor_size] yields this list.
    [src/kernel/memory_map.hpp:14-20] [MemoryDescriptor] *)
Record MemoryDescriptor := MkDescriptor {
  desc_type : Z;
  physical_start : Z;
  number_of_pages : Z;
}.

(** [src/kernel/memory_map.hpp:23-40] [MemoryType] *)
Definition kEfiBootServicesCode : Z := 3.
Definition kEfiBootServicesData : Z := 4.
Definition kEfiConventionalMemory : Z := 7.

(** [src/kernel/memory_map.hpp:48-52] [IsAvailable] *)
Definition IsAvailable (memory_type : Z) : bool :=
  (memory_type =? kEfiBootServicesCode) || (memory_type =? kEfiBootServicesData)
  || (memory_type =? kEfiConventionalMemory).

(** [src/kernel/memory_map.hpp:54-54] [kUEFIPageSize] *)
Definition kUEFIPageSize : Z := 4096.

(** One iteration over the map; the state is the bitmap and [available_end].
    [src/kernel/memory_manager.cpp:112-127] [InitializeMemoryManager] *)
Definition init_step (st : BitmapMemoryManager * Z) (desc : MemoryDescriptor) :
    option (BitmapMemoryManager * Z) :=
  let '(m, available_end) := st in
  m1 ← (if decide (available_end < physical_start desc)
        then MarkAllocated m (available_end / kBytesPerFrame)
               ((physical_start desc - available_end) / kBytesPerFrame)
        else Some m);
  let bytes := u64 (number_of_pages desc * kUEFIPageSize) in
  let physical_end := u64 (physical_start desc + bytes) in
  if IsAvailable (desc_type desc) then Some (m1, physical_end)
  else m2 ← MarkAllocated m1 (physical_start desc / kBytesPerFrame) (bytes / kBytesPerFrame);
       Some (m2, available_end).

Fixpoint init_loop (st : BitmapMemoryManager * Z) (descs : list MemoryDescriptor) :
    option (BitmapMemoryManager * Z) :=
  match descs with
  | [] => Some st
  | d :: descs' => st' ← init_step st d; init_loop st' descs'
  end.

(** [src/kernel/memory_manager.cpp:89-89] [kHeapFrames] *)
Definition kHeapFrames : Z := 64 * 512.

(** The heap bounds [program_break], [program_break_end], when they are set.
    [src/kernel/memory_manager.cpp:88-99] [InitializeHeap] *)
Definition InitializeHeap (m : BitmapMemoryManager) :
    option (BitmapMemoryManager * (option (Z * Z) * Code)) :=
  '(m', (heap_start, err)) ← Allocate m kHeapFrames;
  if is_error err then Some (m', (None, err))
  else let program_break := heap_start * kBytesPerFrame in
       Some (m', (Some (program_break, program_break + kHeapFrames * kBytesPerFrame), kSuccess)).

(** The last [Code] is the error on which the kernel exits.
    [src/kernel/memory_manager.cpp:104-137] [InitializeMemoryManager] *)
Definition InitializeMemoryManager (descs : list MemoryDescriptor) :
    option (BitmapMemoryManager * (option (Z * Z) * Code)) :=
  '(m, available_end) ← init_loop (NewManager, 0) descs;
  InitializeHeap (SetMemoryRange m 1 (available_end / kBytesPerFrame)).

(** What the code relies on and does not check: page-aligned regions in
    increasing order, none overlapping, all below the 128 GiB the bitmap
    covers. The UEFI specification promises the alignment only; a region above
    the limit makes [MarkAllocated] write behind the bitmap
    ([InitializeMemoryManager_overrun]). *)
Definition desc_end (d : MemoryDescriptor) : Z :=
  physical_start d + number_of_pages d * kUEFIPageSize.

Fixpoint map_from (lo : Z) (descs : list MemoryDescriptor) : Prop :=
  match descs with
  | [] => True
  | d :: descs' =>
      lo <= physical_start d /\ physical_start d mod kBytesPerFrame = 0 /\
      0 <= number_of_pages d /\ desc_end d <= kFrameCount * kBytesPerFrame /\
      map_from (desc_end d) descs'
  end.

(** Frame [f] lies in region [d]. *)
Definition in_desc (d : MemoryDescriptor) (f : Z) : bool :=
  bool_decide (physical_start d <= f * kBytesPerFrame < desc_end d).

(** Frame [f] lies in a region the kernel may use. *)
Definition frame_available (descs : list MemoryDescriptor) (f : Z) : bool :=
  existsb (fun d => IsAvailable (desc_type d) && in_desc d f) descs.

(** Invariant of the loop after the regions [pre]: [e] is [available_end] and
    [p] the end of the last region. *)
Record init_inv (pre : list MemoryDescriptor) (m : BitmapMemoryManager) (e p : Z) : Prop := {
  ii_ok : manager_ok m;
  ii_e : exists k, e = k * kBytesPerFrame;
  ii_range : 0 <= e <= p;
  ii_limit : p <= kFrameCount * kBytesPerFrame;
  ii_exact : forall f, 0 <= f -> f * kBytesPerFrame < e ->
    allocated m f = negb (frame_available pre f);
  ii_above : forall f, 0 <= f -> e <= f * kBytesPerFrame -> frame_available pre f = false;
  ii_free : forall f, 0 <= f -> p <= f * kBytesPerFrame -> allocated m f = false;
}.

Lemma frame_available_snoc pre d f :
  frame_available (pre ++ [d]) f =
  frame_available pre f || (IsAvailable (desc_type d) && in_desc d f).
Proof. unfold frame_available. rewrite existsb_app. simpl. by rewrite orb_false_r. Qed.

Lemma NewManager_allocated f : allocated NewManager f = false.
Proof.
  unfold allocated, NewManager, getZ; cbn [alloc_map]. case_decide; [|done].
  destruct (replicate _ _ !! _) as [l|] eqn:E; [|done].
  apply lookup_replicate in E as [-> _]. apply Z.testbit_0_l.
Qed.

Lemma NewManager_ok : manager_ok NewManager.
Proof.
  constructor; cbn [alloc_map range_begin range_end NewManager]; [|..|done|done].
  - by rewrite length_replicate, Z2Nat.id by done.
  - apply Forall_replicate. lia.
Qed.

#[global] Opaque NewManager.

Lemma init_inv_empty : init_inv [] NewManager 0 0.
Proof.
  constructor.
  - apply NewManager_ok.
  - by exists 0.
  - lia.
  - done.
  - intros f Hf. change kBytesPerFrame with 4096. lia.
  - done.
  - intros. apply NewManager_allocated.
Qed.

Lemma init_gap pre m e p s :
  init_inv pre m e p -> p <= s -> s mod kBytesPerFrame = 0 ->
  s <= kFrameCount * kBytesPerFrame ->
  exists m1,
    (if decide (e < s)
     then MarkAllocated m (e / kBytesPerFrame) ((s - e) / kBytesPerFrame)
     else Some m) = Some m1 /\ init_inv pre m1 s s.
Proof.
  unfold kBytesPerFrame. intros [Hok [k ->] Hr Hl Hex Hab Hfr] Hps Hal Hsl.
  unfold kBytesPerFrame in *.
  pose proof (Z.div_mod s 4096). set (q := s / 4096) in *. assert (s = q * 4096) by lia.
  case_decide as Hlt.
  - replace (s - k * 4096) with ((q - k) * 4096) by lia. rewrite !Z.div_mul by done.
    destruct (MarkAllocated_spec m k (q - k)) as (m1 & -> & Hset); [done|lia..|].
    eexists; split; [done|]. destruct Hset. constructor; unfold kBytesPerFrame.
    + done.
    + by exists q.
    + lia.
    + lia.
    + intros f ??. rewrite fs_bits0 by lia. case_decide; [|apply Hex; lia].
      rewrite Hab by lia. done.
    + intros; apply Hab; lia.
    + intros f ??. rewrite fs_bits0 by lia. rewrite decide_False by lia. apply Hfr; lia.
  - eexists; split; [done|]. constructor; unfold kBytesPerFrame.
    + done.
    + by exists q.
    + lia.
    + lia.
    + intros; apply Hex; lia.
    + intros; apply Hab; lia.
    + intros; apply Hfr; lia.
Qed.

Lemma init_step_inv pre m e p d :
  init_inv pre m e p -> p <= physical_start d ->
  physical_start d mod kBytesPerFrame = 0 -> 0 <= number_of_pages d ->
  desc_end d <= kFrameCount * kBytesPerFrame ->
  exists m' e', init_step (m, e) d = Some (m', e') /\ init_inv (pre ++ [d]) m' e' (desc_end d).
Proof.
  intros Hinv Hp Hal Hn Hend. pose proof (ii_range _ _ _ _ Hinv) as Hr.
  assert (Hse : physical_start d <= desc_end d) by (unfold desc_end, kUEFIPageSize; lia).
  destruct (init_gap pre m e p (physical_start d) Hinv Hp Hal) as (m1 & Hgap & Hinv1); [lia|].
  unfold init_step. rewrite Hgap. cbn [mbind option_bind].
  change (kFrameCount * kBytesPerFrame) with 137438953472 in *.
  rewrite (u64_small (number_of_pages d * _)) by (unfold desc_end, kUEFIPageSize in *; lia).
  fold (desc_end d). rewrite (u64_small (desc_end d)) by lia.
  destruct (IsAvailable (desc_type d)) eqn:Hty; cbn [mbind option_bind].
  - eexists _, _; split; [done|]. pose proof (Z.div_mod (physical_start d) 4096).
    destruct Hinv1 as [Hok1 _ _ _ Hex1 Hab1 Hfr1].
    constructor; [done| |lia|done|..];
      [exists (physical_start d / 4096 + number_of_pages d);
       unfold kBytesPerFrame in *; unfold desc_end, kUEFIPageSize; lia|..];
      intros f Hf ?; rewrite ?frame_available_snoc, ?Hty; unfold in_desc.
    + destruct (decide (f * kBytesPerFrame < physical_start d)).
      * rewrite bool_decide_false, andb_false_r, orb_false_r by lia. by apply Hex1.
      * rewrite bool_decide_true, andb_true_r, orb_true_r by lia. apply Hfr1; lia.
    + rewrite bool_decide_false, andb_false_r, orb_false_r by lia. apply Hab1; lia.
    + apply Hfr1; lia.
  - pose proof (Z.div_mod (physical_start d) 4096).
    unfold kBytesPerFrame, kUEFIPageSize in *. rewrite Z.div_mul by done.
    destruct (MarkAllocated_spec m1 (physical_start d / 4096) (number_of_pages d))
      as (m2 & -> & Hset); [by destruct Hinv1|lia|lia| |].
    { unfold desc_end, kUEFIPageSize in Hend. change kFrameCount with 33554432. lia. }
    cbn [mbind option_bind]. eexists _, _; split; [done|].
    destruct Hset, Hinv, Hinv1.
    constructor; unfold kBytesPerFrame in *; [done|done|lia|done|..];
      intros f Hf ?; rewrite ?frame_available_snoc, ?Hty, ?orb_false_r.
    + rewrite fs_bits0, decide_False by lia. apply ii_exact1; lia.
    + apply ii_above0; lia.
    + unfold desc_end, kUEFIPageSize in *. rewrite fs_bits0, decide_False by lia. apply ii_free1; lia.
Qed.

Lemma init_loop_inv descs : forall pre m e p,
  init_inv pre m e p -> map_from p descs ->
  exists m' e' p', init_loop (m, e) descs = Some (m', e') /\ init_inv (pre ++ descs) m' e' p'.
Proof.
  induction descs as [|d descs IH]; intros pre m e p Hinv Hmap; cbn [init_loop].
  - rewrite app_nil_r. eauto.
  - destruct Hmap as (?&?&?&?&Hmap).
    destruct (init_step_inv pre m e p d) as (m1 & e1 & -> & Hinv1); [done..|].
    cbn [mbind option_bind]. destruct (IH _ _ _ _ Hinv1 Hmap) as (m' & e' & p' & -> & Hinv').
    rewrite <- app_assoc in Hinv'. eauto.
Qed.

(** The map gives [n] frames in a row from [s]. *)
Definition available_run (descs : list MemoryDescriptor) (s n : Z) : Prop :=
  forall f, s <= f < s + n -> frame_available descs f = true.

(** The frames reserved for the kernel heap. *)
Definition in_heap (brk : option (Z * Z)) (f : Z) : bool :=
  match brk with
  | Some (b, e) => bool_decide (b <= f * kBytesPerFrame < e)
  | None => false
  end.

Lemma InitializeMemoryManager_spec descs :
  map_from 0 descs ->
  exists m brk err,
    InitializeMemoryManager descs = Some (m, (brk, err)) /\
    manager_ok m /\ range_begin m = 1 /\
    (forall f, 0 <= f < range_end m ->
       allocated m f = negb (frame_available descs f) || in_heap brk f) /\
    (forall f, range_end m <= f -> frame_available descs f = false) /\
    match brk with
    | Some (b, e) => err = kSuccess /\ e = b + kHeapFrames * kBytesPerFrame /\
        kBytesPerFrame <= b /\ e <= range_end m * kBytesPerFrame /\
        forall f, in_heap brk f = true -> frame_available descs f = true
    | None => err = kNoEnoughMemory /\ forall s, 1 <= s -> ~ available_run descs s kHeapFrames
    end.
Proof.
  intros Hmap. destruct (init_loop_inv descs [] NewManager 0 0 init_inv_empty Hmap)
    as (m & e & p & Hloop & Hinv). rewrite app_nil_l in Hinv.
  unfold InitializeMemoryManager. rewrite Hloop. cbn [mbind option_bind].
  destruct Hinv as [Hok [k ->] Hr Hl Hex Hab _].
  assert (Hbpf : kBytesPerFrame = 4096) by done.
  rewrite Z.div_mul by done. set (m0 := SetMemoryRange m 1 k).
  assert (Hok0 : manager_ok m0) by (destruct Hok; constructor; simpl; done || lia).
  assert (Hall : forall f, allocated m0 f = allocated m f) by done.
  assert (Hout : forall f, k <= f -> frame_available descs f = false) by (intros f Hf; apply Hab; lia).
  destruct (Allocate_spec m0 kHeapFrames Hok0) as ([m1 [s err]] & Ha & Hpost); [done|done|].
  unfold InitializeHeap. rewrite Ha. cbn [mbind option_bind].
  destruct Hpost as [(->&Hs&Hend&Hfree&_&Hset)|(->&->&->&Hno)];
    cbn [is_error]; [change (is_error kSuccess) with false|change (is_error kNoEnoughMemory) with true].
  - specialize (Hend eq_refl). simpl in Hs, Hend. destruct Hset as [Hok1 Hb1 He1 Hbits1].
    assert (Hin : forall f, in_heap (Some (s * kBytesPerFrame,
        s * kBytesPerFrame + kHeapFrames * kBytesPerFrame)) f =
        bool_decide (s <= f < s + kHeapFrames)).
    { intros f. apply bool_decide_ext. rewrite Hbpf. lia. }
    eexists _, _, _; split; [done|]. split; [done|]. split; [done|].
    rewrite He1; simpl. split.
    + intros f Hf. fold (in_heap (Some (s * kBytesPerFrame,
        s * kBytesPerFrame + kHeapFrames * kBytesPerFrame)) f).
      rewrite Hin, Hbits1, Hall, Hex by lia.
      rewrite bool_decide_decide. case_decide; [by rewrite orb_true_r|by rewrite orb_false_r].
    + split; [exact Hout|]. split_and!; [done|done|lia|lia|]. intros f Hf.
      fold (in_heap (Some (s * kBytesPerFrame,
        s * kBytesPerFrame + kHeapFrames * kBytesPerFrame)) f) in Hf.
      rewrite Hin in Hf. apply bool_decide_eq_true in Hf.
      specialize (Hfree f Hf). rewrite Hall, Hex in Hfree by lia. by apply negb_false_iff in Hfree.
  - eexists _, _, _; split; [done|]. split; [done|]. split; [done|]. split; [|split; [exact Hout|split; [done|]]].
    + intros f Hf. simpl in Hf |- *. rewrite orb_false_r, Hall. apply Hex; lia.
    + intros s Hs Hrun. destruct (decide (s + kHeapFrames <= k)) as [Hk|Hk].
      * apply (Hno s); [done|done|]. intros f Hf. rewrite Hall, Hex, Hrun by lia. done.
      * unfold available_run in Hrun. specialize (Hrun (s + kHeapFrames - 1) ltac:(unfold kHeapFrames; lia)).
        rewrite Hout in Hrun by lia. done.
Qed.

(** A bit that was set lies in the bitmap. *)
Lemma SetBit_inside m m' f b :
  Z.of_nat (length (alloc_map m)) = kFrameCount / kBitsPerMapLine ->
  SetBit m f b = Some m' -> f < kFrameCount /\ length (alloc_map m') = length (alloc_map m).
Proof.
  intros Hl. unfold SetBit. destruct (getZ _ _) as [line|] eqn:E; [|done].
  cbn [mbind option_bind]. destruct (setZ _ _ _) as [map'|] eqn:E2; [|done]. cbn [mbind option_bind].
  intros [= <-]. apply setZ_inv in E2 as [Hr ->]. rewrite Hl in Hr.
  change (kFrameCount / kBitsPerMapLine) with 524288 in Hr.
  change kFrameCount with 33554432. change kBitsPerMapLine with 64 in Hr.
  pose proof (Z.div_mod f 64). pose proof (Z.mod_pos_bound f 64). split; [lia|apply length_insert].
Qed.

Lemma SetBits_inside k : forall m m' start b,
  Z.of_nat (length (alloc_map m)) = kFrameCount / kBitsPerMapLine ->
  SetBits m start (S k) b = Some m' -> start + Z.of_nat k < kFrameCount.
Proof.
  induction k as [|k IH]; intros m m' start b Hl H; simpl in H;
    destruct (SetBit m start b) as [m1|] eqn:E; try done; apply SetBit_inside in E as [E El]; try done.
  - lia.
  - apply (IH m1 m' (start + 1) b) in H; [lia|congruence].
Qed.

(** A first region that starts a page or more above the limit of the bitmap is
    an overrun: the gap before it is marked frame by frame. *)
Lemma InitializeMemoryManager_overrun d descs :
  (kFrameCount + 1) * kBytesPerFrame <= physical_start d ->
  InitializeMemoryManager (d :: descs) = None.
Proof.
  intros Hd. unfold InitializeMemoryManager. cbn [init_loop]. unfold init_step.
  change ((kFrameCount + 1) * kBytesPerFrame) with (33554433 * 4096) in Hd.
  rewrite decide_True by lia. unfold MarkAllocated.
  rewrite Z.sub_0_r. change (0 / kBytesPerFrame) with 0.
  assert (33554433 <= physical_start d / kBytesPerFrame) as Hq
    by (unfold kBytesPerFrame; apply Z.div_le_lower_bound; lia).
  destruct (Z.to_nat (physical_start d / kBytesPerFrame)) as [|k] eqn:Hk; [lia|].
  destruct (SetBits NewManager 0 (S k) true) as [m|] eqn:E; [exfalso|done].
  apply SetBits_inside in E; [change kFrameCount with 33554432 in E; lia|apply NewManager_ok].
Qed.

(** C3. From a map of the memory whose regions are page-aligned, in increasing
    order, do not overlap and end below the 128 GiB the bitmap covers
    ([map_from]: the code relies on it, and the firmware need not keep it), the
    kernel builds a well-formed manager whose managed frames are marked exactly when
    they are outside every available region or belong to the kernel heap, and
    nothing beyond them is available; the heap, when it is placed, is
    [kHeapFrames] available frames of the managed range; and failing to place it,
    which happens only when no [kHeapFrames] available frames follow each
    other, is the only error. *)
Theorem InitializeMemoryManager_exact descs :
  map_from 0 descs ->
  exists m brk err,
    InitializeMemoryManager descs = Some (m, (brk, err)) /\
    manager_ok m /\ range_begin m = 1 /\
    (forall f, 0 <= f < range_end m ->
       allocated m f = negb (frame_available descs f) || in_heap brk f) /\
    (forall f, range_end m <= f -> frame_available descs f = false) /\
    match brk with
    | Some (b, e) => err = kSuccess /\ e = b + kHeapFrames * kBytesPerFrame /\
        kBytesPerFrame <= b /\ e <= range_end m * kBytesPerFrame /\
        forall f, in_heap brk f = true -> frame_available descs f = true
    | None => err = kNoEnoughMemory /\ forall s, 1 <= s -> ~ available_run descs s kHeapFrames
    end.
Proof. apply InitializeMemoryManager_spec. Qed.

(** ** Witnesses *)

(** Eight managed frames of which 1 and 4 are taken. *)
Definition sample_manager : BitmapMemoryManager :=
  MkManager (<[0%nat := 18]> (replicate (Z.to_nat (kFrameCount / kBitsPerMapLine)) 0)) 1 9.

Lemma sample_manager_ok : manager_ok sample_manager.
Proof.
  constructor; cbn [alloc_map range_begin range_end sample_manager]; [|..|lia|done].
  - by rewrite length_insert, length_replicate, Z2Nat.id by done.
  - apply Forall_insert; [|lia]. apply Forall_replicate. lia.
Qed.

Lemma Allocate_refines_first_fit_witness :
  first_fit sample_manager 3 = Some 5 /\
  exists m', Allocate sample_manager 3 = Some (m', (5, kSuccess)) /\
             frames_set sample_manager m' 5 3 true.
Proof.
  assert (first_fit sample_manager 3 = Some 5) as Hff by (vm_compute; reflexivity).
  split; [exact Hff|].
  destruct (Allocate_refines_first_fit sample_manager 3 sample_manager_ok) as (m' & H1 & H2);
    [lia|simpl; lia|].
  rewrite Hff in H1, H2. exists m'. split; assumption.
Defined.

Lemma Free_undoes_Allocate_witness :
  exists m', Allocate sample_manager 3 = Some (m', (5, kSuccess)) /\
             Free m' 5 3 = Some (sample_manager, kSuccess).
Proof.
  destruct (Allocate_spec sample_manager 3 sample_manager_ok) as ([m' [s e]] & HA & _);
    [lia|vm_compute; discriminate|].
  exists m'.
  assert (option_map snd (Allocate sample_manager 3) = Some (5, kSuccess)) as Hv
    by (vm_compute; reflexivity).
  rewrite HA in Hv. simpl in Hv. injection Hv as -> ->. split; [exact HA|].
  apply (Free_undoes_Allocate sample_manager 3 m' 5 sample_manager_ok);
    [lia|simpl; lia|exact HA].
Defined.

(** 1 MiB reserved, then 256 MiB of conventional memory. *)
Definition sample_map : list MemoryDescriptor :=
  [MkDescriptor 0 0 256; MkDescriptor kEfiConventionalMemory 1048576 65536].

Lemma InitializeMemoryManager_exact_witness :
  map_from 0 sample_map /\
  exists m brk err, InitializeMemoryManager sample_map = Some (m, (brk, err)) /\
    manager_ok m /\ range_begin m = 1.
Proof.
  assert (map_from 0 sample_map) as Hmap
    by (vm_compute; repeat split; intros Hc; discriminate Hc).
  split; [exact Hmap|].
  destruct (InitializeMemoryManager_exact sample_map Hmap) as (m & brk & err & H & Hok & Hb & _).
  exists m, brk, err. split; [exact H|]. split; [exact Hok|exact Hb].
Defined.
