(* ===== verification/Task.v ===== *)
(** * Tasks and the scheduler (kernel/task.cpp)

    A [Task*] is the identifier of the task: identifiers are never reused, so
    a dangling pointer is an identifier no longer in [tasks]. What the
    hardware does on a context switch is the value of type [control] an
    operation returns: which context is restored. *)

From S2P Require Import Prelude Bytes Message.
From stdpp Require Import base list numbers option gmap.
From Stdlib Require Import ZArith Lia.

Local Open Scope Z_scope.

(** The registers a context switch saves, [fxsave_area] as its 512 bytes.
    [src/kernel/task.hpp:16-22] [TaskContext] *)
Record TaskContext := MkContext {
  cr3 : Z; rip : Z; rflags : Z; reserved1 : Z;
  cs : Z; ss : Z; ctx_fs : Z; ctx_gs : Z;
  rax : Z; rbx : Z; rcx : Z; rdx : Z; rdi : Z; rsi : Z; rsp : Z; rbp : Z;
  r8 : Z; r9 : Z; r10 : Z; r11 : Z; r12 : Z; r13 : Z; r14 : Z; r15 : Z;
  fxsave_area : list Z;
}.

(** [stack_] appears as the address of its end, an argument of [InitContext].
    [src/kernel/task.hpp:28-79] [Task] *)
Record Task := MkTask {
  id : Z;
  name : list Z;
  context : TaskContext;
  os_stack_ptr : Z;
  msgs : list Message;
  level : Z;
  is_running : bool;
  dpaging_begin : Z;
  dpaging_end : Z;
  buf : list Z;
  command : list Z;
  arg_ : list Z;
}.

(** Field updates. *)
Definition set_context v t := MkTask (id t) (name t) v (os_stack_ptr t) (msgs t) (level t)
  (is_running t) (dpaging_begin t) (dpaging_end t) (buf t) (command t) (arg_ t).
Definition set_os_stack_ptr v t := MkTask (id t) (name t) (context t) v (msgs t) (level t)
  (is_running t) (dpaging_begin t) (dpaging_end t) (buf t) (command t) (arg_ t).
Definition set_msgs v t := MkTask (id t) (name t) (context t) (os_stack_ptr t) v (level t)
  (is_running t) (dpaging_begin t) (dpaging_end t) (buf t) (command t) (arg_ t).
(** [src/kernel/task.hpp:69-72] [Task::SetLevel] *)
Definition SetLevel v t := MkTask (id t) (name t) (context t) (os_stack_ptr t) (msgs t) v
  (is_running t) (dpaging_begin t) (dpaging_end t) (buf t) (command t) (arg_ t).
(** [src/kernel/task.hpp:73-76] [Task::SetRunning] *)
Definition SetRunning v t := MkTask (id t) (name t) (context t) (os_stack_ptr t) (msgs t)
  (level t) v (dpaging_begin t) (dpaging_end t) (buf t) (command t) (arg_ t).
(** [src/kernel/task.cpp:76-76] [Task::SetDPagingBegin] *)
Definition SetDPagingBegin v t := MkTask (id t) (name t) (context t) (os_stack_ptr t) (msgs t)
  (level t) (is_running t) v (dpaging_end t) (buf t) (command t) (arg_ t).
(** [src/kernel/task.cpp:80-80] [Task::SetDPagingEnd] *)
Definition SetDPagingEnd v t := MkTask (id t) (name t) (context t) (os_stack_ptr t) (msgs t)
  (level t) (is_running t) (dpaging_begin t) v (buf t) (command t) (arg_ t).
Definition set_buf v t := MkTask (id t) (name t) (context t) (os_stack_ptr t) (msgs t)
  (level t) (is_running t) (dpaging_begin t) (dpaging_end t) v (command t) (arg_ t).
(** [src/kernel/task.hpp:54-54] [Task::SetName] *)
Definition SetName v t := MkTask (id t) v (context t) (os_stack_ptr t) (msgs t) (level t)
  (is_running t) (dpaging_begin t) (dpaging_end t) (buf t) (command t) (arg_ t).
Definition set_command v t := MkTask (id t) (name t) (context t) (os_stack_ptr t) (msgs t)
  (level t) (is_running t) (dpaging_begin t) (dpaging_end t) (buf t) v (arg_ t).
Definition set_arg_ v t := MkTask (id t) (name t) (context t) (os_stack_ptr t) (msgs t)
  (level t) (is_running t) (dpaging_begin t) (dpaging_end t) (buf t) (command t) v.

(** [src/kernel/task.hpp:30-30] [Task::kDefaultLevel] *)
Definition kDefaultLevel : Z := 1.
(** [src/kernel/task.hpp:83-83] [TaskManager::kMaxLevel] *)
Definition kMaxLevel : Z := 3.
Definition zero_fxsave_area : list Z := replicate 512 0.
Definition zero_context : TaskContext :=
  MkContext 0 0 0 0  0 0 0 0  0 0 0 0 0 0 0 0  0 0 0 0 0 0 0 0  zero_fxsave_area.

(** [command_] and [arg_] are indeterminate until set.
    [src/kernel/task.cpp:20-20] [Task::Task] *)
Definition MakeTask (new_id : Z) : Task :=
  MkTask new_id [] zero_context 0 [] kDefaultLevel false 0 0 []
    (replicate 32 0) (replicate 32 0).

(** The segment selectors of kernel/segment.hpp. *)
Definition kKernelCS : Z := 8.
Definition kKernelSS : Z := 16.

(** [stack_end] is the address of the end of the task's stack vector and
    [kernel_cr3] the current CR3.
    [src/kernel/task.cpp:22-41] [Task::InitContext] *)
Definition InitContext (kernel_cr3 stack_end f data : Z) (t : Task) : Task :=
  set_context (MkContext kernel_cr3 f 0x202 0  kKernelCS kKernelSS 0 0
    0 0 0 0 (id t) data (u64 (Z.land stack_end (u64 (Z.lnot 15)) - 8)) 0
    0 0 0 0 0 0 0 0  (set_le 4 zero_fxsave_area 24 0x1f80)) t.

(** [src/kernel/task.cpp:64-72] [Task::ReceiveMessage] *)
Definition Task_ReceiveMessage (t : Task) : option Message * Task :=
  match msgs t with
  | [] => (None, t)
  | m :: q => (Some m, set_msgs q t)
  end.

(** [src/kernel/task.hpp:81-120] [TaskManager] *)
Record TaskManager := MkTM {
  tasks : list Task;
  latest_id : Z;
  running : list (list Z);
  current_level : Z;
  level_changed : bool;
  finish_tasks : gmap Z Z;
  finish_waiter : gmap Z Z;
}.

Definition set_tasks ts tm := MkTM ts (latest_id tm) (running tm) (current_level tm)
  (level_changed tm) (finish_tasks tm) (finish_waiter tm).
Definition set_queues qs tm := MkTM (tasks tm) (latest_id tm) qs (current_level tm)
  (level_changed tm) (finish_tasks tm) (finish_waiter tm).
Definition set_current_level l tm := MkTM (tasks tm) (latest_id tm) (running tm) l
  (level_changed tm) (finish_tasks tm) (finish_waiter tm).
Definition set_level_changed b tm := MkTM (tasks tm) (latest_id tm) (running tm)
  (current_level tm) b (finish_tasks tm) (finish_waiter tm).
Definition set_finish ft fw tm := MkTM (tasks tm) (latest_id tm) (running tm)
  (current_level tm) (level_changed tm) ft fw.

(** The task with identifier [i], and an update of it through its pointer. *)
Definition find_task (tm : TaskManager) (i : Z) : option Task := find_key id i (tasks tm).
Definition upd_task (i : Z) (f : Task -> Task) (tm : TaskManager) : TaskManager :=
  set_tasks (alter_key id i f (tasks tm)) tm.

(** What the processor does when an operation ends: goes on with the caller,
    saves the running context in one task and restores another's, or restores
    a task's context and abandons the caller. *)
Inductive control :=
| Continue
| SwitchContext (next current : Z)
| RestoreContext (next : Z).

(** [src/kernel/task.cpp:9-13] [Erase] *)
Definition Erase (c : list Z) (value : Z) : list Z := filter (fun x => x <> value) c.

(** [src/kernel/task.cpp:174-174] [TaskManager::CurrentTask] *)
Definition CurrentTask (tm : TaskManager) : option Z :=
  q ← getZ (running tm) (current_level tm); head q.

(** [src/kernel/task.cpp:91-94] [TaskManager::NewTask] *)
Definition NewTask (tm : TaskManager) : TaskManager * Z :=
  let i := latest_id tm + 1 in
  (MkTM (tasks tm ++ [MakeTask i]) i (running tm) (current_level tm) (level_changed tm)
     (finish_tasks tm) (finish_waiter tm), i).

(** The [for] loop of [RotateCurrentRunQueue]: the highest non-empty queue.
    [src/kernel/task.cpp:319-324] [TaskManager::RotateCurrentRunQueue] *)
Fixpoint highest_level (qs : list (list Z)) (lv : nat) : option Z :=
  match qs !! lv with
  | Some (_ :: _) => Some (Z.of_nat lv)
  | _ => match lv with O => None | S lv' => highest_level qs lv' end
  end.

(** [src/kernel/task.cpp:306-328] [TaskManager::RotateCurrentRunQueue] *)
Definition RotateCurrentRunQueue (current_sleep : bool) (tm : TaskManager) :
    option (TaskManager * Z) :=
  level_queue ← getZ (running tm) (current_level tm);
  match level_queue with
  | [] => None
  | current_task :: rest =>
      let level_queue' := if current_sleep then rest else rest ++ [current_task] in
      qs ← setZ (running tm) (current_level tm) level_queue';
      let tm1 := set_queues qs tm in
      let tm2 := match level_queue' with [] => set_level_changed true tm1 | _ => tm1 end in
      let tm3 :=
        if level_changed tm2 then
          let tm' := set_level_changed false tm2 in
          match highest_level (running tm') (Z.to_nat kMaxLevel) with
          | Some lv => set_current_level lv tm'
          | None => tm'
          end
        else tm2 in
      Some (tm3, current_task)
  end.

(** [src/kernel/task.cpp:96-103] [TaskManager::SwitchTask] *)
Definition SwitchTask (current_ctx : TaskContext) (tm : TaskManager) :
    option (TaskManager * control) :=
  cur ← CurrentTask tm;
  let tm1 := upd_task cur (set_context current_ctx) tm in
  '(tm2, current_task) ← RotateCurrentRunQueue false tm1;
  now ← CurrentTask tm2;
  Some (tm2, if decide (now = current_task) then Continue else RestoreContext now).

(** [src/kernel/task.cpp:105-119] [TaskManager::Sleep] *)
Definition Sleep (i : Z) (tm : TaskManager) : option (TaskManager * control) :=
  task ← find_task tm i;
  if negb (is_running task) then Some (tm, Continue)
  else
    let tm1 := upd_task i (SetRunning false) tm in
    front ← CurrentTask tm1;
    if decide (i = front) then
      '(tm2, current_task) ← RotateCurrentRunQueue true tm1;
      now ← CurrentTask tm2;
      Some (tm2, SwitchContext now current_task)
    else
      q ← getZ (running tm1) (level task);
      qs ← setZ (running tm1) (level task) (Erase q i);
      Some (set_queues qs tm1, Continue).

(** [src/kernel/task.cpp:121-130] [TaskManager::Sleep(uint64_t)] *)
Definition Sleep_id (i : Z) (tm : TaskManager) : option (TaskManager * control * Code) :=
  match find_task tm i with
  | None => Some (tm, Continue, kNoSuchTask)
  | Some _ => '(tm', c) ← Sleep i tm; Some (tm', c, kSuccess)
  end.

(** [src/kernel/task.cpp:263-289] [TaskManager::ChangeLevelRunning] *)
Definition ChangeLevelRunning (i new_level : Z) (tm : TaskManager) : option TaskManager :=
  task ← find_task tm i;
  if decide (new_level < 0 \/ new_level = level task) then Some tm
  else
    front ← CurrentTask tm;
    if decide (i <> front) then
      q ← getZ (running tm) (level task);
      qs1 ← setZ (running tm) (level task) (Erase q i);
      q' ← getZ qs1 new_level;
      qs2 ← setZ qs1 new_level (q' ++ [i]);
      let tm1 := upd_task i (SetLevel new_level) (set_queues qs2 tm) in
      Some (if decide (new_level > current_level tm) then set_level_changed true tm1 else tm1)
    else
      q ← getZ (running tm) (current_level tm);
      qs1 ← setZ (running tm) (current_level tm) (tail q);
      q' ← getZ qs1 new_level;
      qs2 ← setZ qs1 new_level (i :: q');
      let tm1 := upd_task i (SetLevel new_level) (set_queues qs2 tm) in
      Some (if decide (new_level >= current_level tm) then set_current_level new_level tm1
            else set_level_changed true (set_current_level new_level tm1)).

(** [src/kernel/task.cpp:132-150] [TaskManager::Wakeup] *)
Definition Wakeup (i new_level : Z) (tm : TaskManager) : option TaskManager :=
  task ← find_task tm i;
  if is_running task then ChangeLevelRunning i new_level tm
  else
    let lv := if decide (new_level < 0) then level task else new_level in
    let tm1 := upd_task i (fun t => SetRunning true (SetLevel lv t)) tm in
    q ← getZ (running tm1) lv;
    qs ← setZ (running tm1) lv (q ++ [i]);
    let tm2 := set_queues qs tm1 in
    Some (if decide (lv > current_level tm2) then set_level_changed true tm2 else tm2).

(** [src/kernel/task.cpp:152-161] [TaskManager::Wakeup(uint64_t)] *)
Definition Wakeup_id (i new_level : Z) (tm : TaskManager) : option (TaskManager * Code) :=
  match find_task tm i with
  | None => Some (tm, kNoSuchTask)
  | Some _ => tm' ← Wakeup i new_level tm; Some (tm', kSuccess)
  end.

(** [src/kernel/task.cpp:59-62] [Task::SendMessage] *)
Definition Task_SendMessage (i : Z) (msg : Message) (tm : TaskManager) : option TaskManager :=
  Wakeup i (-1) (upd_task i (fun t => set_msgs (msgs t ++ [msg]) t) tm).

(** [src/kernel/task.cpp:163-172] [TaskManager::SendMessage] *)
Definition SendMessage (i : Z) (msg : Message) (tm : TaskManager) :
    option (TaskManager * Code) :=
  match find_task tm i with
  | None => Some (tm, kNoSuchTask)
  | Some _ => tm' ← Task_SendMessage i msg tm; Some (tm', kSuccess)
  end.

(** [src/kernel/task.cpp:176-186] [TaskManager::FindTask(name)] *)
Definition FindTask_name (n : list Z) (tm : TaskManager) : Z :=
  match List.find (fun t => bool_decide (name t = n)) (tasks tm) with
  | None => 0
  | Some t => id t
  end.

(** The code dereferences the iterator without comparing it with [end()]: an
    unknown identifier is undefined behaviour, not a null result.
    [src/kernel/task.cpp:188-193] [TaskManager::FindTask(uint64_t)] *)
Definition FindTask_id (i : Z) (tm : TaskManager) : option Z := id <$> find_task tm i.

(** [src/kernel/task.cpp:195-204] [TaskManager::ExpandTaskBuffer] *)
Definition ExpandTaskBuffer (i n : Z) (tm : TaskManager) : TaskManager * Code :=
  match find_task tm i with
  | None => (tm, kNoSuchTask)
  | Some t => (upd_task i (set_buf (resize (Z.to_nat n) 0 (buf t))) tm, kSuccess)
  end.

(** [src] is the memory the pointer argument designates; its length is [len].
    The size is computed in 64 bits and narrowed to [int].
    [src/kernel/task.cpp:206-221] [TaskManager::CopyToTaskBuffer] *)
Definition CopyToTaskBuffer (i : Z) (src : list Z) (offset len : Z) (tm : TaskManager) :
    option (TaskManager * Z) :=
  match find_task tm i with
  | None => Some (tm, -1)
  | Some t =>
      let remain_bytes := s32 (u64 (Z.of_nat (length (buf t)) - u64 (offset + len))) in
      if decide (remain_bytes < 0) then Some (tm, -1)
      else
        b ← write_at (buf t) (Z.to_nat offset) src;
        Some (upd_task i (set_buf b) tm, remain_bytes)
  end.

(** [f] is the address of [TaskApp] or [TaskServer].
    [src/kernel/task.cpp:223-231] [TaskManager::StartAppTask] *)
Definition StartTask (kernel_cr3 stack_end f i data : Z) (tm : TaskManager) :
    option (TaskManager * Code) :=
  match find_task tm i with
  | None => Some (tm, kNoSuchTask)
  | Some _ =>
      tm' ← Wakeup i (-1) (upd_task i (InitContext kernel_cr3 stack_end f data) tm);
      Some (tm', kSuccess)
  end.

(** [src/kernel/task.cpp:243-261] [TaskManager::Finish] *)
Definition Finish (exit_code : Z) (tm : TaskManager) : option (TaskManager * control) :=
  '(tm1, current_task) ← RotateCurrentRunQueue true tm;
  let tm2 := set_tasks (erase_key id current_task (tasks tm1)) tm1 in
  let ft := <[current_task := exit_code]> (finish_tasks tm2) in
  tm3 ← match finish_waiter tm2 !! current_task with
        | Some waiter =>
            Wakeup waiter (-1) (set_finish ft (delete current_task (finish_waiter tm2)) tm2)
        | None => Some (set_finish ft (finish_waiter tm2) tm2)
        end;
  now ← CurrentTask tm3;
  Some (tm3, RestoreContext now).

(** One turn of the loop: the exit code, or the caller asleep until it is
    resumed at the head of the loop.
    [src/kernel/task.cpp:291-304] [TaskManager::WaitFinish] *)
Definition WaitFinish (task_id : Z) (tm : TaskManager) :
    option (TaskManager * (Z + control)) :=
  current_task ← CurrentTask tm;
  match finish_tasks tm !! task_id with
  | Some exit_code =>
      Some (set_finish (delete task_id (finish_tasks tm)) (finish_waiter tm) tm, inl exit_code)
  | None =>
      '(tm', c) ← Sleep current_task
        (set_finish (finish_tasks tm) (<[task_id := current_task]> (finish_waiter tm)) tm);
      Some (tm', inr c)
  end.

(** [src/kernel/task.cpp:82-89] [TaskManager::TaskManager] *)
Definition InitialTaskManager (kernel_cr3 stack_end TaskIdle : Z) : TaskManager :=
  let main := SetRunning true (SetLevel kMaxLevel (MakeTask 1)) in
  let idle := SetRunning true (SetLevel 0
                (InitContext kernel_cr3 stack_end TaskIdle 0 (MakeTask 2))) in
  MkTM [main; idle] 2 [[2]; []; []; [1]] kMaxLevel false ∅ ∅.

(** ** Where a task is *)

(** The queue of level [lv]; empty outside the array. *)
Definition queue (tm : TaskManager) (lv : Z) : list Z := default [] (getZ (running tm) lv).

(** The level at which task [i] runs, when it does. *)
Definition run_level (t : Task) : option Z := if is_running t then Some (level t) else None.
Definition where_is (tm : TaskManager) (i : Z) : option Z := find_task tm i ≫= run_level.

Definition idle_id : Z := 2.

(** The queues and the tasks agree: a task is in the queue of level [lv]
    exactly when it is running at that level, and then once. *)
Record core (tm : TaskManager) : Prop := {
  so_ids : NoDup (map id (tasks tm));
  so_latest : forall i t, find_task tm i = Some t -> 0 < i <= latest_id tm /\ 0 <= level t <= kMaxLevel;
  so_queues : length (running tm) = 4%nat;
  so_nodup : forall lv, NoDup (queue tm lv);
  so_where : forall lv i, i ∈ queue tm lv <-> where_is tm i = Some lv;
}.

(** The invariant of the scheduler: the current level is the highest
    non-empty one unless a change is pending, the idle task keeps the lowest
    queue non-empty, and every task registered as waiting exists. *)
Record sched_ok (tm : TaskManager) : Prop := {
  so_core :> core tm;
  so_current : 0 <= current_level tm <= kMaxLevel;
  so_nonempty : queue tm (current_level tm) <> [];
  so_highest : level_changed tm = false ->
    forall lv, current_level tm < lv -> queue tm lv = [];
  so_idle : idle_id ∈ queue tm 0;
  so_waiters : forall t w, finish_waiter tm !! t = Some w -> is_Some (find_task tm w) /\ w <> t;
}.

Create HintDb sched.
#[export] Hint Resolve so_ids so_latest so_queues so_current so_nodup so_nonempty so_idle so_core : sched.

Lemma find_upd_task i f tm j :
  (forall t, id (f t) = id t) ->
  find_task (upd_task i f tm) j =
  if decide (j = i) then f <$> find_task tm i else find_task tm j.
Proof. intros. unfold find_task, upd_task, set_tasks; simpl. by apply find_alter_key. Qed.

Lemma find_task_in tm i t : find_task tm i = Some t -> t ∈ tasks tm /\ id t = i.
Proof. apply find_key_Some. Qed.

Lemma queue_set tm qs lv lv' q :
  setZ (running tm) lv q = Some qs ->
  queue (set_queues qs tm) lv' = if decide (lv = lv') then q else queue tm lv'.
Proof.
  intros Hs. unfold queue, set_queues; simpl. rewrite (getZ_setZ _ _ _ _ _ Hs).
  by case_decide.
Qed.

Lemma get_queue tm lv :
  length (running tm) = 4%nat -> 0 <= lv <= kMaxLevel ->
  getZ (running tm) lv = Some (queue tm lv).
Proof.
  unfold kMaxLevel, queue. intros. destruct (getZ_Some (running tm) lv) as [q Hq]; [lia|].
  by rewrite Hq.
Qed.

Lemma set_queue tm lv q :
  length (running tm) = 4%nat -> 0 <= lv <= kMaxLevel ->
  exists qs, setZ (running tm) lv q = Some qs /\ length qs = 4%nat.
Proof.
  unfold kMaxLevel. intros. rewrite setZ_Some by lia. eexists; split; [done|].
  by rewrite length_insert.
Qed.

Lemma CurrentTask_queue tm :
  length (running tm) = 4%nat -> 0 <= current_level tm <= kMaxLevel ->
  CurrentTask tm = head (queue tm (current_level tm)).
Proof. intros. unfold CurrentTask. by rewrite get_queue. Qed.

Lemma queue_out_of_range tm lv :
  length (running tm) = 4%nat -> ~ (0 <= lv <= kMaxLevel) -> queue tm lv = [].
Proof.
  unfold queue, kMaxLevel. intros. destruct (getZ (running tm) lv) eqn:E; [|done].
  apply getZ_inv in E. lia.
Qed.

Lemma elem_of_Erase q i j : j ∈ Erase q i <-> j ∈ q /\ j <> i.
Proof. unfold Erase. rewrite list_elem_of_filter. tauto. Qed.

(** [highest_level] finds the highest non-empty queue below its start. *)
Lemma highest_level_spec qs lv :
  match highest_level qs lv with
  | Some l => 0 <= l <= Z.of_nat lv /\ default [] (getZ qs l) <> [] /\
      forall l', l < l' <= Z.of_nat lv -> default [] (getZ qs l') = []
  | None => forall l', 0 <= l' <= Z.of_nat lv -> default [] (getZ qs l') = []
  end.
Proof.
  assert (Hget : forall n : nat, getZ qs (Z.of_nat n) = qs !! n).
  { intros n. unfold getZ. rewrite decide_True by lia. by rewrite Nat2Z.id. }
  induction lv as [|lv IH]; cbn [highest_level].
  - destruct (qs !! 0%nat) as [[|x q]|] eqn:E; cbn.
    + intros l' ?. assert (l' = Z.of_nat 0) as -> by lia. by rewrite Hget, E.
    + split_and!; [lia..| |intros; lia]. change 0 with (Z.of_nat 0). by rewrite Hget, E.
    + intros l' ?. assert (l' = Z.of_nat 0) as -> by lia. by rewrite Hget, E.
  - assert (Hemp : (forall x q, qs !! S lv <> Some (x :: q)) ->
      default [] (getZ qs (Z.of_nat (S lv))) = []).
    { rewrite Hget. destruct (qs !! S lv) as [[|x q]|]; [done| |done]. intros H. by destruct (H x q). }
    assert (Hstep : (forall x q, qs !! S lv <> Some (x :: q)) -> 
      match highest_level qs lv with
      | Some l => 0 <= l <= Z.of_nat (S lv) /\ default [] (getZ qs l) <> [] /\
          forall l', l < l' <= Z.of_nat (S lv) -> default [] (getZ qs l') = []
      | None => forall l', 0 <= l' <= Z.of_nat (S lv) -> default [] (getZ qs l') = []
      end).
    { intros Hne%Hemp. destruct (highest_level qs lv) as [l|].
      - destruct IH as (?&?&IH). split_and!; [lia..|done|]. intros l' ?.
        destruct (decide (l' = Z.of_nat (S lv))) as [->|]; [done|apply IH; lia].
      - intros l' ?. destruct (decide (l' = Z.of_nat (S lv))) as [->|]; [done|apply IH; lia]. }
    destruct (qs !! S lv) as [[|x q]|] eqn:E; [apply Hstep; congruence| |apply Hstep; congruence].
    split_and!; [lia..| |intros; lia]. by rewrite Hget, E.
Qed.

(** Moving one task [i] to level [l] (or nowhere) keeps the queues and the
    tasks in agreement. *)
Lemma core_move tm tm' i l :
  core tm -> is_Some (find_task tm i) ->
  map id (tasks tm') = map id (tasks tm) ->
  latest_id tm' = latest_id tm -> length (running tm') = 4%nat ->
  (forall j, j <> i -> find_task tm' j = find_task tm j) ->
  (forall t, find_task tm' i = Some t -> run_level t = l /\ 0 <= level t <= kMaxLevel) ->
  (forall lv, NoDup (queue tm' lv)) ->
  (forall lv j, j ∈ queue tm' lv <-> if decide (j = i) then l = Some lv else j ∈ queue tm lv) ->
  core tm'.
Proof.
  intros [Hids Hlat Hqs Hnd Hwh] [t0 Hi] Hmap Hl Hlen Hoth Hti Hnd' Hin.
  assert (is_Some (find_task tm' i)) as [ti Hti'].
  { destruct (find_task tm' i) as [t|] eqn:E; [by eexists|exfalso].
    apply find_key_None in E. rewrite Hmap in E.
    apply E. apply find_task_in in Hi as [? <-]. by apply list_elem_of_fmap_2. }
  split; rewrite ?Hl, ?Hmap; auto.
  - intros j t Ht. destruct (decide (j = i)) as [->|].
    + destruct (Hti t Ht). split; [|done]. by destruct (Hlat i t0 Hi).
    + rewrite Hoth in Ht by done. by apply Hlat.
  - intros lv j. rewrite Hin. unfold where_is. case_decide as E; [subst j|].
    + rewrite Hti'; cbn. destruct (Hti ti Hti') as [-> _]. split; congruence.
    + rewrite Hwh. unfold where_is. by rewrite Hoth by done.
Qed.

Lemma run_level_running t : is_running t = true -> run_level t = Some (level t).
Proof. unfold run_level. by intros ->. Qed.

Lemma where_task tm i t : find_task tm i = Some t -> where_is tm i = run_level t.
Proof. unfold where_is. by intros ->. Qed.

Lemma queue_upd i f tm lv : queue (upd_task i f tm) lv = queue tm lv.
Proof. done. Qed.

Lemma queue_level tm lv i : length (running tm) = 4%nat -> i ∈ queue tm lv -> 0 <= lv <= kMaxLevel.
Proof.
  intros Hl Hi. destruct (decide (0 <= lv <= kMaxLevel)); [done|].
  rewrite queue_out_of_range in Hi by done. by apply not_elem_of_nil in Hi.
Qed.

Lemma CurrentTask_elem tm i : CurrentTask tm = Some i -> i ∈ queue tm (current_level tm).
Proof.
  unfold CurrentTask, queue. destruct (getZ (running tm) (current_level tm)) as [[|x q]|]; cbn;
    try done. intros [= ->]. by left.
Qed.

Lemma CurrentTask_some tm : sched_ok tm -> exists c q,
  CurrentTask tm = Some c /\ queue tm (current_level tm) = c :: q /\ is_Some (find_task tm c).
Proof.
  intros H. pose proof (so_nonempty _ H) as Hne. pose proof (so_where _ H) as Hw.
  unfold CurrentTask. rewrite get_queue by eauto with sched.
  destruct (queue tm (current_level tm)) as [|c q] eqn:E; [done|]. exists c, q; cbn.
  split_and!; [done..|]. specialize (Hw (current_level tm) c). rewrite E in Hw.
  destruct Hw as [Hw _]. specialize (Hw ltac:(by left)). unfold where_is in Hw.
  destruct (find_task tm c); [by eexists|done].
Qed.

(** ** RotateCurrentRunQueue *)

(** The queues after a rotation that drops or keeps the current task. *)
Definition rotated (sleep : bool) (tm : TaskManager) (lv : Z) : list Z :=
  if decide (lv = current_level tm)
  then tail (queue tm lv) ++ (if sleep then [] else take 1 (queue tm lv))
  else queue tm lv.

(** What a rotation leaves: the same tasks, the rotated queues, and as the
    current level the highest non-empty one. *)
Record rotate_post (sleep : bool) (tm tm' : TaskManager) : Prop := {
  rp_tasks : tasks tm' = tasks tm;
  rp_latest : latest_id tm' = latest_id tm;
  rp_finish : finish_tasks tm' = finish_tasks tm;
  rp_waiter : finish_waiter tm' = finish_waiter tm;
  rp_len : length (running tm') = 4%nat;
  rp_queue : forall lv, queue tm' lv = rotated sleep tm lv;
  rp_changed : level_changed tm' = false;
  rp_current : 0 <= current_level tm' <= kMaxLevel;
  rp_nonempty : queue tm' (current_level tm') <> [];
  rp_highest : forall lv, current_level tm' < lv -> queue tm' lv = [];
}.

Lemma rotate_spec sleep tm c q :
  length (running tm) = 4%nat -> 0 <= current_level tm <= kMaxLevel ->
  queue tm (current_level tm) = c :: q ->
  (level_changed tm = false -> forall lv, current_level tm < lv -> queue tm lv = []) ->
  (exists lv, rotated sleep tm lv <> []) ->
  exists tm', RotateCurrentRunQueue sleep tm = Some (tm', c) /\ rotate_post sleep tm tm'.
Proof.
  intros Hlen Hcur Hq Hhigh [lvn Hne]. unfold RotateCurrentRunQueue.
  rewrite get_queue, Hq by done. cbn [mbind option_bind].
  set (q' := if sleep then q else q ++ [c]).
  destruct (set_queue tm (current_level tm) q') as (qs & Hqs & Hlqs); [done..|].
  rewrite Hqs. cbn [mbind option_bind].
  assert (Hrot : forall lv, queue (set_queues qs tm) lv = rotated sleep tm lv).
  { intros lv. rewrite (queue_set _ _ _ _ _ Hqs). unfold rotated.
    repeat case_decide; try congruence. subst lv. rewrite Hq. unfold q'.
    destruct sleep; cbn; by rewrite ?app_nil_r. }
  set (tm2 := match q' with [] => _ | _ => _ end).
  assert (H2 : queue tm2 = queue (set_queues qs tm)) by (unfold tm2; by destruct q').
  assert (H2r : running tm2 = qs) by (unfold tm2; by destruct q').
  assert (H2c : current_level tm2 = current_level tm) by (unfold tm2; by destruct q').
  assert (H2f : level_changed tm2 = false -> level_changed tm = false /\ q' <> []).
  { unfold tm2. by destruct q'. }
  eexists; split; [done|]. destruct (level_changed tm2) eqn:Hch.
  - cbn [running set_level_changed]. rewrite H2r.
    pose proof (highest_level_spec qs (Z.to_nat kMaxLevel)) as Hhl. fold (queue (set_queues qs tm)) in Hhl.
    assert (Hr : forall lv, default [] (getZ qs lv) = rotated sleep tm lv) by exact Hrot.
    destruct (highest_level qs (Z.to_nat kMaxLevel)) as [l|].
    + destruct Hhl as (Hl & Hl1 & Hl2).
      assert (Hhi : forall lv, l < lv -> default [] (getZ qs lv) = []).
      { intros lv ?. destruct (decide (lv <= kMaxLevel)); [apply Hl2; unfold kMaxLevel in *; lia|].
        destruct (getZ qs lv) eqn:E; [|done]. apply getZ_inv in E. unfold kMaxLevel in *; lia. }
      unfold kMaxLevel in *.
      split; cbn; rewrite ?H2r; try (unfold tm2; by destruct q'); try lia; auto.
    + destruct Hne. rewrite <- Hr. destruct (decide (0 <= lvn <= kMaxLevel)).
      * apply Hhl. unfold kMaxLevel in *. lia.
      * destruct (getZ qs lvn) eqn:E; [|done]. apply getZ_inv in E. unfold kMaxLevel in *; lia.
  - destruct H2f as [Hch0 Hq']; [done|].
    assert (Hcq : queue tm2 (current_level tm) = q').
    { rewrite H2, (queue_set _ _ _ _ _ Hqs). by case_decide. }
    split; rewrite ?H2c, ?H2, ?H2r; try (unfold tm2; by destruct q'); auto; try lia.
    + rewrite <- H2. by rewrite Hcq.
    + intros lv ?. rewrite (queue_set _ _ _ _ _ Hqs), decide_False by lia. by apply Hhigh.
Qed.

(** ** The operations keep the invariant *)

(** The fields other than the queues and the tasks. *)
Definition same_rest (tm tm' : TaskManager) : Prop :=
  latest_id tm' = latest_id tm /\ finish_tasks tm' = finish_tasks tm /\
  finish_waiter tm' = finish_waiter tm.

(** [tm'] has the tasks of [tm], except that [i] is now [f] of what it was. *)
Definition only_task (i : Z) (f : Task -> Task) (tm tm' : TaskManager) : Prop :=
  forall j, find_task tm' j = if decide (j = i) then f <$> find_task tm i else find_task tm j.

Lemma same_rest_trans tm tm1 tm2 : same_rest tm tm1 -> same_rest tm1 tm2 -> same_rest tm tm2.
Proof. unfold same_rest. intuition congruence. Qed.

Lemma only_task_is_Some i f tm tm' j :
  only_task i f tm tm' -> is_Some (find_task tm' j) <-> is_Some (find_task tm j).
Proof.
  intros H. rewrite (H j). case_decide; [subst j|done]. by rewrite fmap_is_Some.
Qed.

Lemma only_task_trans i f g tm tm1 tm2 :
  only_task i f tm tm1 -> only_task i g tm1 tm2 -> only_task i (fun t => g (f t)) tm tm2.
Proof.
  intros H1 H2 j. rewrite H2, !H1. repeat case_decide; try congruence.
  by destruct (find_task tm i).
Qed.

(** An update that keeps the identifier, the level and the running flag. *)
Record keeps_place (f : Task -> Task) : Prop := {
  kp_id : forall t, id (f t) = id t;
  kp_level : forall t, level (f t) = level t;
  kp_running : forall t, is_running (f t) = is_running t;
}.

Lemma upd_where f i tm j : keeps_place f -> where_is (upd_task i f tm) j = where_is tm j.
Proof.
  intros Hf. unfold where_is. rewrite find_upd_task by apply Hf. case_decide; [subst j|done].
  destruct (find_task tm i) as [t|]; [|done]. cbn. unfold run_level.
  by rewrite (kp_level f Hf), (kp_running f Hf).
Qed.

Lemma map_id_upd f i tm :
  (forall t, id (f t) = id t) -> map id (tasks (upd_task i f tm)) = map id (tasks tm).
Proof. intros. by apply map_key_alter. Qed.

Lemma upd_core f i tm : keeps_place f -> core tm -> core (upd_task i f tm).
Proof.
  intros Hf [Hids Hlat Hqs Hnd Hwh]. split; auto.
  - rewrite map_id_upd; [done|apply Hf].
  - intros j t. rewrite find_upd_task by apply Hf. case_decide; [subst j|apply Hlat].
    destruct (find_task tm i) as [t0|] eqn:E; [|done]. cbn. intros [= <-].
    rewrite (kp_level f Hf). by apply Hlat.
  - intros lv j. by rewrite queue_upd, upd_where.
Qed.

Lemma upd_only f i tm : (forall t, id (f t) = id t) -> only_task i f tm (upd_task i f tm).
Proof. intros ? j. by apply find_upd_task. Qed.

Lemma upd_ok f i tm : keeps_place f -> sched_ok tm -> sched_ok (upd_task i f tm).
Proof.
  intros Hf [Hc Hcur Hne Hhi Hidle Hw]. split; auto.
  - by apply upd_core.
  - intros t w H. destruct (Hw t w H). split; [|done].
    rewrite (only_task_is_Some i f tm); [done|]. apply upd_only, Hf.
Qed.

Lemma set_msgs_keeps g : keeps_place (fun t => set_msgs (g t) t).
Proof. by split. Qed.
Lemma set_context_keeps c : keeps_place (set_context c).
Proof. by split. Qed.
Lemma set_buf_keeps b : keeps_place (set_buf b).
Proof. by split. Qed.
Lemma InitContext_keeps a b c d : keeps_place (InitContext a b c d).
Proof. by split. Qed.
#[export] Hint Resolve set_msgs_keeps set_context_keeps set_buf_keeps InitContext_keeps : sched.

Lemma NoDup_snoc {A} (l : list A) x : NoDup l -> x ∉ l -> NoDup (l ++ [x]).
Proof.
  intros. apply NoDup_app. split_and!; [done| |apply NoDup_singleton].
  intros y Hy ->%list_elem_of_singleton. done.
Qed.

(** The state of [tm'] when only the place of task [i] changed. *)
Lemma waiters_move tm tm' i f :
  sched_ok tm -> only_task i f tm tm' -> finish_waiter tm' = finish_waiter tm ->
  forall t w, finish_waiter tm' !! t = Some w -> is_Some (find_task tm' w) /\ w <> t.
Proof.
  intros H Ho -> t w Hw. destruct (so_waiters _ H _ _ Hw). split; [|done].
  by apply (only_task_is_Some i f tm).
Qed.

Lemma core_flag b tm : core tm -> core (set_level_changed b tm).
Proof. intros []; by split. Qed.
Lemma core_level l tm : core tm -> core (set_current_level l tm).
Proof. intros []; by split. Qed.
#[export] Hint Resolve core_flag core_level : sched.

(** The level a wake-up asks for: a negative one keeps the task's own. *)
Definition wake_level (lv : Z) (t : Task) : Z := if decide (lv < 0) then level t else lv.

(** A request the kernel may make: the level exists, and the idle task is not
    moved from the lowest queue. *)
Definition level_allowed (i lv : Z) : Prop := lv <= kMaxLevel /\ (i = idle_id -> lv <= 0).

Record wakeup_post (i lv : Z) (t : Task) (tm tm' : TaskManager) : Prop := {
  wp_ok : sched_ok tm';
  wp_rest : same_rest tm tm';
  wp_task : only_task i (fun t => SetRunning true (SetLevel (wake_level lv t) t)) tm tm';
}.

Lemma idle_level tm t : sched_ok tm -> find_task tm idle_id = Some t -> level t = 0 /\ is_running t = true.
Proof.
  intros H Ht. pose proof (so_idle _ H) as Hi. apply (so_where _ H) in Hi.
  rewrite (where_task _ _ _ Ht) in Hi. unfold run_level in Hi. destruct (is_running t); [|done].
  split; congruence.
Qed.

(** Waking a task that sleeps. *)
Lemma Wakeup_sleeping_ok i lv t tm :
  sched_ok tm -> find_task tm i = Some t -> is_running t = false -> lv <= kMaxLevel ->
  exists tm', Wakeup i lv tm = Some tm' /\ wakeup_post i lv t tm tm'.
Proof.
  intros H Ht Hrun Hlv. unfold Wakeup. rewrite Ht; cbn [mbind option_bind]. rewrite Hrun.
  fold (wake_level lv t). set (l := wake_level lv t). set (tm1 := upd_task i _ tm).
  destruct (so_latest _ H i t Ht) as [_ Htl].
  assert (Hl : 0 <= l <= kMaxLevel) by (unfold l, wake_level; case_decide; lia).
  assert (Hlen1 : length (running tm1) = 4%nat) by exact (so_queues _ H).
  rewrite (get_queue tm1) by done. cbn [mbind option_bind].
  destruct (set_queue tm1 l (queue tm1 l ++ [i])) as (qs & Hqs & Hlen); [done..|].
  rewrite Hqs; cbn [mbind option_bind]. eexists; split; [done|].
  assert (Hni : forall lv, i ∉ queue tm lv).
  { intros lv' Hin%(so_where _ H). rewrite (where_task _ _ _ Ht) in Hin.
    unfold run_level in Hin. by rewrite Hrun in Hin. }
  assert (Hot : only_task i (fun t => SetRunning true (SetLevel (wake_level lv t) t)) tm (set_queues qs tm1)).
  { intros j. etransitivity; [by apply find_upd_task|]. rewrite Ht; cbn. done. }
  assert (Hq : forall lv', queue (set_queues qs tm1) lv' = if decide (l = lv') then queue tm l ++ [i] else queue tm lv').
  { intros lv'. by rewrite (queue_set _ _ _ _ _ Hqs). }
  assert (Hc : core (set_queues qs tm1)).
  { eapply (core_move tm _ i (Some l)); [apply H|by eexists|by apply map_id_upd|done|done| | | |].
    - intros j ?. rewrite (Hot j). by case_decide.
    - intros t'. rewrite (Hot i), decide_True, Ht by done. cbn. intros [= <-]. done.
    - intros lv'. rewrite Hq. case_decide; [|by apply H]. apply NoDup_snoc; [apply H|apply Hni].
    - intros lv' j. rewrite Hq. case_decide as E1; case_decide as E2; subst.
      + split; [done|]. intros _. apply elem_of_app. right. by left.
      + rewrite elem_of_app, list_elem_of_singleton. tauto.
      + split; [intros Hin; by apply Hni in Hin|congruence].
      + done. }
  assert (Hidle : idle_id ∈ queue (set_queues qs tm1) 0).
  { rewrite Hq. pose proof (so_idle _ H). case_decide as E; [|done]. rewrite E.
    apply elem_of_app. by left. }
  assert (Hne : queue (set_queues qs tm1) (current_level tm) <> []).
  { rewrite Hq. case_decide; [by destruct (queue tm l)|by apply so_nonempty]. }
  set (tm2 := if decide (l > _) then _ else _).
  assert (Hw := waiters_move tm (set_queues qs tm1) i _ H Hot eq_refl).
  split; unfold tm2.
  - case_decide; split; try done; try exact (so_current _ H); [by apply core_flag|].
    intros Hf lv' ?. rewrite Hq, decide_False by (cbn in *; lia). by apply (so_highest _ H).
  - by case_decide.
  - by case_decide.
Qed.

Lemma run_self t : is_running t = true -> SetRunning true (SetLevel (level t) t) = t.
Proof. destruct t; cbn. by intros ->. Qed.

Lemma only_task_id i t f tm :
  find_task tm i = Some t -> f t = t -> only_task i f tm tm.
Proof. intros Ht Hf j. case_decide; [subst j; rewrite Ht; cbn; by rewrite Hf|done]. Qed.

Lemma running_queue tm i t :
  sched_ok tm -> find_task tm i = Some t -> is_running t = true ->
  forall lv, i ∈ queue tm lv <-> lv = level t.
Proof.
  intros H Ht Hr lv. rewrite (so_where _ H), (where_task _ _ _ Ht), run_level_running by done.
  split; congruence.
Qed.

(** The queues after [i] moved from level [a] to another level [l]. *)
Lemma moved_core tm tm' i t l :
  sched_ok tm -> find_task tm i = Some t -> is_running t = true -> 0 <= l <= kMaxLevel ->
  map id (tasks tm') = map id (tasks tm) -> latest_id tm' = latest_id tm ->
  length (running tm') = 4%nat -> only_task i (SetLevel l) tm tm' ->
  (forall lv, lv <> l -> lv <> level t -> queue tm' lv = queue tm lv) ->
  (exists q, queue tm' (level t) = q /\ NoDup q /\ forall j, j ∈ q <-> j ∈ queue tm (level t) /\ j <> i) ->
  (exists q, queue tm' l = q /\ NoDup q /\ forall j, j ∈ q <-> j ∈ queue tm l \/ j = i) ->
  core tm'.
Proof.
  intros H Ht Hr Hl Hmap Hlat Hlen Ho Hq (qa & Ha & Hnda & Hina) (ql & Hql & Hndl & Hinl).
  pose proof (running_queue _ _ _ H Ht Hr) as Hin.
  assert (l <> level t) as Hne.
  { intros ->. rewrite Ha in Hql; subst ql. destruct (Hina i) as [Hx _]. destruct Hx; [|done].
    apply Hinl. by right. }
  eapply (core_move tm _ i (Some l)); [apply H|by eexists|done..| | | |].
  - intros j Hj. rewrite (Ho j), decide_False; done.
  - intros t'. rewrite (Ho i), decide_True, Ht by done. cbn. intros [= <-].
    by rewrite run_level_running.
  - intros lv. destruct (decide (lv = l)) as [->|]; [by rewrite Hql|].
    destruct (decide (lv = level t)) as [->|]; [by rewrite Ha|]. rewrite Hq by done. apply H.
  - intros lv j. destruct (decide (lv = l)) as [->|]; [|destruct (decide (lv = level t)) as [->|]].
    + rewrite Hql, Hinl. case_decide; subst; naive_solver.
    + rewrite Ha, Hina. case_decide; subst; naive_solver.
    + rewrite Hq by done. case_decide; subst; [|done]. rewrite Hin. naive_solver.
Qed.

Lemma NoDup_Erase q i : NoDup q -> NoDup (Erase q i).
Proof. apply NoDup_filter. Qed.

Section change_level.
Context (tm : TaskManager) (i lv : Z) (t : Task).
Context (H : sched_ok tm) (Ht : find_task tm i = Some t) (Hr : is_running t = true).
Context (Hlv : level_allowed i lv) (Hpos : 0 <= lv) (Hne : lv <> level t).

Lemma not_idle : i <> idle_id.
Proof using All.
  intros ->. destruct Hlv as [_ Hi]. specialize (Hi eq_refl).
  destruct (idle_level _ _ H Ht). lia.
Qed.

Lemma set_queue2 la qa lb qb :
  0 <= la <= kMaxLevel -> 0 <= lb <= kMaxLevel -> exists qs1 qs2,
  setZ (running tm) la qa = Some qs1 /\
  (la <> lb -> getZ qs1 lb = Some (queue tm lb)) /\
  setZ qs1 lb qb = Some qs2 /\ length qs2 = 4%nat /\
  forall lv', default [] (getZ qs2 lv') =
    if decide (lb = lv') then qb else if decide (la = lv') then qa else queue tm lv'.
Proof using H.
  intros Ha Hb. destruct (set_queue tm la qa) as (qs1 & Hq1 & Hl1); [apply H|done|].
  destruct (set_queue (set_queues qs1 tm) lb qb) as (qs2 & Hq2 & Hl2); [done..|].
  exists qs1, qs2. split_and!; try done.
  - intros. rewrite (getZ_setZ _ _ _ _ _ Hq1), decide_False by done.
    apply get_queue; [apply H|done].
  - intros lv'. cbn in Hq2. rewrite (getZ_setZ _ _ _ _ _ Hq2), (getZ_setZ _ _ _ _ _ Hq1).
    by repeat case_decide.
Qed.

Lemma ChangeLevel_other_ok front :
  CurrentTask tm = Some front -> i <> front ->
  exists tm', ChangeLevelRunning i lv tm = Some tm' /\ sched_ok tm' /\
    same_rest tm tm' /\ only_task i (SetLevel lv) tm tm'.
Proof using All.
  intros Hf Hif. unfold ChangeLevelRunning. rewrite Ht; cbn [mbind option_bind].
  rewrite decide_False by lia. rewrite Hf; cbn [mbind option_bind]. rewrite decide_True by done.
  destruct (so_latest _ H i t Ht) as [_ Hlt]. destruct Hlv as [Hmax _].
  rewrite get_queue by eauto with sched. cbn [mbind option_bind].
  destruct (set_queue2 (level t) (Erase (queue tm (level t)) i) lv (queue tm lv ++ [i]))
    as (qs1 & qs2 & E1 & E2 & E3 & Hl2 & Hq); [lia..|].
  rewrite E1; cbn [mbind option_bind]. rewrite E2 by done; cbn [mbind option_bind].
  rewrite E3; cbn [mbind option_bind]. eexists; split; [done|].
  set (tm1 := upd_task i (SetLevel lv) (set_queues qs2 tm)).
  pose proof (running_queue _ _ _ H Ht Hr) as Hin.
  assert (Ho : only_task i (SetLevel lv) tm tm1) by exact (upd_only (SetLevel lv) i tm (fun _ => eq_refl)).
  assert (Hq1 : forall lv', queue tm1 lv' = if decide (lv = lv') then queue tm lv ++ [i] else
    if decide (level t = lv') then Erase (queue tm (level t)) i else queue tm lv') by done.
  assert (Hc : core tm1).
  { apply (moved_core tm tm1 i t lv); [done|done|done|lia|exact (map_id_upd (SetLevel lv) i tm (fun _ => eq_refl))|done|done|done| | |].
    - intros. by rewrite Hq1, !decide_False by done.
    - eexists; split_and!; [done| |]; rewrite Hq1, decide_False, decide_True by done;
        [apply NoDup_Erase, H|apply elem_of_Erase].
    - eexists; split_and!; [done| |]; rewrite Hq1, decide_True by done.
      + apply NoDup_snoc; [apply H|]. by rewrite Hin.
      + intros j. by rewrite elem_of_app, list_elem_of_singleton. }
  assert (Hkeep : forall j lv', j <> i -> j ∈ queue tm lv' -> j ∈ queue tm1 lv').
  { intros j lv' ? Hj. rewrite Hq1. repeat case_decide; subst; rewrite ?elem_of_app, ?elem_of_Erase; auto. }
  assert (Hs : forall b, (b = false -> lv <= current_level tm /\ level_changed tm = false) ->
    sched_ok (set_level_changed b tm1)).
  { intros b Hb. split; try exact (so_current _ H).
    - by apply core_flag.
    - intros E. pose proof (Hkeep front (current_level tm) ltac:(done) (CurrentTask_elem _ _ Hf)) as Hk.
      change (queue (set_level_changed b tm1) (current_level tm) = []) in E.
      change (queue tm1 (current_level tm) = []) in E. rewrite E in Hk. by apply not_elem_of_nil in Hk.
    - intros Hbf lv' Hc'. destruct (Hb Hbf) as [? Hch]. pose proof (so_highest _ H Hch) as Hh.
      change (current_level tm < lv') in Hc'. change (queue tm1 lv' = []). rewrite Hq1, decide_False by lia.
      case_decide as E; [subst lv'; rewrite Hh by done; done|by apply Hh].
    - apply Hkeep; [intros E; symmetry in E; revert E; apply not_idle|exact (so_idle _ H)].
    - by eapply waiters_move. }
  split.
  - case_decide; [apply Hs; done|]. specialize (Hs (level_changed tm)). cbn in *.
    apply Hs. intros Hb; split; [lia|exact Hb].
  - by case_decide.
Qed.

Lemma ChangeLevel_self_ok :
  CurrentTask tm = Some i ->
  exists tm', ChangeLevelRunning i lv tm = Some tm' /\ sched_ok tm' /\
    same_rest tm tm' /\ only_task i (SetLevel lv) tm tm'.
Proof using All.
  intros Hf. unfold ChangeLevelRunning. rewrite Ht; cbn [mbind option_bind].
  rewrite decide_False by lia. rewrite Hf; cbn [mbind option_bind]. rewrite decide_False by tauto.
  pose proof (running_queue _ _ _ H Ht Hr) as Hin. destruct Hlv as [Hmax _].
  pose proof (so_current _ H) as Hcur.
  assert (Hcl : current_level tm = level t) by (by apply Hin, CurrentTask_elem).
  destruct (CurrentTask_some _ H) as (c & q & Hf' & Hqc & _).
  assert (c = i) as -> by congruence.
  rewrite get_queue by eauto with sched. rewrite Hqc. cbn [mbind option_bind tail].
  destruct (set_queue2 (current_level tm) q lv (i :: queue tm lv))
    as (qs1 & qs2 & E1 & E2 & E3 & Hl2 & Hq); [lia..|].
  rewrite E1; cbn [mbind option_bind]. rewrite E2 by lia; cbn [mbind option_bind].
  rewrite E3; cbn [mbind option_bind]. eexists; split; [done|].
  set (tm1 := upd_task i (SetLevel lv) (set_queues qs2 tm)).
  assert (Ho : only_task i (SetLevel lv) tm tm1) by exact (upd_only (SetLevel lv) i tm (fun _ => eq_refl)).
  assert (Hq1 : forall lv', queue tm1 lv' = if decide (lv = lv') then i :: queue tm lv else
    if decide (current_level tm = lv') then q else queue tm lv') by done.
  pose proof (so_nodup _ H (current_level tm)) as Hnd. rewrite Hqc in Hnd.
  apply NoDup_cons in Hnd as [Hiq Hndq].
  assert (Hc : core tm1).
  { apply (moved_core tm tm1 i t lv); [done|done|done|lia|exact (map_id_upd (SetLevel lv) i tm (fun _ => eq_refl))|done|done|done| | |].
    - intros. by rewrite Hq1, !decide_False by lia.
    - eexists; split_and!; [done| |]; rewrite Hq1, decide_False, decide_True by lia; [done|].
      intros j. rewrite <- Hcl, Hqc, elem_of_cons. split; [|naive_solver].
      intros Hj. split; [by right|]. by intros ->.
    - eexists; split_and!; [done| |]; rewrite Hq1, decide_True by done.
      + apply NoDup_cons. split; [|apply H]. by rewrite Hin.
      + intros j. rewrite elem_of_cons. tauto. }
  assert (Hs : forall b, (b = false -> current_level tm <= lv /\ level_changed tm = false) ->
    sched_ok (set_level_changed b (set_current_level lv tm1))).
  { intros b Hb. split; try (cbn; lia).
    - by apply core_flag, core_level.
    - change (queue tm1 lv <> []). by rewrite Hq1, decide_True.
    - intros Hbf lv' Hc'. destruct (Hb Hbf) as [? Hch]. pose proof (so_highest _ H Hch) as Hh.
      change (lv < lv') in Hc'. change (queue tm1 lv' = []). rewrite Hq1, !decide_False by lia.
      apply Hh; lia.
    - change (idle_id ∈ queue tm1 0). pose proof (so_idle _ H) as Hid. pose proof not_idle.
      rewrite Hq1. repeat case_decide; subst; [right; congruence| |done].
      replace 0 with (current_level tm) in Hid. rewrite Hqc in Hid. apply elem_of_cons in Hid as [?|?]; [congruence|done].
    - by eapply waiters_move. }
  split.
  - case_decide; [|apply Hs; done]. specialize (Hs (level_changed tm)). cbn in *. apply Hs. intros Hb; split; [lia|exact Hb].
  - by case_decide.
Qed.
End change_level.

Lemma Wakeup_ok i lv t tm :
  sched_ok tm -> find_task tm i = Some t -> level_allowed i lv ->
  exists tm', Wakeup i lv tm = Some tm' /\ wakeup_post i lv t tm tm'.
Proof.
  intros H Ht Hlv. destruct (is_running t) eqn:Hr;
    [|destruct Hlv; by apply Wakeup_sleeping_ok].
  unfold Wakeup. rewrite Ht; cbn [mbind option_bind]. rewrite Hr.
  destruct (decide (lv < 0 \/ lv = level t)) as [Hno|Hyes].
  - exists tm. split; [unfold ChangeLevelRunning; rewrite Ht; cbn; by rewrite decide_True|].
    split; [done|done|]. eapply only_task_id; [done|]. cbn.
    replace (wake_level lv t) with (level t) by (unfold wake_level; case_decide; lia).
    by apply run_self.
  - destruct (CurrentTask_some _ H) as (c & q & Hc & _ & _).
    assert (exists tm', ChangeLevelRunning i lv tm = Some tm' /\ sched_ok tm' /\
      same_rest tm tm' /\ only_task i (SetLevel lv) tm tm') as (tm' & E & Hs & Hrest & Ho).
    { destruct (decide (i = c)) as [->|].
      - eapply ChangeLevel_self_ok; eauto; lia.
      - eapply ChangeLevel_other_ok; eauto; lia. }
    exists tm'. split; [done|]. split; [done..|]. intros j. rewrite (Ho j).
    case_decide; [subst j|done]. rewrite Ht; cbn. f_equal.
    unfold wake_level. rewrite decide_False by lia. destruct t; cbn in *. by subst.
Qed.

Lemma Task_SendMessage_ok i msg t tm :
  sched_ok tm -> find_task tm i = Some t ->
  exists tm', Task_SendMessage i msg tm = Some tm' /\ sched_ok tm' /\ same_rest tm tm' /\
    only_task i (fun t => SetRunning true (set_msgs (msgs t ++ [msg]) t)) tm tm'.
Proof.
  intros H Ht. unfold Task_SendMessage. set (f := fun t : Task => set_msgs _ t).
  assert (Hf : keeps_place f) by apply set_msgs_keeps.
  destruct (Wakeup_ok i (-1) (f t) (upd_task i f tm)) as (tm' & E & [Hs Hr Ho]).
  - by apply upd_ok.
  - rewrite find_upd_task by done. by rewrite decide_True, Ht.
  - split; unfold kMaxLevel; lia.
  - exists tm'. split; [done|]. split; [done|]. split; [exact Hr|].
    intros j. rewrite (Ho j), !find_upd_task by done.
    case_decide; [|done]. rewrite decide_True, Ht by done; cbn. by destruct t.
Qed.

(** ** Sleep, SwitchTask, Finish *)

Lemma rotated_in tm lv j :
  j ∈ rotated false tm lv <-> j ∈ queue tm lv.
Proof.
  unfold rotated. case_decide; [|done]. destruct (queue tm lv) as [|x q]; cbn; [done|].
  rewrite elem_of_app, !elem_of_cons, elem_of_nil. tauto.
Qed.

Lemma rotated_NoDup b tm lv : NoDup (queue tm lv) -> NoDup (rotated b tm lv).
Proof.
  unfold rotated. intros Hn. case_decide; [|done]. destruct (queue tm lv) as [|x q]; cbn; [by destruct b|].
  apply NoDup_cons in Hn as []. destruct b; rewrite ?app_nil_r; [done|]. by apply NoDup_snoc.
Qed.

Lemma rotated_sleep_in tm c q lv j :
  queue tm (current_level tm) = c :: q -> NoDup (c :: q) ->
  j ∈ rotated true tm lv <-> j ∈ queue tm lv /\ (j = c -> lv <> current_level tm).
Proof.
  intros Hq [Hc _]%NoDup_cons. unfold rotated. case_decide as E; [|tauto].
  rewrite E, Hq, app_nil_r; cbn. rewrite elem_of_cons.
  split; [|tauto]. intros Hj. split; [by right|]. by intros ->.
Qed.

Lemma sched_of_rotate b tm tm' :
  rotate_post b tm tm' -> core tm' -> idle_id ∈ rotated b tm 0 ->
  (forall t w, finish_waiter tm !! t = Some w -> is_Some (find_task tm w) /\ w <> t) ->
  sched_ok tm'.
Proof.
  intros [] Hc Hi Hw. split; auto.
  - by rewrite rp_queue0.
  - rewrite rp_waiter0. unfold find_task. by rewrite rp_tasks0.
Qed.

Lemma find_task_eq tm tm' : tasks tm' = tasks tm -> forall i, find_task tm' i = find_task tm i.
Proof. unfold find_task. by intros ->. Qed.

(** After a preemption the current task is the head of the highest non-empty
    queue of the rotated queues. *)
Lemma SwitchTask_ok ctx tm c q :
  sched_ok tm -> queue tm (current_level tm) = c :: q ->
  exists tm' now, SwitchTask ctx tm = Some (tm', if decide (now = c) then Continue else RestoreContext now) /\
    sched_ok tm' /\ CurrentTask tm' = Some now /\ same_rest tm tm' /\
    only_task c (set_context ctx) tm tm' /\ level_changed tm' = false /\
    forall lv, queue tm' lv = rotated false tm lv.
Proof.
  intros H Hq. unfold SwitchTask. destruct (CurrentTask_some _ H) as (c' & q' & Hc & Hq' & _).
  assert (c' = c) as -> by congruence. rewrite Hc; cbn [mbind option_bind].
  set (tm1 := upd_task c (set_context ctx) tm).
  assert (H1 : sched_ok tm1) by (apply upd_ok; auto with sched).
  destruct (rotate_spec false tm1 c q) as (tm2 & E & Hp); try apply H1; [done| |].
  { exists 0. intros E. assert (idle_id ∈ rotated false tm1 0) as Hi by (apply rotated_in; exact (so_idle _ H1)).
    rewrite E in Hi. by apply not_elem_of_nil in Hi. }
  rewrite E; cbn [mbind option_bind].
  assert (H2 : sched_ok tm2).
  { eapply sched_of_rotate; [done| |apply rotated_in; exact (so_idle _ H1)|exact (so_waiters _ H1)]. destruct Hp.
    pose proof (find_task_eq tm1 tm2 rp_tasks0) as Hfind.
    destruct (so_core _ H1) as [Hi1 Hi2 Hi3 Hi4 Hi5]. split; rewrite ?rp_tasks0, ?rp_latest0; auto.
    - intros i t. rewrite Hfind. apply Hi2.
    - intros lv. rewrite rp_queue0. by apply rotated_NoDup.
    - intros lv i. rewrite rp_queue0, rotated_in. unfold where_is. rewrite Hfind. apply Hi5. }
  destruct (CurrentTask_some _ H2) as (now & qn & Hn & _ & _). rewrite Hn; cbn [mbind option_bind].
  exists tm2, now. destruct Hp. split_and!; try done.
  intros j. rewrite (find_task_eq tm1 tm2) by done. by apply find_upd_task.
Qed.

Lemma rotated_idle tm c q :
  sched_ok tm -> queue tm (current_level tm) = c :: q -> c <> idle_id ->
  idle_id ∈ rotated true tm 0.
Proof.
  intros H Hq Hc. eapply rotated_sleep_in; [done|rewrite <- Hq; apply H|].
  split; [exact (so_idle _ H)|congruence].
Qed.

Lemma rotate_sleep_defined tm c q :
  sched_ok tm -> queue tm (current_level tm) = c :: q -> c <> idle_id ->
  forall tm1, running tm1 = running tm -> current_level tm1 = current_level tm ->
    level_changed tm1 = level_changed tm ->
  exists tm', RotateCurrentRunQueue true tm1 = Some (tm', c) /\ rotate_post true tm1 tm'.
Proof.
  intros H Hq Hc tm1 Hr Hl Hch.
  assert (Hqq : forall lv, queue tm1 lv = queue tm lv) by (intros; unfold queue; by rewrite Hr).
  apply (rotate_spec true tm1 c q); rewrite ?Hr, ?Hl, ?Hch, ?Hqq; try apply H; [done| |].
  - intros Hf lv ?. rewrite Hqq. by apply (so_highest _ H).
  - exists 0. pose proof (rotated_idle _ _ _ H Hq Hc) as Hi.
    unfold rotated in *. rewrite Hl, !Hqq. intros E. rewrite E in Hi. by apply not_elem_of_nil in Hi.
Qed.

Record sleep_post (i : Z) (tm tm' : TaskManager) (k : control) : Prop := {
  sp_ok : sched_ok tm';
  sp_rest : same_rest tm tm';
  sp_task : only_task i (SetRunning false) tm tm';
  sp_control : match k with
    | Continue => True
    | SwitchContext next cur => cur = i /\ CurrentTask tm' = Some next /\ CurrentTask tm = Some i
    | RestoreContext _ => False
    end;
}.

Lemma Sleep_ok i t tm :
  sched_ok tm -> find_task tm i = Some t -> i <> idle_id ->
  exists tm' k, Sleep i tm = Some (tm', k) /\ sleep_post i tm tm' k.
Proof.
  intros H Ht Hi. unfold Sleep. rewrite Ht; cbn [mbind option_bind].
  destruct (is_running t) eqn:Hr; cbn [negb].
  2: { exists tm, Continue. split; [done|]. split; [done|done| |done].
       eapply only_task_id; [done|]. destruct t; cbn in *; by subst. }
  set (tm1 := upd_task i (SetRunning false) tm).
  assert (Ho1 : only_task i (SetRunning false) tm tm1) by exact (upd_only (SetRunning false) i tm (fun _ => eq_refl)).
  destruct (CurrentTask_some _ H) as (c & q & Hc & Hq & _).
  change (CurrentTask tm1) with (CurrentTask tm). rewrite Hc; cbn [mbind option_bind].
  pose proof (running_queue _ _ _ H Ht Hr) as Hin.
  assert (Hmove : forall tm', map id (tasks tm') = map id (tasks tm) ->
    latest_id tm' = latest_id tm -> length (running tm') = 4%nat ->
    only_task i (SetRunning false) tm tm' -> (forall lv, NoDup (queue tm' lv)) ->
    (forall lv j, j ∈ queue tm' lv <-> j <> i /\ j ∈ queue tm lv) -> core tm').
  { intros tm' ? ? ? Ho Hnd Hq'. eapply (core_move tm _ i None); [apply H|by eexists|done..| | |done|].
    - intros j Hj. rewrite (Ho j). case_decide; done.
    - intros t'. rewrite (Ho i), decide_True, Ht by done. cbn. intros [= <-]. split; [done|].
      by apply (so_latest _ H i t).
    - intros lv j. rewrite Hq'. case_decide; subst; [|tauto]. split; [tauto|done]. }
  destruct (decide (i = c)) as [->|Hic].
  - destruct (rotate_sleep_defined tm c q H Hq Hi tm1) as (tm2 & E & Hp); [done..|].
    rewrite E; cbn [mbind option_bind].
    assert (H2 : sched_ok tm2).
    { eapply sched_of_rotate; [done| |exact (rotated_idle tm c q H Hq Hi)|exact (waiters_move tm tm1 c _ H Ho1 eq_refl)].
      destruct Hp. apply Hmove; rewrite ?rp_tasks0, ?rp_latest0; [by apply map_id_upd|done|done| | |].
      - intros j. rewrite (find_task_eq tm1 tm2) by done. apply Ho1.
      - intros lv. rewrite rp_queue0. apply rotated_NoDup, H.
      - intros lv j. rewrite rp_queue0. change (rotated true tm1 lv) with (rotated true tm lv).
        rewrite (rotated_sleep_in tm c q) by (done || (rewrite <- Hq; apply H)).
        split; [|tauto]. intros [Hj Hjc]. split; [|done]. intros ->. apply Hjc; [done|].
        apply Hin in Hj as ->. symmetry. by apply Hin, CurrentTask_elem. }
    destruct (CurrentTask_some _ H2) as (now & qn & Hn & _ & _). rewrite Hn; cbn [mbind option_bind].
    exists tm2, (SwitchContext now c). split; [done|]. destruct Hp. split; try done.
    intros j. rewrite (find_task_eq tm1 tm2) by done. apply Ho1.
  - destruct (so_latest _ H i t Ht) as [_ Hlt].
    rewrite get_queue by (apply H || done). cbn [mbind option_bind].
    destruct (set_queue tm1 (level t) (Erase (queue tm1 (level t)) i)) as (qs & Hqs & Hlen); [apply H|done|].
    rewrite Hqs; cbn [mbind option_bind]. eexists _, Continue. split; [done|].
    assert (Hqq : forall lv, queue (set_queues qs tm1) lv = if decide (level t = lv) then Erase (queue tm (level t)) i else queue tm lv).
    { intros lv. by rewrite (queue_set _ _ _ _ _ Hqs). }
    assert (Hinq : forall lv j, j ∈ queue (set_queues qs tm1) lv <-> j <> i /\ j ∈ queue tm lv).
    { intros lv j. rewrite Hqq. case_decide; [subst lv; rewrite elem_of_Erase; tauto|].
      split; [|tauto]. intros Hj. split; [|done]. intros ->. apply Hin in Hj. congruence. }
    split; [|done|exact Ho1|done]. split.
    + apply Hmove; [by apply map_id_upd|done|done|exact Ho1| |done].
      intros lv. rewrite Hqq. case_decide; [apply NoDup_Erase|]; apply H.
    + exact (so_current _ H).
    + change (queue (set_queues qs tm1) (current_level tm) <> []). intros E.
      pose proof (proj2 (Hinq (current_level tm) c)) as Hk. rewrite E in Hk.
      apply (not_elem_of_nil c), Hk. split; [congruence|by apply CurrentTask_elem].
    + intros Hf lv Hlv. rewrite Hqq. pose proof (so_highest _ H Hf) as Hh.
      case_decide; [subst lv; by rewrite Hh|by apply Hh].
    + apply Hinq. split; [done|exact (so_idle _ H)].
    + by eapply waiters_move.
Qed.

Lemma find_erase_task tm tm1 ft fw c j :
  NoDup (map id (tasks tm)) -> tasks tm1 = tasks tm ->
  find_task (set_finish ft fw (set_tasks (erase_key id c (tasks tm1)) tm1)) j =
  if decide (j = c) then None else find_task tm j.
Proof. intros Hn Ht. unfold find_task; cbn. rewrite Ht. by apply find_erase_key. Qed.

(** A rotation that drops the current task and then erases it. *)
Lemma rotate_erase_ok tm c q tm1 ft fw :
  sched_ok tm -> queue tm (current_level tm) = c :: q -> c <> idle_id ->
  rotate_post true tm tm1 ->
  (forall t w, fw !! t = Some w -> is_Some (find_task tm w) /\ w <> t /\ w <> c) ->
  sched_ok (set_finish ft fw (set_tasks (erase_key id c (tasks tm1)) tm1)).
Proof.
  intros H Hq Hc Hp Hfw. pose proof (rotated_idle _ _ _ H Hq Hc) as Hi. destruct Hp.
  pose proof (find_task_eq tm tm1 rp_tasks0) as Hfind.
  assert (Hnc : forall lv, c ∈ queue tm lv -> lv = current_level tm).
  { intros lv Hin%(so_where _ H). assert (c ∈ queue tm (current_level tm)) as Hcc%(so_where _ H)
      by (rewrite Hq; by left). congruence. }
  assert (Hr : forall lv j, j ∈ queue tm1 lv <-> j <> c /\ j ∈ queue tm lv).
  { intros lv j. rewrite rp_queue0, (rotated_sleep_in tm c q) by (done || (rewrite <- Hq; apply H)).
    split; [|tauto]. intros [Hj Hjc]. split; [|done]. intros ->. by apply Hjc, Hnc. }
  assert (Hnone : forall lv, c ∉ queue tm1 lv) by (intros lv Hin; by apply Hr in Hin as []).
  assert (Hcore : core (set_finish ft fw (set_tasks (erase_key id c (tasks tm1)) tm1))).
  { destruct (so_core _ H) as [Hi1 Hi2 Hi3 Hi4 Hi5]. split; try done.
    - cbn. rewrite rp_tasks0. eapply sublist_NoDup; [done|apply fmap_sublist, erase_key_sublist].
    - intros i t. rewrite (find_erase_task tm tm1) by done. cbn. rewrite rp_latest0.
      case_decide; [done|apply Hi2].
    - intros lv. change (NoDup (queue tm1 lv)). rewrite rp_queue0. by apply rotated_NoDup.
    - intros lv i. change (i ∈ queue tm1 lv <-> where_is (set_finish ft fw (set_tasks (erase_key id c (tasks tm1)) tm1)) i = Some lv).
      rewrite Hr, Hi5. unfold where_is. rewrite (find_erase_task tm tm1) by done.
      case_decide; naive_solver. }
  split; try done.
  - change (idle_id ∈ queue tm1 0). by rewrite rp_queue0.
  - intros t w Hw. destruct (Hfw t w Hw) as (Hs & ? & ?). split; [|done].
    rewrite (find_erase_task tm tm1) by (done || apply H). by case_decide.
Qed.

Record finish_post (c exit_code : Z) (tm tm' : TaskManager) (now : Z) : Prop := {
  fp_ok : sched_ok tm';
  fp_current : CurrentTask tm' = Some now;
  fp_gone : find_task tm' c = None;
  fp_code : finish_tasks tm' = <[c := exit_code]> (finish_tasks tm);
  fp_waiters : finish_waiter tm' = delete c (finish_waiter tm);
  fp_tasks : forall j, j <> c -> find_task tm' j =
    if decide (finish_waiter tm !! c = Some j) then SetRunning true <$> find_task tm j
    else find_task tm j;
  fp_latest : latest_id tm' = latest_id tm;
}.

Lemma Finish_ok tm c exit_code :
  sched_ok tm -> CurrentTask tm = Some c -> c <> idle_id ->
  (forall t w, finish_waiter tm !! t = Some w -> w <> c) ->
  exists tm' now, Finish exit_code tm = Some (tm', RestoreContext now) /\
    finish_post c exit_code tm tm' now.
Proof.
  intros H Hc Hidle Hw. destruct (CurrentTask_some _ H) as (c' & q & Hc' & Hq & _).
  assert (c' = c) as -> by congruence. unfold Finish.
  destruct (rotate_sleep_defined tm c q H Hq Hidle tm) as (tm1 & E & Hp); [done..|].
  rewrite E; cbn [mbind option_bind]. pose proof Hp as [Ht1 _ Hf1 Hw1 _ _ _ _ _ _].
  cbn [set_tasks finish_waiter finish_tasks]. rewrite Hf1, Hw1.
  set (ft := <[c := exit_code]> (finish_tasks tm)).
  assert (Hdel : sched_ok (set_finish ft (delete c (finish_waiter tm))
    (set_tasks (erase_key id c (tasks tm1)) tm1))).
  { eapply rotate_erase_ok; [done..|]. intros t w [? Htw]%lookup_delete_Some.
    destruct (so_waiters _ H _ _ Htw). eauto. }
  assert (Hgone : forall ft fw j, find_task (set_finish ft fw (set_tasks (erase_key id c (tasks tm1)) tm1)) j
    = if decide (j = c) then None else find_task tm j).
  { intros ? ? j. apply find_erase_task; [apply H|done]. }
  destruct (finish_waiter tm !! c) as [w|] eqn:Ew.
  - destruct (so_waiters _ H _ _ Ew) as [[tw Htw] Hwc].
    destruct (Wakeup_ok w (-1) tw _ Hdel) as (tm3 & E3 & [Hs3 (Hl3 & Hf3 & Hw3) Ho3]).
    + rewrite Hgone. by case_decide.
    + split; unfold kMaxLevel; lia.
    + rewrite E3; cbn [mbind option_bind]. destruct (CurrentTask_some _ Hs3) as (now & ? & Hn & _).
      rewrite Hn; cbn [mbind option_bind]. exists tm3, now. split; [done|]. split; try done.
      * rewrite (Ho3 c), decide_False, Hgone by done. by case_decide.
      * intros j Hj. rewrite (Ho3 j), !Hgone. repeat case_decide; try congruence.
        subst j. rewrite Htw. cbn. by destruct tw.
      * rewrite Hl3. apply Hp.
  - rewrite (delete_id (finish_waiter tm) c) in Hdel by done. cbn [mbind option_bind].
    destruct (CurrentTask_some _ Hdel) as (now & ? & Hn & _).
    rewrite Hn; cbn [mbind option_bind]. eexists _, now. split; [done|]. split; try done.
    + rewrite Hgone. by case_decide.
    + cbn. by rewrite delete_id.
    + intros j Hj. rewrite Hgone. by repeat case_decide; simplify_eq.
    + apply Hp.
Qed.

Lemma set_finish_ok ft fw tm :
  sched_ok tm -> (forall t w, fw !! t = Some w -> is_Some (find_task tm w) /\ w <> t) ->
  sched_ok (set_finish ft fw tm).
Proof. intros [[] ? ? ? ?] ?. by split. Qed.

Lemma WaitFinish_ok tm c task_id :
  sched_ok tm -> CurrentTask tm = Some c -> c <> idle_id -> c <> task_id ->
  match finish_tasks tm !! task_id with
  | Some e => WaitFinish task_id tm =
      Some (set_finish (delete task_id (finish_tasks tm)) (finish_waiter tm) tm, inl e) /\
      sched_ok (set_finish (delete task_id (finish_tasks tm)) (finish_waiter tm) tm)
  | None => exists tm' next, WaitFinish task_id tm = Some (tm', inr (SwitchContext next c)) /\
      sched_ok tm' /\ CurrentTask tm' = Some next /\
      finish_waiter tm' = <[task_id := c]> (finish_waiter tm) /\
      finish_tasks tm' = finish_tasks tm /\ only_task c (SetRunning false) tm tm'
  end.
Proof.
  intros H Hc Hidle Hne. unfold WaitFinish. rewrite Hc; cbn [mbind option_bind].
  destruct (finish_tasks tm !! task_id) as [e|] eqn:Ee.
  - split; [done|]. by apply set_finish_ok, H.
  - destruct (CurrentTask_some _ H) as (c' & q & Hc' & Hq & [t Ht]).
    assert (c' = c) as -> by congruence.
    set (tm1 := set_finish _ _ tm).
    assert (H1 : sched_ok tm1).
    { apply set_finish_ok; [done|]. intros i w. destruct (decide (i = task_id)) as [->|].
      - rewrite lookup_insert_eq. intros [= <-]. split; [by eexists|done].
      - rewrite lookup_insert_ne by done. apply H. }
    destruct (Sleep_ok c t tm1 H1 Ht Hidle) as (tm2 & k & E & Hs).
    rewrite E; cbn [mbind option_bind].
    assert (is_running t = true) as Hr.
    { pose proof (CurrentTask_elem _ _ Hc) as Hin%(so_where _ H).
      rewrite (where_task _ _ _ Ht) in Hin. unfold run_level in Hin. by destruct (is_running t). }
    assert (exists n, k = SwitchContext n c) as [n ->].
    { revert E. unfold Sleep. rewrite (Ht : find_task tm1 c = _); cbn [mbind option_bind].
      rewrite Hr; cbn [negb]. change (CurrentTask (upd_task _ _ _)) with (CurrentTask tm).
      rewrite Hc; cbn [mbind option_bind]. rewrite decide_True by done. intros E.
      bind_in E. destruct p as [tm3 cc]. bind_in E. injection E as <- <-.
      pose proof (sp_control _ _ _ _ Hs) as (-> & _). by eexists. }
    destruct Hs as [Hs (_ & Hf & Hw) Ho (_ & Hn & _)]. exists tm2, n. by split_and!.
Qed.

(** ** The scheduler as a transition system *)

Inductive call :=
| CNewTask
| CStart (kernel_cr3 stack_end f i data : Z)
| CUpdate (i : Z) (f : Task -> Task)
| CSwitch (ctx : TaskContext)
| CSleep (i : Z)
| CWakeup (i lv : Z)
| CSend (i : Z) (msg : Message)
| CExpand (i n : Z)
| CCopy (i : Z) (src : list Z) (offset : Z)
| CFinish (exit_code : Z)
| CWaitFinish (task_id : Z).

Definition exec (k : call) (tm : TaskManager) : option TaskManager :=
  match k with
  | CNewTask => Some (fst (NewTask tm))
  | CStart cr3 st f i d => fst <$> StartTask cr3 st f i d tm
  | CUpdate i f => Some (upd_task i f tm)
  | CSwitch ctx => fst <$> SwitchTask ctx tm
  | CSleep i => (fun r => fst (fst r)) <$> Sleep_id i tm
  | CWakeup i lv => fst <$> Wakeup_id i lv tm
  | CSend i m => fst <$> SendMessage i m tm
  | CExpand i n => Some (fst (ExpandTaskBuffer i n tm))
  | CCopy i s o => fst <$> CopyToTaskBuffer i s o (Z.of_nat (length s)) tm
  | CFinish e => fst <$> Finish e tm
  | CWaitFinish t => fst <$> WaitFinish t tm
  end.

(** The length and offset of a copy that the size computation of the code
    does not truncate. *)
Definition copy_sane (b offset len : Z) : Prop :=
  0 <= offset /\ offset + len < 2 ^ 64 /\ - 2 ^ 31 <= b - (offset + len) < 2 ^ 31.

(** The calls the kernel makes: it never sleeps, moves or finishes the idle
    task, a task blocked in [WaitFinish] does not finish, a task does not wait
    for itself, a level asked for exists, and a copy to a buffer keeps to the
    lengths of [copy_sane]. Nothing of it is checked by the code. *)
Definition allowed (k : call) (tm : TaskManager) : Prop :=
  match k with
  | CUpdate _ f => keeps_place f
  | CSleep i => i <> idle_id
  | CWakeup i lv => level_allowed i lv
  | CCopy i s o => forall t, find_task tm i = Some t ->
      copy_sane (Z.of_nat (length (buf t))) o (Z.of_nat (length s))
  | CFinish _ => forall c, CurrentTask tm = Some c -> c <> idle_id /\
      forall t w, finish_waiter tm !! t = Some w -> w <> c
  | CWaitFinish t => forall c, CurrentTask tm = Some c -> c <> idle_id /\ c <> t
  | _ => True
  end.

Inductive reachable : TaskManager -> Prop :=
| reach_init cr3 stack_end f : reachable (InitialTaskManager cr3 stack_end f)
| reach_step tm k tm' :
    reachable tm -> allowed k tm -> exec k tm = Some tm' -> reachable tm'.

Lemma InitialTaskManager_ok cr3 st f : sched_ok (InitialTaskManager cr3 st f).
Proof.
  assert (Hq : forall lv, queue (InitialTaskManager cr3 st f) lv =
    if decide (lv = 0) then [2] else if decide (lv = 3) then [1] else []).
  { intros lv. unfold queue, getZ; cbn -[decide]. repeat case_decide; subst; try done; try lia.
    destruct (Z.to_nat lv) as [|[|[|[|n]]]] eqn:E; try done; lia. }
  assert (Hf : forall i, find_task (InitialTaskManager cr3 st f) i =
    if decide (i = 1) then Some (SetRunning true (SetLevel kMaxLevel (MakeTask 1)))
    else if decide (i = 2) then Some (SetRunning true (SetLevel 0 (InitContext cr3 st f 0 (MakeTask 2))))
    else None).
  { intros i. unfold find_task, find_key, InitialTaskManager.
    cbn [tasks List.find id SetRunning SetLevel MakeTask InitContext set_context].
    destruct (Z.eqb_spec 1 i); case_decide; try lia; [done|].
    destruct (Z.eqb_spec 2 i); case_decide; by (lia || done). }
  split; [split|..]; try done.
  - cbn. apply NoDup_cons; split; [|apply NoDup_singleton]. rewrite list_elem_of_singleton. lia.
  - intros i t. rewrite Hf. unfold kMaxLevel.
    repeat case_decide; intros; simplify_eq; vm_compute; intuition congruence.
  - intros lv. rewrite Hq. repeat case_decide; (apply NoDup_singleton || constructor).
  - intros lv i. rewrite Hq. unfold where_is. rewrite Hf.
    repeat case_decide; subst; cbn; rewrite ?list_elem_of_singleton, ?elem_of_nil; unfold kMaxLevel; split; intros; simplify_eq; done.
  - intros _ lv Hlv. rewrite Hq. change (3 < lv) in Hlv. repeat case_decide; lia || done.
  - rewrite Hq. cbn. by left.
Qed.

Lemma NewTask_ok tm : sched_ok tm -> sched_ok (fst (NewTask tm)).
Proof.
  intros [[Hids Hlat Hqs Hnd Hwh] Hcur Hne Hhi Hidle Hw].
  assert (Hfresh : find_task tm (latest_id tm + 1) = None).
  { destruct (find_task tm (latest_id tm + 1)) as [t|] eqn:E; [|done]. apply Hlat in E. lia. }
  assert (Hf : forall i, find_task (fst (NewTask tm)) i =
    if decide (i = latest_id tm + 1) then Some (MakeTask (latest_id tm + 1)) else find_task tm i).
  { intros i. unfold find_task, NewTask; cbn [fst tasks]. rewrite find_key_app. fold (find_task tm i).
    case_decide; [subst; rewrite Hfresh; cbn; by rewrite Z.eqb_refl|].
    destruct (find_task tm i); [done|]. cbn. by destruct (Z.eqb_spec (latest_id tm + 1) i). }
  split; [split|..]; try done.
  - cbn. rewrite map_app. apply NoDup_snoc; [done|]. by apply find_key_None.
  - intros i t. rewrite Hf. cbn. case_decide.
    + intros [= <-]; cbn. unfold kDefaultLevel, kMaxLevel. destruct (find_task tm idle_id) as [t|] eqn:E.
      * apply Hlat in E. lia.
      * apply Hwh in Hidle. unfold where_is in Hidle. by rewrite E in Hidle.
    + intros Ht%Hlat. lia.
  - intros lv i. change (queue (fst (NewTask tm)) lv) with (queue tm lv). rewrite Hwh.
    unfold where_is. rewrite Hf. case_decide; [subst; by rewrite Hfresh|done].
  - intros t w Htw. destruct (Hw t w Htw) as [[t' Ht'] ?]. split; [|done]. rewrite Hf.
    case_decide; by eexists.
Qed.

Lemma copy_fits t offset len :
  copy_sane (Z.of_nat (length (buf t))) offset len -> 0 <= len ->
  s32 (u64 (Z.of_nat (length (buf t)) - u64 (offset + len))) = Z.of_nat (length (buf t)) - (offset + len).
Proof.
  intros (? & ? & ?) ?. rewrite (u64_small (offset + len)) by lia.
  unfold u64, s32. rewrite Zplus_mod, (Z.mod_mod_divide _ (2 ^ 64) (2 ^ 32)), <- Zplus_mod.
  - rewrite Z.mod_small; lia.
  - exists (2 ^ 32). lia.
Qed.

Lemma exec_ok k tm :
  sched_ok tm -> allowed k tm -> exists tm', exec k tm = Some tm' /\ sched_ok tm'.
Proof.
  intros H Ha. destruct (CurrentTask_some _ H) as (c & q & Hc & Hq & [tc Htc]).
  destruct k as [|cr3 st f i d|i f|ctx|i|i lv|i m|i n|i s o|e|t]; cbn [exec]; cbn in Ha.
  - eexists; split; [done|by apply NewTask_ok].
  - unfold StartTask. destruct (find_task tm i) as [t|] eqn:Ht; [|by eexists].
    set (g := InitContext cr3 st f d).
    destruct (Wakeup_ok i (-1) (g t) (upd_task i g tm)) as (tm' & E & [Hs _ _]).
    + by apply upd_ok.
    + rewrite find_upd_task, decide_True, Ht by done. done.
    + split; unfold kMaxLevel; lia.
    + rewrite E. by eexists.
  - eexists; split; [done|by apply upd_ok].
  - destruct (SwitchTask_ok ctx tm c q H Hq) as (tm' & n & E & Hs & _). rewrite E. by eexists.
  - unfold Sleep_id. destruct (find_task tm i) as [t|] eqn:Ht; [|by eexists].
    destruct (Sleep_ok i t tm H Ht Ha) as (tm' & k & E & [Hs _ _ _]). rewrite E. by eexists.
  - unfold Wakeup_id. destruct (find_task tm i) as [t|] eqn:Ht; [|by eexists].
    destruct (Wakeup_ok i lv t tm H Ht Ha) as (tm' & E & [Hs _ _]). rewrite E. by eexists.
  - unfold SendMessage. destruct (find_task tm i) as [t|] eqn:Ht; [|by eexists].
    destruct (Task_SendMessage_ok i m t tm H Ht) as (tm' & E & Hs & _). rewrite E. by eexists.
  - unfold ExpandTaskBuffer. destruct (find_task tm i) as [t|] eqn:Ht; [|by eexists].
    eexists; split; [done|]. by apply upd_ok, H.
  - unfold CopyToTaskBuffer. destruct (find_task tm i) as [t|] eqn:Ht; [|by eexists].
    specialize (Ha t eq_refl). rewrite (copy_fits t o) by (done || lia).
    case_decide as Hd; [by eexists|]. destruct Ha as (? & ? & ?).
    rewrite write_at_Some by lia. eexists; split; [done|]. by apply upd_ok, H.
  - destruct (Ha c Hc). destruct (Finish_ok tm c e) as (tm' & n & E & [Hs _ _ _ _ _ _]); [done..|].
    rewrite E. by eexists.
  - destruct (Ha c Hc). pose proof (WaitFinish_ok tm c t H Hc ltac:(done) ltac:(done)) as Hw.
    destruct (finish_tasks tm !! t).
    + destruct Hw as [-> Hs]. by eexists.
    + destruct Hw as (tm' & n & -> & Hs & _). by eexists.
Qed.

Lemma reachable_ok tm : reachable tm -> sched_ok tm.
Proof.
  induction 1 as [|tm k tm' Hr IH Ha E]; [apply InitialTaskManager_ok|].
  destruct (exec_ok k tm IH Ha) as (tm2 & E2 & H2). congruence.
Qed.

(** C4. From the state the constructor builds, no sequence of scheduler calls
    that keeps the callers' discipline ([allowed]) reaches undefined
    behaviour: in every state reached that way the queues and the tasks agree
    (each running task once, in the queue of its level), the current level has
    a task to run and is the highest such level unless a change is pending,
    and every further allowed call is defined and leaves a current task that
    is running at the current level. The discipline excludes sleeping, moving
    or finishing the idle task, a task in [WaitFinish] that finishes or waits
    for itself, and copies to a buffer with lengths that [CopyToTaskBuffer]
    does not check rightly ([CopyToTaskBuffer_overrun]). *)
Theorem scheduler_safe tm :
  reachable tm ->
  sched_ok tm /\
  forall k, allowed k tm -> exists tm' c, exec k tm = Some tm' /\
    CurrentTask tm' = Some c /\ where_is tm' c = Some (current_level tm').
Proof.
  intros Hr%reachable_ok. split; [done|]. intros k Ha.
  destruct (exec_ok k tm Hr Ha) as (tm' & E & H').
  destruct (CurrentTask_some _ H') as (c & q & Hc & _). exists tm', c. split_and!; [done..|].
  by apply (so_where _ H'), CurrentTask_elem.
Qed.

(** ** Preemption is round robin *)

(** The timer preempts once per context in [ctxs], each the registers saved. *)
Fixpoint preempt (ctxs : list TaskContext) (tm : TaskManager) : option TaskManager :=
  match ctxs with
  | [] => Some tm
  | ctx :: ctxs' => '(tm', _) ← SwitchTask ctx tm; preempt ctxs' tm'
  end.

Lemma rotate_keeps_level tm tm' c q :
  sched_ok tm -> level_changed tm = false -> queue tm (current_level tm) = c :: q ->
  sched_ok tm' -> level_changed tm' = false ->
  (forall lv, queue tm' lv = rotated false tm lv) ->
  current_level tm' = current_level tm /\ queue tm' (current_level tm) = q ++ [c].
Proof.
  intros H Hch Hq H' Hch' Hrot.
  assert (Hcl : queue tm' (current_level tm) = q ++ [c]).
  { rewrite Hrot. unfold rotated. rewrite decide_True, Hq by done. done. }
  split; [|done]. destruct (Z.lt_trichotomy (current_level tm') (current_level tm)) as [Hlt|[?|Hlt]]; [|done|].
  - rewrite (so_highest _ H' Hch') in Hcl by done. by destruct q.
  - exfalso. apply (so_nonempty _ H'). rewrite Hrot. unfold rotated.
    rewrite decide_False by lia. by apply (so_highest _ H).
Qed.

(** [tm1] is [tm] after one preemption for each context of [dn]: the queue of
    the current level rotated, the contexts saved in its first tasks. *)
Record rr_inv (tm : TaskManager) (q : list Z) (dn : list TaskContext) (tm1 : TaskManager) : Prop := {
  rr_ok : sched_ok tm1;
  rr_changed : level_changed tm1 = false;
  rr_level : current_level tm1 = current_level tm;
  rr_queue : queue tm1 (current_level tm) = drop (length dn) q ++ take (length dn) q;
  rr_other : forall lv, lv <> current_level tm -> queue tm1 lv = queue tm lv;
  rr_saved : forall n i ctx t, q !! n = Some i -> dn !! n = Some ctx ->
    find_task tm i = Some t -> find_task tm1 i = Some (set_context ctx t);
  rr_rest : forall i, i ∉ take (length dn) q -> find_task tm1 i = find_task tm i;
}.

Lemma rr_saved_snoc tm q dn tm1 tm2 c ctx :
  NoDup q -> rr_inv tm q dn tm1 -> q !! length dn = Some c ->
  only_task c (set_context ctx) tm1 tm2 ->
  forall n i cx t, q !! n = Some i -> (dn ++ [ctx]) !! n = Some cx ->
    find_task tm i = Some t -> find_task tm2 i = Some (set_context cx t).
Proof.
  intros Hnd HI Hn Ho n i cx t Hi Hcx Ht. rewrite (Ho i).
  apply lookup_app_Some in Hcx as [Hcx|[Hge Hcx]].
  - rewrite decide_False; [by eapply rr_saved|]. intros ->.
    pose proof (NoDup_lookup _ _ _ _ Hnd Hi Hn) as ->. apply lookup_lt_Some in Hcx. lia.
  - assert (n = length dn) as -> by (apply lookup_lt_Some in Hcx; cbn in Hcx; lia).
    rewrite Nat.sub_diag in Hcx. injection Hcx as <-. assert (i = c) as -> by congruence.
    rewrite decide_True by done. rewrite (rr_rest _ _ _ _ HI), Ht; [done|].
    intros Hin. apply list_elem_of_lookup in Hin as [n' Hn'].
    apply lookup_take_Some in Hn' as [Hn' Hlt].
    pose proof (NoDup_lookup _ _ _ _ Hnd Hn' Hn). lia.
Qed.

Lemma rr_step tm q dn tm1 ctx :
  NoDup q -> rr_inv tm q dn tm1 -> (length dn < length q)%nat ->
  exists tm2 k, SwitchTask ctx tm1 = Some (tm2, k) /\ rr_inv tm q (dn ++ [ctx]) tm2.
Proof.
  intros Hnd HI Hlen. pose proof HI as [H1 Hch1 Hcl Hq1 Hoth Hdone Hrest].
  destruct (lookup_lt_is_Some_2 q (length dn)) as [c Hn]; [done|].
  pose proof (drop_S _ _ _ Hn) as Edrop. rewrite Edrop in Hq1. rewrite <- Hcl in Hq1. cbn in Hq1.
  destruct (SwitchTask_ok ctx tm1 c _ H1 Hq1) as (tm2 & now & E & H2 & _ & _ & Ho & Hch2 & Hrot).
  destruct (rotate_keeps_level _ _ _ _ H1 Hch1 Hq1 H2 Hch2 Hrot) as [Hcl2 Hq2].
  assert (Hl : length (dn ++ [ctx]) = S (length dn)) by (rewrite length_app; cbn; lia).
  assert (Htake : take (length (dn ++ [ctx])) q = take (length dn) q ++ [c])
    by (rewrite Hl; by apply take_S_r).
  eexists tm2, _. split; [exact E|]. split; [done|done|congruence| | | |].
  - rewrite <- Hcl, Hq2, Htake, Hl. by rewrite app_assoc.
  - intros lv Hlv. rewrite Hrot. unfold rotated. rewrite decide_False by congruence. by apply Hoth.
  - by eapply rr_saved_snoc.
  - intros i Hi. rewrite Htake, elem_of_app, list_elem_of_singleton in Hi. rewrite (Ho i).
    rewrite decide_False by tauto. apply Hrest. tauto.
Qed.

Lemma rr_all tm q ctxs : NoDup q -> forall dn tm1,
  rr_inv tm q dn tm1 -> (length dn + length ctxs <= length q)%nat ->
  exists tm', preempt ctxs tm1 = Some tm' /\ rr_inv tm q (dn ++ ctxs) tm'.
Proof.
  intros Hnd. induction ctxs as [|ctx ctxs IH]; intros dn tm1 HI Hlen; cbn in Hlen.
  - exists tm1. by rewrite app_nil_r.
  - destruct (rr_step tm q dn tm1 ctx) as (tm2 & k & E & HI2); [done|done|lia|].
    cbn. rewrite E; cbn [mbind option_bind].
    replace (dn ++ ctx :: ctxs) with ((dn ++ [ctx]) ++ ctxs) by (by rewrite <- app_assoc).
    apply IH; [done|]. rewrite length_app; cbn. lia.
Qed.

(** C5. Preemption is round robin within the current level: as long as no
    task of another level interferes, [k] timer preemptions rotate the queue
    by [k], so each of its tasks runs exactly once per round, and each has its
    own registers saved. *)
Theorem preempt_round_robin ctxs tm q :
  sched_ok tm -> level_changed tm = false -> queue tm (current_level tm) = q ->
  (length ctxs <= length q)%nat ->
  exists tm', preempt ctxs tm = Some tm' /\ sched_ok tm' /\
    current_level tm' = current_level tm /\
    queue tm' (current_level tm) = drop (length ctxs) q ++ take (length ctxs) q /\
    (forall lv, lv <> current_level tm -> queue tm' lv = queue tm lv) /\
    (forall n i ctx t, q !! n = Some i -> ctxs !! n = Some ctx -> find_task tm i = Some t ->
      find_task tm' i = Some (set_context ctx t)) /\
    (forall i, i ∉ take (length ctxs) q -> find_task tm' i = find_task tm i).
Proof.
  intros H Hch Hq Hlen. pose proof (so_nodup _ H (current_level tm)) as Hnd. rewrite Hq in Hnd.
  destruct (rr_all tm q ctxs Hnd [] tm) as (tm' & E & []); [|done|exists tm'; by split_and!].
  split; try done. by rewrite drop_0, app_nil_r.
Qed.

(** ** Messages wake, and waking preempts *)

Lemma running_where tm i t : find_task tm i = Some t -> is_running t = true -> where_is tm i = Some (level t).
Proof. intros Ht Hr. by rewrite (where_task _ _ _ Ht), run_level_running. Qed.

(** What sending a message to the task [i], in the state [t], changes of the
    whole scheduler: the mailbox, and for a task that slept its place at the
    end of its level's queue and the flag for a higher level. *)
Record sent (i : Z) (msg : Message) (t : Task) (tm tm1 : TaskManager) : Prop := {
  sent_task : find_task tm1 i = Some (SetRunning true (set_msgs (msgs t ++ [msg]) t));
  sent_others : forall j, j <> i -> find_task tm1 j = find_task tm j;
  sent_order : map id (tasks tm1) = map id (tasks tm);
  sent_queues : forall lv, queue tm1 lv =
    if decide (is_running t = false /\ lv = level t) then queue tm lv ++ [i] else queue tm lv;
  sent_current : CurrentTask tm1 = CurrentTask tm /\ current_level tm1 = current_level tm;
  sent_changed : level_changed tm1 =
    level_changed tm || (negb (is_running t) && (current_level tm <? level t));
  sent_rest : same_rest tm tm1;
}.

Lemma CurrentTask_head tm : CurrentTask tm = head (queue tm (current_level tm)).
Proof. unfold CurrentTask, queue. by destruct (getZ _ _). Qed.

(** The queues, the levels and the list of tasks after a wake-up that keeps
    the level. *)
Lemma Wakeup_keeping i t tm tm1 :
  sched_ok tm -> find_task tm i = Some t -> Wakeup i (-1) tm = Some tm1 ->
  map id (tasks tm1) = map id (tasks tm) /\ current_level tm1 = current_level tm /\
  level_changed tm1 = level_changed tm || (negb (is_running t) && (current_level tm <? level t)) /\
  forall lv, queue tm1 lv =
    if decide (is_running t = false /\ lv = level t) then queue tm lv ++ [i] else queue tm lv.
Proof.
  intros H Ht. destruct (so_latest _ H i t Ht) as [_ Hl].
  unfold Wakeup. rewrite Ht; cbn [mbind option_bind]. destruct (is_running t) eqn:Hr.
  - unfold ChangeLevelRunning. rewrite Ht; cbn [mbind option_bind]. rewrite decide_True by lia.
    intros [= <-]. rewrite orb_false_r. split_and!; [done..|]. intros lv. by rewrite decide_False by naive_solver.
  - cbn [negb andb]. rewrite decide_True by lia. set (tm2 := upd_task i _ tm).
    rewrite (get_queue tm2) by (done || apply H). cbn [mbind option_bind].
    destruct (set_queue tm2 (level t) (queue tm2 (level t) ++ [i])) as (qs & Hqs & _); [apply H|done|].
    rewrite Hqs; cbn [mbind option_bind]. intros [= <-].
    assert (Hq : forall lv, queue (set_queues qs tm2) lv =
      if decide (false = false /\ lv = level t) then queue tm lv ++ [i] else queue tm lv).
    { intros lv. rewrite (queue_set _ _ _ _ _ Hqs). repeat case_decide; naive_solver. }
    assert (Hm : map id (tasks (set_queues qs tm2)) = map id (tasks tm)) by (by apply map_id_upd).
    cbn [current_level set_queues upd_task set_tasks] in *.
    destruct (decide (level t > current_level tm)) as [Hc|Hc].
    + replace (current_level tm <? level t) with true by lia. by rewrite orb_true_r.
    + replace (current_level tm <? level t) with false by lia. by rewrite orb_false_r.
Qed.

Lemma Task_SendMessage_sent i msg t tm :
  sched_ok tm -> find_task tm i = Some t ->
  exists tm1, Task_SendMessage i msg tm = Some tm1 /\ sched_ok tm1 /\ sent i msg t tm tm1.
Proof.
  intros H Ht. destruct (Task_SendMessage_ok i msg t tm H Ht) as (tm1 & E & H1 & Hr & Ho).
  exists tm1. split; [done|]. split; [done|]. unfold Task_SendMessage in E.
  set (f := fun t : Task => set_msgs _ t) in E. assert (Hf : keeps_place f) by apply set_msgs_keeps.
  destruct (Wakeup_keeping i (f t) (upd_task i f tm) tm1) as (Hm & Hc & Hl & Hq);
    [by apply upd_ok|rewrite find_upd_task by done; by rewrite decide_True, Ht|done|].
  cbn [is_running level f set_msgs current_level level_changed] in *. split.
  - by rewrite (Ho i), decide_True, Ht.
  - intros j ?. by rewrite (Ho j), decide_False.
  - rewrite Hm. by apply map_id_upd.
  - exact Hq.
  - split; [|exact Hc]. destruct (CurrentTask_some _ H) as (c & q & Hcur & Hq0 & _).
    rewrite Hcur, CurrentTask_head, Hq, Hc. cbn [current_level upd_task set_tasks].
    rewrite queue_upd, Hq0. by destruct (decide _).
  - exact Hl.
  - exact Hr.
Qed.

(** C6. Sending a message to a task appends it to that task's mailbox and, if
    the task slept, puts it at the end of the run queue of its level and
    notes that a higher level has become ready. The other tasks, the order of
    every run queue, the running task, its level and the exit codes and
    waiters stay as they were ([sent]); an unknown identifier is
    [kNoSuchTask] and changes nothing. At the next preemption the processor
    goes to a level at least as high as the receiver's. *)
Theorem SendMessage_wakes i msg tm ctx :
  sched_ok tm ->
  match find_task tm i with
  | None => SendMessage i msg tm = Some (tm, kNoSuchTask)
  | Some t => exists tm1, SendMessage i msg tm = Some (tm1, kSuccess) /\
      sent i msg t tm tm1 /\ where_is tm1 i = Some (level t) /\
      exists tm2 now k, SwitchTask ctx tm1 = Some (tm2, k) /\ CurrentTask tm2 = Some now /\
        where_is tm2 now = Some (current_level tm2) /\ level t <= current_level tm2
  end.
Proof.
  intros H. unfold SendMessage. destruct (find_task tm i) as [t|] eqn:Ht; [|done].
  destruct (Task_SendMessage_sent i msg t tm H Ht) as (tm1 & E & H1 & Hs).
  rewrite E; cbn [mbind option_bind]. exists tm1. split; [done|]. split; [done|].
  assert (Hw : where_is tm1 i = Some (level t))
    by (by rewrite (running_where _ _ _ (sent_task _ _ _ _ _ Hs))).
  split; [done|].
  destruct (CurrentTask_some _ H1) as (c & q & Hc & Hq & _).
  destruct (SwitchTask_ok ctx tm1 c q H1 Hq) as (tm2 & now & E2 & H2 & Hn & _ & _ & Hch & Hrot).
  eexists tm2, now, _. split; [done|]. split_and!; [done|by apply (so_where _ H2), CurrentTask_elem|].
  destruct (decide (level t <= current_level tm2)) as [|Hlt]; [done|exfalso].
  assert (Hin : i ∈ queue tm2 (level t)) by (rewrite Hrot; apply rotated_in; by apply (so_where _ H1)).
  rewrite (so_highest _ H2 Hch) in Hin by lia. by apply not_elem_of_nil in Hin.
Qed.

(** [WaitFinish] and [Finish] meet: a task that waits for a live task
    sleeps and is registered; when the awaited task finishes it disappears,
    the waiter becomes ready, and on being resumed at the head of its loop it
    gets the exit code. *)
Theorem WaitFinish_gets_exit_code tm w c :
  sched_ok tm -> CurrentTask tm = Some w -> w <> idle_id -> w <> c ->
  finish_tasks tm !! c = None ->
  exists tm1 next, WaitFinish c tm = Some (tm1, inr (SwitchContext next w)) /\
    sched_ok tm1 /\ where_is tm1 w = None /\ finish_waiter tm1 !! c = Some w /\
    forall tm2 e, sched_ok tm2 -> CurrentTask tm2 = Some c -> c <> idle_id ->
      finish_waiter tm2 !! c = Some w ->
      (forall t x, finish_waiter tm2 !! t = Some x -> x <> c) ->
      exists tm3 now, Finish e tm2 = Some (tm3, RestoreContext now) /\ sched_ok tm3 /\
        CurrentTask tm3 = Some now /\ find_task tm3 c = None /\ is_Some (where_is tm3 w) /\
        forall tm4, CurrentTask tm4 = Some w -> finish_tasks tm4 !! c = finish_tasks tm3 !! c ->
          exists tm5, WaitFinish c tm4 = Some (tm5, inl e) /\ finish_tasks tm5 !! c = None.
Proof.
  intros H Hc Hidle Hne Hnone. pose proof (WaitFinish_ok tm w c H Hc Hidle Hne) as Hw.
  rewrite Hnone in Hw. destruct Hw as (tm1 & next & E & H1 & Hn & Hfw & _ & Ho).
  exists tm1, next. split_and!; [done|done| |by rewrite Hfw, lookup_insert_eq|].
  { unfold where_is. rewrite (Ho w), decide_True by done. by destruct (find_task tm w). }
  intros tm2 e H2 Hc2 Hci Hwc Hnw.
  destruct (Finish_ok tm2 c e H2 Hc2 Hci Hnw) as (tm3 & now & E3 & [Hs3 Hcur3 Hgone Hcode _ Htasks _]).
  exists tm3, now. split_and!; [done..| |].
  - destruct (so_waiters _ H2 _ _ Hwc) as [[t Ht] Hwne]. unfold where_is.
    rewrite Htasks, decide_True, Ht by done. by eexists.
  - intros tm4 Hc4 Hf4. unfold WaitFinish. rewrite Hc4, Hf4, Hcode, lookup_insert_eq. cbn [mbind option_bind].
    eexists; split; [done|]. cbn. apply lookup_delete_eq.
Qed.

(** ** The task buffer *)

(** [CopyToTaskBuffer] keeps within the buffer: for lengths the size
    computation represents, it writes exactly the bytes at the offset and
    returns what is left, or returns -1 and changes nothing. *)
Theorem CopyToTaskBuffer_bounds tm i t src offset :
  find_task tm i = Some t ->
  copy_sane (Z.of_nat (length (buf t))) offset (Z.of_nat (length src)) ->
  let len := Z.of_nat (length src) in let size := Z.of_nat (length (buf t)) in
  exists tm' r, CopyToTaskBuffer i src offset len tm = Some (tm', r) /\
    if decide (offset + len <= size) then
      r = size - (offset + len) /\
      exists t', find_task tm' i = Some t' /\ length (buf t') = length (buf t) /\
        slice (buf t') (Z.to_nat offset) (length src) = src /\
        (forall n, (n < Z.to_nat offset \/ Z.to_nat offset + length src <= n)%nat ->
           buf t' !! n = buf t !! n)
    else r = -1 /\ tm' = tm.
Proof.
  intros Ht Hs. cbn zeta. unfold CopyToTaskBuffer. rewrite Ht, (copy_fits t offset) by (done || lia).
  destruct Hs as (? & ? & ?). case_decide as Hd.
  - eexists _, _. split; [done|]. rewrite decide_False by lia. done.
  - rewrite write_at_Some by lia. eexists _, _. split; [done|]. rewrite decide_True by lia.
    split; [done|]. eexists; split_and!.
    + rewrite find_upd_task, decide_True, Ht by done. done.
    + cbn. apply length_splice. lia.
    + cbn. apply slice_splice_same. lia.
    + intros n Hn. cbn. rewrite lookup_splice by lia. rewrite decide_False by lia. done.
Qed.

(** Outside those lengths the narrowing to [int] loses the overrun: a copy
    4 GiB past an empty buffer passes the check and writes out of bounds. *)
Lemma CopyToTaskBuffer_overrun tm i t src :
  find_task tm i = Some t -> buf t = [] -> (0 < length src < 2 ^ 16)%nat ->
  CopyToTaskBuffer i src (2 ^ 32 - Z.of_nat (length src)) (Z.of_nat (length src)) tm = None.
Proof.
  intros Ht Hb Hl. unfold CopyToTaskBuffer. rewrite Ht, Hb.
  replace (2 ^ 32 - _ + _) with (2 ^ 32) by lia. change (s32 _) with 0.
  rewrite decide_False by lia. unfold write_at. rewrite decide_False; [done|]. cbn [length]. lia.
Qed.

(** ** One task changes *)

Lemma send_ok i m t tm :
  sched_ok tm -> find_task tm i = Some t ->
  exists tm', SendMessage i m tm = Some (tm', kSuccess) /\ sched_ok tm' /\ same_rest tm tm' /\
    only_task i (fun t => SetRunning true (set_msgs (msgs t ++ [m]) t)) tm tm'.
Proof.
  intros H Ht. destruct (Task_SendMessage_ok i m t tm H Ht) as (tm' & E & H1 & H2 & H3). exists tm'. unfold SendMessage. by rewrite Ht, E.
Qed.

(** What holds of a task after an operation on one task. *)
Lemma only_at i f tm tm' t : only_task i f tm tm' -> find_task tm i = Some t -> find_task tm' i = Some (f t).
Proof. intros H Ht. by rewrite (H i), decide_True, Ht. Qed.

Lemma only_other i j f tm tm' : only_task i f tm tm' -> j <> i -> find_task tm' j = find_task tm j.
Proof. intros H Hj. by rewrite (H j), decide_False. Qed.

Lemma popped_ok i q tm : sched_ok tm -> sched_ok (upd_task i (set_msgs q) tm) /\ only_task i (set_msgs q) tm (upd_task i (set_msgs q) tm).
Proof. intros H. split; [apply upd_ok; [apply (set_msgs_keeps (fun _ => q))|done]|by apply upd_only]. Qed.

(** Only the buffer of [n] differs. *)
Record only_buffer (n : Z) (tm tm' : TaskManager) : Prop := {
  ob_ok : sched_ok tm -> sched_ok tm';
  ob_rest : same_rest tm tm';
  ob_task t' : find_task tm' n = Some t' -> exists t, find_task tm n = Some t /\ t' = set_buf (buf t') t;
  ob_other j : j <> n -> find_task tm' j = find_task tm j;
}.

Lemma only_buffer_refl n tm : only_buffer n tm tm.
Proof. split; try done. intros t Ht. exists t. split; [done|by destruct t]. Qed.

Lemma only_buffer_trans n tm1 tm2 tm3 : only_buffer n tm1 tm2 -> only_buffer n tm2 tm3 -> only_buffer n tm1 tm3.
Proof.
  intros [A1 A2 A3 A4] [B1 B2 B3 B4]. split; [auto|by eapply same_rest_trans| |intros j Hj; by rewrite B4, A4].
  intros t3 H3. destruct (B3 t3 H3) as (t2 & H2 & E3). destruct (A3 t2 H2) as (t & H1 & E2). exists t. split; [done|].
  rewrite E3, E2. by destruct t.
Qed.

Lemma set_buf_only n b tm : only_buffer n tm (upd_task n (set_buf b) tm).
Proof.
  split; [intros H; apply upd_ok; [apply set_buf_keeps|done]|done| |].
  - intros t'. rewrite find_upd_task, decide_True by done. destruct (find_task tm n) as [t|]; [|done]. cbn. intros [= <-]. by exists t.
  - intros j Hj. by rewrite find_upd_task, decide_False.
Qed.

Lemma NewTask_find tm i :
  sched_ok tm -> find_task (fst (NewTask tm)) i = if decide (i = latest_id tm + 1) then Some (MakeTask (latest_id tm + 1)) else find_task tm i.
Proof.
  intros H. assert (Hfresh : find_task tm (latest_id tm + 1) = None).
  { destruct (find_task tm (latest_id tm + 1)) as [t|] eqn:E; [|done]. apply (so_latest _ H) in E. lia. }
  unfold find_task, NewTask; cbn [fst tasks]. rewrite find_key_app. fold (find_task tm i).
  case_decide; [subst; rewrite Hfresh; cbn; by rewrite Z.eqb_refl|]. destruct (find_task tm i); [done|]. cbn. by destruct (Z.eqb_spec (latest_id tm + 1) i).
Qed.

Lemma task_below tm i t : sched_ok tm -> find_task tm i = Some t -> i <> latest_id tm + 1.
Proof. intros H E. apply (so_latest _ H) in E. lia. Qed.

(** The task manager after some calls, those that are refused left out. *)
Definition exec_calls (ks : list call) : TaskManager := foldl (fun tm k => default tm (exec k tm)) (InitialTaskManager 0 0 0) ks.

Lemma exec_calls_ok ks : Forall (fun k => forall tm, allowed k tm) ks -> sched_ok (exec_calls ks).
Proof.
  intros Ha. apply reachable_ok. unfold exec_calls. generalize (reach_init 0 0 0). generalize (InitialTaskManager 0 0 0).
  induction Ha as [|k ks Hk _ IH]; intros tm Hr; [done|]. cbn [foldl]. apply IH.
  destruct (exec k tm) as [tm'|] eqn:E; [|done]. cbn. exact (reach_step tm k tm' Hr (Hk tm) E).
Qed.

(** ** Witnesses *)

(** The kernel after it created task 3 and started it: two runnable tasks
    of different levels and the idle task. *)
Definition sample_tm : TaskManager :=
  default (InitialTaskManager 0 0 0)
    (exec (CStart 4096 65536 8192 3 7) (fst (NewTask (InitialTaskManager 0 0 0)))).

(** Two tasks of one level: task 3 was moved to the level of task 1. *)
Definition sample_rr : TaskManager := default sample_tm (exec (CWakeup 3 3) sample_tm).

Lemma sample_tm_reachable : reachable sample_tm.
Proof.
  apply (reach_step (fst (NewTask (InitialTaskManager 0 0 0))) (CStart 4096 65536 8192 3 7));
    [|done|by vm_compute].
  apply (reach_step (InitialTaskManager 0 0 0) CNewTask); [apply reach_init|done|done].
Qed.

Lemma sample_rr_reachable : reachable sample_rr.
Proof.
  apply (reach_step sample_tm (CWakeup 3 3)); [exact sample_tm_reachable| |by vm_compute].
  split; [done|]. unfold idle_id. done.
Qed.

Lemma scheduler_safe_witness :
  reachable sample_tm /\ allowed (CFinish 5) sample_tm /\
  exists tm' c, exec (CFinish 5) sample_tm = Some tm' /\ CurrentTask tm' = Some c /\
    where_is tm' c = Some (current_level tm').
Proof.
  assert (Ha : allowed (CFinish 5) sample_tm).
  { intros c Hc. vm_compute in Hc. injection Hc as <-. split; [done|]. intros t w Hw.
    assert (finish_waiter sample_tm = ∅) as E by reflexivity. by rewrite E, lookup_empty in Hw. }
  split; [exact sample_tm_reachable|]. split; [exact Ha|].
  apply (proj2 (scheduler_safe sample_tm sample_tm_reachable) (CFinish 5) Ha).
Defined.

Lemma preempt_round_robin_witness :
  queue sample_rr (current_level sample_rr) = [1; 3] /\
  exists tm', preempt [zero_context; zero_context] sample_rr = Some tm' /\
    queue tm' (current_level sample_rr) = [1; 3].
Proof.
  split; [reflexivity|].
  destruct (preempt_round_robin [zero_context; zero_context] sample_rr [1; 3])
    as (tm' & E & _ & _ & Hq & _).
  - apply reachable_ok, sample_rr_reachable.
  - reflexivity.
  - reflexivity.
  - cbn. lia.
  - exists tm'. split; [exact E|exact Hq].
Defined.

Lemma SendMessage_wakes_witness :
  exists tm1, SendMessage 3 (zero_message kMouseMove) sample_tm = Some (tm1, kSuccess) /\
    where_is tm1 3 = Some 1.
Proof.
  pose proof (SendMessage_wakes 3 (zero_message kMouseMove) sample_tm zero_context
    (reachable_ok _ sample_tm_reachable)) as Hs.
  destruct (find_task sample_tm 3) as [t|] eqn:E; [|discriminate E].
  destruct Hs as (tm1 & E1 & _ & Hw & _). exists tm1. split; [exact E1|].
  rewrite Hw. vm_compute in E. injection E as <-. reflexivity.
Defined.

Lemma WaitFinish_gets_exit_code_witness :
  exists tm1, WaitFinish 3 sample_tm = Some (tm1, inr (SwitchContext 3 1)) /\
  exists tm3, Finish 42 tm1 = Some (tm3, RestoreContext 2) /\
  exists tm4, SwitchTask zero_context tm3 = Some (tm4, RestoreContext 1) /\
  exists tm5, WaitFinish 3 tm4 = Some (tm5, inl 42).
Proof.
  destruct (WaitFinish_gets_exit_code sample_tm 1 3) as (tm1 & next & E & H1 & _ & Hfw & Hfin);
    [apply reachable_ok, sample_tm_reachable|reflexivity|done|done|reflexivity|].
  vm_compute in E. injection E as <- <-.
  eexists; split; [vm_compute; reflexivity|].
  destruct (Hfin _ 42 H1) as (tm3 & now & E3 & _ & _ & _ & _ & Hget);
    [reflexivity|done|reflexivity| |].
  { intros t x Hx. destruct (decide (t = 3)) as [->|]; [injection Hx as <-; done|].
    apply elem_of_map_to_list in Hx. vm_compute in Hx. inversion Hx; subst; [congruence|].
    match goal with Hn : _ ∈ [] |- _ => inversion Hn end. }
  vm_compute in E3. injection E3 as <- <-. eexists; split; [vm_compute; reflexivity|].
  eexists; split; [vm_compute; reflexivity|].
  match goal with |- exists tm5, WaitFinish 3 ?tm4 = _ => 
    destruct (Hget tm4 eq_refl eq_refl) as (tm5 & E5 & _) end.
  exists tm5. exact E5.
Defined.

Lemma CopyToTaskBuffer_bounds_witness :
  exists tm t, find_task tm 1 = Some t /\
    copy_sane (Z.of_nat (length (buf t))) 2 (Z.of_nat (length [7; 8])) /\
    exists tm', CopyToTaskBuffer 1 [7; 8] 2 2 tm = Some (tm', 1).
Proof.
  set (tm := fst (ExpandTaskBuffer 1 5 (InitialTaskManager 0 0 0))).
  destruct (find_task tm 1) as [t|] eqn:E; [|discriminate E]. exists tm, t. split; [exact E|].
  assert (length (buf t) = 5%nat) as Hl by (vm_compute in E; injection E as <-; reflexivity).
  assert (Hs : copy_sane (Z.of_nat (length (buf t))) 2 (Z.of_nat (length [7; 8]))).
  { rewrite Hl. unfold copy_sane. cbn [length]. lia. }
  split; [exact Hs|].
  destruct (CopyToTaskBuffer_bounds tm 1 t [7; 8] 2 E Hs) as (tm' & r & E' & Hr).
  exists tm'. cbn [length] in E', Hr. rewrite Hl in Hr. destruct Hr as [-> _]. exact E'.
Defined.
