(* ===== verification/Timer.v ===== *)
(** * Timers (kernel/timer.cpp)

    [std::priority_queue] is a class: its laws say what [top], [push] and
    [pop] do to the multiset of its elements and leave the order of timers
    with equal timeouts open, as the standard library does. A sorted list
    is an instance. *)

From S2P Require Import Prelude Bytes Message Task.
From stdpp Require Import base list numbers option gmap sorting.
From Stdlib Require Import ZArith Lia.

Local Open Scope Z_scope.

(** [src/kernel/timer.hpp:14-25] [Timer] *)
Record Timer := MkTimer { Timeout : Z; Value : Z; TaskID : Z }.

(** [src/kernel/timer.hpp:45-48] [kTimerFreq] *)
Definition kTimerFreq : Z := 100.
Definition kTaskTimerPeriod : Z := 2.
Definition kTaskTimerValue : Z := 2 ^ 31 - 1.

(** [top] is undefined on an empty queue. The element on top is one with no
    smaller timeout, by the order of [operator<].
    [src/kernel/timer.hpp:27-29] [operator<] *)
Class PriorityQueue (Q : Type) := {
  pq_elems : Q -> list Timer;
  pq_empty : Q;
  pq_push : Timer -> Q -> Q;
  pq_top : Q -> option Timer;
  pq_pop : Q -> Q;
  pq_empty_elems : pq_elems pq_empty = [];
  pq_push_elems : forall t q, pq_elems (pq_push t q) ≡ₚ t :: pq_elems q;
  pq_top_some : forall q, pq_elems q <> [] -> is_Some (pq_top q);
  pq_top_min : forall q t, pq_top q = Some t -> forall u, u ∈ pq_elems q -> Timeout t <= Timeout u;
  pq_pop_elems : forall q t, pq_top q = Some t -> t :: pq_elems (pq_pop q) ≡ₚ pq_elems q;
}.

Section timer_manager.
Context {Q : Type} `{!PriorityQueue Q}.

(** [src/kernel/timer.hpp:31-41] [TimerManager] *)
Record TimerManager := MkTimerManager { tick : Z; timers : Q }.

(** [src/kernel/timer.cpp:51-53] [TimerManager::TimerManager] *)
Definition InitialTimerManager : TimerManager :=
  MkTimerManager 0 (pq_push (MkTimer (2 ^ 64 - 1) 0 0) pq_empty).

(** [src/kernel/timer.cpp:55-57] [TimerManager::AddTimer] *)
Definition AddTimer (t : Timer) (tim : TimerManager) : TimerManager :=
  MkTimerManager (tick tim) (pq_push t (timers tim)).

(** [src/kernel/timer.cpp:76-78] [TimerManager::Tick] *)
Definition timeout_message (t : Timer) : Message :=
  setF timer_value (Value t) (setF timer_timeout (Timeout t) (zero_message kTimerTimeout)).

(** The loop of [Tick]; [now] is [tick_] after the increment.
    [src/kernel/timer.cpp:63-82] [TimerManager::Tick] *)
Fixpoint Tick_loop (fuel : nat) (now : Z) (q : Q) (flag : bool) (tm : TaskManager) :
    option (Q * bool * TaskManager) :=
  match fuel with
  | O => None
  | S fuel' =>
      t ← pq_top q;
      if decide (Timeout t > now) then Some (q, flag, tm)
      else if decide (Value t = kTaskTimerValue) then
        Tick_loop fuel' now
          (pq_push (MkTimer (u64 (now + kTaskTimerPeriod)) kTaskTimerValue 1) (pq_pop q)) true tm
      else
        '(tm', _) ← SendMessage (TaskID t) (timeout_message t) tm;
        Tick_loop fuel' now (pq_pop q) flag tm'
  end.

(** One more turn than there are timers is enough: a turn removes a due timer
    and adds at most one that is not due.
    [src/kernel/timer.cpp:59-84] [TimerManager::Tick] *)
Definition Tick (tim : TimerManager) (tm : TaskManager) :
    option (TimerManager * bool * TaskManager) :=
  let now := u64 (tick tim + 1) in
  '(q, flag, tm') ← Tick_loop (S (length (pq_elems (timers tim)))) now (timers tim) false tm;
  Some (MkTimerManager now q, flag, tm').

(** [src/kernel/timer.cpp:89-96] [LAPICTimerOnInterrupt] *)
Definition LAPICTimerOnInterrupt (ctx_stack : TaskContext) (tim : TimerManager) (tm : TaskManager) :
    option (TimerManager * TaskManager * control) :=
  '(tim', task_timer_timeout, tm1) ← Tick tim tm;
  if (task_timer_timeout : bool) then
    '(tm2, k) ← SwitchTask ctx_stack tm1; Some (tim', tm2, k)
  else Some (tim', tm1, Continue).

(** The timer [InitializeTask] adds for the scheduler.
    [src/kernel/task.cpp:332-339] [InitializeTask] *)
Definition InitializeTask (kernel_cr3 stack_end TaskIdle : Z) (tim : TimerManager) :
    TimerManager * TaskManager :=
  (AddTimer (MkTimer (u64 (tick tim + kTaskTimerPeriod)) kTaskTimerValue 1) tim,
   InitialTaskManager kernel_cr3 stack_end TaskIdle).

(** ** What a tick does *)

Definition due (now : Z) (t : Timer) : Prop := Timeout t <= now.
Definition is_task_timer (t : Timer) : Prop := Value t = kTaskTimerValue.
#[local] Instance due_dec now t : Decision (due now t).
Proof. unfold due; apply _. Defined.
#[local] Instance is_task_timer_dec t : Decision (is_task_timer t).
Proof. unfold is_task_timer; apply _. Defined.

(** Delivery of the messages of the timers [l], in order. *)
Definition deliver (tm : TaskManager) (t : Timer) : TaskManager :=
  match SendMessage (TaskID t) (timeout_message t) tm with
  | Some (tm', _) => tm'
  | None => tm
  end.

Definition next_task_timer (now : Z) : Timer := MkTimer (now + kTaskTimerPeriod) kTaskTimerValue 1.

(** The timers left after a tick: those not due, and one task timer for each
    task timer that was due. *)
Definition timers_after (now : Z) (l : list Timer) : list Timer :=
  filter (fun t => ~ due now t) l ++
  replicate (length (filter (fun t => due now t /\ is_task_timer t) l)) (next_task_timer now).

Definition user_due (now : Z) (l : list Timer) : list Timer :=
  filter (fun t => due now t /\ ~ is_task_timer t) l.

Definition task_due (now : Z) (l : list Timer) : nat :=
  length (filter (fun t => due now t /\ is_task_timer t) l).

Definition by_timeout (t u : Timer) : Prop := Timeout t <= Timeout u.

Lemma SendMessage_ok i msg tm :
  sched_ok tm -> exists tm' c, SendMessage i msg tm = Some (tm', c) /\ sched_ok tm'.
Proof.
  intros H. unfold SendMessage. destruct (find_task tm i) as [t|] eqn:Ht; [|by eexists _, _].
  destruct (Task_SendMessage_ok i msg t tm H Ht) as (tm' & E & H' & _).
  rewrite E. by eexists _, _.
Qed.

Lemma not_due_next now : 0 <= now -> now + kTaskTimerPeriod < 2 ^ 64 ->
  MkTimer (u64 (now + kTaskTimerPeriod)) kTaskTimerValue 1 = next_task_timer now /\
  ~ due now (next_task_timer now).
Proof.
  unfold kTaskTimerPeriod, next_task_timer, due, kTaskTimerPeriod. intros. rewrite u64_small by lia.
  split; [done|]. cbn. lia.
Qed.

Lemma filter_perm (P : Timer -> Prop) `{!forall t, Decision (P t)} l l' :
  l ≡ₚ l' -> filter P l ≡ₚ filter P l'.
Proof. by intros ->. Qed.

Lemma task_due_perm now l l' : l ≡ₚ l' -> task_due now l = task_due now l'.
Proof. intros H. unfold task_due. apply Permutation_length, filter_perm, H. Qed.

Lemma timers_after_perm now l l' : l ≡ₚ l' -> timers_after now l ≡ₚ timers_after now l'.
Proof.
  intros H. unfold timers_after. fold (task_due now l) (task_due now l').
  rewrite (task_due_perm now l l' H). apply Permutation_app_tail, filter_perm, H.
Qed.

Lemma user_due_perm now l l' : l ≡ₚ l' -> user_due now l ≡ₚ user_due now l'.
Proof. apply filter_perm. Qed.

(** One timer more: not due, a task timer, or a user's timer. *)
Lemma due_cons now t l :
  (~ due now t -> user_due now (t :: l) = user_due now l /\ task_due now (t :: l) = task_due now l /\
     timers_after now (t :: l) = t :: timers_after now l) /\
  (due now t -> is_task_timer t -> user_due now (t :: l) = user_due now l /\
     task_due now (t :: l) = S (task_due now l) /\
     timers_after now (t :: l) ≡ₚ next_task_timer now :: timers_after now l) /\
  (due now t -> ~ is_task_timer t -> user_due now (t :: l) = t :: user_due now l /\
     task_due now (t :: l) = task_due now l /\ timers_after now (t :: l) = timers_after now l).
Proof.
  unfold user_due, task_due, timers_after. rewrite !filter_cons.
  split_and!; intros; repeat case_decide; try tauto; split_and!; try done.
  cbn. by rewrite Permutation_middle.
Qed.

Lemma none_due now l :
  Forall (fun t => ~ due now t) l ->
  user_due now l = [] /\ task_due now l = O /\ timers_after now l = l.
Proof.
  induction 1 as [|t l Ht _ (IH1 & IH2 & IH3)]; [done|].
  destruct (due_cons now t l) as (H & _ & _). destruct (H Ht) as (-> & -> & ->). by rewrite IH3.
Qed.

Lemma user_due_in now l t : t ∈ user_due now l -> t ∈ l.
Proof. unfold user_due. rewrite list_elem_of_filter. tauto. Qed.

Lemma filter_none (P : Timer -> Prop) `{!forall t, Decision (P t)} l :
  Forall (fun t => ~ P t) l -> filter P l = [].
Proof. induction 1; [done|]. rewrite filter_cons. by case_decide. Qed.

(** What the loop leaves. *)
Definition tick_result (now : Z) (l : list Timer) (flag : bool) (tm : TaskManager)
    (r : Q * bool * TaskManager) : Prop :=
  let '(q', flag', tm') := r in
  pq_elems q' ≡ₚ timers_after now l /\
  flag' = (flag || bool_decide (0 < task_due now l)%nat) /\ sched_ok tm' /\
  exists fired, fired ≡ₚ user_due now l /\ StronglySorted by_timeout fired /\
    tm' = fold_left deliver fired tm.

Lemma tick_result_perm now l l' flag tm r :
  l ≡ₚ l' -> tick_result now l flag tm r -> tick_result now l' flag tm r.
Proof.
  intros Hp. destruct r as [[q' flag'] tm']. intros (He & Hf & Hs & fired & Hfi & Hso & Hd).
  split_and!; [|by rewrite <- (task_due_perm _ _ _ Hp)|done|].
  - by rewrite He, (timers_after_perm _ _ _ Hp).
  - exists fired. split_and!; [|done..]. by rewrite Hfi, (user_due_perm _ _ _ Hp).
Qed.

Definition due_count now l := length (filter (fun t => due now t) l).

Lemma due_count_perm now l l' : l ≡ₚ l' -> due_count now l = due_count now l'.
Proof. intros H. unfold due_count. apply Permutation_length, filter_perm, H. Qed.

Lemma Tick_loop_spec now fuel : 0 <= now -> now + kTaskTimerPeriod < 2 ^ 64 -> forall q flag tm,
  sched_ok tm -> (exists s, s ∈ pq_elems q /\ ~ due now s) ->
  (due_count now (pq_elems q) < fuel)%nat ->
  exists r, Tick_loop fuel now q flag tm = Some r /\ tick_result now (pq_elems q) flag tm r.
Proof.
  intros Hn0 Hn. destruct (not_due_next now Hn0 Hn) as [Enext Hnext].
  induction fuel as [|fuel IH]; intros q flag tm Hs (s & Hsin & Hsd) Hfuel; [lia|].
  cbn [Tick_loop]. destruct (pq_top_some q) as [t Et]; [by intros E; rewrite E in Hsin; inversion Hsin|].
  pose proof (pq_top_min q t Et) as Hmin. pose proof (pq_pop_elems q t Et) as Hpop.
  rewrite Et; cbn [mbind option_bind]. destruct (due_cons now t (pq_elems (pq_pop q))) as (_ & Htask & Huser).
  assert (Hrest : due now t -> exists s, s ∈ pq_elems (pq_pop q) /\ ~ due now s).
  { intros Hd. exists s. split; [|done]. rewrite <- Hpop in Hsin.
    apply elem_of_cons in Hsin as [->|]; done. }
  rewrite <- (due_count_perm _ _ _ Hpop) in Hfuel. unfold due_count in Hfuel. rewrite filter_cons in Hfuel.
  destruct (decide (Timeout t > now)) as [Hgt|Hgt].
  - assert (Forall (fun u => ~ due now u) (pq_elems q)) as Hnd.
    { apply Forall_forall. intros u Hu. apply Hmin in Hu. unfold due. lia. }
    destruct (none_due _ _ Hnd) as (E1 & E2 & E3). eexists; split; [done|].
    split_and!; [by rewrite E3|by rewrite E2, orb_false_r|done|].
    exists []. rewrite E1. split_and!; [done|constructor|done].
  - assert (due now t) as Hd by (unfold due; lia). rewrite decide_True in Hfuel by done. cbn [length] in Hfuel.
    specialize (Hrest Hd). destruct (decide (Value t = kTaskTimerValue)) as [Hv|Hv].
    + rewrite Enext. destruct (Htask Hd Hv) as (E1 & E2 & E3).
      pose proof (pq_push_elems (next_task_timer now) (pq_pop q)) as Hpush.
      destruct (due_cons now (next_task_timer now) (pq_elems (pq_pop q))) as (Hn' & _ & _).
      destruct (Hn' Hnext) as (F1 & F2 & F3).
      destruct (IH (pq_push (next_task_timer now) (pq_pop q)) true tm Hs) as ([[q' f'] tm'] & E & Hres).
      * destruct Hrest as (s' & ? & ?). exists s'. rewrite Hpush, elem_of_cons. auto.
      * rewrite (due_count_perm _ _ _ Hpush). unfold due_count. rewrite filter_cons, decide_False by done. lia.
      * rewrite E. eexists; split; [done|]. apply (tick_result_perm now _ _ _ _ _ Hpop).
        apply (tick_result_perm now _ _ _ _ _ Hpush) in Hres. revert Hres. unfold tick_result.
        rewrite F1, F2, F3, E1, E2, E3. intros (? & -> & ? & ?). split_and!; try done.
        cbn. by rewrite bool_decide_true, orb_true_r by lia.
    + destruct (Huser Hd Hv) as (E1 & E2 & E3).
      destruct (SendMessage_ok (TaskID t) (timeout_message t) tm Hs) as (tm1 & c & Es & Hs1).
      rewrite Es; cbn [mbind option_bind].
      destruct (IH (pq_pop q) flag tm1 Hs1 Hrest) as ([[q' f'] tm'] & E & (R1 & R2 & R3 & fired & R4 & R5 & R6)).
      { unfold due_count. lia. }
      rewrite E. eexists; split; [done|]. apply (tick_result_perm now _ _ _ _ _ Hpop).
      unfold tick_result. rewrite E1, E2, E3. split_and!; try done.
      exists (t :: fired). split_and!; [by constructor| |].
      * constructor; [done|]. apply Forall_forall. intros u Hu. rewrite R4 in Hu.
        apply Hmin. rewrite <- Hpop. right. by eapply user_due_in.
      * assert (deliver tm t = tm1) as Hdl by (unfold deliver; by rewrite Es). cbn. by rewrite Hdl.
Qed.

(** The sentinel of the constructor is in the queue, and the tick counter is
    not about to wrap (at 100 Hz it would in five billion years). *)
Record timer_ok (tim : TimerManager) : Prop := {
  to_tick : 0 <= tick tim /\ tick tim + 1 + kTaskTimerPeriod < 2 ^ 64;
  to_sentinel : exists s, s ∈ pq_elems (timers tim) /\ Timeout s = 2 ^ 64 - 1;
}.

Lemma filter_length_le (P : Timer -> Prop) `{!forall t, Decision (P t)} l : (length (filter P l) <= length l)%nat.
Proof. induction l as [|t l IH]; [done|]. rewrite filter_cons. case_decide; cbn [length]; lia. Qed.

Lemma sentinel_not_due tim : timer_ok tim ->
  exists s, s ∈ pq_elems (timers tim) /\ Timeout s = 2 ^ 64 - 1 /\ ~ due (tick tim + 1) s.
Proof.
  intros [? (s & Hs & Ht)]. unfold kTaskTimerPeriod in *. exists s. unfold due. split_and!; [done..|lia].
Qed.

Lemma Tick_spec tim tm :
  sched_ok tm -> timer_ok tim ->
  exists q' flag tm', Tick tim tm = Some (MkTimerManager (tick tim + 1) q', flag, tm') /\
    tick_result (tick tim + 1) (pq_elems (timers tim)) false tm (q', flag, tm') /\
    exists s, s ∈ pq_elems q' /\ Timeout s = 2 ^ 64 - 1.
Proof.
  intros Hs Hok. destruct (sentinel_not_due _ Hok) as (s & Hin & Ht & Hd).
  destruct Hok as [Htick _]. unfold Tick. rewrite u64_small by (unfold kTaskTimerPeriod in *; lia).
  destruct (Tick_loop_spec (tick tim + 1) (S (length (pq_elems (timers tim))))) with
    (q := timers tim) (flag := false) (tm := tm) as ([[q' f'] tm'] & E & Hr); [lia|lia|done|by exists s| |].
  { unfold due_count. eapply Nat.le_lt_trans; [apply filter_length_le|lia]. }
  rewrite E. exists q', f', tm'. split_and!; [done|done|].
  destruct Hr as [Hq' _]. exists s. split; [|done]. rewrite Hq'. unfold timers_after.
  apply elem_of_app. left. by apply list_elem_of_filter.
Qed.

(** C7. A tick fires exactly the due timers: the loop always returns, every
    due timer of a task delivers its one message, earliest deadline first, to
    the mailbox of its task (the state is that of sending those messages in
    turn); the timers not due stay, each due scheduler timer is replaced by
    one [kTaskTimerPeriod] ahead, and the result says whether one was due. *)
Theorem Tick_fires_due tim tm :
  sched_ok tm -> timer_ok tim ->
  let now := tick tim + 1 in let l := pq_elems (timers tim) in
  exists q' flag tm' fired, Tick tim tm = Some (MkTimerManager now q', flag, tm') /\
    fired ≡ₚ filter (fun t => due now t /\ ~ is_task_timer t) l /\
    StronglySorted by_timeout fired /\ tm' = fold_left deliver fired tm /\ sched_ok tm' /\
    pq_elems q' ≡ₚ timers_after now l /\
    (flag = true <-> exists t, t ∈ l /\ due now t /\ is_task_timer t).
Proof.
  intros Hs Hok. cbn zeta.
  destruct (Tick_spec tim tm Hs Hok) as (q' & f & tm' & E & (Hq & Hf & Hs' & fired & H1 & H2 & H3) & _).
  exists q', f, tm', fired. split_and!; try done. rewrite Hf. cbn. rewrite bool_decide_eq_true. unfold task_due.
  split.
  - intros Hl. destruct (filter _ _) as [|t lf] eqn:Ef; [cbn in Hl; lia|].
    exists t. assert (t ∈ t :: lf) as Hin by (by left). rewrite <- Ef in Hin.
    apply list_elem_of_filter in Hin. tauto.
  - intros (t & Ht & ? & ?). assert (t ∈ filter (fun t => due (tick tim + 1) t /\ is_task_timer t) (pq_elems (timers tim))) as Hin
      by (by apply list_elem_of_filter). destruct (filter _ _); [inversion Hin|cbn; lia].
Qed.

(** ** The scheduler's timer is periodic *)

(** Ticks, before each of which the timers of an element of [adds] are set. *)
Fixpoint run_ticks (adds : list (list Timer)) (tim : TimerManager) (tm : TaskManager) :
    option (TimerManager * TaskManager * list bool) :=
  match adds with
  | [] => Some (tim, tm, [])
  | ts :: adds' =>
      '(tim1, flag, tm1) ← Tick (fold_right AddTimer tim ts) tm;
      '(tim2, tm2, flags) ← run_ticks adds' tim1 tm1;
      Some (tim2, tm2, flag :: flags)
  end.

Lemma adds_elems ts tim : pq_elems (timers (fold_right AddTimer tim ts)) ≡ₚ ts ++ pq_elems (timers tim).
Proof.
  induction ts as [|t ts IH]; [done|]. cbn. by rewrite pq_push_elems, IH.
Qed.

Lemma adds_tick ts tim : tick (fold_right AddTimer tim ts) = tick tim.
Proof. by induction ts. Qed.

Lemma adds_ok ts tim : timer_ok tim -> timer_ok (fold_right AddTimer tim ts).
Proof.
  intros [? (s & Hs & ?)]. split; [by rewrite adds_tick|]. exists s. split; [|done].
  rewrite adds_elems. apply elem_of_app. by right.
Qed.

(** The one task timer, due at [T]. *)
Definition task_timer_at (T : Z) (l : list Timer) : Prop :=
  filter is_task_timer l ≡ₚ [MkTimer T kTaskTimerValue 1].

Lemma task_due_at now T l :
  task_timer_at T l -> task_due now l = if decide (T <= now) then 1%nat else O.
Proof.
  unfold task_timer_at, task_due. intros H.
  assert (filter (fun t => due now t /\ is_task_timer t) l = filter (due now) (filter is_task_timer l)) as ->.
  { by rewrite list_filter_filter. }
  rewrite (Permutation_length (filter_perm _ _ _ H)). rewrite filter_cons, filter_nil. unfold due. cbn [Timeout].
  repeat case_decide; done.
Qed.

Lemma task_timer_after now T l :
  task_timer_at T l -> task_timer_at (if decide (T <= now) then now + kTaskTimerPeriod else T) (timers_after now l).
Proof.
  intros H. unfold task_timer_at, timers_after. fold (task_due now l).
  rewrite (task_due_at now T) by done. rewrite filter_app.
  assert (filter is_task_timer (filter (fun t => ~ due now t) l) ≡ₚ
          filter (fun t => ~ due now t) [MkTimer T kTaskTimerValue 1]) as ->.
  { etransitivity; [|apply filter_perm, H]. rewrite !list_filter_filter.
    erewrite list_filter_iff; [reflexivity|]. cbn; tauto. }
  rewrite filter_cons. unfold due. cbn [Timeout]. unfold next_task_timer.
  repeat case_decide; try lia; cbn [replicate app filter]; rewrite ?filter_cons, ?decide_True by done; done.
Qed.

(** C8. The scheduler timer is periodic whatever timers the tasks set in
    between: after [InitializeTask] set it [kTaskTimerPeriod] ticks ahead,
    every second tick, and no other, requests a task switch. *)
Theorem task_timer_periodic adds : forall tim tm,
  sched_ok tm -> timer_ok tim -> tick tim + Z.of_nat (length adds) + 1 + kTaskTimerPeriod < 2 ^ 64 ->
  Forall (Forall (fun t => ~ is_task_timer t)) adds ->
  task_timer_at (tick tim + kTaskTimerPeriod) (pq_elems (timers tim)) ->
  exists tim' tm' flags, run_ticks adds tim tm = Some (tim', tm', flags) /\ sched_ok tm' /\
    tick tim' = tick tim + Z.of_nat (length adds) /\
    flags = Nat.odd <$> seq 0 (length adds).
Proof.
  enough (forall k tim tm, (k < 2)%nat ->
    sched_ok tm -> timer_ok tim -> tick tim + Z.of_nat (length adds) + 1 + kTaskTimerPeriod < 2 ^ 64 ->
    Forall (Forall (fun t => ~ is_task_timer t)) adds ->
    task_timer_at (tick tim + kTaskTimerPeriod - Z.of_nat k) (pq_elems (timers tim)) ->
    exists tim' tm' flags, run_ticks adds tim tm = Some (tim', tm', flags) /\ sched_ok tm' /\
      tick tim' = tick tim + Z.of_nat (length adds) /\
      flags = Nat.odd <$> seq k (length adds)) as Hgen.
  { intros tim tm ? ? ? ? ?. apply (Hgen O); try done; [lia|]. by rewrite Z.sub_0_r. }
  induction adds as [|ts adds IH]; intros k tim tm Hk Hs Hok Hmax Hadds Hat.
  { exists tim, tm, []. cbn. split_and!; try done. lia. }
  apply Forall_cons in Hadds as [Hts Hadds]. cbn [run_ticks length] in *.
  set (tim0 := fold_right AddTimer tim ts).
  assert (Hat0 : task_timer_at (tick tim + kTaskTimerPeriod - Z.of_nat k) (pq_elems (timers tim0))).
  { unfold task_timer_at. etransitivity; [apply filter_perm, adds_elems|]. rewrite filter_app.
    rewrite filter_none by done. done. }
  destruct (Tick_spec tim0 tm Hs (adds_ok _ _ Hok)) as (q' & f & tm1 & E & (Hq & Hf & Hs' & _) & Hsen).
  rewrite E; cbn [mbind option_bind]. pose proof (adds_tick ts tim) as Ht0. fold tim0 in Ht0. rewrite Ht0 in *.
  rewrite (task_due_at _ _ _ Hat0) in Hf. cbn [orb] in Hf.
  apply (task_timer_after (tick tim + 1)) in Hat0.
  unfold kTaskTimerPeriod in *. destruct Hok as [Htick _].
  destruct (IH (if decide (k = 0%nat) then 1%nat else 0%nat) (MkTimerManager (tick tim + 1) q') tm1)
    as (tim' & tm' & flags & E' & Hs2 & Ht2 & Hfl); cbn [tick timers] in *.
  - destruct (decide (k = 0%nat)); lia.
  - done.
  - split; cbn; [unfold kTaskTimerPeriod; lia|done].
  - lia.
  - done.
  - unfold task_timer_at in *. rewrite (filter_perm _ _ _ Hq), Hat0.
    match goal with |- [?a] ≡ₚ [?b] => assert (a = b) as -> end; [|done].
    f_equal. repeat case_decide; lia.
  - rewrite E'; cbn [mbind option_bind]. exists tim', tm', (f :: flags). split_and!; [done|done|lia|].
    cbn [seq fmap list_fmap]. rewrite Hf, Hfl. destruct k as [|[|k]]; [| |lia].
    + rewrite decide_False by lia. done.
    + rewrite decide_True by lia. cbn [decide]. f_equal.
      rewrite <- !fmap_S_seq, <- !list_fmap_compose. by apply list_fmap_ext.
Qed.
End timer_manager.

(** ** An implementation: a list sorted by timeout *)

Fixpoint insert_timer (t : Timer) (l : list Timer) : list Timer :=
  match l with
  | [] => [t]
  | u :: l' => if Timeout t <? Timeout u then t :: l else u :: insert_timer t l'
  end.

Definition SortedTimers : Type := { l : list Timer | StronglySorted by_timeout l }.

Lemma insert_timer_perm t l : insert_timer t l ≡ₚ t :: l.
Proof.
  induction l as [|u l IH]; cbn [insert_timer]; [done|]. destruct (_ <? _); [done|].
  rewrite IH. constructor.
Qed.

Lemma insert_timer_sorted t l :
  StronglySorted by_timeout l -> StronglySorted by_timeout (insert_timer t l).
Proof.
  induction 1 as [|u l Hl IH Hu]; cbn [insert_timer].
  - constructor; constructor.
  - destruct (Z.ltb_spec (Timeout t) (Timeout u)).
    + constructor; [by constructor|]. constructor; [unfold by_timeout; lia|].
      eapply Forall_impl; [exact Hu|]. unfold by_timeout. intros; lia.
    + constructor; [done|]. rewrite insert_timer_perm. constructor; [unfold by_timeout; lia|done].
Qed.

Definition sorted_push (t : Timer) (q : SortedTimers) : SortedTimers :=
  exist _ (insert_timer t (proj1_sig q)) (insert_timer_sorted t _ (proj2_sig q)).

Lemma sorted_tail (l : list Timer) : StronglySorted by_timeout l -> StronglySorted by_timeout (tail l).
Proof. destruct 1; [constructor|done]. Qed.

Definition sorted_pop (q : SortedTimers) : SortedTimers :=
  exist _ (tail (proj1_sig q)) (sorted_tail _ (proj2_sig q)).

Definition sorted_top (q : SortedTimers) : option Timer := head (proj1_sig q).

Lemma sorted_top_some (q : SortedTimers) : proj1_sig q <> [] -> is_Some (sorted_top q).
Proof. destruct q as [[|t l] H]; intros Hne; [done|by eexists]. Qed.

Lemma sorted_top_min (q : SortedTimers) t :
  sorted_top q = Some t -> forall u, u ∈ proj1_sig q -> Timeout t <= Timeout u.
Proof.
  destruct q as [[|t' l] H]; unfold sorted_top; cbn; intros Ht u Hu; simplify_eq.
  apply elem_of_cons in Hu as [->|Hu]; [lia|].
  inversion H as [|? ? _ Hf]; subst. rewrite Forall_forall in Hf. by apply Hf.
Qed.

Lemma sorted_pop_elems (q : SortedTimers) t :
  sorted_top q = Some t -> t :: proj1_sig (sorted_pop q) ≡ₚ proj1_sig q.
Proof. destruct q as [[|t' l] H]; unfold sorted_top; cbn; intros; by simplify_eq. Qed.

#[export] Instance sorted_queue : PriorityQueue SortedTimers := {|
  pq_elems := @proj1_sig _ _;
  pq_empty := exist _ [] (SSorted_nil by_timeout);
  pq_push := sorted_push;
  pq_top := sorted_top;
  pq_pop := sorted_pop;
  pq_empty_elems := eq_refl;
  pq_push_elems := fun t q => insert_timer_perm t (proj1_sig q);
  pq_top_some := sorted_top_some;
  pq_top_min := sorted_top_min;
  pq_pop_elems := sorted_pop_elems;
|}.

(** ** Witnesses *)

(** After [InitializeTask], with a timer of task 1 due at the first tick. *)
Definition sample_timers : @TimerManager SortedTimers :=
  AddTimer (MkTimer 1 (-7) 1) (fst (InitializeTask 0 0 0 InitialTimerManager)).

Lemma sample_timers_ok : timer_ok sample_timers.
Proof.
  split; [unfold kTaskTimerPeriod; cbn; lia|]. exists (MkTimer (2 ^ 64 - 1) 0 0).
  split; [|done]. right. right. by left.
Qed.

Lemma Tick_fires_due_witness :
  sched_ok sample_tm /\ timer_ok sample_timers /\
  exists q' tm', Tick sample_timers sample_tm = Some (MkTimerManager 1 q', false, tm').
Proof.
  pose proof (reachable_ok _ sample_tm_reachable) as Hs. pose proof sample_timers_ok as Ht.
  split; [exact Hs|]. split; [exact Ht|].
  destruct (Tick_fires_due sample_timers sample_tm Hs Ht) as (q' & f & tm' & fired & E & _ & _ & _ & _ & _ & Hf).
  exists q', tm'. destruct f; [|exact E]. exfalso. destruct Hf as [Hf _].
  destruct (Hf eq_refl) as (t & Hin & Hd & Hk). unfold due, is_task_timer in *.
  repeat (apply elem_of_cons in Hin as [->|Hin]; [first [discriminate Hk|by destruct (Hd eq_refl)]|]).
  by apply not_elem_of_nil in Hin.
Defined.

Lemma task_timer_periodic_witness :
  exists tim' tm', run_ticks [[MkTimer 9 (-3) 1]; []; []; []] sample_timers sample_tm =
    Some (tim', tm', [false; true; false; true]).
Proof.
  destruct (task_timer_periodic [[MkTimer 9 (-3) 1]; []; []; []] sample_timers sample_tm)
    as (tim' & tm' & fl & E & _ & _ & Hf).
  - apply (reachable_ok _ sample_tm_reachable).
  - apply sample_timers_ok.
  - unfold kTaskTimerPeriod. cbn. lia.
  - repeat constructor; done.
  - unfold task_timer_at; reflexivity.
  - exists tim', tm'. rewrite E, Hf. reflexivity.
Defined.
