(* ===== verification/Paging.v ===== *)
(** * Four-level page tables (kernel/paging.cpp)

    Physical memory is a map from frame numbers to pages of 512 64-bit words;
    the kernel is identity mapped, so a [PageMapEntry*] is a physical address.
    The functions take the machine state and return the new one; the frame
    allocator is a class, which [FrameBitmap] implements. *)

From S2P Require Import Prelude FrameBitmap.
From stdpp Require Import base list numbers option gmap.
From Stdlib Require Import ZArith Lia.

Local Open Scope Z_scope.

(** ** Entries and addresses *)

(** Bits of a page map entry.
    [src/kernel/paging.hpp:65-91] [PageMapEntry] *)
Definition present (e : Z) : bool := Z.testbit e 0.
Definition writable (e : Z) : bool := Z.testbit e 1.
Definition user (e : Z) : bool := Z.testbit e 2.
Definition put_bit (i : Z) (b : bool) (e : Z) : Z := if b then Z.setbit e i else Z.clearbit e i.
Definition set_present (b : bool) (e : Z) : Z := put_bit 0 b e.
Definition set_writable (b : bool) (e : Z) : Z := put_bit 1 b e.
Definition set_user (b : bool) (e : Z) : Z := put_bit 2 b e.
Definition huge_page (e : Z) : bool := Z.testbit e 7.
(** The frame number in the [addr] bits. *)
Definition entry_frame (e : Z) : Z := (e / 2 ^ 12) mod 2 ^ 40.
(** [src/kernel/paging.hpp:84-86] [PageMapEntry::Pointer] *)
Definition Pointer (e : Z) : Z := entry_frame e * 2 ^ 12.
(** [src/kernel/paging.hpp:88-90] [PageMapEntry::SetPointer] *)
Definition SetPointer (e p : Z) : Z :=
  e - entry_frame e * 2 ^ 12 + ((p / 2 ^ 12) mod 2 ^ 40) * 2 ^ 12.

(** The level of a part: 1 is the page table, 4 the PML4; the offset (level 0)
    is not used as an index.
    [src/kernel/paging.hpp:15-42] [LinearAddress4Level::Part] *)
Definition part_shift (page_map_level : nat) : Z := 12 + 9 * (Z.of_nat page_map_level - 1).
Definition Part (addr : Z) (page_map_level : nat) : Z :=
  (addr / 2 ^ part_shift page_map_level) mod 2 ^ 9.
(** [src/kernel/paging.hpp:44-62] [LinearAddress4Level::SetPart] *)
Definition SetPart (addr : Z) (page_map_level : nat) (value : Z) : Z :=
  addr - Part addr page_map_level * 2 ^ part_shift page_map_level +
  (value mod 2 ^ 9) * 2 ^ part_shift page_map_level.

(** [for (level = page_map_level - 1; level >= 1; --level) addr.SetPart(level, 0)] *)
Fixpoint ClearParts (addr : Z) (below : nat) : Z :=
  match below with
  | O => addr
  | S l => ClearParts (SetPart addr below 0) l
  end.

(** ** Facts about entries and addresses *)

Lemma put_bit_high i b e j : 0 <= i -> i <> j -> Z.testbit (put_bit i b e) j = Z.testbit e j.
Proof.
  intros. unfold put_bit. destruct b; [rewrite Z.setbit_eqb by lia|rewrite Z.clearbit_eqb];
    destruct (Z.eqb_spec i j); cbn; try lia; by rewrite ?andb_true_r.
Qed.

Lemma put_bit_same i b e : 0 <= i -> Z.testbit (put_bit i b e) i = b.
Proof.
  intros. unfold put_bit. destruct b; [apply Z.setbit_eq; lia|apply Z.clearbit_eq].
Qed.

Lemma put_bit_id i e : 0 <= i -> put_bit i (Z.testbit e i) e = e.
Proof.
  intros. apply Z.bits_inj'. intros j Hj. destruct (decide (i = j)) as [<-|].
  - by apply put_bit_same.
  - by apply put_bit_high.
Qed.

Lemma put_bit_frame i b e : 0 <= i < 12 -> entry_frame (put_bit i b e) = entry_frame e.
Proof.
  intros. unfold entry_frame. f_equal. rewrite <- !Z.shiftr_div_pow2 by lia.
  apply Z.bits_inj'. intros j Hj. rewrite !Z.shiftr_spec by done. apply put_bit_high; lia.
Qed.

Lemma low_bits_add e k i : 0 <= i < 12 -> Z.testbit (e + k * 2 ^ 12) i = Z.testbit e i.
Proof.
  intros. rewrite <- (Z.mod_pow2_bits_low _ 12 i), <- (Z.mod_pow2_bits_low e 12 i) by lia.
  by rewrite Z_mod_plus_full.
Qed.

Lemma SetPointer_low e p i : 0 <= i < 12 -> Z.testbit (SetPointer e p) i = Z.testbit e i.
Proof.
  intros. unfold SetPointer.
  replace (e - entry_frame e * 2 ^ 12 + (p / 2 ^ 12) mod 2 ^ 40 * 2 ^ 12)
    with (e + ((p / 2 ^ 12) mod 2 ^ 40 - entry_frame e) * 2 ^ 12) by lia.
  by apply low_bits_add.
Qed.

Lemma entry_frame_range e : 0 <= entry_frame e < 2 ^ 40.
Proof. apply Z.mod_pos_bound. lia. Qed.

Lemma SetPointer_frame e f : 0 <= f < 2 ^ 40 -> entry_frame (SetPointer e (f * 2 ^ 12)) = f.
Proof.
  intros. unfold SetPointer. rewrite Z.div_mul, (Z.mod_small f) by lia.
  unfold entry_frame at 1.
  replace (e - entry_frame e * 2 ^ 12 + f * 2 ^ 12) with (e + (f - entry_frame e) * 2 ^ 12) by lia.
  rewrite Z.div_add by lia. unfold entry_frame.
  rewrite (Z.div_mod (e / 2 ^ 12) (2 ^ 40)) at 1 by lia.
  replace (2 ^ 40 * (e / 2 ^ 12 / 2 ^ 40) + (e / 2 ^ 12) mod 2 ^ 40 + (f - (e / 2 ^ 12) mod 2 ^ 40))
    with (f + (e / 2 ^ 12 / 2 ^ 40) * 2 ^ 40) by lia.
  rewrite Z_mod_plus_full. by apply Z.mod_small.
Qed.

(** A digit of a page number in base 512, and the address after it. *)
Definition page_no (addr : Z) : Z := (addr / 2 ^ 12) mod 2 ^ 36.
Definition pw (n : nat) : Z := 512 ^ Z.of_nat n.

Lemma pw_S n : pw (S n) = 512 * pw n.
Proof. unfold pw. rewrite Nat2Z.inj_succ, Z.pow_succ_r; lia. Qed.
Lemma pw_pos n : 0 < pw n.
Proof. unfold pw. apply Z.pow_pos_nonneg; lia. Qed.
Lemma pw_pow n : pw n = 2 ^ (9 * Z.of_nat n).
Proof. unfold pw. change 512 with (2 ^ 9). by rewrite <- Z.pow_mul_r by lia. Qed.

Lemma part_shift_S l : 2 ^ part_shift (S l) = 2 ^ 12 * pw l.
Proof. unfold part_shift. rewrite pw_pow, <- Z.pow_add_r by lia. f_equal. lia. Qed.

Lemma Part_div addr l : Part addr (S l) = (addr / 2 ^ 12 / pw l) mod 512.
Proof.
  unfold Part. rewrite part_shift_S, <- Z.div_div; [done|lia|apply pw_pos].
Qed.

Lemma Part_range addr l : 0 <= Part addr l < 512.
Proof. apply Z.mod_pos_bound. lia. Qed.

Lemma pw_split l : (l < 4)%nat -> exists k, 0 < k /\ 2 ^ 36 = pw l * (512 * k).
Proof.
  intros. exists (2 ^ (27 - 9 * Z.of_nat l)). split; [apply Z.pow_pos_nonneg; lia|].
  rewrite pw_pow. change 512 with (2 ^ 9). rewrite <- !Z.pow_add_r by lia. f_equal. lia.
Qed.

Lemma mod_div_mod x w k : 0 < w -> 0 < k -> (x mod (w * (512 * k))) / w mod 512 = (x / w) mod 512.
Proof.
  intros. rewrite (Z.div_mod x (w * (512 * k))) at 2 by lia.
  replace (w * (512 * k) * (x / (w * (512 * k))) + x mod (w * (512 * k)))
    with (x mod (w * (512 * k)) + (512 * k * (x / (w * (512 * k)))) * w) by lia.
  rewrite Z.div_add by lia.
  replace (512 * k * (x / (w * (512 * k)))) with (k * (x / (w * (512 * k))) * 512) by lia.
  by rewrite Z_mod_plus_full.
Qed.

Lemma Part_page_no addr l : (l < 4)%nat -> Part addr (S l) = (page_no addr / pw l) mod 512.
Proof.
  intros Hl. rewrite Part_div. unfold page_no. destruct (pw_split l Hl) as (k & Hk & ->).
  symmetry. apply mod_div_mod; [apply pw_pos|done].
Qed.

Lemma page_no_range addr : 0 <= page_no addr < 2 ^ 36.
Proof. apply Z.mod_pos_bound. lia. Qed.

Lemma div_add_mult addr x w : 0 < w -> (addr + x * (2 ^ 12 * w)) / 2 ^ 12 = addr / 2 ^ 12 + x * w.
Proof. intros. replace (addr + x * (2 ^ 12 * w)) with (addr + (x * w) * 2 ^ 12) by lia. by rewrite Z.div_add by lia. Qed.

Lemma page_no_SetPart addr l x :
  (l < 4)%nat -> 0 <= x < 512 ->
  page_no (SetPart addr (S l) x) = page_no addr + (x - Part addr (S l)) * pw l.
Proof.
  intros Hl Hx. pose proof (pw_pos l). pose proof (Part_range addr (S l)).
  pose proof (Part_page_no addr l Hl) as Hp. pose proof (page_no_range addr) as Hr.
  destruct (pw_split l Hl) as (k & Hk & E36).
  unfold SetPart. rewrite part_shift_S, (Z.mod_small x) by lia.
  replace (addr - Part addr (S l) * (2 ^ 12 * pw l) + x * (2 ^ 12 * pw l))
    with (addr + (x - Part addr (S l)) * (2 ^ 12 * pw l)) by lia.
  unfold page_no at 1. rewrite div_add_mult by done.
  rewrite Zplus_mod, <- (Z.mod_mod (addr / 2 ^ 12)), <- Zplus_mod by lia. fold (page_no addr).
  apply Z.mod_small. rewrite E36 in *. set (v := page_no addr) in *. set (pt := Part addr (S l)) in *.
  pose proof (Z.div_mod v (pw l)). pose proof (Z.mod_pos_bound v (pw l)).
  pose proof (Z.div_mod (v / pw l) 512). 
  assert (v / pw l < 512 * k) by (apply Z.div_lt_upper_bound; lia).
  assert (0 <= v / pw l) by (apply Z.div_pos; lia).
  assert (v / pw l / 512 < k) by (apply Z.div_lt_upper_bound; lia).
  assert (0 <= v / pw l / 512) by (apply Z.div_pos; lia).
  nia.
Qed.

(** The address of the next entry: the page number rounded down to this
    table's granularity, plus one unit. *)
Lemma page_no_ClearParts l addr : (l <= 4)%nat ->
  page_no (ClearParts addr l) = page_no addr / pw l * pw l.
Proof.
  revert addr. induction l as [|l IH]; intros addr Hl; cbn [ClearParts].
  - unfold pw; cbn. by rewrite Z.div_1_r, Z.mul_1_r.
  - rewrite IH, page_no_SetPart, Part_page_no by lia. rewrite pw_S.
    pose proof (pw_pos l). set (v := page_no addr).
    rewrite (Z.mul_comm 512), <- Z.div_div by lia.
    rewrite Z.div_add by lia. pose proof (Z.div_mod (v / pw l) 512). lia.
Qed.

Lemma page_no_next addr l :
  (l < 4)%nat -> Part addr (S l) < 511 ->
  page_no (ClearParts (SetPart addr (S l) (Part addr (S l) + 1)) l) = (page_no addr / pw l + 1) * pw l.
Proof.
  intros Hl Hi. pose proof (Part_range addr (S l)). pose proof (pw_pos l).
  rewrite page_no_ClearParts, page_no_SetPart by lia.
  rewrite Z.div_add by lia. lia.
Qed.

(** ** The frame allocator *)

Definition frame_limit : Z := 2 ^ 25.

Class FrameAllocator (A : Type) := {
  fa_allocate : A -> option (A * WithError Z);
  fa_free : A -> Z -> option (A * Code);
  fa_ok : A -> Prop;
  fa_used : A -> Z -> bool;
  fa_managed : A -> Z -> bool;
  fa_allocate_spec : forall a, fa_ok a -> exists a' f e, fa_allocate a = Some (a', (f, e)) /\ fa_ok a' /\
    fa_managed a' = fa_managed a /\
    ((e = kSuccess /\ 0 <= f < frame_limit /\ fa_used a f = false /\
      forall g, 0 <= g -> fa_used a' g = if decide (g = f) then true else fa_used a g) \/
     (e = kNoEnoughMemory /\ a' = a /\ forall g, fa_managed a g = true -> fa_used a g = true));
  fa_free_spec : forall a f, fa_ok a -> 0 <= f < frame_limit ->
    exists a', fa_free a f = Some (a', kSuccess) /\ fa_ok a' /\ fa_managed a' = fa_managed a /\
      forall g, 0 <= g -> fa_used a' g = if decide (g = f) then false else fa_used a g;
}.

(** Every frame the allocator manages is taken: the only reason it may give
    for refusing a frame. *)
Definition exhausted {A} `{!FrameAllocator A} (a : A) : Prop :=
  forall g, fa_managed a g = true -> fa_used a g = true.

Section paging.
Context {A : Type} `{!FrameAllocator A}.

(** Memory, the frame allocator and the CR3 register. *)
Record Machine := MkMachine {
  mem : gmap Z (list Z);
  memory_manager : A;
  CR3 : Z;
}.
Definition set_mem m st := MkMachine m (memory_manager st) (CR3 st).
Definition set_manager a st := MkMachine (mem st) a (CR3 st).
Definition SetCR3 c st := MkMachine (mem st) (memory_manager st) c.

(** The outcome of an operation for which frames ran out. *)
Definition ran_out (st : Machine) (err : Code) : Prop :=
  err = kNoEnoughMemory /\ exhausted (memory_manager st).

Definition frame_of (p : Z) : Z := p / kBytesPerFrame.

(** [table[i]] as a value and as an assignment. *)
Definition load (st : Machine) (table i : Z) : option Z :=
  pg ← mem st !! frame_of table; getZ pg i.
Definition store (st : Machine) (table i v : Z) : option Machine :=
  pg ← mem st !! frame_of table; pg' ← setZ pg i v;
  Some (set_mem (<[frame_of table := pg']> (mem st)) st).

(** A null pointer is 0.
    [src/kernel/paging.cpp:155-164] [NewPageMap] *)
Definition NewPageMap (st : Machine) : option (Machine * WithError Z) :=
  '(a, (f, err)) ← fa_allocate (memory_manager st);
  let st1 := set_manager a st in
  if is_error err then Some (st1, (0, err))
  else Some (set_mem (<[f := replicate 512 0]> (mem st1)) st1, (f * kBytesPerFrame, kSuccess)).

(** [src/kernel/paging.cpp:166-169] [FreePageMap] *)
Definition FreePageMap (table : Z) (st : Machine) : option (Machine * Code) :=
  '(a, err) ← fa_free (memory_manager st) (frame_of table); Some (set_manager a st, err).

(** [src/kernel/paging.cpp:42-56] [SetNewPageMapIfNotPresent] *)
Definition SetNewPageMapIfNotPresent (table i : Z) (st : Machine) :
    option (Machine * WithError Z) :=
  entry ← load st table i;
  if present entry then Some (st, (Pointer entry, kSuccess))
  else
    '(st1, (child_map, err)) ← NewPageMap st;
    if is_error err then Some (st1, (0, err))
    else
      st2 ← store st1 table i (set_present true (SetPointer entry child_map));
      Some (st2, (child_map, kSuccess)).

(** Update of the flags of an entry in place. *)
Definition update (table i : Z) (f : Z -> Z) (st : Machine) : option Machine :=
  e ← load st table i; store st table i (f e).

(** The body of the loop at level [S level'] up to the recursive call
    [descend]: the entry is made present and its flags set, and the pages left
    to map returned.
    [src/kernel/paging.cpp:62-83] [SetupPageMap] *)
Definition SetupPageMap_turn (descend : Z -> Z -> Z -> Machine -> option (Machine * WithError Z))
    (level' : nat) (page_map : Z) (wr : bool) (addr num_4kpages : Z) (st : Machine) :
    option (Machine * WithError Z) :=
  let entry_index := Part addr (S level') in
  '(st1, (child_map, err)) ← SetNewPageMapIfNotPresent page_map entry_index st;
  if is_error err then Some (st1, (num_4kpages, err))
  else
    st2 ← update page_map entry_index (set_user true) st1;
    match level' with
    | O =>
        st3 ← update page_map entry_index (set_writable wr) st2;
        Some (st3, (num_4kpages - 1, kSuccess))
    | S _ =>
        st3 ← update page_map entry_index (set_writable true) st2;
        descend child_map addr num_4kpages st3
    end.

(** The [while] loop visits at most the 512 entries of the table, so that fuel
    is never exhausted.
    [src/kernel/paging.cpp:61-95] [SetupPageMap] *)
Fixpoint SetupPageMap_loop (descend : Z -> Z -> Z -> Machine -> option (Machine * WithError Z))
    (level' : nat) (page_map : Z) (wr : bool) (fuel : nat) (addr num_4kpages : Z) (st : Machine) :
    option (Machine * WithError Z) :=
  match fuel with
  | O => None
  | S fuel' =>
      if decide (num_4kpages > 0) then
        let entry_index := Part addr (S level') in
        '(st3, (num_remain, err)) ← SetupPageMap_turn descend level' page_map wr addr num_4kpages st;
        if is_error err then Some (st3, (num_4kpages, err))
        else if decide (entry_index = 511) then Some (st3, (num_remain, kSuccess))
        else SetupPageMap_loop descend level' page_map wr fuel'
               (ClearParts (SetPart addr (S level') (entry_index + 1)) level') num_remain st3
      else Some (st, (num_4kpages, kSuccess))
  end.

(** [src/kernel/paging.cpp:58-96] [SetupPageMap] *)
Fixpoint SetupPageMap (page_map_level : nat) (page_map addr num_4kpages : Z) (wr : bool)
    (st : Machine) : option (Machine * WithError Z) :=
  match page_map_level with
  | O => None
  | S level' =>
      SetupPageMap_loop (fun child_map addr num st => SetupPageMap level' child_map addr num wr st)
        level' page_map wr 512 addr num_4kpages st
  end.

(** [src/kernel/paging.cpp:171-175] [SetupPageMaps] *)
Definition SetupPageMaps (addr num_4kpages : Z) (wr : bool) (st : Machine) :
    option (Machine * Code) :=
  '(st', (_, err)) ← SetupPageMap 4 (CR3 st) addr num_4kpages wr st; Some (st', err).

(** The [for] loop at level [S level'], with [k] entries left from [i] on;
    [descend] is the recursive call.
    [src/kernel/paging.cpp:100-123] [CleanPageMap] *)
Fixpoint CleanPageMap_loop (descend : Z -> Machine -> option (Machine * Code))
    (level' : nat) (page_map : Z) (k : nat) (i : Z) (st : Machine) : option (Machine * Code) :=
  match k with
  | O => Some (st, kSuccess)
  | S k' =>
      entry ← load st page_map i;
      if negb (present entry) then CleanPageMap_loop descend level' page_map k' (i + 1) st
      else
        '(st1, err) ←
          match level' with
          | O => Some (st, kSuccess)
          | S _ => descend (Pointer entry) st
          end;
        if is_error err then Some (st1, err)
        else
          '(st2, err) ←
            (if writable entry then FreePageMap (Pointer entry) st1 else Some (st1, kSuccess));
          if is_error err then Some (st2, err)
          else st3 ← store st2 page_map i 0; CleanPageMap_loop descend level' page_map k' (i + 1) st3
  end.

(** [src/kernel/paging.cpp:98-126] [CleanPageMap] *)
Fixpoint CleanPageMap (page_map_level : nat) (page_map addr : Z) (st : Machine) :
    option (Machine * Code) :=
  match page_map_level with
  | O => None
  | S level' =>
      CleanPageMap_loop (fun child st => CleanPageMap level' child addr st) level' page_map
        (512 - Z.to_nat (Part addr page_map_level))%nat (Part addr page_map_level) st
  end.

(** [src/kernel/paging.cpp:177-180] [CleanPageMaps] *)
Definition CleanPageMaps (addr : Z) (st : Machine) : option (Machine * Code) :=
  CleanPageMap 4 (CR3 st) addr st.

(** [src/kernel/paging.cpp:128-140] [SetPageContent] *)
Fixpoint SetPageContent (part : nat) (table addr content : Z) (st : Machine) :
    option (Machine * Code) :=
  match part with
  | O => None
  | S O => st' ← update table (Part addr part) (fun e => set_writable true (SetPointer e content)) st;
           Some (st', kSuccess)
  | S part' => e ← load st table (Part addr part); SetPageContent part' (Pointer e) addr content st
  end.

(** What the processor makes of virtual page [vpn]: its frame and whether a
    user access and a write are allowed, the flags of all levels combined.
    An entry with [huge_page] at level 2 or 3 ends the walk. *)
Fixpoint translate (st : Machine) (page_map_level : nat) (table vpn : Z) : option (Z * bool * bool) :=
  match page_map_level with
  | O => None
  | S level' =>
      e ← load st table ((vpn / 512 ^ Z.of_nat level') mod 512);
      if negb (present e) then None
      else if decide (level' = O) then Some (entry_frame e, writable e, user e)
      else if huge_page e && bool_decide (level' < 3)%nat then
        Some (entry_frame e / 512 ^ Z.of_nat level' * 512 ^ Z.of_nat level' +
              vpn mod 512 ^ Z.of_nat level', writable e, user e)
      else
        '(f, w, u) ← translate st level' (Pointer e) vpn;
        Some (f, (w : bool) && writable e, (u : bool) && user e)
  end.

(** The [memcpy] reads through the current page tables, and writes the new
    frame through the identity map.
    [src/kernel/paging.cpp:142-151] [CopyOnePage] *)
Definition CopyOnePage (causal_addr : Z) (st : Machine) : option (Machine * Code) :=
  '(st1, (p, err)) ← NewPageMap st;
  if is_error err then Some (st1, err)
  else
    '(f, _, _) ← translate st1 4 (CR3 st1) (page_no causal_addr);
    pg ← mem st1 !! f;
    let st2 := set_mem (<[frame_of p := pg]> (mem st1)) st1 in
    SetPageContent 4 (CR3 st2) causal_addr p st2.

(** The [for] loop, with [k] entries left from [i] on; [descend] is the
    recursive call on the new table and the one [src[i]] points to.
    [src/kernel/paging.cpp:184-207] [CopyPageMaps] *)
Fixpoint CopyPageMaps_loop (descend : Z -> Z -> Machine -> option (Machine * Code))
    (part' : nat) (dest src : Z) (k : nat) (i : Z) (st : Machine) : option (Machine * Code) :=
  match k with
  | O => Some (st, kSuccess)
  | S k' =>
      e ← load st src i;
      if negb (present e) then CopyPageMaps_loop descend part' dest src k' (i + 1) st
      else
        match part' with
        | O =>
            st1 ← store st dest i (set_writable false e);
            CopyPageMaps_loop descend part' dest src k' (i + 1) st1
        | S _ =>
            '(st1, (table, err)) ← NewPageMap st;
            if is_error err then Some (st1, err)
            else
              e ← load st1 src i;
              st2 ← store st1 dest i (SetPointer e table);
              e' ← load st2 src i;
              '(st3, err) ← descend table (Pointer e') st2;
              if is_error err then Some (st3, err)
              else CopyPageMaps_loop descend part' dest src k' (i + 1) st3
        end
  end.

(** [src/kernel/paging.cpp:182-209] [CopyPageMaps] *)
Fixpoint CopyPageMaps (part : nat) (dest src : Z) (start : Z) (st : Machine) :
    option (Machine * Code) :=
  match part with
  | O => None
  | S part' =>
      CopyPageMaps_loop (fun table child st => CopyPageMaps part' table child 0 st)
        part' dest src (512 - Z.to_nat start)%nat start st
  end.

(** [dpaging_begin] and [dpaging_end] are those of the current task.
    [src/kernel/paging.cpp:211-227] [HandlePageFault] *)
Definition HandlePageFault (dpaging_begin dpaging_end error_code causal_addr : Z) (st : Machine) :
    option (Machine * Code) :=
  let present := Z.testbit error_code 0 in
  let rw := Z.testbit error_code 1 in
  let user := Z.testbit error_code 2 in
  if present && rw && user then CopyOnePage causal_addr st
  else if present then Some (st, kAlreadyAllocated)
  else if decide (dpaging_begin <= causal_addr /\ causal_addr < dpaging_end) then
    SetupPageMaps causal_addr 1 true st
  else Some (st, kIndexOutOfRange).

(** ** Well-formed page tables

    [ow] assigns to the frame of every page table its level and the page
    numbers it covers ([vpn / 512 ^ level]). Being a function, it forbids that
    two entries share a table. It speaks of the application's half of the
    address space; the kernel's half of a PML4 is shared between tasks. *)
Definition upper (vpn : Z) : Prop := 2 ^ 35 <= vpn < 2 ^ 36.
Definition covers (L : nat) (p vpn : Z) : Prop := vpn / pw L = p /\ upper vpn.
Definition idx (L : nat) (vpn : Z) : Z := (vpn / pw (pred L)) mod 512.

#[local] Abbreviation owners := (gmap Z (nat * Z)).

(** What an entry of a table of level [L] may hold; [r] is the part of the
    page numbers the entry covers. *)
Definition entry_ok (st : Machine) (ow : owners) (L : nat) (r e : Z) : Prop :=
  if present e then
    match L with
    | 1%nat => ow !! entry_frame e = None /\ fa_used (memory_manager st) (entry_frame e) = true /\
               is_Some (mem st !! entry_frame e) /\ entry_frame e < frame_limit
    | _ => ow !! entry_frame e = Some (pred L, r) /\ writable e = true /\ user e = true /\
           huge_page e = false
    end
  else e = 0.

Record pt_ok (st : Machine) (ow : owners) : Prop := {
  po_manager : fa_ok (memory_manager st);
  po_table : forall f L p, ow !! f = Some (L, p) ->
    (1 <= L <= 4)%nat /\ 0 <= f < frame_limit /\ fa_used (memory_manager st) f = true /\
    exists pg, mem st !! f = Some pg /\ length pg = 512%nat;
  po_entry : forall f L p vpn e, ow !! f = Some (L, p) -> covers L p vpn ->
    load st (f * 2 ^ 12) (idx L vpn) = Some e -> entry_ok st ow L (vpn / pw (pred L)) e;
}.

(** The same without the allocator: the shape of the tables alone. *)
Definition entry_shape (ow : owners) (L : nat) (r e : Z) : Prop :=
  if present e then
    entry_frame e < frame_limit /\
    match L with
    | 1%nat => ow !! entry_frame e = None
    | _ => ow !! entry_frame e = Some (pred L, r) /\ writable e = true /\ user e = true /\
           huge_page e = false
    end
  else e = 0.

Record pt_shape (st : Machine) (ow : owners) : Prop := {
  ps_table : forall f L p, ow !! f = Some (L, p) ->
    (1 <= L <= 4)%nat /\ 0 <= f < frame_limit /\ exists pg, mem st !! f = Some pg /\ length pg = 512%nat;
  ps_entry : forall f L p vpn e, ow !! f = Some (L, p) -> covers L p vpn ->
    load st (f * 2 ^ 12) (idx L vpn) = Some e -> entry_shape ow L (vpn / pw (pred L)) e;
}.

Lemma pt_ok_shape st ow : pt_ok st ow -> pt_shape st ow.
Proof.
  intros H. split.
  - intros f L p Hf. destruct (po_table _ _ H _ _ _ Hf) as (? & ? & _ & ?). done.
  - intros f L p vpn e Hf Hc He. pose proof (po_entry _ _ H _ _ _ _ _ Hf Hc He) as Hok.
    unfold entry_ok in Hok. unfold entry_shape. destruct (present e); [|done].
    destruct L as [|[|L]].
    1, 3: (split; [|done]; destruct Hok as (Ho & _); by destruct (po_table _ _ H _ _ _ Ho) as (_ & [_ ?] & _)).
    destruct Hok as (Ho & _ & _ & ?). done.
Qed.
Coercion pt_ok_shape : pt_ok >-> pt_shape.

Lemma frame_of_mul f : frame_of (f * 2 ^ 12) = f.
Proof. unfold frame_of, kBytesPerFrame. change 4096 with (2 ^ 12). by rewrite Z.div_mul by lia. Qed.

Lemma load_mul st f i : load st (f * 2 ^ 12) i = (pg ← mem st !! f; getZ pg i).
Proof. unfold load. by rewrite frame_of_mul. Qed.

Lemma idx_range L vpn : 0 <= idx L vpn < 512.
Proof. apply Z.mod_pos_bound. lia. Qed.

Lemma load_entry st ow f L p vpn :
  pt_ok st ow -> ow !! f = Some (L, p) -> covers L p vpn ->
  exists pg e, mem st !! f = Some pg /\ length pg = 512%nat /\ getZ pg (idx L vpn) = Some e /\
    load st (f * 2 ^ 12) (idx L vpn) = Some e /\ entry_ok st ow L (vpn / pw (pred L)) e.
Proof.
  intros H Hf Hc. destruct (po_table _ _ H _ _ _ Hf) as (_ & _ & _ & pg & Hpg & Hlen).
  pose proof (idx_range L vpn). destruct (getZ_Some pg (idx L vpn)) as [e He]; [lia|].
  assert (Hl : load st (f * 2 ^ 12) (idx L vpn) = Some e) by (rewrite load_mul, Hpg; done).
  exists pg, e. split_and!; [done..|]. by eapply po_entry.
Qed.

Lemma load_shape st ow f L p vpn :
  pt_shape st ow -> ow !! f = Some (L, p) -> covers L p vpn ->
  exists pg e, mem st !! f = Some pg /\ length pg = 512%nat /\
    load st (f * 2 ^ 12) (idx L vpn) = Some e /\ entry_shape ow L (vpn / pw (pred L)) e.
Proof.
  intros H Hf Hc. destruct (ps_table _ _ H _ _ _ Hf) as (_ & _ & pg & Hpg & Hlen).
  pose proof (idx_range L vpn). destruct (getZ_Some pg (idx L vpn)) as [e He]; [lia|].
  assert (Hl : load st (f * 2 ^ 12) (idx L vpn) = Some e) by (rewrite load_mul, Hpg; done).
  exists pg, e. split_and!; [done..|]. by eapply ps_entry.
Qed.

Lemma covers_child L p vpn : (1 <= L)%nat -> covers L p vpn -> covers (pred L) (vpn / pw (pred L)) vpn.
Proof. unfold covers. tauto. Qed.

(** An entry of one table is at one index: page numbers the table covers have
    the same index there exactly when they agree above it. *)
Lemma idx_same L p v w :
  (1 <= L)%nat -> covers L p v -> covers L p w -> idx L v = idx L w -> v / pw (pred L) = w / pw (pred L).
Proof.
  intros HL [Hv _] [Hw _] Hi. unfold idx in Hi. destruct L as [|L]; [lia|]. cbn [pred] in *.
  pose proof (pw_pos L). rewrite pw_S, Z.mul_comm, <- Z.div_div in Hv, Hw by lia.
  rewrite (Z.div_mod (v / pw L) 512), (Z.div_mod (w / pw L) 512) by lia. lia.
Qed.

(** One step of [translate] through an entry of well-formed tables. *)
Lemma translate_step st L table vpn :
  translate st (S L) table vpn =
  e ← load st table (idx (S L) vpn);
  if negb (present e) then None
  else if decide (L = O) then Some (entry_frame e, writable e, user e)
  else if huge_page e && bool_decide (L < 3)%nat then
    Some (entry_frame e / pw L * pw L + vpn mod pw L, writable e, user e)
  else '(f, w, u) ← translate st L (Pointer e) vpn;
       Some (f, (w : bool) && writable e, (u : bool) && user e).
Proof. done. Qed.

Lemma translate_child st ow L p vpn f e :
  pt_shape st ow -> (1 <= L)%nat -> ow !! f = Some (S L, p) -> covers (S L) p vpn ->
  load st (f * 2 ^ 12) (idx (S L) vpn) = Some e -> present e = true ->
  ow !! entry_frame e = Some (L, vpn / pw L) /\
  translate st (S L) (f * 2 ^ 12) vpn = translate st L (entry_frame e * 2 ^ 12) vpn.
Proof.
  intros H HL Hf Hc Hl Hp. pose proof (ps_entry _ _ H _ _ _ _ _ Hf Hc Hl) as He.
  unfold entry_shape in He. rewrite Hp in He. destruct L as [|L]; [lia|]. cbn [pred] in He.
  destruct He as (_ & Ho & Hw & Hu & Hh). split; [done|]. rewrite translate_step, Hl. cbn [mbind option_bind].
  rewrite Hp, Hw, Hu, Hh. cbn [negb andb]. rewrite decide_False by lia. unfold Pointer.
  destruct (translate _ _ _ _) as [[[fr w] u]|]; cbn [mbind option_bind]; by rewrite ?andb_true_r.
Qed.

Lemma translate_absent st L f vpn e :
  load st (f * 2 ^ 12) (idx (S L) vpn) = Some e -> present e = false ->
  translate st (S L) (f * 2 ^ 12) vpn = None.
Proof. intros Hl Hp. rewrite translate_step, Hl. cbn [mbind option_bind]. by rewrite Hp. Qed.

Lemma translate_leaf st f vpn e :
  load st (f * 2 ^ 12) (idx 1 vpn) = Some e ->
  translate st 1 (f * 2 ^ 12) vpn = if present e then Some (entry_frame e, writable e, user e) else None.
Proof.
  intros Hl. rewrite translate_step, Hl. cbn [mbind option_bind]. by destruct (present e).
Qed.

(** Two machines whose tables agree below a table, as far as [vpn] goes,
    translate it alike; a table that is known to translate it alike need not
    agree. *)
Lemma translate_agree st st' ow L : forall f p vpn,
  pt_shape st ow -> ow !! f = Some (L, p) -> covers L p vpn ->
  (forall g M q, ow !! g = Some (M, q) -> covers M q vpn -> (M <= L)%nat ->
     load st' (g * 2 ^ 12) (idx M vpn) = load st (g * 2 ^ 12) (idx M vpn) \/
     translate st' M (g * 2 ^ 12) vpn = translate st M (g * 2 ^ 12) vpn) ->
  translate st' L (f * 2 ^ 12) vpn = translate st L (f * 2 ^ 12) vpn.
Proof.
  induction L as [|L IH]; intros f p vpn H Hf Hc Hag; [done|].
  destruct (load_shape st ow f (S L) p vpn H Hf Hc) as (pg & e & _ & _ & Hl & He).
  destruct (Hag _ _ _ Hf Hc ltac:(lia)) as [Hl'|]; [|done]. rewrite Hl in Hl'.
  destruct (present e) eqn:Hp; [|by rewrite !(translate_absent _ _ _ _ e)].
  destruct L as [|L].
  - by rewrite !(translate_leaf _ _ _ e).
  - destruct (translate_child st ow (S L) p vpn f e H ltac:(lia) Hf Hc Hl Hp) as [Ho ->].
    rewrite translate_step, Hl'. cbn [mbind option_bind]. rewrite Hp. cbn [negb].
    rewrite decide_False by lia. unfold entry_shape in He. rewrite Hp in He. cbn [pred] in He.
    destruct He as (_ & _ & Hw & Hu & Hh). rewrite Hw, Hu, Hh. cbn [andb]. unfold Pointer.
    rewrite (IH (entry_frame e) (vpn / pw (S L)) vpn H Ho); [|apply (covers_child (S (S L)) p); [lia|done]|].
    + destruct (translate _ _ _ _) as [[[fr w] u]|]; cbn [mbind option_bind]; by rewrite ?andb_true_r.
    + intros g M q Hg Hcg HM. by eapply Hag; eauto; lia.
Qed.

(** ** Effects of the primitives *)

Lemma store_eq st f i v pg :
  mem st !! f = Some pg -> 0 <= i < Z.of_nat (length pg) ->
  store st (f * 2 ^ 12) i v = Some (set_mem (<[f := <[Z.to_nat i := v]> pg]> (mem st)) st).
Proof. intros Hm Hi. unfold store. rewrite frame_of_mul, Hm. cbn [mbind option_bind]. by rewrite setZ_Some. Qed.

(** What a store of one entry of table [f] leaves. *)
Record stored (st : Machine) (f i v : Z) (st' : Machine) : Prop := {
  sd_manager : memory_manager st' = memory_manager st;
  sd_cr3 : CR3 st' = CR3 st;
  sd_load : forall g j, load st' (g * 2 ^ 12) j =
    if decide (g = f /\ j = i) then Some v else load st (g * 2 ^ 12) j;
  sd_page : exists pg', mem st' !! f = Some pg' /\ length pg' = 512%nat;
  sd_mem : forall g, g <> f -> mem st' !! g = mem st !! g;
}.

Lemma store_stored st f i v pg :
  mem st !! f = Some pg -> length pg = 512%nat -> 0 <= i < 512 ->
  exists st', store st (f * 2 ^ 12) i v = Some st' /\ stored st f i v st'.
Proof.
  intros Hm Hl Hi. erewrite store_eq by (done || lia). eexists; split; [done|].
  assert (Hs : setZ pg i v = Some (<[Z.to_nat i := v]> pg)) by (apply setZ_Some; lia).
  split; cbn; try done.
  - intros g j. rewrite !load_mul. cbn. destruct (decide (g = f)) as [->|].
    + rewrite lookup_insert_eq, Hm. cbn [mbind option_bind]. rewrite (getZ_setZ _ _ _ _ _ Hs).
      repeat case_decide; try done; naive_solver.
    + rewrite lookup_insert_ne by done. by rewrite decide_False by tauto.
  - eexists. rewrite lookup_insert_eq. split; [done|]. by rewrite length_insert.
  - intros g ?. by rewrite lookup_insert_ne.
Qed.

Lemma store_same st f i v :
  load st (f * 2 ^ 12) i = Some v -> store st (f * 2 ^ 12) i v = Some st.
Proof.
  rewrite load_mul. destruct (mem st !! f) as [pg|] eqn:Hm; [|done]. cbn [mbind option_bind]. intros Hg.
  pose proof (getZ_inv _ _ _ Hg). rewrite (store_eq st f i v pg) by done.
  rewrite list_insert_id by (by apply getZ_lookup). rewrite insert_id by done. by destruct st.
Qed.

Lemma update_store st f i g e :
  load st (f * 2 ^ 12) i = Some e -> update (f * 2 ^ 12) i g st = store st (f * 2 ^ 12) i (g e).
Proof. intros H. unfold update. by rewrite H. Qed.

Lemma store_twice st f i v v' st' :
  store st (f * 2 ^ 12) i v = Some st' -> store st' (f * 2 ^ 12) i v' = store st (f * 2 ^ 12) i v'.
Proof.
  unfold store. rewrite frame_of_mul. destruct (mem st !! f) as [pg|] eqn:Hm; [|done].
  cbn [mbind option_bind]. destruct (setZ pg i v) as [pg'|] eqn:Hs; [|done]. cbn [mbind option_bind].
  intros [= <-]. cbn. rewrite lookup_insert_eq. cbn [mbind option_bind].
  apply setZ_inv in Hs as [Hi ->]. rewrite !setZ_Some by (rewrite ?length_insert; done).
  cbn [mbind option_bind]. by rewrite list_insert_insert_eq, insert_insert_eq.
Qed.

(** Two updates of one entry in a row are one store. *)
Lemma update_twice st f i g h e pg :
  mem st !! f = Some pg -> length pg = 512%nat -> 0 <= i < 512 -> load st (f * 2 ^ 12) i = Some e ->
  exists st1 st2, update (f * 2 ^ 12) i g st = Some st1 /\ update (f * 2 ^ 12) i h st1 = Some st2 /\
    store st (f * 2 ^ 12) i (h (g e)) = Some st2 /\ stored st f i (h (g e)) st2.
Proof.
  intros Hm Hl Hi He. rewrite (update_store _ _ _ _ _ He).
  destruct (store_stored st f i (g e) pg Hm Hl Hi) as (st1 & E1 & H1).
  destruct (store_stored st f i (h (g e)) pg Hm Hl Hi) as (st2 & E2 & H2).
  assert (Hl1 : load st1 (f * 2 ^ 12) i = Some (g e)) by (rewrite (sd_load _ _ _ _ _ H1); by rewrite decide_True).
  exists st1, st2. split_and!; [done| |done|done].
  rewrite (update_store _ _ _ _ _ Hl1), (store_twice _ _ _ _ _ _ E1). done.
Qed.

(** Replacing an entry by an acceptable one keeps the tables well formed and
    changes the translation only of the page numbers the entry covers. *)
Lemma pt_store st ow f L p vpn v st' :
  pt_ok st ow -> ow !! f = Some (L, p) -> covers L p vpn ->
  stored st f (idx L vpn) v st' -> entry_ok st ow L (vpn / pw (pred L)) v ->
  pt_ok st' ow /\
  forall g M q w, ow !! g = Some (M, q) -> covers M q w -> w / pw (pred L) <> vpn / pw (pred L) ->
    translate st' M (g * 2 ^ 12) w = translate st M (g * 2 ^ 12) w.
Proof.
  intros H Hf Hc Hs Hv. pose proof (po_table _ _ H _ _ _ Hf) as (HL & _).
  assert (Hmono : forall M r e, entry_ok st ow M r e -> entry_ok st' ow M r e).
  { intros M r e. unfold entry_ok. destruct (present e); [|done]. destruct M as [|[|M]]; try done.
    rewrite (sd_manager _ _ _ _ _ Hs). intros (Ho & ? & ? & ?). split_and!; try done.
    rewrite (sd_mem _ _ _ _ _ Hs); [done|congruence]. }
  split.
  - split.
    + rewrite (sd_manager _ _ _ _ _ Hs). apply H.
    + intros g M q Hg. rewrite (sd_manager _ _ _ _ _ Hs).
      destruct (po_table _ _ H _ _ _ Hg) as (? & ? & ? & pg & ? & ?). split_and!; try done; try lia.
      destruct (decide (g = f)) as [->|]; [apply Hs|]. rewrite (sd_mem _ _ _ _ _ Hs) by done. by eexists.
    + intros g M q w e Hg Hcw. rewrite (sd_load _ _ _ _ _ Hs). case_decide as Hi.
      * destruct Hi as [-> Hi]. intros [= <-]. assert (M = L /\ q = p) as [-> ->] by naive_solver.
        rewrite (idx_same L p w vpn) by (done || lia). by apply Hmono.
      * intros He. apply Hmono. by eapply po_entry.
  - intros g M q w Hg Hcw Hne. eapply translate_agree; [by apply pt_ok_shape|done..|].
    intros g' M' q' Hg' Hc' _. left. rewrite (sd_load _ _ _ _ _ Hs). rewrite decide_False; [done|].
    intros [-> Hi]. assert (M' = L /\ q' = p) as [-> ->] by naive_solver.
    apply Hne. by eapply idx_same; eauto; lia.
Qed.

(** The state after [NewPageMap] returned frame [c]. *)
Record new_page (st : Machine) (c : Z) (st1 : Machine) : Prop := {
  np_range : 0 <= c < frame_limit;
  np_fresh : fa_used (memory_manager st) c = false;
  np_ok : fa_ok (memory_manager st1);
  np_used : forall g, 0 <= g -> fa_used (memory_manager st1) g =
    if decide (g = c) then true else fa_used (memory_manager st) g;
  np_mem : mem st1 = <[c := replicate 512 0]> (mem st);
  np_cr3 : CR3 st1 = CR3 st;
}.

Lemma NewPageMap_spec st :
  fa_ok (memory_manager st) ->
  exists st1 p err, NewPageMap st = Some (st1, (p, err)) /\
    ((err = kSuccess /\ exists c, p = c * 2 ^ 12 /\ new_page st c st1) \/
     (err = kNoEnoughMemory /\ st1 = st /\ exhausted (memory_manager st))).
Proof.
  intros H. unfold NewPageMap. destruct (fa_allocate_spec _ H) as (a & f & e & E & Ha & _ & Hs).
  rewrite E; cbn [mbind option_bind]. destruct Hs as [(-> & ? & ? & ?)|(-> & -> & Hex)].
  - cbn. eexists _, _, _. split; [done|]. left. split; [done|]. exists f. by split.
  - cbn. eexists _, _, _. split; [done|]. right. split; [done|]. split; [by destruct st|done].
Qed.

Lemma new_page_load st c st1 g j : new_page st c st1 -> g <> c ->
  load st1 (g * 2 ^ 12) j = load st (g * 2 ^ 12) j.
Proof. intros H ?. rewrite !load_mul, (np_mem _ _ _ H), lookup_insert_ne by done. done. Qed.

Lemma new_page_zero st c st1 j : new_page st c st1 -> 0 <= j < 512 -> load st1 (c * 2 ^ 12) j = Some 0.
Proof.
  intros H ?. rewrite load_mul, (np_mem _ _ _ H), lookup_insert_eq. cbn [mbind option_bind].
  unfold getZ. rewrite decide_True by lia. apply lookup_replicate_2. lia.
Qed.

Lemma fresh_not_table st ow c st1 : pt_ok st ow -> new_page st c st1 -> ow !! c = None.
Proof.
  intros H Hn. destruct (ow !! c) as [[L p]|] eqn:E; [|done].
  destruct (po_table _ _ H _ _ _ E) as (_ & _ & Hu & _). rewrite (np_fresh _ _ _ Hn) in Hu. done.
Qed.

Lemma new_page_ne st ow c st1 g M q : pt_ok st ow -> new_page st c st1 -> ow !! g = Some (M, q) -> g <> c.
Proof. intros H Hn Hg ->. rewrite (fresh_not_table _ _ _ _ H Hn) in Hg. done. Qed.

(** A new page may become a table, or stay data. *)
Lemma new_page_ok st ow c st1 o :
  pt_ok st ow -> new_page st c st1 -> (forall L p, o = Some (L, p) -> (1 <= L <= 4)%nat) ->
  pt_ok st1 (partial_alter (fun _ => o) c ow).
Proof.
  intros H Hn Ho. pose proof (fresh_not_table _ _ _ _ H Hn) as Hnt.
  assert (Hmono : forall g M q r e, ow !! g = Some (M, q) -> entry_ok st ow M r e ->
    entry_ok st1 (partial_alter (fun _ => o) c ow) M r e).
  { intros g M q r e Hg. unfold entry_ok. destruct (present e); [|done].
    assert (Hfr : 0 <= entry_frame e) by (pose proof (entry_frame_range e); lia).
    destruct M as [|[|M]].
    1, 3: intros (Hoe & ?); rewrite lookup_partial_alter_ne; [done|intros E; congruence].
    - intros (Hoe & Hu & Hm & Hlim). assert (entry_frame e <> c) by (intros E; rewrite E, (np_fresh _ _ _ Hn) in Hu; done).
      rewrite lookup_partial_alter_ne, (np_used _ _ _ Hn), (np_mem _ _ _ Hn), lookup_insert_ne by done.
      by rewrite decide_False. }
  split.
  - apply Hn.
  - intros g L p. destruct (decide (g = c)) as [->|].
    + rewrite lookup_partial_alter_eq. intros E. split; [by eapply Ho|]. split; [apply Hn|].
      rewrite (np_used _ _ _ Hn), decide_True by (done || apply Hn). split; [done|].
      rewrite (np_mem _ _ _ Hn), lookup_insert_eq. eexists; split; [done|]. apply length_replicate.
    + rewrite lookup_partial_alter_ne by done. intros Hg.
      destruct (po_table _ _ H _ _ _ Hg) as (? & ? & ? & pg & ? & ?).
      rewrite (np_used _ _ _ Hn), decide_False, (np_mem _ _ _ Hn), lookup_insert_ne by (done || lia).
      split_and!; try done; try lia. by exists pg.
  - intros g L p vpn e. destruct (decide (g = c)) as [->|].
    + intros _ _. rewrite (new_page_zero _ _ _ _ Hn) by apply idx_range. intros [= <-]. done.
    + rewrite lookup_partial_alter_ne by done. intros Hg Hc. rewrite (new_page_load _ _ _ _ _ Hn) by done.
      intros He. eapply Hmono; [done|]. by eapply po_entry.
Qed.

Lemma new_page_translate st ow c st1 :
  pt_ok st ow -> new_page st c st1 ->
  forall g M q w, ow !! g = Some (M, q) -> covers M q w ->
    translate st1 M (g * 2 ^ 12) w = translate st M (g * 2 ^ 12) w.
Proof.
  intros H Hn g M q w Hg Hc. eapply translate_agree; [by apply pt_ok_shape|done..|]. intros g' M' q' Hg' _ _. left.
  apply (new_page_load _ _ _ _ _ Hn). by eapply new_page_ne.
Qed.

(** ** Growing the tables *)

(** From [st] to [st'] the tables only grew, and the translation changed for
    page numbers in [lo .. hi) only; the data pages kept their contents. *)
Record grows (st : Machine) (ow : owners) (st' : Machine) (ow' : owners) (lo hi : Z) : Prop := {
  gr_ok : pt_ok st' ow';
  gr_sub : ow ⊆ ow';
  gr_cr3 : CR3 st' = CR3 st;
  gr_used : forall f, 0 <= f -> fa_used (memory_manager st) f = true -> fa_used (memory_manager st') f = true;
  gr_data : forall f, 0 <= f -> fa_used (memory_manager st) f = true -> ow !! f = None ->
    ow' !! f = None /\ mem st' !! f = mem st !! f;
  gr_same : forall g M q w, ow !! g = Some (M, q) -> covers M q w -> ~ lo <= w < hi ->
    translate st' M (g * 2 ^ 12) w = translate st M (g * 2 ^ 12) w;
  gr_upper : forall g M q w e, ow !! g = Some (S (S M), q) -> covers (S (S M)) q w ->
    load st (g * 2 ^ 12) (idx (S (S M)) w) = Some e -> present e = true ->
    load st' (g * 2 ^ 12) (idx (S (S M)) w) = Some e;
}.

Lemma grows_refl st ow lo hi : pt_ok st ow -> grows st ow st ow lo hi.
Proof. by split. Qed.

Lemma grows_trans st ow st1 ow1 st2 ow2 lo mid hi :
  lo <= mid <= hi -> grows st ow st1 ow1 lo mid -> grows st1 ow1 st2 ow2 mid hi ->
  grows st ow st2 ow2 lo hi.
Proof.
  intros Hr [Ho1 Hs1 Hc1 Hu1 Hd1 Ht1 Hp1] [Ho2 Hs2 Hc2 Hu2 Hd2 Ht2 Hp2]. split.
  - done.
  - by etransitivity.
  - congruence.
  - auto.
  - intros f Hf Hu Hn. destruct (Hd1 f Hf Hu Hn) as [Hn1 Hm1].
    destruct (Hd2 f Hf (Hu1 f Hf Hu) Hn1) as [Hn2 Hm2]. split; congruence.
  - intros g M q w Hg Hc Hw. rewrite (Ht2 g M q w), (Ht1 g M q w); try done; try lia.
    by eapply lookup_weaken.
  - intros g M q w e Hg Hc Hl Hp. apply (Hp2 g M q); [by eapply lookup_weaken|done| |done].
    by apply (Hp1 g M q).
Qed.

Lemma grows_widen st ow st' ow' lo hi lo' hi' :
  (forall w, lo <= w < hi -> lo' <= w < hi') -> grows st ow st' ow' lo hi -> grows st ow st' ow' lo' hi'.
Proof. intros Hw [Ho Hs Hc Hu Hd Ht Hp]. split; auto. intros g M q w ? ? ?. apply (Ht g M q w); auto. Qed.

Lemma grows_new_page st ow c st1 o lo hi :
  pt_ok st ow -> new_page st c st1 -> (forall L p, o = Some (L, p) -> (1 <= L <= 4)%nat) ->
  grows st ow st1 (partial_alter (fun _ => o) c ow) lo hi.
Proof.
  intros H Hn Ho. pose proof (fresh_not_table _ _ _ _ H Hn) as Hnt. split.
  - by eapply new_page_ok.
  - apply map_subseteq_spec. intros g x Hg. rewrite lookup_partial_alter_ne; [done|congruence].
  - apply Hn.
  - intros f Hf Hu. rewrite (np_used _ _ _ Hn) by done. by case_decide.
  - intros f Hf Hu Hno. assert (f <> c) by (intros ->; rewrite (np_fresh _ _ _ Hn) in Hu; done).
    rewrite lookup_partial_alter_ne, (np_mem _ _ _ Hn), lookup_insert_ne by done. done.
  - intros g M q w Hg Hc _. by eapply new_page_translate.
  - intros g M q w e Hg Hc Hl Hp. rewrite (new_page_load _ _ _ _ _ Hn); [done|by eapply new_page_ne].
Qed.

Lemma pw_0 : pw 0 = 1.
Proof. done. Qed.

Lemma grows_store st ow f p vpn v st' :
  pt_ok st ow -> ow !! f = Some (1%nat, p) -> covers 1 p vpn ->
  stored st f (idx 1 vpn) v st' -> entry_ok st ow 1 vpn v ->
  grows st ow st' ow vpn (vpn + 1).
Proof.
  intros H Hf Hc Hs Hv. rewrite <- (Z.div_1_r vpn) in Hv. rewrite <- pw_0 in Hv.
  destruct (pt_store _ _ _ _ _ _ _ _ H Hf Hc Hs Hv) as [Hok Ht]. split; try done.
  - apply Hs.
  - intros g ?. by rewrite (sd_manager _ _ _ _ _ Hs).
  - intros g ? ? Hn. split; [done|]. apply (sd_mem _ _ _ _ _ Hs). congruence.
  - intros g M q w Hg Hcw Hw. apply (Ht g M q w); [done..|]. cbn [pred].
    rewrite pw_0, !Z.div_1_r. lia.
  - intros g M q w e Hg Hcw Hl Hp. rewrite (sd_load _ _ _ _ _ Hs), decide_False; [done|].
    intros [-> _]. congruence.
Qed.

(** The flags the loop sets. *)
Lemma flags_entry b e :
  let e' := set_writable b (set_user true e) in
  present e' = present e /\ user e' = true /\ writable e' = b /\
  entry_frame e' = entry_frame e /\ huge_page e' = huge_page e.
Proof.
  cbn zeta. unfold set_writable, set_user, present, user, writable, huge_page.
  split_and!.
  - by rewrite !put_bit_high by lia.
  - rewrite put_bit_high by lia. by apply put_bit_same.
  - by apply put_bit_same.
  - by rewrite !put_bit_frame by lia.
  - by rewrite !put_bit_high by lia.
Qed.

Lemma flags_id b e : writable e = b -> user e = true -> set_writable b (set_user true e) = e.
Proof.
  unfold set_writable, set_user, user, writable. intros <- <-.
  rewrite (put_bit_id 2 e) by lia. by apply put_bit_id.
Qed.

Lemma new_entry c :
  0 <= c < 2 ^ 40 ->
  let e := set_present true (SetPointer 0 (c * 2 ^ 12)) in
  present e = true /\ entry_frame e = c /\ huge_page e = false.
Proof.
  intros Hc. cbn zeta. unfold set_present, present, huge_page. split_and!.
  - by apply put_bit_same.
  - rewrite put_bit_frame by lia. by apply SetPointer_frame.
  - rewrite put_bit_high, SetPointer_low by lia. done.
Qed.

Lemma frame_limit_40 c : 0 <= c < frame_limit -> 0 <= c < 2 ^ 40.
Proof. unfold frame_limit. lia. Qed.

(** Allocation of the entry and its flags: what the loop body does before it
    descends. [stb] is [st], or [st] with a new page. *)
Lemma set_new_flags st ow f L p vpn e b :
  pt_ok st ow -> ow !! f = Some (L, p) -> covers L p vpn ->
  load st (f * 2 ^ 12) (idx L vpn) = Some e ->
  exists st1 child err, SetNewPageMapIfNotPresent (f * 2 ^ 12) (idx L vpn) st = Some (st1, (child, err)) /\
   ((err = kNoEnoughMemory /\ st1 = st /\ exhausted (memory_manager st)) \/
    (err = kSuccess /\ exists c stb st2 st3 e3, child = c * 2 ^ 12 /\
      update (f * 2 ^ 12) (idx L vpn) (set_user true) st1 = Some st2 /\
      update (f * 2 ^ 12) (idx L vpn) (set_writable b) st2 = Some st3 /\
      store stb (f * 2 ^ 12) (idx L vpn) e3 = Some st3 /\ stored stb f (idx L vpn) e3 st3 /\
      present e3 = true /\ user e3 = true /\ writable e3 = b /\ entry_frame e3 = c /\
      ((present e = true /\ stb = st /\ e3 = set_writable b (set_user true e)) \/
       (present e = false /\ new_page st c stb /\ huge_page e3 = false)))).
Proof.
  intros H Hf Hc He. destruct (load_entry st ow f L p vpn H Hf Hc) as (pg & e' & Hm & Hl & _ & He' & Hok).
  assert (e' = e) as -> by congruence. pose proof (idx_range L vpn) as Hi.
  unfold SetNewPageMapIfNotPresent. rewrite He; cbn [mbind option_bind].
  destruct (flags_entry b e) as (F1 & F2 & F3 & F4 & F5).
  destruct (present e) eqn:Hp.
  - eexists _, _, _. split; [done|]. right. split; [done|].
    destruct (update_twice st f (idx L vpn) (set_user true) (set_writable b) e pg) as (st2 & st3 & E1 & E2 & E3 & E4); [done..|].
    exists (entry_frame e), st, st2, st3, (set_writable b (set_user true e)).
    rewrite F1. split_and!; try done. left. by split_and!.
  - destruct (NewPageMap_spec st (po_manager _ _ H)) as (st1 & ptr & err & E & [(-> & c & -> & Hn)|(-> & -> & Hex)]);
      rewrite E; cbn [mbind option_bind].
    2: { change (is_error kNoEnoughMemory) with true. eexists _, _, _. split; [done|]. by left. }
    assert (Hm1 : mem st1 !! f = Some pg).
    { rewrite (np_mem _ _ _ Hn), lookup_insert_ne; [done|]. symmetry. by eapply new_page_ne. }
    assert (Hl1 : load st1 (f * 2 ^ 12) (idx L vpn) = Some e).
    { rewrite (new_page_load _ _ _ _ _ Hn); [done|]. by eapply new_page_ne. }
    set (e1 := set_present true (SetPointer e (c * 2 ^ 12))).
    destruct (store_stored st1 f (idx L vpn) e1 pg Hm1 Hl Hi) as (sta & Ea & Ha).
    change (is_error kSuccess) with false. cbn iota. rewrite Ea; cbn [mbind option_bind].
    eexists _, _, _. split; [done|]. right. split; [done|].
    destruct (sd_page _ _ _ _ _ Ha) as (pga & Hma & Hla).
    assert (Hle : load sta (f * 2 ^ 12) (idx L vpn) = Some e1) by (rewrite (sd_load _ _ _ _ _ Ha); by rewrite decide_True).
    destruct (update_twice sta f (idx L vpn) (set_user true) (set_writable b) e1 pga) as (st2 & st3 & E1 & E2 & E3 & E4); [done..|].
    rewrite (store_twice _ _ _ _ _ _ Ea) in E3.
    set (e3 := set_writable b (set_user true e1)) in *.
    destruct (store_stored st1 f (idx L vpn) e3 pg Hm1 Hl Hi) as (st3' & E3' & Hs3).
    assert (st3' = st3) as -> by congruence.
    assert (e = 0) as -> by (unfold entry_ok in Hok; by rewrite Hp in Hok).
    destruct (new_entry c (frame_limit_40 _ (np_range _ _ _ Hn))) as (N1 & N2 & N3).
    destruct (flags_entry b e1) as (G1 & G2 & G3 & G4 & G5).
    exists c, st1, st2, st3, e3. split_and!; try done.
    + unfold e3. by rewrite G1.
    + unfold e3. by rewrite G4.
    + right. split_and!; try done. unfold e3. by rewrite G5.
Qed.

(** Above the last level: the entry leads to a table of its own, and no
    translation changed. *)
Lemma enter_child st ow f L p vpn :
  pt_ok st ow -> ow !! f = Some (S (S L), p) -> covers (S (S L)) p vpn ->
  exists st1 child err, SetNewPageMapIfNotPresent (f * 2 ^ 12) (idx (S (S L)) vpn) st = Some (st1, (child, err)) /\
   ((err = kNoEnoughMemory /\ st1 = st /\ exhausted (memory_manager st)) \/
    (err = kSuccess /\ exists c st2 st3 ow3, child = c * 2 ^ 12 /\
      update (f * 2 ^ 12) (idx (S (S L)) vpn) (set_user true) st1 = Some st2 /\
      update (f * 2 ^ 12) (idx (S (S L)) vpn) (set_writable true) st2 = Some st3 /\
      ow3 !! c = Some (S L, vpn / pw (S L)) /\ grows st ow st3 ow3 0 0 /\
      exists e, load st3 (f * 2 ^ 12) (idx (S (S L)) vpn) = Some e /\ present e = true /\ entry_frame e = c)).
Proof.
  intros H Hf Hc. destruct (load_entry st ow f _ p vpn H Hf Hc) as (pg & e & Hm & Hl & _ & He & Hok).
  destruct (set_new_flags st ow f _ p vpn e true H Hf Hc He) as (st1 & child & err & E & [Hn|(-> & c & stb & st2 & st3 & e3 & -> & E2 & E3 & Es & Hs & P1 & P2 & P3 & P4 & Hcase)]).
  { eexists _, _, _. split; [done|]. by left. }
  eexists _, _, _. split; [done|]. right. split; [done|].
  assert (Hload : load st3 (f * 2 ^ 12) (idx (S (S L)) vpn) = Some e3) by (rewrite (sd_load _ _ _ _ _ Hs); by rewrite decide_True).
  destruct Hcase as [(Hp & -> & He3)|(Hp & Hn & P5)].
  - unfold entry_ok in Hok. rewrite Hp in Hok. cbn [pred] in Hok. destruct Hok as (Ho & Hw & Hu & Hh).
    assert (e3 = e) as -> by (rewrite He3; by apply flags_id).
    rewrite (store_same _ _ _ _ He) in Es. injection Es as <-.
    exists c, st2, st, ow. rewrite <- P4. split_and!; try done; by exists e.
  - set (ow3 := partial_alter (fun _ => Some (S L, vpn / pw (S L))) c ow).
    assert (HL4 : forall M q, Some (S L, vpn / pw (S L)) = Some (M, q) -> (1 <= M <= 4)%nat).
    { intros M q [= <- <-]. destruct (po_table _ _ H _ _ _ Hf) as (? & _). lia. }
    pose proof (grows_new_page st ow c stb (Some (S L, vpn / pw (S L))) 0 0 H Hn HL4) as Hgb. fold ow3 in Hgb.
    assert (Hf3 : ow3 !! f = Some (S (S L), p)) by (eapply lookup_weaken; [exact Hf|apply Hgb]).
    assert (Hc3 : ow3 !! c = Some (S L, vpn / pw (S L))) by (unfold ow3; by rewrite lookup_partial_alter_eq).
    assert (Hentry : entry_ok stb ow3 (S (S L)) (vpn / pw (S L)) e3).
    { unfold entry_ok. rewrite P1, P4. by split_and!. }
    destruct (pt_store _ _ _ _ _ _ _ _ (gr_ok _ _ _ _ _ _ Hgb) Hf3 Hc Hs Hentry) as [Hok3 Ht3].
    assert (Hfc : f <> c) by exact (new_page_ne _ _ _ _ _ _ _ H Hn Hf).
    assert (Hsame : forall g M q w, ow3 !! g = Some (M, q) -> covers M q w ->
      translate st3 M (g * 2 ^ 12) w = translate stb M (g * 2 ^ 12) w).
    { intros g M q w Hg Hcw. eapply translate_agree; [apply pt_ok_shape, Hgb|done|done|].
      intros g' M' q' Hg' Hc' _. rewrite (sd_load _ _ _ _ _ Hs).
      case_decide as Hi; [right|by left]. destruct Hi as [-> Hi].
      assert (M' = S (S L) /\ q' = p) as [-> ->] by (rewrite Hf3 in Hg'; naive_solver).
      assert (He_b : load stb (f * 2 ^ 12) (idx (S (S L)) w) = Some e).
      { rewrite Hi, (new_page_load _ _ _ _ _ Hn) by done. done. }
      assert (He_3 : load st3 (f * 2 ^ 12) (idx (S (S L)) w) = Some e3) by (by rewrite Hi).
      rewrite (translate_absent stb _ _ _ _ He_b Hp).
      destruct (translate_child st3 ow3 (S L) p w f e3 Hok3 ltac:(lia) Hf3 Hc' He_3 P1) as [_ ->].
      rewrite P4. apply (translate_absent _ _ _ _ 0); [|done].
      rewrite (sd_load _ _ _ _ _ Hs), decide_False by (intros [? _]; congruence).
      eapply new_page_zero; [done|apply idx_range]. }
    exists c, st2, st3, ow3. split_and!; try done; [|by exists e3].
    apply (grows_trans st ow stb ow3 st3 ow3 0 0 0); [lia|done|]. split; try done.
    + apply Hs.
    + intros g ?. by rewrite (sd_manager _ _ _ _ _ Hs).
    + intros g ? ? Hg. split; [done|]. apply (sd_mem _ _ _ _ _ Hs). congruence.
    + intros g M q w Hg Hcw _. by apply (Hsame g M q).
    + intros g M q w e' Hg Hcw Hl' Hp'. rewrite (sd_load _ _ _ _ _ Hs), decide_False; [done|].
      intros [-> Hi]. rewrite Hi, (new_page_load _ _ _ _ _ Hn) in Hl' by done.
      congruence.
Qed.

(** ** SetupPageMap maps exactly the range *)

(** What became of page [x]: present, for user access, writable as asked; on
    the frame it had, or on a zeroed frame that was free. *)
Definition mapped (st st' : Machine) (ow' : owners) (L : nat) (f : Z) (wr : bool) (x : Z) : Prop :=
  exists fr, translate st' L (f * 2 ^ 12) x = Some (fr, wr, true) /\ 0 <= fr /\ ow' !! fr = None /\
    fa_used (memory_manager st') fr = true /\
    match translate st L (f * 2 ^ 12) x with
    | Some (fr0, _, _) => fr = fr0
    | None => fa_used (memory_manager st) fr = false /\ mem st' !! fr = Some (replicate 512 0)
    end.

(** The pages [lo .. hi) were mapped under the table [f] of level [L], the new
    ones on different frames, and nothing else changed. *)
Record mapped_range (st : Machine) (ow : owners) (st' : Machine) (ow' : owners)
    (L : nat) (f : Z) (wr : bool) (lo hi : Z) : Prop := {
  mr_grows : grows st ow st' ow' lo hi;
  mr_mapped : forall x, lo <= x < hi -> mapped st st' ow' L f wr x;
  mr_distinct : forall x y fx fy, lo <= x < hi -> lo <= y < hi -> x <> y ->
    translate st L (f * 2 ^ 12) x = None -> translate st L (f * 2 ^ 12) y = None ->
    translate st' L (f * 2 ^ 12) x = Some (fx, wr, true) ->
    translate st' L (f * 2 ^ 12) y = Some (fy, wr, true) -> fx <> fy;
}.

Lemma mapped_range_nil st ow L f wr lo : pt_ok st ow -> mapped_range st ow st ow L f wr lo lo.
Proof. intros H. split; [by apply grows_refl|intros; lia|intros; lia]. Qed.

Section append.
Context (st st1 st2 : Machine) (ow ow1 ow2 : owners) (L : nat) (f p : Z) (wr : bool) (lo mid hi : Z).
Context (Hle : lo <= mid <= hi) (Hf : ow !! f = Some (L, p)).
Context (Hcov : forall x, lo <= x < hi -> covers L p x).
Context (H1 : mapped_range st ow st1 ow1 L f wr lo mid) (H2 : mapped_range st1 ow1 st2 ow2 L f wr mid hi).

Lemma translate_first x : lo <= x < mid -> translate st2 L (f * 2 ^ 12) x = translate st1 L (f * 2 ^ 12) x.
Proof using All.
  intros Hx. apply (gr_same _ _ _ _ _ _ (mr_grows _ _ _ _ _ _ _ _ _ H2) f L p); [|apply Hcov; lia|lia].
  eapply lookup_weaken; [exact Hf|apply H1].
Qed.

Lemma translate_second x : mid <= x < hi -> translate st1 L (f * 2 ^ 12) x = translate st L (f * 2 ^ 12) x.
Proof using All.
  intros Hx. apply (gr_same _ _ _ _ _ _ (mr_grows _ _ _ _ _ _ _ _ _ H1) f L p); [done|apply Hcov; lia|lia].
Qed.

(** The frame of a page of the first part is in use after it. *)
Lemma first_used x fr : lo <= x < mid -> translate st1 L (f * 2 ^ 12) x = Some (fr, wr, true) ->
  0 <= fr /\ fa_used (memory_manager st1) fr = true.
Proof using All.
  intros Hx Ht. destruct (mr_mapped _ _ _ _ _ _ _ _ _ H1 x Hx) as (fr' & Ht' & ? & _ & ? & _).
  assert (fr' = fr) as -> by congruence. done.
Qed.

Lemma second_fresh x fr : mid <= x < hi -> translate st L (f * 2 ^ 12) x = None ->
  translate st2 L (f * 2 ^ 12) x = Some (fr, wr, true) -> fa_used (memory_manager st1) fr = false.
Proof using All.
  intros Hx Hn Ht. destruct (mr_mapped _ _ _ _ _ _ _ _ _ H2 x Hx) as (fr' & Ht' & _ & _ & _ & Hm).
  rewrite translate_second, Hn in Hm by done. assert (fr' = fr) as -> by congruence. by destruct Hm.
Qed.

Lemma mapped_range_app : mapped_range st ow st2 ow2 L f wr lo hi.
Proof using All.
  pose proof (mr_grows _ _ _ _ _ _ _ _ _ H1) as G1. pose proof (mr_grows _ _ _ _ _ _ _ _ _ H2) as G2.
  split.
  - by apply (grows_trans st ow st1 ow1 st2 ow2 lo mid hi).
  - intros x Hx. destruct (decide (x < mid)).
    + destruct (mr_mapped _ _ _ _ _ _ _ _ _ H1 x ltac:(lia)) as (fr & Ht & Hp & Ho & Hu & Hm).
      destruct (gr_data _ _ _ _ _ _ G2 fr Hp Hu Ho) as [Ho2 Hm2].
      exists fr. rewrite translate_first by lia. split_and!; [done|done|done|by apply (gr_used _ _ _ _ _ _ G2)|].
      by rewrite Hm2.
    + destruct (mr_mapped _ _ _ _ _ _ _ _ _ H2 x ltac:(lia)) as (fr & Ht & Hp & Ho & Hu & Hm).
      rewrite translate_second in Hm by lia. exists fr. split_and!; [done..|].
      destruct (translate st L (f * 2 ^ 12) x) as [[[? ?] ?]|]; [done|]. destruct Hm as [Hfr ?].
      split; [|done]. destruct (fa_used (memory_manager st) fr) eqn:E; [|done].
      rewrite (gr_used _ _ _ _ _ _ G1) in Hfr by done. done.
  - intros x y fx fy Hx Hy Hne Hnx Hny Htx Hty E. subst fy.
    destruct (decide (x < mid)), (decide (y < mid)).
    + rewrite translate_first in Htx, Hty by lia.
      by apply (mr_distinct _ _ _ _ _ _ _ _ _ H1 x y fx fx); try lia.
    + rewrite translate_first in Htx by lia. destruct (first_used x fx ltac:(lia) Htx) as [? Hu].
      rewrite (second_fresh y fx) in Hu; [done|lia|done|done].
    + rewrite translate_first in Hty by lia. destruct (first_used y fx ltac:(lia) Hty) as [? Hu].
      rewrite (second_fresh x fx) in Hu; [done|lia|done|done].
    + apply (mr_distinct _ _ _ _ _ _ _ _ _ H2 x y fx fx); try lia; try done; by rewrite translate_second by lia.
Qed.
End append.

(** A mapping made in the table an entry leads to is one of the table. *)
Lemma mapped_range_child st ow st3 ow3 st4 ow4 L f p c wr v lo hi e :
  ow !! f = Some (S (S L), p) -> grows st ow st3 ow3 0 0 ->
  load st3 (f * 2 ^ 12) (idx (S (S L)) v) = Some e -> present e = true -> entry_frame e = c ->
  (forall x, lo <= x < hi -> covers (S (S L)) p x /\ x / pw (S L) = v / pw (S L)) ->
  mapped_range st3 ow3 st4 ow4 (S L) c wr lo hi -> lo <= hi ->
  mapped_range st ow st4 ow4 (S (S L)) f wr lo hi.
Proof.
  intros Hf G Hl Hp <- Hcov [G4 Hm Hd] Hle.
  assert (Hf3 : ow3 !! f = Some (S (S L), p)) by (eapply lookup_weaken; [exact Hf|apply G]).
  assert (Hf4 : ow4 !! f = Some (S (S L), p)) by (eapply lookup_weaken; [exact Hf3|apply G4]).
  assert (Hx : forall x, lo <= x < hi -> covers (S (S L)) p x /\
    translate st4 (S (S L)) (f * 2 ^ 12) x = translate st4 (S L) (entry_frame e * 2 ^ 12) x /\
    translate st (S (S L)) (f * 2 ^ 12) x = translate st3 (S L) (entry_frame e * 2 ^ 12) x).
  { intros x Hx. destruct (Hcov x Hx) as [Hc Hv]. split; [done|].
    assert (Hlx : load st3 (f * 2 ^ 12) (idx (S (S L)) x) = Some e).
    { unfold idx. cbn [pred]. rewrite Hv. exact Hl. }
    pose proof (gr_upper _ _ _ _ _ _ G4 f L p x e Hf3 Hc Hlx Hp) as Hl4.
    destruct (translate_child st4 ow4 (S L) p x f e (gr_ok _ _ _ _ _ _ G4) ltac:(lia) Hf4 Hc Hl4 Hp) as [_ ->].
    split; [done|]. rewrite <- (gr_same _ _ _ _ _ _ G f (S (S L)) p x Hf Hc ltac:(lia)).
    by destruct (translate_child st3 ow3 (S L) p x f e (gr_ok _ _ _ _ _ _ G) ltac:(lia) Hf3 Hc Hlx Hp) as [_ ->]. }
  split.
  - eapply (grows_trans st ow st3 ow3 st4 ow4 lo lo hi); [lia| |done].
    eapply grows_widen; [|exact G]. lia.
  - intros x Hr. destruct (Hx x Hr) as (Hc & E4 & E0).
    destruct (Hm x Hr) as (fr & Ht & ? & ? & ? & Hcase). exists fr. rewrite E4, E0. split_and!; [done..|].
    destruct (translate st3 _ _ x) as [[[? ?] ?]|]; [done|]. destruct Hcase as [Hfr ?]. split; [|done].
    destruct (fa_used (memory_manager st) fr) eqn:E; [|done].
    rewrite (gr_used _ _ _ _ _ _ G) in Hfr by done. done.
  - intros x y fx fy Hrx Hry. destruct (Hx x Hrx) as (_ & -> & ->). destruct (Hx y Hry) as (_ & -> & ->).
    by apply Hd.
Qed.

(** The last level: one page. *)
Lemma leaf_step st ow f p vpn wr :
  pt_ok st ow -> ow !! f = Some (1%nat, p) -> covers 1 p vpn ->
  exists st1 child err, SetNewPageMapIfNotPresent (f * 2 ^ 12) (idx 1 vpn) st = Some (st1, (child, err)) /\
   ((err = kNoEnoughMemory /\ st1 = st /\ exhausted (memory_manager st)) \/
    (err = kSuccess /\ exists st2 st3,
      update (f * 2 ^ 12) (idx 1 vpn) (set_user true) st1 = Some st2 /\
      update (f * 2 ^ 12) (idx 1 vpn) (set_writable wr) st2 = Some st3 /\
      exists ow3, mapped_range st ow st3 ow3 1 f wr vpn (vpn + 1))).
Proof.
  intros H Hf Hc. destruct (load_entry st ow f _ p vpn H Hf Hc) as (pg & e & Hm & Hl & _ & He & Hok).
  destruct (set_new_flags st ow f _ p vpn e wr H Hf Hc He) as (st1 & child & err & E & [Hn|(-> & c & stb & st2 & st3 & e3 & -> & E2 & E3 & Es & Hs & P1 & P2 & P3 & P4 & Hcase)]).
  { eexists _, _, _. split; [done|]. by left. }
  eexists _, _, _. split; [done|]. right. split; [done|]. exists st2, st3. split_and!; [done..|].
  assert (Ht3 : translate st3 1 (f * 2 ^ 12) vpn = Some (c, wr, true)).
  { rewrite (translate_leaf _ _ _ e3), P1, P2, P3, P4; [done|]. rewrite (sd_load _ _ _ _ _ Hs). by rewrite decide_True. }
  pose proof (translate_leaf _ _ _ _ He) as Ht. pose proof (entry_frame_range e3) as Hr3. rewrite P4 in Hr3.
  assert (Hone : forall x, vpn <= x < vpn + 1 -> x = vpn) by (intros; lia).
  unfold entry_ok in Hok. destruct Hcase as [(Hp & -> & He3)|(Hp & Hn & _)]; rewrite Hp in *.
  - assert (c = entry_frame e) as -> by (rewrite <- P4, He3; by destruct (flags_entry wr e) as (_ & _ & _ & ? & _)).
    destruct Hok as (Ho & Hu & Hmf & Hlim).
    exists ow. split; [|intros x ->%Hone|intros x y fx fy ->%Hone ->%Hone; congruence].
    + eapply grows_store; [done..|]. unfold entry_ok. by rewrite P1, P4.
    + exists (entry_frame e). rewrite Ht3, Ht, (sd_manager _ _ _ _ _ Hs). split_and!; try done. lia.
  - assert (Hnone : forall (M : nat) (q : Z), None = Some (M, q) -> (1 <= M <= 4)%nat) by done.
    pose proof (grows_new_page st ow c stb None vpn vpn H Hn Hnone) as Gb. set (ow3 := partial_alter _ c ow) in *.
    pose proof (fresh_not_table _ _ _ _ H Hn) as Hnt.
    assert (ow3 = ow) as -> by (apply map_eq; intros i; unfold ow3; destruct (decide (c = i)) as [<-|];
      [by rewrite lookup_partial_alter_eq|by rewrite lookup_partial_alter_ne]).
    assert (Hcf : c <> f) by (intros ->; congruence).
    assert (Hu : fa_used (memory_manager stb) c = true) by (rewrite (np_used _ _ _ Hn), decide_True by (done || lia); done).
    assert (Hmc : mem stb !! c = Some (replicate 512 0)) by (rewrite (np_mem _ _ _ Hn); apply lookup_insert_eq).
    exists ow. split; [|intros x ->%Hone|intros x y fx fy ->%Hone ->%Hone; congruence].
    + apply (grows_trans st ow stb ow st3 ow vpn vpn (vpn + 1)); [lia|done|].
      eapply grows_store; [apply Gb|done..|]. unfold entry_ok. rewrite P1, P4.
      split_and!; [done|done|by eexists|apply Hn].
    + exists c. rewrite Ht3, Ht, (sd_manager _ _ _ _ _ Hs), (sd_mem _ _ _ _ _ Hs) by done.
      split_and!; try done; [lia|apply Hn].
Qed.

(** The result of mapping [n] pages from [v] on in the table [f]: the pages
    the table covers are mapped and the rest is the remainder; or memory ran
    out, with nothing changed outside the range. *)
Definition covered (L : nat) (v n : Z) : Z := Z.min n (pw L * (v / pw L + 1) - v).

Definition setup_post (st : Machine) (ow : owners) (L : nat) (f : Z) (wr : bool) (v n : Z)
    (r : Machine * WithError Z) : Prop :=
  let '(st', (rem, err)) := r in exists ow',
    (err = kSuccess /\ rem = n - covered L v n /\
     mapped_range st ow st' ow' L f wr v (v + covered L v n)) \/
    (err = kNoEnoughMemory /\ grows st ow st' ow' v (v + n) /\ exhausted (memory_manager st')).

Lemma covers_range L v x : upper v -> (L <= 4)%nat -> v <= x < pw L * (v / pw L + 1) -> covers L (v / pw L) x.
Proof.
  intros [Hv1 Hv2] HL Hx. pose proof (pw_pos L). pose proof (Z.div_mod v (pw L)). pose proof (Z.mod_pos_bound v (pw L)).
  assert (x / pw L = v / pw L) by (symmetry; apply (Z.div_unique x (pw L) (v / pw L) (x - pw L * (v / pw L))); lia).
  split; [done|]. split; [lia|].
  assert (exists k, 0 < k /\ 2 ^ 36 = pw L * k) as (k & Hk & E).
  { exists (2 ^ (36 - 9 * Z.of_nat L)). split; [apply Z.pow_pos_nonneg; lia|].
    rewrite pw_pow, <- Z.pow_add_r by lia. f_equal. lia. }
  assert (v / pw L < k) by (apply Z.div_lt_upper_bound; lia). nia.
Qed.

(** The arithmetic of one turn of the loop: the child table covers [m] pages,
    and unless it was the last entry the next page is at the next entry. *)
Lemma turn_arith l addr n :
  (l < 4)%nat -> 0 < n ->
  let v := page_no addr in let m := covered l v n in
  let v' := page_no (ClearParts (SetPart addr (S l) (Part addr (S l) + 1)) l) in
  0 < m <= n /\ m <= covered (S l) v n /\
  (Part addr (S l) = 511 -> m = covered (S l) v n) /\
  (Part addr (S l) <> 511 -> 0 < n - m -> v' = v + m /\ v' / pw (S l) = v / pw (S l) /\
     Part (ClearParts (SetPart addr (S l) (Part addr (S l) + 1)) l) (S l) = Part addr (S l) + 1 /\
     covered (S l) v n = m + covered (S l) v' (n - m)) /\
  (n - m = 0 -> covered (S l) v n = m).
Proof.
  intros Hl Hn. cbn zeta. pose proof (Part_page_no addr l Hl) as Hp. pose proof (Part_range addr (S l)).
  pose proof (pw_pos l). unfold covered. set (v := page_no addr) in *.
  set (nx := ClearParts _ l).
  assert (Hnx : Part addr (S l) < 511 -> page_no nx = (v / pw l + 1) * pw l) by (intros; by apply page_no_next).
  assert (Hpn : Part nx (S l) = (page_no nx / pw l) mod 512) by (by apply Part_page_no).
  rewrite pw_S. rewrite (Z.mul_comm 512 (pw l)), <- !Z.div_div by lia.
  pose proof (Z.div_mod v (pw l)). pose proof (Z.mod_pos_bound v (pw l)).
  pose proof (Z.div_mod (v / pw l) 512). set (q := v / pw l) in *. set (pt := Part addr (S l)) in *.
  split_and!; [nia|nia|nia|nia| |nia].
  intros Hne Hrem. assert (Hlt : pt < 511) by lia. specialize (Hnx Hlt).
  assert (Em : Z.min n (pw l * (q + 1) - v) = pw l * (q + 1) - v) by lia.
  rewrite Em, Hnx in *. rewrite Z.div_mul in * by lia.
  assert ((q + 1) / 512 = q / 512) as Eq by (symmetry; apply (Z.div_unique (q + 1) 512 (q / 512) (pt + 1)); lia).
  rewrite Eq. split_and!; [lia|done| |lia].
  rewrite Hpn. rewrite <- (Z.mod_unique (q + 1) 512 (q / 512) (pt + 1)); lia.
Qed.

Section setup.
Context (l : nat) (wr : bool) (Hl : (l < 4)%nat).
Context (descend : Z -> Z -> Z -> Machine -> option (Machine * WithError Z)).
Context (Hdescend : (0 < l)%nat -> forall c p addr n st ow, pt_ok st ow -> ow !! c = Some (l, p) ->
  covers l p (page_no addr) -> 0 < n ->
  exists r, descend (c * 2 ^ 12) addr n st = Some r /\ setup_post st ow l c wr (page_no addr) n r).

Lemma setup_turn f p addr n st ow :
  pt_ok st ow -> ow !! f = Some (S l, p) -> covers (S l) p (page_no addr) -> 0 < n ->
  let v := page_no addr in
  exists st' rem err ow', SetupPageMap_turn descend l (f * 2 ^ 12) wr addr n st = Some (st', (rem, err)) /\
    ((err = kSuccess /\ rem = n - covered l v n /\ mapped_range st ow st' ow' (S l) f wr v (v + covered l v n)) \/
     (err = kNoEnoughMemory /\ grows st ow st' ow' v (v + n) /\ exhausted (memory_manager st'))).
Proof using All.
  intros H Hf Hc Hn. cbn zeta. unfold SetupPageMap_turn.
  assert (Hi : Part addr (S l) = idx (S l) (page_no addr)) by (by apply Part_page_no).
  rewrite Hi. set (v := page_no addr) in *. destruct l as [|l'] eqn:El.
  - destruct (leaf_step st ow f p v wr H Hf Hc) as (st1 & child & err & -> & [(-> & -> & Hex)|(-> & st2 & st3 & E2 & E3 & ow3 & Hm)]);
      cbn [mbind option_bind].
    + exists st, n, kNoEnoughMemory, ow. split; [done|]. right. split; [done|]. split; [by apply grows_refl|done].
    + change (is_error kSuccess) with false. cbn iota. rewrite E2; cbn [mbind option_bind]. rewrite E3; cbn [mbind option_bind].
      eexists _, _, _, ow3. split; [done|]. left. unfold covered. rewrite pw_0, Z.div_1_r.
      replace (Z.min n (1 * (v + 1) - v)) with 1 by lia. by split_and!.
  - destruct (enter_child st ow f l' p v H Hf Hc) as (st1 & child & err & -> & [(-> & -> & Hex)|(-> & c & st2 & st3 & ow3 & -> & E2 & E3 & Hc3 & G & e & Hle & Hp & He)]);
      cbn [mbind option_bind].
    + exists st, n, kNoEnoughMemory, ow. split; [done|]. right. split; [done|]. split; [by apply grows_refl|done].
    + change (is_error kSuccess) with false. cbn iota. rewrite E2; cbn [mbind option_bind]. rewrite E3; cbn [mbind option_bind].
      assert (Hcv : covers (S l') (v / pw (S l')) v) by (split; [done|apply Hc]).
      destruct (Hdescend ltac:(lia) c _ addr n st3 ow3 (gr_ok _ _ _ _ _ _ G) Hc3 Hcv Hn) as ([st4 [rem err]] & -> & ow4 & Hpost).
      exists st4, rem, err, ow4. split; [done|]. fold v in Hpost.
      destruct Hpost as [(-> & -> & Hm)|(-> & G4 & Hex)]; [left|right]; (split; [done|]; try (split; [|done])).
      * split; [done|].
        assert (Hcov : forall x, v <= x < v + covered (S l') v n -> covers (S (S l')) p x /\ x / pw (S l') = v / pw (S l')).
        { intros x Hx. unfold covered in Hx. destruct (covers_range (S l') v x) as [Hxv Hux]; [apply Hc|lia|lia|].
          split; [|done]. split; [|done]. destruct Hc as [<- _]. rewrite (pw_S (S l')), Z.mul_comm.
          pose proof (pw_pos (S l')). rewrite <- !Z.div_div by lia. by rewrite Hxv. }
        eapply mapped_range_child; try done.
        unfold covered. pose proof (pw_pos (S l')). pose proof (Z.div_mod v (pw (S l'))). pose proof (Z.mod_pos_bound v (pw (S l'))). lia.
      * apply (grows_trans st ow st3 ow3 st4 ow4 v v (v + n)); [lia| |done]. eapply grows_widen; [|exact G]. lia.
Qed.

Lemma SetupPageMap_loop_spec fuel : forall f p addr n st ow,
  512 - Part addr (S l) <= Z.of_nat fuel ->
  pt_ok st ow -> ow !! f = Some (S l, p) -> covers (S l) p (page_no addr) -> 0 <= n ->
  exists r, SetupPageMap_loop descend l (f * 2 ^ 12) wr fuel addr n st = Some r /\
    setup_post st ow (S l) f wr (page_no addr) n r.
Proof using All.
  induction fuel as [|fuel IH]; intros f p addr n st ow Hfuel H Hf Hc Hn;
    [pose proof (Part_range addr (S l)); lia|]. cbn [SetupPageMap_loop].
  set (v := page_no addr) in *. case_decide as Hn0.
  2: { eexists; split; [done|]. exists ow. left. assert (n = 0) as -> by lia.
       assert (covered (S l) v 0 = 0) as ->.
       { unfold covered. pose proof (pw_pos (S l)). pose proof (Z.div_mod v (pw (S l))). pose proof (Z.mod_pos_bound v (pw (S l))). lia. }
       rewrite Z.add_0_r. split_and!; [done|done|by apply mapped_range_nil]. }
  destruct (setup_turn f p addr n st ow H Hf Hc ltac:(lia)) as (st3 & rem & err & ow3 & -> & Hturn); fold v in Hturn.
  cbn [mbind option_bind]. destruct Hturn as [(-> & -> & Hm)|(-> & G & Hex)].
  2: { eexists; split; [done|]. exists ow3. by right. }
  change (is_error kSuccess) with false. cbn iota.
  destruct (turn_arith l addr n Hl ltac:(lia)) as (Hm1 & Hm2 & Hlast & Hnext & Hdone). fold v in Hm1, Hm2, Hlast, Hnext, Hdone.
  set (m := covered l v n) in *. case_decide as H511.
  { eexists; split; [done|]. exists ow3. left. rewrite <- Hlast by done. by split_and!. }
  set (addr' := ClearParts _ l) in *.
  assert (Hf3 : ow3 !! f = Some (S l, p)) by (eapply lookup_weaken; [exact Hf|apply Hm]).
  destruct (decide (n - m = 0)) as [E0|E0].
  { rewrite E0. destruct fuel as [|fuel'].
    { pose proof (Part_range addr (S l)). lia. }
    cbn [SetupPageMap_loop]. rewrite decide_False by lia. eexists; split; [done|]. exists ow3. left.
    rewrite (Hdone E0). split_and!; [done|lia|done]. }
  destruct (Hnext H511 ltac:(lia)) as (Ev' & Ec' & Ei' & Ecov).
  assert (Hc' : covers (S l) p (page_no addr')).
  { destruct Hc as [Hcp Hcu]. rewrite Ev'. rewrite <- Hcp. unfold v at 2. fold v.
    apply covers_range; [done|lia|]. unfold covered in Hm2. split; [lia|].
    pose proof (pw_pos (S l)). pose proof (Z.div_mod (v + m) (pw (S l))). pose proof (Z.mod_pos_bound (v + m) (pw (S l))).
    rewrite Ev' in Ec'. rewrite Ec' in *. lia. }
  destruct (IH f p addr' (n - m) st3 ow3) as ([st4 [rem err]] & -> & ow4 & Hpost); [lia|apply Hm|done|done|lia|].
  eexists; split; [done|]. exists ow4. rewrite Ev' in Hpost, Ecov.
  destruct Hpost as [(-> & -> & Hm4)|(-> & G4 & Hex)]; [left|right]; (split; [done|]; try (split; [|done])).
  - split; [lia|]. eapply (mapped_range_app st st3 st4 ow ow3 ow4 (S l) f p wr v (v + m)); [|done| |done|].
    + unfold covered in *. lia.
    + intros x Hx. destruct Hc as [<- Hcu]. apply covers_range; [done|lia|]. unfold covered in Hx. lia.
    + replace (v + covered (S l) v n) with (v + m + covered (S l) (v + m) (n - m)) by lia. done.
  - apply (grows_trans st ow st3 ow3 st4 ow4 v (v + m) (v + n)); [lia|apply Hm|].
    replace (v + n) with (v + m + (n - m)) by lia. done.
Qed.
End setup.

Lemma SetupPageMap_spec wr L : (L <= 4)%nat -> forall f p addr n st ow,
  (0 < L)%nat -> pt_ok st ow -> ow !! f = Some (L, p) -> covers L p (page_no addr) -> 0 <= n ->
  exists r, SetupPageMap L (f * 2 ^ 12) addr n wr st = Some r /\ setup_post st ow L f wr (page_no addr) n r.
Proof.
  induction L as [|l IH]; intros HL f p addr n st ow Hpos H Hf Hc Hn; [lia|].
  cbn [SetupPageMap]. eapply SetupPageMap_loop_spec; try done.
  - intros Hl c q addr' n' st' ow' H' Hc' Hcv' Hn'. apply (IH ltac:(lia) c q addr' n'); done || lia.
  - pose proof (Part_range addr (S l)). lia.
Qed.

Lemma covers_root x : upper x -> covers 4 0 x.
Proof. intros Hu. split; [|done]. destruct Hu. apply Z.div_small. unfold pw. cbn. lia. Qed.

Lemma covered_root v n : upper v -> v + covered 4 v n = Z.min (v + n) (2 ^ 36).
Proof.
  intros [? ?]. unfold covered. rewrite (Z.div_small v (pw 4)) by (unfold pw; cbn; lia).
  unfold pw; cbn. lia.
Qed.

Lemma SetupPageMaps_spec st ow root addr n wr :
  pt_ok st ow -> CR3 st = root * 2 ^ 12 -> ow !! root = Some (4%nat, 0) ->
  upper (page_no addr) -> 0 <= n ->
  let v := page_no addr in let hi := Z.min (v + n) (2 ^ 36) in
  exists st' err ow', SetupPageMaps addr n wr st = Some (st', err) /\
    pt_ok st' ow' /\ ow ⊆ ow' /\ CR3 st' = CR3 st /\
    (forall x, upper x -> ~ v <= x < v + n -> translate st' 4 (CR3 st') x = translate st 4 (CR3 st) x) /\
    (forall f, 0 <= f -> fa_used (memory_manager st) f = true -> ow !! f = None -> mem st' !! f = mem st !! f) /\
    ((err = kSuccess /\ (forall x, v <= x < hi -> mapped st st' ow' 4 root wr x) /\
      (forall x y fx fy, v <= x < hi -> v <= y < hi -> x <> y ->
         translate st 4 (CR3 st) x = None -> translate st 4 (CR3 st) y = None ->
         translate st' 4 (CR3 st') x = Some (fx, wr, true) ->
         translate st' 4 (CR3 st') y = Some (fy, wr, true) -> fx <> fy)) \/
     ran_out st' err).
Proof.
  intros H Hcr Hr Hu Hn. cbn zeta. unfold SetupPageMaps. rewrite Hcr.
  destruct (SetupPageMap_spec wr 4 ltac:(lia) root 0 addr n st ow ltac:(lia) H Hr (covers_root _ Hu) Hn)
    as ([st' [rem err]] & -> & ow' & Hpost). cbn [mbind option_bind].
  assert (G : grows st ow st' ow' (page_no addr) (page_no addr + n)).
  { destruct Hpost as [(_ & _ & Hm)|(_ & G & _)]; [|done]. eapply grows_widen; [|apply Hm].
    rewrite covered_root by done. lia. }
  exists st', err, ow'. pose proof (gr_cr3 _ _ _ _ _ _ G) as Hcr'. rewrite Hcr', Hcr.
  split; [done|]. split; [exact (gr_ok _ _ _ _ _ _ G)|]. split; [exact (gr_sub _ _ _ _ _ _ G)|].
  split; [done|]. split_and!.
  - intros x Hx Hout. by apply (gr_same _ _ _ _ _ _ G root 4 0); [|apply covers_root|].
  - intros f Hf Huf Hof. by apply (gr_data _ _ _ _ _ _ G).
  - destruct Hpost as [(-> & _ & Hm)|(-> & _ & Hex)]; [left|by right]. split; [done|].
    rewrite covered_root in Hm by done. split; apply Hm.
Qed.

(** C9. [SetupPageMaps] maps exactly the pages asked for, in the
    application's half of the address space: it always returns, and unless
    every managed frame is taken, every page of the range is then present, accessible to the
    user and writable as asked, on the frame it had or on a zeroed frame that
    was free, different pages on different new frames. The range is cut at the
    top of the address space. In any case the tables stay well formed, every
    other page translates as before, and data pages keep their contents. *)
Theorem SetupPageMaps_maps_range st ow root addr n wr :
  pt_ok st ow -> CR3 st = root * 2 ^ 12 -> ow !! root = Some (4%nat, 0) ->
  upper (page_no addr) -> 0 <= n ->
  let v := page_no addr in let hi := Z.min (v + n) (2 ^ 36) in
  exists st' err ow', SetupPageMaps addr n wr st = Some (st', err) /\
    pt_ok st' ow' /\ ow ⊆ ow' /\ CR3 st' = CR3 st /\
    (forall x, upper x -> ~ v <= x < v + n -> translate st' 4 (CR3 st') x = translate st 4 (CR3 st) x) /\
    (forall f, 0 <= f -> fa_used (memory_manager st) f = true -> ow !! f = None -> mem st' !! f = mem st !! f) /\
    ((err = kSuccess /\ (forall x, v <= x < hi -> mapped st st' ow' 4 root wr x) /\
      (forall x y fx fy, v <= x < hi -> v <= y < hi -> x <> y ->
         translate st 4 (CR3 st) x = None -> translate st 4 (CR3 st) y = None ->
         translate st' 4 (CR3 st') x = Some (fx, wr, true) ->
         translate st' 4 (CR3 st') y = Some (fy, wr, true) -> fx <> fy)) \/
     ran_out st' err).
Proof. apply SetupPageMaps_spec. Qed.

(** ** Writes to data pages *)

(** A write to a frame that is not a table leaves the tables as they are. *)
Lemma data_write_ok st ow c pg :
  pt_ok st ow -> ow !! c = None ->
  pt_ok (set_mem (<[c := pg]> (mem st)) st) ow /\
  forall g M q w, ow !! g = Some (M, q) -> covers M q w ->
    translate (set_mem (<[c := pg]> (mem st)) st) M (g * 2 ^ 12) w = translate st M (g * 2 ^ 12) w.
Proof.
  intros H Hc. set (st' := set_mem _ st).
  assert (Hl : forall g x j, ow !! g = Some x -> load st' (g * 2 ^ 12) j = load st (g * 2 ^ 12) j).
  { intros g x j Hg. rewrite !load_mul. cbn. rewrite lookup_insert_ne; [done|congruence]. }
  split.
  - split; [apply H| |].
    + intros f L p Hf. destruct (po_table _ _ H _ _ _ Hf) as (? & ? & ? & pg' & ? & ?).
      split_and!; try done; try lia. exists pg'. cbn. rewrite lookup_insert_ne; [done|congruence].
    + intros f L p vpn e Hf Hcv. rewrite (Hl _ _ _ Hf). intros He.
      pose proof (po_entry _ _ H _ _ _ _ _ Hf Hcv He) as Hok. unfold entry_ok in *.
      destruct (present e); [|done]. destruct L as [|[|L]]; try done.
      destruct Hok as (? & ? & Hm & ?). split_and!; try done. cbn.
      destruct (decide (entry_frame e = c)) as [->|]; [by rewrite lookup_insert_eq|by rewrite lookup_insert_ne].
  - intros g M q w Hg Hcw. eapply translate_agree; [by apply pt_ok_shape|done..|].
    intros g' M' q' Hg' _ _. left. by eapply Hl.
Qed.
End paging.

(** ** The bitmap allocator implements the interface *)

#[export] Instance bitmap_allocator : FrameAllocator BitmapMemoryManager.
Proof.
  refine {|
    fa_allocate := fun m => Allocate m 1;
    fa_free := fun m f => Free m f 1;
    fa_ok := fun m => manager_ok m /\ range_begin m <= kFrameCount;
    fa_used := allocated;
    fa_managed := fun m f => bool_decide (range_begin m <= f < range_end m) |}.
  - intros m [Hok Hb]. destruct (Allocate_spec m 1 Hok ltac:(lia) Hb) as ([m' [f e]] & E & Hp).
    exists m', f, e. split; [done|]. pose proof (ok_begin m Hok). pose proof (ok_end m Hok).
    destruct Hp as [(-> & ? & Hend & Hfree & _ & Hs)|(-> & _ & -> & Hno)].
    2: { split; [done|]. split; [done|]. right. split_and!; [done..|]. intros g Hg%bool_decide_eq_true.
      destruct (allocated m g) eqn:Hu; [done|]. destruct (Hno g); [lia|lia|].
      intros k Hk. by replace k with g by lia. }
    pose proof Hs as [Hok' Hb' He' Hbits]. split; [split; [done|lia]|]. split; [by rewrite Hb', He'|]. left.
    change frame_limit with kFrameCount. specialize (Hend ltac:(lia)).
    split_and!; [done|lia|lia|apply Hfree; lia|].
    intros g Hg. rewrite Hbits by done. repeat case_decide; lia || done.
  - intros m f [Hok Hb] Hf. destruct (Free_spec m f 1 Hok) as (m' & E & [Hok' Hb' He' Hbits]); [lia|lia|change kFrameCount with frame_limit; lia|].
    exists m'. split; [done|]. split; [split; [done|lia]|]. split; [by rewrite Hb', He'|].
    intros g Hg. rewrite Hbits by done. repeat case_decide; lia || done.
Defined.

(** ** Witness *)

(** A machine whose frame 1 holds an empty PML4. *)
Definition machine_with_root (m : BitmapMemoryManager) : @Machine BitmapMemoryManager :=
  MkMachine {[ 1 := replicate 512 0 ]} m (1 * 2 ^ 12).

Definition root_owner : gmap Z (nat * Z) := {[ 1 := (4%nat, 0) ]}.

Lemma machine_with_root_ok m :
  manager_ok m -> range_begin m <= kFrameCount -> allocated m 1 = true ->
  pt_ok (machine_with_root m) root_owner.
Proof.
  intros Hm Hb Ha. unfold root_owner. split; [done| |].
  - intros f L p [<- [= <- <-]]%lookup_singleton_Some. split_and!; [lia|lia|done|unfold frame_limit; lia|done|].
    exists (replicate 512 0). split; [apply lookup_singleton_eq|apply length_replicate].
  - intros f L p vpn e [<- [= <- <-]]%lookup_singleton_Some Hc He.
    assert (e = 0) as ->; [|done]. revert He. unfold load, machine_with_root. cbn [mem].
    change (frame_of (1 * 2 ^ 12)) with 1. rewrite lookup_singleton_eq. cbn [mbind option_bind].
    intros He. apply getZ_lookup, lookup_replicate in He. tauto.
Qed.

Lemma SetupPageMaps_maps_range_witness :
  exists m st' err, allocated m 1 = true /\
    SetupPageMaps 0xffff800000000000 3 true (machine_with_root m) = Some (st', err) /\ CR3 st' = 4096.
Proof.
  destruct (MarkAllocated_spec NewManager 1 1 NewManager_ok) as (m & _ & [Hok Hb _ Hbits]);
    [lia|lia|by vm_compute|].
  assert (Ha : allocated m 1 = true) by (rewrite Hbits by lia; rewrite decide_True by lia; reflexivity).
  assert (Hb' : range_begin m <= kFrameCount).
  { rewrite Hb. assert (range_begin NewManager = 0) as -> by reflexivity. by vm_compute. }
  destruct (SetupPageMaps_maps_range (machine_with_root m) root_owner 1 0xffff800000000000 3 true)
    as (st' & err & ow' & E & _ & _ & Hc & _).
  - apply machine_with_root_ok; assumption.
  - reflexivity.
  - reflexivity.
  - vm_compute. split; congruence.
  - lia.
  - exists m, st', err. split; [exact Ha|]. split; [exact E|]. rewrite Hc. reflexivity.
Defined.
