(* ===== verification/IdentityMap.v ===== *)
(** * The kernel's identity map (kernel/paging.cpp)

    The static page tables built at boot, from 2 MiB pages: addresses of the
    first 64 GiB translate to themselves, for the kernel only. *)

From S2P Require Import Prelude FrameBitmap Paging.
From stdpp Require Import base list numbers option gmap.
From Stdlib Require Import ZArith Lia.

Local Open Scope Z_scope.

(** [src/kernel/paging.hpp:8-8] [kPageDirectoryCount] *)
Definition kPageDirectoryCount : Z := 64.
(** [src/kernel/paging.cpp:11-13] [kPageSize1G] *)
Definition kPageSize4K : Z := 4096.
Definition kPageSize2M : Z := 512 * kPageSize4K.
Definition kPageSize1G : Z := 512 * kPageSize2M.

Section identity.
Context {A : Type} `{!FrameAllocator A}.
Implicit Types (st : @Machine A).

(** The addresses of the static tables; those of [page_directory] follow each
    other. *)
Context (pml4_table pdp_table page_directory : Z).

Definition directory (i : Z) : Z := page_directory + i * kPageSize4K.

(** [src/kernel/paging.cpp:26-29] [SetupIdentityPageTable] *)
Definition fill_directory (i_pdpt : Z) (st : Machine) : option Machine :=
  for_loop (fun i_pd st =>
    store st (directory i_pdpt) i_pd (Z.lor (i_pdpt * kPageSize1G + i_pd * kPageSize2M) 0x083)) 512 0 st.

(** [CR0.WP] is cleared as well.
    [src/kernel/paging.cpp:21-34] [SetupIdentityPageTable] *)
Definition SetupIdentityPageTable (st : Machine) : option Machine :=
  st1 ← store st pml4_table 0 (Z.lor pdp_table 0x003);
  st2 ← for_loop (fun i_pdpt st =>
          st' ← store st pdp_table i_pdpt (Z.lor (directory i_pdpt) 0x003);
          fill_directory i_pdpt st') (Z.to_nat kPageDirectoryCount) 0 st1;
  Some (SetCR3 pml4_table st2).

(** [src/kernel/paging.cpp:36-36] [InitializePaging] *)
Definition InitializePaging (st : Machine) : option Machine := SetupIdentityPageTable st.

(** ** What the tables hold *)

(** A table of 512 entries. *)
Definition is_table st (f : Z) : Prop := exists pg, mem st !! f = Some pg /\ length pg = 512%nat.

Lemma store_load st f i v :
  is_table st f -> 0 <= i < 512 ->
  exists st', store st (f * 2 ^ 12) i v = Some st' /\
    (forall g, is_table st g -> is_table st' g) /\
    forall g j, load st' (g * 2 ^ 12) j = if decide (g = f /\ j = i) then Some v else load st (g * 2 ^ 12) j.
Proof.
  intros (pg & Hpg & Hlen) Hi. unfold store. rewrite frame_of_mul, Hpg. cbn [mbind option_bind].
  rewrite setZ_Some by (rewrite Hlen; lia). cbn [mbind option_bind]. eexists. split; [done|]. split.
  - intros g (pg' & Hg & Hl). unfold is_table; cbn. destruct (decide (g = f)) as [->|]; [|rewrite lookup_insert_ne by done; by exists pg'].
    rewrite lookup_insert_eq. eexists. split; [done|]. by rewrite length_insert.
  - intros g j. rewrite !load_mul. cbn. destruct (decide (g = f)) as [->|Hne].
    + rewrite lookup_insert_eq, Hpg. cbn [mbind option_bind]. unfold getZ.
      destruct (decide (0 <= j)); [|rewrite decide_False by lia; done].
      destruct (decide (j = i)) as [->|]; [rewrite decide_True by done; apply list_lookup_insert_eq; lia|].
      rewrite decide_False by naive_solver. by rewrite list_lookup_insert_ne by lia.
    + rewrite decide_False by naive_solver. by rewrite lookup_insert_ne.
Qed.

(** The frames of the static tables: different, and in the physical memory. *)
Context (P Q D : Z).
Context (HP : pml4_table = P * 2 ^ 12) (HQ : pdp_table = Q * 2 ^ 12) (HD : page_directory = D * 2 ^ 12).

Record static_tables st : Prop := {
  st_frames : 0 <= P < 2 ^ 40 /\ 0 <= Q < 2 ^ 40 /\ 0 <= D /\ D + kPageDirectoryCount <= 2 ^ 40;
  st_apart : P <> Q /\ ~ D <= P < D + kPageDirectoryCount /\ ~ D <= Q < D + kPageDirectoryCount;
  st_pml4 : is_table st P;
  st_pdp : is_table st Q;
  st_pd : forall i, 0 <= i < kPageDirectoryCount -> is_table st (D + i);
}.

Lemma directory_frame i : directory i = (D + i) * 2 ^ 12.
Proof. unfold directory. rewrite HD. unfold kPageSize4K. lia. Qed.

Definition pd_entry (i j : Z) : Z := Z.lor (i * kPageSize1G + j * kPageSize2M) 0x083.

(** The tables after [i] directories, [j] entries of the next. *)
Record filled (i j : Z) st : Prop := {
  fl_tables : static_tables st;
  fl_pml4 : load st (P * 2 ^ 12) 0 = Some (Z.lor (Q * 2 ^ 12) 3);
  fl_pdp : forall i', 0 <= i' < i -> load st (Q * 2 ^ 12) i' = Some (Z.lor ((D + i') * 2 ^ 12) 3);
  fl_pd : forall i' j', 0 <= i' -> 0 <= j' < 512 -> i' < i \/ (i' = i /\ j' < j) ->
    load st ((D + i') * 2 ^ 12) j' = Some (pd_entry i' j');
}.

Lemma static_keep st st' : static_tables st -> (forall g, is_table st g -> is_table st' g) -> static_tables st'.
Proof. intros [H1 H2 H3 H4 H5] Hk. split; auto. Qed.

Lemma fill_directory_spec i st :
  0 <= i < kPageDirectoryCount -> filled i 0 st -> load st (Q * 2 ^ 12) i = Some (Z.lor ((D + i) * 2 ^ 12) 3) ->
  exists st', fill_directory i st = Some st' /\ filled (i + 1) 0 st'.
Proof.
  intros Hi Hf Hq. unfold fill_directory. rewrite directory_frame.
  destruct (for_loop_ind (fun i_pd st => store st ((D + i) * 2 ^ 12) i_pd (pd_entry i i_pd))
    (fun j st => filled i j st /\ load st (Q * 2 ^ 12) i = Some (Z.lor ((D + i) * 2 ^ 12) 3)) 512 0 st)
    as (st' & E & [Hf' Hq']); [done| |].
  - intros j s Hj [Hs Hqs]. pose proof (fl_tables _ _ _ Hs) as Ht.
    destruct (store_load s (D + i) j (pd_entry i j) (st_pd _ Ht i Hi) ltac:(lia)) as (s' & -> & Hkeep & Hload).
    destruct (st_apart _ Ht) as (Hpq & Hpd & Hqd).
    exists s'. split; [done|]. split; [split|].
    + by eapply static_keep.
    + rewrite Hload, decide_False by lia. apply Hs.
    + intros i' Hi'. rewrite Hload, decide_False by lia. by apply Hs.
    + intros i' j' H1 H2 H3. rewrite Hload. destruct (decide (D + i' = D + i /\ j' = j)) as [[H4 H5]|Hn].
      * replace i' with i by lia. by subst.
      * apply Hs; lia.
    + rewrite Hload, decide_False by lia. done.
  - exists st'. split; [exact E|]. destruct Hf' as [H1 H2 H3 H4]. split; try done.
    + intros i' Hi'. destruct (decide (i' = i)) as [->|]; [done|]. apply H3. lia.
    + intros i' j' H5 H6 H7. apply H4; try done. lia.
Qed.

Lemma SetupIdentityPageTable_spec st :
  static_tables st ->
  exists st', SetupIdentityPageTable st = Some st' /\ filled kPageDirectoryCount 0 st' /\ CR3 st' = P * 2 ^ 12.
Proof.
  intros Ht. unfold SetupIdentityPageTable. rewrite HP, HQ.
  destruct (store_load st P 0 (Z.lor (Q * 2 ^ 12) 3) (st_pml4 _ Ht) ltac:(lia)) as (st1 & -> & K1 & L1). cbn [mbind option_bind].
  destruct (for_loop_ind (fun i_pdpt st =>
          st' ← store st (Q * 2 ^ 12) i_pdpt (Z.lor (directory i_pdpt) 0x003);
          fill_directory i_pdpt st') (fun i st => filled i 0 st) (Z.to_nat kPageDirectoryCount) 0 st1)
    as (st2 & -> & H2).
  - split.
    + by eapply static_keep.
    + rewrite L1, decide_True by lia. done.
    + intros; lia.
    + intros; lia.
  - intros i s Hi Hs. unfold kPageDirectoryCount in Hi. pose proof (fl_tables _ _ _ Hs) as Hts.
    destruct (st_apart _ Hts) as (Hpq & Hpd & Hqd). unfold kPageDirectoryCount in *.
    destruct (store_load s Q i (Z.lor (directory i) 3) (st_pdp _ Hts) ltac:(lia)) as (s1 & -> & Ks & Ls). cbn [mbind option_bind].
    apply fill_directory_spec.
    + unfold kPageDirectoryCount. lia.
    + split.
      * by eapply static_keep.
      * rewrite Ls, decide_False by lia. apply Hs.
      * intros i' Hi'. rewrite Ls, decide_False by lia. by apply Hs.
      * intros i' j' H1 H3 H4. rewrite Ls, decide_False by lia. by apply Hs.
    + rewrite Ls, decide_True, directory_frame by lia. done.
  - cbn [mbind option_bind]. eexists. split; [done|]. split; [|cbn; done].
    destruct H2 as [[? ? ? ? ?] ? ? ?]. split; [split|..]; try done.
Qed.
(** ** What they translate to *)

(** An entry for frame [F] with flags [b]. *)
Lemma flag_entry F b :
  0 <= F < 2 ^ 40 -> 0 <= b < 2 ^ 12 ->
  entry_frame (Z.lor (F * 2 ^ 12) b) = F /\
  forall k, 0 <= k < 12 -> Z.testbit (Z.lor (F * 2 ^ 12) b) k = Z.testbit b k.
Proof.
  intros HF Hb. split.
  - unfold entry_frame. rewrite <- (Z.shiftr_div_pow2 _ 12), Z.shiftr_lor by lia.
    rewrite !Z.shiftr_div_pow2, Z.div_mul, (Z.div_small b), Z.lor_0_r by lia. by apply Z.mod_small.
  - intros k Hk. rewrite Z.lor_spec, Z.mul_pow2_bits_low by lia. done.
Qed.

Lemma pd_entry_frame i j : pd_entry i j = Z.lor ((i * 2 ^ 18 + j * 2 ^ 9) * 2 ^ 12) 0x83.
Proof. unfold pd_entry, kPageSize1G, kPageSize2M, kPageSize4K. f_equal. lia. Qed.

Lemma filled_translate st x :
  filled kPageDirectoryCount 0 st -> 0 <= x < kPageDirectoryCount * 2 ^ 18 ->
  translate st 4 (P * 2 ^ 12) x = Some (x, true, false).
Proof.
  intros [Ht H4 H3 H2] Hx. destruct (st_frames _ Ht) as (HPr & HQr & HD0 & HD1). unfold kPageDirectoryCount in *.
  set (i := x / 2 ^ 18). set (j := (x / 2 ^ 9) mod 512).
  assert (Hi : 0 <= i < 64) by (split; [apply Z.div_pos|apply Z.div_lt_upper_bound]; unfold i; lia).
  assert (Hj : 0 <= j < 512) by (apply Z.mod_pos_bound; lia).
  assert (Ei : x / 512 ^ Z.of_nat 3 mod 512 = 0).
  { change (512 ^ Z.of_nat 3) with (2 ^ 27). rewrite Z.div_small by lia. done. }
  assert (Ei2 : x / 512 ^ Z.of_nat 2 mod 512 = i) by (change (512 ^ Z.of_nat 2) with (2 ^ 18); apply Z.mod_small; lia).
  assert (Ex : x = i * 2 ^ 18 + j * 2 ^ 9 + x mod 2 ^ 9).
  { unfold i, j. pose proof (Z.div_mod x (2 ^ 9) ltac:(lia)). pose proof (Z.div_mod (x / 2 ^ 9) 512 ltac:(lia)) as E2.
    rewrite Z.div_div in E2 by lia. change (2 ^ 9 * 512) with (2 ^ 18) in E2. lia. }
  destruct (flag_entry Q 3 HQr ltac:(lia)) as [FQ BQ]. destruct (flag_entry (D + i) 3 ltac:(lia) ltac:(lia)) as [FD BD].
  destruct (flag_entry (i * 2 ^ 18 + j * 2 ^ 9) 0x83 ltac:(lia) ltac:(lia)) as [FE BE].
  rewrite <- pd_entry_frame in FE, BE.
  rewrite translate_step. unfold idx, pw. cbn [pred]. rewrite Ei, H4. cbn [mbind option_bind].
  unfold present, huge_page, writable, user. rewrite !BQ by lia.
  rewrite decide_False, (bool_decide_false (3 < 3)%nat) by lia. change (Z.testbit 3 0) with true. cbn [negb]. rewrite andb_false_r.
  unfold Pointer. rewrite FQ.
  rewrite translate_step. unfold idx, pw. cbn [pred]. rewrite Ei2, H3 by lia. cbn [mbind option_bind].
  unfold present, huge_page, writable, user. rewrite !BD by lia. change (Z.testbit 3 0) with true. cbn [negb].
  change (Z.testbit 3 7) with false. cbn [andb]. rewrite decide_False by lia. unfold Pointer. rewrite FD.
  rewrite translate_step. unfold idx, pw. cbn [pred]. change (512 ^ Z.of_nat 1) with (2 ^ 9). fold j.
  rewrite H2 by lia. cbn [mbind option_bind].
  unfold present, huge_page, writable, user. rewrite !BE by lia. change (Z.testbit 0x83 0) with true.
  change (Z.testbit 0x83 7) with true. cbn [negb]. rewrite decide_False, bool_decide_true by lia. cbn [andb mbind option_bind].
  rewrite FE. change (2 ^ Z.of_nat 9) with 512.
  do 2 f_equal. f_equal. change (512 ^ Z.of_nat 1) with (2 ^ 9).
  assert ((i * 2 ^ 18 + j * 2 ^ 9) / 2 ^ 9 = i * 2 ^ 9 + j) as ->; [|lia].
  replace (i * 2 ^ 18 + j * 2 ^ 9) with ((i * 2 ^ 9 + j) * 2 ^ 9) by lia. by apply Z.div_mul.
Qed.
End identity.

(** The page tables set up at boot map the first 64 GiB of the address
    space to themselves, writable and without access for user programs; the
    loops fill the 64 directories completely and always return. *)
Theorem identity_map {A : Type} `{!FrameAllocator A} (st : @Machine A) P Q D :
  static_tables P Q D st ->
  exists st', InitializePaging (P * 2 ^ 12) (Q * 2 ^ 12) (D * 2 ^ 12) st = Some st' /\ CR3 st' = P * 2 ^ 12 /\
    forall addr, 0 <= addr < kPageDirectoryCount * kPageSize1G ->
      translate st' 4 (CR3 st') (page_no addr) = Some (page_no addr, true, false).
Proof.
  intros Ht. destruct (SetupIdentityPageTable_spec (P * 2 ^ 12) (Q * 2 ^ 12) (D * 2 ^ 12) P Q D eq_refl eq_refl eq_refl st Ht)
    as (st' & E & Hf & Hc).
  exists st'. split; [exact E|]. split; [done|]. intros addr Ha. rewrite Hc.
  apply (filled_translate P Q D st'); [done|].
  unfold page_no, kPageDirectoryCount, kPageSize1G, kPageSize2M, kPageSize4K in *.
  assert (addr / 2 ^ 12 < 64 * 2 ^ 18) by (apply Z.div_lt_upper_bound; lia).
  assert (0 <= addr / 2 ^ 12) by (apply Z.div_pos; lia). rewrite Z.mod_small by lia. lia.
Qed.

(** Tables at frames 1, 2 and from 16 on. *)
Definition sample_tables : @Machine BitmapMemoryManager :=
  MkMachine (list_to_map ((fun f => (Z.of_nat f, replicate 512 0)) <$> seq 0 80)) NewManager 0.

Lemma sample_tables_ok : static_tables 1 2 16 sample_tables.
Proof.
  assert (H : forall f, 0 <= f < 80 -> is_table sample_tables f).
  { intros f Hf. exists (replicate 512 0). split; [|by rewrite length_replicate].
    unfold sample_tables; cbn [mem]. apply elem_of_list_to_map_1.
    - rewrite <- list_fmap_compose. apply NoDup_fmap; [intros ? ? ?; cbn in *; lia|apply NoDup_seq].
    - apply list_elem_of_fmap. exists (Z.to_nat f). rewrite Z2Nat.id by lia. split; [done|]. apply elem_of_seq. lia. }
  unfold kPageDirectoryCount. split; unfold kPageDirectoryCount; try lia; try (apply H; lia).
  intros i Hi. apply H. lia.
Qed.

Lemma identity_map_witness :
  exists st', InitializePaging (1 * 2 ^ 12) (2 * 2 ^ 12) (16 * 2 ^ 12) sample_tables = Some st' /\
    translate st' 4 (CR3 st') (page_no 0x12345678) = Some (0x12345, true, false).
Proof.
  destruct (identity_map sample_tables 1 2 16 sample_tables_ok) as (st' & E & _ & H).
  exists st'. split; [exact E|]. rewrite H; [reflexivity|].
  unfold kPageDirectoryCount, kPageSize1G, kPageSize2M, kPageSize4K. lia.
Defined.
