(* ===== verification/PageFault.v ===== *)
(** * Page faults: demand paging and copy on write (kernel/paging.cpp)

    [HandlePageFault] on well-formed tables: a missing page of the demand
    paging range is mapped, a write to a read-only page gets a private copy. *)

From S2P Require Import Prelude FrameBitmap Paging.
From stdpp Require Import base list numbers option gmap.
From Stdlib Require Import ZArith Lia.

Local Open Scope Z_scope.

Section fault.
Context {A : Type} `{!FrameAllocator A}.
Implicit Types (st : @Machine A) (ow : gmap Z (nat * Z)).

(** A page [c] that may be put under an entry of the last level. *)
Record data_page st ow (c : Z) : Prop := {
  dp_range : 0 <= c < frame_limit;
  dp_free : ow !! c = None;
  dp_used : fa_used (memory_manager st) c = true;
  dp_mem : is_Some (mem st !! c);
}.

Lemma content_entry e c : 0 <= c < 2 ^ 40 ->
  let e' := set_writable true (SetPointer e (c * 2 ^ 12)) in
  present e' = present e /\ user e' = user e /\ writable e' = true /\ entry_frame e' = c.
Proof.
  intros Hc. cbn zeta. unfold set_writable, present, user, writable. split_and!.
  - by rewrite put_bit_high, SetPointer_low by lia.
  - by rewrite put_bit_high, SetPointer_low by lia.
  - by apply put_bit_same.
  - rewrite put_bit_frame by lia. by apply SetPointer_frame.
Qed.

Lemma SetPageContent_leaf st ow f p addr c e :
  let x := page_no addr in
  pt_ok st ow -> ow !! f = Some (1%nat, p) -> covers 1 p x -> data_page st ow c ->
  load st (f * 2 ^ 12) (idx 1 x) = Some e -> present e = true ->
  exists st', SetPageContent 1 (f * 2 ^ 12) addr (c * 2 ^ 12) st = Some (st', kSuccess) /\
    grows st ow st' ow x (x + 1) /\ translate st' 1 (f * 2 ^ 12) x = Some (c, true, user e) /\
    mem st' !! c = mem st !! c /\ memory_manager st' = memory_manager st.
Proof.
  cbn zeta. set (x := page_no addr). intros H Hf Hc Hd He Hp. cbn [SetPageContent].
  assert (Part addr 1 = idx 1 x) as -> by (by apply Part_page_no; lia).
  destruct (load_entry st ow f 1 p x H Hf Hc) as (pg & e' & Hm & Hl & _ & He' & _).
  destruct (content_entry e c (frame_limit_40 _ (dp_range _ _ _ Hd))) as (C1 & C2 & C3 & C4).
  rewrite (update_store _ _ _ _ _ He).
  destruct (store_stored st f (idx 1 x) (set_writable true (SetPointer e (c * 2 ^ 12))) pg Hm Hl (idx_range _ _))
    as (st' & -> & Hs). cbn [mbind option_bind]. exists st'. split; [done|].
  split; [|split; [|split; [|apply Hs]]].
  - eapply grows_store; [done..|]. unfold entry_ok. rewrite C1, Hp, C4.
    split_and!; [apply Hd|apply Hd|apply Hd|by destruct (dp_range _ _ _ Hd)].
  - rewrite (translate_leaf _ _ _ (set_writable true (SetPointer e (c * 2 ^ 12)))).
    + by rewrite C1, Hp, C2, C3, C4.
    + rewrite (sd_load _ _ _ _ _ Hs). by rewrite decide_True.
  - apply (sd_mem _ _ _ _ _ Hs). intros ->. by rewrite (dp_free _ _ _ Hd) in Hf.
Qed.

Lemma SetPageContent_spec L : forall st ow f p addr c fr w u,
  let x := page_no addr in (L <= 4)%nat ->
  pt_ok st ow -> ow !! f = Some (L, p) -> covers L p x -> data_page st ow c ->
  translate st L (f * 2 ^ 12) x = Some (fr, w, u) ->
  exists st', SetPageContent L (f * 2 ^ 12) addr (c * 2 ^ 12) st = Some (st', kSuccess) /\
    grows st ow st' ow x (x + 1) /\ translate st' L (f * 2 ^ 12) x = Some (c, true, u) /\
    mem st' !! c = mem st !! c /\ memory_manager st' = memory_manager st.
Proof.
  induction L as [|l IH]; intros st ow f p addr c fr w u; cbn zeta; set (x := page_no addr);
    intros HL H Hf Hc Hd Ht; [done|].
  destruct (load_entry st ow f (S l) p x H Hf Hc) as (pg & e & _ & _ & _ & He & Hok).
  destruct (present e) eqn:Hp; [|by rewrite (translate_absent _ _ _ _ _ He Hp) in Ht].
  destruct l as [|l].
  - rewrite (translate_leaf _ _ _ _ He), Hp in Ht. injection Ht as <- <- <-.
    by apply (SetPageContent_leaf st ow f p addr c e).
  - destruct (translate_child st ow (S l) p x f e H ltac:(lia) Hf Hc He Hp) as [Hoc Et]. rewrite Et in Ht.
    assert (Hcc : covers (S l) (x / pw (S l)) x) by (split; [done|apply Hc]).
    destruct (IH st ow (entry_frame e) (x / pw (S l)) addr c fr w u ltac:(lia) H Hoc Hcc Hd Ht)
      as (st' & E & G & Ht' & Hm & Hmm). fold x in G, Ht'.
    exists st'. split; [|split; [done|split; [|done]]].
    + cbn [SetPageContent]. assert (Part addr (S (S l)) = idx (S (S l)) x) as -> by (apply Part_page_no; lia).
      rewrite He; cbn [mbind option_bind]. exact E.
    + pose proof (gr_upper _ _ _ _ _ _ G f l p x e Hf Hc He Hp) as He'.
      by destruct (translate_child st' ow (S l) p x f e (gr_ok _ _ _ _ _ _ G) ltac:(lia) Hf Hc He' Hp) as [_ ->].
Qed.

(** A translated page of a well-formed table lies on a data page. *)
Lemma translate_data L : forall st ow f p x fr w u,
  pt_ok st ow -> ow !! f = Some (L, p) -> covers L p x ->
  translate st L (f * 2 ^ 12) x = Some (fr, w, u) -> data_page st ow fr.
Proof.
  induction L as [|l IH]; intros st ow f p x fr w u H Hf Hc Ht; [done|].
  destruct (load_entry st ow f (S l) p x H Hf Hc) as (pg & e & _ & _ & _ & He & Hok).
  destruct (present e) eqn:Hp; [|by rewrite (translate_absent _ _ _ _ _ He Hp) in Ht].
  destruct l as [|l].
  - rewrite (translate_leaf _ _ _ _ He), Hp in Ht. injection Ht as <- <- <-.
    unfold entry_ok in Hok. rewrite Hp in Hok. destruct Hok as (? & ? & ? & ?).
    split; [|done..]. pose proof (entry_frame_range e). lia.
  - destruct (translate_child st ow (S l) p x f e H ltac:(lia) Hf Hc He Hp) as [Hoc Et]. rewrite Et in Ht.
    eapply IH; [done|exact Hoc| |exact Ht]. split; [done|apply Hc].
Qed.

(** ** Copy on write *)

Lemma CopyOnePage_spec st ow root addr fr w u :
  let x := page_no addr in
  pt_ok st ow -> CR3 st = root * 2 ^ 12 -> ow !! root = Some (4%nat, 0) -> upper x ->
  translate st 4 (CR3 st) x = Some (fr, w, u) ->
  exists st' err, CopyOnePage addr st = Some (st', err) /\
    ((err = kNoEnoughMemory /\ st' = st /\ exhausted (memory_manager st)) \/
     (err = kSuccess /\ grows st ow st' ow x (x + 1) /\ exists c,
        translate st' 4 (CR3 st') x = Some (c, true, u) /\
        fa_used (memory_manager st) c = false /\ fa_used (memory_manager st') c = true /\
        mem st' !! c = mem st !! fr)).
Proof.
  cbn zeta. set (x := page_no addr). intros H Hcr Hr Hu Ht. unfold CopyOnePage.
  destruct (NewPageMap_spec st (po_manager _ _ H)) as (st1 & ptr & err & -> & [(-> & c & -> & Hn)|(-> & -> & Hex)]);
    cbn [mbind option_bind].
  2: { exists st, kNoEnoughMemory. split; [done|by left]. }
  change (is_error kSuccess) with false. cbn iota.
  assert (G1 : grows st ow st1 ow 0 0).
  { assert (Hnone : forall (M : nat) (q : Z), None = Some (M, q) -> (1 <= M <= 4)%nat) by done.
    pose proof (grows_new_page st ow c st1 None 0 0 H Hn Hnone) as G.
    replace (partial_alter (fun _ => None) c ow) with ow in G; [done|].
    symmetry. exact (delete_id ow c (fresh_not_table _ _ _ _ H Hn)). }
  rewrite Hcr in Ht. rewrite (np_cr3 _ _ _ Hn), Hcr.
  assert (Ht1 : translate st1 4 (root * 2 ^ 12) x = Some (fr, w, u)).
  { rewrite <- Ht. apply (gr_same _ _ _ _ _ _ G1 root 4 0); [done|by apply covers_root|lia]. }
  fold x. rewrite Ht1; cbn [mbind option_bind].
  destruct (translate_data 4 st ow root 0 x fr w u H Hr (covers_root _ Hu) Ht) as [Hfr Hfro Hfru [pg Hpg]].
  destruct (gr_data _ _ _ _ _ _ G1 fr ltac:(lia) Hfru Hfro) as [_ Hpg1]. rewrite Hpg in Hpg1.
  rewrite Hpg1; cbn [mbind option_bind]. pose proof (fresh_not_table _ _ _ _ H Hn) as Hnt.
  rewrite frame_of_mul. set (st2 := set_mem (<[c := pg]> (mem st1)) st1).
  destruct (data_write_ok st1 ow c pg (gr_ok _ _ _ _ _ _ G1) Hnt) as [Hok2 Ht2]. fold st2 in Hok2, Ht2.
  assert (Hd : data_page st2 ow c).
  { split; [apply Hn|done| |cbn; rewrite lookup_insert_eq; by eexists].
    cbn. rewrite (np_used _ _ _ Hn), decide_True by (done || apply Hn). done. }
  assert (Hcr2 : CR3 st2 = root * 2 ^ 12) by (cbn; rewrite (np_cr3 _ _ _ Hn); done).
  rewrite Hcr2. rewrite <- (Ht2 root 4%nat 0 x Hr (covers_root _ Hu)) in Ht1.
  destruct (SetPageContent_spec 4 st2 ow root 0 addr c fr w u ltac:(lia) Hok2 Hr (covers_root _ Hu) Hd Ht1)
    as (st' & E & G3 & Ht' & Hm & Hmm). fold x in G3, Ht'.
  exists st', kSuccess. split; [exact E|]. right. split; [done|].
  assert (G2 : grows st ow st2 ow 0 0).
  { split; [exact Hok2|done|exact (gr_cr3 _ _ _ _ _ _ G1)|exact (gr_used _ _ _ _ _ _ G1)| | |].
    - intros f Hf Hfu Hfo. destruct (gr_data _ _ _ _ _ _ G1 f Hf Hfu Hfo) as [? Hmf]. split; [done|].
      cbn. rewrite lookup_insert_ne; [done|]. intros ->. by rewrite (np_fresh _ _ _ Hn) in Hfu.
    - intros g M q y Hg Hcy Hy. rewrite (Ht2 g M q y Hg Hcy). by apply (gr_same _ _ _ _ _ _ G1 g M q).
    - intros g M q y e Hg Hcy Hl Hp. pose proof (gr_upper _ _ _ _ _ _ G1 g M q y e Hg Hcy Hl Hp) as Hl1.
      rewrite <- Hl1, !load_mul. cbn. rewrite lookup_insert_ne; [done|]. intros ->. congruence. }
  split.
  - eapply (grows_trans st ow st2 ow st' ow x x (x + 1)); [lia| |done]. eapply grows_widen; [|exact G2]. lia.
  - exists c. rewrite (gr_cr3 _ _ _ _ _ _ G3), Hcr2. split_and!; [done|apply Hn| |].
    + rewrite Hmm. apply Hd.
    + rewrite Hm, Hpg. cbn. apply lookup_insert_eq.
Qed.

(** What a fault at page [x] of the machine [st] with flags [rw] and [us] leads
    to, the demand paging range around [addr] being known. *)
Definition fault_result (rw us demand : bool) (x : Z) (st st' : Machine) (err : Code) : Prop :=
  match translate st 4 (CR3 st) x with
  | Some (fr, w, u) =>
      if rw && us then
        (err = kNoEnoughMemory /\ st' = st /\ exhausted (memory_manager st)) \/
        (err = kSuccess /\ exists c, translate st' 4 (CR3 st') x = Some (c, true, u) /\
           fa_used (memory_manager st) c = false /\ mem st' !! c = mem st !! fr)
      else err = kAlreadyAllocated /\ st' = st
  | None =>
      if demand then
        ran_out st' err \/
        (err = kSuccess /\ exists c, translate st' 4 (CR3 st') x = Some (c, true, true) /\
           fa_used (memory_manager st) c = false /\ mem st' !! c = Some (replicate 512 0))
      else err = kIndexOutOfRange /\ st' = st
  end.

(** C10. [HandlePageFault] treats each fault at an address of the application's
    half as it should. A write by the application to a present page gives it a
    private, writable copy on a frame that was free, with the contents of the
    page; nothing changes when every managed frame is taken. Another access to
    a present page is [kAlreadyAllocated]. A missing page inside the demand
    paging range is mapped writable, on a zeroed frame that was free; the only
    error is that every managed frame has been taken. A missing page outside is
    [kIndexOutOfRange]. In every case the tables stay well formed, all other
    pages translate as before and every data page keeps its contents, the page
    copied from included. Of a fault at a kernel address nothing is said: the
    code does not tell it from one of the application and for a write
    overwrites kernel memory (kernel/paging.cpp:215). *)
Theorem HandlePageFault_correct st ow root begin end_ code addr :
  pt_ok st ow -> CR3 st = root * 2 ^ 12 -> ow !! root = Some (4%nat, 0) -> upper (page_no addr) ->
  (* bit 0 of the error code tells whether the page is present *)
  Z.testbit code 0 = bool_decide (is_Some (translate st 4 (CR3 st) (page_no addr))) ->
  exists st' err ow', HandlePageFault begin end_ code addr st = Some (st', err) /\
    pt_ok st' ow' /\ CR3 st' = CR3 st /\
    (forall y, upper y -> y <> page_no addr -> translate st' 4 (CR3 st') y = translate st 4 (CR3 st) y) /\
    (forall f, 0 <= f -> fa_used (memory_manager st) f = true -> ow !! f = None -> mem st' !! f = mem st !! f) /\
    fault_result (Z.testbit code 1) (Z.testbit code 2) (bool_decide (begin <= addr < end_)) (page_no addr) st st' err.
Proof.
  set (x := page_no addr). intros H Hcr Hr Hu Hpres. unfold HandlePageFault, fault_result. rewrite Hpres.
  destruct (translate st 4 (CR3 st) x) as [[[fr w] u]|] eqn:Ht.
  - rewrite bool_decide_true by (by eexists). cbn [andb].
    destruct (Z.testbit code 1 && Z.testbit code 2); [|exists st, kAlreadyAllocated, ow; by split_and!].
    destruct (CopyOnePage_spec st ow root addr fr w u H Hcr Hr Hu Ht) as (st' & err & E & Hcase).
    exists st', err, ow. split; [done|]. destruct Hcase as [(-> & -> & Hex)|(-> & G & c & Hc1 & Hc2 & Hc3 & Hc4)].
    { split_and!; try done. by left. }
    split; [apply G|]. split; [apply G|]. split_and!.
    + intros y Hy Hne. rewrite (gr_cr3 _ _ _ _ _ _ G), Hcr.
      apply (gr_same _ _ _ _ _ _ G root 4 0); [done|by apply covers_root|fold x; lia].
    + intros f Hf Hfu Hfo. by apply (gr_data _ _ _ _ _ _ G).
    + right. split; [done|]. by exists c.
  - rewrite (bool_decide_false (is_Some None)) by (intros [? ?]; done). cbn [andb].
    destruct (decide (begin <= addr /\ addr < end_)) as [Hin|Hin];
      [rewrite bool_decide_true by done|rewrite bool_decide_false by done; exists st, kIndexOutOfRange, ow; by split_and!].
    destruct (SetupPageMap_spec true 4 ltac:(lia) root 0 addr 1 st ow ltac:(lia) H Hr (covers_root _ Hu) ltac:(lia))
      as ([st' [rem err]] & E & ow' & Hpost). fold x in Hpost.
    unfold SetupPageMaps. rewrite Hcr, E. cbn [mbind option_bind].
    assert (Hone : covered 4 x 1 = 1).
    { pose proof (covered_root x 1 Hu). destruct Hu. lia. }
    rewrite Hone in Hpost.
    assert (G : grows st ow st' ow' x (x + 1)) by (destruct Hpost as [(_ & _ & [G _ _])|(_ & G & _)]; exact G).
    exists st', err, ow'. split; [done|]. split; [apply G|]. split; [by rewrite (gr_cr3 _ _ _ _ _ _ G)|]. split_and!.
    + intros y Hy Hne. rewrite (gr_cr3 _ _ _ _ _ _ G), Hcr.
      apply (gr_same _ _ _ _ _ _ G root 4 0); [done|by apply covers_root|lia].
    + intros f Hf Hfu Hfo. by apply (gr_data _ _ _ _ _ _ G).
    + destruct Hpost as [(-> & _ & Hm)|(-> & _ & Hex)]; [right|by left]. split; [done|].
      destruct (mr_mapped _ _ _ _ _ _ _ _ _ Hm x ltac:(lia)) as (c & Htc & _ & _ & _ & Hfresh).
      rewrite Hcr in Ht. rewrite Ht in Hfresh. destruct Hfresh. exists c.
      rewrite (gr_cr3 _ _ _ _ _ _ G), Hcr. by split_and!.
Qed.
End fault.

(** ** Witness *)

(** A write to the first page of the demand paging range, not present yet. *)
Lemma HandlePageFault_correct_witness :
  exists m st' err, allocated m 1 = true /\
    HandlePageFault 0xffff800000000000 0xffff800000001000 6 0xffff800000000010 (machine_with_root m) =
      Some (st', err) /\ (err = kNoEnoughMemory \/ err = kSuccess).
Proof.
  destruct (MarkAllocated_spec NewManager 1 1 NewManager_ok) as (m & _ & [Hok Hb _ Hbits]);
    [lia|lia|by vm_compute|].
  assert (Ha : allocated m 1 = true) by (rewrite Hbits by lia; rewrite decide_True by lia; reflexivity).
  assert (Hb' : range_begin m <= kFrameCount).
  { rewrite Hb. assert (range_begin NewManager = 0) as -> by reflexivity. by vm_compute. }
  assert (Hn : translate (machine_with_root m) 4 (1 * 2 ^ 12) (page_no 0xffff800000000010) = None).
  { rewrite (translate_absent _ _ _ _ 0); reflexivity. }
  destruct (HandlePageFault_correct (machine_with_root m) root_owner 1 0xffff800000000000 0xffff800000001000
    6 0xffff800000000010) as (st' & err & ow' & E & _ & _ & _ & _ & Hres).
  - apply machine_with_root_ok; assumption.
  - reflexivity.
  - reflexivity.
  - vm_compute. split; congruence.
  - change (CR3 (machine_with_root m)) with (1 * 2 ^ 12). rewrite Hn. reflexivity.
  - exists m, st', err. split; [exact Ha|]. split; [exact E|].
    unfold fault_result in Hres. change (CR3 (machine_with_root m)) with (1 * 2 ^ 12) in Hres. rewrite Hn in Hres.
    assert (bool_decide (0xffff800000000000 <= 0xffff800000000010 < 0xffff800000001000) = true) as Hin by reflexivity.
    rewrite Hin in Hres. destruct Hres as [[He _]|[He _]]; [left|right]; exact He.
Defined.
