(* ===== verification/PageClean.v ===== *)
(** * Tearing an address space down (kernel/paging.cpp, CleanPageMaps)

    The tables are read, their frames and the writable pages freed, and the
    entries zeroed; the proofs follow the shape of the tables only, because
    the frames of the tables are freed on the way. *)

From S2P Require Import Prelude FrameBitmap Paging.
From stdpp Require Import base list numbers option gmap.
From Stdlib Require Import ZArith Lia.

Local Open Scope Z_scope.

Section clean.
Context {A : Type} `{!FrameAllocator A}.
Implicit Types (st : @Machine A) (ow : gmap Z (nat * Z)).

(** The frames of the tables the walk of [x] visits below [table]. *)
Fixpoint tables_on st (L : nat) (table x : Z) : list Z :=
  match L with
  | O => []
  | S l =>
      match load st table (idx (S l) x) with
      | Some e => if present e && bool_decide (0 < l)%nat
                  then entry_frame e :: tables_on st l (Pointer e) x else []
      | None => []
      end
  end.

(** The frames that belong to the pages [lo .. hi): the tables below [f], and
    the pages that are writable. *)
Definition belongs st (L : nat) (f lo hi h : Z) : Prop :=
  exists x, lo <= x < hi /\
    (h ∈ tables_on st L (f * 2 ^ 12) x \/ exists u, translate st L (f * 2 ^ 12) x = Some (h, true, u)).

(** The tables of level at most [L] agree as far as [x] goes. *)
Definition agree st st' ow (L : nat) (x : Z) : Prop :=
  forall g M q, ow !! g = Some (M, q) -> covers M q x -> (M <= L)%nat ->
    load st' (g * 2 ^ 12) (idx M x) = load st (g * 2 ^ 12) (idx M x).

Lemma tables_on_agree st st' ow L : forall f p x,
  pt_shape st ow -> ow !! f = Some (L, p) -> covers L p x -> agree st st' ow L x ->
  tables_on st' L (f * 2 ^ 12) x = tables_on st L (f * 2 ^ 12) x.
Proof.
  induction L as [|l IH]; intros f p x H Hf Hc Hag; [done|].
  destruct (load_shape st ow f (S l) p x H Hf Hc) as (pg & e & _ & _ & Hl & He).
  cbn [tables_on]. rewrite (Hag f (S l) p Hf Hc) by lia. rewrite Hl.
  destruct (present e) eqn:Hp; [|done]. destruct l as [|l]; [done|]. cbn [andb].
  rewrite bool_decide_true by lia. f_equal. unfold Pointer.
  destruct (translate_child st ow (S l) p x f e H ltac:(lia) Hf Hc Hl Hp) as [Ho _].
  apply (IH _ (x / pw (S l))); [done|done|split; [done|apply Hc]|].
  intros g M q Hg Hcg HM. apply (Hag g M q); [done|done|lia].
Qed.

Lemma belongs_agree st st' ow L f p lo hi h :
  pt_shape st ow -> ow !! f = Some (L, p) -> (forall x, lo <= x < hi -> covers L p x) ->
  (forall x, lo <= x < hi -> agree st st' ow L x) ->
  belongs st' L f lo hi h <-> belongs st L f lo hi h.
Proof.
  intros H Hf Hc Hag. unfold belongs.
  assert (Hx : forall x, lo <= x < hi -> tables_on st' L (f * 2 ^ 12) x = tables_on st L (f * 2 ^ 12) x /\
    translate st' L (f * 2 ^ 12) x = translate st L (f * 2 ^ 12) x).
  { intros x Hx. split; [by eapply tables_on_agree; eauto|]. eapply translate_agree; eauto.
    intros g M q Hg Hcg HM. left. by apply (Hag x Hx g M q). }
  split; intros (x & Hx' & Hh); exists x; (split; [done|]); destruct (Hx x Hx') as [E1 E2];
    rewrite E1, E2 in *; done.
Qed.

(** What the cleaning of the pages [lo .. hi) below the table [f] leaves. *)
Record clean_post st ow (L : nat) (f lo hi : Z) st' : Prop := {
  cl_shape : pt_shape st' ow;
  cl_ok : fa_ok (memory_manager st');
  cl_cr3 : CR3 st' = CR3 st;
  cl_freed : forall h, 0 <= h -> belongs st L f lo hi h -> fa_used (memory_manager st') h = false;
  cl_kept : forall h, 0 <= h -> ~ belongs st L f lo hi h ->
    fa_used (memory_manager st') h = fa_used (memory_manager st) h;
  cl_load : forall g M q w, ow !! g = Some (M, q) -> covers M q w -> ~ lo <= w < hi \/ (L < M)%nat ->
    load st' (g * 2 ^ 12) (idx M w) = load st (g * 2 ^ 12) (idx M w);
  cl_low : forall g j, ow !! g = Some (4%nat, 0) -> 0 <= j < 256 ->
    load st' (g * 2 ^ 12) j = load st (g * 2 ^ 12) j;
  cl_zero : forall x, lo <= x < hi -> load st' (f * 2 ^ 12) (idx L x) = Some 0;
  cl_mem : forall h, ow !! h = None -> mem st' !! h = mem st !! h;
}.

Lemma clean_nil st ow L f lo :
  pt_shape st ow -> fa_ok (memory_manager st) -> clean_post st ow L f lo lo st.
Proof. intros H Ho. split; try done; [|intros; lia]. intros h _ (x & ? & _). lia. Qed.

Lemma clean_app st ow L f p lo mid hi st1 st2 :
  pt_shape st ow -> ow !! f = Some (L, p) -> lo <= mid <= hi -> (forall x, lo <= x < hi -> covers L p x) ->
  clean_post st ow L f lo mid st1 -> clean_post st1 ow L f mid hi st2 ->
  clean_post st ow L f lo hi st2.
Proof.
  intros H Hf Hle Hc [S1 O1 C1 F1 K1 L1 W1 Z1 M1] [S2 O2 C2 F2 K2 L2 W2 Z2 M2].
  assert (Hb : forall h, belongs st1 L f mid hi h <-> belongs st L f mid hi h).
  { intros h. eapply belongs_agree; [done|done|intros x ?; apply Hc; lia|].
    intros x Hx g M q Hg Hcg HM. apply (L1 g M q); [done..|]. left. lia. }
  assert (Hsplit : forall h, belongs st L f lo hi h <-> belongs st L f lo mid h \/ belongs st L f mid hi h).
  { intros h. split.
    - intros (x & Hx & Hh). destruct (decide (x < mid)); [left|right]; exists x; (split; [lia|done]).
    - intros [(x & Hx & Hh)|(x & Hx & Hh)]; exists x; (split; [lia|done]). }
  split; try done.
  - congruence.
  - intros h Hh [Hb1|Hb2%Hb]%Hsplit; [|by apply F2].
    destruct (fa_used (memory_manager st2) h) eqn:E; [|done].
    rewrite <- E, K2; [by apply F1|done|]. intros Hb2. rewrite F2 in E by done. done.
  - intros h Hh Hn. rewrite K2, K1; [done|done| |done|].
    + intros Hb1. apply Hn, Hsplit. by left.
    + intros Hb2%Hb. apply Hn, Hsplit. by right.
  - intros g M q w Hg Hcg Hout. rewrite (L2 g M q w), (L1 g M q w); try done;
      destruct Hout; [left; lia|by right|left; lia|by right].
  - intros g j Hg Hj. by rewrite W2, W1.
  - intros x Hx. destruct (decide (x < mid)); [|apply Z2; lia].
    rewrite (L2 f L p x Hf); [apply Z1; lia|apply Hc; lia|left; lia].
  - intros h Hh. by rewrite M2, M1.
Qed.

(** The block of page numbers an entry covers. *)
Lemma block_idx l p i x :
  0 <= i < 512 -> (p * 512 + i) * pw l <= x < (p * 512 + i + 1) * pw l ->
  x / pw l = p * 512 + i /\ x / pw (S l) = p /\ idx (S l) x = i.
Proof.
  intros Hi Hx. pose proof (pw_pos l).
  assert (E : x / pw l = p * 512 + i).
  { symmetry. apply (Z.div_unique x (pw l) (p * 512 + i) (x - pw l * (p * 512 + i))); lia. }
  split; [done|]. rewrite pw_S, Z.mul_comm, <- Z.div_div by lia. unfold idx. cbn [pred]. rewrite E. split.
  - symmetry. apply (Z.div_unique _ 512 p i); lia.
  - symmetry. apply (Z.mod_unique _ 512 p i); lia.
Qed.

(** Zeroing the entry of a block whose tables below were cleaned. *)
Lemma clean_zero_entry st ow l f p i st' st1 :
  let lo := (p * 512 + i) * pw l in let hi := (p * 512 + i + 1) * pw l in
  pt_shape st' ow -> fa_ok (memory_manager st') -> ow !! f = Some (S l, p) -> 0 <= i < 512 ->
  (forall x, lo <= x < hi -> upper x) ->
  CR3 st' = CR3 st ->
  (forall h, 0 <= h -> belongs st (S l) f lo hi h -> fa_used (memory_manager st') h = false) ->
  (forall h, 0 <= h -> ~ belongs st (S l) f lo hi h -> fa_used (memory_manager st') h = fa_used (memory_manager st) h) ->
  (forall g M q w, ow !! g = Some (M, q) -> covers M q w -> ~ lo <= w < hi \/ (l < M)%nat ->
    load st' (g * 2 ^ 12) (idx M w) = load st (g * 2 ^ 12) (idx M w)) ->
  (forall g j, ow !! g = Some (4%nat, 0) -> 0 <= j < 256 -> load st' (g * 2 ^ 12) j = load st (g * 2 ^ 12) j) ->
  (forall h, ow !! h = None -> mem st' !! h = mem st !! h) ->
  store st' (f * 2 ^ 12) i 0 = Some st1 -> clean_post st ow (S l) f lo hi st1.
Proof.
  cbn zeta. intros Hs Ho Hf Hi Hup Hcr Hfr Hk Hl Hlow Hm Est.
  destruct (ps_table _ _ Hs _ _ _ Hf) as (HL & Hrf & pg & Hpg & Hlen).
  destruct (store_stored st' f i 0 pg Hpg Hlen Hi) as (st1' & E & Hsd). assert (st1' = st1) as -> by congruence.
  pose proof (pw_pos l). set (x0 := (p * 512 + i) * pw l).
  destruct (block_idx l p i x0 Hi ltac:(unfold x0; lia)) as (_ & Hx0 & Hi0).
  assert (Hidx : forall q w, ow !! f = Some (S l, q) -> covers (S l) q w -> idx (S l) w = i ->
    x0 <= w < (p * 512 + i + 1) * pw l).
  { intros q w Hq [Hcw Hu] Hw. assert (q = p) as -> by congruence.
    unfold idx in Hw. cbn [pred] in Hw. rewrite pw_S, Z.mul_comm, <- Z.div_div in Hcw by lia.
    assert (w / pw l = p * 512 + i) as Hd by (rewrite (Z.div_mod (w / pw l) 512) by lia; lia).
    pose proof (Z.div_mod w (pw l)). pose proof (Z.mod_pos_bound w (pw l)). unfold x0. nia. }
  split.
  - split.
    + intros g M q Hg. destruct (ps_table _ _ Hs _ _ _ Hg) as (? & ? & pg' & ? & ?). split_and!; try done; try lia.
      destruct (decide (g = f)) as [->|]; [apply Hsd|]. rewrite (sd_mem _ _ _ _ _ Hsd) by done. by eexists.
    + intros g M q w e Hg Hcw. rewrite (sd_load _ _ _ _ _ Hsd). case_decide; [intros [= <-]; done|].
      by eapply ps_entry.
  - by rewrite (sd_manager _ _ _ _ _ Hsd).
  - by rewrite (sd_cr3 _ _ _ _ _ Hsd).
  - intros h ? ?. rewrite (sd_manager _ _ _ _ _ Hsd). by apply Hfr.
  - intros h ? ?. rewrite (sd_manager _ _ _ _ _ Hsd). by apply Hk.
  - intros g M q w Hg Hcw Hout. rewrite (sd_load _ _ _ _ _ Hsd), decide_False.
    + apply (Hl g M q w); [done..|]. destruct Hout; [by left|right; lia].
    + intros [-> Hiw]. assert (M = S l) as -> by congruence.
      destruct Hout as [Hout|]; [|lia]. apply Hout. by eapply Hidx.
  - intros g j Hg Hj. rewrite (sd_load _ _ _ _ _ Hsd), decide_False; [by apply Hlow|].
    intros [-> ->]. assert (l = 3%nat /\ p = 0) as [-> ->] by (split; congruence).
    destruct (Hup x0 ltac:(lia)) as [Hu _]. unfold x0, pw in Hu. cbn in Hu. lia.
  - intros x Hx. rewrite (sd_load _ _ _ _ _ Hsd), decide_True; [done|]. split; [done|].
    by destruct (block_idx l p i x Hi Hx) as (_ & _ & ?).
  - intros h Hh. rewrite (sd_mem _ _ _ _ _ Hsd) by congruence. by apply Hm.
Qed.

(** What belongs to a block of a table, by its entry. *)
Lemma belongs_absent st l f p i h :
  (forall x, (p * 512 + i) * pw l <= x < (p * 512 + i + 1) * pw l ->
     exists e, load st (f * 2 ^ 12) (idx (S l) x) = Some e /\ present e = false) ->
  ~ belongs st (S l) f ((p * 512 + i) * pw l) ((p * 512 + i + 1) * pw l) h.
Proof.
  intros He (x & Hx & Hh). destruct (He x Hx) as (e & Hl & Hp). cbn [tables_on] in Hh.
  rewrite Hl, Hp, (translate_absent _ _ _ _ _ Hl Hp) in Hh. cbn [andb] in Hh.
  destruct Hh as [Hh|[? ?]]; [inversion Hh|done].
Qed.

Lemma belongs_leaf st f p i e h :
  0 <= i < 512 -> load st (f * 2 ^ 12) i = Some e -> present e = true ->
  belongs st 1 f ((p * 512 + i) * pw 0) ((p * 512 + i + 1) * pw 0) h <-> writable e = true /\ h = entry_frame e.
Proof.
  intros Hi Hl Hp.
  assert (Hx : forall x, (p * 512 + i) * pw 0 <= x < (p * 512 + i + 1) * pw 0 ->
    tables_on st 1 (f * 2 ^ 12) x = [] /\
    translate st 1 (f * 2 ^ 12) x = Some (entry_frame e, writable e, user e)).
  { intros x Hx. destruct (block_idx 0 p i x Hi Hx) as (_ & _ & Hix).
    cbn [tables_on]. rewrite (translate_leaf st f x e) by (by rewrite Hix). rewrite Hix, Hl, Hp. done. }
  split.
  - intros (x & Hxr & Hh). destruct (Hx x Hxr) as [E1 E2]. rewrite E1, E2 in Hh.
    destruct Hh as [Hh|[u Hh]]; [inversion Hh|]. injection Hh as <- -> _. done.
  - intros [Hw ->]. exists ((p * 512 + i) * pw 0). split; [rewrite pw_0; lia|].
    destruct (Hx ((p * 512 + i) * pw 0) ltac:(rewrite pw_0; lia)) as [_ ->]. right. rewrite Hw. by eexists.
Qed.

Lemma belongs_child st ow l f p i e h :
  let lo := (p * 512 + i) * pw (S l) in let hi := (p * 512 + i + 1) * pw (S l) in
  pt_shape st ow -> ow !! f = Some (S (S l), p) -> 0 <= i < 512 -> (forall x, lo <= x < hi -> upper x) ->
  load st (f * 2 ^ 12) i = Some e -> present e = true ->
  belongs st (S (S l)) f lo hi h <-> h = entry_frame e \/ belongs st (S l) (entry_frame e) lo hi h.
Proof.
  cbn zeta. intros Hs Hf Hi Hup Hl Hp. pose proof (pw_pos (S l)).
  set (lo := (p * 512 + i) * pw (S l)) in *.
  assert (Hx : forall x, lo <= x < (p * 512 + i + 1) * pw (S l) ->
    tables_on st (S (S l)) (f * 2 ^ 12) x = entry_frame e :: tables_on st (S l) (entry_frame e * 2 ^ 12) x /\
    translate st (S (S l)) (f * 2 ^ 12) x = translate st (S l) (entry_frame e * 2 ^ 12) x).
  { intros x Hx. destruct (block_idx (S l) p i x Hi Hx) as (_ & Hp' & Hix). split.
    - cbn [tables_on]. rewrite Hix, Hl, Hp. done.
    - destruct (translate_child st ow (S l) p x f e Hs) as [_ ?]; [lia|done|split; auto| |done|done].
      by rewrite Hix. }
  split.
  - intros (x & Hxr & Hh). destruct (Hx x Hxr) as [E1 E2]. rewrite E1, E2 in Hh.
    destruct Hh as [[->|Hh]%elem_of_cons|Hh]; [by left|right..]; exists x; auto.
  - intros [->|(x & Hxr & Hh)].
    + exists lo. split; [unfold lo; lia|]. destruct (Hx lo ltac:(unfold lo; lia)) as [-> _]. left. by left.
    + exists x. split; [done|]. destruct (Hx x Hxr) as [-> ->]. rewrite elem_of_cons. tauto.
Qed.

Lemma FreePageMap_spec f st :
  fa_ok (memory_manager st) -> 0 <= f < frame_limit ->
  exists a, FreePageMap (f * 2 ^ 12) st = Some (set_manager a st, kSuccess) /\ fa_ok a /\
    forall g, 0 <= g -> fa_used a g = if decide (g = f) then false else fa_used (memory_manager st) g.
Proof.
  intros Ho Hf. unfold FreePageMap. rewrite frame_of_mul.
  destruct (fa_free_spec _ f Ho Hf) as (a & -> & Hoa & _ & Hu). exists a. done.
Qed.

Lemma set_manager_shape a st ow : pt_shape st ow -> pt_shape (set_manager a st) ow.
Proof. intros [Ht He]. by split. Qed.

Section loop.
Context (l : nat) (descend : Z -> @Machine A -> option (@Machine A * Code)).
Context (Hdescend : (0 < l)%nat -> forall c p st ow, pt_shape st ow -> fa_ok (memory_manager st) ->
  ow !! c = Some (l, p) -> (forall x, p * pw l <= x < (p + 1) * pw l -> upper x) ->
  exists st', descend (c * 2 ^ 12) st = Some (st', kSuccess) /\ clean_post st ow l c (p * pw l) ((p + 1) * pw l) st').

(** One turn of the loop on a present entry. *)
Lemma clean_turn st ow f p i e :
  let lo := (p * 512 + i) * pw l in let hi := (p * 512 + i + 1) * pw l in
  pt_shape st ow -> fa_ok (memory_manager st) -> ow !! f = Some (S l, p) -> 0 <= i < 512 ->
  (forall x, lo <= x < hi -> upper x) -> load st (f * 2 ^ 12) i = Some e -> present e = true ->
  exists st1 st2 st3,
    match l with O => Some (st, kSuccess) | S _ => descend (Pointer e) st end = Some (st1, kSuccess) /\
    (if writable e then FreePageMap (Pointer e) st1 else Some (st1, kSuccess)) = Some (st2, kSuccess) /\
    store st2 (f * 2 ^ 12) i 0 = Some st3 /\ clean_post st ow (S l) f lo hi st3.
Proof using Hdescend.
  cbn zeta. intros Hs Ho Hf Hi Hup Hl Hp. pose proof (pw_pos l).
  set (x0 := (p * 512 + i) * pw l) in *.
  destruct (block_idx l p i x0 Hi ltac:(unfold x0; lia)) as (Hd0 & Hx0 & Hi0).
  assert (Hc0 : covers (S l) p x0) by (split; [done|apply Hup; lia]).
  pose proof (ps_entry _ _ Hs f (S l) p x0 e Hf Hc0) as He. rewrite Hi0 in He. specialize (He Hl).
  unfold entry_shape in He. rewrite Hp in He. destruct He as [Hlim He]. pose proof (entry_frame_range e).
  unfold Pointer. destruct l as [|l'].
  - exists st. destruct (writable e) eqn:Hw.
    + destruct (FreePageMap_spec (entry_frame e) st Ho ltac:(lia)) as (a & Ea & Hoa & Hua).
      destruct (ps_table _ _ Hs _ _ _ Hf) as (_ & _ & pg & Hpg & Hlen).
      destruct (store_stored (set_manager a st) f i 0 pg Hpg Hlen Hi) as (st3 & E3 & _).
      exists (set_manager a st), st3. split_and!; [done|done|done|].
      pose proof (belongs_leaf st f p i e) as Hb.
      apply (clean_zero_entry st ow 0 f p i (set_manager a st) st3); try done; [by apply set_manager_shape| |].
      * intros h Hh Hbel%Hb; [|done..]. destruct Hbel as [_ ->]. cbn. rewrite Hua by done. by case_decide.
      * intros h Hh Hnb. cbn. rewrite Hua, decide_False; [done| |done]. intros ->. apply Hnb, Hb; done.
    + destruct (ps_table _ _ Hs _ _ _ Hf) as (_ & _ & pg & Hpg & Hlen).
      destruct (store_stored st f i 0 pg Hpg Hlen Hi) as (st3 & E3 & _).
      exists st, st3. split_and!; [done|done|done|]. pose proof (belongs_leaf st f p i e) as Hb.
      apply (clean_zero_entry st ow 0 f p i st st3); try done.
      intros h Hh Hbel%Hb; [|done..]. destruct Hbel as [Hw' _]. congruence.
  - cbn [pred] in He. destruct He as (Hoc & Hw & _ & _). rewrite Hd0 in Hoc.
    destruct (Hdescend ltac:(lia) (entry_frame e) (p * 512 + i) st ow Hs Ho Hoc Hup) as (st1 & E1 & Hpost).
    pose proof Hpost as [S1 O1 C1 F1 K1 L1 W1 Z1 M1]. exists st1. rewrite Hw.
    destruct (FreePageMap_spec (entry_frame e) st1 O1 ltac:(lia)) as (a & Ea & Hoa & Hua).
    destruct (ps_table _ _ S1 _ _ _ Hf) as (_ & _ & pg & Hpg & Hlen).
    destruct (store_stored (set_manager a st1) f i 0 pg Hpg Hlen Hi) as (st3 & E3 & _).
    exists (set_manager a st1), st3. split_and!; [done|done|done|].
    pose proof (fun h => belongs_child st ow l' f p i e h Hs Hf Hi Hup Hl Hp) as Hb.
    apply (clean_zero_entry st ow (S l') f p i (set_manager a st1) st3); try done; [by apply set_manager_shape| |].
    + intros h Hh Hbel%Hb. cbn. rewrite Hua by done. case_decide; [done|].
      destruct Hbel as [->|Hbel]; [done|by apply F1].
    + intros h Hh Hnb. cbn. rewrite Hua by done. rewrite decide_False.
      * apply K1; [done|]. intros Hbel. apply Hnb, Hb. by right.
      * intros ->. apply Hnb, Hb. by left.
Qed.

Lemma clean_loop k : forall i st ow f p,
  pt_shape st ow -> fa_ok (memory_manager st) -> ow !! f = Some (S l, p) -> 0 <= i -> i + Z.of_nat k = 512 ->
  (forall x, (p * 512 + i) * pw l <= x < (p + 1) * pw (S l) -> upper x) ->
  exists st', CleanPageMap_loop descend l (f * 2 ^ 12) k i st = Some (st', kSuccess) /\
    clean_post st ow (S l) f ((p * 512 + i) * pw l) ((p + 1) * pw (S l)) st'.
Proof using Hdescend.
  induction k as [|k IH]; intros i st ow f p Hs Ho Hf Hi Hk Hup; cbn [CleanPageMap_loop].
  - exists st. split; [done|]. replace ((p * 512 + i) * pw l) with ((p + 1) * pw (S l)) by (rewrite pw_S; nia).
    by apply clean_nil.
  - pose proof (pw_pos l). set (x0 := (p * 512 + i) * pw l) in *.
    assert (Hhi : (p * 512 + i + 1) * pw l <= (p + 1) * pw (S l)) by (rewrite pw_S; nia).
    destruct (block_idx l p i x0 ltac:(lia) ltac:(unfold x0; lia)) as (Hd0 & Hx0 & Hi0).
    assert (Hc0 : covers (S l) p x0) by (split; [done|apply Hup; lia]).
    destruct (load_shape st ow f (S l) p x0 Hs Hf Hc0) as (pg & e & _ & _ & Hl & _). rewrite Hi0 in Hl.
    rewrite Hl; cbn [mbind option_bind].
    assert (Hblock : exists st1, clean_post st ow (S l) f x0 ((p * 512 + i + 1) * pw l) st1 /\
      forall r, CleanPageMap_loop descend l (f * 2 ^ 12) k (i + 1) st1 = r ->
        (if negb (present e) then CleanPageMap_loop descend l (f * 2 ^ 12) k (i + 1) st
         else '(st1, err) ← match l with O => Some (st, kSuccess) | S _ => descend (Pointer e) st end;
              if is_error err then Some (st1, err) else
              '(st2, err) ← (if writable e then FreePageMap (Pointer e) st1 else Some (st1, kSuccess));
              if is_error err then Some (st2, err) else
              st3 ← store st2 (f * 2 ^ 12) i 0; CleanPageMap_loop descend l (f * 2 ^ 12) k (i + 1) st3) = r).
    { destruct (present e) eqn:Hp; cbn [negb].
      - destruct (clean_turn st ow f p i e Hs Ho Hf ltac:(lia)) as (st1 & st2 & st3 & E1 & E2 & E3 & Hpost);
          [intros x ?; apply Hup; unfold x0; lia|done|done|].
        exists st3. split; [done|]. intros r <-. rewrite E1; cbn [mbind option_bind].
        change (is_error kSuccess) with false. cbn iota. rewrite E2; cbn [mbind option_bind].
        change (is_error kSuccess) with false. cbn iota. rewrite E3. done.
      - exists st. split; [|done].
        pose proof (ps_entry _ _ Hs f (S l) p x0 e Hf Hc0) as He. rewrite Hi0 in He. specialize (He Hl).
        unfold entry_shape in He. rewrite Hp in He. subst e.
        assert (Hlx : forall x, x0 <= x < (p * 512 + i + 1) * pw l -> load st (f * 2 ^ 12) (idx (S l) x) = Some 0).
        { intros x Hx. destruct (block_idx l p i x ltac:(lia) Hx) as (_ & _ & ->). done. }
        split; try done. intros h _ Hb. exfalso. revert Hb. apply belongs_absent. intros x Hx. exists 0. auto. }
    destruct Hblock as (st1 & Hpost & Hrun).
    destruct (IH (i + 1) st1 ow f p) as (st' & E & Hpost'); [apply Hpost|apply Hpost|done|lia|lia|intros x ?; apply Hup; unfold x0; lia|].
    exists st'. split; [by apply Hrun|]. replace (p * 512 + (i + 1)) with (p * 512 + i + 1) in Hpost' by lia.
    eapply (clean_app st ow (S l) f p x0 ((p * 512 + i + 1) * pw l)); try done; [unfold x0; lia|].
    intros x Hx. split; [|apply Hup; lia]. rewrite pw_S in *. symmetry.
    apply (Z.div_unique x (512 * pw l) p (x - (512 * pw l) * p)); unfold x0 in Hx; nia.
Qed.
End loop.

Lemma page_no_part_zero addr L : (L < 4)%nat -> page_no addr = 2 ^ 35 -> (0 < L)%nat -> Part addr L = 0.
Proof.
  intros HL Ha Hp. destruct L as [|l]; [lia|]. rewrite Part_page_no by lia. rewrite Ha.
  destruct l as [|[|[|l]]]; [reflexivity..|lia].
Qed.

Lemma CleanPageMap_spec L : forall addr c p st ow,
  (0 < L < 4)%nat -> page_no addr = 2 ^ 35 -> pt_shape st ow -> fa_ok (memory_manager st) ->
  ow !! c = Some (L, p) -> (forall x, p * pw L <= x < (p + 1) * pw L -> upper x) ->
  exists st', CleanPageMap L (c * 2 ^ 12) addr st = Some (st', kSuccess) /\
    clean_post st ow L c (p * pw L) ((p + 1) * pw L) st'.
Proof.
  induction L as [|l IH]; intros addr c p st ow HL Ha Hs Ho Hc Hup; [lia|].
  cbn [CleanPageMap]. rewrite (page_no_part_zero addr (S l)) by (done || lia).
  replace (p * pw (S l)) with ((p * 512 + 0) * pw l) in * by (rewrite pw_S; lia).
  apply clean_loop; try done.
  intros Hl c' p' st' ow' Hs' Ho' Hc' Hup'. apply IH; done || lia.
Qed.

(** C12. Leaving an application, [CleanPageMaps] from the bottom of its half
    of the address space always succeeds, unmaps every page of that half and
    frees exactly what belongs to it: the page tables below the PML4 and the
    writable pages (the read-only ones are shared). No other frame changes
    state, no data page is touched, and the kernel's half of the PML4 stays. *)
Theorem CleanPageMaps_frees_all st ow root addr :
  pt_ok st ow -> CR3 st = root * 2 ^ 12 -> ow !! root = Some (4%nat, 0) ->
  addr = 0xffff800000000000 ->
  let belongs h := exists x, upper x /\
    (h ∈ tables_on st 4 (CR3 st) x \/ exists u, translate st 4 (CR3 st) x = Some (h, true, u)) in
  exists st', CleanPageMaps addr st = Some (st', kSuccess) /\ CR3 st' = CR3 st /\
    (forall x, upper x -> translate st' 4 (CR3 st') x = None) /\
    (forall h, 0 <= h -> belongs h -> fa_used (memory_manager st') h = false) /\
    (forall h, 0 <= h -> ~ belongs h -> fa_used (memory_manager st') h = fa_used (memory_manager st) h) /\
    (forall h, ow !! h = None -> mem st' !! h = mem st !! h) /\
    (forall i, 0 <= i < 256 -> load st' (CR3 st') i = load st (CR3 st) i).
Proof.
  intros H Hcr Hr Ha. cbn zeta. assert (Hpa : page_no addr = 2 ^ 35) by (by subst addr).
  change (CleanPageMaps addr st) with (CleanPageMap_loop (fun child st => CleanPageMap 3 child addr st) 3
    (CR3 st) (512 - Z.to_nat (Part addr 4))%nat (Part addr 4) st).
  rewrite Part_page_no, Hpa, Hcr by lia. change ((2 ^ 35 / pw 3) mod 512) with 256. change (512 - Z.to_nat 256)%nat with 256%nat.
  assert (Hrange : forall x, (0 * 512 + 256) * pw 3 <= x < (0 + 1) * pw 4 <-> upper x) by (unfold upper, pw; cbn; lia).
  destruct (clean_loop 3 (fun child st => CleanPageMap 3 child addr st)) with (k := 256%nat) (i := 256) (st := st)
    (ow := ow) (f := root) (p := 0) as (st' & E & [Hs Ho Hc Hfr Hk Hl Hlow Hz Hm]); try done.
  - intros _ c p st' ow' Hs' Ho' Hc' Hup'. apply CleanPageMap_spec; done || lia.
  - exact (pt_ok_shape _ _ H).
  - exact (po_manager _ _ H).
  - exists st'. rewrite Hc, Hcr. split_and!; try done.
    + intros x Hx. apply (translate_absent _ _ _ _ 0); [|done]. by apply Hz, Hrange.
    + intros i Hi. by apply Hlow.
Qed.
End clean.

(** ** Witness *)

Lemma CleanPageMaps_frees_all_witness :
  exists m st', allocated m 1 = true /\
    CleanPageMaps 0xffff800000000000 (machine_with_root m) = Some (st', kSuccess) /\ CR3 st' = 4096.
Proof.
  destruct (MarkAllocated_spec NewManager 1 1 NewManager_ok) as (m & _ & [Hok Hb _ Hbits]);
    [lia|lia|by vm_compute|].
  assert (Ha : allocated m 1 = true) by (rewrite Hbits by lia; rewrite decide_True by lia; reflexivity).
  assert (Hb' : range_begin m <= kFrameCount).
  { rewrite Hb. assert (range_begin NewManager = 0) as -> by reflexivity. by vm_compute. }
  destruct (CleanPageMaps_frees_all (machine_with_root m) root_owner 1 0xffff800000000000) as (st' & E & Hc & _).
  - apply machine_with_root_ok; assumption.
  - reflexivity.
  - reflexivity.
  - reflexivity.
  - exists m, st'. split; [exact Ha|]. split; [exact E|]. rewrite Hc. reflexivity.
Defined.
