(* ===== verification/PageCopy.v ===== *)
(** * Sharing an address space (kernel/paging.cpp, CopyPageMaps)

    The tables of an application's half are duplicated; the pages are shared
    read-only, to be copied by the page fault of the first write. *)

From S2P Require Import Prelude FrameBitmap Paging.
From stdpp Require Import base list numbers option gmap.
From Stdlib Require Import ZArith Lia.

Local Open Scope Z_scope.

Section copy.
Context {A : Type} `{!FrameAllocator A}.
Implicit Types (st : @Machine A) (ow : gmap Z (nat * Z)).

(** [translate_agree] when only the tables below [f] are known to agree. *)
Lemma translate_agree_below st st' ow L f p x :
  pt_shape st ow -> ow !! f = Some (S L, p) -> covers (S L) p x ->
  load st' (f * 2 ^ 12) (idx (S L) x) = load st (f * 2 ^ 12) (idx (S L) x) ->
  (forall g M q, ow !! g = Some (M, q) -> covers M q x -> (M <= L)%nat ->
     load st' (g * 2 ^ 12) (idx M x) = load st (g * 2 ^ 12) (idx M x)) ->
  translate st' (S L) (f * 2 ^ 12) x = translate st (S L) (f * 2 ^ 12) x.
Proof.
  intros H Hf Hc Hl Hag.
  destruct (load_shape st ow f (S L) p x H Hf Hc) as (pg & e & _ & _ & He & Hsh).
  rewrite !translate_step, Hl, He. cbn [mbind option_bind].
  destruct (present e) eqn:Hp; [|done]. cbn [negb]. case_decide as HL; [done|].
  destruct (translate_child st ow L p x f e H ltac:(lia) Hf Hc He Hp) as [Ho _].
  case_match; [done|]. unfold Pointer. f_equal.
  eapply translate_agree; [done|done|split; [done|apply Hc]|]. intros g M q Hg Hcg HM. left. by eapply Hag.
Qed.

Definition demote (t : Z * bool * bool) : Z * bool * bool := (t.1.1, false, t.2).

(** What a copy into the table [d] leaves alone. *)
Record copy_frame st ow (L : nat) (d lo hi : Z) st' ow' : Prop := {
  cf_ok : pt_ok st' ow';
  cf_sub : ow ⊆ ow';
  cf_cr3 : CR3 st' = CR3 st;
  cf_used : forall f, 0 <= f -> fa_used (memory_manager st) f = true -> fa_used (memory_manager st') f = true;
  cf_data : forall f, 0 <= f -> fa_used (memory_manager st) f = true -> ow !! f = None ->
    ow' !! f = None /\ mem st' !! f = mem st !! f;
  cf_load : forall g x j, ow !! g = Some x -> g <> d -> load st' (g * 2 ^ 12) j = load st (g * 2 ^ 12) j;
  cf_out : forall j, (forall x, lo <= x < hi -> idx L x <> j) -> load st' (d * 2 ^ 12) j = load st (d * 2 ^ 12) j;
}.

Lemma copy_frame_refl st ow L d lo hi : pt_ok st ow -> copy_frame st ow L d lo hi st ow.
Proof. by split. Qed.

Lemma copy_frame_trans st ow st1 ow1 st2 ow2 L d lo mid hi :
  lo <= mid <= hi -> is_Some (ow !! d) -> copy_frame st ow L d lo mid st1 ow1 -> copy_frame st1 ow1 L d mid hi st2 ow2 ->
  copy_frame st ow L d lo hi st2 ow2.
Proof.
  intros Hle Hd [O1 S1 C1 U1 D1 L1 X1] [O2 S2 C2 U2 D2 L2 X2]. split.
  - done.
  - by etransitivity.
  - congruence.
  - auto.
  - intros f Hf Hu Hn. destruct (D1 f Hf Hu Hn) as [Hn1 Hm1]. destruct (D2 f Hf (U1 f Hf Hu) Hn1). split; congruence.
  - intros g x j Hg Hne. rewrite (L2 g x j), (L1 g x j); try done. by eapply lookup_weaken.
  - intros j Hj. rewrite X2, X1; [done| |]; intros x Hx; apply Hj; lia.
Qed.

(** The pages [lo .. hi) of [d] are those of [s], read-only. *)
Definition copied st (L : nat) (s d lo hi : Z) st' : Prop :=
  forall x, lo <= x < hi -> translate st' L (d * 2 ^ 12) x = demote <$> translate st L (s * 2 ^ 12) x.

Section append.
Context (st st1 st2 : @Machine A) (ow ow1 ow2 : gmap Z (nat * Z)) (l : nat) (s d p lo b hi : Z).
Context (Hs : ow !! s = Some (S l, p)) (Hd : ow !! d = Some (S l, p)) (Hne : s <> d).
Context (Hle : lo <= b * pw l <= hi) (Hc : forall x, lo <= x < hi -> covers (S l) p x) (H : pt_ok st ow).
Context (F1 : copy_frame st ow (S l) d lo (b * pw l) st1 ow1) (K1 : copied st (S l) s d lo (b * pw l) st1).
Context (F2 : copy_frame st1 ow1 (S l) d (b * pw l) hi st2 ow2) (K2 : copied st1 (S l) s d (b * pw l) hi st2).

Lemma copied_app : copied st (S l) s d lo hi st2.
Proof using All.
  pose proof (pw_pos l). intros x Hx. destruct (decide (x < b * pw l)) as [Hlt|Hge].
  - rewrite <- (K1 x) by lia.
    assert (Hd1 : ow1 !! d = Some (S l, p)) by (eapply lookup_weaken; [exact Hd|apply F1]).
    eapply translate_agree_below; [exact (pt_ok_shape _ _ (cf_ok _ _ _ _ _ _ _ _ F1))|exact Hd1|by apply Hc| |].
    + apply (cf_out _ _ _ _ _ _ _ _ F2). intros y Hy Hi.
      pose proof (idx_same (S l) p y x ltac:(lia) (Hc y ltac:(lia)) (Hc x ltac:(lia)) Hi) as E. cbn [pred] in E.
      pose proof (Z.div_lt_upper_bound x (pw l) b ltac:(lia) ltac:(lia)).
      pose proof (Z.div_le_lower_bound y (pw l) b ltac:(lia) ltac:(lia)). lia.
    + intros g M q Hg _ HM. apply (cf_load _ _ _ _ _ _ _ _ F2 g (M, q)); [done|].
      intros ->. rewrite Hd1 in Hg. assert (M = S l) by congruence. lia.
  - rewrite (K2 x) by lia. f_equal. 
    eapply translate_agree_below; [exact (pt_ok_shape _ _ H)|exact Hs|apply Hc; lia| |].
    + by apply (cf_load _ _ _ _ _ _ _ _ F1 s (S l, p)).
    + intros g M q Hg _ HM. apply (cf_load _ _ _ _ _ _ _ _ F1 g (M, q)); [done|].
      intros ->. rewrite Hd in Hg. assert (M = S l) by congruence. lia.
Qed.
End append.

(** The block of page numbers entry [i] of a table with part [p] covers. *)
Definition block (l : nat) (p i : Z) (x : Z) : Prop := (p * 512 + i) * pw l <= x < (p * 512 + i + 1) * pw l.

Lemma block_covers l p i x : 0 <= i < 512 -> block l p i x -> upper x ->
  covers (S l) p x /\ covers l (p * 512 + i) x /\ idx (S l) x = i.
Proof.
  intros Hi Hx Hu. pose proof (pw_pos l).
  assert (E : x / pw l = p * 512 + i).
  { symmetry. apply (Z.div_unique x (pw l) (p * 512 + i) (x - pw l * (p * 512 + i))); unfold block in Hx; lia. }
  split; [split; [|done]|split; [split; [done|done]|]].
  - rewrite pw_S, Z.mul_comm, <- Z.div_div, E by lia. symmetry. apply (Z.div_unique _ 512 p i); lia.
  - unfold idx. cbn [pred]. rewrite E. symmetry. apply (Z.mod_unique _ 512 p i); lia.
Qed.

Lemma readonly_entry e :
  let e' := set_writable false e in
  present e' = present e /\ user e' = user e /\ writable e' = false /\ entry_frame e' = entry_frame e.
Proof.
  cbn zeta. unfold set_writable, present, user, writable.
  rewrite !put_bit_high, put_bit_same, put_bit_frame by lia. done.
Qed.

Lemma pointer_entry e c : 0 <= c < 2 ^ 40 ->
  let e' := SetPointer e (c * 2 ^ 12) in
  present e' = present e /\ user e' = user e /\ writable e' = writable e /\ huge_page e' = huge_page e /\
  entry_frame e' = c.
Proof.
  intros Hc. cbn zeta. unfold present, user, writable, huge_page.
  rewrite !SetPointer_low, SetPointer_frame by lia. done.
Qed.

(** A store of an acceptable entry into [d]. *)
Lemma copy_frame_store st ow l d p i v st' :
  pt_ok st ow -> ow !! d = Some (S l, p) -> 0 <= i < 512 ->
  (forall x, block l p i x -> upper x) ->
  stored st d i v st' -> entry_ok st ow (S l) (p * 512 + i) v ->
  copy_frame st ow (S l) d ((p * 512 + i) * pw l) ((p * 512 + i + 1) * pw l) st' ow.
Proof.
  intros H Hd Hi Hup Hs Hv. pose proof (pw_pos l). set (x0 := (p * 512 + i) * pw l).
  destruct (block_covers l p i x0 Hi ltac:(unfold block, x0; lia) (Hup x0 ltac:(unfold block, x0; lia))) as (Hc & [Hc' _] & Hix).
  rewrite <- Hix in Hs. rewrite <- Hc' in Hv.
  destruct (pt_store st ow d (S l) p x0 v st' H Hd Hc Hs Hv) as [Hok _]. split; try done.
  - apply Hs.
  - intros f _. by rewrite (sd_manager _ _ _ _ _ Hs).
  - intros f _ _ Hf. split; [done|]. apply (sd_mem _ _ _ _ _ Hs). congruence.
  - intros g x j Hg Hne. rewrite (sd_load _ _ _ _ _ Hs). by rewrite decide_False by tauto.
  - intros j Hj. rewrite (sd_load _ _ _ _ _ Hs), decide_False; [done|]. intros [_ ->].
    apply (Hj x0); [unfold x0; lia|done].
Qed.

Lemma copy_frame_new_page st ow c st1 o L d lo hi :
  pt_ok st ow -> new_page st c st1 -> is_Some (ow !! d) -> (forall L p, o = Some (L, p) -> (1 <= L <= 4)%nat) ->
  copy_frame st ow L d lo hi st1 (partial_alter (fun _ => o) c ow).
Proof.
  intros H Hn [[M q] Hd] Ho. destruct (grows_new_page st ow c st1 o lo hi H Hn Ho) as [G1 G2 G3 G4 G5 _ _].
  split; try done.
  - intros g [M' q'] j Hg _. apply (new_page_load _ _ _ _ _ Hn). exact (new_page_ne _ _ _ _ _ _ _ H Hn Hg).
  - intros j _. apply (new_page_load _ _ _ _ _ Hn). exact (new_page_ne _ _ _ _ _ _ _ H Hn Hd).
Qed.

(** The turn on a present entry of the last level. *)
Lemma copy_leaf st ow s d p i e :
  pt_ok st ow -> ow !! s = Some (1%nat, p) -> ow !! d = Some (1%nat, p) -> s <> d -> 0 <= i < 512 ->
  (forall x, block 0 p i x -> upper x) -> load st (s * 2 ^ 12) i = Some e -> present e = true ->
  exists st1, store st (d * 2 ^ 12) i (set_writable false e) = Some st1 /\
    copy_frame st ow 1 d ((p * 512 + i) * pw 0) ((p * 512 + i + 1) * pw 0) st1 ow /\
    copied st 1 s d ((p * 512 + i) * pw 0) ((p * 512 + i + 1) * pw 0) st1.
Proof.
  intros H Hs Hd Hne Hi Hup Hl Hp. destruct (readonly_entry e) as (R1 & R2 & R3 & R4).
  destruct (po_table _ _ H _ _ _ Hd) as (_ & _ & _ & pg & Hpg & Hlen).
  destruct (store_stored st d i (set_writable false e) pg Hpg Hlen Hi) as (st1 & E & Hst).
  set (x0 := (p * 512 + i) * pw 0).
  destruct (block_covers 0 p i x0 Hi ltac:(unfold block, x0; rewrite pw_0; lia) (Hup x0 ltac:(unfold block, x0; rewrite pw_0; lia)))
    as (Hc & [Hc' _] & Hix).
  assert (Hok : entry_ok st ow 1 (p * 512 + i) e).
  { rewrite <- Hc'. eapply (po_entry _ _ H s 1 p x0); [done|done|by rewrite Hix]. }
  exists st1. split; [done|]. split.
  - eapply copy_frame_store; [done..|]. unfold entry_ok in *. rewrite R1, R4. rewrite Hp in *. exact Hok.
  - intros x Hx. destruct (block_covers 0 p i x Hi Hx (Hup x Hx)) as (_ & _ & Hixx).
    rewrite (translate_leaf st1 d x (set_writable false e)) by (rewrite Hixx, (sd_load _ _ _ _ _ Hst); by rewrite decide_True).
    rewrite (translate_leaf st s x e) by (by rewrite Hixx). rewrite R1, R2, R3, R4, Hp. done.
Qed.

Section loop.
Context (l : nat) (descend : Z -> Z -> @Machine A -> option (@Machine A * Code)).
(** The recursive call copies a whole table into an empty one. *)
Context (Hdescend : (0 < l)%nat -> forall s d p st ow, pt_ok st ow -> ow !! s = Some (l, p) -> ow !! d = Some (l, p) ->
  s <> d -> (forall x, p * pw l <= x < (p + 1) * pw l -> upper x) ->
  (forall x, p * pw l <= x < (p + 1) * pw l -> load st (d * 2 ^ 12) (idx l x) = Some 0) ->
  exists st' err ow', descend (d * 2 ^ 12) (s * 2 ^ 12) st = Some (st', err) /\
    copy_frame st ow l d (p * pw l) ((p + 1) * pw l) st' ow' /\
    ((err = kSuccess /\ copied st l s d (p * pw l) ((p + 1) * pw l) st') \/ ran_out st' err)).

(** The turn on a present entry above: a new table, filled by the recursive
    call. *)
Lemma copy_upper l' st ow s d p i e :
  l = S l' -> pt_ok st ow -> ow !! s = Some (S l, p) -> ow !! d = Some (S l, p) -> s <> d -> 0 <= i < 512 ->
  (forall x, block l p i x -> upper x) -> load st (s * 2 ^ 12) i = Some e -> present e = true ->
  exists st' err ow', ('(st1, (table, err)) ← NewPageMap st;
      if is_error err then Some (st1, err) else
        e ← load st1 (s * 2 ^ 12) i; st2 ← store st1 (d * 2 ^ 12) i (SetPointer e table);
        e' ← load st2 (s * 2 ^ 12) i; descend table (Pointer e') st2) = Some (st', err) /\
    copy_frame st ow (S l) d ((p * 512 + i) * pw l) ((p * 512 + i + 1) * pw l) st' ow' /\
    ((err = kSuccess /\ copied st (S l) s d ((p * 512 + i) * pw l) ((p * 512 + i + 1) * pw l) st') \/ ran_out st' err).
Proof using Hdescend.
  intros El H Hs Hd Hne Hi Hup Hl Hp. pose proof (pw_pos l). set (x0 := (p * 512 + i) * pw l) in *.
  destruct (block_covers l p i x0 Hi ltac:(unfold block, x0; lia) (Hup x0 ltac:(unfold block, x0; lia))) as (Hc & [Hc' _] & Hix).
  assert (Hok : entry_ok st ow (S l) (p * 512 + i) e).
  { rewrite <- Hc'. eapply (po_entry _ _ H s (S l) p x0); [done|done|by rewrite Hix]. }
  unfold entry_ok in Hok. rewrite Hp, El in Hok. cbn [pred] in Hok. rewrite <- El in Hok. destruct Hok as (Hoc & Hw & Hu & Hh).
  destruct (NewPageMap_spec st (po_manager _ _ H)) as (st1 & ptr & err & -> & [(-> & c & -> & Hn)|(-> & -> & Hex)]);
    cbn [mbind option_bind].
  2: { exists st, kNoEnoughMemory, ow. split; [done|]. split; [by apply copy_frame_refl|by right]. }
  change (is_error kSuccess) with false. cbn iota.
  set (ow1 := partial_alter (fun _ => Some (l, p * 512 + i)) c ow).
  assert (HL4 : forall M q, Some (l, p * 512 + i) = Some (M, q) -> (1 <= M <= 4)%nat).
  { intros M q [= <- <-]. destruct (po_table _ _ H _ _ _ Hd). lia. }
  pose proof (copy_frame_new_page st ow c st1 _ (S l) d x0 x0 H Hn ltac:(by eexists) HL4) as F1. fold ow1 in F1.
  assert (Hsc : s <> c) by exact (new_page_ne _ _ _ _ _ _ _ H Hn Hs).
  assert (Hdc : d <> c) by exact (new_page_ne _ _ _ _ _ _ _ H Hn Hd).
  assert (Hec : entry_frame e <> c) by exact (new_page_ne _ _ _ _ _ _ _ H Hn Hoc).
  rewrite (new_page_load _ _ _ _ _ Hn Hsc), Hl. cbn [mbind option_bind].
  destruct (pointer_entry e c (frame_limit_40 _ (np_range _ _ _ Hn))) as (R1 & R2 & R3 & R5 & R4).
  set (v := SetPointer e (c * 2 ^ 12)) in *.
  pose proof (cf_ok _ _ _ _ _ _ _ _ F1) as Hok1.
  assert (Hd1 : ow1 !! d = Some (S l, p)) by (eapply lookup_weaken; [exact Hd|apply F1]).
  assert (Hs1 : ow1 !! s = Some (S l, p)) by (eapply lookup_weaken; [exact Hs|apply F1]).
  assert (Hc1 : ow1 !! c = Some (l, p * 512 + i)) by (unfold ow1; by rewrite lookup_partial_alter_eq).
  assert (He1 : ow1 !! entry_frame e = Some (l, p * 512 + i)) by (unfold ow1; rewrite lookup_partial_alter_ne by done; done).
  destruct (po_table _ _ Hok1 _ _ _ Hd1) as (_ & _ & _ & pg & Hpg & Hlen).
  destruct (store_stored st1 d i v pg Hpg Hlen Hi) as (st2 & -> & Hst). cbn [mbind option_bind].
  assert (F2 : copy_frame st1 ow1 (S l) d x0 ((p * 512 + i + 1) * pw l) st2 ow1).
  { eapply copy_frame_store; [done..|]. unfold entry_ok. rewrite R1, R2, R3, R4, R5, Hp, El. cbn [pred]. by rewrite <- El. }
  assert (F12 : copy_frame st ow (S l) d x0 ((p * 512 + i + 1) * pw l) st2 ow1).
  { apply (copy_frame_trans st ow st1 ow1 st2 ow1 (S l) d x0 x0); [unfold x0; lia|by eexists|done|done]. }
  pose proof (cf_ok _ _ _ _ _ _ _ _ F2) as Hok2.
  rewrite (sd_load _ _ _ _ _ Hst), decide_False by tauto.
  rewrite (new_page_load _ _ _ _ _ Hn Hsc), Hl. cbn [mbind option_bind]. unfold Pointer.
  destruct (Hdescend ltac:(lia) (entry_frame e) c (p * 512 + i) st2 ow1 Hok2 He1 Hc1 Hec Hup) as (st3 & err & ow3 & -> & F3 & Hres).
  { intros x Hx. rewrite (sd_load _ _ _ _ _ Hst), decide_False by (intros [? _]; congruence).
    eapply new_page_zero; [done|apply idx_range]. }
  assert (Hcov : forall x, block l p i x -> covers (S l) p x /\ covers l (p * 512 + i) x /\ idx (S l) x = i).
  { intros x Hx. apply block_covers; auto. }
  exists st3, err, ow3. split; [done|].
  assert (F : copy_frame st ow (S l) d x0 ((p * 512 + i + 1) * pw l) st3 ow3).
  { destruct F12 as [O1 S1 C1 U1 D1 L1 X1]. destruct F3 as [O3 S3 C3 U3 D3 L3 X3]. split.
    - done.
    - by etransitivity.
    - congruence.
    - auto.
    - intros f Hf Hfu Hfn. destruct (D1 f Hf Hfu Hfn) as [Hn1 Hm1]. destruct (D3 f Hf (U1 f Hf Hfu) Hn1). split; congruence.
    - intros g x j Hg Hgd. rewrite (L3 g x j); [by eapply L1|by eapply lookup_weaken|].
      intros ->. destruct x. by apply (new_page_ne _ _ _ _ _ _ _ H Hn Hg).
    - intros j Hj. rewrite (L3 d (S l, p) j); [by apply X1|done|done]. }
  split; [exact F|]. destruct Hres as [[-> K3]|He']; [left|by right]. split; [done|].
  intros x Hx. destruct (Hcov x Hx) as (Hcx & Hcx' & Hixx).
  assert (Hd3 : ow3 !! d = Some (S l, p)) by (eapply lookup_weaken; [exact Hd|apply F]).
  assert (Hl3 : load st3 (d * 2 ^ 12) (idx (S l) x) = Some v).
  { rewrite Hixx, (cf_load _ _ _ _ _ _ _ _ F3 d (S l, p)), (sd_load _ _ _ _ _ Hst) by done. by rewrite decide_True. }
  destruct (translate_child st3 ow3 l p x d v (cf_ok _ _ _ _ _ _ _ _ F) ltac:(lia) Hd3 Hcx Hl3 ltac:(congruence)) as [_ ->].
  destruct (translate_child st ow l p x s e (pt_ok_shape _ _ H) ltac:(lia) Hs Hcx ltac:(by rewrite Hixx) Hp) as [_ ->].
  rewrite R4, (K3 x Hx). f_equal.
  eapply translate_agree; [exact (pt_ok_shape _ _ H)|exact Hoc|exact Hcx'|].
  intros g M q Hg _ HM. left. apply (cf_load _ _ _ _ _ _ _ _ F12 g (M, q)); [done|].
  intros ->. rewrite Hd in Hg. assert (M = S l) by congruence. lia.
Qed.

(** What the loop leaves from entry [i] on. *)
Definition copy_post st ow (s d p i : Z) (r : @Machine A * Code) : Prop :=
  let '(st', err) := r in exists ow',
    copy_frame st ow (S l) d ((p * 512 + i) * pw l) ((p + 1) * pw (S l)) st' ow' /\
    ((err = kSuccess /\ copied st (S l) s d ((p * 512 + i) * pw l) ((p + 1) * pw (S l)) st') \/ ran_out st' err).

(** One turn, whatever the entry; [run] is the rest of the loop. *)
Lemma copy_turn st ow s d p i e run :
  pt_ok st ow -> ow !! s = Some (S l, p) -> ow !! d = Some (S l, p) -> s <> d -> 0 <= i < 512 ->
  (forall x, block l p i x -> upper x) ->
  (forall x, block l p i x -> load st (d * 2 ^ 12) (idx (S l) x) = Some 0) ->
  load st (s * 2 ^ 12) i = Some e ->
  exists st1 err1 ow1,
    copy_frame st ow (S l) d ((p * 512 + i) * pw l) ((p * 512 + i + 1) * pw l) st1 ow1 /\
    ((err1 = kSuccess /\ copied st (S l) s d ((p * 512 + i) * pw l) ((p * 512 + i + 1) * pw l) st1) \/ ran_out st1 err1) /\
    (if negb (present e) then run st
     else match l with
          | O => st1 ← store st (d * 2 ^ 12) i (set_writable false e); run st1
          | S _ =>
              '(st1, (table, err)) ← NewPageMap st;
              if is_error err then Some (st1, err)
              else
                e ← load st1 (s * 2 ^ 12) i;
                st2 ← store st1 (d * 2 ^ 12) i (SetPointer e table);
                e' ← load st2 (s * 2 ^ 12) i;
                '(st3, err) ← descend table (Pointer e') st2;
                if is_error err then Some (st3, err) else run st3
          end) = if is_error err1 then Some (st1, err1) else run st1.
Proof using Hdescend.
  intros H Hs Hd Hne Hi Hup Hz Hl. destruct (present e) eqn:Hp; cbn [negb].
  - assert (l = O \/ exists l', l = S l') as [El|[l' El]] by (destruct l; eauto).
    + rewrite El in Hs, Hd, Hup, Hz |- *. destruct (copy_leaf st ow s d p i e H Hs Hd Hne Hi Hup Hl Hp) as (st1 & -> & F & K).
      exists st1, kSuccess, ow. split_and!; [done|by left|done].
    + assert (forall (T : Type) (a b : T), match l with O => a | S _ => b end = b) as Em by (intros; by rewrite El).
      rewrite Em. destruct (copy_upper l' st ow s d p i e El H Hs Hd Hne Hi Hup Hl Hp) as (st1 & err & ow1 & E & F & K).
      exists st1, err, ow1. split_and!; [done|done|]. revert E.
      destruct (NewPageMap st) as [[sa [tb ea]]|]; cbn [mbind option_bind]; [|done].
      destruct (is_error ea) eqn:Eea.
      { intros [= <- <-]. by rewrite Eea. }
      destruct (load sa _ _) as [e1|]; cbn [mbind option_bind]; [|done].
      destruct (store sa _ _ _) as [sb|]; cbn [mbind option_bind]; [|done].
      destruct (load sb _ _) as [e2|]; cbn [mbind option_bind]; [|done]. intros E. by rewrite E.
  - exists st, kSuccess, ow. split; [by apply copy_frame_refl|]. split; [left; split; [done|]|done].
    intros x Hx. destruct (block_covers l p i x Hi Hx (Hup x Hx)) as (Hcx & _ & Hixx).
    rewrite (translate_absent st l d x 0) by (done || by apply Hz).
    by rewrite (translate_absent st l s x e) by (by rewrite ?Hixx).
Qed.

Lemma copy_loop k : forall i st ow s d p,
  pt_ok st ow -> ow !! s = Some (S l, p) -> ow !! d = Some (S l, p) -> s <> d -> 0 <= i -> i + Z.of_nat k = 512 ->
  (forall x, (p * 512 + i) * pw l <= x < (p + 1) * pw (S l) -> upper x) ->
  (forall x, (p * 512 + i) * pw l <= x < (p + 1) * pw (S l) -> load st (d * 2 ^ 12) (idx (S l) x) = Some 0) ->
  exists r, CopyPageMaps_loop descend l (d * 2 ^ 12) (s * 2 ^ 12) k i st = Some r /\ copy_post st ow s d p i r.
Proof using Hdescend.
  induction k as [|k IH]; intros i st ow s d p H Hs Hd Hne Hi Hk Hup Hz; cbn [CopyPageMaps_loop].
  - eexists; split; [done|]. exists ow. split; [by apply copy_frame_refl|]. left. split; [done|].
    intros x Hx. rewrite pw_S in Hx. pose proof (pw_pos l). nia.
  - pose proof (pw_pos l). set (x0 := (p * 512 + i) * pw l) in *.
    assert (Hhi : (p * 512 + i + 1) * pw l <= (p + 1) * pw (S l)) by (rewrite pw_S; nia).
    assert (Hup' : forall x, block l p i x -> upper x) by (intros x Hx; apply Hup; unfold block in Hx; lia).
    destruct (block_covers l p i x0 ltac:(lia) ltac:(unfold block, x0; lia) (Hup' x0 ltac:(unfold block, x0; lia))) as (Hc & [Hc' _] & Hix).
    destruct (load_entry st ow s (S l) p x0 H Hs Hc) as (pg & e & _ & _ & _ & Hl & _). rewrite Hix in Hl.
    rewrite Hl; cbn [mbind option_bind].
    destruct (copy_turn st ow s d p i e (CopyPageMaps_loop descend l (d * 2 ^ 12) (s * 2 ^ 12) k (i + 1)) H Hs Hd Hne ltac:(lia) Hup')
      as (st1 & err1 & ow1 & F1 & K1 & ->); [intros x Hx; apply Hz; unfold block in Hx; lia|done|].
    destruct K1 as [[-> K1]|Herr].
    2: { pose proof Herr as [-> _]. eexists; split; [done|]. exists ow1. split; [|by right].
         apply (copy_frame_trans st ow st1 ow1 st1 ow1 (S l) d x0 ((p * 512 + i + 1) * pw l)); [unfold x0; lia|by eexists|done|].
         apply copy_frame_refl, F1. }
    change (is_error kSuccess) with false. cbn iota.
    assert (Hs1 : ow1 !! s = Some (S l, p)) by (eapply lookup_weaken; [exact Hs|apply F1]).
    assert (Hd1 : ow1 !! d = Some (S l, p)) by (eapply lookup_weaken; [exact Hd|apply F1]).
    assert (Hcov : forall x, x0 <= x < (p + 1) * pw (S l) -> covers (S l) p x).
    { intros x Hx. split; [|by apply Hup]. rewrite pw_S in *. symmetry.
      apply (Z.div_unique x (512 * pw l) p (x - (512 * pw l) * p)); unfold x0 in Hx; nia. }
    replace (p * 512 + i + 1) with (p * 512 + (i + 1)) in * by lia.
    destruct (IH (i + 1) st1 ow1 s d p (cf_ok _ _ _ _ _ _ _ _ F1) Hs1 Hd1 Hne) as ([st2 err2] & -> & ow2 & F2 & K2); try lia.
    { intros x Hx. apply Hup. unfold x0. lia. }
    { intros x Hx. rewrite (cf_out _ _ _ _ _ _ _ _ F1); [apply Hz; unfold x0; lia|].
      intros y Hy Hixy. pose proof (idx_same (S l) p y x ltac:(lia) (Hcov y ltac:(lia)) (Hcov x ltac:(unfold x0; lia)) Hixy) as E.
      cbn [pred] in E. pose proof (Z.div_lt_upper_bound y (pw l) (p * 512 + (i + 1)) ltac:(lia) ltac:(lia)).
      pose proof (Z.div_le_lower_bound x (pw l) (p * 512 + (i + 1)) ltac:(lia) ltac:(lia)). lia. }
    eexists; split; [done|]. exists ow2. split.
    + eapply (copy_frame_trans st ow st1 ow1 st2 ow2 (S l) d x0); [|by eexists|exact F1|exact F2]. unfold x0. lia.
    + destruct K2 as [[-> K2]|He2]; [left|by right]. split; [done|].
      eapply (copied_app st st1 st2 ow ow1 ow2 l s d p x0 (p * 512 + (i + 1))); try done. unfold x0. lia.
Qed.
End loop.

Lemma CopyPageMaps_spec L : forall s d p st ow,
  (0 < L < 4)%nat -> pt_ok st ow -> ow !! s = Some (L, p) -> ow !! d = Some (L, p) -> s <> d ->
  (forall x, p * pw L <= x < (p + 1) * pw L -> upper x) ->
  (forall x, p * pw L <= x < (p + 1) * pw L -> load st (d * 2 ^ 12) (idx L x) = Some 0) ->
  exists st' err ow', CopyPageMaps L (d * 2 ^ 12) (s * 2 ^ 12) 0 st = Some (st', err) /\
    copy_frame st ow L d (p * pw L) ((p + 1) * pw L) st' ow' /\
    ((err = kSuccess /\ copied st L s d (p * pw L) ((p + 1) * pw L) st') \/ ran_out st' err).
Proof.
  induction L as [|l IH]; intros s d p st ow HL H Hs Hd Hne Hup Hz; [lia|]. cbn [CopyPageMaps].
  assert (E0 : p * pw (S l) = (p * 512 + 0) * pw l) by (rewrite pw_S; lia). rewrite E0 in *.
  destruct (copy_loop l (fun table child st => CopyPageMaps l table child 0 st)) with (k := 512%nat) (i := 0)
    (st := st) (ow := ow) (s := s) (d := d) (p := p) as ([st' err] & E & ow' & F & K); try done.
  - intros Hl s' d' p' st' ow' ? ? ? ? ? ?. apply IH; done || lia.
  - exists st', err, ow'. done.
Qed.

Lemma CopyPageMaps_S part' dest src start st :
  CopyPageMaps (S part') dest src start st =
  CopyPageMaps_loop (fun table child st => CopyPageMaps part' table child 0 st)
    part' dest src (512 - Z.to_nat start)%nat start st.
Proof. done. Qed.

Lemma CopyPageMaps_root_spec st ow s d :
  pt_ok st ow -> ow !! s = Some (4%nat, 0) -> ow !! d = Some (4%nat, 0) -> s <> d ->
  (forall x, upper x -> load st (d * 2 ^ 12) (idx 4 x) = Some 0) ->
  exists st' err ow', CopyPageMaps 4 (d * 2 ^ 12) (s * 2 ^ 12) 256 st = Some (st', err) /\
    pt_ok st' ow' /\ ow ⊆ ow' /\ CR3 st' = CR3 st /\
    (forall x, upper x -> translate st' 4 (s * 2 ^ 12) x = translate st 4 (s * 2 ^ 12) x) /\
    (forall f, 0 <= f -> fa_used (memory_manager st) f = true -> ow !! f = None -> mem st' !! f = mem st !! f) /\
    (forall j, 0 <= j < 256 -> load st' (d * 2 ^ 12) j = load st (d * 2 ^ 12) j) /\
    ((err = kSuccess /\ forall x, upper x ->
        translate st' 4 (d * 2 ^ 12) x = demote <$> translate st 4 (s * 2 ^ 12) x) \/ ran_out st' err).
Proof.
  intros H Hs Hd Hne Hz.
  assert (Hrange : forall x, (0 * 512 + 256) * pw 3 <= x < (0 + 1) * pw 4 <-> upper x) by (unfold upper, pw; cbn; lia).
  rewrite CopyPageMaps_S. change (512 - Z.to_nat 256)%nat with 256%nat.
  destruct (copy_loop 3 (fun table child st => CopyPageMaps 3 table child 0 st)) with (k := 256%nat) (i := 256)
    (st := st) (ow := ow) (s := s) (d := d) (p := 0) as ([st' err] & E & ow' & F & K);
    [|exact H|exact Hs|exact Hd|exact Hne|lia|lia|intros x Hx; by apply Hrange|intros x Hx; by apply Hz, Hrange|].
  - intros _ s' d' p' st' ow' H1 H2 H3 H4 H5 H6. apply CopyPageMaps_spec; assumption || lia.
  - exists st', err, ow'. split; [exact E|]. destruct F as [O S C U D L X]. split_and!; try done.
    + intros x Hx. eapply (translate_agree_below st st' ow 3 s 0); [exact (pt_ok_shape _ _ H)|done|by apply covers_root| |].
      * by apply (L s (4%nat, 0)).
      * intros g M q Hg _ HM. apply (L g (M, q)); [done|]. intros ->. rewrite Hd in Hg. assert (M = 4%nat) by congruence. lia.
    + intros f Hf Hu Hn. by apply D.
    + intros j Hj. apply X. intros x Hx Hij. assert (upper x) as [Hx1 Hx2] by (by apply Hrange). unfold idx, pw in Hij. cbn [pred] in Hij.
      change (512 ^ Z.of_nat 3) with (2 ^ 27) in Hij.
      assert (256 <= x / 2 ^ 27) by (apply Z.div_le_lower_bound; lia).
      assert (x / 2 ^ 27 < 512) by (apply Z.div_lt_upper_bound; lia).
      rewrite Z.mod_small in Hij by lia. lia.
Qed.

(** C11. [CopyPageMaps] gives a new PML4 the address space of another without
    copying a page: every page of the application's half then translates in
    the copy to the frame it has in the original, with the same user access
    but read-only, and the original translates as before. The
    tables stay well formed, those of the copy owned by it alone, and data
    pages are not touched. The only error is that every managed frame is taken. *)
Theorem CopyPageMaps_shares_read_only st ow s d :
  pt_ok st ow -> ow !! s = Some (4%nat, 0) -> ow !! d = Some (4%nat, 0) -> s <> d ->
  (forall x, upper x -> load st (d * 2 ^ 12) (idx 4 x) = Some 0) ->
  exists st' err ow', CopyPageMaps 4 (d * 2 ^ 12) (s * 2 ^ 12) 256 st = Some (st', err) /\
    pt_ok st' ow' /\ ow ⊆ ow' /\ CR3 st' = CR3 st /\
    (forall x, upper x -> translate st' 4 (s * 2 ^ 12) x = translate st 4 (s * 2 ^ 12) x) /\
    (forall f, 0 <= f -> fa_used (memory_manager st) f = true -> ow !! f = None -> mem st' !! f = mem st !! f) /\
    ((err = kSuccess /\ forall x, upper x ->
        translate st' 4 (d * 2 ^ 12) x = demote <$> translate st 4 (s * 2 ^ 12) x) \/ ran_out st' err).
Proof.
  intros H Hs Hd Hne Hz.
  destruct (CopyPageMaps_root_spec st ow s d H Hs Hd Hne Hz) as (st' & err & ow' & ? & ? & ? & ? & ? & ? & _ & ?).
  by exists st', err, ow'.
Qed.
End copy.

(** ** Witness *)

(** A machine with two empty PML4s. *)
Definition two_roots (m : BitmapMemoryManager) : @Machine BitmapMemoryManager :=
  MkMachine (<[2 := replicate 512 0]> (mem (machine_with_root m))) m (1 * 2 ^ 12).

Definition two_owners : gmap Z (nat * Z) := <[2 := (4%nat, 0)]> root_owner.

Lemma two_roots_ok m :
  manager_ok m -> range_begin m <= kFrameCount -> allocated m 1 = true -> allocated m 2 = true ->
  pt_ok (two_roots m) two_owners.
Proof.
  intros Hm Hb H1 H2. unfold two_owners, root_owner.
  assert (Hf : forall f L p, <[2 := (4%nat, 0)]> ({[ 1 := (4%nat, 0) ]} : gmap Z (nat * Z)) !! f = Some (L, p) ->
    (f = 1 \/ f = 2) /\ L = 4%nat /\ p = 0 /\ mem (two_roots m) !! f = Some (replicate 512 0)).
  { intros f L p Hf. unfold two_roots, machine_with_root. cbn [mem].
    apply lookup_insert_Some in Hf as [[<- [= <- <-]]|[? [<- [= <- <-]]%lookup_singleton_Some]].
    - split_and!; [by right|done|done|apply lookup_insert_eq].
    - rewrite lookup_insert_ne, lookup_singleton_eq by done. split_and!; auto. }
  split; [done| |].
  - intros f L p (Hf12 & -> & -> & Hm')%Hf. split_and!; [lia|lia|destruct Hf12; subst; lia|destruct Hf12; subst; unfold frame_limit; lia|by destruct Hf12; subst|].
    exists (replicate 512 0). split; [done|apply length_replicate].
  - intros f L p vpn e (_ & -> & -> & Hm')%Hf Hc. rewrite load_mul, Hm'. cbn [mbind option_bind].
    intros He. apply getZ_lookup, lookup_replicate in He as [-> _]. done.
Qed.

Lemma CopyPageMaps_shares_read_only_witness :
  exists m st' err, allocated m 1 = true /\
    CopyPageMaps 4 (2 * 2 ^ 12) (1 * 2 ^ 12) 256 (two_roots m) = Some (st', err) /\ CR3 st' = 4096.
Proof.
  destruct (MarkAllocated_spec NewManager 1 2 NewManager_ok) as (m & _ & [Hok Hb _ Hbits]);
    [lia|lia|by vm_compute|].
  assert (H1 : allocated m 1 = true) by (rewrite Hbits by lia; rewrite decide_True by lia; reflexivity).
  assert (H2 : allocated m 2 = true) by (rewrite Hbits by lia; rewrite decide_True by lia; reflexivity).
  assert (Hb' : range_begin m <= kFrameCount).
  { rewrite Hb. assert (range_begin NewManager = 0) as -> by reflexivity. by vm_compute. }
  destruct (CopyPageMaps_shares_read_only (two_roots m) two_owners 1 2) as (st' & err & ow' & E & _ & _ & Hc & _).
  - apply two_roots_ok; assumption.
  - reflexivity.
  - reflexivity.
  - lia.
  - intros x _. rewrite load_mul. change (mem (two_roots m) !! 2) with (Some (replicate 512 0)).
    cbn [mbind option_bind]. unfold getZ. pose proof (idx_range 4 x). rewrite decide_True by lia.
    apply lookup_replicate_2. lia.
  - exists m, st', err. split; [exact H1|]. split; [exact E|]. rewrite Hc. reflexivity.
Defined.
