(* ===== verification/Vm.v ===== *)
(** * Bytes of the virtual address space

    What a load and a store of a byte do, through the page tables: the level at
    which the kernel copies programs into a new address space. Data pages are
    lists of 64-bit words, so a byte is a part of a word. *)

From S2P Require Import Prelude Bytes FrameBitmap Paging PageFault.
From stdpp Require Import base list numbers option gmap.
From Stdlib Require Import ZArith Lia.

Local Open Scope Z_scope.

#[local] Abbreviation owners := (gmap Z (nat * Z)).

(** Byte [k] of a word. *)
Definition word_byte (w : Z) (k : nat) : option Z := le_bytes 8 w !! k.
Definition put_byte (w : Z) (k : nat) (b : Z) : Z := le_num (<[k := b]> (le_bytes 8 w)).

Lemma word_put_byte w k b k' :
  is_byte b -> (k < 8)%nat ->
  word_byte (put_byte w k b) k' = if decide (k = k') then Some b else word_byte w k'.
Proof.
  intros Hb Hk. unfold word_byte, put_byte.
  pose proof (le_bytes_le_num (<[k:=b]> (le_bytes 8 w))) as E.
  rewrite length_insert, length_le_bytes in E. rewrite E by (by apply Forall_insert; [apply bytes_le_bytes|]).
  case_decide as Hk'; [subst|by apply list_lookup_insert_ne].
  apply list_lookup_insert_eq. by rewrite length_le_bytes.
Qed.

Lemma word_byte_Some w k : (k < 8)%nat -> is_Some (word_byte w k).
Proof. intros. apply lookup_lt_is_Some. by rewrite length_le_bytes. Qed.

(** The two halves of the 48-bit address space; other addresses fault. *)
Definition canonical (a : Z) : bool :=
  bool_decide (0 <= a < 2 ^ 47 \/ 2 ^ 64 - 2 ^ 47 <= a < 2 ^ 64).
(** The application's half. *)
Definition user_addr (a : Z) : Prop := 2 ^ 64 - 2 ^ 47 <= a < 2 ^ 64.

Definition word_of (a : Z) : Z := a mod 4096 / 8.
Definition byte_of (a : Z) : nat := Z.to_nat (a mod 8).

Lemma user_canonical a : user_addr a -> canonical a = true.
Proof. intros. apply bool_decide_eq_true. by right. Qed.

Lemma page_no_user a : user_addr a -> page_no a = a / 4096 - 2 ^ 52 + 2 ^ 36 /\ upper (page_no a).
Proof.
  unfold user_addr, page_no, upper. intros Ha. change (2 ^ 12) with 4096.
  assert (2 ^ 52 - 2 ^ 35 <= a / 4096 < 2 ^ 52) as Hd.
  { split; [apply Z.div_le_lower_bound|apply Z.div_lt_upper_bound]; lia. }
  assert ((a / 4096) mod 2 ^ 36 = a / 4096 - 2 ^ 52 + 2 ^ 36) as ->; [|lia].
  symmetry. apply (Z.mod_unique _ _ (2 ^ 16 - 1)); lia.
Qed.

(** Different addresses of a page name different words or different bytes. *)
Lemma addr_parts a a' :
  user_addr a -> user_addr a' -> page_no a = page_no a' -> word_of a = word_of a' -> byte_of a = byte_of a' -> a = a'.
Proof.
  intros Ha Ha' Hp Hw Hb. destruct (page_no_user a Ha) as [Ep _]. destruct (page_no_user a' Ha') as [Ep' _].
  unfold word_of, byte_of in *.
  pose proof (Z.div_mod a 4096 ltac:(lia)). pose proof (Z.div_mod a' 4096 ltac:(lia)).
  pose proof (Z.div_mod (a mod 4096) 8 ltac:(lia)). pose proof (Z.div_mod (a' mod 4096) 8 ltac:(lia)).
  pose proof (Z.mod_pos_bound a 8). pose proof (Z.mod_pos_bound a' 8).
  assert (forall x, (x mod 4096) mod 8 = x mod 8) as Hm.
  { intros x. change 4096 with (8 * 512). rewrite Z.rem_mul_r by lia.
    rewrite (Z.mul_comm 8), Z.mod_add, Z.mod_mod by lia. done. }
  rewrite Hm in *. lia.
Qed.

Lemma word_of_range a : 0 <= word_of a < 512.
Proof.
  unfold word_of. pose proof (Z.mod_pos_bound a 4096).
  split; [apply Z.div_pos|apply Z.div_lt_upper_bound]; lia.
Qed.

Lemma byte_of_range a : (byte_of a < 8)%nat.
Proof. unfold byte_of. pose proof (Z.mod_pos_bound a 8). lia. Qed.

Section vm.
Context {A : Type} `{!FrameAllocator A}.
Implicit Types (st : @Machine A) (ow : owners).

(** A load of a byte; a page that is not present is a fault. *)
Definition read_byte (a : Z) st : option Z :=
  if canonical a then
    '(f, _, _) ← translate st 4 (CR3 st) (page_no a);
    pg ← mem st !! f;
    w ← getZ pg (word_of a);
    word_byte w (byte_of a)
  else None.

(** A store of a byte by the kernel, which runs with CR0.WP clear. *)
Definition write_byte (a b : Z) st : option Machine :=
  if canonical a then
    '(f, _, _) ← translate st 4 (CR3 st) (page_no a);
    pg ← mem st !! f;
    w ← getZ pg (word_of a);
    pg' ← setZ pg (word_of a) (put_byte w (byte_of a) b);
    Some (set_mem (<[f := pg']> (mem st)) st)
  else None.

(** [memcpy(a, bs, sizeof(bs))]. *)
Fixpoint write_bytes (a : Z) (bs : list Z) st : option Machine :=
  match bs with
  | [] => Some st
  | b :: bs' => st' ← write_byte a b st; write_bytes (a + 1) bs' st'
  end.

(** An address space: well-formed tables whose root is loaded, no two pages of
    the application's half on the same frame, whole pages of data. *)
Record vm_ok st ow (root : Z) : Prop := {
  vm_pt : pt_ok st ow;
  vm_cr3 : CR3 st = root * 2 ^ 12;
  vm_root : ow !! root = Some (4%nat, 0);
  vm_inj : forall x y f w u w' u', upper x -> upper y ->
    translate st 4 (CR3 st) x = Some (f, w, u) -> translate st 4 (CR3 st) y = Some (f, w', u') -> x = y;
  vm_page : forall x f w u, upper x -> translate st 4 (CR3 st) x = Some (f, w, u) ->
    exists pg, mem st !! f = Some pg /\ length pg = 512%nat;
}.

Definition mapped_at st (x : Z) : Prop := is_Some (translate st 4 (CR3 st) x).

Lemma vm_data st ow root x f w u :
  vm_ok st ow root -> upper x -> translate st 4 (CR3 st) x = Some (f, w, u) -> data_page st ow f.
Proof.
  intros H Hx Ht. rewrite (vm_cr3 _ _ _ H) in Ht.
  eapply (translate_data 4); [apply H|apply H|by apply covers_root|exact Ht].
Qed.

Lemma read_byte_Some st ow root a :
  vm_ok st ow root -> user_addr a -> mapped_at st (page_no a) -> is_Some (read_byte a st).
Proof.
  intros H Ha [[[f w] u] Ht]. unfold read_byte. rewrite user_canonical, Ht by done. cbn [mbind option_bind].
  destruct (page_no_user a Ha) as [_ Hu]. destruct (vm_page _ _ _ H _ _ _ _ Hu Ht) as (pg & -> & Hlen). cbn [mbind option_bind].
  destruct (getZ_Some pg (word_of a)) as [v ->]; [rewrite Hlen; apply word_of_range|]. cbn [mbind option_bind].
  apply word_byte_Some, byte_of_range.
Qed.

(** The machine after a change of memory that leaves the address space. *)
Record same_space st ow (root : Z) st' : Prop := {
  ss_ok : vm_ok st' ow root;
  ss_translate : forall x, upper x -> translate st' 4 (CR3 st') x = translate st 4 (CR3 st) x;
  ss_manager : memory_manager st' = memory_manager st;
}.

Lemma same_space_trans st ow root st1 st2 :
  same_space st ow root st1 -> same_space st1 ow root st2 -> same_space st ow root st2.
Proof.
  intros [_ T1 M1] [O2 T2 M2]. split; [done| |congruence]. intros x Hx. by rewrite T2, T1.
Qed.

Lemma write_byte_spec st ow root a b :
  vm_ok st ow root -> user_addr a -> mapped_at st (page_no a) -> is_byte b ->
  exists st', write_byte a b st = Some st' /\ same_space st ow root st' /\
    forall a', user_addr a' -> read_byte a' st' = if decide (a' = a) then Some b else read_byte a' st.
Proof.
  intros H Ha [[[f w] u] Ht] Hb. unfold write_byte. rewrite user_canonical, Ht by done. cbn [mbind option_bind].
  destruct (page_no_user a Ha) as [_ Hu]. destruct (vm_page _ _ _ H _ _ _ _ Hu Ht) as (pg & Hpg & Hlen).
  rewrite Hpg. cbn [mbind option_bind].
  pose proof (word_of_range a) as Hw. destruct (getZ_Some pg (word_of a)) as [v Hv]; [by rewrite Hlen|].
  rewrite Hv. cbn [mbind option_bind]. rewrite setZ_Some by (by rewrite Hlen). cbn [mbind option_bind].
  set (pg' := <[Z.to_nat (word_of a):=put_byte v (byte_of a) b]> pg). set (st' := set_mem _ st).
  exists st'. split; [done|].
  pose proof (vm_data _ _ _ _ _ _ _ H Hu Ht) as Hdata.
  destruct (data_write_ok st ow f pg') as [Hok Htr]; [apply H|apply Hdata|]. fold st' in Hok, Htr.
  assert (forall x, upper x -> translate st' 4 (CR3 st') x = translate st 4 (CR3 st) x) as Htr4.
  { intros x Hx. change (CR3 st') with (CR3 st). rewrite (vm_cr3 _ _ _ H).
    apply (Htr _ 4%nat 0); [apply H|by apply covers_root]. }
  assert (forall g, mem st' !! g = if decide (g = f) then Some pg' else mem st !! g) as Hmem.
  { intros g. unfold st'; cbn. case_decide; [subst; apply lookup_insert_eq|by apply lookup_insert_ne]. }
  split; [split; [split; [done|apply H|apply H| |]|exact Htr4|done]|].
  - intros x y g w1 u1 w2 u2 Hx Hy. rewrite !Htr4 by done. by apply (vm_inj _ _ _ H).
  - intros x g w1 u1 Hx. rewrite Htr4, Hmem by done. intros Htx. case_decide.
    + exists pg'. split; [done|]. unfold pg'. by rewrite length_insert.
    + by apply (vm_page _ _ _ H x g w1 u1).
  - intros a' Ha'. destruct (page_no_user a' Ha') as [_ Hu']. unfold read_byte.
    rewrite user_canonical, Htr4 by done.
    destruct (decide (a' = a)) as [->|Hne].
    + rewrite Ht. cbn [mbind option_bind]. rewrite Hmem, decide_True by done. cbn [mbind option_bind].
      unfold getZ, pg'. rewrite decide_True, list_lookup_insert_eq by lia. cbn [mbind option_bind].
      rewrite word_put_byte by (done || apply byte_of_range). by rewrite decide_True.
    + destruct (translate st 4 (CR3 st) (page_no a')) as [[[g w'] u']|] eqn:Ht'; [|done]. cbn [mbind option_bind].
      rewrite Hmem. case_decide as Hg; [subst g|done].
      assert (page_no a' = page_no a) as Hpn by (by eapply (vm_inj _ _ _ H)).
      rewrite Hpg. cbn [mbind option_bind]. pose proof (word_of_range a'). unfold getZ, pg'.
      rewrite decide_True by lia.
      destruct (decide (word_of a' = word_of a)) as [Hwa|Hwa].
      * rewrite Hwa, list_lookup_insert_eq by lia. unfold getZ in Hv. rewrite decide_True in Hv by lia.
        rewrite Hv. cbn [mbind option_bind]. rewrite word_put_byte by (done || apply byte_of_range).
        rewrite (decide_True (P := 0 <= word_of a)) by lia. rewrite decide_False; [done|].
        intros Hba. apply Hne. by apply addr_parts.
      * by rewrite list_lookup_insert_ne, decide_True by lia.
Qed.

(** A run of bytes: those written are read back, the others stay. *)
Lemma write_bytes_spec bs : forall st ow root a,
  vm_ok st ow root -> (forall i, 0 <= i < Z.of_nat (length bs) -> user_addr (a + i) /\ mapped_at st (page_no (a + i))) ->
  bytes bs ->
  exists st', write_bytes a bs st = Some st' /\ same_space st ow root st' /\
    forall a', user_addr a' -> read_byte a' st' =
      if decide (a <= a' < a + Z.of_nat (length bs)) then bs !! Z.to_nat (a' - a) else read_byte a' st.
Proof.
  induction bs as [|b bs IH]; intros st ow root a H Hmap Hb.
  { exists st. split; [done|]. split; [by split|]. intros a' _. rewrite decide_False by (simpl; lia). done. }
  apply Forall_cons_1 in Hb. destruct Hb as [Hb Hbs].
  destruct (Hmap 0) as [Ha Hm]; [simpl; lia|]. rewrite Z.add_0_r in Ha, Hm.
  destruct (write_byte_spec st ow root a b H Ha Hm Hb) as (st1 & E1 & S1 & R1).
  destruct (IH st1 ow root (a + 1)) as (st2 & E2 & S2 & R2); [apply S1| |done|].
  { intros i Hi. replace (a + 1 + i) with (a + (i + 1)) by lia.
    destruct (Hmap (i + 1)) as [Hu Hmi]; [simpl; lia|]. split; [done|]. unfold mapped_at.
    rewrite (ss_translate _ _ _ _ S1); [done|]. by apply page_no_user. }
  exists st2. cbn [write_bytes]. rewrite E1. cbn [mbind option_bind]. split; [done|].
  split; [by eapply same_space_trans|]. intros a' Ha'. rewrite R2, R1 by done. cbn [length].
  repeat case_decide; try lia; try done.
  - replace (Z.to_nat (a' - a)) with (S (Z.to_nat (a' - (a + 1)))) by lia. done.
  - subst. by rewrite Z.sub_diag.
Qed.
End vm.
