(* ===== verification/KernelLog.v ===== *)
(** * The kernel log and the volume image (kernel/system.cpp)

    The log is a ring buffer of 1024 bytes between [head] and [tail]; the
    volume image is read and written by sectors. *)

From S2P Require Import Prelude Bytes.
From stdpp Require Import base list numbers option.
From Stdlib Require Import ZArith Lia.

Local Open Scope Z_scope.

(** ** The log *)

Definition log_size : Z := 1024.

(** [src/kernel/system.cpp:375-378] [kernel_log_buf] *)
Record Log := MkLog { log_buf : list Z; head : Z; tail : Z; changed : bool }.

(** [src/kernel/system.cpp:383-385] [InitializeSystemTask] *)
Definition InitialLog : Log := MkLog (replicate (Z.to_nat log_size) 0) 0 0 false.

(** The [while] loop of [KernelLogWrite].
    [src/kernel/system.cpp:427-431] [KernelLogWrite] *)
Fixpoint log_put (s : list Z) (buf : list Z) (h : Z) : option (list Z * Z) :=
  match s with
  | [] => Some (buf, h)
  | c :: s' => buf' ← setZ buf h c; log_put s' buf' ((h + 1) mod log_size)
  end.

(** [src/kernel/system.cpp:421-435] [KernelLogWrite] *)
Definition KernelLogWrite (s : list Z) (st : Log) : option Log :=
  let i := s32 (head st) in
  let h := if changed st then tail st else head st in
  '(buf, h') ← log_put s (log_buf st) h;
  Some (MkLog buf i h' true).

(** The bytes copied to the caller, and the room left in its buffer.
    [src/kernel/system.cpp:437-454] [KernelLogRead] *)
Definition KernelLogRead (len : Z) (st : Log) : option (list Z * Z * Log) :=
  '(out1, remaining, h) ←
    (if decide (head st > tail st) then
       let copy_len := Z.min len (log_size - head st) in
       out ← read_at (log_buf st) (Z.to_nat (head st)) (Z.to_nat copy_len);
       Some (out, len - copy_len, 0)
     else Some ([], len, head st));
  let copy_len := Z.min remaining (tail st - h) in
  out2 ← read_at (log_buf st) (Z.to_nat h) (Z.to_nat copy_len);
  Some (out1 ++ out2, remaining - copy_len,
        MkLog (log_buf st) ((h + copy_len) mod log_size) (tail st) false).

(** ** What the ring holds *)

(** [n] bytes of the ring from position [h]. *)
Definition ring (buf : list Z) (h : Z) (n : nat) : list Z :=
  (fun k => default 0 (getZ buf ((h + Z.of_nat k) mod log_size))) <$> seq 0 n.

Definition pending_len (st : Log) : nat := Z.to_nat ((tail st - head st) mod log_size).
Definition pending (st : Log) : list Z := ring (log_buf st) (head st) (pending_len st).

Record log_ok (st : Log) : Prop := {
  lo_len : length (log_buf st) = Z.to_nat log_size;
  lo_head : 0 <= head st < log_size;
  lo_tail : 0 <= tail st < log_size;
  lo_idle : changed st = false -> head st = tail st;
}.

Lemma ring_S buf h n : ring buf h (S n) = ring buf h n ++ [default 0 (getZ buf ((h + Z.of_nat n) mod log_size))].
Proof. unfold ring. by rewrite seq_S, fmap_app. Qed.

Lemma length_ring buf h n : length (ring buf h n) = n.
Proof. unfold ring. by rewrite length_fmap, length_seq. Qed.

Lemma ring_app buf h n m : ring buf h (n + m) = ring buf h n ++ ring buf (h + Z.of_nat n) m.
Proof.
  induction m as [|m IH]; [by rewrite Nat.add_0_r, app_nil_r|].
  rewrite Nat.add_succ_r, !ring_S, IH, <- app_assoc. by replace (h + Z.of_nat (n + m)) with (h + Z.of_nat n + Z.of_nat m) by lia.
Qed.

Lemma ring_mod buf h n : ring buf (h mod log_size) n = ring buf h n.
Proof.
  unfold ring. apply list_fmap_ext. intros _ k _. f_equal. f_equal.
  by rewrite Zplus_mod_idemp_l.
Qed.

(** A stretch that does not wrap is a slice. *)
Lemma ring_slice buf h n :
  length buf = Z.to_nat log_size -> 0 <= h -> h + Z.of_nat n <= log_size ->
  ring buf h n = slice buf (Z.to_nat h) n.
Proof.
  intros Hl Hh Hn. apply list_eq. intros k. rewrite lookup_slice. unfold ring.
  rewrite list_lookup_fmap. case_decide as Hk.
  - rewrite lookup_seq_lt by done. cbn. rewrite Z.mod_small by lia. unfold getZ.
    rewrite decide_True by lia. replace (Z.to_nat (h + Z.of_nat k)) with (Z.to_nat h + k)%nat by lia.
    destruct (lookup_lt_is_Some_2 buf (Z.to_nat h + k)) as [x Hx]; [unfold log_size in *; lia|].
    by rewrite Hx.
  - by rewrite lookup_seq_ge by lia.
Qed.

(** Writing one byte behind [n < 1024] pending ones. *)
Lemma ring_put buf h n c buf' :
  length buf = Z.to_nat log_size -> Z.of_nat n < log_size ->
  setZ buf ((h + Z.of_nat n) mod log_size) c = Some buf' ->
  ring buf' h (S n) = ring buf h n ++ [c].
Proof.
  intros Hl Hn Hs. rewrite ring_S. rewrite (getZ_setZ _ _ _ _ _ Hs), decide_True by done. f_equal.
  unfold ring. apply list_fmap_ext. intros i k [-> Hk]%lookup_seq. cbn.
  rewrite (getZ_setZ _ _ _ _ _ Hs), decide_False; [done|]. intros E.
  apply (f_equal (fun x => (x - h) mod log_size)) in E. rewrite !Zminus_mod_idemp_l in E.
  replace (h + Z.of_nat n - h) with (Z.of_nat n) in E by lia.
  replace (h + Z.of_nat i - h) with (Z.of_nat i) in E by lia.
  unfold log_size in *. rewrite !Z.mod_small in E by lia. lia.
Qed.

Lemma log_put_spec s : forall buf h n,
  length buf = Z.to_nat log_size -> Z.of_nat n + Z.of_nat (length s) < log_size ->
  exists buf', log_put s buf ((h + Z.of_nat n) mod log_size) =
      Some (buf', (h + Z.of_nat (n + length s)) mod log_size) /\
    length buf' = Z.to_nat log_size /\ ring buf' h (n + length s) = ring buf h n ++ s.
Proof.
  induction s as [|c s IH]; intros buf h n Hl Hn; cbn [log_put length] in *.
  - exists buf. rewrite Nat.add_0_r, app_nil_r. done.
  - destruct (setZ buf ((h + Z.of_nat n) mod log_size) c) as [buf1|] eqn:Hs.
    2: { rewrite setZ_Some in Hs; [done|]. rewrite Hl. pose proof (Z.mod_pos_bound (h + Z.of_nat n) log_size). unfold log_size in *. lia. }
    cbn [mbind option_bind]. rewrite Zplus_mod_idemp_l.
    replace (h + Z.of_nat n + 1) with (h + Z.of_nat (S n)) by lia.
    destruct (IH buf1 h (S n)) as (buf' & -> & Hl' & Hr); [by rewrite (length_setZ _ _ _ _ Hs)|lia|].
    exists buf'. split; [by rewrite Nat.add_succ_r|]. split; [done|].
    rewrite Nat.add_succ_r. rewrite Nat.add_succ_l in Hr.
    rewrite Hr, (ring_put buf h n c buf1) by (done || lia). by rewrite <- app_assoc.
Qed.

Lemma pending_len_lt st : Z.of_nat (pending_len st) < log_size.
Proof. unfold pending_len. pose proof (Z.mod_pos_bound (tail st - head st) log_size). unfold log_size in *. lia. Qed.

Lemma tail_pending st : log_ok st -> tail st = (head st + Z.of_nat (pending_len st)) mod log_size.
Proof.
  intros [_ Hh Ht _]. unfold pending_len. pose proof (Z.mod_pos_bound (tail st - head st) log_size).
  unfold log_size in *. rewrite Z2Nat.id by lia. rewrite Zplus_mod_idemp_r.
  replace (head st + (tail st - head st)) with (tail st) by lia. by rewrite Z.mod_small.
Qed.

Lemma KernelLogWrite_spec s st :
  log_ok st -> Z.of_nat (pending_len st + length s) < log_size ->
  exists st', KernelLogWrite s st = Some st' /\ log_ok st' /\ pending st' = pending st ++ s.
Proof.
  intros H Hlen. pose proof (tail_pending st H) as Ht. destruct H as [Hl Hh Htr Hi].
  assert (Hstart : (if changed st then tail st else head st) = (head st + Z.of_nat (pending_len st)) mod log_size).
  { rewrite <- Ht. destruct (changed st) eqn:E; [done|]. by apply Hi. }
  unfold KernelLogWrite. rewrite Hstart.
  destruct (log_put_spec s (log_buf st) (head st) (pending_len st) Hl) as (buf' & -> & Hl' & Hr); [lia|].
  cbn [mbind option_bind]. rewrite s32_small by (unfold log_size in *; lia).
  eexists; split; [done|].
  assert (Hmod : 0 <= (head st + Z.of_nat (pending_len st + length s)) mod log_size < log_size)
    by (apply Z.mod_pos_bound; done).
  split; [by split|]. unfold pending at 1. cbn [log_buf head tail].
  assert (pending_len (MkLog buf' (head st) ((head st + Z.of_nat (pending_len st + length s)) mod log_size) true)
    = (pending_len st + length s)%nat) as ->; [|done].
  unfold pending_len at 1. cbn [head tail]. rewrite Zminus_mod_idemp_l.
  replace (head st + Z.of_nat (pending_len st + length s) - head st) with (Z.of_nat (pending_len st + length s)) by lia.
  rewrite Z.mod_small by lia. lia.
Qed.

Lemma KernelLogRead_spec len st :
  log_ok st -> Z.of_nat (pending_len st) <= len ->
  exists st', KernelLogRead len st = Some (pending st, len - Z.of_nat (pending_len st), st') /\
    log_ok st' /\ pending st' = [].
Proof.
  intros [Hl Hh Ht Hi] Hlen. unfold KernelLogRead, pending, pending_len in *.
  assert (Hdone : forall h, log_ok (MkLog (log_buf st) ((h + (tail st - h)) mod log_size) (tail st) false) /\
    ring (log_buf st) ((h + (tail st - h)) mod log_size) (Z.to_nat ((tail st - (h + (tail st - h)) mod log_size) mod log_size)) = []).
  { intros h. replace (h + (tail st - h)) with (tail st) by lia. rewrite Z.mod_small by done.
    rewrite Z.sub_diag. split; [|done]. by split. }
  case_decide as Hgt.
  - assert (Hm : (tail st - head st) mod log_size = log_size - head st + tail st).
    { symmetry. apply (Z.mod_unique _ _ (-1)); unfold log_size in *; lia. }
    rewrite Hm in *. rewrite Z.min_r by lia. rewrite read_at_Some by (unfold log_size in *; lia).
    cbn [mbind option_bind]. rewrite Z.min_r by lia. rewrite read_at_Some by (unfold log_size in *; lia).
    cbn [mbind option_bind]. eexists; split; [|exact (Hdone 0)]. f_equal. f_equal. f_equal; [|unfold log_size in *; lia].
    replace (Z.to_nat (log_size - head st + tail st)) with (Z.to_nat (log_size - head st) + Z.to_nat (tail st))%nat by lia.
    rewrite ring_app. replace (head st + Z.of_nat (Z.to_nat (log_size - head st))) with (0 + 1 * log_size) by lia.
    rewrite <- (ring_mod _ (0 + 1 * log_size)), Z.mod_add by done.
    rewrite Zmod_0_l, !ring_slice by (done || lia). by rewrite Z.sub_0_r.
  - assert (Hm : (tail st - head st) mod log_size = tail st - head st) by (apply Z.mod_small; lia).
    rewrite Hm in *. cbn [mbind option_bind]. rewrite Z.min_r by lia. rewrite read_at_Some by (unfold log_size in *; lia).
    cbn [mbind option_bind]. eexists; split; [|exact (Hdone (head st))]. f_equal. f_equal. f_equal; [|lia].
    rewrite ring_slice by (done || lia). done.
Qed.

(** Writes of several messages in turn. *)
Fixpoint log_writes (ss : list (list Z)) (st : Log) : option Log :=
  match ss with
  | [] => Some st
  | s :: ss' => st' ← KernelLogWrite s st; log_writes ss' st'
  end.

(** The log loses nothing as long as it does not overflow: from any
    sane state, after messages are written and then read with room for all
    of them, the reader gets the bytes pending before followed by the messages in
    order, around the end of the ring as well, and the log is empty; the result is the
    room left. *)
Theorem log_roundtrip ss : forall st len,
  log_ok st -> Z.of_nat (length (pending st ++ concat ss)) < log_size ->
  Z.of_nat (length (pending st ++ concat ss)) <= len ->
  exists st1 st2, log_writes ss st = Some st1 /\
    KernelLogRead len st1 =
      Some (pending st ++ concat ss, len - Z.of_nat (length (pending st ++ concat ss)), st2) /\
    log_ok st2 /\ pending st2 = [].
Proof.
  assert (Hlp : forall st, length (pending st) = pending_len st) by (intros; apply length_ring).
  induction ss as [|s ss IH]; intros st len H Hn Hlen; cbn [log_writes concat] in *.
  - rewrite app_nil_r in *. rewrite Hlp in *.
    destruct (KernelLogRead_spec len st H Hlen) as (st2 & ? & ? & ?). by exists st, st2.
  - rewrite app_assoc in *.
    destruct (KernelLogWrite_spec s st H) as (st' & E & H' & Hp).
    { rewrite <- Hlp. rewrite !length_app in Hn. lia. }
    rewrite E; cbn [mbind option_bind]. rewrite <- Hp in *. by apply IH.
Qed.

Lemma InitialLog_ok : log_ok InitialLog.
Proof. by split. Qed.

Lemma log_roundtrip_witness :
  exists st1 st2, log_writes [[104; 105]; [10]] InitialLog = Some st1 /\
    KernelLogRead 128 st1 = Some ([104; 105; 10], 125, st2) /\ log_ok st2 /\ pending st2 = [].
Proof.
  apply (log_roundtrip [[104; 105]; [10]] InitialLog 128); [apply InitialLog_ok|done|done].
Defined.

(** A reader with too little room loses the rest: the log forgets that
    bytes remain. *)
Lemma log_short_read : forall st1 st2 out r,
  log_writes [[1; 2; 3]] InitialLog = Some st1 -> KernelLogRead 2 st1 = Some (out, r, st2) ->
  out = [1; 2] /\ changed st2 = false /\ pending st2 = [3].
Proof. intros st1 st2 out r [= <-] [= <- <- <-]. done. Qed.

(** ** The volume image *)

Definition SECTOR_SIZE : Z := 512.

(** The products are of type [size_t]. The result is what the caller's buffer receives.
    [src/kernel/system.cpp:405-411] [ReadImage] *)
Definition ReadImage (v_image : list Z) (offset_by_sector len_by_sector : Z) : option (list Z) :=
  let offset_bytes := u64 (offset_by_sector * SECTOR_SIZE) in
  let copy_bytes := u64 (len_by_sector * SECTOR_SIZE) in
  read_at v_image (Z.to_nat offset_bytes) (Z.to_nat copy_bytes).

(** [buf] is the caller's buffer.
    [src/kernel/system.cpp:413-419] [CopyToImage] *)
Definition CopyToImage (v_image buf : list Z) (offset_by_sector len_by_sector : Z) : option (list Z) :=
  let offset_bytes := u64 (offset_by_sector * SECTOR_SIZE) in
  let copy_bytes := u64 (len_by_sector * SECTOR_SIZE) in
  src ← read_at buf 0 (Z.to_nat copy_bytes);
  write_at v_image (Z.to_nat offset_bytes) src.

(** A device of sectors: what the file server relies on. *)
Class BlockDevice (D : Type) := {
  bd_read : D -> Z -> Z -> option (list Z);
  bd_write : D -> list Z -> Z -> Z -> option D;
  bd_sectors : D -> Z;
  bd_sector : D -> Z -> list Z;
  bd_sector_length : forall d k, 0 <= k < bd_sectors d -> length (bd_sector d k) = 512%nat;
  bd_read_spec : forall d off n, 0 <= off -> 0 <= n -> off + n <= bd_sectors d ->
    bd_read d off n = Some (concat ((fun k => bd_sector d (off + Z.of_nat k)) <$> seq 0 (Z.to_nat n)));
  bd_write_spec : forall d data off n, 0 <= off -> 0 <= n -> off + n <= bd_sectors d ->
    (Z.to_nat (512 * n) <= length data)%nat ->
    exists d', bd_write d data off n = Some d' /\ bd_sectors d' = bd_sectors d /\
      forall k, 0 <= k < bd_sectors d ->
        bd_sector d' k = if decide (off <= k < off + n) then slice data (Z.to_nat (512 * (k - off))) 512
                         else bd_sector d k;
}.

Lemma concat_slices (l : list Z) o n :
  (o + n * 512 <= length l)%nat ->
  concat ((fun k => slice l (o + k * 512) 512) <$> seq 0 n) = slice l o (n * 512).
Proof.
  induction n as [|n IH]; intros Hn; [by destruct (drop o l)|].
  rewrite seq_S, fmap_app, concat_app, IH by lia. cbn [fmap list_fmap concat Nat.add]. rewrite app_nil_r.
  rewrite Nat.mul_succ_l. unfold slice. rewrite <- drop_drop, take_take_drop. done.
Qed.

(** The sectors a 64-bit byte offset can reach. *)
Definition image_sectors (v : list Z) : Z := Z.min (Z.of_nat (length v) / SECTOR_SIZE) (2 ^ 54).

Lemma image_sectors_le v k : k <= image_sectors v -> 512 * k <= Z.of_nat (length v) /\ k <= 2 ^ 54.
Proof.
  unfold image_sectors, SECTOR_SIZE. pose proof (Z.mul_div_le (Z.of_nat (length v)) 512). lia.
Qed.

#[export] Instance image_device : BlockDevice (list Z).
Proof.
  refine {|
    bd_read := ReadImage; bd_write := CopyToImage;
    bd_sectors := image_sectors;
    bd_sector := fun v k => slice v (Z.to_nat (k * SECTOR_SIZE)) 512 |}.
  - intros v k Hk. destruct (image_sectors_le v (k + 1)); [lia|]. apply length_slice. unfold SECTOR_SIZE. lia.
  - intros v off n Ho Hn Hle. apply image_sectors_le in Hle as [Hle Hb].
    unfold ReadImage, SECTOR_SIZE. rewrite !u64_small by lia. rewrite read_at_Some by lia. f_equal.
    replace (Z.to_nat (n * 512)) with (Z.to_nat n * 512)%nat by lia.
    rewrite <- concat_slices by lia. f_equal. apply list_fmap_ext. intros _ k _. f_equal. lia.
  - intros v data off n Ho Hn Hle Hd. apply image_sectors_le in Hle as [Hle Hb].
    unfold CopyToImage, SECTOR_SIZE. rewrite !u64_small by lia.
    rewrite read_at_Some by lia. cbn [mbind option_bind].
    assert (Hls : length (slice data 0 (Z.to_nat (n * 512))) = Z.to_nat (n * 512)) by (apply length_slice; lia).
    rewrite write_at_Some by lia. eexists; split; [done|].
    split; [unfold image_sectors; by rewrite length_splice by lia|].
    intros k Hk. destruct (image_sectors_le v (k + 1)); [lia|].
    apply list_eq. intros i. rewrite lookup_slice. case_decide as Hi.
    + rewrite lookup_splice by lia. rewrite Hls. case_decide as Hin; case_decide as Hr; try lia.
      * rewrite !lookup_slice, !decide_True by lia. f_equal. lia.
      * by rewrite lookup_slice, decide_True by lia.
    + case_decide; by rewrite lookup_slice, decide_False by lia.
Defined.
