(* ===== verification/ArgVector.v ===== *)
(** * The argument vector of an application (kernel/system.cpp)

    [MakeArgVector] cuts the command line into words, in place, and copies
    them into the page that holds the new program's [argv]. *)

From S2P Require Import Prelude Bytes.
From stdpp Require Import base list numbers option.
From Stdlib Require Import ZArith Lia.

Local Open Scope Z_scope.

(** [isspace] of the C locale. *)
Definition isspace (c : Z) : bool := (c =? 32) || (9 <=? c) && (c <=? 13).

(** [argv] holds addresses; [argbuf_addr] is that of the block [argbuf]. *)
Record Args := MkArgs { argc : Z; argbuf_index : Z; argv : list Z; argbuf : list Z }.

Section make.
Context (argv_len argbuf_len argbuf_addr : Z).

(** [src/kernel/system.cpp:21-31] [push_to_argv] *)
Definition push_to_argv (s : list Z) (st : Args) : option (Args * Code) :=
  if decide (argc st >= argv_len \/ argbuf_index st >= argbuf_len) then Some (st, kFull)
  else
    argv' ← setZ (argv st) (argc st) (argbuf_addr + argbuf_index st);
    argbuf' ← strcpy (argbuf st) (Z.to_nat (argbuf_index st)) s;
    Some (MkArgs (argc st + 1) (argbuf_index st + (Z.of_nat (length s) + 1)) argv' argbuf', kSuccess).

(** [while (f(p[0])) ++p;] from position [p] of the block. *)
Fixpoint span_end (f : Z -> bool) (l : list Z) (p : Z) : option Z :=
  match l with
  | [] => None
  | c :: l' => if f c then span_end f l' (p + 1) else Some p
  end.

(** [src/kernel/system.cpp:40-63] [MakeArgVector] *)
Fixpoint MakeArgVector_loop (fuel : nat) (buf : list Z) (p : Z) (st : Args) :
    option (list Z * Args * Code) :=
  match fuel with
  | O => None
  | S fuel' =>
      arg ← span_end isspace (drop (Z.to_nat p) buf) p;
      c ← getZ buf arg;
      if decide (c = 0) then Some (buf, st, kSuccess)
      else
        q ← span_end (fun c => negb (c =? 0) && negb (isspace c)) (drop (Z.to_nat arg) buf) arg;
        c ← getZ buf q;
        let is_end := c =? 0 in
        buf' ← setZ buf q 0;
        s ← c_str (drop (Z.to_nat arg) buf');
        '(st', err) ← push_to_argv s st;
        if is_error err then Some (buf', st', err)
        else if is_end then Some (buf', st', kSuccess)
        else MakeArgVector_loop fuel' buf' (q + 1) st'
  end.

(** The result's [argc] is the state's. [first_arg] is the block that holds the
    argument string, [None] for a null pointer.
    [src/kernel/system.cpp:16-66] [MakeArgVector] *)
Definition MakeArgVector (command : list Z) (first_arg : option (list Z))
    (argv0 argbuf0 : list Z) : option (option (list Z) * Args * Code) :=
  '(st, err) ← push_to_argv command (MkArgs 0 0 argv0 argbuf0);
  if is_error err then Some (first_arg, st, err)
  else
    match first_arg with
    | None => Some (None, st, kSuccess)
    | Some buf =>
        '(buf', st', err) ← MakeArgVector_loop (S (length buf)) buf 0 st;
        Some (Some buf', st', err)
    end.
End make.

(** ** The reference: the words of a string *)

Definition flush (cur : list Z) : list (list Z) := match cur with [] => [] | _ => [cur] end.

Fixpoint words_from (cur s : list Z) : list (list Z) :=
  match s with
  | [] => flush cur
  | c :: s' => if isspace c then flush cur ++ words_from [] s' else words_from (cur ++ [c]) s'
  end.

Definition words (s : list Z) : list (list Z) := words_from [] s.

Definition spaces (s : list Z) : Prop := Forall (fun c => isspace c = true) s.
Definition word (s : list Z) : Prop := Forall (fun c => isspace c = false) s.

Lemma words_spaces sp s : spaces sp -> words (sp ++ s) = words s.
Proof. unfold words. induction 1 as [|c sp Hc _ IH]; cbn; [done|]. by rewrite Hc. Qed.

Lemma words_from_word cur w s : word w -> words_from cur (w ++ s) = words_from (cur ++ w) s.
Proof.
  intros Hw. revert cur. induction Hw as [|c w Hc _ IH]; intros cur; cbn; [by rewrite app_nil_r|].
  by rewrite Hc, IH, <- app_assoc.
Qed.

Lemma words_cons w c s : w <> [] -> word w -> isspace c = true -> words (w ++ c :: s) = w :: words s.
Proof.
  intros Hne Hw Hc. unfold words. rewrite words_from_word by done. cbn. rewrite Hc.
  by destruct w.
Qed.

Lemma words_one w : w <> [] -> word w -> words w = [w].
Proof.
  intros Hne Hw. unfold words. rewrite <- (app_nil_r w) at 1. rewrite words_from_word by done.
  cbn. by destruct w.
Qed.

(** A string starts with spaces, then a word up to the next space. *)
Lemma cut (f : Z -> bool) (s : list Z) :
  exists a b, s = a ++ b /\ Forall (fun c => f c = true) a /\ (forall c, head b = Some c -> f c = false).
Proof.
  induction s as [|c s (a & b & -> & Ha & Hb)]; [by exists [], []|].
  destruct (f c) eqn:E; [exists (c :: a), b|exists [], (c :: a ++ b)]; split_and!; try done; [by constructor|].
  by intros ? [= <-].
Qed.

Lemma span_end_app f a c l p :
  Forall (fun x => f x = true) a -> f c = false ->
  span_end f (a ++ c :: l) p = Some (p + Z.of_nat (length a)).
Proof.
  intros Ha Hc. revert p. induction Ha as [|x a Hx _ IH]; intros p; cbn.
  - rewrite Hc. f_equal. lia.
  - rewrite Hx, IH. f_equal. lia.
Qed.

(** ** What the state holds *)

Definition flat (ds : list (list Z)) : list Z := concat (c_chars <$> ds).

Lemma flat_snoc ds s : flat (ds ++ [s]) = flat ds ++ c_chars s.
Proof. unfold flat. rewrite fmap_app, concat_app. cbn. by rewrite app_nil_r. Qed.

Lemma flat_app_length ds es : (length (flat ds) <= length (flat (ds ++ es)))%nat.
Proof. unfold flat. rewrite fmap_app, concat_app, length_app. lia. Qed.

Section proofs.
Context (argv_len argbuf_len base : Z).

(** The strings [ds] are stored one after the other and the first entries
    of [argv] point at them. *)
Record holds (st : Args) (ds : list (list Z)) : Prop := {
  ho_argc : argc st = Z.of_nat (length ds);
  ho_max : Z.of_nat (length ds) <= argv_len;
  ho_index : argbuf_index st = Z.of_nat (length (flat ds));
  ho_argv : length (argv st) = Z.to_nat argv_len;
  ho_argbuf : length (argbuf st) = Z.to_nat argbuf_len;
  ho_room : Z.of_nat (length (flat ds)) <= argbuf_len;
  ho_flat : take (length (flat ds)) (argbuf st) = flat ds;
  ho_nul : Forall no_nul ds;
  ho_ptr : forall i, (i < length ds)%nat ->
    getZ (argv st) (Z.of_nat i) = Some (base + Z.of_nat (length (flat (take i ds))));
}.

Lemma push_spec s st ds :
  holds st ds -> no_nul s -> Z.of_nat (length (flat (ds ++ [s]))) <= argbuf_len ->
  if decide (Z.of_nat (length ds) < argv_len) then
    exists st', push_to_argv argv_len argbuf_len base s st = Some (st', kSuccess) /\ holds st' (ds ++ [s])
  else push_to_argv argv_len argbuf_len base s st = Some (st, kFull).
Proof.
  intros [Ha Hm Hi Hv Hb Hr Hf Hn Hp] Hs Hroom. rewrite flat_snoc, length_app, length_c_chars in Hroom.
  unfold push_to_argv. rewrite Ha, Hi. case_decide as Hlt; [|by rewrite decide_True by lia].
  rewrite decide_False by lia. rewrite setZ_Some by lia. cbn [mbind option_bind].
  unfold strcpy. rewrite !Nat2Z.id, write_at_Some by (rewrite length_c_chars; lia). cbn [mbind option_bind].
  eexists; split; [done|]. split; cbn.
  - rewrite length_app. cbn. lia.
  - rewrite length_app. cbn. lia.
  - rewrite flat_snoc, length_app, length_c_chars. lia.
  - by rewrite length_insert.
  - rewrite length_splice; [done|]. rewrite length_c_chars. lia.
  - rewrite flat_snoc, length_app, length_c_chars. lia.
  - rewrite flat_snoc. unfold splice. rewrite Hf, app_assoc. apply take_app_length.
  - apply Forall_app; split; [done|]. by repeat constructor.
  - intros i Hlen. rewrite length_app in Hlen. cbn in Hlen.
    unfold getZ. rewrite decide_True, Nat2Z.id by lia. destruct (decide (i = length ds)) as [->|Hne].
    + rewrite list_lookup_insert_eq by lia. by rewrite take_app_length.
    + rewrite list_lookup_insert_ne by lia. rewrite take_app_le by lia.
      rewrite <- Hp by lia. unfold getZ. by rewrite decide_True, Nat2Z.id by lia.
Qed.

Lemma holds_full st ds es :
  holds st ds -> Z.of_nat (length ds) = argv_len -> holds st (take (Z.to_nat argv_len) (ds ++ es)).
Proof. intros H <-. by rewrite Nat2Z.id, take_app_length. Qed.

Lemma getZ_middle (a b : list Z) (c n : Z) : n = Z.of_nat (length a) -> getZ (a ++ c :: b) n = Some c.
Proof. intros ->. unfold getZ. by rewrite decide_True, Nat2Z.id, list_lookup_middle by lia. Qed.

Lemma setZ_middle (a b : list Z) (c c' n : Z) :
  n = Z.of_nat (length a) -> setZ (a ++ c :: b) n c' = Some (a ++ c' :: b).
Proof.
  intros ->. rewrite setZ_Some by (rewrite length_app; cbn; lia). f_equal.
  rewrite Nat2Z.id. rewrite insert_app_r_alt by lia. by rewrite Nat.sub_diag.
Qed.

(** One turn of the loop: the word [w] after the spaces [sp]. *)
Lemma loop_word fuel pre sp w d tl st :
  spaces sp -> word w -> no_nul w -> w <> [] -> (d = 0 \/ isspace d = true) ->
  MakeArgVector_loop argv_len argbuf_len base (S fuel) (pre ++ sp ++ w ++ d :: tl) (Z.of_nat (length pre)) st =
    '(st', err) ← push_to_argv argv_len argbuf_len base w st;
    if is_error err then Some (pre ++ sp ++ w ++ 0 :: tl, st', err)
    else if d =? 0 then Some (pre ++ sp ++ w ++ 0 :: tl, st', kSuccess)
    else MakeArgVector_loop argv_len argbuf_len base fuel ((pre ++ sp ++ w ++ [0]) ++ tl)
           (Z.of_nat (length (pre ++ sp ++ w ++ [0]))) st'.
Proof.
  intros Hsp Hw Hn Hne Hd. cbn [MakeArgVector_loop]. rewrite Nat2Z.id, drop_app_length.
  destruct w as [|c w]; [done|]. inversion Hw as [|? ? Hc Hw']; subst. inversion Hn as [|? ? Hc0 _]; subst.
  rewrite <- app_comm_cons, (span_end_app _ sp) by done. cbn [mbind option_bind].
  rewrite (app_assoc pre), (getZ_middle (pre ++ sp)) by (rewrite length_app; lia). cbn [mbind option_bind].
  rewrite decide_False by done.
  replace (Z.to_nat (Z.of_nat (length pre) + Z.of_nat (length sp))) with (length (pre ++ sp))
    by (rewrite length_app; lia).
  rewrite drop_app_length. change (c :: w ++ d :: tl) with ((c :: w) ++ d :: tl).
  rewrite span_end_app.
  2: { clear -Hw Hn. induction Hw as [|x l Hx _ IH]; inversion Hn; subst; constructor; [|by apply IH].
       rewrite Hx. by rewrite (proj2 (Z.eqb_neq x 0)). }
  2: { destruct Hd as [->| ->]; [done|]. apply andb_false_r. }
  cbn [mbind option_bind]. rewrite (app_assoc (pre ++ sp)).
  assert (Hq : Z.of_nat (length pre) + Z.of_nat (length sp) + Z.of_nat (length (c :: w)) =
    Z.of_nat (length ((pre ++ sp) ++ c :: w))) by (rewrite !length_app; lia).
  rewrite (getZ_middle _ tl) by done. cbn [mbind option_bind]. rewrite setZ_middle by done. cbn [mbind option_bind].
  rewrite <- app_assoc, drop_app_length.
  assert (c_str ((c :: w) ++ 0 :: tl) = Some (c :: w)) as ->.
  { rewrite <- (c_str_chars (c :: w) tl) by done. unfold c_chars. by rewrite <- app_assoc. }
  cbn [mbind option_bind].
  rewrite <- !app_assoc. destruct (push_to_argv argv_len argbuf_len base (c :: w) st) as [[st' err]|]; [|done].
  cbn [mbind option_bind]. destruct (is_error err); [done|]. destruct (d =? 0); [done|].
  f_equal. rewrite Hq, !length_app. cbn. lia.
Qed.

(** A string that does not start with a space: its first word, the character that ends it
    in the buffer, and what comes after. *)
Lemma cut_word c t rest :
  isspace c = false ->
  exists w d tl, word w /\ w <> [] /\ c_chars (c :: t) ++ rest = w ++ d :: tl /\
    ((c :: t = w /\ d = 0) \/
     exists u, c :: t = w ++ d :: u /\ isspace d = true /\ tl = c_chars u ++ rest).
Proof.
  intros Hc. destruct (cut (fun c => negb (isspace c)) (c :: t)) as (w & u & E & Hw & Hu).
  assert (Hne : w <> []).
  { intros ->. cbn in E. subst u. specialize (Hu c eq_refl). by rewrite Hc in Hu. }
  assert (Hw' : word w).
  { revert Hw. apply Forall_impl. intros x. apply negb_true_iff. }
  exists w. rewrite E.
  destruct u as [|d u].
  - exists 0, rest. split_and!; try done; [|by left; rewrite app_nil_r].
    rewrite app_nil_r. unfold c_chars. by rewrite <- app_assoc.
  - exists d, (c_chars u ++ rest). split_and!; try done.
    + unfold c_chars. by rewrite <- !app_assoc.
    + right. exists u. split_and!; try done. specialize (Hu d eq_refl). by apply negb_false_iff in Hu.
Qed.

(** A word and what follows it. *)
Lemma loop_spec fuel : forall s pre rest st ds,
  no_nul s -> (length s < fuel)%nat -> holds st ds ->
  Z.of_nat (length (flat (ds ++ words s))) <= argbuf_len ->
  exists buf' st',
    MakeArgVector_loop argv_len argbuf_len base fuel (pre ++ c_chars s ++ rest) (Z.of_nat (length pre)) st =
      Some (buf', st', if decide (Z.of_nat (length (ds ++ words s)) <= argv_len) then kSuccess else kFull) /\
    holds st' (take (Z.to_nat argv_len) (ds ++ words s)).
Proof.
  induction fuel as [|fuel IH]; intros s pre rest st ds Hn Hf H Hroom; [lia|].
  pose proof (ho_max _ _ H) as Hmax.
  destruct (cut isspace s) as (sp & t & -> & Hsp & Ht). rewrite words_spaces in * by done.
  apply Forall_app in Hn as [_ Hn].
  destruct t as [|c t].
  - cbn [MakeArgVector_loop]. rewrite Nat2Z.id, drop_app_length.
    assert (Hc : c_chars (sp ++ []) ++ rest = sp ++ 0 :: rest)
      by (rewrite app_nil_r; unfold c_chars; by rewrite <- app_assoc).
    rewrite Hc, (span_end_app _ sp) by done. cbn [mbind option_bind].
    rewrite (app_assoc pre), (getZ_middle (pre ++ sp)) by (rewrite length_app; lia).
    cbn [mbind option_bind]. rewrite decide_True by done. exists ((pre ++ sp) ++ 0 :: rest), st.
    change (words []) with (@nil (list Z)) in *. rewrite app_nil_r in *. rewrite decide_True by lia.
    split; [done|]. by rewrite take_ge by lia.
  - specialize (Ht c eq_refl). destruct (cut_word c t rest Ht) as (w & d & tl & Hw & Hne & Ec & Hu).
    assert (Hd : d = 0 \/ isspace d = true) by (destruct Hu as [(_ & ->)|(? & _ & ? & _)]; auto).
    assert (Hwn : no_nul w).
    { destruct Hu as [(<- & _)|(u & E & _)]; [done|]. rewrite E in Hn. by apply Forall_app in Hn as [? _]. }
    assert (Hws : exists ws, words (c :: t) = w :: ws).
    { destruct Hu as [(-> & _)|(u & -> & Hs & _)]; [exists []; by rewrite words_one|].
      exists (words u). by rewrite words_cons. }
    destruct Hws as [ws Hws]. rewrite Hws in *.
    assert (c_chars (sp ++ c :: t) ++ rest = sp ++ w ++ d :: tl) as ->
      by (rewrite <- Ec; unfold c_chars; by rewrite <- !app_assoc).
    rewrite loop_word by done.
    assert (Hr1 : Z.of_nat (length (flat (ds ++ [w]))) <= argbuf_len).
    { pose proof (flat_app_length (ds ++ [w]) ws) as Hl. rewrite <- app_assoc in Hl. cbn in Hl. lia. }
    pose proof (push_spec w st ds H Hwn Hr1) as Hpush.
    assert (Hcat : ds ++ w :: ws = (ds ++ [w]) ++ ws) by by rewrite <- app_assoc.
    destruct (decide (Z.of_nat (length ds) < argv_len)) as [Hlt|Hge].
    + destruct Hpush as (st' & -> & H'). cbn [mbind option_bind is_error]. cbn.
      rewrite Hcat in *. destruct Hu as [(E & ->)|(u & E & Hs & ->)].
      * rewrite E, words_one in Hws by done. injection Hws as <-. rewrite app_nil_r in *.
        cbn. pose proof (ho_max _ _ H'). rewrite decide_True by done. eexists _, _; split; [done|].
        by rewrite take_ge by lia.
      * rewrite E, words_cons in Hws by done. injection Hws as <-.
        destruct (Z.eqb_spec d 0) as [->|_]; [done|]. apply IH; try done.
        -- rewrite E in Hn. apply Forall_app in Hn as [_ Hn]. by inversion Hn.
        -- rewrite length_app, E, length_app in Hf. cbn in Hf. lia.
    + rewrite Hpush. cbn [mbind option_bind]. cbn. eexists _, _; split.
      * rewrite decide_False; [done|]. rewrite length_app. cbn. lia.
      * apply holds_full; [done|lia].
Qed.
End proofs.

Lemma holds_read argv_len argbuf_len base st ds i d :
  holds argv_len argbuf_len base st ds -> ds !! i = Some d ->
  exists o, getZ (argv st) (Z.of_nat i) = Some (base + Z.of_nat o) /\ Z.of_nat o < argbuf_len /\
    c_str (drop o (argbuf st)) = Some d.
Proof.
  intros H Hi. pose proof (lookup_lt_Some _ _ _ Hi) as Hlt. pose proof (take_drop_middle _ _ _ Hi) as Hds.
  exists (length (flat (take i ds))). split; [by apply (ho_ptr _ _ _ _ _ H)|].
  assert (Hf : flat ds = flat (take i ds) ++ c_chars d ++ flat (drop (S i) ds)).
  { rewrite <- Hds at 1. unfold flat. by rewrite fmap_app, concat_app. }
  pose proof (ho_room _ _ _ _ _ H) as Hr. pose proof (ho_flat _ _ _ _ _ H) as Hfl.
  split.
  - rewrite Hf, !length_app, length_c_chars in Hr. lia.
  - rewrite <- (take_drop (length (flat ds)) (argbuf st)), Hfl, Hf, <- app_assoc, drop_app_length, <- app_assoc.
    apply c_str_chars. apply (Forall_lookup_1 _ _ _ _ (ho_nul _ _ _ _ _ H) Hi).
Qed.

(** [MakeArgVector] always returns, and gives the program its command
    and the words of its argument string, as many as [argv] has room for:
    each of the first [argc] entries of [argv] points at its string in the
    argument page, whatever runs of white space separate, precede or follow the words. It
    reports an error exactly when [argv] is too short for all of them. *)
Theorem MakeArgVector_words argv_len argbuf_len base command s rest argv0 argbuf0 :
  no_nul command -> no_nul s ->
  0 <= argv_len -> length argv0 = Z.to_nat argv_len -> length argbuf0 = Z.to_nat argbuf_len ->
  Z.of_nat (length (flat (command :: words s))) <= argbuf_len ->
  let all := command :: words s in
  exists first_arg' st err,
    MakeArgVector argv_len argbuf_len base command (Some (c_chars s ++ rest)) argv0 argbuf0 =
      Some (first_arg', st, err) /\
    err = (if decide (Z.of_nat (length all) <= argv_len) then kSuccess else kFull) /\
    argc st = Z.min argv_len (Z.of_nat (length all)) /\
    forall i w, all !! i = Some w -> Z.of_nat i < argc st ->
      exists o, getZ (argv st) (Z.of_nat i) = Some (base + Z.of_nat o) /\ Z.of_nat o < argbuf_len /\
        c_str (drop o (argbuf st)) = Some w.
Proof.
  intros Hc Hs Hl Hv Hb Hroom. cbn zeta. unfold MakeArgVector.
  assert (H0 : holds argv_len argbuf_len base (MkArgs 0 0 argv0 argbuf0) []) by (split; cbn; (done || lia)).
  assert (Hfin : forall st, holds argv_len argbuf_len base st (take (Z.to_nat argv_len) (command :: words s)) ->
    argc st = Z.min argv_len (Z.of_nat (length (command :: words s))) /\
    forall i w, (command :: words s) !! i = Some w -> Z.of_nat i < argc st ->
      exists o, getZ (argv st) (Z.of_nat i) = Some (base + Z.of_nat o) /\ Z.of_nat o < argbuf_len /\
        c_str (drop o (argbuf st)) = Some w).
  { intros st H. pose proof (ho_argc _ _ _ _ _ H) as Ha. rewrite length_take in Ha. split; [lia|].
    intros i w Hi Hlt. apply (holds_read _ _ _ _ _ _ _ H). by rewrite lookup_take_lt by lia. }
  pose proof (push_spec argv_len argbuf_len base command _ [] H0 Hc) as Hp. cbn [app length] in Hp.
  assert (Z.of_nat (length (flat [command])) <= argbuf_len) as Hr1
    by (pose proof (flat_app_length [command] (words s)) as Hx; cbn [app] in Hx; lia).
  specialize (Hp Hr1). destruct (decide (Z.of_nat 0 < argv_len)) as [Hlt|Hge].
  - destruct Hp as (st & -> & H1). cbn [mbind option_bind]. change (is_error kSuccess) with false. cbn [mbind option_bind].
    destruct (loop_spec argv_len argbuf_len base (S (length (c_chars s ++ rest))) s [] rest st [command] Hs) as (buf' & st' & E & H');
      [rewrite length_app, length_c_chars; lia|done|done|].
    cbn [app length] in E. change (Z.of_nat 0) with 0 in E. rewrite E. cbn [mbind option_bind]. eexists _, _, _; split; [done|].
    split; [done|]. by apply Hfin.
  - rewrite Hp. cbn. eexists _, _, _; split; [done|]. split; [by rewrite decide_False by lia|].
    apply Hfin. assert (argv_len = 0) as -> by lia. done.
Qed.

(** ["ls -a"] with spaces around, in an argument page of 3840 bytes. *)
Lemma MakeArgVector_words_witness :
  exists first_arg' st err,
    MakeArgVector 32 3840 4096 [108; 115] (Some (c_chars [32; 45; 97; 9; 32; 102; 32] ++ [7]))
      (replicate 32 0) (replicate 3840 0) = Some (first_arg', st, err) /\
    err = kSuccess /\ argc st = 3 /\
    forall i w, [[108; 115]; [45; 97]; [102]] !! i = Some w -> Z.of_nat i < argc st ->
      exists o, getZ (argv st) (Z.of_nat i) = Some (4096 + Z.of_nat o) /\ Z.of_nat o < 3840 /\
        c_str (drop o (argbuf st)) = Some w.
Proof.
  apply (MakeArgVector_words 32 3840 4096 [108; 115] [32; 45; 97; 9; 32; 102; 32] [7]);
    [repeat constructor; done|repeat constructor; done|done|by rewrite length_replicate|by rewrite length_replicate|done].
Defined.
