(* ===== verification/Loader.v ===== *)
(** * Loading programs (kernel/system.cpp, kernel/elf.hpp)

    The ELF loader: the file is a block of bytes, whose fields are read where
    the C structures have them; the program's memory is written through the page
    tables. *)

From S2P Require Import Prelude Bytes FrameBitmap Paging Vm ArgVector.
From stdpp Require Import base list numbers option gmap.
From Stdlib Require Import ZArith Lia.

Local Open Scope Z_scope.

(** A field of [n] bytes at [off] of the file; outside the file is undefined. *)
Definition file_field (n : nat) (file : list Z) (off : Z) : option Z :=
  if decide (0 <= off) then
    b ← read_at file (Z.to_nat off) n; Some (le_num b)
  else None.

(** [src/kernel/elf.hpp:15-30] [Elf64_Ehdr] *)
Definition e_ident (file : list Z) : option (list Z) := read_at file 0 4.
Definition e_type (file : list Z) : option Z := file_field 2 file 16.
Definition e_entry (file : list Z) : option Z := file_field 8 file 24.
Definition e_phoff (file : list Z) : option Z := file_field 8 file 32.
Definition e_phnum (file : list Z) : option Z := file_field 2 file 56.

(** [src/kernel/elf.hpp:34-34] [ET_EXEC] *)
Definition ET_EXEC : Z := 2.
(** [src/kernel/elf.hpp:50-50] [PT_LOAD] *)
Definition PT_LOAD : Z := 1.

(** [src/kernel/elf.hpp:38-47] [Elf64_Phdr] *)
Record Phdr := MkPhdr {
  p_type : Z; p_offset : Z; p_vaddr : Z; p_filesz : Z; p_memsz : Z;
}.
(** [sizeof(Elf64_Phdr)]. *)
Definition phdr_size : Z := 56.

(** Element [i] of the array at [phdr].
    [src/kernel/elf.hpp:38-47] [Elf64_Phdr] *)
Definition read_phdr (file : list Z) (phdr : Z) (i : nat) : option Phdr :=
  let at_ off := phdr + phdr_size * Z.of_nat i + off in
  type ← file_field 4 file (at_ 0);
  offset ← file_field 8 file (at_ 8);
  vaddr ← file_field 8 file (at_ 16);
  filesz ← file_field 8 file (at_ 32);
  memsz ← file_field 8 file (at_ 40);
  Some (MkPhdr type offset vaddr filesz memsz).

(** The offset of the array in the file.
    [src/kernel/system.cpp:68-71] [GetProgramHeader] *)
Definition GetProgramHeader (file : list Z) : option Z := e_phoff file.

(** [k] headers are left from [i] on.
    [src/kernel/system.cpp:75-79] [GetFirstLoadAddress] *)
Fixpoint first_load_loop (file : list Z) (phdr : Z) (k i : nat) : option Z :=
  match k with
  | O => Some 0
  | S k' =>
      p ← read_phdr file phdr i;
      if decide (p_type p <> PT_LOAD) then first_load_loop file phdr k' (S i) else Some (p_vaddr p)
  end.

(** [src/kernel/system.cpp:73-80] [GetFirstLoadAddress] *)
Definition GetFirstLoadAddress (file : list Z) : option Z :=
  phdr ← GetProgramHeader file;
  phnum ← e_phnum file;
  first_load_loop file phdr (Z.to_nat phnum) 0.

(** The first address of the application's half. *)
Definition kAppBase : Z := 0xffff800000000000.

Section loader.
Context {A : Type} `{!FrameAllocator A}.

(** A [memset] of a negative length fills the whole address space: a fault.
    [src/kernel/system.cpp:90-102] [CopyLoadSegments] *)
Definition CopyLoadSegment (file : list Z) (p : Phdr) (last_addr : Z) (st : @Machine A) :
    option (Machine * WithError Z) :=
  let last_addr := Z.max last_addr (u64 (p_vaddr p + p_memsz p)) in
  let num_4kpages := u64 (p_memsz p + 4095) / 4096 in
  '(st1, err) ← SetupPageMaps (p_vaddr p) num_4kpages false st;
  if is_error err then Some (st1, (last_addr, err))
  else
    src ← read_at file (Z.to_nat (p_offset p)) (Z.to_nat (p_filesz p));
    st2 ← write_bytes (p_vaddr p) src st1;
    if decide (p_memsz p < p_filesz p) then None
    else
      st3 ← write_bytes (p_vaddr p + p_filesz p) (replicate (Z.to_nat (p_memsz p - p_filesz p)) 0) st2;
      Some (st3, (last_addr, kSuccess)).

(** [src/kernel/system.cpp:87-103] [CopyLoadSegments] *)
Fixpoint CopyLoadSegments_loop (file : list Z) (phdr : Z) (k i : nat) (last_addr : Z) (st : @Machine A) :
    option (Machine * WithError Z) :=
  match k with
  | O => Some (st, (last_addr, kSuccess))
  | S k' =>
      p ← read_phdr file phdr i;
      if decide (p_type p <> PT_LOAD) then CopyLoadSegments_loop file phdr k' (S i) last_addr st
      else
        '(st1, (last_addr, err)) ← CopyLoadSegment file p last_addr st;
        if is_error err then Some (st1, (last_addr, err))
        else CopyLoadSegments_loop file phdr k' (S i) last_addr st1
  end.

(** [src/kernel/system.cpp:84-105] [CopyLoadSegments] *)
Definition CopyLoadSegments (file : list Z) (st : @Machine A) : option (Machine * WithError Z) :=
  phdr ← GetProgramHeader file;
  phnum ← e_phnum file;
  CopyLoadSegments_loop file phdr (Z.to_nat phnum) 0 0 st.

(** [src/kernel/system.cpp:107-118] [LoadELF] *)
Definition LoadELF (file : list Z) (st : @Machine A) : option (Machine * WithError Z) :=
  type ← e_type file;
  if decide (type <> ET_EXEC) then Some (st, (0, kInvalidFormat))
  else
    addr_first ← GetFirstLoadAddress file;
    if decide (addr_first < kAppBase) then Some (st, (0, kInvalidFormat))
    else CopyLoadSegments file st.

(** ** The address space of a program *)

(** The machine and the members of the task that runs: [context_.cr3], [name_],
    [dpaging_begin_], [dpaging_end_]. *)
Record Loading := MkLoading {
  machine : @Machine A;
  task_cr3 : Z;
  task_name : list Z;
  dpaging_begin : Z;
  dpaging_end : Z;
}.
Definition set_machine st l := MkLoading st (task_cr3 l) (task_name l) (dpaging_begin l) (dpaging_end l).
Definition set_task_cr3 c l := MkLoading (machine l) c (task_name l) (dpaging_begin l) (dpaging_end l).
Definition set_task_name n l := MkLoading (machine l) (task_cr3 l) n (dpaging_begin l) (dpaging_end l).
Definition set_dpaging b l := MkLoading (machine l) (task_cr3 l) (task_name l) b b.

(** [pml4_table] is the kernel's own table.
    [src/kernel/paging.cpp:38-38] [ResetCR3] *)
Definition ResetCR3 (pml4_table : Z) (st : @Machine A) : Machine := SetCR3 pml4_table st.

(** [src/kernel/system.cpp:120-133] [SetupPML4] *)
Definition SetupPML4 (l : Loading) : option (Loading * WithError Z) :=
  '(st1, (pml4, err)) ← NewPageMap (machine l);
  if is_error err then Some (set_machine st1 l, (pml4, err))
  else
    current ← mem st1 !! frame_of (CR3 st1);
    pg ← mem st1 !! frame_of pml4;
    entries ← read_at current 0 256;
    pg' ← write_at pg 0 entries;
    let st2 := SetCR3 pml4 (set_mem (<[frame_of pml4 := pg']> (mem st1)) st1) in
    Some (set_task_cr3 pml4 (set_machine st2 l), (pml4, kSuccess)).

(** [src/kernel/system.cpp:135-142] [FreePML4] *)
Definition FreePML4 (pml4_table : Z) (l : Loading) : option (Loading * Code) :=
  let cr3 := task_cr3 l in
  let st := ResetCR3 pml4_table (machine l) in
  '(a, err) ← fa_free (memory_manager st) (frame_of cr3);
  Some (set_task_cr3 0 (set_machine (set_manager a st) l), err).

(** [src/kernel/system.hpp:13-16] [AppLoadInfo] *)
Record AppLoadInfo := MkAppLoad { vaddr_end : Z; entry : Z; pml4 : Z }.
Definition no_app : AppLoadInfo := MkAppLoad 0 0 0.

(** "\x7f" "ELF". *)
Definition elf_magic : list Z := [127; 69; 76; 70].

(** [src/kernel/system.cpp:151-181] [LoadApp] *)
Definition LoadApp (file : list Z) (l : Loading) : option (Loading * (AppLoadInfo * Code)) :=
  '(l1, (temp_pml4, err)) ← SetupPML4 l;
  if is_error err then Some (l1, (no_app, err))
  else
    ident ← e_ident file;
    if decide (ident <> elf_magic) then Some (l1, (no_app, kInvalidFile))
    else
      '(st2, (last_addr, err_load)) ← LoadELF file (machine l1);
      let l2 := set_machine st2 l1 in
      if is_error err_load then Some (l2, (no_app, err_load))
      else
        e_entry ← e_entry file;
        let app_load := MkAppLoad last_addr e_entry temp_pml4 in
        '(l3, (new_pml4, err)) ← SetupPML4 l2;
        if is_error err then Some (l3, (app_load, err))
        else
          '(st4, err) ← CopyPageMaps 4 new_pml4 temp_pml4 256 (machine l3);
          Some (set_machine st4 l3, (MkAppLoad last_addr e_entry new_pml4, err)).

(** ** Running a program *)

(** [CallApp] is assembly: it runs the program, [argc argv cs rip rsp], and
    returns its exit code; [kernel_pml4] is the kernel's own page table. *)
Context (CallApp : Z -> Z -> Z -> Z -> Z -> Loading -> Loading * Z) (kernel_pml4 : Z).

Definition kArgsFrame : Z := 0xfffffffffffff000.
Definition kArgvLen : Z := 32.
Definition kArgbufLen : Z := 4096 - 8 * kArgvLen.
Definition kStackSize : Z := 16 * 4096.

(** The argument page as [MakeArgVector] leaves it; it was mapped afresh.
    [src/kernel/system.cpp:243-255] [ExecuteApp] *)
Definition setup_args (command : list Z) (first_arg : option (list Z)) (st : @Machine A) :
    option (Machine * WithError Z) :=
  '(st1, err) ← SetupPageMaps kArgsFrame 1 true st;
  if is_error err then Some (st1, (0, err))
  else
    '(_, args, err) ← MakeArgVector kArgvLen kArgbufLen (kArgsFrame + 8 * kArgvLen) command first_arg
                        (replicate (Z.to_nat kArgvLen) 0) (replicate (Z.to_nat kArgbufLen) 0);
    st2 ← write_bytes kArgsFrame (concat (map (le_bytes 8) (argv args)) ++ argbuf args) st1;
    Some (st2, (argc args, err)).

(** [src/kernel/system.cpp:259-277] [ExecuteApp] *)
Definition call_and_clean (argc : Z) (app_load : AppLoadInfo) (l : Loading) : option (Loading * WithError Z) :=
  let stack_frame_addr := kArgsFrame - kStackSize in
  '(st1, err) ← SetupPageMaps stack_frame_addr (kStackSize / 4096) true (machine l);
  let l1 := set_machine st1 l in
  if is_error err then Some (l1, (0, err))
  else
    let elf_next_page := Z.land (u64 (vaddr_end app_load + 4095)) 0xfffffffffffff000 in
    let l2 := set_dpaging elf_next_page l1 in
    let '(l3, ret) := CallApp argc kArgsFrame (Z.lor (Z.shiftl 3 3) 3) (entry app_load)
                        (stack_frame_addr + 4096 - 8) l2 in
    '(st4, err) ← CleanPageMaps kAppBase (machine l3);
    let l4 := set_machine st4 l3 in
    if is_error err then Some (l4, (ret, err))
    else '(l5, err) ← FreePML4 kernel_pml4 l4; Some (l5, (ret, err)).

(** [src/kernel/system.cpp:232-278] [ExecuteApp] *)
Definition ExecuteApp (file command : list Z) (first_arg : option (list Z)) (l : Loading) :
    option (Loading * WithError Z) :=
  '(l1, (app_load, err)) ← LoadApp file l;
  if is_error err then Some (l1, (0, err))
  else
    '(st2, (argc, err)) ← setup_args command first_arg (machine l1);
    let l2 := set_machine st2 l1 in
    if is_error err then Some (l2, (0, err)) else call_and_clean argc app_load l2.

(** The name is both the command and the arguments.
    [src/kernel/system.cpp:184-230] [ExecuteServer] *)
Definition ExecuteServer (file server_name : list Z) (l : Loading) : option (Loading * WithError Z) :=
  '(l1, (app_load, err)) ← LoadApp file l;
  if is_error err then Some (l1, (0, err))
  else
    let l1 := set_task_name server_name l1 in
    '(st2, (argc, err)) ← setup_args server_name (Some (c_chars server_name)) (machine l1);
    let l2 := set_machine st2 l1 in
    if is_error err then Some (l2, (0, err)) else call_and_clean argc app_load l2.
End loader.
