(* ===== verification/LoadElf.v ===== *)
(** * Loading a program puts its image into memory (kernel/system.cpp)

    The proofs about the ELF loader: the bytes of every segment of the file end
    up at their addresses, followed by zeros. *)

From S2P Require Import Prelude Bytes FrameBitmap Paging PageFault Vm Loader.
From stdpp Require Import base list numbers option gmap.
From Stdlib Require Import ZArith Lia.

Local Open Scope Z_scope.

#[local] Abbreviation owners := (gmap Z (nat * Z)).

Section load.
Context {A : Type} `{!FrameAllocator A}.
Implicit Types (st : @Machine A) (ow : owners).

(** A page the program may access. *)
Definition user_at st (x : Z) : Prop := exists f w, translate st 4 (CR3 st) x = Some (f, w, true).

Lemma user_mapped st x : user_at st x -> mapped_at st x.
Proof. intros (f & w & H). by eexists. Qed.

(** Pages stay mapped, and for the user. *)
Definition keeps_pages st st' : Prop := forall x, upper x ->
  (mapped_at st x -> mapped_at st' x) /\ (user_at st x -> user_at st' x).

(** The bytes of the application's half that could be read still can, with the
    same values. *)
Definition keeps st st' : Prop :=
  keeps_pages st st' /\
  forall a, user_addr a -> mapped_at st (page_no a) -> read_byte a st' = read_byte a st.

Lemma keeps_pages_trans st st1 st2 : keeps_pages st st1 -> keeps_pages st1 st2 -> keeps_pages st st2.
Proof. intros M1 M2 x Hx. destruct (M1 x Hx), (M2 x Hx). auto. Qed.

(** Pages were mapped for the user, writable or not. *)
Definition user_pages st (lo n : Z) (wr : bool) : Prop :=
  forall x, lo <= x < lo + n -> exists f, translate st 4 (CR3 st) x = Some (f, wr, true).

Lemma read_byte_same st st' a f w u w' u' :
  translate st 4 (CR3 st) (page_no a) = Some (f, w, u) ->
  translate st' 4 (CR3 st') (page_no a) = Some (f, w', u') ->
  mem st' !! f = mem st !! f -> read_byte a st' = read_byte a st.
Proof. intros Ht Ht' Hm. unfold read_byte. rewrite Ht, Ht'. cbn [mbind option_bind]. by rewrite Hm. Qed.

(** Mapping pages of an address space. *)
Lemma SetupPageMaps_vm st ow root a n wr :
  vm_ok st ow root -> user_addr a -> 0 <= n -> page_no a + n <= 2 ^ 36 ->
  exists st' err ow', SetupPageMaps a n wr st = Some (st', err) /\ pt_ok st' ow' /\ ow ⊆ ow' /\
    CR3 st' = CR3 st /\
    (forall x, upper x -> ~ page_no a <= x < page_no a + n -> translate st' 4 (CR3 st') x = translate st 4 (CR3 st) x) /\
    ((err = kSuccess /\ vm_ok st' ow' root /\ keeps st st' /\ user_pages st' (page_no a) n wr) \/
     ran_out st' err).
Proof.
  intros H Ha Hn Htop. destruct (page_no_user a Ha) as [_ Hu].
  destruct (SetupPageMaps_spec st ow root a n wr (vm_pt _ _ _ H) (vm_cr3 _ _ _ H) (vm_root _ _ _ H) Hu Hn)
    as (st' & err & ow' & E & Hok & Hsub & Hcr & Hsame & Hdata & Hres).
  exists st', err, ow'. split_and!; try done. destruct Hres as [(-> & Hmap & Hdist)|Hres]; [left|by right].
  rewrite Z.min_l in Hmap, Hdist by lia.
  (* every page: translated as before, or on a zeroed frame that was free *)
  assert (Hold : forall x f w u, upper x -> translate st 4 (CR3 st) x = Some (f, w, u) ->
    data_page st ow f /\ mem st' !! f = mem st !! f /\ exists w' u', translate st' 4 (CR3 st') x = Some (f, w', u') /\ (u = true -> u' = true)).
  { intros x f w u Hx Ht. pose proof (vm_data _ _ _ _ _ _ _ H Hx Ht) as D. split; [done|].
    split; [apply Hdata; apply D|].
    destruct (decide (page_no a <= x < page_no a + n)) as [Hin|Hout].
    - destruct (Hmap x Hin) as (fr & Et & _ & _ & _ & Hc). rewrite <- (vm_cr3 _ _ _ H), <- Hcr in Et.
      rewrite <- (vm_cr3 _ _ _ H), Ht in Hc. subst fr. eauto.
    - rewrite Hsame, Ht by done. eauto. }
  assert (Hnew : forall x f w u, upper x -> translate st 4 (CR3 st) x = None ->
    translate st' 4 (CR3 st') x = Some (f, w, u) ->
    page_no a <= x < page_no a + n /\ fa_used (memory_manager st) f = false /\ mem st' !! f = Some (replicate 512 0) /\ w = wr /\ u = true).
  { intros x f w u Hx Ht Ht'. destruct (decide (page_no a <= x < page_no a + n)) as [Hin|Hout].
    - destruct (Hmap x Hin) as (fr & Et & _ & _ & _ & Hc). rewrite <- (vm_cr3 _ _ _ H), <- Hcr, Ht' in Et.
      injection Et as -> -> ->. rewrite <- (vm_cr3 _ _ _ H), Ht in Hc. destruct Hc. split; [done|]. by split_and!.
    - rewrite Hsame, Ht in Ht' by done. done. }
  split; [done|]. split; [split|split; [split|]].
  - done.
  - by rewrite Hcr, (vm_cr3 _ _ _ H).
  - eapply lookup_weaken; [apply H|done].
  - intros x y f w u w' u' Hx Hy Etx Ety.
    destruct (translate st 4 (CR3 st) x) as [[[fx wx] ux]|] eqn:Ex;
    destruct (translate st 4 (CR3 st) y) as [[[fy wy] uy]|] eqn:Ey.
    + destruct (Hold x fx wx ux Hx Ex) as (_ & _ & ? & ? & E1 & Eu). destruct (Hold y fy wy uy Hy Ey) as (_ & _ & ? & ? & E2 & _).
      assert (fx = fy) as -> by congruence. by eapply (vm_inj _ _ _ H).
    + destruct (Hold x fx wx ux Hx Ex) as (D & _ & ? & ? & E1 & Eu). destruct (Hnew y f w' u' Hy Ey Ety) as (_ & Hfree & _).
      assert (fx = f) as -> by congruence. rewrite (dp_used _ _ _ D) in Hfree. done.
    + destruct (Hold y fy wy uy Hy Ey) as (D & _ & ? & ? & E1 & Eu). destruct (Hnew x f w u Hx Ex Etx) as (_ & Hfree & _).
      assert (fy = f) as -> by congruence. rewrite (dp_used _ _ _ D) in Hfree. done.
    + destruct (decide (x = y)) as [|Hne]; [done|]. exfalso.
      destruct (Hnew x f w u Hx Ex Etx) as (Hinx & _ & _ & -> & ->). destruct (Hnew y f w' u' Hy Ey Ety) as (Hiny & _ & _ & -> & ->).
      by apply (Hdist x y f f).
  - intros x f w u Hx Et. destruct (translate st 4 (CR3 st) x) as [[[fx wx] ux]|] eqn:Ex.
    + destruct (Hold x fx wx ux Hx Ex) as (_ & Hm & ? & ? & E1 & Eu). assert (fx = f) as -> by congruence.
      rewrite Hm. by apply (vm_page _ _ _ H x f wx ux).
    + destruct (Hnew x f w u Hx Ex Et) as (_ & _ & Hm & _). rewrite Hm. exists (replicate 512 0).
      split; [done|]. by rewrite length_replicate.
  - intros x Hx. split.
    + intros [[[f w] u] Et]. destruct (Hold x f w u Hx Et) as (_ & _ & ? & ? & E1 & Eu). by eexists.
    + intros (f & w & Et). destruct (Hold x f w true Hx Et) as (_ & _ & ? & ? & E1 & Eu).
      rewrite Eu in E1 by done. by eexists _, _.
  - intros a' Ha' [[[f w] u] Et]. destruct (page_no_user a' Ha') as [_ Hu'].
    destruct (Hold _ f w u Hu' Et) as (_ & Hm & ? & ? & E1 & Eu). by eapply read_byte_same.
  - intros x Hx. destruct (Hmap x Hx) as (fr & Et & _). exists fr. by rewrite Hcr, (vm_cr3 _ _ _ H).
Qed.

(** ** Segments *)

(** A segment of an executable: in the application's half, its data in the
    file, no larger there than in memory; and the pages mapped, which
    [CopyLoadSegments] counts from the size alone, reach its end ([sg_pages]).
    The last condition is not one of the ELF format: a segment that starts
    inside a page may end one page behind the last page mapped, and then part
    of it is missing (kernel/system.cpp:93). *)
Record seg_ok (file : list Z) (p : Phdr) : Prop := {
  sg_vaddr : kAppBase <= p_vaddr p;
  sg_top : p_vaddr p + p_memsz p < 2 ^ 64;
  sg_size : 0 <= p_filesz p <= p_memsz p;
  sg_offset : 0 <= p_offset p;
  sg_file : p_offset p + p_filesz p <= Z.of_nat (length file);
  sg_pages : p_vaddr p mod 4096 + p_memsz p <= 4096 * ((p_memsz p + 4095) / 4096);
}.

(** Byte [j] of the memory image of a segment. *)
Definition image (file : list Z) (p : Phdr) (j : Z) : option Z :=
  if decide (j < p_filesz p) then file !! Z.to_nat (p_offset p + j) else Some 0.

Definition in_segment (p : Phdr) (a : Z) : Prop := p_vaddr p <= a < p_vaddr p + p_memsz p.

(** A page that is mapped for a segment. *)
Definition segment_page (p : Phdr) (x : Z) : Prop :=
  page_no (p_vaddr p) <= x < page_no (p_vaddr p) + (p_memsz p + 4095) / 4096.

(** The addresses of a segment lie in the pages that are mapped for it. *)
Lemma seg_page file p a :
  seg_ok file p -> in_segment p a ->
  user_addr a /\ segment_page p (page_no a).
Proof.
  intros [Hv Ht Hs Ho Hf Hp] [Ha1 Ha2]. unfold kAppBase in Hv.
  assert (user_addr a) as Ha by (unfold user_addr; lia).
  assert (user_addr (p_vaddr p)) as Hu by (unfold user_addr; lia). split; [done|]. unfold segment_page.
  destruct (page_no_user a Ha) as [-> _]. destruct (page_no_user _ Hu) as [-> _].
  pose proof (Z.div_mod (p_vaddr p) 4096 ltac:(lia)) as Em.
  set (n := (p_memsz p + 4095) / 4096) in *. pose proof (Z.mod_pos_bound (p_vaddr p) 4096 ltac:(lia)).
  assert (p_vaddr p / 4096 <= a / 4096) by (apply Z.div_le_mono; lia).
  assert (a / 4096 < p_vaddr p / 4096 + n) by (apply Z.div_lt_upper_bound; lia). lia.
Qed.

Lemma seg_pages_top file p : seg_ok file p ->
  user_addr (p_vaddr p) /\ page_no (p_vaddr p) + (p_memsz p + 4095) / 4096 <= 2 ^ 36.
Proof.
  intros [Hv Ht Hs Ho Hf Hp]. unfold kAppBase in Hv.
  assert (user_addr (p_vaddr p)) as Hu by (unfold user_addr; lia). split; [done|].
  destruct (page_no_user _ Hu) as [-> _].
  pose proof (Z.div_mod (p_vaddr p) 4096 ltac:(lia)). pose proof (Z.mod_pos_bound (p_vaddr p) 4096 ltac:(lia)).
  pose proof (Z.div_mod (p_memsz p + 4095) 4096 ltac:(lia)). pose proof (Z.mod_pos_bound (p_memsz p + 4095) 4096 ltac:(lia)).
  lia.
Qed.

(** A segment is in memory. *)
Definition loaded (file : list Z) st (p : Phdr) : Prop :=
  forall j, 0 <= j < p_memsz p -> user_at st (page_no (p_vaddr p + j)) /\ read_byte (p_vaddr p + j) st = image file p j.

(** What loading changed: only bytes of the segments [ps]. *)
Definition only_segments (ps : list Phdr) st st' : Prop :=
  keeps_pages st st' /\
  (forall a, user_addr a -> mapped_at st (page_no a) -> Forall (fun p => ~ in_segment p a) ps ->
    read_byte a st' = read_byte a st) /\
  forall x, upper x -> Forall (fun p => ~ segment_page p x) ps ->
    translate st' 4 (CR3 st') x = translate st 4 (CR3 st) x.

Lemma same_space_mapped st ow root st' x : same_space st ow root st' -> upper x -> mapped_at st' x <-> mapped_at st x.
Proof. intros S Hx. unfold mapped_at. by rewrite (ss_translate _ _ _ _ S). Qed.

Lemma same_space_user st ow root st' x : same_space st ow root st' -> upper x -> user_at st' x <-> user_at st x.
Proof. intros S Hx. unfold user_at. by rewrite (ss_translate _ _ _ _ S). Qed.

Lemma CopyLoadSegment_spec st ow root file p last :
  vm_ok st ow root -> seg_ok file p -> bytes file ->
  exists st' err ow', CopyLoadSegment file p last st = Some (st', (Z.max last (p_vaddr p + p_memsz p), err)) /\
    pt_ok st' ow' /\ CR3 st' = CR3 st /\
    ((err = kSuccess /\ vm_ok st' ow' root /\ loaded file st' p /\ only_segments [p] st st') \/ ran_out st' err).
Proof.
  intros H Hp Hb. pose proof Hp as [Hv Htop Hs Ho Hf _]. destruct (seg_pages_top _ _ Hp) as [Hu Hpt].
  unfold kAppBase in Hv. unfold CopyLoadSegment. rewrite u64_small, (u64_small (p_memsz p + 4095)) by lia.
  set (n := (p_memsz p + 4095) / 4096) in *. assert (0 <= n) by (apply Z.div_pos; lia).
  destruct (SetupPageMaps_vm st ow root (p_vaddr p) n false H Hu ltac:(done) Hpt)
    as (st1 & err & ow1 & -> & Hok1 & _ & Hcr1 & T1 & Hres). cbn [mbind option_bind].
  destruct Hres as [(-> & H1 & [K1 R1] & U1)|Hres].
  2: { pose proof Hres as [-> _]. exists st1, kNoEnoughMemory, ow1. split_and!; try done. by right. }
  assert (Hmapped : forall j, 0 <= j < p_memsz p -> user_addr (p_vaddr p + j) /\ user_at st1 (page_no (p_vaddr p + j))).
  { intros j Hj. destruct (seg_page file p (p_vaddr p + j) Hp) as [Ha Hr]; [split; lia|]. split; [done|].
    destruct (U1 _ Hr) as [f Hfr]. by exists f, false. }
  cbn [is_error]. unfold is_error. rewrite bool_decide_false by naive_solver.
  rewrite read_at_Some by lia. cbn [mbind option_bind].
  set (src := slice file (Z.to_nat (p_offset p)) (Z.to_nat (p_filesz p))).
  assert (Hsrc : Z.of_nat (length src) = p_filesz p) by (unfold src; rewrite length_slice; lia).
  destruct (write_bytes_spec src st1 ow1 root (p_vaddr p) H1) as (st2 & -> & S2 & R2).
  { intros i Hi. destruct (Hmapped i) as [? Hm]; [lia|]. split; [done|by apply user_mapped]. }
  { by apply bytes_slice. }
  cbn [mbind option_bind]. rewrite decide_False by lia.
  set (zeros := replicate _ 0). assert (Hz : Z.of_nat (length zeros) = p_memsz p - p_filesz p)
    by (unfold zeros; rewrite length_replicate; lia).
  destruct (write_bytes_spec zeros st2 ow1 root (p_vaddr p + p_filesz p)) as (st3 & -> & S3 & R3); [apply S2| | |].
  { intros i Hi. rewrite <- Z.add_assoc. destruct (Hmapped (p_filesz p + i)) as [Ha Hm]; [lia|]. split; [done|].
    rewrite (same_space_mapped _ _ _ _ _ S2); [by apply user_mapped|by apply page_no_user]. }
  { apply Forall_replicate. unfold is_byte. lia. }
  cbn [mbind option_bind]. pose proof (same_space_trans _ _ _ _ _ S2 S3) as S.
  assert (Hm3 : forall x, upper x -> (mapped_at st3 x <-> mapped_at st1 x) /\ (user_at st3 x <-> user_at st1 x))
    by (split; [by eapply same_space_mapped|by eapply same_space_user]).
  exists st3, kSuccess, ow1. pose proof (ss_ok _ _ _ _ S) as H3. split; [done|]. split; [apply H3|].
  split; [by rewrite (vm_cr3 _ _ _ H3), (vm_cr3 _ _ _ H)|]. left. split; [done|]. split; [done|]. split.
  - intros j Hj. destruct (Hmapped j Hj) as [Ha Hm]. split; [apply Hm3; [by apply page_no_user|done]|].
    rewrite R3, R2, Hsrc, Hz by done. unfold image.
    destruct (decide (j < p_filesz p)).
    + rewrite decide_False, decide_True by lia. unfold src. rewrite lookup_slice, decide_True by lia. f_equal. lia.
    + rewrite decide_True by lia. unfold zeros. apply lookup_replicate_2. lia.
  - split; [|split].
    + intros x Hx. destruct (Hm3 x Hx), (K1 x Hx). tauto.
    + intros a Ha Hm Hn. apply Forall_inv in Hn. unfold in_segment in Hn.
      rewrite R3, R2, Hsrc, Hz, !decide_False by (done || lia). by apply R1.
    + intros x Hx Hn. apply Forall_inv in Hn. rewrite (ss_translate _ _ _ _ S) by done. by apply T1.
Qed.

(** ** All segments *)

Definition disjoint_segments (p q : Phdr) : Prop := forall a, ~ (in_segment p a /\ in_segment q a).

Lemma only_segments_trans p ps st st1 st2 :
  only_segments [p] st st1 -> only_segments ps st1 st2 -> only_segments (p :: ps) st st2.
Proof.
  intros (K1 & R1 & T1) (K2 & R2 & T2). split; [by eapply keeps_pages_trans|]. split.
  - intros a Ha Hm Hn. rewrite list.Forall_cons in Hn. destruct Hn as [Hp Hps].
    rewrite R2, R1 by first [done|by repeat constructor|by apply K1; [apply page_no_user|]]. done.
  - intros x Hx Hn. rewrite list.Forall_cons in Hn. destruct Hn as [Hp Hps].
    rewrite T2, T1 by (done || by repeat constructor). done.
Qed.

(** The loadable headers among the [k] from [i] on. *)
Fixpoint load_segments (file : list Z) (phdr : Z) (k i : nat) : option (list Phdr) :=
  match k with
  | O => Some []
  | S k' =>
      p ← read_phdr file phdr i; ps ← load_segments file phdr k' (S i);
      Some (if decide (p_type p = PT_LOAD) then p :: ps else ps)
  end.

Definition segment_end (p : Phdr) : Z := p_vaddr p + p_memsz p.
Definition max_end (last : Z) (ps : list Phdr) : Z := fold_left Z.max (map segment_end ps) last.

Lemma CopyLoadSegments_loop_spec file phdr k : forall i ps last st ow root,
  load_segments file phdr k i = Some ps -> vm_ok st ow root -> bytes file ->
  Forall (seg_ok file) ps -> ForallOrdPairs disjoint_segments ps ->
  exists st' v err ow', CopyLoadSegments_loop file phdr k i last st = Some (st', (v, err)) /\
    pt_ok st' ow' /\ CR3 st' = CR3 st /\
    ((err = kSuccess /\ v = max_end last ps /\ vm_ok st' ow' root /\ Forall (loaded file st') ps /\
      only_segments ps st st') \/ ran_out st' err).
Proof.
  induction k as [|k IH]; intros i ps last st ow root Hl H Hb Hok Hd; cbn [load_segments CopyLoadSegments_loop] in *.
  { injection Hl as <-. exists st, last, kSuccess, ow. split; [done|]. split; [apply H|]. split; [done|]. left.
    split_and!; try done; by constructor. }
  destruct (read_phdr file phdr i) as [p|]; [|done]. cbn [mbind option_bind] in *.
  destruct (load_segments file phdr k (S i)) as [qs|] eqn:Eqs; [|done]. cbn [mbind option_bind] in Hl. injection Hl as <-.
  destruct (decide (p_type p = PT_LOAD)) as [Hp|Hp].
  2: { rewrite decide_True by done. by apply (IH (S i) qs last st ow root). }
  rewrite decide_False by (intros ?; done). inversion Hok as [|? ? Hpok Hqs]; inversion Hd as [|? ? Hpd Hqd]; subst.
  destruct (CopyLoadSegment_spec st ow root file p last H Hpok Hb) as (st1 & err & ow1 & -> & Hpt1 & Hc1 & Hres).
  cbn [mbind option_bind]. destruct Hres as [(-> & H1 & L1 & O1)|Hres].
  2: { pose proof Hres as [-> _]. cbn. exists st1, (Z.max last (p_vaddr p + p_memsz p)), kNoEnoughMemory, ow1. split_and!; try done. by right. }
  cbn. destruct (IH (S i) qs (Z.max last (p_vaddr p + p_memsz p)) st1 ow1 root Eqs H1 Hb Hqs Hqd)
    as (st2 & v & err & ow2 & -> & Hpt2 & Hc2 & Hres).
  exists st2, v, err, ow2. split; [done|]. split; [done|]. split; [congruence|].
  destruct Hres as [(-> & -> & H2 & L2 & O2)|Hres]; [left|by right].
  split_and!; try done; [|by eapply only_segments_trans].
  constructor; [|done]. destruct O2 as (K2 & R2 & _). intros j Hj. destruct (L1 j Hj) as [Hu Hr].
  destruct (seg_page file p (p_vaddr p + j) Hpok) as [Ha _]; [split; lia|].
  split; [apply K2; [by apply page_no_user|done]|]. rewrite R2; [done|done|by apply user_mapped|].
  apply list.Forall_forall. intros q Hq Hin. rewrite list.Forall_forall in Hpd.
  apply (Hpd q Hq (p_vaddr p + j)). split; [split; lia|done].
Qed.

Lemma first_load_spec file phdr k : forall i ps, load_segments file phdr k i = Some ps ->
  first_load_loop file phdr k i = Some match ps with [] => 0 | p :: _ => p_vaddr p end.
Proof.
  induction k as [|k IH]; intros i ps Hl; cbn [load_segments first_load_loop] in *; [by injection Hl as <-|].
  destruct (read_phdr file phdr i) as [p|]; [|done]. cbn [mbind option_bind] in *.
  destruct (load_segments file phdr k (S i)) as [qs|] eqn:Eqs; [|done]. cbn [mbind option_bind] in Hl. injection Hl as <-.
  destruct (decide (p_type p = PT_LOAD)) as [Hp|Hp]; [by rewrite decide_False by (intros ?; done)|]. rewrite decide_True by done. by apply IH.
Qed.

(** An executable file the loader handles: [ps] are its loadable segments, each
    of which satisfies [seg_ok], the limit on its pages included, and none of
    which overlap. *)
Record executable (file : list Z) (ps : list Phdr) : Prop := {
  ex_bytes : bytes file;
  ex_type : e_type file = Some ET_EXEC;
  ex_segments : exists phoff phnum, e_phoff file = Some phoff /\ e_phnum file = Some phnum /\
    load_segments file phoff (Z.to_nat phnum) 0 = Some ps;
  ex_some : ps <> [];
  ex_ok : Forall (seg_ok file) ps;
  ex_disjoint : ForallOrdPairs disjoint_segments ps;
}.

Lemma LoadELF_spec st ow root file ps :
  vm_ok st ow root -> executable file ps ->
  exists st' v err ow', LoadELF file st = Some (st', (v, err)) /\ pt_ok st' ow' /\ CR3 st' = CR3 st /\
    ((err = kSuccess /\ v = max_end 0 ps /\ vm_ok st' ow' root /\ Forall (loaded file st') ps /\
      only_segments ps st st') \/ ran_out st' err).
Proof.
  intros H [Hb Ht (phoff & phnum & Ho & Hn & Hl) Hne Hok Hd]. unfold LoadELF. rewrite Ht. cbn [mbind option_bind].
  rewrite decide_False by (intros ?; done).
  unfold GetFirstLoadAddress, GetProgramHeader. rewrite Ho, Hn. cbn [mbind option_bind].
  rewrite (first_load_spec _ _ _ _ _ Hl). cbn [mbind option_bind].
  rewrite decide_False.
  2: { destruct ps as [|p ps]; [done|]. apply Forall_inv in Hok. destruct Hok as [Hv _ _ _ _ _]. lia. }
  unfold CopyLoadSegments, GetProgramHeader. rewrite Ho, Hn. cbn [mbind option_bind].
  by eapply CopyLoadSegments_loop_spec.
Qed.
End load.
