(* ===== verification/LoadApp.v ===== *)
(** * A program's address space (kernel/system.cpp)

    [LoadApp] gives a program an address space of its own, in which its image
    can be read and every page is shared copy-on-write. *)

From S2P Require Import Prelude Bytes FrameBitmap Paging PageFault PageCopy Vm Loader LoadElf.
From stdpp Require Import base list numbers option gmap.
From Stdlib Require Import ZArith Lia.

Local Open Scope Z_scope.

#[local] Abbreviation owners := (gmap Z (nat * Z)).

Lemma is_error_success : is_error kSuccess = false.
Proof. reflexivity. Qed.
Lemma is_error_memory : is_error kNoEnoughMemory = true.
Proof. reflexivity. Qed.

Section load.
Context {A : Type} `{!FrameAllocator A}.
Implicit Types (st : @Machine A) (ow : owners).

(** Translation reads memory only. *)
Lemma translate_mem st st' L : forall table vpn, mem st' = mem st -> translate st' L table vpn = translate st L table vpn.
Proof.
  intros table vpn Hm. assert (Hl : forall t i, load st' t i = load st t i) by (intros; unfold load; by rewrite Hm).
  revert table vpn. induction L as [|L IH]; intros table vpn; [done|]. cbn [translate].
  rewrite Hl. destruct (load st table _) as [e|]; [|done]. cbn [mbind option_bind].
  destruct (negb (present e)); [done|]. case_decide; [done|]. destruct (_ && _); [done|]. by rewrite IH.
Qed.

(** ** A new PML4 *)

(** Rewriting the kernel's half of a PML4 does not matter for the tables. *)
Lemma low_half_write st ow c pg pg' :
  pt_ok st ow -> ow !! c = Some (4%nat, 0) -> mem st !! c = Some pg -> length pg' = length pg ->
  (forall j, 256 <= j -> getZ pg' j = getZ pg j) ->
  pt_ok (set_mem (<[c := pg']> (mem st)) st) ow /\
  forall g M q w, ow !! g = Some (M, q) -> covers M q w ->
    translate (set_mem (<[c := pg']> (mem st)) st) M (g * 2 ^ 12) w = translate st M (g * 2 ^ 12) w.
Proof.
  intros H Hc Hpg Hlen Hhigh. set (st' := set_mem _ st).
  assert (Hl : forall g M q w, ow !! g = Some (M, q) -> covers M q w ->
    load st' (g * 2 ^ 12) (idx M w) = load st (g * 2 ^ 12) (idx M w)).
  { intros g M q w Hg [Hq Hw]. rewrite !load_mul. cbn. destruct (decide (g = c)) as [->|].
    - rewrite lookup_insert_eq, Hpg. cbn [mbind option_bind]. apply Hhigh.
      assert (M = 4%nat) as -> by congruence. unfold idx, pw. cbn [pred]. change (512 ^ Z.of_nat 3) with (2 ^ 27).
      destruct Hw as [Hw1 Hw2]. assert (256 <= w / 2 ^ 27) by (apply Z.div_le_lower_bound; lia).
      assert (w / 2 ^ 27 < 512) by (apply Z.div_lt_upper_bound; lia). rewrite Z.mod_small; lia.
    - by rewrite lookup_insert_ne. }
  split; [split|].
  - apply H.
  - intros g L p Hg. destruct (po_table _ _ H _ _ _ Hg) as (H1 & H2 & H3 & pg1 & Hm & Hm').
    split; [done|]. split; [done|]. split; [done|]. cbn.
    destruct (decide (g = c)) as [->|]; [|rewrite lookup_insert_ne by done; by eexists].
    rewrite lookup_insert_eq. exists pg'. split; [done|]. rewrite Hlen. congruence.
  - intros g L p w e Hg Hcw. rewrite (Hl g L p w) by done. intros He.
    pose proof (po_entry _ _ H _ _ _ _ _ Hg Hcw He) as Hok. unfold entry_ok in *.
    destruct (present e); [|done]. destruct L as [|[|L]]; try done.
    destruct Hok as (? & ? & Hm & ?). split_and!; try done. cbn.
    destruct (decide (entry_frame e = c)) as [->|]; [by rewrite lookup_insert_eq|by rewrite lookup_insert_ne].
  - intros g M q w Hg Hcw. eapply translate_agree; [by apply pt_ok_shape|done..|].
    intros g' M' q' Hg' Hc' _. left. by apply (Hl g' M' q').
Qed.

(** The state after [SetupPML4] returned frame [c]: a loaded PML4 that maps
    nothing for applications and the kernel's half as before. *)
Record fresh_space st ow (c : Z) st' : Prop := {
  fs_ok : pt_ok st' (<[c := (4%nat, 0)]> ow);
  fs_cr3 : CR3 st' = c * 2 ^ 12;
  fs_new : fa_used (memory_manager st) c = false /\ 0 <= c;
  fs_low : forall j, 0 <= j < 256 -> load st' (c * 2 ^ 12) j = load st (CR3 st) j;
  fs_high : forall x, upper x -> load st' (c * 2 ^ 12) (idx 4 x) = Some 0;
  fs_translate : forall g M q w, ow !! g = Some (M, q) -> covers M q w ->
    translate st' M (g * 2 ^ 12) w = translate st M (g * 2 ^ 12) w;
  fs_mem : forall f, f <> c -> mem st' !! f = mem st !! f;
  fs_used : forall f, 0 <= f -> fa_used (memory_manager st) f = true -> fa_used (memory_manager st') f = true;
}.

Lemma SetupPML4_spec l ow cur :
  pt_ok (machine l) ow -> mem (machine l) !! frame_of (CR3 (machine l)) = Some cur -> length cur = 512%nat ->
  fa_used (memory_manager (machine l)) (frame_of (CR3 (machine l))) = true ->
  exists l' p err, SetupPML4 l = Some (l', (p, err)) /\
    ((err = kSuccess /\ exists c, p = c * 2 ^ 12 /\ task_cr3 l' = p /\ fresh_space (machine l) ow c (machine l')) \/
     ran_out (machine l') err).
Proof.
  intros H Hcur Hlen Hused. unfold SetupPML4. set (st := machine l) in *.
  destruct (NewPageMap_spec st (po_manager _ _ H)) as (st1 & p & err & -> & [(-> & c & -> & Hn)|(-> & -> & Hex)]).
  2: { cbn. eexists _, _, _. split; [done|by right]. }
  cbn [mbind option_bind]. unfold is_error. rewrite bool_decide_false by naive_solver.
  rewrite (np_cr3 _ _ _ Hn), (np_mem _ _ _ Hn).
  assert (frame_of (CR3 st) <> c) as Hne by (intros E; rewrite E, (np_fresh _ _ _ Hn) in Hused; done).
  rewrite (lookup_insert_ne _ c (frame_of (CR3 st))), Hcur by congruence. cbn [mbind option_bind].
  rewrite frame_of_mul, lookup_insert_eq. cbn [mbind option_bind].
  rewrite read_at_Some by lia. cbn [mbind option_bind]. set (low := slice cur 0 256).
  assert (length low = 256%nat) as Hlow by (apply length_slice; lia).
  rewrite write_at_Some by (rewrite Hlow, length_replicate; lia). cbn [mbind option_bind].
  set (pg' := splice (replicate 512 0) 0 low).
  assert (length pg' = 512%nat) as Hpg' by (unfold pg'; rewrite length_splice by (rewrite Hlow, length_replicate; lia); apply length_replicate).
  assert (forall j, 0 <= j < 512 -> getZ pg' j = if decide (j < 256) then getZ cur j else Some 0) as Hget.
  { intros j Hj. unfold getZ, pg'. rewrite !(decide_True (P := 0 <= j)) by lia.
    rewrite lookup_splice, Hlow by (rewrite Hlow, length_replicate; lia).
    repeat case_decide; try lia.
    - unfold low. rewrite lookup_slice, decide_True by lia. f_equal. lia.
    - apply lookup_replicate_2. lia. }
  eexists _, _, _. split; [done|]. left. split; [done|]. exists c. split; [done|]. split; [done|].
  pose proof (new_page_ok st ow c st1 (Some (4%nat, 0)) H Hn ltac:(intros ? ? [= <- <-]; lia)) as Hok1.
  assert (Hgrow : partial_alter (fun _ => Some (4%nat, 0)) c ow = <[c := (4%nat, 0)]> ow) by done.
  rewrite Hgrow in Hok1.
  destruct (low_half_write st1 (<[c := (4%nat, 0)]> ow) c (replicate 512 0) pg') as [Hok2 Ht2];
    [done|by rewrite lookup_insert_eq|by rewrite (np_mem _ _ _ Hn), lookup_insert_eq|by rewrite length_replicate| |].
  { intros j Hj. destruct (decide (j < 512)).
    - rewrite Hget, decide_False by lia. unfold getZ. rewrite decide_True by lia. symmetry. apply lookup_replicate_2. lia.
    - unfold getZ. rewrite !decide_True by lia. rewrite !lookup_ge_None_2; [done|rewrite length_replicate|]; lia. }
  rewrite (np_mem _ _ _ Hn) in Hok2, Ht2.
  split; cbn [machine set_task_cr3 set_machine SetCR3 set_mem CR3 memory_manager mem].
  - destruct Hok2 as [O1 O2 O3]. by split.
  - done.
  - split; [apply Hn|apply Hn].
  - intros j Hj. unfold load; cbn [mem SetCR3 set_mem]. rewrite frame_of_mul, lookup_insert_eq, Hcur. cbn [mbind option_bind].
    rewrite Hget, decide_True by lia. done.
  - intros x Hx. unfold load; cbn [mem SetCR3 set_mem]. rewrite frame_of_mul, lookup_insert_eq. cbn [mbind option_bind].
    rewrite Hget by apply idx_range. rewrite decide_False; [done|].
    unfold idx, pw. cbn [pred]. change (512 ^ Z.of_nat 3) with (2 ^ 27). destruct Hx as [Hx1 Hx2].
    assert (256 <= x / 2 ^ 27) by (apply Z.div_le_lower_bound; lia).
    assert (x / 2 ^ 27 < 512) by (apply Z.div_lt_upper_bound; lia). rewrite Z.mod_small; lia.
  - intros g M q w Hg Hcw. transitivity (translate st1 M (g * 2 ^ 12) w).
    + rewrite <- (Ht2 g M q w); [by apply translate_mem| |done]. rewrite lookup_insert_ne; [done|].
      intros <-. rewrite (fresh_not_table _ _ _ _ H Hn) in Hg. done.
    + by eapply new_page_translate.
  - intros f Hf. by rewrite !lookup_insert_ne.
  - intros f Hf Hu. rewrite (np_used _ _ _ Hn) by done. by case_decide.
Qed.
(** ** The program's address space *)

Lemma fresh_space_vm st ow c st' : fresh_space st ow c st' -> vm_ok st' (<[c := (4%nat, 0)]> ow) c.
Proof.
  intros F. assert (Habs : forall x, upper x -> translate st' 4 (CR3 st') x = None).
  { intros x Hx. rewrite (fs_cr3 _ _ _ _ F). by apply (translate_absent _ _ _ _ 0); [apply (fs_high _ _ _ _ F)|]. }
  split; [apply F|apply F|apply lookup_insert_eq| |].
  - intros x y f w u w' u' Hx _. by rewrite Habs.
  - intros x f w u Hx. by rewrite Habs.
Qed.

(** The root of an address space is a page in use. *)
Lemma vm_root_page st ow root :
  vm_ok st ow root -> exists pg, mem st !! frame_of (CR3 st) = Some pg /\ length pg = 512%nat /\
    fa_used (memory_manager st) (frame_of (CR3 st)) = true.
Proof.
  intros H. rewrite (vm_cr3 _ _ _ H), frame_of_mul.
  destruct (po_table _ _ (vm_pt _ _ _ H) _ _ _ (vm_root _ _ _ H)) as (_ & _ & Hu & pg & Hpg & Hl). by exists pg.
Qed.

(** A copy-on-write copy of an address space: the same bytes, read-only. *)
Definition shares st st' : Prop := forall x, upper x ->
  translate st' 4 (CR3 st') x = demote <$> translate st 4 (CR3 st) x /\
  forall f w u, translate st 4 (CR3 st) x = Some (f, w, u) -> mem st' !! f = mem st !! f.

Lemma shares_read st st' a : shares st st' -> user_addr a -> read_byte a st' = read_byte a st.
Proof.
  intros S Ha. destruct (S (page_no a)) as [Ht Hm]; [by apply page_no_user|]. unfold read_byte.
  rewrite Ht. destruct (translate st 4 (CR3 st) (page_no a)) as [[[f w] u]|]; [|done].
  cbn [fmap option_fmap option_map demote fst snd mbind option_bind]. by rewrite (Hm f w u).
Qed.

(** The second half of [LoadApp]: a new PML4 that shares the pages of [c]. *)
Lemma copy_space l ow c :
  vm_ok (machine l) ow c ->
  exists l3 p err, SetupPML4 l = Some (l3, (p, err)) /\
    (ran_out (machine l3) err \/
     (err = kSuccess /\ task_cr3 l3 = p /\
      exists st4 err4, CopyPageMaps 4 p (c * 2 ^ 12) 256 (machine l3) = Some (st4, err4) /\
        (ran_out st4 err4 \/ (err4 = kSuccess /\ CR3 st4 = p /\ shares (machine l) st4)))).
Proof.
  intros H. destruct (vm_root_page _ _ _ H) as (cur & Hcur & Hlen & Hused).
  destruct (SetupPML4_spec l ow cur (vm_pt _ _ _ H) Hcur Hlen Hused) as (l3 & p & err & E & [(-> & d & -> & Hcr & F)|Hres]).
  2: { pose proof Hres as [-> _]. exists l3, p, kNoEnoughMemory. split; [done|by left]. }
  exists l3, (d * 2 ^ 12), kSuccess. split; [done|]. right. split; [done|]. split; [done|].
  destruct (fs_new _ _ _ _ F) as [Hfree Hd0]. pose proof (vm_root _ _ _ H) as Hroot.
  assert (Hne : forall f, fa_used (memory_manager (machine l)) f = true -> f <> d) by (intros f Hf ->; congruence).
  assert (Hcd : c <> d) by (destruct (po_table _ _ (vm_pt _ _ _ H) _ _ _ Hroot) as (_ & _ & Hu & _); by apply Hne).
  destruct (CopyPageMaps_root_spec (machine l3) (<[d := (4%nat, 0)]> ow) c d)
    as (st4 & err4 & ow4 & -> & _ & _ & Hcr4 & _ & Hdata & _ & Hres);
    [apply F|by rewrite lookup_insert_ne|apply lookup_insert_eq|done|apply F|].
  exists st4, err4. split; [done|]. destruct Hres as [(-> & Htr)|Hres]; [right|by left]. split; [done|].
  split; [by rewrite Hcr4, (fs_cr3 _ _ _ _ F)|]. intros x Hx. split.
  - rewrite Hcr4, (fs_cr3 _ _ _ _ F), Htr by done. f_equal. rewrite (vm_cr3 _ _ _ H).
    apply (fs_translate _ _ _ _ F c 4%nat 0); [done|by apply covers_root].
  - intros f w u Ht. destruct (vm_data _ _ _ _ _ _ _ H Hx Ht) as [Hr Ho Hu _].
    rewrite Hdata; [by apply F, Hne|lia|by apply F; [lia|]|]. rewrite lookup_insert_ne by (intros <-; by apply (Hne d)). done.
Qed.

(** The image of a program, copy-on-write, and nothing else. *)
Definition program_image (file : list Z) (ps : list Phdr) st : Prop :=
  (forall p j, p ∈ ps -> 0 <= j < p_memsz p ->
    (exists f, translate st 4 (CR3 st) (page_no (p_vaddr p + j)) = Some (f, false, true)) /\
    read_byte (p_vaddr p + j) st = image file p j) /\
  forall x, upper x -> mapped_at st x -> Exists (fun p => segment_page p x) ps.

Lemma shares_image file ps st0 st2 st4 :
  (forall x, upper x -> ~ mapped_at st0 x) -> executable file ps ->
  Forall (loaded file st2) ps -> only_segments ps st0 st2 -> shares st2 st4 -> program_image file ps st4.
Proof.
  intros Hnone Hex Hl (_ & _ & Hout) S. split.
  - intros p j Hp Hj. rewrite list.Forall_forall in Hl. destruct (Hl p Hp j Hj) as [(f & w & Ht) Hr].
    pose proof (ex_ok _ _ Hex) as Hok. rewrite list.Forall_forall in Hok.
    destruct (seg_page file p (p_vaddr p + j) (Hok p Hp)) as [Ha _]; [split; lia|].
    destruct (page_no_user _ Ha) as [_ Hu]. destruct (S _ Hu) as [Ht4 _]. rewrite Ht in Ht4.
    split; [by exists f|]. by rewrite (shares_read _ _ _ S Ha).
  - intros x Hx Hm. assert (forall p, Decision (segment_page p x)) as Hdec by (intros p; unfold segment_page; apply _).
    destruct (decide (Exists (fun p => segment_page p x) ps)) as [|Hn]; [done|].
    exfalso. apply not_Exists_Forall in Hn; [|done]. apply (Hnone x Hx). destruct (S x Hx) as [Ht4 _].
    unfold mapped_at in *. rewrite Ht4, Hout in Hm by done.
    destruct (translate st0 4 (CR3 st0) x); [by eexists|by destruct Hm].
Qed.
End load.

(** C24. Loading a program whose segments lie in the application's half, do not
    overlap and end within the pages counted from their sizes ([executable];
    for a segment that starts inside a page and crosses into one more than
    [(p_memsz + 4095) / 4096] the code maps a page too few, [seg_ok]): the task
    gets an address space of its own, loaded, in which every byte of every
    segment reads as in the file, followed by zeros, through pages the program
    may access and that are shared copy-on-write; no other page of the
    application's half is mapped. The entry point is the file's and the end is
    that of the highest segment. The only error is that every managed frame
    has been taken ([ran_out]). *)
Theorem LoadApp_loads {A : Type} `{!FrameAllocator A} (l : @Loading A) ow cur file ps start :
  pt_ok (machine l) ow -> mem (machine l) !! frame_of (CR3 (machine l)) = Some cur -> length cur = 512%nat ->
  fa_used (memory_manager (machine l)) (frame_of (CR3 (machine l))) = true ->
  e_ident file = Some elf_magic -> e_entry file = Some start -> executable file ps ->
  exists l' info err, LoadApp file l = Some (l', (info, err)) /\
    ((err = kSuccess /\ info = MkAppLoad (max_end 0 ps) start (CR3 (machine l')) /\
      task_cr3 l' = CR3 (machine l') /\ program_image file ps (machine l')) \/
     ran_out (machine l') err).
Proof.
  intros H Hcur Hlen Hused Hid Hstart Hex. unfold LoadApp.
  destruct (SetupPML4_spec l ow cur H Hcur Hlen Hused) as (l1 & p & err & -> & [(-> & c & -> & _ & F)|Hres]);
    cbn [mbind option_bind].
  2: { pose proof Hres as [-> _]. rewrite is_error_memory. eexists _, _, _. split; [done|by right]. }
  rewrite is_error_success. rewrite Hid. cbn [mbind option_bind]. rewrite decide_False by (intros ?; done).
  pose proof (fresh_space_vm _ _ _ _ F) as H1.
  destruct (LoadELF_spec (machine l1) _ c file ps H1 Hex) as (st2 & v & err & ow2 & -> & _ & Hcr2 & Hres).
  cbn [mbind option_bind]. destruct Hres as [(-> & -> & H2 & Hl & Ho)|Hres].
  2: { pose proof Hres as [-> _]. rewrite is_error_memory. eexists _, _, _. split; [done|by right]. }
  rewrite is_error_success. rewrite Hstart. cbn [mbind option_bind].
  destruct (copy_space (set_machine st2 l1) ow2 c H2) as (l3 & q & err & -> & Hres). cbn [mbind option_bind].
  destruct Hres as [Hres|(-> & Hcr3 & st4 & err4 & E4 & Hres)].
  { pose proof Hres as [-> _]. rewrite is_error_memory. eexists _, _, _. split; [done|by right]. }
  rewrite is_error_success. rewrite E4. cbn [mbind option_bind].
  eexists _, _, _. split; [done|]. destruct Hres as [Hres|(-> & Hcr4 & S)]; [by right|left].
  split; [done|]. cbn [machine set_machine task_cr3]. rewrite Hcr4, Hcr3. split; [done|]. split; [done|].
  apply (shares_image file ps (machine l1) st2 st4); try done.
  intros x Hx. unfold mapped_at. rewrite (fs_cr3 _ _ _ _ F).
  rewrite (translate_absent _ _ _ _ 0); [by intros [? ?]|by apply (fs_high _ _ _ _ F)|done].
Qed.

(** An executable with one segment: three bytes of code, ten in memory. *)
Definition sample_elf : list Z :=
  elf_magic ++ replicate 12 0 ++ le_bytes 2 ET_EXEC ++ replicate 6 0 ++ le_bytes 8 (kAppBase + 1) ++ le_bytes 8 64 ++
  replicate 16 0 ++ le_bytes 2 1 ++ replicate 6 0 ++
  le_bytes 4 PT_LOAD ++ replicate 4 0 ++ le_bytes 8 120 ++ le_bytes 8 kAppBase ++ replicate 8 0 ++ le_bytes 8 3 ++
  le_bytes 8 10 ++ replicate 8 0 ++ [0x31; 0xc0; 0xc3].
Definition sample_phdr : Phdr := MkPhdr PT_LOAD 120 kAppBase 3 10.

Lemma sample_elf_ok : executable sample_elf [sample_phdr].
Proof.
  split.
  - by apply (bool_decide_unpack (Forall (fun b => 0 <= b < 256) _)); vm_compute.
  - by vm_compute.
  - exists 64, 1. by vm_compute.
  - done.
  - constructor; [|constructor]. split; cbn [sample_phdr p_vaddr p_memsz p_filesz p_offset]; try (unfold kAppBase; lia);
      vm_compute; congruence.
  - repeat constructor.
Qed.

Lemma LoadApp_loads_witness :
  exists m l' info err, allocated m 1 = true /\
    LoadApp sample_elf (MkLoading (machine_with_root m) 0 [] 0 0) = Some (l', (info, err)) /\
    ((err = kSuccess /\ info = MkAppLoad (kAppBase + 10) (kAppBase + 1) (CR3 (machine l')) /\
      task_cr3 l' = CR3 (machine l') /\ program_image sample_elf [sample_phdr] (machine l')) \/ ran_out (machine l') err).
Proof.
  destruct (MarkAllocated_spec NewManager 1 1 NewManager_ok) as (m & _ & [Hok Hb _ Hbits]);
    [lia|lia|by vm_compute|].
  assert (Ha : allocated m 1 = true) by (rewrite Hbits by lia; rewrite decide_True by lia; reflexivity).
  assert (Hb' : range_begin m <= kFrameCount).
  { rewrite Hb. assert (range_begin NewManager = 0) as -> by reflexivity. by vm_compute. }
  exists m. destruct (LoadApp_loads (MkLoading (machine_with_root m) 0 [] 0 0) root_owner (replicate 512 0)
    sample_elf [sample_phdr] (kAppBase + 1)) as (l' & info & err & E & H).
  - apply machine_with_root_ok; assumption.
  - reflexivity.
  - reflexivity.
  - exact Ha.
  - by vm_compute.
  - by vm_compute.
  - apply sample_elf_ok.
  - exists l', info, err. split; [exact Ha|]. split; [exact E|exact H].
Defined.
