(* ===== verification/Syscall.v ===== *)
(** * System calls (kernel/syscall.cpp)

    The handlers, as functions of the kernel's state. A pointer into the
    caller's memory is the data read through it, or a component of the result
    for data written through it. *)

From S2P Require Import Prelude Bytes Message Task Timer KernelLog.
From stdpp Require Import base list numbers option gmap.
From Stdlib Require Import ZArith Lia.

Local Open Scope Z_scope.

(** newlib's <errno.h>. *)
Definition ESRCH : Z := 3.
Definition EAGAIN : Z := 11.
Definition EINVAL : Z := 22.
Definition EFBIG : Z := 27.

(** [src/kernel/syscall.cpp:21-24] [Result] *)
Record Result := MkResult { value : Z; error : Z }.

Section syscalls.
Context {Q : Type} `{!PriorityQueue Q}.

(** What the handlers change. *)
Record Kernel := MkKernel {
  task_manager : TaskManager;
  timer_manager : @TimerManager Q;
  kernel_log : Log;
  volume_image : list Z;
}.
Definition set_tm tm k := MkKernel tm (timer_manager k) (kernel_log k) (volume_image k).
Definition set_timers t k := MkKernel (task_manager k) t (kernel_log k) (volume_image k).
Definition set_log l k := MkKernel (task_manager k) (timer_manager k) l (volume_image k).
Definition set_image v k := MkKernel (task_manager k) (timer_manager k) (kernel_log k) v.

(** [src/kernel/syscall.cpp:30-35] [Exit] *)
Definition Exit (arg1 : Z) (k : Kernel) : option Result :=
  i ← CurrentTask (task_manager k); t ← find_task (task_manager k) i;
  Some (MkResult (os_stack_ptr t) (s32 arg1)).

(** [src/kernel/syscall.cpp:37-37] [GetCurrentTick] *)
Definition GetCurrentTick (k : Kernel) : Result := MkResult (tick (timer_manager k)) kTimerFreq.

(** [src/kernel/syscall.cpp:39-59] [CreateTimer] *)
Definition CreateTimer (arg1 arg2 arg3 : Z) (k : Kernel) : option (Kernel * Result) :=
  let mode := u32 arg1 in
  let timer_value := s32 arg2 in
  if decide (timer_value <= 0) then Some (k, MkResult 0 EINVAL)
  else
    task_id ← CurrentTask (task_manager k);
    let timeout := u64 (arg3 * kTimerFreq) / 1000 in
    let timeout := if Z.odd mode then u64 (timeout + tick (timer_manager k)) else timeout in
    Some (set_timers (AddTimer (MkTimer timeout (- timer_value) task_id) (timer_manager k)) k,
          MkResult (u64 (timeout * 1000) / kTimerFreq) 0).

(** [src/kernel/syscall.cpp:61-70] [DemandPages] *)
Definition DemandPages (num_pages : Z) (k : Kernel) : option (Kernel * Result) :=
  i ← CurrentTask (task_manager k); t ← find_task (task_manager k) i;
  let dp_end := dpaging_end t in
  Some (set_tm (upd_task i (SetDPagingEnd (u64 (dp_end + u64 (4096 * num_pages)))) (task_manager k)) k,
        MkResult dp_end 0).

(** [src/kernel/syscall.cpp:72-72] [CreateNewTask] *)
Definition CreateNewTask (k : Kernel) : Kernel * Result :=
  let '(tm, i) := NewTask (task_manager k) in (set_tm tm k, MkResult i 0).

(** [src/kernel/syscall.cpp:74-85] [CopyToTaskBuffer] *)
Definition SysCopyToTaskBuffer (id : Z) (buf : list Z) (offset len : Z) (k : Kernel) :
    option (Kernel * Result) :=
  '(tm, remain_bytes) ← CopyToTaskBuffer id buf offset len (task_manager k);
  Some (set_tm tm k, if decide (remain_bytes = -1) then MkResult 0 EFBIG else MkResult (u64 remain_bytes) 0).

(** [src/kernel/syscall.cpp:87-99] [SetCommand] *)
Definition SetCommand (id : Z) (command0 : list Z) (k : Kernel) : option (Kernel * Result) :=
  i ← FindTask_id id (task_manager k); t ← find_task (task_manager k) i;
  c ← strcpy (command t) 0 command0;
  Some (set_tm (upd_task i (set_command c) (task_manager k)) k, MkResult 0 0).

(** [src/kernel/syscall.cpp:101-113] [SetArgument] *)
Definition SetArgument (id : Z) (arg : list Z) (k : Kernel) : option (Kernel * Result) :=
  i ← FindTask_id id (task_manager k); t ← find_task (task_manager k) i;
  a ← strcpy (arg_ t) 0 arg;
  Some (set_tm (upd_task i (set_arg_ a) (task_manager k)) k, MkResult 0 0).

(** [src/kernel/syscall.cpp:115-122] [FindServer] *)
Definition FindServer (name : list Z) (k : Kernel) : Result :=
  let task_id := FindTask_name name (task_manager k) in
  if decide (task_id = 0) then MkResult 0 ESRCH else MkResult task_id 0.

(** [src/kernel/syscall.cpp:197-214] [SendMessage] *)
Definition SysSendMessage (send_message : Message) (id : Z) (k : Kernel) : option (Kernel * Result) :=
  task ← CurrentTask (task_manager k);
  '(tm, _) ← SendMessage id (set_src task send_message) (task_manager k);
  Some (set_tm tm k, MkResult 0 0).

(** [src/kernel/syscall.cpp:250-258] [ReadVolumeImage] *)
Definition ReadVolumeImage (offset_by_sector len_by_sector : Z) (k : Kernel) : option (list Z * Result) :=
  out ← ReadImage (volume_image k) offset_by_sector len_by_sector; Some (out, MkResult 0 0).

(** [src/kernel/syscall.cpp:260-268] [CopyToVolumeImage] *)
Definition CopyToVolumeImage (buf : list Z) (offset_by_sector len_by_sector : Z) (k : Kernel) :
    option (Kernel * Result) :=
  v ← CopyToImage (volume_image k) buf offset_by_sector len_by_sector; Some (set_image v k, MkResult 0 0).

(** [src/kernel/syscall.cpp:270-279] [ReadKernelLog] *)
Definition ReadKernelLog (len : Z) (k : Kernel) : option (Kernel * list Z * Result) :=
  if changed (kernel_log k) then
    '(out, remaining, l) ← KernelLogRead len (kernel_log k);
    Some (set_log l k, out, MkResult remaining 0)
  else Some (k, [], MkResult 0 EAGAIN).
End syscalls.

(** ** Receiving

    The outcome of a call is the messages received, or, when it put the
    caller to sleep, what the processor does: the caller continues at the head of the
    loop, with nothing received yet, when it is resumed. *)
Section receive.
Context (me len : Z).

(** [src/kernel/syscall.cpp:133-150] [OpenReceiveMessage] *)
Fixpoint OpenReceive_loop (fuel : nat) (i : Z) (receive_message : list Message) (tm : TaskManager) :
    option (TaskManager * (list Message + control)) :=
  match fuel with
  | O => None
  | S fuel' =>
      if decide (i < len) then
        task ← find_task tm me;
        match Task_ReceiveMessage task with
        | (None, _) =>
            if decide (i = 0) then '(tm', c) ← Sleep me tm; Some (tm', inr c)
            else Some (tm, inl receive_message)
        | (Some msg, task') =>
            OpenReceive_loop fuel' (i + 1) (receive_message ++ [msg])
              (upd_task me (set_msgs (msgs task')) tm)
        end
      else Some (tm, inl receive_message)
  end.

Context (target_id : Z) (junk : list Z).

(** [junk] is what the uninitialised [emsg] holds.
    [src/kernel/syscall.cpp:178-181] [ClosedReceiveMessage] *)
Definition retry_message : Message := setF error_retry 1 (MkMessage kError me junk).

(** [src/kernel/syscall.cpp:164-193] [ClosedReceiveMessage] *)
Fixpoint ClosedReceive_loop (fuel : nat) (i : Z) (receive_message : list Message) (tm : TaskManager) :
    option (TaskManager * (list Message + control)) :=
  match fuel with
  | O => None
  | S fuel' =>
      if decide (i < len) then
        task ← find_task tm me;
        match Task_ReceiveMessage task with
        | (None, _) =>
            if decide (i = 0) then '(tm', c) ← Sleep me tm; Some (tm', inr c)
            else Some (tm, inl receive_message)
        | (Some msg, task') =>
            let tm1 := upd_task me (set_msgs (msgs task')) tm in
            if decide (src_task msg <> target_id) then
              '(tm2, _) ← SendMessage (src_task msg) retry_message tm1;
              ClosedReceive_loop fuel' i receive_message tm2
            else ClosedReceive_loop fuel' (i + 1) (receive_message ++ [msg]) tm1
        end
      else Some (tm, inl receive_message)
  end.
End receive.

(** Every turn but the last takes a message from the mailbox, so one more
    turn than it holds is enough.
    [src/kernel/syscall.cpp:124-152] [OpenReceiveMessage] *)
Definition OpenReceiveMessage (len : Z) (tm : TaskManager) :
    option (TaskManager * (list Message + control)) :=
  me ← CurrentTask tm; task ← find_task tm me;
  OpenReceive_loop me len (S (length (msgs task))) 0 [] tm.

(** [src/kernel/syscall.cpp:154-195] [ClosedReceiveMessage] *)
Definition ClosedReceiveMessage (len target_id : Z) (junk : list Z) (tm : TaskManager) :
    option (TaskManager * (list Message + control)) :=
  me ← CurrentTask tm; task ← find_task tm me;
  ClosedReceive_loop me len target_id junk (S (length (msgs task))) 0 [] tm.

(** ** What a closed receive does *)

(** The messages taken from the mailbox when at most [n] from [target_id] are
    wanted: those received, those refused, those left. *)
Fixpoint closed_split (target_id : Z) (n : nat) (ms : list Message) :
    list Message * list Message * list Message :=
  match n, ms with
  | O, _ => ([], [], ms)
  | _, [] => ([], [], [])
  | S n', m :: ms' =>
      if decide (src_task m <> target_id) then
        let '(got, refused, rest) := closed_split target_id n ms' in (got, m :: refused, rest)
      else let '(got, refused, rest) := closed_split target_id n' ms' in (m :: got, refused, rest)
  end.

(** A task that was sent [n] copies of a message. *)
Definition replied (n : nat) (e : Message) (t : Task) : Task :=
  match n with O => t | _ => SetRunning true (set_msgs (msgs t ++ replicate n e) t) end.

Definition count_from (j : Z) (ms : list Message) : nat := length (filter (fun m => src_task m = j) ms).

Lemma replied_S n e t : replied n e (SetRunning true (set_msgs (msgs t ++ [e]) t)) = replied (S n) e t.
Proof. destruct n; [done|]. cbn. by rewrite <- app_assoc. Qed.

Lemma Wakeup_current i tm tm' c :
  Wakeup i (-1) tm = Some tm' -> CurrentTask tm = Some c -> CurrentTask tm' = Some c.
Proof.
  intros H Hc. unfold Wakeup in H. destruct (find_task tm i) as [t|]; [|done]. cbn [mbind option_bind] in H.
  destruct (is_running t).
  - unfold ChangeLevelRunning in H. destruct (find_task tm i) as [t'|]; [|done]. cbn [mbind option_bind] in H.
    rewrite decide_True in H by lia. by injection H as <-.
  - rewrite (decide_True (P := -1 < 0)) in H by lia.
    set (tm1 := upd_task _ _ tm) in H. change (running tm) with (running tm1) in Hc.
    destruct (getZ (running tm1) (level t)) as [q|] eqn:Hq; [|done]. cbn [mbind option_bind] in H.
    destruct (setZ (running tm1) (level t) (q ++ [i])) as [qs|] eqn:Hs; [|done]. cbn [mbind option_bind] in H.
    injection H as <-. assert (G : CurrentTask (set_queues qs tm1) = Some c) by
    (unfold CurrentTask in *; cbn [set_queues running current_level]; rewrite (getZ_setZ _ _ _ _ _ Hs);
      change (current_level tm) with (current_level tm1) in Hc; case_decide as E; [|done];
      rewrite <- E in Hc; change (running tm) with (running tm1) in Hc; rewrite Hq in Hc; by destruct q).
    by case_decide.
Qed.

Lemma SendMessage_current i msg tm tm' err c :
  SendMessage i msg tm = Some (tm', err) -> CurrentTask tm = Some c -> CurrentTask tm' = Some c.
Proof.
  unfold SendMessage, Task_SendMessage. destruct (find_task tm i) as [t|] eqn:Ht; [|by intros [= <- _]].
  destruct (Wakeup i (-1) _) as [tm1|] eqn:E; [|done]. intros [= <- _] Hc.
  by apply (Wakeup_current _ _ _ _ E).
Qed.

Lemma SendMessage_replies me j e tm :
  sched_ok tm -> j <> me ->
  exists tm' err, SendMessage j e tm = Some (tm', err) /\ sched_ok tm' /\
    find_task tm' me = find_task tm me /\
    forall k tk, find_task tm k = Some tk ->
      find_task tm' k = Some (replied (if decide (k = j) then 1 else 0)%nat e tk).
Proof.
  intros H Hj. unfold SendMessage. destruct (find_task tm j) as [t|] eqn:Ht.
  - destruct (Task_SendMessage_ok j e t tm H Ht) as (tm' & -> & H' & _ & Ho). cbn [mbind option_bind].
    eexists _, _; split; [done|]. split; [done|]. split; [rewrite (Ho me); by case_decide|].
    intros k tk Hk. rewrite (Ho k). case_decide as E; [|done]. subst k. rewrite Hk in *. done.
  - eexists _, _; split; [done|]. split_and!; [done..|]. intros k tk Hk. case_decide; [congruence|done].
Qed.

Section filters.
Context (me len target_id : Z) (junk : list Z).
#[local] Abbreviation e := (retry_message me junk).

(** What the loop does with a mailbox [ms], having received [acc] so far. *)
Definition closed_post (tm : TaskManager) (t : Task) (acc ms : list Message)
    (r : TaskManager * (list Message + control)) : Prop :=
  let '(got, refused, rest) := closed_split target_id (Z.to_nat (len - Z.of_nat (length acc))) ms in
  sched_ok (fst r) /\
  (forall j tj, j <> me -> find_task tm j = Some tj ->
     find_task (fst r) j = Some (replied (count_from j refused) e tj)) /\
  match acc ++ got with
  | [] => find_task (fst r) me = Some (SetRunning false (set_msgs [] t)) /\ rest = [] /\
      exists next, snd r = inr (SwitchContext next me) /\ CurrentTask (fst r) = Some next
  | got' => snd r = inl got' /\ find_task (fst r) me = Some (set_msgs rest t)
  end.

Lemma set_msgs_self t : set_msgs (msgs t) t = t.
Proof. by destruct t. Qed.

Lemma Sleep_current tm t :
  sched_ok tm -> CurrentTask tm = Some me -> me <> idle_id -> find_task tm me = Some t ->
  exists tm' next, Sleep me tm = Some (tm', SwitchContext next me) /\ sched_ok tm' /\
    only_task me (SetRunning false) tm tm' /\ CurrentTask tm' = Some next.
Proof.
  intros H Hc Hi Ht. destruct (Sleep_ok me t tm H Ht Hi) as (tm' & k & E & [H' _ Ho Hk]).
  assert (Hrun : is_running t = true).
  { apply CurrentTask_elem in Hc. apply (so_where _ H) in Hc. rewrite (where_task _ _ _ Ht) in Hc.
    unfold run_level in Hc. by destruct (is_running t). }
  destruct k as [|next cur|next]; [exfalso| |done].
  - revert E. unfold Sleep. rewrite Ht. cbn [mbind option_bind]. rewrite Hrun. cbn [negb].
    change (CurrentTask (upd_task me (SetRunning false) tm)) with (CurrentTask tm). rewrite Hc.
    cbn [mbind option_bind]. rewrite decide_True by done.
    destruct (RotateCurrentRunQueue _ _) as [[tm2 c2]|]; [|done]. cbn [mbind option_bind].
    by destruct (CurrentTask tm2).
  - destruct Hk as (-> & Hn & _). by exists tm', next.
Qed.

Lemma ClosedReceive_loop_spec fuel : forall acc ms tm t,
  sched_ok tm -> CurrentTask tm = Some me -> me <> idle_id -> find_task tm me = Some t ->
  msgs t = ms -> Forall (fun m => src_task m <> me) ms -> (length ms < fuel)%nat ->
  0 < len -> Z.of_nat (length acc) <= len ->
  exists r, ClosedReceive_loop me len target_id junk fuel (Z.of_nat (length acc)) acc tm = Some r /\
    closed_post tm t acc ms r.
Proof.
  induction fuel as [|fuel IH]; intros acc ms tm t H Hc Hi Ht Hms Hself Hf Hlen Hacc; [lia|].
  cbn [ClosedReceive_loop]. case_decide as Hlt.
  2: { eexists; split; [done|]. unfold closed_post. replace (Z.to_nat _) with 0%nat by lia.
       assert (closed_split target_id 0 ms = ([], [], ms)) as -> by (by destruct ms).
       split; [done|]. split; [done|]. rewrite app_nil_r.
       destruct acc; [cbn in *; lia|]. split; [done|]. by rewrite <- Hms, set_msgs_self. }
  destruct (Z.to_nat (len - Z.of_nat (length acc))) as [|n] eqn:Hn; [lia|].
  rewrite Ht; cbn [mbind option_bind]. unfold Task_ReceiveMessage. rewrite Hms.
  destruct ms as [|m ms].
  - destruct acc as [|a acc].
    + rewrite decide_True by done. destruct (Sleep_current tm t H Hc Hi Ht) as (tm' & next & -> & H' & Ho & Hn').
      cbn [mbind option_bind]. eexists; split; [done|]. unfold closed_post. rewrite Hn. cbn. split; [done|].
      split; [intros j tj Hj Htj; rewrite (Ho j); by case_decide|].
      split; [|by split; [done|exists next]]. rewrite (Ho me), decide_True, Ht by done. cbn.
      destruct t; cbn in *; by subst.
    + rewrite decide_False by (cbn; lia). eexists; split; [done|]. unfold closed_post. rewrite Hn. cbn.
      split; [done|]. split; [done|]. rewrite app_nil_r. split; [done|]. by rewrite <- Hms, set_msgs_self.
  - inversion Hself as [|? ? Hm Hself']; subst. cbn [length] in Hf.
    set (tm1 := upd_task me (set_msgs (msgs (set_msgs ms t))) tm).
    assert (Hkeep : keeps_place (set_msgs ms)) by apply (set_msgs_keeps (fun _ => ms)).
    assert (H1 : sched_ok tm1) by by apply upd_ok.
    assert (Ht1 : find_task tm1 me = Some (set_msgs ms t))
      by (unfold tm1; rewrite find_upd_task, decide_True, Ht by done; done).
    assert (Ho1 : forall j, j <> me -> find_task tm1 j = find_task tm j)
      by (intros j Hj; unfold tm1; rewrite find_upd_task by done; by case_decide).
    case_decide as Hsrc.
    + destruct (SendMessage_replies me (src_task m) e tm1 H1 Hm) as (tm2 & err & E & H2 & Hme & Hoth).
      rewrite E; cbn [mbind option_bind]. rewrite Ht1 in Hme.
      destruct (IH acc ms tm2 (set_msgs ms t) H2) as (r & Er & Hr); try done; [|lia|].
      { apply (SendMessage_current _ _ _ _ _ _ E). exact Hc. }
      exists r. split; [done|]. unfold closed_post in *. rewrite Hn in *. cbn [closed_split].
      rewrite decide_True by done.
      destruct (closed_split target_id (S n) ms) as [[got refused] rest]. destruct Hr as (Hr1 & Hr2 & Hr3).
      split; [done|]. split; [|by destruct (acc ++ got)].
      intros j tj Hj Htj. rewrite <- Ho1 in Htj by done. rewrite (Hr2 j _ Hj (Hoth j _ Htj)). f_equal.
      unfold count_from. rewrite filter_cons. destruct (decide (j = src_task m)) as [->|Hne].
      * rewrite !decide_True by done. cbn [length]. by rewrite <- (replied_S (length _) e tj).
      * by rewrite !decide_False by congruence.
    + destruct (IH (acc ++ [m]) ms tm1 (set_msgs ms t) H1) as (r & Er & Hr); try done; [lia| |].
      { rewrite length_app. cbn. lia. }
      exists r. rewrite length_app in Er. cbn [length] in Er.
      replace (Z.of_nat (length acc + 1)) with (Z.of_nat (length acc) + 1) in Er by lia. split; [done|].
      unfold closed_post in *. rewrite length_app in Hr. cbn [length] in Hr.
      replace (Z.to_nat (len - Z.of_nat (length acc + 1))) with n in Hr by lia. rewrite Hn. cbn [closed_split].
      rewrite decide_False by tauto. destruct (closed_split target_id n ms) as [[got refused] rest].
      rewrite <- app_assoc in Hr. cbn [app] in Hr. destruct Hr as (Hr1 & Hr2 & Hr3).
      split; [done|]. split; [intros j tj Hj Htj; apply Hr2; [done|by rewrite Ho1]|].
      by destruct acc.
Qed.
End filters.

(** C17. A closed receive takes messages of one sender and refuses all
    others on the way: unless the mailbox holds a message from the caller itself, which
    it would answer to itself for ever, it ends, and the caller gets the first messages of [target_id] in its
    mailbox, at most [len], in order; every other message met before is answered with a retry
    error to its sender, which is woken up, once per message; what lies behind
    stays in the mailbox. If there was nothing from [target_id] the caller sleeps
    with an empty mailbox. No other task changes. *)
Theorem ClosedReceiveMessage_filters tm me t len target_id junk :
  sched_ok tm -> CurrentTask tm = Some me -> me <> idle_id -> find_task tm me = Some t ->
  Forall (fun m => src_task m <> me) (msgs t) -> 0 < len ->
  let '(got, refused, rest) := closed_split target_id (Z.to_nat len) (msgs t) in
  exists tm' r, ClosedReceiveMessage len target_id junk tm = Some (tm', r) /\ sched_ok tm' /\
    (forall j tj, j <> me -> find_task tm j = Some tj ->
       find_task tm' j = Some (replied (count_from j refused) (retry_message me junk) tj)) /\
    match got with
    | [] => find_task tm' me = Some (SetRunning false (set_msgs [] t)) /\ rest = [] /\
        exists next, r = inr (SwitchContext next me) /\ CurrentTask tm' = Some next
    | _ => r = inl got /\ find_task tm' me = Some (set_msgs rest t)
    end.
Proof.
  intros H Hc Hi Ht Hself Hlen. unfold ClosedReceiveMessage. rewrite Hc; cbn [mbind option_bind].
  rewrite Ht; cbn [mbind option_bind].
  destruct (ClosedReceive_loop_spec me len target_id junk (S (length (msgs t))) [] (msgs t) tm t)
    as ([tm' r] & E & Hr); try done; [lia|cbn; lia|].
  unfold closed_post in Hr. cbn [length Z.of_nat app fst snd] in Hr. rewrite Z.sub_0_r in Hr.
  destruct (closed_split target_id (Z.to_nat len) (msgs t)) as [[got refused] rest].
  exists tm', r. split; [done|]. by destruct got.
Qed.

(** Task 1 waits for task 3 with a message of task 2 and one of task 3 in
    its mailbox. *)
Definition sample_mail : TaskManager :=
  upd_task 1 (set_msgs [set_src 2 (zero_message kMouseMove); set_src 3 (zero_message kReady)]) sample_tm.

Lemma sample_mail_ok : sched_ok sample_mail.
Proof.
  apply upd_ok; [apply (set_msgs_keeps (fun _ => [_; _]))|]. apply reachable_ok, sample_tm_reachable.
Qed.

Lemma ClosedReceiveMessage_filters_witness :
  exists tm', ClosedReceiveMessage 1 3 [] sample_mail =
    Some (tm', inl [set_src 3 (zero_message kReady)]) /\ sched_ok tm'.
Proof.
  pose proof (ClosedReceiveMessage_filters sample_mail 1
    (default (MakeTask 0) (find_task sample_mail 1)) 1 3 [] sample_mail_ok) as F.
  vm_compute closed_split in F.
  destruct F as (tm' & r & E & Hok & _ & -> & _); [reflexivity|done|reflexivity| |done|].
  - repeat constructor; done.
  - by exists tm'.
Defined.
