(* ===== verification/Newlib.v ===== *)
(** * The C library's system layer for programs
    (libs/kinos/common/newlib_support.c)

    The heap on top of demand paging, and the file operations, which are
    exchanges of messages with the application manager. *)

From S2P Require Import Prelude Bytes Message Task Timer Syscall.
From stdpp Require Import base list numbers option gmap.
From Stdlib Require Import ZArith Lia.

Local Open Scope Z_scope.

(** newlib's <errno.h>. *)
Definition EPERM : Z := 1.
Definition EBADF : Z := 9.
Definition ENOMEM : Z := 12.

(** The functions that only fail: the result and [errno].
    [src/libs/kinos/common/newlib_support.c:15-40] [close] *)
Definition close (fd : Z) : Z * Z := (-1, EBADF).
Definition fstat (fd : Z) : Z * Z := (-1, EBADF).
Definition getpid : Z := 0.
Definition isatty (fd : Z) : Z * Z := (-1, EBADF).
Definition kill (pid sig : Z) : Z * Z := (-1, EPERM).
Definition lseek (fd offset whence : Z) : Z * Z := (-1, EBADF).

(** [malloc] is the C library's: it returns a block's address or null (0).
    The result is that of the function and the pointer it stores.
    [src/libs/kinos/common/newlib_support.c:42-50] [posix_memalign] *)
Definition posix_memalign (malloc : Z -> Z) (alignment size : Z) : Z * option Z :=
  let addr := malloc (u64 (size + alignment - 1)) in
  if decide (addr = 0) then (ENOMEM, None)
  else (0, Some (Z.land (u64 (addr + alignment - 1)) (u64 (Z.lnot (u64 (alignment - 1)))))).

(** The static variables of [sbrk].
    [src/libs/kinos/common/newlib_support.c:53-54] [sbrk] *)
Record Heap := MkHeap { dpage_end : Z; program_break : Z }.
Definition InitialHeap : Heap := MkHeap 0 0.

#[export] Instance Heap_eq_dec : EqDecision Heap.
Proof. solve_decision. Defined.

(** A signed [int] expression; overflow is undefined. *)
Definition int (x : Z) : option Z := if decide (- 2 ^ 31 <= x < 2 ^ 31) then Some x else None.

Section sbrk.
Context {Q : Type} `{!PriorityQueue Q}.

(** Demand pages for [incr] more bytes; [true] on failure.
    [src/libs/kinos/common/newlib_support.c:57-64] [sbrk] *)
Definition sbrk_grow (incr : Z) (h : Heap) (k : @Kernel Q) : option (@Kernel Q * Heap * bool) :=
  n ← int (incr + 4095);
  let num_pages := Z.quot n 4096 in
  '(k', res) ← DemandPages (u64 num_pages) k;
  if decide (error res <> 0) then Some (k', h, true)
  else
    size ← int (4096 * num_pages);
    Some (k', MkHeap (u64 (value res + u64 size)) (value res), false).

(** [src/libs/kinos/common/newlib_support.c:52-70] [sbrk] *)
Definition sbrk (incr : Z) (h : Heap) (k : @Kernel Q) : option (@Kernel Q * Heap * Z) :=
  '((k', h', failed) : @Kernel Q * Heap * bool) ←
    (if decide (dpage_end h = 0 \/ dpage_end h < u64 (program_break h + incr)) then sbrk_grow incr h k
     else Some (k, h, false));
  if failed then Some (k', h', u64 (-1))
  else
    let prev_break := program_break h' in
    Some (k', MkHeap (dpage_end h') (u64 (program_break h' + incr)), prev_break).

(** Allocations in turn, with the addresses returned. *)
Fixpoint sbrks (incrs : list Z) (h : Heap) (k : @Kernel Q) : option (@Kernel Q * Heap * list Z) :=
  match incrs with
  | [] => Some (k, h, [])
  | incr :: incrs' =>
      '(k1, h1, p) ← sbrk incr h k;
      '(k2, h2, ps) ← sbrks incrs' h1 k1;
      Some (k2, h2, p :: ps)
  end.

(** The demand-paged area of the current task. *)
Definition paging_end (k : @Kernel Q) : option Z :=
  i ← CurrentTask (task_manager k); t ← find_task (task_manager k) i; Some (dpaging_end t).

(** The break lies in the pages demanded so far. *)
Definition heap_ok (h : Heap) (e : Z) : Prop :=
  (h = InitialHeap \/ (dpage_end h = e /\ 0 < e)) /\ 0 <= program_break h <= dpage_end h.

Lemma DemandPages_spec n k e :
  paging_end k = Some e -> 0 <= n -> 0 <= e -> e + 4096 * n < 2 ^ 64 ->
  exists k', DemandPages n k = Some (k', MkResult e 0) /\ paging_end k' = Some (e + 4096 * n).
Proof.
  unfold paging_end, DemandPages. intros He Hn H0 Hlt.
  destruct (CurrentTask (task_manager k)) as [i|] eqn:Hc; [|done]. cbn [mbind option_bind] in *.
  destruct (find_task (task_manager k) i) as [t|] eqn:Ht; [|done]. cbn [mbind option_bind] in *.
  injection He as <-. eexists; split; [done|]. cbn [task_manager set_tm].
  change (CurrentTask (upd_task i _ _)) with (CurrentTask (task_manager k)). rewrite Hc; cbn [mbind option_bind].
  rewrite find_upd_task, decide_True, Ht by done. cbn [fmap option_fmap option_map mbind option_bind].
  cbn [SetDPagingEnd dpaging_end]. by rewrite (u64_small (4096 * n)), u64_small by lia.
Qed.

(** The start of the block an allocation returns, and what it leaves: the
    block lies above every earlier one and below the break. *)
Lemma sbrk_spec incr h k e :
  paging_end k = Some e -> heap_ok h e -> 0 < e -> 0 <= incr < 2 ^ 31 - 4096 ->
  e + incr + 8192 < 2 ^ 63 ->
  exists k' h' p e', sbrk incr h k = Some (k', h', p) /\ paging_end k' = Some e' /\ heap_ok h' e' /\
    program_break h <= p /\ program_break h' = p + incr /\ e <= e' <= e + incr + 4095 /\
    p + incr <= e' /\ (h = InitialHeap -> p = e) /\ h' <> InitialHeap.
Proof.
  intros He [Hh Hb] He0 Hi Hlt. unfold sbrk.
  assert (Hsz : dpage_end h <= e) by (destruct Hh as [->|[-> _]]; cbn; lia).
  assert (Hne : forall d p, 0 < d -> MkHeap d p <> InitialHeap) by (intros d p ? [=]; lia).
  case_decide as Hd.
  - unfold sbrk_grow, int. rewrite decide_True by lia. cbn [mbind option_bind].
    assert (Hq : Z.quot (incr + 4095) 4096 = (incr + 4095) / 4096) by (apply Z.quot_div_nonneg; lia).
    pose proof (Z.div_mod (incr + 4095) 4096) as Hdm. pose proof (Z.mod_pos_bound (incr + 4095) 4096) as Hm.
    set (n := (incr + 4095) / 4096) in *. rewrite Hq, (u64_small n) by lia.
    destruct (DemandPages_spec n k e He) as (k' & -> & He'); [lia..|]. cbn [mbind option_bind error value].
    rewrite decide_False by lia. rewrite decide_True by lia. cbn [mbind option_bind dpage_end program_break].
    rewrite (u64_small (4096 * n)), (u64_small (e + 4096 * n)), (u64_small (e + incr)) by lia.
    eexists _, _, _, _. split; [done|]. split; [exact He'|]. split_and!; cbn; try lia; try (by apply Hne; lia).
    split; cbn; [right; lia|lia].
  - assert (Hh' : h <> InitialHeap) by (intros ->; apply Hd; by left).
    destruct Hh as [->|[Hde _]]; [done|]. cbn [mbind option_bind].
    rewrite u64_small in Hd by lia. rewrite u64_small by lia.
    eexists _, _, _, _. split; [done|]. split; [exact He|].
    split_and!; cbn; try lia; try done; [split; cbn; [right; lia|lia]|apply Hne; lia].
Qed.

End sbrk.

(** Two allocations of a program whose demand-paged area starts at 64 KiB. *)
Definition sample_kernel : @Kernel SortedTimers :=
  MkKernel (upd_task 1 (SetDPagingEnd 65536) sample_tm) sample_timers KernelLog.InitialLog [].


(** ** File operations

    The program's side of the exchange with the application manager: the replies
    are the messages [SyscallClosedReceiveMessage] delivers in turn, the
    trace is what is sent. *)

(** [Waiting] for a reply, or ended by a reply that is an error or the one expected. *)
Inductive outcome := Waiting | Failed (rmsg : Message) | Got (rmsg : Message).

(** The [while (1)] loop after each request: a retry error repeats the
    request, messages of other types are ignored.
    [src/libs/kinos/common/newlib_support.c:184-197] [write] *)
Fixpoint await (expected : MsgType) (smsg : Message) (inbox : list Message) (sent : list Message) :
    outcome * list Message * list Message :=
  match inbox with
  | [] => (Waiting, [], sent)
  | rmsg :: inbox' =>
      if decide (type rmsg = kError) then
        if decide (getI error_retry rmsg <> 0) then await expected smsg inbox' (sent ++ [smsg])
        else (Failed rmsg, inbox', sent)
      else if decide (type rmsg = expected) then (Got rmsg, inbox', sent)
      else await expected smsg inbox' sent
  end.

(** The result of a call with [errno], the replies left and the trace; no result while
    it waits. *)
Definition reply : Type := option (Z * Z) * list Message * list Message.

(** The loop of [open] over the path; [None] when it is too long.
    [src/libs/kinos/common/newlib_support.c:86-97] [open] *)
Fixpoint copy_path (path : list Z) (i : nat) (m : Message) : option (option Message) :=
  match path with
  | [] => m' ← putB (open_filename + i) [0] m; Some (Some m')
  | c :: path' =>
      if decide (25 < i)%nat then Some None
      else m' ← putB (open_filename + i) [c] m; copy_path path' (S i) m'
  end.

(** "servers/am". *)
Definition servers_am : list Z := [115; 101; 114; 118; 101; 114; 115; 47; 97; 109].

(** The answer of the system call [SyscallFindServer]: a task and an error. *)
Section files.
Context (find_server : list Z -> Z * Z).

(** The trace of a whole call: every message with the task it is sent to. *)
Definition posted : Type := option (Z * Z) * list Message * list (Z * Message).
Definition to_task (id : Z) (r : reply) : posted := (fst r, (fun m => (id, m)) <$> snd r).

(** [junk] is what the uninitialised message holds.
    [src/libs/kinos/common/newlib_support.c:79-121] [open] *)
Definition open (junk path : list Z) (flags : Z) (inbox : list Message) : option posted :=
  let '(id, err) := find_server servers_am in
  if decide (err = 0) then
    m ← putB open_filename (replicate 32 0) (MkMessage kOpen 0 junk);
    r ← copy_path path 0 m;
    match r with
    | None => Some (Some (-1, EINVAL), inbox, [])
    | Some m =>
        let smsg := setF open_flags flags m in
        let '(o, inbox', sent) := await kOpen smsg inbox [smsg] in
        Some (to_task id (match o with
              | Waiting => None
              | Failed rmsg => Some (-1, getI error_err rmsg)
              | Got rmsg => Some (getI open_fd rmsg, 0)
              end, inbox', sent))
    end
  else Some (Some (-1, err), inbox, []).

(** [src/libs/kinos/common/newlib_support.c:136-155] [read] *)
Fixpoint read_loop (smsg : Message) (inbox sent : list Message) (buf : list Z) (read_bytes : nat) :
    option (reply * list Z) :=
  match inbox with
  | [] => Some ((None, [], sent), buf)
  | rmsg :: inbox' =>
      if decide (type rmsg = kError) then
        if decide (getI error_retry rmsg <> 0) then read_loop smsg inbox' (sent ++ [smsg]) buf read_bytes
        else Some ((Some (-1, EAGAIN), inbox', sent), buf)
      else if decide (type rmsg = kRead) then
        let len := Z.to_nat (getU read_len rmsg) in
        if decide (len <> 0%nat) then
          data ← read_at (arg rmsg) read_data len;
          buf' ← write_at buf read_bytes data;
          read_loop smsg inbox' sent buf' (read_bytes + len)
        else Some ((Some (Z.of_nat read_bytes, 0), inbox', sent), buf)
      else read_loop smsg inbox' sent buf read_bytes
  end.

(** [buf] is the caller's block.
    [src/libs/kinos/common/newlib_support.c:123-161] [read] *)
Definition read (junk : list Z) (fd count : Z) (buf : list Z) (inbox : list Message) :
    option (posted * list Z) :=
  let '(id, err) := find_server servers_am in
  if decide (err = 0) then
    let smsg := setF read_count (u32 count) (setF read_fd fd (MkMessage kRead 0 junk)) in
    '(r, buf') ← read_loop smsg inbox [smsg] buf 0; Some (to_task id r, buf')
  else Some ((Some (-1, err), inbox, []), buf).

(** The [while] loop of [write] and the closing exchange.
    [src/libs/kinos/common/newlib_support.c:174-216] [write] *)
Fixpoint write_loop (fuel : nat) (smsg : Message) (bufc : list Z) (count sent_bytes : nat)
    (inbox sent : list Message) : option reply :=
  match fuel with
  | O => None
  | S fuel' =>
      if decide (sent_bytes < count)%nat then
        let len := if decide (data_size < count - sent_bytes)%nat then data_size
                   else (count - sent_bytes)%nat in
        data ← read_at bufc sent_bytes len;
        smsg' ← putB write_data data (setF write_len (Z.of_nat len) smsg);
        let '(o, inbox', sent') := await kReceived smsg' inbox (sent ++ [smsg']) in
        match o with
        | Waiting => Some (None, inbox', sent')
        | Failed _ => Some (Some (-1, EAGAIN), inbox', sent')
        | Got _ => write_loop fuel' smsg' bufc count (sent_bytes + len) inbox' sent'
        end
      else
        let smsg' := setF write_len 0 (set_type kWrite smsg) in
        let '(o, inbox', sent') := await kReceived smsg' inbox (sent ++ [smsg']) in
        Some (match o with
              | Waiting => None
              | Failed _ => Some (-1, EAGAIN)
              | Got _ => Some (Z.of_nat sent_bytes, 0)
              end, inbox', sent')
  end.

(** Every turn sends at least a byte.
    [src/libs/kinos/common/newlib_support.c:163-221] [write] *)
Definition write (junk : list Z) (fd : Z) (bufc : list Z) (count : nat) (inbox : list Message) :
    option posted :=
  let '(id, err) := find_server servers_am in
  if decide (err = 0) then
    let smsg := setF write_count (u32 (Z.of_nat count)) (setF write_fd fd (MkMessage kWrite 0 junk)) in
    to_task id <$> write_loop (S count) smsg bufc count 0 inbox []
  else Some (Some (-1, err), inbox, []).

(** ** [write] sends everything once *)

Definition payload (m : Message) : list Z := slice (arg m) write_data (Z.to_nat (getU write_len m)).

(** What may come before an acknowledgement: requests to repeat, and
    messages of no concern. *)
Definition is_retry (m : Message) : Prop := type m = kError /\ getI error_retry m <> 0.
Definition is_noise (m : Message) : Prop := type m <> kError /\ type m <> kReceived.

Record batch := MkBatch { before : list Message; ack : Message }.
Definition batch_ok (b : batch) : Prop :=
  Forall (fun m => is_retry m \/ is_noise m) (before b) /\ type (ack b) = kReceived.
Definition replies (b : batch) : list Message := before b ++ [ack b].
Definition resends (b : batch) : nat := length (filter is_retry (before b)).

Lemma await_batch b smsg inbox sent :
  batch_ok b ->
  await kReceived smsg (replies b ++ inbox) sent = (Got (ack b), inbox, sent ++ replicate (resends b) smsg).
Proof.
  unfold replies, resends. destruct b as [pre a]. intros [Hpre Ha]. cbn [before ack] in *. revert sent.
  induction Hpre as [|m l Hm _ IH]; intros sent; cbn [await app].
  - rewrite decide_False, decide_True by congruence. cbn. by rewrite app_nil_r.
  - rewrite filter_cons. destruct Hm as [[Ht Hr]|[Ht Hr]].
    + rewrite (decide_True (P := type m = kError)), decide_True, decide_True by done.
      rewrite IH. cbn [length replicate]. by rewrite <- app_assoc.
    + rewrite !decide_False by (done || intros [? _]; done). apply IH.
Qed.

Definition sized (m : Message) : Prop := length (arg m) = arg_size.

(** The message of one turn carries its bytes and keeps the rest. *)
Lemma write_chunk smsg data m :
  sized smsg -> (length data <= data_size)%nat ->
  putB write_data data (setF write_len (Z.of_nat (length data)) smsg) = Some m ->
  sized m /\ payload m = data /\ type m = type smsg /\ getU write_fd m = getU write_fd smsg.
Proof.
  unfold sized, data_size. intros Hs Hd. unfold putB. destruct (write_at _ _ _) as [a|] eqn:E; [|done]. intros [= <-].
  apply write_at_inv in E as [Hle ->]. unfold setF in *. cbn [arg write_len f_off f_width] in *.
  assert (Hls : length (set_le 1 (arg smsg) 52 (Z.of_nat (length data))) = arg_size)
    by (rewrite length_set_le; [done|rewrite Hs; unfold arg_size; lia]).
  unfold arg_size, write_data in *.
  assert (Hlen : getU write_len (set_arg (splice (set_le 1 (arg smsg) 52 (Z.of_nat (length data))) 36 data)
      (MkMessage (type smsg) (src_task smsg) (set_le 1 (arg smsg) 52 (Z.of_nat (length data))))) = Z.of_nat (length data)).
  { unfold getU, get_le. cbn [set_arg arg write_len f_width f_off]. rewrite slice_splice_disjoint by lia.
    pose proof (get_set_le 1 (arg smsg) 52 (Z.of_nat (length data))) as G. unfold get_le in G.
    rewrite G by lia. apply Z.mod_small. lia. }
  split; [cbn [set_arg arg]; by rewrite length_splice by lia|]. split; [|split; [done|]].
  - unfold payload. rewrite Hlen, Nat2Z.id. cbn [set_arg arg]. apply slice_splice_same. exact Hle.
  - unfold getU, get_le. cbn [set_arg arg write_fd f_width f_off setF]. rewrite slice_splice_disjoint by lia.
    rewrite slice_set_le_ne by lia. done.
Qed.

Lemma write_chunk_some smsg data :
  sized smsg -> (length data <= data_size)%nat ->
  is_Some (putB write_data data (setF write_len (Z.of_nat (length data)) smsg)).
Proof.
  unfold sized, data_size, arg_size. intros Hs Hd. unfold putB. rewrite write_at_Some; [by eexists|].
  cbn [setF arg write_len f_off f_width]. rewrite length_set_le by lia. unfold write_data. lia.
Qed.

(** What a sequence of requests, each repeated as its replies ask, leaves in
    the trace. *)
Definition traced (bs : list batch) (ms : list Message) : list Message :=
  concat (zip_with (fun b m => replicate (S (resends b)) m) bs ms).

Record chunks (fd : Z) (data : list Z) (ms : list Message) : Prop := {
  ch_data : concat (payload <$> ms) = data;
  ch_msgs : Forall (fun m => type m = kWrite /\ getU write_fd m = fd) ms;
  ch_last : exists init lst, ms = init ++ [lst] /\ payload lst = [] /\
    Forall (fun m => payload m <> [] /\ (length (payload m) <= data_size)%nat) init;
}.

Lemma write_loop_spec fuel : forall smsg bufc count sent_bytes bs inbox sent,
  sized smsg -> type smsg = kWrite -> (sent_bytes <= count)%nat -> (count <= length bufc)%nat ->
  (count - sent_bytes < fuel)%nat ->
  Forall batch_ok bs -> length bs = S ((count - sent_bytes + 15) / 16)%nat ->
  exists ms, write_loop fuel smsg bufc count sent_bytes (concat (replies <$> bs) ++ inbox) sent =
      Some (Some (Z.of_nat count, 0), inbox, sent ++ traced bs ms) /\
    length ms = length bs /\
    chunks (getU write_fd smsg) (slice bufc sent_bytes (count - sent_bytes)) ms.
Proof.
  induction fuel as [|fuel IH]; intros smsg bufc count sb bs inbox sent Hs Hty Hsc Hcb Hf Hbs Hlen; [lia|].
  cbn [write_loop]. destruct bs as [|b bs]; [done|]. inversion Hbs as [|? ? Hb Hbs']; subst.
  cbn [fmap list_fmap concat]. rewrite <- (app_assoc (replies b)). case_decide as Hlt.
  - set (len := if decide (data_size < count - sb)%nat then data_size else (count - sb)%nat).
    assert (Hl : (0 < len <= data_size /\ len <= count - sb)%nat)
      by (unfold len, data_size; case_decide; lia).
    assert (Hdiv : ((count - sb + 15) / 16 = S ((count - (sb + len) + 15) / 16))%nat).
    { unfold len, data_size in *. case_decide.
      - replace (count - sb + 15)%nat with (1 * 16 + (count - (sb + 16) + 15))%nat by lia.
        rewrite Nat.div_add_l by lia. done.
      - replace (count - (sb + (count - sb)) + 15)%nat with 15%nat by lia.
        symmetry. apply (Nat.div_unique _ 16 _ (count - sb - 1)); cbn; lia. }
    rewrite read_at_Some by lia. cbn [mbind option_bind].
    assert (Hsl : length (slice bufc sb len) = len) by (apply length_slice; lia).
    destruct (write_chunk_some smsg (slice bufc sb len) Hs) as [m Hm]; [lia|].
    destruct (write_chunk smsg (slice bufc sb len) m Hs ltac:(lia) Hm) as (Hms & Hmp & Hmt & Hmf).
    rewrite Hsl in Hm. rewrite Hm. cbn [mbind option_bind]. rewrite await_batch by done.
    destruct (IH m bufc count (sb + len)%nat bs inbox ((sent ++ [m]) ++ replicate (resends b) m))
      as (ms & -> & Hlms & [Hd Hmsgs (init & lst & -> & Hlst & Hinit)]); try (done || lia); [congruence|cbn in *; lia|].
    exists (m :: init ++ [lst]). split; [|split; [cbn in *; lia|split]].
    + f_equal. f_equal. unfold traced. cbn. by rewrite <- !app_assoc.
    + change (concat (payload <$> (m :: init ++ [lst]))) with (payload m ++ concat (payload <$> (init ++ [lst]))).
      rewrite Hd, Hmp. rewrite (slice_split bufc sb len (count - sb)) by lia. f_equal. f_equal. lia.
    + constructor; [split; [congruence|done]|]. eapply Forall_impl; [exact Hmsgs|].
      intros x [? ?]. split; [done|congruence].
    + exists (m :: init), lst. split; [done|]. split; [done|]. constructor; [|done].
      rewrite Hmp. split; [|lia]. intros E. rewrite E in Hsl. cbn in Hsl. lia.
  - assert (sb = count) as -> by lia. rewrite Nat.sub_diag in *. destruct bs; [|done].
    set (m := setF write_len 0 (set_type kWrite smsg)).
    cbn [fmap list_fmap concat app]. rewrite await_batch by done.
    assert (Hp : payload m = []).
    { unfold payload, m, getU. cbn [setF arg set_type write_len f_off f_width]. rewrite get_set_le; [done|].
      unfold sized, arg_size in Hs. lia. }
    exists [m]. split; [|split; [done|split]].
    + f_equal. f_equal. unfold traced. cbn. by rewrite app_nil_r, <- app_assoc.
    + cbn. rewrite Hp. unfold slice. by rewrite take_0.
    + constructor; [|done]. split; [done|]. unfold m, getU. cbn [setF arg set_type write_fd f_off f_width].
      apply get_set_le_ne; unfold sized, arg_size in Hs; cbn; lia.
    + exists [], m. done.
Qed.

(** C18. [write] delivers the whole buffer exactly once, whatever retries the
    manager asks for: with an acknowledgement for every request it
    returns [count], having sent to the manager messages of at most 16 bytes for
    the descriptor whose payloads in order are the bytes of the buffer, then an
    empty one; each is repeated once for each retry error received before its
    acknowledgement, and nothing else is sent. When there is no manager it fails
    with the error of the kernel and sends nothing. *)
Theorem write_sends_all junk fd bufc count bs inbox id err :
  find_server servers_am = (id, err) ->
  length junk = arg_size -> (count <= length bufc)%nat -> Forall batch_ok bs ->
  length bs = S ((count + 15) / 16)%nat ->
  if decide (err = 0) then
    exists ms, write junk fd bufc count (concat (replies <$> bs) ++ inbox) =
        Some (Some (Z.of_nat count, 0), inbox, (fun m => (id, m)) <$> traced bs ms) /\
      length ms = length bs /\ chunks (fd mod 2 ^ 32) (take count bufc) ms
  else write junk fd bufc count (concat (replies <$> bs) ++ inbox) = Some (Some (-1, err), concat (replies <$> bs) ++ inbox, []).
Proof.
  intros Hfind Hj Hc Hb Hl. unfold write. rewrite Hfind. case_decide; [|done].
  set (smsg := setF write_count _ _).
  assert (Hs : sized smsg).
  { unfold sized, smsg, setF. cbn [arg write_fd write_count f_off f_width].
    unfold arg_size in *. rewrite !length_set_le by (rewrite ?length_set_le by lia; lia). done. }
  assert (Hf : getU write_fd smsg = fd mod 2 ^ 32).
  { unfold smsg, setF, getU. cbn [arg write_fd write_count f_off f_width].
    unfold arg_size in *. rewrite get_set_le_ne by (rewrite ?length_set_le by lia; lia).
    rewrite get_set_le by lia. done. }
  destruct (write_loop_spec (S count) smsg bufc count 0 bs inbox []) as (ms & E & Hlm & Hch);
    try (done || lia); [by rewrite Nat.sub_0_r|].
  exists ms. rewrite Nat.sub_0_r, Hf in Hch. split; [by rewrite E|]. by split.
Qed.
End files.

(** Twenty bytes, the first request repeated once. *)
Lemma write_sends_all_witness :
  exists ms,
    write (fun _ => (4, 0)) (replicate 88 0) 3 (replicate 20 7) 20
      [setF error_retry 1 (zero_message kError); zero_message kReceived; zero_message kReceived; zero_message kReceived] =
      Some (Some (20, 0), [], (fun m => (4, m)) <$> traced
        [MkBatch [setF error_retry 1 (zero_message kError)] (zero_message kReceived);
         MkBatch [] (zero_message kReceived); MkBatch [] (zero_message kReceived)] ms) /\
    concat (payload <$> ms) = replicate 20 7.
Proof.
  destruct (write_sends_all (fun _ => (4, 0)) (replicate 88 0) 3 (replicate 20 7) 20
    [MkBatch [setF error_retry 1 (zero_message kError)] (zero_message kReceived);
     MkBatch [] (zero_message kReceived); MkBatch [] (zero_message kReceived)] [] 4 0) as (ms & E & _ & [Hd _ _]);
    [done|done|cbn; lia| |done|].
  - repeat constructor; vm_compute; discriminate.
  - exists ms. split; [exact E|exact Hd].
Defined.
