(* ===== verification/Fat.v ===== *)
(** * The FAT32 file system (servers/fs/fs.cpp)

    The volume is a [BlockDevice]; [fat_] and [cluster_buf] are the server's
    one-sector and one-cluster buffers, as bytes. A [DirectoryEntry*] points
    into [cluster_buf] and is the index of the entry there: it designates
    whatever the buffer holds when it is used. *)

From S2P Require Import Prelude Bytes KernelLog.
From stdpp Require Import base list numbers option.
From Stdlib Require Import ZArith Lia.

Local Open Scope Z_scope.

(** The fields of the boot sector the server uses.
    [src/servers/fs/fs.hpp:14-42] [BPB] *)
Record BPB := MkBPB {
  bytes_per_sector : Z; sectors_per_cluster : Z; reserved_sector_count : Z; num_fats : Z;
  total_sectors_16 : Z; fat_size_32 : Z; root_cluster : Z;
}.

Definition parse_bpb (s : list Z) : BPB :=
  MkBPB (get_le 2 s 11) (get_le 1 s 13) (get_le 2 s 14) (get_le 1 s 16) (get_le 2 s 19) (get_le 4 s 36)
    (get_le 4 s 44).

(** [src/servers/fs/fs.hpp:44-52] [Attribute] *)
Definition kVolumeID : Z := 8.
Definition kDirectory : Z := 16.
Definition kLongName : Z := 15.

Definition EISDIR : Z := 21.
Definition ENOENT : Z := 2.
Definition ENOSPC : Z := 28.

(** The value [NextCluster] gives for the end of a chain, and the first of
    those that mark it in the table. *)
Definition end_of_chain : Z := 0x0fffffff.
Definition eoc_min : Z := 0x0ffffff8.

(** [toupper] of the C locale. *)
Definition toupper (c : Z) : Z := if (97 <=? c) && (c <=? 122) then c - 32 else c.

Definition char_slash : Z := 47.
Definition char_dot : Z := 46.

(** [src/servers/fs/fs.hpp:54-72] [DirectoryEntry] *)
Definition entry_size : nat := 32.
Definition name_off : nat := 0.
Definition attr_off : nat := 11.
Definition cluster_high_off : nat := 20.
Definition cluster_low_off : nat := 26.
Definition size_off : nat := 28.

Section fat.
Context {D : Type} `{!BlockDevice D}.

(** [src/servers/fs/fs.hpp:74-135] [FileSystemServer] *)
Record FileSystem := MkFS {
  dev : D;
  bpb : BPB;
  fat_ : list Z;
  cluster_buf : list Z;
  cluster_num : Z;
  bytes_per_cluster : Z;
}.

Definition set_dev d fs := MkFS d (bpb fs) (fat_ fs) (cluster_buf fs) (cluster_num fs) (bytes_per_cluster fs).
Definition set_fat_buf b fs := MkFS (dev fs) (bpb fs) b (cluster_buf fs) (cluster_num fs) (bytes_per_cluster fs).
Definition set_cluster_buf b fs := MkFS (dev fs) (bpb fs) (fat_ fs) b (cluster_num fs) (bytes_per_cluster fs).
Definition set_cluster_num n fs := MkFS (dev fs) (bpb fs) (fat_ fs) (cluster_buf fs) n (bytes_per_cluster fs).

(** The buffers are not initialised: [fat0] and [buf0] are what they hold.
    [src/servers/fs/fs.cpp:28-62] [FileSystemServer::Initialize] *)
Definition Initialize (d : D) (fat0 buf0 : Z -> list Z) : option (option FileSystem) :=
  sector ← bd_read d 0 1;
  let b := parse_bpb sector in
  Some (if decide (total_sectors_16 b = 0) then
    let bpc := bytes_per_sector b * sectors_per_cluster b in
    Some (MkFS d b (fat0 (bytes_per_sector b)) (buf0 bpc) 0 bpc)
  else None).

Definition entries_per_sector (fs : FileSystem) : Z := bytes_per_sector (bpb fs) / 4.

(** [src/servers/fs/fs.cpp:64-75] [FileSystemServer::GetFAT] *)
Definition GetFAT (cluster : Z) (fs : FileSystem) : option (FileSystem * Z) :=
  if decide (entries_per_sector fs = 0) then None
  else
    let sector_offset := cluster / entries_per_sector fs in
    data ← bd_read (dev fs) (u64 (reserved_sector_count (bpb fs) + sector_offset)) 1;
    buf ← write_at (fat_ fs) 0 data;
    Some (set_fat_buf buf fs, cluster - entries_per_sector fs * sector_offset).

(** [src/servers/fs/fs.cpp:77-83] [FileSystemServer::UpdateFAT] *)
Definition UpdateFAT (cluster : Z) (fs : FileSystem) : option FileSystem :=
  if decide (entries_per_sector fs = 0) then None
  else
    let sector_offset := cluster / entries_per_sector fs in
    d ← bd_write (dev fs) (fat_ fs) (u64 (reserved_sector_count (bpb fs) + sector_offset)) 1;
    Some (set_dev d fs).

(** [fat_[index]]. *)
Definition fat_ref (index : Z) (fs : FileSystem) : option Z :=
  if decide (0 <= index /\ 4 * index + 4 <= Z.of_nat (length (fat_ fs)))
  then Some (get_le 4 (fat_ fs) (Z.to_nat (4 * index))) else None.
Definition fat_set (index v : Z) (fs : FileSystem) : option FileSystem :=
  if decide (0 <= index /\ 4 * index + 4 <= Z.of_nat (length (fat_ fs)))
  then Some (set_fat_buf (set_le 4 (fat_ fs) (Z.to_nat (4 * index)) v) fs) else None.

(** [src/servers/fs/fs.cpp:85-93] [FileSystemServer::NextCluster] *)
Definition NextCluster (cluster : Z) (fs : FileSystem) : option (FileSystem * Z) :=
  '(fs1, index) ← GetFAT cluster fs;
  next ← fat_ref index fs1;
  Some (fs1, if decide (eoc_min <= next) then end_of_chain else next).

(** The sector a cluster starts at, in the types of the expression.
    [src/servers/fs/fs.cpp:98-100] [FileSystemServer::ReadCluster] *)
Definition cluster_sector (cluster : Z) (fs : FileSystem) : Z :=
  u64 (u32 (reserved_sector_count (bpb fs) + u32 (num_fats (bpb fs) * fat_size_32 (bpb fs))) +
       u64 (u64 (cluster - 2) * sectors_per_cluster (bpb fs))).

(** The system call reports no errors.
    [src/servers/fs/fs.cpp:95-109] [FileSystemServer::ReadCluster] *)
Definition ReadCluster (cluster : Z) (fs : FileSystem) : option FileSystem :=
  data ← bd_read (dev fs) (cluster_sector cluster fs) (sectors_per_cluster (bpb fs));
  buf ← write_at (cluster_buf fs) 0 data;
  Some (set_cluster_buf buf (set_cluster_num cluster fs)).

(** [src/servers/fs/fs.cpp:111-121] [FileSystemServer::UpdateCluster] *)
Definition UpdateCluster (cluster : Z) (fs : FileSystem) : option FileSystem :=
  let cluster := if decide (cluster = 0) then cluster_num fs else cluster in
  d ← bd_write (dev fs) (cluster_buf fs) (cluster_sector cluster fs) (sectors_per_cluster (bpb fs));
  Some (set_dev d fs).

(** ** Directory entries *)

Definition entry_at (i : nat) (fs : FileSystem) : list Z := slice (cluster_buf fs) (entry_size * i) entry_size.
Definition entry_name (e : list Z) : list Z := slice e name_off 11.
Definition attr (e : list Z) : Z := get_le 1 e attr_off.
Definition file_size (e : list Z) : Z := get_le 4 e size_off.
(** [src/servers/fs/fs.hpp:68-71] [DirectoryEntry::FirstCluster] *)
Definition FirstCluster (e : list Z) : Z :=
  Z.lor (get_le 2 e cluster_low_off) (Z.shiftl (get_le 2 e cluster_high_off) 16).

(** A store to a field of the entry the pointer designates. *)
Definition set_entry (i off : nat) (s : list Z) (fs : FileSystem) : option FileSystem :=
  b ← write_at (cluster_buf fs) (entry_size * i + off) s; Some (set_cluster_buf b fs).

(** The loop of [NameIsEqual]; after a dot the position is 8.
    [src/servers/fs/fs.cpp:129-135] [FileSystemServer::NameIsEqual] *)
Fixpoint name83_loop (name : list Z) (i83 : nat) (name83 : list Z) : list Z :=
  match name with
  | [] => name83
  | c :: name' =>
      if decide (i83 < 11)%nat then
        if decide (c = char_dot) then name83_loop name' 8 name83
        else name83_loop name' (S i83) (<[i83 := toupper c]> name83)
      else name83
  end.

(** [src/servers/fs/fs.cpp:123-137] [FileSystemServer::NameIsEqual] *)
Definition NameIsEqual (e : list Z) (name : list Z) : bool :=
  bool_decide (entry_name e = name83_loop name 0 (replicate 11 32)).

Fixpoint split_slash (path : list Z) : list Z * option (list Z) :=
  match path with
  | [] => ([], None)
  | c :: path' =>
      if decide (c = char_slash) then ([], Some path')
      else let '(elem, next) := split_slash path' in (c :: elem, next)
  end.

(** The element, copied to a buffer of 13 characters, and the rest of the
    path after the slash.
    [src/servers/fs/fs.cpp:139-151] [FileSystemServer::NextPathElement] *)
Definition NextPathElement (path : list Z) : option (list Z * option (list Z) * bool) :=
  let '(elem, next) := split_slash path in
  _ ← strcpy (replicate 13 0) 0 elem;
  Some (elem, next, match next with None => false | Some _ => true end).

Definition num_entries (fs : FileSystem) : nat :=
  Z.to_nat (bytes_per_sector (bpb fs) * sectors_per_cluster (bpb fs) / 32).

(** The [for] loop over the entries of the cluster read. The test
    [dir[i].name == 0x00] compares the address of the field and is never true.
    [src/servers/fs/fs.cpp:170-178] [FileSystemServer::FindFile] *)
Fixpoint scan_dir (n i : nat) (elem : list Z) (fs : FileSystem) : option nat :=
  match n with
  | O => None
  | S n' => if NameIsEqual (entry_at i fs) elem then Some i else scan_dir n' (S i) elem fs
  end.

(** The loops that follow a chain or look for a free cluster get [fuel]
    turns; one more than the volume has clusters is enough. *)
Context (fuel : nat).

(** [src/servers/fs/fs.cpp:166-186] [FileSystemServer::FindFile] *)
Fixpoint find_cluster (fuel : nat) (elem : list Z) (directory_cluster : Z) (fs : FileSystem) :
    option (FileSystem * option nat) :=
  match fuel with
  | O => None
  | S fuel' =>
      if decide (directory_cluster = end_of_chain) then Some (fs, None)
      else
        fs1 ← ReadCluster directory_cluster fs;
        match scan_dir (num_entries fs1) 0 elem fs1 with
        | Some i => Some (fs1, Some i)
        | None =>
            '(fs2, next) ← NextCluster directory_cluster fs1;
            find_cluster fuel' elem next fs2
        end
  end.

(** Each level of recursion consumes a path element.
    [src/servers/fs/fs.cpp:153-189] [FileSystemServer::FindFile] *)
Fixpoint FindFile_rec (depth : nat) (path : list Z) (directory_cluster : Z) (fs : FileSystem) :
    option (FileSystem * option nat * bool) :=
  match depth with
  | O => None
  | S depth' =>
      let '(path, directory_cluster) :=
        match path with
        | c :: path' => if decide (c = char_slash) then (path', root_cluster (bpb fs))
                        else (path, if decide (directory_cluster = 0) then root_cluster (bpb fs) else directory_cluster)
        | [] => (path, if decide (directory_cluster = 0) then root_cluster (bpb fs) else directory_cluster)
        end in
      '(path_elem, next_path, post_slash) ← NextPathElement path;
      let path_last := match next_path with None | Some [] => true | _ => false end in
      '(fs1, found) ← find_cluster fuel path_elem directory_cluster fs;
      match found with
      | None => Some (fs1, None, post_slash)
      | Some i =>
          if bool_decide (attr (entry_at i fs1) = kDirectory) && negb path_last then
            FindFile_rec depth' (default [] next_path) (FirstCluster (entry_at i fs1)) fs1
          else Some (fs1, Some i, post_slash)
      end
  end.

(** A path of n characters has at most n names.
    [src/servers/fs/fs.cpp:153-189] [FileSystemServer::FindFile] *)
Definition FindFile (path : list Z) (directory_cluster : Z) (fs : FileSystem) :
    option (FileSystem * option nat * bool) :=
  FindFile_rec (S (length path)) path directory_cluster fs.

(** Trailing spaces become NULs: the strings left in [base] and [ext]. *)
Fixpoint strip_spaces (s : list Z) : list Z :=
  match s with
  | [] => []
  | c :: s' => match strip_spaces s' with
               | [] => if decide (c = 32) then [] else [c]
               | s'' => c :: s''
               end
  end.

(** The block [base] of 9 characters; [ext] likewise of 4.
    [src/servers/fs/fs.cpp:191-202] [FileSystemServer::ReadName] *)
Definition ReadName (e : list Z) : list Z * list Z :=
  let pad n s := s ++ replicate (n - length s) 0 in
  (pad 9%nat (strip_spaces (slice e 0 8)), pad 4%nat (strip_spaces (slice e 8 3))).

(** ** Allocation *)

(** The first loop of [ExtendCluster].
    [src/servers/fs/fs.cpp:261-267] [FileSystemServer::ExtendCluster] *)
Fixpoint find_eoc (fuel : nat) (eoc_cluster : Z) (fs : FileSystem) : option (FileSystem * Z) :=
  match fuel with
  | O => None
  | S fuel' =>
      '(fs1, index) ← GetFAT eoc_cluster fs;
      v ← fat_ref index fs1;
      if decide (eoc_min <= v) then Some (fs1, eoc_cluster) else find_eoc fuel' v fs1
  end.

(** [fat_[GetFAT(current)] = v; UpdateFAT(current)].
    [src/servers/fs/fs.cpp:278-280] [FileSystemServer::ExtendCluster] *)
Definition link (current v : Z) (fs : FileSystem) : option FileSystem :=
  '(fs1, j) ← GetFAT current fs; fs2 ← fat_set j v fs1; UpdateFAT current fs2.

(** The [for] loop of [ExtendCluster].
    [src/servers/fs/fs.cpp:272-283] [FileSystemServer::ExtendCluster] *)
Fixpoint extend_loop (fuel : nat) (candidate num_allocated n current : Z) (fs : FileSystem) :
    option (FileSystem * Z) :=
  match fuel with
  | O => None
  | S fuel' =>
      if decide (num_allocated < n) then
        '(fs1, i) ← GetFAT candidate fs;
        v ← fat_ref i fs1;
        if decide (v <> 0) then extend_loop fuel' (candidate + 1) num_allocated n current fs1
        else
          fs2 ← link current candidate fs1;
          extend_loop fuel' (candidate + 1) (num_allocated + 1) n candidate fs2
      else Some (fs, current)
  end.

(** [src/servers/fs/fs.cpp:259-288] [FileSystemServer::ExtendCluster] *)
Definition ExtendCluster (eoc_cluster n : Z) (fs : FileSystem) : option (FileSystem * Z) :=
  '(fs1, eoc) ← find_eoc fuel eoc_cluster fs;
  '(fs2, current) ← extend_loop fuel 2 0 n eoc fs1;
  fs3 ← link current end_of_chain fs2;
  Some (fs3, current).

(** [src/servers/fs/fs.cpp:292-298] [FileSystemServer::AllocateClusterChain] *)
Fixpoint find_free (fuel : nat) (first_cluster : Z) (fs : FileSystem) : option (FileSystem * Z) :=
  match fuel with
  | O => None
  | S fuel' =>
      '(fs1, i) ← GetFAT first_cluster fs;
      v ← fat_ref i fs1;
      if decide (v = 0) then
        fs2 ← fat_set i end_of_chain fs1; Some (fs2, first_cluster)
      else find_free fuel' (first_cluster + 1) fs1
  end.

(** [src/servers/fs/fs.cpp:290-305] [FileSystemServer::AllocateClusterChain] *)
Definition AllocateClusterChain (n : Z) (fs : FileSystem) : option (FileSystem * Z) :=
  '(fs1, first_cluster) ← find_free fuel 2 fs;
  fs2 ← UpdateFAT first_cluster fs1;
  if decide (n > 1) then
    '(fs3, _) ← ExtendCluster first_cluster (n - 1) fs2; Some (fs3, first_cluster)
  else Some (fs2, first_cluster).

(** ** Creating a file *)

Definition entry_free (e : list Z) : bool :=
  match e with c :: _ => (c =? 0) || (c =? 0xe5) | [] => false end.

Fixpoint scan_free (n i : nat) (fs : FileSystem) : option nat :=
  match n with
  | O => None
  | S n' => if entry_free (entry_at i fs) then Some i else scan_free n' (S i) fs
  end.

(** The [while] loop of [AllocateEntry]: a free entry, or the last cluster of the directory.
    [src/servers/fs/fs.cpp:239-251] [FileSystemServer::AllocateEntry] *)
Fixpoint find_entry (fuel : nat) (dir_cluster : Z) (fs : FileSystem) :
    option (FileSystem * option nat * Z) :=
  match fuel with
  | O => None
  | S fuel' =>
      fs1 ← ReadCluster dir_cluster fs;
      match scan_free (Z.to_nat (bytes_per_cluster fs1 / 32)) 0 fs1 with
      | Some i => Some (fs1, Some i, dir_cluster)
      | None =>
          '(fs2, next) ← NextCluster dir_cluster fs1;
          if decide (next = end_of_chain) then Some (fs2, None, dir_cluster)
          else find_entry fuel' next fs2
      end
  end.

(** [src/servers/fs/fs.cpp:237-257] [FileSystemServer::AllocateEntry] *)
Definition AllocateEntry (dir_cluster : Z) (fs : FileSystem) : option (FileSystem * nat * Z) :=
  '(fs1, found, dir_cluster) ← find_entry fuel dir_cluster fs;
  match found with
  | Some i => Some (fs1, i, dir_cluster)
  | None =>
      '(fs2, dir_cluster) ← ExtendCluster dir_cluster 1 fs1;
      fs3 ← ReadCluster dir_cluster fs2;
      b ← write_at (cluster_buf fs3) 0 (replicate (Z.to_nat (bytes_per_cluster fs3)) 0);
      Some (set_cluster_buf b fs3, 0%nat, dir_cluster)
  end.

(** [strrchr]: what precedes and follows the last [c]. *)
Fixpoint split_last (c : Z) (s : list Z) : option (list Z * list Z) :=
  match s with
  | [] => None
  | x :: s' =>
      match split_last c s' with
      | Some (a, b) => Some (x :: a, b)
      | None => if decide (x = c) then Some ([], s') else None
      end
  end.

(** The 11 characters stored for [name].
    [src/servers/fs/fs.cpp:307-322] [FileSystemServer::SetFileName] *)
Definition SetFileName (name : list Z) : list Z :=
  let blank := replicate 11 32 in
  match split_last char_dot name with
  | Some (base, ext) =>
      splice (splice blank 0 (toupper <$> take 8 base)) 8 (toupper <$> take 3 ext)
  | None => splice blank 0 (toupper <$> take 8 name)
  end.

(** The directory a new file goes to and its name, or the error.
    [src/servers/fs/fs.cpp:206-226] [FileSystemServer::CreateFile] *)
Definition parent_of (path : list Z) (fs : FileSystem) : option (FileSystem * (Z * list Z + Z)) :=
  match split_last char_slash path with
  | None => Some (fs, inl (root_cluster (bpb fs), path))
  | Some (_, []) => Some (fs, inr EISDIR)
  | Some ([], filename) => Some (fs, inl (root_cluster (bpb fs), filename))
  | Some (parent_dir_name, filename) =>
      '(fs1, parent_dir, _) ← FindFile parent_dir_name 0 fs;
      Some (fs1, match parent_dir with
                 | None => inr ENOENT
                 | Some i => inl (FirstCluster (entry_at i fs1), filename)
                 end)
  end.

(** The entry and [0], or no entry and the error.
    [src/servers/fs/fs.cpp:204-235] [FileSystemServer::CreateFile] *)
Definition CreateFile (path : list Z) (fs : FileSystem) : option (FileSystem * (nat + Z)) :=
  '(fs1, where_) ← parent_of path fs;
  match where_ with
  | inr err => Some (fs1, inr err)
  | inl (parent_dir_cluster, filename) =>
      '(fs2, dir, allocated_cluster) ← AllocateEntry parent_dir_cluster fs1;
      fs3 ← set_entry dir name_off (SetFileName filename) fs2;
      fs4 ← set_entry dir size_off (le_bytes 4 0) fs3;
      fs5 ← UpdateCluster allocated_cluster fs4;
      Some (fs5, inl dir)
  end.
End fat.
