(* ===== verification/FatChain.v ===== *)
(** * Cluster chains and their extension

    The file allocation table as a function from clusters to entries, the
    chains in it, and what the allocation functions of Fat.v do to them. *)

From S2P Require Import Prelude Bytes KernelLog Fat.
From stdpp Require Import base list numbers option.
From Stdlib Require Import ZArith Lia.

Local Open Scope Z_scope.

(** ** Chains *)

Section chain.
Context (M : Z) (fat : Z -> Z).

(** [l] follows [a] in the table. *)
Fixpoint links (a : Z) (l : list Z) : Prop :=
  match l with
  | [] => True
  | b :: l' => fat a = b /\ links b l'
  end.

Fixpoint end_of (a : Z) (l : list Z) : Z :=
  match l with [] => a | b :: l' => end_of b l' end.

Definition is_cluster (c : Z) : Prop := 2 <= c < M.

(** A chain of clusters: the first and the others, up to an end mark. *)
Record chain (a : Z) (l : list Z) : Prop := {
  ch_links : links a l;
  ch_range : Forall is_cluster (a :: l);
  ch_end : eoc_min <= fat (end_of a l);
}.

Lemma end_of_elem a l : end_of a l ∈ a :: l.
Proof.
  revert a. induction l as [|b l IH]; intros a; cbn; [by left|]. right. apply IH.
Qed.

Lemma end_of_app a l1 l2 : end_of a (l1 ++ l2) = end_of (end_of a l1) l2.
Proof. revert a. induction l1; intros; cbn; auto. Qed.

Lemma chain_cons a b l : chain a (b :: l) -> fat a = b /\ chain b l.
Proof. intros [[Hf Hl] Hr He]. split; [done|]. split; [done| |done]. by inversion Hr. Qed.

Context (HM : M <= eoc_min).

Lemma chain_det a l l' : chain a l -> chain a l' -> l = l'.
Proof.
  revert a l'. induction l as [|b l IH]; intros a [|b' l'] H H'; [done| | |].
  - apply chain_cons in H' as [Hb H']. pose proof (ch_end _ _ H) as He. cbn in He.
    pose proof (ch_range _ _ H') as Hr. inversion Hr; unfold is_cluster in *. lia.
  - apply chain_cons in H as [Hb H]. pose proof (ch_end _ _ H') as He. cbn in He.
    pose proof (ch_range _ _ H) as Hr. inversion Hr; unfold is_cluster in *. lia.
  - apply chain_cons in H as [<- H]. apply chain_cons in H' as [<- H']. f_equal. by apply (IH (fat a)).
Qed.

Lemma chain_suffix a l1 b l2 : chain a (l1 ++ b :: l2) -> chain b l2.
Proof.
  revert a. induction l1 as [|x l1 IH]; intros a H; cbn in H; apply chain_cons in H as [_ H]; [done|].
  by apply (IH x).
Qed.

Lemma chain_NoDup a l : chain a l -> NoDup (a :: l).
Proof.
  revert a. induction l as [|b l IH]; intros a H; [apply NoDup_singleton|].
  constructor; [|apply IH; by apply (chain_cons a b l)].
  intros (l1 & l2 & E)%list_elem_of_split. rewrite E in H. pose proof (chain_suffix _ _ _ _ H) as H2.
  pose proof (chain_det _ _ _ H H2) as Hl. apply (f_equal length) in Hl. rewrite length_app in Hl. cbn in Hl. lia.
Qed.

Lemma clusters_length l : NoDup l -> Forall is_cluster l -> Z.of_nat (length l) <= Z.max 0 (M - 2).
Proof.
  intros Hn Hr. assert (l ⊆+ seqZ 2 (M - 2)) as Hs%submseteq_length.
  { apply NoDup_submseteq; [done|]. intros x Hx. apply elem_of_seqZ.
    apply list_elem_of_In in Hx. rewrite Forall_forall in Hr. specialize (Hr x Hx). unfold is_cluster in Hr. lia. }
  rewrite length_seqZ in Hs. lia.
Qed.

Lemma chain_length a l : chain a l -> Z.of_nat (length l) < M - 2.
Proof.
  intros H. pose proof (clusters_length _ (chain_NoDup _ _ H) (ch_range _ _ H)) as Hl. cbn in Hl. lia.
Qed.

(** An entry of a chain is a link or an end mark, never free. *)
Lemma chain_used a l x : chain a l -> x ∈ a :: l -> fat x <> 0.
Proof.
  revert a. induction l as [|b l IH]; intros a H Hx.
  - apply list_elem_of_singleton in Hx as ->. pose proof (ch_end _ _ H) as He. cbn in He. unfold eoc_min in He. lia.
  - apply elem_of_cons in Hx as [->|Hx].
    + apply chain_cons in H as [-> H]. pose proof (ch_range _ _ H) as Hr. inversion Hr. unfold is_cluster in *. lia.
    + apply (IH b); [|done]. by apply (chain_cons a b l).
Qed.
End chain.

Lemma links_app fat a l1 l2 : links fat a (l1 ++ l2) <-> links fat a l1 /\ links fat (end_of a l1) l2.
Proof. revert a. induction l1 as [|b l1 IH]; intros a; cbn; [tauto|]. rewrite IH. tauto. Qed.

(** Links survive a change of the table that keeps every link entry. *)
Lemma links_agree M fat fat' a l :
  M <= eoc_min -> links fat a l -> Forall (is_cluster M) (a :: l) ->
  (forall x, is_cluster M x -> is_cluster M (fat x) -> fat' x = fat x) -> links fat' a l.
Proof.
  intros HM. revert a. induction l as [|b l IH]; intros a Hl Hr Hag; cbn in *; [done|].
  destruct Hl as [Hb Hl]. inversion Hr as [|? ? Ha Hr']; subst. inversion Hr' as [|? ? Hfa _]; subst.
  split; [by apply Hag|]. by apply IH.
Qed.

(** ** The volume *)

Section volume.
Context {D : Type} `{!BlockDevice D} (M : Z).
Implicit Types fs : @FileSystem D.

Definition data_start fs : Z := reserved_sector_count (bpb fs) + num_fats (bpb fs) * fat_size_32 (bpb fs).

(** A FAT32 volume with sectors of 512 bytes and the clusters [2 .. M-1],
    all of which the first table describes and the device holds. *)
Record fs_ok fs : Prop := {
  ok_bps : bytes_per_sector (bpb fs) = 512;
  ok_spc : 0 < sectors_per_cluster (bpb fs) < 256;
  ok_bpc : bytes_per_cluster fs = 512 * sectors_per_cluster (bpb fs);
  ok_fat : length (fat_ fs) = 512%nat;
  ok_buf : Z.of_nat (length (cluster_buf fs)) = bytes_per_cluster fs;
  ok_layout : 0 <= reserved_sector_count (bpb fs) /\ 1 <= num_fats (bpb fs) /\ 0 <= fat_size_32 (bpb fs) /\
    data_start fs < 2 ^ 32;
  ok_M : 2 <= M <= eoc_min;
  ok_table : M <= 128 * fat_size_32 (bpb fs);
  ok_device : data_start fs + (M - 2) * sectors_per_cluster (bpb fs) <= bd_sectors (dev fs);
}.

Definition fat_sector fs (c : Z) : Z := reserved_sector_count (bpb fs) + c / 128.

(** The entry of cluster [c] in the first table, and its data. *)
Definition fat_at fs (c : Z) : Z := get_le 4 (bd_sector (dev fs) (fat_sector fs c)) (Z.to_nat (4 * (c mod 128))).
Definition data_sector fs (c : Z) : Z := data_start fs + (c - 2) * sectors_per_cluster (bpb fs).
Definition data_of fs (c : Z) : list Z :=
  concat ((fun k => bd_sector (dev fs) (data_sector fs c + Z.of_nat k)) <$>
            seq 0 (Z.to_nat (sectors_per_cluster (bpb fs)))).

Lemma set_fat_buf_ok b fs : fs_ok fs -> length b = 512%nat -> fs_ok (set_fat_buf b fs).
Proof. intros [] ?. by split. Qed.

Lemma fat_sector_bound fs c :
  fs_ok fs -> 0 <= c < M -> 0 <= fat_sector fs c < data_start fs /\ fat_sector fs c < bd_sectors (dev fs).
Proof.
  intros H Hc. pose proof (ok_layout _ H) as (? & ? & ? & ?). pose proof (ok_M _ H). pose proof (ok_table _ H).
  pose proof (ok_device _ H) as Hd. pose proof (ok_spc _ H). unfold fat_sector, data_start in *.
  pose proof (Z.div_lt_upper_bound c 128 (fat_size_32 (bpb fs))). pose proof (Z.div_pos c 128). nia.
Qed.

Lemma entries_128 fs : fs_ok fs -> entries_per_sector fs = 128.
Proof. intros H. unfold entries_per_sector. by rewrite (ok_bps _ H). Qed.

Lemma u64_sector fs c : fs_ok fs -> 0 <= c < M ->
  u64 (reserved_sector_count (bpb fs) + c / 128) = fat_sector fs c.
Proof.
  intros H Hc. pose proof (fat_sector_bound fs c H Hc). pose proof (ok_layout _ H) as (_ & _ & _ & ?).
  apply u64_small. unfold fat_sector in *. lia.
Qed.

Lemma bd_read_one (d : D) k : 0 <= k < bd_sectors d -> bd_read d k 1 = Some (bd_sector d k).
Proof.
  intros. rewrite bd_read_spec by lia. change (Z.to_nat 1) with 1%nat. cbn.
  by rewrite app_nil_r, Z.add_0_r.
Qed.

Lemma splice_all (l s : list Z) : length s = length l -> splice l 0 s = s.
Proof.
  intros E. unfold splice. rewrite take_0, drop_ge by lia. cbn. apply app_nil_r.
Qed.

Lemma GetFAT_spec c fs :
  fs_ok fs -> 0 <= c < M ->
  GetFAT c fs = Some (set_fat_buf (bd_sector (dev fs) (fat_sector fs c)) fs, c mod 128).
Proof.
  intros H Hc. unfold GetFAT. rewrite (entries_128 _ H). cbn [decide]. rewrite decide_False by done.
  rewrite (u64_sector fs c H Hc). destruct (fat_sector_bound fs c H Hc) as [Hf1 Hf2].
  rewrite bd_read_one by lia. cbn [mbind option_bind].
  assert (Hlen : length (bd_sector (dev fs) (fat_sector fs c)) = 512%nat) by (apply bd_sector_length; lia).
  rewrite write_at_Some by (rewrite Hlen, (ok_fat _ H); done). cbn [mbind option_bind].
  rewrite splice_all by (rewrite Hlen, (ok_fat _ H); done). f_equal. f_equal. rewrite Z.mod_eq; lia.
Qed.

(** After [GetFAT] the buffer holds the entry. *)
Lemma fat_ref_spec c fs :
  fs_ok fs -> 0 <= c < M ->
  fat_ref (c mod 128) (set_fat_buf (bd_sector (dev fs) (fat_sector fs c)) fs) = Some (fat_at fs c).
Proof.
  intros H Hc. unfold fat_ref. cbn. destruct (fat_sector_bound fs c H Hc) as [Hf1 Hf2].
  rewrite bd_sector_length by lia. pose proof (Z.mod_pos_bound c 128).
  by rewrite decide_True by lia.
Qed.

Lemma sector_ok fs c : fs_ok fs -> 0 <= c < M ->
  fs_ok (set_fat_buf (bd_sector (dev fs) (fat_sector fs c)) fs).
Proof.
  intros H Hc. apply set_fat_buf_ok; [done|]. destruct (fat_sector_bound fs c H Hc).
  apply bd_sector_length. lia.
Qed.

Lemma NextCluster_spec c fs :
  fs_ok fs -> 0 <= c < M ->
  exists b, length b = 512%nat /\
    NextCluster c fs = Some (set_fat_buf b fs, if decide (eoc_min <= fat_at fs c) then end_of_chain else fat_at fs c).
Proof.
  intros H Hc. exists (bd_sector (dev fs) (fat_sector fs c)). split; [apply (ok_fat _ (sector_ok fs c H Hc))|].
  unfold NextCluster. rewrite GetFAT_spec by done. cbn [mbind option_bind].
  by rewrite fat_ref_spec by done.
Qed.

(** What a change of the table leaves alone. *)
Record table_step fs fs' : Prop := {
  ts_ok : fs_ok fs';
  ts_bpb : bpb fs' = bpb fs;
  ts_bpc : bytes_per_cluster fs' = bytes_per_cluster fs;
  ts_num : cluster_num fs' = cluster_num fs;
  ts_buf : cluster_buf fs' = cluster_buf fs;
  ts_size : bd_sectors (dev fs') = bd_sectors (dev fs);
  ts_sectors : forall k, 0 <= k < bd_sectors (dev fs) ->
    (forall c, 0 <= c < M -> k <> fat_sector fs c) -> bd_sector (dev fs') k = bd_sector (dev fs) k;
}.

Lemma table_step_buf b fs : fs_ok fs -> length b = 512%nat -> table_step fs (set_fat_buf b fs).
Proof. intros H Hb. split; try done. by apply set_fat_buf_ok. Qed.

Lemma table_step_trans fs1 fs2 fs3 : table_step fs1 fs2 -> table_step fs2 fs3 -> table_step fs1 fs3.
Proof.
  intros [] []. split; try done; try congruence.
  intros k Hk Hc. rewrite ts_sectors1; [by apply ts_sectors0|lia|].
  intros c Hr. unfold fat_sector in *. rewrite ts_bpb0. by apply Hc.
Qed.

Lemma table_step_data fs fs' c : fs_ok fs -> table_step fs fs' -> is_cluster M c -> data_of fs' c = data_of fs c.
Proof.
  intros H Hs Hc. unfold data_of, data_sector, data_start. rewrite (ts_bpb _ _ Hs). f_equal.
  apply list_fmap_ext. intros i k [-> Hk]%lookup_seq. cbn. unfold is_cluster in Hc.
  pose proof (ok_device _ H) as Hd. pose proof (ok_layout _ H) as (? & ? & ? & ?). pose proof (ok_spc _ H).
  apply (ts_sectors _ _ Hs).
  - unfold data_start in *. nia.
  - intros x Hx. destruct (fat_sector_bound fs x H Hx). unfold data_start in *. nia.
Qed.

Lemma bd_write_one (d : D) s k :
  0 <= k < bd_sectors d -> length s = 512%nat ->
  exists d', bd_write d s k 1 = Some d' /\ bd_sectors d' = bd_sectors d /\
    forall j, 0 <= j < bd_sectors d -> bd_sector d' j = if decide (j = k) then s else bd_sector d j.
Proof.
  intros Hk Hs. destruct (bd_write_spec d s k 1) as (d' & E & Hb & Hj); [lia..|].
  exists d'. split; [done|]. split; [done|]. intros j Hjr. rewrite Hj by done.
  case_decide as Hin; case_decide as He; try lia; [|done]. subst j. rewrite Z.sub_diag.
  change (Z.to_nat (512 * 0)) with 0%nat. unfold slice. by rewrite drop_0, take_ge by lia.
Qed.

(** Writing one entry of the table. *)
Lemma store_spec c v fs :
  fs_ok fs -> 0 <= c < M -> 0 <= v < 2 ^ 32 ->
  let s := set_le 4 (bd_sector (dev fs) (fat_sector fs c)) (Z.to_nat (4 * (c mod 128))) v in
  fat_set (c mod 128) v (set_fat_buf (bd_sector (dev fs) (fat_sector fs c)) fs) = Some (set_fat_buf s fs) /\
  exists fs', UpdateFAT c (set_fat_buf s fs) = Some fs' /\ table_step fs fs' /\
    forall x, 0 <= x < M -> fat_at fs' x = if decide (x = c) then v else fat_at fs x.
Proof.
  intros H Hc Hv. cbn zeta. destruct (fat_sector_bound fs c H Hc) as [Hf1 Hf2].
  assert (Hlen : length (bd_sector (dev fs) (fat_sector fs c)) = 512%nat) by (apply bd_sector_length; lia).
  pose proof (Z.mod_pos_bound c 128) as Hm. set (s := set_le _ _ _ _).
  assert (Hls : length s = 512%nat) by (unfold s; rewrite length_set_le; lia).
  split; [unfold fat_set; cbn [fat_ set_fat_buf]; by rewrite decide_True by (rewrite Hlen; lia)|].
  unfold UpdateFAT. change (entries_per_sector (set_fat_buf s fs)) with (entries_per_sector fs).
  rewrite (entries_128 _ H), decide_False by done. cbn [bpb set_fat_buf fat_ dev].
  rewrite (u64_sector fs c H Hc). destruct (bd_write_one (dev fs) s (fat_sector fs c)) as (d' & -> & Hbs & Hsec); [lia|done|].
  cbn [mbind option_bind]. eexists; split; [done|].
  assert (Hat : forall x, 0 <= x < M -> fat_at (set_dev d' (set_fat_buf s fs)) x = if decide (x = c) then v else fat_at fs x).
  { intros x Hx. destruct (fat_sector_bound fs x H Hx). unfold fat_at.
    change (fat_sector (set_dev d' (set_fat_buf s fs)) x) with (fat_sector fs x). cbn [dev set_dev].
    rewrite Hsec by lia. pose proof (Z.mod_pos_bound x 128) as Hmx.
    destruct (decide (fat_sector fs x = fat_sector fs c)) as [E|E].
    - assert (Hd : x / 128 = c / 128) by (unfold fat_sector in E; lia).
      pose proof (Z.div_mod x 128) as Hdx. pose proof (Z.div_mod c 128) as Hdc. case_decide as Hxc.
      + subst x. unfold s. rewrite get_set_le by lia. by rewrite Z.mod_small by (cbn; lia).
      + unfold s. rewrite get_set_le_ne by lia. by rewrite E.
    - case_decide; [by subst x|done]. }
  split; [|exact Hat]. destruct H. split; cbn; try done; [split; cbn; try done; by rewrite Hbs|].
  intros k Hk Hne. rewrite Hsec by done. rewrite decide_False; [done|]. intros ->. by apply (Hne c Hc).
Qed.

Lemma link_spec c v fs :
  fs_ok fs -> 0 <= c < M -> 0 <= v < 2 ^ 32 ->
  exists fs', link c v fs = Some fs' /\ table_step fs fs' /\
    forall x, 0 <= x < M -> fat_at fs' x = if decide (x = c) then v else fat_at fs x.
Proof.
  intros H Hc Hv. unfold link. rewrite GetFAT_spec by done. cbn [mbind option_bind].
  destruct (store_spec c v fs H Hc Hv) as [-> (fs' & E & Hr)]. cbn [mbind option_bind]. by exists fs'.
Qed.

(** ** Finding the end and the free clusters *)

Lemma find_eoc_spec fuel : forall l c fs,
  fs_ok fs -> chain M (fat_at fs) c l -> (length l < fuel)%nat ->
  exists b, length b = 512%nat /\ find_eoc fuel c fs = Some (set_fat_buf b fs, end_of c l).
Proof.
  induction fuel as [|fuel IH]; intros l c fs H Hch Hf; [lia|]. cbn [find_eoc].
  pose proof (ch_range _ _ _ _ Hch) as Hr. inversion Hr as [|? ? Hc Hr']; subst. unfold is_cluster in Hc.
  rewrite GetFAT_spec by (done || lia). cbn [mbind option_bind]. rewrite fat_ref_spec by (done || lia).
  cbn [mbind option_bind]. pose proof (sector_ok fs c H ltac:(lia)) as H1. destruct l as [|d l].
  - pose proof (ch_end _ _ _ _ Hch) as He. cbn in He. rewrite decide_True by done.
    eexists; split; [|done]. apply (ok_fat _ H1).
  - apply chain_cons in Hch as [Hd Hch]. rewrite Hd. pose proof (ok_M _ H) as HM.
    inversion Hr' as [|? ? Hdr _]; subst. unfold is_cluster in Hdr. rewrite decide_False by lia.
    cbn [end_of]. cbn in Hf. destruct (IH l (fat_at fs c) (set_fat_buf (bd_sector (dev fs) (fat_sector fs c)) fs))
      as (b & Hb & E); [done|exact Hch|lia|]. exists b. split; [done|exact E].
Qed.

(** The free clusters from [c] on, in order. *)
Definition free_from (fat : Z -> Z) (c : Z) : list Z := filter (fun x => fat x = 0) (seqZ c (M - c)).

Lemma free_from_step fat c :
  c < M -> free_from fat c = (if decide (fat c = 0) then [c] else []) ++ free_from fat (c + 1).
Proof.
  intros Hc. unfold free_from. rewrite seqZ_cons by lia. rewrite filter_cons.
  replace (Z.succ c) with (c + 1) by lia. replace (Z.pred (M - c)) with (M - (c + 1)) by lia.
  by case_decide.
Qed.

Lemma free_from_ext fat fat' c :
  (forall x, c <= x < M -> fat x = 0 <-> fat' x = 0) -> free_from fat c = free_from fat' c.
Proof.
  intros H. unfold free_from. assert (Hin : forall x, x ∈ seqZ c (M - c) -> fat x = 0 <-> fat' x = 0)
    by (intros x Hx%elem_of_seqZ; apply H; lia).
  induction (seqZ c (M - c)) as [|x l IH]; [done|]. rewrite !filter_cons.
  assert (fat x = 0 <-> fat' x = 0) by (apply Hin; by left).
  rewrite IH by (intros y Hy; apply Hin; by right). repeat case_decide; tauto.
Qed.

Lemma elem_of_free fat c x : x ∈ free_from fat c -> c <= x < M /\ fat x = 0.
Proof. unfold free_from. intros [Hf Hx%elem_of_seqZ]%list_elem_of_filter. split; [lia|done]. Qed.

Lemma elem_of_take {A} (x : A) n l : x ∈ take n l -> x ∈ l.
Proof. intros H. rewrite <- (take_drop n l). apply elem_of_app. by left. Qed.

(** Taking the first free cluster. *)
Lemma free_from_taken fat fat' x rest :
  free_from fat 2 = x :: rest -> (forall y, 2 <= y < M -> fat' y = 0 <-> fat y = 0 /\ y <> x) ->
  free_from fat' 2 = rest.
Proof.
  intros E Hiff.
  assert (G : forall l : list Z, (forall y, y ∈ l -> 2 <= y < M) ->
    filter (fun y => fat' y = 0) l = filter (fun y => y <> x) (filter (fun y => fat y = 0) l)).
  { induction l as [|y l IH]; intros Hl; [done|]. rewrite !filter_cons.
    rewrite IH by (intros z Hz; apply Hl; by right). pose proof (Hiff y (Hl y ltac:(by left))) as Hy.
    destruct (decide (fat y = 0)) as [Hz|Hz]; [rewrite filter_cons; destruct (decide (y <> x)) as [Hne|Hne]|].
    - by rewrite decide_True by tauto.
    - by rewrite decide_False by tauto.
    - by rewrite decide_False by tauto. }
  unfold free_from. rewrite G by (intros y Hy%elem_of_seqZ; lia). fold (free_from fat 2). rewrite E, filter_cons.
  rewrite decide_False by auto.
  assert (Hx : x ∉ rest).
  { assert (NoDup (x :: rest)) as Hnd by (rewrite <- E; unfold free_from; apply list.NoDup_filter, NoDup_seqZ).
    by apply list.NoDup_cons in Hnd as [? _]. }
  clear -Hx. induction rest as [|y l IH]; [done|]. rewrite not_elem_of_cons in Hx. destruct Hx as [Hy Hx].
  rewrite filter_cons, decide_True by auto. f_equal. by apply IH.
Qed.

Record extended fs fs' (cur : Z) (new : list Z) : Prop := {
  ex_step : table_step fs fs';
  ex_links : links (fat_at fs') cur new;
  ex_same : forall x, 0 <= x < M -> x ∉ cur :: new \/ x = end_of cur new -> fat_at fs' x = fat_at fs x;
}.

Lemma extend_loop_spec fuel : forall cand k n cur fs,
  fs_ok fs -> 2 <= cand <= M -> is_cluster M cur -> (cur < cand \/ fat_at fs cur <> 0) ->
  0 <= n - k <= Z.of_nat (length (free_from (fat_at fs) cand)) -> (Z.to_nat (M - cand) < fuel)%nat ->
  let new := take (Z.to_nat (n - k)) (free_from (fat_at fs) cand) in
  exists fs', extend_loop fuel cand k n cur fs = Some (fs', end_of cur new) /\ extended fs fs' cur new.
Proof.
  induction fuel as [|fuel IH]; intros cand k n cur fs H Hcand Hcur Hdis Hn Hf; [lia|]. cbn zeta.
  cbn [extend_loop]. pose proof (ok_M _ H) as HM. unfold eoc_min in HM. case_decide as Hlt.
  2: { replace (n - k) with 0 by lia. exists fs. split; [done|]. split; [|done|done].
       split; try done. }
  destruct (decide (cand = M)) as [->|Hne].
  { unfold free_from in Hn. rewrite Z.sub_diag in Hn. change (seqZ M 0) with (@nil Z) in Hn.
    change (filter (fun x => fat_at fs x = 0) []) with (@nil Z) in Hn. cbn in Hn. lia. }
  rewrite GetFAT_spec by (done || lia). cbn [mbind option_bind]. rewrite fat_ref_spec by (done || lia).
  cbn [mbind option_bind]. set (fs1 := set_fat_buf _ fs).
  assert (H1 : fs_ok fs1) by (apply sector_ok; (done || lia)).
  rewrite (free_from_step _ cand) in * by lia. destruct (decide (fat_at fs cand <> 0)) as [Hv|Hv].
  - rewrite (decide_False (P := fat_at fs cand = 0)) in * by done. cbn [app] in *.
    destruct (IH (cand + 1) k n cur fs1) as (fs' & E & [Hs Hl Hx]); try (done || lia);
      [by destruct Hdis; [left; lia|right]|]. exists fs'. split; [exact E|].
    split; [|done|exact Hx]. eapply table_step_trans; [|exact Hs]. apply table_step_buf; [done|].
    apply (ok_fat _ H1).
  - assert (Hz : fat_at fs cand = 0) by lia. rewrite (decide_True (P := fat_at fs cand = 0)) in * by done.
    cbn [app] in *. assert (Hcc : cur <> cand) by (intros ->; destruct Hdis; [lia|done]).
    unfold is_cluster in Hcur.
    destruct (link_spec cur cand fs1 H1) as (fs2 & -> & Hs2 & Hat); [lia..|]. cbn [mbind option_bind].
    assert (Hfree : free_from (fat_at fs2) (cand + 1) = free_from (fat_at fs) (cand + 1)).
    { apply free_from_ext. intros x Hx. rewrite Hat by lia. case_decide as E; [|done]. subst x.
      split; [lia|]. intros E0. destruct Hdis; [lia|]. change (fat_at fs1 cur) with (fat_at fs cur) in *. done. }
    cbn [length] in Hn. replace (Z.to_nat (n - k)) with (S (Z.to_nat (n - (k + 1)))) by lia. cbn [take].
    destruct (IH (cand + 1) (k + 1) n cand fs2) as (fs' & E & [Hs Hl Hx]); try lia.
    + apply (ts_ok _ _ Hs2).
    + unfold is_cluster. lia.
    + rewrite Hfree. lia.
    + rewrite Hfree in *. set (new := take _ _) in *. exists fs'. cbn [end_of]. split; [exact E|].
      assert (Hnew : forall x, x ∈ cand :: new -> x <> cur).
      { intros x [->|Hin]%elem_of_cons ->; [done|]. apply elem_of_take, elem_of_free in Hin as [? ?].
        destruct Hdis; [lia|done]. }
      assert (Hc' : fat_at fs' cur = cand).
      { rewrite Hx; [by rewrite Hat, decide_True by lia|lia|]. left. intros Hin. by apply (Hnew cur). }
      split.
      * eapply table_step_trans; [|exact Hs]. eapply table_step_trans; [|exact Hs2].
        apply table_step_buf; [done|apply (ok_fat _ H1)].
      * by split.
      * intros x Hxr Hout. assert (Hxc : x <> cur).
        { destruct Hout as [Hout| ->]; [intros ->; apply Hout; by left|]. cbn [end_of]. apply Hnew, end_of_elem. }
        rewrite Hx; [rewrite Hat by done; by rewrite decide_False|done|].
        destruct Hout as [Hout| ->]; [left|by right]. intros Hin. apply Hout. by right.
Qed.

(** Extending a chain: with [n] free clusters on the volume the function
    returns, the chain grows by the [n] free clusters of lowest number in
    order and ends there, which is the result; every other entry of the table,
    every other chain, and the data of every cluster stay as they were, and so do the sectors
    outside the table. *)
Lemma ExtendCluster_spec fuel c l n fs :
  fs_ok fs -> chain M (fat_at fs) c l ->
  0 <= n <= Z.of_nat (length (free_from (fat_at fs) 2)) -> (Z.to_nat M <= fuel)%nat ->
  let new := take (Z.to_nat n) (free_from (fat_at fs) 2) in
  exists fs', ExtendCluster fuel c n fs = Some (fs', end_of c (l ++ new)) /\ table_step fs fs' /\
    chain M (fat_at fs') c (l ++ new) /\
    (forall x, 0 <= x < M -> x <> end_of c l -> x ∉ new -> fat_at fs' x = fat_at fs x) /\
    (forall c' l', chain M (fat_at fs) c' l' -> end_of c' l' <> end_of c l -> chain M (fat_at fs') c' l') /\
    (forall x, is_cluster M x -> data_of fs' x = data_of fs x).
Proof.
  intros H Hch Hn Hf. cbn zeta. set (new := take _ _). pose proof (ok_M _ H) as HM.
  pose proof (chain_length _ _ (proj2 HM) _ _ Hch) as Hl.
  destruct (find_eoc_spec fuel l c fs H Hch) as (b & Hb & E1); [lia|].
  set (fs1 := set_fat_buf b fs) in *. set (e := end_of c l) in *.
  assert (H1 : fs_ok fs1) by by apply set_fat_buf_ok.
  assert (He : is_cluster M e).
  { pose proof (ch_range _ _ _ _ Hch) as Hr. rewrite Forall_forall in Hr. apply Hr, list_elem_of_In, end_of_elem. }
  assert (Hfe : eoc_min <= fat_at fs e) by apply (ch_end _ _ _ _ Hch).
  destruct (extend_loop_spec fuel 2 0 n e fs1) as (fs2 & E2 & [Hs2 Hl2 Hx2]); try (done || lia).
  { right. change (fat_at fs1 e) with (fat_at fs e). unfold eoc_min in *. lia. }
  { rewrite Z.sub_0_r. done. }
  rewrite Z.sub_0_r in *. change (take (Z.to_nat n) (free_from (fat_at fs1) 2)) with new in *.
  assert (Hnew : forall x, x ∈ new -> is_cluster M x /\ fat_at fs x = 0).
  { intros x Hx. by apply elem_of_take, elem_of_free in Hx. }
  assert (Hee : is_cluster M (end_of e new)).
  { destruct (proj1 (elem_of_cons _ _ _) (end_of_elem e new)) as [->|Hx]; [done|by apply Hnew]. }
  unfold is_cluster in Hee.
  destruct (link_spec (end_of e new) end_of_chain fs2 (ts_ok _ _ Hs2)) as (fs3 & E3 & Hs3 & Hat3);
    [lia|unfold end_of_chain; lia|].
  assert (Hstep : table_step fs fs3).
  { eapply table_step_trans; [by apply (table_step_buf b)|]. by eapply table_step_trans. }
  assert (Hsame : forall x, 0 <= x < M -> x <> e -> x ∉ new -> fat_at fs3 x = fat_at fs x).
  { intros x Hx Hxe Hxn. assert (Hxo : x ∉ e :: new) by (by rewrite not_elem_of_cons).
    rewrite Hat3, decide_False, Hx2; [done|done|by left|intros ->; by apply Hxo, end_of_elem|done]. }
  assert (Hagree : forall x, is_cluster M x -> is_cluster M (fat_at fs x) -> fat_at fs3 x = fat_at fs x).
  { intros x Hx Hfx. unfold is_cluster in *. apply Hsame; [lia|intros ->; unfold eoc_min in *; lia|].
    intros [_ Hz]%Hnew. lia. }
  assert (HMe : M <= eoc_min) by apply HM.
  exists fs3. rewrite end_of_app. fold e. split; [|split; [done|split; [|split; [done|split]]]].
  - unfold ExtendCluster. rewrite E1. cbn [mbind option_bind]. rewrite E2. cbn [mbind option_bind].
    rewrite E3. done.
  - pose proof (ch_range _ _ _ _ Hch) as Hr. split.
    + rewrite links_app. fold e. split; [by apply (links_agree M (fat_at fs)); [|apply (ch_links _ _ _ _ Hch)| |]|].
      apply (links_agree M (fat_at fs2)); [done|done| |].
      * constructor; [done|]. apply Forall_forall. intros x Hx. by apply Hnew, list_elem_of_In.
      * intros x Hx Hfx. unfold is_cluster in *. rewrite Hat3, decide_False; [done| |lia].
        intros ->. rewrite Hx2 in Hfx by (lia || by right). change (fat_at fs1) with (fat_at fs) in Hfx.
        destruct (proj1 (elem_of_cons _ _ _) (end_of_elem e new)) as [E|[_ E]%Hnew]; [rewrite E in Hfx|];
          unfold eoc_min in *; lia.
    + rewrite app_comm_cons. apply Forall_app. split; [done|]. apply Forall_forall. intros x Hx.
      by apply Hnew, list_elem_of_In.
    + rewrite end_of_app. fold e. rewrite Hat3, decide_True by lia. done.
  - intros c' l' Hch' Hne. pose proof (ch_range _ _ _ _ Hch') as Hr'. split; [|done|].
    + by apply (links_agree M (fat_at fs)); [|apply (ch_links _ _ _ _ Hch')| |].
    + rewrite Hsame; [apply (ch_end _ _ _ _ Hch')| |done|].
      * rewrite Forall_forall in Hr'. pose proof (end_of_elem c' l') as Hi%list_elem_of_In.
        specialize (Hr' _ Hi). unfold is_cluster in Hr'. lia.
      * intros Hx%Hnew. destruct Hx as [_ Hz]. pose proof (ch_end _ _ _ _ Hch') as He'. unfold eoc_min in *. lia.
  - intros x Hx. by apply table_step_data.
Qed.

Lemma find_free_spec fuel : forall cand fs c0 rest,
  fs_ok fs -> 2 <= cand <= M -> free_from (fat_at fs) cand = c0 :: rest -> (Z.to_nat (M - cand) < fuel)%nat ->
  exists fs1 fs2, find_free fuel cand fs = Some (fs1, c0) /\ UpdateFAT c0 fs1 = Some fs2 /\
    table_step fs fs2 /\ is_cluster M c0 /\ fat_at fs c0 = 0 /\ rest = free_from (fat_at fs) (c0 + 1) /\
    free_from (fat_at fs) 2 = filter (fun x => fat_at fs x = 0) (seqZ 2 (cand - 2)) ++ c0 :: rest /\
    forall x, 0 <= x < M -> fat_at fs2 x = if decide (x = c0) then end_of_chain else fat_at fs x.
Proof.
  induction fuel as [|fuel IH]; intros cand fs c0 rest H Hc Hfree Hf; [lia|]. cbn [find_free].
  assert (Hlt : cand < M).
  { destruct (elem_of_free (fat_at fs) cand c0) as [? _]; [rewrite Hfree; by left|lia]. }
  assert (Hall : free_from (fat_at fs) 2 = filter (fun x => fat_at fs x = 0) (seqZ 2 (cand - 2)) ++ c0 :: rest).
  { rewrite <- Hfree. unfold free_from. rewrite <- list.filter_app. f_equal.
    replace (M - 2) with ((cand - 2) + (M - cand)) by lia. rewrite seqZ_app by lia. do 2 f_equal. lia. }
  rewrite GetFAT_spec by (done || lia). cbn [mbind option_bind]. rewrite fat_ref_spec by (done || lia).
  cbn [mbind option_bind]. pose proof (sector_ok fs cand H ltac:(lia)) as H1.
  rewrite free_from_step in Hfree by done. case_decide as Hz.
  - cbn [app] in Hfree. injection Hfree as <- Hrest.
    destruct (store_spec cand end_of_chain fs H) as [-> (fs2 & E & Hs & Hat)]; [lia|unfold end_of_chain; lia|].
    cbn [mbind option_bind]. eexists _, fs2. split; [done|]. split; [exact E|]. unfold is_cluster. split_and!; (done || lia).
  - cbn [app] in Hfree. set (fs' := set_fat_buf _ fs) in *.
    destruct (IH (cand + 1) fs' c0 rest H1) as (fs1 & fs2 & E1 & E2 & Hs & Hr & Hz0 & Hrest & _ & Hat); [lia|done|lia|].
    exists fs1, fs2. split; [exact E1|]. split; [done|]. split_and!; try done.
    eapply table_step_trans; [|exact Hs]. apply table_step_buf; [done|apply (ok_fat _ H1)].
Qed.

(** C13. Allocating a chain of [n] clusters (one when [n] is 0): with that many
    free the function returns, and the free clusters of lowest number, in order, are
    linked to a chain that starts with the result; no other entry of the table changes, so
    every chain stays, and the data of the clusters is untouched. *)
Theorem AllocateClusterChain_allocates fuel n fs :
  fs_ok fs -> 0 <= n -> Z.max 1 n <= Z.of_nat (length (free_from (fat_at fs) 2)) ->
  (Z.to_nat M <= fuel)%nat ->
  let new := take (Z.to_nat (Z.max 1 n)) (free_from (fat_at fs) 2) in
  exists fs' first rest, AllocateClusterChain fuel n fs = Some (fs', first) /\ new = first :: rest /\
    table_step fs fs' /\ chain M (fat_at fs') first rest /\
    (forall x, 0 <= x < M -> x ∉ new -> fat_at fs' x = fat_at fs x) /\
    (forall c l, chain M (fat_at fs) c l -> chain M (fat_at fs') c l) /\
    (forall x, is_cluster M x -> data_of fs' x = data_of fs x).
Proof.
  intros H Hn Hfree Hf. cbn zeta. pose proof (ok_M _ H) as HM.
  destruct (free_from (fat_at fs) 2) as [|c0 rest] eqn:E0; [cbn in Hfree; lia|].
  destruct (find_free_spec fuel 2 fs c0 rest H) as (fs1 & fs2 & E1 & E2 & Hs2 & Hc0 & Hz & Hrest & _ & Hat2);
    [lia|done|lia|].
  assert (Hch0 : chain M (fat_at fs2) c0 []).
  { split; [done|by apply Forall_singleton|]. cbn. rewrite Hat2, decide_True by (unfold is_cluster in *; lia).
    unfold eoc_min, end_of_chain. lia. }
  assert (Hold : forall c l, chain M (fat_at fs) c l -> chain M (fat_at fs2) c l /\ end_of c l <> c0).
  { intros c l Hch. pose proof (ch_range _ _ _ _ Hch) as Hr. pose proof (ch_end _ _ _ _ Hch) as He.
    assert (Hne : end_of c l <> c0) by (intros E; rewrite E, Hz in He; unfold eoc_min in He; lia).
    split; [|done]. split; [|done|].
    - apply (links_agree M (fat_at fs)); [lia|apply (ch_links _ _ _ _ Hch)|done|].
      intros x Hx Hfx. unfold is_cluster in *. rewrite Hat2, decide_False; [done| |lia].
      intros ->. lia.
    - rewrite Forall_forall in Hr. pose proof (Hr _ (proj1 (list_elem_of_In _ _) (end_of_elem c l))) as Hi.
      unfold is_cluster in Hi. rewrite Hat2, decide_False by (done || lia). done. }
  unfold AllocateClusterChain. rewrite E1. cbn [mbind option_bind]. rewrite E2. cbn [mbind option_bind].
  replace (Z.to_nat (Z.max 1 n)) with (S (Z.to_nat (n - 1))) by lia. cbn [take].
  case_decide as Hn1.
  - assert (Hfree2 : free_from (fat_at fs2) 2 = rest).
    { apply (free_from_taken (fat_at fs) _ c0); [done|]. intros y Hy. rewrite Hat2 by lia.
      case_decide as E; [|tauto]. unfold end_of_chain. split; [lia|tauto]. }
    destruct (ExtendCluster_spec fuel c0 [] (n - 1) fs2 (ts_ok _ _ Hs2) Hch0)
      as (fs3 & E3 & Hs3 & Hch3 & Hsame & Hoth & Hdata); [rewrite Hfree2; cbn in Hfree; lia|done|].
    rewrite Hfree2 in *. set (new := take (Z.to_nat (n - 1)) rest) in *. rewrite E3. cbn [mbind option_bind].
    exists fs3, c0, new. split; [done|]. split; [done|]. split; [by eapply table_step_trans|].
    split; [exact Hch3|]. split_and!.
    + intros x Hx [Hxc Hxn]%not_elem_of_cons. rewrite Hsame by done. by rewrite Hat2, decide_False.
    + intros c l Hch. destruct (Hold c l Hch). by apply Hoth.
    + intros x Hx. rewrite Hdata by done. by apply table_step_data.
  - replace (Z.to_nat (n - 1)) with 0%nat by lia. exists fs2, c0, []. split; [done|]. split; [done|].
    split; [done|]. split; [done|]. split_and!.
    + intros x Hx [Hxc Hxn]%not_elem_of_cons. by rewrite Hat2, decide_False.
    + intros c l Hch. by destruct (Hold c l Hch).
    + intros x Hx. by apply table_step_data.
Qed.
End volume.
