(* ===== verification/FatSample.v ===== *)
(** * A small FAT32 volume

    Clusters of one sector, numbered 2 to 9, for the concrete instances of the
    file system's theorems: the root directory in cluster 2 holds HELLO.TXT
    (600 bytes in clusters 3 and 5) and the directory SUB (cluster 6), which
    holds A.TXT (cluster 7). Clusters 4, 8 and 9 are free. *)

From S2P Require Import Prelude Bytes KernelLog Fat FatChain.
From stdpp Require Import base list numbers option.
From Stdlib Require Import ZArith Lia.

Local Open Scope Z_scope.

Definition zeros (n : nat) : list Z := replicate n 0.

(** An image is built from fields at their offsets. *)
Definition put (fields : list (nat * list Z)) (block : list Z) : list Z :=
  foldr (fun f b => splice b (fst f) (snd f)) block fields.

Definition boot_sector : list Z :=
  put [(11%nat, le_bytes 2 512); (13%nat, [1]); (14%nat, le_bytes 2 1); (16%nat, [1]);
       (36%nat, le_bytes 4 1); (44%nat, le_bytes 4 2)] (zeros 512).

Definition fat_table : list Z :=
  concat (le_bytes 4 <$> [0x0ffffff8; 0x0fffffff; 0x0fffffff; 5; 0; 0x0fffffff; 0x0fffffff; 0x0fffffff; 0; 0])
    ++ zeros 472.

Definition make_entry (name : list Z) (a cluster size : Z) : list Z :=
  put [(0%nat, name); (11%nat, [a]); (26%nat, le_bytes 2 cluster); (28%nat, le_bytes 4 size)] (zeros 32).

(** "HELLO   TXT", "SUB        ", "A       TXT". *)
Definition hello_txt : list Z := [72; 69; 76; 76; 79; 32; 32; 32; 84; 88; 84].
Definition sub_dir : list Z := [83; 85; 66; 32; 32; 32; 32; 32; 32; 32; 32].
Definition a_txt : list Z := [65; 32; 32; 32; 32; 32; 32; 32; 84; 88; 84].

Definition sample_image : list Z :=
  boot_sector ++ fat_table ++
  (make_entry hello_txt 32 3 600 ++ make_entry sub_dir 16 6 0 ++ zeros 448) ++
  replicate 512 7 ++ zeros 512 ++ (replicate 88 9 ++ zeros 424) ++
  (make_entry a_txt 32 7 5 ++ zeros 480) ++ (replicate 5 1 ++ zeros 507) ++ zeros 1024.

Definition sample_fs : @FileSystem (list Z) :=
  match Initialize sample_image (fun n => zeros (Z.to_nat n)) (fun n => zeros (Z.to_nat n)) with
  | Some (Some fs) => fs
  | _ => MkFS [] (MkBPB 0 0 0 0 0 0 0) [] [] 0 0
  end.

Lemma sample_fs_ok : fs_ok 10 sample_fs.
Proof. split; vm_compute; repeat split; congruence. Qed.

Lemma sample_chain : chain 10 (fat_at sample_fs) 3 [5].
Proof.
  split; [vm_compute; repeat split|repeat constructor; done|vm_compute; congruence].
Qed.

Lemma sample_free : free_from 10 (fat_at sample_fs) 2 = [4; 8; 9].
Proof. vm_compute. reflexivity. Qed.

Lemma ExtendCluster_sample :
  exists fs', ExtendCluster 10 3 2 sample_fs = Some (fs', 8) /\ chain 10 (fat_at fs') 3 [5; 4; 8].
Proof.
  destruct (ExtendCluster_spec 10 10 3 [5] 2 sample_fs sample_fs_ok sample_chain) as (fs' & E & _ & Hch & _).
  - rewrite sample_free. cbn. lia.
  - cbn. lia.
  - rewrite sample_free in *. exists fs'. split; [exact E|exact Hch].
Defined.

Lemma AllocateClusterChain_allocates_witness :
  exists fs', AllocateClusterChain 10 2 sample_fs = Some (fs', 4) /\ chain 10 (fat_at fs') 4 [8].
Proof.
  destruct (AllocateClusterChain_allocates 10 10 2 sample_fs sample_fs_ok) as (fs' & first & rest & E & Hn & _ & Hch & _).
  - lia.
  - rewrite sample_free. cbn. lia.
  - cbn. lia.
  - rewrite sample_free in Hn. injection Hn as <- <-. exists fs'. split; [exact E|exact Hch].
Defined.
