(* ===== verification/FatDir.v ===== *)
(** * Directories: names and the resolution of paths

    The listing of a directory is the sequence of entries of its cluster
    chain; [FindFile] finds in it the first entry with the name, and walks
    down a path through the directories of the volume. *)

From S2P Require Import Prelude Bytes KernelLog Fat FatChain FatSample.
From stdpp Require Import base list numbers option.
From Stdlib Require Import ZArith Lia.

Local Open Scope Z_scope.

(** ** 8.3 names *)

(** A name of the form BASE or BASE.EXT with room for both parts. *)
Record valid83 (name base ext : list Z) : Prop := {
  v_form : (ext = [] /\ name = base) \/ name = base ++ char_dot :: ext;
  v_base : (length base <= 8)%nat;
  v_ext : (length ext <= 3)%nat;
  v_nodot : Forall (fun c => c <> char_dot) (base ++ ext);
}.

Definition pad (n : nat) (s : list Z) : list Z := s ++ replicate (n - length s) 32.

(** The 11 characters of the directory entry for the name. *)
Definition stored_name (base ext : list Z) : list Z := pad 8 (toupper <$> base) ++ pad 3 (toupper <$> ext).

Lemma length_pad n s : (length s <= n)%nat -> length (pad n s) = n.
Proof. intros. unfold pad. rewrite length_app, length_replicate. lia. Qed.

(** The loop of [NameIsEqual] over characters other than dots. *)
Lemma name83_loop_plain s rest : forall i buf,
  Forall (fun c => c <> char_dot) s -> (i + length s <= 11)%nat -> length buf = 11%nat ->
  name83_loop (s ++ rest) i buf = name83_loop rest (i + length s) (splice buf i (toupper <$> s)).
Proof.
  induction s as [|c s IH]; intros i buf Hs Hi Hb.
  - cbn. rewrite Nat.add_0_r. unfold splice. cbn. by rewrite Nat.add_0_r, take_drop.
  - inversion Hs; subst. cbn in Hi. cbn [app name83_loop]. rewrite decide_True, decide_False by (done || lia).
    rewrite IH by (rewrite ?length_insert; done || lia). cbn [length]. f_equal; [lia|].
    apply list_eq. intros j. rewrite !lookup_splice by (rewrite ?length_insert, ?length_fmap; cbn; lia).
    rewrite !length_fmap. cbn [length fmap list_fmap]. destruct (decide (j = i)) as [->|Hj].
    + rewrite decide_False, decide_True by lia. rewrite Nat.sub_diag. rewrite list_lookup_insert_eq by lia. done.
    + rewrite list_lookup_insert_ne by done. repeat case_decide; try lia; [|done].
      replace (j - i)%nat with (S (j - S i)) by lia. done.
Qed.

(** Overwriting blanks with both parts. *)
Lemma stored_name_splice base ext :
  (length base <= 8)%nat -> (length ext <= 3)%nat ->
  splice (splice (replicate 11 32) 0 (toupper <$> base)) 8 (toupper <$> ext) = stored_name base ext.
Proof.
  intros Hb He. assert (Hl : forall l : list Z, (length l <= 11)%nat -> length (splice (replicate 11 32) 0 (toupper <$> l)) = 11%nat)
    by (intros l Hl; rewrite length_splice; rewrite ?length_fmap, ?length_replicate; lia).
  apply list_eq. intros j. rewrite !lookup_splice by (rewrite ?Hl, ?length_fmap, ?length_replicate; lia).
  rewrite !length_fmap. unfold stored_name. destruct (decide (j < 8)%nat) as [Hj|Hj].
  - rewrite decide_False by lia. rewrite lookup_app_l by (rewrite length_pad; rewrite ?length_fmap; lia).
    unfold pad. rewrite length_fmap. case_decide.
    + rewrite lookup_app_l by (rewrite length_fmap; lia). by rewrite Nat.sub_0_r.
    + rewrite lookup_app_r by (rewrite length_fmap; lia). rewrite length_fmap, !lookup_replicate_2 by lia. done.
  - rewrite lookup_app_r by (rewrite length_pad; rewrite ?length_fmap; lia).
    rewrite length_pad by (rewrite length_fmap; lia). unfold pad. rewrite length_fmap. case_decide.
    + rewrite lookup_app_l by (rewrite length_fmap; lia). done.
    + rewrite lookup_app_r by (rewrite length_fmap; lia). rewrite length_fmap, decide_False by lia.
      destruct (decide (j < 11)%nat).
      * rewrite !lookup_replicate_2 by lia. done.
      * rewrite !lookup_ge_None_2 by (rewrite length_replicate; lia). done.
Qed.

Lemma split_last_none c s : Forall (fun x => x <> c) s -> split_last c s = None.
Proof. induction 1 as [|x s Hx _ IH]; cbn; [done|]. by rewrite IH, decide_False. Qed.

Lemma split_last_app c a b : Forall (fun x => x <> c) b -> split_last c (a ++ c :: b) = Some (a, b).
Proof.
  intros Hb. induction a as [|x a IH]; cbn; [by rewrite split_last_none, decide_True|]. by rewrite IH.
Qed.

(** The two readings of a file name agree: for every name with a base of up to 8
    and an extension of up to 3 characters, [SetFileName] stores the upper-case padded
    form, and [NameIsEqual] accepts exactly the entries that hold it; so a
    file is found under the name it was created with, in any case, and under no
    name with a different stored form. *)
Theorem SetFileName_NameIsEqual name base ext e :
  valid83 name base ext ->
  SetFileName name = stored_name base ext /\
  (NameIsEqual e name = true <-> entry_name e = SetFileName name).
Proof.
  intros [Hform Hb He Hnd]. apply Forall_app in Hnd as [Hnb Hne].
  assert (Hset : SetFileName name = stored_name base ext).
  { unfold SetFileName. destruct Hform as [(-> & ->)| ->].
    - rewrite split_last_none, take_ge by (done || lia). rewrite <- stored_name_splice by (cbn; lia).
      unfold splice at 2. cbn [fmap list_fmap app length]. rewrite Nat.add_0_r. by rewrite take_drop.
    - rewrite split_last_app by done. rewrite !take_ge by lia. by apply stored_name_splice. }
  split; [done|]. rewrite Hset. unfold NameIsEqual. rewrite bool_decide_eq_true.
  assert (name83_loop name 0 (replicate 11 32) = stored_name base ext) as ->; [|done].
  rewrite <- stored_name_splice by done. destruct Hform as [(-> & ->)| ->].
  - rewrite <- (app_nil_r base) at 1. rewrite name83_loop_plain by (done || lia). cbn [name83_loop].
    unfold splice at 2. cbn [fmap list_fmap app length]. rewrite Nat.add_0_r. by rewrite take_drop.
  - rewrite name83_loop_plain by (done || lia). cbn [name83_loop]. rewrite decide_True, decide_True by (done || lia).
    rewrite <- (app_nil_r ext) at 1. rewrite name83_loop_plain; [done|done|lia|].
    rewrite length_splice; rewrite ?length_fmap; rewrite length_replicate; lia.
Qed.

(** "hello.txt". *)
Lemma SetFileName_NameIsEqual_witness :
  SetFileName [104; 101; 108; 108; 111; 46; 116; 120; 116] = hello_txt /\
  NameIsEqual (make_entry hello_txt 32 3 600) [104; 101; 108; 108; 111; 46; 116; 120; 116] = true.
Proof.
  destruct (SetFileName_NameIsEqual [104; 101; 108; 108; 111; 46; 116; 120; 116] [104; 101; 108; 108; 111]
    [116; 120; 116] (make_entry hello_txt 32 3 600)) as [H1 H2].
  - split; [by right|cbn; lia|cbn; lia|repeat constructor; done].
  - split; [rewrite H1; reflexivity|]. apply H2. vm_compute. reflexivity.
Defined.

(** Longer bases are stored cut to 8 characters but compared over 11: a file
    created under such a name is not found again. *)
Lemma long_name_lost :
  let name := [97; 98; 99; 100; 101; 102; 103; 104; 105] in
  forall e, entry_name e = SetFileName name -> NameIsEqual e name = false.
Proof. cbn zeta. intros e He. unfold NameIsEqual. rewrite He. reflexivity. Qed.

(** ** Reading clusters *)

Section dir.
Context {D : Type} `{!BlockDevice D} (M : Z).
Implicit Types fs : @FileSystem D.

Lemma length_concat_sectors (d : D) (s : Z) n :
  (forall k, (k < n)%nat -> 0 <= s + Z.of_nat k < bd_sectors d) ->
  length (concat ((fun k => bd_sector d (s + Z.of_nat k)) <$> seq 0 n)) = (512 * n)%nat.
Proof.
  induction n as [|n IH]; intros H; [done|]. rewrite seq_S, fmap_app, concat_app, length_app, IH by (intros; apply H; lia).
  cbn. rewrite app_nil_r, bd_sector_length by (apply H; lia). lia.
Qed.

Lemma data_sector_bound fs c : fs_ok M fs -> is_cluster M c ->
  0 <= data_sector fs c /\ data_sector fs c + sectors_per_cluster (bpb fs) <= bd_sectors (dev fs).
Proof.
  intros H Hc. unfold is_cluster, data_sector in *. pose proof (ok_device _ _ H). pose proof (ok_spc _ _ H).
  pose proof (ok_layout _ _ H) as (? & ? & ? & ?). unfold data_start in *. nia.
Qed.

Lemma length_data fs c : fs_ok M fs -> is_cluster M c -> Z.of_nat (length (data_of fs c)) = bytes_per_cluster fs.
Proof.
  intros H Hc. unfold data_of. rewrite length_concat_sectors.
  - rewrite (ok_bpc _ _ H). pose proof (ok_spc _ _ H). lia.
  - intros k Hk. pose proof (data_sector_bound fs c H Hc). lia.
Qed.

Lemma cluster_sector_spec fs c : fs_ok M fs -> is_cluster M c -> cluster_sector c fs = data_sector fs c.
Proof.
  intros H Hc. pose proof (data_sector_bound fs c H Hc) as Hb. unfold is_cluster in Hc.
  pose proof (ok_layout _ _ H) as (? & ? & ? & ?). pose proof (ok_spc _ _ H) as Hs. pose proof (ok_M _ _ H) as HM.
  unfold cluster_sector, data_sector, data_start in *.
  assert (0 <= num_fats (bpb fs) * fat_size_32 (bpb fs)) by (apply Z.mul_nonneg_nonneg; lia).
  assert (0 <= (c - 2) * sectors_per_cluster (bpb fs) < 2 ^ 28 * 2 ^ 8) by (unfold eoc_min in HM; nia).
  rewrite (u32_small (num_fats _ * _)), u32_small, (u64_small (c - 2)), (u64_small ((c - 2) * _)), u64_small;
    unfold eoc_min in *; lia.
Qed.

Lemma ReadCluster_spec fs c : fs_ok M fs -> is_cluster M c ->
  ReadCluster c fs = Some (set_cluster_buf (data_of fs c) (set_cluster_num c fs)).
Proof.
  intros H Hc. unfold ReadCluster. rewrite cluster_sector_spec by done.
  pose proof (data_sector_bound fs c H Hc) as Hb. pose proof (ok_spc _ _ H).
  rewrite bd_read_spec by lia. cbn [mbind option_bind]. fold (data_of fs c).
  pose proof (length_data fs c H Hc) as Hl. pose proof (ok_buf _ _ H) as Hbuf.
  rewrite write_at_Some by lia. cbn [mbind option_bind]. by rewrite splice_all by lia.
Qed.

(** Only the buffers change. *)
Record reading fs fs' : Prop := {
  rd_ok : fs_ok M fs';
  rd_dev : dev fs' = dev fs;
  rd_bpb : bpb fs' = bpb fs;
  rd_bpc : bytes_per_cluster fs' = bytes_per_cluster fs;
}.

(** The cluster buffer holds the cluster it claims. *)
Definition buffered fs : Prop := is_cluster M (cluster_num fs) /\ cluster_buf fs = data_of fs (cluster_num fs).

Lemma reading_refl fs : fs_ok M fs -> reading fs fs.
Proof. by split. Qed.

Lemma reading_trans fs1 fs2 fs3 : reading fs1 fs2 -> reading fs2 fs3 -> reading fs1 fs3.
Proof. intros [] []. split; congruence. Qed.

Lemma reading_fat fs fs' c : reading fs fs' -> fat_at fs' c = fat_at fs c.
Proof. intros H. unfold fat_at, fat_sector. by rewrite (rd_dev _ _ H), (rd_bpb _ _ H). Qed.

Lemma reading_data fs fs' c : reading fs fs' -> data_of fs' c = data_of fs c.
Proof. intros H. unfold data_of, data_sector, data_start. by rewrite (rd_dev _ _ H), (rd_bpb _ _ H). Qed.

Lemma chain_ext fat fat' c l : (forall x, fat' x = fat x) -> chain M fat c l -> chain M fat' c l.
Proof.
  intros E [Hl Hr He]. split; [|done|by rewrite E]. clear Hr He. revert c Hl.
  induction l as [|b l IH]; intros c Hl; cbn in *; [done|]. destruct Hl. split; [by rewrite E|auto].
Qed.

Lemma reading_chain fs fs' c l : reading fs fs' -> chain M (fat_at fs) c l -> chain M (fat_at fs') c l.
Proof. intros H. apply chain_ext. intros x. by apply reading_fat. Qed.

Lemma read_reading fs c : fs_ok M fs -> is_cluster M c ->
  let fs' := set_cluster_buf (data_of fs c) (set_cluster_num c fs) in reading fs fs' /\ buffered fs'.
Proof.
  intros H Hc. cbn zeta. split; [|by split]. split; try done. pose proof (length_data fs c H Hc).
  destruct H. by split.
Qed.

Lemma NextCluster_reading fs c : fs_ok M fs -> 0 <= c < M ->
  exists fs', NextCluster c fs = Some (fs', if decide (eoc_min <= fat_at fs c) then end_of_chain else fat_at fs c) /\
    reading fs fs' /\ cluster_num fs' = cluster_num fs /\ cluster_buf fs' = cluster_buf fs.
Proof.
  intros H Hc. destruct (NextCluster_spec M c fs H Hc) as (b & Hb & E). eexists; split; [exact E|].
  split; [|done]. split; try done. by apply set_fat_buf_ok.
Qed.

(** ** Listings *)

Definition entries fs (c : Z) : list (list Z) :=
  (fun i => slice (data_of fs c) (entry_size * i) entry_size) <$> seq 0 (num_entries fs).

Definition first_match (name : list Z) (es : list (list Z)) : option (list Z) :=
  List.find (fun e => NameIsEqual e name) es.

Lemma first_match_app name es1 es2 :
  first_match name (es1 ++ es2) =
  match first_match name es1 with Some e => Some e | None => first_match name es2 end.
Proof. unfold first_match. induction es1 as [|e es1 IH]; cbn; [done|]. by destruct (NameIsEqual e name). Qed.

Lemma scan_dir_spec n i elem fs :
  match scan_dir n i elem fs with
  | Some j => (i <= j < i + n)%nat /\
      first_match elem ((fun i => entry_at i fs) <$> seq i n) = Some (entry_at j fs)
  | None => first_match elem ((fun i => entry_at i fs) <$> seq i n) = None
  end.
Proof.
  revert i. induction n as [|n IH]; intros i; cbn [scan_dir seq fmap list_fmap]; [done|].
  unfold first_match. cbn [List.find]. destruct (NameIsEqual (entry_at i fs) elem) eqn:E; [split; [lia|done]|].
  specialize (IH (S i)). destruct (scan_dir n (S i) elem fs); [destruct IH; split; [lia|done]|done].
Qed.

Lemma buffered_entries fs : buffered fs -> (fun i => entry_at i fs) <$> seq 0 (num_entries fs) = entries fs (cluster_num fs).
Proof. intros [_ E]. unfold entries, entry_at. by rewrite E. Qed.

Lemma reading_entries fs fs' c : reading fs fs' -> entries fs' c = entries fs c.
Proof.
  intros H. unfold entries, num_entries. rewrite (reading_data fs fs') by done. by rewrite (rd_bpb _ _ H).
Qed.

Lemma find_cluster_spec fuel elem : forall l c fs,
  fs_ok M fs -> chain M (fat_at fs) c l -> (S (length l) < fuel)%nat ->
  exists fs' r, find_cluster fuel elem c fs = Some (fs', r) /\ reading fs fs' /\
    match r with
    | Some i => first_match elem (concat (entries fs <$> (c :: l))) = Some (entry_at i fs') /\
        (i < num_entries fs')%nat /\ buffered fs' /\ cluster_num fs' ∈ c :: l
    | None => first_match elem (concat (entries fs <$> (c :: l))) = None
    end.
Proof.
  induction fuel as [|fuel IH]; intros l c fs H Hch Hf; [lia|]. cbn [find_cluster].
  pose proof (ch_range _ _ _ _ Hch) as Hr. inversion Hr as [|? ? Hc Hr']; subst. pose proof (ok_M _ _ H) as HM.
  unfold eoc_min in HM. rewrite decide_False by (unfold is_cluster, end_of_chain in *; lia).
  rewrite ReadCluster_spec by done. cbn [mbind option_bind].
  destruct (read_reading fs c H Hc) as [Hrd Hbuf]. set (fs1 := set_cluster_buf _ _) in *.
  pose proof (buffered_entries fs1 Hbuf) as He. change (cluster_num fs1) with c in He.
  rewrite (reading_entries fs fs1 c Hrd) in He. pose proof (scan_dir_spec (num_entries fs1) 0 elem fs1) as Hscan.
  rewrite He in Hscan. cbn [fmap list_fmap concat]. rewrite first_match_app.
  destruct (scan_dir (num_entries fs1) 0 elem fs1) as [i|].
  - destruct Hscan as [Hi ->]. exists fs1, (Some i). split_and!; try done; [lia|by left].
  - rewrite Hscan. destruct (NextCluster_reading fs1 c) as (fs2 & -> & Hrd2 & _ & _); [apply Hrd|unfold is_cluster in Hc; lia|].
    cbn [mbind option_bind]. pose proof (reading_trans _ _ _ Hrd Hrd2) as Hrd02.
    rewrite (reading_fat fs fs1) by done. destruct l as [|d l].
    + pose proof (ch_end _ _ _ _ Hch) as Hend. cbn in Hend. rewrite decide_True by done.
      destruct fuel; [cbn in Hf; lia|]. cbn [find_cluster]. rewrite decide_True by done.
      exists fs2, None. by split_and!.
    + apply chain_cons in Hch as [-> Hch]. inversion Hr' as [|? ? Hd _]; subst.
      rewrite decide_False by (unfold is_cluster, eoc_min in *; lia).
      destruct (IH l d fs2) as (fs' & r & -> & Hrd' & Hm); [apply Hrd2|by apply (reading_chain fs)|cbn in Hf; lia|].
      exists fs', r. split; [done|]. split; [by eapply reading_trans|].
      assert (Hes : entries fs2 <$> (d :: l) = entries fs <$> (d :: l)).
      { apply list_fmap_ext. intros _ x _. by apply reading_entries. }
      rewrite Hes in Hm. destruct r as [i|]; [|done]. destruct Hm as (? & ? & ? & ?). split_and!; try done. by right.
Qed.

(** ** Paths *)

Definition listing fs (c : Z) (es : list (list Z)) : Prop :=
  exists l, chain M (fat_at fs) c l /\ es = concat (entries fs <$> (c :: l)).

(** A first cluster of 0 stands for the root directory. *)
Definition dir_start fs (c : Z) : Z := if decide (c = 0) then root_cluster (bpb fs) else c.

(** Resolution of the names [ns] from the directory at [c]: a missing name
    ends it, the last name gives its entry, a directory is entered; a name that
    is no directory ends it too, whatever names follow. *)
Inductive resolve fs : Z -> list (list Z) -> option (list Z) -> Prop :=
| res_none c es n ns : listing fs c es -> first_match n es = None -> resolve fs c (n :: ns) None
| res_here c es n ns e : listing fs c es -> first_match n es = Some e ->
    (ns = [] \/ attr e <> kDirectory) -> resolve fs c (n :: ns) (Some e)
| res_down c es n ns e r : listing fs c es -> first_match n es = Some e ->
    ns <> [] -> attr e = kDirectory -> resolve fs (dir_start fs (FirstCluster e)) ns r ->
    resolve fs c (n :: ns) r.

Definition name_ok (n : list Z) : Prop :=
  n <> [] /\ Forall (fun c => c <> char_slash) n /\ (length n <= 12)%nat.

Fixpoint path_of (ns : list (list Z)) : list Z :=
  match ns with
  | [] => []
  | [n] => n
  | n :: ns' => n ++ char_slash :: path_of ns'
  end.

Lemma split_slash_end n : Forall (fun c => c <> char_slash) n -> split_slash n = (n, None).
Proof. induction 1 as [|c n Hc _ IH]; cbn; [done|]. by rewrite decide_False, IH. Qed.

Lemma split_slash_next n rest :
  Forall (fun c => c <> char_slash) n -> split_slash (n ++ char_slash :: rest) = (n, Some rest).
Proof. induction 1 as [|c n Hc _ IH]; cbn; [done|]. by rewrite decide_False, IH. Qed.

Lemma NextPathElement_spec n ns : name_ok n ->
  NextPathElement (path_of (n :: ns)) =
    Some (n, match ns with [] => None | _ => Some (path_of ns) end, match ns with [] => false | _ => true end).
Proof.
  intros (_ & Hs & Hl). unfold NextPathElement.
  assert (split_slash (path_of (n :: ns)) = (n, match ns with [] => None | _ => Some (path_of ns) end)) as ->.
  { destruct ns; cbn [path_of]; [by apply split_slash_end|by apply split_slash_next]. }
  unfold strcpy. rewrite write_at_Some; [by destruct ns|].
  rewrite length_c_chars, length_replicate. lia.
Qed.

Lemma path_of_nonempty n ns : name_ok n -> path_of (n :: ns) <> [].
Proof. intros (Hn & _). destruct ns; cbn; [done|]. by destruct n. Qed.

Lemma path_of_head n ns : name_ok n -> exists c p, path_of (n :: ns) = c :: p /\ c <> char_slash.
Proof.
  intros (Hn & Hs & _). destruct n as [|c n]; [done|]. inversion Hs; subst.
  destruct ns; cbn; eexists _, _; split; done.
Qed.

Lemma path_of_length ns : Forall name_ok ns -> (length ns <= length (path_of ns))%nat.
Proof.
  induction 1 as [|n ns Hn _ IH]; [done|]. destruct Hn as (Hne & _). destruct n; [done|].
  destruct ns; cbn [path_of length] in *; [lia|]. rewrite length_app. cbn [length]. lia.
Qed.

Lemma reading_listing fs fs' c es : reading fs fs' -> listing fs c es -> listing fs' c es.
Proof.
  intros H (l & Hl & ->). exists l. split; [by apply (reading_chain fs)|]. f_equal. apply list_fmap_ext.
  intros _ x _. symmetry. by apply reading_entries.
Qed.

Lemma reading_resolve fs fs' c ns r : reading fs fs' -> resolve fs c ns r -> resolve fs' c ns r.
Proof.
  intros H. assert (Hd : forall x, dir_start fs' x = dir_start fs x)
    by (intros x; unfold dir_start; by rewrite (rd_bpb _ _ H)).
  induction 1 as [c es n ns Hl Hm|c es n ns e Hl Hm Ha|c es n ns e r Hl Hm Hn Ha _ IH].
  - eapply res_none; [by eapply reading_listing|done].
  - eapply res_here; [by eapply reading_listing|done|done].
  - eapply res_down; [by eapply reading_listing|done|done|done|]. by rewrite Hd.
Qed.

Lemma resolve_inv fs c n ns r :
  resolve fs c (n :: ns) r ->
  exists es, listing fs c es /\
    match first_match n es with
    | None => r = None
    | Some e => if decide (ns <> [] /\ attr e = kDirectory) then resolve fs (dir_start fs (FirstCluster e)) ns r
                else r = Some e
    end.
Proof.
  intros H. remember (n :: ns) as l eqn:E.
  destruct H as [c es n' ns' Hl Hm|c es n' ns' e Hl Hm Ha|c es n' ns' e r Hl Hm Hne Ha Hr];
    injection E as -> ->; exists es; (split; [done|]); rewrite Hm; [done| |].
  - rewrite decide_False; [done|]. intros [? ?]. by destruct Ha.
  - by rewrite decide_True.
Qed.

(** What a search leaves: the entry the pointer designates, in the buffer. *)
Definition found fs' (i : option nat) (r : option (list Z)) : Prop :=
  match r, i with
  | Some e, Some i => entry_at i fs' = e /\ (i < num_entries fs')%nat /\ buffered fs'
  | None, None => True
  | _, _ => False
  end.

Context (fuel : nat).

Lemma find_in_listing fs c es n :
  fs_ok M fs -> listing fs c es -> (Z.to_nat M <= fuel)%nat ->
  exists fs' i, find_cluster fuel n c fs = Some (fs', i) /\ reading fs fs' /\ found fs' i (first_match n es).
Proof.
  intros H (l & Hl & ->) Hf. pose proof (ok_M _ _ H) as HM.
  pose proof (chain_length _ _ (proj2 HM) _ _ Hl).
  destruct (find_cluster_spec fuel n l c fs H Hl) as (fs' & r & E & Hrd & Hm); [lia|].
  exists fs', r. split; [done|]. split; [done|]. destruct r as [i|]; [destruct Hm as (-> & ? & ? & _)|rewrite Hm]; done.
Qed.

Lemma FindFile_rec_spec ns : forall depth c r fs,
  fs_ok M fs -> Forall name_ok ns -> resolve fs (dir_start fs c) ns r -> (length ns <= depth)%nat ->
  (Z.to_nat M <= fuel)%nat ->
  exists fs' i post, FindFile_rec fuel depth (path_of ns) c fs = Some (fs', i, post) /\
    reading fs fs' /\ found fs' i r.
Proof.
  induction ns as [|n ns IH]; intros depth c r fs H Hok Hres Hd Hf; [inversion Hres|].
  inversion Hok as [|? ? Hn Hok']; subst. destruct depth as [|depth]; [cbn in Hd; lia|]. cbn [FindFile_rec].
  destruct (path_of_head n ns Hn) as (x & p & Hp & Hx). rewrite Hp, decide_False by done. rewrite <- Hp.
  fold (dir_start fs c). rewrite NextPathElement_spec by done. cbn [mbind option_bind].
  destruct (resolve_inv _ _ _ _ _ Hres) as (es & Hl & Hr).
  destruct (find_in_listing fs (dir_start fs c) es n H Hl Hf) as (fs1 & i & -> & Hrd & Hfound).
  cbn [mbind option_bind]. destruct (first_match n es) as [e|]; destruct i as [i|]; try done.
  2: { subst r. by eexists fs1, None, _. }
  destruct Hfound as (He & Hi & Hb). rewrite He. case_decide as Hdown.
  - destruct Hdown as [Hne Ha]. rewrite (bool_decide_true _ Ha). destruct ns as [|n' ns]; [done|].
    pose proof (Forall_inv Hok') as Hn'. destruct (path_of_head n' ns Hn') as (x' & p' & Hp' & _).
    rewrite Hp'. cbn [andb negb default]. rewrite <- Hp'.
    destruct (IH depth (FirstCluster e) r fs1) as (fs' & j & post & E & Hrd' & Hfound); try done.
    + apply Hrd.
    + unfold dir_start. rewrite (rd_bpb _ _ Hrd). fold (dir_start fs (FirstCluster e)).
      by apply (reading_resolve fs).
    + cbn in *. lia.
    + exists fs', j, post. split; [exact E|]. split; [by eapply reading_trans|done].
  - subst r. destruct (bool_decide_reflect (attr e = kDirectory)) as [Ha|Ha];
      [|by eexists fs1, (Some i), _].
    destruct ns; [by eexists fs1, (Some i), _|]. exfalso. by apply Hdown.
Qed.

(** [FindFile] as a whole: the leading slash. *)
Lemma FindFile_spec (absolute : bool) ns c r fs :
  fs_ok M fs -> Forall name_ok ns ->
  resolve fs (if absolute then root_cluster (bpb fs) else dir_start fs c) ns r ->
  (Z.to_nat M <= fuel)%nat ->
  exists fs' i post,
    FindFile fuel ((if absolute then [char_slash] else []) ++ path_of ns) c fs = Some (fs', i, post) /\
    reading fs fs' /\ found fs' i r.
Proof.
  intros H Hok Hres Hf. pose proof (path_of_length ns Hok) as Hlen. unfold FindFile. destruct absolute.
  - cbn [app]. cbn [length]. assert (Hns : ns <> []) by (intros ->; inversion Hres).
    destruct ns as [|n ns]; [done|]. inversion Hok as [|? ? Hn _]; subst.
    destruct (FindFile_rec_spec (n :: ns) (S (S (length (path_of (n :: ns))))) (root_cluster (bpb fs)) r fs)
      as (fs' & i & post & E & Hr & Hfd); try (done || lia).
    { unfold dir_start. by case_decide. }
    exists fs', i, post. split; [|done]. rewrite <- E. cbn [FindFile_rec].
    destruct (path_of_head n ns Hn) as (x & p & Hp & Hx). rewrite decide_True by done.
    rewrite Hp, (decide_False (P := x = char_slash)) by done. rewrite <- Hp.
    assert ((if decide (root_cluster (bpb fs) = 0) then root_cluster (bpb fs) else root_cluster (bpb fs)) =
      root_cluster (bpb fs)) as -> by (by case_decide). done.
  - cbn [app]. destruct (FindFile_rec_spec ns (S (length (path_of ns))) c r fs) as (fs' & i & post & E & Hr & Hfd);
      try (done || lia). by exists fs', i, post.
Qed.

(** C14. [FindFile] resolves paths: for a path of names without empty ones, with
    a leading slash or not, it always returns, reads the volume only, and finds
    the entry that walking the directory listings name by name leads to (from the root, or the
    directory given, cluster 0 meaning the root), in the cluster buffer under
    the pointer it returns; or none when a name is missing on the way. *)
Theorem FindFile_resolves (absolute : bool) ns c r fs :
  fs_ok M fs -> Forall name_ok ns ->
  resolve fs (if absolute then root_cluster (bpb fs) else dir_start fs c) ns r ->
  (Z.to_nat M <= fuel)%nat ->
  exists fs' i post,
    FindFile fuel ((if absolute then [char_slash] else []) ++ path_of ns) c fs = Some (fs', i, post) /\
    reading fs fs' /\ found fs' i r.
Proof. apply FindFile_spec. Qed.
End dir.

(** "/SUB/a.txt" on the sample volume. *)
Lemma FindFile_resolves_witness :
  exists fs' i post, FindFile 10 (char_slash :: path_of [[83; 85; 66]; [97; 46; 116; 120; 116]]) 0 sample_fs =
    Some (fs', Some i, post) /\ entry_at i fs' = make_entry a_txt 32 7 5.
Proof.
  assert (Hroot : chain 10 (fat_at sample_fs) 2 []) by
    (split; [vm_compute; repeat split|repeat constructor; done|vm_compute; congruence]).
  assert (Hsub : chain 10 (fat_at sample_fs) 6 []) by
    (split; [vm_compute; repeat split|repeat constructor; done|vm_compute; congruence]).
  destruct (FindFile_resolves 10 10 true [[83; 85; 66]; [97; 46; 116; 120; 116]] 0
    (Some (make_entry a_txt 32 7 5)) sample_fs) as (fs' & i & post & E & _ & Hf).
  - apply sample_fs_ok.
  - repeat constructor; done || (cbn; lia).
  - eapply (res_down 10 sample_fs 2 _ _ _ (make_entry sub_dir 16 6 0)); [exists []; split; [exact Hroot|reflexivity]|reflexivity|done|reflexivity|].
    eapply res_here; [exists []; split; [exact Hsub|reflexivity]|reflexivity|by left].
  - cbn. lia.
  - destruct i as [i|]; [|destruct Hf]. exists fs', i, post. split; [exact E|apply Hf].
Defined.
