(* ===== verification/FsServer.v ===== *)
(** * The file system server (servers/fs/serverstate.cpp)

    The server is a state machine: each turn receives, handles and answers in
    the state the previous call returned. The messages delivered to it are
    [inbox]; what it does to other tasks is the trace [out]. *)

From S2P Require Import Prelude Bytes Message KernelLog Fat.
From stdpp Require Import base list numbers option.
From Stdlib Require Import ZArith Lia.

Local Open Scope Z_scope.

(** [src/servers/fs/serverstate.hpp:5-14] [State] *)
Inductive State :=
| StateErr | StateInit | StateExecFile | StateExpandBuffer | StateCopyToBuffer | StateOpen
| StateRead | StateWrite.

(** newlib's <errno.h> and <fcntl.h>. *)
Definition ENOTDIR : Z := 20.
Definition O_CREAT : Z := 0x200.

(** The system calls with an effect outside the server. *)
Inductive action :=
| Send (m : Message) (to : Z)
| CopyToBuffer (id : Z) (data : list Z) (offset : Z).

Definition root_path : list Z := [char_slash].
(** "apps". *)
Definition apps_path : list Z := [97; 112; 112; 115].

Section server.
Context {D : Type} `{!BlockDevice D} (fuel : nat).

(** [src/servers/fs/fs.hpp:87-102] [FileSystemServer] *)
Record Server := MkServer {
  fs : @FileSystem D;
  am_id : Z;
  state : State;
  sm : Message;
  rm : Message;
  target_entry : option nat;
  target_id : Z;
  inbox : list Message;
  out : list action;
}.

Definition set_fs v s := MkServer v (am_id s) (state s) (sm s) (rm s) (target_entry s) (target_id s) (inbox s) (out s).
Definition set_state v s := MkServer (fs s) (am_id s) v (sm s) (rm s) (target_entry s) (target_id s) (inbox s) (out s).
Definition set_sm v s := MkServer (fs s) (am_id s) (state s) v (rm s) (target_entry s) (target_id s) (inbox s) (out s).
Definition set_target v s := MkServer (fs s) (am_id s) (state s) (sm s) (rm s) v (target_id s) (inbox s) (out s).
Definition set_target_id v s := MkServer (fs s) (am_id s) (state s) (sm s) (rm s) (target_entry s) v (inbox s) (out s).
Definition received m i s := MkServer (fs s) (am_id s) (state s) (sm s) m (target_entry s) (target_id s) i (out s).
Definition act a s := MkServer (fs s) (am_id s) (state s) (sm s) (rm s) (target_entry s) (target_id s) (inbox s) (out s ++ [a]).

Definition send_am s := act (Send (sm s) (am_id s)) s.

(** The entry [target_entry_] points at; no entry for a null pointer. *)
Definition target (s : Server) : option (list Z) := i ← target_entry s; Some (entry_at i (fs s)).

(** [None]: waiting for a message. *)
Definition received_state : Type := option Server.

(** [src/servers/fs/serverstate.cpp:18-54] [InitState::ReceiveMessage] *)
Fixpoint InitState_ReceiveMessage (msgs : list Message) (s : Server) : received_state :=
  match msgs with
  | [] => None
  | m :: msgs' =>
      let s := received m msgs' s in
      match type m with
      | kError => if decide (getI error_retry m <> 0) then InitState_ReceiveMessage msgs' (send_am s)
                  else Some (set_state StateErr s)
      | kExecuteFile => Some (set_state StateExecFile s)
      | kOpen | kOpenDir => Some (set_state StateOpen s)
      | kRead => Some (set_state StateRead s)
      | kWrite => Some (set_state StateWrite s)
      | _ => InitState_ReceiveMessage msgs' s
      end
  end.

(** [src/servers/fs/serverstate.cpp:109-131] [ExecFileState::ReceiveMessage] *)
Fixpoint ExecFileState_ReceiveMessage (msgs : list Message) (s : Server) : received_state :=
  match msgs with
  | [] => None
  | m :: msgs' =>
      let s := received m msgs' s in
      match type m with
      | kError => if decide (getI error_retry m <> 0) then ExecFileState_ReceiveMessage msgs' (send_am s)
                  else Some (set_state StateErr s)
      | kExecuteFile => Some (set_state StateExpandBuffer s)
      | _ => Some (set_state StateErr s)
      end
  end.

(** The messages are those of task 1, the kernel's main task.
    [src/servers/fs/serverstate.cpp:146-168] [ExpandBufferState::ReceiveMessage] *)
Fixpoint ExpandBufferState_ReceiveMessage (msgs : list Message) (s : Server) : received_state :=
  match msgs with
  | [] => None
  | m :: msgs' =>
      let s := received m msgs' s in
      match type m with
      | kError => if decide (getI error_retry m <> 0)
                  then ExpandBufferState_ReceiveMessage msgs' (act (Send (sm s) 1) s)
                  else Some (set_state StateErr s)
      | kExpandTaskBuffer => Some (set_state StateCopyToBuffer s)
      | _ => Some (set_state StateErr s)
      end
  end.

(** [src/servers/fs/serverstate.hpp:21-118] [ServerState::ReceiveMessage] *)
Definition ReceiveMessage (s : Server) : received_state :=
  match state s with
  | StateInit => InitState_ReceiveMessage (inbox s) s
  | StateExecFile => ExecFileState_ReceiveMessage (inbox s) s
  | StateExpandBuffer => ExpandBufferState_ReceiveMessage (inbox s) s
  | StateErr | StateCopyToBuffer | StateOpen | StateRead | StateWrite => Some s
  end.

(** [sm_] becomes an error that is not to be retried. *)
Definition fail (err : Z) (s : Server) : Server :=
  set_sm (setF error_err err (setF error_retry 0 (set_type kError (sm s)))) s.

(** [src/servers/fs/serverstate.cpp:61-102] [ExecFileState::HandleMessage] *)
Definition ExecFileState_HandleMessage (s : Server) : option Server :=
  path ← getS executefile_filename (rm s);
  '(fs1, file_entry, _) ← FindFile fuel path 0 (fs s);
  let s := set_fs fs1 s in
  let ready i s :=
    set_target (Some i) (set_sm (setF executefile_isdirectory 0 (setF executefile_exist 1
      (set_type kExecuteFile (sm s)))) s) in
  match file_entry with
  | None =>
      '(fs2, apps, _) ← FindFile fuel apps_path 0 fs1;
      dir ← apps;
      '(fs3, command, _) ← FindFile fuel path (FirstCluster (entry_at dir fs2)) fs2;
      let s := set_fs fs3 s in
      Some (match command with
            | Some i => ready i s
            | None => set_state StateInit (fail ENOENT s)
            end)
  | Some i =>
      Some (if decide (attr (entry_at i fs1) = kDirectory) then set_state StateInit (fail EISDIR s)
            else ready i s)
  end.

(** [src/servers/fs/serverstate.cpp:133-139] [ExpandBufferState::HandleMessage] *)
Definition ExpandBufferState_HandleMessage (s : Server) : option Server :=
  let s := set_target_id (getU executefile_id (rm s)) s in
  e ← target s;
  Some (set_sm (setF expand_bytes (file_size e) (setF expand_id (target_id s)
    (set_type kExpandTaskBuffer (sm s)))) s).

(** [offset] is an [int]; the lengths are 64-bit.
    [src/servers/fs/serverstate.cpp:176-190] [CopyToBufferState::HandleMessage] *)
Fixpoint copy_loop (turns : nat) (cluster remain_bytes offset : Z) (s : Server) : option Server :=
  match turns with
  | O => None
  | S turns' =>
      if decide (cluster <> 0 /\ cluster <> end_of_chain) then
        fs1 ← ReadCluster cluster (fs s);
        let bpc := bytes_per_cluster fs1 in
        if decide (bpc <= remain_bytes) then
          data ← read_at (cluster_buf fs1) 0 (Z.to_nat bpc);
          '(fs2, next) ← NextCluster cluster fs1;
          copy_loop turns' next (remain_bytes - bpc) (s32 (offset + bpc))
            (act (CopyToBuffer (target_id s) data (u64 offset)) (set_fs fs2 s))
        else
          data ← read_at (cluster_buf fs1) 0 (Z.to_nat remain_bytes);
          '(fs2, next) ← NextCluster cluster fs1;
          copy_loop turns' next remain_bytes offset
            (act (CopyToBuffer (target_id s) data (u64 offset)) (set_fs fs2 s))
      else Some s
  end.

(** [src/servers/fs/serverstate.cpp:170-193] [CopyToBufferState::HandleMessage] *)
Definition CopyToBufferState_HandleMessage (s : Server) : option Server :=
  e ← target s;
  s' ← copy_loop fuel (FirstCluster e) (file_size e) 0 s;
  Some (set_sm (set_type kReady (sm s')) s').

(** The answer to a successful [kOpen] or [kOpenDir]: the name is copied. *)
Definition opened (t : MsgType) (name_off : nat) (exist isdirectory : field) (dir : Z) (s : Server) : option Server :=
  name ← getS name_off (rm s);
  m ← putS name_off name (set_type t (sm s));
  Some (set_sm (setF isdirectory dir (setF exist 1 m)) s).

(** [src/servers/fs/serverstate.cpp:204-248] [OpenState::HandleMessage] *)
Definition OpenState_file (s : Server) : option Server :=
  path ← getS open_filename (rm s);
  '(fs1, file_entry, _) ← FindFile fuel path 0 (fs s);
  let s := set_fs fs1 s in
  match file_entry with
  | None =>
      if decide (Z.land (getU open_flags (rm s)) O_CREAT = 0) then Some (fail ENOENT s)
      else
        '(fs2, r) ← CreateFile fuel path fs1;
        let s := set_fs fs2 s in
        match r with
        | inr err => Some (fail err s)
        | inl _ => opened kOpen open_filename open_exist open_isdirectory 0 s
        end
  | Some i =>
      if decide (attr (entry_at i fs1) = kDirectory) then Some (fail EISDIR s)
      else opened kOpen open_filename open_exist open_isdirectory 0 s
  end.

(** [src/servers/fs/serverstate.cpp:250-286] [OpenState::HandleMessage] *)
Definition OpenState_dir (s : Server) : option Server :=
  path ← getS opendir_dirname (rm s);
  if decide (path = root_path) then opened kOpenDir opendir_dirname opendir_exist opendir_isdirectory 1 s
  else
    '(fs1, file_entry, _) ← FindFile fuel path 0 (fs s);
    let s := set_fs fs1 s in
    match file_entry with
    | None => Some (fail ENOENT s)
    | Some i =>
        if decide (attr (entry_at i fs1) = kDirectory)
        then opened kOpenDir opendir_dirname opendir_exist opendir_isdirectory 1 s
        else Some (fail ENOTDIR s)
    end.

(** Other message types do not lead to this state.
    [src/servers/fs/serverstate.cpp:200-291] [OpenState::HandleMessage] *)
Definition OpenState_HandleMessage (s : Server) : option Server :=
  s' ← match type (rm s) with
       | kOpen => OpenState_file s
       | kOpenDir => OpenState_dir s
       | _ => None
       end;
  Some (set_state StateInit s').

(** ** Reading *)

(** [for (int i = 0; i < read_cluster; ++i) cluster = NextCluster(cluster);] *)
Fixpoint skip_clusters (n : nat) (cluster : Z) (f : @FileSystem D) : option (@FileSystem D * Z) :=
  match n with
  | O => Some (f, cluster)
  | S n' => '(f1, next) ← NextCluster cluster f; skip_clusters n' next f1
  end.

(** The loop over the entries of the cluster read; a position outside it is
    undefined behaviour. The result is the position after the entry found and its
    name, or nothing at the end of the directory.
    [src/servers/fs/serverstate.cpp:317-339] [ReadState::HandleMessage] *)
Fixpoint read_entry (turns : nat) (entry_index : nat) (f : @FileSystem D) : option (option (nat * list Z)) :=
  match turns with
  | O => None
  | S turns' =>
      if decide (entry_size * entry_index + entry_size <= length (cluster_buf f))%nat then
        let e := entry_at entry_index f in
        let '(name, _) := ReadName e in
        c ← head name;
        if decide (c = 0) then Some None
        else if decide (c = 0xe5 \/ attr e = kLongName) then read_entry turns' (S entry_index) f
        else Some (Some (S entry_index, name))
      else None
  end.

(** The listing of one entry, for the root directory and the others.
    [src/servers/fs/serverstate.cpp:297-340] [ReadState::HandleMessage] *)
Definition read_directory (first : Z) (s : Server) : option Server :=
  let read_cluster := getU read_cluster (rm s) in
  '(fs1, cluster) ← skip_clusters (Z.to_nat read_cluster) first (fs s);
  let s := set_fs fs1 s in
  let entry_index := getU read_offset (rm s) in
  let per := bytes_per_sector (bpb fs1) * sectors_per_cluster (bpb fs1) / 32 in
  if decide (per = 0) then None
  else
    let '(read_cluster, entry_index) :=
      if decide (per <= entry_index) then (entry_index / per, entry_index mod per)
      else (read_cluster, entry_index) in
    if decide (cluster <> 0 /\ cluster <> end_of_chain) then
      fs2 ← ReadCluster cluster fs1;
      let s := set_fs fs2 s in
      r ← read_entry (S (length (cluster_buf fs2))) (Z.to_nat entry_index) fs2;
      match r with
      | None => Some s
      | Some (i, name) =>
          m ← putB read_data name (set_type kRead (sm s));
          Some (send_am (set_sm (setF Message.read_cluster read_cluster
            (setF read_len (u8 (Z.of_nat i + per * read_cluster - getU read_offset (rm s))) m)) s))
      end
    else Some s.

(** The variables of the loops that send a file: the position [p] in the cluster, the
    bytes passed and sent, the bytes waiting in [sm_]. *)
Record ReadVars := MkReadVars {
  rv_p : nat; rv_total : Z; rv_sent : Z; rv_off : nat; rv_sm : Message; rv_out : list action;
}.

(** [src/servers/fs/serverstate.cpp:417-427] [ReadState::HandleMessage] *)
Definition read_byte (am : Z) (buf : list Z) (v : ReadVars) : option ReadVars :=
  b ← buf !! rv_p v;
  m ← putB (read_data + rv_off v) [b] (rv_sm v);
  if decide (S (rv_off v) = data_size) then
    let m := setF read_len (Z.of_nat data_size) (set_type kRead m) in
    Some (MkReadVars (S (rv_p v)) (rv_total v) (rv_sent v + 1) 0 m (rv_out v ++ [Send m am]))
  else Some (MkReadVars (S (rv_p v)) (rv_total v) (rv_sent v + 1) (S (rv_off v)) m (rv_out v)).

(** [n] is [bytes_per_cluster_ - i]; the result has the final [i].
    [src/servers/fs/serverstate.cpp:413-430] [ReadState::HandleMessage] *)
Fixpoint read_inner (am : Z) (buf : list Z) (remain_bytes count read_offset : Z) (n : nat) (i : Z)
    (v : ReadVars) : option (ReadVars * Z) :=
  match n with
  | O => Some (v, i)
  | S n' =>
      if decide (i < remain_bytes /\ rv_sent v < count) then
        v' ← (if decide (read_offset <= rv_total v) then read_byte am buf v else Some v);
        read_inner am buf remain_bytes count read_offset n' (i + 1)
          (MkReadVars (rv_p v') (rv_total v' + 1) (rv_sent v') (rv_off v') (rv_sm v') (rv_out v'))
      else Some (v, i)
  end.

(** [src/servers/fs/serverstate.cpp:408-433] [ReadState::HandleMessage] *)
Fixpoint read_loop (turns : nat) (am count read_offset : Z) (cluster remain_bytes : Z) (v : ReadVars)
    (f : @FileSystem D) : option (@FileSystem D * ReadVars) :=
  match turns with
  | O => None
  | S turns' =>
      if decide (cluster <> 0 /\ cluster <> end_of_chain /\ rv_sent v < count) then
        f1 ← ReadCluster cluster f;
        '(v1, i) ← read_inner am (cluster_buf f1) remain_bytes count read_offset
                     (Z.to_nat (bytes_per_cluster f1)) 0
                     (MkReadVars 0 (rv_total v) (rv_sent v) (rv_off v) (rv_sm v) (rv_out v));
        '(f2, next) ← NextCluster cluster f1;
        read_loop turns' am count read_offset next (u32 (remain_bytes - i)) v1 f2
      else Some (f, v)
  end.

(** [src/servers/fs/serverstate.cpp:396-441] [ReadState::HandleMessage] *)
Definition read_file (e : list Z) (s : Server) : option Server :=
  let count := getU read_count (rm s) in
  let read_offset := getU read_offset (rm s) in
  '(fs1, v) ← read_loop fuel (am_id s) count read_offset (FirstCluster e) (file_size e)
                (MkReadVars 0 0 0 0 (sm s) (out s)) (fs s);
  let s' := MkServer fs1 (am_id s) (state s) (rv_sm v) (rm s) (target_entry s) (target_id s) (inbox s) (rv_out v) in
  Some (if decide (rv_off v <> 0%nat) then
    send_am (set_sm (setF read_len (Z.of_nat (rv_off v)) (set_type kRead (sm s'))) s')
  else s').

(** [src/servers/fs/serverstate.cpp:293-450] [ReadState::HandleMessage] *)
Definition ReadState_HandleMessage (s : Server) : option Server :=
  path ← getS read_filename (rm s);
  s' ← (if decide (path = root_path) then read_directory (root_cluster (bpb (fs s))) s
        else
          '(fs1, file_entry, _) ← FindFile fuel path 0 (fs s);
          i ← file_entry;
          let e := entry_at i fs1 in
          let s := set_target (Some i) (set_fs fs1 s) in
          if decide (attr e = kDirectory) then read_directory (FirstCluster e) s else read_file e s);
  Some (set_state StateInit (set_sm (setF read_len 0 (set_type kRead (sm s'))) s')).

(** ** Writing *)

(** The next cluster, a new one at the end of the chain.
    [src/servers/fs/serverstate.cpp:485-490] [WriteState::HandleMessage] *)
Definition next_or_extend (cluster : Z) (f : @FileSystem D) : option (@FileSystem D * Z) :=
  '(f1, next_cluster) ← NextCluster cluster f;
  if decide (next_cluster = end_of_chain) then ExtendCluster fuel cluster 1 f1
  else Some (f1, next_cluster).

(** [src/servers/fs/serverstate.cpp:484-491] [WriteState::HandleMessage] *)
Fixpoint seek_clusters (n : nat) (cluster : Z) (f : @FileSystem D) : option (@FileSystem D * Z) :=
  match n with
  | O => Some (f, cluster)
  | S n' => '(f1, c1) ← next_or_extend cluster f; seek_clusters n' c1 f1
  end.

(** [data] is the message's [arg] block: a copy of more than what is left of
    the data continues in the fields behind it.
    [src/servers/fs/serverstate.cpp:493-512] [WriteState::HandleMessage] *)
Fixpoint write_loop (turns : nat) (arg : list Z) (len data_off write_off cluster : Z) (f : @FileSystem D) :
    option (@FileSystem D) :=
  match turns with
  | O => None
  | S turns' =>
      if decide (data_off < len) then
        '(f1, cluster, write_off) ←
          (if decide (write_off = bytes_per_cluster f) then
             '(f1, c1) ← next_or_extend cluster f; Some (f1, c1, 0)
           else Some (f, cluster, write_off));
        f2 ← ReadCluster cluster f1;
        let n := Z.min len (bytes_per_cluster f2 - write_off) in
        data ← read_at arg (write_data + Z.to_nat data_off) (Z.to_nat n);
        b ← write_at (cluster_buf f2) (Z.to_nat write_off) data;
        f3 ← UpdateCluster cluster (set_cluster_buf b f2);
        write_loop turns' arg len (data_off + n) (write_off + n) cluster f3
      else Some f
  end.

(** The cluster the file starts at, allocated when it has none.
    [src/servers/fs/serverstate.cpp:460-468] [WriteState::HandleMessage] *)
Definition first_cluster (num_cluster : Z) (i : nat) (f : @FileSystem D) : option (@FileSystem D * Z) :=
  let c := FirstCluster (entry_at i f) in
  if decide (c <> 0) then Some (f, c)
  else
    '(f1, cluster) ← AllocateClusterChain fuel num_cluster f;
    f2 ← set_entry i cluster_low_off (le_bytes 2 (Z.land cluster 0xffff)) f1;
    f3 ← set_entry i cluster_high_off (le_bytes 2 (Z.land (Z.shiftr cluster 16) 0xffff)) f2;
    f4 ← UpdateCluster 0 f3;
    Some (f4, cluster).

(** A turn of the write loop handles at least a byte.
    [src/servers/fs/serverstate.cpp:452-515] [WriteState::HandleMessage] *)
Definition WriteState_HandleMessage (s : Server) : option Server :=
  path ← getS write_filename (rm s);
  let bpc := bytes_per_cluster (fs s) in
  if decide (bpc = 0) then None
  else
    let num_cluster := (getU write_count (rm s) + bpc - 1) / bpc in
    '(fs1, file_entry, _) ← FindFile fuel path 0 (fs s);
    i ← file_entry;
    '(fs2, cluster) ← first_cluster num_cluster i fs1;
    let s := set_target (Some i) s in
    let len := getU write_len (rm s) in
    let offset := getU write_offset (rm s) in
    if decide (len = 0) then
      fs3 ← set_entry i size_off (le_bytes 4 offset) fs2;
      fs4 ← UpdateCluster 0 fs3;
      Some (set_state StateWrite (set_fs fs4 s))
    else
      '(fs3, cluster) ← seek_clusters (Z.to_nat (offset / bpc)) cluster fs2;
      fs4 ← write_loop (S (Z.to_nat len)) (arg (rm s)) len 0 (offset mod bpc) cluster fs3;
      Some (set_state StateWrite (set_fs fs4 s)).

(** ** The turn of the server *)

(** [src/servers/fs/serverstate.hpp:21-118] [ServerState::HandleMessage] *)
Definition HandleMessage (s : Server) : option Server :=
  match state s with
  | StateErr | StateInit => Some s
  | StateExecFile => ExecFileState_HandleMessage s
  | StateExpandBuffer => ExpandBufferState_HandleMessage s
  | StateCopyToBuffer => CopyToBufferState_HandleMessage s
  | StateOpen => OpenState_HandleMessage s
  | StateRead => ReadState_HandleMessage s
  | StateWrite => WriteState_HandleMessage s
  end.

(** [src/servers/fs/serverstate.cpp:14-16] [ServerState::SendMessage] *)
Definition SendMessage (s : Server) : Server :=
  match state s with
  | StateErr | StateWrite => set_state StateInit s
  | StateInit | StateExecFile => send_am s
  | StateExpandBuffer => act (Send (sm s) 1) s
  | StateCopyToBuffer => set_state StateInit (send_am s)
  | StateOpen | StateRead => s
  end.

(** One turn of the main loop; the server itself while it waits.
    [src/servers/fs/fs.cpp:19-23] [main] *)
Definition turn (s : Server) : option Server :=
  match ReceiveMessage s with
  | None => Some s
  | Some s1 => s2 ← HandleMessage s1; Some (SendMessage s2)
  end.
End server.
