(* ===== verification/FsExec.v ===== *)
(** * Loading a program (CopyToBufferState)

    What the system calls of the file system server leave in the buffer of the
    task that is to run a file. *)

From S2P Require Import Prelude Bytes Message Task KernelLog Fat FatChain FatSample FatDir FsServer.
From stdpp Require Import base list numbers option.
From Stdlib Require Import ZArith Lia.

Local Open Scope Z_scope.

Section exec.
Context {D : Type} `{!BlockDevice D} (M : Z) (fuel : nat).
Implicit Types f : @FileSystem D.

(** The bytes of the clusters of a chain in order. *)
Definition content f (cs : list Z) : list Z := concat (data_of f <$> cs).

(** The system calls for the clusters [cs] when [remain] bytes are left and
    [off] were copied. *)
Fixpoint copies f (id : Z) (cs : list Z) (remain off : Z) : list action :=
  match cs with
  | [] => []
  | c :: cs' =>
      if decide (bytes_per_cluster f <= remain)
      then CopyToBuffer id (data_of f c) off :: copies f id cs' (remain - bytes_per_cluster f) (off + bytes_per_cluster f)
      else CopyToBuffer id (take (Z.to_nat remain) (data_of f c)) off :: copies f id cs' remain off
  end.

(** The server after it read the volume and made system calls. *)
Record ran (s s' : @Server D) (acts : list action) : Prop := {
  rn_fs : reading M (fs s) (fs s');
  rn_out : out s' = out s ++ acts;
  rn_id : target_id s' = target_id s;
  rn_rest : am_id s' = am_id s /\ state s' = state s /\ sm s' = sm s /\ rm s' = rm s /\
    target_entry s' = target_entry s /\ inbox s' = inbox s;
}.

Lemma ran_trans s1 s2 s3 a b : ran s1 s2 a -> ran s2 s3 b -> ran s1 s3 (a ++ b).
Proof.
  intros [] []. split; [by eapply reading_trans|by rewrite rn_out1, rn_out0, <- app_assoc|congruence|].
  intuition congruence.
Qed.

Lemma reading_copies f f' id cs : reading M f f' -> forall remain off, copies f' id cs remain off = copies f id cs remain off.
Proof.
  intros H. induction cs as [|c cs IH]; intros remain off; cbn; [done|].
  rewrite (rd_bpc _ _ _ H), (reading_data M f f') by done. by rewrite !IH.
Qed.

(** One turn of the loop on cluster [c]. *)
Lemma exec_turn turns c remain off s f2 next data remain' off' :
  fs_ok M (fs s) -> is_cluster M c -> 0 <= remain -> 0 <= off < 2 ^ 31 ->
  NextCluster c (set_cluster_buf (data_of (fs s) c) (set_cluster_num c (fs s))) = Some (f2, next) ->
  (if decide (bytes_per_cluster (fs s) <= remain)
   then data = data_of (fs s) c /\ remain' = remain - bytes_per_cluster (fs s) /\
        off' = s32 (off + bytes_per_cluster (fs s))
   else data = take (Z.to_nat remain) (data_of (fs s) c) /\ remain' = remain /\ off' = off) ->
  copy_loop (S turns) c remain off s =
    copy_loop turns next remain' off' (act (CopyToBuffer (target_id s) data off) (set_fs f2 s)).
Proof.
  intros H Hc Hr Ho Hnext Hcase. cbn [copy_loop]. pose proof (ok_M _ _ H) as HM. unfold eoc_min in HM.
  rewrite decide_True by (unfold is_cluster, end_of_chain in *; lia).
  rewrite (ReadCluster_spec M) by done. cbn [mbind option_bind cluster_buf bytes_per_cluster set_cluster_buf set_cluster_num].
  pose proof (length_data M (fs s) c H Hc) as Hl. rewrite (u64_small off) by lia.
  case_decide; destruct Hcase as (-> & -> & ->); rewrite read_at_Some by lia; cbn [mbind option_bind];
    rewrite Hnext; cbn [mbind option_bind]; unfold slice; rewrite drop_0; [by rewrite take_ge by lia|done].
Qed.

Lemma copy_loop_spec turns : forall l c remain off s,
  fs_ok M (fs s) -> chain M (fat_at (fs s)) c l -> (S (length l) < turns)%nat ->
  0 <= remain -> 0 <= off -> off + remain < 2 ^ 31 ->
  exists s', copy_loop turns c remain off s = Some s' /\
    ran s s' (copies (fs s) (target_id s) (c :: l) remain off).
Proof.
  induction turns as [|turns IH]; intros l c remain off s H Hch Ht Hr Ho Hb; [lia|].
  pose proof (Forall_inv (ch_range _ _ _ _ Hch)) as Hc. pose proof (ok_bpc _ _ H) as Hbpc.
  pose proof (ok_spc _ _ H) as Hspc.
  destruct (read_reading M (fs s) c H Hc) as [Hrd _].
  destruct (NextCluster_reading M _ c (rd_ok _ _ _ Hrd)) as (f2 & Hnext & Hrd2 & _);
    [unfold is_cluster in Hc; lia|].
  rewrite (reading_fat M (fs s)) in Hnext by done. pose proof (reading_trans _ _ _ _ Hrd Hrd2) as Hrd02.
  set (data := if decide (bytes_per_cluster (fs s) <= remain) then data_of (fs s) c
               else take (Z.to_nat remain) (data_of (fs s) c)).
  set (remain' := if decide (bytes_per_cluster (fs s) <= remain) then remain - bytes_per_cluster (fs s) else remain).
  set (off' := if decide (bytes_per_cluster (fs s) <= remain) then off + bytes_per_cluster (fs s) else off).
  rewrite (exec_turn turns c remain off s f2 _ data remain' off' H Hc Hr ltac:(lia) Hnext).
  2: { unfold data, remain', off'.
       destruct (decide (bytes_per_cluster (fs s) <= remain)); [rewrite s32_small by lia|]; by split_and!. }
  set (s1 := act _ _).
  assert (Hran : ran s s1 [CopyToBuffer (target_id s) data off]) by (split; done).
  assert (Hcs : copies (fs s) (target_id s) (c :: l) remain off =
    CopyToBuffer (target_id s) data off :: copies (fs s) (target_id s) l remain' off').
  { cbn [copies]. unfold data, remain', off'. by destruct (decide (bytes_per_cluster (fs s) <= remain)). }
  rewrite Hcs. assert (Hb' : 0 <= remain' /\ 0 <= off' /\ off' + remain' < 2 ^ 31)
    by (unfold remain', off'; destruct (decide (bytes_per_cluster (fs s) <= remain)); lia).
  destruct l as [|d l].
  - pose proof (ch_end _ _ _ _ Hch) as He. cbn in He. rewrite decide_True by done.
    destruct turns; [cbn in Ht; lia|]. cbn [copy_loop]. rewrite decide_False by (intros [_ ?]; done).
    exists s1. by split.
  - apply chain_cons in Hch as [Hd Hch]. rewrite Hd. pose proof (Forall_inv (ch_range _ _ _ _ Hch)) as Hdr.
    pose proof (ok_M _ _ H) as HM. rewrite decide_False by (unfold is_cluster in *; lia).
    destruct (IH l d remain' off' s1) as (s' & -> & Hran'); try tauto.
    + apply Hrd02.
    + by apply (reading_chain M (fs s)).
    + cbn in Ht. lia.
    + exists s'. split; [done|]. change (fs s1) with f2 in Hran'.
      rewrite (reading_copies (fs s) f2) in Hran' by done. exact (ran_trans _ _ _ _ _ Hran Hran').
Qed.

(** What the kernel does for the system calls of a trace. *)
Fixpoint replay (acts : list action) (tm : TaskManager) : option TaskManager :=
  match acts with
  | [] => Some tm
  | CopyToBuffer id data off :: acts' =>
      '(tm1, _) ← CopyToTaskBuffer id data off (Z.of_nat (length data)) tm; replay acts' tm1
  | Send _ _ :: acts' => replay acts' tm
  end.

Lemma copy_into id t data off tm :
  find_task tm id = Some t -> 0 <= off -> off + Z.of_nat (length data) <= Z.of_nat (length (buf t)) ->
  Z.of_nat (length (buf t)) < 2 ^ 31 ->
  exists r, CopyToTaskBuffer id data off (Z.of_nat (length data)) tm =
    Some (upd_task id (set_buf (splice (buf t) (Z.to_nat off) data)) tm, r).
Proof.
  intros Ht Ho Hl Hb. unfold CopyToTaskBuffer. rewrite Ht.
  rewrite (copy_fits t off) by (unfold copy_sane; lia). rewrite decide_False by lia.
  rewrite write_at_Some by lia. by eexists.
Qed.

Lemma replay_copies f id cs : forall remain off tm t,
  fs_ok M f -> Forall (is_cluster M) cs -> find_task tm id = Some t ->
  0 <= remain -> 0 <= off -> Z.of_nat (length (buf t)) = off + remain -> off + remain < 2 ^ 31 ->
  bytes_per_cluster f * (Z.of_nat (length cs) - 1) <= remain <= bytes_per_cluster f * Z.of_nat (length cs) ->
  exists tm' t', replay (copies f id cs remain off) tm = Some tm' /\ find_task tm' id = Some t' /\
    buf t' = take (Z.to_nat off) (buf t) ++ take (Z.to_nat remain) (content f cs).
Proof.
  induction cs as [|c cs IH]; intros remain off tm t H Hcs Ht Hr Ho Hl Hb Hsz.
  { cbn in *. exists tm, t. split; [done|]. split; [done|]. rewrite take_ge by lia. by rewrite take_nil, app_nil_r. }
  pose proof (Forall_inv Hcs) as Hc. pose proof (Forall_inv_tail Hcs) as Hcs'.
  pose proof (length_data M f c H Hc) as Hld. cbn [length] in Hsz. cbn [copies]. unfold content. cbn [fmap list_fmap concat].
  fold (content f cs). set (bpc := bytes_per_cluster f) in *. case_decide as Hd; cbn [replay].
  - destruct (copy_into id t (data_of f c) off tm Ht Ho) as [r ->]; [lia|lia|]. cbn [mbind option_bind].
    destruct (IH (remain - bpc) (off + bpc) (upd_task id (set_buf (splice (buf t) (Z.to_nat off) (data_of f c))) tm)
      (set_buf (splice (buf t) (Z.to_nat off) (data_of f c)) t)) as (tm' & t' & -> & Ht' & Hbuf); try (done || lia).
    + by rewrite find_upd_task, decide_True, Ht by done.
    + cbn [buf set_buf]. rewrite length_splice by lia. lia.
    + exists tm', t'. split; [done|]. split; [done|]. rewrite Hbuf. cbn [buf set_buf].
      assert (Hsp : take (Z.to_nat (off + bpc)) (splice (buf t) (Z.to_nat off) (data_of f c)) =
        take (Z.to_nat off) (buf t) ++ data_of f c).
      { unfold splice. rewrite app_assoc. rewrite take_app_length'; [done|].
        rewrite length_app, length_take. lia. }
      rewrite Hsp, <- app_assoc. f_equal. rewrite (take_app_ge (data_of f c)) by lia. do 2 f_equal. lia.
  - assert (cs = []) as -> by (destruct cs; [done|cbn [length] in Hsz; nia]).
    assert (Hlt : Z.of_nat (length (take (Z.to_nat remain) (data_of f c))) = remain) by (rewrite length_take; lia).
    destruct (copy_into id t (take (Z.to_nat remain) (data_of f c)) off tm Ht Ho) as [r ->]; [lia|lia|].
    cbn [mbind option_bind copies replay]. eexists _, _. split; [done|].
    split; [by rewrite find_upd_task, decide_True, Ht by done|]. cbn [buf set_buf content fmap list_fmap concat].
    rewrite app_nil_r. unfold splice. f_equal. rewrite drop_ge by lia. apply app_nil_r.
Qed.

(** They change one buffer. *)
Lemma CopyToTaskBuffer_only n data off len tm tm' r : CopyToTaskBuffer n data off len tm = Some (tm', r) -> only_buffer n tm tm'.
Proof.
  unfold CopyToTaskBuffer. destruct (find_task tm n); [|intros [= <- _]; apply only_buffer_refl].
  destruct (decide _); [intros [= <- _]; apply only_buffer_refl|]. destruct (write_at _ _ _); [|done]. intros [= <- _]. apply set_buf_only.
Qed.

Lemma replay_copies_only f n cs : forall remain off tm tm', replay (copies f n cs remain off) tm = Some tm' -> only_buffer n tm tm'.
Proof.
  assert (Hstep : forall data off acts tm tm', replay (CopyToBuffer n data off :: acts) tm = Some tm' ->
    (forall tm1, replay acts tm1 = Some tm' -> only_buffer n tm1 tm') -> only_buffer n tm tm').
  { intros data off acts tm tm' Hr IH. cbn [replay] in Hr. destruct (CopyToTaskBuffer n data off _ tm) as [[tm1 r]|] eqn:E; [|done].
    eapply only_buffer_trans; [by eapply CopyToTaskBuffer_only|by apply IH]. }
  induction cs as [|c cs IH]; intros remain off tm tm' Hr; [injection Hr as <-; apply only_buffer_refl|].
  cbn [copies] in Hr. destruct (decide _); (eapply Hstep; [exact Hr|]; intros tm1; apply IH).
Qed.

(** A file under a path: the entry the path leads to, with just the clusters its
    size needs. *)
Record stored_file (f : @FileSystem D) (ns : list (list Z)) (e : list Z) (l : list Z) : Prop := {
  sf_names : Forall name_ok ns;
  sf_short : (length (path_of ns) < 32)%nat /\ no_nul (path_of ns) /\ bytes (path_of ns);
  sf_resolves : resolve M f (dir_start f 0) ns (Some e);
  sf_chain : chain M (fat_at f) (FirstCluster e) l;
  sf_size : 0 <= file_size e < 2 ^ 31;
  sf_clusters : bytes_per_cluster f * Z.of_nat (length l) <= file_size e <= bytes_per_cluster f * Z.of_nat (S (length l));
}.
Definition image f e l : list Z := take (Z.to_nat (file_size e)) (content f (FirstCluster e :: l)).

Lemma reading_stored f f' ns e l : fs_ok M f -> reading M f f' -> stored_file f ns e l -> stored_file f' ns e l.
Proof.
  intros H Hr [S1 S2 S3 S4 S5 S6]. split; try done.
  - unfold dir_start. rewrite (rd_bpb _ _ _ Hr). fold (dir_start f 0). by apply (reading_resolve M f).
  - by apply (reading_chain M f).
  - by rewrite (rd_bpc _ _ _ Hr).
Qed.

Lemma reading_image f f' e l : reading M f f' -> image f' e l = image f e l.
Proof. intros H. unfold image, content. do 2 f_equal. apply list_fmap_ext. intros _ c _. by apply (reading_data M). Qed.

(** Executing a file loads it: for an entry whose chain has just the clusters
    its size needs, [CopyToBufferState] always returns, only reads the
    volume, announces that the task is ready, and its system calls, carried out by the kernel
    on a task buffer of the size of the file, leave the bytes of the file there. *)
Theorem exec_loads_file s e l tm t :
  fs_ok M (fs s) -> target s = Some e -> chain M (fat_at (fs s)) (FirstCluster e) l ->
  0 <= file_size e < 2 ^ 31 ->
  bytes_per_cluster (fs s) * Z.of_nat (length l) <= file_size e <=
    bytes_per_cluster (fs s) * Z.of_nat (S (length l)) ->
  (Z.to_nat M <= fuel)%nat ->
  find_task tm (target_id s) = Some t -> Z.of_nat (length (buf t)) = file_size e ->
  exists s' acts, CopyToBufferState_HandleMessage fuel s = Some s' /\
    reading M (fs s) (fs s') /\ out s' = out s ++ acts /\ type (sm s') = kReady /\
    exists tm' t', replay acts tm = Some tm' /\ find_task tm' (target_id s) = Some t' /\
      buf t' = take (Z.to_nat (file_size e)) (content (fs s) (FirstCluster e :: l)).
Proof.
  intros H He Hch Hsz Hlen Hf Ht Hbuf. unfold CopyToBufferState_HandleMessage. rewrite He. cbn [mbind option_bind].
  pose proof (ok_M _ _ H) as HM. pose proof (chain_length _ _ (proj2 HM) _ _ Hch).
  destruct (copy_loop_spec fuel l (FirstCluster e) (file_size e) 0 s H Hch) as (s' & -> & Hran); [lia..|].
  cbn [mbind option_bind]. eexists _, _. split; [done|]. split; [apply Hran|]. split; [apply Hran|]. split; [done|].
  destruct (replay_copies (fs s) (target_id s) (FirstCluster e :: l) (file_size e) 0 tm t H)
    as (tm' & t' & E & Ht' & Hb); try (done || lia).
  - apply Hch.
  - cbn [length]. lia.
  - by exists tm', t'.
Qed.
End exec.

(** HELLO.TXT, copied to task 3. *)
Definition hello_server : @Server (list Z) :=
  MkServer (default sample_fs (ReadCluster 2 sample_fs)) 1 StateCopyToBuffer (zero_message kError)
    (zero_message kError) (Some 0%nat) 3 [] [].
Definition buffer_of (n : nat) : TaskManager := upd_task 3 (set_buf (zeros n)) sample_tm.

Lemma exec_loads_file_witness :
  exists s' acts tm' t', CopyToBufferState_HandleMessage 10 hello_server = Some s' /\ out s' = acts /\
    replay acts (buffer_of 600) = Some tm' /\ find_task tm' 3 = Some t' /\
    buf t' = replicate 512 7 ++ replicate 88 9.
Proof.
  destruct (exec_loads_file 10 10 hello_server (make_entry hello_txt 32 3 600) [5] (buffer_of 600)
    (set_buf (zeros 600) (default (MakeTask 0) (find_task sample_tm 3)))) as (s' & acts & E & _ & Ho & _ & tm' & t' & Er & Ht & Hb).
  - split; vm_compute; repeat split; congruence.
  - vm_compute. reflexivity.
  - split; [vm_compute; repeat split|repeat constructor; done|vm_compute; congruence].
  - vm_compute. split; congruence.
  - vm_compute. split; congruence.
  - cbn. lia.
  - vm_compute. reflexivity.
  - vm_compute. reflexivity.
  - exists s', acts, tm', t'. split; [exact E|]. split; [exact Ho|]. split; [exact Er|]. split; [exact Ht|].
    rewrite Hb. vm_compute. reflexivity.
Defined.

(** A chain longer than the size needs is copied over the start: the offset does not
    advance after the last bytes of the file. *)
Lemma exec_overlong_chain :
  exists tm' t', replay (copies sample_fs 3 [3; 5] 80 0) (buffer_of 80) = Some tm' /\
    find_task tm' 3 = Some t' /\ buf t' = replicate 80 9.
Proof. eexists _, _. split; [vm_compute; reflexivity|]. split; vm_compute; reflexivity. Qed.

(** "HELLO.TXT" is stored on the sample volume. *)
Definition hello_name : list Z := [72; 69; 76; 76; 79; 46; 84; 88; 84].
Definition hello_entry : list Z := make_entry hello_txt 32 3 600.

Lemma hello_stored : stored_file 10 sample_fs [hello_name] hello_entry [5].
Proof.
  split.
  - repeat constructor; done || (cbn; lia).
  - split_and!; [cbn; lia|by repeat constructor|repeat constructor; done].
  - eapply res_here; [exists []; split; [split; [vm_compute; repeat split|repeat constructor; done|vm_compute; congruence]|reflexivity]|reflexivity|by left].
  - exact sample_chain.
  - vm_compute. split; congruence.
  - vm_compute. split; congruence.
Qed.
