(* ===== verification/FsRead.v ===== *)
(** * Reading a file (ReadState)

    The messages the file system server sends for a read request. *)

From S2P Require Import Prelude Bytes Message KernelLog Fat FatChain FatSample FatDir FsServer FsExec.
From stdpp Require Import base list numbers option.
From Stdlib Require Import ZArith Lia.

Local Open Scope Z_scope.

(** The bytes a data message carries. *)
Definition read_payload (m : Message) : list Z := slice (arg m) read_data (Z.to_nat (getU read_len m)).

Definition is_data (m : Message) : Prop :=
  type m = kRead /\ read_payload m <> [] /\ (length (read_payload m) <= data_size)%nat.

Definition sized (m : Message) : Prop := length (arg m) = arg_size.

Section emit.
Context (am : Z) (o0 : list action).

(** The state of the sending loops after the bytes [l]: full messages sent, the
    rest in the message under construction. *)
Record emitted (l : list Z) (v : ReadVars) : Prop := {
  em_sent : rv_sent v = Z.of_nat (length l);
  em_off : (rv_off v < data_size)%nat;
  em_sized : sized (rv_sm v);
  em_msgs : exists ms, rv_out v = o0 ++ ((fun m => Send m am) <$> ms) /\ Forall is_data ms /\
    concat (read_payload <$> ms) ++ slice (arg (rv_sm v)) read_data (rv_off v) = l;
}.

Lemma slice_extend (l : list Z) o n b :
  (o + n < length l)%nat -> slice (splice l (o + n) [b]) o (S n) = slice l o n ++ [b].
Proof.
  intros H. apply list_eq. intros i. rewrite lookup_slice. case_decide as Hi.
  - rewrite lookup_splice by (cbn; lia). cbn [length]. destruct (decide (i = n)) as [->|Hne].
    + rewrite decide_True by lia. rewrite lookup_app_r by (rewrite length_slice; lia).
      rewrite length_slice by lia. by replace (o + n - (o + n))%nat with (n - n)%nat by lia.
    + rewrite decide_False by lia. rewrite lookup_app_l by (rewrite length_slice; lia).
      by rewrite lookup_slice, decide_True by lia.
  - symmetry. apply lookup_ge_None. rewrite length_app, length_slice by lia. cbn. lia.
Qed.

(** Finishing a message of [n] bytes. *)
Lemma finish_message m n :
  sized m -> (0 < n <= data_size)%nat ->
  let m' := setF read_len (Z.of_nat n) (set_type kRead m) in
  sized m' /\ is_data m' /\ read_payload m' = slice (arg m) read_data n.
Proof.
  intros Hs Hn. cbn zeta. unfold sized, data_size, arg_size in *.
  set (m' := setF read_len (Z.of_nat n) (set_type kRead m)).
  assert (Ha : arg m' = set_le 1 (arg m) 52 (Z.of_nat n)) by done.
  assert (Hl : length (arg m') = 88%nat) by (rewrite Ha, length_set_le; lia).
  assert (Hp : read_payload m' = slice (arg m) read_data n).
  { unfold read_payload, getU. rewrite Ha. cbn [read_len f_width f_off]. rewrite get_set_le by lia.
    change (256 ^ Z.of_nat 1) with 256. rewrite Z.mod_small, Nat2Z.id by lia.
    apply slice_set_le_ne; unfold read_data; lia. }
  assert (Hlen : length (slice (arg m) read_data n) = n) by (apply length_slice; unfold read_data; lia).
  split; [done|]. split; [|done]. split; [done|]. rewrite Hp. split; [|rewrite Hlen; unfold data_size; lia].
  intros E. rewrite E in Hlen. cbn in Hlen. lia.
Qed.

Lemma read_byte_spec buf b l v :
  emitted l v -> buf !! rv_p v = Some b ->
  exists v', read_byte am buf v = Some v' /\ emitted (l ++ [b]) v' /\ rv_p v' = S (rv_p v) /\ rv_total v' = rv_total v.
Proof.
  intros [Hsent Hoff Hs (ms & Hout & Hms & Hl)] Hb. unfold read_byte. rewrite Hb. cbn [mbind option_bind].
  unfold sized, arg_size, data_size in *. unfold putB. rewrite write_at_Some by (cbn; unfold read_data; lia).
  cbn [mbind option_bind]. set (m := set_arg _ (rv_sm v)).
  assert (Hm : slice (arg m) read_data (S (rv_off v)) = slice (arg (rv_sm v)) read_data (rv_off v) ++ [b])
    by (apply slice_extend; unfold read_data; lia).
  assert (Hsm : sized m) by (unfold sized, m; cbn [set_arg arg]; rewrite length_splice; cbn; unfold read_data, arg_size; lia).
  assert (Hlen : Z.of_nat (length (l ++ [b])) = rv_sent v + 1) by (rewrite length_app; cbn; lia).
  case_decide as Hfull.
  - destruct (finish_message m 16 Hsm) as (Hs' & Hd & Hp); [unfold data_size; lia|].
    eexists; split; [done|]. split; [|done]. split; cbn [rv_sent rv_off rv_sm rv_out]; [lia|unfold data_size; lia|done|].
    exists (ms ++ [setF read_len 16 (set_type kRead m)]). split; [|split].
    + by rewrite Hout, fmap_app, <- app_assoc.
    + apply Forall_app. split; [done|]. by apply Forall_singleton.
    + rewrite fmap_app, concat_app. cbn [fmap list_fmap concat]. rewrite app_nil_r.
      change (Z.of_nat 16) with 16 in Hp. rewrite Hp, <- Hfull, Hm.
      by rewrite app_nil_r, app_assoc, Hl.
  - eexists; split; [done|]. split; [|done]. split; cbn [rv_sent rv_off rv_sm rv_out]; [lia|unfold data_size; lia|done|].
    exists ms. split; [done|]. split; [done|]. by rewrite Hm, app_assoc, Hl.
Qed.

(** The inner loop from position [p] of the cluster on, past the offset. *)
Lemma read_inner_emit buf remain count read_offset n : forall i l v,
  emitted l v -> 0 <= i -> read_offset <= rv_total v -> (rv_p v + n <= length buf)%nat ->
  let k := Nat.min n (Nat.min (Z.to_nat (remain - i)) (Z.to_nat (count - rv_sent v))) in
  exists v', read_inner am buf remain count read_offset n i v = Some (v', i + Z.of_nat k) /\
    emitted (l ++ slice buf (rv_p v) k) v' /\ rv_total v' = rv_total v + Z.of_nat k.
Proof.
  induction n as [|n IH]; intros i l v He Hi Ho Hlen; cbn zeta; cbn [read_inner].
  - exists v. rewrite Z.add_0_r. unfold slice. rewrite take_0, app_nil_r, Z.add_0_r. done.
  - case_decide as Hc.
    + rewrite decide_True by done. destruct (lookup_lt_is_Some_2 buf (rv_p v)) as [b Hb]; [lia|].
      destruct (read_byte_spec buf b l v He Hb) as (v1 & -> & He1 & Hp1 & Ht1). cbn [mbind option_bind].
      set (v2 := MkReadVars (rv_p v1) (rv_total v1 + 1) (rv_sent v1) (rv_off v1) (rv_sm v1) (rv_out v1)).
      assert (He2 : emitted (l ++ [b]) v2) by (by destruct He1).
      assert (Hs2 : rv_sent v2 = rv_sent v + 1).
      { rewrite (em_sent _ _ He2), (em_sent _ _ He), length_app. cbn. lia. }
      destruct (IH (i + 1) (l ++ [b]) v2 He2) as (v' & E & He' & Ht'); [lia|cbn; lia|cbn; lia|].
      assert (Hp2 : rv_p v2 = S (rv_p v)) by done. rewrite Hs2, Hp2 in *.
      exists v'. split; [rewrite E; do 2 f_equal; lia|]. split; [|cbn in Ht'; lia].
      replace (Nat.min (S n) _) with (S (Nat.min n (Nat.min (Z.to_nat (remain - (i + 1))) (Z.to_nat (count - (rv_sent v + 1)))))) by lia.
      rewrite <- app_assoc in He'. unfold slice. rewrite (drop_S _ _ _ Hb). exact He'.
    + replace (Nat.min (S n) _) with 0%nat by lia. exists v.
      rewrite Z.add_0_r. unfold slice. rewrite take_0, app_nil_r, Z.add_0_r. done.
Qed.

(** Bytes before the offset are passed over without moving in the cluster. *)
Lemma read_inner_skip buf remain count read_offset n : forall i v,
  0 <= i -> rv_total v + Z.of_nat n <= read_offset -> rv_sent v < count ->
  let k := Nat.min n (Z.to_nat (remain - i)) in
  read_inner am buf remain count read_offset n i v =
    Some (MkReadVars (rv_p v) (rv_total v + Z.of_nat k) (rv_sent v) (rv_off v) (rv_sm v) (rv_out v), i + Z.of_nat k).
Proof.
  induction n as [|n IH]; intros i v Hi Ho Hc; cbn zeta; cbn [read_inner].
  - rewrite !Z.add_0_r. by destruct v.
  - case_decide as Hd.
    + rewrite decide_False by lia. cbn [mbind option_bind]. rewrite IH; cbn [rv_p rv_total rv_sent rv_off rv_sm rv_out]; [|lia|lia|done].
      do 2 f_equal; [f_equal|]; lia.
    + replace (Nat.min (S n) _) with 0%nat by lia. rewrite !Z.add_0_r. by destruct v.
Qed.

(** The loop in two parts: the second begins where the first was not cut off. *)
Lemma read_inner_add buf remain count read_offset n m : forall i v,
  read_inner am buf remain count read_offset (n + m) i v =
    '(v1, i1) ← read_inner am buf remain count read_offset n i v;
    if decide (i1 = i + Z.of_nat n) then read_inner am buf remain count read_offset m i1 v1 else Some (v1, i1).
Proof.
  induction n as [|n IH]; intros i v.
  - cbn [read_inner Nat.add mbind option_bind]. rewrite decide_True by lia. done.
  - cbn [read_inner Nat.add]. case_decide.
    + destruct (if decide (read_offset <= rv_total v) then read_byte am buf v else Some v) as [v'|]; [|done].
      cbn [mbind option_bind]. rewrite IH. destruct (read_inner _ _ _ _ _ n _ _) as [[v1 i1]|]; [|done].
      cbn [mbind option_bind]. replace (i + 1 + Z.of_nat n) with (i + Z.of_nat (S n)) by lia. done.
    + cbn [mbind option_bind]. rewrite decide_False by lia. done.
Qed.
End emit.

(** The bytes the code sends for a read from [off] on when clusters hold [b]
    bytes: of the cluster the offset lies in as many as follow the offset, but
    from its start, then the clusters behind it. At the start of a cluster
    these are the bytes from [off] on. *)
Definition served (b off : nat) (data : list Z) : list Z :=
  let start := (off - off mod b)%nat in
  take (Nat.min b (length data - start) - off mod b) (drop start data) ++ drop (start + b) data.

Lemma served_aligned b off data : (0 < b)%nat -> (off mod b = 0)%nat -> served b off data = drop off data.
Proof.
  intros Hb H. unfold served. rewrite H, !Nat.sub_0_r. set (d := drop off data).
  assert (drop (off + b) data = drop b d) as -> by (unfold d; by rewrite drop_drop).
  replace (Nat.min b (length data - off)) with (Nat.min b (length d)) by (unfold d; by rewrite length_drop).
  destruct (decide (b <= length d)%nat).
  - rewrite Nat.min_l by lia. apply take_drop.
  - rewrite Nat.min_r, take_ge, drop_ge, app_nil_r by lia. done.
Qed.

Lemma served_spec (b off : Z) data : 0 < b ->
  served (Z.to_nat b) (Z.to_nat off) data =
    if decide (off mod b = 0) then drop (Z.to_nat off) data else served (Z.to_nat b) (Z.to_nat off) data.
Proof.
  intros Hb. case_decide as H; [|done]. apply served_aligned; [lia|]. destruct (decide (off <= 0)).
  - replace (Z.to_nat off) with 0%nat by lia. apply Nat.Div0.mod_0_l.
  - rewrite <- Z2Nat.inj_mod by lia. by rewrite H.
Qed.

Lemma served_nil b off : served b off [] = [].
Proof. unfold served. by rewrite !drop_nil, take_nil. Qed.

Lemma drop_take_app {A} (k r : nat) (a c : list A) :
  (length a <= k)%nat -> drop k (take r (a ++ c)) = drop (k - length a) (take (r - Nat.min (length a) r) c).
Proof.
  intros H. rewrite take_app. destruct (decide (length a <= r)%nat).
  - rewrite Nat.min_l, (take_ge a) by lia. by rewrite drop_app_ge by lia.
  - rewrite Nat.min_r by lia. replace (r - length a)%nat with 0%nat by lia.
    rewrite Nat.sub_diag, !take_0, app_nil_r, drop_nil. apply drop_ge. rewrite length_take. lia.
Qed.

(** A first cluster that holds the offset, and one before it. *)
Lemma served_in b off r (a c : list Z) : length a = b -> (off < b)%nat ->
  served b off (take r (a ++ c)) = take (Nat.min b r - off) a ++ take (r - Nat.min b r) c.
Proof.
  intros Ha Ho. unfold served. rewrite Nat.mod_small, Nat.sub_diag, drop_0, Nat.sub_0_r by lia. cbn [Nat.add].
  rewrite drop_take_app, Ha, Nat.sub_diag, drop_0 by lia. f_equal.
  rewrite length_take, length_app, Ha, take_take, take_app.
  replace (Nat.min b (Nat.min r (b + length c)) - off)%nat with (Nat.min b r - off)%nat by lia.
  rewrite Nat.min_l by lia. replace (Nat.min b r - off - length a)%nat with 0%nat by lia.
  by rewrite take_0, app_nil_r.
Qed.

Lemma served_after b off r (a c : list Z) : (0 < b)%nat -> length a = b -> (b <= off)%nat ->
  served b off (take r (a ++ c)) = served b (off - b) (take (r - Nat.min b r) c).
Proof.
  intros Hb Ha Ho. unfold served.
  assert ((off - b) mod b = off mod b)%nat as ->.
  { replace off with ((off - b) + 1 * b)%nat at 2 by lia. by rewrite Nat.Div0.mod_add. }
  assert (off mod b <= off - b)%nat.
  { replace off with ((off - b) + 1 * b)%nat at 1 by lia. rewrite Nat.Div0.mod_add. apply Nat.Div0.mod_le. }
  rewrite !drop_take_app, !Ha by lia. f_equal.
  - f_equal; [|f_equal; lia]. rewrite !length_take, length_app, Ha. lia.
  - f_equal. lia.
Qed.

Section read.
Context {D : Type} `{!BlockDevice D} (M : Z) (fuel : nat) (am : Z) (o0 : list action).
Implicit Types f : @FileSystem D.

(** The bytes still to send when [remain] bytes of the file are in [cs],
    [skip] of them before the offset, and [want] are wanted. *)
Definition wanted f (cs : list Z) (remain skip want : Z) : list Z :=
  take (Z.to_nat want)
    (served (Z.to_nat (bytes_per_cluster f)) (Z.to_nat skip) (take (Z.to_nat remain) (content f cs))).

Lemma reading_content f f' cs : reading M f f' -> content f' cs = content f cs.
Proof.
  intros H. unfold content. f_equal. apply list_fmap_ext. intros _ x _. by apply (reading_data M).
Qed.

Lemma emitted_same l v v' : emitted am o0 l v -> rv_sent v' = rv_sent v -> rv_off v' = rv_off v ->
  rv_sm v' = rv_sm v -> rv_out v' = rv_out v -> emitted am o0 l v'.
Proof. intros [] Hs Ho Hm Hu. split; by rewrite ?Hs, ?Ho, ?Hm, ?Hu. Qed.

Lemma wanted_none f cs skip want : wanted f cs 0 skip want = [].
Proof. unfold wanted. by rewrite take_0, served_nil, take_nil. Qed.

(** One cluster, read from its start by a loop that has passed over the bytes
    before the offset. *)
Lemma wanted_in f c cs remain skip want k :
  fs_ok M f -> is_cluster M c -> skip < bytes_per_cluster f -> 0 <= remain ->
  k = Nat.min (Nat.min (Z.to_nat (bytes_per_cluster f)) (Z.to_nat remain) - Z.to_nat skip) (Z.to_nat want) ->
  0 <= want ->
  wanted f (c :: cs) remain skip want =
    take k (data_of f c) ++ wanted f cs (remain - Z.min (bytes_per_cluster f) remain) 0 (want - Z.of_nat k).
Proof.
  intros H Hc Hs Hr Hk Hw. pose proof (length_data M f c H Hc) as Hl.
  assert (Hb : 0 < bytes_per_cluster f) by (rewrite (ok_bpc _ _ H); pose proof (ok_spc _ _ H); lia).
  unfold wanted. unfold content. cbn [fmap list_fmap concat]. fold (content f cs).
  rewrite (served_in _ (Z.to_nat skip)) by lia. rewrite (served_aligned _ 0) by (lia || apply Nat.Div0.mod_0_l).
  rewrite drop_0, take_app, take_take, length_take. f_equal; [f_equal; lia|].
  destruct (decide (Z.to_nat want <= Nat.min (Z.to_nat (bytes_per_cluster f)) (Z.to_nat remain) - Z.to_nat skip)%nat).
  - replace (Z.to_nat want - _)%nat with 0%nat by lia. replace (Z.to_nat (want - Z.of_nat k)) with 0%nat by lia. by rewrite !take_0.
  - f_equal; [lia|]. f_equal. lia.
Qed.

(** One cluster. *)
Lemma read_cluster_spec f c l count read_offset remain v :
  fs_ok M f -> is_cluster M c -> emitted am o0 l v -> 0 <= remain -> rv_sent v < count ->
  exists v' i, read_inner am (data_of f c) remain count read_offset (Z.to_nat (bytes_per_cluster f)) 0
      (MkReadVars 0 (rv_total v) (rv_sent v) (rv_off v) (rv_sm v) (rv_out v)) = Some (v', i) /\
    0 <= i <= remain /\
    exists l1, emitted am o0 (l ++ l1) v' /\
      forall cs, wanted f (c :: cs) remain (read_offset - rv_total v) (count - rv_sent v) =
        l1 ++ wanted f cs (remain - i) (read_offset - rv_total v') (count - rv_sent v').
Proof.
  intros H Hc He Hr Hcount. pose proof (length_data M f c H Hc) as Hl.
  set (bpc := bytes_per_cluster f) in *. assert (Hbpc : 0 < bpc).
  { unfold bpc. rewrite (ok_bpc _ _ H). pose proof (ok_spc _ _ H). lia. }
  set (v0 := MkReadVars 0 (rv_total v) (rv_sent v) (rv_off v) (rv_sm v) (rv_out v)).
  assert (He0 : emitted am o0 l v0) by (by apply (emitted_same l v)).
  set (skip := read_offset - rv_total v) in *. set (n := Nat.min (Z.to_nat bpc) (Z.to_nat skip)).
  pose proof (read_inner_skip am (data_of f c) remain count read_offset n 0 v0 ltac:(lia)) as Hskip.
  cbn [rv_p rv_sent rv_total rv_off rv_sm rv_out v0] in Hskip.
  (* bytes before the offset in this cluster; [n] = 0 when there are none *)
  assert (exists v1 i1, read_inner am (data_of f c) remain count read_offset n 0 v0 = Some (v1, i1) /\
    i1 = Z.of_nat (Nat.min n (Z.to_nat remain)) /\ emitted am o0 l v1 /\ rv_p v1 = 0%nat /\
    rv_sent v1 = rv_sent v /\ rv_total v1 = rv_total v + i1) as (v1 & i1 & E1 & Hi1 & He1 & Hp1 & Hs1 & Ht1).
  { destruct (decide (skip <= 0)) as [Hle|Hgt].
    - replace n with 0%nat by lia. exists v0, 0. cbn [read_inner]. split_and!; try done. cbn. lia.
    - rewrite Hskip by lia. eexists _, _. split; [done|]. rewrite Z.sub_0_r. cbn [rv_p rv_sent rv_total].
      split_and!; [lia|by apply (emitted_same l v)|done|done|lia]. }
  replace (Z.to_nat bpc) with (n + (Z.to_nat bpc - n))%nat by lia. rewrite read_inner_add, E1. cbn [mbind option_bind].
  destruct (decide (skip < bpc /\ skip <= remain)) as [[Hin Hrem]|Hout].
  - (* the offset lies in the part of this cluster that is in the file, or before *)
    rewrite decide_True by lia.
    destruct (read_inner_emit am o0 (data_of f c) remain count read_offset (Z.to_nat bpc - n) i1 l v1 He1)
      as (v' & E & He' & Ht); [lia|lia|lia|]. rewrite Hp1, Hs1 in *. set (k := Nat.min (_ - n) _) in *.
    assert (Hk : slice (data_of f c) 0 k = take k (data_of f c)) by (unfold slice; by rewrite drop_0).
    assert (Hs' : rv_sent v' = rv_sent v + Z.of_nat k).
    { rewrite (em_sent _ _ _ _ He'), (em_sent _ _ _ _ He), length_app, length_slice by lia. lia. }
    eexists v', _. split; [exact E|]. split; [lia|]. exists (slice (data_of f c) 0 k). split; [done|]. intros cs.
    rewrite (wanted_in f c cs remain skip (count - rv_sent v) k) by (done || fold bpc; lia). rewrite Hk. f_equal.
    unfold wanted at 2. replace (Z.to_nat (read_offset - rv_total v')) with (Z.to_nat 0) by lia. fold (wanted f cs (remain - (i1 + Z.of_nat k)) 0 (count - rv_sent v')).
    fold bpc. rewrite Hs'. replace (count - (rv_sent v + Z.of_nat k)) with (count - rv_sent v - Z.of_nat k) by lia.
    destruct (decide (count - rv_sent v - Z.of_nat k <= 0)).
    + unfold wanted. replace (Z.to_nat (count - rv_sent v - Z.of_nat k)) with 0%nat by lia. by rewrite !take_0.
    + f_equal. lia.
  - assert (Hend : (if decide (i1 = 0 + Z.of_nat n) then
        read_inner am (data_of f c) remain count read_offset (Z.to_nat bpc - n) i1 v1 else Some (v1, i1)) = Some (v1, i1)).
    { case_decide; [|done]. destruct (Z.to_nat bpc - n)%nat eqn:En; [done|]. cbn [read_inner]. by rewrite decide_False by lia. }
    rewrite Hend. exists v1, i1. split; [done|]. split; [lia|]. exists []. rewrite app_nil_r. split; [done|]. intros cs. cbn [app].
    destruct (decide (remain < bpc)) as [Hrb|Hrb].
    + destruct (decide (skip < bpc)).
      * rewrite (wanted_in f c cs remain skip (count - rv_sent v) 0) by (done || fold bpc; lia).
        rewrite take_0. cbn [app]. fold bpc. replace (remain - Z.min bpc remain) with 0 by lia.
        replace (remain - i1) with 0 by lia. by rewrite !wanted_none.
      * replace (remain - i1) with 0 by lia. rewrite wanted_none. unfold wanted, content. cbn [fmap list_fmap concat].
        fold bpc. rewrite served_after by lia. replace (Z.to_nat remain - _)%nat with 0%nat by lia.
        by rewrite take_0, served_nil, take_nil.
    + rewrite Hs1. unfold wanted. unfold content at 1. cbn [fmap list_fmap concat]. fold (content f cs). fold bpc.
      rewrite served_after by lia. f_equal. f_equal; [lia|]. f_equal. lia.
Qed.

Lemma read_loop_spec turns : forall cs c remain count read_offset v l f,
  fs_ok M f -> chain M (fat_at f) c cs -> (S (length cs) < turns)%nat -> emitted am o0 l v ->
  0 <= remain < 2 ^ 32 ->
  exists f' v', read_loop turns am count read_offset c remain v f = Some (f', v') /\ reading M f f' /\
    emitted am o0 (l ++ wanted f (c :: cs) remain (read_offset - rv_total v) (count - rv_sent v)) v'.
Proof.
  induction turns as [|turns IH]; intros cs c remain count read_offset v l f H Hch Ht He Hr; [lia|].
  pose proof (Forall_inv (ch_range _ _ _ _ Hch)) as Hc. pose proof (ok_M _ _ H) as HM. unfold eoc_min in HM.
  cbn [read_loop]. destruct (decide (rv_sent v < count)) as [Hcount|Hcount].
  2: { rewrite decide_False by tauto. exists f, v. split; [done|]. split; [by apply reading_refl|].
       unfold wanted. replace (Z.to_nat (count - rv_sent v)) with 0%nat by lia. by rewrite take_0, app_nil_r. }
  rewrite decide_True by (unfold is_cluster, end_of_chain in *; lia).
  rewrite (ReadCluster_spec M) by done. cbn [mbind option_bind].
  destruct (read_reading M f c H Hc) as [Hrd _]. set (f1 := set_cluster_buf _ _) in *.
  change (cluster_buf f1) with (data_of f c). change (bytes_per_cluster f1) with (bytes_per_cluster f).
  destruct (read_cluster_spec f c l count read_offset remain v H Hc He) as (v1 & i & -> & Hi & l1 & He1 & Hw); try (done || lia).
  cbn [mbind option_bind].
  destruct (NextCluster_reading M f1 c (rd_ok _ _ _ Hrd)) as (f2 & -> & Hrd2 & _); [unfold is_cluster in Hc; lia|].
  cbn [mbind option_bind]. rewrite (reading_fat M f f1) by done. pose proof (reading_trans _ _ _ _ Hrd Hrd2) as Hrd02.
  rewrite u32_small by lia. destruct cs as [|d cs].
  - pose proof (ch_end _ _ _ _ Hch) as Hend. cbn in Hend. rewrite decide_True by done.
    destruct turns; [cbn in Ht; lia|]. cbn [read_loop]. rewrite decide_False by tauto.
    exists f2, v1. split; [done|]. split; [done|]. rewrite Hw.
    assert (wanted f [] (remain - i) (read_offset - rv_total v1) (count - rv_sent v1) = []) as ->.
    { unfold wanted, content. cbn. by rewrite take_nil, served_nil, take_nil. }
    by rewrite app_nil_r.
  - apply chain_cons in Hch as [Hd Hch]. rewrite Hd. pose proof (Forall_inv (ch_range _ _ _ _ Hch)) as Hdr.
    rewrite decide_False by (unfold is_cluster, eoc_min in *; lia).
    destruct (IH cs d (remain - i) count read_offset v1 (l ++ l1) f2) as (f' & v' & -> & Hrd' & He').
    + apply Hrd02.
    + by apply (reading_chain M f).
    + cbn in Ht. lia.
    + done.
    + lia.
    + exists f', v'. split; [done|]. split; [by eapply reading_trans|].
      rewrite Hw, app_assoc. unfold wanted in *. by rewrite (reading_content f f2), (rd_bpc _ _ _ Hrd02) in He'.
Qed.
End read.

Section state.
Context {D : Type} `{!BlockDevice D} (M : Z) (fuel : nat).

(** The clusters of a file; one that has none starts at cluster 0. *)
Definition file_clusters (f : @FileSystem D) (c : Z) (cs : list Z) : Prop :=
  (c = 0 /\ cs = []) \/ exists l, chain M (fat_at f) c l /\ cs = c :: l.

Lemma reading_clusters f f' c cs : reading M f f' -> file_clusters f c cs -> file_clusters f' c cs.
Proof.
  intros H [?|(l & Hl & ->)]; [by left|]. right. exists l. split; [|done]. by apply (reading_chain M f).
Qed.

Lemma empty_end m : sized m -> let m' := setF read_len 0 (set_type kRead m) in
  type m' = kRead /\ read_payload m' = [].
Proof.
  intros Hs. cbn zeta. split; [done|]. unfold read_payload, getU. cbn [setF set_type arg read_len f_off f_width].
  unfold sized, arg_size in Hs. rewrite get_set_le by lia. change (Z.to_nat (0 mod 256 ^ Z.of_nat 1)) with 0%nat.
  unfold slice. by rewrite take_0.
Qed.

Lemma path_not_root (absolute : bool) ns n :
  name_ok n -> (if absolute then [char_slash] else []) ++ path_of (n :: ns) <> root_path.
Proof.
  intros Hn. destruct (path_of_head n ns Hn) as (x & p & -> & Hx). unfold root_path.
  destruct absolute; cbn; [done|]. congruence.
Qed.

(** The file part of the handler. *)
Lemma read_file_spec e cs s :
  fs_ok M (fs s) -> sized (sm s) -> file_clusters (fs s) (FirstCluster e) cs -> 0 <= file_size e < 2 ^ 32 ->
  (Z.to_nat M <= fuel)%nat ->
  exists s' ms, read_file fuel e s = Some s' /\ reading M (fs s) (fs s') /\ sized (sm s') /\
    out s' = out s ++ ((fun m => Send m (am_id s)) <$> ms) /\ Forall is_data ms /\
    concat (read_payload <$> ms) =
      wanted (fs s) cs (file_size e) (getU read_offset (rm s)) (getU read_count (rm s)).
Proof.
  intros H Hs Hcs Hsz Hf. unfold read_file. pose proof (ok_M _ _ H) as HM.
  assert (Hbpc : 0 < bytes_per_cluster (fs s)) by (rewrite (ok_bpc _ _ H); pose proof (ok_spc _ _ H); lia).
  set (v0 := MkReadVars 0 0 0 0 (sm s) (out s)).
  assert (He0 : emitted (am_id s) (out s) [] v0).
  { split; cbn; [done|unfold data_size; lia|done|]. exists []. cbn. rewrite app_nil_r. split; [done|].
    split; [constructor|]. unfold slice. by rewrite take_0. }
  set (want := wanted (fs s) cs (file_size e) (getU read_offset (rm s)) (getU read_count (rm s))).
  assert (Hloop : exists f' v', read_loop fuel (am_id s) (getU read_count (rm s)) (getU read_offset (rm s))
      (FirstCluster e) (file_size e) v0 (fs s) = Some (f', v') /\ reading M (fs s) f' /\ emitted (am_id s) (out s) want v').
  { unfold want. destruct Hcs as [[Hz ->]|(l & Hch & ->)].
    - rewrite Hz. destruct fuel as [|fuel']; [lia|]. cbn [read_loop]. rewrite decide_False by tauto.
      exists (fs s), v0. split; [done|]. split; [by apply reading_refl|].
      unfold wanted, content. cbn. by rewrite take_nil, served_nil, take_nil.
    - pose proof (chain_length _ _ (proj2 HM) _ _ Hch).
      destruct (read_loop_spec M (am_id s) (out s) fuel l (FirstCluster e) (file_size e) (getU read_count (rm s))
        (getU read_offset (rm s)) v0 [] (fs s) H Hch) as (f' & v' & E & Hr & He); try (done || lia).
      exists f', v'. split; [exact E|]. split; [done|]. unfold v0 in He. cbn [rv_total rv_sent] in He.
        by rewrite !Z.sub_0_r in He. }
  destruct Hloop as (f' & v' & -> & Hr & [Hsent Hvo Hsz' (ms & Hout & Hms & Hl)]). cbn [mbind option_bind].
  case_decide as Ho.
  - destruct (finish_message (rv_sm v') (rv_off v') Hsz') as (Hs' & Hd & Hp); [lia|].
    set (m := setF read_len _ _) in *. eexists _, (ms ++ [m]). split; [done|]. cbn [fs sm out send_am act set_sm am_id].
    split; [done|]. split; [done|]. split; [by rewrite Hout, fmap_app, <- app_assoc|].
    split; [apply Forall_app; split; [done|by apply Forall_singleton]|].
    rewrite fmap_app, concat_app. cbn [fmap list_fmap concat]. by rewrite app_nil_r, Hp.
  - eexists _, ms. split; [done|]. cbn [fs sm out]. split; [done|]. split; [done|]. split; [done|]. split; [done|].
    assert (Hz : rv_off v' = 0%nat) by lia. rewrite <- Hl, Hz. unfold slice. by rewrite take_0, app_nil_r.
Qed.

(** C15. A read request is answered: for a path that resolves to a file and
    whatever offset, the handler always returns, only reads the volume, and
    sends data messages of at most 16 bytes; the message left for the closing
    answer is an empty one. For an offset at the start of a cluster the
    messages carry, in order and once each, the bytes of the file from the
    offset on, as many as asked for or the file has. For another offset they
    carry as many, but those taken from the cluster of the offset are the ones
    from its start ([served]): [p] does not move over the bytes that are
    passed over (servers/fs/serverstate.cpp:416). *)
Theorem ReadState_sends_file (absolute : bool) ns e cs s :
  fs_ok M (fs s) -> sized (sm s) ->
  getS read_filename (rm s) = Some ((if absolute then [char_slash] else []) ++ path_of ns) ->
  Forall name_ok ns -> resolve M (fs s) (dir_start (fs s) 0) ns (Some e) -> attr e <> kDirectory ->
  file_clusters (fs s) (FirstCluster e) cs -> 0 <= file_size e < 2 ^ 32 -> (Z.to_nat M <= fuel)%nat ->
  let data := take (Z.to_nat (file_size e)) (content (fs s) cs) in
  let offset := getU read_offset (rm s) in let count := getU read_count (rm s) in
  exists s' ms, ReadState_HandleMessage fuel s = Some s' /\ reading M (fs s) (fs s') /\
    out s' = out s ++ ((fun m => Send m (am_id s)) <$> ms) /\ Forall is_data ms /\
    concat (read_payload <$> ms) = take (Z.to_nat count)
      (if decide (offset mod bytes_per_cluster (fs s) = 0) then drop (Z.to_nat offset) data
       else served (Z.to_nat (bytes_per_cluster (fs s))) (Z.to_nat offset) data) /\
    state s' = StateInit /\ type (sm s') = kRead /\ read_payload (sm s') = [].
Proof.
  intros H Hs Hpath Hok Hres Ha Hcs Hsz Hf. cbn zeta. unfold ReadState_HandleMessage. rewrite Hpath. cbn [mbind option_bind].
  destruct ns as [|n ns]; [inversion Hres|]. rewrite decide_False by (apply path_not_root, (Forall_inv Hok)).
  destruct (FindFile_spec M fuel absolute (n :: ns) 0 (Some e) (fs s) H Hok) as (f1 & i & post & -> & Hr & Hfd);
    [by destruct absolute|done|].
  cbn [mbind option_bind]. destruct i as [i|]; [|done]. destruct Hfd as (He & _ & _). cbn [mbind option_bind].
  rewrite He, decide_False by done. set (s1 := set_target (Some i) (set_fs f1 s)).
  destruct (read_file_spec e cs s1) as (s' & ms & -> & Hr' & Hs' & Hout & Hms & Hl); try done.
  - apply Hr.
  - by apply (reading_clusters (fs s)).
  - cbn [mbind option_bind]. eexists _, ms. split; [done|]. split; [by eapply reading_trans|].
    split; [done|]. split; [done|]. split; [|split; [done|by apply empty_end]].
    rewrite Hl. unfold wanted. cbn [fs s1 rm set_target set_fs].
    rewrite (reading_content M (fs s) f1), (rd_bpc _ _ _ Hr) by done. f_equal. apply served_spec.
    rewrite (ok_bpc _ _ H). pose proof (ok_spc _ _ H). lia.
Qed.
End state.

(** HELLO.TXT: 20 bytes from offset 512. *)
Definition read_server : @Server (list Z) :=
  MkServer sample_fs 1 StateRead (zero_message kError)
    (setF read_offset 512 (setF read_count 20
      (default (zero_message kRead) (putS read_filename [104; 101; 108; 108; 111; 46; 116; 120; 116] (zero_message kRead)))))
    None 0 [] [].

Lemma ReadState_sends_file_witness :
  exists s' ms, ReadState_HandleMessage 10 read_server = Some s' /\
    out s' = [] ++ ((fun m => Send m 1) <$> ms) /\ concat (read_payload <$> ms) = replicate 20 9.
Proof.
  assert (Hroot : chain 10 (fat_at sample_fs) 2 []) by
    (split; [vm_compute; repeat split|repeat constructor; done|vm_compute; congruence]).
  destruct (ReadState_sends_file 10 10 false [[104; 101; 108; 108; 111; 46; 116; 120; 116]]
    (make_entry hello_txt 32 3 600) [3; 5] read_server) as (s' & ms & E & _ & Ho & _ & Hc & _).
  - apply sample_fs_ok.
  - reflexivity.
  - vm_compute. reflexivity.
  - repeat constructor; done || (cbn; lia).
  - eapply res_here; [exists []; split; [exact Hroot|reflexivity]|vm_compute; reflexivity|by left].
  - vm_compute. discriminate.
  - right. exists [5]. split; [exact sample_chain|reflexivity].
  - vm_compute. split; congruence.
  - cbn. lia.
  - exists s', ms. split; [exact E|]. split; [exact Ho|]. rewrite Hc. vm_compute. reflexivity.
Defined.

(** Asked for two bytes from offset 3 of a file with the bytes 1 to 9 in a
    cluster, the code sends those at offset 0. *)
Example served_inside : take 2 (served 512 3 [1; 2; 3; 4; 5; 6; 7; 8; 9]) = [1; 2].
Proof. reflexivity. Qed.
