(* ===== verification/FsWrite.v ===== *)
(** * Writing a file (WriteState)

    What a write request does to the clusters of a file. *)

From S2P Require Import Prelude Bytes Message KernelLog Fat FatChain FatSample FatDir FsServer FsExec FsRead.
From stdpp Require Import base list numbers option.
From Stdlib Require Import ZArith Lia.

Local Open Scope Z_scope.

Section write.
Context {D : Type} `{!BlockDevice D} (M : Z) (fuel : nat).
Implicit Types f : @FileSystem D.

(** Writing the cluster buffer back. *)
Record data_step f f' (c : Z) (new : list Z) : Prop := {
  ds_ok : fs_ok M f';
  ds_bpb : bpb f' = bpb f;
  ds_bpc : bytes_per_cluster f' = bytes_per_cluster f;
  ds_fat : forall x, 0 <= x < M -> fat_at f' x = fat_at f x;
  ds_data : data_of f' c = new;
  ds_other : forall x, is_cluster M x -> x <> c -> data_of f' x = data_of f x;
}.

Lemma take_concat_sectors (d : list Z) n :
  (512 * n <= length d)%nat ->
  concat ((fun k => slice d (Z.to_nat (512 * Z.of_nat k)) 512) <$> seq 0 n) = take (512 * n) d.
Proof.
  intros H. rewrite Nat.mul_comm. transitivity (slice d 0 (n * 512)); [|unfold slice; by rewrite drop_0].
  rewrite <- concat_slices by lia. f_equal. apply list_fmap_ext. intros _ k _. f_equal. lia.
Qed.

Lemma UpdateCluster_spec f c :
  fs_ok M f -> is_cluster M c ->
  exists f', UpdateCluster c f = Some f' /\ data_step f f' c (cluster_buf f) /\
    cluster_num f' = cluster_num f /\ cluster_buf f' = cluster_buf f.
Proof.
  intros H Hc. unfold UpdateCluster. rewrite decide_False by (unfold is_cluster in Hc; lia).
  rewrite (cluster_sector_spec M) by done. pose proof (data_sector_bound M f c H Hc) as Hb.
  pose proof (ok_spc _ _ H) as Hs. pose proof (ok_buf _ _ H) as Hbuf. pose proof (ok_bpc _ _ H) as Hbpc.
  destruct (bd_write_spec (dev f) (cluster_buf f) (data_sector f c) (sectors_per_cluster (bpb f)))
    as (d' & -> & Hsize & Hsec); [lia..|]. cbn [mbind option_bind]. eexists; split; [done|]. split; [|done].
  assert (Hother : forall x, is_cluster M x -> x <> c -> data_of (set_dev d' f) x = data_of f x).
  { intros x Hx Hne. unfold data_of. f_equal. apply list_fmap_ext. intros i k [-> Hk]%lookup_seq. cbn.
    pose proof (data_sector_bound M f x H Hx). change (data_sector (set_dev d' f) x) with (data_sector f x).
    rewrite Hsec by lia. rewrite decide_False; [done|]. unfold data_sector in *. nia. }
  split; cbn; try done.
  - destruct H. split; cbn; try done. by rewrite Hsize.
  - intros x Hx. unfold fat_at. cbn [dev set_dev]. change (fat_sector (set_dev d' f) x) with (fat_sector f x).
    destruct (fat_sector_bound M f x H Hx). rewrite Hsec by lia. rewrite decide_False; [done|].
    unfold data_sector in *. unfold is_cluster in Hc. nia.
  - unfold data_of. cbn [dev set_dev bpb].
    transitivity (concat ((fun k => slice (cluster_buf f) (Z.to_nat (512 * Z.of_nat k)) 512) <$>
      seq 0 (Z.to_nat (sectors_per_cluster (bpb f))))).
    + f_equal. apply list_fmap_ext. intros i k [-> Hk]%lookup_seq. cbn [Nat.add].
      change (data_sector (set_dev d' f) c) with (data_sector f c). rewrite Hsec by lia. rewrite decide_True by lia.
      do 2 f_equal. lia.
    + rewrite take_concat_sectors by lia. apply take_ge. lia.
Qed.

(** ** Moving along the chain *)

Lemma chain_extend_tail fat fat' c l new :
  M <= eoc_min -> chain M fat c l -> chain M fat' (end_of c l) new ->
  (forall x, is_cluster M x -> is_cluster M (fat x) -> fat' x = fat x) -> chain M fat' c (l ++ new).
Proof.
  intros HM [Hl Hr He] [Hl' Hr' He'] Hag. split.
  - rewrite links_app. split; [by apply (links_agree M fat)|done].
  - rewrite app_comm_cons. apply Forall_app. split; [done|]. by apply Forall_inv_tail in Hr'.
  - by rewrite end_of_app.
Qed.

Lemma lookup_end c l : (c :: l) !! length l = Some (end_of c l).
Proof. revert c. induction l as [|d l IH]; intros c; [done|]. cbn [length lookup list_lookup end_of]. apply IH. Qed.

Lemma chain_at fat c l i x :
  chain M fat c l -> (c :: l) !! i = Some x -> exists l1 l2, c :: l = l1 ++ x :: l2 /\ length l1 = i /\ chain M fat x l2.
Proof.
  intros Hch Hi. pose proof (take_drop_middle _ _ _ Hi) as E. exists (take i (c :: l)), (drop (S i) (c :: l)).
  pose proof (lookup_lt_Some _ _ _ Hi). split; [done|]. split; [rewrite length_take; lia|].
  destruct i as [|i]; [cbn in *; by injection Hi as ->|]. cbn [take app] in E. injection E as E.
  cbn [drop]. rewrite <- E in Hch. by apply chain_suffix in Hch.
Qed.

(** The chain of the file and the position reached in it. *)
Definition at_cluster f (c : Z) (l : list Z) (i : nat) (cur : Z) : Prop :=
  chain M (fat_at f) c l /\ (c :: l) !! i = Some cur.

(** Chains that end elsewhere survive, and still end elsewhere. *)
Definition keeps_others f f' (e e' : Z) : Prop :=
  forall c l, chain M (fat_at f) c l -> end_of c l <> e -> chain M (fat_at f') c l /\ end_of c l <> e'.

Lemma next_or_extend_spec f c l i cur :
  fs_ok M f -> at_cluster f c l i cur -> (Z.to_nat M <= fuel)%nat ->
  (i = length l -> free_from M (fat_at f) 2 <> []) ->
  exists f' l' cur', next_or_extend fuel cur f = Some (f', cur') /\ table_step M f f' /\
    at_cluster f' c l' (S i) cur' /\ keeps_others f f' (end_of c l) (end_of c l') /\
    ((l' = l /\ (i < length l)%nat) \/
     (i = length l /\ exists x, l' = l ++ [x] /\
        free_from M (fat_at f) 2 = x :: free_from M (fat_at f') 2)) /\
    (l' = l -> free_from M (fat_at f') 2 = free_from M (fat_at f) 2).
Proof.
  intros H [Hch Hi] Hf Hfree. pose proof (ok_M _ _ H) as HM. destruct (chain_at _ _ _ _ _ Hch Hi) as (l1 & l2 & E & Hl1 & Hch2).
  assert (Hcur : is_cluster M cur) by apply (Forall_inv (ch_range _ _ _ _ Hch2)).
  unfold next_or_extend. destruct (NextCluster_spec M cur f H) as (b & Hb & ->); [unfold is_cluster in Hcur; lia|].
  cbn [mbind option_bind]. pose proof (table_step_buf M b f H Hb) as Hs1. set (f1 := set_fat_buf b f) in *.
  destruct l2 as [|d l2].
  - pose proof (ch_end _ _ _ _ Hch2) as He. cbn in He.
    rewrite !(decide_True (P := eoc_min <= fat_at f cur)) by done. rewrite decide_True by done.
    assert (Hil : i = length l) by (apply (f_equal length) in E; rewrite length_app in E; cbn in E; lia).
    destruct (free_from M (fat_at f) 2) as [|x rest] eqn:Ef; [by destruct (Hfree Hil)|].
    destruct (ExtendCluster_spec M fuel cur [] 1 f1 (ts_ok _ _ _ Hs1) Hch2) as (f2 & E2 & Hs2 & Hch' & Hsame & Hoth & _);
      [change (fat_at f1) with (fat_at f); rewrite Ef; cbn; lia|done|].
    change (fat_at f1) with (fat_at f) in *. rewrite Ef in *. cbn [app take end_of] in *.
    change (take (Z.to_nat 1) (x :: rest)) with [x] in *. cbn [end_of] in *.
    assert (Hend : end_of c l = cur) by (pose proof (lookup_end c l); congruence).
    exists f2, (l ++ [x]), x. split; [done|]. split; [by eapply table_step_trans|]. split.
    + split.
      * apply (chain_extend_tail (fat_at f)); [lia|done|by rewrite Hend|]. intros y Hy Hfy.
        unfold is_cluster in *. apply Hsame; [lia| |].
        -- intros ->. lia.
        -- intros ->%list_elem_of_singleton. assert (fat_at f x = 0); [|lia].
           apply (elem_of_free M (fat_at f) 2 x). rewrite Ef. by left.
      * rewrite Hil, app_comm_cons. rewrite lookup_app_r by (cbn; lia). by rewrite Nat.sub_diag.
    + split.
      { intros c' l' Hc' Hne. rewrite end_of_app. cbn. split; [apply Hoth; [done|congruence]|].
        pose proof (ch_end _ _ _ _ Hc') as He'. intros Ee. rewrite Ee in He'.
        assert (fat_at f x = 0) as Hz by (apply (elem_of_free M (fat_at f) 2 x); rewrite Ef; by left).
        unfold eoc_min in He'. lia. }
      assert (Hfr : free_from M (fat_at f2) 2 = rest).
      { apply (free_from_taken M (fat_at f) _ x); [done|]. intros y Hy.
        assert (Hfx : is_cluster M x /\ fat_at f x = 0) by (apply (elem_of_free M (fat_at f) 2 x); rewrite Ef; by left).
        unfold is_cluster in *. unfold eoc_min in *.
        destruct (decide (y = cur)) as [->|Hyc]; [|destruct (decide (y = x)) as [->|Hyx]].
        - destruct Hch' as [[Hl' _] _ _]. rewrite Hl'. lia.
        - pose proof (ch_end _ _ _ _ Hch') as He'. cbn in He'. unfold eoc_min in He'. split; [lia|tauto].
        - rewrite Hsame by (lia || by rewrite list_elem_of_singleton). tauto. }
      split; [right; split; [done|]; exists x; by rewrite Hfr|]. intros E'. apply (f_equal length) in E'.
      rewrite length_app in E'. cbn in E'. lia.
  - apply chain_cons in Hch2 as [Hd Hch2]. pose proof (Forall_inv (ch_range _ _ _ _ Hch2)) as Hdr.
    rewrite Hd. rewrite !(decide_False (P := eoc_min <= d)) by (unfold is_cluster in *; lia).
    rewrite decide_False by (unfold is_cluster, end_of_chain, eoc_min in *; lia).
    exists f1, l, d. split; [done|]. split; [done|]. split.
    + split; [exact Hch|]. rewrite E, lookup_app_r by lia. by replace (S i - length l1)%nat with 1%nat by lia.
    + split; [by intros c' l' Hc' Hne|]. split; [|done]. left. split; [done|]. apply (f_equal length) in E. rewrite length_app in E. cbn in E. lia.
Qed.

(** Moving on by [n] clusters takes the missing ones from the free ones. *)
Lemma seek_clusters_spec n : forall f c l i cur,
  fs_ok M f -> at_cluster f c l i cur -> (Z.to_nat M <= fuel)%nat ->
  (i + n <= length l + length (free_from M (fat_at f) 2))%nat ->
  exists f' new cur', seek_clusters fuel n cur f = Some (f', cur') /\ table_step M f f' /\
    at_cluster f' c (l ++ new) (i + n) cur' /\ keeps_others f f' (end_of c l) (end_of c (l ++ new)) /\
    (length l + length (free_from M (fat_at f) 2) <= length (l ++ new) + length (free_from M (fat_at f') 2))%nat.
Proof.
  induction n as [|n IH]; intros f c l i cur H Hat Hf Hfree; cbn [seek_clusters].
  - exists f, [], cur. rewrite app_nil_r, Nat.add_0_r. split; [done|]. split; [by split|]. split; [done|]. split; [by intros c' l' ? ?|]. lia.
  - destruct (next_or_extend_spec f c l i cur H Hat Hf) as (f1 & l1 & cur1 & -> & Hs1 & Hat1 & Hk1 & Hl1 & Hfr).
    { intros -> E. rewrite E in Hfree. cbn in Hfree. lia. }
    cbn [mbind option_bind].
    assert (Hpre : exists new1, l1 = l ++ new1 /\
      (length l1 + length (free_from M (fat_at f1) 2) = length l + length (free_from M (fat_at f) 2))%nat).
    { destruct Hl1 as [(-> & _)|(_ & x & -> & E)].
      - exists []. rewrite app_nil_r. split; [done|]. by rewrite Hfr.
      - exists [x]. split; [done|]. rewrite E, length_app. cbn. lia. }
    destruct Hpre as (new1 & -> & Hlen).
    destruct (IH f1 c (l ++ new1) (S i) cur1 (ts_ok _ _ _ Hs1) Hat1 Hf) as (f2 & new & cur2 & -> & Hs2 & Hat2 & Hk2 & Hl2); [lia|].
    exists f2, (new1 ++ new), cur2. rewrite app_assoc. replace (i + S n)%nat with (S i + n)%nat by lia.
    split; [done|]. split; [by eapply table_step_trans|]. split; [done|]. split; [|lia].
    intros c' l' Hc' Hne. destruct (Hk1 c' l' Hc' Hne). by apply Hk2.
Qed.

(** ** Writing in one cluster *)

Lemma length_content f cs : fs_ok M f -> Forall (is_cluster M) cs ->
  Z.of_nat (length (content f cs)) = bytes_per_cluster f * Z.of_nat (length cs).
Proof.
  intros H. induction 1 as [|c cs Hc _ IH]; [cbn; lia|]. unfold content in *. cbn [fmap list_fmap concat].
  rewrite length_app, Nat2Z.inj_add, IH, (length_data M) by done. cbn [length]. lia.
Qed.

Lemma content_ext f f' cs : (forall x, x ∈ cs -> data_of f' x = data_of f x) -> content f' cs = content f cs.
Proof.
  intros H. unfold content. induction cs as [|c cs IH]; [done|]. cbn [fmap list_fmap concat].
  rewrite H by (by left). f_equal. apply IH. intros x Hx. apply H. by right.
Qed.

(** Changing one cluster changes its part of the content. *)
Lemma content_splice f f' cs i cur w d :
  fs_ok M f -> Forall (is_cluster M) cs -> NoDup cs -> cs !! i = Some cur ->
  data_of f' cur = splice (data_of f cur) w d -> (forall x, x ∈ cs -> x <> cur -> data_of f' x = data_of f x) ->
  Z.of_nat (w + length d) <= bytes_per_cluster f ->
  content f' cs = splice (content f cs) (Z.to_nat (bytes_per_cluster f) * i + w) d.
Proof.
  intros H Hcs Hnd. revert i. induction Hcs as [|c cs Hc Hcs IH]; intros i Hi Hd Hoth Hw; [done|].
  apply list.NoDup_cons in Hnd as [Hn Hnd]. pose proof (length_data M f c H Hc) as Hl.
  unfold content. cbn [fmap list_fmap concat]. fold (content f cs). fold (content f' cs). destruct i as [|i].
  - cbn in Hi. injection Hi as ->. rewrite Hd, (content_ext f f' cs).
    2: { intros x Hx. apply Hoth; [by right|]. by intros ->. }
    rewrite Nat.mul_0_r. cbn [Nat.add]. unfold splice. rewrite take_app_le, drop_app_le by lia.
    by rewrite <- !app_assoc.
  - cbn in Hi. assert (Hne : c <> cur) by (intros ->; apply Hn; by eapply list_elem_of_lookup_2).
    rewrite (Hoth c) by (done || by left).
    rewrite (IH Hnd i Hi Hd) by (done || (intros x Hx; apply Hoth; by right)).
    rewrite Nat.mul_succ_r. unfold splice.
    replace (Z.to_nat (bytes_per_cluster f) * i + Z.to_nat (bytes_per_cluster f) + w)%nat
      with (length (data_of f c) + (Z.to_nat (bytes_per_cluster f) * i + w))%nat by lia.
    rewrite take_app_add', <- !app_assoc by done. f_equal. f_equal. f_equal.
    rewrite <- (Nat.add_assoc (length (data_of f c)) _ (length d)). by rewrite drop_app_add.
Qed.

Lemma chain_agree fat fat' c l :
  M <= eoc_min -> (forall x, is_cluster M x -> fat' x = fat x) -> chain M fat c l -> chain M fat' c l.
Proof.
  intros HM Hag [Hl Hr He]. split; [by apply (links_agree M fat); auto|done|].
  rewrite Hag; [done|]. rewrite Forall_forall in Hr. apply Hr, list_elem_of_In, end_of_elem.
Qed.

(** Writing [d] into cluster [cur] at [w], up to the update of the volume. *)
Definition written_buf f (cur : Z) (w : nat) (d : list Z) : @FileSystem D :=
  set_cluster_buf (splice (data_of f cur) w d) (set_cluster_buf (data_of f cur) (set_cluster_num cur f)).

Lemma write_turn f cur w d :
  fs_ok M f -> is_cluster M cur -> Z.of_nat (w + length d) <= bytes_per_cluster f ->
  exists f', UpdateCluster cur (written_buf f cur w d) = Some f' /\ data_step f f' cur (splice (data_of f cur) w d).
Proof.
  intros H Hc Hw. destruct (read_reading M f cur H Hc) as [Hrd _].
  pose proof (length_data M f cur H Hc) as Hl.
  assert (H3 : fs_ok M (written_buf f cur w d)).
  { destruct (rd_ok _ _ _ Hrd). split; try done. unfold written_buf. cbn [cluster_buf set_cluster_buf].
    rewrite length_splice by lia. cbn. lia. }
  destruct (UpdateCluster_spec (written_buf f cur w d) cur H3 Hc) as (f' & E & [Hok Hb Hbpc Hfat Hdata Hoth] & _).
  exists f'. split; [exact E|]. split; try done.
Qed.

(** A turn of [write_loop] that does not move on. *)
Lemma write_loop_turn turns arg len off w cur f n d :
  fs_ok M f -> is_cluster M cur -> length arg = arg_size -> 0 < len <= 16 -> 0 <= off < len -> 0 <= w < bytes_per_cluster f ->
  n = Z.min len (bytes_per_cluster f - w) -> d = slice arg (write_data + Z.to_nat off) (Z.to_nat n) ->
  exists f', write_loop fuel (S turns) arg len off w cur f = write_loop fuel turns arg len (off + n) (w + n) cur f' /\
    data_step f f' cur (splice (data_of f cur) (Z.to_nat w) d) /\ length d = Z.to_nat n.
Proof.
  intros H Hc Ha Hlen Hoff Hw Hn Hd. unfold arg_size in Ha. assert (Hld : length d = Z.to_nat n)
    by (rewrite Hd; apply length_slice; unfold write_data; lia).
  destruct (write_turn f cur (Z.to_nat w) d H Hc) as (f' & E & Hs); [lia|].
  exists f'. split; [|done]. cbn [write_loop]. rewrite decide_True by lia. rewrite decide_False by lia.
  cbn [mbind option_bind]. rewrite (ReadCluster_spec M) by done. cbn [mbind option_bind].
  change (bytes_per_cluster (set_cluster_buf _ _)) with (bytes_per_cluster f). rewrite <- Hn.
  rewrite read_at_Some by (unfold write_data; lia). cbn [mbind option_bind]. rewrite <- Hd.
  cbn [cluster_buf set_cluster_buf]. pose proof (length_data M f cur H Hc).
  rewrite write_at_Some by lia. cbn [mbind option_bind]. fold (written_buf f cur (Z.to_nat w) d). by rewrite E.
Qed.

Lemma write_loop_done turns arg len off w cur f : len <= off -> write_loop fuel (S turns) arg len off w cur f = Some f.
Proof. intros. cbn [write_loop]. by rewrite decide_False by lia. Qed.

(** A turn that starts at the end of a cluster moves on first. *)
Lemma write_loop_next turns arg len off cur f f1 cur1 :
  fs_ok M f -> off < len -> next_or_extend fuel cur f = Some (f1, cur1) -> bytes_per_cluster f1 = bytes_per_cluster f ->
  write_loop fuel (S turns) arg len off (bytes_per_cluster f) cur f = write_loop fuel (S turns) arg len off 0 cur1 f1.
Proof.
  intros H Hoff E Hb. cbn [write_loop]. rewrite !(decide_True (P := off < len)) by done.
  rewrite (decide_True (P := bytes_per_cluster f = bytes_per_cluster f)) by done. rewrite E. cbn [mbind option_bind].
  rewrite Hb. pose proof (ok_bpc _ _ H). pose proof (ok_spc _ _ H). by rewrite decide_False by lia.
Qed.

Lemma at_chain_nodup f c l i cur : fs_ok M f -> at_cluster f c l i cur ->
  Forall (is_cluster M) (c :: l) /\ NoDup (c :: l) /\ is_cluster M cur.
Proof.
  intros H [Hch Hi]. pose proof (ok_M _ _ H) as HM. pose proof (ch_range _ _ _ _ Hch) as Hr. split; [done|].
  split; [apply (chain_NoDup M (fat_at f)); [lia|done]|]. by apply (Forall_lookup_1 _ _ _ _ Hr Hi).
Qed.

Record write_post f f' (c : Z) (l : list Z) (pos : nat) (len : nat) (d : list Z) (new written : list Z) : Prop := {
  wp_ok : fs_ok M f';
  wp_bpb : bpb f' = bpb f;
  wp_bpc : bytes_per_cluster f' = bytes_per_cluster f;
  wp_chain : chain M (fat_at f') c (l ++ new);
  wp_others : keeps_others f f' (end_of c l) (end_of c (l ++ new));
  wp_content : content f' (c :: l ++ new) = splice (content f (c :: l ++ new)) pos written;
  wp_written : take len written = d;
  wp_bound : (pos + length written <= length (content f (c :: l ++ new)))%nat;
  wp_data : forall x, is_cluster M x -> x ∉ c :: l ++ new -> data_of f' x = data_of f x;
}.

Lemma splice_splice_next (a b1 b2 : list Z) p :
  (p + length b1 + length b2 <= length a)%nat ->
  splice (splice a p b1) (p + length b1) b2 = splice a p (b1 ++ b2).
Proof.
  intros H. apply list_eq. intros i.
  rewrite !lookup_splice by (rewrite ?length_splice, ?length_app by lia; lia). rewrite length_app.
  repeat case_decide; try lia; try done.
  - rewrite lookup_app_r by lia. f_equal. lia.
  - by rewrite lookup_app_l by lia.
Qed.

Lemma write_file_spec f c l i cur arg len w :
  fs_ok M f -> at_cluster f c l i cur -> length arg = arg_size -> 0 < len <= 16 ->
  0 <= w < bytes_per_cluster f -> (Z.to_nat M <= fuel)%nat ->
  (bytes_per_cluster f < w + len -> i = length l -> free_from M (fat_at f) 2 <> []) ->
  exists f' new written, write_loop fuel (S (Z.to_nat len)) arg len 0 w cur f = Some f' /\
    write_post f f' c l (Z.to_nat (bytes_per_cluster f) * i + Z.to_nat w) (Z.to_nat len)
      (slice arg write_data (Z.to_nat len)) new written /\
    (w + len <= bytes_per_cluster f -> length written = Z.to_nat len).
Proof.
  intros H Hat Ha Hlen Hw Hf Hfree. pose proof (ok_M _ _ H) as HM. pose proof (ok_bpc _ _ H) as Hbpc. pose proof (ok_spc _ _ H) as Hspc.
  destruct (at_chain_nodup _ _ _ _ _ H Hat) as (Hr & Hnd & Hc).
  pose proof (length_content f (c :: l) H Hr) as Hlc. destruct Hat as [Hch Hi].
  pose proof (lookup_lt_Some _ _ _ Hi) as Hil.
  set (bpc := bytes_per_cluster f) in *. set (n := Z.min len (bpc - w)).
  destruct (Z.to_nat len) as [|t] eqn:Et; [lia|].
  destruct (write_loop_turn (S t) arg len 0 w cur f n (slice arg write_data (Z.to_nat n)) H Hc Ha Hlen ltac:(lia) Hw eq_refl)
    as (f1 & -> & [Hok1 Hb1 Hbpc1 Hfat1 Hd1 Ho1] & Hld); [done|].
  set (d1 := slice arg write_data (Z.to_nat n)) in *.
  assert (Hch1 : chain M (fat_at f1) c l) by (apply (chain_agree (fat_at f)); [lia|intros x Hx; apply Hfat1; unfold is_cluster in Hx; lia|done]).
  assert (Hcont1 : content f1 (c :: l) = splice (content f (c :: l)) (Z.to_nat bpc * i + Z.to_nat w) d1).
  { apply (content_splice f f1 (c :: l) i cur (Z.to_nat w) d1 H Hr Hnd Hi Hd1); [|fold bpc; lia].
    intros x Hx Hne. apply Ho1; [|done]. rewrite Forall_forall in Hr. by apply Hr, list_elem_of_In. }
  destruct (decide (w + len <= bpc)) as [Hfit|Hcross].
  - assert (Hn : n = len) by lia. rewrite write_loop_done by lia. exists f1, [], d1. split; [done|].
    assert (Hld' : length d1 = S t) by lia. split; [|done]. split; rewrite ?app_nil_r; try done.
    + intros c' l' Hc' Hne. split; [|done].
      apply (chain_agree (fat_at f)); [lia|intros x Hx; apply Hfat1; unfold is_cluster in Hx; lia|done].
    + rewrite take_ge by lia. unfold d1. f_equal. lia.
    + cbn [length] in *. nia.
    + intros x Hx Hout. apply Ho1; [done|]. intros ->. apply Hout. by eapply list_elem_of_lookup_2.
  - assert (Hn : n = bpc - w) by lia. rewrite Z.add_0_l.
    replace (w + n) with (bytes_per_cluster f1) by (rewrite Hbpc1; lia).
    assert (Hffree : free_from M (fat_at f1) 2 = free_from M (fat_at f) 2)
      by (apply free_from_ext; intros x Hx; by rewrite Hfat1 by lia).
    destruct (next_or_extend_spec f1 c l i cur Hok1 (conj Hch1 Hi) Hf) as (f2 & l2 & cur2 & En & Hs2 & Hat2 & Hk2 & Hl2 & _).
    { intros Hil2. rewrite Hffree. apply Hfree; [lia|done]. }
    assert (Hl2' : exists new, l2 = l ++ new).
    { destruct Hl2 as [(-> & _)|(_ & x & -> & _)]; [exists []; by rewrite app_nil_r|by exists [x]]. }
    destruct Hl2' as (new & ->).
    destruct (at_chain_nodup _ _ _ _ _ (ts_ok _ _ _ Hs2) Hat2) as (Hr2 & Hnd2 & Hc2). destruct Hat2 as [Hch2 Hi2].
    assert (Hbpc2 : bytes_per_cluster f2 = bpc) by (rewrite (ts_bpc _ _ _ Hs2); done).
    destruct t as [|t]; [lia|].
    rewrite (write_loop_next _ arg len n cur f1 f2 cur2) by (done || lia || by rewrite Hbpc2).
    set (d2 := slice arg (write_data + Z.to_nat n) (Z.to_nat len)).
    destruct (write_loop_turn (S t) arg len n 0 cur2 f2 len d2 (ts_ok _ _ _ Hs2) Hc2 Ha Hlen)
      as (f3 & -> & [Hok3 Hb3 Hbpc3 Hfat3 Hd3 Ho3] & Hld2); [lia|lia|rewrite Hbpc2; lia|done|].
    rewrite write_loop_done by lia. exists f3, new, (d1 ++ d2). split; [done|]. split; [|lia].
    assert (Hfat31 : forall x, is_cluster M x -> fat_at f3 x = fat_at f2 x)
      by (intros x Hx; apply Hfat3; unfold is_cluster in Hx; lia).
    assert (Hfat10 : forall x, is_cluster M x -> fat_at f1 x = fat_at f x)
      by (intros x Hx; apply Hfat1; unfold is_cluster in Hx; lia).
    assert (Hcs : Forall (is_cluster M) (c :: l ++ new)) by done.
    assert (Hi' : (c :: l ++ new) !! i = Some cur) by (rewrite app_comm_cons; by apply lookup_app_l_Some).
    assert (Hlcn : Z.of_nat (length (content f (c :: l ++ new))) = bpc * Z.of_nat (S (length l + length new))).
    { rewrite (length_content f) by done. cbn [length]. by rewrite length_app. }
    pose proof (lookup_lt_Some _ _ _ Hi2) as Hil2. cbn [length] in Hil2. rewrite length_app in Hil2.
    assert (Hc1n : content f1 (c :: l ++ new) = splice (content f (c :: l ++ new)) (Z.to_nat bpc * i + Z.to_nat w) d1).
    { apply (content_splice f f1 (c :: l ++ new) i cur (Z.to_nat w) d1 H Hcs Hnd2 Hi' Hd1); [|fold bpc; lia].
      intros x Hx Hne. apply Ho1; [|done]. rewrite Forall_forall in Hcs. by apply Hcs, list_elem_of_In. }
    assert (Hc2n : content f2 (c :: l ++ new) = content f1 (c :: l ++ new)).
    { apply content_ext. intros x Hx. apply (table_step_data M f1); [done|done|].
      rewrite Forall_forall in Hcs. by apply Hcs, list_elem_of_In. }
    assert (Hc3n : content f3 (c :: l ++ new) = splice (content f2 (c :: l ++ new)) (Z.to_nat (bytes_per_cluster f2) * S i + Z.to_nat 0) d2).
    { apply (content_splice f2 f3 (c :: l ++ new) (S i) cur2 (Z.to_nat 0) d2 (ts_ok _ _ _ Hs2) Hcs Hnd2 Hi2 Hd3); [|rewrite Hbpc2; lia].
      intros x Hx Hne. apply Ho3; [|done]. rewrite Forall_forall in Hcs. by apply Hcs, list_elem_of_In. }
    split; try done.
    + by rewrite Hb3, (ts_bpb _ _ _ Hs2).
    + by rewrite Hbpc3, Hbpc2.
    + apply (chain_agree (fat_at f2)); [lia|done|done].
    + intros c' l' Hc' Hne. destruct (Hk2 c' l') as [Hx Hy]; [|done|].
      { by apply (chain_agree (fat_at f)); [lia| |]. }
      split; [|done]. by apply (chain_agree (fat_at f2)); [lia| |].
    + rewrite Hc3n, Hc2n, Hc1n, Hbpc2.
      replace (Z.to_nat bpc * S i + Z.to_nat 0)%nat with (Z.to_nat bpc * i + Z.to_nat w + length d1)%nat by lia.
      apply splice_splice_next. nia.
    + rewrite take_app_ge by lia. rewrite Hld. unfold d1, d2, slice.
      rewrite take_take, Nat.min_l by lia. rewrite <- drop_drop.
      rewrite take_take_drop. f_equal. lia.
    + rewrite length_app. nia.
    + intros x Hx Hout. rewrite Ho3; [|done|].
      * rewrite (table_step_data M f1 f2) by done. apply Ho1; [done|]. intros ->. apply Hout. by eapply list_elem_of_lookup_2.
      * intros ->. apply Hout. by eapply list_elem_of_lookup_2.
Qed.

(** Seeking and writing together, after the volume was read. *)
Lemma seek_write_spec f c l arg len off :
  fs_ok M f -> chain M (fat_at f) c l -> length arg = arg_size -> 0 < len <= 16 -> 0 <= off ->
  (Z.to_nat M <= fuel)%nat ->
  off / bytes_per_cluster f + 1 <= Z.of_nat (length l + length (free_from M (fat_at f) 2)) ->
  exists f2 cur f' new written,
    seek_clusters fuel (Z.to_nat (off / bytes_per_cluster f)) c f = Some (f2, cur) /\
    write_loop fuel (S (Z.to_nat len)) arg len 0 (off mod bytes_per_cluster f) cur f2 = Some f' /\
    write_post f f' c l (Z.to_nat off) (Z.to_nat len) (slice arg write_data (Z.to_nat len)) new written /\
    (off mod bytes_per_cluster f + len <= bytes_per_cluster f -> length written = Z.to_nat len).
Proof.
  intros H Hch Ha Hlen Hoff Hf Hfree. pose proof (ok_bpc _ _ H) as Hbpc. pose proof (ok_spc _ _ H) as Hspc.
  set (bpc := bytes_per_cluster f) in *. pose proof (Z.div_mod off bpc ltac:(lia)) as Hdm.
  pose proof (Z.mod_pos_bound off bpc ltac:(lia)) as Hm. pose proof (Z.div_pos off bpc ltac:(lia) ltac:(lia)) as Hd.
  destruct (seek_clusters_spec (Z.to_nat (off / bpc)) f c l 0 c H) as (f2 & new1 & cur & E2 & Hs2 & Hat2 & Hk2 & Hl2);
    [by split|done|lia|]. cbn [Nat.add] in Hat2.
  assert (Hb2 : bytes_per_cluster f2 = bpc) by apply (ts_bpc _ _ _ Hs2).
  destruct (write_file_spec f2 c (l ++ new1) (Z.to_nat (off / bpc)) cur arg len (off mod bpc) (ts_ok _ _ _ Hs2) Hat2)
    as (f' & new2 & written & E & [Hok Hbp Hbc Hchn Hoth Hcont Hwr Hbd Hdat] & Hfit); try (done || lia).
  { rewrite Hb2. intros _ Hil Hnil. rewrite Hnil in Hl2. cbn in Hl2. lia. }
  exists f2, cur, f', (new1 ++ new2), written. split; [done|]. split; [done|]. rewrite <- app_assoc in *.
  assert (Hcs : Forall (is_cluster M) (c :: l ++ new1 ++ new2)) by apply (ch_range _ _ _ _ Hchn).
  assert (Hpos : (Z.to_nat (bytes_per_cluster f2) * Z.to_nat (off / bpc) + Z.to_nat (off mod bpc) = Z.to_nat off)%nat)
    by (rewrite Hb2; nia).
  assert (Hc2 : content f2 (c :: l ++ new1 ++ new2) = content f (c :: l ++ new1 ++ new2)).
  { apply content_ext. intros x Hx. apply (table_step_data M f); [done|done|].
    rewrite Forall_forall in Hcs. by apply Hcs, list_elem_of_In. }
  rewrite Hpos, Hc2 in Hcont, Hbd. rewrite Hb2 in Hfit. split; [|exact Hfit].
  split; try done.
  - by rewrite Hbp, (ts_bpb _ _ _ Hs2).
  - by rewrite Hbc, Hb2.
  - intros c' l' Hc' Hne. destruct (Hk2 c' l' Hc' Hne) as [Hx Hy]. by apply Hoth.
  - intros x Hx Hout. rewrite Hdat by done. by apply (table_step_data M f f2).
Qed.

Lemma write_post_reading f1 f f' c l pos len d new written :
  reading M f1 f -> write_post f f' c l pos len d new written -> write_post f1 f' c l pos len d new written.
Proof.
  intros Hr [Hok Hbp Hbc Hchn Hoth Hcont Hwr Hbd Hdat]. pose proof (reading_content M f1 f (c :: l ++ new) Hr) as Hc.
  rewrite Hc in *. split; try done.
  - by rewrite Hbp, (rd_bpb _ _ _ Hr).
  - by rewrite Hbc, (rd_bpc _ _ _ Hr).
  - intros c' l' Hc' Hne. apply Hoth; [by apply (reading_chain M f1)|done].
  - intros x Hx Hout. rewrite Hdat by done. by apply (reading_data M).
Qed.

(** C16. A write request puts its bytes at its offset in the file: for a path
    that resolves to a file with clusters and enough free ones on the volume, the handler always returns; the file's
    chain keeps its clusters, extended by new ones if the offset lies behind
    them, and its content changes from the offset on only, where it starts with the bytes of the
    request; nothing more is written unless the request crosses from a cluster to
    the next. The other chains of the volume and the data of clusters outside the file's stay. *)
Theorem WriteState_writes (absolute : bool) ns e l s :
  fs_ok M (fs s) -> length (arg (rm s)) = arg_size ->
  getS write_filename (rm s) = Some ((if absolute then [char_slash] else []) ++ path_of ns) ->
  Forall name_ok ns -> resolve M (fs s) (dir_start (fs s) 0) ns (Some e) ->
  chain M (fat_at (fs s)) (FirstCluster e) l -> (Z.to_nat M <= fuel)%nat ->
  let len := getU write_len (rm s) in let off := getU write_offset (rm s) in
  let bpc := bytes_per_cluster (fs s) in
  0 < len <= 16 -> 0 <= off ->
  off / bpc + 1 <= Z.of_nat (length l + length (free_from M (fat_at (fs s)) 2)) ->
  exists s' new written, WriteState_HandleMessage fuel s = Some s' /\
    write_post (fs s) (fs s') (FirstCluster e) l (Z.to_nat off) (Z.to_nat len)
      (slice (arg (rm s)) write_data (Z.to_nat len)) new written /\
    (off mod bpc + len <= bpc -> length written = Z.to_nat len) /\
    state s' = StateWrite /\ out s' = out s.
Proof.
  intros H Ha Hpath Hok Hres Hch Hf. cbn zeta. intros Hlen Hoff Hfree.
  pose proof (ok_bpc _ _ H) as Hbpc. pose proof (ok_spc _ _ H) as Hspc.
  unfold WriteState_HandleMessage. rewrite Hpath. cbn [mbind option_bind]. rewrite decide_False by lia.
  destruct (FindFile_spec M fuel absolute ns 0 (Some e) (fs s) H Hok) as (f1 & i & post & -> & Hr & Hfd);
    [by destruct absolute|done|].
  cbn [mbind option_bind]. destruct i as [i|]; [|done]. destruct Hfd as (He & _ & _). cbn [mbind option_bind].
  pose proof (Forall_inv (ch_range _ _ _ _ Hch)) as Hc.
  unfold first_cluster. rewrite He. rewrite decide_True by (unfold is_cluster in Hc; lia). cbn [mbind option_bind].
  cbn [rm set_target]. rewrite decide_False by lia.
  assert (Hfr1 : free_from M (fat_at f1) 2 = free_from M (fat_at (fs s)) 2).
  { apply free_from_ext. intros x _. by rewrite (reading_fat M (fs s) f1). }
  destruct (seek_write_spec f1 (FirstCluster e) l (arg (rm s)) (getU write_len (rm s)) (getU write_offset (rm s)))
    as (f2 & cur & f' & new & written & E2 & E & Hpost & Hfit); try done.
  - apply Hr.
  - by apply (reading_chain M (fs s)).
  - by rewrite Hfr1, (rd_bpc _ _ _ Hr).
  - rewrite (rd_bpc _ _ _ Hr) in *. cbn [rm set_target]. rewrite E2. cbn [mbind option_bind]. rewrite E. cbn [mbind option_bind].
    eexists _, new, written. split; [done|]. split; [|by split]. by apply (write_post_reading (fs s) f1).
Qed.
End write.

(** Ten bytes written to HELLO.TXT at offset 1020, across the end of its last
    cluster: the chain gets cluster 4. *)
Definition write_server : @Server (list Z) :=
  MkServer sample_fs 1 StateWrite (zero_message kError)
    (setF write_offset 1020 (setF write_len 10 (setF write_count 10
      (default (zero_message kWrite) (putB write_data (replicate 10 3)
        (default (zero_message kWrite) (putS write_filename [104; 101; 108; 108; 111; 46; 116; 120; 116] (zero_message kWrite))))))))
    None 0 [] [].

Lemma WriteState_writes_witness :
  exists s' new written, WriteState_HandleMessage 10 write_server = Some s' /\
    content (fs s') (3 :: [5] ++ new) = splice (content sample_fs (3 :: [5] ++ new)) 1020 written /\
    take 10 written = replicate 10 3.
Proof.
  assert (Hroot : chain 10 (fat_at sample_fs) 2 []) by
    (split; [vm_compute; repeat split|repeat constructor; done|vm_compute; congruence]).
  destruct (WriteState_writes 10 10 false [[104; 101; 108; 108; 111; 46; 116; 120; 116]]
    (make_entry hello_txt 32 3 600) [5] write_server) as (s' & new & written & E & Hp & _).
  - apply sample_fs_ok.
  - reflexivity.
  - vm_compute. reflexivity.
  - repeat constructor; done || (cbn; lia).
  - eapply res_here; [exists []; split; [exact Hroot|reflexivity]|vm_compute; reflexivity|by left].
  - exact sample_chain.
  - cbn. lia.
  - vm_compute. split; congruence.
  - vm_compute. congruence.
  - vm_compute. congruence.
  - exists s', new, written. split; [exact E|]. destruct Hp as [_ _ _ _ _ Hc Hw _ _]. split; [exact Hc|].
    refine (eq_trans Hw _). vm_compute. reflexivity.
Defined.
