(* ===== verification/AmFd.v ===== *)
(** * File descriptors of the application manager (servers/am/filedescriptor.cpp)

    The three kinds of descriptor and their operations. An operation answers a
    request of an application by messages; those it waits for are taken from
    the messages sent to the manager, in order of arrival. *)

From S2P Require Import Prelude Bytes Message.
From stdpp Require Import base list numbers option.
From Stdlib Require Import ZArith Lia.

Local Open Scope Z_scope.

(** ** Messages in and out *)

(** What the manager does to other tasks. [Refused] is the retry error with
    which the kernel answers a message that a closed receive does not accept. *)
Inductive action :=
| Send (m : Message) (to : Z)
| Refused (m : Message)
| CreateNewTask
| SetCommand (id : Z) (command : list Z)
| SetArgument (id : Z) (argument : list Z).

(** The messages still to be received and the actions so far. *)
Record Mail := MkMail { inbox : list Message; out : list action }.

Definition act (a : action) (w : Mail) : Mail := MkMail (inbox w) (out w ++ [a]).
Definition send (m : Message) (to : Z) : Mail -> Mail := act (Send m to).

(** A closed receive of one message from [from] (see [ClosedReceiveMessage]). *)
Fixpoint closed_receive (from : Z) (msgs : list Message) (o : list action) : outcome (Message * Mail) :=
  match msgs with
  | [] => Waits
  | m :: msgs' =>
      if decide (src_task m = from) then Ok (m, MkMail msgs' o)
      else closed_receive from msgs' (o ++ [Refused m])
  end.

Definition ClosedReceive (from : Z) (w : Mail) : outcome (Message * Mail) :=
  closed_receive from (inbox w) (out w).

(** [while (1) { SyscallClosedReceiveMessage(&m, 1, from); body }]: the body
    goes round again ([inl]) or leaves the loop ([inr]). *)
Section receive_loop.
Context {S R : Type} (mail : S -> Mail) (set_mail : Mail -> S -> S).
Context (from : Z) (body : Message -> S -> outcome (S + R)).

Fixpoint receive_loop (fuel : nat) (s : S) : outcome R :=
  match fuel with
  | O => Waits
  | Datatypes.S fuel' =>
      '(m, w) ← ClosedReceive from (mail s);
      r ← body m (set_mail w s);
      match r with
      | inl s' => receive_loop fuel' s'
      | inr x => Ok x
      end
  end.
End receive_loop.

(** ** Descriptors *)

(** The kinds of [FileDescriptor]; strings are without their terminator.
    [src/servers/am/filedescriptor.hpp:7-66] [FileDescriptor] *)
Inductive FileDescriptor :=
| TerminalFd (id terminal_server_id : Z)
| FatFd (id : Z) (filename : list Z) (rd_off rd_cluster wr_off : Z)
| PipeFd (id : Z) (data : list Z) (len : Z) (closed : bool).

Section descriptors.
(** [junk] is what an uninitialised [Message] holds; the system call
    [FindServer] answers a task and an error. *)
Context (junk : list Z) (find_server : list Z -> Z * Z).

(** "servers/terminal" and "servers/fs". *)
Definition servers_terminal : list Z :=
  [115; 101; 114; 118; 101; 114; 115; 47; 116; 101; 114; 109; 105; 110; 97; 108].
Definition servers_fs : list Z := [115; 101; 114; 118; 101; 114; 115; 47; 102; 115].

Definition uninit (t : MsgType) : Message := MkMessage t 0 junk.

(** [strcpy] into a [char[32]] member. *)
Definition strcpy32 (s : list Z) : outcome (list Z) :=
  if decide (length s < 32)%nat then Ok s else Undefined.

(** [src/servers/am/filedescriptor.cpp:8-11] [TerminalFileDescriptor::TerminalFileDescriptor] *)
Definition new_TerminalFd (id : Z) : FileDescriptor := TerminalFd id (fst (find_server servers_terminal)).

(** [src/servers/am/filedescriptor.cpp:45-47] [FatFileDescriptor::FatFileDescriptor] *)
Definition new_FatFd (id : Z) (filename : list Z) : outcome FileDescriptor :=
  name ← strcpy32 filename; Ok (FatFd id name 0 0 0).

(** [data_] is uninitialised.
    [src/servers/am/filedescriptor.cpp:118-118] [PipeFileDescriptor::PipeFileDescriptor] *)
Definition new_PipeFd (id : Z) : FileDescriptor := PipeFd id (take data_size junk) 0 false.

(** [src/servers/am/filedescriptor.cpp:13-20] [TerminalFileDescriptor::Write] *)
Definition Terminal_Write (id terminal : Z) (msg : Message) (w : Mail) : Mail :=
  send (uninit kReceived) id (send msg terminal w).

(** [src/servers/am/filedescriptor.cpp:21-43] [TerminalFileDescriptor::Read] *)
Definition Terminal_Read (id terminal : Z) (msg : Message) (w : Mail) : outcome Mail :=
  '(rmsg, w) ← ClosedReceive terminal (send msg terminal w);
  Ok (match type rmsg with
      | kRead => send (setF read_len 0 (uninit kRead)) id (send rmsg id w)
      | _ => send (setF error_retry 0 (uninit kError)) terminal w
      end).

(** The position in the file and the mail while a request is forwarded. *)
Record FatVars := MkFatVars { v_off : Z; v_cluster : Z; v_mail : Mail }.
Definition set_v_mail (w : Mail) (v : FatVars) : FatVars := MkFatVars (v_off v) (v_cluster v) w.

(** [src/servers/am/filedescriptor.cpp:65-75] [FatFileDescriptor::Read] *)
Definition Fat_Read_body (id : Z) (rmsg : Message) (v : FatVars) : outcome (FatVars + FatVars) :=
  let w := send rmsg id (v_mail v) in
  Ok (if decide (getU read_len rmsg <> 0) then
        inl (MkFatVars (u64 (v_off v + getU read_len rmsg)) (getU read_cluster rmsg) w)
      else inr (set_v_mail w v)).

(** [src/servers/am/filedescriptor.cpp:49-78] [FatFileDescriptor::Read] *)
Definition Fat_Read (id : Z) (filename : list Z) (rd_off rd_cluster : Z) (msg : Message) (w : Mail) :
    outcome FatVars :=
  msg ← defined (putS read_filename filename (setF read_cluster rd_cluster (setF read_offset rd_off msg)));
  let '(fs_id, err) := find_server servers_fs in
  if decide (err <> 0) then
    Ok (MkFatVars rd_off rd_cluster (send (setF error_retry 0 (set_type kError msg)) id w))
  else
    let w := send msg fs_id w in
    receive_loop v_mail set_v_mail fs_id (Fat_Read_body id) (S (length (inbox w)))
      (MkFatVars rd_off rd_cluster w).

(** One message is forwarded to the file system and acknowledged.
    [src/servers/am/filedescriptor.cpp:89-96] [FatFileDescriptor::Write] *)
Definition Fat_forward (id fs_id : Z) (filename : list Z) (msg : Message) (v : FatVars) : outcome FatVars :=
  m ← defined (putS write_filename filename msg);
  let m := setF write_offset (v_off v) m in
  Ok (MkFatVars (u64 (v_off v + getU write_len m)) (v_cluster v)
        (send (uninit kReceived) id (send m fs_id (v_mail v)))).

(** [src/servers/am/filedescriptor.cpp:97-113] [FatFileDescriptor::Write] *)
Definition Fat_Write_body (id fs_id : Z) (filename : list Z) (rmsg : Message) (v : FatVars) :
    outcome (FatVars + FatVars) :=
  match type rmsg with
  | kWrite =>
      v' ← Fat_forward id fs_id filename rmsg v;
      Ok (if decide (getU write_len rmsg = 0) then inr v' else inl v')
  | _ => Ok (inl v)
  end.

(** [src/servers/am/filedescriptor.cpp:80-116] [FatFileDescriptor::Write] *)
Definition Fat_Write (id : Z) (filename : list Z) (wr_off : Z) (msg : Message) (w : Mail) : outcome FatVars :=
  let '(fs_id, err) := find_server servers_fs in
  if decide (err <> 0) then
    Ok (MkFatVars wr_off 0 (send (setF error_retry 0 (set_type kError msg)) id w))
  else
    v ← Fat_forward id fs_id filename msg (MkFatVars wr_off 0 w);
    receive_loop v_mail set_v_mail id (Fat_Write_body id fs_id filename) (S (length (inbox (v_mail v)))) v.

(** The bytes [data_] and [len_] of a pipe after a request, and the mail.
    [src/servers/am/filedescriptor.cpp:120-165] [PipeFileDescriptor::Read] *)
Definition Pipe_Read (id : Z) (data : list Z) (len : Z) (closed : bool) (msg : Message) (w : Mail) :
    outcome (list Z * Z * Mail) :=
  if closed then Ok (data, len, send (setF read_len 0 (uninit kRead)) (src_task msg) w)
  else
    let count := getU read_count msg in
    if decide (len = 0) then
      Ok (data, len, send (setF error_retry 1 (uninit kError)) (src_task msg) w)
    else if decide (len <= count) then
      chunk ← defined (read_at data 0 (Z.to_nat len));
      smsg ← defined (putB read_data chunk (uninit kRead));
      let smsg := setF read_len len smsg in
      let w := send (setF read_len 0 smsg) (src_task msg) (send smsg (src_task msg) w) in
      Ok (replicate data_size 0, 0, send (set_type kReceived (setF read_len 0 smsg)) id w)
    else
      chunk ← defined (read_at data 0 (Z.to_nat count));
      smsg ← defined (putB read_data chunk (uninit kRead));
      let smsg := setF read_len count smsg in
      rest ← defined (read_at data (Z.to_nat count) (Z.to_nat (len - count)));
      Ok (splice data 0 rest, len - count,
          send (setF read_len 0 smsg) (src_task msg) (send smsg (src_task msg) w)).

(** The length is not compared with the 16 bytes of [data_]; a [memcpy] of more
    writes behind the array and is undefined behaviour here.
    [src/servers/am/filedescriptor.cpp:167-192] [PipeFileDescriptor::Write] *)
Definition Pipe_Write (id : Z) (data : list Z) (len : Z) (closed : bool) (msg : Message) (w : Mail) :
    outcome (list Z * Z * Mail) :=
  if closed then Ok (data, len, send (setF error_retry 0 (uninit kError)) id w)
  else if decide (len = 0) then
    if decide (getU write_len msg <> 0) then
      let len := getU write_len msg in
      chunk ← defined (read_at (arg msg) write_data (Z.to_nat len));
      data ← defined (write_at data 0 chunk);
      Ok (data, len, w)
    else Ok (data, len, send (uninit kReceived) id w)
  else Ok (data, len, send (setF error_retry 1 (uninit kError)) id w).

(** [src/servers/am/filedescriptor.hpp:10-11] [FileDescriptor] *)
Definition Read (d : FileDescriptor) (msg : Message) (w : Mail) : outcome (FileDescriptor * Mail) :=
  match d with
  | TerminalFd id t => w ← Terminal_Read id t msg w; Ok (d, w)
  | FatFd id name ro rc wo =>
      v ← Fat_Read id name ro rc msg w; Ok (FatFd id name (v_off v) (v_cluster v) wo, v_mail v)
  | PipeFd id data len c => '(data, len, w) ← Pipe_Read id data len c msg w; Ok (PipeFd id data len c, w)
  end.
Definition Write (d : FileDescriptor) (msg : Message) (w : Mail) : outcome (FileDescriptor * Mail) :=
  match d with
  | TerminalFd id t => Ok (d, Terminal_Write id t msg w)
  | FatFd id name ro rc wo =>
      v ← Fat_Write id name wo msg w; Ok (FatFd id name ro rc (v_off v), v_mail v)
  | PipeFd id data len c => '(data, len, w) ← Pipe_Write id data len c msg w; Ok (PipeFd id data len c, w)
  end.

(** [src/servers/am/filedescriptor.cpp:194-201] [PipeFileDescriptor::Close] *)
Definition Close (d : FileDescriptor) (w : Mail) : FileDescriptor * Mail :=
  match d with
  | PipeFd id data len _ => (PipeFd id data len true, send (setF error_retry 0 (uninit kError)) id w)
  | _ => (d, w)
  end.
End descriptors.
