(* ===== verification/AmPipe.v ===== *)
(** * Pipes between applications (servers/am/filedescriptor.cpp)

    A pipe holds what one write request carried until readers took all of it.
    It refines a queue of bytes: what readers get is what was accepted from
    the writer, in order, and a write is acknowledged when it has been read. *)

From S2P Require Import Prelude Bytes Message AmFd.
From stdpp Require Import base list numbers option.
From Stdlib Require Import ZArith Lia.

Local Open Scope Z_scope.

(** ** The queue a pipe implements *)

(** The data of a message that answers a read, and of a write request. *)
Definition read_payload (m : Message) : list Z := getB read_data (Z.to_nat (getU read_len m)) m.
Definition write_payload (m : Message) : list Z := getB write_data (Z.to_nat (getU write_len m)) m.

(** What a request does to the bytes pending in the pipe: a write is accepted
    only by an empty pipe, a read takes at most the bytes it asks for. *)
Definition queue_step (m : Message) (p : list Z) : list Z :=
  match type m with
  | kWrite => match p with [] => write_payload m | _ => p end
  | kRead => drop (Z.to_nat (getU read_count m)) p
  | _ => p
  end.

(** The bytes a request adds to the pipe. *)
Definition accepted1 (m : Message) (p : list Z) : list Z :=
  match type m, p with kWrite, [] => write_payload m | _, _ => [] end.

(** A write is acknowledged when none of its bytes is left in the pipe. *)
Definition acked1 (m : Message) (p : list Z) : nat :=
  match type m, p with
  | kWrite, [] => match write_payload m with [] => 1 | _ => 0 end
  | kRead, _ :: _ => match queue_step m p with [] => 1 | _ => 0 end
  | _, _ => 0
  end.

Fixpoint accepted (ms : list Message) (p : list Z) : list Z :=
  match ms with [] => [] | m :: ms' => accepted1 m p ++ accepted ms' (queue_step m p) end.
Fixpoint acked (ms : list Message) (p : list Z) : nat :=
  match ms with [] => 0 | m :: ms' => acked1 m p + acked ms' (queue_step m p) end.

(** ** What the manager sends *)

(** The bytes sent to readers and the acknowledgements sent to the writer. *)
Definition delivered1 (a : action) : list Z :=
  match a with Send m _ => match type m with kRead => read_payload m | _ => [] end | _ => [] end.
Definition delivered (o : list action) : list Z := concat (map delivered1 o).
Definition ack1 (id : Z) (a : action) : nat :=
  match a with Send m to => if decide (type m = kReceived /\ to = id) then 1 else 0 | _ => 0 end%nat.
Definition acks (id : Z) (o : list action) : nat := list_sum (map (ack1 id) o).

Lemma delivered_app o o' : delivered (o ++ o') = delivered o ++ delivered o'.
Proof. unfold delivered. by rewrite map_app, concat_app. Qed.

Lemma acks_app id o o' : acks id (o ++ o') = (acks id o + acks id o')%nat.
Proof. unfold acks. by rewrite map_app, list_sum_app. Qed.

Lemma take_splice_0 l s : (length s <= length l)%nat -> take (length s) (splice l 0 s) = s.
Proof. intros. by rewrite <- (slice_splice_same l 0 s) at 3. Qed.

(** ** Requests to a pipe *)

Section pipe.
Context (junk : list Z) (find_server : list Z -> Z * Z).
Context (Hjunk : length junk = arg_size) (Hbytes : bytes junk).

(** A request is read or written through the descriptor. *)
Definition request (m : Message) (d : FileDescriptor) (w : Mail) : outcome (FileDescriptor * Mail) :=
  match type m with
  | kRead => Read junk find_server d m w
  | kWrite => Write junk find_server d m w
  | _ => Ok (d, w)
  end.

Fixpoint requests (ms : list Message) (d : FileDescriptor) (w : Mail) : outcome (FileDescriptor * Mail) :=
  match ms with
  | [] => Ok (d, w)
  | m :: ms' => '(d, w) ← request m d w; requests ms' d w
  end.

(** The library sends at most 16 bytes in a message. *)
Definition request_ok (m : Message) : Prop := message_ok m /\ getU write_len m <= Z.of_nat data_size.

(** An open pipe of writer [id] in which [p] is pending. *)
Definition pipe_is (id : Z) (p : list Z) (d : FileDescriptor) : Prop :=
  exists data, d = PipeFd id data (Z.of_nat (length p)) false /\ length data = data_size /\
    (length p <= data_size)%nat /\ take (length p) data = p.

(** A data message of [c] and the empty one that ends an answer. *)
Lemma chunk_message c :
  (length c <= data_size)%nat -> bytes c ->
  exists m, putB read_data c (uninit junk kRead) = Some m /\
    read_payload (setF read_len (Z.of_nat (length c)) m) = c /\
    read_payload (setF read_len 0 (setF read_len (Z.of_nat (length c)) m)) = [] /\
    type m = kRead.
Proof.
  intros Hc Hb. unfold putB, uninit; simpl arg.
  unfold data_size, read_data, arg_size in *.
  rewrite write_at_Some by (rewrite Hjunk; lia).
  eexists; split_and!; [reflexivity| | |done].
  all: set (m := set_arg _ _).
  all: assert (message_ok m) as Hm by
    (split; [unfold m; simpl; rewrite length_splice; rewrite ?Hjunk; (done || lia) | by apply bytes_splice]).
  - unfold read_payload, getB. rewrite getU_setF by done.
    rewrite Z.mod_small, Nat2Z.id by (cbn; lia).
    unfold setF, read_data; simpl arg.
    rewrite slice_set_le_ne by (rewrite ?length_splice, ?Hjunk; cbn; lia).
    apply slice_splice_same. rewrite Hjunk; lia.
  - unfold read_payload. by rewrite getU_setF by (auto with bytes).
Qed.

Lemma read_pipe id p d m w :
  pipe_is id p d -> bytes p -> type m = kRead -> request_ok m ->
  exists d' o, request m d w = Ok (d', MkMail (inbox w) (out w ++ o)) /\
    pipe_is id (queue_step m p) d' /\
    delivered o = take (Z.to_nat (getU read_count m)) p /\ acks id o = acked1 m p.
Proof.
  intros (data & -> & Hdata & Hp & Htake) Hb Ht [Hm _]. unfold request. rewrite Ht. cbn [Read].
  unfold Pipe_Read, acked1, queue_step. rewrite Ht.
  pose proof (getU_range read_count m Hm eq_refl) as Hcount.
  set (count := getU read_count m) in *.
  destruct p as [|c p']; [|set (p := c :: p') in *].
  { simpl. rewrite drop_nil, take_nil. eexists _, [_]. split_and!; [reflexivity|by exists data|done|done]. }
  rewrite decide_False by (simpl; lia).
  case_decide as Hlen.
  - rewrite Nat2Z.id, read_at_Some by (rewrite Hdata; lia). cbn [defined mbind outcome_bind].
    unfold slice. rewrite drop_0, Htake.
    destruct (chunk_message p) as (sm & -> & Hpay & Hend & Hty); [lia|done|]. cbn [defined mbind outcome_bind].
    eexists _, [_; _; _]. split_and!.
    + unfold send, act; cbn [inbox out]. by rewrite <- !app_assoc.
    + rewrite drop_ge by lia. exists (replicate data_size 0). split_and!; done || (simpl; lia).
    + unfold delivered; cbn [map concat delivered1 setF type set_type set_arg]. rewrite Hty, Hpay, Hend, take_ge by lia. by rewrite !app_nil_r.
    + rewrite drop_ge by lia. unfold acks; cbn [map list_sum foldr ack1 setF type set_type set_arg]. rewrite Hty, decide_False by naive_solver.
      by rewrite decide_True by done.
  - rewrite (read_at_Some data 0) by (rewrite Hdata; lia). cbn [defined mbind outcome_bind].
    assert (slice data 0 (Z.to_nat count) = take (Z.to_nat count) p) as Hs.
    { unfold slice. rewrite drop_0. transitivity (take (Z.to_nat count) (take (length p) data));
        [by rewrite take_take, Nat.min_l by lia|by rewrite Htake]. }
    assert (length (take (Z.to_nat count) p) = Z.to_nat count) as Htl by (rewrite length_take; lia).
    rewrite Hs. destruct (chunk_message (take (Z.to_nat count) p)) as (sm & Hput & Hpay & Hend & Hty);
      [lia|by apply Forall_take|]. rewrite Htl, Z2Nat.id in Hpay, Hend by lia.
    rewrite Hput. cbn [defined mbind outcome_bind].
    rewrite read_at_Some by (rewrite Hdata; lia). cbn [defined mbind outcome_bind].
    assert (slice data (Z.to_nat count) (Z.to_nat (Z.of_nat (length p) - count)) = drop (Z.to_nat count) p) as Hr.
    { unfold slice. transitivity (drop (Z.to_nat count) (take (length p) data)); [|by rewrite Htake].
      rewrite skipn_firstn_comm. f_equal. lia. }
    rewrite Hr. eexists _, [_; _]. split_and!.
    + unfold send, act; cbn [inbox out]. by rewrite <- !app_assoc.
    + exists (splice data 0 (drop (Z.to_nat count) p)). rewrite length_drop. split_and!.
      * f_equal. lia.
      * rewrite length_splice by (rewrite length_drop; lia). done.
      * lia.
      * rewrite <- length_drop. apply take_splice_0. rewrite length_drop. lia.
    + unfold delivered; cbn [map concat delivered1 setF type set_type set_arg]. rewrite Hty, Hpay, Hend. by rewrite !app_nil_r.
    + unfold acks; cbn [map list_sum foldr ack1 setF type set_type set_arg]. rewrite Hty, decide_False by naive_solver.
      destruct (drop (Z.to_nat count) p) eqn:E; [|done].
      apply (f_equal length) in E. rewrite length_drop in E. change (length p - Z.to_nat count = 0)%nat in E. lia.
Qed.

Lemma write_pipe id p d m w :
  pipe_is id p d -> type m = kWrite -> request_ok m ->
  exists d' o, request m d w = Ok (d', MkMail (inbox w) (out w ++ o)) /\
    pipe_is id (queue_step m p) d' /\ delivered o = [] /\ acks id o = acked1 m p.
Proof.
  intros (data & -> & Hdata & Hp & Htake) Ht [Hm Hlen]. unfold request. rewrite Ht. cbn [Write].
  unfold Pipe_Write, queue_step, acked1. rewrite Ht.
  pose proof (getU_range write_len m Hm eq_refl) as Hrange. destruct Hm as [Harg _].
  destruct p as [|c p']; [|set (p := c :: p') in *].
  - rewrite decide_True by done. unfold write_payload, getB.
    set (len := getU write_len m) in *. unfold data_size, arg_size in *.
    assert (length (slice (arg m) write_data (Z.to_nat len)) = Z.to_nat len) as Hsl
      by (apply length_slice; rewrite Harg; unfold write_data; lia).
    case_decide as Hz.
    + rewrite read_at_Some by (rewrite Harg; unfold write_data; lia). cbn [defined mbind outcome_bind].
      rewrite write_at_Some by lia. cbn [defined mbind outcome_bind].
      eexists _, []. split_and!; [by rewrite app_nil_r; destruct w| |done|].
      * eexists (splice data 0 (slice (arg m) write_data (Z.to_nat len))).
        rewrite Hsl, Z2Nat.id by lia. split_and!; [done|by rewrite length_splice by lia|unfold data_size; lia|].
        rewrite <- Hsl at 1. apply take_splice_0. lia.
      * destruct (slice _ _ _); [|done]. simpl in Hsl. lia.
    + assert (len = 0) as -> by lia. eexists _, [_]. split_and!; [reflexivity| |done|].
      * by exists data.
      * unfold acks; simpl. by rewrite decide_True.
  - rewrite decide_False by (simpl; lia). eexists _, [_]. split_and!; [reflexivity|by exists data|done|done].
Qed.

Lemma accepted_bytes m p : request_ok m -> bytes p -> bytes (queue_step m p).
Proof.
  intros [[_ Hm] _] Hp. unfold queue_step. destruct (type m); try done.
  - destruct p; [by apply bytes_slice|done].
  - by apply Forall_drop.
Qed.

(** The bytes of the queue are conserved by a request. *)
Lemma conserved1 m p :
  p ++ accepted1 m p =
  match type m with kRead => take (Z.to_nat (getU read_count m)) p | _ => [] end ++ queue_step m p.
Proof.
  unfold accepted1, queue_step.
  destruct (type m); rewrite ?app_nil_r; try done; [by destruct p; rewrite ?app_nil_r|].
  by rewrite take_drop.
Qed.

Lemma request_spec id p d m w :
  pipe_is id p d -> bytes p -> request_ok m ->
  exists d' o, request m d w = Ok (d', MkMail (inbox w) (out w ++ o)) /\
    pipe_is id (queue_step m p) d' /\ p ++ accepted1 m p = delivered o ++ queue_step m p /\
    acks id o = acked1 m p.
Proof.
  intros Hd Hb Hm. rewrite conserved1.
  destruct (decide (type m = kRead)) as [Ht|Hr].
  { destruct (read_pipe id p d m w) as (d' & o & ? & ? & Ho & ?); [done..|].
    exists d', o. by rewrite Ho, Ht. }
  destruct (decide (type m = kWrite)) as [Ht|Hw].
  { destruct (write_pipe id p d m w) as (d' & o & ? & ? & Ho & ?); [done..|].
    exists d', o. by rewrite Ho, Ht. }
  exists d, []. unfold request, queue_step, acked1. rewrite app_nil_r.
  destruct w. by destruct (type m).
Qed.
End pipe.


(** "hello world" written in one message, read five bytes at a time. *)
Definition hello : list Z := [104; 101; 108; 108; 111; 32; 119; 111; 114; 108; 100].
Definition sample_write : Message :=
  setF write_len 11 (set_src 5 (default (zero_message kWrite) (putB write_data hello (zero_message kWrite)))).
Definition sample_read : Message := setF read_count 5 (set_src 6 (zero_message kRead)).

