(* ===== verification/AmApps.v ===== *)
(** * The applications of the manager (servers/am/appmanager.cpp)

    The table of applications. The descriptors are shared objects: [fds] is
    the store of all that were created and the files of an application are
    pointers into it, so that a child shares the descriptors of its parent. *)

From S2P Require Import Prelude Bytes Message AmFd.
From stdpp Require Import base list sets numbers option.
From Stdlib Require Import ZArith Lia.

Local Open Scope Z_scope.

(** [src/servers/am/appmanager.hpp:8-11] [AppState] *)
Inductive AppState := Run | Kill.

#[export] Instance AppState_eq_dec : EqDecision AppState.
Proof. solve_decision. Defined.

(** A [shared_ptr]: null or an index of the store. *)
Definition ptr : Type := option nat.

(** [src/servers/am/appmanager.hpp:13-27] [AppInfo] *)
Record AppInfo := MkAppInfo {
  task_id : Z;
  p_task_id : Z;
  app_state : AppState;
  files : list ptr;
}.

(** [src/servers/am/appmanager.hpp:29-43] [AppManager] *)
Record AppManager := MkApps { apps : list AppInfo; fds : list FileDescriptor }.

(** [src/servers/am/appmanager.cpp:3-8] [AppInfo::AppInfo] *)
Definition new_AppInfo (task_id p_task_id : Z) : AppInfo := MkAppInfo task_id p_task_id Run [].
Definition set_files (fs : list ptr) (a : AppInfo) : AppInfo :=
  MkAppInfo (task_id a) (p_task_id a) (app_state a) fs.
(** [src/servers/am/appmanager.hpp:19-19] [AppInfo::SetState] *)
Definition SetState (st : AppState) (a : AppInfo) : AppInfo :=
  MkAppInfo (task_id a) (p_task_id a) st (files a).

Definition set_apps (l : list AppInfo) (am : AppManager) : AppManager := MkApps l (fds am).
Definition set_fds (l : list FileDescriptor) (am : AppManager) : AppManager := MkApps (apps am) l.
(** A new descriptor of the store, and its pointer. *)
Definition new_fd (d : FileDescriptor) (am : AppManager) : AppManager * nat :=
  (set_fds (fds am ++ [d]) am, length (fds am)).
(** The files of the (first) application with an identifier. *)
Definition alter_files (id : Z) (f : list ptr -> list ptr) (am : AppManager) : AppManager :=
  set_apps (alter_key task_id id (fun a => set_files (f (files a)) a) (apps am)) am.

(** [src/servers/am/appmanager.cpp:28-36] [AppManager::GetPID] *)
Definition GetPID (id : Z) (am : AppManager) : Z :=
  match find_key task_id id (apps am) with Some a => p_task_id a | None => 0 end.

(** Nothing for a null pointer.
    [src/servers/am/appmanager.cpp:38-46] [AppManager::GetAppInfo] *)
Definition GetAppInfo (id : Z) (am : AppManager) : option AppInfo := find_key task_id id (apps am).

Section app_manager.
Context (junk : list Z) (find_server : list Z -> Z * Z).

(** [src/servers/am/appmanager.cpp:78-88] [AppManager::InitializeFileDescriptor] *)
Definition InitializeFileDescriptor (id : Z) (am : AppManager) : AppManager :=
  match find_key task_id id (apps am) with
  | None => am
  | Some _ =>
      Nat.iter 3 (fun am =>
        let '(am, p) := new_fd (new_TerminalFd find_server id) am in
        alter_files id (fun fs => fs ++ [Some p]) am) am
  end.

(** The first loop does not end when child and parent are the same object.
    [src/servers/am/appmanager.cpp:90-108] [AppManager::CopyFileDescriptor] *)
Definition CopyFileDescriptor (id p_id : Z) (am : AppManager) : outcome AppManager :=
  match find_key task_id id (apps am), find_key task_id p_id (apps am) with
  | Some child, Some parent =>
      let shared := files parent in
      if decide (id = p_id /\ shared <> []) then Undefined
      else
        Ok (alter_files id (fun fs => shared ++ drop (length shared) (fs ++ replicate (length shared) None)) am)
  | _, _ => Ok am
  end.

(** [src/servers/am/appmanager.cpp:12-26] [AppManager::NewApp] *)
Definition NewApp (id p_id : Z) (am : AppManager) : outcome AppManager :=
  match find_key task_id p_id (apps am) with
  | None => Ok (InitializeFileDescriptor id (set_apps (apps am ++ [new_AppInfo id p_id]) am))
  | Some _ => CopyFileDescriptor id p_id (set_apps (apps am ++ [new_AppInfo id p_id]) am)
  end.

(** The index of the first null pointer, the length when there is none. *)
Fixpoint first_null (fs : list ptr) : nat :=
  match fs with
  | [] => 0
  | None :: _ => 0
  | Some _ :: fs' => S (first_null fs')
  end.

(** [src/servers/am/appmanager.cpp:48-58] [AppManager::AllocateFD] *)
Definition AllocateFD (id : Z) (am : AppManager) : outcome (AppManager * nat) :=
  app_info ← defined (GetAppInfo id am);
  let fd := first_null (files app_info) in
  Ok (if decide (fd < length (files app_info))%nat then (am, fd)
      else (alter_files id (fun fs => fs ++ [None]) am, fd)).

(** [Close] through each pointer in turn.
    [src/servers/am/appmanager.cpp:69-71] [AppManager::ExitApp] *)
Fixpoint close_files (ps : list ptr) (l : list FileDescriptor) (w : Mail) :
    outcome (list FileDescriptor * Mail) :=
  match ps with
  | [] => Ok (l, w)
  | p :: ps' =>
      i ← defined p;
      d ← defined (l !! i);
      let '(d, w) := Close junk d w in
      close_files ps' (<[i := d]> l) w
  end.

Definition is_running (id : Z) (a : AppInfo) : bool :=
  bool_decide (task_id a = id /\ app_state a = Run).

(** The first element with a property, changed. *)
Fixpoint alter_first {A} (p : A -> bool) (f : A -> A) (l : list A) : list A :=
  match l with
  | [] => []
  | x :: l' => if p x then f x :: l' else x :: alter_first p f l'
  end.

(** [src/servers/am/appmanager.cpp:72-73] [AppManager::ExitApp] *)
Definition killed (a : AppInfo) : AppInfo := SetState Kill (set_files [] a).

(** [src/servers/am/appmanager.cpp:60-76] [AppManager::ExitApp] *)
Fixpoint ExitApp_loop (fuel : nat) (id : Z) (am : AppManager) (w : Mail) : outcome (AppManager * Mail) :=
  match fuel with
  | O => Waits
  | S fuel' =>
      match List.find (is_running id) (apps am) with
      | None => Ok (am, w)
      | Some a =>
          '(l, w) ← close_files (files a) (fds am) w;
          ExitApp_loop fuel' id (MkApps (alter_first (is_running id) killed (apps am)) l) w
      end
  end.

(** [src/servers/am/appmanager.cpp:60-76] [AppManager::ExitApp] *)
Definition ExitApp (id : Z) (am : AppManager) (w : Mail) : outcome (AppManager * Mail) :=
  ExitApp_loop (S (length (apps am))) id am w.
End app_manager.

(** ** A new application *)

Lemma Forall_alter_key (P : AppInfo -> Prop) id f l :
  Forall P l -> (forall a, P a -> P (f a)) -> Forall P (alter_key task_id id f l).
Proof.
  intros Hl Hf. induction Hl as [|a l Ha Hl IH]; simpl; [constructor|].
  destruct (task_id a =? id); constructor; auto.
Qed.

Lemma alter_key_compose id (f g : AppInfo -> AppInfo) l :
  (forall a, task_id (f a) = task_id a) ->
  alter_key task_id id g (alter_key task_id id f l) = alter_key task_id id (fun a => g (f a)) l.
Proof.
  intros Hf. induction l as [|a l IH]; [done|]. simpl. destruct (task_id a =? id) eqn:E; simpl.
  - by rewrite Hf, E.
  - by rewrite E, IH.
Qed.

Lemma alter_key_fresh id (f : AppInfo -> AppInfo) l a :
  find_key task_id id l = None -> task_id a = id -> alter_key task_id id f (l ++ [a]) = l ++ [f a].
Proof.
  unfold find_key. intros Hl Ha. induction l as [|b l IH]; simpl in *.
  - by rewrite Ha, Z.eqb_refl.
  - destruct (task_id b =? id); [done|]. by rewrite IH.
Qed.

(** The files of a new application: its parent's, or three terminals. *)
Definition inherited (find_server : list Z -> Z * Z) (id p_id : Z) (am : AppManager) : list ptr * list FileDescriptor :=
  match GetAppInfo p_id am with
  | Some parent => (files parent, [])
  | None => let n := length (fds am) in ([Some n; Some (S n); Some (S (S n))], replicate 3 (new_TerminalFd find_server id))
  end.

Lemma NewApp_spec find_server id p_id am :
  GetAppInfo id am = None ->
  NewApp find_server id p_id am =
  Ok (MkApps (apps am ++ [MkAppInfo id p_id Run (fst (inherited find_server id p_id am))])
        (fds am ++ snd (inherited find_server id p_id am))).
Proof.
  unfold GetAppInfo. intros Hid. unfold NewApp, inherited, GetAppInfo.
  assert (forall l, find_key task_id id (apps am ++ [MkAppInfo id p_id Run l]) = Some (MkAppInfo id p_id Run l)) as Hlast.
  { intros l. rewrite find_key_app, Hid. simpl. by rewrite Z.eqb_refl. }
  destruct (find_key task_id p_id (apps am)) as [parent|] eqn:Hp.
  - unfold CopyFileDescriptor. simpl. unfold new_AppInfo. rewrite Hlast, find_key_app, Hp.
    rewrite decide_False by (intros [-> _]; congruence). unfold alter_files, set_apps; simpl.
    rewrite alter_key_fresh by done. unfold set_files; simpl.
    rewrite drop_ge, !app_nil_r by (rewrite length_replicate; lia). done.
  - unfold InitializeFileDescriptor. simpl. unfold new_AppInfo. rewrite Hlast.
    unfold alter_files, set_apps, new_fd, set_fds; simpl. rewrite !alter_key_fresh by done.
    unfold set_files; simpl. rewrite !length_app, <- !app_assoc; simpl. do 2 f_equal. repeat f_equal; lia.
Qed.

(** ** Ending an application *)

Section exit.
Context (junk : list Z).

(** The descriptors after those [ps] points at were closed. *)
Definition closed (d : FileDescriptor) : FileDescriptor :=
  match d with PipeFd id data len _ => PipeFd id data len true | _ => d end.
Definition close_all (ps : list ptr) (l : list FileDescriptor) : list FileDescriptor :=
  imap (fun i d => if decide (Some i ∈ ps) then closed d else d) l.

(** The writer of a pipe that is closed is told so. *)
Definition notice (l : list FileDescriptor) (p : ptr) : list action :=
  match p ≫= (l !!.) with
  | Some (PipeFd id _ _ _) => [Send (setF error_retry 0 (uninit junk kError)) id]
  | _ => []
  end.
Definition notices (ps : list ptr) (l : list FileDescriptor) : list action := concat (map (notice l) ps).

(** The pointers of an application lead to a descriptor. *)
Definition file_ok (n : nat) (p : ptr) : Prop := exists i, p = Some i /\ (i < n)%nat.
Definition apps_ok (am : AppManager) : Prop :=
  Forall (fun a => Forall (file_ok (length (fds am))) (files a)) (apps am).

Lemma lookup_close_all ps l i :
  close_all ps l !! i = (fun d => if decide (Some i ∈ ps) then closed d else d) <$> l !! i.
Proof. unfold close_all. by rewrite list_lookup_imap. Qed.

Lemma length_close_all ps l : length (close_all ps l) = length l.
Proof. apply length_imap. Qed.

Lemma close_all_app ps ps' l : close_all ps' (close_all ps l) = close_all (ps ++ ps') l.
Proof.
  apply list_eq. intros i. rewrite !lookup_close_all. destruct (l !! i) as [d|]; [|done]. simpl. f_equal.
  destruct (decide (Some i ∈ ps)), (decide (Some i ∈ ps')), (decide (Some i ∈ ps ++ ps')); set_solver || (by destruct d).
Qed.

Lemma close_all_nil l : close_all [] l = l.
Proof.
  apply list_eq. intros i. rewrite lookup_close_all.
  by destruct (l !! i).
Qed.

Lemma notices_close_all ps ps' l : notices ps (close_all ps' l) = notices ps l.
Proof.
  unfold notices. f_equal. apply map_ext. intros [i|]; [|done]. unfold notice; simpl.
  rewrite lookup_close_all. destruct (l !! i) as [d|]; [|done]. simpl. case_decide; [|done]. by destruct d.
Qed.

Lemma notices_app ps ps' l : notices (ps ++ ps') l = notices ps l ++ notices ps' l.
Proof. unfold notices. by rewrite map_app, concat_app. Qed.

Lemma close_all_cons i ps l d :
  l !! i = Some d -> close_all ps (<[i := closed d]> l) = close_all (Some i :: ps) l.
Proof.
  intros Hd. pose proof (lookup_lt_Some _ _ _ Hd). rewrite <- (close_all_app [Some i] ps). f_equal.
  apply list_eq. intros j. rewrite lookup_close_all. destruct (decide (i = j)) as [->|Hij].
  - rewrite list_lookup_insert_eq, Hd by done. simpl. by rewrite decide_True by set_solver.
  - rewrite list_lookup_insert_ne by done. destruct (l !! j); [|done]. simpl.
    by rewrite decide_False by set_solver.
Qed.

Lemma close_files_spec ps : forall l w, Forall (file_ok (length l)) ps ->
  close_files junk ps l w = Ok (close_all ps l, MkMail (inbox w) (out w ++ notices ps l)).
Proof.
  induction ps as [|p ps IH]; intros l w Hps; cbn [close_files].
  { rewrite close_all_nil. unfold notices; simpl. rewrite app_nil_r. by destruct w. }
  rewrite list.Forall_cons in Hps. destruct Hps as [(i & -> & Hi) Hps].
  destruct (lookup_lt_is_Some_2 l i Hi) as [d Hd]. cbn [defined mbind outcome_bind]. rewrite Hd.
  cbn [defined mbind outcome_bind].
  assert (exists o, Close junk d w = (closed d, MkMail (inbox w) (out w ++ o)) /\ notice l (Some i) = o) as (o & -> & Ho).
  { unfold notice; simpl. rewrite Hd. destruct d; (eexists; split; [|reflexivity]); destruct w; simpl;
      rewrite ?app_nil_r; done. }
  cbn [defined mbind outcome_bind]. rewrite IH by (by rewrite length_insert).
  rewrite close_all_cons by done. cbn [inbox out]. unfold notices. cbn [map concat]. rewrite Ho, <- app_assoc.
  rewrite (map_ext (notice (<[i:=closed d]> l)) (notice l)); [done|].
  intros [j|]; [|done]. unfold notice; simpl.
  destruct (decide (i = j)) as [->|]; [|by rewrite list_lookup_insert_ne].
  rewrite list_lookup_insert_eq, Hd by done. by destruct d.
Qed.

(** The applications with an identifier that run, and all files they hold. *)
Definition exit_apps (id : Z) (l : list AppInfo) : list AppInfo :=
  map (fun a => if is_running id a then killed a else a) l.
Definition held (id : Z) (l : list AppInfo) : list ptr :=
  concat (map files (List.filter (is_running id) l)).

Lemma find_split {A} (p : A -> bool) l x :
  List.find p l = Some x ->
  exists pre post, l = pre ++ x :: post /\ p x = true /\ Forall (fun y => p y = false) pre.
Proof.
  induction l as [|y l IH]; simpl; [done|]. destruct (p y) eqn:E.
  - intros [= ->]. by exists [], l.
  - intros (pre & post & -> & Hx & Hpre)%IH. exists (y :: pre), post. split_and!; [done..|by constructor].
Qed.

Lemma alter_first_split {A} (p : A -> bool) f pre x post :
  p x = true -> Forall (fun y => p y = false) pre ->
  alter_first p f (pre ++ x :: post) = pre ++ f x :: post.
Proof. intros Hx. induction 1 as [|y pre Hy _ IH]; simpl; [by rewrite Hx|by rewrite Hy, IH]. Qed.

Lemma List_filter_none {A} (p : A -> bool) l : Forall (fun y => p y = false) l -> List.filter p l = [].
Proof. induction 1 as [|y l Hy _ IH]; simpl; [done|by rewrite Hy]. Qed.

Lemma is_running_killed id a : is_running id (killed a) = false.
Proof. apply bool_decide_eq_false. by intros [_ ?]. Qed.

Lemma exit_apps_none id l : List.find (is_running id) l = None -> exit_apps id l = l /\ held id l = [].
Proof.
  intros H. pose proof (List.find_none _ _ H) as Hn. clear H. unfold exit_apps, held.
  induction l as [|a l IH]; [done|]. simpl. rewrite (Hn a (or_introl eq_refl)).
  destruct IH as [-> ->]; [|done]. intros x Hx. apply Hn. by right.
Qed.

Lemma exit_apps_split id pre a post :
  is_running id a = true -> Forall (fun b => is_running id b = false) pre ->
  exit_apps id (pre ++ a :: post) = exit_apps id (pre ++ killed a :: post) /\
  held id (pre ++ a :: post) = files a ++ held id (pre ++ killed a :: post) /\
  List.filter (is_running id) (pre ++ a :: post) = a :: List.filter (is_running id) (pre ++ killed a :: post).
Proof.
  intros Ha Hpre. unfold exit_apps, held. rewrite !map_app, !List.filter_app, !(List_filter_none _ pre) by done.
  simpl. by rewrite Ha, is_running_killed.
Qed.

Lemma ExitApp_loop_spec fuel : forall id am w, apps_ok am ->
  (length (List.filter (is_running id) (apps am)) < fuel)%nat ->
  ExitApp_loop junk fuel id am w =
  Ok (MkApps (exit_apps id (apps am)) (close_all (held id (apps am)) (fds am)),
      MkMail (inbox w) (out w ++ notices (held id (apps am)) (fds am))).
Proof.
  induction fuel as [|fuel IH]; intros id am w Hok Hfuel; [lia|]. cbn [ExitApp_loop].
  destruct (List.find (is_running id) (apps am)) as [a|] eqn:Hfind.
  - destruct (find_split _ _ _ Hfind) as (pre & post & Heq & Ha & Hpre).
    unfold apps_ok in Hok. rewrite Heq in Hok, Hfuel |- *.
    destruct (exit_apps_split id pre a post Ha Hpre) as (-> & -> & Hlen). rewrite Hlen in Hfuel.
    rewrite list.Forall_app, list.Forall_cons in Hok. destruct Hok as (Hok1 & Hoka & Hok2).
    rewrite close_files_spec by done. cbn [mbind outcome_bind]. rewrite alter_first_split by done.
    rewrite IH; cbn [apps fds inbox out].
    + by rewrite close_all_app, notices_close_all, notices_app, app_assoc.
    + unfold apps_ok; cbn [apps fds]. rewrite length_close_all, list.Forall_app, list.Forall_cons.
      split_and!; [done|constructor|done].
    + simpl in Hfuel. lia.
  - destruct (exit_apps_none _ _ Hfind) as [-> ->]. rewrite close_all_nil. unfold notices; simpl.
    rewrite app_nil_r. by destruct am, w.
Qed.
Lemma ExitApp_spec id am w : apps_ok am ->
  ExitApp junk id am w =
  Ok (MkApps (exit_apps id (apps am)) (close_all (held id (apps am)) (fds am)),
      MkMail (inbox w) (out w ++ notices (held id (apps am)) (fds am))).
Proof.
  intros Hok. apply ExitApp_loop_spec; [done|].
  pose proof (List.filter_length_le (is_running id) (apps am)). lia.
Qed.
End exit.

(** C21. Ending an application always returns: every running entry of the
    application is marked as killed and loses its files, exactly the descriptors
    those files name are closed (also where another application shares them),
    each pipe's writer is told, and nothing else of the table changes. *)
Theorem ExitApp_terminates junk id am w :
  apps_ok am ->
  ExitApp junk id am w =
  Ok (MkApps (exit_apps id (apps am)) (close_all (held id (apps am)) (fds am)),
      MkMail (inbox w) (out w ++ notices junk (held id (apps am)) (fds am))).
Proof. apply ExitApp_spec. Qed.

(** Application 5 shares its second descriptor, a pipe it writes, with 6. *)
Definition sample_apps : AppManager :=
  MkApps [MkAppInfo 5 3 Run [Some 0; Some 1]; MkAppInfo 6 3 Run [Some 1; Some 0]]%nat
    [TerminalFd 5 4; PipeFd 5 (replicate data_size 0) 0 false].

Lemma ExitApp_terminates_witness :
  ExitApp (replicate arg_size 0) 5 sample_apps (MkMail [] []) =
  Ok (MkApps [MkAppInfo 5 3 Kill []; MkAppInfo 6 3 Run [Some 1; Some 0]]%nat
        [TerminalFd 5 4; PipeFd 5 (replicate data_size 0) 0 true],
      MkMail [] [Send (setF error_retry 0 (uninit (replicate arg_size 0) kError)) 5]).
Proof.
  rewrite ExitApp_terminates; [reflexivity|].
  repeat (constructor; try (eexists; split; [reflexivity|simpl; lia])).
Defined.
