(* ===== verification/AmServer.v ===== *)
(** * The application manager (servers/am/serverstate.cpp, am.cpp)

    The server is a state machine: each turn receives, handles and answers in
    the state the previous call returned. [Print] is not modelled. *)

From S2P Require Import Prelude Bytes Message AmFd AmApps.
From stdpp Require Import base list numbers option.
From Stdlib Require Import ZArith Lia.

Local Open Scope Z_scope.

(** [src/servers/am/serverstate.hpp:4-19] [State] *)
Inductive State :=
| StateErr | StateInit | StateExecFile | StateCreateTask | StateStartTask | StateRedirect | StatePipe
| StateExit | StateOpen | StateAllcateFD | StateRead | StateWrite | StateWaitingKey.

(** newlib's <errno.h> and <fcntl.h>. *)
Definition EBADF : Z := 9.
Definition EAGAIN : Z := 11.
Definition O_CREAT : Z := 0x200.

(** The members of the server, those of its [WaitingKeyState], the mail and
    the number of tasks created; strings are without their terminator.
    [src/servers/am/am.hpp:19-52] [ApplicationManagementServer] *)
Record Server := MkServer {
  sm : Message;
  rm : Message;
  state : State;
  app_manager : AppManager;
  fs_id : Z;
  target_id : Z;
  new_id : Z;
  command : list Z;
  argument : list Z;
  redirect : bool;
  pipe : bool;
  piped : bool;
  redirect_filename : list Z;
  pipe_fd : ptr;
  waiting_id : Z;
  waiting : bool;
  mail : Mail;
  created : nat;
}.

Definition set_sm v s := MkServer v (rm s) (state s) (app_manager s) (fs_id s) (target_id s) (new_id s)
  (command s) (argument s) (redirect s) (pipe s) (piped s) (redirect_filename s) (pipe_fd s)
  (waiting_id s) (waiting s) (mail s) (created s).
Definition set_rm v s := MkServer (sm s) v (state s) (app_manager s) (fs_id s) (target_id s) (new_id s)
  (command s) (argument s) (redirect s) (pipe s) (piped s) (redirect_filename s) (pipe_fd s)
  (waiting_id s) (waiting s) (mail s) (created s).
Definition set_state v s := MkServer (sm s) (rm s) v (app_manager s) (fs_id s) (target_id s) (new_id s)
  (command s) (argument s) (redirect s) (pipe s) (piped s) (redirect_filename s) (pipe_fd s)
  (waiting_id s) (waiting s) (mail s) (created s).
Definition set_app_manager v s := MkServer (sm s) (rm s) (state s) v (fs_id s) (target_id s) (new_id s)
  (command s) (argument s) (redirect s) (pipe s) (piped s) (redirect_filename s) (pipe_fd s)
  (waiting_id s) (waiting s) (mail s) (created s).
Definition set_fs_id v s := MkServer (sm s) (rm s) (state s) (app_manager s) v (target_id s) (new_id s)
  (command s) (argument s) (redirect s) (pipe s) (piped s) (redirect_filename s) (pipe_fd s)
  (waiting_id s) (waiting s) (mail s) (created s).
Definition set_target_id v s := MkServer (sm s) (rm s) (state s) (app_manager s) (fs_id s) v (new_id s)
  (command s) (argument s) (redirect s) (pipe s) (piped s) (redirect_filename s) (pipe_fd s)
  (waiting_id s) (waiting s) (mail s) (created s).
Definition set_new_id v s := MkServer (sm s) (rm s) (state s) (app_manager s) (fs_id s) (target_id s) v
  (command s) (argument s) (redirect s) (pipe s) (piped s) (redirect_filename s) (pipe_fd s)
  (waiting_id s) (waiting s) (mail s) (created s).
Definition set_command v s := MkServer (sm s) (rm s) (state s) (app_manager s) (fs_id s) (target_id s)
  (new_id s) v (argument s) (redirect s) (pipe s) (piped s) (redirect_filename s) (pipe_fd s)
  (waiting_id s) (waiting s) (mail s) (created s).
Definition set_argument v s := MkServer (sm s) (rm s) (state s) (app_manager s) (fs_id s) (target_id s)
  (new_id s) (command s) v (redirect s) (pipe s) (piped s) (redirect_filename s) (pipe_fd s)
  (waiting_id s) (waiting s) (mail s) (created s).
Definition set_redirect v s := MkServer (sm s) (rm s) (state s) (app_manager s) (fs_id s) (target_id s)
  (new_id s) (command s) (argument s) v (pipe s) (piped s) (redirect_filename s) (pipe_fd s)
  (waiting_id s) (waiting s) (mail s) (created s).
Definition set_pipe v s := MkServer (sm s) (rm s) (state s) (app_manager s) (fs_id s) (target_id s)
  (new_id s) (command s) (argument s) (redirect s) v (piped s) (redirect_filename s) (pipe_fd s)
  (waiting_id s) (waiting s) (mail s) (created s).
Definition set_piped v s := MkServer (sm s) (rm s) (state s) (app_manager s) (fs_id s) (target_id s)
  (new_id s) (command s) (argument s) (redirect s) (pipe s) v (redirect_filename s) (pipe_fd s)
  (waiting_id s) (waiting s) (mail s) (created s).
Definition set_redirect_filename v s := MkServer (sm s) (rm s) (state s) (app_manager s) (fs_id s)
  (target_id s) (new_id s) (command s) (argument s) (redirect s) (pipe s) (piped s) v (pipe_fd s)
  (waiting_id s) (waiting s) (mail s) (created s).
Definition set_pipe_fd v s := MkServer (sm s) (rm s) (state s) (app_manager s) (fs_id s) (target_id s)
  (new_id s) (command s) (argument s) (redirect s) (pipe s) (piped s) (redirect_filename s) v
  (waiting_id s) (waiting s) (mail s) (created s).
Definition set_waiting_id v s := MkServer (sm s) (rm s) (state s) (app_manager s) (fs_id s)
  (target_id s) (new_id s) (command s) (argument s) (redirect s) (pipe s) (piped s)
  (redirect_filename s) (pipe_fd s) v (waiting s) (mail s) (created s).
Definition set_waiting v s := MkServer (sm s) (rm s) (state s) (app_manager s) (fs_id s) (target_id s)
  (new_id s) (command s) (argument s) (redirect s) (pipe s) (piped s) (redirect_filename s) (pipe_fd s)
  (waiting_id s) v (mail s) (created s).
Definition set_mail v s := MkServer (sm s) (rm s) (state s) (app_manager s) (fs_id s) (target_id s)
  (new_id s) (command s) (argument s) (redirect s) (pipe s) (piped s) (redirect_filename s) (pipe_fd s)
  (waiting_id s) (waiting s) v (created s).
Definition set_created v s := MkServer (sm s) (rm s) (state s) (app_manager s) (fs_id s) (target_id s)
  (new_id s) (command s) (argument s) (redirect s) (pipe s) (piped s) (redirect_filename s) (pipe_fd s)
  (waiting_id s) (waiting s) (mail s) v.

Definition send_to (m : Message) (to : Z) (s : Server) : Server := set_mail (send m to (mail s)) s.
Definition send_sm (to : Z) (s : Server) : Server := send_to (sm s) to s.
Definition goto (st : State) (s : Server) : Server := set_state st s.

(** [sm_] becomes an error that is not to be retried. *)
Definition fail (err : Z) (s : Server) : Server :=
  set_sm (setF error_err err (setF error_retry 0 (set_type kError (sm s)))) s.

Section server.
(** The answers of the kernel: what an uninitialised message holds, the task
    of a server's name, the result of the n-th creation of a task. *)
Context (junk : list Z) (find_server : list Z -> Z * Z) (create_task : nat -> Z * Z).

(** The loop of a state that waits for [from]: the body goes on waiting with
    [inl], leaves with [inr]. *)
Definition wait_for (from : Z) (body : Message -> Server -> outcome (Server + Server)) (s : Server) : outcome Server :=
  receive_loop mail set_mail from (fun m s => body m (set_rm m s)) (S (length (inbox (mail s)))) s.

(** [src/servers/am/serverstate.cpp:15-58] [InitState::ReceiveMessage] *)
Definition InitState_ReceiveMessage (s : Server) : outcome Server :=
  match inbox (mail s) with
  | [] => Waits
  | m :: msgs =>
      let s := set_rm m (set_mail (MkMail msgs (out (mail s))) s) in
      let '(id, err) := find_server servers_fs in
      if decide (err <> 0) then Ok (goto StateErr (fail EAGAIN s))
      else
        let s := set_fs_id id s in
        match type m with
        | kExecuteFile => Ok (goto StateExecFile s)
        | kWrite => Ok (goto StateWrite s)
        | kOpen | kOpenDir => Ok (goto StateOpen s)
        | kRead => Ok (goto StateRead s)
        | kWaitingKey => Ok (goto StateWaitingKey s)
        | kExitApp => Ok (goto StateExit s)
        | _ => Undefined
        end
  end.

(** An error of the file system: repeated on demand, else reported.
    [src/servers/am/serverstate.cpp:101-113] [ExecFileState::ReceiveMessage] *)
Definition fs_error (err : Z) (m : Message) (s : Server) : Server + Server :=
  if decide (getI error_retry m <> 0) then inl (send_sm (fs_id s) s)
  else inr (goto StateErr (let s := fail err s in send_sm (target_id s) s)).

(** [src/servers/am/serverstate.cpp:65-90] [ExecFileState::HandleMessage] *)
Definition ExecFileState_HandleMessage (s : Server) : outcome Server :=
  let s := set_target_id (src_task (rm s)) s in
  filename ← defined (getS executefile_filename (rm s));
  filename ← strcpy32 filename;
  args ← defined (getS executefile_arg (rm s));
  args ← strcpy32 args;
  let s := set_argument args (set_command filename s) in
  let s := set_pipe (bool_decide (getI executefile_pipe (rm s) <> 0)) s in
  s ← (if decide (getI executefile_redirect (rm s) <> 0) then
         '(m, w) ← ClosedReceive (target_id s) (mail s);
         name ← defined (getS Message.redirect_filename m);
         name ← strcpy32 name;
         Ok (set_redirect_filename name (set_rm m (set_mail w (set_redirect true s))))
       else Ok (set_redirect false s));
  m ← defined (putS executefile_filename (command s) (set_type kExecuteFile (sm s)));
  Ok (set_sm m s).

(** [src/servers/am/serverstate.cpp:97-124] [ExecFileState::ReceiveMessage] *)
Definition ExecFileState_ReceiveMessage (s : Server) : outcome Server :=
  wait_for (fs_id s) (fun m s =>
    Ok (match type m with
        | kError => fs_error (getI error_err m) m s
        | kExecuteFile => inr (goto StateCreateTask s)
        | _ => inl s
        end)) s.

(** [src/servers/am/serverstate.cpp:126-142] [CreateTaskState::HandleMessage] *)
Definition CreateTaskState_HandleMessage (s : Server) : Server :=
  let '(id, err) := create_task (created s) in
  let s := set_created (S (created s)) (set_mail (act CreateNewTask (mail s)) s) in
  if decide (err <> 0) then
    let s := fail EAGAIN s in goto StateErr (send_sm (fs_id s) (send_sm (target_id s) s))
  else set_new_id id (set_sm (setF executefile_id id (set_type kExecuteFile (sm s))) s).

(** [src/servers/am/serverstate.cpp:149-181] [CreateTaskState::ReceiveMessage] *)
Definition CreateTaskState_ReceiveMessage (s : Server) : outcome Server :=
  wait_for (fs_id s) (fun m s =>
    Ok (match type m with
        | kError => fs_error EAGAIN m s
        | kReady => inr (goto (if redirect s then StateRedirect else StateStartTask) s)
        | _ => inr (goto StateErr s)
        end)) s.

(** [Files()[fd] = ptr] of an application; out of range is undefined. *)
Definition assign_file (id : Z) (fd : nat) (p : ptr) (am : AppManager) : outcome AppManager :=
  app_info ← defined (GetAppInfo id am);
  if decide (fd < length (files app_info))%nat then Ok (alter_files id (fun fs => <[fd := p]> fs) am)
  else Undefined.

(** [Files()[fd]] becomes a new descriptor. *)
Definition assign_new (id : Z) (fd : nat) (d : FileDescriptor) (am : AppManager) : outcome AppManager :=
  let '(am, p) := new_fd d am in assign_file id fd (Some p) am.

(** [src/servers/am/serverstate.cpp:183-214] [StartTaskState::HandleMessage] *)
Definition StartTaskState_HandleMessage (s : Server) : outcome Server :=
  am ← NewApp find_server (new_id s) (target_id s) (app_manager s);
  am ← (if redirect s then
          d ← new_FatFd (new_id s) (redirect_filename s);
          assign_new (new_id s) 1 d am
        else Ok am);
  am ← (if piped s then assign_file (new_id s) 0 (pipe_fd s) am else Ok am);
  let s := set_piped false s in
  '(am, s) ← (if pipe s then
                let p := length (fds am) in
                am ← assign_new (new_id s) 1 (new_PipeFd junk (new_id s)) am;
                Ok (am, set_pipe_fd (Some p) s)
              else Ok (am, s));
  let s := set_app_manager am s in
  let s := set_mail (act (SetArgument (new_id s) (argument s))
                      (act (SetCommand (new_id s) (command s)) (mail s))) s in
  let s := set_sm (setF executefile_id (new_id s) (set_type kExecuteFile (sm s))) s in
  let s := send_sm (target_id s) s in
  Ok (set_sm (setF starttask_id (new_id s) (set_type kStartApp (sm s))) s).

(** [src/servers/am/serverstate.cpp:216-224] [StartTaskState::SendMessage] *)
Definition StartTaskState_SendMessage (s : Server) : Server :=
  let s := send_sm 1 s in
  if pipe s then
    let s := set_sm (set_type kReady (sm s)) s in goto StatePipe (send_sm (target_id s) s)
  else goto StateInit s.

(** [src/servers/am/serverstate.cpp:226-231] [RedirectState::HandleMessage] *)
Definition RedirectState_HandleMessage (s : Server) : outcome Server :=
  m ← defined (putS open_filename (redirect_filename s) (set_type kOpen (sm s)));
  Ok (set_sm (setF open_flags O_CREAT m) s).

(** [src/servers/am/serverstate.cpp:238-266] [RedirectState::ReceiveMessage] *)
Definition RedirectState_ReceiveMessage (s : Server) : outcome Server :=
  wait_for (fs_id s) (fun m s =>
    Ok (match type m with
        | kError => fs_error (getI error_err m) m s
        | kOpen => inr (goto StateStartTask s)
        | _ => inr (goto StateErr s)
        end)) s.

(** [src/servers/am/serverstate.cpp:268-281] [PipeState::ReceiveMessage] *)
Definition PipeState_ReceiveMessage (s : Server) : outcome Server :=
  wait_for (target_id s) (fun m s =>
    Ok (match type m with
        | kExecuteFile => inr (goto StateExecFile (set_piped true s))
        | _ => inl s
        end)) s.

(** [src/servers/am/serverstate.cpp:283-294] [ExitState::HandleMessage] *)
Definition ExitState_HandleMessage (s : Server) : outcome Server :=
  let id := getU exitapp_id (rm s) in
  let s := set_target_id (GetPID id (app_manager s)) s in
  if decide (target_id s <> 0) then
    '(am, w) ← ExitApp junk id (app_manager s) (mail s);
    let s := set_mail w (set_app_manager am s) in
    Ok (set_sm (setF exitapp_id id (setF exitapp_result (getU exitapp_result (rm s))
         (set_type kExitApp (sm s)))) s)
  else Ok (goto StateErr s).

(** [src/servers/am/serverstate.cpp:296-302] [ExitState::SendMessage] *)
Definition ExitState_SendMessage (s : Server) : Server :=
  let s := send_sm (target_id s) s in
  let s := set_sm (set_type kReceived (sm s)) s in
  goto StateInit (send_sm (getU exitapp_id (rm s)) s).

(** "@stdin". *)
Definition at_stdin : list Z := [64; 115; 116; 100; 105; 110].

(** [target_] is [File] for [kOpen] and [Dir] for [kOpenDir], the only messages
    that lead to this state and the next.
    [src/servers/am/serverstate.cpp:304-339] [OpenState::HandleMessage] *)
Definition OpenState_HandleMessage (s : Server) : outcome Server :=
  let s := set_target_id (src_task (rm s)) s in
  match type (rm s) with
  | kOpen =>
      filename ← defined (getS open_filename (rm s));
      if decide (filename = at_stdin) then
        Ok (goto StateInit (set_sm (setF open_isdirectory 0 (setF open_exist 1 (setF open_fd 0
             (set_type kOpen (sm s))))) s))
      else
        m ← defined (putS open_filename filename (set_type kOpen (sm s)));
        Ok (set_sm (setF open_flags (getU open_flags (rm s)) m) s)
  | kOpenDir =>
      dirname ← defined (getS opendir_dirname (rm s));
      m ← defined (putS opendir_dirname dirname (set_type kOpenDir (sm s)));
      Ok (set_sm m s)
  | _ => Undefined
  end.

(** [src/servers/am/serverstate.cpp:346-375] [OpenState::ReceiveMessage] *)
Definition OpenState_ReceiveMessage (s : Server) : outcome Server :=
  wait_for (fs_id s) (fun m s =>
    Ok (match type m with
        | kError => fs_error (getI error_err m) m s
        | kOpen | kOpenDir => inr (goto StateAllcateFD s)
        | _ => inr (goto StateErr s)
        end)) s.

(** [src/servers/am/serverstate.cpp:385-394] [AllocateFDState::HandleMessage] *)
Definition allocate (filename : list Z) (s : Server) : outcome (nat * Server) :=
  '(am, fd) ← AllocateFD (target_id s) (app_manager s);
  d ← new_FatFd (target_id s) filename;
  am ← assign_new (target_id s) fd d am;
  Ok (fd, set_app_manager am s).

(** [src/servers/am/serverstate.cpp:377-415] [AllocateFDState::HandleMessage] *)
Definition AllocateFDState_HandleMessage (s : Server) : outcome Server :=
  match type (rm s) with
  | kOpen =>
      filename ← defined (getS open_filename (rm s));
      '(fd, s) ← allocate filename s;
      Ok (goto StateInit (set_sm (setF open_fd (Z.of_nat fd) (set_type kOpen (sm s))) s))
  | kOpenDir =>
      dirname ← defined (getS opendir_dirname (rm s));
      '(fd, s) ← allocate dirname s;
      Ok (goto StateInit (set_sm (setF opendir_fd (Z.of_nat fd) (set_type kOpenDir (sm s))) s))
  | _ => Undefined
  end.

(** The descriptor a number names for an application; an unknown application
    is a null pointer.
    [src/servers/am/serverstate.cpp:420-423] [ReadState::HandleMessage] *)
Definition find_fd (fd : Z) (s : Server) : outcome ptr :=
  app_info ← defined (GetAppInfo (target_id s) (app_manager s));
  Ok (default None (getZ (files app_info) (u64 fd))).

(** A request is passed to the descriptor it names.
    [src/servers/am/serverstate.cpp:417-434] [ReadState::HandleMessage] *)
Definition with_fd (fd : Z) (op : FileDescriptor -> Message -> Mail -> outcome (FileDescriptor * Mail))
    (s : Server) : outcome Server :=
  let s := set_target_id (src_task (rm s)) s in
  p ← find_fd fd s;
  match p with
  | None => Ok (goto StateInit (fail EBADF s))
  | Some i =>
      d ← defined (fds (app_manager s) !! i);
      '(d, w) ← op d (rm s) (mail s);
      Ok (set_mail w (set_app_manager (set_fds (<[i := d]> (fds (app_manager s))) (app_manager s)) s))
  end.

(** [src/servers/am/serverstate.cpp:417-434] [ReadState::HandleMessage] *)
Definition ReadState_HandleMessage (s : Server) : outcome Server :=
  with_fd (getI read_fd (rm s)) (Read junk find_server) s.

(** [src/servers/am/serverstate.cpp:440-456] [WriteState::HandleMessage] *)
Definition WriteState_HandleMessage (s : Server) : outcome Server :=
  with_fd (getI write_fd (rm s)) (Write junk find_server) s.

(** [src/servers/am/serverstate.cpp:462-480] [WaitingKeyState::HandleMessage] *)
Definition WaitingKeyState_HandleMessage (s : Server) : outcome Server :=
  if waiting s then Ok (set_waiting false (set_sm (rm s) s))
  else
    let s := set_waiting_id (src_task (rm s)) s in
    let s := set_sm (set_type kReceived (sm s)) s in
    let s := send_sm (waiting_id s) s in
    app_info ← defined (GetAppInfo (waiting_id s) (app_manager s));
    Ok (set_waiting true (set_sm (set_type kWaitingKey (sm s)) (set_target_id (p_task_id app_info) s))).

(** [src/servers/am/serverstate.cpp:482-490] [WaitingKeyState::SendMessage] *)
Definition WaitingKeyState_SendMessage (s : Server) : Server :=
  if waiting s then send_sm (target_id s) s else goto StateInit (send_sm (waiting_id s) s).

(** [src/servers/am/serverstate.cpp:492-510] [WaitingKeyState::ReceiveMessage] *)
Definition WaitingKeyState_ReceiveMessage (s : Server) : outcome Server :=
  wait_for (target_id s) (fun m s =>
    Ok (match type m with
        | kKeyPush | kQuit => inr s
        | _ => inr (goto StateErr (send_to (setF error_retry 0 (uninit junk kError)) (target_id s) s))
        end)) s.

(** ** The turn of the server *)

(** [src/servers/am/serverstate.hpp:28-123] [ServerState::ReceiveMessage] *)
Definition ReceiveMessage (s : Server) : outcome Server :=
  match state s with
  | StateInit => InitState_ReceiveMessage s
  | StateExecFile => ExecFileState_ReceiveMessage s
  | StateCreateTask => CreateTaskState_ReceiveMessage s
  | StateRedirect => RedirectState_ReceiveMessage s
  | StatePipe => PipeState_ReceiveMessage s
  | StateOpen => OpenState_ReceiveMessage s
  | StateWaitingKey => WaitingKeyState_ReceiveMessage s
  | StateErr | StateStartTask | StateExit | StateAllcateFD | StateRead | StateWrite => Ok s
  end.

(** [src/servers/am/serverstate.hpp:36-123] [ServerState::HandleMessage] *)
Definition HandleMessage (s : Server) : outcome Server :=
  match state s with
  | StateErr | StateInit | StatePipe => Ok s
  | StateExecFile => ExecFileState_HandleMessage s
  | StateCreateTask => Ok (CreateTaskState_HandleMessage s)
  | StateStartTask => StartTaskState_HandleMessage s
  | StateRedirect => RedirectState_HandleMessage s
  | StateExit => ExitState_HandleMessage s
  | StateOpen => OpenState_HandleMessage s
  | StateAllcateFD => AllocateFDState_HandleMessage s
  | StateRead => ReadState_HandleMessage s
  | StateWrite => WriteState_HandleMessage s
  | StateWaitingKey => WaitingKeyState_HandleMessage s
  end.

(** [src/servers/am/serverstate.cpp:11-13] [ServerState::SendMessage] *)
Definition ErrState_SendMessage (s : Server) : Server := goto StateInit s.

(** [src/servers/am/serverstate.cpp:60-63] [InitState::SendMessage] *)
Definition InitState_SendMessage (s : Server) : Server := send_sm (target_id s) s.

(** The states that ask the file system.
    [src/servers/am/serverstate.cpp:92-95] [ExecFileState::SendMessage] *)
Definition ExecFileState_SendMessage (s : Server) : Server := send_sm (fs_id s) s.

(** [src/servers/am/serverstate.hpp:125-212] [ServerState::SendMessage] *)
Definition SendMessage (s : Server) : Server :=
  match state s with
  | StateErr | StateRead | StateWrite => ErrState_SendMessage s
  | StateInit => InitState_SendMessage s
  | StateExecFile | StateCreateTask | StateRedirect | StateOpen => ExecFileState_SendMessage s
  | StateStartTask => StartTaskState_SendMessage s
  | StatePipe | StateAllcateFD => s
  | StateExit => ExitState_SendMessage s
  | StateWaitingKey => WaitingKeyState_SendMessage s
  end.

(** One turn of the main loop.
    [src/servers/am/am.cpp:35-39] [main] *)
Definition turn (s : Server) : outcome Server :=
  s ← ReceiveMessage s; s ← HandleMessage s; Ok (SendMessage s).

(** The server after [n] turns. *)
Fixpoint turns (n : nat) (s : Server) : outcome Server :=
  match n with O => Ok s | S n' => s ← turn s; turns n' s end.

(** The members are zero-initialised by [new]; the state pool is the type
    [State].
    [src/servers/am/am.cpp:7-29] [ApplicationManagementServer::Initialize] *)
Definition Initialize (msgs : list Message) : Server :=
  MkServer (zero_message kError) (zero_message kError) StateInit (MkApps [] []) 0 0 0 [] [] false false false
    [] None 0 false (MkMail msgs []) 0.
End server.
