(* ===== verification/AmExec.v ===== *)
(** * Starting a program (servers/am/serverstate.cpp)

    The dialogue of the manager with the file system, the kernel and the task
    that asked for a program, and what becomes of an error in it. *)

From S2P Require Import Prelude Bytes Message AmFd AmApps AmServer.
From stdpp Require Import base list numbers option.
From Stdlib Require Import ZArith Lia.

Local Open Scope Z_scope.

(** Projections of updated servers, and the binds between them. *)
Ltac server_simpl :=
  cbv beta iota zeta delta [sm rm state app_manager fs_id target_id new_id command argument redirect pipe piped redirect_filename pipe_fd waiting_id waiting mail created
       set_sm set_rm set_state set_app_manager set_fs_id set_target_id set_new_id set_command set_argument set_redirect set_pipe set_piped set_redirect_filename set_pipe_fd set_waiting_id set_waiting set_mail set_created
       goto send_to send_sm defined mbind outcome_bind];
  cbn [inbox out apps fds].

(** ** Waiting for the file system *)

(** An answer that asks for the request to be repeated. *)
Definition asks_again (from : Z) (m : Message) : Prop :=
  src_task m = from /\ type m = kError /\ getI error_retry m <> 0.

(** The server when [m] was received after [n] repetitions of its request. *)
Definition after (n : nat) (to : Z) (m : Message) (msgs : list Message) (s : Server) : Server :=
  set_rm m (set_mail (MkMail msgs (out (mail s) ++ replicate n (Send (sm s) to))) s).

(** A body that repeats the request on demand. *)
Definition repeats (from : Z) (body : Message -> Server -> outcome (Server + Server)) : Prop :=
  forall r s, asks_again from r -> fs_id s = from -> body r s = Ok (inl (send_sm from s)).

Lemma receive_first (from : Z) (m : Message) msgs w :
  src_task m = from -> inbox w = m :: msgs -> ClosedReceive from w = Ok (m, MkMail msgs (out w)).
Proof. intros Hs Hin. unfold ClosedReceive. rewrite Hin. simpl. by rewrite decide_True. Qed.

Lemma wait_for_answer from body rs m msgs s x :
  fs_id s = from -> inbox (mail s) = rs ++ m :: msgs -> src_task m = from ->
  Forall (asks_again from) rs -> repeats from body ->
  body m (after (length rs) from m msgs s) = Ok (inr x) ->
  wait_for from body s = Ok x.
Proof.
  intros Hfs Hin Hsrc Hrs Hbody Hm. unfold wait_for.
  assert (length rs < S (length (inbox (mail s))))%nat as Hn by (rewrite Hin, length_app; lia).
  revert Hn. generalize (S (length (inbox (mail s)))) as fuel. intros fuel Hn.
  revert s fuel Hfs Hin Hm Hn. induction Hrs as [|r rs Hr _ IH]; intros s [|fuel] Hfs Hin Hm Hn; try (simpl in Hn; lia).
  - cbn [receive_loop]. rewrite (receive_first from m msgs) by done. cbn [mbind outcome_bind].
    unfold after in Hm. cbn [replicate length] in Hm. rewrite app_nil_r in Hm. by rewrite Hm.
  - cbn [receive_loop]. pose proof Hr as [Hrs _].
    rewrite (receive_first from r (rs ++ m :: msgs)) by done. cbn [mbind outcome_bind].
    rewrite Hbody by done. cbn [mbind outcome_bind]. apply IH; [done|done| |simpl in Hn; lia].
    rewrite <- Hm. f_equal. unfold after; simpl. by rewrite <- app_assoc.
Qed.

(** ** The request *)

(** A request of [T] to execute [cmd] with the arguments [args], in the
    foreground: no redirection, no pipe. *)
Definition exec_request (T : Z) (cmd args : list Z) (m : Message) : Prop :=
  message_ok m /\ type m = kExecuteFile /\ src_task m = T /\
  getS executefile_filename m = Some cmd /\ (length cmd < 32)%nat /\
  getS executefile_arg m = Some args /\ (length args < 32)%nat /\
  getI executefile_redirect m = 0 /\ getI executefile_pipe m = 0.

(** An answer of the file system. *)
Definition answer (F : Z) (t : MsgType) (m : Message) : Prop := src_task m = F /\ type m = t.

(** The server waits for requests and is not in the middle of a pipe. *)
Definition idle (s : Server) : Prop := state s = StateInit /\ piped s = false /\ message_ok (sm s).

(** What a request leaves alone, in every state of the dialogue. *)
Definition same_tables (s s' : Server) : Prop :=
  app_manager s' = app_manager s /\ created s' = created s /\ waiting s' = waiting s.

Section dialogue.
Context (junk : list Z) (find_server : list Z -> Z * Z) (create_task : nat -> Z * Z).
Context (F : Z) (HF : find_server servers_fs = (F, 0)).

(** The request is forwarded: the state while the file system is asked. *)
Definition asking (T : Z) (cmd args : list Z) (msgs : list Message) (o : list action) (s s' : Server) : Prop :=
  state s' = StateExecFile /\ piped s' = false /\ message_ok (sm s') /\ fs_id s' = F /\ target_id s' = T /\
  command s' = cmd /\ argument s' = args /\ redirect s' = false /\ pipe s' = false /\
  same_tables s s' /\ mail s' = MkMail msgs o /\
  type (sm s') = kExecuteFile /\ getS executefile_filename (sm s') = Some cmd.

Lemma exec_turn_asks T cmd args m msgs s :
  idle s -> exec_request T cmd args m -> inbox (mail s) = m :: msgs ->
  exists s', turn junk find_server create_task s = Ok s' /\
    asking T cmd args msgs (out (mail s) ++ [Send (sm s') F]) s s'.
Proof.
  destruct s as [sm0 rm0 st am fs tg nw cm ar rd pi pd rf pf wi wa ml cr].
  intros (Hst & Hp & Hsm) (Hm & Ht & Hsrc & Hf & Hfl & Ha & Hal & Hr & Hpi) Hin.
  cbn [state piped sm mail] in *. subst st.
  unfold turn, ReceiveMessage, InitState_ReceiveMessage. server_simpl. rewrite Hin, HF, decide_False, Ht by lia.
  server_simpl. unfold HandleMessage. server_simpl. unfold ExecFileState_HandleMessage, strcpy32. server_simpl.
  rewrite Hf. server_simpl. rewrite decide_True by done. server_simpl.
  rewrite Ha. server_simpl. rewrite decide_True by done. server_simpl.
  rewrite Hr, Hpi, (decide_False (P := 0 <> 0)) by lia. server_simpl.
  destruct (getS_bytes _ _ _ Hm Hf) as [Hn Hb].
  destruct (putS_spec executefile_filename cmd (set_type kExecuteFile sm0)) as (m' & Hput & Hm' & Hg & Ht' & _);
    [done|done|done|unfold arg_size, executefile_filename; lia|].
  rewrite Hput. server_simpl. eexists; split; [reflexivity|]. unfold asking, same_tables. simpl. by split_and!.
Qed.

Lemma ExecFile_repeats : repeats F (fun m s =>
    Ok (match type m with
        | kError => fs_error (getI error_err m) m s
        | kExecuteFile => inr (goto StateCreateTask s)
        | _ => inl s
        end)).
Proof. intros r s (_ & Ht & Hr) Hfs. rewrite Ht. unfold fs_error. by rewrite decide_True, Hfs. Qed.

Lemma CreateTask_repeats : repeats F (fun m s =>
    Ok (match type m with
        | kError => fs_error EAGAIN m s
        | kReady => inr (goto (if redirect s then StateRedirect else StateStartTask) s)
        | _ => inr (goto StateErr s)
        end)).
Proof. intros r s (_ & Ht & Hr) Hfs. rewrite Ht. unfold fs_error. by rewrite decide_True, Hfs. Qed.

(** A task was created: the state while the file system loads the program. *)
Definition loading (id : Z) (T : Z) (cmd args : list Z) (msgs : list Message) (o : list action) (s s' : Server) : Prop :=
  state s' = StateCreateTask /\ piped s' = false /\ message_ok (sm s') /\ fs_id s' = F /\ target_id s' = T /\
  command s' = cmd /\ argument s' = args /\ redirect s' = false /\ pipe s' = false /\ new_id s' = id /\
  app_manager s' = app_manager s /\ created s' = S (created s) /\ waiting s' = waiting s /\ mail s' = MkMail msgs o /\
  type (sm s') = kExecuteFile /\ getU executefile_id (sm s') = id.

Lemma exec_turn_creates id T cmd args rs a msgs o s0 s :
  asking T cmd args (rs ++ a :: msgs) o s0 s -> Forall (asks_again F) rs -> answer F kExecuteFile a ->
  create_task (created s0) = (id, 0) -> 0 <= id < 2 ^ 64 ->
  exists s', turn junk find_server create_task s = Ok s' /\
    loading id T cmd args msgs (o ++ replicate (length rs) (Send (sm s) F) ++ [CreateNewTask; Send (sm s') F]) s0 s'.
Proof.
  intros (Hst & Hp & Hsm & Hfs & HT & Hc & Ha & Hr & Hpi & (Ham & Hcr & Hw) & Hmail & Hty & Hg) Hrs [Hsrc Ht] Hid Hrange.
  unfold turn, ReceiveMessage. rewrite Hst. unfold ExecFileState_ReceiveMessage.
  rewrite (wait_for_answer _ _ rs a msgs s (goto StateCreateTask (after (length rs) F a msgs s)));
    [|done|by rewrite Hmail|by rewrite Hfs|by rewrite Hfs|rewrite Hfs; apply ExecFile_repeats|by rewrite Ht, Hfs].
  destruct s as [sm0 rm0 st am fs tg nw cm ar rd pi pd rf pf wi wa ml cr].
  destruct s0 as [sm1 rm1 st1 am1 fs1 tg1 nw1 cm1 ar1 rd1 pi1 pd1 rf1 pf1 wi1 wa1 ml1 cr1].
  cbn [state piped sm mail fs_id target_id command argument redirect pipe app_manager created waiting] in *. subst.
  unfold after, HandleMessage. server_simpl. unfold CreateTaskState_HandleMessage. server_simpl.
  rewrite Hid, (decide_False (P := 0 <> 0)) by lia. server_simpl.
  eexists; split; [reflexivity|]. unfold loading. simpl. split_and!; try done.
  - by apply message_ok_setF.
  - unfold send, act. cbn [inbox out]. by rewrite <- !app_assoc.
  - rewrite getU_setF by done. cbn [f_width executefile_id]. by rewrite Z.mod_small.
Qed.

(** The application is registered and started. *)
Definition started (id : Z) (T : Z) (cmd args : list Z) (msgs : list Message) (s0 s' : Server) : Prop :=
  idle s' /\ inbox (mail s') = msgs /\ waiting s' = waiting s0 /\ created s' = S (created s0) /\
  app_manager s' =
    MkApps (apps (app_manager s0) ++ [MkAppInfo id T Run (fst (inherited find_server id T (app_manager s0)))])
      (fds (app_manager s0) ++ snd (inherited find_server id T (app_manager s0))).

Lemma exec_turn_starts id T cmd args rs a msgs o s0 s :
  loading id T cmd args (rs ++ a :: msgs) o s0 s -> Forall (asks_again F) rs -> answer F kReady a ->
  GetAppInfo id (app_manager s0) = None -> id <> T -> 0 <= id < 2 ^ 64 ->
  exists s' q3 q4, turn junk find_server create_task s = Ok s' /\ started id T cmd args msgs s0 s' /\
    out (mail s') = o ++ replicate (length rs) (Send (sm s) F) ++
      [SetCommand id cmd; SetArgument id args; Send q3 T; Send q4 1] /\
    type q3 = kExecuteFile /\ getU executefile_id q3 = id /\ type q4 = kStartApp /\ getU starttask_id q4 = id.
Proof.
  clear HF.
  intros (Hst & Hp & Hsm & Hfs & HT & Hc & Ha & Hr & Hpi & Hnew & Ham & Hcr & Hw & Hmail & Hty & Hg) Hrs [Hsrc Ht]
    Hfree Hne Hrange.
  unfold turn, ReceiveMessage. rewrite Hst. unfold CreateTaskState_ReceiveMessage.
  rewrite (wait_for_answer _ _ rs a msgs s (goto StateStartTask (after (length rs) F a msgs s)));
    [|done|by rewrite Hmail|by rewrite Hfs|by rewrite Hfs|rewrite Hfs; apply CreateTask_repeats|].
  2: { rewrite Ht, Hfs. unfold after. simpl. by rewrite Hr. }
  destruct s as [sm0 rm0 st am fs tg nw cm ar rd pi pd rf pf wi wa ml cr].
  destruct s0 as [sm1 rm1 st1 am1 fs1 tg1 nw1 cm1 ar1 rd1 pi1 pd1 rf1 pf1 wi1 wa1 ml1 cr1].
  cbn [state piped sm mail fs_id target_id command argument redirect pipe app_manager created waiting new_id] in *. subst.
  unfold after, HandleMessage. server_simpl. unfold StartTaskState_HandleMessage. server_simpl.
  rewrite NewApp_spec by done. server_simpl. unfold SendMessage. server_simpl. unfold StartTaskState_SendMessage. server_simpl.
  assert (forall f x, field_ok f = true -> f_width f = 8%nat -> getU f (setF f x (set_type kExecuteFile sm0)) = x mod 2 ^ 64) as Hget.
  { intros f x Hf Hw. rewrite getU_setF by done. by rewrite Hw. }
  eexists _, _, _. split; [reflexivity|]. split_and!.
  - unfold started, idle. cbn. by split_and!; try (apply message_ok_setF; [apply message_ok_setF|]).
  - cbn. rewrite <- !app_assoc. reflexivity.
  - done.
  - rewrite Hget by done. by rewrite Z.mod_small.
  - done.
  - rewrite getU_setF by (done || by apply message_ok_setF). by rewrite Z.mod_small.
Qed.
End dialogue.

(** Executing a program: the request is forwarded to the file system,
    repeated as often as the file system asks; when it answers that the file
    exists, a task is created and the file system told to load it; when it is
    ready, the application is registered, sharing the files of the requesting
    application or with three terminals, its command and arguments are set, the
    requester learns the task and the kernel is asked to start it. The server is
    then ready for the next request. *)
Theorem exec_starts_app junk find_server create_task F id T cmd args m rs1 a1 rs2 a2 rest s :
  find_server servers_fs = (F, 0) -> idle s -> exec_request T cmd args m ->
  inbox (mail s) = m :: rs1 ++ a1 :: rs2 ++ a2 :: rest ->
  Forall (asks_again F) rs1 -> answer F kExecuteFile a1 -> Forall (asks_again F) rs2 -> answer F kReady a2 ->
  create_task (created s) = (id, 0) -> 0 <= id < 2 ^ 64 -> GetAppInfo id (app_manager s) = None -> id <> T ->
  exists s' q1 q2 q3 q4, turns junk find_server create_task 3 s = Ok s' /\
    started find_server id T cmd args rest s s' /\
    out (mail s') = out (mail s) ++ replicate (S (length rs1)) (Send q1 F) ++ [CreateNewTask] ++
      replicate (S (length rs2)) (Send q2 F) ++ [SetCommand id cmd; SetArgument id args; Send q3 T; Send q4 1] /\
    (type q1 = kExecuteFile /\ getS executefile_filename q1 = Some cmd) /\
    (type q2 = kExecuteFile /\ getU executefile_id q2 = id) /\
    (type q3 = kExecuteFile /\ getU executefile_id q3 = id) /\
    (type q4 = kStartApp /\ getU starttask_id q4 = id).
Proof.
  intros HF Hidle Hreq Hin Hrs1 Ha1 Hrs2 Ha2 Hid Hrange Hfree Hne.
  destruct (exec_turn_asks junk find_server create_task F HF T cmd args m _ s Hidle Hreq Hin) as (s1 & Ht1 & Hask).
  destruct (exec_turn_creates junk find_server create_task F id T cmd args rs1 a1 _ _ s s1 Hask)
    as (s2 & Ht2 & Hload); [done..|].
  destruct (exec_turn_starts junk find_server create_task F id T cmd args rs2 a2 _ _ s s2 Hload)
    as (s3 & q3 & q4 & Ht3 & Hstart & Hout & Hq); [done..|].
  exists s3, (sm s1), (sm s2), q3, q4. cbn [turns]. rewrite Ht1; cbn [mbind outcome_bind].
  rewrite Ht2; cbn [mbind outcome_bind]. rewrite Ht3; cbn [mbind outcome_bind].
  destruct Hask as (_ & _ & _ & _ & _ & _ & _ & _ & _ & _ & _ & Hq1).
  destruct Hload as (_ & _ & _ & _ & _ & _ & _ & _ & _ & _ & _ & _ & _ & _ & Hq2).
  split_and!; try done; try tauto.
  rewrite Hout, <- !app_assoc. reflexivity.
Qed.

(** *** An error of the file system *)

Definition not_found (F err : Z) (m : Message) : Prop :=
  src_task m = F /\ type m = kError /\ getI error_retry m = 0 /\ getI error_err m = err.

(** C22. When the file system cannot find or run the program, the requester gets
    one error message with the reason of the file system, no task is created, no
    application registered, and the server is ready for the next request. *)
Theorem exec_reports_error junk find_server create_task F T cmd args m rs e rest err s :
  find_server servers_fs = (F, 0) -> idle s -> exec_request T cmd args m ->
  inbox (mail s) = m :: rs ++ e :: rest -> Forall (asks_again F) rs -> not_found F err e ->
  exists s' q1 q2, turns junk find_server create_task 2 s = Ok s' /\ idle s' /\ same_tables s s' /\
    inbox (mail s') = rest /\
    out (mail s') = out (mail s) ++ replicate (S (length rs)) (Send q1 F) ++ [Send q2 T] /\
    (type q1 = kExecuteFile /\ getS executefile_filename q1 = Some cmd) /\
    (type q2 = kError /\ getI error_retry q2 = 0 /\ getI error_err q2 = err).
Proof.
  intros HF Hidle Hreq Hin Hrs (Hsrc & Ht & Hr & He).
  destruct (exec_turn_asks junk find_server create_task F HF T cmd args m _ s Hidle Hreq Hin) as (s1 & Ht1 & Hask).
  destruct Hask as (Hst & Hp & Hsm & Hfs & HT & _ & _ & _ & _ & Htab & Hmail & Hq1).
  assert (ReceiveMessage junk find_server s1 = Ok (goto StateErr (send_sm T (fail err (after (length rs) F e rest s1))))) as Hrecv.
  { unfold ReceiveMessage. rewrite Hst. unfold ExecFileState_ReceiveMessage.
    apply (wait_for_answer _ _ rs e rest s1); rewrite ?Hfs; try done.
    - by rewrite Hmail.
    - apply ExecFile_repeats.
    - rewrite Ht. unfold fs_error. rewrite decide_False by lia. rewrite He.
      unfold fail, after, send_sm, goto. simpl. by rewrite HT. }
  cbn [turns]. rewrite Ht1; cbn [mbind outcome_bind]. unfold turn. rewrite Hrecv. cbn [mbind outcome_bind].
  eexists _, (sm s1), (sm (fail err s1)). split; [reflexivity|].
  assert (- 2 ^ 31 <= err < 2 ^ 31) as Herr by (rewrite <- He; apply s32_range).
  unfold idle, same_tables in *. simpl. split_and!; try done; try tauto.
  - by repeat apply message_ok_setF.
  - rewrite Hmail. cbn [out]. rewrite <- !app_assoc. reflexivity.
  - unfold getI. rewrite getU_setF by (done || by apply message_ok_setF). cbn [f_width error_err].
    unfold s32. change (256 ^ Z.of_nat 4) with (2 ^ 32). rewrite Zplus_mod_idemp_l.
    fold (s32 err). by apply s32_small.
Qed.

(** *** Requests on a descriptor *)

Lemma find_fd_bad fd s a :
  GetAppInfo (target_id s) (app_manager s) = Some a -> - 2 ^ 31 <= fd < 2 ^ 31 ->
  (fd < 0 \/ Z.of_nat (length (files a)) <= fd) -> Z.of_nat (length (files a)) < 2 ^ 63 ->
  find_fd fd s = Ok None.
Proof.
  intros Ha Hfd Hbad Hlen. unfold find_fd. rewrite Ha. cbn [defined mbind outcome_bind]. f_equal.
  destruct (getZ (files a) (u64 fd)) as [p|] eqn:E; [|done]. apply getZ_inv in E. exfalso.
  destruct (decide (fd < 0)).
  - unfold u64 in E. rewrite <- (Z_mod_plus_full fd 1 (2 ^ 64)), Z.mod_small in E by lia. lia.
  - rewrite u64_small in E by lia. lia.
Qed.

(** A read or a write on a descriptor the application does not have, a
    negative number included, is answered with EBADF in one turn; nothing else
    happens. *)
Theorem bad_descriptor junk find_server create_task F m rest s a :
  find_server servers_fs = (F, 0) -> idle s -> inbox (mail s) = m :: rest ->
  type m = kRead \/ type m = kWrite ->
  GetAppInfo (src_task m) (app_manager s) = Some a -> Z.of_nat (length (files a)) < 2 ^ 63 ->
  getI read_fd m < 0 \/ Z.of_nat (length (files a)) <= getI read_fd m ->
  exists s' q, turn junk find_server create_task s = Ok s' /\ idle s' /\ same_tables s s' /\
    mail s' = MkMail rest (out (mail s) ++ [Send q (src_task m)]) /\
    type q = kError /\ getI error_retry q = 0 /\ getI error_err q = EBADF.
Proof.
  intros HF (Hst & Hp & Hsm) Hin Ht Ha Hlen Hbad.
  pose proof (s32_range (getU read_fd m)) as Hfd.
  exists (set_mail (MkMail rest (out (mail s) ++ [Send (sm (fail EBADF s)) (src_task m)]))
           (set_state StateInit (fail EBADF (set_target_id (src_task m) (set_fs_id F (set_rm m s)))))).
  exists (sm (fail EBADF s)). split; [|split_and!; try done].
  - unfold turn, ReceiveMessage. rewrite Hst. unfold InitState_ReceiveMessage. rewrite Hin, HF, decide_False by lia.
    assert (forall st op, with_fd (getI read_fd m) op (goto st (set_fs_id F (set_rm m (set_mail (MkMail rest (out (mail s))) s)))) =
        Ok (goto StateInit (fail EBADF (set_target_id (src_task m) (goto st (set_fs_id F (set_rm m
          (set_mail (MkMail rest (out (mail s))) s)))))))) as Hop.
    { intros st op. unfold with_fd. rewrite (find_fd_bad _ _ a) by done. done. }
    destruct Ht as [Ht|Ht]; rewrite Ht; cbn [mbind outcome_bind]; unfold HandleMessage; cbn [state goto set_state].
    + unfold ReadState_HandleMessage. cbn [rm set_rm set_mail set_fs_id set_state goto]. by rewrite Hop.
    + unfold WriteState_HandleMessage. cbn [rm set_rm set_mail set_fs_id set_state goto].
      change write_fd with read_fd. by rewrite Hop.
  - unfold idle. simpl. split_and!; [done|done|by repeat apply message_ok_setF].
Qed.

(** ** A sample dialogue *)

Definition sample_find (name : list Z) : Z * Z := if decide (name = servers_fs) then (7, 0) else (9, 0).

(** Task 9 asks for "ls" with the argument "/". *)
Definition sample_request : Message :=
  let m := default (zero_message kExecuteFile) (putS executefile_filename [108; 115] (zero_message kExecuteFile)) in
  set_src 9 (default m (putS executefile_arg [47] m)).
Definition sample_answer (t : MsgType) : Message := set_src 7 (zero_message t).
Definition sample_retry : Message := setF error_retry 1 (sample_answer kError).
Definition sample_missing : Message := setF error_err 2 (sample_answer kError).

Lemma sample_idle msgs : idle (Initialize msgs).
Proof. split; [done|]. split; [done|]. apply zero_message_ok. Qed.

Lemma sample_request_ok : exec_request 9 [108; 115] [47] sample_request.
Proof.
  split; [split; [by vm_compute|by apply (bool_decide_unpack (Forall (fun b => 0 <= b < 256) _)); vm_compute]|].
  split_and!; try reflexivity; simpl; lia.
Qed.

Lemma sample_retry_ok : Forall (asks_again 7) [sample_retry].
Proof. constructor; [|constructor]. by repeat split. Qed.

Lemma exec_starts_app_witness :
  exists s' q1 q2 q3 q4,
    let s := Initialize [sample_request; sample_retry; sample_answer kExecuteFile; sample_answer kReady] in
    turns (replicate arg_size 0) sample_find (fun n => (Z.of_nat n + 20, 0)) 3 s = Ok s' /\
    started sample_find 20 9 [108; 115] [47] [] s s' /\
    out (mail s') = [] ++ replicate 2 (Send q1 7) ++ [CreateNewTask] ++ replicate 1 (Send q2 7) ++
      [SetCommand 20 [108; 115]; SetArgument 20 [47]; Send q3 9; Send q4 1] /\
    (type q1 = kExecuteFile /\ getS executefile_filename q1 = Some [108; 115]) /\
    (type q2 = kExecuteFile /\ getU executefile_id q2 = 20) /\
    (type q3 = kExecuteFile /\ getU executefile_id q3 = 20) /\
    (type q4 = kStartApp /\ getU starttask_id q4 = 20).
Proof.
  apply (exec_starts_app (replicate arg_size 0) sample_find (fun n => (Z.of_nat n + 20, 0)) 7 20 9 [108; 115] [47]
    sample_request [sample_retry] (sample_answer kExecuteFile) [] (sample_answer kReady) []).
  all: try reflexivity.
  - apply sample_idle.
  - apply sample_request_ok.
  - apply sample_retry_ok.
  - done.
  - constructor.
  - done.
  - lia.
  - lia.
Defined.

Lemma exec_reports_error_witness :
  exists s' q1 q2, let s := Initialize [sample_request; sample_retry; sample_missing] in
    turns (replicate arg_size 0) sample_find (fun n => (Z.of_nat n + 20, 0)) 2 s = Ok s' /\ idle s' /\
    same_tables s s' /\ inbox (mail s') = [] /\
    out (mail s') = [] ++ replicate 2 (Send q1 7) ++ [Send q2 9] /\
    (type q1 = kExecuteFile /\ getS executefile_filename q1 = Some [108; 115]) /\
    (type q2 = kError /\ getI error_retry q2 = 0 /\ getI error_err q2 = 2).
Proof.
  apply (exec_reports_error (replicate arg_size 0) sample_find (fun n => (Z.of_nat n + 20, 0)) 7 9 [108; 115] [47]
    sample_request [sample_retry] sample_missing [] 2).
  all: try reflexivity.
  - apply sample_idle.
  - apply sample_request_ok.
  - apply sample_retry_ok.
  - by repeat split.
Defined.

(** Application 5 with two files reads from descriptor -1. *)
Definition sample_bad_read : Message := setF read_fd (-1) (set_src 5 (zero_message kRead)).
Definition sample_server : Server := set_app_manager sample_apps (Initialize [sample_bad_read]).

Lemma bad_descriptor_witness :
  exists s' q, turn (replicate arg_size 0) sample_find (fun n => (Z.of_nat n + 20, 0)) sample_server = Ok s' /\
    idle s' /\ same_tables sample_server s' /\ mail s' = MkMail [] [Send q 5] /\
    type q = kError /\ getI error_retry q = 0 /\ getI error_err q = 9.
Proof.
  apply (bad_descriptor (replicate arg_size 0) sample_find (fun n => (Z.of_nat n + 20, 0)) 7 sample_bad_read [] sample_server
    (MkAppInfo 5 3 Run [Some 0; Some 1]%nat)).
  all: try reflexivity.
  - apply (sample_idle [sample_bad_read]).
  - by left.
  - by left.
Defined.
