(* ===== verification/AmTypes.v ===== *)
(** * The application manager does not go wrong (servers/am)

    The table of applications and the store of descriptors are well typed, and
    a turn of the manager that meets only requests of the form its clients
    keep to has no undefined behaviour and leaves them so. What the code
    relies on without a check is collected in [well_formed] and
    [disciplined]. *)

From S2P Require Import Prelude Bytes Message AmFd AmApps AmServer AmExec.
From stdpp Require Import base list numbers option.
From Stdlib Require Import ZArith Lia.

Local Open Scope Z_scope.

(** ** The types *)

(** A string that fits the arrays of 32. *)
Definition name_ok (s : list Z) : Prop := (length s < 32)%nat /\ no_nul s /\ bytes s.

(** A file name fits its array; a pipe holds at most the 16 bytes of its. *)
Definition fd_ok (d : FileDescriptor) : Prop :=
  match d with
  | TerminalFd _ _ => True
  | FatFd _ name _ _ _ => name_ok name
  | PipeFd _ data len _ => length data = data_size /\ 0 <= len <= Z.of_nat data_size
  end.

(** The files of an application lead to descriptors, and one that runs has at
    least the three it was given. *)
Definition app_ok (n : nat) (a : AppInfo) : Prop :=
  Forall (file_ok n) (files a) /\ (app_state a = Run -> (3 <= length (files a))%nat).

Record typed (am : AppManager) : Prop := {
  ty_apps : Forall (app_ok (length (fds am))) (apps am);
  ty_fds : Forall fd_ok (fds am);
}.

(** ** What the messages keep to *)

(** A string member is terminated within 32 bytes. *)
Definition named (off : nat) (m : Message) : Prop := exists s, getS off m = Some s /\ (length s < 32)%nat.

(** The strings of a request fit their arrays, and the length of the data of a
    [kWrite] is no larger than the array it is about. *)
Definition well_formed (m : Message) : Prop :=
  message_ok m /\
  match type m with
  | kExecuteFile => named executefile_filename m /\ named executefile_arg m
  | kOpen => named open_filename m
  | kOpenDir => named opendir_dirname m
  | kWrite => getU write_len m <= Z.of_nat data_size
  | _ => True
  end.

(** The types [InitState] has a case for. *)
Definition known_request (t : MsgType) : Prop :=
  match t with
  | kExecuteFile | kWrite | kOpen | kOpenDir | kRead | kWaitingKey | kExitApp => True
  | _ => False
  end.

(** The first entry of the task, if there is one, is not of an ended program. *)
Definition not_killed (id : Z) (am : AppManager) : Prop :=
  forall a, GetAppInfo id am = Some a -> app_state a = Run.

(** The state a request led to: an unknown task may ask for a program only; the
    message that follows a request with redirection carries a name. *)
Definition expected (s : Server) : Prop :=
  match state s with
  | StateExecFile =>
      not_killed (src_task (rm s)) (app_manager s) /\
      (getI executefile_redirect (rm s) <> 0 -> forall m w,
         ClosedReceive (src_task (rm s)) (mail s) = Ok (m, w) -> named Message.redirect_filename m)
  | StateOpen | StateRead | StateWrite => is_Some (GetAppInfo (src_task (rm s)) (app_manager s))
  | StateWaitingKey => waiting s = false -> is_Some (GetAppInfo (src_task (rm s)) (app_manager s))
  | _ => True
  end.

(** What a turn relies on: the message that opens a dialogue has a type the
    manager knows, and the state it leads to is [expected]. *)
Definition disciplined (junk : list Z) (find_server : list Z -> Z * Z) (s : Server) : Prop :=
  (state s = StateInit -> forall m ms, inbox (mail s) = m :: ms -> known_request (type m)) /\
  forall s1, ReceiveMessage junk find_server s = Ok s1 -> expected s1.

(** The states the manager reaches by disciplined turns. *)
Inductive run (junk : list Z) (find_server : list Z -> Z * Z) (create_task : nat -> Z * Z) (s : Server) : Server -> Prop :=
| run_start : run junk find_server create_task s s
| run_turn s1 s2 :
    run junk find_server create_task s s1 -> disciplined junk find_server s1 ->
    turn junk find_server create_task s1 = Ok s2 -> run junk find_server create_task s s2.

(** ** Outcomes *)

Definition mail_ok (w : Mail) : Prop := Forall well_formed (inbox w).

Lemma well_formed_ok m : well_formed m -> message_ok m.
Proof. apply proj1. Qed.
#[export] Hint Resolve well_formed_ok : bytes.

Lemma ClosedReceive_safe from w : mail_ok w ->
  safe (fun r => src_task (fst r) = from /\ well_formed (fst r) /\ mail_ok (snd r)) (ClosedReceive from w).
Proof.
  unfold ClosedReceive, mail_ok. generalize (out w) as o. generalize (inbox w) as msgs.
  induction msgs as [|x msgs IH]; intros o; [done|]. cbn [closed_receive].
  rewrite list.Forall_cons. intros [Hx Hms]. case_decide; [done|by apply IH].
Qed.

Lemma receive_loop_safe {S R} (mail : S -> Mail) set_mail from body (I : S -> Prop) (J : R -> Prop) :
  (forall s, I s -> mail_ok (mail s)) ->
  (forall s m w, I s -> src_task m = from -> well_formed m -> mail_ok w ->
     safe (fun r => match r with inl s' => I s' | inr x => J x end) (body m (set_mail w s))) ->
  forall fuel s, I s -> safe J (receive_loop mail set_mail from body fuel s).
Proof.
  intros Hmail Hbody fuel. induction fuel as [|fuel IH]; intros s HI; [done|]. cbn [receive_loop].
  eapply safe_bind; [by apply ClosedReceive_safe, Hmail|]. intros [m w] (Hs & Hm & Hw).
  eapply safe_bind; [by apply Hbody|]. intros [s'|x] H; [by apply IH|done].
Qed.

Lemma getS_name off m s : message_ok m -> getS off m = Some s -> (length s < 32)%nat -> name_ok s.
Proof. intros Hm Hs Hl. destruct (getS_bytes _ _ _ Hm Hs). by split_and!. Qed.

Lemma named_safe off m : message_ok m -> named off m -> safe name_ok (s ← defined (getS off m); strcpy32 s).
Proof.
  intros Hm (s & Hs & Hl). rewrite Hs. cbn [defined mbind outcome_bind]. unfold strcpy32. rewrite decide_True by done.
  by eapply getS_name.
Qed.

(** The name of a file fits every message. *)
Lemma putS_safe off s m : message_ok m -> name_ok s -> (off <= 32)%nat ->
  safe (fun m' => message_ok m' /\ type m' = type m /\ src_task m' = src_task m) (defined (putS off s m)).
Proof.
  intros Hm (Hl & Hn & Hb) Ho. destruct (putS_spec off s m) as (m' & -> & ? & _ & ? & ?); try done.
  unfold arg_size. lia.
Qed.

(** ** Descriptors *)

Section types.
Context (junk : list Z) (find_server : list Z -> Z * Z) (create_task : nat -> Z * Z).
Context (Hjunk : length junk = arg_size).

Lemma new_FatFd_safe id name : name_ok name -> safe fd_ok (new_FatFd id name).
Proof. intros Hn. unfold new_FatFd, strcpy32. by rewrite decide_True by apply Hn. Qed.

Lemma new_PipeFd_ok id : fd_ok (new_PipeFd junk id).
Proof. split; [|lia]. rewrite length_take, Hjunk. done. Qed.

Definition vars_ok (v : FatVars) : Prop := mail_ok (v_mail v).

Lemma Fat_Read_safe id name ro rc msg w : name_ok name -> message_ok msg -> mail_ok w ->
  safe vars_ok (Fat_Read find_server id name ro rc msg w).
Proof.
  intros Hn Hm Hw. unfold Fat_Read. eapply safe_bind; [apply putS_safe; [by repeat apply message_ok_setF|done|unfold read_filename; lia]|].
  intros m _. destruct (find_server servers_fs) as [fs_id err]. case_decide; [done|].
  apply (receive_loop_safe _ _ _ _ vars_ok vars_ok); [done| |done].
  intros v rm w' _ _ _ Hw'. unfold Fat_Read_body. by case_decide.
Qed.

Lemma Fat_forward_safe id fs name msg v : name_ok name -> message_ok msg -> vars_ok v ->
  safe vars_ok (Fat_forward junk id fs name msg v).
Proof. intros Hn Hm Hv. unfold Fat_forward. eapply safe_bind; [apply putS_safe; [done..|unfold write_filename; lia]|]. done. Qed.

Lemma Fat_Write_safe id name wo msg w : name_ok name -> message_ok msg -> mail_ok w ->
  safe vars_ok (Fat_Write junk find_server id name wo msg w).
Proof.
  intros Hn Hm Hw. unfold Fat_Write. destruct (find_server servers_fs) as [fs_id err]. case_decide; [done|].
  eapply safe_bind; [by apply (Fat_forward_safe id fs_id name msg (MkFatVars wo 0 w))|]. intros v Hv.
  apply (receive_loop_safe _ _ _ _ vars_ok vars_ok); [done| |done].
  intros v' rm w' _ _ Hrm Hw'. unfold Fat_Write_body. destruct (type rm); try exact Hw'.
  eapply safe_bind; [apply Fat_forward_safe; [done|by apply well_formed_ok|done]|]. intros v2 Hv2. by case_decide.
Qed.

Lemma Terminal_Read_safe id t msg w : mail_ok w -> safe mail_ok (Terminal_Read junk id t msg w).
Proof.
  intros Hw. unfold Terminal_Read. eapply safe_bind; [by apply ClosedReceive_safe|].
  intros [m w'] (_ & _ & Hw'). by destruct (type m).
Qed.

(** The data of a pipe and the mail after a request. *)
Definition pipe_ok (id : Z) (c : bool) (w : Mail) (r : list Z * Z * Mail) : Prop :=
  let '(data, len, w') := r in fd_ok (PipeFd id data len c) /\ inbox w' = inbox w.

Lemma uninit_putB s t : (length s <= data_size)%nat -> exists m, putB read_data s (uninit junk t) = Some m.
Proof.
  intros Hs. unfold putB, uninit; cbn [arg]. rewrite write_at_Some; [by eexists|].
  unfold read_data, data_size, arg_size in *. lia.
Qed.

Lemma Pipe_Read_safe id data len c msg w : fd_ok (PipeFd id data len c) -> message_ok msg ->
  safe (pipe_ok id c w) (Pipe_Read junk id data len c msg w).
Proof.
  intros [Hd Hl] Hm. pose proof (getU_range read_count msg Hm eq_refl) as Hc. unfold Pipe_Read. cbv zeta.
  destruct c; [done|]. unfold data_size in *. case_decide as Hz; [done|]. case_decide as Hlen.
  - rewrite read_at_Some by lia. cbn [defined mbind outcome_bind].
    destruct (uninit_putB (slice data 0 (Z.to_nat len)) kRead) as [m ->]; [rewrite length_slice; unfold data_size; lia|].
    split; [split; [done|lia]|done].
  - rewrite (read_at_Some data 0) by lia. cbn [defined mbind outcome_bind].
    destruct (uninit_putB (slice data 0 (Z.to_nat (getU read_count msg))) kRead) as [m ->];
      [rewrite length_slice; unfold data_size; lia|].
    cbn [defined mbind outcome_bind]. rewrite read_at_Some by lia.
    split; [split; [|unfold data_size; lia]|done]. rewrite length_splice; [done|]. rewrite length_slice; lia.
Qed.

Lemma Pipe_Write_safe id data len c msg w : fd_ok (PipeFd id data len c) -> message_ok msg ->
  getU write_len msg <= Z.of_nat data_size -> safe (pipe_ok id c w) (Pipe_Write junk id data len c msg w).
Proof.
  intros [Hd Hl] [Hm Hb] Hw. pose proof (getU_range write_len msg (conj Hm Hb) eq_refl) as Hc. unfold Pipe_Write. cbv zeta.
  destruct c; [done|]. unfold data_size, arg_size in *. case_decide as Hz; [|done]. case_decide as Hlen; [|done].
  rewrite read_at_Some by (unfold write_data; lia). cbn [defined mbind outcome_bind].
  assert (Hs : length (slice (arg msg) write_data (Z.to_nat (getU write_len msg))) = Z.to_nat (getU write_len msg))
    by (apply length_slice; unfold write_data; lia).
  rewrite write_at_Some by lia. split; [split; [by rewrite length_splice by lia|unfold data_size; lia]|done].
Qed.

Definition op_ok (r : FileDescriptor * Mail) : Prop := fd_ok (fst r) /\ mail_ok (snd r).

Lemma Read_safe d msg w : fd_ok d -> message_ok msg -> mail_ok w -> safe op_ok (Read junk find_server d msg w).
Proof.
  intros Hd Hm Hw. destruct d as [id t|id name ro rc wo|id data len c]; cbn [Read].
  - eapply safe_bind; [by apply Terminal_Read_safe|]. intros w' Hw'. by split.
  - eapply safe_bind; [by apply Fat_Read_safe|]. intros v Hv. by split.
  - eapply safe_bind; [by apply Pipe_Read_safe|]. intros [[data' len'] w'] [Hd' Hin]. split; [done|].
    unfold mail_ok. cbn [snd]. by rewrite Hin.
Qed.

Lemma Write_safe d msg w : fd_ok d -> message_ok msg -> getU write_len msg <= Z.of_nat data_size -> mail_ok w ->
  safe op_ok (Write junk find_server d msg w).
Proof.
  intros Hd Hm Hl Hw. destruct d as [id t|id name ro rc wo|id data len c]; cbn [Write].
  - by split.
  - eapply safe_bind; [by apply Fat_Write_safe|]. intros v Hv. by split.
  - eapply safe_bind; [by apply Pipe_Write_safe|]. intros [[data' len'] w'] [Hd' Hin]. split; [done|].
    unfold mail_ok. cbn [snd]. by rewrite Hin.
Qed.
End types.

(** ** The table *)

Definition ids (am : AppManager) : list Z := map task_id (apps am).
Definition shape (am : AppManager) : list (Z * AppState) := map (fun a => (task_id a, app_state a)) (apps am).

(** Changes that only add descriptors and files. *)
Record extends (am am' : AppManager) : Prop := {
  ex_typed : typed am';
  ex_shape : shape am' = shape am;
  ex_fds : (length (fds am) <= length (fds am'))%nat;
}.

Lemma ids_shape am : ids am = map fst (shape am).
Proof. unfold ids, shape. by rewrite map_map. Qed.

Lemma not_killed_shape id am :
  not_killed id am <-> forall p, List.find (fun p => fst p =? id) (shape am) = Some p -> snd p = Run.
Proof.
  unfold not_killed, GetAppInfo, find_key, shape. induction (apps am) as [|a l IH]; simpl; [done|].
  destruct (task_id a =? id); [|done]. split; [intros H p [= <-]; by apply H|intros H b [= <-]; by apply (H _ eq_refl)].
Qed.

(** A new program at the end of the table ends none. *)
Lemma not_killed_app id new am am' :
  shape am' = shape am ++ [(new, Run)] -> not_killed id am -> not_killed id am'.
Proof.
  rewrite !not_killed_shape. intros -> H p. induction (shape am) as [|q l IH]; simpl.
  - destruct (new =? id); [|done]. by intros [= <-].
  - simpl in H. destruct (fst q =? id); [by apply H|by apply IH].
Qed.

Definition runs (id : Z) (am : AppManager) : Prop := exists a, GetAppInfo id am = Some a /\ app_state a = Run.

Lemma file_ok_le n n' p : file_ok n p -> (n <= n')%nat -> file_ok n' p.
Proof. intros (i & -> & Hi) ?. exists i. split; [done|lia]. Qed.

Lemma app_ok_le n n' a : app_ok n a -> (n <= n')%nat -> app_ok n' a.
Proof. intros [Hf Hr] Hn. split; [|done]. eapply Forall_impl; [|exact Hf]. intros p Hp. by eapply file_ok_le. Qed.

Lemma GetAppInfo_ids id am : is_Some (GetAppInfo id am) <-> id ∈ ids am.
Proof.
  unfold GetAppInfo, ids. pose proof (find_key_None task_id id (apps am)) as H.
  destruct (find_key task_id id (apps am)) as [a|]; split.
  - intros _. destruct (decide (id ∈ map task_id (apps am))) as [|Hn]; [done|]. by apply H in Hn.
  - by eexists.
  - by intros [? ?].
  - intros Hin. by apply (proj1 H) in Hin.
Qed.

Lemma extends_refl am : typed am -> extends am am.
Proof. by split. Qed.

Lemma extends_trans a b c : extends a b -> extends b c -> extends a c.
Proof. intros [? ? ?] [? ? ?]. split; [done|congruence|lia]. Qed.

Lemma new_fd_extends d am : typed am -> fd_ok d -> extends am (fst (new_fd d am)).
Proof.
  intros [Ha Hf] Hd. split; [|done|cbn; rewrite length_app; lia]. split; cbn [new_fd fst set_fds apps fds].
  - eapply Forall_impl; [|exact Ha]. intros a Hl. eapply app_ok_le; [exact Hl|]. rewrite length_app. lia.
  - apply list.Forall_app. split; [done|by constructor].
Qed.

Lemma Forall_alter_found (P : AppInfo -> Prop) id f l a :
  Forall P l -> find_key task_id id l = Some a -> P (f a) -> Forall P (alter_key task_id id f l).
Proof.
  unfold find_key. induction 1 as [|b l Hb Hl IH]; simpl; [done|]. destruct (task_id b =? id).
  - intros [= ->] ?. by constructor.
  - intros ? ?. constructor; auto.
Qed.

(** Changing the files of the application that is found. *)
Lemma alter_files_extends id f am a :
  typed am -> GetAppInfo id am = Some a -> app_ok (length (fds am)) (set_files (f (files a)) a) ->
  extends am (alter_files id f am).
Proof.
  intros [Ha Hf] Hg Hok. split; [split; [|done]| |done].
  - cbn [alter_files fds set_apps apps]. by eapply Forall_alter_found.
  - unfold shape, alter_files; cbn [apps set_apps]. clear.
    induction (apps am) as [|b l IH]; simpl; [done|]. destruct (task_id b =? id); simpl; by rewrite ?IH.
Qed.

Lemma alter_files_get id f am a : GetAppInfo id am = Some a ->
  GetAppInfo id (alter_files id f am) = Some (set_files (f (files a)) a).
Proof.
  unfold GetAppInfo, alter_files; cbn [apps set_apps]. intros Hg.
  rewrite find_alter_key by done. by rewrite decide_True, Hg by done.
Qed.

Lemma get_app_ok id am a : typed am -> GetAppInfo id am = Some a -> app_ok (length (fds am)) a.
Proof. intros [Ha _] [Hin _]%find_key_Some. by rewrite list.Forall_forall in Ha; apply Ha. Qed.

Lemma assign_file_safe id fd p am :
  typed am -> runs id am -> (fd < 3)%nat -> file_ok (length (fds am)) p ->
  safe (fun am' => extends am am' /\ runs id am') (assign_file id fd p am).
Proof.
  intros Ht (a & Hg & Hr) Hfd Hp. unfold assign_file. rewrite Hg. cbn [defined mbind outcome_bind].
  destruct (get_app_ok _ _ _ Ht Hg) as [Hl H3]. rewrite decide_True by (specialize (H3 Hr); lia). split.
  - eapply alter_files_extends; [done..|]. split; cbn [files set_files].
    + by apply Forall_insert.
    + rewrite length_insert. exact H3.
  - eexists. split; [by apply alter_files_get|done].
Qed.

Lemma assign_new_safe id fd d am :
  typed am -> runs id am -> (fd < 3)%nat -> fd_ok d ->
  safe (fun am' => extends am am' /\ runs id am' /\ (length (fds am) < length (fds am'))%nat) (assign_new id fd d am).
Proof.
  intros Ht Hr Hfd Hd. unfold assign_new. pose proof (new_fd_extends d am Ht Hd) as Hn. cbn [new_fd fst] in *.
  eapply safe_impl; [apply assign_file_safe; [apply Hn|exact Hr|done|]|].
  - exists (length (fds am)). split; [done|]. cbn. rewrite length_app. cbn. lia.
  - intros am' [He Hr']. split; [by eapply extends_trans|]. split; [done|].
    destruct He as [_ _ Hl]. cbn [set_fds fds] in Hl. rewrite length_app in Hl. cbn in Hl. lia.
Qed.

Lemma first_null_ok n l : Forall (file_ok n) l -> first_null l = length l.
Proof. induction 1 as [|p l (i & -> & _) _ IH]; [done|]. simpl. by rewrite IH. Qed.

Section table.
Context (junk : list Z) (find_server : list Z -> Z * Z) (create_task : nat -> Z * Z).
Context (Hids : forall i j, fst (create_task i) = fst (create_task j) -> i = j).

(** The tasks in the table are among the first [n] the kernel made. *)
Definition made (n : nat) (i : Z) : Prop := exists k, (k < n)%nat /\ i = fst (create_task k).
Definition known (n : nat) (am : AppManager) : Prop := Forall (made n) (ids am).

Lemma made_le n n' i : made n i -> (n <= n')%nat -> made n' i.
Proof. intros (k & ? & ?) ?. exists k. split; [lia|done]. Qed.

Lemma known_le n n' am : known n am -> (n <= n')%nat -> known n' am.
Proof. intros H ?. eapply Forall_impl; [|exact H]. intros i Hi. by eapply made_le. Qed.

Lemma next_task_fresh n am : known n am -> GetAppInfo (fst (create_task n)) am = None.
Proof.
  intros H. apply find_key_None. intros Hin. unfold known in H. rewrite list.Forall_forall in H.
  destruct (H _ Hin) as (k & Hk & E). apply Hids in E. lia.
Qed.

Lemma NewApp_safe id p_id am :
  typed am -> GetAppInfo id am = None -> not_killed p_id am ->
  safe (fun am' => typed am' /\ shape am' = shape am ++ [(id, Run)] /\ (length (fds am) <= length (fds am'))%nat /\ runs id am')
    (NewApp find_server id p_id am).
Proof.
  intros Ht Hid Hp. rewrite NewApp_spec by done. pose proof Ht as [Ha Hf].
  assert (Hin : app_ok (length (fds am ++ snd (inherited find_server id p_id am)))
      (MkAppInfo id p_id Run (fst (inherited find_server id p_id am))) /\ Forall fd_ok (snd (inherited find_server id p_id am))).
  { unfold inherited. destruct (GetAppInfo p_id am) as [parent|] eqn:Hg; cbn [fst snd].
    - split; [|constructor]. destruct (get_app_ok _ _ _ Ht Hg) as [Hl H3]. rewrite app_nil_r.
      split; [done|]. intros _. by apply H3, Hp.
    - split; [|repeat constructor]. split; [|simpl; lia]. cbn [files].
      repeat constructor; (eexists; split; [done|]); rewrite length_app; cbn; lia. }
  destruct Hin as [Hin Hfd]. simpl. split; [split; cbn [apps fds]|].
  - apply list.Forall_app. split; [|by constructor]. eapply Forall_impl; [|exact Ha]. intros a Hok.
    eapply app_ok_le; [exact Hok|]. rewrite length_app. lia.
  - by apply list.Forall_app.
  - split; [unfold shape; cbn [apps]; by rewrite map_app|]. split; [rewrite length_app; lia|].
    eexists. unfold GetAppInfo in *. cbn [apps]. rewrite find_key_app, Hid. simpl. by rewrite Z.eqb_refl.
Qed.

(** A new number for a file, and the file under it. *)
Lemma allocate_fd_safe id name am :
  typed am -> is_Some (GetAppInfo id am) -> name_ok name ->
  safe (fun r => extends am (fst r))
    ('(am, fd) ← AllocateFD id am; d ← new_FatFd id name; am ← assign_new id fd d am; Ok (am, fd)).
Proof.
  intros Ht [a Hg] Hn. unfold AllocateFD. rewrite Hg. cbn [defined mbind outcome_bind].
  destruct (get_app_ok _ _ _ Ht Hg) as [Hl H3]. rewrite (first_null_ok _ _ Hl), decide_False by lia.
  eapply safe_bind; [by apply new_FatFd_safe|]. intros d Hd. unfold assign_new, assign_file. cbn [new_fd].
  set (am1 := set_fds _ _). assert (Hg1 : GetAppInfo id am1 = Some (set_files (files a ++ [None]) a)) by (by apply alter_files_get).
  rewrite Hg1. cbn [defined mbind outcome_bind files set_files]. rewrite decide_True by (rewrite length_app; cbn; lia).
  cbn [mbind outcome_bind safe fst].
  assert (E : alter_files id (fun fs => <[length (files a) := Some (length (fds am))]> fs) am1 =
    alter_files id (fun fs => <[length (files a) := Some (length (fds am))]> (fs ++ [None])) (fst (new_fd d am))).
  { unfold am1, alter_files, set_apps, set_fds; cbn [apps fds new_fd fst]. f_equal. by rewrite alter_key_compose. }
  refine (eq_ind_r (extends am) _ E). pose proof (new_fd_extends d am Ht Hd) as Hnew.
  eapply extends_trans; [exact Hnew|]. eapply alter_files_extends; [apply Hnew|exact Hg|].
  replace (<[length (files a) := Some (length (fds am))]> (files a ++ [None])) with (files a ++ [Some (length (fds am))])
    by (rewrite insert_app_r_alt, Nat.sub_diag by done; done). split; cbn [files set_files].
  - apply list.Forall_app. split.
    + eapply Forall_impl; [|exact Hl]. intros p Hp. eapply file_ok_le; [exact Hp|apply Hnew].
    + constructor; [|constructor]. eexists. split; [done|]. cbn. rewrite length_app. cbn. lia.
  - intros Hr. rewrite length_app. specialize (H3 Hr). lia.
Qed.

Lemma ExitApp_safe id am w : typed am ->
  safe (fun r => typed (fst r) /\ ids (fst r) = ids am /\ length (fds (fst r)) = length (fds am) /\ inbox (snd r) = inbox w)
    (ExitApp junk id am w).
Proof.
  intros [Ha Hf]. rewrite ExitApp_spec by (eapply Forall_impl; [|exact Ha]; by intros a [? _]).
  simpl. split_and!; [split| | |done]; cbn [apps fds].
  - unfold exit_apps. rewrite length_close_all. apply Forall_map. eapply Forall_impl; [|exact Ha].
    intros a Hok. cbn. destruct (is_running id a); [|done]. split; [constructor|done].
  - apply list.Forall_lookup. intros i d. rewrite lookup_close_all.
    destruct (fds am !! i) as [d0|] eqn:E; [|done]. cbn. intros [= <-].
    pose proof (Forall_lookup_1 _ _ _ _ Hf E). case_decide; [|done]. by destruct d0.
  - unfold ids, exit_apps; cbn [apps]. rewrite map_map. apply map_ext. intros a. by destruct (is_running id a).
  - by rewrite length_close_all.
Qed.
End table.

(** ** The server *)

Section server.
Context (junk : list Z) (find_server : list Z -> Z * Z) (create_task : nat -> Z * Z).
Context (Hjunk : length junk = arg_size).
Context (Hids : forall i j, fst (create_task i) = fst (create_task j) -> i = j).

(** What holds in every state. *)
Record core (s : Server) : Prop := {
  co_typed : typed (app_manager s);
  co_known : known create_task (created s) (app_manager s);
  co_sm : message_ok (sm s);
  co_rm : well_formed (rm s);
  co_mail : mail_ok (mail s);
  co_command : name_ok (command s);
  co_redirect : name_ok (AmServer.redirect_filename s);
  co_piped : piped s = true -> file_ok (length (fds (app_manager s))) (pipe_fd s);
}.

(** The task that asked is no ended program, and the new task is not in the
    table yet. *)
Definition pending (s : Server) : Prop := not_killed (target_id s) (app_manager s).
Definition fresh_new (s : Server) : Prop :=
  GetAppInfo (new_id s) (app_manager s) = None /\ made create_task (created s) (new_id s).

(** Between two turns. *)
Definition waits_in (s : Server) : Prop :=
  match state s with
  | StateInit => True
  | StateExecFile => pending s
  | StateCreateTask | StateRedirect => pending s /\ fresh_new s
  | StatePipe => pending s /\ file_ok (length (fds (app_manager s))) (pipe_fd s)
  | StateOpen => is_Some (GetAppInfo (target_id s) (app_manager s))
  | StateWaitingKey => waiting s = true
  | _ => False
  end.
Definition ready (s : Server) : Prop := core s /\ waits_in s.

(** After the first part of a turn. *)
Definition has_received (s : Server) : Prop :=
  match state s with
  | StateErr | StateExit | StateRead | StateWaitingKey => True
  | StateExecFile => type (rm s) = kExecuteFile
  | StateCreateTask => pending s
  | StateRedirect | StateStartTask => pending s /\ fresh_new s
  | StateOpen => type (rm s) = kOpen \/ type (rm s) = kOpenDir
  | StateAllcateFD => (type (rm s) = kOpen \/ type (rm s) = kOpenDir) /\ is_Some (GetAppInfo (target_id s) (app_manager s))
  | StateWrite => type (rm s) = kWrite
  | StateInit | StatePipe => False
  end.

Lemma core_rm m w s : core s -> well_formed m -> mail_ok w -> core (set_rm m (set_mail w s)).
Proof. intros [] ? ?. by split. Qed.
Lemma core_sm m s : core s -> message_ok m -> core (set_sm m s).
Proof. intros [] ?. by split. Qed.
Lemma core_state st s : core s -> core (goto st s).
Proof. intros []. by split. Qed.
Lemma core_send to s : core s -> core (send_sm to s).
Proof. intros []. by split. Qed.
Lemma core_fail err s : core s -> core (fail err s).
Proof. intros H. apply core_sm; [done|]. repeat apply message_ok_setF; try done. apply H. Qed.

(** *** Receiving *)

Lemma wait_for_safe from body (P : Server -> Prop) s :
  (forall s m w, P s -> src_task m = from -> well_formed m -> mail_ok w -> core s ->
     safe (fun r => match r with inl s' => core s' /\ P s' | inr s' => core s' /\ has_received s' end)
       (body m (set_rm m (set_mail w s)))) ->
  core s -> P s -> safe (fun s' => core s' /\ has_received s') (wait_for from body s).
Proof.
  intros Hb Hc HP. unfold wait_for.
  apply (receive_loop_safe _ _ _ _ (fun s => core s /\ P s) (fun s' => core s' /\ has_received s')); [|by intros s' m w [? ?] ? ? ?; apply Hb|done].
  intros s' [H _]. apply H.
Qed.

Lemma fs_error_ok (P : Server -> Prop) err m s :
  core s -> P s -> (forall s, P s -> P (send_sm (fs_id s) s)) ->
  match fs_error err m s with inl s' => core s' /\ P s' | inr s' => core s' /\ has_received s' end.
Proof.
  intros Hc HP Hsend. unfold fs_error. case_decide.
  - split; [by apply core_send|by apply Hsend].
  - split; [|done]. by apply core_state, core_send, core_fail.
Qed.

Lemma Init_safe s : core s -> state s = StateInit ->
  (forall m ms, inbox (mail s) = m :: ms -> known_request (type m)) ->
  safe (fun s' => core s' /\ has_received s') (InitState_ReceiveMessage find_server s).
Proof.
  intros Hc _ Hk. unfold InitState_ReceiveMessage. pose proof (co_mail _ Hc) as Hw. unfold mail_ok in Hw.
  destruct (inbox (mail s)) as [|m ms]; [done|]. specialize (Hk m ms eq_refl).
  apply list.Forall_cons in Hw as [Hm Hms]. destruct (find_server servers_fs) as [id err].
  assert (Hc1 : core (set_rm m (set_mail (MkMail ms (out (mail s))) s))) by (by apply core_rm).
  case_decide; [split; [by apply core_state, core_fail|done]|].
  assert (Hc2 : forall st, core (goto st (set_fs_id id (set_rm m (set_mail (MkMail ms (out (mail s))) s))))) by (by destruct Hc1).
  destruct (type m) eqn:Ht; try done; (split; [apply Hc2|]); unfold has_received; cbn; rewrite ?Ht; auto.
Qed.

Lemma Receive_safe s : ready s ->
  (state s = StateInit -> forall m ms, inbox (mail s) = m :: ms -> known_request (type m)) ->
  safe (fun s' => core s' /\ has_received s') (ReceiveMessage junk find_server s).
Proof.
  intros [Hc Hw] Hk. unfold waits_in in Hw. unfold ReceiveMessage. destruct (state s) eqn:Hst; try done.
  - apply Init_safe; [done|done|by apply Hk].
  - apply (wait_for_safe _ _ pending); [|done..]. intros s1 m w HP _ Hm Hw1 Hc1. pose proof (core_rm m w s1 Hc1 Hm Hw1) as H1.
    destruct (type m); try (by split); [by apply (fs_error_ok pending)|]. split; [by apply core_state|done].
  - apply (wait_for_safe _ _ (fun s => pending s /\ fresh_new s)); [|done..]. intros s1 m w HP _ Hm Hw1 Hc1.
    pose proof (core_rm m w s1 Hc1 Hm Hw1) as H1. destruct (type m); try (split; [by apply core_state|done]).
    + by apply (fs_error_ok (fun s => pending s /\ fresh_new s)).
    + split; [by apply core_state|]. cbn [redirect set_rm set_mail]. by destruct (redirect s1).
  - apply (wait_for_safe _ _ (fun s => pending s /\ fresh_new s)); [|done..]. intros s1 m w HP _ Hm Hw1 Hc1.
    pose proof (core_rm m w s1 Hc1 Hm Hw1) as H1. destruct (type m); try (split; [by apply core_state|done]).
    by apply (fs_error_ok (fun s => pending s /\ fresh_new s)).
  - destruct Hw as [Hp Hf]. apply (wait_for_safe _ _ (fun s => pending s /\ file_ok (length (fds (app_manager s))) (pipe_fd s))); [|done..].
    intros s1 m w [HP HF] _ Hm Hw1 Hc1. pose proof (core_rm m w s1 Hc1 Hm Hw1) as H1. destruct (type m) eqn:Ht; try by split.
    split; [destruct H1; by split|]. exact Ht.
  - apply (wait_for_safe _ _ (fun s => is_Some (GetAppInfo (target_id s) (app_manager s)))); [|done..]. intros s1 m w HP _ Hm Hw1 Hc1.
    pose proof (core_rm m w s1 Hc1 Hm Hw1) as H1. destruct (type m) eqn:Ht; try (split; [by apply core_state|done]).
    + by apply (fs_error_ok (fun s => is_Some (GetAppInfo (target_id s) (app_manager s)))).
    + split; [by apply core_state|]. split; [by left|done].
    + split; [by apply core_state|]. split; [by right|done].
  - apply (wait_for_safe _ _ (fun s => state s = StateWaitingKey)); [|done..]. intros s1 m w HP _ Hm Hw1 Hc1.
    pose proof (core_rm m w s1 Hc1 Hm Hw1) as H1. destruct (type m); try (split; [destruct H1; by split|done]).
    all: split; [done|]; unfold has_received; cbn; by rewrite HP.
Qed.

(** *** Handling and answering *)

Definition done_with (s : Server) : Prop := ready (SendMessage s).

Lemma done_init s : core s -> state s = StateInit -> done_with s.
Proof. intros Hc Hs. unfold done_with, SendMessage. rewrite Hs. split; [by apply core_send|]. unfold waits_in. cbn. by rewrite Hs. Qed.

Lemma done_error s : core s -> state s = StateErr \/ state s = StateRead \/ state s = StateWrite -> done_with s.
Proof. intros Hc [Hs|[Hs|Hs]]; unfold done_with, SendMessage; rewrite Hs; (split; [by apply core_state|done]). Qed.

Lemma ExecFile_safe s : core s -> state s = StateExecFile -> type (rm s) = kExecuteFile -> expected s ->
  safe done_with (ExecFileState_HandleMessage s).
Proof.
  intros Hc Hst Ht He. unfold expected in He. rewrite Hst in He. destruct He as [Hk Hr].
  pose proof (co_rm _ Hc) as [Hm Hwf]. rewrite Ht in Hwf. destruct Hwf as [(cmd & Hcmd & Hcl) (args & Hargs & Hal)].
  unfold ExecFileState_HandleMessage, strcpy32. cbn [rm set_target_id]. rewrite Hcmd. cbn [defined mbind outcome_bind].
  rewrite decide_True by done. cbn [mbind outcome_bind]. rewrite Hargs. cbn [defined mbind outcome_bind].
  rewrite decide_True by done. cbn [mbind outcome_bind].
  pose proof (getS_name _ _ _ Hm Hcmd Hcl) as Hn. set (s1 := set_pipe _ _).
  assert (Hc1 : core s1) by (destruct Hc; by split).
  eapply (safe_bind (fun s2 => core s2 /\ state s2 = StateExecFile /\ pending s2 /\ command s2 = cmd)).
  - case_decide as Hd; [|split_and!; try done; by destruct Hc1].
    eapply (safe_bind (fun r => well_formed (fst r) /\ mail_ok (snd r) /\ named Message.redirect_filename (fst r))).
    + pose proof (ClosedReceive_safe (target_id s1) (mail s1) (co_mail _ Hc1)) as Hcr.
      destruct (ClosedReceive (target_id s1) (mail s1)) as [[m w]| |] eqn:E; [|done|done].
      destruct Hcr as (_ & ? & ?). split_and!; try done. by apply (Hr Hd m w).
    + intros [m w] (Hmw & Hww & (name & Hname & Hnl)). cbn [fst snd] in *. rewrite Hname. cbn [defined mbind outcome_bind].
      rewrite decide_True by done. cbn [mbind outcome_bind safe].
      pose proof (getS_name _ _ _ (proj1 Hmw) Hname Hnl). split_and!; try done. destruct Hc1; by split.
  - intros s2 (Hc2 & Hst2 & Hp2 & Hcmd2). eapply safe_bind; [apply (putS_safe executefile_filename (command s2)); [apply Hc2|apply Hc2|unfold executefile_filename; lia]|].
    intros m' (Hm' & _). unfold safe, done_with, SendMessage. cbn [state set_sm]. rewrite Hst2. split; [by apply core_send, core_sm|].
    unfold waits_in, ExecFileState_SendMessage. cbn [state send_sm send_to set_mail set_sm]. by rewrite Hst2.
Qed.

Lemma CreateTask_safe s : core s -> state s = StateCreateTask -> pending s -> done_with (CreateTaskState_HandleMessage create_task s).
Proof.
  intros Hc Hst Hp. unfold CreateTaskState_HandleMessage. destruct (create_task (created s)) as [id err] eqn:E.
  set (s1 := set_created _ _).
  assert (Hc1 : core s1).
  { destruct Hc. split; try done. eapply known_le; [done|]. cbn. lia. }
  case_decide; [apply done_error; [by apply core_state, core_send, core_send, core_fail|by left]|].
  unfold done_with, SendMessage. cbn [state set_new_id set_sm]. change (state s1) with (state s). rewrite Hst.
  assert (Hc2 : core (set_new_id id (set_sm (setF executefile_id id (set_type kExecuteFile (sm s1))) s1))).
  { pose proof (core_sm (setF executefile_id id (set_type kExecuteFile (sm s1))) s1 Hc1) as H1.
    destruct H1; [apply message_ok_setF; [apply Hc1|done]|]. by split. }
  split; [by apply core_send|]. unfold waits_in, ExecFileState_SendMessage. cbn [state send_sm send_to set_mail set_new_id set_sm].
  change (state s1) with (state s). rewrite Hst. split; [done|]. unfold fresh_new. cbn.
  pose proof (next_task_fresh create_task Hids (created s) (app_manager s) (co_known _ Hc)) as Hf. rewrite E in Hf.
  split; [exact Hf|]. exists (created s). split; [lia|by rewrite E].
Qed.

Lemma StartTask_safe s : core s -> state s = StateStartTask -> pending s -> fresh_new s ->
  safe done_with (StartTaskState_HandleMessage junk find_server s).
Proof.
  intros Hc Hst Hp [Hf Hmade]. unfold StartTaskState_HandleMessage.
  eapply safe_bind; [apply (NewApp_safe find_server); [apply Hc|done|done]|]. intros am1 (T1 & I1 & L1 & R1).
  eapply (safe_bind (fun am => extends am1 am /\ runs (new_id s) am)).
  { destruct (redirect s); [|by split; [apply extends_refl|]]. eapply safe_bind; [apply new_FatFd_safe, Hc|]. intros d Hd.
    eapply safe_impl; [apply assign_new_safe; [done|done|lia|done]|]. intros am (? & ? & _). done. }
  intros am2 [X2 R2]. eapply (safe_bind (fun am => extends am1 am /\ runs (new_id s) am)).
  { destruct (piped s) eqn:Ep; [|done]. eapply safe_impl; [apply assign_file_safe; [apply X2|done|lia|]|].
    - eapply file_ok_le; [by apply (co_piped _ Hc)|]. pose proof (ex_fds _ _ X2). lia.
    - intros am [? ?]. split; [by eapply extends_trans|done]. }
  intros am3 [X3 R3]. cbn [pipe set_piped].
  eapply (safe_bind (fun r => extends am1 (fst r) /\ (pipe s = true -> file_ok (length (fds (fst r))) (pipe_fd (snd r))) /\
      exists p, snd r = set_pipe_fd p (set_piped false s))).
  { destruct (pipe s); [|split_and!; [done|done|by exists (pipe_fd s)]].
    eapply safe_bind; [apply assign_new_safe; [apply X3|done|lia|by apply (new_PipeFd_ok junk Hjunk (new_id s))]|].
    intros am (X4 & _ & L4). split; [by eapply extends_trans|]. split; [|by eexists]. intros _. by exists (length (fds am3)). }
  intros [am s1] (X4 & Hpipe & p & Hs1). cbn [fst snd] in *. set (s2 := set_sm _ _).
  assert (Hc2 : core s2).
  { subst s1. destruct Hc. split; try done; cbn; [apply X4| |repeat (apply message_ok_setF; [|done]); done].
    unfold known. rewrite ids_shape, (ex_shape _ _ X4), I1, map_app, <- ids_shape. apply list.Forall_app. split; [done|]. by constructor. }
  cbn [safe]. unfold done_with, SendMessage. replace (state s2) with StateStartTask by (by subst s1). unfold StartTaskState_SendMessage.
  replace (AmServer.pipe (send_sm 1 s2)) with (pipe s) by (by subst s1). destruct (pipe s) eqn:Epipe.
  - split; [apply core_state, core_send, core_sm; [by apply core_send|apply Hc2]|]. split; [|exact (Hpipe eq_refl)].
    subst s1. apply (not_killed_app _ (new_id s) (app_manager s)); [by rewrite <- I1, <- (ex_shape _ _ X4)|exact Hp].
  - split; [by apply core_state, core_send|done].
Qed.

(** A state that asks the file system and waits for its answer. *)
Lemma done_asks s : core s -> waits_in s ->
  state s = StateRedirect \/ state s = StateOpen -> done_with s.
Proof.
  intros Hc Hw Hs. unfold done_with, SendMessage. destruct Hs as [Hs|Hs]; rewrite Hs; (split; [by apply core_send|]);
    unfold waits_in, ExecFileState_SendMessage in *; cbn; by rewrite Hs in *.
Qed.

Lemma Redirect_safe s : core s -> state s = StateRedirect -> pending s -> fresh_new s ->
  safe done_with (RedirectState_HandleMessage s).
Proof.
  intros Hc Hst Hp Hf. unfold RedirectState_HandleMessage.
  eapply safe_bind; [apply (putS_safe open_filename); [apply Hc|apply Hc|unfold open_filename; lia]|]. intros m (Hm & _).
  apply done_asks; [apply core_sm; [done|by apply message_ok_setF]|unfold waits_in; cbn; by rewrite Hst|by left].
Qed.

Lemma Exit_safe s : core s -> state s = StateExit -> safe done_with (ExitState_HandleMessage junk s).
Proof.
  intros Hc Hst. unfold ExitState_HandleMessage. set (s1 := set_target_id _ s).
  assert (Hc1 : core s1) by (by destruct Hc).
  case_decide; [|apply done_error; [by apply core_state|by left]].
  eapply safe_bind; [apply (ExitApp_safe junk), Hc1|]. intros [am w] (T & I & L & W). cbn [fst snd] in *. cbn [safe].
  set (s2 := set_mail w (set_app_manager am s1)).
  assert (Hc2 : core s2).
  { destruct Hc1. split; try done; cbn.
    - unfold known. by rewrite I.
    - unfold mail_ok in *. by rewrite W.
    - by rewrite L. }
  unfold done_with, SendMessage. change (state (set_sm _ s2)) with (state s). rewrite Hst. unfold ExitState_SendMessage.
  split; [|done]. apply core_state, core_send, core_sm; [apply core_send, core_sm; [done|]|]; cbn;
    repeat (apply message_ok_setF; [|done]); apply Hc.
Qed.

Lemma Open_safe s : core s -> state s = StateOpen -> type (rm s) = kOpen \/ type (rm s) = kOpenDir -> expected s ->
  safe done_with (OpenState_HandleMessage s).
Proof.
  intros Hc Hst Ht He. unfold expected in He. rewrite Hst in He. unfold OpenState_HandleMessage. set (s1 := set_target_id _ s).
  assert (Hc1 : core s1) by (by destruct Hc). change (rm s1) with (rm s).
  pose proof (co_rm _ Hc) as [Hm Hwf]. destruct Ht as [Ht|Ht]; rewrite Ht in *; destruct Hwf as (name & Hname & Hl);
    rewrite Hname; cbn [defined mbind outcome_bind]; pose proof (getS_name _ _ _ Hm Hname Hl) as Hn.
  - case_decide.
    + apply done_init; [|done]. apply core_state, core_sm; [done|]. repeat (apply message_ok_setF; [|done]). apply Hc.
    + eapply safe_bind; [apply (putS_safe open_filename name); [apply Hc1|done|unfold open_filename; lia]|]. intros m (Hm' & _).
      apply done_asks; [apply core_sm; [done|by apply message_ok_setF]|unfold waits_in; cbn; by rewrite Hst|by right].
  - eapply safe_bind; [apply (putS_safe opendir_dirname name); [apply Hc1|done|unfold opendir_dirname; lia]|]. intros m (Hm' & _).
    apply done_asks; [by apply core_sm|unfold waits_in; cbn; by rewrite Hst|by right].
Qed.

Lemma core_table am s : core s -> extends (app_manager s) am -> core (set_app_manager am s).
Proof.
  intros Hc [T Sh L]. destruct Hc. split; try done; cbn.
  - unfold known. by rewrite ids_shape, Sh, <- ids_shape.
  - intros Hp. eapply file_ok_le; [by apply co_piped0|done].
Qed.

Lemma allocate_safe name s : core s -> name_ok name -> is_Some (GetAppInfo (target_id s) (app_manager s)) ->
  safe (fun r => core (snd r)) (allocate name s).
Proof.
  intros Hc Hn Hg. pose proof (allocate_fd_safe (target_id s) name (app_manager s) (co_typed _ Hc) Hg Hn) as Hx.
  unfold allocate. revert Hx. destruct (AllocateFD (target_id s) (app_manager s)) as [[am fd]| |]; [|done..].
  cbn [mbind outcome_bind]. destruct (new_FatFd (target_id s) name) as [d| |]; [|done..]. cbn [mbind outcome_bind].
  destruct (assign_new (target_id s) fd d am) as [am2| |]; [|done..]. cbn. intros Hx. by apply core_table.
Qed.

Lemma AllocateFD_safe s : core s -> type (rm s) = kOpen \/ type (rm s) = kOpenDir ->
  is_Some (GetAppInfo (target_id s) (app_manager s)) -> safe done_with (AllocateFDState_HandleMessage s).
Proof.
  intros Hc Ht Hg. unfold AllocateFDState_HandleMessage. pose proof (co_rm _ Hc) as [Hm Hwf].
  destruct Ht as [Ht|Ht]; rewrite Ht in *; destruct Hwf as (name & Hname & Hl); rewrite Hname; cbn [defined mbind outcome_bind];
    pose proof (getS_name _ _ _ Hm Hname Hl) as Hn; (eapply safe_bind; [by apply allocate_safe|]); intros [fd s1] Hc1;
    (apply done_init; [|done]); apply core_state, core_sm; try done; apply message_ok_setF; try done; apply Hc1.
Qed.

Lemma with_fd_safe fd op s : core s -> state s = StateRead \/ state s = StateWrite -> expected s ->
  (forall d, fd_ok d -> safe op_ok (op d (rm s) (mail s))) -> safe done_with (with_fd fd op s).
Proof.
  intros Hc Hst He Hop. assert (is_Some (GetAppInfo (src_task (rm s)) (app_manager s))) as [a Hg].
  { unfold expected in He. by destruct Hst as [Hst|Hst]; rewrite Hst in He. }
  unfold with_fd, find_fd. set (s1 := set_target_id _ s). assert (Hc1 : core s1) by (by destruct Hc).
  change (GetAppInfo (target_id s1) (app_manager s1)) with (GetAppInfo (src_task (rm s)) (app_manager s)). rewrite Hg.
  cbn [defined mbind outcome_bind]. destruct (get_app_ok _ _ _ (co_typed _ Hc) Hg) as [Hl _].
  destruct (default None (getZ (files a) (u64 fd))) as [i|] eqn:E; [|by apply done_init; [apply core_state, core_fail|]].
  assert (i < length (fds (app_manager s)))%nat as Hi.
  { destruct (getZ (files a) (u64 fd)) as [p|] eqn:Ep; [|done]. cbn in E. subst p. apply getZ_lookup in Ep.
    destruct (Forall_lookup_1 _ _ _ _ Hl Ep) as (j & [= ->] & ?). done. }
  destruct (lookup_lt_is_Some_2 _ _ Hi) as [d Hd]. change (fds (app_manager s1)) with (fds (app_manager s)). rewrite Hd.
  cbn [defined mbind outcome_bind]. pose proof (Forall_lookup_1 _ _ _ _ (ty_fds _ (co_typed _ Hc)) Hd) as Hdok.
  eapply safe_bind; [by apply Hop|]. intros [d' w'] [Hd' Hw']. cbn [safe fst snd] in *.
  apply done_error; [|by right]. set (am := set_fds _ _).
  assert (Hx : extends (app_manager s1) am).
  { pose proof (co_typed _ Hc1) as [Ha Hf]. split; [split|done|]; cbn; rewrite ?length_insert; try done. by apply Forall_insert. }
  pose proof (core_table am s1 Hc1 Hx) as Hc2. destruct Hc2. by split.
Qed.

Lemma WaitingKey_safe s : core s -> state s = StateWaitingKey -> expected s ->
  safe done_with (WaitingKeyState_HandleMessage s).
Proof.
  intros Hc Hst He. unfold expected in He. rewrite Hst in He. unfold WaitingKeyState_HandleMessage, done_with, SendMessage.
  destruct (waiting s) eqn:Hw.
  - cbn. rewrite Hst. unfold WaitingKeyState_SendMessage. cbn. split; [|done].
    apply core_state, core_send. pose proof (core_sm (rm s) s Hc (well_formed_ok _ (co_rm _ Hc))) as H. destruct H. by split.
  - destruct (He eq_refl) as [a Hg]. set (s1 := send_sm _ _).
    assert (Hc1 : core s1).
    { apply core_send, core_sm; [destruct Hc; by split|]. apply Hc. }
    change (GetAppInfo (waiting_id s1) (app_manager s1)) with (GetAppInfo (src_task (rm s)) (app_manager s)). rewrite Hg.
    cbn [defined mbind outcome_bind safe]. set (s2 := set_waiting true _). change (state s2) with (state s). rewrite Hst.
    assert (Hc2 : core s2).
    { pose proof (core_sm (set_type kWaitingKey (sm s1)) s1 Hc1 (co_sm _ Hc1)) as H. destruct H. by split. }
    unfold WaitingKeyState_SendMessage. change (waiting s2) with true. cbn iota. split; [by apply core_send|].
    unfold waits_in. change (state (send_sm (target_id s2) s2)) with (state s). by rewrite Hst.
Qed.

Lemma Handle_safe s : core s -> has_received s -> expected s ->
  safe done_with (HandleMessage junk find_server create_task s).
Proof.
  intros Hc Hr He. unfold HandleMessage. pose proof Hr as Hr'. unfold has_received in Hr'. destruct (state s) eqn:Hst; try done.
  - apply done_error; [done|by left].
  - by apply ExecFile_safe.
  - by apply CreateTask_safe.
  - apply StartTask_safe; naive_solver.
  - apply Redirect_safe; naive_solver.
  - by apply Exit_safe.
  - by apply Open_safe.
  - apply AllocateFD_safe; naive_solver.
  - apply with_fd_safe; [done|by left|done|]. intros d Hd. apply Read_safe; try done; [apply well_formed_ok, Hc|apply Hc].
  - apply with_fd_safe; [done|by right|done|]. intros d Hd. pose proof (co_rm _ Hc) as [Hm Hwf]. rewrite Hr' in Hwf.
    apply Write_safe; try done. apply Hc.
  - by apply WaitingKey_safe.
Qed.

Lemma manager_turn_safe s : ready s -> disciplined junk find_server s -> safe ready (turn junk find_server create_task s).
Proof.
  intros Hs [Hk He]. unfold turn. pose proof (Receive_safe s Hs Hk) as Hr.
  destruct (ReceiveMessage junk find_server s) as [s1| |]; [|done..]. destruct Hr as [Hc Hr]. cbn [mbind outcome_bind].
  eapply safe_bind; [by apply Handle_safe; auto|]. intros s2 Hd. exact Hd.
Qed.

Lemma manager_initially_ready msgs : Forall well_formed msgs -> ready (Initialize msgs).
Proof.
  intros Hms. split; [|done]. assert (Hz : message_ok (sm (Initialize msgs))) by exact (zero_message_ok kError).
  split; [by repeat constructor|by constructor|exact Hz| |exact Hms| | |done].
  - split; [exact (zero_message_ok kError)|exact I].
  - split_and!; [cbn; lia|constructor|constructor].
  - split_and!; [cbn; lia|constructor|constructor].
Qed.

Lemma run_ready msgs s : Forall well_formed msgs -> run junk find_server create_task (Initialize msgs) s -> ready s.
Proof.
  intros Hms. induction 1 as [|s1 s2 _ IH Hd E]; [by apply manager_initially_ready|].
  pose proof (manager_turn_safe s1 IH Hd) as Ht. by rewrite E in Ht.
Qed.
End server.

(** C23. The manager does not go wrong on requests its clients may make. For
    messages whose strings fit their arrays and whose data is at most the 16
    bytes of theirs ([well_formed]), and turns that meet requests of known
    types, from programs in the table where an application is needed, from no
    ended program, and a name behind a request with redirection
    ([disciplined]; the code checks none of this): in whatever order they
    come, after any number of turns every file of every application leads to
    a descriptor of the store, a running application has at least three, no
    pipe holds more than its 16 bytes and no descriptor a longer name than its
    array; and the next such turn has no undefined behaviour, so that it
    waits for a message or ends with all of that still true. *)
Theorem am_safe junk find_server create_task msgs s :
  length junk = arg_size -> (forall i j, fst (create_task i) = fst (create_task j) -> i = j) ->
  Forall well_formed msgs -> run junk find_server create_task (Initialize msgs) s ->
  typed (app_manager s) /\
  (disciplined junk find_server s ->
   turn junk find_server create_task s = Waits \/
   exists s', turn junk find_server create_task s = Ok s' /\ typed (app_manager s')).
Proof.
  intros Hj Hids Hms Hrun. pose proof (run_ready junk find_server create_task Hj Hids msgs s Hms Hrun) as Hr.
  split; [apply Hr|]. intros Hd. pose proof (manager_turn_safe junk find_server create_task Hj Hids s Hr Hd) as Ht.
  destruct (turn junk find_server create_task s) as [s'| |]; [right|by left|done]. exists s'. split; [done|apply Ht].
Qed.

(** Task 9 has a program executed, task 20, which then opens a file. *)
Definition sample_open : Message :=
  set_src 20 (default (zero_message kOpen) (putS open_filename [102] (zero_message kOpen))).
Definition sample_msgs : list Message := [sample_request; sample_answer kExecuteFile; sample_answer kReady; sample_open].
Definition sample_create (n : nat) : Z * Z := (Z.of_nat n + 20, 0).
Definition sample_turn (n : nat) : Server :=
  match turns (replicate arg_size 0) sample_find sample_create n (Initialize sample_msgs) with Ok s => s | _ => Initialize [] end.

Lemma sample_msgs_ok : Forall well_formed sample_msgs.
Proof.
  assert (Hm : Forall message_ok sample_msgs).
  { repeat (constructor; [split; [by vm_compute|by apply (bool_decide_unpack (Forall (fun b => 0 <= b < 256) _)); vm_compute]|]).
    constructor. }
  apply list.Forall_cons in Hm as [H1 Hm]. apply list.Forall_cons in Hm as [H2 Hm].
  apply list.Forall_cons in Hm as [H3 Hm]. apply list.Forall_cons in Hm as [H4 _].
  assert (Hn : forall off n m, getS off m = Some n -> (length n < 32)%nat -> named off m) by (intros off n m ? ?; by exists n).
  constructor; [split; [done|split]|constructor; [split; [done|split]|constructor; [by split|constructor; [split; [done|]|constructor]]]];
    (eapply Hn; [vm_compute; reflexivity|cbn; lia]).
Qed.

Lemma sample_disciplined n : (n <= 3)%nat -> disciplined (replicate arg_size 0) sample_find (sample_turn n).
Proof.
  intros Hn. assert (n = 0 \/ n = 1 \/ n = 2 \/ n = 3)%nat as [-> | [-> | [-> | ->]]] by lia; split.
  - intros _ m ms H. vm_compute in H. injection H as <- <-. exact I.
  - intros s1 H. vm_compute in H. injection H as <-. split; [by intros a Ha; vm_compute in Ha|].
    intros Hr. exfalso. apply Hr. vm_compute. reflexivity.
  - intros H. vm_compute in H. discriminate H.
  - intros s1 H. vm_compute in H. injection H as <-. exact I.
  - intros H. vm_compute in H. discriminate H.
  - intros s1 H. vm_compute in H. injection H as <-. exact I.
  - intros _ m ms H. vm_compute in H. injection H as <- <-. exact I.
  - intros s1 H. vm_compute in H. injection H as <-. eexists. vm_compute. reflexivity.
Qed.

Lemma am_safe_witness :
  run (replicate arg_size 0) sample_find sample_create (Initialize sample_msgs) (sample_turn 3) /\
  exists s', turn (replicate arg_size 0) sample_find sample_create (sample_turn 3) = Ok s' /\ typed (app_manager s').
Proof.
  assert (Hrun : run (replicate arg_size 0) sample_find sample_create (Initialize sample_msgs) (sample_turn 3)).
  { apply (run_turn _ _ _ _ (sample_turn 2)); [|by apply sample_disciplined; lia|by vm_compute].
    apply (run_turn _ _ _ _ (sample_turn 1)); [|by apply sample_disciplined; lia|by vm_compute].
    apply (run_turn _ _ _ _ (sample_turn 0)); [|by apply sample_disciplined; lia|by vm_compute]. apply run_start. }
  split; [exact Hrun|].
  destruct (am_safe (replicate arg_size 0) sample_find sample_create sample_msgs (sample_turn 3)) as [_ [H|H]].
  - reflexivity.
  - intros i j H. cbn in H. lia.
  - apply sample_msgs_ok.
  - exact Hrun.
  - apply sample_disciplined. lia.
  - vm_compute in H. discriminate H.
  - exact H.
Defined.
