(* ===== verification/GuiGraphics.v ===== *)
(** * Drawing (servers/gui/graphics.cpp, shadow_buffer.cpp, libs/common/template.hpp)

    Positions and rectangles, the frame buffer behind the system calls that draw
    on it, and the shadow buffers the GUI server copies to it. Buffers are lists
    of 32-bit pixels, the unit of every access. Coordinates are [int]s; sums that
    overflow are undefined in the program and are not modelled. *)

From S2P Require Import Prelude Bytes.
From stdpp Require Import base list numbers option.
From Stdlib Require Import ZArith Lia.

Local Open Scope Z_scope.

(** ** Positions, rectangles, colors *)

(** [src/libs/common/template.hpp:5-7] [Vector2D] *)
Record Vector2D := V { vx : Z; vy : Z }.
#[export] Instance Vector2D_eq_dec : EqDecision Vector2D.
Proof. solve_decision. Defined.

(** [src/libs/common/template.hpp:9-21] [Vector2D::operator+] *)
Definition vadd (a b : Vector2D) : Vector2D := V (vx a + vx b) (vy a + vy b).
(** [src/libs/common/template.hpp:23-35] [Vector2D::operator-] *)
Definition vsub (a b : Vector2D) : Vector2D := V (vx a - vx b) (vy a - vy b).

(** [src/libs/common/template.hpp:38-41] [ElementMax] *)
Definition ElementMax (a b : Vector2D) : Vector2D := V (Z.max (vx a) (vx b)) (Z.max (vy a) (vy b)).
(** [src/libs/common/template.hpp:43-46] [ElementMin] *)
Definition ElementMin (a b : Vector2D) : Vector2D := V (Z.min (vx a) (vx b)) (Z.min (vy a) (vy b)).

(** [src/libs/common/template.hpp:48-51] [Rectangle] *)
Record Rectangle := Rect { rpos : Vector2D; rsize : Vector2D }.
#[export] Instance Rectangle_eq_dec : EqDecision Rectangle.
Proof. solve_decision. Defined.

(** [src/libs/common/template.hpp:53-65] [operator&] *)
Definition rect_and (lhs rhs : Rectangle) : Rectangle :=
  let lhs_end := vadd (rpos lhs) (rsize lhs) in
  let rhs_end := vadd (rpos rhs) (rsize rhs) in
  if (vx lhs_end <? vx (rpos rhs)) || (vy lhs_end <? vy (rpos rhs)) ||
     (vx rhs_end <? vx (rpos lhs)) || (vy rhs_end <? vy (rpos lhs)) then Rect (V 0 0) (V 0 0)
  else
    let new_pos := ElementMax (rpos lhs) (rpos rhs) in
    Rect new_pos (vsub (ElementMin lhs_end rhs_end) new_pos).

(** [src/servers/gui/graphics.hpp:9-11] [PixelColor] *)
Record PixelColor := Color { r : Z; g : Z; b : Z }.
#[export] Instance PixelColor_eq_dec : EqDecision PixelColor.
Proof. solve_decision. Defined.

(** [src/servers/gui/graphics.hpp:13-17] [ToColor] *)
Definition ToColor (c : Z) : PixelColor :=
  Color (u8 (Z.land (Z.shiftr c 16) 0xff)) (u8 (Z.land (Z.shiftr c 8) 0xff)) (u8 (Z.land c 0xff)).

(** The three low bytes of a pixel are written, the fourth is kept. *)
Definition put_bytes (b0 b1 b2 pixel : Z) : Z :=
  Z.lor (Z.lor b0 (Z.shiftl b1 8)) (Z.lor (Z.shiftl b2 16) (Z.shiftl (Z.shiftr pixel 24) 24)).

(** The pixel that the [uint32_t] byte offset of a position leads to.
    [src/servers/gui/graphics.hpp:53-56] [ShadowBufferWriter::PixelAt] *)
Definition pixel_index (pixels_per_scan_line : Z) (pos : Vector2D) : Z :=
  u32 (4 * u32 (pixels_per_scan_line * vy pos + vx pos)) / 4.

(** ** The frame buffer of the kernel *)

(** [src/kernel/frame_buffer_config.hpp:5-8] [PixelFormat] *)
Inductive PixelFormat := kPixelRGBResv8BitPerColor | kPixelBGRResv8BitPerColor.

(** [src/kernel/frame_buffer_config.hpp:10-16] [FrameBufferConfig] *)
Record FrameBuffer := MkFrameBuffer {
  frame_buffer : list Z;
  pixels_per_scan_line : Z;
  horizontal_resolution : Z;
  vertical_resolution : Z;
  pixel_format : PixelFormat;
}.
Definition set_frame_buffer (l : list Z) (fb : FrameBuffer) : FrameBuffer :=
  MkFrameBuffer l (pixels_per_scan_line fb) (horizontal_resolution fb) (vertical_resolution fb) (pixel_format fb).

(** [src/kernel/graphics.cpp:3-17] [RGBResv8BitPerColorPixelWriter::Write] *)
Definition put_color (f : PixelFormat) (c : PixelColor) (pixel : Z) : Z :=
  match f with
  | kPixelRGBResv8BitPerColor => put_bytes (r c) (g c) (b c) pixel
  | kPixelBGRResv8BitPerColor => put_bytes (b c) (g c) (r c) pixel
  end.

(** [src/kernel/syscall.cpp:216-224] [WritePixel] *)
Definition SyscallWritePixel (pos : Vector2D) (c : PixelColor) (fb : FrameBuffer) : option FrameBuffer :=
  let i := pixel_index (pixels_per_scan_line fb) pos in
  pixel ← getZ (frame_buffer fb) i;
  l ← setZ (frame_buffer fb) i (put_color (pixel_format fb) c pixel);
  Some (set_frame_buffer l fb).

(** [src/servers/gui/graphics.cpp:69-82] [ScreenSize] *)
Definition ScreenSize (fb : FrameBuffer) : Vector2D :=
  V (s32 (horizontal_resolution fb)) (s32 (vertical_resolution fb)).

(** [n] pixels from the [i]th of [src] on; a [memcpy] of a negative length
    faults.
    [src/kernel/syscall.cpp:236-248] [CopyToFrameBuffer] *)
Definition SyscallCopyToFrameBuffer (src : list Z) (i : Z) (start : Vector2D) (n : Z) (fb : FrameBuffer) :
    option FrameBuffer :=
  if decide (i < 0 \/ n < 0) then None
  else
    row ← read_at src (Z.to_nat i) (Z.to_nat n);
    l ← write_at (frame_buffer fb) (Z.to_nat (pixel_index (pixels_per_scan_line fb) start)) row;
    Some (set_frame_buffer l fb).

(** ** Shadow buffers *)

(** [buffer_] and the two resolutions of [config_]; a scan line is as long as
    the buffer is wide.
    [src/servers/gui/shadow_buffer.hpp:9-20] [ShadowBuffer] *)
Record ShadowBuffer := MkShadow { buffer : list Z; sb_width : Z; sb_height : Z }.
Definition set_buffer (l : list Z) (sb : ShadowBuffer) : ShadowBuffer := MkShadow l (sb_width sb) (sb_height sb).

(** [src/servers/gui/shadow_buffer.cpp:24-34] [ShadowBuffer::Initialize] *)
Definition new_ShadowBuffer (width height : Z) : ShadowBuffer :=
  MkShadow (replicate (Z.to_nat (u32 (4 * u32 width * u32 height) / 4)) 0) (u32 width) (u32 height).

(** [src/servers/gui/graphics.cpp:26-31] [ShadowBufferWriter::Write] *)
Definition Shadow_Write (pos : Vector2D) (c : PixelColor) (sb : ShadowBuffer) : option ShadowBuffer :=
  let i := pixel_index (sb_width sb) pos in
  pixel ← getZ (buffer sb) i;
  l ← setZ (buffer sb) i (put_bytes (b c) (g c) (r c) pixel);
  Some (set_buffer l sb).

(** [src/servers/gui/shadow_buffer.cpp:18-21] [ShadowBufferSize] *)
Definition ShadowBufferSize (sb : ShadowBuffer) : Vector2D := V (s32 (sb_width sb)) (s32 (sb_height sb)).

(** [src/servers/gui/shadow_buffer.cpp:36-60] [ShadowBuffer::CopyToFrameBuffer] *)
Definition Shadow_CopyToFrameBuffer (sb : ShadowBuffer) (pos : Vector2D) (area : Rectangle) (fb : FrameBuffer) :
    option FrameBuffer :=
  let copy_area_shifted := Rect pos (rsize area) in
  let shadow_buffer_outline := Rect (vsub pos (rpos area)) (ShadowBufferSize sb) in
  let frame_buffer_outline := Rect (V 0 0) (ScreenSize fb) in
  let copy_area := rect_and (rect_and frame_buffer_outline shadow_buffer_outline) copy_area_shifted in
  let shadow_buf := pixel_index (sb_width sb) (vsub (rpos copy_area) (vsub pos (rpos area))) in
  for_loop (fun dy fb =>
    SyscallCopyToFrameBuffer (buffer sb) (shadow_buf + sb_width sb * dy)
      (V (vx (rpos copy_area)) (dy + vy (rpos copy_area))) (vx (rsize copy_area)) fb)
    (Z.to_nat (vy (rsize copy_area))) 0 fb.

(** [k] rows of [n] pixels are copied inside the buffer, [step] apart. A
    [memcpy] of overlapping rows is undefined, one to itself is taken to do
    nothing.
    [src/servers/gui/shadow_buffer.cpp:69-83] [ShadowBuffer::Move] *)
Fixpoint move_rows (k : nat) (dst src step : Z) (n : nat) (l : list Z) : option (list Z) :=
  match k with
  | O => Some l
  | S k' =>
      if decide (dst < 0 \/ src < 0 \/ (dst <> src /\ Z.abs (dst - src) < Z.of_nat n)) then None
      else
        row ← read_at l (Z.to_nat src) n;
        l ← write_at l (Z.to_nat dst) row;
        move_rows k' (dst + step) (src + step) step n l
  end.

(** [src/servers/gui/shadow_buffer.cpp:62-85] [ShadowBuffer::Move] *)
Definition Shadow_Move (dst_pos : Vector2D) (src : Rectangle) (sb : ShadowBuffer) : option ShadowBuffer :=
  let k := Z.to_nat (vy (rsize src)) in
  if decide (0 < vy (rsize src) /\ vx (rsize src) < 0) then None
  else
    let n := Z.to_nat (vx (rsize src)) in
    l ← (if decide (vy dst_pos < vy (rpos src)) then
           move_rows k (pixel_index (sb_width sb) dst_pos) (pixel_index (sb_width sb) (rpos src)) (sb_width sb) n (buffer sb)
         else
           let last := V 0 (vy (rsize src) - 1) in
           move_rows k (pixel_index (sb_width sb) (vadd dst_pos last)) (pixel_index (sb_width sb) (vadd (rpos src) last))
             (- sb_width sb) n (buffer sb));
    Some (set_buffer l sb).

(** ** Rectangles as sets of positions *)

Definition in_rect (p : Vector2D) (a : Rectangle) : bool :=
  (vx (rpos a) <=? vx p) && (vx p <? vx (rpos a) + vx (rsize a)) &&
  (vy (rpos a) <=? vy p) && (vy p <? vy (rpos a) + vy (rsize a)).

Lemma in_rect_spec p a :
  in_rect p a = true <->
  vx (rpos a) <= vx p < vx (rpos a) + vx (rsize a) /\ vy (rpos a) <= vy p < vy (rpos a) + vy (rsize a).
Proof. unfold in_rect. rewrite !andb_true_iff, !Z.leb_le, !Z.ltb_lt. tauto. Qed.

Definition size_ok (v : Vector2D) : Prop := 0 <= vx v /\ 0 <= vy v.

Ltac rect_cases :=
  unfold rect_and; cbn;
  repeat match goal with |- context [?a <? ?b] => destruct (Z.ltb_spec a b) end; cbn.

Lemma in_rect_and p a c : in_rect p (rect_and a c) = in_rect p a && in_rect p c.
Proof. apply eq_true_iff_eq. rewrite andb_true_iff, !in_rect_spec. rect_cases; lia. Qed.

Lemma rect_and_size a c : size_ok (rsize a) -> size_ok (rsize c) -> size_ok (rsize (rect_and a c)).
Proof. unfold size_ok. rect_cases; lia. Qed.

(** An intersection with rows or columns lies inside both rectangles. *)
Lemma rect_and_inside a c :
  size_ok (rsize a) -> size_ok (rsize c) -> 0 < vy (rsize (rect_and a c)) ->
  let i := rect_and a c in
  (vx (rpos a) <= vx (rpos i) /\ vx (rpos i) + vx (rsize i) <= vx (rpos a) + vx (rsize a) /\
   vy (rpos a) <= vy (rpos i) /\ vy (rpos i) + vy (rsize i) <= vy (rpos a) + vy (rsize a)) /\
  (vx (rpos c) <= vx (rpos i) /\ vx (rpos i) + vx (rsize i) <= vx (rpos c) + vx (rsize c) /\
   vy (rpos c) <= vy (rpos i) /\ vy (rpos i) + vy (rsize i) <= vy (rpos c) + vy (rsize c)).
Proof. unfold size_ok. rect_cases; lia. Qed.

(** ** Pixels on the screen *)

Definition screen (fb : FrameBuffer) : Rectangle := Rect (V 0 0) (ScreenSize fb).

(** A frame buffer of less than 4 GiB that holds its scan lines. *)
Record fb_ok (fb : FrameBuffer) : Prop := {
  fo_line : 0 <= horizontal_resolution fb <= pixels_per_scan_line fb;
  fo_height : 0 <= vertical_resolution fb;
  fo_res : horizontal_resolution fb < 2 ^ 31 /\ vertical_resolution fb < 2 ^ 31;
  fo_mem : Z.of_nat (length (frame_buffer fb)) = pixels_per_scan_line fb * vertical_resolution fb;
  fo_range : Z.of_nat (length (frame_buffer fb)) < 2 ^ 30;
}.

Definition pixel (fb : FrameBuffer) (p : Vector2D) : Z :=
  default 0 (getZ (frame_buffer fb) (pixels_per_scan_line fb * vy p + vx p)).

Lemma in_screen fb p : fb_ok fb -> in_rect p (screen fb) = true ->
  0 <= vx p < horizontal_resolution fb /\ 0 <= vy p < vertical_resolution fb /\
  0 <= pixels_per_scan_line fb * vy p + vx p < Z.of_nat (length (frame_buffer fb)).
Proof.
  intros [Hl Hh [Hr1 Hr2] Hm Hs]. unfold screen, ScreenSize. rewrite in_rect_spec. cbn.
  rewrite !s32_small by lia. intros [Hx Hy]. rewrite Hm. nia.
Qed.

Lemma pixel_index_small ppsl p :
  0 <= ppsl * vy p + vx p < 2 ^ 30 -> pixel_index ppsl p = ppsl * vy p + vx p.
Proof.
  intros H. unfold pixel_index. rewrite (u32_small (_ + _)), u32_small by lia.
  rewrite Z.mul_comm. by apply Z.div_mul.
Qed.

(** Two positions of lines of the same length at the same index. *)
Lemma index_inj ppsl x y x' y' :
  0 <= x < ppsl -> 0 <= x' < ppsl -> ppsl * y + x = ppsl * y' + x' -> x = x' /\ y = y'.
Proof. intros. assert (y = y') by nia. subst. lia. Qed.

Lemma lines_apart ppsl y y' :
  0 <= ppsl -> y = y' \/ ppsl * y + ppsl <= ppsl * y' \/ ppsl * y' + ppsl <= ppsl * y.
Proof. intros. destruct (Z.lt_trichotomy y y') as [|[|]]; [right; left|by left|right; right]; nia. Qed.

(** ** Painting

    [fb'] is [fb] with the pixels of [D] on the screen replaced by [f]. *)
Record paints (D : Vector2D -> bool) (f : Vector2D -> Z -> Z) (fb fb' : FrameBuffer) : Prop := {
  pa_ok : fb_ok fb';
  pa_config : pixels_per_scan_line fb' = pixels_per_scan_line fb /\ horizontal_resolution fb' = horizontal_resolution fb /\
    vertical_resolution fb' = vertical_resolution fb /\ pixel_format fb' = pixel_format fb;
  pa_pixel : forall p, in_rect p (screen fb) = true ->
    pixel fb' p = if D p then f p (pixel fb p) else pixel fb p;
}.

Lemma paints_screen D f fb fb' : paints D f fb fb' -> screen fb' = screen fb.
Proof. intros [_ (_ & H1 & H2 & _) _]. unfold screen, ScreenSize. by rewrite H1, H2. Qed.

Lemma paints_none D f fb : fb_ok fb -> (forall p, in_rect p (screen fb) = true -> D p = false) -> paints D f fb fb.
Proof. intros Hok H. split; [done..|]. intros p Hp. by rewrite H. Qed.

(** A loop that paints a line, by [g], in each turn. *)
Lemma paints_loop (g : Vector2D -> Z) D f (body : Z -> FrameBuffer -> option FrameBuffer) lo k fb :
  fb_ok fb ->
  (forall i s, lo <= i < lo + Z.of_nat k -> fb_ok s -> screen s = screen fb ->
    pixels_per_scan_line s = pixels_per_scan_line fb -> pixel_format s = pixel_format fb ->
    exists s', body i s = Some s' /\ paints (fun p => D p && (g p =? i)) f s s') ->
  exists fb', for_loop body k lo fb = Some fb' /\
    paints (fun p => D p && (lo <=? g p) && (g p <? lo + Z.of_nat k)) f fb fb'.
Proof.
  intros Hok Hbody.
  apply (for_loop_ind body (fun j s => paints (fun p => D p && (lo <=? g p) && (g p <? j)) f fb s)).
  { apply paints_none; [done|]. intros p _. destruct (Z.leb_spec lo (g p)), (Z.ltb_spec (g p) lo); rewrite ?andb_false_r; done || lia. }
  intros j s Hj Hs. pose proof (paints_screen _ _ _ _ Hs) as Hscr. destruct Hs as [Hso (C1 & C2 & C3 & C4) Hp].
  destruct (Hbody j s Hj Hso Hscr C1 C4) as (s' & E & [Hso' (C1' & C2' & C3' & C4') Hp']).
  exists s'. split; [done|]. split; [done|split_and!; congruence|].
  intros p Hin. rewrite Hp' by (by rewrite Hscr). rewrite Hp by done.
  destruct (D p); [|done]. cbn [andb].
  destruct (Z.eqb_spec (g p) j), (Z.leb_spec lo (g p)), (Z.ltb_spec (g p) j), (Z.ltb_spec (g p) (j + 1)); done || lia.
Qed.

Lemma paints_ext D D' f f' fb fb' :
  paints D f fb fb' -> (forall p, in_rect p (screen fb) = true -> D p = D' p) ->
  (forall p v, in_rect p (screen fb) = true -> D p = true -> f p v = f' p v) -> paints D' f' fb fb'.
Proof.
  intros [H1 H2 H3] HD Hf. split; [done..|]. intros p Hp. rewrite H3, <- HD by done.
  destruct (D p) eqn:E; [|done]. by apply Hf.
Qed.

Lemma pixel_set_frame_buffer l fb q :
  pixel (set_frame_buffer l fb) q = default 0 (getZ l (pixels_per_scan_line fb * vy q + vx q)).
Proof. done. Qed.

Lemma fb_ok_set l fb : fb_ok fb -> length l = length (frame_buffer fb) -> fb_ok (set_frame_buffer l fb).
Proof. intros [H1 H2 H3 H4 H5] Hl. split; cbn; rewrite ?Hl; done. Qed.

Lemma WritePixel_paints p c fb :
  fb_ok fb -> in_rect p (screen fb) = true ->
  exists fb', SyscallWritePixel p c fb = Some fb' /\
    paints (fun q => (vx q =? vx p) && (vy q =? vy p)) (fun _ => put_color (pixel_format fb) c) fb fb'.
Proof.
  intros Hok Hp. pose proof (in_screen fb p Hok Hp) as (Hx & Hy & Hi). pose proof (fo_range _ Hok).
  unfold SyscallWritePixel. rewrite pixel_index_small by lia. destruct (getZ_Some _ _ Hi) as [v Hv].
  rewrite Hv. cbn [mbind option_bind]. rewrite setZ_Some by done. cbn [mbind option_bind].
  pose proof (setZ_Some (frame_buffer fb) _ (put_color (pixel_format fb) c v) Hi) as Hs.
  eexists. split; [done|]. split; [apply fb_ok_set; [done|apply length_insert]|done|].
  intros q Hq. rewrite pixel_set_frame_buffer, (getZ_setZ _ _ _ _ _ Hs). unfold pixel.
  pose proof (in_screen fb q Hok Hq) as (Hqx & Hqy & _). pose proof (fo_line _ Hok).
  destruct (decide (_ = _)) as [E|E].
  - apply index_inj in E as [E1 E2]; [|lia..]. rewrite <- E1, <- E2, !Z.eqb_refl, Hv. done.
  - destruct (Z.eqb_spec (vx q) (vx p)) as [E1|], (Z.eqb_spec (vy q) (vy p)) as [E2|]; try done.
    by rewrite E1, E2 in E.
Qed.

(** The part of a line that a row of [n] pixels covers. *)
Definition in_row (start : Vector2D) (n : Z) (q : Vector2D) : bool :=
  (vx start <=? vx q) && (vx q <? vx start + n) && (vy q =? vy start).

Lemma CopyToFrameBuffer_paints src i start n fb :
  fb_ok fb -> 0 <= i -> 0 <= n -> i + n <= Z.of_nat (length src) ->
  0 <= vx start -> vx start + n <= horizontal_resolution fb -> 0 <= vy start < vertical_resolution fb ->
  exists fb', SyscallCopyToFrameBuffer src i start n fb = Some fb' /\
    paints (in_row start n) (fun q _ => default 0 (getZ src (i + (vx q - vx start)))) fb fb'.
Proof.
  intros Hok Hi Hn Hsrc Hx Hxn Hy. pose proof Hok as [Hl Hh Hr Hm Hs].
  unfold SyscallCopyToFrameBuffer. rewrite decide_False by lia.
  rewrite read_at_Some by lia. cbn [mbind option_bind]. rewrite pixel_index_small by nia.
  set (o := pixels_per_scan_line fb * vy start + vx start). set (row := slice src (Z.to_nat i) (Z.to_nat n)).
  assert (Hrow : length row = Z.to_nat n) by (apply length_slice; lia).
  assert (Ho : 0 <= o /\ o + n <= Z.of_nat (length (frame_buffer fb))) by (unfold o; nia).
  rewrite write_at_Some by (rewrite Hrow; lia). cbn [mbind option_bind].
  eexists. split; [done|]. split; [apply fb_ok_set; [done|apply length_splice; rewrite Hrow; lia]|done|].
  intros q Hq. pose proof (in_screen fb q Hok Hq) as (Hqx & Hqy & Hqi).
  rewrite pixel_set_frame_buffer. unfold pixel, getZ at 1. rewrite decide_True by lia.
  rewrite lookup_splice, Hrow by (rewrite Hrow; lia). unfold in_row.
  pose proof (lines_apart (pixels_per_scan_line fb) (vy q) (vy start) ltac:(lia)) as Hap. unfold o.
  destruct (Z.leb_spec (vx start) (vx q)), (Z.ltb_spec (vx q) (vx start + n)), (Z.eqb_spec (vy q) (vy start)) as [E|E]; cbn [andb].
  1: { rewrite E. rewrite decide_True by lia. unfold row. rewrite lookup_slice, decide_True by lia.
       unfold getZ. rewrite decide_True by lia. do 2 f_equal. lia. }
  all: rewrite decide_False by (try rewrite E in *; lia); unfold getZ; by rewrite decide_True by lia.
Qed.

(** ** Copying a shadow buffer *)

Record sb_ok (sb : ShadowBuffer) : Prop := {
  so_width : 0 <= sb_width sb < 2 ^ 31;
  so_height : 0 <= sb_height sb < 2 ^ 31;
  so_buffer : Z.of_nat (length (buffer sb)) = sb_width sb * sb_height sb;
  so_range : Z.of_nat (length (buffer sb)) < 2 ^ 30;
}.

Definition sb_pixel (sb : ShadowBuffer) (p : Vector2D) : Z :=
  default 0 (getZ (buffer sb) (sb_width sb * vy p + vx p)).

Lemma Shadow_CopyToFrameBuffer_paints sb pos area fb :
  fb_ok fb -> sb_ok sb -> size_ok (rsize area) ->
  exists fb', Shadow_CopyToFrameBuffer sb pos area fb = Some fb' /\
    paints (fun q => in_rect q (Rect (vsub pos (rpos area)) (ShadowBufferSize sb)) && in_rect q (Rect pos (rsize area)))
      (fun q _ => sb_pixel sb (vsub q (vsub pos (rpos area)))) fb fb'.
Proof.
  intros Hok [Hw Hh Hb Hs] Ha. pose proof Hok as [Fl Fh Fr Fm Fs].
  unfold Shadow_CopyToFrameBuffer. set (origin := vsub pos (rpos area)).
  change (Rect (V 0 0) (ScreenSize fb)) with (screen fb).
  set (outline := Rect origin (ShadowBufferSize sb)). set (shifted := Rect pos (rsize area)).
  set (copy := rect_and (rect_and (screen fb) outline) shifted).
  assert (Hscr : ScreenSize fb = V (horizontal_resolution fb) (vertical_resolution fb)).
  { unfold ScreenSize. by rewrite !s32_small by lia. }
  assert (Hsz : ShadowBufferSize sb = V (sb_width sb) (sb_height sb)).
  { unfold ShadowBufferSize. by rewrite !s32_small by lia. }
  assert (S1 : size_ok (rsize (screen fb))) by (unfold size_ok; cbn [rsize screen]; rewrite Hscr; cbn; lia).
  assert (S2 : size_ok (rsize outline)) by (unfold size_ok; cbn [rsize outline]; rewrite Hsz; cbn; lia).
  pose proof (rect_and_size _ _ S1 S2) as S3. pose proof (rect_and_size _ shifted S3 Ha) as S4.
  assert (Hin : forall q, in_rect q (screen fb) = true ->
     in_rect q copy = in_rect q outline && in_rect q shifted).
  { intros q Hq. unfold copy. by rewrite !in_rect_and, Hq. }
  destruct (decide (0 < vy (rsize copy))) as [Hrows|Hrows].
  - destruct (rect_and_inside _ shifted S3 Ha Hrows) as [I1 I2]. fold copy in I1, I2.
    destruct (rect_and_inside _ outline S1 S2) as [I3 I4].
    { fold copy in S4. destruct S4. lia. }
    cbn [rpos rsize screen outline] in I3, I4. rewrite Hscr in I3. rewrite Hsz in I4. cbn [vx vy] in I3, I4.
    fold copy in S4. destruct S4 as [Sx Sy].
    set (start := vsub (rpos copy) origin).
    assert (Hst : 0 <= vx start /\ vx start + vx (rsize copy) <= sb_width sb /\
      0 <= vy start /\ vy start + vy (rsize copy) <= sb_height sb) by (unfold start, vsub; cbn [vx vy]; lia).
    assert (Hidx : forall dy, 0 <= dy < vy (rsize copy) ->
      0 <= sb_width sb * vy start + vx start + sb_width sb * dy /\
      sb_width sb * vy start + vx start + sb_width sb * dy + vx (rsize copy) <= Z.of_nat (length (buffer sb))).
    { intros dy Hdy. pose proof (Z.mul_le_mono_nonneg_l (vy start + dy + 1) (sb_height sb) (sb_width sb)).
      pose proof (Z.mul_nonneg_nonneg (sb_width sb) (vy start)). pose proof (Z.mul_nonneg_nonneg (sb_width sb) dy). lia. }
    rewrite pixel_index_small by (specialize (Hidx 0); lia).
    destruct (paints_loop (fun q => vy q - vy (rpos copy))
      (fun q => (vx (rpos copy) <=? vx q) && (vx q <? vx (rpos copy) + vx (rsize copy)))
      (fun q _ => sb_pixel sb (vsub q origin))
      (fun dy fb => SyscallCopyToFrameBuffer (buffer sb) (sb_width sb * vy start + vx start + sb_width sb * dy)
        (V (vx (rpos copy)) (dy + vy (rpos copy))) (vx (rsize copy)) fb) 0 (Z.to_nat (vy (rsize copy))) fb Hok)
      as (fb' & E & Hp).
    + intros dy s Hdy Hs' Hscr' _ _. rewrite Z2Nat.id in Hdy by lia.
      unfold screen in Hscr'. rewrite Hscr in Hscr'. unfold ScreenSize in Hscr'.
      pose proof Hs' as [Gl Gh Gr _ _]. rewrite !s32_small in Hscr' by lia. injection Hscr' as Hw' Hh'.
      destruct (CopyToFrameBuffer_paints (buffer sb) (sb_width sb * vy start + vx start + sb_width sb * dy)
        (V (vx (rpos copy)) (dy + vy (rpos copy))) (vx (rsize copy)) s Hs') as (s' & Es & Hps);
        [apply Hidx; lia|lia|apply Hidx; lia|cbn [vx vy]; lia..|].
      exists s'. split; [done|]. apply (paints_ext _ _ _ _ _ _ Hps).
      * intros q _. unfold in_row; cbn [vx vy]. f_equal.
        destruct (Z.eqb_spec (vy q) (dy + vy (rpos copy))), (Z.eqb_spec (vy q - vy (rpos copy)) dy); done || lia.
      * intros q v _. unfold in_row; cbn [vx vy]. rewrite !andb_true_iff, Z.eqb_eq. intros [_ Hq].
        unfold sb_pixel. do 2 f_equal. unfold start, vsub; cbn [vx vy]. rewrite Hq. lia.
    + exists fb'. split; [exact E|]. apply (paints_ext _ _ _ _ _ _ Hp); [|done].
      intros q Hq. rewrite <- Hin by done. unfold in_rect. rewrite Z2Nat.id, Z.add_0_l by lia. rewrite <- !andb_assoc. do 2 f_equal.
      lia.
  - assert (Z.to_nat (vy (rsize copy)) = 0%nat) as -> by lia. exists fb. split; [done|]. apply paints_none; [done|].
    intros p Hp. rewrite <- Hin by done. unfold in_rect.
    destruct (Z.leb_spec (vy (rpos copy)) (vy p)), (Z.ltb_spec (vy p) (vy (rpos copy) + vy (rsize copy))); rewrite ?andb_false_r; done || lia.
Qed.
