(* ===== verification/GuiLayer.v ===== *)
(** * Windows and layers (servers/gui/window.cpp, layer.cpp, font.cpp)

    The windows of the GUI server, the stack of layers that show them, and the
    operations that move, raise and draw them. A pointer to a layer is its ID,
    0 the null pointer: IDs count from 1 on and are not reused before 2^32
    layers have been made. Every window belongs to one layer, so it is stored
    with it. *)

From S2P Require Import Prelude Bytes GuiGraphics.
From stdpp Require Import base list numbers option.
From Stdlib Require Import ZArith Lia.

Local Open Scope Z_scope.

(** ** Drawing *)

(** An object that pixels are written to.
    [src/servers/gui/graphics.hpp:27-33] [PixelWriter] *)
Record PixelWriter (S : Type) := MkWriter {
  Write : Vector2D -> PixelColor -> S -> option S;
  Width : S -> Z;
  Height : S -> Z;
}.
Arguments MkWriter {S}.
Arguments Write {S}.
Arguments Width {S}.
Arguments Height {S}.

Section drawing.
Context {S : Type} (writer : PixelWriter S).

(** [src/servers/gui/graphics.cpp:45-52] [FillRectangle] *)
Definition FillRectangle (pos size : Vector2D) (c : PixelColor) (s : S) : option S :=
  for_loop (fun dy s =>
    for_loop (fun dx s => Write writer (vadd pos (V dx dy)) c s) (Z.to_nat (vx size)) 0 s)
    (Z.to_nat (vy size)) 0 s.

(** [src/servers/gui/graphics.cpp:33-43] [DrawRectangle] *)
Definition DrawRectangle (pos size : Vector2D) (c : PixelColor) (s : S) : option S :=
  s ← for_loop (fun dx s =>
        s ← Write writer (vadd pos (V dx 0)) c s;
        Write writer (vadd pos (V dx (vy size - 1))) c s) (Z.to_nat (vx size)) 0 s;
  for_loop (fun dy s =>
    s ← Write writer (vadd pos (V 0 dy)) c s;
    Write writer (vadd pos (V (vx size - 1) dy)) c s) (Z.to_nat (vy size - 2)) 1 s.

(** The glyphs, 16 bytes each, that the build links to the server. *)
Context (font : list Z).

(** [None] is the null pointer; [char] is signed.
    [src/servers/gui/font.cpp:7-13] [GetFont] *)
Definition GetFont (c : Z) : option Z :=
  let index := u32 (16 * u32 (if decide (c < 128) then c else c - 256)) in
  if decide (Z.of_nat (length font) <= index) then None else Some index.

(** [src/servers/gui/font.cpp:15-28] [WriteAscii] *)
Definition WriteAscii (pos : Vector2D) (c : Z) (color : PixelColor) (s : S) : option S :=
  match GetFont c with
  | None => Some s
  | Some glyph =>
      for_loop (fun dy s =>
        for_loop (fun dx s =>
          line ← getZ font (glyph + dy);
          if decide (Z.land (Z.shiftl line dx) 0x80 <> 0) then Write writer (vadd pos (V dx dy)) color s
          else Some s) 8 0 s) 16 0 s
  end.

(** [src/servers/gui/font.cpp:30-35] [WriteString] *)
Fixpoint WriteString (pos : Vector2D) (str : list Z) (color : PixelColor) (s : S) : option S :=
  match str with
  | [] => Some s
  | c :: str' => s ← WriteAscii pos c color s; WriteString (vadd pos (V 8 0)) str' color s
  end.
End drawing.

(** [src/servers/gui/graphics.cpp:8-24] [FrameBufferWriter::Width] *)
Definition screen_writer : PixelWriter FrameBuffer :=
  MkWriter SyscallWritePixel (fun fb => vx (ScreenSize fb)) (fun fb => vy (ScreenSize fb)).

(** ** Windows *)

(** A window with a title is a [ToplevelWindow].
    [src/servers/gui/window.hpp:19-72] [Window] *)
Record Window := MkWindow {
  w_width : Z;
  w_height : Z;
  data : list (list PixelColor);
  transparent_color : option PixelColor;
  shadow_buffer : ShadowBuffer;
  w_title : option (list Z);
}.
Definition set_data d w := MkWindow (w_width w) (w_height w) d (transparent_color w) (shadow_buffer w) (w_title w).
Definition set_shadow s w := MkWindow (w_width w) (w_height w) (data w) (transparent_color w) s (w_title w).
(** [src/servers/gui/window.cpp:106-108] [Window::SetTransparentColor] *)
Definition SetTransparentColor c w := MkWindow (w_width w) (w_height w) (data w) c (shadow_buffer w) (w_title w).

(** [src/servers/gui/window.cpp:125-125] [Window::Size] *)
Definition Size (w : Window) : Vector2D := V (w_width w) (w_height w).

(** A negative size makes [resize] throw.
    [src/servers/gui/window.cpp:65-78] [Window::Window] *)
Definition new_Window (width height : Z) (title : option (list Z)) : option Window :=
  if decide (height < 0 \/ (0 < height /\ width < 0)) then None
  else Some (MkWindow width height (replicate (Z.to_nat height) (replicate (Z.to_nat width) (Color 0 0 0)))
               None (new_ShadowBuffer width height) title).

(** [src/servers/gui/window.cpp:112-114] [Window::At] *)
Definition At (w : Window) (pos : Vector2D) : option PixelColor :=
  row ← getZ (data w) (vy pos); getZ row (vx pos).

(** [src/servers/gui/window.cpp:116-119] [Window::Write] *)
Definition Window_Write (pos : Vector2D) (c : PixelColor) (w : Window) : option Window :=
  row ← getZ (data w) (vy pos);
  row ← setZ row (vx pos) c;
  d ← setZ (data w) (vy pos) row;
  sb ← Shadow_Write pos c (shadow_buffer w);
  Some (set_shadow sb (set_data d w)).

(** [src/servers/gui/window.hpp:21-35] [Window::WindowWriter] *)
Definition WindowWriter : PixelWriter Window := MkWriter Window_Write w_width w_height.

(** [src/servers/gui/window.cpp:102-104] [Window::Move] *)
Definition Window_Move (dst_pos : Vector2D) (src : Rectangle) (w : Window) : option Window :=
  sb ← Shadow_Move dst_pos src (shadow_buffer w); Some (set_shadow sb w).

(** [src/servers/gui/window.cpp:80-100] [Window::DrawTo] *)
Definition Window_DrawTo (w : Window) (pos : Vector2D) (area : Rectangle) (fb : FrameBuffer) : option FrameBuffer :=
  match transparent_color w with
  | None =>
      let intersection := rect_and area (Rect pos (Size w)) in
      Shadow_CopyToFrameBuffer (shadow_buffer w) (rpos intersection)
        (Rect (vsub (rpos intersection) pos) (rsize intersection)) fb
  | Some tc =>
      let y0 := Z.max 0 (0 - vy pos) in
      let x0 := Z.max 0 (0 - vx pos) in
      for_loop (fun y fb =>
        for_loop (fun x fb =>
          c ← At w (V x y);
          if decide (c <> tc) then Write screen_writer (vadd pos (V x y)) c fb else Some fb)
          (Z.to_nat (Z.min (w_width w) (Width screen_writer fb - vx pos) - x0)) x0 fb)
        (Z.to_nat (Z.min (w_height w) (Height screen_writer fb - vy pos) - y0)) y0 fb
  end.

(** *** Windows with a title *)

Section toplevel.
Context (font : list Z).

(** [src/servers/gui/window.cpp:7-8] [kCloseButtonWidth] *)
Definition kCloseButtonWidth : Z := 16.
Definition kCloseButtonHeight : Z := 14.

(** The button, a row for each line of characters: [0] for '@', [1] for '$',
    [2] for ':' and [3] for '.'.
    [src/servers/gui/window.cpp:9-15] [close_button] *)
Definition close_button : list (list Z) :=
  [[3;3;3;3;3;3;3;3;3;3;3;3;3;3;3;0]; [3;2;2;2;2;2;2;2;2;2;2;2;2;2;1;0]; [3;2;2;2;2;2;2;2;2;2;2;2;2;2;1;0];
   [3;2;2;2;0;0;2;2;2;2;0;0;2;2;1;0]; [3;2;2;2;2;0;0;2;2;0;0;2;2;2;1;0]; [3;2;2;2;2;2;0;0;0;0;2;2;2;2;1;0];
   [3;2;2;2;2;2;2;0;0;2;2;2;2;2;1;0]; [3;2;2;2;2;2;0;0;0;0;2;2;2;2;1;0]; [3;2;2;2;2;0;0;2;2;0;0;2;2;2;1;0];
   [3;2;2;2;0;0;2;2;2;2;0;0;2;2;1;0]; [3;2;2;2;2;2;2;2;2;2;2;2;2;2;1;0]; [3;2;2;2;2;2;2;2;2;2;2;2;2;2;1;0];
   [3;1;1;1;1;1;1;1;1;1;1;1;1;1;1;0]; [0;0;0;0;0;0;0;0;0;0;0;0;0;0;0;0]].

(** [src/servers/gui/window.cpp:52-59] [DrawWindowTitle] *)
Definition button_color (k : Z) : PixelColor :=
  if decide (k = 0) then ToColor 0x000000
  else if decide (k = 1) then ToColor 0x848484
  else if decide (k = 2) then ToColor 0xc6c6c6
  else ToColor 0xffffff.

(** [src/servers/gui/window.cpp:40-63] [DrawWindowTitle] *)
Definition DrawWindowTitle (title : list Z) (active : bool) (w : Window) : option Window :=
  let win_w := w_width w in
  let bgcolor := if active then 0x009b6b else 0x848484 in
  w ← FillRectangle WindowWriter (V 3 3) (V (win_w - 6) 18) (ToColor bgcolor) w;
  w ← WriteString WindowWriter font (V 24 4) title (ToColor 0xffffff) w;
  for_loop (fun y w =>
    for_loop (fun x w =>
      k ← (row ← getZ close_button y; getZ row x);
      Window_Write (V (win_w - 5 - kCloseButtonWidth + x) (5 + y)) (button_color k) w)
      (Z.to_nat kCloseButtonWidth) 0 w) (Z.to_nat kCloseButtonHeight) 0 w.

(** [src/servers/gui/window.cpp:18-38] [DrawWindow] *)
Definition DrawWindow (title : list Z) (w : Window) : option Window :=
  let fill pos size c := FillRectangle WindowWriter pos size (ToColor c) in
  let win_w := w_width w in
  let win_h := w_height w in
  w ← fill (V 0 0) (V win_w 1) 0xc6c6c6 w;
  w ← fill (V 1 1) (V (win_w - 2) 1) 0xffffff w;
  w ← fill (V 0 0) (V 1 win_h) 0xc6c6c6 w;
  w ← fill (V 1 1) (V 1 (win_h - 2)) 0xffffff w;
  w ← fill (V (win_w - 2) 1) (V 1 (win_h - 2)) 0x848484 w;
  w ← fill (V (win_w - 1) 0) (V 1 win_h) 0x000000 w;
  w ← fill (V 2 2) (V (win_w - 4) (win_h - 4)) 0xc6c6c6 w;
  w ← fill (V 3 3) (V (win_w - 6) 18) 0x009b6b w;
  w ← fill (V 1 (win_h - 2)) (V (win_w - 2) 1) 0x848484 w;
  w ← fill (V 0 (win_h - 1)) (V win_w 1) 0x000000 w;
  DrawWindowTitle title false w.

(** [src/servers/gui/window.cpp:131-134] [ToplevelWindow::ToplevelWindow] *)
Definition new_ToplevelWindow (width height : Z) (title : list Z) : option Window :=
  w ← new_Window width height (Some title); DrawWindow title w.

(** [src/servers/gui/window.cpp:136-144] [ToplevelWindow::Activate] *)
Definition set_active (active : bool) (w : Window) : option Window :=
  match w_title w with None => Some w | Some title => DrawWindowTitle title active w end.

(** [src/servers/gui/window.hpp:12-17] [WindowRegion] *)
Inductive WindowRegion := kTitleBar | kCloseButton | kBorder | kOther.

Definition kTopLeftMargin : Vector2D := V 4 24.

(** [src/servers/gui/window.cpp:150-162] [ToplevelWindow::GetWindowRegion] *)
Definition GetWindowRegion (w : Window) (pos : Vector2D) : WindowRegion :=
  match w_title w with
  | None => kOther
  | Some _ =>
      if (vx pos <? 2) || (w_width w - 2 <=? vx pos) || (vy pos <? 2) || (w_height w - 2 <=? vy pos) then kBorder
      else if vy pos <? vy kTopLeftMargin then
        if (w_width w - 5 - kCloseButtonWidth <=? vx pos) && (vx pos <? w_width w - 5) &&
           (5 <=? vy pos) && (vy pos <? 5 + kCloseButtonHeight) then kCloseButton
        else kTitleBar
      else kOther
  end.
End toplevel.

(** ** Layers *)

(** [src/servers/gui/layer.hpp:10-37] [Layer] *)
Record Layer := MkLayer { layer_id : Z; lpos : Vector2D; window : option Window; draggable : bool }.
Definition set_lpos p l := MkLayer (layer_id l) p (window l) (draggable l).
Definition set_window w l := MkLayer (layer_id l) (lpos l) w (draggable l).

(** [src/servers/gui/layer.cpp:47-51] [Layer::DrawTo] *)
Definition Layer_DrawTo (l : Layer) (area : Rectangle) (fb : FrameBuffer) : option FrameBuffer :=
  match window l with
  | Some w => Window_DrawTo w (lpos l) area fb
  | None => Some fb
  end.

(** The state of the GUI server: the screen, the members of [layer_manager] and
    [active_layer], and the IDs of the application windows.
    [src/servers/gui/layer.hpp:39-86] [LayerManager] *)
Record Gui := MkGui {
  fb : FrameBuffer;
  layers : list Layer;
  layer_stack : list Z;
  latest_id : Z;
  active_id : Z;
  mouse_layer : Z;
  window_layer_id : list Z;
}.
Definition set_fb f g := MkGui f (layers g) (layer_stack g) (latest_id g) (active_id g) (mouse_layer g) (window_layer_id g).
Definition set_layers l g := MkGui (fb g) l (layer_stack g) (latest_id g) (active_id g) (mouse_layer g) (window_layer_id g).
Definition set_stack s g := MkGui (fb g) (layers g) s (latest_id g) (active_id g) (mouse_layer g) (window_layer_id g).
Definition set_latest i g := MkGui (fb g) (layers g) (layer_stack g) i (active_id g) (mouse_layer g) (window_layer_id g).
Definition set_active_id i g := MkGui (fb g) (layers g) (layer_stack g) (latest_id g) i (mouse_layer g) (window_layer_id g).
Definition set_mouse_layer i g := MkGui (fb g) (layers g) (layer_stack g) (latest_id g) (active_id g) i (window_layer_id g).
Definition set_windows l g := MkGui (fb g) (layers g) (layer_stack g) (latest_id g) (active_id g) (mouse_layer g) l.

(** [src/servers/gui/layer.cpp:168-177] [LayerManager::FindLayer] *)
Definition FindLayer (id : Z) (g : Gui) : option Layer := find_key layer_id id (layers g).

(** The pointer [FindLayer] answers. *)
Definition layer_ptr (id : Z) (g : Gui) : Z := match FindLayer id g with Some _ => id | None => 0 end.

(** The layer a pointer leads to; null and dangling pointers lead nowhere. *)
Definition deref (p : Z) (g : Gui) : option Layer := if decide (p = 0) then None else FindLayer p g.

Definition alter_layer (id : Z) (f : Layer -> Layer) (g : Gui) : Gui :=
  set_layers (alter_key layer_id id f (layers g)) g.

(** [src/servers/gui/layer.cpp:55-58] [LayerManager::NewLayer] *)
Definition NewLayer (g : Gui) : Gui * Z :=
  let id := u32 (latest_id g + 1) in
  (set_layers (layers g ++ [MkLayer id (V 0 0) None false]) (set_latest id g), id).

(** The layers [ps] points to are drawn in turn.
    [src/servers/gui/layer.cpp:75-77] [LayerManager::Draw] *)
Fixpoint draw_layers (ps : list Z) (area : Rectangle) (g : Gui) : option Gui :=
  match ps with
  | [] => Some g
  | p :: ps' =>
      l ← deref p g;
      fb' ← Layer_DrawTo l area (fb g);
      draw_layers ps' area (set_fb fb' g)
  end.

(** [src/servers/gui/layer.cpp:74-78] [LayerManager::Draw] *)
Definition DrawArea (area : Rectangle) (g : Gui) : option Gui := draw_layers (layer_stack g) area g.

(** [area] is [Some] once the layer was met.
    [src/servers/gui/layer.cpp:83-92] [LayerManager::Draw] *)
Fixpoint draw_from (id : Z) (ps : list Z) (area : option Rectangle) (g : Gui) : option Gui :=
  match ps with
  | [] => Some g
  | p :: ps' =>
      l ← deref p g;
      area ← (if decide (layer_id l = id) then w ← window l; Some (Some (Rect (lpos l) (Size w))) else Some area);
      g ← match area with
          | Some a => fb' ← Layer_DrawTo l a (fb g); Some (set_fb fb' g)
          | None => Some g
          end;
      draw_from id ps' area g
  end.

(** [src/servers/gui/layer.cpp:80-93] [LayerManager::Draw] *)
Definition Draw (id : Z) (g : Gui) : option Gui := draw_from id (layer_stack g) None g.

(** [src/servers/gui/layer.cpp:95-102] [LayerManager::Move] *)
Definition Move (id : Z) (new_pos : Vector2D) (g : Gui) : option Gui :=
  layer ← FindLayer id g;
  w ← window layer;
  g ← DrawArea (Rect (lpos layer) (Size w)) (alter_layer id (set_lpos new_pos) g);
  Draw id g.

(** [src/servers/gui/layer.cpp:104-111] [LayerManager::MoveRelative] *)
Definition MoveRelative (id : Z) (pos_diff : Vector2D) (g : Gui) : option Gui :=
  layer ← FindLayer id g;
  w ← window layer;
  g ← DrawArea (Rect (lpos layer) (Size w)) (alter_layer id (fun l => set_lpos (vadd (lpos l) pos_diff) l) g);
  Draw id g.

(** The first occurrence of a pointer is erased from the stack. *)
Fixpoint erase_ptr (p : Z) (s : list Z) : list Z :=
  match s with
  | [] => []
  | q :: s' => if decide (q = p) then s' else q :: erase_ptr p s'
  end.

(** [src/servers/gui/layer.cpp:138-144] [LayerManager::Hide] *)
Definition Hide (id : Z) (g : Gui) : Gui := set_stack (erase_ptr (layer_ptr id g) (layer_stack g)) g.

(** The position to insert at is kept as an index; the iterator that the
    program keeps across the [erase] means the same in practice.
    [src/servers/gui/layer.cpp:113-136] [LayerManager::UpDown] *)
Definition UpDown (id new_height : Z) (g : Gui) : Gui :=
  if decide (new_height < 0) then Hide id g
  else
    let size := Z.of_nat (length (layer_stack g)) in
    let new_height := if decide (new_height > size) then size else new_height in
    let layer := layer_ptr id g in
    if decide (layer ∈ layer_stack g) then
      let new_height := if decide (new_height = size) then new_height - 1 else new_height in
      let s := erase_ptr layer (layer_stack g) in
      set_stack (take (Z.to_nat new_height) s ++ layer :: drop (Z.to_nat new_height) s) g
    else
      set_stack (take (Z.to_nat new_height) (layer_stack g) ++ layer :: drop (Z.to_nat new_height) (layer_stack g)) g.

(** [src/servers/gui/layer.cpp:60-72] [LayerManager::RemoveLayer] *)
Definition RemoveLayer (id : Z) (g : Gui) : Gui :=
  let g := Hide id g in
  let g := set_layers (List.filter (fun l => negb (layer_id l =? id)) (layers g)) g in
  set_windows (List.filter (fun i => negb (i =? id)) (window_layer_id g)) g.

(** Whether a window but that of [exclude_id] is under a position.
    [src/servers/gui/layer.cpp:148-160] [LayerManager::FindLayerByPosition] *)
Definition under (pos : Vector2D) (exclude_id : Z) (l : Layer) : bool :=
  if layer_id l =? exclude_id then false
  else match window l with
       | None => false
       | Some w =>
           let win_end_pos := vadd (lpos l) (Size w) in
           (vx (lpos l) <=? vx pos) && (vx pos <? vx win_end_pos) &&
           (vy (lpos l) <=? vy pos) && (vy pos <? vy win_end_pos)
       end.

Fixpoint find_under (pos : Vector2D) (exclude_id : Z) (ps : list Z) (g : Gui) : option (option Layer) :=
  match ps with
  | [] => Some None
  | p :: ps' => l ← deref p g; if under pos exclude_id l then Some (Some l) else find_under pos exclude_id ps' g
  end.

(** [src/servers/gui/layer.cpp:146-166] [LayerManager::FindLayerByPosition] *)
Definition FindLayerByPosition (pos : Vector2D) (exclude_id : Z) (g : Gui) : option (option Layer) :=
  find_under pos exclude_id (rev (layer_stack g)) g.

Fixpoint height_from (id : Z) (ps : list Z) (h : Z) (g : Gui) : option Z :=
  match ps with
  | [] => Some (- 1)
  | p :: ps' => l ← deref p g; if decide (layer_id l = id) then Some h else height_from id ps' (h + 1) g
  end.

(** [src/servers/gui/layer.cpp:179-186] [LayerManager::GetHeight] *)
Definition GetHeight (id : Z) (g : Gui) : option Z := height_from id (layer_stack g) 0 g.

Section active.
Context (font : list Z).

(** The window of a layer is told whether it is the active one.
    [src/servers/gui/layer.cpp:202-203] [ActiveLayer::Activate] *)
Definition activate_window (active : bool) (id : Z) (g : Gui) : option Gui :=
  layer ← FindLayer id g;
  w ← window layer;
  w ← set_active font active w;
  Some (alter_layer id (set_window (Some w)) g).

(** [src/servers/gui/layer.cpp:196-215] [ActiveLayer::Activate] *)
Definition Activate (id : Z) (g : Gui) : option Gui :=
  if decide (active_id g = id) then Some g
  else
    g ← (if decide (0 < active_id g) then g ← activate_window false (active_id g) g; Draw (active_id g) g
         else Some g);
    let g := set_active_id id g in
    if decide (0 < id) then
      g ← activate_window true id g;
      let g := UpDown id 0 g in
      h ← GetHeight (mouse_layer g) g;
      Draw id (UpDown id (h - 1) g)
    else Some g.
End active.
