(* ===== verification/GuiDraw.v ===== *)
(** * Redrawing only what changed (servers/gui/layer.cpp)

    The layer manager redraws rectangles of the screen. The reference is the
    composition of all layers, bottom to top, pixel by pixel: after a layer is
    moved or raised the screen is what redrawing everything would make it. *)

From stdpp Require Import base list numbers option.
From Stdlib Require Import ZArith Lia.
From S2P Require Import Prelude Bytes GuiGraphics GuiLayer.

Local Open Scope Z_scope.

(** Equal boolean conditions on integers. *)
Ltac bool_lia :=
  apply eq_true_iff_eq; rewrite ?andb_true_iff, ?Z.leb_le, ?Z.ltb_lt, ?Z.eqb_eq; split; intros; lia.

(** ** The reference: what a layer contributes to a pixel *)

Definition color_at (w : Window) (p : Vector2D) : PixelColor := default (Color 0 0 0) (At w p).

Definition layer_rect (l : Layer) : Rectangle :=
  match window l with Some w => Rect (lpos l) (Size w) | None => Rect (V 0 0) (V 0 0) end.

Definition opaque (l : Layer) : bool :=
  match window l with Some w => bool_decide (transparent_color w = None) | None => false end.

(** A pixel of value [v] below layer [l]. *)
Definition layer_pixel (f : PixelFormat) (l : Layer) (p : Vector2D) (v : Z) : Z :=
  match window l with
  | None => v
  | Some w =>
      if in_rect p (layer_rect l) then
        match transparent_color w with
        | None => sb_pixel (shadow_buffer w) (vsub p (lpos l))
        | Some tc => let c := color_at w (vsub p (lpos l)) in if decide (c = tc) then v else put_color f c v
        end
      else v
  end.

(** All layers, the bottom one first. *)
Definition composite (f : PixelFormat) (ls : list Layer) (p : Vector2D) (v : Z) : Z :=
  fold_left (fun v l => layer_pixel f l p v) ls v.

(** What drawing [l] in [area] does: transparent windows are drawn whole. *)
Definition drawn_pixel (f : PixelFormat) (area : Rectangle) (l : Layer) (p : Vector2D) (v : Z) : Z :=
  if opaque l && negb (in_rect p area) then v else layer_pixel f l p v.

(** ** Drawing one layer *)

Definition color_ok (c : PixelColor) : Prop := 0 <= r c < 2 ^ 8 /\ 0 <= g c < 2 ^ 8 /\ 0 <= b c < 2 ^ 8.

Record window_ok (w : Window) : Prop := {
  wo_size : 0 <= w_width w /\ 0 <= w_height w;
  wo_rows : Z.of_nat (length (data w)) = w_height w;
  wo_row : Forall (fun row => Z.of_nat (length row) = w_width w) (data w);
  wo_shadow : sb_ok (shadow_buffer w);
  wo_colors : Forall (Forall color_ok) (data w);
  wo_same : sb_width (shadow_buffer w) = w_width w /\ sb_height (shadow_buffer w) = w_height w;
}.

Lemma At_Some w p :
  window_ok w -> 0 <= vx p < w_width w -> 0 <= vy p < w_height w -> At w p = Some (color_at w p).
Proof.
  intros [Hs Hr Hrow _ _ _] Hx Hy. unfold color_at, At.
  destruct (getZ_Some (data w) (vy p) ltac:(lia)) as [row Hget]. rewrite Hget. cbn [mbind option_bind].
  pose proof (getZ_lookup _ _ _ Hget) as Hl. rewrite Forall_lookup in Hrow. apply Hrow in Hl.
  destruct (getZ_Some row (vx p) ltac:(lia)) as [c ->]. done.
Qed.

Lemma transparent_DrawTo w pos area fb tc :
  fb_ok fb -> window_ok w -> transparent_color w = Some tc ->
  exists fb', Window_DrawTo w pos area fb = Some fb' /\
    paints (fun p => in_rect p (Rect pos (Size w)))
      (fun p v => let c := color_at w (vsub p pos) in if decide (c = tc) then v else put_color (pixel_format fb) c v) fb fb'.
Proof.
  intros Hok Hw Htc. unfold Window_DrawTo. rewrite Htc. pose proof Hok as [Fl Fh [Fr1 Fr2] _ _].
  set (y0 := Z.max 0 (0 - vy pos)). set (x0 := Z.max 0 (0 - vx pos)).
  set (f := fun p v => let c := color_at w (vsub p pos) in if decide (c = tc) then v else put_color (pixel_format fb) c v).
  destruct (paints_loop (fun p => vy p - vy pos) (fun p => in_rect p (Rect pos (Size w))) f
    (fun y fb => for_loop (fun x fb =>
          c ← At w (V x y);
          if decide (c <> tc) then Write screen_writer (vadd pos (V x y)) c fb else Some fb)
          (Z.to_nat (Z.min (w_width w) (Width screen_writer fb - vx pos) - x0)) x0 fb) y0
    (Z.to_nat (Z.min (w_height w) (Height screen_writer fb - vy pos) - y0)) fb Hok) as (fb' & E & Hp).
  - intros y s Hy Hs Hscr _ Hfmt.
    assert (Hws : Width screen_writer s = horizontal_resolution fb /\ Height screen_writer fb = vertical_resolution fb).
    { unfold screen in Hscr. injection Hscr as H1. cbn. rewrite H1. cbn. by rewrite !s32_small by lia. }
    destruct Hws as [Hws Hhs]. rewrite Hws, Hhs in *.
    destruct (paints_loop (fun p => vx p - vx pos) (fun p => in_rect p (Rect pos (Size w)) && (vy p - vy pos =? y)) f
      (fun x fb => c ← At w (V x y);
          if decide (c <> tc) then Write screen_writer (vadd pos (V x y)) c fb else Some fb) x0
      (Z.to_nat (Z.min (w_width w) (horizontal_resolution fb - vx pos) - x0)) s Hs) as (s' & E & Hp).
    + intros x t Hx Ht Hscr' _ Hfmt'. rewrite At_Some by (cbn; unfold x0, y0 in *; lia || done). cbn [mbind option_bind].
      assert (HD : forall q, in_rect q (screen t) = true ->
        (vx q =? vx pos + x) && (vy q =? vy pos + y) =
        in_rect q (Rect pos (Size w)) && (vy q - vy pos =? y) && (vx q - vx pos =? x)).
      { intros q _. unfold in_rect; cbn. unfold x0, y0 in *. bool_lia. }
      assert (Hq : forall q, (vx q =? vx pos + x) && (vy q =? vy pos + y) = true -> vsub q pos = V x y).
      { intros q. rewrite andb_true_iff, !Z.eqb_eq. intros [H1 H2]. unfold vsub. f_equal; lia. }
      destruct (decide (color_at w (V x y) = tc)) as [Hc|Hc].
      * rewrite decide_False by (intros ?; done). exists t. split; [done|].
        apply (paints_ext (fun q => (vx q =? vx pos + x) && (vy q =? vy pos + y)) _ (fun _ v => v)); [|done|].
        -- split; [done..|]. intros p _. by destruct (_ && _).
        -- intros p v _ E. unfold f. by rewrite (Hq p E), decide_True.
      * rewrite decide_True by done.
        destruct (WritePixel_paints (vadd pos (V x y)) (color_at w (V x y)) t Ht) as (t' & Et & Hpt).
        { rewrite Hscr', Hscr. unfold screen, ScreenSize. rewrite in_rect_spec; cbn. rewrite !s32_small by lia. unfold x0, y0 in *. lia. }
        exists t'. split; [exact Et|]. apply (paints_ext _ _ _ _ _ _ Hpt); [exact HD|].
        intros p v _ E. unfold f. by rewrite (Hq p E), decide_False, Hfmt', Hfmt.
    + exists s'. split; [exact E|]. apply (paints_ext _ _ _ _ _ _ Hp); [|done].
      intros p Hin. rewrite Hscr in Hin. apply (in_screen fb p Hok) in Hin. destruct Hin as (? & ? & _).
      unfold in_rect; cbn. unfold x0. bool_lia.
  - exists fb'. split; [exact E|]. apply (paints_ext _ _ _ _ _ _ Hp); [|done].
    intros p Hin. apply (in_screen fb p Hok) in Hin. destruct Hin as (? & ? & _).
    unfold in_rect; cbn. rewrite !s32_small by lia. unfold y0. bool_lia.
Qed.

(** The state of the frame buffer but its pixels. *)
Definition same_screen (a c : FrameBuffer) : Prop := screen c = screen a /\ pixel_format c = pixel_format a.

Lemma Layer_DrawTo_pixels l area fb :
  fb_ok fb -> (forall w, window l = Some w -> window_ok w) -> size_ok (rsize area) ->
  exists fb', Layer_DrawTo l area fb = Some fb' /\ fb_ok fb' /\ same_screen fb fb' /\
    forall p, in_rect p (screen fb) = true -> pixel fb' p = drawn_pixel (pixel_format fb) area l p (pixel fb p).
Proof.
  intros Hok Hw Ha. unfold Layer_DrawTo, drawn_pixel, layer_pixel, opaque, layer_rect.
  destruct (window l) as [w|]; [|by exists fb]. specialize (Hw w eq_refl).
  destruct (transparent_color w) as [tc|] eqn:Htc.
  - destruct (transparent_DrawTo w (lpos l) area fb tc Hok Hw Htc) as (fb' & E & Hp). exists fb'. split; [done|].
    split; [apply Hp|]. split; [split; [by eapply paints_screen|apply Hp]|]. intros p Hin.
    rewrite (pa_pixel _ _ _ _ Hp p Hin). done.
  - unfold Window_DrawTo. rewrite Htc. destruct Hw as [Hs _ _ Hsb _ [E1 E2]].
    set (i := rect_and area (Rect (lpos l) (Size w))).
    assert (Hi : size_ok (rsize i)) by (apply rect_and_size; [done|by unfold size_ok; cbn]).
    destruct (Shadow_CopyToFrameBuffer_paints (shadow_buffer w) (rpos i) (Rect (vsub (rpos i) (lpos l)) (rsize i)) fb Hok Hsb Hi)
      as (fb' & E & Hp). exists fb'. split; [done|].
    split; [apply Hp|]. split; [split; [by eapply paints_screen|apply Hp]|]. intros p Hin.
    rewrite (pa_pixel _ _ _ _ Hp p Hin). cbn [rpos rsize].
    assert (Ho : vsub (rpos i) (vsub (rpos i) (lpos l)) = lpos l).
    { unfold vsub; cbn. destruct (lpos l); cbn. f_equal; lia. }
    rewrite Ho. assert (Hsz : ShadowBufferSize (shadow_buffer w) = Size w).
    { unfold ShadowBufferSize, Size. destruct Hsb. rewrite !s32_small by lia. by rewrite E1, E2. }
    rewrite Hsz. replace (Rect (rpos i) (rsize i)) with i by by destruct i. unfold i. rewrite in_rect_and.
    rewrite bool_decide_true by done. destruct (in_rect p (Rect (lpos l) (Size w))), (in_rect p area); done.
Qed.

(** ** Overlays

    The part of the stack that is drawn in full every time. *)

Lemma put_bytes_put b0 b1 b2 c0 c1 c2 v :
  0 <= c0 < 2 ^ 8 -> 0 <= c1 < 2 ^ 8 -> 0 <= c2 < 2 ^ 8 ->
  put_bytes b0 b1 b2 (put_bytes c0 c1 c2 v) = put_bytes b0 b1 b2 v.
Proof.
  intros H0 H1 H2. unfold put_bytes. do 2 f_equal. f_equal.
  rewrite !Z.shiftr_lor, (Z.shiftr_shiftl_l _ 24 24), Z.sub_diag, Z.shiftl_0_r by lia.
  rewrite (Z.shiftr_shiftl_r _ 8 24), (Z.shiftr_shiftl_r _ 16 24) by lia.
  rewrite (Z.shiftr_div_pow2 c0), (Z.shiftr_div_pow2 c1), (Z.shiftr_div_pow2 c2), !Z.div_small by lia. done.
Qed.

Lemma put_color_put f c c' v : color_ok c' -> put_color f c (put_color f c' v) = put_color f c v.
Proof. intros (? & ? & ?). by destruct f; apply put_bytes_put. Qed.

Definition layer_ok (l : Layer) : Prop := forall w, window l = Some w -> window_ok w.

Lemma color_at_ok w p : window_ok w -> color_ok (color_at w p).
Proof.
  intros Hw. unfold color_at, At. destruct (getZ (data w) (vy p)) as [row|] eqn:E1; [|by cbn].
  destruct (getZ row (vx p)) as [c|] eqn:E2; cbn; rewrite ?E2; [|by cbn].
  apply getZ_lookup in E1, E2. pose proof (wo_colors _ Hw) as H. rewrite Forall_lookup in H.
  apply H in E1. rewrite Forall_lookup in E1. by eapply E1.
Qed.

(** The color a transparent layer puts on a position, and the last one a
    list of them puts. *)
Definition overlay (l : Layer) (p : Vector2D) : option PixelColor :=
  match window l with
  | Some w => match transparent_color w with
              | Some tc => if in_rect p (layer_rect l) && bool_decide (color_at w (vsub p (lpos l)) <> tc)
                           then Some (color_at w (vsub p (lpos l))) else None
              | None => None
              end
  | None => None
  end.

Fixpoint last_overlay (ls : list Layer) (p : Vector2D) : option PixelColor :=
  match ls with
  | [] => None
  | l :: ls' => match last_overlay ls' p with Some c => Some c | None => overlay l p end
  end.

Definition put_opt (f : PixelFormat) (o : option PixelColor) (v : Z) : Z :=
  match o with Some c => put_color f c v | None => v end.

Lemma overlay_ok l p c : layer_ok l -> overlay l p = Some c -> color_ok c.
Proof.
  unfold overlay. intros Hl. destruct (window l) as [w|] eqn:E; [|done]. destruct (transparent_color w); [|done].
  case_match; [|done]. intros [= <-]. apply color_at_ok. by apply Hl.
Qed.

Lemma last_overlay_ok ls p c : Forall layer_ok ls -> last_overlay ls p = Some c -> color_ok c.
Proof.
  induction 1 as [|l ls Hl _ IH]; cbn; [done|]. destruct (last_overlay ls p); [intros [= <-]; by apply IH|].
  by apply overlay_ok.
Qed.

Lemma last_overlay_app ls ls' p :
  last_overlay (ls ++ ls') p = match last_overlay ls' p with Some c => Some c | None => last_overlay ls p end.
Proof.
  induction ls as [|l ls IH]; cbn; [by destruct (last_overlay ls' p)|]. rewrite IH. by destruct (last_overlay ls' p).
Qed.

Lemma layer_pixel_overlay f l p v : opaque l = false -> layer_pixel f l p v = put_opt f (overlay l p) v.
Proof.
  unfold opaque, layer_pixel, overlay. destruct (window l) as [w|]; [|done]. destruct (transparent_color w) as [tc|]; [|done].
  intros _. destruct (in_rect p (layer_rect l)); [|done]. cbn [andb]. by case_bool_decide; case_decide.
Qed.

Lemma composite_overlay f ts p v :
  Forall layer_ok ts -> Forall (fun l => opaque l = false) ts -> composite f ts p v = put_opt f (last_overlay ts p) v.
Proof.
  intros Hok H. revert v. induction H as [|l ts Hl _ IH]; intros v; [done|]. apply list.Forall_cons in Hok as [Hlok Hok].
  cbn. fold (composite f ts p (layer_pixel f l p v)). rewrite IH, layer_pixel_overlay by done.
  destruct (last_overlay ts p) as [c|] eqn:E; [|done]. destruct (overlay l p) as [c'|] eqn:E'; [|done]. cbn.
  apply put_color_put. by eapply overlay_ok.
Qed.

Lemma composite_app f ls ls' p v : composite f (ls ++ ls') p v = composite f ls' p (composite f ls p v).
Proof. apply fold_left_app. Qed.

(** ** Drawing a stack *)

Definition nt (ls : list Layer) : list Layer := List.filter (fun l => negb (opaque l)) ls.

(** Transparent windows lie above the others. *)
Definition on_top (ls : list Layer) : Prop :=
  exists os ts, ls = os ++ ts /\ Forall (fun l => opaque l = true) os /\ Forall (fun l => opaque l = false) ts.

Definition covers_pixel (p : Vector2D) (l : Layer) : bool := opaque l && in_rect p (layer_rect l).

Lemma nt_app a c : nt (a ++ c) = nt a ++ nt c.
Proof. apply List.filter_app. Qed.

Lemma nt_transparent ls : Forall (fun l => opaque l = false) (nt ls).
Proof.
  induction ls as [|l ls IH]; cbn; [done|]. destruct (opaque l) eqn:E; cbn; [done|]. by constructor.
Qed.

Lemma nt_all ls : Forall (fun l => opaque l = false) ls -> nt ls = ls.
Proof. unfold nt. induction 1 as [|l ls Hl _ IH]; cbn; [done|]. rewrite Hl; cbn. by rewrite IH. Qed.

Lemma nt_none ls : Forall (fun l => opaque l = true) ls -> nt ls = [].
Proof. induction 1 as [|l ls Hl _ IH]; cbn; [done|]. by rewrite Hl. Qed.

Lemma on_top_suffix pre l post :
  on_top (pre ++ l :: post) -> opaque l = false -> Forall (fun l => opaque l = false) (l :: post).
Proof.
  intros (os & ts & E & Ho & Ht) Hl. apply app_eq_inv in E as [(k & -> & ->)|(k & -> & Ek)].
  - by apply list.Forall_app in Ht as [_ ?].
  - apply list.Forall_app in Ho as [_ Ho]. destruct k as [|l' k]; [cbn in Ek; by rewrite Ek|].
    injection Ek as -> _. apply list.Forall_cons in Ho as [Ho _]. congruence.
Qed.

Lemma nt_ok ls : Forall layer_ok ls -> Forall layer_ok (nt ls).
Proof. unfold nt. induction 1; cbn; [done|]. destruct (negb _); [by constructor|done]. Qed.

(** Outside the area only the transparent windows are drawn. *)
Lemma drawn_outside f area ls p v :
  in_rect p area = false -> fold_left (fun v l => drawn_pixel f area l p v) ls v = composite f (nt ls) p v.
Proof.
  intros Hp. revert v. induction ls as [|l ls IH]; intros v; [done|]. cbn. rewrite IH. unfold drawn_pixel. rewrite Hp.
  destruct (opaque l); [done|]. done.
Qed.

Lemma drawn_inside f area ls p v :
  in_rect p area = true -> fold_left (fun v l => drawn_pixel f area l p v) ls v = composite f ls p v.
Proof.
  intros Hp. revert v. induction ls as [|l ls IH]; intros v; [done|]. cbn. rewrite IH. unfold drawn_pixel. rewrite Hp.
  by rewrite andb_false_r.
Qed.

(** An opaque window hides what is below. *)
Lemma composite_covered f ls p v v' : Exists (fun l => covers_pixel p l = true) ls -> composite f ls p v = composite f ls p v'.
Proof.
  intros H. revert v v'. induction H as [l ls Hl|l ls _ IH]; intros v v'; cbn; [|apply IH]. f_equal.
  unfold covers_pixel, opaque in Hl. unfold layer_pixel. apply andb_true_iff in Hl as [Ho Hr].
  destruct (window l) as [w|]; [|done]. apply bool_decide_eq_true in Ho. by rewrite Hr, Ho.
Qed.

(** Drawing once more what was drawn last changes nothing. *)
Lemma absorb_suffix f pre suf p v :
  Forall layer_ok (pre ++ suf) -> on_top (pre ++ suf) ->
  composite f (nt suf) p (composite f (pre ++ suf) p v) = composite f (pre ++ suf) p v.
Proof.
  intros Hok (os & ts & E & Ho & Ht). assert (Hnt : nt (pre ++ suf) = ts) by (rewrite E, nt_app, nt_none, nt_all by done; done).
  pose proof (nt_ok _ Hok) as Hok'. rewrite Hnt in Hok'. rewrite E, composite_app.
  rewrite (composite_overlay f ts) by done. set (u := composite f os p v).
  assert (Hsuf : Forall layer_ok (nt suf)) by (apply nt_ok; by apply list.Forall_app in Hok as [_ ?]).
  rewrite (composite_overlay f (nt suf)) by (done || apply nt_transparent).
  rewrite <- Hnt, nt_app, last_overlay_app. destruct (last_overlay (nt suf) p) as [c|] eqn:Ec; [|done]. cbn.
  apply put_color_put. by eapply last_overlay_ok.
Qed.

(** ** The state of the server *)

Definition stack_layers (g : Gui) : list Layer := omap (fun p => FindLayer p g) (layer_stack g).

Record gui_ok (g : Gui) : Prop := {
  go_fb : fb_ok (fb g);
  go_layers : Forall layer_ok (layers g);
  go_stack : Forall (fun p => p <> 0 /\ is_Some (FindLayer p g)) (layer_stack g);
  go_nodup : NoDup (layer_stack g);
  go_top : on_top (stack_layers g);
  go_covered : forall p, in_rect p (screen (fb g)) = true -> Exists (fun l => covers_pixel p l = true) (stack_layers g);
}.

(** The pixel is what all the layers make it. *)
Definition good (g : Gui) (p : Vector2D) : Prop :=
  pixel (fb g) p = composite (pixel_format (fb g)) (stack_layers g) p 0.

Definition shows (g : Gui) : Prop := forall p, in_rect p (screen (fb g)) = true -> good g p.

Lemma FindLayer_ok g p l : gui_ok g -> FindLayer p g = Some l -> layer_ok l /\ layer_id l = p.
Proof.
  intros H Hl. apply find_key_Some in Hl as [Hin Hid]. split; [|done].
  pose proof (go_layers _ H) as Hf. rewrite list.Forall_forall in Hf. by apply Hf.
Qed.

Lemma stack_layers_ok g : gui_ok g -> Forall layer_ok (stack_layers g).
Proof.
  intros H. unfold stack_layers. apply list.Forall_forall. intros l (p & _ & Hp)%list_elem_of_omap. by eapply FindLayer_ok.
Qed.

Lemma gui_ok_fb g f : gui_ok g -> fb_ok f -> same_screen (fb g) f -> gui_ok (set_fb f g).
Proof. intros [H1 H2 H3 H4 H5 H6] Hf [Hs _]. split; try done. intros p. cbn. rewrite Hs. apply H6. Qed.

(** Pointers of the stack drawn in an area. *)
Lemma draw_layers_spec ps area : forall g,
  gui_ok g -> Forall (fun p => p <> 0 /\ is_Some (FindLayer p g)) ps -> size_ok (rsize area) ->
  exists f, draw_layers ps area g = Some (set_fb f g) /\ fb_ok f /\ same_screen (fb g) f /\
    forall p, in_rect p (screen (fb g)) = true ->
      pixel f p = fold_left (fun v l => drawn_pixel (pixel_format (fb g)) area l p v)
                    (omap (fun q => FindLayer q g) ps) (pixel (fb g) p).
Proof.
  induction ps as [|q ps IH]; intros g H Hps Ha; cbn.
  { exists (fb g). split; [by destruct g|]. split; [apply H|]. done. }
  apply list.Forall_cons in Hps as [[Hq [l Hl]] Hps]. unfold deref. rewrite decide_False, Hl by done. cbn [mbind option_bind].
  destruct (FindLayer_ok g q l H Hl) as [Hlok _].
  destruct (Layer_DrawTo_pixels l area (fb g) (go_fb _ H) Hlok Ha) as (f1 & -> & Hf1 & Hs1 & Hp1). cbn [mbind option_bind].
  destruct (IH (set_fb f1 g) (gui_ok_fb _ _ H Hf1 Hs1) Hps Ha) as (f2 & -> & Hf2 & [Hs2 Hm2] & Hp2). cbn in Hs2, Hm2, Hp2.
  destruct Hs1 as [Hs1 Hm1].
  exists f2. split; [done|]. split; [done|]. split; [split; congruence|]. intros p Hp.
  rewrite Hp2, Hp1, Hm1 by (rewrite ?Hs1; done). done.
Qed.

Lemma DrawArea_spec area g :
  gui_ok g -> size_ok (rsize area) ->
  exists f, DrawArea area g = Some (set_fb f g) /\ fb_ok f /\ same_screen (fb g) f /\
    forall p, in_rect p (screen (fb g)) = true ->
      pixel f p = composite (pixel_format (fb g))
        (if in_rect p area then stack_layers g else nt (stack_layers g)) p (pixel (fb g) p).
Proof.
  intros H Ha. destruct (draw_layers_spec (layer_stack g) area g H (go_stack _ H) Ha) as (f & E & Hf & Hs & Hp).
  exists f. split; [exact E|]. split; [done|]. split; [done|]. intros p Hin. rewrite Hp by done. fold (stack_layers g).
  destruct (in_rect p area) eqn:Ea; [by apply drawn_inside|by apply drawn_outside].
Qed.

(** Drawing an area repairs it and harms nothing. *)
Lemma DrawArea_good area g :
  gui_ok g -> size_ok (rsize area) ->
  exists f, DrawArea area g = Some (set_fb f g) /\ fb_ok f /\ same_screen (fb g) f /\
    forall p, in_rect p (screen (fb g)) = true -> in_rect p area = true \/ good g p -> good (set_fb f g) p.
Proof.
  intros H Ha. destruct (DrawArea_spec area g H Ha) as (f & E & Hf & [Hs Hm] & Hp).
  exists f. split; [exact E|]. split; [done|]. split; [done|]. intros p Hin Hgood. unfold good. cbn [fb set_fb].
  rewrite Hp, Hm by done. change (stack_layers (set_fb f g)) with (stack_layers g).
  destruct (in_rect p area) eqn:Ea; [by apply composite_covered, H|]. destruct Hgood as [? | ->]; [done|].
  apply (absorb_suffix _ [] (stack_layers g)); [by apply stack_layers_ok|apply H].
Qed.

(** *** Drawing one layer and those above it *)

Lemma draw_from_all id a ps : forall g,
  Forall (fun p => p <> 0 /\ is_Some (FindLayer p g)) ps -> id ∉ ps ->
  draw_from id ps (Some a) g = draw_layers ps a g.
Proof.
  induction ps as [|p ps IH]; intros g Hps Hid; [done|]. cbn.
  apply list.Forall_cons in Hps as [[Hq [l Hl]] Hps]. apply not_elem_of_cons in Hid as [Hne Hid].
  unfold deref. rewrite decide_False, Hl by done. cbn [mbind option_bind].
  pose proof (proj2 (find_key_Some _ _ _ _ Hl)) as Hlid. rewrite decide_False by congruence. cbn [mbind option_bind].
  destruct (Layer_DrawTo l a (fb g)) as [f|]; [|done]. cbn [mbind option_bind]. by apply IH.
Qed.

Lemma draw_from_none id ps : forall g,
  Forall (fun p => p <> 0 /\ is_Some (FindLayer p g)) ps -> id ∉ ps -> draw_from id ps None g = Some g.
Proof.
  induction ps as [|p ps IH]; intros g Hps Hid; [done|]. cbn.
  apply list.Forall_cons in Hps as [[Hq [l Hl]] Hps]. apply not_elem_of_cons in Hid as [Hne Hid].
  unfold deref. rewrite decide_False, Hl by done. cbn [mbind option_bind].
  pose proof (proj2 (find_key_Some _ _ _ _ Hl)) as Hlid. rewrite decide_False by congruence. cbn [mbind option_bind]. by apply IH.
Qed.

Lemma draw_from_app id pre post : forall g,
  Forall (fun p => p <> 0 /\ is_Some (FindLayer p g)) pre -> id ∉ pre ->
  draw_from id (pre ++ post) None g = draw_from id post None g.
Proof.
  induction pre as [|p pre IH]; intros g Hps Hid; [done|]. cbn.
  apply list.Forall_cons in Hps as [[Hq [l Hl]] Hps]. apply not_elem_of_cons in Hid as [Hne Hid].
  unfold deref. rewrite decide_False, Hl by done. cbn [mbind option_bind].
  pose proof (proj2 (find_key_Some _ _ _ _ Hl)) as Hlid. rewrite decide_False by congruence. cbn [mbind option_bind]. by apply IH.
Qed.

(** [Draw] of a layer of the stack draws it and the layers above it, in its
    rectangle. *)
Lemma Draw_suffix id g pre post l w :
  gui_ok g -> layer_stack g = pre ++ id :: post -> FindLayer id g = Some l -> window l = Some w ->
  Draw id g = draw_layers (id :: post) (layer_rect l) g.
Proof.
  intros H E Hl Hw. pose proof (go_stack _ H) as Hs. pose proof (go_nodup _ H) as Hn. rewrite E in Hs, Hn.
  apply list.Forall_app in Hs as [Hs1 Hs2]. apply list.Forall_cons in Hs2 as [[Hid _] Hs2].
  apply list.NoDup_app in Hn as (_ & Hn1 & Hn2). apply list.NoDup_cons in Hn2 as [Hn2 _].
  unfold Draw. rewrite E, draw_from_app; [|done|intros Hin; apply (Hn1 id Hin); by left].
  cbn. unfold deref. rewrite decide_False, Hl by done. cbn [mbind option_bind].
  pose proof (proj2 (find_key_Some _ _ _ _ Hl)) as Hlid. rewrite decide_True, Hw by done. cbn [mbind option_bind].
  unfold layer_rect. rewrite Hw. destruct (Layer_DrawTo l _ (fb g)) as [f|]; [|done]. cbn [mbind option_bind].
  by apply draw_from_all.
Qed.

Lemma layer_rect_size l : layer_ok l -> size_ok (rsize (layer_rect l)).
Proof. intros Hl. unfold layer_rect. destruct (window l) as [w|] eqn:E; [|by cbn]. by apply (wo_size _ (Hl w E)). Qed.

(** Drawing an opaque layer repairs its rectangle; drawing any layer harms
    nothing. *)
Lemma Draw_good id g l w :
  gui_ok g -> id ∈ layer_stack g -> FindLayer id g = Some l -> window l = Some w ->
  exists f, Draw id g = Some (set_fb f g) /\ fb_ok f /\ same_screen (fb g) f /\
    forall p, in_rect p (screen (fb g)) = true -> covers_pixel p l = true \/ good g p -> good (set_fb f g) p.
Proof.
  intros H Hin Hl Hw. apply list_elem_of_split in Hin as (pre & post & E).
  destruct (FindLayer_ok g id l H Hl) as [Hlok _]. pose proof (stack_layers_ok g H) as Hok.
  rewrite (Draw_suffix id g pre post l w H E Hl Hw).
  pose proof (go_stack _ H) as Hs. rewrite E in Hs. apply list.Forall_app in Hs as [_ Hs].
  destruct (draw_layers_spec (id :: post) (layer_rect l) g H Hs (layer_rect_size l Hlok)) as (f & -> & Hf & [Hsc Hm] & Hp).
  exists f. split; [done|]. split; [done|]. split; [done|]. intros p Hpin Hgood. unfold good. cbn [fb set_fb].
  rewrite Hp, Hm by done. change (stack_layers (set_fb f g)) with (stack_layers g).
  assert (Es : stack_layers g = omap (fun q => FindLayer q g) pre ++ omap (fun q => FindLayer q g) (id :: post))
    by (unfold stack_layers; by rewrite E, omap_app).
  set (suf := omap (fun q => FindLayer q g) (id :: post)) in *.
  assert (Hsuf : suf = l :: omap (fun q => FindLayer q g) post) by (unfold suf; cbn; by rewrite Hl).
  set (before := omap (fun q => FindLayer q g) pre) in *.
  destruct (covers_pixel p l) eqn:Hc.
  - unfold covers_pixel in Hc. apply andb_true_iff in Hc as [Ho Hr]. rewrite drawn_inside by done.
    rewrite Es, composite_app. apply composite_covered. rewrite Hsuf. left. unfold covers_pixel. by rewrite Ho, Hr.
  - destruct Hgood as [|Hgood]; [done|]. rewrite Hgood. rewrite Es in Hok |- *. pose proof (go_top _ H) as Htop. rewrite Es in Htop.
    destruct (in_rect p (layer_rect l)) eqn:Er; [|by rewrite drawn_outside, absorb_suffix by done].
    rewrite drawn_inside by done. assert (Ho : opaque l = false).
    { unfold covers_pixel in Hc. rewrite Er in Hc. by rewrite andb_true_r in Hc. }
    assert (Hnt : nt suf = suf).
    { apply nt_all. rewrite Hsuf in Htop |- *. by eapply on_top_suffix. }
    rewrite <- Hnt at 1. by apply absorb_suffix.
Qed.

(** ** Moving a layer *)

Lemma FindLayer_alter id p f g :
  (forall l, layer_id (f l) = layer_id l) ->
  FindLayer p (alter_layer id f g) = if decide (p = id) then f <$> FindLayer id g else FindLayer p g.
Proof. intros Hf. unfold FindLayer, alter_layer. cbn. by apply find_alter_key. Qed.

Lemma omap_ext_in {A B} (f f' : A -> option B) (l : list A) :
  (forall x, x ∈ l -> f x = f' x) -> omap f l = omap f' l.
Proof.
  induction l as [|x l IH]; intros H; [done|]. cbn. rewrite (H x) by by left. rewrite IH; [done|].
  intros y Hy. apply H. by right.
Qed.

(** The place of a layer in the stack. *)
Lemma stack_split g id l :
  gui_ok g -> id ∈ layer_stack g -> FindLayer id g = Some l ->
  exists A B, stack_layers g = A ++ l :: B /\ Forall (fun l => layer_id l <> id) (A ++ B) /\
    forall f, (forall l, layer_id (f l) = layer_id l) -> stack_layers (alter_layer id f g) = A ++ f l :: B.
Proof.
  intros H Hin Hl. apply list_elem_of_split in Hin as (pre & post & E).
  pose proof (go_nodup _ H) as Hn. rewrite E in Hn. apply list.NoDup_app in Hn as (_ & Hn1 & Hn2).
  apply list.NoDup_cons in Hn2 as [Hn2 _].
  exists (omap (fun q => FindLayer q g) pre), (omap (fun q => FindLayer q g) post). unfold stack_layers. rewrite E. split_and!.
  - rewrite omap_app. cbn. by rewrite Hl.
  - rewrite <- omap_app. apply list.Forall_forall. intros x (q & Hq & Hx)%list_elem_of_omap.
    apply find_key_Some in Hx as [_ <-]. intros Heq. rewrite Heq in Hq.
    apply elem_of_app in Hq as [Hq|Hq]; [|done]. apply (Hn1 id Hq). by left.
  - intros f Hf. change (layer_stack (alter_layer id f g)) with (layer_stack g). rewrite E, omap_app. cbn [omap list_omap].
    rewrite FindLayer_alter, decide_True, Hl by done. cbn [fmap option_fmap option_map].
    assert (Hext : forall ps : list Z, id ∉ ps -> omap (fun p => FindLayer p (alter_layer id f g)) ps = omap (fun q => FindLayer q g) ps).
    { intros ps Hps. apply omap_ext_in. intros q Hq. rewrite FindLayer_alter, decide_False; [done|by intros ->|done]. }
    rewrite !Hext; [done|done|]. intros Hq. apply (Hn1 id Hq). by left.
Qed.

Lemma layer_pixel_out f l p v : in_rect p (layer_rect l) = false -> layer_pixel f l p v = v.
Proof. intros H. unfold layer_pixel. rewrite H. by destruct (window l). Qed.

Lemma composite_skip f A l B p v :
  in_rect p (layer_rect l) = false -> composite f (A ++ l :: B) p v = composite f (A ++ B) p v.
Proof. intros H. rewrite !composite_app. cbn. by rewrite layer_pixel_out. Qed.

Lemma on_top_replace A l l' B : opaque l' = opaque l -> on_top (A ++ l :: B) -> on_top (A ++ l' :: B).
Proof.
  intros Ho Htop. destruct (opaque l) eqn:E.
  - destruct Htop as (os & ts & Eq & Hos & Hts). apply app_eq_inv in Eq as [(k & -> & ->)|(k & -> & Ek)].
    + apply list.Forall_app in Hts as [_ Hts]. apply list.Forall_cons in Hts as [Hts _]. congruence.
    + apply list.Forall_app in Hos as [Hos Hk]. destruct k as [|x k].
      * cbn in Ek. subst ts. apply list.Forall_cons in Hts as [Hts _]. congruence.
      * injection Ek as -> ->. apply list.Forall_cons in Hk as [_ Hk]. exists (A ++ l' :: k), ts. rewrite <- app_assoc. split; [done|].
        split; [|done]. apply list.Forall_app; split; [done|by constructor].
  - pose proof (on_top_suffix _ _ _ Htop E) as Hs. destruct Htop as (os & ts & Eq & Hos & Hts).
    apply app_eq_inv in Eq as [(k & -> & ->)|(k & -> & Ek)].
    + exists os, (k ++ l' :: B). rewrite <- app_assoc. split; [done|]. split; [done|].
      apply list.Forall_app in Hts as [Hk Hts]. apply list.Forall_cons in Hts as [_ Hts].
      apply list.Forall_app; split; [done|by constructor].
    + destruct k as [|x k].
      * exists A, (l' :: B). split; [done|]. rewrite app_nil_r in Hos. split; [done|].
        apply list.Forall_cons in Hs as [_ Hs]. by constructor.
      * injection Ek as -> ->. apply list.Forall_app in Hos as [_ Hk]. apply list.Forall_cons in Hk as [Hk _]. congruence.
Qed.

Lemma layers_ok_alter g id l f :
  Forall layer_ok (layers g) -> FindLayer id g = Some l -> layer_ok (f l) -> Forall layer_ok (layers (alter_layer id f g)).
Proof.
  intros H2 Hl Hok. unfold FindLayer, find_key in Hl. cbn. induction (layers g) as [|x ls IH]; cbn in *; [done|].
  apply list.Forall_cons in H2 as [Hx H2]. destruct (layer_id x =? id); constructor; try done.
  - by injection Hl as <-.
  - by apply IH.
Qed.

(** A layer changes and the layers still cover the screen. *)
Lemma gui_ok_alter g id l f :
  gui_ok g -> id ∈ layer_stack g -> FindLayer id g = Some l ->
  (forall l, layer_id (f l) = layer_id l) -> opaque (f l) = opaque l -> layer_ok (f l) ->
  (forall p, in_rect p (screen (fb g)) = true ->
    Exists (fun l => covers_pixel p l = true) (stack_layers (alter_layer id f g))) ->
  gui_ok (alter_layer id f g).
Proof.
  intros H Hin Hl Hf Ho Hok Hcov. destruct (stack_split g id l H Hin Hl) as (A & B & E & Hne & Ef).
  destruct H as [H1 H2 H3 H4 H5 H6]. split; try done.
  - by apply (layers_ok_alter g id l).
  - eapply list.Forall_impl; [exact H3|]. intros p [Hp [x Hx]]. split; [done|]. rewrite FindLayer_alter by done.
    case_decide; [|by exists x]. rewrite Hl. by eexists.
  - rewrite Ef by done. rewrite E in H5. by eapply on_top_replace.
Qed.

(** The other layers cover the screen. *)
Lemma covered_by_others g id l f p :
  gui_ok g -> id ∈ layer_stack g -> FindLayer id g = Some l -> (forall l, layer_id (f l) = layer_id l) ->
  Exists (fun l => layer_id l <> id /\ covers_pixel p l = true) (stack_layers g) ->
  Exists (fun l => covers_pixel p l = true) (stack_layers (alter_layer id f g)).
Proof.
  intros H Hin Hl Hf Hcov. destruct (stack_split g id l H Hin Hl) as (A & B & E & Hne & Ef).
  rewrite Ef by done. rewrite E, Exists_app, Exists_cons in Hcov. rewrite Exists_app, Exists_cons.
  apply find_key_Some in Hl as [_ Hl].
  destruct Hcov as [Hc|[[Hc _]|Hc]]; [left|done|right; right]; eapply Exists_impl; try exact Hc; by intros ? [].
Qed.

(** The opaque part of a stack below its transparent part. *)
Lemma composite_split ls p f v :
  Forall layer_ok ls -> on_top ls ->
  composite f ls p v = put_opt f (last_overlay (nt ls) p) (composite f (List.filter opaque ls) p v).
Proof.
  intros Hok (os & ts & -> & Ho & Ht). rewrite nt_app, nt_none, (nt_all ts), composite_app by done. cbn [app].
  apply list.Forall_app in Hok as [_ Hok]. rewrite composite_overlay by done. f_equal. f_equal.
  rewrite List.filter_app.
  assert (List.filter opaque os = os) as -> by (clear -Ho; induction Ho as [|x os Hx _ IH]; cbn; [done|by rewrite Hx, IH]).
  assert (List.filter opaque ts = []) as -> by (clear -Ht; induction Ht as [|x ts Hx _ IH]; cbn; [done|by rewrite Hx]).
  by rewrite app_nil_r.
Qed.

Lemma filter_replace_opaque A l l' B :
  opaque l = false -> opaque l' = false -> List.filter opaque (A ++ l :: B) = List.filter opaque (A ++ l' :: B).
Proof. intros H H'. rewrite !List.filter_app. cbn. by rewrite H, H'. Qed.

(** A transparent layer [l] becomes [l']: drawing the transparent windows
    again shows it where [l] was not. *)
Lemma overlay_replace f A l l' B p :
  Forall layer_ok (A ++ l :: B) -> Forall layer_ok (A ++ l' :: B) -> on_top (A ++ l :: B) ->
  opaque l = false -> opaque l' = false -> in_rect p (layer_rect l) = false ->
  composite f (nt (A ++ l' :: B)) p (composite f (A ++ l :: B) p 0) = composite f (A ++ l' :: B) p 0.
Proof.
  intros Hok Hok' Htop Ho Ho' Hout.
  rewrite (composite_overlay f (nt _)) by (apply nt_ok, Hok' || apply nt_transparent).
  rewrite composite_split by done. rewrite (composite_split (A ++ l' :: B)) by (done || by eapply on_top_replace; [|exact Htop]; congruence).
  rewrite (filter_replace_opaque A l l' B) by done. set (u := composite f (List.filter opaque (A ++ l' :: B)) p 0).
  assert (Himp : last_overlay (nt (A ++ l' :: B)) p = None -> last_overlay (nt (A ++ l :: B)) p = None).
  { assert (overlay l p = None) as Hl.
    { unfold overlay. rewrite Hout. by destruct (window l) as [w|]; [destruct (transparent_color w)|]. }
    rewrite !nt_app, !last_overlay_app. unfold nt. cbn. rewrite Ho, Ho'. cbn. rewrite Hl.
    destruct (last_overlay (List.filter _ B) p); [done|]. by destruct (overlay l' p). }
  pose proof (last_overlay_ok (nt (A ++ l :: B)) p) as Hc.
  destruct (last_overlay (nt (A ++ l' :: B)) p) as [c'|]; [|by rewrite Himp].
  destruct (last_overlay (nt (A ++ l :: B)) p) as [c|]; [|done]. apply put_color_put, (Hc c); [by apply nt_ok|done].
Qed.

(** A layer of the stack gets another position: its old rectangle and then the
    layer itself are drawn. *)
Lemma moved_shows g id l w f :
  gui_ok g -> shows g -> id ∈ layer_stack g -> FindLayer id g = Some l -> window l = Some w ->
  (forall l, layer_id (f l) = layer_id l /\ window (f l) = window l) ->
  (forall p, in_rect p (screen (fb g)) = true ->
    Exists (fun l => layer_id l <> id /\ covers_pixel p l = true) (stack_layers g)) ->
  exists fb', (g2 ← DrawArea (Rect (lpos l) (Size w)) (alter_layer id f g); Draw id g2) = Some (set_fb fb' (alter_layer id f g)) /\
    gui_ok (set_fb fb' (alter_layer id f g)) /\ same_screen (fb g) fb' /\ shows (set_fb fb' (alter_layer id f g)).
Proof.
  intros H Hshow Hin Hl Hw Hf Hcov. destruct (FindLayer_ok g id l H Hl) as [Hlok Hlid].
  assert (Hfi : forall l, layer_id (f l) = layer_id l) by apply Hf.
  assert (Hfw : window (f l) = Some w) by (by rewrite (proj2 (Hf l))).
  assert (Hop : opaque (f l) = opaque l) by (unfold opaque; by rewrite Hfw, Hw).
  assert (Hflok : layer_ok (f l)) by (intros w'; rewrite Hfw; intros [= <-]; by apply Hlok).
  pose proof (gui_ok_alter g id l f H Hin Hl Hfi Hop Hflok
    (fun p Hp => covered_by_others g id l f p H Hin Hl Hfi (Hcov p Hp))) as H1. set (g1 := alter_layer id f g) in *.
  destruct (stack_split g id l H Hin Hl) as (A & B & E & _ & E1). specialize (E1 f Hfi). fold g1 in E1.
  assert (Hrect : layer_rect l = Rect (lpos l) (Size w)) by (unfold layer_rect; by rewrite Hw). rewrite <- Hrect.
  pose proof (layer_rect_size l Hlok) as Hsz.
  destruct (DrawArea_spec (layer_rect l) g1 H1 Hsz) as (f2 & E2 & Hf2 & Hs2 & Hp2).
  destruct (DrawArea_good (layer_rect l) g1 H1 Hsz) as (f2' & E2' & _ & _ & Hgood2).
  rewrite E2 in E2'. injection E2' as <-. rewrite E2. cbn [mbind option_bind].
  pose proof (gui_ok_fb g1 f2 H1 Hf2 Hs2) as H2.
  destruct (Draw_good id (set_fb f2 g1) (f l) w H2) as (f3 & -> & Hf3 & Hs3 & Hgood3); [done| |done|].
  { change (FindLayer id (set_fb f2 g1)) with (FindLayer id g1). unfold g1. by rewrite FindLayer_alter, decide_True, Hl by done. }
  change (fb (set_fb f2 g1)) with f2 in Hs3. change (fb g1) with (fb g) in Hs2.
  assert (Hs : same_screen (fb g) f3) by (destruct Hs2, Hs3; split; congruence).
  exists f3. split; [done|]. split; [by apply (gui_ok_fb g1)|]. split; [done|].
  assert (Hsc : screen f3 = screen (fb g) /\ screen f2 = screen (fb g)) by (destruct Hs2 as [Hs2 _], Hs3 as [Hs3 _]; cbn in *; split; congruence).
  destruct Hsc as [Hsc3 Hsc2]. intros p Hp. cbn in Hp. rewrite Hsc3 in Hp.
  apply (Hgood3 p); [by cbn; rewrite Hsc2|]. destruct (covers_pixel p (f l)) eqn:Hc; [by left|right].
  destruct (in_rect p (layer_rect l)) eqn:Ein; [apply Hgood2; [done|by left]|].
  pose proof (Hshow p Hp) as Hg. unfold good in Hg. rewrite E in Hg.
  destruct (opaque l) eqn:Ho.
  - apply Hgood2; [done|right]. unfold good. rewrite E1. change (fb g1) with (fb g). rewrite Hg.
    rewrite !composite_skip; try done. unfold covers_pixel in Hc. by rewrite Hop in Hc.
  - unfold good. cbn [fb set_fb]. rewrite Hp2 by done. rewrite Ein. change (fb g1) with (fb g). rewrite Hg.
    destruct Hs2 as [_ ->]. change (fb g1) with (fb g). change (stack_layers (set_fb f2 g1)) with (stack_layers g1). rewrite E1.
    pose proof (stack_layers_ok g H) as Hok. pose proof (stack_layers_ok g1 H1) as Hok1. pose proof (go_top _ H) as Htop.
    rewrite E in Hok, Htop. rewrite E1 in Hok1. by apply overlay_replace.
Qed.

(** Drawing everything, whatever was on the screen. *)
Lemma redraw_all g f0 :
  gui_ok g -> fb_ok f0 -> same_screen (fb g) f0 ->
  exists f1, DrawArea (screen f0) (set_fb f0 g) = Some (set_fb f1 g) /\ fb_ok f1 /\ same_screen (fb g) f1 /\
    forall p, in_rect p (screen (fb g)) = true ->
      pixel f1 p = composite (pixel_format (fb g)) (stack_layers g) p 0.
Proof.
  intros H Hf [Hs Hm]. pose proof (gui_ok_fb g f0 H Hf (conj Hs Hm)) as H0.
  destruct (DrawArea_spec (screen f0) (set_fb f0 g) H0) as (f1 & E & Hf1 & [Hs1 Hm1] & Hp).
  { destruct Hf as [? ? ? _ _]. unfold size_ok, screen, ScreenSize; cbn. rewrite !s32_small by lia. lia. }
  exists f1. split; [exact E|]. split; [done|]. split; [split; [by rewrite Hs1|by rewrite Hm1]|].
  intros p Hin. rewrite Hp by (cbn; by rewrite Hs). rewrite Hs, Hin. cbn [fb set_fb]. rewrite Hm.
  by apply composite_covered, H.
Qed.

(** C26. Moving a layer redraws only its old and its new place, and that is
    enough: when the screen showed the composition of the layers before, it
    shows that of the layers with the new position after, and redrawing all
    layers on a screen with any content gives the same pixels. *)
Theorem Move_redraws g id l w pos :
  gui_ok g -> shows g -> id ∈ layer_stack g -> FindLayer id g = Some l -> window l = Some w ->
  (forall p, in_rect p (screen (fb g)) = true ->
    Exists (fun l => layer_id l <> id /\ covers_pixel p l = true) (stack_layers g)) ->
  exists g', Move id pos g = Some g' /\ gui_ok g' /\ shows g' /\
    layers g' = alter_key layer_id id (set_lpos pos) (layers g) /\ layer_stack g' = layer_stack g /\
    forall f0, fb_ok f0 -> same_screen (fb g') f0 ->
      exists f1, DrawArea (screen f0) (set_fb f0 g') = Some (set_fb f1 g') /\
        forall p, in_rect p (screen (fb g')) = true -> pixel f1 p = pixel (fb g') p.
Proof.
  intros H Hs Hin Hl Hw Hcov.
  destruct (moved_shows g id l w (set_lpos pos) H Hs Hin Hl Hw) as (f & E & Hok & Hsc & Hshow); [by intros []|done|].
  eexists. split; [unfold Move; rewrite Hl; cbn [mbind option_bind]; rewrite Hw; exact E|]. split_and!; try done.
  intros f0 Hf0 Hs0. destruct (redraw_all _ f0 Hok Hf0 Hs0) as (f1 & -> & _ & _ & Hp). exists f1. split; [done|].
  intros p Hpin. rewrite Hp by done. symmetry. by apply Hshow.
Qed.

(** *** Witness *)

(** A window of one color. *)
Definition plain (w h : Z) (c : PixelColor) (tc : option PixelColor) : Window :=
  MkWindow w h (replicate (Z.to_nat h) (replicate (Z.to_nat w) c)) tc
    (MkShadow (replicate (Z.to_nat (w * h)) (put_color kPixelBGRResv8BitPerColor c 0)) w h) None.

Lemma plain_ok w h c tc : 0 <= w -> 0 <= h -> w * h < 2 ^ 30 -> w < 2 ^ 31 -> h < 2 ^ 31 -> color_ok c -> window_ok (plain w h c tc).
Proof.
  intros Hw Hh Hr Hw' Hh' Hc. split; cbn; try done.
  - rewrite length_replicate. lia.
  - apply Forall_replicate. rewrite length_replicate. lia.
  - split; cbn; rewrite ?length_replicate; nia.
  - by apply Forall_replicate, Forall_replicate.
Qed.

(** A desktop of 8 by 4 pixels, a window of 3 by 2, a transparent one of 1. *)
Definition sample_gui : Gui :=
  MkGui (MkFrameBuffer (replicate 32 0) 8 8 4 kPixelBGRResv8BitPerColor)
    [MkLayer 1 (V 0 0) (Some (plain 8 4 (Color 0 172 150) None)) false;
     MkLayer 2 (V 2 1) (Some (plain 3 2 (Color 255 255 255) None)) true;
     MkLayer 3 (V 4 2) (Some (plain 1 1 (Color 0 0 1) (Some (Color 0 0 0)))) false]
    [1; 2; 3] 3 0 3 [2].

Lemma sample_gui_ok : gui_ok sample_gui.
Proof.
  split.
  - split; cbn; lia.
  - assert (forall c, window_ok c -> forall i p d, layer_ok (MkLayer i p (Some c) d)) as Hk by (intros ? ? ? ? ? ? [= <-]; done).
    cbn [layers sample_gui]. rewrite !list.Forall_cons. split_and!; [..|done]; apply Hk, plain_ok; unfold color_ok; cbn; lia.
  - cbn [layer_stack sample_gui]. rewrite !list.Forall_cons. split_and!; done || by eexists.
  - by apply (bool_decide_unpack (NoDup [1; 2; 3])); vm_compute.
  - exists (take 2 (stack_layers sample_gui)), (drop 2 (stack_layers sample_gui)). split; [by rewrite take_drop|].
    split; repeat constructor.
  - intros p Hp. left. unfold covers_pixel. rewrite andb_true_iff. split; [reflexivity|exact Hp].
Qed.

(** The screen as drawn at first. *)
Definition sample_shown : Gui := default sample_gui (DrawArea (screen (fb sample_gui)) sample_gui).

Lemma Move_redraws_witness :
  exists g', Move 2 (V 1 0) sample_shown = Some g' /\ shows g'.
Proof.
  destruct (redraw_all sample_gui (fb sample_gui) sample_gui_ok (go_fb _ sample_gui_ok) (conj eq_refl eq_refl)) as (f1 & E & Hf & Hs & Hp).
  change (set_fb (fb sample_gui) sample_gui) with sample_gui in E. unfold sample_shown. rewrite E. cbn [default from_option id].
  destruct (Move_redraws (set_fb f1 sample_gui) 2 (MkLayer 2 (V 2 1) (Some (plain 3 2 (Color 255 255 255) None)) true)
    (plain 3 2 (Color 255 255 255) None) (V 1 0)) as (g' & Em & _ & Hg & _).
  - exact (gui_ok_fb _ _ sample_gui_ok Hf Hs).
  - intros p Hpin. unfold good. cbn [fb set_fb]. destruct Hs as [Hs1 Hs2]. rewrite Hs2. apply Hp. rewrite <- Hs1. exact Hpin.
  - right; left.
  - reflexivity.
  - reflexivity.
  - intros p Hpin. left. split; [done|]. unfold covers_pixel. rewrite andb_true_iff. split; [reflexivity|].
    destruct Hs as [Hs1 _]. cbn [fb set_fb] in Hpin. rewrite Hs1 in Hpin. exact Hpin.
  - exists g'. split; [exact Em|exact Hg].
Defined.
