(* ===== verification/GuiActivate.v ===== *)
(** * Activating a window (servers/gui/layer.cpp, window.cpp)

    Writing to a window keeps it well formed; activating a layer redraws the
    titles, raises the window to just below the mouse cursor, and leaves the
    screen showing exactly the new stack. *)

From stdpp Require Import base list numbers option.
From Stdlib Require Import ZArith Lia.
From S2P Require Import Prelude Bytes GuiGraphics GuiLayer GuiDraw.

Local Open Scope Z_scope.

(** ** Writing keeps windows well formed *)

Definition same_window (w w' : Window) : Prop :=
  Size w' = Size w /\ transparent_color w' = transparent_color w /\ w_title w' = w_title w.

(** A well-formed window like [w]. *)
Definition kept (w w' : Window) : Prop := window_ok w' /\ same_window w w'.

Lemma kept_refl w : window_ok w -> kept w w.
Proof. done. Qed.

Lemma for_loop_keeps {S} (body : Z -> S -> option S) (I : S -> Prop) k : forall i s s',
  (forall j s s', I s -> body j s = Some s' -> I s') -> I s -> for_loop body k i s = Some s' -> I s'.
Proof.
  induction k as [|k IH]; intros i s s' Hb Hs H; cbn in H; [by injection H as <-|].
  bind_in H. eapply IH; [done| |exact H]. by eapply Hb.
Qed.

Lemma Window_Write_kept w0 w p c w' : kept w0 w -> color_ok c -> Window_Write p c w = Some w' -> kept w0 w'.
Proof.
  intros [[H1 H2 H3 [S1 S2 S3 S4] H5 [H6 H7]] (E1 & E2 & E3)] Hc H. unfold Window_Write in H.
  destruct (getZ (data w) (vy p)) as [row|] eqn:Er; [|done]. cbn in H.
  destruct (setZ row (vx p) c) as [row'|] eqn:Er'; [|done]. cbn in H.
  destruct (setZ (data w) (vy p) row') as [d|] eqn:Ed; [|done]. cbn in H.
  unfold Shadow_Write in H. destruct (getZ (buffer (shadow_buffer w)) _) as [v|]; [|done]. cbn in H.
  destruct (setZ (buffer (shadow_buffer w)) _ _) as [l|] eqn:El; [|done]. cbn in H. injection H as <-.
  apply getZ_lookup in Er. pose proof (length_setZ _ _ _ _ Er') as Lr. pose proof (length_setZ _ _ _ _ Ed) as Ld.
  pose proof (length_setZ _ _ _ _ El) as Ll. apply setZ_inv in Er' as [_ ->], Ed as [_ ->].
  pose proof (proj1 (list.Forall_lookup _ _) H3 _ _ Er) as Hrow. pose proof (proj1 (list.Forall_lookup _ _) H5 _ _ Er) as Hcol.
  split; [|done]. split; cbn [data w_width w_height shadow_buffer set_shadow set_data sb_width sb_height buffer]; try done.
  - by rewrite Ld.
  - apply Forall_insert; [done|]. by rewrite Lr.
  - split; cbn; rewrite ?Ll; done.
  - apply Forall_insert; [done|]. by apply Forall_insert.
Qed.

Lemma ToColor_ok c : color_ok (ToColor c).
Proof. unfold color_ok, ToColor; cbn. pose proof u8_range as H. split_and!; apply H. Qed.

Lemma button_color_ok k : color_ok (button_color k).
Proof. unfold button_color. repeat case_decide; apply ToColor_ok. Qed.

Lemma FillRectangle_kept w0 w pos size c w' :
  kept w0 w -> color_ok c -> FillRectangle WindowWriter pos size c w = Some w' -> kept w0 w'.
Proof.
  intros Hw Hc. apply (for_loop_keeps _ (kept w0)); [|done]. intros y s s' Hs.
  apply (for_loop_keeps _ (kept w0)); [|done]. intros x t t' Ht. by apply Window_Write_kept.
Qed.

Lemma WriteAscii_kept font w0 w pos c color w' :
  kept w0 w -> color_ok color -> WriteAscii WindowWriter font pos c color w = Some w' -> kept w0 w'.
Proof.
  intros Hw Hc. unfold WriteAscii. destruct (GetFont font c) as [glyph|]; [|by intros [= <-]].
  apply (for_loop_keeps _ (kept w0)); [|done]. intros y s s' Hs.
  apply (for_loop_keeps _ (kept w0)); [|done]. intros x t t' Ht H. bind_in H.
  case_decide; [by eapply Window_Write_kept|by injection H as <-].
Qed.

Lemma WriteString_kept font w0 str color : forall w pos w',
  kept w0 w -> color_ok color -> WriteString WindowWriter font pos str color w = Some w' -> kept w0 w'.
Proof.
  induction str as [|c str IH]; intros w pos w' Hw Hc H; cbn in H; [by injection H as <-|].
  bind_in H. eapply IH; [|done|exact H]. by eapply WriteAscii_kept.
Qed.

Lemma set_active_kept font active w w' : window_ok w -> set_active font active w = Some w' -> kept w w'.
Proof.
  intros Hw. pose proof (kept_refl w Hw) as Hk. unfold set_active. destruct (w_title w) as [title|]; [|by intros [= <-]].
  unfold DrawWindowTitle. intros H.
  destruct (FillRectangle _ _ _ _ w) as [w1|] eqn:E1; [|done]. cbn [mbind option_bind] in H.
  apply (FillRectangle_kept w) in E1; [|done|apply ToColor_ok].
  destruct (WriteString _ _ _ _ _ w1) as [w2|] eqn:E2; [|done]. cbn [mbind option_bind] in H.
  apply (WriteString_kept font w) in E2; [|done|apply ToColor_ok].
  revert H. apply (for_loop_keeps _ (kept w)); [|done]. intros y s s' Hs.
  apply (for_loop_keeps _ (kept w)); [|done]. intros x t t' Ht H. 
  destruct (row ← getZ close_button y; getZ row x) as [k|]; [|done]. cbn [mbind option_bind] in H.
  eapply Window_Write_kept; [done|apply button_color_ok|exact H].
Qed.

(** ** The content of a window changes *)

Lemma kept_layer l w w' :
  window l = Some w -> kept w w' ->
  layer_ok (set_window (Some w') l) /\ opaque (set_window (Some w') l) = opaque l /\
  layer_rect (set_window (Some w') l) = layer_rect l.
Proof.
  intros Hl [Hok (Hs & Ht & _)]. unfold opaque, layer_rect. rewrite Hl. cbn. rewrite Ht, Hs. split; [|done].
  by intros x [= <-].
Qed.

Lemma refreshed_shows g id l w w' :
  gui_ok g -> shows g -> id ∈ layer_stack g -> FindLayer id g = Some l -> window l = Some w -> opaque l = true -> kept w w' ->
  exists f, Draw id (alter_layer id (set_window (Some w')) g) = Some (set_fb f (alter_layer id (set_window (Some w')) g)) /\
    gui_ok (set_fb f (alter_layer id (set_window (Some w')) g)) /\ same_screen (fb g) f /\
    shows (set_fb f (alter_layer id (set_window (Some w')) g)).
Proof.
  intros H Hs Hin Hl Hw Ho Hk. set (upd := set_window (Some w')). destruct (kept_layer l w w' Hw Hk) as (Kok & Kop & Kr).
  destruct (stack_split g id l H Hin Hl) as (A & B & E & _ & Ef). specialize (Ef upd (fun _ => eq_refl)).
  set (g1 := alter_layer id upd g) in *.
  assert (H1 : gui_ok g1).
  { apply (gui_ok_alter g id l upd H Hin Hl (fun _ => eq_refl) Kop Kok). intros p Hp.
    pose proof (go_covered _ H p Hp) as Hc. fold g1. rewrite E in Hc. rewrite Ef. rewrite Exists_app, Exists_cons in *.
    unfold covers_pixel in *. unfold upd. rewrite Kop, Kr. exact Hc. }
  destruct (Draw_good id g1 (upd l) w' H1) as (f & -> & Hf & Hsc & Hg); [done| |done|].
  { unfold g1. by rewrite FindLayer_alter, decide_True, Hl by done. }
  exists f. split; [done|]. split; [by apply gui_ok_fb|]. split; [done|].
  intros p Hp. cbn in Hp. rewrite (proj1 Hsc) in Hp. apply Hg; [done|].
  destruct (covers_pixel p (upd l)) eqn:Hc; [by left|right]. unfold covers_pixel, upd in Hc. rewrite Kop, Kr, Ho in Hc. cbn in Hc.
  specialize (Hs p Hp). unfold good in Hs |- *. change (fb g1) with (fb g). rewrite Hs, E, Ef.
  rewrite !composite_skip; try done. unfold upd. by rewrite Kr.
Qed.

(** ** A layer is raised *)

Lemma raised_shows g id l w s A B :
  fb_ok (fb g) -> Forall layer_ok (layers g) -> id <> 0 -> FindLayer id g = Some l -> window l = Some w -> opaque l = true ->
  NoDup s -> Forall (fun p => p <> 0 /\ is_Some (FindLayer p g)) s -> id ∈ s ->
  stack_layers (set_stack s g) = A ++ l :: B -> on_top (A ++ l :: B) ->
  (forall p, in_rect p (screen (fb g)) = true -> Exists (fun l => covers_pixel p l = true) (A ++ B)) ->
  (forall p, in_rect p (screen (fb g)) = true -> in_rect p (layer_rect l) = false ->
     pixel (fb g) p = composite (pixel_format (fb g)) (A ++ B) p 0) ->
  exists f, Draw id (set_stack s g) = Some (set_fb f (set_stack s g)) /\
    gui_ok (set_fb f (set_stack s g)) /\ same_screen (fb g) f /\ shows (set_fb f (set_stack s g)).
Proof.
  intros Hfb Hls Hid Hl Hw Ho Hn Hs Hin E Htop Hcov Hgood.
  assert (H1 : gui_ok (set_stack s g)).
  { split; try done; [by rewrite E|]. intros p Hp. rewrite E. specialize (Hcov p Hp).
    rewrite Exists_app in Hcov. rewrite Exists_app, Exists_cons. tauto. }
  destruct (Draw_good id (set_stack s g) l w H1 Hin Hl Hw) as (f & -> & Hf & Hsc & Hg).
  exists f. split; [done|]. split; [by apply gui_ok_fb|]. split; [done|].
  intros p Hp. cbn in Hp. rewrite (proj1 Hsc) in Hp. apply Hg; [done|].
  destruct (covers_pixel p l) eqn:Hc; [by left|right]. unfold covers_pixel in Hc. rewrite Ho in Hc. cbn in Hc.
  unfold good. rewrite E. rewrite composite_skip by done. by apply Hgood.
Qed.

(** *** The positions that [Activate] computes *)

Lemma erase_ptr_absent p s : p ∉ s -> erase_ptr p s = s.
Proof.
  induction s as [|q s IH]; intros H; cbn; [done|]. apply not_elem_of_cons in H as [H1 H2].
  rewrite decide_False by done. by rewrite IH.
Qed.

Lemma erase_ptr_app p s s' : p ∉ s' -> erase_ptr p (s ++ s') = erase_ptr p s ++ s'.
Proof.
  intros H. induction s as [|q s IH]; cbn; [by apply erase_ptr_absent|]. case_decide; [done|]. by rewrite IH.
Qed.

Lemma erase_ptr_NoDup p s :
  NoDup s -> NoDup (erase_ptr p s) /\ (p ∉ erase_ptr p s) /\ (forall q, q ∈ erase_ptr p s -> q ∈ s).
Proof.
  induction 1 as [|q s Hq Hs [IH1 [IH2 IH3]]]; cbn; [by split_and!; [constructor|apply not_elem_of_nil|]|].
  case_decide as H.
  - subst q. split_and!; [done|done|]. intros x Hx. by right.
  - split_and!.
    + constructor; [|done]. intros Hx. by apply Hq, IH3.
    + apply not_elem_of_cons. by split; [intros ->|].
    + intros x [->|Hx]%elem_of_cons; [by left|right; by apply IH3].
Qed.

Lemma erase_ptr_in p q s : q ∈ s -> q <> p -> q ∈ erase_ptr p s.
Proof.
  intros Hq Hne. induction s as [|x s IH]; [by apply not_elem_of_nil in Hq|]. cbn.
  case_decide as Hx; [subst x; by apply elem_of_cons in Hq as [->|]|].
  apply elem_of_cons in Hq as [->|Hq]; [by left|right; by apply IH].
Qed.

Lemma height_found id ps post : forall h g,
  Forall (fun p => p <> 0 /\ is_Some (FindLayer p g)) (ps ++ id :: post) -> id ∉ ps ->
  height_from id (ps ++ id :: post) h g = Some (h + Z.of_nat (length ps)).
Proof.
  induction ps as [|p ps IH]; intros h g Hf Hid; cbn in *; apply list.Forall_cons in Hf as [[Hp [l Hl]] Hf];
    unfold deref; rewrite decide_False, Hl by done; cbn [mbind option_bind];
    pose proof (proj2 (find_key_Some _ _ _ _ Hl)) as Hlid.
  - rewrite decide_True by done. f_equal. lia.
  - apply not_elem_of_cons in Hid as [Hne Hid]. rewrite decide_False by congruence. rewrite IH by done. f_equal. lia.
Qed.

(** The layer goes to just below the mouse cursor, from wherever it was. *)
Lemma raise_below_mouse g id s :
  layer_stack g = s ++ [mouse_layer g] -> NoDup (layer_stack g) ->
  Forall (fun p => p <> 0 /\ is_Some (FindLayer p g)) (layer_stack g) ->
  id <> 0 -> id <> mouse_layer g -> is_Some (FindLayer id g) ->
  exists h, GetHeight (mouse_layer g) (UpDown id 0 g) = Some h /\
    UpDown id (h - 1) (UpDown id 0 g) = set_stack (erase_ptr id s ++ [id; mouse_layer g]) g.
Proof.
  intros E Hn Hf Hid Hm Hl. set (m := mouse_layer g) in *. set (e := erase_ptr id s).
  assert (Hptr : layer_ptr id g = id) by (unfold layer_ptr; by destruct Hl as [l ->]).
  rewrite E in Hn, Hf. apply list.NoDup_app in Hn as (Hns & Hsm & _). destruct (erase_ptr_NoDup id s Hns) as (He1 & He2 & He3).
  assert (Hme : m ∉ e) by (intros Hx; apply (Hsm m); [by apply He3|by left]).
  assert (Hnm : id ∉ [m]) by (apply not_elem_of_cons; split; [done|apply not_elem_of_nil]).
  assert (E0 : UpDown id 0 g = set_stack (id :: e ++ [m]) g).
  { unfold UpDown. rewrite decide_False, (decide_False (P := _ > _)), Hptr, E by lia. case_decide as Hin.
    - rewrite decide_False by (rewrite length_app; cbn; lia). change (Z.to_nat 0) with 0%nat. cbn [take drop app].
      by rewrite erase_ptr_app by done.
    - change (Z.to_nat 0) with 0%nat. cbn [take drop app]. unfold e. rewrite erase_ptr_absent; [done|].
      intros Hx. apply Hin, elem_of_app. by left. }
  rewrite E0. exists (0 + Z.of_nat (length (id :: e))). split.
  - unfold GetHeight. cbn [layer_stack set_stack]. apply (height_found m (id :: e) []).
    + apply list.Forall_app in Hf as [Hf1 Hf2]. cbn [app]. constructor; [by split|]. apply list.Forall_app; split; [|exact Hf2].
      apply list.Forall_forall. intros x Hx. by apply (proj1 (list.Forall_forall _ _) Hf1), He3.
    + apply not_elem_of_cons. by split; [intros ->|].
  - cbn [length]. unfold UpDown. rewrite decide_False, (decide_False (P := _ > _)) by (cbn [layer_stack set_stack length]; rewrite ?length_app; cbn; lia).
    assert (Hptr' : layer_ptr id (set_stack (id :: e ++ [m]) g) = id) by exact Hptr. rewrite Hptr'.
    rewrite decide_True by by left. cbn [layer_stack set_stack]. rewrite decide_False by (rewrite length_cons, length_app; cbn; lia).
    cbn [erase_ptr]. rewrite decide_True by done. replace (Z.to_nat _) with (length e) by lia.
    rewrite take_app_length, drop_app_length. done.
Qed.

(** *** The layers of the stack *)

Definition find_all (g : Gui) (ps : list Z) : list Layer := omap (fun p => FindLayer p g) ps.

Lemma find_all_erase g id l s :
  NoDup s -> FindLayer id g = Some l ->
  find_all g (erase_ptr id s) = find_all g s \/
  exists A B, find_all g s = A ++ l :: B /\ find_all g (erase_ptr id s) = A ++ B.
Proof.
  intros Hn Hl. destruct (decide (id ∈ s)) as [Hin|Hin]; [right|left; by rewrite erase_ptr_absent].
  apply list_elem_of_split in Hin as (pre & post & ->). apply list.NoDup_app in Hn as (_ & Hn & _).
  exists (find_all g pre), (find_all g post). unfold find_all. split; [rewrite omap_app; cbn; by rewrite Hl|].
  rewrite <- omap_app. f_equal.
  assert (Hp : id ∉ pre) by (intros Hp; apply (Hn id Hp); by left). clear Hn.
  induction pre as [|q pre IH]; cbn; [by rewrite decide_True|]. apply not_elem_of_cons in Hp as [Hq Hp].
  rewrite decide_False by done. by rewrite IH.
Qed.

Lemma find_all_opaque g s :
  Forall (fun p => exists l, FindLayer p g = Some l /\ opaque l = true) s -> Forall (fun l => opaque l = true) (find_all g s).
Proof. unfold find_all. induction 1 as [|p s (l & Hl & Ho) _ IH]; cbn; [done|]. rewrite Hl. by constructor. Qed.

(** An opaque layer of the stack covers the whole screen. *)
Definition background (b : Z) (g : Gui) : Prop :=
  exists lb, FindLayer b g = Some lb /\ forall p, in_rect p (screen (fb g)) = true -> covers_pixel p lb = true.

Lemma background_covers b g s p :
  background b g -> b ∈ s -> in_rect p (screen (fb g)) = true ->
  Exists (fun l => covers_pixel p l = true) (find_all g s).
Proof.
  intros (lb & Hb & Hc) Hin Hp. apply list.Exists_exists. exists lb. split; [|by apply Hc].
  apply list_elem_of_omap. by exists b.
Qed.

(** The desktop as the server keeps it: all layers of the stack but the top
    one, the mouse cursor, are opaque, and one of them covers the screen. *)
Record desktop (g : Gui) (s : list Z) (b : Z) : Prop := {
  dk_ok : gui_ok g;
  dk_stack : layer_stack g = s ++ [mouse_layer g];
  dk_opaque : Forall (fun p => exists l, FindLayer p g = Some l /\ opaque l = true) s;
  dk_background : background b g;
  dk_bottom : b ∈ s;
}.

(** The window of a layer has room for its title. *)
Definition title_fits (font : list Z) (active : bool) (id : Z) (g : Gui) : Prop :=
  exists l w, FindLayer id g = Some l /\ window l = Some w /\ opaque l = true /\ is_Some (set_active font active w).

(** The window of a layer of the stack is told that it is active, or no
    longer, and drawn. *)
Lemma activate_window_desktop font active id g s b :
  desktop g s b -> shows g -> id ∈ s -> title_fits font active id g ->
  exists g1 f, activate_window font active id g = Some g1 /\ Draw id g1 = Some (set_fb f g1) /\
    desktop (set_fb f g1) s b /\ shows (set_fb f g1) /\ mouse_layer g1 = mouse_layer g /\ same_screen (fb g) f /\
    (forall p, p <> id -> FindLayer p g1 = FindLayer p g).
Proof.
  intros [Hok Hst Hop (lb & Hb & Hcov) Hbot] Hs Hin (l & w & Hl & Hw & Ho & [w' Hw']).
  pose proof (set_active_kept font active w w' (proj1 (FindLayer_ok g id l Hok Hl) w Hw) Hw') as Hk.
  destruct (kept_layer l w w' Hw Hk) as (_ & Kop & Kr).
  assert (Hin' : id ∈ layer_stack g) by (rewrite Hst; apply elem_of_app; by left).
  destruct (refreshed_shows g id l w w' Hok Hs Hin' Hl Hw Ho Hk) as (f & E & Hok' & Hsame & Hs').
  pose proof Hsame as [Hsc _].
  exists (alter_layer id (set_window (Some w')) g), f. unfold activate_window. rewrite Hl. cbn [mbind option_bind]. rewrite Hw. cbn [mbind option_bind].
  rewrite Hw'. cbn [mbind option_bind]. split_and!; [done|done| |done|done|done|].
  - assert (Hfind : forall p x, FindLayer p g = Some x -> exists y, FindLayer p (alter_layer id (set_window (Some w')) g) = Some y /\
      opaque y = opaque x /\ layer_rect y = layer_rect x).
    { intros p x Hx. rewrite FindLayer_alter by done. case_decide as Hp; [|by exists x]. subst p. rewrite Hl. rewrite Hl in Hx.
      injection Hx as <-. eexists. split; [done|]. by split. }
    split; try done.
    + eapply list.Forall_impl; [exact Hop|]. intros p (x & Hx & Hxo). destruct (Hfind p x Hx) as (y & Hy & Hyo & _).
      exists y. split; [exact Hy|]. by rewrite Hyo.
    + destruct (Hfind b lb Hb) as (y & Hy & Hyo & Hyr). exists y. split; [exact Hy|]. intros p Hp. cbn in Hp.
      rewrite Hsc in Hp. unfold covers_pixel. rewrite Hyo, Hyr. by apply Hcov.
  - intros p Hp. rewrite FindLayer_alter by done. by rewrite decide_False.
Qed.

Lemma on_top_above os l rest :
  Forall (fun l => opaque l = true) os -> opaque l = true -> (length rest <= 1)%nat -> on_top (os ++ l :: rest).
Proof.
  intros Hos Hl Hlen. assert (H1 : Forall (fun l => opaque l = true) (os ++ [l])).
  { apply list.Forall_app. split; [done|by constructor]. }
  destruct rest as [|x [|y rest]]; [|destruct (opaque x) eqn:Hx|cbn in Hlen; lia].
  - exists (os ++ [l]), []. by rewrite app_nil_r.
  - exists ((os ++ [l]) ++ [x]), []. rewrite app_nil_r, <- app_assoc. split; [done|]. split; [|done].
    apply list.Forall_app. split; [done|]. by repeat (constructor; [done|]).
  - exists (os ++ [l]), [x]. rewrite <- app_assoc. split; [done|]. split; [done|]. by constructor; [|constructor].
Qed.

(** The second half of [Activate]: the layer, in the stack or not, is told that
    it is active, raised and drawn. *)
Lemma raise_shows font id g s b l w :
  desktop g s b -> shows g -> 0 < id -> id <> mouse_layer g -> id <> b ->
  FindLayer id g = Some l -> window l = Some w -> opaque l = true -> is_Some (set_active font true w) ->
  exists w' g1 h f, set_active font true w = Some w' /\ activate_window font true id g = Some g1 /\
    GetHeight (mouse_layer g1) (UpDown id 0 g1) = Some h /\
    let g2 := UpDown id (h - 1) (UpDown id 0 g1) in
    g2 = set_stack (erase_ptr id s ++ [id; mouse_layer g]) g1 /\
    Draw id g2 = Some (set_fb f g2) /\ gui_ok (set_fb f g2) /\ shows (set_fb f g2) /\
    FindLayer id g1 = Some (set_window (Some w') l) /\ same_screen (fb g) f /\
    (forall p, p <> id -> FindLayer p g1 = FindLayer p g) /\ opaque (set_window (Some w') l) = true.
Proof.
  intros [Hok Hst Hop Hback Hbot] Hs Hid Hm Hib Hl Hw Ho [w' Hw'].
  pose proof (set_active_kept font true w w' (proj1 (FindLayer_ok g id l Hok Hl) w Hw) Hw') as Hk.
  destruct (kept_layer l w w' Hw Hk) as (Kok & Kop & Kr). set (upd := set_window (Some w')) in *.
  set (g1 := alter_layer id upd g). set (m := mouse_layer g) in *. set (e := erase_ptr id s).
  pose proof (go_nodup _ Hok) as Hn. pose proof (go_stack _ Hok) as Hf.
  assert (Hfind : forall p, p <> id -> FindLayer p g1 = FindLayer p g) by (intros p Hp; unfold g1; by rewrite FindLayer_alter, decide_False).
  assert (Hid1 : FindLayer id g1 = Some (upd l)) by (unfold g1; by rewrite FindLayer_alter, decide_True, Hl by done).
  assert (Hf1 : Forall (fun p => p <> 0 /\ is_Some (FindLayer p g1)) (layer_stack g1)).
  { eapply list.Forall_impl; [exact Hf|]. intros p [Hp Hx]. split; [done|].
    destruct (decide (p = id)) as [->|]; [by rewrite Hid1|by rewrite Hfind]. }
  destruct (raise_below_mouse g1 id s Hst Hn Hf1 ltac:(lia) Hm ltac:(by rewrite Hid1)) as (h & Eh & Eup).
  change (mouse_layer g1) with m in Eh, Eup. fold e in Eup. change (layer_stack g1) with (layer_stack g) in Hf1. rewrite Hst in Hn, Hf1.
  pose proof Hn as Hn'. apply list.NoDup_app in Hn' as (Hns & Hsm & _). destruct (erase_ptr_NoDup id s Hns) as (He1 & He2 & He3).
  fold e in He1, He2, He3. assert (Hme : m ∉ e) by (intros Hx; apply (Hsm m); [by apply He3|by left]).
  assert (Hnm : id ∉ [m]) by (apply not_elem_of_cons; split; [done|apply not_elem_of_nil]).
  apply list.Forall_app in Hf1 as [Hf1 Hfm]. apply list.Forall_cons in Hfm as [[Hm0 Hlm] _].
  assert (Hext : forall ps, id ∉ ps -> find_all g1 ps = find_all g ps).
  { intros ps Hps. apply omap_ext_in. intros q Hq. apply Hfind. by intros ->. }
  assert (Hlay : stack_layers (set_stack (e ++ [id; m]) g1) = find_all g e ++ upd l :: find_all g [m]).
  { unfold stack_layers. cbn [layer_stack set_stack]. change (e ++ [id; m]) with (e ++ [id] ++ [m]). rewrite !omap_app.
    rewrite <- (Hext e He2), <- (Hext [m] Hnm). f_equal. cbn [omap list_omap app].
    change (FindLayer id (set_stack (e ++ [id; m]) g1)) with (FindLayer id g1). by rewrite Hid1. }
  assert (Hope : Forall (fun l => opaque l = true) (find_all g e)).
  { apply find_all_opaque. apply list.Forall_forall. intros p Hp. by apply (proj1 (list.Forall_forall _ _) Hop), He3. }
  assert (Hse : e ++ [m] = erase_ptr id (s ++ [m])) by (by rewrite erase_ptr_app).
  destruct (raised_shows g1 id (upd l) w' (e ++ [id; m]) (find_all g e) (find_all g [m])) as (f & Ed & Hokf & Hsame & Hsf).
  - apply Hok.
  - apply (layers_ok_alter g id l); [apply Hok|done|done].
  - lia.
  - done.
  - done.
  - by rewrite Kop.
  - apply list.NoDup_app. split; [done|]. split.
    + intros x Hx [->|[->|Hx']%elem_of_cons]%elem_of_cons; [done|done|by apply not_elem_of_nil in Hx'].
    + apply list.NoDup_cons. split; [done|]. apply NoDup_singleton.
  - apply list.Forall_app. split; [|rewrite !list.Forall_cons; split_and!; [lia|by rewrite Hid1|done..]].
    apply list.Forall_forall. intros x Hx. by apply (proj1 (list.Forall_forall _ _) Hf1), He3.
  - apply elem_of_app. right. by left.
  - exact Hlay.
  - apply on_top_above; [done|by rewrite Kop|]. unfold find_all. cbn. destruct (FindLayer m g); cbn; lia.
  - intros p Hp. apply Exists_app. left. apply (background_covers b); [done| |done].
    by apply erase_ptr_in.
  - intros p Hp Hout. change (fb g1) with (fb g). rewrite (Hs p Hp). unfold find_all. rewrite <- omap_app, Hse.
    change (stack_layers g) with (find_all g (layer_stack g)). rewrite Hst. fold (find_all g (erase_ptr id (s ++ [m]))).
    destruct (find_all_erase g id l (s ++ [m]) Hn Hl) as [->|(A & B & -> & ->)]; [done|].
    apply composite_skip. by rewrite <- Kr.
  - exists w', g1, h, f. split; [done|]. split.
    { unfold activate_window. rewrite Hl. cbn [mbind option_bind]. rewrite Hw. cbn [mbind option_bind]. by rewrite Hw'. }
    split; [done|]. cbn zeta. rewrite Eup. unfold upd in Kop. split_and!; done || by rewrite Kop.
Qed.

Lemma activate_window_alter font a id g g1 :
  activate_window font a id g = Some g1 -> active_id g1 = active_id g /\ mouse_layer g1 = mouse_layer g.
Proof.
  unfold activate_window. intros H. destruct (FindLayer id g) as [x|]; [|done]. cbn in H.
  destruct (window x); [|done]. cbn in H. destruct (set_active _ _ _); [|done]. by injection H as <-.
Qed.

Lemma UpDown_mouse id h g : mouse_layer (UpDown id h g) = mouse_layer g.
Proof. unfold UpDown, Hide. by repeat case_decide. Qed.

(** The active window, if there is one, is in the stack and has a title that
    fits, or none. *)
Definition active_ok (font : list Z) (s : list Z) (g : Gui) : Prop :=
  active_id g = 0 \/ (0 < active_id g /\ active_id g ∈ s /\ title_fits font false (active_id g) g).

(** The first half of [Activate]. *)
Lemma deactivate_desktop font g s b :
  desktop g s b -> shows g -> active_ok font s g ->
  exists g0, (if decide (0 < active_id g) then g ← activate_window font false (active_id g) g; Draw (active_id g) g
      else Some g) = Some g0 /\ desktop g0 s b /\ shows g0 /\ mouse_layer g0 = mouse_layer g /\ same_screen (fb g) (fb g0) /\
    (forall p, p <> active_id g -> FindLayer p g0 = FindLayer p g).
Proof.
  intros Hd Hs [Hz|(Hpos & Hin & Hf)]; [rewrite Hz; exists g; by split_and!|]. rewrite decide_True by done.
  destruct (activate_window_desktop font false (active_id g) g s b Hd Hs Hin Hf) as (g1 & f & E1 & E2 & Hd1 & Hs1 & Hm1 & Hsame & Hfind).
  rewrite E1. cbn [mbind option_bind]. destruct (activate_window_alter _ _ _ _ _ E1) as (Ha & _).
  rewrite Ha, E2. exists (set_fb f g1). by split_and!.
Qed.

(** [Activate] keeps the desktop. *)
Lemma Activate_desktop font id g s b l w :
  desktop g s b -> shows g -> 0 < id -> id <> mouse_layer g -> id <> b -> active_id g <> id ->
  FindLayer id g = Some l -> window l = Some w -> opaque l = true -> is_Some (set_active font true w) ->
  active_ok font s g ->
  exists g' w', Activate font id g = Some g' /\ desktop g' (erase_ptr id s ++ [id]) b /\ shows g' /\ active_id g' = id /\
    mouse_layer g' = mouse_layer g /\ set_active font true w = Some w' /\ FindLayer id g' = Some (set_window (Some w') l) /\
    same_screen (fb g) (fb g') /\ (forall p, p <> id -> p <> active_id g -> FindLayer p g' = FindLayer p g).
Proof.
  intros Hd Hs Hid Hm Hb Hne Hl Hw Ho Hfit Hact. unfold Activate. rewrite decide_False by done.
  destruct (deactivate_desktop font g s b Hd Hs Hact) as (g0 & -> & [Hok Hst Hop Hback Hbot] & Hs0 & Hm0 & Hsc0 & Hf0).
  cbn [mbind option_bind]. set (ga := set_active_id id g0). rewrite decide_True by done.
  assert (Hda : desktop ga s b) by (split; [by destruct Hok; split|done..]).
  assert (Hl0 : FindLayer id ga = Some l) by (by rewrite <- Hl; apply Hf0).
  destruct (raise_shows font id ga s b l w Hda Hs0 Hid) as (w' & g1 & h & f & Ew & Eact & Eh & Eup & Ed & Hok' & Hs' & Hl' & Hsc' & Hf' & Ho'); try done.
  { unfold ga. cbn. by rewrite Hm0. }
  rewrite Eact. cbn [mbind option_bind]. rewrite UpDown_mouse, Eh. cbn [mbind option_bind]. rewrite Ed.
  destruct (activate_window_alter _ _ _ _ _ Eact) as (Ha & Hma). change (mouse_layer ga) with (mouse_layer g0) in *.
  rewrite Hm0 in *. rewrite Eup in *. eexists _, w'. split; [done|].
  assert (Hfind : forall p, p <> id -> FindLayer p (set_fb f (set_stack (erase_ptr id s ++ [id; mouse_layer g]) g1)) = FindLayer p g0).
  { intros p Hp. by apply Hf'. }
  split_and!; try done; [|destruct Hsc0, Hsc'; split; cbn in *; congruence|intros p Hp Hpa; rewrite Hfind by done; by apply Hf0].
  split; [done| | | |].
  - cbn [layer_stack set_stack set_fb mouse_layer]. rewrite Hma. by rewrite <- app_assoc.
  - apply list.Forall_app. split; [|constructor; [by eexists|done]]. apply list.Forall_forall. intros p Hp.
    pose proof (go_nodup _ Hok) as Hn. rewrite Hst in Hn. apply list.NoDup_app in Hn as (Hn & _).
    destruct (erase_ptr_NoDup id s Hn) as (_ & Hni & Hin). rewrite Hfind by (intros ->; done).
    by apply (proj1 (list.Forall_forall _ _) Hop), Hin.
  - destruct Hback as (lb & Hlb & Hc). exists lb. split; [by rewrite Hfind|]. intros p Hp. apply Hc.
    cbn in Hp. rewrite (proj1 Hsc') in Hp. exact Hp.
  - apply elem_of_app. left. by apply erase_ptr_in.
Qed.


(** *** Witness *)

Lemma is_Some_compute {A} (o : option A) : match o with Some _ => true | None => false end = true -> is_Some o.
Proof. by destruct o. Qed.

(** A desktop with two windows without text in their titles; the upper one is
    active. *)
Definition titled : Window :=
  MkWindow 24 22 (data (plain 24 22 (Color 255 255 255) None)) None (shadow_buffer (plain 24 22 (Color 255 255 255) None)) (Some []).

Definition sample_desktop : Gui :=
  MkGui (MkFrameBuffer (replicate 1024 0) 32 32 32 kPixelRGBResv8BitPerColor)
    [MkLayer 1 (V 0 0) (Some (plain 32 32 (Color 0 172 150) None)) false;
     MkLayer 2 (V 2 1) (Some titled) true;
     MkLayer 3 (V 4 2) (Some (plain 1 1 (Color 0 0 1) (Some (Color 0 0 0)))) false;
     MkLayer 4 (V 6 5) (Some titled) true]
    [1; 2; 4; 3] 4 4 3 [2; 4].

Lemma titled_ok : window_ok titled.
Proof.
  destruct (plain_ok 24 22 (Color 255 255 255) None) as [H1 H2 H3 H4 H5 H6]; [lia..|unfold color_ok; cbn; lia|].
  by split.
Qed.

Lemma sample_desktop_ok : desktop sample_desktop [1; 2; 4] 1.
Proof.
  assert (Hb : background 1 sample_desktop).
  { eexists. split; [reflexivity|]. intros p Hp. unfold covers_pixel. rewrite andb_true_iff. split; [reflexivity|exact Hp]. }
  assert (Hl : forall c, window_ok c -> forall i p d, layer_ok (MkLayer i p (Some c) d)) by (intros ? ? ? ? ? ? [= <-]; done).
  split; [split| | |exact Hb|by left].
  - split; cbn [frame_buffer sample_desktop fb horizontal_resolution vertical_resolution pixels_per_scan_line];
      rewrite ?length_replicate; lia.
  - cbn [layers sample_desktop]. rewrite !list.Forall_cons.
    split_and!; [apply Hl, plain_ok; unfold color_ok; cbn; lia|apply Hl, titled_ok|
      apply Hl, plain_ok; unfold color_ok; cbn; lia|apply Hl, titled_ok|by apply list.Forall_nil].
  - cbn [layer_stack sample_desktop]. rewrite !list.Forall_cons. split_and!; first [lia|by apply list.Forall_nil|by eexists].
  - by apply (bool_decide_unpack (NoDup [1; 2; 4; 3])); vm_compute.
  - exists (take 3 (stack_layers sample_desktop)), (drop 3 (stack_layers sample_desktop)). split; [by rewrite take_drop|].
    split; repeat constructor.
  - intros p Hp. by apply (background_covers 1 sample_desktop [1; 2; 4; 3]); [|left|].
  - reflexivity.
  - rewrite !list.Forall_cons. split_and!; first [by apply list.Forall_nil|eexists; split; reflexivity].
Qed.

Lemma sample_desktop_shown :
  exists f, desktop (set_fb f sample_desktop) [1; 2; 4] 1 /\ shows (set_fb f sample_desktop) /\ same_screen (fb sample_desktop) f.
Proof.
  pose proof sample_desktop_ok as Hd. pose proof (dk_ok _ _ _ Hd) as Hok.
  destruct (redraw_all sample_desktop (fb sample_desktop) Hok (go_fb _ Hok) (conj eq_refl eq_refl)) as (f & _ & Hf & Hs & Hp).
  exists f. split; [|split; [|done]].
  - destruct Hd as [? ? ? (lb & Hlb & Hc) ?]. split; try assumption; [by apply gui_ok_fb|]. exists lb. split; [exact Hlb|].
    intros p Hin. apply Hc. rewrite <- (proj1 Hs). exact Hin.
  - intros p Hin. unfold good. cbn [fb set_fb]. rewrite (proj2 Hs). apply Hp. rewrite <- (proj1 Hs). exact Hin.
Qed.

