(* ===== verification/GuiClient.v ===== *)
(** * Windows of programs (libs/kinos/app/gui/guisyscall.cpp)

    The calls a program draws with: each is a message to the GUI server. *)

From stdpp Require Import base list numbers option strings.
From Stdlib Require Import ZArith Lia Ascii.
From S2P Require Import Prelude Bytes Message AmFd.

Local Open Scope Z_scope.

(** The characters of a string literal. *)
Definition chars (s : string) : list Z := map (fun c => Z.of_nat (nat_of_ascii c)) (String.list_ascii_of_string s).

Section client.
Context (junk : list Z) (find_server : list Z -> Z * Z).

(** "servers/gui". *)
Definition servers_gui : list Z := chars "servers/gui".

(** A message to the GUI server, when there is one. *)
Definition gui_send (m : Message) (w : Mail) : Mail :=
  let '(id, err) := find_server servers_gui in
  if decide (err <> 0) then w else send m id w.

(** The fields of a message, set in order. *)
Definition with_fields (fs : list (field * Z)) (m : Message) : Message :=
  fold_left (fun m fx => setF (fst fx) (snd fx) m) fs m.

(** The first 15 characters of a title, in 16 bytes. A receive that fails is
    not modelled; an answer of another type leaves the result undefined.
    [src/libs/kinos/app/gui/guisyscall.cpp:5-30] [OpenWindow] *)
Definition OpenWindow (w h x y : Z) (title : list Z) (mail : Mail) : outcome (Z * Mail) :=
  let '(id, err) := find_server servers_gui in
  if decide (err <> 0) then Ok (-1, mail)
  else
    msg ← defined (putB openwindow_title (take 15 title)
      (with_fields [(openwindow_w, w); (openwindow_h, h); (openwindow_x, x); (openwindow_y, y)]
        (zero_message kOpenWindow)));
    '(rmsg, mail) ← ClosedReceive id (send msg id mail);
    match type rmsg with
    | kLayerId => Ok (getI layerid_layerid rmsg, mail)
    | _ => Undefined
    end.

(** A [bool] argument stored in an [int] field. *)
Definition flag (b : bool) : Z := if b then 1 else 0.

(** [src/libs/kinos/app/gui/guisyscall.cpp:37-44] [WinFillRectangle] *)
Definition fill_message (layer_id : Z) (draw : bool) (x y w h color : Z) : Message :=
  with_fields [(winfillrectangle_layer_id, layer_id); (winfillrectangle_draw, flag draw); (winfillrectangle_x, x);
    (winfillrectangle_y, y); (winfillrectangle_w, w); (winfillrectangle_h, h); (winfillrectangle_color, color)]
    (zero_message kWinFillRectangle).

(** [src/libs/kinos/app/gui/guisyscall.cpp:32-47] [WinFillRectangle] *)
Definition WinFillRectangle (layer_id : Z) (draw : bool) (x y w h color : Z) : Mail -> Mail :=
  gui_send (fill_message layer_id draw x y w h color).

(** [src/libs/kinos/app/gui/guisyscall.cpp:54-60] [WinWriteChar] *)
Definition char_message (layer_id : Z) (draw : bool) (x y color c : Z) : Message :=
  with_fields [(winwritechar_layer_id, layer_id); (winwritechar_draw, flag draw); (winwritechar_x, x);
    (winwritechar_y, y); (winwritechar_color, color); (winwritechar_c, c)] (zero_message kWinWriteChar).

(** [src/libs/kinos/app/gui/guisyscall.cpp:49-63] [WinWriteChar] *)
Definition WinWriteChar (layer_id : Z) (draw : bool) (x y color c : Z) : Mail -> Mail :=
  gui_send (char_message layer_id draw x y color c).

(** [src/libs/kinos/app/gui/guisyscall.cpp:65-73] [WinWriteString] *)
Fixpoint WinWriteString (layer_id : Z) (draw : bool) (x y color : Z) (s : list Z) (w : Mail) : Mail :=
  match s with
  | [] => w
  | c :: s' => WinWriteString layer_id draw (x + 8) y color s' (WinWriteChar layer_id draw x y color c w)
  end.

(** [src/libs/kinos/app/gui/guisyscall.cpp:75-90] [WinDrawLine] *)
Definition WinDrawLine (layer_id : Z) (draw : bool) (x0 y0 x1 y1 color : Z) : Mail -> Mail :=
  gui_send (with_fields [(windrawline_layer_id, layer_id); (windrawline_draw, flag draw); (windrawline_x0, x0);
    (windrawline_y0, y0); (windrawline_x1, x1); (windrawline_y1, y1); (windrawline_color, color)]
    (zero_message kWinDrawLine)).

(** [src/libs/kinos/app/gui/guisyscall.cpp:92-108] [WinMoveRec] *)
Definition WinMoveRec (layer_id : Z) (draw : bool) (x0 y0 rx0 ry0 rx1 ry1 : Z) : Mail -> Mail :=
  gui_send (with_fields [(winmoverec_layer_id, layer_id); (winmoverec_draw, flag draw); (winmoverec_x0, x0);
    (winmoverec_y0, y0); (winmoverec_rx0, rx0); (winmoverec_ry0, ry0); (winmoverec_rx1, rx1); (winmoverec_ry1, ry1)]
    (zero_message kWinMoveRec)).

(** [src/libs/kinos/app/gui/guisyscall.cpp:110-118] [WinRedraw] *)
Definition WinRedraw (layer_id : Z) : Mail -> Mail :=
  gui_send (setF layerid_layerid layer_id (zero_message kWinRedraw)).

(** [src/libs/kinos/app/gui/guisyscall.cpp:120-128] [CloseWindow] *)
Definition CloseWindow (layer_id : Z) : Mail -> Mail :=
  gui_send (setF layerid_layerid layer_id (zero_message kCloseWindow)).

(** ** Laws *)

Lemma gui_send_out m w : exists o, out (gui_send m w) = out w ++ o /\ inbox (gui_send m w) = inbox w.
Proof.
  unfold gui_send. destruct (find_server servers_gui) as [id err]. case_decide; [|by eexists].
  exists []. by rewrite app_nil_r.
Qed.

End client.

(** *** Reading the fields back *)

(** All fields lie in the union and the fields after the first do not touch it. *)
Fixpoint fields_good (fs : list (field * Z)) : bool :=
  match fs with
  | [] => true
  | (f, _) :: fs' => field_ok f && forallb (fun gx => fields_apart f (fst gx) && fields_apart (fst gx) f) fs' && fields_good fs'
  end.

Lemma with_fields_ok fs : forall m, message_ok m -> fields_good fs = true -> message_ok (with_fields fs m).
Proof.
  induction fs as [|[f x] fs IH]; intros m Hm H; cbn in *; [done|].
  rewrite !andb_true_iff in H. destruct H as [[Hf _] H]. apply IH; [by apply message_ok_setF|done].
Qed.

Lemma with_fields_type fs : forall m, type (with_fields fs m) = type m /\ src_task (with_fields fs m) = src_task m.
Proof. induction fs as [|[f x] fs IH]; intros m; [done|]. apply (IH (setF f x m)). Qed.

Lemma with_fields_other g fs : forall m,
  message_ok m -> fields_good fs = true -> forallb (fun fx => fields_apart (fst fx) g) fs = true ->
  getU g (with_fields fs m) = getU g m.
Proof.
  induction fs as [|[f x] fs IH]; intros m Hm H Ha; cbn in *; [done|].
  rewrite !andb_true_iff in H. rewrite andb_true_iff in Ha. destruct H as [[Hf _] H], Ha as [Ha1 Ha].
  rewrite IH by (done || by apply message_ok_setF). by apply getU_setF_ne.
Qed.

(** A field that was set holds its value, truncated to its width. *)
Lemma with_fields_get f x pre post m :
  message_ok m -> fields_good (pre ++ (f, x) :: post) = true ->
  getU f (with_fields (pre ++ (f, x) :: post) m) = x mod 256 ^ Z.of_nat (f_width f).
Proof.
  revert m. induction pre as [|[f' x'] pre IH]; intros m Hm H; cbn in *.
  - rewrite !andb_true_iff in H. destruct H as [[Hf Ha] H].
    rewrite with_fields_other; [by apply getU_setF|by apply message_ok_setF|done|].
    rewrite forallb_forall in Ha |- *. intros y Hy. apply Ha in Hy. rewrite andb_true_iff in Hy. tauto.
  - rewrite !andb_true_iff in H. destruct H as [[Hf _] H]. apply IH; [by apply message_ok_setF|done].
Qed.
