(* ===== verification/GuiServer.v ===== *)
(** * The GUI server (servers/gui/gui.cpp, mouse.cpp, console.cpp)

    The console on the desktop, the mouse, and the loop that answers the
    messages of programs and drivers with operations on layers. *)

From stdpp Require Import base list numbers option gmap strings.
From Stdlib Require Import ZArith Lia SpecFloat Ascii.
From S2P Require Import Prelude Bytes Message AmFd GuiClient GuiGraphics GuiLayer.

Local Open Scope Z_scope.

(** [src/servers/gui/graphics.hpp:60-61] [kDesktopBGColor] *)
Definition kDesktopBGColor : PixelColor := Color 0 172 150.
Definition kDesktopFGColor : PixelColor := Color 255 255 255.

(** [src/servers/gui/graphics.cpp:56-67] [DrawDesktop] *)
Definition DrawDesktop {S} (writer : PixelWriter S) (s : S) : option S :=
  let width := Width writer s in
  let height := Height writer s in
  s ← FillRectangle writer (V 0 0) (V width (height - 50)) kDesktopBGColor s;
  s ← FillRectangle writer (V 0 (height - 50)) (V width 50) (Color 1 8 17) s;
  s ← FillRectangle writer (V 0 (height - 50)) (V (Z.quot width 5) 50) (Color 80 80 80) s;
  DrawRectangle writer (V 10 (height - 40)) (V 30 30) (Color 160 160 160) s.

Section gui.
(** The glyphs, and the line that [vsprintf] makes of a key and a character. *)
Context (font : list Z) (key_text : Z -> Z -> list Z).

(** ** The console *)

(** [src/servers/gui/console.hpp:10-11] [Console::kRows] *)
Definition kRows : Z := 34.
Definition kColumns : Z := 85.
Definition kTitleRows : Z := 14.

(** The members that change. Once there are layers the window of the console is
    that of its layer, which no message of a correct program removes.
    [src/servers/gui/console.hpp:30-34] [Console] *)
Record Console := MkConsole { cursor_row : Z; cursor_column : Z; console_layer : Z }.

(** [src/servers/gui/console.cpp:8-15] [Console::Console] *)
Definition new_Console : Console := MkConsole 2 2 0.

(** [src/servers/gui/console.cpp:79-81] [Console::Refresh] *)
Definition Refresh {S} (writer : PixelWriter S) (s : S) : option S :=
  FillRectangle writer (V 0 0) (V (8 * kColumns) (16 * kRows)) kDesktopBGColor s.

(** [src/servers/gui/console.cpp:34-45] [Console::Newline] *)
Definition Newline (c : Console) (w : Window) : option (Console * Window) :=
  if decide (cursor_row c < kRows - 1) then Some (MkConsole (cursor_row c + 1) 2 (console_layer c), w)
  else
    let move_src := Rect (V 0 (16 * (kTitleRows + 1))) (V (8 * kColumns) (16 * (kRows - kTitleRows - 1))) in
    w ← Window_Move (V 0 (16 * kTitleRows)) move_src w;
    w ← FillRectangle WindowWriter (V 0 (16 * (kRows - 1))) (V (8 * kColumns) 16) kDesktopBGColor w;
    Some (MkConsole (cursor_row c) 2 (console_layer c), w).

(** [src/servers/gui/console.cpp:18-28] [Console::PutString] *)
Fixpoint put_chars (s : list Z) (c : Console) (w : Window) : option (Console * Window) :=
  match s with
  | [] => Some (c, w)
  | x :: s' =>
      '(c, w) ← (if decide (x = 10) then Newline c w
                 else if decide (cursor_column c < kColumns - 1) then
                   w ← WriteAscii WindowWriter font (V (8 * cursor_column c) (16 * cursor_row c)) x kDesktopFGColor w;
                   Some (MkConsole (cursor_row c) (cursor_column c + 1) (console_layer c), w)
                 else Some (c, w));
      put_chars s' c w
  end.

(** [src/servers/gui/console.cpp:17-32] [Console::PutString] *)
Definition PutString (s : list Z) (c : Console) (g : Gui) : option (Console * Gui) :=
  layer ← FindLayer (console_layer c) g;
  w ← window layer;
  '(c, w) ← put_chars s c w;
  g ← Draw (console_layer c) (alter_layer (console_layer c) (set_window (Some w)) g);
  Some (c, g).

(** [src/servers/gui/console.cpp:69-77] [Console::Clear] *)
Definition Clear (c : Console) (g : Gui) : option (Console * Gui) :=
  layer ← FindLayer (console_layer c) g;
  w ← window layer;
  w ← FillRectangle WindowWriter (V 0 (16 * kTitleRows)) (V (8 * kColumns) (16 * (kRows - kTitleRows - 1)))
        kDesktopBGColor w;
  g ← Draw (console_layer c) (alter_layer (console_layer c) (set_window (Some w)) g);
  Some (MkConsole kTitleRows 2 (console_layer c), g).

(** ** The mouse *)

(** [src/servers/gui/mouse.hpp:6-8] [kMouseCursorWidth] *)
Definition kMouseCursorWidth : Z := 15.
Definition kMouseCursorHeight : Z := 24.
Definition kMouseTransparentColor : PixelColor := Color 0 0 1.

(** [src/servers/gui/mouse.cpp:14-22] [mouse_cursor_shape] *)
Definition mouse_cursor_shape : list (list Z) := map chars
  ["@              "; "@@             "; "@.@            "; "@..@           ";
   "@...@          "; "@....@         "; "@.....@        "; "@......@       ";
   "@.......@      "; "@........@     "; "@.........@    "; "@..........@   ";
   "@...........@  "; "@............@ "; "@......@@@@@@@@"; "@......@       ";
   "@....@@.@      "; "@...@ @.@      "; "@..@   @.@     "; "@.@    @.@     ";
   "@@      @.@    "; "@       @.@    "; "         @.@   "; "         @@@   "]%string.

(** [src/servers/gui/mouse.cpp:85-94] [DrawMouseCursor] *)
Definition cursor_color (k : Z) : PixelColor :=
  if decide (k = 64) then Color 0 0 0 else if decide (k = 46) then Color 255 255 255 else kMouseTransparentColor.

(** [src/servers/gui/mouse.cpp:82-97] [DrawMouseCursor] *)
Definition DrawMouseCursor {S} (writer : PixelWriter S) (position : Vector2D) (s : S) : option S :=
  for_loop (fun dy s =>
    for_loop (fun dx s =>
      k ← (row ← getZ mouse_cursor_shape dy; getZ row dx);
      Write writer (vadd position (V dx dy)) (cursor_color k) s) (Z.to_nat kMouseCursorWidth) 0 s)
    (Z.to_nat kMouseCursorHeight) 0 s.

(** [src/servers/gui/mouse.hpp:25-30] [Mouse] *)
Record Mouse := MkMouse { mouse_id : Z; position : Vector2D; drag_layer_id : Z; previous_buttons : Z }.

(** The state of the server: the layers and the screen, the console, the mouse,
    the tasks of the windows and the mail. *)
Record Server := MkServer {
  gui : Gui;
  console : Console;
  mouse : Mouse;
  layer_task_map : gmap Z Z;
  mail : Mail;
}.
Definition set_gui g s := MkServer g (console s) (mouse s) (layer_task_map s) (mail s).
Definition set_console c s := MkServer (gui s) c (mouse s) (layer_task_map s) (mail s).
Definition set_mouse m s := MkServer (gui s) (console s) m (layer_task_map s) (mail s).
Definition set_tasks t s := MkServer (gui s) (console s) (mouse s) t (mail s).
Definition set_mail w s := MkServer (gui s) (console s) (mouse s) (layer_task_map s) w.
Definition send_to (m : Message) (to : Z) (s : Server) : Server := set_mail (send m to (mail s)) s.

(** The layer that is active and its task, 0 for none.
    [src/servers/gui/mouse.cpp:23-38] [FindActiveLayerTask] *)
Definition FindActiveLayerTask (s : Server) : option Layer * Z :=
  let act := active_id (gui s) in
  if decide (act = 0) then (None, 0)
  else match FindLayer act (gui s) with
       | None => (None, 0)
       | Some layer => (Some layer, default 0 (layer_task_map s !! act))
       end.

(** [src/servers/gui/mouse.cpp:48-53] [SendMouseMessage] *)
Definition move_message (relpos posdiff : Vector2D) (buttons : Z) : Message :=
  with_fields [(mouse_move_x, vx relpos); (mouse_move_y, vy relpos); (mouse_move_dx, vx posdiff);
    (mouse_move_dy, vy posdiff); (mouse_move_buttons, buttons)] (zero_message kMouseMove).

(** [src/servers/gui/mouse.cpp:61-65] [SendMouseMessage] *)
Definition button_message (relpos : Vector2D) (buttons i : Z) : Message :=
  with_fields [(mouse_button_x, vx relpos); (mouse_button_y, vy relpos);
    (mouse_button_press, Z.land (Z.shiftr buttons i) 1); (mouse_button_button, i)] (zero_message kMouseButton).

(** [src/servers/gui/mouse.cpp:40-70] [SendMouseMessage] *)
Definition SendMouseMessage (newpos posdiff : Vector2D) (buttons previous : Z) (s : Server) : Server :=
  match FindActiveLayerTask s with
  | (None, _) => s
  | (Some layer, task_id) =>
      if decide (task_id = 0) then s
      else
        let relpos := vsub newpos (lpos layer) in
        let s := if decide (vx posdiff <> 0 \/ vy posdiff <> 0)
                 then send_to (move_message relpos posdiff buttons) task_id s else s in
        fold_left (fun s i =>
          if decide (Z.land (Z.shiftr (Z.lxor previous buttons) i) 1 <> 0)
          then send_to (button_message relpos buttons i) task_id s else s) [0; 1; 2; 3; 4; 5; 6; 7] s
  end.

(** [src/servers/gui/mouse.cpp:71-79] [SendCloseMessage] *)
Definition SendCloseMessage (s : Server) : Server :=
  match FindActiveLayerTask s with
  | (None, _) => s
  | (Some _, task_id) => if decide (task_id = 0) then s else send_to (zero_message kQuit) task_id s
  end.

(** [src/servers/gui/mouse.cpp:101-104] [Mouse::SetPosition] *)
Definition SetPosition (p : Vector2D) (s : Server) : option Server :=
  let m := MkMouse (mouse_id (mouse s)) p (drag_layer_id (mouse s)) (previous_buttons (mouse s)) in
  g ← Move (mouse_id m) p (gui s);
  Some (set_gui g (set_mouse m s)).

Definition left_pressed (buttons : Z) : bool := bool_decide (Z.land buttons 1 <> 0).

(** The left button was just pressed at [position]: the layer to close, and the
    state.
    [src/servers/gui/mouse.cpp:120-137] [Mouse::OnInterrupt] *)
Definition press_left (s : Server) : option (Z * Server) :=
  let m := mouse s in
  under ← FindLayerByPosition (position m) (mouse_id m) (gui s);
  match under with
  | Some layer =>
      if draggable layer then
        w ← window layer;
        let '(drag, close) := match GetWindowRegion w (vsub (position m) (lpos layer)) with
                              | kTitleBar => (layer_id layer, 0)
                              | kCloseButton => (drag_layer_id m, mouse_id m)
                              | _ => (drag_layer_id m, 0)
                              end in
        g ← Activate font (layer_id layer) (gui s);
        Some (close, set_gui g (set_mouse (MkMouse (mouse_id m) (position m) drag (previous_buttons m)) s))
      else g ← Activate font 0 (gui s); Some (0, set_gui g s)
  | None => g ← Activate font 0 (gui s); Some (0, set_gui g s)
  end.

(** What the left button does; the layer to close, and the state.
    [src/servers/gui/mouse.cpp:116-144] [Mouse::OnInterrupt] *)
Definition left_button (buttons : Z) (posdiff : Vector2D) (s : Server) : option (Z * Server) :=
  let m := mouse s in
  match left_pressed (previous_buttons m), left_pressed buttons with
  | false, true => press_left s
  | true, true =>
      if decide (0 < drag_layer_id m) then g ← MoveRelative (drag_layer_id m) posdiff (gui s); Some (0, set_gui g s)
      else Some (0, s)
  | true, false => Some (0, set_mouse (MkMouse (mouse_id m) (position m) 0 (previous_buttons m)) s)
  | false, false => Some (0, s)
  end.

(** [src/servers/gui/mouse.cpp:106-155] [Mouse::OnInterrupt] *)
Definition OnInterrupt (buttons displacement_x displacement_y : Z) (s : Server) : option Server :=
  let m := mouse s in
  let oldpos := position m in
  let newpos := vadd oldpos (V displacement_x displacement_y) in
  let newpos := ElementMin newpos (vadd (ScreenSize (fb (gui s))) (V (-1) (-1))) in
  s ← SetPosition (ElementMax newpos (V 0 0)) s;
  let posdiff := vsub (position (mouse s)) oldpos in
  '(close_layer_id, s) ← left_button buttons posdiff s;
  let s := if decide (drag_layer_id (mouse s) = 0) then
             if decide (close_layer_id = 0) then SendMouseMessage newpos posdiff buttons (previous_buttons (mouse s)) s
             else SendCloseMessage s
           else s in
  Some (set_mouse (MkMouse (mouse_id (mouse s)) (position (mouse s)) (drag_layer_id (mouse s)) buttons) s).

(** ** Lines *)

(** [double] is binary64. *)
Definition double : Type := spec_float.
Definition of_int (n : Z) : double := binary_normalize 53 1024 n 0 false.
Definition fadd : double -> double -> double := SFadd 53 1024.
Definition fmul : double -> double -> double := SFmul 53 1024.
Definition fdiv : double -> double -> double := SFdiv 53 1024.

(** The integer a finite [double] rounds down or up to; converting an infinity
    or a NaN to [int] is undefined. *)
Definition floord (x : double) : option Z :=
  match x with
  | S754_zero _ => Some 0
  | S754_finite s m e =>
      let n := if s then Z.neg m else Z.pos m in
      Some (if decide (0 <= e) then n * 2 ^ e else n / 2 ^ (- e))
  | _ => None
  end.
Definition ceild (x : double) : option Z := Z.opp <$> floord (SFopp x).

(** A conversion to [int] in its range. *)
Definition to_int (o : option Z) : option Z :=
  n ← o; if decide (- 2 ^ 31 <= n < 2 ^ 31) then Some n else None.

(** [m * (i - i0) + j0] rounded. *)
Definition line_at (roundish : double -> option Z) (m : double) (i i0 j0 : Z) : option Z :=
  to_int (roundish (fadd (fmul m (of_int (i - i0))) (of_int j0))).

(** [src/servers/gui/gui.cpp:151-191] [main] *)
Definition draw_line (x0 y0 x1 y1 : Z) (c : PixelColor) (w : Window) : option Window :=
  let dx := x1 - x0 + Z.sgn (x1 - x0) in
  let dy := y1 - y0 + Z.sgn (y1 - y0) in
  if decide (dx = 0 /\ dy = 0) then Window_Write (V x0 y0) c w
  else if decide (Z.abs dy <= Z.abs dx) then
    let '(x0, y0, x1, y1) := if decide (dx < 0) then (x1, y1, x0, y0) else (x0, y0, x1, y1) in
    let roundish := if decide (y0 <= y1) then floord else ceild in
    let m := fdiv (of_int dy) (of_int dx) in
    for_loop (fun x w => y ← line_at roundish m x x0 y0; Window_Write (V x y) c w) (Z.to_nat (x1 - x0 + 1)) x0 w
  else
    let '(x0, y0, x1, y1) := if decide (dy < 0) then (x1, y1, x0, y0) else (x0, y0, x1, y1) in
    let roundish := if decide (x0 <= x1) then floord else ceild in
    let m := fdiv (of_int dx) (of_int dy) in
    for_loop (fun y w => x ← line_at roundish m y y0 x0; Window_Write (V x y) c w) (Z.to_nat (y1 - y0 + 1)) y0 w.

(** ** The messages *)

(** The window of a layer changes and is drawn when asked to; a message for a
    layer that is not there is ignored.
    [src/servers/gui/gui.cpp:129-138] [main] *)
Definition on_window (id draw : Z) (f : Window -> option Window) (g : Gui) : option Gui :=
  match FindLayer id g with
  | None => Some g
  | Some layer =>
      w ← window layer;
      w ← f w;
      let g := alter_layer id (set_window (Some w)) g in
      if decide (draw <> 0) then Draw id g else Some g
  end.

(** [src/servers/gui/gui.cpp:128-138] [main] *)
Definition fill_rectangle (m : Message) : Gui -> option Gui :=
  on_window (getU winfillrectangle_layer_id m) (getI winfillrectangle_draw m)
    (FillRectangle WindowWriter (V (getI winfillrectangle_x m) (getI winfillrectangle_y m))
      (V (getI winfillrectangle_w m) (getI winfillrectangle_h m)) (ToColor (getU winfillrectangle_color m))).

(** The character is the first of a string.
    [src/servers/gui/gui.cpp:139-149] [main] *)
Definition write_char (m : Message) : Gui -> option Gui :=
  on_window (getU winwritechar_layer_id m) (getI winwritechar_draw m) (fun w =>
    s ← getS (f_off winwritechar_c) m;
    WriteString WindowWriter font (V (getI winwritechar_x m) (getI winwritechar_y m)) s
      (ToColor (getU winwritechar_color m)) w).

(** A line of one point is not drawn on the screen.
    [src/servers/gui/gui.cpp:150-195] [main] *)
Definition write_line (m : Message) : Gui -> option Gui :=
  let x0 := getI windrawline_x0 m in
  let y0 := getI windrawline_y0 m in
  let x1 := getI windrawline_x1 m in
  let y1 := getI windrawline_y1 m in
  on_window (getU windrawline_layer_id m)
    (if decide (x0 = x1 /\ y0 = y1) then 0 else getI windrawline_draw m)
    (draw_line x0 y0 x1 y1 (ToColor (getU windrawline_color m))).

(** [src/servers/gui/gui.cpp:197-209] [main] *)
Definition move_rec (m : Message) : Gui -> option Gui :=
  on_window (getU winmoverec_layer_id m) (getI winmoverec_draw m)
    (Window_Move (V (getI winmoverec_x0 m) (getI winmoverec_y0 m))
      (Rect (V (getI winmoverec_rx0 m) (getI winmoverec_ry0 m)) (V (getI winmoverec_rx1 m) (getI winmoverec_ry1 m)))).

(** A new layer of a window, that can be dragged, at a position.
    [src/servers/gui/gui.cpp:113-117] [main] *)
Definition add_window (w : Window) (pos : Vector2D) (g : Gui) : Gui * Z :=
  let '(g, id) := NewLayer g in
  (set_layers (alter_key layer_id id (fun l => MkLayer (layer_id l) pos (Some w) true) (layers g)) g, id).

(** The title is a string in the union.
    [src/servers/gui/gui.cpp:108-126] [main] *)
Definition open_window (m : Message) (s : Server) : option Server :=
  title ← getS openwindow_title m;
  win ← new_ToplevelWindow font (getI openwindow_w m) (getI openwindow_h m) title;
  let '(g, layer_id) := add_window win (V (getI openwindow_x m) (getI openwindow_y m)) (gui s) in
  g ← Activate font layer_id g;
  let s := set_gui (set_windows (window_layer_id g ++ [layer_id]) g) s in
  let s := send_to (setF layerid_layerid layer_id (zero_message kLayerId)) (src_task m) s in
  Some (match layer_task_map s !! layer_id with
        | Some _ => s
        | None => set_tasks (<[layer_id := src_task m]> (layer_task_map s)) s
        end).

(** [src/servers/gui/gui.cpp:214-226] [main] *)
Definition close_window (m : Message) (s : Server) : option Server :=
  let id := getU layerid_layerid m in
  match FindLayer id (gui s) with
  | None => Some s
  | Some layer =>
      w ← window layer;
      g ← Activate font 0 (gui s);
      g ← DrawArea (Rect (lpos layer) (Size w)) (RemoveLayer id g);
      Some (set_tasks (delete id (layer_task_map s)) (set_gui g s))
  end.

(** The window after the active one in the list; the first of an empty list is
    undefined.
    [src/servers/gui/gui.cpp:73-85] [main] *)
Definition next_window (act : Z) (windows : list Z) : option Z :=
  first ← windows !! 0%nat;
  Some (fold_left (fun next i =>
    if decide (windows !! i = Some act) then
      if decide (i = length windows - 1)%nat then first else default next (windows !! S i)
    else next) (seq 0 (length windows)) first).

(** [src/servers/gui/gui.cpp:70-106] [main] *)
Definition key_push (m : Message) (s : Server) : option Server :=
  let ascii := getU keyboard_ascii m in
  let keycode := getU keyboard_keycode m in
  let press := getI keyboard_press m in
  if decide (ascii = 9) then
    if decide (press <> 0) then
      next ← next_window (active_id (gui s)) (window_layer_id (gui s));
      g ← Activate font next (gui s); Some (set_gui g s)
    else Some s
  else if decide (press <> 0 /\ keycode = 59) then
    '(c, g) ← Clear (console s) (gui s); Some (set_console c (set_gui g s))
  else match layer_task_map s !! active_id (gui s) with
       | Some task =>
           Some (if decide (keycode = 20 /\ Z.land (getU keyboard_modifier m) (Z.lor 1 16) <> 0)
                 then send_to (zero_message kQuit) task s else send_to m task s)
       | None => '(c, g) ← PutString (key_text keycode ascii) (console s) (gui s); Some (set_console c (set_gui g s))
       end.

(** Conversion to [int8_t]. *)
Definition s8 (x : Z) : Z := (x + 2 ^ 7) mod 2 ^ 8 - 2 ^ 7.

Definition on_gui (f : Gui -> option Gui) (s : Server) : option Server := g ← f (gui s); Some (set_gui g s).

(** [src/servers/gui/gui.cpp:67-226] [main] *)
Definition handle (m : Message) (s : Server) : option Server :=
  match type m with
  | kMouseMove => OnInterrupt (getU mouse_move_buttons m) (s8 (getI mouse_move_dx m)) (s8 (getI mouse_move_dy m)) s
  | kKeyPush => key_push m s
  | kOpenWindow => open_window m s
  | kWinFillRectangle => on_gui (fill_rectangle m) s
  | kWinWriteChar => on_gui (write_char m) s
  | kWinDrawLine => on_gui (write_line m) s
  | kWinMoveRec => on_gui (move_rec m) s
  | kWinRedraw => on_gui (Draw (getU layerid_layerid m)) s
  | kCloseWindow => close_window m s
  | _ => Some s
  end.

(** One turn of the loop; an open receive of one message does not fail.
    [src/servers/gui/gui.cpp:61-227] [main] *)
Definition turn (s : Server) : outcome Server :=
  match inbox (mail s) with
  | [] => Waits
  | m :: msgs => defined (handle m (set_mail (MkMail msgs (out (mail s))) s))
  end.

(** ** Starting the server *)

(** [std::numeric_limits<int>::max()]. *)
Definition int_max : Z := 2 ^ 31 - 1.

(** A new layer with a window; its position is [pos].
    [src/servers/gui/layer.cpp:232-236] [InitializeLayer] *)
Definition add_layer (w : Window) (pos : Vector2D) (g : Gui) : Gui * Z :=
  let '(g, id) := NewLayer g in
  (set_layers (alter_key layer_id id (fun l => MkLayer (layer_id l) pos (Some w) (draggable l)) (layers g)) g, id).

(** The server before there are layers.
    [src/servers/gui/gui.cpp:50-51] [main] *)
Definition InitializeScreen (f : FrameBuffer) : option FrameBuffer :=
  f ← DrawDesktop screen_writer f; Refresh screen_writer f.

(** [src/servers/gui/layer.cpp:221-242] [InitializeLayer] *)
Definition InitializeLayer (c : Console) (f : FrameBuffer) : option (Console * Gui) :=
  bgwindow ← new_Window (vx (ScreenSize f)) (vy (ScreenSize f)) None;
  bgwindow ← DrawDesktop WindowWriter bgwindow;
  console_window ← new_Window (kColumns * 8) (kRows * 16) None;
  console_window ← Refresh WindowWriter console_window;
  let g := MkGui f [] [] 0 0 0 [] in
  let '(g, bglayer_id) := add_layer bgwindow (V 0 0) g in
  let '(g, id) := add_layer console_window (V 0 0) g in
  let c := MkConsole (cursor_row c) (cursor_column c) id in
  Some (c, UpDown id 1 (UpDown bglayer_id 0 g)).

(** Writing inside the frame of a window with a title.
    [src/servers/gui/window.hpp:80-93] [ToplevelWindow::InnerAreaWriter] *)
Definition InnerWriter : PixelWriter Window :=
  MkWriter (fun pos c w => Window_Write (vadd pos kTopLeftMargin) c w) (fun w => w_width w - 4 - 4) (fun w => w_height w - 24 - 4).

(** [src/servers/gui/gui.cpp:18-32] [InitializeMainWindow] *)
Definition InitializeMainWindow (g : Gui) : option Gui :=
  w ← new_ToplevelWindow font 160 68 (chars "Hello Window");
  w ← WriteString InnerWriter font (V 0 0) (chars "Welcome to") (Color 0 0 0) w;
  w ← WriteString InnerWriter font (V 16 16) (chars "kinOS world!") (Color 0 0 0) w;
  let '(g, id) := add_window w (V 300 100) g in
  Some (UpDown id int_max (set_windows (window_layer_id g ++ [id]) g)).

(** [old_pos] is what the position of a layer holds that no constructor
    initialised.
    [src/servers/gui/mouse.cpp:163-177] [InitializeMouse] *)
Definition InitializeMouse (old_pos : Vector2D) (s : Server) : option Server :=
  w ← new_Window kMouseCursorWidth kMouseCursorHeight None;
  w ← DrawMouseCursor WindowWriter (V 0 0) (SetTransparentColor (Some kMouseTransparentColor) w);
  let '(g, id) := add_layer w old_pos (gui s) in
  s ← SetPosition (V 200 200) (set_mouse (MkMouse id (V 0 0) 0 0) (set_gui g s));
  Some (set_gui (set_mouse_layer id (UpDown id int_max (gui s))) s).

(** The lines of [PrintMessage], each a [printk].
    [src/servers/gui/gui.cpp:34-47] [PrintMessage] *)
Definition PrintMessage_lines : list (list Z) := map (fun l => chars l ++ [10])
  [""; "###                                   #######       #######  ";
   "###   ###                           ###     ###   ###     ###";
   "###  ###       ###                  ###     ###    ###       ";
   "### ###        ###     ##########   ###     ###      ###     ";
   "#######        ###     ###    ###   ###     ###         ###  ";
   "###   ###      ###     ###    ###   ###     ###  ###     ### ";
   "###    ###     ###     ###    ###     #######      #######   "; ""; ""; ""; ""]%string.

(** [src/servers/gui/gui.cpp:34-47] [PrintMessage] *)
Definition PrintMessage (s : Server) : option Server :=
  fold_left (fun s line =>
    s ← s; '(c, g) ← PutString line (console s) (gui s); Some (set_console c (set_gui g s))) PrintMessage_lines (Some s).

(** Graphics, console, layers, main window and mouse.
    [src/servers/gui/gui.cpp:50-54] [main] *)
Definition InitializeAll (old_pos : Vector2D) (f : FrameBuffer) (msgs : list Message) : option Server :=
  f ← InitializeScreen f;
  '(c, g) ← InitializeLayer new_Console f;
  g ← InitializeMainWindow g;
  InitializeMouse old_pos (MkServer g c (MkMouse 0 (V 0 0) 0 0) ∅ (MkMail msgs [])).

(** The server before its loop.
    [src/servers/gui/gui.cpp:49-58] [main] *)
Definition Initialize (old_pos : Vector2D) (f : FrameBuffer) (msgs : list Message) : option Server :=
  s ← InitializeAll old_pos f msgs;
  s ← PrintMessage s;
  g ← DrawArea (Rect (V 0 0) (ScreenSize (fb (gui s)))) (gui s);
  Some (set_gui g s).
End gui.
