(* ===== verification/GuiDrag.v ===== *)
(** * Dragging a window (servers/gui/mouse.cpp)

    From the press of the button on the title of a window to its release the
    window follows the mouse cursor, which stays on the screen. *)

From stdpp Require Import base list numbers option gmap.
From Stdlib Require Import ZArith Lia.
From S2P Require Import Prelude Bytes Message AmFd GuiClient GuiGraphics GuiLayer GuiDraw GuiActivate GuiServer.

Local Open Scope Z_scope.

(** ** Layers of the desktop are moved *)

Lemma desktop_nodup g s b : desktop g s b -> NoDup s /\ mouse_layer g ∉ s.
Proof.
  intros [Hok Hst _ _ _]. pose proof (go_nodup _ Hok) as Hn. rewrite Hst in Hn.
  apply list.NoDup_app in Hn as (Hn & Hd & _). split; [done|]. intros H. apply (Hd _ H). by left.
Qed.

(** The bottom layer covers every pixel, whatever other layer changes. *)
Lemma bottom_covers g s b id p :
  desktop g s b -> id <> b -> in_rect p (screen (fb g)) = true ->
  Exists (fun l => layer_id l <> id /\ covers_pixel p l = true) (stack_layers g).
Proof.
  intros [_ Hst _ (lb & Hb & Hc) Hbot] Hne Hp. apply list.Exists_exists. exists lb. split.
  - unfold stack_layers. apply list_elem_of_omap. exists b. split; [|done]. rewrite Hst. apply elem_of_app. by left.
  - split; [|by apply Hc]. apply find_key_Some in Hb as [_ Hb]. congruence.
Qed.

Lemma desktop_moved g s b id l w f :
  desktop g s b -> shows g -> id ∈ layer_stack g -> id <> b -> FindLayer id g = Some l -> window l = Some w ->
  (forall l, layer_id (f l) = layer_id l /\ window (f l) = window l) ->
  exists fb', (g2 ← DrawArea (Rect (lpos l) (Size w)) (alter_layer id f g); Draw id g2) = Some (set_fb fb' (alter_layer id f g)) /\
    desktop (set_fb fb' (alter_layer id f g)) s b /\ shows (set_fb fb' (alter_layer id f g)) /\ same_screen (fb g) fb'.
Proof.
  intros Hd Hs Hin Hne Hl Hw Hf. pose proof Hd as [Hok Hst Hop (lb & Hb & Hc) Hbot].
  destruct (moved_shows g id l w f Hok Hs Hin Hl Hw Hf) as (f' & E & Hok' & Hsc & Hs').
  { intros p Hp. by eapply bottom_covers. }
  exists f'. split; [exact E|]. split; [|by split].
  assert (Hfind : forall p, FindLayer p (alter_layer id f g) = if decide (p = id) then f <$> FindLayer id g else FindLayer p g).
  { intros p. rewrite FindLayer_alter by apply Hf. done. }
  split; try done.
  - eapply list.Forall_impl; [exact Hop|]. intros p (x & Hx & Hxo). change (FindLayer p (set_fb f' (alter_layer id f g)))
      with (FindLayer p (alter_layer id f g)). rewrite Hfind. case_decide as Hp; [|by exists x]. subst p. rewrite Hx. exists (f x).
    split; [done|]. unfold opaque. by rewrite (proj2 (Hf x)).
  - exists lb. change (FindLayer b (set_fb f' (alter_layer id f g))) with (FindLayer b (alter_layer id f g)).
    rewrite Hfind, decide_False by done. split; [done|]. intros p Hp. apply Hc. cbn in Hp. by rewrite (proj1 Hsc) in Hp.
Qed.

(** ** The server is ready for the mouse *)

Record ready (s : Server) (st : list Z) (b : Z) : Prop := {
  rd_desktop : desktop (gui s) st b;
  rd_shows : shows (gui s);
  rd_mouse : mouse_layer (gui s) = mouse_id (mouse s);
  rd_window : exists l w, FindLayer (mouse_id (mouse s)) (gui s) = Some l /\ window l = Some w;
}.

Lemma ready_ext s s' st b :
  ready s st b -> gui s' = gui s -> mouse_id (mouse s') = mouse_id (mouse s) -> ready s' st b.
Proof. intros [H1 H2 H3 H4] Hg Hm. split; by rewrite ?Hg, ?Hm. Qed.

Definition moved_mouse (p : Vector2D) (m : Mouse) : Mouse := MkMouse (mouse_id m) p (drag_layer_id m) (previous_buttons m).

Lemma mouse_not_bottom s st b : ready s st b -> mouse_id (mouse s) <> b.
Proof.
  intros [Hd _ Hm _] E. destruct (desktop_nodup _ _ _ Hd) as [_ Hn]. apply Hn. rewrite Hm, E. apply Hd.
Qed.

Lemma SetPosition_ready p s st b :
  ready s st b ->
  exists f, SetPosition p s = Some (set_gui (set_fb f (alter_layer (mouse_id (mouse s)) (set_lpos p) (gui s)))
      (set_mouse (moved_mouse p (mouse s)) s)) /\
    same_screen (fb (gui s)) f /\
    ready (set_gui (set_fb f (alter_layer (mouse_id (mouse s)) (set_lpos p) (gui s))) (set_mouse (moved_mouse p (mouse s)) s)) st b.
Proof.
  intros H. pose proof (mouse_not_bottom s st b H) as Hmb. destruct H as [Hd Hs Hm (l & w & Hl & Hw)].
  destruct (desktop_moved (gui s) st b (mouse_id (mouse s)) l w (set_lpos p) Hd Hs) as (f & E & Hd' & Hs' & Hsc); try done.
  { rewrite (dk_stack _ _ _ Hd), Hm. apply elem_of_app. right. by left. }
  exists f. split; [|split; [done|]].
  - unfold SetPosition, Move. cbn [mouse_id]. rewrite Hl. cbn [mbind option_bind]. rewrite Hw. cbn [mbind option_bind] in *.
    by rewrite E.
  - split; try done. exists (set_lpos p l), w. cbn [gui set_gui mouse set_mouse moved_mouse mouse_id].
    change (FindLayer (mouse_id (mouse s)) (set_fb f ?g)) with (FindLayer (mouse_id (mouse s)) g).
    split; [|done]. change (FindLayer (mouse_id (mouse s)) (alter_layer (mouse_id (mouse s)) (set_lpos p) (gui s)) = Some (set_lpos p l)).
    by rewrite FindLayer_alter, decide_True, Hl by done.
Qed.

(** ** The place of the cursor *)

(** Buttons and displacement of an interrupt. *)
Record event := Ev { ev_buttons : Z; ev_dx : Z; ev_dy : Z }.
Definition left (e : event) : bool := left_pressed (ev_buttons e).

(** Where the cursor goes on a screen of a size. *)
Definition place (size : Vector2D) (e : event) (p : Vector2D) : Vector2D :=
  ElementMax (ElementMin (vadd p (V (ev_dx e) (ev_dy e))) (vadd size (V (-1) (-1)))) (V 0 0).
Definition places (size : Vector2D) (es : list event) (p : Vector2D) : Vector2D :=
  fold_left (fun p e => place size e p) es p.

Definition size_of (s : Server) : Vector2D := ScreenSize (fb (gui s)).
Definition cursor (s : Server) : Vector2D := position (mouse s).

Lemma same_screen_size f f' : same_screen f f' -> ScreenSize f' = ScreenSize f.
Proof. intros [H _]. exact (f_equal rsize H). Qed.

Section drag.
Context (font : list Z).

Definition interrupt (e : event) : Server -> option Server := OnInterrupt font (ev_buttons e) (ev_dx e) (ev_dy e).
Fixpoint interrupts (es : list event) (s : Server) : option Server :=
  match es with [] => Some s | e :: es' => s ← interrupt e s; interrupts es' s end.

(** What the windows are, but for the place of the window [id] and the screen. *)
Definition same_tasks (s s' : Server) : Prop :=
  layer_task_map s' = layer_task_map s /\ active_id (gui s') = active_id (gui s) /\ size_of s' = size_of s /\
  mouse_id (mouse s') = mouse_id (mouse s).

(** The window [id] is being dragged; [l] is its layer. *)
Record dragging (s : Server) (st : list Z) (b id : Z) (l : Layer) (w : Window) : Prop := {
  dr_ready : ready s st b;
  dr_id : drag_layer_id (mouse s) = id;
  dr_pos : 0 < id /\ id ∈ st /\ id <> b;
  dr_layer : FindLayer id (gui s) = Some l;
  dr_window : window l = Some w;
  dr_left : left_pressed (previous_buttons (mouse s)) = true;
}.

(** One move with the button pressed. *)
Lemma drag_move e s st b id l w :
  dragging s st b id l w -> left e = true ->
  exists s', interrupt e s = Some s' /\ cursor s' = place (size_of s) e (cursor s) /\
    dragging s' st b id (set_lpos (vadd (lpos l) (vsub (cursor s') (cursor s))) l) w /\
    same_tasks s s' /\ mail s' = mail s.
Proof.
  intros [Hr Hid (Hpos & Hin & Hb) Hl Hw Hleft] He. set (p := place (size_of s) e (cursor s)).
  destruct (SetPosition_ready p s st b Hr) as (f & E & Hsc & Hr1).
  set (s1 := set_gui (set_fb f (alter_layer (mouse_id (mouse s)) (set_lpos p) (gui s))) (set_mouse (moved_mouse p (mouse s)) s)) in *.
  assert (Hne : id <> mouse_id (mouse s)).
  { intros E'. destruct Hr as [Hd _ Hm _]. destruct (desktop_nodup _ _ _ Hd) as [_ Hn]. apply Hn. by rewrite Hm, <- E'. }
  assert (Hl1 : FindLayer id (gui s1) = Some l).
  { change (FindLayer id (alter_layer (mouse_id (mouse s)) (set_lpos p) (gui s)) = Some l). by rewrite FindLayer_alter, decide_False. }
  set (d := vsub p (cursor s)). set (mv := fun l => set_lpos (vadd (lpos l) d) l). destruct Hr1 as [Hd1 Hs1 Hm1 Hw1].
  destruct (desktop_moved (gui s1) st b id l w mv Hd1 Hs1) as (f2 & E2 & Hd2 & Hs2 & Hsc2); try done.
  { rewrite (dk_stack _ _ _ Hd1). apply elem_of_app. by left. }
  set (g2 := set_fb f2 (alter_layer id mv (gui s1))) in *.
  set (s2 := set_mouse (MkMouse (mouse_id (mouse s)) p (drag_layer_id (mouse s)) (ev_buttons e)) (set_gui g2 s1)).
  assert (Hgl : FindLayer id g2 = Some (mv l)).
  { change (FindLayer id (alter_layer id mv (gui s1)) = Some (mv l)). by rewrite FindLayer_alter, decide_True, Hl1. }
  exists s2. split; [|split; [done|split; [|split]]].
  - unfold interrupt, OnInterrupt. fold (cursor s). fold (size_of s). fold (place (size_of s) e (cursor s)). fold p.
    rewrite E. cbn [mbind option_bind]. change (position (mouse s1)) with p. fold d.
    unfold left_button. change (previous_buttons (mouse s1)) with (previous_buttons (mouse s)). unfold left in He.
    rewrite Hleft, He. change (drag_layer_id (mouse s1)) with (drag_layer_id (mouse s)). rewrite Hid, decide_True by done.
    unfold MoveRelative. rewrite Hl1. cbn [mbind option_bind]. rewrite Hw. cbn [mbind option_bind] in *. fold mv. rewrite E2.
    cbn [mbind option_bind]. change (drag_layer_id (mouse (set_gui g2 s1))) with (drag_layer_id (mouse s)).
    rewrite decide_False by lia. done.
  - split; try done. split; try done. destruct Hw1 as (lm & wm & Hlm & Hwm). exists lm, wm. split; [|done].
    change (FindLayer (mouse_id (mouse s)) (alter_layer id mv (gui s1)) = Some lm). by rewrite FindLayer_alter, decide_False.
  - split; [done|]. split; [done|]. split; [|done]. unfold size_of. cbn [gui set_mouse set_gui s2 g2 fb set_fb].
    rewrite (same_screen_size _ _ Hsc2). exact (same_screen_size _ _ Hsc).
  - done.
Qed.

Lemma same_tasks_trans s1 s2 s3 : same_tasks s1 s2 -> same_tasks s2 s3 -> same_tasks s1 s3.
Proof. unfold same_tasks. intros (? & ? & ? & ?) (? & ? & ? & ?). split_and!; congruence. Qed.

Lemma vadd_steps a p q r : vadd (vadd a (vsub q p)) (vsub r q) = vadd a (vsub r p).
Proof. unfold vadd, vsub. cbn. f_equal; lia. Qed.

Lemma drag_moves es : forall s st b id l w,
  dragging s st b id l w -> Forall (fun e => left e = true) es ->
  exists s', interrupts es s = Some s' /\ cursor s' = places (size_of s) es (cursor s) /\
    dragging s' st b id (set_lpos (vadd (lpos l) (vsub (cursor s') (cursor s))) l) w /\
    same_tasks s s' /\ mail s' = mail s.
Proof.
  induction es as [|e es IH]; intros s st b id l w Hd Hes.
  - exists s. split; [done|]. split; [done|]. split; [|done]. destruct l as [i [x y] o g].
    unfold set_lpos, vadd, vsub; cbn. by rewrite !Z.sub_diag, !Z.add_0_r.
  - apply list.Forall_cons in Hes as [He Hes].
    destruct (drag_move e s st b id l w Hd He) as (s1 & E1 & Hc1 & Hd1 & Ht1 & Hm1).
    destruct (IH s1 st b id _ w Hd1 Hes) as (s2 & E2 & Hc2 & Hd2 & Ht2 & Hm2).
    exists s2. cbn [interrupts]. rewrite E1. cbn [mbind option_bind]. split; [done|].
    pose proof Ht1 as (_ & _ & Hsz & _). split; [by rewrite Hc2, Hsz, Hc1|]. split; [|split; [by eapply same_tasks_trans|congruence]].
    cbn [lpos set_lpos] in Hd2. rewrite vadd_steps in Hd2. exact Hd2.
Qed.
(** *** The press *)

(** Only the mouse layer and the screen differ. *)
Definition but_mouse (m : Z) (g g' : Gui) : Prop :=
  (forall p, p <> m -> FindLayer p g' = FindLayer p g) /\ is_Some (FindLayer m g').

Lemma find_under_but_mouse pos m g g' l ps :
  but_mouse m g g' -> Forall (fun p => p <> 0) ps -> find_under pos m ps g = Some (Some l) -> find_under pos m ps g' = Some (Some l).
Proof.
  intros [Hf [lm Hlm]]. induction 1 as [|p ps Hp _ IH]; cbn [find_under]; [done|]. unfold deref. rewrite decide_False by done.
  rewrite decide_False by done. destruct (decide (p = m)) as [->|Hpm]; [|rewrite Hf by done].
  - rewrite Hlm. cbn [mbind option_bind]. destruct (FindLayer m g) as [x|] eqn:Hx; [|done]. cbn [mbind option_bind].
    unfold under. rewrite (proj2 (find_key_Some _ _ _ _ Hlm)), (proj2 (find_key_Some _ _ _ _ Hx)), Z.eqb_refl. exact IH.
  - destruct (FindLayer p g) as [x|]; [|done]. cbn [mbind option_bind]. by destruct (under pos m x).
Qed.

Lemma find_under_in pos m g l ps :
  find_under pos m ps g = Some (Some l) -> layer_id l ∈ ps /\ layer_id l <> m /\ FindLayer (layer_id l) g = Some l.
Proof.
  induction ps as [|p ps IH]; cbn [find_under]; [done|]. unfold deref. case_decide; [done|].
  destruct (FindLayer p g) as [x|] eqn:Hx; [|done]. cbn [mbind option_bind]. destruct (under pos m x) eqn:Hu.
  - intros [= <-]. pose proof (proj2 (find_key_Some _ _ _ _ Hx)) as Hid. rewrite Hid. split; [by left|]. split; [|done].
    intros ->. unfold under in Hu. by rewrite Hid, Z.eqb_refl in Hu.
  - intros Hl. destruct (IH Hl) as (H1 & H2 & H3). split; [by right|done].
Qed.

(** The button goes down on the title of a window that can be activated. *)
Record grabs (s : Server) (st : list Z) (b : Z) (e : event) (l : Layer) (w : Window) : Prop := {
  gr_buttons : left_pressed (previous_buttons (mouse s)) = false /\ left e = true;
  gr_layer : FindLayerByPosition (place (size_of s) e (cursor s)) (mouse_id (mouse s)) (gui s) = Some (Some l);
  gr_window : draggable l = true /\ window l = Some w /\ opaque l = true;
  gr_title : GetWindowRegion w (vsub (place (size_of s) e (cursor s)) (lpos l)) = kTitleBar;
  gr_id : 0 < layer_id l /\ layer_id l <> b;
  gr_active : active_id (gui s) = layer_id l \/ (is_Some (set_active font true w) /\ active_ok font st (gui s));
}.

Lemma active_ok_ext st g g' :
  active_id g' = active_id g -> (forall p, p ∈ st -> FindLayer p g' = FindLayer p g) -> active_ok font st g -> active_ok font st g'.
Proof.
  intros Ha Hf [H|(H1 & H2 & H3)]; unfold active_ok, title_fits in *; rewrite Ha; [by left|right]. by rewrite Hf.
Qed.

(** The window under the cursor is activated, if it was not. *)
Lemma activate_grabbed s st b l w :
  ready s st b -> FindLayer (layer_id l) (gui s) = Some l -> window l = Some w -> opaque l = true ->
  0 < layer_id l -> layer_id l <> b -> layer_id l ∈ st -> layer_id l <> mouse_id (mouse s) ->
  active_id (gui s) = layer_id l \/ (is_Some (set_active font true w) /\ active_ok font st (gui s)) ->
  exists g st1 l1 w1, Activate font (layer_id l) (gui s) = Some g /\ ready (set_gui g s) st1 b /\ layer_id l ∈ st1 /\
    FindLayer (layer_id l) g = Some l1 /\ window l1 = Some w1 /\ lpos l1 = lpos l /\
    active_id g = layer_id l /\ ScreenSize (fb g) = size_of s.
Proof.
  intros Hr Hl Hw Ho Hpos Hb Hin Hm [Ha|[Hfit Hact]].
  { exists (gui s), st, l, w. unfold Activate. rewrite decide_True by done. split_and!; try done. by eapply ready_ext. }
  destruct (decide (active_id (gui s) = layer_id l)) as [Ha|Ha].
  { exists (gui s), st, l, w. unfold Activate. rewrite decide_True by done. split_and!; try done. by eapply ready_ext. }
  destruct Hr as [Hd Hs Hmo (lm & wm & Hlm & Hwm)].
  destruct (Activate_desktop font (layer_id l) (gui s) st b l w Hd Hs) as (g & w' & E & Hd' & Hs' & Ha' & Hm' & Ew & Hl' & Hsc & Hf);
    try done; [by rewrite Hmo|].
  exists g, (erase_ptr (layer_id l) st ++ [layer_id l]), (set_window (Some w') l), w'. split_and!; try done.
  - split; cbn; try done; [by rewrite Hm'|]. exists lm, wm. split; [|done]. rewrite Hf; [done|by intros E'|].
    intros E'. destruct Hact as [Hz|(_ & Hst & _)].
    + pose proof (go_stack _ (dk_ok _ _ _ Hd)) as Hg. rewrite (dk_stack _ _ _ Hd), Hmo in Hg. apply list.Forall_app in Hg as [_ Hg].
      apply list.Forall_cons in Hg as [[Hg _] _]. congruence.
    + destruct (desktop_nodup _ _ _ Hd) as [_ Hn]. apply Hn. by rewrite Hmo, E'.
  - apply elem_of_app. right. by left.
  - by apply same_screen_size.
Qed.
(** The mouse layer was moved: the other layers are as before. *)
Lemma moved_but_mouse s st b p f :
  ready s st b -> but_mouse (mouse_id (mouse s)) (gui s) (set_fb f (alter_layer (mouse_id (mouse s)) (set_lpos p) (gui s))).
Proof.
  intros [_ _ _ (lm & wm & Hlm & _)]. split.
  - intros q Hq. change (FindLayer q (alter_layer (mouse_id (mouse s)) (set_lpos p) (gui s)) = FindLayer q (gui s)).
    by rewrite FindLayer_alter, decide_False.
  - change (is_Some (FindLayer (mouse_id (mouse s)) (alter_layer (mouse_id (mouse s)) (set_lpos p) (gui s)))).
    rewrite FindLayer_alter, decide_True, Hlm by done. by eexists.
Qed.

Lemma drag_press e s st b l w :
  ready s st b -> grabs s st b e l w ->
  exists s1 st1 l1 w1, interrupt e s = Some s1 /\ dragging s1 st1 b (layer_id l) l1 w1 /\ lpos l1 = lpos l /\
    cursor s1 = place (size_of s) e (cursor s) /\ active_id (gui s1) = layer_id l /\ size_of s1 = size_of s /\
    layer_task_map s1 = layer_task_map s /\ mail s1 = mail s.
Proof.
  intros Hr [[Hup He] Hl (Hdr & Hw & Ho) Htitle [Hpos Hb] Hact]. set (p := place (size_of s) e (cursor s)) in *.
  destruct (SetPosition_ready p s st b Hr) as (f & E & Hsc & Hr1). pose proof (moved_but_mouse s st b p f Hr) as Hbm.
  set (g1 := set_fb f (alter_layer (mouse_id (mouse s)) (set_lpos p) (gui s))) in *.
  set (s1 := set_gui g1 (set_mouse (moved_mouse p (mouse s)) s)) in *.
  pose proof (rd_desktop _ _ _ Hr) as Hd. pose proof (go_stack _ (dk_ok _ _ _ Hd)) as Hst.
  destruct (find_under_in _ _ _ _ _ Hl) as (Hin & Hm & Hfl).
  assert (Hinst : layer_id l ∈ st).
  { rewrite list_elem_of_In, <- in_rev, <- list_elem_of_In, (dk_stack _ _ _ Hd), (rd_mouse _ _ _ Hr), elem_of_app in Hin.
    destruct Hin as [Hin|Hin]; [done|]. by apply list_elem_of_singleton in Hin. }
  apply (find_under_but_mouse _ _ _ g1) in Hl; [|done|].
  2: { apply List.Forall_rev. eapply list.Forall_impl; [exact Hst|]. by intros x []. }
  assert (Hfl1 : FindLayer (layer_id l) (gui s1) = Some l) by (rewrite <- Hfl; by apply Hbm).
  destruct (activate_grabbed s1 st b l w Hr1) as (g2 & st1 & l1 & w1 & Ea & Hr2 & Hin2 & Hl1 & Hw1 & Hp1 & Ha2 & Hsz2); try done.
  { destruct Hact as [Ha|[Hfit Ha]]; [by left|right]. split; [done|]. eapply active_ok_ext; [| |exact Ha]; [done|].
    intros q Hq. apply Hbm. intros ->. destruct (desktop_nodup _ _ _ Hd) as [_ Hn]. apply Hn. by rewrite (rd_mouse _ _ _ Hr). }
  exists (set_mouse (MkMouse (mouse_id (mouse s)) p (layer_id l) (ev_buttons e)) (set_gui g2 s1)), st1, l1, w1.
  split_and!; try done.
  - unfold interrupt, OnInterrupt. fold (cursor s). fold (size_of s). fold (place (size_of s) e (cursor s)). fold p.
    rewrite E. cbn [mbind option_bind]. change (position (mouse s1)) with p. unfold left_button.
    change (previous_buttons (mouse s1)) with (previous_buttons (mouse s)). unfold left in He. rewrite Hup, He. unfold press_left, FindLayerByPosition.
    change (position (mouse s1)) with p. change (mouse_id (mouse s1)) with (mouse_id (mouse s)).
    change (gui s1) with g1. change (layer_stack g1) with (layer_stack (gui s)). rewrite Hl. cbn [mbind option_bind].
    rewrite Hdr, Hw. cbn [mbind option_bind]. rewrite Htitle. change (gui s1) with g1 in Ea. rewrite Ea. cbn [mbind option_bind].
    cbn [mouse set_gui set_mouse drag_layer_id]. rewrite decide_False by lia. done.
  - split; try done. by eapply ready_ext.
  - unfold size_of at 1. cbn [gui set_mouse set_gui]. rewrite Hsz2. unfold size_of. cbn [gui set_gui s1 g1 fb set_fb].
    by apply same_screen_size.
Qed.

(** *** The release *)

(** Everything sent goes to a task. *)
Definition sent_to (task : Z) (w w' : Mail) : Prop :=
  inbox w' = inbox w /\ exists ms, out w' = out w ++ map (fun m => Send m task) ms.

Lemma sent_to_refl task w : sent_to task w w.
Proof. split; [done|]. exists []. by rewrite app_nil_r. Qed.

Lemma sent_to_send task m w w' : sent_to task w w' -> sent_to task w (send m task w').
Proof.
  intros [Hi [ms Ho]]. split; [done|]. exists (ms ++ [m]). unfold send, act. cbn [out]. by rewrite Ho, map_app, <- app_assoc.
Qed.

(** A program hears of the mouse only if its window is active. *)
Lemma SendMouseMessage_sent newpos posdiff buttons previous s :
  sent_to (default 0 (layer_task_map s !! active_id (gui s))) (mail s) (mail (SendMouseMessage newpos posdiff buttons previous s)) /\
  exists w, SendMouseMessage newpos posdiff buttons previous s = set_mail w s.
Proof.
  unfold SendMouseMessage, FindActiveLayerTask.
  assert (Hs : s = set_mail (mail s) s) by by destruct s.
  case_decide; [split; [apply sent_to_refl|by eexists]|].
  destruct (FindLayer (active_id (gui s)) (gui s)) as [l|]; [|split; [apply sent_to_refl|by eexists]].
  set (task := default 0 (layer_task_map s !! active_id (gui s))). case_decide; [split; [apply sent_to_refl|by eexists]|].
  set (P := fun s' => sent_to task (mail s) (mail s') /\ exists w, s' = set_mail w s).
  assert (Hstep : forall m s', P s' -> P (send_to m task s')).
  { intros m s' [H1 [w ->]]. split; [by apply sent_to_send|by eexists]. }
  assert (Hfold : forall ks (c : Z -> Prop) (d : forall i, Decision (c i)) f s', P s' -> P (fold_left (fun s i => if decide (c i) then send_to (f i) task s else s) ks s')).
  { intros ks c d f. induction ks as [|i ks IH]; intros s' Hs'; cbn; [done|]. apply IH. case_decide; [by apply Hstep|done]. }
  apply (Hfold _ (fun i => Z.land (Z.shiftr (Z.lxor previous buttons) i) 1 <> 0) _
    (fun i => button_message (vsub newpos (lpos l)) buttons i)).
  case_decide; [apply Hstep|]; by split; [apply sent_to_refl|eexists].
Qed.

Lemma drag_release e s st b id l w :
  dragging s st b id l w -> left e = false ->
  exists s', interrupt e s = Some s' /\ ready s' st b /\ drag_layer_id (mouse s') = 0 /\
    previous_buttons (mouse s') = ev_buttons e /\ cursor s' = place (size_of s) e (cursor s) /\
    FindLayer id (gui s') = Some l /\ same_tasks s s' /\
    sent_to (default 0 (layer_task_map s !! active_id (gui s))) (mail s) (mail s').
Proof.
  intros [Hr Hid (Hpos & Hin & Hb) Hl Hw Hleft] He. set (p := place (size_of s) e (cursor s)).
  destruct (SetPosition_ready p s st b Hr) as (f & E & Hsc & Hr1). pose proof (moved_but_mouse s st b p f Hr) as Hbm.
  set (g1 := set_fb f (alter_layer (mouse_id (mouse s)) (set_lpos p) (gui s))) in *.
  set (s1 := set_gui g1 (set_mouse (moved_mouse p (mouse s)) s)) in *.
  set (s2 := set_mouse (MkMouse (mouse_id (mouse s)) p 0 (previous_buttons (mouse s))) s1).
  set (newpos := ElementMin (vadd (cursor s) (V (ev_dx e) (ev_dy e))) (vadd (size_of s) (V (-1) (-1)))).
  destruct (SendMouseMessage_sent newpos (vsub p (cursor s)) (ev_buttons e) (previous_buttons (mouse s)) s2) as [Hsent [w' Hmail]].
  rewrite Hmail in Hsent.
  exists (set_mouse (MkMouse (mouse_id (mouse s)) p 0 (ev_buttons e)) (set_mail w' s2)). split; [|split_and!; try done].
  - unfold interrupt, OnInterrupt. fold (cursor s). fold (size_of s). fold (place (size_of s) e (cursor s)). fold p. fold newpos.
    rewrite E. cbn [mbind option_bind]. change (position (mouse s1)) with p. unfold left_button.
    change (previous_buttons (mouse s1)) with (previous_buttons (mouse s)). unfold left in He. rewrite Hleft, He.
    change (set_mouse (MkMouse (mouse_id (mouse s1)) p 0 (previous_buttons (mouse s))) s1) with s2.
    cbn [mbind option_bind]. change (drag_layer_id (mouse s2)) with 0. change (previous_buttons (mouse s2)) with (previous_buttons (mouse s)).
    rewrite decide_True, decide_True by done.
    match goal with |- context [SendMouseMessage ?a ?d ?x ?y ?t] => change (SendMouseMessage a d x y t)
      with (SendMouseMessage newpos (vsub p (cursor s)) (ev_buttons e) (previous_buttons (mouse s)) s2) end.
    by rewrite Hmail.
  - eapply ready_ext; [exact Hr1|done|done].
  - change (FindLayer id g1 = Some l). rewrite (proj1 Hbm); [done|]. intros ->. destruct Hr as [Hd _ Hm _].
    destruct (desktop_nodup _ _ _ Hd) as [_ Hn]. apply Hn. by rewrite Hm.
  - unfold same_tasks. split_and!; try done. unfold size_of. cbn. by apply same_screen_size.
Qed.
End drag.


(** *** Witness *)

(** The mouse cursor of the sample desktop, task 9 behind the window 2. *)
Definition sample_server (f : FrameBuffer) : Server :=
  MkServer (set_fb f sample_desktop) (MkConsole 2 2 0) (MkMouse 3 (V 4 2) 0 0) {[2 := 9]} (MkMail [] []).

