(* ===== verification/GuiInit.v ===== *)
(** * Starting the GUI server (servers/gui/gui.cpp, layer.cpp, mouse.cpp, console.cpp)

    The drawing of the start stays inside the buffers it writes to, and leaves
    a desktop: the state that the theorems about layers and the mouse ask for. *)

From stdpp Require Import base list numbers option gmap strings.
From Stdlib Require Import ZArith Lia.
From S2P Require Import Prelude Bytes Message AmFd GuiClient GuiGraphics GuiLayer GuiDraw GuiActivate GuiServer GuiDrag.

Local Open Scope Z_scope.

(** ** What a writer promises

    Inside its size a write succeeds and keeps what is known of the object
    written to. *)
Class Canvas {S} (writer : PixelWriter S) (I : S -> Prop) (W H : Z) : Prop := {
  canvas_write p c s : I s -> color_ok c -> 0 <= vx p < W -> 0 <= vy p < H ->
    exists s', Write writer p c s = Some s' /\ I s';
  canvas_size s : I s -> Width writer s = W /\ Height writer s = H;
}.

Lemma for_loop_total {S} (body : Z -> S -> option S) (I : S -> Prop) k i s :
  I s -> (forall j s, i <= j < i + Z.of_nat k -> I s -> exists s', body j s = Some s' /\ I s') ->
  exists s', for_loop body k i s = Some s' /\ I s'.
Proof. intros Hs Hb. apply (for_loop_ind body (fun _ => I)); [done|]. intros j s' Hj. by apply Hb. Qed.

(** A total step followed by another. *)
Lemma bind_total {A B} (o : option A) (f : A -> option B) (I : A -> Prop) (J : B -> Prop) :
  (exists a, o = Some a /\ I a) -> (forall a, I a -> exists b, f a = Some b /\ J b) -> exists b, (a ← o; f a) = Some b /\ J b.
Proof. intros (a & -> & Ha) H. by apply H. Qed.

(** A step with a known result. *)
Lemma bind_step {A B} (o : option A) (f : A -> option B) a r : o = Some a -> f a = r -> (a ← o; f a) = r.
Proof. by intros ->. Qed.

Section canvas.
Context {S : Type} (writer : PixelWriter S) (I : S -> Prop) (W H : Z) {canvas : Canvas writer I W H}.

(** A rectangle in the canvas. *)
Definition fits (pos size : Vector2D) : Prop :=
  0 <= vx pos /\ vx pos + vx size <= W /\ 0 <= vy pos /\ vy pos + vy size <= H.

Lemma FillRectangle_total pos size c s :
  I s -> color_ok c -> fits pos size -> exists s', FillRectangle writer pos size c s = Some s' /\ I s'.
Proof.
  intros Hs Hc (Hx & Hxw & Hy & Hyh). apply for_loop_total; [done|]. intros y s1 Hyj H1.
  apply for_loop_total; [done|]. intros x s2 Hxj H2. apply canvas_write; cbn; [done|done|lia|lia].
Qed.

Lemma DrawRectangle_total pos size c s :
  I s -> color_ok c -> fits pos size -> 1 <= vx size -> 1 <= vy size ->
  exists s', DrawRectangle writer pos size c s = Some s' /\ I s'.
Proof.
  intros Hs Hc (Hx & Hxw & Hy & Hyh) Hw Hh. apply (bind_total _ _ I); [|intros s0 H0].
  - apply for_loop_total; [done|]. intros x s1 Hj H1.
    apply (bind_total _ _ I); [|intros s2 H2]; apply canvas_write; cbn; done || lia.
  - apply for_loop_total; [done|]. intros y s1 Hj H1.
    apply (bind_total _ _ I); [|intros s2 H2]; apply canvas_write; cbn; done || lia.
Qed.

Lemma DrawDesktop_total s :
  I s -> 40 <= W -> 50 <= H -> exists s', DrawDesktop writer s = Some s' /\ I s'.
Proof.
  intros Hs HW HH. unfold DrawDesktop. destruct (canvas_size s Hs) as [-> ->].
  assert (0 <= Z.quot W 5 <= W).
  { split; [apply Z.quot_pos; lia|]. rewrite Z.quot_div_nonneg by lia. apply Z.div_le_upper_bound; lia. }
  assert (Hcol : forall x y z, 0 <= x < 256 -> 0 <= y < 256 -> 0 <= z < 256 -> color_ok (Color x y z)) by done.
  apply (bind_total _ _ I); [apply FillRectangle_total; unfold fits; cbn; done || (apply Hcol; lia) || lia|intros s1 H1].
  apply (bind_total _ _ I); [apply FillRectangle_total; unfold fits; cbn; done || (apply Hcol; lia) || lia|intros s2 H2].
  apply (bind_total _ _ I); [apply FillRectangle_total; unfold fits; cbn; done || (apply Hcol; lia) || lia|intros s3 H3].
  apply DrawRectangle_total; unfold fits; cbn; done || (apply Hcol; lia) || lia.
Qed.

Lemma Refresh_total s : I s -> 680 <= W -> 544 <= H -> exists s', Refresh writer s = Some s' /\ I s'.
Proof.
  intros Hs HW HH. apply FillRectangle_total; [done|unfold color_ok; cbn; lia|unfold fits, kColumns, kRows; cbn; lia].
Qed.
Context (font : list Z) (glyphs : nat) (Hfont : length font = (16 * glyphs)%nat).

Lemma WriteAscii_total pos c color s :
  I s -> color_ok color -> fits pos (V 8 16) -> exists s', WriteAscii writer font pos c color s = Some s' /\ I s'.
Proof.
  intros Hs Hc (Hx & Hxw & Hy & Hyh). cbn in Hxw, Hyh. unfold WriteAscii. destruct (GetFont font c) as [i|] eqn:E; [|by eexists].
  assert (Hi : 0 <= i /\ i + 16 <= Z.of_nat (length font)).
  { unfold GetFont in E. set (x := if decide (c < 128) then c else c - 256) in E. case_decide as Hlt; [done|].
    injection E as <-. unfold u32 in *. rewrite Hfont in *. change (2 ^ 32) with (16 * 2 ^ 28) in *.
    rewrite Zmult_mod_distr_l in *. set (y := (x mod _) mod _) in *. assert (0 <= y) by (apply Z.mod_pos_bound; lia). lia. }
  apply for_loop_total; [done|]. intros y s1 Hj H1. apply for_loop_total; [done|]. intros x s2 Hj' H2.
  destruct (getZ_Some font (i + y)) as [line ->]; [lia|]. cbn [mbind option_bind].
  case_decide; [|by eexists]. apply canvas_write; cbn; done || lia.
Qed.

Lemma WriteString_total color str : forall pos s,
  I s -> color_ok color -> fits pos (V (8 * Z.of_nat (length str)) 16) ->
  exists s', WriteString writer font pos str color s = Some s' /\ I s'.
Proof.
  induction str as [|c str IH]; intros pos s Hs Hc (Hx & Hxw & Hy & Hyh); [by eexists|].
  cbn [WriteString]. cbn [vx vy length] in *. apply (bind_total _ _ I).
  - apply WriteAscii_total; [done|done|]. unfold fits; cbn [vx vy]. lia.
  - intros s1 H1. apply IH; [done|done|]. unfold fits, vadd; cbn [vx vy]. lia.
Qed.

End canvas.

(** ** The writers *)

#[export] Instance screen_canvas f :
  Canvas screen_writer (fun f' => fb_ok f' /\ same_screen f f') (vx (ScreenSize f)) (vy (ScreenSize f)).
Proof.
  split.
  - intros p c f' [Hok [Hs Hm]] _ Hx Hy. destruct (WritePixel_paints p c f' Hok) as (f2 & E & Hp).
    { rewrite Hs. apply in_rect_spec. unfold screen; cbn [rpos rsize]. change (vx (V 0 0)) with 0. change (vy (V 0 0)) with 0. lia. }
    exists f2. split; [exact E|]. split; [apply Hp|]. split; [by rewrite (paints_screen _ _ _ _ Hp)|].
    destruct Hp as [_ (_ & _ & _ & Hpm) _]. by rewrite Hpm.
  - intros f' [_ Hs]. unfold screen_writer, Width, Height. by rewrite (same_screen_size _ _ Hs).
Qed.

Lemma Window_Write_total w p c :
  window_ok w -> 0 <= vx p < w_width w -> 0 <= vy p < w_height w -> is_Some (Window_Write p c w).
Proof.
  intros [Hs Hr Hrow [Sw Sh Sb Sr] _ [Ew Eh]] Hx Hy. unfold Window_Write, Shadow_Write.
  destruct (getZ_Some (data w) (vy p) ltac:(lia)) as [row Hg]. rewrite Hg. cbn [mbind option_bind].
  pose proof (proj1 (list.Forall_lookup _ _) Hrow _ _ (getZ_lookup _ _ _ Hg)) as Hlen. cbn beta in Hlen.
  rewrite setZ_Some by lia. cbn [mbind option_bind]. rewrite setZ_Some by lia. cbn [mbind option_bind].
  assert (Hi : 0 <= sb_width (shadow_buffer w) * vy p + vx p < Z.of_nat (length (buffer (shadow_buffer w)))) by (rewrite Sb, Ew, Eh; nia).
  rewrite pixel_index_small by lia. destruct (getZ_Some _ _ Hi) as [v ->]. cbn [mbind option_bind].
  rewrite setZ_Some by done. by eexists.
Qed.

#[export] Instance window_canvas w : Canvas WindowWriter (kept w) (w_width w) (w_height w).
Proof.
  split.
  - intros p c w' Hk Hc Hx Hy. pose proof Hk as [Hok (Hs & _)]. unfold Size in Hs. injection Hs as Hw Hh.
    destruct (Window_Write_total w' p c Hok) as [w2 E]; [lia|lia|]. exists w2. split; [exact E|]. by eapply Window_Write_kept.
  - intros w' [_ (Hs & _)]. unfold Size in Hs. injection Hs as Hw Hh. by split.
Qed.

#[export] Instance inner_canvas w : Canvas InnerWriter (kept w) (w_width w - 8) (w_height w - 28).
Proof.
  split.
  - intros p c w' Hk Hc Hx Hy. cbn. apply (canvas_write (Canvas := window_canvas w)); cbn; done || lia.
  - intros w' [_ (Hs & _)]. unfold Size in Hs. injection Hs as Hw Hh. cbn. lia.
Qed.

(** ** Windows *)

Lemma new_Window_total width height title :
  0 <= width < 2 ^ 29 -> 0 <= height < 2 ^ 29 -> width * height < 2 ^ 30 ->
  exists w, new_Window width height title = Some w /\ window_ok w /\ Size w = V width height /\
    transparent_color w = None /\ w_title w = title.
Proof.
  intros Hw Hh Hr. unfold new_Window. rewrite decide_False by lia. eexists. split; [done|]. split; [|done].
  assert (Hlen : u32 (4 * u32 width * u32 height) / 4 = width * height).
  { rewrite (u32_small width), (u32_small height), u32_small by lia. rewrite <- Z.mul_assoc, Z.mul_comm. by apply Z.div_mul. }
  split; cbn [w_width w_height data shadow_buffer new_ShadowBuffer sb_width sb_height].
  - lia.
  - rewrite length_replicate. lia.
  - apply Forall_replicate. rewrite length_replicate. lia.
  - pose proof (Z.mul_nonneg_nonneg width height ltac:(lia) ltac:(lia)) as Hpos.
    unfold new_ShadowBuffer. split; cbn [sb_width sb_height buffer]; rewrite ?length_replicate, ?Hlen, ?Z2Nat.id, ?(u32_small width), ?(u32_small height) by lia; lia.
  - apply Forall_replicate, Forall_replicate. unfold color_ok; cbn. lia.
  - unfold new_ShadowBuffer; cbn [sb_width sb_height]. by rewrite !u32_small by lia.
Qed.

Lemma getZ_total {A} (P : A -> Prop) (l : list A) i :
  Forall P l -> 0 <= i < Z.of_nat (length l) -> exists x, getZ l i = Some x /\ P x.
Proof.
  intros Hl Hi. destruct (getZ_Some l i Hi) as [x Hx]. exists x. split; [done|].
  apply (proj1 (list.Forall_lookup _ _) Hl _ _ (getZ_lookup _ _ _ Hx)).
Qed.

(** An entry of a table of rows. *)
Lemma table_total {A} (t : list (list A)) (w h y x : Z) :
  Z.of_nat (length t) = h -> Forall (fun row => Z.of_nat (length row) = w) t -> 0 <= y < h -> 0 <= x < w ->
  exists k, (row ← getZ t y; getZ row x) = Some k.
Proof.
  intros Hh Hw Hy Hx. destruct (getZ_total _ t y Hw) as (row & -> & Hrow); [lia|]. cbn [mbind option_bind].
  apply getZ_Some. lia.
Qed.

Section windows.
Context (font : list Z) (glyphs : nat) (Hfont : length font = (16 * glyphs)%nat).

Lemma kept_size w w' : kept w w' -> w_width w' = w_width w /\ w_height w' = w_height w.
Proof. intros [_ (Hs & _)]. by injection Hs. Qed.

Lemma DrawWindowTitle_total title active w0 w :
  kept w0 w -> 24 + 8 * Z.of_nat (length title) <= w_width w0 -> 21 <= w_height w0 ->
  exists w', DrawWindowTitle font title active w = Some w' /\ kept w0 w'.
Proof.
  intros Hk Hw Hh. unfold DrawWindowTitle. destruct (kept_size _ _ Hk) as [-> _].
  apply (bind_total _ _ (kept w0)); [apply (FillRectangle_total _ _ (w_width w0) (w_height w0)); [done|apply ToColor_ok|unfold fits; cbn; lia]|intros w1 H1].
  apply (bind_total _ _ (kept w0)).
  { apply (WriteString_total _ _ (w_width w0) (w_height w0) _ glyphs Hfont); [done|apply ToColor_ok|unfold fits; cbn [vx vy]; lia]. }
  intros w2 H2. apply for_loop_total; [done|]. intros y w3 Hy H3. apply for_loop_total; [done|]. intros x w4 Hx H4.
  unfold kCloseButtonHeight, kCloseButtonWidth in Hx, Hy.
  destruct (table_total close_button 16 14 y x) as [k ->]; [done|by repeat constructor|lia..|]. cbn [mbind option_bind].
  apply (canvas_write (Canvas := window_canvas w0)); [done|apply button_color_ok|unfold kCloseButtonWidth; cbn; lia|cbn; lia].
Qed.

Lemma DrawWindow_total title w0 w :
  kept w0 w -> 24 + 8 * Z.of_nat (length title) <= w_width w0 -> 21 <= w_height w0 ->
  exists w', DrawWindow font title w = Some w' /\ kept w0 w'.
Proof.
  intros Hk Hw Hh. unfold DrawWindow. destruct (kept_size _ _ Hk) as [-> ->].
  do 10 (apply (bind_total _ _ (kept w0));
    [apply (FillRectangle_total _ _ (w_width w0) (w_height w0)); [done|apply ToColor_ok|unfold fits; cbn; lia]|];
    clear w Hk; intros w Hk).
  by apply DrawWindowTitle_total.
Qed.

Lemma new_ToplevelWindow_total width height title :
  24 + 8 * Z.of_nat (length title) <= width < 2 ^ 29 -> 21 <= height < 2 ^ 29 -> width * height < 2 ^ 30 ->
  exists w, new_ToplevelWindow font width height title = Some w /\ window_ok w /\ Size w = V width height /\
    transparent_color w = None /\ w_title w = Some title.
Proof.
  intros Hw Hh Hr. destruct (new_Window_total width height (Some title)) as (w0 & E & Hok & Hs & Ht & Htt); [lia|lia|done|].
  unfold new_ToplevelWindow. rewrite E. cbn [mbind option_bind]. pose proof Hs as Hs'. injection Hs' as Hw0 Hh0.
  destruct (DrawWindow_total title w0 w0 (kept_refl _ Hok)) as (w & -> & Hk & (Hs1 & Ht1 & Htt1)); [lia|lia|].
  exists w. split_and!; congruence || done.
Qed.

(** *** The console *)

Definition console_ok (c : Console) : Prop := 0 <= cursor_row c < kRows /\ 0 <= cursor_column c < kColumns.

Lemma move_rows_total k n len : forall dst src step l,
  Z.of_nat (length l) = len -> 0 <= step -> 0 <= dst -> 0 <= src -> Z.of_nat n <= Z.abs (dst - src) ->
  (k = 0%nat \/ (dst + step * (Z.of_nat k - 1) + Z.of_nat n <= len /\ src + step * (Z.of_nat k - 1) + Z.of_nat n <= len)) ->
  exists l', move_rows k dst src step n l = Some l' /\ length l' = length l.
Proof.
  induction k as [|k IH]; intros dst src step l Hlen Hs Hd Hsr Hn Hk; [by eexists|]. destruct Hk as [|[Hk1 Hk2]]; [done|].
  cbn [move_rows]. rewrite decide_False by lia.
  assert (dst + Z.of_nat n <= len /\ src + Z.of_nat n <= len) by nia.
  rewrite read_at_Some by lia. cbn [mbind option_bind]. pose proof (length_slice l (Z.to_nat src) n ltac:(lia)) as Hsl.
  rewrite write_at_Some by lia. cbn [mbind option_bind].
  assert (Hls : length (splice l (Z.to_nat dst) (slice l (Z.to_nat src) n)) = length l) by (apply length_splice; lia).
  destruct (IH (dst + step) (src + step) step (splice l (Z.to_nat dst) (slice l (Z.to_nat src) n))) as (l' & -> & Hl'); try lia.
  exists l'. split; [done|]. by rewrite Hl', Hls.
Qed.

(** The rows below move up. *)
Lemma Window_Move_total w0 w dst src :
  kept w0 w -> vy dst < vy (rpos src) -> 0 <= vx dst -> 0 <= vy dst -> 0 <= vx (rpos src) -> 0 <= vx (rsize src) -> 0 < vy (rsize src) ->
  vx dst + vx (rsize src) <= w_width w0 -> vx (rpos src) + vx (rsize src) <= w_width w0 ->
  vy (rpos src) + vy (rsize src) <= w_height w0 -> vx dst = vx (rpos src) ->
  exists w', Window_Move dst src w = Some w' /\ kept w0 w'.
Proof.
  intros Hk Hup Hdx Hdy Hsx Hsw Hsh Hdw Hsw' Hsh' Hx. pose proof Hk as [[H1 H2 H3 [S1 S2 S3 S4] H5 [H6 H7]] Hsame].
  destruct (kept_size _ _ Hk) as [Ew Eh]. rewrite Ew, Eh in *.
  unfold Window_Move, Shadow_Move. rewrite decide_False, decide_True by lia. rewrite H6.
  rewrite H6, H7 in S3. set (W := w_width w0) in *. set (H := w_height w0) in *.
  rewrite !pixel_index_small by nia.
  destruct (move_rows_total (Z.to_nat (vy (rsize src))) (Z.to_nat (vx (rsize src))) (W * H)
    (W * vy dst + vx dst) (W * vy (rpos src) + vx (rpos src)) W (buffer (shadow_buffer w))) as (l' & -> & Hl'); try done; try nia.
  cbn [mbind option_bind]. eexists. split; [done|]. split; [|exact Hsame].
  split; cbn [data w_width w_height shadow_buffer set_shadow set_buffer sb_width sb_height buffer]; rewrite ?Ew, ?Eh; try done; try lia.
  split; cbn [buffer sb_width sb_height set_buffer]; rewrite ?Hl'; lia.
Qed.

Lemma Newline_total w0 c w :
  kept w0 w -> Size w0 = V 680 544 -> console_ok c ->
  exists c' w', Newline c w = Some (c', w') /\ kept w0 w' /\ console_ok c' /\ console_layer c' = console_layer c.
Proof.
  intros Hk Hs [Hr Hc]. injection Hs as Hw Hh. unfold Newline. case_decide as Hlast.
  - eexists _, _. split; [done|]. split_and!; try done; unfold console_ok, kRows, kColumns in *; cbn; lia.
  - destruct (Window_Move_total w0 w (V 0 (16 * kTitleRows)) (Rect (V 0 (16 * (kTitleRows + 1))) (V (8 * kColumns) (16 * (kRows - kTitleRows - 1)))))
      as (w1 & -> & H1); [done|unfold kTitleRows, kRows, kColumns; cbn; lia..|]. cbn [mbind option_bind].
    destruct (FillRectangle_total _ _ _ _ (canvas := window_canvas w0) (V 0 (16 * (kRows - 1))) (V (8 * kColumns) 16) kDesktopBGColor w1)
      as (w2 & -> & H2); [done|unfold color_ok; cbn; lia|unfold fits, kRows, kColumns; cbn; lia|]. cbn [mbind option_bind].
    eexists _, _. split; [done|]. split_and!; try done; unfold console_ok, kRows, kColumns in *; cbn; lia.
Qed.

(** Whatever is written to the console, the cursor stays on it. *)
Lemma put_chars_total w0 s : forall c w,
  kept w0 w -> Size w0 = V 680 544 -> console_ok c ->
  exists c' w', put_chars font s c w = Some (c', w') /\ kept w0 w' /\ console_ok c' /\ console_layer c' = console_layer c.
Proof.
  induction s as [|x s IH]; intros c w Hk Hs Hc; [by eexists _, _|]. cbn [put_chars].
  assert (exists c' w', (if decide (x = 10) then Newline c w
      else if decide (cursor_column c < kColumns - 1) then
        w ← WriteAscii WindowWriter font (V (8 * cursor_column c) (16 * cursor_row c)) x kDesktopFGColor w;
        Some (MkConsole (cursor_row c) (cursor_column c + 1) (console_layer c), w)
      else Some (c, w)) = Some (c', w') /\ kept w0 w' /\ console_ok c' /\ console_layer c' = console_layer c) as (c' & w' & -> & Hk' & Hc' & Hl').
  { case_decide; [by apply Newline_total|]. case_decide as Hcol; [|by eexists _, _].
    pose proof Hs as Hs'. injection Hs' as Hw Hh. destruct Hc as [Hr Hc].
    destruct (WriteAscii_total _ _ _ _ (canvas := window_canvas w0) font glyphs Hfont (V (8 * cursor_column c) (16 * cursor_row c)) x kDesktopFGColor w)
      as (w1 & -> & H1); [done|unfold color_ok; cbn; lia|unfold fits, kRows, kColumns in *; cbn [vx vy]; lia|].
    cbn [mbind option_bind]. eexists _, _. split; [done|]. split_and!; try done; unfold console_ok, kRows, kColumns in *; cbn; lia. }
  cbn [mbind option_bind]. destruct (IH c' w' Hk' Hs Hc') as (c2 & w2 & E & Hk2 & Hc2 & Hl2).
  exists c2, w2. split_and!; try done. congruence.
Qed.
End windows.

(** ** The layers *)

Definition opaque_window (w : Window) (size : Vector2D) : Prop :=
  window_ok w /\ Size w = size /\ transparent_color w = None.

Lemma kept_opaque w w' size : opaque_window w size -> kept w w' -> opaque_window w' size.
Proof. intros (_ & Hs & Ht) [Hok (Hs' & Ht' & _)]. split_and!; congruence || done. Qed.

(** The layers of the background, the console, the main window and the mouse. *)
Definition start_layers (w1 w2 w3 w4 : Window) (p4 : Vector2D) : list Layer :=
  [MkLayer 1 (V 0 0) (Some w1) false; MkLayer 2 (V 0 0) (Some w2) false; MkLayer 3 (V 300 100) (Some w3) true;
   MkLayer 4 p4 (Some w4) false].

Record start_windows (f : FrameBuffer) (w1 w2 w3 w4 : Window) : Prop := {
  sw_1 : opaque_window w1 (ScreenSize f);
  sw_2 : opaque_window w2 (V 680 544);
  sw_3 : opaque_window w3 (V 160 68);
  sw_4 : window_ok w4 /\ transparent_color w4 <> None;
}.

(** The state while the server starts: the mouse is not yet in the stack, or on
    top of it. *)
Definition start_gui (f : FrameBuffer) (w1 w2 w3 w4 : Window) (p4 : Vector2D) (top : list Z) (m : Z) : Gui :=
  MkGui f (start_layers w1 w2 w3 w4 p4) ([1; 2; 3] ++ top) 4 0 m [3].

Lemma start_gui_ok f w1 w2 w3 w4 p4 top m :
  fb_ok f -> start_windows f w1 w2 w3 w4 -> top = [] \/ top = [4] -> gui_ok (start_gui f w1 w2 w3 w4 p4 top m).
Proof.
  intros Hf [(Hk1 & Hs1 & Ht1) (Hk2 & _ & Ht2) (Hk3 & _ & Ht3) [Hk4 Ht4]] Htop.
  assert (Hl : forall w, window_ok w -> forall i p d, layer_ok (MkLayer i p (Some w) d)) by (intros ? ? ? ? ? ? [= <-]; done).
  assert (Hst : stack_layers (start_gui f w1 w2 w3 w4 p4 top m) = take 3 (start_layers w1 w2 w3 w4 p4) ++ omap (fun p => FindLayer p (start_gui f w1 w2 w3 w4 p4 top m)) top).
  { unfold stack_layers. cbn [layer_stack start_gui]. rewrite omap_app. by f_equal. }
  assert (Hbot : forall p, in_rect p (screen f) = true -> covers_pixel p (MkLayer 1 (V 0 0) (Some w1) false) = true).
  { intros p Hp. unfold covers_pixel, opaque, layer_rect. cbn. by rewrite Ht1, Hs1. }
  split; try done.
  - cbn [layers start_gui]. unfold start_layers. by rewrite !list.Forall_cons; split_and!; try apply Hl.
  - cbn [layer_stack start_gui]. apply list.Forall_app. split.
    + rewrite !list.Forall_cons. split_and!; try done; by eexists.
    + destruct Htop as [-> | ->]; [done|]. constructor; [|done]. split; [done|by eexists].
  - destruct Htop as [-> | ->]; [by apply (bool_decide_unpack (NoDup [1; 2; 3]))|by apply (bool_decide_unpack (NoDup [1; 2; 3; 4]))].
  - rewrite Hst. eexists _, _. split; [reflexivity|]. split.
    + unfold start_layers. cbn [take]. repeat (constructor; [unfold opaque; cbn [window]; by rewrite bool_decide_eq_true|]). constructor.
    + destruct Htop as [-> | ->]; [constructor|]. cbn. constructor; [|constructor]. unfold opaque. cbn. by rewrite bool_decide_eq_false.
  - intros p Hp. rewrite Hst. left. by apply Hbot.
Qed.

Lemma start_desktop f w1 w2 w3 w4 p4 :
  fb_ok f -> start_windows f w1 w2 w3 w4 -> desktop (start_gui f w1 w2 w3 w4 p4 [4] 4) [1; 2; 3] 1.
Proof.
  intros Hf Hw. split; [apply start_gui_ok; [done|done|by right]|done| | |by left].
  - destruct Hw as [(_ & _ & Ht1) (_ & _ & Ht2) (_ & _ & Ht3) _]. rewrite !list.Forall_cons.
    split_and!; try done; (eexists; split; [reflexivity|]; unfold opaque; cbn; by rewrite bool_decide_eq_true).
  - destruct Hw as [(_ & Hs1 & Ht1) _ _ _]. eexists. split; [reflexivity|]. intros p Hp.
    unfold covers_pixel, opaque, layer_rect. cbn. by rewrite Ht1, Hs1.
Qed.

Lemma start_windows_fb f f' w1 w2 w3 w4 : same_screen f f' -> start_windows f w1 w2 w3 w4 -> start_windows f' w1 w2 w3 w4.
Proof. intros Hs [H1 H2 H3 H4]. split; try done. by rewrite (same_screen_size _ _ Hs). Qed.

(** A screen with room for the console. *)
Definition screen_fits (f : FrameBuffer) : Prop :=
  fb_ok f /\ 680 <= horizontal_resolution f < 2 ^ 29 /\ 544 <= vertical_resolution f < 2 ^ 29.

Lemma screen_fits_size f : screen_fits f -> ScreenSize f = V (horizontal_resolution f) (vertical_resolution f).
Proof. intros (_ & Hh & Hv). unfold ScreenSize. by rewrite !s32_small by lia. Qed.

Lemma InitializeScreen_total f :
  screen_fits f -> exists f', InitializeScreen f = Some f' /\ fb_ok f' /\ same_screen f f'.
Proof.
  intros Hf. pose proof (screen_fits_size f Hf) as Hs. destruct Hf as (Hok & Hh & Hv). unfold InitializeScreen.
  apply (bind_total _ _ (fun f' => fb_ok f' /\ same_screen f f')).
  - apply (DrawDesktop_total _ _ _ _ (canvas := screen_canvas f)); rewrite ?Hs; cbn; done || lia.
  - intros f1 H1. apply (Refresh_total _ _ _ _ (canvas := screen_canvas f)); rewrite ?Hs; cbn; done || lia.
Qed.

Lemma InitializeLayer_total f :
  screen_fits f ->
  exists w1 w2, InitializeLayer new_Console f = Some (MkConsole 2 2 2,
      MkGui f [MkLayer 1 (V 0 0) (Some w1) false; MkLayer 2 (V 0 0) (Some w2) false] [1; 2] 2 0 0 []) /\
    opaque_window w1 (ScreenSize f) /\ opaque_window w2 (V 680 544).
Proof.
  intros Hf. pose proof (screen_fits_size f Hf) as Hs. destruct Hf as ([H1 H2 H3 H4 H5] & Hh & Hv).
  unfold InitializeLayer. rewrite Hs. cbn [vx vy].
  destruct (new_Window_total (horizontal_resolution f) (vertical_resolution f) None) as (b0 & -> & Hb0 & Sb & Tb & _); [lia|lia|nia|].
  cbn [mbind option_bind]. injection Sb as Wb Eb.
  destruct (DrawDesktop_total _ _ _ _ (canvas := window_canvas b0) b0) as (w1 & -> & K1); [done|lia|lia|]. cbn [mbind option_bind].
  destruct (new_Window_total (kColumns * 8) (kRows * 16) None) as (c0 & -> & Hc0 & Sc & Tc & _); [unfold kColumns, kRows; lia..|].
  cbn [mbind option_bind]. injection Sc as Wc Ec. unfold kColumns, kRows in Wc, Ec.
  destruct (Refresh_total _ _ _ _ (canvas := window_canvas c0) c0) as (w2 & -> & K2); [done|lia|lia|]. cbn [mbind option_bind].
  exists w1, w2. split; [reflexivity|]. split.
  - eapply kept_opaque; [|exact K1]. split_and!; try done. unfold Size. congruence.
  - eapply kept_opaque; [|exact K2]. split_and!; try done. unfold Size. by rewrite Wc, Ec.
Qed.

(** *** The mouse *)

Lemma cursor_color_ok k : color_ok (cursor_color k).
Proof. unfold cursor_color, color_ok. repeat case_decide; cbn; lia. Qed.

Lemma DrawMouseCursor_total w0 w :
  kept w0 w -> Size w0 = V 15 24 -> exists w', DrawMouseCursor WindowWriter (V 0 0) w = Some w' /\ kept w0 w'.
Proof.
  intros Hk Hs. injection Hs as Hw Hh. apply for_loop_total; [done|]. intros y w1 Hy H1.
  apply for_loop_total; [done|]. intros x w2 Hx H2. unfold kMouseCursorHeight, kMouseCursorWidth in Hx, Hy.
  destruct (table_total mouse_cursor_shape 15 24 y x) as [k ->]; [done|by repeat constructor|lia..|]. cbn [mbind option_bind].
  apply (canvas_write (Canvas := window_canvas w0)); [done|apply cursor_color_ok|cbn; lia|cbn; lia].
Qed.

(** The layer of the mouse, not in the stack yet, goes to its first place. *)
Lemma Move_hidden f w1 w2 w3 w4 p4 p :
  fb_ok f -> start_windows f w1 w2 w3 w4 ->
  exists f', Move 4 p (start_gui f w1 w2 w3 w4 p4 [] 0) = Some (start_gui f' w1 w2 w3 w4 p [] 0) /\
    fb_ok f' /\ same_screen f f'.
Proof.
  intros Hf Hw. pose proof (start_gui_ok f w1 w2 w3 w4 p [] 0 Hf Hw ltac:(by left)) as Hok.
  destruct (DrawArea_spec (Rect p4 (Size w4)) _ Hok) as (f' & E & Hf' & Hsc & _); [apply Hw|].
  exists f'. split; [|by split]. unfold Move. change (FindLayer 4 (start_gui f w1 w2 w3 w4 p4 [] 0)) with (Some (MkLayer 4 p4 (Some w4) false)).
  cbn [mbind option_bind window lpos].
  change (alter_layer 4 (set_lpos p) (start_gui f w1 w2 w3 w4 p4 [] 0)) with (start_gui f w1 w2 w3 w4 p [] 0). rewrite E.
  cbn [mbind option_bind]. unfold Draw. change (set_fb f' (start_gui f w1 w2 w3 w4 p [] 0)) with (start_gui f' w1 w2 w3 w4 p [] 0).
  apply draw_from_none.
  - apply (go_stack _ (start_gui_ok f' w1 w2 w3 w4 p [] 0 Hf' (start_windows_fb _ _ _ _ _ _ Hsc Hw) ltac:(by left))).
  - cbn [layer_stack start_gui app]. rewrite !not_elem_of_cons. split_and!; [done..|apply not_elem_of_nil].
Qed.

Lemma InitializeMouse_total old_pos f w1 w2 w3 c msgs :
  fb_ok f -> opaque_window w1 (ScreenSize f) -> opaque_window w2 (V 680 544) -> opaque_window w3 (V 160 68) ->
  exists f' w4, InitializeMouse old_pos (MkServer (MkGui f (take 3 (start_layers w1 w2 w3 w1 old_pos)) [1; 2; 3] 3 0 0 [3]) c
      (MkMouse 0 (V 0 0) 0 0) ∅ (MkMail msgs [])) =
    Some (MkServer (start_gui f' w1 w2 w3 w4 (V 200 200) [4] 4) c (MkMouse 4 (V 200 200) 0 0) ∅ (MkMail msgs [])) /\
    fb_ok f' /\ same_screen f f' /\ start_windows f' w1 w2 w3 w4.
Proof.
  intros Hf H1 H2 H3. unfold InitializeMouse.
  destruct (new_Window_total kMouseCursorWidth kMouseCursorHeight None) as (w0 & -> & Hok & Hs & _ & _);
    [unfold kMouseCursorWidth, kMouseCursorHeight; lia..|]. cbn [mbind option_bind].
  set (wt := SetTransparentColor (Some kMouseTransparentColor) w0).
  assert (Hwt : window_ok wt) by (by destruct Hok).
  destruct (DrawMouseCursor_total wt wt) as (w4 & -> & [Hk4 (_ & Ht4 & _)]); [by apply kept_refl|exact Hs|]. cbn [mbind option_bind].
  assert (Hsw : start_windows f w1 w2 w3 w4) by (split; [done..|]; split; [done|]; by rewrite Ht4).
  destruct (Move_hidden f w1 w2 w3 w4 old_pos (V 200 200) Hf Hsw) as (f' & E & Hf' & Hsc).
  exists f', w4. split; [|split_and!; [done|done|by eapply start_windows_fb]].
  change (add_layer w4 old_pos (gui (MkServer (MkGui f (take 3 (start_layers w1 w2 w3 w1 old_pos)) [1; 2; 3] 3 0 0 [3]) c
      (MkMouse 0 (V 0 0) 0 0) ∅ (MkMail msgs [])))) with (start_gui f w1 w2 w3 w4 old_pos [] 0, 4). cbv iota beta.
  unfold SetPosition. cbn [mouse set_mouse set_gui mouse_id gui drag_layer_id previous_buttons]. rewrite E. reflexivity.
Qed.

Section init.
Context (font : list Z) (glyphs : nat) (Hfont : length font = (16 * glyphs)%nat).

Lemma InitializeMainWindow_total f l1 l2 :
  layer_id l1 = 1 -> layer_id l2 = 2 ->
  exists w3, InitializeMainWindow font (MkGui f [l1; l2] [1; 2] 2 0 0 []) =
      Some (MkGui f [l1; l2; MkLayer 3 (V 300 100) (Some w3) true] [1; 2; 3] 3 0 0 [3]) /\ opaque_window w3 (V 160 68).
Proof.
  intros Hl1 Hl2. unfold InitializeMainWindow.
  destruct (new_ToplevelWindow_total font glyphs Hfont 160 68 (chars "Hello Window")) as (w & -> & Hok & Hs & Ht & _); [cbn; lia..|].
  cbn [mbind option_bind]. injection Hs as Hw Hh.
  destruct (WriteString_total _ _ _ _ (canvas := inner_canvas w) font glyphs Hfont (Color 0 0 0) (chars "Welcome to") (V 0 0) w) as (w1 & -> & K1);
    [done|unfold color_ok; cbn; lia|unfold fits; cbn; lia|]. cbn [mbind option_bind].
  destruct (WriteString_total _ _ _ _ (canvas := inner_canvas w) font glyphs Hfont (Color 0 0 0) (chars "kinOS world!") (V 16 16) w1) as (w2 & -> & K2);
    [done|unfold color_ok; cbn; lia|unfold fits; cbn; lia|]. cbn [mbind option_bind].
  exists w2. destruct l1 as [i1 p1 o1 d1], l2 as [i2 p2 o2 d2]. cbn in Hl1, Hl2. subst. split; [reflexivity|].
  eapply kept_opaque; [|exact K2]. split_and!; try done. unfold Size. by rewrite Hw, Hh.
Qed.
(** *** The console *)

(** Only the window of the console and the screen change. *)
Lemma PutString_start line f w1 w2 w3 w4 p4 c :
  fb_ok f -> start_windows f w1 w2 w3 w4 -> console_ok c -> console_layer c = 2 ->
  exists f' w2' c', PutString font line c (start_gui f w1 w2 w3 w4 p4 [4] 4) = Some (c', start_gui f' w1 w2' w3 w4 p4 [4] 4) /\
    fb_ok f' /\ same_screen f f' /\ start_windows f' w1 w2' w3 w4 /\ console_ok c' /\ console_layer c' = 2.
Proof.
  intros Hf Hw Hc Hl. unfold PutString. rewrite Hl.
  change (FindLayer 2 (start_gui f w1 w2 w3 w4 p4 [4] 4)) with (Some (MkLayer 2 (V 0 0) (Some w2) false)). cbn [mbind option_bind window].
  pose proof (sw_2 _ _ _ _ _ Hw) as Hw2. pose proof Hw2 as (Hok2 & Hs2 & _).
  destruct (put_chars_total font glyphs Hfont w2 line c w2 (kept_refl _ Hok2) Hs2 Hc) as (c' & w2' & -> & Hk & Hc' & Hl').
  cbn [mbind option_bind]. rewrite Hl', Hl.
  change (alter_layer 2 (set_window (Some w2')) (start_gui f w1 w2 w3 w4 p4 [4] 4)) with (start_gui f w1 w2' w3 w4 p4 [4] 4).
  assert (Hw' : start_windows f w1 w2' w3 w4) by (destruct Hw; split; [done|by eapply kept_opaque|done|done]).
  destruct (Draw_good 2 (start_gui f w1 w2' w3 w4 p4 [4] 4) (MkLayer 2 (V 0 0) (Some w2') false) w2') as (f' & -> & Hf' & Hsc & _); try done.
  { apply start_gui_ok; [done|done|by right]. }
  { right. left. }
  cbn [mbind option_bind]. exists f', w2', c'. split; [done|]. split_and!; try done; [by eapply start_windows_fb|congruence].
Qed.

Lemma PrintMessage_start lines : forall f w1 w2 w3 w4 p4 c m msgs,
  fb_ok f -> start_windows f w1 w2 w3 w4 -> console_ok c -> console_layer c = 2 ->
  exists f' w2' c', fold_left (fun s line => s ← s; '(c, g) ← PutString font line (console s) (gui s); Some (set_console c (set_gui g s)))
      lines (Some (MkServer (start_gui f w1 w2 w3 w4 p4 [4] 4) c m ∅ (MkMail msgs []))) =
    Some (MkServer (start_gui f' w1 w2' w3 w4 p4 [4] 4) c' m ∅ (MkMail msgs [])) /\
    fb_ok f' /\ same_screen f f' /\ start_windows f' w1 w2' w3 w4.
Proof.
  induction lines as [|line lines IH]; intros f w1 w2 w3 w4 p4 c m msgs Hf Hw Hc Hl; [by exists f, w2, c|]. cbn [fold_left].
  destruct (PutString_start line f w1 w2 w3 w4 p4 c Hf Hw Hc Hl) as (f1 & w2' & c1 & E & Hf1 & Hs1 & Hw1 & Hc1 & Hl1).
  cbn [mbind option_bind console gui]. rewrite E. cbn [mbind option_bind].
  destruct (IH f1 w1 w2' w3 w4 p4 c1 m msgs Hf1 Hw1 Hc1 Hl1) as (f2 & w2'' & c2 & E2 & Hf2 & Hs2 & Hw2).
  exists f2, w2'', c2. split; [exact E2|]. split_and!; try done. destruct Hs1, Hs2. split; congruence.
Qed.

Lemma PrintMessage_total f w1 w2 w3 w4 p4 m msgs :
  fb_ok f -> start_windows f w1 w2 w3 w4 ->
  exists f' w2' c', PrintMessage font (MkServer (start_gui f w1 w2 w3 w4 p4 [4] 4) (MkConsole 2 2 2) m ∅ (MkMail msgs [])) =
    Some (MkServer (start_gui f' w1 w2' w3 w4 p4 [4] 4) c' m ∅ (MkMail msgs [])) /\
    fb_ok f' /\ same_screen f f' /\ start_windows f' w1 w2' w3 w4.
Proof.
  intros Hf Hw. apply PrintMessage_start; [done|done| |done]. unfold console_ok, kRows, kColumns; cbn; lia.
Qed.
End init.

(** The last drawing shows everything. *)
Lemma start_shown f w1 w2 w3 w4 c msgs :
  fb_ok f -> start_windows f w1 w2 w3 w4 ->
  let s := MkServer (start_gui f w1 w2 w3 w4 (V 200 200) [4] 4) c (MkMouse 4 (V 200 200) 0 0) ∅ (MkMail msgs []) in
  exists f', DrawArea (Rect (V 0 0) (ScreenSize (fb (gui s)))) (gui s) = Some (set_fb f' (gui s)) /\
    ready (set_gui (set_fb f' (gui s)) s) [1; 2; 3] 1 /\ same_screen f f'.
Proof.
  intros Hf Hw s. set (g := start_gui f w1 w2 w3 w4 (V 200 200) [4] 4).
  pose proof (start_desktop f w1 w2 w3 w4 (V 200 200) Hf Hw) as Hd. fold g in Hd.
  destruct (redraw_all g f (dk_ok _ _ _ Hd) Hf (conj eq_refl eq_refl)) as (f' & E & Hf' & Hs & Hp).
  change (set_fb f g) with g in E. change (fb g) with f in Hs, Hp.
  exists f'. split; [exact E|]. split; [|exact Hs]. split; [| |reflexivity|].
  - apply (start_desktop f' w1 w2 w3 w4 (V 200 200) Hf'). by eapply start_windows_fb.
  - intros p Hin. unfold good. change (fb (gui (set_gui (set_fb f' (gui s)) s))) with f' in *.
    rewrite (proj2 Hs). apply Hp. by rewrite <- (proj1 Hs).
  - exists (MkLayer 4 (V 200 200) (Some w4) false), w4. exact (conj eq_refl eq_refl).
Qed.

Lemma same_screen_trans f1 f2 f3 : same_screen f1 f2 -> same_screen f2 f3 -> same_screen f1 f3.
Proof. intros [] []. split; congruence. Qed.

Lemma screen_fits_same f f' : screen_fits f -> fb_ok f' -> same_screen f f' -> screen_fits f'.
Proof.
  intros Hf Hok Hs. pose proof (same_screen_size _ _ Hs) as Hsz. rewrite (screen_fits_size f Hf) in Hsz. destruct Hf as (_ & Hh & Hv).
  pose proof Hok as [A1 A2 [A3 A4] A5 A6]. unfold ScreenSize in Hsz. rewrite !s32_small in Hsz by lia. injection Hsz as E1 E2.
  split; [done|]. lia.
Qed.

(** Everything before the lines on the console. *)
Lemma start_layers_total font glyphs old_pos f msgs :
  length font = (16 * glyphs)%nat -> screen_fits f ->
  exists f' w1 w2 w3 w4, fb_ok f' /\ same_screen f f' /\ start_windows f' w1 w2 w3 w4 /\
    InitializeAll font old_pos f msgs =
    Some (MkServer (start_gui f' w1 w2 w3 w4 (V 200 200) [4] 4) (MkConsole 2 2 2) (MkMouse 4 (V 200 200) 0 0) ∅ (MkMail msgs [])).
Proof.
  intros Hfont Hf. destruct (InitializeScreen_total f Hf) as (f1 & E1 & Hf1 & Hs1).
  destruct (InitializeLayer_total f1 (screen_fits_same _ _ Hf Hf1 Hs1)) as (w1 & w2 & E2 & H1 & H2).
  destruct (InitializeMainWindow_total font glyphs Hfont f1 (MkLayer 1 (V 0 0) (Some w1) false) (MkLayer 2 (V 0 0) (Some w2) false)
    eq_refl eq_refl) as (w3 & E3 & H3).
  destruct (InitializeMouse_total old_pos f1 w1 w2 w3 (MkConsole 2 2 2) msgs Hf1 H1 H2 H3) as (f2 & w4 & E4 & Hf2 & Hs2 & Hw2).
  exists f2, w1, w2, w3, w4. split; [exact Hf2|]. split; [by eapply same_screen_trans|]. split; [exact Hw2|].
  apply (bind_step _ _ _ _ E1). apply (bind_step _ _ _ _ E2). apply (bind_step _ _ _ _ E3). exact E4.
Qed.

(** The server starts on every screen with room for its console: nothing is
    written outside of a buffer, and before the first message is received the
    screen shows the layers of the background, the console, the main window and
    the mouse, which are as the operations on layers and on the mouse need
    them. *)
Theorem Initialize_ready font glyphs old_pos f msgs :
  length font = (16 * glyphs)%nat -> screen_fits f ->
  exists s, Initialize font old_pos f msgs = Some s /\ ready s [1; 2; 3] 1 /\ mail s = MkMail msgs [] /\
    cursor s = V 200 200 /\ drag_layer_id (mouse s) = 0 /\ active_id (gui s) = 0 /\
    window_layer_id (gui s) = [3] /\ layer_task_map s = ∅ /\ size_of s = ScreenSize f.
Proof.
  intros Hfont Hf. destruct (start_layers_total font glyphs old_pos f msgs Hfont Hf) as (f1 & w1 & w2 & w3 & w4 & Hf1 & Hs1 & Hw1 & E1).
  destruct (PrintMessage_total font glyphs Hfont f1 w1 w2 w3 w4 (V 200 200) (MkMouse 4 (V 200 200) 0 0) msgs Hf1 Hw1)
    as (f2 & w2' & c & E2 & Hf2 & Hs2 & Hw2).
  destruct (start_shown f2 w1 w2' w3 w4 c msgs Hf2 Hw2) as (f3 & E3 & Hr & Hs3).
  eexists. split; [apply (bind_step _ _ _ _ E1), (bind_step _ _ _ _ E2), (bind_step _ _ _ _ E3); reflexivity|]. split; [exact Hr|]. split_and!; try reflexivity.
  apply same_screen_size. by do 2 (eapply same_screen_trans; [eassumption|]).
Qed.

(** *** Witness *)

(** A screen just as large as the console. *)
Definition sample_screen : FrameBuffer :=
  MkFrameBuffer (replicate (Z.to_nat (680 * 544)) 0) 680 680 544 kPixelBGRResv8BitPerColor.

Lemma Initialize_ready_witness :
  exists s, Initialize [] (V (-3) 7) sample_screen [] = Some s /\ ready s [1; 2; 3] 1 /\ cursor s = V 200 200.
Proof.
  destruct (Initialize_ready [] 0 (V (-3) 7) sample_screen []) as (s & E & Hr & _ & Hc & _).
  - reflexivity.
  - assert (Hlen : Z.of_nat (length (frame_buffer sample_screen)) = 680 * 544).
    { unfold sample_screen. cbn [frame_buffer]. rewrite length_replicate. lia. }
    split; [|cbn; lia]. split; cbn [horizontal_resolution vertical_resolution pixels_per_scan_line sample_screen]; rewrite ?Hlen; lia.
  - exists s. split; [exact E|]. split; [exact Hr|exact Hc].
Defined.
