(* ===== verification/TextArea.v ===== *)
(** * Text in a window (servers/terminal/terminal.cpp, servers/log/log.cpp)

    The terminal and the log server write characters into their windows with
    the same routines: the cursor, the end of a line, scrolling. *)

From stdpp Require Import base list numbers option.
From Stdlib Require Import ZArith Lia.
From S2P Require Import Prelude Bytes Message AmFd GuiClient GuiGraphics.

Local Open Scope Z_scope.

(** [src/servers/terminal/terminal.hpp:13-18] [kRows] *)
Definition kRows : Z := 15.
Definition kColumns : Z := 60.
Definition Marginx : Z := 4.
Definition Marginy : Z := 24.
Definition kCanvasWidth : Z := kColumns * 8 + 8.
Definition kCanvasHeight : Z := kRows * 16 + 8.

(** The cursor and the mail of the task.
    [src/servers/terminal/terminal.hpp:19-20] [cursorx] *)
Record Area := MkArea { cursorx : Z; cursory : Z; mail : Mail }.
Definition set_cursorx x a := MkArea x (cursory a) (mail a).
Definition set_cursory y a := MkArea (cursorx a) y (mail a).
Definition set_mail w a := MkArea (cursorx a) (cursory a) w.

(** [src/servers/terminal/terminal.hpp:24-24] [kTopLeftMargin] *)
Definition kTopLeftMargin : Vector2D := V 4 24.

(** [src/servers/terminal/terminal.cpp:6-8] [CalcCursorPos] *)
Definition CalcCursorPos (a : Area) : Vector2D :=
  vadd kTopLeftMargin (V (4 + 8 * cursorx a) (4 + 16 * cursory a)).

Section area.
Context (find_server : list Z -> Z * Z) (layer_id : Z).

Definition draws (f : Mail -> Mail) (a : Area) : Area := set_mail (f (mail a)) a.

(** A character at the cursor.
    [src/servers/terminal/terminal.cpp:43-44] [Print] *)
Definition write_char (color c : Z) (a : Area) : Area :=
  draws (WinWriteChar find_server layer_id true (vx (CalcCursorPos a)) (vy (CalcCursorPos a)) color c) a.

(** [src/servers/terminal/terminal.cpp:10-14] [DrawCursor] *)
Definition DrawCursor (visible : bool) (a : Area) : Area :=
  draws (WinFillRectangle find_server layer_id true (vx (CalcCursorPos a)) (vy (CalcCursorPos a)) 7 15
    (if visible then 0xffffff else 0)) a.

(** [src/servers/terminal/terminal.cpp:22-28] [Scroll1] *)
Definition Scroll1 (a : Area) : Area :=
  draws (fun w =>
    let w := WinMoveRec find_server layer_id false (Marginx + 4) (Marginy + 4) (Marginx + 4) (Marginy + 4 + 16)
               (8 * kColumns) (16 * (kRows - 1)) w in
    let w := WinFillRectangle find_server layer_id false 4 (24 + 4 + 16 * cursory a) (8 * kColumns) 16 0 w in
    WinRedraw find_server layer_id w) a.

(** [src/servers/terminal/terminal.cpp:31-38] [Print] *)
Definition newline (a : Area) : Area :=
  let a := set_cursorx 0 a in
  if decide (cursory a < kRows - 1) then set_cursory (cursory a + 1) a else Scroll1 a.

(** [src/servers/terminal/terminal.cpp:40-51] [Print] *)
Definition put_char (color c : Z) (a : Area) : Area :=
  if decide (c = 10) then newline a
  else
    let a := write_char color c a in
    if decide (cursorx a = kColumns - 1) then newline a else set_cursorx (cursorx a + 1) a.

(** White, and the green of the prompt.
    [src/servers/terminal/terminal.cpp:30-52] [Print] *)
Definition Print_char : Z -> Area -> Area := put_char 0xffffff.
(** [src/servers/terminal/terminal.cpp:70-92] [PrintInGreen] *)
Definition PrintInGreen_char : Z -> Area -> Area := put_char 0x29ff86.

Definition put_string (put : Z -> Area -> Area) (s : list Z) (a : Area) : Area :=
  fold_left (fun a c => put c a) s a.

(** A string is its characters before the terminator, or the [len] bytes given.
    [src/servers/terminal/terminal.cpp:54-68] [Print] *)
Definition Print (s : list Z) (a : Area) : Area :=
  DrawCursor true (put_string Print_char s (DrawCursor false a)).
(** [src/servers/terminal/terminal.cpp:94-108] [PrintInGreen] *)
Definition PrintInGreen (s : list Z) (a : Area) : Area :=
  DrawCursor true (put_string PrintInGreen_char s (DrawCursor false a)).

(** ** Laws *)

(** The cursor is on the canvas. *)
Definition cursor_ok (a : Area) : Prop := 0 <= cursorx a < kColumns /\ 0 <= cursory a < kRows.

Lemma newline_ok a : cursor_ok a -> cursor_ok (newline a) /\ cursorx (newline a) = 0.
Proof.
  unfold cursor_ok, newline, kColumns, kRows. intros [Hx Hy]. case_decide; cbn in *; lia.
Qed.

Lemma put_char_ok color c a : cursor_ok a -> cursor_ok (put_char color c a).
Proof.
  intros Ha. unfold put_char. case_decide; [by apply newline_ok|].
  assert (cursor_ok (write_char color c a)) as Hw by done. revert Hw. generalize (write_char color c a). intros b Hb.
  case_decide as Hlast; [by apply newline_ok|]. unfold cursor_ok, kColumns in *. cbn. lia.
Qed.

Lemma put_string_ok color s : forall a, cursor_ok a -> cursor_ok (put_string (put_char color) s a).
Proof. induction s as [|c s IH]; intros a Ha; [done|]. apply IH. by apply put_char_ok. Qed.

Lemma Print_ok s a : cursor_ok a -> cursor_ok (Print s a).
Proof. intros Ha. by apply (put_string_ok 0xffffff s (DrawCursor false a)). Qed.

Lemma PrintInGreen_ok s a : cursor_ok a -> cursor_ok (PrintInGreen s a).
Proof. intros Ha. by apply (put_string_ok 0x29ff86 s (DrawCursor false a)). Qed.

(** Drawing sends messages and receives none. *)
Lemma gui_send_inbox m w : inbox (gui_send find_server m w) = inbox w.
Proof. by destruct (gui_send_out find_server m w) as (o & _ & ->). Qed.

Lemma put_char_inbox color c a : inbox (mail (put_char color c a)) = inbox (mail a).
Proof.
  assert (Hn : forall a, inbox (mail (newline a)) = inbox (mail a)).
  { intros b. unfold newline. case_decide; [done|]. unfold Scroll1, draws, WinRedraw, WinFillRectangle, WinMoveRec. cbn [mail set_mail].
    by rewrite !gui_send_inbox. }
  assert (Hw : inbox (mail (write_char color c a)) = inbox (mail a)) by apply gui_send_inbox.
  unfold put_char. case_decide; [done|]. case_decide; [by rewrite Hn|done].
Qed.

Lemma put_string_inbox color s : forall a, inbox (mail (put_string (put_char color) s a)) = inbox (mail a).
Proof. induction s as [|c s IH]; intros a; [done|]. etransitivity; [apply IH|apply put_char_inbox]. Qed.

Lemma Print_inbox s a : inbox (mail (Print s a)) = inbox (mail a).
Proof.
  unfold Print, DrawCursor, WinFillRectangle, draws. cbn [mail set_mail]. rewrite gui_send_inbox.
  etransitivity; [apply (put_string_inbox 0xffffff)|]. cbn [mail set_mail]. apply gui_send_inbox.
Qed.

Lemma PrintInGreen_inbox s a : inbox (mail (PrintInGreen s a)) = inbox (mail a).
Proof.
  unfold PrintInGreen, DrawCursor, WinFillRectangle, draws. cbn [mail set_mail]. rewrite gui_send_inbox.
  etransitivity; [apply (put_string_inbox 0x29ff86)|]. cbn [mail set_mail]. apply gui_send_inbox.
Qed.
End area.
