(* ===== verification/Terminal.v ===== *)
(** * The terminal (servers/terminal/terminal.cpp)

    The line the user edits, its history, and the dialogue with the application
    manager while a program runs. Pointers into the line are offsets. *)

From stdpp Require Import base list numbers option strings.
From Stdlib Require Import ZArith Lia.
From S2P Require Import Prelude Bytes Message ArgVector Fat AmFd GuiClient GuiGraphics TextArea.

Local Open Scope Z_scope.

(** [src/servers/terminal/terminal.hpp:22-22] [kLineMax] *)
Definition kLineMax : nat := 128.

(** [src/servers/terminal/terminal.hpp:28-29] [kLControlBitMask] *)
Definition kLControlBitMask : Z := 1.
Definition kRControlBitMask : Z := 16.

(** The variables of the terminal.
    [src/servers/terminal/terminal.hpp:19-36] [linebuf_] *)
Record Terminal := MkTerminal {
  area : Area;
  cursor_visible : bool;
  linebuf : list Z;
  linebuf_index : Z;
  cmd_history : list (list Z);
  cmd_history_index : Z;
  sm : Message;
  rm : Message;
  last_exit_code : Z;
  waiting_id : Z;
}.
Definition set_area a t := MkTerminal a (cursor_visible t) (linebuf t) (linebuf_index t) (cmd_history t) (cmd_history_index t) (sm t) (rm t) (last_exit_code t) (waiting_id t).
Definition set_cursor_visible b t := MkTerminal (area t) b (linebuf t) (linebuf_index t) (cmd_history t) (cmd_history_index t) (sm t) (rm t) (last_exit_code t) (waiting_id t).
Definition set_linebuf l t := MkTerminal (area t) (cursor_visible t) l (linebuf_index t) (cmd_history t) (cmd_history_index t) (sm t) (rm t) (last_exit_code t) (waiting_id t).
Definition set_linebuf_index i t := MkTerminal (area t) (cursor_visible t) (linebuf t) i (cmd_history t) (cmd_history_index t) (sm t) (rm t) (last_exit_code t) (waiting_id t).
Definition set_cmd_history h t := MkTerminal (area t) (cursor_visible t) (linebuf t) (linebuf_index t) h (cmd_history_index t) (sm t) (rm t) (last_exit_code t) (waiting_id t).
Definition set_cmd_history_index i t := MkTerminal (area t) (cursor_visible t) (linebuf t) (linebuf_index t) (cmd_history t) i (sm t) (rm t) (last_exit_code t) (waiting_id t).
Definition set_sm m t := MkTerminal (area t) (cursor_visible t) (linebuf t) (linebuf_index t) (cmd_history t) (cmd_history_index t) m (rm t) (last_exit_code t) (waiting_id t).
Definition set_rm m t := MkTerminal (area t) (cursor_visible t) (linebuf t) (linebuf_index t) (cmd_history t) (cmd_history_index t) (sm t) m (last_exit_code t) (waiting_id t).
Definition set_last_exit_code c t := MkTerminal (area t) (cursor_visible t) (linebuf t) (linebuf_index t) (cmd_history t) (cmd_history_index t) (sm t) (rm t) c (waiting_id t).
Definition set_waiting_id i t := MkTerminal (area t) (cursor_visible t) (linebuf t) (linebuf_index t) (cmd_history t) (cmd_history_index t) (sm t) (rm t) (last_exit_code t) i.

Definition on_area (f : Area -> Area) (t : Terminal) : Terminal := set_area (f (area t)) t.
Definition the_mail (t : Terminal) : Mail := mail (area t).
Definition put_mail (w : Mail) (t : Terminal) : Terminal := on_area (TextArea.set_mail w) t.
Definition send_to (m : Message) (to : Z) (t : Terminal) : Terminal := put_mail (send m to (the_mail t)) t.
Definition send_sm (to : Z) (t : Terminal) : Terminal := send_to (sm t) to t.

(** A line of text with its newline. *)
Definition line (s : string) : list Z := chars s ++ [10].

(** *** Numbers as text *)

(** The decimal digits of a number below 10 ^ [fuel]. *)
Fixpoint digits (fuel : nat) (n : Z) : list Z :=
  match fuel with
  | O => []
  | S fuel' => if decide (n < 10) then [48 + n] else digits fuel' (n / 10) ++ [48 + n mod 10]
  end.

(** [%d] of [sprintf]. *)
Definition show_int (n : Z) : list Z := if decide (n < 0) then 45 :: digits 10 (- n) else digits 10 n.

(** The value of an enumerator.
    [src/libs/common/message.hpp:7-54] [Message::Type] *)
Definition type_number (t : MsgType) : Z :=
  match t with
  | kError => 0 | kReady => 1 | kReceived => 2 | kInterruptXHCI => 3 | kTimerTimeout => 4 | kLayer => 5
  | kLayerFinish => 6 | kWindowActive => 7 | kPipe => 8 | kExpandTaskBuffer => 9 | kStartServer => 10
  | kStartApp => 11 | kExitServer => 12 | kExitApp => 13 | kMouseMove => 14 | kKeyPush => 15 | kOpenWindow => 16
  | kLayerId => 17 | kWinFillRectangle => 18 | kWinWriteChar => 19 | kWinRedraw => 20 | kQuit => 21
  | kCloseWindow => 22 | kMouseButton => 23 | kWinDrawLine => 24 | kWinMoveRec => 25 | kWrite => 26 | kOpen => 27
  | kOpenDir => 28 | kRead => 29 | kCreateTask => 30 | kExecuteFile => 31 | kRedirect => 32 | kWaitingKey => 33
  end.

Section terminal.
Context (find_server : list Z -> Z * Z) (layer_id : Z).

(** [src/servers/terminal/terminal.cpp:16-20] [BlinkCursor] *)
Definition BlinkCursor (t : Terminal) : Terminal * Rectangle :=
  let t := set_cursor_visible (negb (cursor_visible t)) t in
  let t := on_area (DrawCursor find_server layer_id (cursor_visible t)) t in
  (t, Rect (CalcCursorPos (area t)) (V 7 15)).

(** [src/servers/terminal/terminal.cpp:110-121] [PrintT] *)
Definition PrintT (s : list Z) : Terminal -> Terminal := on_area (Print find_server layer_id s).

(** A format without conversions is printed as it is; another is undefined
    without arguments, and so is a text that does not fit the buffer. *)
Definition format (s : list Z) : outcome (list Z) :=
  if decide (37 ∈ s \/ (128 <= length s)%nat) then Undefined else Ok s.

(** [src/servers/terminal/terminal.cpp:123-145] [HistoryUpDown] *)
Definition HistoryUpDown (direction : Z) (t : Terminal) : outcome Terminal :=
  let i := cmd_history_index t in
  let i := if decide (direction = -1 /\ 0 <= i) then i - 1
           else if decide (direction = 1 /\ u64 (i + 1) < Z.of_nat (length (cmd_history t))) then i + 1
           else i in
  let t := on_area (set_cursorx 1) (set_cmd_history_index i t) in
  let first_pos := CalcCursorPos (area t) in
  let t := on_area (draws (WinFillRectangle find_server layer_id true (vx first_pos) (vy first_pos) (8 * (kColumns - 1)) 16 0)) t in
  history ← (if decide (0 <= i) then h ← defined (getZ (cmd_history t) i); defined (c_str h) else Ok []);
  l ← defined (strcpy (linebuf t) 0 history);
  let t := set_linebuf_index (Z.of_nat (length history)) (set_linebuf l t) in
  let t := on_area (draws (WinWriteString find_server layer_id true (vx first_pos) (vy first_pos) 0xffffff history)) t in
  Ok (on_area (set_cursorx (linebuf_index t + 1)) t).

(** ** Running a program *)

(** The first [c] in the string at [off]. *)
Fixpoint index_of (c : Z) (s : list Z) : option nat :=
  match s with [] => None | x :: s' => if decide (x = c) then Some 0%nat else S <$> index_of c s' end.
Definition strchr (l : list Z) (off : nat) (c : Z) : outcome (option nat) :=
  s ← defined (c_str (drop off l)); Ok (Nat.add off <$> index_of c s).

(** [*p = 0] at a pointer that is not null. *)
Definition cut (p : option nat) (l : list Z) : list Z := match p with Some i => <[i := 0]> l | None => l end.

(** At most 26 characters into a cleared array of 32; the array was left
    incomplete if there are more.
    [src/servers/terminal/terminal.cpp:240-253] [ExecuteFile] *)
Definition copy_name (off : nat) (s : list Z) (m : Message) : outcome (bool * Message) :=
  m ← defined (putB off (replicate 32 0) m);
  m ← defined (putB off (take 26 s) m);
  Ok (bool_decide (26 < length s)%nat, m).

(** The argument with the exit code for "$?"; [true] when it is too long, which
    is only seen before a character or an exit code is added.
    [src/servers/terminal/terminal.cpp:256-283] [ExecuteFile] *)
Fixpoint expand_arg (code : list Z) (s acc : list Z) : bool * list Z :=
  match s with
  | [] => (false, acc)
  | c :: s' =>
      if decide (25 < length acc)%nat then (true, acc)
      else match s' with
           | c' :: s'' => if decide (c = 36 /\ c' = 63) then expand_arg code s'' (acc ++ code)
                          else expand_arg code s' (acc ++ [c])
           | [] => expand_arg code s' (acc ++ [c])
           end
  end.

(** [src/servers/terminal/terminal.cpp:255-285] [ExecuteFile] *)
Definition copy_arg (code s : list Z) (m : Message) : outcome (bool * Message) :=
  m ← defined (putB executefile_arg (replicate 32 0) m);
  let '(long, a) := expand_arg code s [] in
  m ← defined (putB executefile_arg a m);
  if long then Ok (true, m)
  else m ← defined (putB (executefile_arg + length a) [0] m); Ok (false, m).

(** The string after the white space at [off]. *)
Fixpoint skip_space (s : list Z) (off : nat) : nat :=
  match s with
  | c :: s' => if isspace c then skip_space s' (S off) else off
  | [] => off
  end.

(** "servers/am". *)
Definition servers_am : list Z := chars "servers/am".

(** [src/servers/terminal/terminal.cpp:372-384] [ExecuteFile] *)
Definition server_error (err : Z) (t : Terminal) : Terminal :=
  let t := set_last_exit_code 1 t in
  if decide (err = ENOENT) then PrintT (line "no such file") t
  else if decide (err = EISDIR) then PrintT (line "this is a directory") t
  else PrintT (line "error at other server") t.

(** The answers to the first program of a pipe; [true] when the other may be
    run.
    [src/servers/terminal/terminal.cpp:297-325] [ExecuteFile] *)
Definition pipe_answer (am_id : Z) (m : Message) (t : Terminal) : outcome (Terminal + bool * Terminal) :=
  Ok (match type m with
      | kError =>
          if decide (getI error_retry m <> 0) then inl (send_sm am_id t)
          else inr (false, server_error (getI error_err m) t)
      | kReady => inr (true, t)
      | _ => inl t
      end).

Definition control_pressed (m : Message) : bool :=
  bool_decide (Z.land (getU keyboard_modifier m) (Z.lor kLControlBitMask kRControlBitMask) <> 0).

Definition key_pressed (m : Message) : bool := bool_decide (type m = kKeyPush /\ getI keyboard_press m <> 0).

(** The next message of the inbox is received. *)
Definition received (m : Message) (msgs : list Message) (t : Terminal) : Terminal :=
  set_rm m (put_mail (MkMail msgs (out (the_mail t))) t).

(** A program reads a character. The character typed is the start of a format.
    [src/servers/terminal/terminal.cpp:395-422] [ExecuteFile] *)
Fixpoint read_key (am_id : Z) (msgs : list Message) (t : Terminal) : outcome Terminal :=
  match msgs with
  | [] => Waits
  | m :: msgs' =>
      let t := received m msgs' t in
      if key_pressed m then
        if control_pressed m then
          if decide (getU keyboard_keycode m = 7) then
            let t := set_sm (setF read_len 0 (set_type kRead (sm t))) t in
            let s := if decide (getU keyboard_ascii m = 0) then [94] else [94; toupper (getU keyboard_ascii m)] in
            let t := PrintT (s ++ [10]) t in
            Ok (send_sm am_id t)
          else read_key am_id msgs' t
        else
          text ← defined (getS (f_off keyboard_ascii) m);
          text ← format text;
          let t := PrintT text t in
          sm' ← defined (putB read_data [getU keyboard_ascii m] (set_type kRead (sm t)));
          Ok (send_sm am_id (set_sm (setF read_len 1 sm') t))
      else read_key am_id msgs' t
  end.

(** A program waits for a key.
    [src/servers/terminal/terminal.cpp:424-436] [ExecuteFile] *)
Fixpoint wait_key (am_id : Z) (msgs : list Message) (t : Terminal) : outcome Terminal :=
  match msgs with
  | [] => Waits
  | m :: msgs' =>
      let t := received m msgs' t in
      if key_pressed m || bool_decide (type m = kQuit) then Ok (send_to m am_id t)
      else wait_key am_id msgs' t
  end.

(** A message of the manager while a program runs.
    [src/servers/terminal/terminal.cpp:363-449] [ExecuteFile] *)
Definition run_answer (am_id : Z) (m : Message) (t : Terminal) : outcome (Terminal + Terminal) :=
  match type m with
  | kError =>
      Ok (if decide (getI error_retry m <> 0) then inl (send_sm am_id t)
          else inr (server_error (getI error_err m) t))
  | kExecuteFile => Ok (inl (set_waiting_id (getU executefile_id m) t))
  | kWrite =>
      data ← defined (read_at (arg m) write_data (Z.to_nat (getU write_len m)));
      Ok (inl (on_area (Print find_server layer_id data) t))
  | kRead => t ← read_key am_id (inbox (the_mail t)) t; Ok (inl t)
  | kWaitingKey => t ← wait_key am_id (inbox (the_mail t)) t; Ok (inl t)
  | kExitApp =>
      let t := set_last_exit_code (s32 (getU exitapp_result m)) t in
      Ok (if decide (waiting_id t = getU exitapp_id m) then inr t else inl t)
  | ty => Ok (inl (PrintT (chars "Unknown message type: " ++ show_int (type_number ty) ++ [10]) t))
  end.

(** [while (true)] around a closed receive from the manager. *)
Definition from_manager {R} (am_id : Z) (body : Message -> Terminal -> outcome (Terminal + R)) (t : Terminal) : outcome R :=
  receive_loop the_mail put_mail am_id (fun m t => body m (set_rm m t)) (S (length (inbox (the_mail t)))) t.

(** The message of a redirection; [true] when the name is too long.
    [src/servers/terminal/terminal.cpp:338-360] [ExecuteFile] *)
Definition send_redirect (am_id : Z) (redir : nat) (t : Terminal) : outcome (bool * Terminal) :=
  s ← defined (c_str (drop redir (linebuf t)));
  name ← defined (c_str (drop (skip_space s redir) (linebuf t)));
  '(long, m) ← copy_name redirect_filename name (set_type kRedirect (sm t));
  let t := set_sm m t in
  Ok (if (long : bool) then (true, PrintT (line "too long file name") t) else (false, send_sm am_id t)).

(** Each program of a pipe is a deeper call; no line has more than
    [kLineMax]. The file name is looked for in the string that was cut.
    [src/servers/terminal/terminal.cpp:215-450] [ExecuteFile] *)
Fixpoint ExecuteFile (fuel : nat) (start : nat) (t : Terminal) : outcome Terminal :=
  match fuel with
  | O => Undefined
  | S fuel' =>
      first_arg ← strchr (linebuf t) start 32;
      redir_char ← strchr (linebuf t) start 62;
      pipe_char ← strchr (linebuf t) start 124;
      let t := set_linebuf (cut pipe_char (cut redir_char (cut first_arg (linebuf t)))) t in
      let '(am_id, err) := find_server servers_am in
      if decide (err <> 0) then Ok (PrintT (line "cannot find application management server") t)
      else
        command ← defined (c_str (drop start (linebuf t)));
        '(long, m) ← copy_name executefile_filename command (set_type kExecuteFile (sm t));
        let t := set_sm m t in
        if (long : bool) then Ok (PrintT (line "too long file name") t)
        else
          args ← match first_arg with Some i => defined (c_str (drop (S i) (linebuf t))) | None => Ok [] end;
          '(long, m) ← copy_arg (show_int (last_exit_code t)) args (sm t);
          let t := set_sm m t in
          if (long : bool) then Ok (PrintT (line "too long argument") t)
          else match pipe_char with
          | Some i =>
              s ← defined (c_str (drop (S i) (linebuf t)));
              let subcommand := skip_space s (S i) in
              let t := set_sm (setF executefile_redirect 0 (setF executefile_pipe 1 (sm t))) t in
              '(go_on, t) ← from_manager am_id (pipe_answer am_id) (send_sm am_id t);
              if (go_on : bool) then ExecuteFile fuel' subcommand t else Ok t
          | None =>
              let redirect := match redir_char with Some _ => 1 | None => 0 end in
              let t := set_sm (setF executefile_redirect redirect (setF executefile_pipe 0 (sm t))) t in
              let t := send_sm am_id t in
              '(long, t) ← match redir_char with
                           | Some i => send_redirect am_id (S i) t
                           | None => Ok (false, t)
                           end;
              if (long : bool) then Ok t else from_manager am_id (run_answer am_id) t
          end
  end.

(** [src/servers/terminal/terminal.cpp:200-213] [ExecuteLine] *)
Definition ExecuteLine (t : Terminal) : outcome Terminal :=
  command ← defined (c_str (linebuf t));
  if decide (command = chars "help") then
    Ok (on_area (Print find_server layer_id (line "command [cat readme.txt] shows README"))
         (on_area (Print find_server layer_id (line "command [ls apps] shows applications")) t))
  else if decide (command = chars "clear") then
    let t := on_area (draws (WinFillRectangle find_server layer_id true Marginx Marginy kCanvasWidth kCanvasHeight 0)) t in
    Ok (on_area (set_cursory 0) t)
  else ExecuteFile kLineMax 0 t.

(** The prompt.
    [src/servers/terminal/terminal.cpp:169-170] [InputKey] *)
Definition prompt (a : Area) : Area :=
  PrintInGreen find_server layer_id (chars "$") (PrintInGreen find_server layer_id (line "kinOS:>") a).

(** [src/servers/terminal/terminal.cpp:153-170] [InputKey] *)
Definition enter (t : Terminal) : outcome Terminal :=
  l ← defined (setZ (linebuf t) (linebuf_index t) 0);
  let t := set_linebuf l t in
  t ← (if decide (0 < linebuf_index t) then
         match cmd_history t with
         | [] => Undefined
         | h => Ok (set_cmd_history (linebuf t :: removelast h) t)
         end
       else Ok t);
  let t := on_area (set_cursorx 0) (set_cmd_history_index (-1) (set_linebuf_index 0 t)) in
  let t := if decide (cursory (area t) < kRows - 1) then on_area (set_cursory (cursory (area t) + 1)) t
           else on_area (Scroll1 find_server layer_id) t in
  t ← ExecuteLine t;
  Ok (on_area prompt t).

(** [src/servers/terminal/terminal.cpp:172-181] [InputKey] *)
Definition backspace (t : Terminal) : Terminal :=
  if decide (0 < cursorx (area t)) then
    let t := on_area (set_cursorx (cursorx (area t) - 1)) t in
    let p := CalcCursorPos (area t) in
    let t := on_area (draws (WinFillRectangle find_server layer_id true (vx p) (vy p) 8 16 0)) t in
    if decide (0 < linebuf_index t) then set_linebuf_index (linebuf_index t - 1) t else t
  else t.

(** [src/servers/terminal/terminal.cpp:183-190] [InputKey] *)
Definition type_char (ascii : Z) (t : Terminal) : outcome Terminal :=
  if decide (cursorx (area t) < kColumns - 1 /\ linebuf_index t < Z.of_nat kLineMax - 1) then
    l ← defined (setZ (linebuf t) (linebuf_index t) ascii);
    let t := set_linebuf_index (linebuf_index t + 1) (set_linebuf l t) in
    let t := on_area (write_char find_server layer_id 0xffffff ascii) t in
    Ok (on_area (set_cursorx (cursorx (area t) + 1)) t)
  else Ok t.

(** The rectangle it returns is not used.
    [src/servers/terminal/terminal.cpp:147-198] [InputKey] *)
Definition InputKey (keycode ascii : Z) (t : Terminal) : outcome Terminal :=
  let t := on_area (DrawCursor find_server layer_id false) t in
  t ← (if decide (ascii = 10) then enter t
       else if decide (ascii = 8) then Ok (backspace t)
       else if decide (ascii <> 0) then type_char ascii t
       else if decide (keycode = 0x51) then HistoryUpDown (-1) t
       else if decide (keycode = 0x52) then HistoryUpDown 1 t
       else Ok t);
  Ok (on_area (DrawCursor find_server layer_id true) t).

(** What becomes of the task. *)
Inductive status := Running (t : Terminal) | Exited (code : Z) (w : Mail).

(** One turn of the loop.
    [src/servers/terminal/terminal.cpp:468-481] [main] *)
Definition turn (t : Terminal) : outcome status :=
  match inbox (the_mail t) with
  | [] => Waits
  | m :: msgs =>
      let t := received m msgs t in
      if key_pressed m then t ← InputKey (getU keyboard_keycode m) (getU keyboard_ascii m) t; Ok (Running t)
      else if decide (type m = kQuit) then Ok (Exited 0 (CloseWindow find_server layer_id (the_mail t)))
      else Ok (Running t)
  end.

(** At most [n] turns.
    [src/servers/terminal/terminal.cpp:468-482] [main] *)
Fixpoint turns (n : nat) (t : Terminal) : outcome status :=
  match n with
  | O => Ok (Running t)
  | S n' =>
      st ← turn t;
      match st with
      | Running t' => turns n' t'
      | Exited code w => Ok (Exited code w)
      end
  end.
End terminal.

(** [src/servers/terminal/terminal.cpp:452-466] [main] *)
Definition start (find_server : list Z -> Z * Z) (w : Mail) : outcome (Z * status) :=
  '(layer_id, w) ← OpenWindow find_server (kColumns * 8 + 12 + Marginx) (kRows * 16 + 12 + Marginy) 20 20 (chars "terminal") w;
  if decide (layer_id = -1) then Ok (layer_id, Exited 1 w)
  else
    let w := WinFillRectangle find_server layer_id true Marginx Marginy kCanvasWidth kCanvasHeight 0 w in
    let a := prompt find_server layer_id (MkArea 0 0 w) in
    Ok (layer_id, Running (MkTerminal a true (replicate kLineMax 0) 0 (replicate 8 (replicate kLineMax 0)) (-1)
      (zero_message kError) (zero_message kError) 0 0)).

(** The program, for at most [n] turns of its loop.
    [src/servers/terminal/terminal.cpp:452-482] [main] *)
Definition main (find_server : list Z -> Z * Z) (n : nat) (w : Mail) : outcome status :=
  '(layer_id, st) ← start find_server w;
  match st with
  | Running t => turns find_server layer_id n t
  | Exited code w => Ok (Exited code w)
  end.
