(* ===== verification/TerminalSafe.v ===== *)
(** * The terminal is safe (servers/terminal/terminal.cpp)

    No key, in any state the terminal can be in, makes it read or write outside
    of its buffers, and every key leaves the line, its history and the cursor
    well formed. *)

From stdpp Require Import base list numbers option strings.
From Stdlib Require Import ZArith Lia.
From S2P Require Import Prelude Bytes Message ArgVector Fat AmFd GuiClient GuiGraphics TextArea Terminal.

Local Open Scope Z_scope.

(** ** Terminated strings *)

(** A string in 128 bytes, from an offset on. *)
Definition terminated (l : list Z) (k : nat) : Prop := is_Some (c_str (drop k l)).

Lemma terminated_at l k : terminated l k <-> exists j, (k <= j)%nat /\ l !! j = Some 0.
Proof.
  unfold terminated. split.
  - intros [s Hs]. destruct (c_str_split _ _ Hs) as [rest E]. exists (k + length s)%nat. split; [lia|].
    rewrite <- lookup_drop, E. unfold c_chars. rewrite <- app_assoc, lookup_app_r, Nat.sub_diag by lia. done.
  - intros (j & Hj & E). replace j with (k + (j - k))%nat in E by lia. rewrite <- lookup_drop in E. revert E.
    generalize (j - k)%nat as i. generalize (drop k l) as s. clear l j k Hj.
    induction s as [|c s IH]; intros [|i] E; cbn in E; try done; cbn [c_str].
    + injection E as ->. by eexists.
    + case_decide; [by eexists|]. destruct (IH i E) as [x ->]. by eexists.
Qed.

(** Cutting a string leaves it terminated. *)
Lemma terminated_cut l k p : terminated l k -> terminated (cut p l) k.
Proof.
  rewrite !terminated_at. intros (j & Hj & E). exists j. split; [done|]. destruct p as [i|]; cbn [cut]; [|done].
  destruct (decide (i = j)) as [->|]; [|by rewrite list_lookup_insert_ne].
  apply list_lookup_insert_eq. by eapply lookup_lt_Some.
Qed.

Lemma length_cut p l : length (cut p l) = length l.
Proof. destruct p; cbn; [apply length_insert|done]. Qed.

Lemma c_str_lookup l k s i : c_str (drop k l) = Some s -> (i < length s)%nat -> exists c, l !! (k + i)%nat = Some c /\ s !! i = Some c /\ c <> 0.
Proof.
  intros Hs Hi. destruct (c_str_split _ _ Hs) as [rest E]. destruct (lookup_lt_is_Some_2 s i Hi) as [c Hc].
  exists c. split; [|split; [done|]].
  - rewrite <- lookup_drop, E. unfold c_chars. rewrite <- app_assoc, lookup_app_l by done. done.
  - pose proof (c_str_no_nul _ _ Hs) as Hn. by apply (proj1 (list.Forall_lookup _ _) Hn _ _ Hc).
Qed.

Lemma c_str_end l k s : c_str (drop k l) = Some s -> l !! (k + length s)%nat = Some 0.
Proof.
  intros Hs. destruct (c_str_split _ _ Hs) as [rest E]. rewrite <- lookup_drop, E. unfold c_chars.
  by rewrite <- app_assoc, lookup_app_r, Nat.sub_diag by lia.
Qed.

Lemma index_of_lt c s i : index_of c s = Some i -> (i < length s)%nat.
Proof.
  revert i. induction s as [|x s IH]; intros i; cbn; [done|]. case_decide; [intros [= <-]; lia|].
  destruct (index_of c s); cbn; [|done]. intros [= <-]. specialize (IH n eq_refl). lia.
Qed.

(** A character found in a string is followed by a string. *)
Lemma strchr_safe l k c :
  terminated l k -> safe (fun o => forall i, o = Some i -> (k <= i)%nat /\ terminated l (S i)) (strchr l k c).
Proof.
  intros [s Hs]. unfold strchr. rewrite Hs. cbn. intros i Hi. destruct (index_of c s) as [j|] eqn:Hj; [|done].
  cbn in Hi. injection Hi as <-. apply index_of_lt in Hj. split; [lia|]. apply terminated_at. exists (k + length s)%nat.
  split; [lia|by apply c_str_end].
Qed.

Lemma skip_space_bounds s off : (off <= skip_space s off <= off + length s)%nat.
Proof.
  revert off. induction s as [|c s IH]; intros off; cbn; [lia|]. destruct (isspace c); [|lia]. specialize (IH (S off)). lia.
Qed.

Lemma terminated_skip l k s : c_str (drop k l) = Some s -> terminated l (skip_space s k).
Proof.
  intros Hs. apply terminated_at. exists (k + length s)%nat. split; [|by apply c_str_end]. by apply skip_space_bounds.
Qed.

(** ** Well-formed states *)

(** A message: data that lies in it, and for a key a character that is no
    percent sign. The code checks neither: it prints as many bytes of a
    [kWrite] as the message says (terminal.cpp:392), and hands the character
    typed for a program to [PrintT] as the format (terminal.cpp:412). *)
Definition message_good (m : Message) : Prop :=
  message_ok m /\ (type m = kWrite -> getU write_len m <= 52) /\
  (type m = kKeyPush -> exists s, getS (f_off keyboard_ascii) m = Some s /\ 37 ∉ s).

(** What a dialogue with the manager needs and keeps. *)
Record talk_ok (t : Terminal) : Prop := {
  tk_sm : message_ok (sm t);
  tk_cursor : cursor_ok (area t);
  tk_inbox : Forall message_good (inbox (the_mail t));
}.

(** The line and its history are not touched. *)
Definition same_edit (t t' : Terminal) : Prop :=
  linebuf t' = linebuf t /\ linebuf_index t' = linebuf_index t /\ cmd_history t' = cmd_history t /\
  cmd_history_index t' = cmd_history_index t.

(** A line in the history. *)
Definition history_ok (h : list Z) : Prop := length h = kLineMax /\ bytes h /\ exists s, c_str h = Some s /\ (length s <= 59)%nat.

(** The line being edited: what precedes the index is one character or none
    left of the cursor. *)
Record edit_ok (t : Terminal) : Prop := {
  ed_sm : message_ok (sm t);
  ed_inbox : Forall message_good (inbox (the_mail t));
  ed_row : 0 <= cursory (area t) < kRows;
  ed_column : linebuf_index t <= cursorx (area t) <= linebuf_index t + 1;
  ed_index : 0 <= linebuf_index t <= 59;
  ed_line : length (linebuf t) = kLineMax /\ bytes (linebuf t);
  ed_chars : forall i c, linebuf t !! i = Some c -> Z.of_nat i < linebuf_index t -> c <> 0;
  ed_history : length (cmd_history t) = 8%nat /\ Forall history_ok (cmd_history t);
  ed_history_index : -1 <= cmd_history_index t < 8;
}.

(** ** Dialogues *)

Section safety.
Context (find_server : list Z -> Z * Z) (layer_id : Z).

(** Results of a dialogue that started in [t]. *)
Definition talked (t t' : Terminal) : Prop := talk_ok t' /\ same_edit t t'.

Lemma talked_refl t : talk_ok t -> talked t t.
Proof. done. Qed.

Lemma talked_trans t1 t2 t3 : same_edit t1 t2 -> talked t2 t3 -> talked t1 t3.
Proof. unfold talked, same_edit. intros (? & ? & ? & ?) (? & ? & ? & ? & ?). split_and!; try done; congruence. Qed.

Lemma talked_area t f :
  talk_ok t -> (cursor_ok (area t) -> cursor_ok (f (area t))) -> inbox (mail (f (area t))) = inbox (mail (area t)) ->
  talked t (on_area f t).
Proof. intros [H1 H2 H3] Hc Hi. split; [|done]. split; [done|by apply Hc|]. unfold the_mail in *. cbn. by rewrite Hi. Qed.

Lemma PrintT_talked s t : talk_ok t -> talked t (PrintT find_server layer_id s t).
Proof. intros Ht. apply talked_area; [done|apply Print_ok|apply Print_inbox]. Qed.

Lemma send_talked m to t : talk_ok t -> talked t (send_to m to t).
Proof. by intros [H1 H2 H3]. Qed.

Lemma set_sm_talked m t : talk_ok t -> message_ok m -> talked t (set_sm m t).
Proof. by intros [H1 H2 H3]. Qed.

Lemma server_error_talked err t : talk_ok t -> talked t (server_error find_server layer_id err t).
Proof.
  intros Ht. assert (Ht' : talked t (set_last_exit_code 1 t)) by by destruct Ht. unfold server_error.
  repeat case_decide; (eapply talked_trans; [apply Ht'|apply PrintT_talked, Ht']).
Qed.

Lemma received_talked m msgs t :
  talk_ok t -> inbox (the_mail t) = m :: msgs -> talked t (received m msgs t) /\ message_good m.
Proof.
  intros [H1 H2 H3] E. rewrite E, list.Forall_cons in H3. destruct H3 as [Hm Hms]. by split.
Qed.

Lemma putB_ok off s m : message_ok m -> bytes s -> (off + length s <= arg_size)%nat -> exists m', putB off s m = Some m' /\ message_ok m'.
Proof.
  intros [Hl Hb] Hs Hfit. unfold putB. rewrite write_at_Some by lia. cbn. eexists. split; [done|].
  split; cbn; [by rewrite length_splice by lia|auto with bytes].
Qed.

Lemma format_safe s : (length s < 128)%nat -> 37 ∉ s -> format s = Ok s.
Proof. intros Hl Hs. unfold format. rewrite decide_False; [done|]. intros [?|?]; [done|lia]. Qed.

Lemma getS_length off m s : message_ok m -> getS off m = Some s -> (length s < arg_size)%nat.
Proof.
  intros [Hl _] Hs. destruct (c_str_split _ _ Hs) as [rest E]. apply (f_equal length) in E.
  rewrite length_drop, length_app, length_c_chars in E. unfold arg_size in *. lia.
Qed.

Lemma read_key_safe am_id msgs : forall t,
  talk_ok t -> inbox (the_mail t) = msgs -> safe (talked t) (read_key find_server layer_id am_id msgs t).
Proof.
  induction msgs as [|m msgs IH]; intros t Ht E; [done|]. cbn [read_key].
  destruct (received_talked m msgs t Ht E) as [[Hr Hsame] (Hm & _ & Hkey)]. set (t1 := received m msgs t) in *.
  assert (Hnext : safe (talked t) (read_key find_server layer_id am_id msgs t1)).
  { eapply safe_impl; [by apply IH|]. intros t2. by apply talked_trans. }
  destruct (key_pressed m) eqn:Hp; [|done]. apply bool_decide_eq_true in Hp as [Hty _].
  destruct (control_pressed m).
  - case_decide; [|done]. cbn [safe]. eapply talked_trans; [exact Hsame|]. pose proof Hr as [Hsm _ _].
    assert (H2 : talked t1 (set_sm (setF read_len 0 (set_type kRead (sm t1))) t1)).
    { apply set_sm_talked; [done|]. by apply message_ok_setF. }
    destruct H2 as [H2 S2]. eapply talked_trans; [exact S2|]. destruct (PrintT_talked ((if decide (getU keyboard_ascii m = 0) then [94]
      else [94; toupper (getU keyboard_ascii m)]) ++ [10]) _ H2) as [H3 S3]. eapply talked_trans; [exact S3|]. by apply send_talked.
  - destruct (Hkey Hty) as (s & Hs & Hns). rewrite Hs. cbn [defined mbind outcome_bind].
    pose proof (getS_length _ _ _ Hm Hs) as Hl. unfold arg_size in Hl. rewrite format_safe by (done || lia). cbn [mbind outcome_bind].
    destruct (PrintT_talked s t1 Hr) as [H2 S2]. set (t2 := PrintT find_server layer_id s t1) in *. pose proof H2 as [Hsm _ _].
    pose proof (getU_range keyboard_ascii m Hm eq_refl) as Hc.
    destruct (putB_ok read_data [getU keyboard_ascii m] (set_type kRead (sm t2))) as (m' & -> & Hm'); [done| |unfold arg_size; cbn; lia|].
    { constructor; [exact Hc|constructor]. }
    cbn [defined mbind outcome_bind safe]. eapply talked_trans; [exact Hsame|]. eapply talked_trans; [exact S2|].
    assert (H3 : talked t2 (set_sm (setF read_len 1 m') t2)) by (apply set_sm_talked; [done|by apply message_ok_setF]).
    destruct H3 as [H3 S3]. eapply talked_trans; [exact S3|]. by apply send_talked.
Qed.

Lemma wait_key_safe am_id msgs : forall t,
  talk_ok t -> inbox (the_mail t) = msgs -> safe (talked t) (wait_key am_id msgs t).
Proof.
  induction msgs as [|m msgs IH]; intros t Ht E; [done|]. cbn [wait_key].
  destruct (received_talked m msgs t Ht E) as [[Hr Hsame] _]. destruct (_ || _).
  - cbn [safe]. eapply talked_trans; [exact Hsame|]. by apply send_talked.
  - eapply safe_impl; [by apply IH|]. intros t2. by apply talked_trans.
Qed.
(** *** Closed receives *)

Lemma closed_receive_suffix from msgs : forall o m w,
  closed_receive from msgs o = Ok (m, w) -> exists pre, msgs = pre ++ m :: inbox w /\ src_task m = from.
Proof.
  induction msgs as [|x msgs IH]; intros o m w; cbn; [done|]. case_decide as Hx.
  - intros [= <- <-]. by exists [].
  - intros H. destruct (IH _ _ _ H) as (pre & -> & Hs). by exists (x :: pre).
Qed.

Lemma closed_receive_defined from msgs : forall o, closed_receive from msgs o <> Undefined.
Proof. induction msgs as [|x msgs IH]; intros o; cbn; [done|]. by case_decide. Qed.

Lemma from_manager_safe {R} am_id (body : Message -> Terminal -> outcome (Terminal + R)) (J : R -> Prop) t0 t :
  (forall m t, talked t0 t -> message_good m ->
    safe (fun r => match r with inl t' => talked t0 t' | inr x => J x end) (body m t)) ->
  talked t0 t -> safe J (from_manager am_id body t).
Proof.
  intros Hbody. unfold from_manager. generalize (S (length (inbox (the_mail t)))) as fuel. intros fuel. revert t.
  induction fuel as [|fuel IH]; intros t Ht; [done|]. cbn [receive_loop].
  destruct (ClosedReceive am_id (the_mail t)) as [[m w]| |] eqn:E; [|done|by apply closed_receive_defined in E].
  cbn [mbind outcome_bind]. destruct (closed_receive_suffix _ _ _ _ _ E) as (pre & Hin & _).
  destruct Ht as [[H1 H2 H3] Hs]. rewrite Hin in H3. apply list.Forall_app in H3 as [_ H3]. apply list.Forall_cons in H3 as [Hm Hw].
  eapply safe_bind; [apply Hbody; [|exact Hm]|]; [by split|]. intros [t'|x] Hr; [by apply IH|done].
Qed.

Lemma pipe_answer_safe am_id m t0 t :
  talked t0 t -> safe (fun r => match r with inl t' => talked t0 t' | inr (_, t') => talked t0 t' end)
    (pipe_answer find_server layer_id am_id m t).
Proof.
  intros [Ht Hs]. unfold pipe_answer. cbn [safe]. destruct (type m); try done.
  case_decide; (eapply talked_trans; [exact Hs|]); [by apply send_talked|by apply server_error_talked].
Qed.

Lemma run_answer_safe am_id m t0 t :
  talked t0 t -> message_good m ->
  safe (fun r => match r with inl t' => talked t0 t' | inr t' => talked t0 t' end) (run_answer find_server layer_id am_id m t).
Proof.
  intros [Ht Hs] (Hm & Hw & _). pose proof (talked_trans t0 t) as Htr.
  unfold run_answer. destruct (type m) eqn:Hty; try (cbn [safe]; eapply Htr; [exact Hs|by apply PrintT_talked]).
  - cbn [safe]. case_decide; (eapply Htr; [exact Hs|]); [by apply send_talked|by apply server_error_talked].
  - cbn [safe]. assert (H : talked t (set_last_exit_code (s32 (getU exitapp_result m)) t)) by by destruct Ht.
    case_decide; by eapply Htr.
  - specialize (Hw eq_refl). pose proof (getU_range write_len m Hm eq_refl).
    rewrite read_at_Some by (destruct Hm as [-> _]; unfold arg_size, write_data; lia). cbn [defined mbind outcome_bind safe].
    eapply Htr; [exact Hs|by apply PrintT_talked].
  - eapply safe_bind; [by apply read_key_safe|]. intros t' Ht'. cbn. by eapply Htr.
  - cbn [safe]. eapply Htr; [exact Hs|]. by destruct Ht.
  - eapply safe_bind; [by apply wait_key_safe|]. intros t' Ht'. cbn. by eapply Htr.
Qed.

(** *** The message for the manager *)

Lemma copy_name_safe off s m :
  message_ok m -> bytes s -> (off + 32 <= arg_size)%nat -> safe (fun r => message_ok (snd r)) (copy_name off s m).
Proof.
  intros Hm Hs Hoff. unfold copy_name.
  destruct (putB_ok off (replicate 32 0) m Hm) as (m1 & -> & H1); [|by rewrite length_replicate|].
  { apply Forall_replicate. unfold is_byte. lia. }
  cbn [defined mbind outcome_bind]. destruct (putB_ok off (take 26 s) m1 H1) as (m2 & -> & H2); [by apply Forall_take|rewrite length_take; lia|].
  done.
Qed.

Lemma digits_ok fuel : forall n, 0 <= n -> (length (digits fuel n) <= fuel)%nat /\ bytes (digits fuel n).
Proof.
  induction fuel as [|fuel IH]; intros n Hn; cbn [digits]; [split; [cbn; lia|constructor]|].
  case_decide; [split; [cbn; lia|constructor; [unfold is_byte; lia|constructor]]|].
  destruct (IH (n / 10)) as [Hl Hb]; [by apply Z.div_pos|]. rewrite length_app. cbn. split; [lia|].
  apply list.Forall_app. split; [done|]. pose proof (Z.mod_pos_bound n 10). constructor; [unfold is_byte; lia|constructor].
Qed.

Lemma show_int_ok n : (length (show_int n) <= 11)%nat /\ bytes (show_int n).
Proof.
  unfold show_int. case_decide; [destruct (digits_ok 10 (- n)) as [Hl Hb]; [lia|]|destruct (digits_ok 10 n) as [Hl Hb]; [lia|]].
  - split; [cbn [length]; lia|]. constructor; [unfold is_byte; lia|done].
  - split; [lia|done].
Qed.

(** The argument can grow past its array of 32 bytes, but not past the union. *)
Lemma expand_arg_ok code : (length code <= 11)%nat -> bytes code -> forall s acc,
  bytes s -> bytes acc -> (length acc <= 36)%nat ->
  (length (snd (expand_arg code s acc)) <= 36)%nat /\ bytes (snd (expand_arg code s acc)).
Proof.
  intros Hlen Hcode s. induction s as [s IH] using (well_founded_induction (Wf_nat.well_founded_ltof _ length)). unfold Wf_nat.ltof in IH.
  intros acc Hs Hacc Hl. destruct s as [|c s]; [done|]. apply list.Forall_cons in Hs as [Hc Hs]. cbn [expand_arg].
  case_decide as H25; [done|].
  assert (Hplain : (length (snd (expand_arg code s (acc ++ [c]))) <= 36)%nat /\ bytes (snd (expand_arg code s (acc ++ [c])))).
  { apply IH; [cbn; lia|done|apply list.Forall_app; by split; [|constructor]|rewrite length_app; cbn; lia]. }
  destruct s as [|c' s]; [done|]. case_decide; [|done]. apply list.Forall_cons in Hs as [_ Hs].
  apply IH; [cbn; lia|done|by apply list.Forall_app|rewrite length_app; lia].
Qed.

Lemma copy_arg_safe n s m :
  message_ok m -> bytes s -> safe (fun r => message_ok (snd r)) (copy_arg (show_int n) s m).
Proof.
  intros Hm Hs. unfold copy_arg. destruct (show_int_ok n) as [Hl Hb].
  destruct (putB_ok executefile_arg (replicate 32 0) m Hm) as (m1 & -> & H1); [|unfold arg_size; cbn; lia|].
  { apply Forall_replicate. unfold is_byte. lia. }
  cbn [defined mbind outcome_bind]. pose proof (expand_arg_ok (show_int n) Hl Hb s [] Hs ltac:(constructor) ltac:(cbn; lia)) as [He Hbe].
  destruct (expand_arg (show_int n) s []) as [long a]. cbn [snd] in He, Hbe.
  destruct (putB_ok executefile_arg a m1 H1 Hbe) as (m2 & -> & H2); [unfold arg_size, executefile_arg; lia|]. cbn [defined mbind outcome_bind].
  destruct long; [done|]. destruct (putB_ok (executefile_arg + length a) [0] m2 H2) as (m3 & -> & H3); [|unfold arg_size, executefile_arg; cbn; lia|done].
  constructor; [unfold is_byte; lia|constructor].
Qed.

(** *** Running the programs of a line *)

(** The line was cut up, the rest of what is edited is as before. *)
Definition ran (t t' : Terminal) : Prop :=
  talk_ok t' /\ length (linebuf t') = length (linebuf t) /\ bytes (linebuf t') /\ linebuf_index t' = linebuf_index t /\
  cmd_history t' = cmd_history t /\ cmd_history_index t' = cmd_history_index t.

Lemma ran_talked t t1 t2 : ran t t1 -> talked t1 t2 -> ran t t2.
Proof. intros (_ & H1 & H2 & H3 & H4 & H5) [H (E1 & E2 & E3 & E4)]. unfold ran. rewrite E1, E2, E3, E4. by split_and!. Qed.

Lemma ran_after t1 t2 t3 : ran t1 t2 -> ran t2 t3 -> ran t1 t3.
Proof. unfold ran. intros (? & ? & ? & ? & ? & ?) (? & ? & ? & ? & ? & ?). split_and!; try done; congruence. Qed.

Lemma c_str_bytes l k s : bytes l -> c_str (drop k l) = Some s -> bytes s.
Proof.
  intros Hl Hs. destruct (c_str_split _ _ Hs) as [rest E]. apply (Forall_drop _ k) in Hl. rewrite E in Hl.
  unfold c_chars in Hl. rewrite <- app_assoc in Hl. by apply list.Forall_app in Hl as [Hl _].
Qed.

Lemma send_redirect_safe am_id k t0 t :
  ran t0 t -> terminated (linebuf t) k ->
  safe (fun r => ran t0 (snd r)) (send_redirect find_server layer_id am_id k t).
Proof.
  intros Hr [s Hs]. pose proof Hr as (Ht & _ & Hb & _). unfold send_redirect. rewrite Hs. cbn [defined mbind outcome_bind].
  destruct (terminated_skip _ _ _ Hs) as [name Hn]. rewrite Hn. cbn [defined mbind outcome_bind].
  eapply safe_bind; [apply copy_name_safe; [apply message_ok_set_type, Ht|by eapply c_str_bytes|unfold arg_size, redirect_filename; lia]|].
  intros [long m] Hm. cbn [snd] in Hm. assert (H2 : talked t (set_sm m t)) by by apply set_sm_talked.
  pose proof (ran_talked _ _ _ Hr H2) as Hr2. destruct H2 as [H2 _]. cbn [safe].
  destruct long; cbn [snd]; eapply ran_talked; [exact Hr2|by apply PrintT_talked|exact Hr2|by apply send_talked].
Qed.

Lemma ExecuteFile_safe fuel : forall start t,
  talk_ok t -> length (linebuf t) = kLineMax -> bytes (linebuf t) -> terminated (linebuf t) start -> (kLineMax <= fuel + start)%nat ->
  safe (ran t) (ExecuteFile find_server layer_id fuel start t).
Proof.
  induction fuel as [|fuel IH]; intros start t Ht Hlen Hb Hterm Hfuel.
  { exfalso. apply terminated_at in Hterm as (j & Hj & E). apply lookup_lt_Some in E. lia. }
  cbn [ExecuteFile]. eapply safe_bind; [by apply strchr_safe|]. intros fa Hfa.
  eapply safe_bind; [by apply strchr_safe|]. intros rc Hrc. eapply safe_bind; [by apply strchr_safe|]. intros pc Hpc.
  set (t1 := set_linebuf (cut pc (cut rc (cut fa (linebuf t)))) t).
  assert (Hcut : forall k, terminated (linebuf t) k -> terminated (linebuf t1) k) by (intros k Hk; by do 3 apply terminated_cut).
  assert (Hr1 : ran t t1).
  { destruct Ht. split_and!; try done; [by cbn; rewrite !length_cut|]. cbn.
    assert (Hc : forall p l, bytes l -> bytes (cut p l)) by (intros [p|] l Hl; [apply Forall_insert; [done|unfold is_byte; lia]|done]).
    by do 3 apply Hc. }
  pose proof Hr1 as (Ht1 & Hl1 & Hb1 & _). destruct (find_server servers_am) as [am_id err].
  case_decide; [cbn [safe]; eapply ran_talked; [exact Hr1|by apply PrintT_talked]|].
  destruct (Hcut start Hterm) as [command Hcmd]. rewrite Hcmd. cbn [defined mbind outcome_bind].
  eapply safe_bind; [apply copy_name_safe; [apply message_ok_set_type, Ht1|by eapply c_str_bytes|unfold arg_size, executefile_filename; lia]|].
  intros [long m] Hm. cbn [snd] in Hm. assert (H2 : talked t1 (set_sm m t1)) by by apply set_sm_talked.
  pose proof (ran_talked _ _ _ Hr1 H2) as Hr2. pose proof H2 as [Ht2 _]. set (t2 := set_sm m t1) in *.
  destruct long; [cbn [safe]; eapply ran_talked; [exact Hr2|by apply PrintT_talked]|].
  eapply (safe_bind bytes).
  { destruct fa as [i|]; [|constructor]. destruct (Hcut (S i)) as [args Ha]; [by apply Hfa|]. change (linebuf t2) with (linebuf t1). rewrite Ha.
    cbn. by eapply c_str_bytes. }
  intros args Hargs. eapply safe_bind; [by apply copy_arg_safe|]. intros [long m3] Hm3. cbn [snd] in Hm3.
  assert (H3 : talked t2 (set_sm m3 t2)) by by apply set_sm_talked. pose proof (ran_talked _ _ _ Hr2 H3) as Hr3. pose proof H3 as [Ht3 _].
  set (t3 := set_sm m3 t2) in *. destruct long; [cbn [safe]; eapply ran_talked; [exact Hr3|by apply PrintT_talked]|].
  destruct pc as [i|].
  - destruct (Hpc i eq_refl) as [Hi Hti]. destruct (Hcut (S i) Hti) as [sub Hsub]. change (linebuf t3) with (linebuf t1). rewrite Hsub.
    cbn [defined mbind outcome_bind]. set (t4 := set_sm _ t3). assert (H4 : talked t3 t4) by (apply set_sm_talked; [done|apply message_ok_setF; [by apply message_ok_setF|done]]).
    destruct (ran_talked _ _ _ Hr3 H4) as [Ht4 Hrest]. pose proof (conj Ht4 Hrest : ran t t4) as Hr4.
    pose proof (send_talked (sm t4) am_id t4 Ht4) as H5.
    eapply (safe_bind (fun r => talked t4 (snd r))); [|intros [go_on t5] H6; cbn [snd] in H6].
    + apply (from_manager_safe am_id _ _ t4); [|exact H5]. intros mr tr Htr _. eapply safe_impl; [by apply pipe_answer_safe|].
      by intros [?|[? ?]].
    + pose proof (ran_talked _ _ _ Hr4 H6) as Hr5. destruct go_on; [|exact Hr5]. pose proof Hr5 as (Ht5 & Hl5 & Hb5 & _).
      eapply safe_impl; [apply IH; [done|by rewrite Hl5|done| |]|intros t' Ht'; by eapply ran_after].
      * destruct H6 as [_ (-> & _)]. by apply terminated_skip.
      * pose proof (skip_space_bounds sub (S i)). lia.
  - set (t4 := set_sm _ t3). assert (H4 : talked t3 t4) by (apply set_sm_talked; [done|apply message_ok_setF; [by apply message_ok_setF|done]]).
    pose proof (ran_talked _ _ _ Hr3 H4) as Hr4. pose proof H4 as [Ht4 _].
    pose proof (send_talked (sm t4) am_id t4 Ht4) as H5. pose proof (ran_talked _ _ _ Hr4 H5) as Hr5. set (t5 := send_sm am_id t4) in *.
    eapply (safe_bind (fun r => ran t (snd r))).
    + destruct rc as [i|]; [|exact Hr5]. apply send_redirect_safe; [exact Hr5|]. apply Hcut. by apply Hrc.
    + intros [long t6] Hr6. cbn [snd] in Hr6. destruct long; [exact Hr6|]. pose proof Hr6 as [Ht6 _].
      eapply safe_impl; [apply (from_manager_safe am_id _ (talked t6) t6); [|by apply talked_refl]|intros t'; by apply ran_talked].
      intros mr tr Htr Hmr. by apply run_answer_safe.
Qed.
(** ** Keys *)

(** Drawing leaves what is edited alone. *)
Lemma edit_ok_area t a :
  edit_ok t -> cursorx a = cursorx (area t) -> cursory a = cursory (area t) -> inbox (mail a) = inbox (mail (area t)) ->
  edit_ok (set_area a t).
Proof. intros [H1 H2 H3 H4 H5 H6 H7 H8 H9] Hx Hy Hi. split; try done; unfold the_mail in *; cbn; congruence. Qed.

Lemma DrawCursor_edit b t : edit_ok t -> edit_ok (on_area (DrawCursor find_server layer_id b) t).
Proof. intros Ht. apply edit_ok_area; [done|done|done|]. apply gui_send_inbox. Qed.

Lemma WinWriteString_inbox draw y color s : forall x w, inbox (WinWriteString find_server layer_id draw x y color s w) = inbox w.
Proof. induction s as [|c s IH]; intros x w; [done|]. cbn [WinWriteString]. rewrite IH. apply gui_send_inbox. Qed.

Lemma backspace_edit t : edit_ok t -> edit_ok (backspace find_server layer_id t).
Proof.
  intros [H1 H2 H3 H4 H5 H6 H7 H8 H9]. unfold backspace. case_decide; [|by split]. cbn. case_decide.
  - split; cbn; try done; try lia; [by unfold the_mail, WinFillRectangle in *; cbn; rewrite gui_send_inbox|].
    intros i c Hi Hlt. apply (H7 i c Hi). lia.
  - split; cbn; try done; try lia. by unfold the_mail, WinFillRectangle in *; cbn; rewrite gui_send_inbox.
Qed.

Lemma type_char_edit ascii t :
  edit_ok t -> 0 < ascii < 256 -> safe edit_ok (type_char find_server layer_id ascii t).
Proof.
  intros [H1 H2 H3 H4 H5 [H6 Hb] H7 H8 H9] Ha. unfold type_char. case_decide as Hc; [|by split].
  unfold kLineMax, kColumns in *. rewrite setZ_Some by lia. cbn [defined mbind outcome_bind safe].
  split; cbn; try done; try lia; [by unfold the_mail, write_char, WinWriteChar in *; cbn; rewrite gui_send_inbox| |].
  - split; [by rewrite length_insert|]. apply Forall_insert; [done|unfold is_byte; lia].
  - intros i c Hi Hlt. destruct (decide (i = Z.to_nat (linebuf_index t))) as [->|Hne].
    + rewrite list_lookup_insert_eq in Hi by lia. injection Hi as <-. lia.
    + rewrite list_lookup_insert_ne in Hi by done. apply (H7 i c Hi). lia.
Qed.

(** The history entry is copied over the line. *)
Lemma HistoryUpDown_edit d t :
  edit_ok t -> d = -1 \/ d = 1 -> safe edit_ok (HistoryUpDown find_server layer_id d t).
Proof.
  intros [H1 H2 H3 H4 H5 [H6 Hb] H7 [H8 Hh] H9] Hd. unfold HistoryUpDown.
  set (i := if decide (d = -1 /\ 0 <= cmd_history_index t) then _ else _).
  assert (Hi : -1 <= i < 8).
  { unfold i. repeat case_decide; [lia| |lia]. rewrite H8, u64_small in * by lia. lia. }
  clearbody i. eapply (safe_bind (fun h => no_nul h /\ bytes h /\ (length h <= 59)%nat)).
  - case_decide; [|split_and!; cbn; try constructor; lia]. cbn [cmd_history set_cmd_history_index set_area on_area].
    destruct (getZ_Some (cmd_history t) i ltac:(lia)) as [h Hg]. rewrite Hg. cbn [defined mbind outcome_bind].
    destruct (proj1 (list.Forall_lookup _ _) Hh _ _ (getZ_lookup _ _ _ Hg)) as (_ & Hbh & s & Hs & Hl). rewrite Hs. cbn.
    split_and!; [by eapply c_str_no_nul|by apply (c_str_bytes h 0 s)|done].
  - intros h (Hn & Hbh & Hl). unfold strcpy. cbn [linebuf set_cmd_history_index on_area set_area].
    rewrite write_at_Some by (rewrite length_c_chars, H6; unfold kLineMax; lia). cbn [defined mbind outcome_bind safe].
    assert (Hsplit : (0 + length (c_chars h) <= length (linebuf t))%nat) by (rewrite length_c_chars, H6; unfold kLineMax; lia).
    split; cbn; try done; try lia.
    + unfold the_mail in *. cbn. rewrite WinWriteString_inbox. unfold WinFillRectangle. by rewrite gui_send_inbox.
    + split; [by rewrite length_splice|]. apply bytes_splice; [done|]. apply list.Forall_app. split; [done|].
      constructor; [unfold is_byte; lia|constructor].
    + intros j c Hj Hlt. rewrite lookup_splice in Hj by done. rewrite decide_True in Hj by (rewrite length_c_chars; lia).
      unfold c_chars in Hj. rewrite lookup_app_l in Hj by lia. by apply (proj1 (list.Forall_lookup _ _) Hn _ _ Hj).
Qed.

Lemma put_string_newline color s a : cursor_ok a -> cursorx (put_string (put_char find_server layer_id color) (s ++ [10]) a) = 0.
Proof.
  intros Ha. unfold put_string. rewrite fold_left_app. cbn [fold_left].
  pose proof (put_string_ok find_server layer_id color s a Ha) as Hok. unfold put_string in Hok. revert Hok.
  generalize (fold_left (fun a c => put_char find_server layer_id color c a) s a). intros b Hb.
  exact (proj2 (newline_ok find_server layer_id b Hb)).
Qed.

(** A printed line leaves the cursor at the left, a character moves it by one. *)
Lemma PrintInGreen_line s a : cursor_ok a -> cursorx (PrintInGreen find_server layer_id (s ++ [10]) a) = 0.
Proof.
  intros Ha. pose proof (put_string_newline 0x29ff86 s (DrawCursor find_server layer_id false a) Ha) as H. exact H.
Qed.

Lemma PrintInGreen_one c a : c <> 10 -> cursorx a = 0 -> cursorx (PrintInGreen find_server layer_id [c] a) = 1.
Proof.
  intros Hc Ha. change (cursorx (put_char find_server layer_id 0x29ff86 c (DrawCursor find_server layer_id false a)) = 1).
  unfold put_char. rewrite decide_False by done.
  assert (Hx : cursorx (write_char find_server layer_id 0x29ff86 c (DrawCursor find_server layer_id false a)) = 0) by exact Ha.
  revert Hx. generalize (write_char find_server layer_id 0x29ff86 c (DrawCursor find_server layer_id false a)). intros b Hb.
  rewrite decide_False by (unfold kColumns; lia). cbn. lia.
Qed.

(** After the prompt the cursor is behind its dollar sign. *)
Lemma prompt_cursor a : cursor_ok a -> cursor_ok (prompt find_server layer_id a) /\ cursorx (prompt find_server layer_id a) = 1.
Proof.
  intros Ha. unfold prompt. generalize (chars "kinOS:>") as s; intros s. split; [by apply PrintInGreen_ok, PrintInGreen_ok|].
  apply (PrintInGreen_one 36); [done|]. by apply PrintInGreen_line.
Qed.

Lemma prompt_inbox a : inbox (mail (prompt find_server layer_id a)) = inbox (mail a).
Proof. unfold prompt. by rewrite !PrintInGreen_inbox. Qed.

Lemma ExecuteLine_safe t :
  talk_ok t -> length (linebuf t) = kLineMax -> bytes (linebuf t) -> terminated (linebuf t) 0 ->
  safe (ran t) (ExecuteLine find_server layer_id t).
Proof.
  intros Ht Hl Hb Hterm. pose proof Hterm as [s Hs]. unfold ExecuteLine. rewrite drop_0 in Hs. rewrite Hs. cbn [defined mbind outcome_bind].
  assert (Hr : ran t t) by by split_and!.
  case_decide.
  - cbn [safe]. pose proof (PrintT_talked (line "command [ls apps] shows applications") t Ht) as H1.
    pose proof (ran_talked _ _ _ Hr H1) as Hr1. eapply ran_talked; [exact Hr1|]. by apply PrintT_talked, H1.
  - case_decide; [|by apply ExecuteFile_safe]. cbn [safe]. eapply ran_talked; [exact Hr|].
    split; [|done]. destruct Ht as [A1 A2 A3]. split; [done|unfold cursor_ok, kRows in *; cbn; lia|].
    unfold the_mail in *. cbn. unfold WinFillRectangle. by rewrite gui_send_inbox.
Qed.

Lemma enter_edit t : edit_ok t -> safe edit_ok (enter find_server layer_id t).
Proof.
  intros [H1 H2 H3 H4 H5 [H6 Hb] H7 [H8 Hh] H9]. unfold enter. unfold kLineMax in H6.
  rewrite setZ_Some by (rewrite H6; lia). cbn [defined mbind outcome_bind].
  set (l := <[Z.to_nat (linebuf_index t) := 0]> (linebuf t)).
  assert (Hl : length l = kLineMax) by (unfold l; by rewrite length_insert).
  assert (Hbl : bytes l) by (apply Forall_insert; [done|unfold is_byte; lia]).
  assert (Hend : l !! Z.to_nat (linebuf_index t) = Some 0) by (apply list_lookup_insert_eq; lia).
  assert (Hterm : terminated l 0) by (apply terminated_at; eexists; split; [|exact Hend]; lia).
  assert (Hlok : history_ok l).
  { split; [done|]. split; [done|]. pose proof Hterm as [s Hs]. exists s. split; [by rewrite drop_0 in Hs|].
    destruct (decide (Z.to_nat (linebuf_index t) < length s)%nat); [|lia].
    destruct (c_str_lookup _ _ _ _ Hs l0) as (c & Hc & _ & Hc0). rewrite Nat.add_0_l, Hend in Hc. injection Hc as <-. done. }
  eapply (safe_bind (fun t' => exists h, t' = set_cmd_history h (set_linebuf l t) /\ length h = 8%nat /\ Forall history_ok h)).
  { case_decide; [|exists (cmd_history t); by split_and!]. cbn [cmd_history set_linebuf linebuf].
    destruct (cmd_history t) as [|x h] eqn:Eh; [done|]. exists (l :: removelast (x :: h)). split; [done|].
    assert (Hrm : removelast (x :: h) = take 7 (x :: h)) by (rewrite removelast_firstn_len, H8; done).
    rewrite Hrm. split; [cbn [length]; by rewrite length_take, H8|]. constructor; [done|by apply Forall_take]. }
  intros t1 (h & -> & Hlh & Hfh). cbv zeta.
  set (t2 := on_area (set_cursorx 0) (set_cmd_history_index (-1) (set_linebuf_index 0 (set_cmd_history h (set_linebuf l t))))).
  assert (Ht3 : exists t3, (if decide (cursory (area t2) < kRows - 1) then on_area (set_cursory (cursory (area t2) + 1)) t2
      else on_area (Scroll1 find_server layer_id) t2) = t3 /\ talk_ok t3 /\ same_edit t2 t3).
  { eexists. split; [reflexivity|]. case_decide; (split; [split|done]); try done.
    - unfold cursor_ok, kRows, kColumns in *. cbn in *. lia.
    - unfold the_mail in *. cbn. unfold WinRedraw, WinFillRectangle, WinMoveRec. by rewrite !gui_send_inbox. }
  destruct Ht3 as (t3 & -> & Ht3 & E1 & E2 & E3 & E4).
  eapply safe_bind; [apply ExecuteLine_safe; [done|by rewrite E1|by rewrite E1|by rewrite E1]|].
  intros t4 ([T1 T2 T3] & F1 & F2 & F3 & F4 & F5). cbn [safe].
  pose proof (prompt_cursor (area t4) T2) as Hp. pose proof (prompt_inbox (area t4)) as Hi.
  change (edit_ok (set_area (prompt find_server layer_id (area t4)) t4)). revert Hp Hi.
  generalize (prompt find_server layer_id (area t4)). intros a [[_ Hy] Hx] Hi.
  split; cbn; rewrite ?F3, ?F4, ?F5, ?E2, ?E3, ?E4; try done.
  - unfold the_mail in *. cbn. by rewrite Hi.
  - rewrite Hx. cbn. lia.
  - split; [by rewrite F1, E1|done].
  - intros i c _ Hlt. cbn in Hlt. lia.
Qed.

Lemma InputKey_edit keycode ascii t :
  edit_ok t -> 0 <= ascii < 256 -> safe edit_ok (InputKey find_server layer_id keycode ascii t).
Proof.
  intros Ht Ha. pose proof (DrawCursor_edit false t Ht) as H1. unfold InputKey.
  eapply (safe_bind edit_ok); [|intros t' Ht'; by apply DrawCursor_edit].
  case_decide; [by apply enter_edit|]. case_decide; [by apply backspace_edit|].
  case_decide; [apply type_char_edit; [done|lia]|]. repeat case_decide; [apply HistoryUpDown_edit; auto..|done].
Qed.

(** ** The program *)

Definition status_ok (st : status) : Prop := match st with Running t => edit_ok t | Exited _ _ => True end.

Lemma turn_safe t : edit_ok t -> safe status_ok (turn find_server layer_id t).
Proof.
  intros Ht. unfold turn. destruct (inbox (the_mail t)) as [|m msgs] eqn:E; [done|].
  pose proof (ed_inbox _ Ht) as Hin. rewrite E, list.Forall_cons in Hin. destruct Hin as [(Hm & _) Hms].
  assert (Hr : edit_ok (received m msgs t)) by (destruct Ht; by split).
  destruct (key_pressed m).
  - eapply safe_bind; [apply InputKey_edit; [exact Hr|]|by intros t' Ht'].
    by apply (getU_range keyboard_ascii m Hm eq_refl).
  - by case_decide.
Qed.

Lemma turns_safe n : forall t, edit_ok t -> safe status_ok (turns find_server layer_id n t).
Proof.
  induction n as [|n IH]; intros t Ht; [done|]. cbn [turns].
  eapply safe_bind; [by apply turn_safe|]. intros [t'|code w] Hst; [by apply IH|done].
Qed.
End safety.

(** The first message of a task in a mailbox. *)
Definition first_from (from : Z) (msgs : list Message) : option Message :=
  head (filter (fun m => src_task m = from) msgs).

Lemma closed_receive_first from msgs : forall o m w,
  closed_receive from msgs o = Ok (m, w) -> first_from from msgs = Some m /\ exists k, inbox w = drop k msgs.
Proof.
  unfold first_from. induction msgs as [|x msgs IH]; intros o m w E; [done|]. cbn in E. case_decide as Hx.
  - injection E as <- <-. rewrite filter_cons_True by done. split; [done|by exists 1%nat].
  - rewrite filter_cons_False by done. destruct (IH _ _ _ E) as [H1 [k H2]]. split; [done|by exists (S k)].
Qed.

Section program.
Context (find_server : list Z -> Z * Z).

(** The first answer of the GUI is the layer that was opened. *)
Definition gui_answers (w : Mail) : Prop :=
  forall m, first_from (fst (find_server servers_gui)) (inbox w) = Some m -> type m = kLayerId.

Lemma OpenWindow_safe w h x y title mail :
  bytes title -> gui_answers mail -> Forall message_good (inbox mail) ->
  safe (fun r => Forall message_good (inbox (snd r))) (OpenWindow find_server w h x y title mail).
Proof.
  intros Ht Hg Hin. unfold gui_answers in Hg. unfold OpenWindow. destruct (find_server servers_gui) as [id err]. cbn [fst] in Hg.
  case_decide; [done|].
  match goal with |- context [with_fields ?l ?m] => assert (Hok : message_ok (with_fields l m)) by (apply with_fields_ok; [apply zero_message_ok|reflexivity]) end.
  revert Hok. generalize (with_fields [(openwindow_w, w); (openwindow_h, h); (openwindow_x, x); (openwindow_y, y)] (zero_message kOpenWindow)).
  intros m0 Hok. destruct (putB_ok openwindow_title (take 15 title) m0 Hok) as (m & -> & _).
  { by apply Forall_take. }
  { rewrite length_take. change openwindow_title with 16%nat. unfold arg_size. lia. }
  cbn [defined mbind outcome_bind]. unfold ClosedReceive. cbn [send act inbox out].
  destruct (closed_receive id (inbox mail) (out mail ++ [Send m id])) as [[rm w']| |] eqn:E; [|done|].
  - destruct (closed_receive_first _ _ _ _ _ E) as [H1 [k H2]]. cbn [mbind outcome_bind]. rewrite (Hg _ H1). cbn [safe snd].
    rewrite H2. by apply Forall_drop.
  - exfalso. revert E. generalize (out mail ++ [Send m id]). clear. induction (inbox mail) as [|y l IH]; intros o; [done|].
    cbn. case_decide; [done|apply IH].
Qed.

Lemma start_safe w :
  gui_answers w -> Forall message_good (inbox w) -> safe (fun r => status_ok (snd r)) (start find_server w).
Proof.
  intros Hg Hin. unfold start.
  eapply safe_bind; [apply OpenWindow_safe; [|done|done]; repeat constructor; unfold is_byte; lia|].
  intros [layer_id w1] Hw1. cbn [snd] in Hw1. case_decide; [done|]. cbv zeta.
  set (w2 := WinFillRectangle _ _ _ _ _ _ _ _ _).
  assert (Hw2 : Forall message_good (inbox w2)) by (unfold w2, WinFillRectangle; by rewrite gui_send_inbox).
  clearbody w2. pose proof (prompt_cursor find_server layer_id (MkArea 0 0 w2)) as Hp.
  pose proof (prompt_inbox find_server layer_id (MkArea 0 0 w2)) as Hi. revert Hp Hi.
  generalize (prompt find_server layer_id (MkArea 0 0 w2)). intros a Hp Hi. cbn [mail] in Hi.
  destruct Hp as [[_ Hy] Hx]; [unfold cursor_ok, kRows, kColumns; cbn; lia|].
  assert (Hz : bytes (replicate kLineMax 0)) by (apply Forall_replicate; unfold is_byte; lia).
  cbn [safe snd status_ok]. split; cbn -[replicate]; try lia; try done.
  - apply zero_message_ok.
  - unfold the_mail. cbn -[replicate]. by rewrite Hi.
  - split; [by rewrite length_replicate|]. apply Forall_replicate. split; [by rewrite length_replicate|].
    split; [done|]. exists []. split; [done|cbn; lia].
Qed.

(** C29. The terminal is safe for as long as it runs, as long as no percent sign
    is typed, no [kWrite] says more than 52 bytes, those from its data to the
    end of the message ([message_good]), and the GUI answers with a layer:
    whatever other keys are typed and whatever programs are started, it reads
    and writes inside of its buffers, and between two turns the line, its
    history and the cursor are well formed. A buffer is a message as a whole
    here: an argument in which "$?" was replaced can run over the 32 bytes of
    its array into the two fields behind it, which are set afterwards
    (terminal.cpp:264). *)
Theorem terminal_safe n w :
  gui_answers w -> Forall message_good (inbox w) -> safe status_ok (main find_server n w).
Proof.
  intros Hg Hin. unfold main. eapply safe_bind; [by apply start_safe|].
  intros [layer_id [t|code w']] Hst; [by apply turns_safe|done].
Qed.
End program.

(** A key pressed, and the task that sends it. *)
Definition sample_message (t : MsgType) (fs : list (field * Z)) : Message := set_src 7 (with_fields fs (zero_message t)).
Definition sample_key (c : Z) : Message := sample_message kKeyPush [(keyboard_ascii, c); (keyboard_press, 1)].
Definition sample_inbox : list Message :=
  [sample_message kLayerId [(layerid_layerid, 3)]; sample_key 108; sample_key 115; sample_key 10].

Lemma sample_message_ok t fs : fields_good fs = true -> message_ok (sample_message t fs).
Proof. intros H. apply (with_fields_ok fs (zero_message t)); [apply zero_message_ok|done]. Qed.

Lemma sample_key_good c s : getS (f_off keyboard_ascii) (sample_key c) = Some s -> 37 ∉ s -> message_good (sample_key c).
Proof.
  intros Hs Hn. split; [by apply sample_message_ok|]. pose proof (with_fields_type [(keyboard_ascii, c); (keyboard_press, 1)] (zero_message kKeyPush)) as [Ht _].
  assert (Hk : type (sample_key c) = kKeyPush) by exact Ht. rewrite Hk. split; [done|]. intros _. by exists s.
Qed.

Lemma terminal_safe_witness :
  safe status_ok (main (fun _ => (7, 0)) 2 (MkMail sample_inbox [])) /\
  match main (fun _ => (7, 0)) 2 (MkMail sample_inbox []) with
  | Ok (Running t) => c_str (linebuf t) = Some (chars "ls")
  | _ => False
  end.
Proof.
  split; [|by vm_compute]. apply terminal_safe.
  - intros m [= <-]. reflexivity.
  - cbn [inbox sample_inbox]. repeat apply Forall_cons_2; [|apply (sample_key_good 108 [108])|apply (sample_key_good 115 [115])|apply (sample_key_good 10 [10])|];
      try done; try (vm_compute; reflexivity); try (by apply not_elem_of_cons; split; [|apply not_elem_of_nil]).
    split; [by apply sample_message_ok|]. split; [done|]. intros [=].
Defined.
