(* ===== verification/UsbMemory.v ===== *)
(** * Memory of the USB driver (kernel/usb/memory.cpp)

    A bump allocator over a static pool, with alignment and a boundary that
    small blocks do not cross. Blocks are never given back. *)

From stdpp Require Import base list numbers option.
From Stdlib Require Import ZArith Lia.
From S2P Require Import Prelude.

Local Open Scope Z_scope.

(** [src/kernel/usb/memory.hpp:7-7] [kMemoryPoolSize] *)
Definition kMemoryPoolSize : Z := 4096 * 32.

(** [src/kernel/usb/memory.cpp:6-9] [Ceil] *)
Definition Ceil (value alignment : Z) : Z :=
  Z.land (u64 (u64 (value + alignment) - 1)) (Z.lnot (u32 (alignment - 1))).

Section pool.
(** The address of [memory_pool]. *)
Context (memory_pool : Z).

(** [alloc_ptr] before and after; the null pointer is [None].
    [src/kernel/usb/memory.cpp:21-40] [AllocMem] *)
Definition AllocMem (size alignment boundary alloc_ptr : Z) : Z * option Z :=
  let alloc_ptr := if decide (alignment > 0) then Ceil alloc_ptr alignment else alloc_ptr in
  let alloc_ptr :=
    if decide (boundary > 0) then
      let next_boundary := Ceil alloc_ptr boundary in
      if decide (next_boundary < u64 (alloc_ptr + size)) then next_boundary else alloc_ptr
    else alloc_ptr in
  if decide (u64 (memory_pool + kMemoryPoolSize) < u64 (alloc_ptr + size)) then (alloc_ptr, None)
  else (u64 (alloc_ptr + size), Some alloc_ptr).

(** [FreeMem] does nothing.
    [src/kernel/usb/memory.cpp:42-42] [FreeMem] *)
Definition FreeMem (p alloc_ptr : Z) : Z := alloc_ptr.

(** [sizeof(T)] is [size].
    [src/kernel/usb/memory.hpp:22-26] [AllocArray] *)
Definition AllocArray (size num_obj alignment boundary alloc_ptr : Z) : Z * option Z :=
  AllocMem (u64 (size * num_obj)) alignment boundary alloc_ptr.

(** A request: size, alignment, boundary. *)
Record request := MkRequest { req_size : Z; req_alignment : Z; req_boundary : Z }.

(** Requests in turn, with the blocks they get. *)
Fixpoint allocs (rs : list request) (alloc_ptr : Z) : Z * list (option Z) :=
  match rs with
  | [] => (alloc_ptr, [])
  | q :: rs' =>
      let '(alloc_ptr, p) := AllocMem (req_size q) (req_alignment q) (req_boundary q) alloc_ptr in
      let '(alloc_ptr, ps) := allocs rs' alloc_ptr in (alloc_ptr, p :: ps)
  end.

(** ** Alignment *)

(** A power of two, or no constraint. *)
Definition constraint_ok (a : Z) : Prop := a = 0 \/ exists k, 0 <= k <= 31 /\ a = 2 ^ k.

(** Everything lies below [2 ^ 63], at least 2^33 from it. *)
Hypothesis pool_range : 0 <= memory_pool /\ memory_pool + kMemoryPoolSize < 2 ^ 62.

Lemma Ceil_spec v k :
  0 <= v < 2 ^ 63 -> 0 <= k <= 31 -> Ceil v (2 ^ k) = (v + 2 ^ k - 1) / 2 ^ k * 2 ^ k.
Proof.
  intros Hv Hk. assert (0 < 2 ^ k <= 2 ^ 31) by (split; [apply Z.pow_pos_nonneg|apply Z.pow_le_mono_r]; lia).
  unfold Ceil. rewrite (u64_small (v + _)), u64_small, u32_small by lia.
  rewrite <- Z.ldiff_land. replace (2 ^ k - 1) with (Z.ones k) by (rewrite Z.ones_equiv; lia).
  rewrite Z.ldiff_ones_r, Z.shiftr_div_pow2, Z.shiftl_mul_pow2 by lia. do 2 f_equal; lia.
Qed.

Lemma Ceil_bounds v k M :
  0 <= v < 2 ^ 63 -> 0 <= k <= 31 -> v <= M -> (2 ^ 31 | M) ->
  v <= Ceil v (2 ^ k) < v + 2 ^ k /\ (2 ^ k | Ceil v (2 ^ k)) /\ Ceil v (2 ^ k) <= M.
Proof.
  intros Hv Hk HM [c ->]. rewrite Ceil_spec by lia. assert (0 < 2 ^ k) by (apply Z.pow_pos_nonneg; lia).
  pose proof (Z.div_mod (v + 2 ^ k - 1) (2 ^ k)). pose proof (Z.mod_pos_bound (v + 2 ^ k - 1) (2 ^ k)).
  split; [lia|]. split; [by apply Z.divide_factor_r|].
  assert (E : 2 ^ 31 = 2 ^ (31 - k) * 2 ^ k) by (rewrite <- Z.pow_add_r by lia; f_equal; lia).
  assert ((v + 2 ^ k - 1) / 2 ^ k <= c * 2 ^ (31 - k)); [|nia].
  apply Z.lt_succ_r, Z.div_lt_upper_bound; nia.
Qed.

Lemma Ceil_aligned v k j :
  0 <= v < 2 ^ 63 -> 0 <= k <= 31 -> 0 <= j <= 31 -> (2 ^ j | v) -> (2 ^ j | Ceil v (2 ^ k)).
Proof.
  intros Hv Hk Hj Hd. rewrite Ceil_spec by lia. assert (0 < 2 ^ k) by (apply Z.pow_pos_nonneg; lia).
  destruct (decide (j <= k)).
  - apply Z.divide_mul_r. exists (2 ^ (k - j)). rewrite <- Z.pow_add_r by lia. f_equal; lia.
  - replace ((v + 2 ^ k - 1) / 2 ^ k * 2 ^ k) with v; [done|].
    destruct Hd as [c ->]. assert (2 ^ j = 2 ^ (j - k) * 2 ^ k) as -> by (rewrite <- Z.pow_add_r by lia; f_equal; lia).
    rewrite Z.mul_assoc. set (q := c * 2 ^ (j - k)). f_equal. apply Z.div_unique with (2 ^ k - 1); lia.
Qed.

(** ** Blocks *)

Definition pool_end : Z := memory_pool + kMemoryPoolSize.

(** The next multiple of the largest alignment after the pool: [alloc_ptr]
    never gets beyond. *)
Definition pool_limit : Z := (pool_end / 2 ^ 31 + 1) * 2 ^ 31.

Definition request_ok (q : request) : Prop :=
  0 <= req_size q < 2 ^ 32 /\ constraint_ok (req_alignment q) /\ constraint_ok (req_boundary q).

(** A block fits the pool and its constraints. *)
Definition block_ok (q : request) (p : Z) : Prop :=
  memory_pool <= p /\ p + req_size q <= pool_end /\
  (0 < req_alignment q -> (req_alignment q | p)) /\
  (0 < req_size q <= req_boundary q -> p / req_boundary q = (p + req_size q - 1) / req_boundary q).

Definition ptr_in_range (a : Z) : Prop := memory_pool <= a <= pool_limit.

Lemma limit_bounds : pool_end < pool_limit <= pool_end + 2 ^ 31 /\ (2 ^ 31 | pool_limit).
Proof.
  unfold pool_limit. pose proof (Z.div_mod pool_end (2 ^ 31)). pose proof (Z.mod_pos_bound pool_end (2 ^ 31)).
  split; [lia|by apply Z.divide_factor_r].
Qed.

(** A block of at most the boundary's size from a multiple of it on, or ending
    before the next one. *)
Lemma no_crossing p size k :
  0 <= k -> 0 <= p -> 0 < size -> size <= 2 ^ k -> (2 ^ k | p) \/ p + size <= (p + 2 ^ k - 1) / 2 ^ k * 2 ^ k ->
  p / 2 ^ k = (p + size - 1) / 2 ^ k.
Proof.
  intros Hk Hp Hs Hsz Hc. assert (Hpos : 0 < 2 ^ k) by (apply Z.pow_pos_nonneg; lia).
  pose proof (Z.div_mod p (2 ^ k) ltac:(lia)) as Ed. pose proof (Z.mod_pos_bound p (2 ^ k) Hpos) as Hm.
  set (q := p / 2 ^ k) in *. set (m := p mod 2 ^ k) in *. apply Z.div_unique with (m + size - 1); [|lia].
  destruct Hc as [[c Hc]|Hc].
  - assert (m = 0) by (unfold m; rewrite Hc; apply Z.mod_mul; lia). lia.
  - destruct (decide (m = 0)) as [->|]; [lia|].
    assert ((p + 2 ^ k - 1) / 2 ^ k = q + 1) as E; [|rewrite E in Hc; lia].
    symmetry. apply Z.div_unique with (m - 1); lia.
Qed.

Lemma constraint_cases a : constraint_ok a -> a = 0 \/ (0 < a /\ exists k, 0 <= k <= 31 /\ a = 2 ^ k).
Proof. intros [->|(k & Hk & ->)]; [by left|right]. split; [apply Z.pow_pos_nonneg; lia|by exists k]. Qed.

(** One request. *)
Lemma AllocMem_spec q a :
  request_ok q -> ptr_in_range a ->
  exists a' p, AllocMem (req_size q) (req_alignment q) (req_boundary q) a = (a', p) /\ ptr_in_range a' /\ a <= a' /\
    (forall b, p = Some b -> block_ok q b /\ a <= b /\ b + req_size q = a').
Proof.
  intros (Hs & Hal & Hbd) Ha. pose proof limit_bounds as [Hlim Hdiv].
  assert (Hpool : kMemoryPoolSize = 131072) by done. unfold ptr_in_range, pool_end in *.
  set (a1 := if decide (req_alignment q > 0) then Ceil a (req_alignment q) else a).
  assert (H1 : a <= a1 <= pool_limit /\ (0 < req_alignment q -> (req_alignment q | a1))).
  { unfold a1. destruct (constraint_cases _ Hal) as [->|(Hp & k & Hk & E)]; [rewrite decide_False by lia; split; lia|].
    rewrite decide_True, E by lia. destruct (Ceil_bounds a k pool_limit) as (? & ? & ?); [lia|lia|lia|done|]. split; [lia|done]. }
  set (a2 := if decide (req_boundary q > 0) then
      if decide (Ceil a1 (req_boundary q) < u64 (a1 + req_size q)) then Ceil a1 (req_boundary q) else a1 else a1).
  assert (H2 : a1 <= a2 <= pool_limit /\ (0 < req_alignment q -> (req_alignment q | a2)) /\
    (0 < req_size q <= req_boundary q -> a2 / req_boundary q = (a2 + req_size q - 1) / req_boundary q)).
  { unfold a2. rewrite (u64_small (a1 + req_size q)) by lia. destruct H1 as [H1 H1a].
    destruct (constraint_cases _ Hbd) as [->|(Hp & k & Hk & E)]; [rewrite decide_False by lia; split_and!; lia || done|].
    rewrite decide_True, E by lia. destruct (Ceil_bounds a1 k pool_limit) as (B1 & B2 & B3); [lia|lia|lia|done|].
    case_decide as Hc.
    - split; [lia|]. split; [|intros Hsz; apply no_crossing; [lia..|by left]]. intros Hpos.
      destruct (constraint_cases _ Hal) as [|(_ & j & Hj & Ej)]; [lia|]. rewrite Ej in *. apply Ceil_aligned; [lia..|]. by apply H1a.
    - split; [lia|]. split; [done|]. intros Hsz. apply no_crossing; [lia..|right]. rewrite Ceil_spec in Hc by lia. lia. }
  assert (E : AllocMem (req_size q) (req_alignment q) (req_boundary q) a =
    if decide (u64 (memory_pool + kMemoryPoolSize) < u64 (a2 + req_size q)) then (a2, None) else (u64 (a2 + req_size q), Some a2)) by done.
  rewrite E. clear E. rewrite (u64_small (memory_pool + _)), (u64_small (a2 + _)) by lia. case_decide as Hc.
  - exists a2, None. split; [done|]. split; [lia|]. split; [lia|done].
  - exists (a2 + req_size q), (Some a2). split; [done|]. split; [lia|]. split; [lia|]. intros b [= <-]. split; [|lia].
    unfold block_ok, pool_end. split_and!; [lia..|apply H2|apply H2].
Qed.

(** The blocks of later requests come after those of earlier ones. *)
Lemma allocs_spec rs : forall a, Forall request_ok rs -> ptr_in_range a ->
  exists a' ps, allocs rs a = (a', ps) /\ length ps = length rs /\
    (forall i q b, rs !! i = Some q -> ps !! i = Some (Some b) -> block_ok q b /\ a <= b) /\
    (forall i j q b b', (i < j)%nat -> rs !! i = Some q -> ps !! i = Some (Some b) -> ps !! j = Some (Some b') ->
      b + req_size q <= b').
Proof.
  induction rs as [|q rs IH]; intros a Hrs Ha; cbn [allocs].
  { exists a, []. split_and!; try done. }
  apply list.Forall_cons in Hrs as [Hq Hrs]. destruct (AllocMem_spec q a Hq Ha) as (a1 & p & -> & Ha1 & Hle & Hp).
  destruct (IH a1 Hrs Ha1) as (a' & ps & -> & Hlen & Hok & Hord). exists a', (p :: ps). split; [done|].
  split; [cbn; by rewrite Hlen|]. split.
  - intros [|i] q' b; cbn; [intros [= <-] [= ->]; by destruct (Hp b eq_refl) as (? & ? & _)|].
    intros Hi Hb. destruct (Hok i q' b Hi Hb). split; [done|lia].
  - intros [|i] [|j] q' b b' Hij; cbn; try lia; intros Hi Hb Hb'.
    + injection Hi as <-. injection Hb as ->. destruct (Hp b eq_refl) as (_ & _ & <-).
      destruct (rs !! j) as [q''|] eqn:Ej; [by destruct (Hok j q'' b' Ej Hb')|].
      apply lookup_ge_None in Ej. apply lookup_lt_Some in Hb'. lia.
    + apply (Hord i j q' b b'); [lia|done..].
Qed.
End pool.

(** Whatever blocks the driver requests, in whatever order, each block it
    gets lies in the pool, is aligned as asked, does not cross the boundary when
    it is no larger, and overlaps no other block; a request that does not fit is
    refused and leaves the allocator working. *)
Theorem AllocMem_disjoint memory_pool rs :
  0 <= memory_pool /\ memory_pool + kMemoryPoolSize < 2 ^ 62 -> Forall request_ok rs ->
  exists a ps, allocs memory_pool rs memory_pool = (a, ps) /\ length ps = length rs /\
    (forall i q b, rs !! i = Some q -> ps !! i = Some (Some b) -> block_ok memory_pool q b) /\
    (forall i j q b b', (i < j)%nat -> rs !! i = Some q -> ps !! i = Some (Some b) -> ps !! j = Some (Some b') ->
      b + req_size q <= b').
Proof.
  intros Hr Hrs. pose proof (limit_bounds memory_pool) as [Hlim _].
  destruct (allocs_spec memory_pool Hr rs memory_pool Hrs) as (a & ps & E & Hlen & Hok & Hord).
  { unfold ptr_in_range, pool_end, kMemoryPoolSize in *. lia. }
  exists a, ps. split; [done|]. split; [done|]. split; [|done]. intros i q b Hi Hb. by apply (Hok i).
Qed.

(** A ring of 32 TRBs, a block that would cross a page, one too large. *)
Definition sample_requests : list request :=
  [MkRequest 512 64 65536; MkRequest 4000 64 4096; MkRequest 200000 0 0; MkRequest 16 64 4096].

Lemma AllocMem_disjoint_witness :
  exists a ps, allocs 0x100040 sample_requests 0x100040 = (a, ps) /\ length ps = 4%nat /\
    ps !! 1%nat = Some (Some 0x101000) /\ ps !! 2%nat = Some None.
Proof.
  destruct (AllocMem_disjoint 0x100040 sample_requests) as (a & ps & E & Hlen & _).
  - unfold kMemoryPoolSize. lia.
  - assert (forall k, 0 <= k <= 31 -> constraint_ok (2 ^ k)) as Hk by (intros k ?; right; by exists k).
    unfold sample_requests. rewrite !list.Forall_cons. unfold request_ok; cbn [req_size req_alignment req_boundary].
    split_and!; first [lia|by apply list.Forall_nil|by left|exact (Hk 6 ltac:(lia))|exact (Hk 12 ltac:(lia))|exact (Hk 16 ltac:(lia))].
  - exists a, ps. split; [exact E|]. split; [exact Hlen|]. vm_compute in E. injection E as <- <-. split; reflexivity.
Defined.
