(* ===== verification/UsbRing.v ===== *)
(** * Command and transfer rings of the USB driver (kernel/usb/xhci/ring.cpp)

    The driver stores transfer request blocks in a ring of memory that the host
    controller reads at the same time; a cycle bit in the last word of a block
    tells whether it is new. The controller is a class with the documented laws
    of xHCI; its steps interleave with the single stores of the driver. *)

From stdpp Require Import base list numbers option.
From Stdlib Require Import ZArith Lia.
From S2P Require Import Prelude UsbMemory.

Local Open Scope Z_scope.

(** [src/kernel/usb/xhci/trb.hpp:11-22] [TRB] *)
Record TRB := MkTRB { d0 : Z; d1 : Z; d2 : Z; d3 : Z }.
#[export] Instance TRB_eq_dec : EqDecision TRB.
Proof. solve_decision. Defined.

(** [src/kernel/usb/xhci/trb.hpp:19-19] [TRB::trb_type] *)
Definition trb_type (w3 : Z) : Z := Z.land (Z.shiftr w3 10) 0x3f.

(** A link to the block at address [p], that toggles the cycle.
    [src/kernel/usb/xhci/trb.hpp:157-189] [LinkTRB] *)
Definition LinkTRB (p : Z) : TRB :=
  let pointer := Z.shiftl (Z.shiftr p 4) 4 in
  MkTRB (u32 pointer) (u32 (Z.shiftr pointer 32)) 0 (Z.lor (Z.shiftl 6 10) (Z.shiftl 1 1)).

(** The members of a ring; [buf_] is an address.
    [src/kernel/usb/xhci/ring.hpp:34-41] [Ring] *)
Record Ring := MkRing { buf : Z; buf_size : Z; cycle_bit : bool; write_index : Z }.

(** A store of a word: its index from the start of the buffer, its value. *)
Definition store : Type := Z * Z.

(** The last word of a block with the cycle bit of the producer.
    [src/kernel/usb/xhci/ring.cpp:35-36] [Ring::CopyToLast] *)
Definition cycle (w3 : Z) (c : bool) : Z := Z.lor (Z.land w3 0xfffffffe) (if c then 1 else 0).

(** The stores, in the order of the program.
    [src/kernel/usb/xhci/ring.cpp:30-37] [Ring::CopyToLast] *)
Definition CopyToLast (d : TRB) (r : Ring) : list store :=
  [(4 * write_index r + 0, d0 d); (4 * write_index r + 1, d1 d); (4 * write_index r + 2, d2 d);
   (4 * write_index r + 3, cycle (d3 d) (cycle_bit r))].

(** [src/kernel/usb/xhci/ring.cpp:39-54] [Ring::Push] *)
Definition Push (d : TRB) (r : Ring) : Ring * list store :=
  let stores := CopyToLast d r in
  let r := MkRing (buf r) (buf_size r) (cycle_bit r) (u64 (write_index r + 1)) in
  if decide (write_index r = u64 (buf_size r - 1)) then
    (MkRing (buf r) (buf_size r) (negb (cycle_bit r)) 0, stores ++ CopyToLast (LinkTRB (buf r)) r)
  else (r, stores).

(** The ring, its memory in words, and the allocator; a null buffer is 0. The
    buffer a ring had before is freed, which does nothing.
    [src/kernel/usb/xhci/ring.cpp:12-28] [Ring::Initialize] *)
Definition Initialize (memory_pool n alloc_ptr : Z) : Z * (Ring * list Z * Code) :=
  let '(alloc_ptr, p) := AllocArray memory_pool 16 n 64 (64 * 1024) alloc_ptr in
  match p with
  | None => (alloc_ptr, (MkRing 0 n true 0, [], kNoEnoughMemory))
  | Some p => (alloc_ptr, (MkRing p n true 0, replicate (Z.to_nat (4 * n)) 0, kSuccess))
  end.

(** ** The controller *)

Definition word (mem : list Z) (slot i : Z) : Z := default 0 (getZ mem (4 * slot + i)).
Definition entry (mem : list Z) (slot : Z) : TRB :=
  MkTRB (word mem slot 0) (word mem slot 1) (word mem slot 2) (word mem slot 3).

(** Where the controller reads, and the cycle it expects there. *)
Definition position : Type := Z * bool.

(** Reading a block of the ring at [base] from a position, with the position
    after it; [None] when the controller waits. The laws are those of xHCI 4.9.2:
    a block of the other cycle is not the controller's yet; a link is followed. *)
Class Controller := {
  fetch : list Z -> Z -> position -> option (TRB * position);
  fetch_waits mem base s c : Z.testbit (word mem s 3) 0 <> c -> fetch mem base (s, c) = None;
  fetch_takes mem base s c : Z.testbit (word mem s 3) 0 = c -> trb_type (word mem s 3) <> 6 ->
    fetch mem base (s, c) = Some (entry mem s, (s + 1, c));
  fetch_follows mem base s c : Z.testbit (word mem s 3) 0 = c -> trb_type (word mem s 3) = 6 ->
    word mem s 0 + 2 ^ 32 * word mem s 1 = base ->
    Z.testbit (word mem 0 3) 0 <> xorb c (Z.testbit (word mem s 3) 1) \/ trb_type (word mem 0 3) <> 6 ->
    fetch mem base (s, c) = fetch mem base (0, xorb c (Z.testbit (word mem s 3) 1));
}.

(** ** Driver and controller together *)

(** The ring, its memory, the stores of the push under way, the place of the
    controller, and the blocks pushed and read so far. *)
Record State := MkState {
  ring : Ring;
  memory : list Z;
  queue : list store;
  place : position;
  pushed : list TRB;
  fetched : list TRB;
}.

(** Blocks but for the cycle bit. *)
Definition payload (d : TRB) : TRB := MkTRB (d0 d) (d1 d) (d2 d) (Z.land (d3 d) 0xfffffffe).

Section run.
Context {controller : Controller}.

(** The driver begins a push when it has finished the last one and the
    controller has left a block of room; it performs one store; the controller
    reads a block. *)
Inductive step (s : State) : State -> Prop :=
| step_push d :
    queue s = [] -> Z.of_nat (length (pushed s) - length (fetched s)) < buf_size (ring s) - 2 -> trb_type (d3 d) <> 6 ->
    step s (MkState (fst (Push d (ring s))) (memory s) (snd (Push d (ring s))) (place s) (pushed s ++ [d]) (fetched s))
| step_store a v q mem :
    queue s = (a, v) :: q -> setZ (memory s) a v = Some mem ->
    step s (MkState (ring s) mem q (place s) (pushed s) (fetched s))
| step_fetch d p :
    fetch (memory s) (buf (ring s)) (place s) = Some (d, p) ->
    step s (MkState (ring s) (memory s) (queue s) p (pushed s) (fetched s ++ [d])).

Inductive reachable (s0 : State) : State -> Prop :=
| reach_init : reachable s0 s0
| reach_step s s' : reachable s0 s -> step s s' -> reachable s0 s'.

(** A ring just initialised; the controller is given its address and the cycle
    one. *)
Definition start (r : Ring) (mem : list Z) : State := MkState r mem [] (0, true) [] [].

(** ** Cycle bits *)

Lemma mask_bits k : 0 <= k -> Z.testbit 0xfffffffe k = bool_decide (1 <= k < 32).
Proof.
  intros Hk. change 0xfffffffe with (Z.shiftl (Z.ones 31) 1). rewrite Z.shiftl_spec by done.
  destruct (decide (1 <= k)); [|by rewrite Z.testbit_neg_r, bool_decide_false by lia].
  destruct (decide (k < 32)); [rewrite Z.ones_spec_low, bool_decide_true by lia; done|].
  by rewrite Z.ones_spec_high, bool_decide_false by lia.
Qed.

Lemma cycle_bits w c k :
  0 <= k -> Z.testbit (cycle w c) k = if decide (k = 0) then c else Z.testbit w k && bool_decide (1 <= k < 32).
Proof.
  intros Hk. unfold cycle. rewrite Z.lor_spec, Z.land_spec, mask_bits by done. case_decide as H.
  - subst k. rewrite bool_decide_false by lia. rewrite andb_false_r. by destruct c.
  - assert (Z.testbit (if c then 1 else 0) k = false) as ->; [|by rewrite orb_false_r].
    destruct c; [|apply Z.bits_0]. change 1 with (2 ^ 0). rewrite Z.pow2_bits_eqb by lia. apply Z.eqb_neq. lia.
Qed.

Lemma cycle_payload w c : Z.land (cycle w c) 0xfffffffe = Z.land w 0xfffffffe.
Proof.
  apply Z.bits_inj'. intros k Hk. rewrite !Z.land_spec, mask_bits, cycle_bits by done. case_decide.
  - subst k. rewrite bool_decide_false by lia. by rewrite !andb_false_r.
  - destruct (bool_decide _); by rewrite ?andb_true_r, ?andb_false_r.
Qed.

Lemma cycle_type w c : trb_type (cycle w c) = trb_type w.
Proof.
  unfold trb_type. apply Z.bits_inj'. intros k Hk. change 0x3f with (Z.ones 6). rewrite !Z.land_spec, !Z.shiftr_spec, cycle_bits by lia.
  rewrite decide_False by lia. destruct (decide (k < 6)).
  - rewrite bool_decide_true by lia. by rewrite andb_true_r.
  - by rewrite Z.ones_spec_high, !andb_false_r by lia.
Qed.

(** A block with the cycle bit of its lap. *)
Definition tagged (d : TRB) (c : bool) : TRB := MkTRB (d0 d) (d1 d) (d2 d) (cycle (d3 d) c).

Lemma payload_tagged d c : payload (tagged d c) = payload d.
Proof. unfold payload, tagged; cbn. by rewrite cycle_payload. Qed.

Definition trb_word (d : TRB) (i : Z) : Z :=
  if decide (i = 0) then d0 d else if decide (i = 1) then d1 d else if decide (i = 2) then d2 d else d3 d.

Lemma entry_words mem s d : (forall i, 0 <= i <= 3 -> word mem s i = trb_word d i) -> entry mem s = d.
Proof. intros H. unfold entry. rewrite !H by lia. by destruct d. Qed.

Lemma word_store mem a v mem' s i k :
  setZ mem a v = Some mem' -> 0 <= i <= 3 -> 0 <= k <= 3 ->
  forall p, a = 4 * p + k -> word mem' s i = if decide (s = p /\ i = k) then v else word mem s i.
Proof.
  intros E Hi Hk p ->. unfold word. rewrite (getZ_setZ _ _ _ _ _ E).
  destruct (decide (4 * p + k = 4 * s + i)) as [H|H]; [rewrite decide_True by lia|rewrite decide_False by lia]; done.
Qed.

(** ** Laps *)

Section laps.
Context (n : Z).
Hypothesis (Hn : 1 <= n).

(** [t] counts blocks; [n] blocks make a lap. *)
Definition lap_bit (t : Z) : bool := Z.even (t / n).

Lemma slot_ne t t' : 0 < t' - t < n -> t mod n <> t' mod n.
Proof.
  intros H E. pose proof (Z.div_mod t n ltac:(lia)). pose proof (Z.div_mod t' n ltac:(lia)).
  rewrite <- E in *. set (q := t / n) in *. set (q' := t' / n) in *. set (m := t mod n) in *. clearbody q q' m.
  destruct (decide (q' <= q)).
  - pose proof (Z.mul_le_mono_nonneg_l q' q n). lia.
  - pose proof (Z.mul_le_mono_nonneg_l (q + 1) q' n). lia.
Qed.

Lemma lap_bit_next t : lap_bit (t + n) = negb (lap_bit t).
Proof. unfold lap_bit. replace (t + n) with (t + 1 * n) by lia. rewrite Z.div_add by lia. rewrite Z.add_1_r, Z.even_succ. by rewrite <- Z.negb_even. Qed.

Lemma next_slot t :
  0 <= t ->
  (t mod n + 1 < n /\ (t + 1) mod n = t mod n + 1 /\ (t + 1) / n = t / n) \/
  (t mod n + 1 = n /\ (t + 1) mod n = 0 /\ (t + 1) / n = t / n + 1).
Proof.
  intros Ht. pose proof (Z.div_mod t n ltac:(lia)). pose proof (Z.mod_pos_bound t n ltac:(lia)).
  destruct (decide (t mod n + 1 < n)); [left|right]; (split; [lia|]).
  - split; symmetry; [apply Z.mod_unique with (t / n)|apply Z.div_unique with (t mod n + 1)]; lia.
  - split; symmetry; [apply Z.mod_unique with (t / n + 1)|apply Z.div_unique with 0]; lia.
Qed.
End laps.

(** ** The invariant *)

Section invariant.
(** The ring has [n] blocks and the link. *)
Context (n base : Z).
Hypothesis (Hn : 2 <= n < 2 ^ 32) (Hbase : 0 <= base < 2 ^ 64) (Halign : base mod 16 = 0).

Definition ring_at (t slot : Z) : Ring := MkRing base (n + 1) (lap_bit n t) slot.

(** The stores of a block from the [j]th word on. *)
Definition block (slot : Z) (d : TRB) (j : nat) : list store :=
  drop j (map (fun i => (4 * slot + i, trb_word d i)) [0; 1; 2; 3]).

Lemma CopyToLast_block d r : CopyToLast d r = block (write_index r) (tagged d (cycle_bit r)) 0.
Proof. done. Qed.

Lemma block_cons slot d j :
  (j <= 3)%nat -> block slot d j = (4 * slot + Z.of_nat j, trb_word d (Z.of_nat j)) :: block slot d (S j).
Proof. intros Hj. do 4 (destruct j as [|j]; [done|]). lia. Qed.

(** The first [j] words of a slot are those of [d]. *)
Definition written (mem : list Z) (slot : Z) (d : TRB) (j : nat) : Prop :=
  forall i, 0 <= i < Z.of_nat j -> word mem slot i = trb_word d i.

(** The stores that follow those of block [P]. *)
Definition link_block (L : Z) : TRB := tagged (LinkTRB base) (Z.even L).
Definition then_link (P : Z) : list store :=
  if decide ((P + 1) mod n = 0) then block n (link_block (P / n)) 0 else [].

(** [P] blocks are complete and [L] links; a block or a link may be under way. *)
Inductive phase (s : State) (P L : Z) : Prop :=
| phase_idle :
    queue s = [] -> P = Z.of_nat (length (pushed s)) -> L = P / n -> ring s = ring_at P (P mod n) -> phase s P L
| phase_data j d :
    (j <= 3)%nat -> P + 1 = Z.of_nat (length (pushed s)) -> pushed s !! Z.to_nat P = Some d -> L = P / n ->
    ring s = ring_at (P + 1) ((P + 1) mod n) -> written (memory s) (P mod n) (tagged d (lap_bit n P)) j ->
    queue s = block (P mod n) (tagged d (lap_bit n P)) j ++ then_link P -> phase s P L
| phase_link j :
    (j <= 3)%nat -> P = Z.of_nat (length (pushed s)) -> P = (L + 1) * n -> ring s = ring_at P (P mod n) ->
    written (memory s) n (link_block L) j -> queue s = block n (link_block L) j -> phase s P L.

Definition count (s : State) : Z := Z.of_nat (length (fetched s)).

Record inv (s : State) (P L : Z) : Prop := {
  iv_mem : Z.of_nat (length (memory s)) = 4 * (n + 1);
  iv_fetched : map payload (fetched s) = map payload (take (length (fetched s)) (pushed s));
  iv_types : Forall (fun d => trb_type (d3 d) <> 6) (pushed s);
  iv_count : count s <= P <= Z.of_nat (length (pushed s)) /\ Z.of_nat (length (pushed s)) - count s <= n - 1 /\ 0 <= L;
  iv_unread t d : count s <= t < P -> pushed s !! Z.to_nat t = Some d ->
    entry (memory s) (t mod n) = tagged d (lap_bit n t);
  iv_free t : P <= t < P + n -> Z.testbit (word (memory s) (t mod n) 3) 0 = negb (lap_bit n t);
  iv_link : Z.testbit (word (memory s) n 3) 0 = negb (Z.even L) /\
    (1 <= L -> entry (memory s) n = link_block (L - 1));
  iv_place : place s = (count s mod n, lap_bit n (count s)) \/
    (exists k, 1 <= k /\ count s = k * n /\ place s = (n, Z.even (k - 1)));
  iv_phase : phase s P L;
}.

(** *** The start *)

Lemma start_inv : inv (start (MkRing base (n + 1) true 0) (replicate (Z.to_nat (4 * (n + 1))) 0)) 0 0.
Proof.
  assert (Hz : forall s i, word (replicate (Z.to_nat (4 * (n + 1))) 0) s i = 0).
  { intros s i. unfold word, getZ. case_decide; [|done].
    destruct (replicate _ _ !! _) eqn:E; [by apply lookup_replicate in E as [-> _]|done]. }
  assert (Hlap : forall t, 0 <= t < n -> lap_bit n t = true) by (intros t Ht; unfold lap_bit; by rewrite Z.div_small).
  split; cbn [memory pushed fetched place queue ring start length].
  - rewrite length_replicate. lia.
  - done.
  - done.
  - unfold count. cbn. lia.
  - intros t d Ht. unfold count in Ht. cbn in Ht. lia.
  - intros t Ht. rewrite Hz, Hlap by lia. done.
  - rewrite Hz. split; [done|lia].
  - left. unfold count. cbn. rewrite Z.mod_0_l, Hlap by lia. done.
  - by apply phase_idle.
Qed.

(** *** A push begins *)

Lemma Push_stores P d :
  0 <= P -> Push d (ring_at P (P mod n)) =
  (ring_at (P + 1) ((P + 1) mod n), block (P mod n) (tagged d (lap_bit n P)) 0 ++ then_link P).
Proof.
  intros HP. unfold Push. rewrite CopyToLast_block. cbn [ring_at write_index buf buf_size cycle_bit].
  pose proof (Z.mod_pos_bound P n ltac:(lia)). rewrite (u64_small (P mod n + 1)), (u64_small (n + 1 - 1)) by lia.
  unfold then_link, link_block, ring_at, lap_bit.
  destruct (next_slot n ltac:(lia) P HP) as [(H1 & H2 & H3)|(H1 & H2 & H3)].
  - rewrite decide_False, H2, H3 by lia. rewrite decide_False by lia. by rewrite app_nil_r.
  - rewrite decide_True by lia. rewrite H2, H3, decide_True by done.
    rewrite Z.even_add. change (Z.even 1) with false. rewrite CopyToLast_block. cbn [write_index cycle_bit].
    replace (P mod n + 1) with n by lia. done.
Qed.

Lemma push_inv s P L d :
  inv s P L -> queue s = [] -> Z.of_nat (length (pushed s) - length (fetched s)) < buf_size (ring s) - 2 -> trb_type (d3 d) <> 6 ->
  inv (MkState (fst (Push d (ring s))) (memory s) (snd (Push d (ring s))) (place s) (pushed s ++ [d]) (fetched s)) P L.
Proof.
  intros [H1 H2 H3 H4 H5 H6 H7 H8 H9] Hq Hroom Hd.
  destruct H9 as [_ HP HL Hr|j ? Hj _ _ _ _ _ Hqq|j Hj _ _ _ _ Hqq];
    [|rewrite Hq, block_cons in Hqq by done; discriminate..].
  rewrite Hr in Hroom. cbn [ring_at buf_size] in Hroom. rewrite Hr, Push_stores by lia. cbn [fst snd].
  unfold count in *. split; cbn [memory pushed fetched place queue ring]; unfold count; cbn [fetched]; try done.
  - rewrite take_app_le; [done|]. lia.
  - apply list.Forall_app. split; [done|by constructor].
  - rewrite length_app. cbn. lia.
  - intros t x Ht Hx. apply H5; [done|]. rewrite lookup_app_l in Hx; [done|lia].
  - apply phase_data with 0%nat d; cbn; try done; try lia.
    + rewrite length_app. cbn. lia.
    + rewrite HP, Nat2Z.id, lookup_app_r, Nat.sub_diag by lia. done.
    + intros i Hi. lia.
Qed.

(** *** A store *)

Lemma store_word mem p k v :
  Z.of_nat (length mem) = 4 * (n + 1) -> 0 <= p <= n -> 0 <= k <= 3 ->
  exists mem', setZ mem (4 * p + k) v = Some mem' /\ length mem' = length mem /\
    (forall s i, 0 <= i <= 3 -> word mem' s i = if decide (s = p /\ i = k) then v else word mem s i) /\
    (forall s, s <> p -> entry mem' s = entry mem s).
Proof.
  intros Hm Hp Hk. pose proof (setZ_Some mem (4 * p + k) v ltac:(lia)) as E. eexists. split; [exact E|].
  split; [by eapply length_setZ|]. assert (Hw : forall s i, 0 <= i <= 3 ->
    word (<[Z.to_nat (4 * p + k):=v]> mem) s i = if decide (s = p /\ i = k) then v else word mem s i).
  { intros s i Hi. by apply (word_store mem (4 * p + k) v _ s i k E). }
  split; [done|]. intros s Hs. unfold entry. rewrite !Hw by lia. rewrite !decide_False by naive_solver. done.
Qed.

Lemma written_S mem mem' p d j :
  (j <= 3)%nat -> written mem p d j ->
  (forall s i, 0 <= i <= 3 -> word mem' s i = if decide (s = p /\ i = Z.of_nat j) then trb_word d (Z.of_nat j) else word mem s i) ->
  written mem' p d (S j).
Proof.
  intros Hj Hw Hm i Hi. rewrite Hm by lia. case_decide as H; [by destruct H as [_ ->]|]. apply Hw.
  destruct (decide (i = Z.of_nat j)); [naive_solver|lia].
Qed.

Lemma written_entry mem p d : written mem p d 4 -> entry mem p = d.
Proof. intros H. apply entry_words. intros i Hi. apply H. lia. Qed.

Lemma word3_tagged d c : Z.testbit (trb_word (tagged d c) 3) 0 = c.
Proof. change (Z.testbit (cycle (d3 d) c) 0 = c). by rewrite cycle_bits. Qed.

Lemma mod_range t : 0 <= t mod n < n.
Proof. apply Z.mod_pos_bound. lia. Qed.

(** One of the first three words of a block: nothing is seen of it. *)
Lemma store_quiet s P L p k v q mem' :
  inv s P L -> 0 <= k < 3 -> p = P mod n \/ (p = n /\ (1 <= L -> word (memory s) n k = v)) ->
  length mem' = length (memory s) ->
  (forall s' i, 0 <= i <= 3 -> word mem' s' i = if decide (s' = p /\ i = k) then v else word (memory s) s' i) ->
  phase (MkState (ring s) mem' q (place s) (pushed s) (fetched s)) P L ->
  inv (MkState (ring s) mem' q (place s) (pushed s) (fetched s)) P L.
Proof.
  intros [H1 H2 H3 H4 H5 H6 H7 H8 H9] Hk Hp Hlen Hw Hph. unfold count in *.
  assert (H3w : forall s', word mem' s' 3 = word (memory s) s' 3) by (intros s'; rewrite Hw, decide_False; [done|lia|lia]).
  assert (Hent : forall s', s' <> p \/ word (memory s) s' k = v -> entry mem' s' = entry (memory s) s').
  { intros s' Hs. assert (forall i, 0 <= i <= 3 -> word mem' s' i = word (memory s) s' i) as E.
    { intros i Hi. rewrite Hw by done. case_decide as Hd; [|done]. destruct Hd as [-> ->]. by destruct Hs. }
    unfold entry. by rewrite !E by lia. }
  split; cbn [memory pushed fetched place queue ring]; unfold count; cbn [fetched]; try done.
  - by rewrite Hlen.
  - intros t d Ht Hd. rewrite Hent; [by apply H5|]. left. pose proof (mod_range t).
    destruct Hp as [-> |[-> _]]; [|lia]. apply slot_ne; lia.
  - intros t Ht. rewrite H3w. by apply H6.
  - rewrite H3w. split; [apply H7|]. intros HL. rewrite Hent; [by apply H7|]. pose proof (mod_range P).
    destruct Hp as [-> |[-> Hv]]; [left; lia|right; by apply Hv].
Qed.

(** The last word of a block: the block is complete. *)
Lemma store_last s P L d q mem' :
  inv s P L -> pushed s !! Z.to_nat P = Some d -> P + 1 <= Z.of_nat (length (pushed s)) ->
  written mem' (P mod n) (tagged d (lap_bit n P)) 4 -> length mem' = length (memory s) ->
  (forall s', s' <> P mod n -> entry mem' s' = entry (memory s) s') ->
  phase (MkState (ring s) mem' q (place s) (pushed s) (fetched s)) (P + 1) L ->
  inv (MkState (ring s) mem' q (place s) (pushed s) (fetched s)) (P + 1) L.
Proof.
  intros [H1 H2 H3 H4 H5 H6 H7 H8 H9] Hd HP Hw Hlen Hent Hph. unfold count in *. pose proof (mod_range P) as Hmod.
  assert (H3w : forall s', s' <> P mod n -> word mem' s' 3 = word (memory s) s' 3).
  { intros s' Hs. specialize (Hent s' Hs). by injection Hent. }
  split; cbn [memory pushed fetched place queue ring]; unfold count; cbn [fetched]; try done.
  - by rewrite Hlen.
  - lia.
  - intros t x Ht Hx. destruct (decide (t = P)) as [->|Hne].
    + rewrite Hd in Hx. injection Hx as <-. by apply written_entry.
    + rewrite Hent; [apply H5; [lia|done]|]. apply slot_ne; lia.
  - intros t Ht. destruct (decide (t = P + n)) as [->|Hne].
    + rewrite lap_bit_next, negb_involutive by lia. 
      assert ((P + n) mod n = P mod n) as -> by (rewrite <- (Z_mod_plus_full P 1 n); f_equal; lia).
      rewrite Hw by lia. apply word3_tagged.
    + rewrite H3w; [apply H6; lia|]. apply not_eq_sym, slot_ne; lia.
  - rewrite H3w, Hent by lia. done.
Qed.

(** The last word of the link: the link is complete. *)
Lemma store_link s P L q mem' :
  inv s P L -> written mem' n (link_block L) 4 -> length mem' = length (memory s) ->
  (forall s', s' <> n -> entry mem' s' = entry (memory s) s') ->
  phase (MkState (ring s) mem' q (place s) (pushed s) (fetched s)) P (L + 1) ->
  inv (MkState (ring s) mem' q (place s) (pushed s) (fetched s)) P (L + 1).
Proof.
  intros [H1 H2 H3 H4 H5 H6 H7 H8 H9] Hw Hlen Hent Hph. unfold count in *.
  assert (H3w : forall s', s' <> n -> word mem' s' 3 = word (memory s) s' 3).
  { intros s' Hs. specialize (Hent s' Hs). by injection Hent. }
  split; cbn [memory pushed fetched place queue ring]; unfold count; cbn [fetched]; try done.
  - by rewrite Hlen.
  - lia.
  - intros t x Ht Hx. pose proof (mod_range t). rewrite Hent by lia. by apply H5.
  - intros t Ht. pose proof (mod_range t). rewrite H3w by lia. by apply H6.
  - rewrite Hw by lia. unfold link_block at 1. rewrite word3_tagged, Z.even_add. split; [by destruct (Z.even L)|].
    intros _. rewrite Z.add_simpl_r. by apply written_entry.
Qed.

Lemma store_inv s P L a v q :
  inv s P L -> queue s = (a, v) :: q ->
  exists mem', setZ (memory s) a v = Some mem' /\
    exists P' L', inv (MkState (ring s) mem' q (place s) (pushed s) (fetched s)) P' L'.
Proof.
  intros Hi Hq. pose proof (mod_range P) as Hmod.
  destruct (iv_phase _ _ _ Hi) as [Hq0 _ _ _|j d Hj HP Hd HL Hr Hw Hqq|j Hj HP HPL Hr Hw Hqq]; [by rewrite Hq0 in Hq| |].
  - rewrite block_cons in Hqq by done. rewrite Hq in Hqq. injection Hqq as -> -> ->.
    destruct (store_word (memory s) (P mod n) (Z.of_nat j) (trb_word (tagged d (lap_bit n P)) (Z.of_nat j)) (iv_mem _ _ _ Hi))
      as (mem' & E & Hlen & Hword & Hent); [lia..|]. exists mem'. split; [exact E|].
    pose proof (written_S _ _ _ _ _ Hj Hw Hword) as Hw'.
    destruct (decide (j = 3)%nat) as [->|Hj3].
    + exists (P + 1), L. apply (store_last s P L d); try done; [lia|].
      change (block (P mod n) (tagged d (lap_bit n P)) 4 ++ then_link P) with (then_link P).
      unfold then_link. destruct (iv_count _ _ _ Hi) as (Hc1 & Hc2 & Hc3).
      assert (HP0 : 0 <= P) by (unfold count in *; lia).
      destruct (next_slot n ltac:(lia) P HP0) as [(N1 & N2 & N3)|(N1 & N2 & N3)].
      * rewrite decide_False by lia. apply phase_idle; cbn; [done|lia|by rewrite N3|by rewrite Hr].
      * rewrite decide_True by done. apply phase_link with 0%nat; cbn; [lia|lia| |by rewrite Hr|intros i ?; lia|by rewrite HL].
        pose proof (Z.div_mod P n ltac:(lia)). rewrite HL. nia.
    + exists P, L. apply (store_quiet s P L (P mod n) (Z.of_nat j) (trb_word (tagged d (lap_bit n P)) (Z.of_nat j))); try done; [lia|by left|].
      apply phase_data with (S j) d; cbn; try done. lia.
  - rewrite block_cons in Hqq by done. rewrite Hq in Hqq. injection Hqq as -> -> ->.
    destruct (store_word (memory s) n (Z.of_nat j) (trb_word (link_block L) (Z.of_nat j)) (iv_mem _ _ _ Hi))
      as (mem' & E & Hlen & Hword & Hent); [lia..|]. exists mem'. split; [exact E|].
    pose proof (written_S _ _ _ _ _ Hj Hw Hword) as Hw'.
    destruct (decide (j = 3)%nat) as [->|Hj3].
    + exists P, (L + 1). apply (store_link s P L); try done. apply phase_idle; cbn; [done|done| |by rewrite Hr].
      rewrite HPL. symmetry. apply Z.div_mul. lia.
    + exists P, L. apply (store_quiet s P L n (Z.of_nat j) (trb_word (link_block L) (Z.of_nat j))); try done; [lia| |].
      * right. split; [done|]. intros HL1. pose proof (proj2 (iv_link _ _ _ Hi) HL1) as He.
        destruct j as [|[|[|j]]]; [..|lia]; injection He; intros _ E2 E1 E0; cbn; unfold trb_word; cbn; assumption.
      * apply phase_link with (S j); cbn; try done. lia.
Qed.

(** *** A read *)

Lemma link_pointer : d0 (LinkTRB base) + 2 ^ 32 * d1 (LinkTRB base) = base.
Proof.
  unfold LinkTRB; cbn [d0 d1]. rewrite !Z.shiftr_div_pow2, Z.shiftl_mul_pow2 by lia.
  pose proof (Z.div_mod base (2 ^ 4) ltac:(lia)) as E. change (base mod 2 ^ 4) with (base mod 16) in E. rewrite Halign in E.
  replace (base / 2 ^ 4 * 2 ^ 4) with base by lia. unfold u32.
  rewrite (Z.mod_small (base / 2 ^ 32)) by (split; [apply Z.div_pos|apply Z.div_lt_upper_bound]; lia).
  pose proof (Z.div_mod base (2 ^ 32)). lia.
Qed.

(** The block the controller is to read next, when it is complete. *)
Lemma fetch_slot s P L :
  inv s P L ->
  (count s < P /\ exists d, pushed s !! Z.to_nat (count s) = Some d /\
     fetch (memory s) base (count s mod n, lap_bit n (count s)) =
       Some (tagged d (lap_bit n (count s)), (count s mod n + 1, lap_bit n (count s))) /\
     trb_type (word (memory s) (count s mod n) 3) <> 6) \/
  (count s = P /\ fetch (memory s) base (count s mod n, lap_bit n (count s)) = None /\
     Z.testbit (word (memory s) (count s mod n) 3) 0 <> lap_bit n (count s)).
Proof.
  intros [H1 H2 H3 H4 H5 H6 H7 H8 H9]. destruct (decide (count s < P)) as [Hlt|Hge].
  - left. split; [done|]. assert (0 <= count s) as Hc0 by (unfold count; lia).
    destruct (lookup_lt_is_Some_2 (pushed s) (Z.to_nat (count s)) ltac:(lia)) as [d Hd]. exists d. split; [done|].
    pose proof (H5 (count s) d ltac:(lia) Hd) as He. pose proof He as He'. injection He' as _ _ _ Hw3.
    assert (Ht : trb_type (word (memory s) (count s mod n) 3) <> 6).
    { rewrite Hw3, cycle_type. rewrite list.Forall_forall in H3. apply H3. by eapply list_elem_of_lookup_2. }
    split; [|done]. rewrite fetch_takes; [by rewrite He| |done]. rewrite Hw3. by rewrite cycle_bits.
  - right. assert (count s = P) as HC by lia. split; [done|].
    assert (Z.testbit (word (memory s) (count s mod n) 3) 0 <> lap_bit n (count s)) as Hne.
    { rewrite HC, H6 by lia. by destruct (lap_bit n P). }
    split; [by apply fetch_waits|done].
Qed.

(** From the link the controller comes to the first block, or waits for the
    link. *)
Lemma fetch_place s P L :
  inv s P L -> fetch (memory s) base (place s) =
    fetch (memory s) base (count s mod n, lap_bit n (count s)) \/
  (count s = P /\ fetch (memory s) base (place s) = None).
Proof.
  intros Hi. destruct (iv_place _ _ _ Hi) as [->|(k & Hk & HC & ->)]; [by left|].
  pose proof (iv_count _ _ _ Hi) as (Hc1 & Hc2 & Hc3). destruct (iv_link _ _ _ Hi) as [Hb Hl].
  assert (Hm : count s mod n = 0) by (rewrite HC; apply Z.mod_mul; lia).
  assert (Hlap : lap_bit n (count s) = Z.even k) by (unfold lap_bit; rewrite HC, Z.div_mul by lia; done).
  assert (Hdiv : P / n = k) by (symmetry; apply Z.div_unique with (P - k * n); lia).
  assert (HL : L = k \/ (L = k - 1 /\ count s = P)).
  { destruct (iv_phase _ _ _ Hi) as [_ _ HL _|j d _ _ _ HL _ _ _|j _ HP HPL _ _ _]; [left; lia|left; lia|right].
    rewrite HPL, Z.div_mul in Hdiv by lia. split; [lia|]. rewrite HC, HPL. f_equal. lia. }
  destruct HL as [->|[-> HCP]].
  - left. specialize (Hl ltac:(lia)). unfold link_block in Hl. injection Hl as E0 E1 _ E3.
    rewrite Hm, Hlap. assert (Hx : xorb (Z.even (k - 1)) (Z.testbit (word (memory s) n 3) 1) = Z.even k).
    { rewrite E3, cycle_bits by lia. rewrite decide_False, bool_decide_true by lia. cbn [LinkTRB d3].
      change (Z.testbit (Z.lor (Z.shiftl 6 10) (Z.shiftl 1 1)) 1) with true. rewrite Z.even_sub. by destruct (Z.even k). }
    rewrite <- Hx. apply fetch_follows.
    + rewrite E3, cycle_bits by lia. by rewrite decide_True.
    + rewrite E3, cycle_type. reflexivity.
    + rewrite E0, E1. exact link_pointer.
    + rewrite Hx. pose proof (fetch_slot s P k Hi) as Hs. rewrite Hm, Hlap in Hs.
      destruct Hs as [(_ & d & _ & _ & Ht)|(_ & _ & Hb')]; [by right|by left].
  - right. split; [done|]. apply fetch_waits. rewrite Hb. by destruct (Z.even (k - 1)).
Qed.

Lemma fetch_inv s P L t p :
  inv s P L -> fetch (memory s) base (place s) = Some (t, p) ->
  inv (MkState (ring s) (memory s) (queue s) p (pushed s) (fetched s ++ [t])) P L.
Proof.
  intros Hi Hf. destruct (fetch_slot s P L Hi) as [(Hlt & d & Hd & E & _)|(HC & E & _)];
    destruct (fetch_place s P L Hi) as [Ep|[_ Ep]]; try congruence.
  rewrite Ep, E in Hf. injection Hf as <- <-.
  destruct Hi as [H1 H2 H3 H4 H5 H6 H7 H8 H9]. unfold count in *.
  assert (Hc : Z.of_nat (length (fetched s ++ [tagged d (lap_bit n (Z.of_nat (length (fetched s))))])) =
    Z.of_nat (length (fetched s)) + 1) by (rewrite length_app; cbn; lia).
  split; cbn [memory pushed fetched place queue ring]; unfold count; cbn [fetched]; rewrite ?Hc; try done.
  - rewrite length_app, Nat.add_1_r, Nat2Z.id in *. rewrite (take_S_r _ _ d) by done. rewrite !map_app, H2. cbn.
    by rewrite payload_tagged.
  - lia.
  - intros t x Ht. apply H5. lia.
  - destruct (next_slot n ltac:(lia) (Z.of_nat (length (fetched s))) ltac:(lia)) as [(N1 & N2 & N3)|(N1 & N2 & N3)].
    + left. rewrite N2. f_equal. unfold lap_bit. by rewrite N3.
    + right. exists ((Z.of_nat (length (fetched s)) + 1) / n). rewrite N3.
      pose proof (Z.div_mod (Z.of_nat (length (fetched s))) n ltac:(lia)). pose proof (Z.div_pos (Z.of_nat (length (fetched s))) n).
      split; [lia|]. split; [lia|]. rewrite N1, Z.add_simpl_r. done.
  - destruct H9 as [|j x|j]; [by apply phase_idle|by apply phase_data with j x|by apply phase_link with j].
Qed.

Lemma step_inv s s' P L : inv s P L -> step s s' -> exists P' L', inv s' P' L'.
Proof.
  intros Hi Hs. destruct Hs as [d Hq Hr Hd|a v q mem Hq E|t p Hf].
  - exists P, L. by apply push_inv.
  - destruct (store_inv s P L a v q Hi Hq) as (mem' & E' & P' & L' & Hi'). rewrite E in E'. injection E' as <-. by exists P', L'.
  - exists P, L. apply fetch_inv; [done|]. assert (buf (ring s) = base) as <-; [|done].
    by destruct (iv_phase _ _ _ Hi) as [_ _ _ ->|? ? _ _ _ _ -> _ _|? _ _ _ -> _ _].
Qed.

Lemma reachable_inv s :
  reachable (start (MkRing base (n + 1) true 0) (replicate (Z.to_nat (4 * (n + 1))) 0)) s -> exists P L, inv s P L.
Proof.
  induction 1 as [|s s' _ (P & L & Hi) Hs]; [exists 0, 0; apply start_inv|by eapply step_inv].
Qed.
End invariant.
End run.

(** C36. The rings of the driver: whatever the interleaving of the stores of the
    driver and the reads of the controller, as long as the driver leaves a
    block of room, every store stays in the buffer, the controller reads the
    blocks pushed, complete, once and in order, around the end of the ring as
    well; when no push is under way it gets the next one, and nothing when it
    has read all. *)
Theorem ring_delivers {controller : Controller} base n s :
  2 <= n < 2 ^ 32 -> 0 <= base < 2 ^ 64 -> base mod 16 = 0 ->
  reachable (start (MkRing base (n + 1) true 0) (replicate (Z.to_nat (4 * (n + 1))) 0)) s ->
  map payload (fetched s) = map payload (take (length (fetched s)) (pushed s)) /\
  (length (fetched s) <= length (pushed s))%nat /\
  (forall a v q, queue s = (a, v) :: q -> exists mem, setZ (memory s) a v = Some mem) /\
  (queue s = [] ->
    match pushed s !! length (fetched s) with
    | Some d => exists t p, fetch (memory s) base (place s) = Some (t, p) /\ payload t = payload d
    | None => fetch (memory s) base (place s) = None
    end).
Proof.
  intros Hn Hb Ha Hr. destruct (reachable_inv n base Hn Hb Ha s Hr) as (P & L & Hi).
  split; [apply Hi|]. pose proof (iv_count _ _ _ _ _ Hi) as (Hc1 & Hc2 & Hc3). unfold count in *. split; [lia|]. split.
  { intros a v q Hq. destruct (store_inv n base Hn Hb s P L a v q Hi Hq) as (mem & E & _). by exists mem. }
  intros Hq. assert (HP : P = Z.of_nat (length (pushed s))).
  { destruct (iv_phase _ _ _ _ _ Hi) as [_ HP _ _|j d Hj _ _ _ _ _ Hqq|j Hj HP _ _ _ _]; [done| |done].
    rewrite Hq, block_cons in Hqq by done. discriminate. }
  destruct (fetch_slot n base Hn s P L Hi) as [(Hlt & d & Hd & E & _)|(HC & E & _)]; unfold count in *.
  - rewrite Nat2Z.id in Hd. rewrite Hd. destruct (fetch_place n base Hn Hb Ha s P L Hi) as [Ep|[HC _]]; unfold count in *; [|lia].
    eexists _, _. split; [rewrite Ep; exact E|]. apply payload_tagged.
  - rewrite lookup_ge_None_2 by lia. destruct (fetch_place n base Hn Hb Ha s P L Hi) as [Ep|[_ Ep]]; [by rewrite Ep|done].
Qed.

(** *** Witness *)

(** A controller that reads a block and follows one link. *)
Definition read_block (mem : list Z) (s : Z) (c : bool) : option (TRB * position) :=
  if decide (Z.testbit (word mem s 3) 0 = c /\ trb_type (word mem s 3) <> 6) then Some (entry mem s, (s + 1, c)) else None.

Definition sample_fetch (mem : list Z) (base : Z) (p : position) : option (TRB * position) :=
  let '(s, c) := p in
  if decide (Z.testbit (word mem s 3) 0 = c /\ trb_type (word mem s 3) = 6 /\ word mem s 0 + 2 ^ 32 * word mem s 1 = base) then
    read_block mem 0 (xorb c (Z.testbit (word mem s 3) 1))
  else read_block mem s c.

#[export, program] Instance sample_controller : Controller := {| fetch := sample_fetch |}.
Next Obligation.
  intros mem base s c H. unfold sample_fetch, read_block. by rewrite !decide_False by naive_solver.
Qed.
Next Obligation.
  intros mem base s c H1 H2. unfold sample_fetch, read_block. rewrite decide_False by naive_solver. by rewrite decide_True.
Qed.
Next Obligation.
  intros mem base s c H1 H2 H3 H4. unfold sample_fetch. rewrite decide_True by done. unfold read_block at 1. 
  destruct (decide (Z.testbit (word mem 0 3) 0 = xorb c (Z.testbit (word mem s 3) 1) /\ trb_type (word mem 0 3) = 6 /\
    word mem 0 0 + 2 ^ 32 * word mem 0 1 = base)) as [(E1 & E2 & _)|_]; [|done].
  rewrite decide_False by naive_solver. naive_solver.
Qed.

(** One push, performed and read. *)
Definition sample_trb : TRB := MkTRB 0x1000 0 8 (Z.shiftl 1 10).
Definition sample_ring : State := start (MkRing 0x2000 4 true 0) (replicate 16 0).

Definition run_store (s : State) : State :=
  match queue s with
  | (a, v) :: q => MkState (ring s) (default [] (setZ (memory s) a v)) q (place s) (pushed s) (fetched s)
  | [] => s
  end.

Definition sample_pushed : State :=
  MkState (fst (Push sample_trb (ring sample_ring))) (memory sample_ring) (snd (Push sample_trb (ring sample_ring)))
    (place sample_ring) [sample_trb] [].

Lemma ring_delivers_witness :
  exists t p, fetch (memory (Nat.iter 4 run_store sample_pushed)) 0x2000 (0, true) = Some (t, p) /\ payload t = payload sample_trb.
Proof.
  assert (Hr : reachable sample_ring (Nat.iter 4 run_store sample_pushed)).
  { do 4 (eapply reach_step; [|eapply step_store; reflexivity]).
    eapply reach_step; [apply reach_init|]. apply (step_push sample_ring sample_trb); [done|cbn; lia|by vm_compute]. }
  destruct (ring_delivers 0x2000 3 (Nat.iter 4 run_store sample_pushed)) as (_ & _ & _ & H); [lia|lia|done|exact Hr|].
  apply H. reflexivity.
Defined.
