(* ===== verification/BitField.v ===== *)
(** * Bit fields

    The words the hardware shares with the kernel: fields of some bits packed in
    the order of their declaration, the lowest bit first. *)

From stdpp Require Import base list numbers option.
From Stdlib Require Import ZArith Lia.
From S2P Require Import Prelude.

Local Open Scope Z_scope.

(** Fields of a word from the lowest bit on: their widths and values. *)
Fixpoint pack (fs : list (Z * Z)) : Z :=
  match fs with
  | [] => 0
  | (w, v) :: fs' => v mod 2 ^ w + 2 ^ w * pack fs'
  end.

(** The field of [w] bits at bit [off]. *)
Definition bits_at (off w x : Z) : Z := Z.land (Z.shiftr x off) (Z.ones w).

Definition width (fs : list (Z * Z)) : Z := foldr (fun f n => fst f + n) 0 fs.
Definition widths_ok (fs : list (Z * Z)) : bool := forallb (fun f => 0 <=? fst f) fs.

Lemma bits_at_mod off w x : 0 <= off -> 0 <= w -> bits_at off w x = x / 2 ^ off mod 2 ^ w.
Proof. intros Ho Hw. unfold bits_at. by rewrite Z.land_ones, Z.shiftr_div_pow2. Qed.

Lemma width_nonneg fs : widths_ok fs = true -> 0 <= width fs.
Proof. induction fs as [|f fs IH]; cbn; [lia|]. rewrite andb_true_iff, Z.leb_le. intros [H1 H2]. specialize (IH H2). unfold width in *. lia. Qed.

Lemma pack_range fs : widths_ok fs = true -> 0 <= pack fs < 2 ^ width fs.
Proof.
  induction fs as [|[w v] fs IH]; cbn; [lia|]. rewrite andb_true_iff, Z.leb_le. intros [H1 H2]. specialize (IH H2).
  pose proof (width_nonneg _ H2). assert (0 < 2 ^ w) by (by apply Z.pow_pos_nonneg).
  pose proof (Z.mod_pos_bound v (2 ^ w)). fold (width fs). rewrite Z.pow_add_r by lia. nia.
Qed.

(** A field reads back as it was packed, cut to its width. *)
Lemma bits_at_pack pre w v post :
  widths_ok (pre ++ (w, v) :: post) = true -> bits_at (width pre) w (pack (pre ++ (w, v) :: post)) = v mod 2 ^ w.
Proof.
  induction pre as [|[w' v'] pre IH]; cbn; rewrite andb_true_iff, Z.leb_le; intros [H1 H2].
  - rewrite bits_at_mod by lia. assert (0 < 2 ^ w) by (by apply Z.pow_pos_nonneg).
    rewrite Z.div_1_r, Z.mul_comm, Z.mod_add, Z.mod_mod; lia.
  - specialize (IH H2). assert (Hp : widths_ok pre = true) by (unfold widths_ok in *; rewrite forallb_app, andb_true_iff in H2; tauto).
    assert (Hw : 0 <= w) by (unfold widths_ok in H2; rewrite forallb_app in H2; cbn in H2; rewrite !andb_true_iff, Z.leb_le in H2; lia).
    pose proof (width_nonneg _ Hp). assert (0 < 2 ^ w') by (by apply Z.pow_pos_nonneg).
    rewrite bits_at_mod in IH |- * by (fold (width pre); lia). fold (width pre). rewrite <- IH, Z.pow_add_r, <- Z.div_div by lia.
    rewrite (Z.mul_comm (2 ^ w')), Z.div_add, (Z.div_small (v' mod 2 ^ w')) by (try apply Z.mod_pos_bound; lia). done.
Qed.

(** A field stored into a word. *)
Definition put_bits (off w v x : Z) : Z := Z.lor (Z.ldiff x (Z.shiftl (Z.ones w) off)) (Z.shiftl (v mod 2 ^ w) off).

Lemma testbit_ones w k : 0 <= w -> Z.testbit (Z.ones w) k = bool_decide (0 <= k < w).
Proof. intros Hw. case_bool_decide; [apply Z.ones_spec_iff; lia|]. apply not_true_is_false. rewrite Z.ones_spec_iff by lia. lia. Qed.

Lemma testbit_put off w v x k : 0 <= off -> 0 <= w -> 0 <= k ->
  Z.testbit (put_bits off w v x) k = if decide (off <= k < off + w) then Z.testbit v (k - off) else Z.testbit x k.
Proof.
  intros Ho Hw Hk. unfold put_bits. rewrite Z.lor_spec, Z.ldiff_spec, !Z.shiftl_spec by lia. rewrite testbit_ones by lia.
  rewrite <- Z.land_ones, Z.land_spec, testbit_ones by lia.
  case_decide; case_bool_decide; try lia; cbn; by rewrite ?andb_false_r, ?andb_true_r, ?orb_false_r.
Qed.

Lemma testbit_bits_at off w x k : 0 <= off -> 0 <= w -> 0 <= k ->
  Z.testbit (bits_at off w x) k = if decide (k < w) then Z.testbit x (k + off) else false.
Proof.
  intros Ho Hw Hk. unfold bits_at. rewrite Z.land_spec, Z.shiftr_spec, testbit_ones by lia.
  case_decide; case_bool_decide; try lia; by rewrite ?andb_true_r, ?andb_false_r.
Qed.

(** It reads back, and the fields beside it stay. *)
Lemma bits_at_put off w v x : 0 <= off -> 0 <= w -> bits_at off w (put_bits off w v x) = v mod 2 ^ w.
Proof.
  intros Ho Hw. apply Z.bits_inj'. intros k Hk. rewrite testbit_bits_at by lia. rewrite <- Z.land_ones, Z.land_spec, testbit_ones by lia.
  case_decide; case_bool_decide; try lia; rewrite ?andb_true_r, ?andb_false_r; try done.
  rewrite testbit_put, decide_True by lia. f_equal. lia.
Qed.

Lemma bits_at_put_other off w v x off' w' : 0 <= off -> 0 <= w -> 0 <= off' -> 0 <= w' -> off + w <= off' \/ off' + w' <= off ->
  bits_at off' w' (put_bits off w v x) = bits_at off' w' x.
Proof.
  intros. apply Z.bits_inj'. intros k Hk. rewrite !testbit_bits_at by lia. case_decide; [|done]. rewrite testbit_put, decide_False by lia. done.
Qed.
