(* ===== verification/UsbTrb.v ===== *)
(** * Transfer request blocks (kernel/usb/xhci/trb.hpp)

    The blocks the driver gives to the host controller and the events it gets:
    bit fields packed in the order of their declaration. *)

From stdpp Require Import base list numbers option.
From Stdlib Require Import ZArith Lia.
From S2P Require Import Prelude BitField UsbRing.

Local Open Scope Z_scope.

(** ** Blocks of the driver *)

(** A block of four packed words. *)
Definition trb (f0 f1 f2 f3 : list (Z * Z)) : TRB := MkTRB (pack f0) (pack f1) (pack f2) (pack f3).
(** A pointer in the first two words. *)
Definition low (p : Z) : list (Z * Z) := [(32, p)].
Definition high (p : Z) : list (Z * Z) := [(32, Z.shiftr p 32)].
Definition pointer (d : TRB) : Z := d0 d + 2 ^ 32 * d1 d.

(** [src/kernel/usb/xhci/trb.hpp:25-27] [NormalTRB::Type] *)
Definition Type_Normal : Z := 1.
Definition Type_SetupStage : Z := 2.
Definition Type_DataStage : Z := 3.
Definition Type_StatusStage : Z := 4.
Definition Type_EnableSlotCommand : Z := 9.
Definition Type_AddressDeviceCommand : Z := 11.
Definition Type_ConfigureEndpointCommand : Z := 12.
Definition Type_TransferEvent : Z := 32.
Definition Type_CommandCompletionEvent : Z := 33.
Definition Type_PortStatusChangeEvent : Z := 34.

(** [src/kernel/usb/xhci/trb.hpp:62-64] [SetupStageTRB] *)
Definition kNoDataStage : Z := 0.
Definition kOutDataStage : Z := 2.
Definition kInDataStage : Z := 3.

(** [src/kernel/usb/setupdata.hpp:70-84] [SetupData] *)
Record SetupData := MkSetup { request_type : Z; request : Z; value : Z; index : Z; setup_length : Z }.
#[export] Instance SetupData_eq_dec : EqDecision SetupData.
Proof. solve_decision. Defined.

(** The bit fields of [bmRequestType].
    [src/kernel/usb/setupdata.hpp:71-78] [SetupData::request_type] *)
Definition request_bits (direction type recipient : Z) : Z := pack [(5, recipient); (2, type); (1, direction)].

(** [src/kernel/usb/xhci/trb.hpp:60-94] [SetupStageTRB] *)
Definition SetupStageTRB (s : SetupData) (transfer_type : Z) : TRB :=
  trb [(8, request_type s); (8, request s); (16, value s)] [(16, index s); (16, setup_length s)] [(17, 8); (5, 0); (10, 0)]
    [(1, 0); (4, 0); (1, 0); (1, 1); (3, 0); (6, Type_SetupStage); (2, transfer_type)].

(** The data of the request is read back from the block.
    [src/kernel/usb/xhci/device.cpp:255-261] [Device::OnTransferEventReceived] *)
Definition setup_data_of (d : TRB) : SetupData :=
  MkSetup (bits_at 0 8 (d0 d)) (bits_at 8 8 (d0 d)) (bits_at 16 16 (d0 d)) (bits_at 0 16 (d1 d)) (bits_at 16 16 (d1 d)).

(** [src/kernel/usb/xhci/trb.hpp:96-130] [DataStageTRB] *)
Definition DataStageTRB (p len : Z) (dir_in ioc : bool) : TRB :=
  trb (low p) (high p) [(17, len); (5, 0); (10, 0)]
    [(1, 0); (1, 0); (1, 0); (1, 0); (1, 0); (1, if ioc then 1 else 0); (1, 0); (3, 0); (6, Type_DataStage); (1, if dir_in then 1 else 0)].

(** [src/kernel/usb/xhci/trb.hpp:132-155] [StatusStageTRB] *)
Definition StatusStageTRB (dir_in ioc : bool) : TRB :=
  trb [] [] [(22, 0); (10, 0)]
    [(1, 0); (1, 0); (2, 0); (1, 0); (1, if ioc then 1 else 0); (4, 0); (6, Type_StatusStage); (1, if dir_in then 1 else 0)].

(** [src/kernel/usb/xhci/trb.hpp:24-58] [NormalTRB] *)
Definition NormalTRB (p len : Z) : TRB :=
  trb (low p) (high p) [(17, len); (5, 0); (10, 0)]
    [(1, 0); (1, 0); (1, 1); (1, 0); (1, 0); (1, 1); (1, 0); (2, 0); (1, 0); (6, Type_Normal)].

(** [src/kernel/usb/xhci/trb.hpp:215-235] [EnableSlotCommandTRB] *)
Definition EnableSlotCommandTRB : TRB := trb [] [] [] [(1, 0); (9, 0); (6, Type_EnableSlotCommand); (5, 0)].

(** A command with an input context of a slot.
    [src/kernel/usb/xhci/trb.hpp:237-267] [AddressDeviceCommandTRB] *)
Definition AddressDeviceCommandTRB (input_context slot_id : Z) : TRB :=
  let p := Z.shiftl (Z.shiftr input_context 4) 4 in
  trb (low p) (high p) [] [(1, 0); (8, 0); (1, 0); (6, Type_AddressDeviceCommand); (8, 0); (8, slot_id)].
(** [src/kernel/usb/xhci/trb.hpp:269-299] [ConfigureEndpointCommandTRB] *)
Definition ConfigureEndpointCommandTRB (input_context slot_id : Z) : TRB :=
  let p := Z.shiftl (Z.shiftr input_context 4) 4 in
  trb (low p) (high p) [] [(1, 0); (8, 0); (1, 0); (6, Type_ConfigureEndpointCommand); (8, 0); (8, slot_id)].

(** ** Events *)

(** The fields of a transfer event.
    [src/kernel/usb/xhci/trb.hpp:352-386] [TransferEventTRB] *)
Definition te_residual (d : TRB) : Z := bits_at 0 24 (d2 d).
Definition te_completion_code (d : TRB) : Z := bits_at 24 8 (d2 d).
Definition te_endpoint_id (d : TRB) : Z := bits_at 16 5 (d3 d).
Definition te_slot_id (d : TRB) : Z := bits_at 24 8 (d3 d).

(** The fields of a completion of a command.
    [src/kernel/usb/xhci/trb.hpp:388-416] [CommandCompletionEventTRB] *)
Definition cc_pointer (d : TRB) : Z := Z.shiftl (Z.shiftr (pointer d) 4) 4.
Definition cc_slot_id (d : TRB) : Z := bits_at 24 8 (d3 d).

(** [src/kernel/usb/xhci/trb.hpp:418-438] [PortStatusChangeEventTRB] *)
Definition ps_port_id (d : TRB) : Z := bits_at 24 8 (d0 d).

(** [src/kernel/usb/xhci/trb.hpp:102-104] [DataStageTRB] *)
Definition trb_transfer_length (d : TRB) : Z := bits_at 0 17 (d2 d).

(** ** Laws *)

Definition setup_ok (s : SetupData) : Prop :=
  0 <= request_type s < 2 ^ 8 /\ 0 <= request s < 2 ^ 8 /\ 0 <= value s < 2 ^ 16 /\ 0 <= index s < 2 ^ 16 /\ 0 <= setup_length s < 2 ^ 16.

(** The controller sees the type of every block, and the driver gets the
    request back, whatever the cycle bit is. *)
Lemma setup_data_roundtrip s t : setup_ok s -> setup_data_of (SetupStageTRB s t) = s.
Proof.
  destruct s as [r q v i l]. intros (H1 & H2 & H3 & H4 & H5). cbn in H1, H2, H3, H4, H5.
  unfold setup_data_of, SetupStageTRB, trb. cbn [d0 d1 request_type request value index setup_length]. f_equal.
  - etransitivity; [exact (bits_at_pack [] 8 r [(8, q); (16, v)] eq_refl)|by apply Z.mod_small].
  - etransitivity; [exact (bits_at_pack [(8, r)] 8 q [(16, v)] eq_refl)|by apply Z.mod_small].
  - etransitivity; [exact (bits_at_pack [(8, r); (8, q)] 16 v [] eq_refl)|by apply Z.mod_small].
  - etransitivity; [exact (bits_at_pack [] 16 i [(16, l)] eq_refl)|by apply Z.mod_small].
  - etransitivity; [exact (bits_at_pack [(16, i)] 16 l [] eq_refl)|by apply Z.mod_small].
Qed.

Lemma pointer_pair p : 0 <= p < 2 ^ 64 -> pack (low p) + 2 ^ 32 * pack (high p) = p.
Proof.
  intros Hp. cbn [pack low high]. rewrite !Z.mul_0_r, !Z.add_0_r, Z.shiftr_div_pow2 by lia.
  rewrite (Z.mod_small (p / 2 ^ 32)) by (split; [apply Z.div_pos; lia|apply Z.div_lt_upper_bound; lia]).
  pose proof (Z.div_mod p (2 ^ 32)). lia.
Qed.
