(* ===== verification/UsbDevice.v ===== *)
(** * USB devices and their drivers (kernel/usb/device.cpp, xhci/device.cpp,
    classdriver/hid.cpp, keyboard.cpp, mouse.cpp, kernel/keyboard.cpp, mouse.cpp)

    A device is asked for its descriptors, configured, and then served by a
    driver for a keyboard or a mouse. Requests are blocks on transfer rings;
    what completes them is an event that names a block. *)

From stdpp Require Import base list numbers option.
From Stdlib Require Import ZArith Lia.
From S2P Require Import Prelude Bytes Message UsbMemory UsbRing BitField UsbTrb.

Local Open Scope Z_scope.

(** ** Maps in an array (kernel/usb/arraymap.hpp) *)

Section array_map.
Context {K V : Type} `{!EqDecision K}.

(** [src/kernel/usb/arraymap.hpp:38-39] [ArrayMap::table_] *)
Definition ArrayMap : Type := list (option (K * V)).

(** [src/kernel/usb/arraymap.hpp:10-17] [ArrayMap::Get] *)
Fixpoint Get (key : K) (t : ArrayMap) : option V :=
  match t with
  | [] => None
  | Some (k, v) :: t' => if decide (k = key) then Some v else Get key t'
  | None :: t' => Get key t'
  end.

(** A full table is left as it is.
    [src/kernel/usb/arraymap.hpp:19-27] [ArrayMap::Put] *)
Fixpoint Put (key : K) (v : V) (t : ArrayMap) : ArrayMap :=
  match t with
  | [] => []
  | None :: t' => Some (key, v) :: t'
  | Some kv :: t' => Some kv :: Put key v t'
  end.

(** [src/kernel/usb/arraymap.hpp:29-36] [ArrayMap::Delete] *)
Fixpoint Delete (key : K) (t : ArrayMap) : ArrayMap :=
  match t with
  | [] => []
  | Some (k, v) :: t' => if decide (k = key) then None :: t' else Some (k, v) :: Delete key t'
  | None :: t' => None :: Delete key t'
  end.

Lemma Get_Put key v t : Get key t = None -> None ∈ t -> Get key (Put key v t) = Some v.
Proof.
  induction t as [|[[k x]|] t IH]; cbn; intros Hg Hin; [by apply not_elem_of_nil in Hin| |by rewrite decide_True].
  destruct (decide (k = key)); [done|]. apply IH; [done|]. by apply elem_of_cons in Hin as [?|?].
Qed.

Lemma Get_Put_ne key key' v t : key' <> key -> Get key' (Put key v t) = Get key' t.
Proof.
  intros Hne. induction t as [|[[k x]|] t IH]; cbn; [done| |by rewrite decide_False by congruence].
  by rewrite IH.
Qed.

Lemma Delete_Put key v t : Get key t = None -> None ∈ t -> Delete key (Put key v t) = t.
Proof.
  induction t as [|[[k x]|] t IH]; cbn; intros Hg Hin; [by apply not_elem_of_nil in Hin| |by rewrite decide_True].
  destruct (decide (k = key)); [done|]. rewrite IH; [done..|]. by apply elem_of_cons in Hin as [?|?].
Qed.
End array_map.
Arguments ArrayMap : clear implicits.

(** ** Data *)

(** Endpoints are their addresses.
    [src/kernel/usb/endpoint.hpp:13-44] [EndpointID] *)
Definition EndpointID (ep_num : Z) (dir_in : bool) : Z := Z.lor (Z.shiftl ep_num 1) (if dir_in then 1 else 0).
Definition Number (ep : Z) : Z := Z.shiftr ep 1.
Definition IsIn (ep : Z) : bool := Z.testbit ep 0.
Definition kDefaultControlPipeID : Z := EndpointID 0 true.

(** [src/kernel/usb/endpoint.hpp:6-11] [EndpointType] *)
Inductive EndpointType := kControl | kIsochronous | kBulk | kInterrupt.
#[export] Instance EndpointType_eq_dec : EqDecision EndpointType.
Proof. solve_decision. Defined.
Definition endpoint_type (n : Z) : EndpointType :=
  if decide (n = 0) then kControl else if decide (n = 1) then kIsochronous else if decide (n = 2) then kBulk else kInterrupt.

(** [src/kernel/usb/endpoint.hpp:46-58] [EndpointConfig] *)
Record EndpointConfig := MkEP { ep_id : Z; ep_type : EndpointType; max_packet_size : Z; interval : Z }.

(** The two drivers.
    [src/kernel/usb/device.cpp:60-71] [NewClassDriver] *)
Inductive driver_kind := Keyboard | Mouse.

(** A driver; [hid_addr] is the address of its buffer.
    [src/kernel/usb/classdriver/hid.hpp:21-29] [HIDBaseDriver] *)
Record HIDDriver := MkHID {
  kind : driver_kind;
  interface_index : Z;
  in_packet_size : Z;
  ep_interrupt_in : Z;
  ep_interrupt_out : Z;
  hid_phase : Z;
  hid_buf : list Z;
  previous_buf : list Z;
  hid_addr : Z;
}.
Definition set_ep_in e h := MkHID (kind h) (interface_index h) (in_packet_size h) e (ep_interrupt_out h) (hid_phase h) (hid_buf h) (previous_buf h) (hid_addr h).
Definition set_ep_out e h := MkHID (kind h) (interface_index h) (in_packet_size h) (ep_interrupt_in h) e (hid_phase h) (hid_buf h) (previous_buf h) (hid_addr h).
Definition set_hid_phase p h := MkHID (kind h) (interface_index h) (in_packet_size h) (ep_interrupt_in h) (ep_interrupt_out h) p (hid_buf h) (previous_buf h) (hid_addr h).
Definition set_hid_buf b h := MkHID (kind h) (interface_index h) (in_packet_size h) (ep_interrupt_in h) (ep_interrupt_out h) (hid_phase h) b (previous_buf h) (hid_addr h).
Definition set_previous b h := MkHID (kind h) (interface_index h) (in_packet_size h) (ep_interrupt_in h) (ep_interrupt_out h) (hid_phase h) (hid_buf h) b (hid_addr h).

(** [src/kernel/usb/classdriver/hid.hpp:17-17] [kBufferSize] *)
Definition kBufferSize : Z := 1024.

(** A ring with its memory. *)
Record TransferRing := MkTR { tr : Ring; words : list Z }.

(** The members of [usb::Device]; a class driver is its number.
    [src/kernel/usb/device.hpp:36-67] [Device] *)
Record UsbPart := MkUsb {
  class_drivers : list (option nat);
  dbuf : list Z;
  num_configurations : Z;
  config_index : Z;
  is_initialized : bool;
  initialize_phase : Z;
  ep_configs : list EndpointConfig;
  num_ep_configs : Z;
  event_waiters : ArrayMap SetupData nat;
}.
Definition set_class_drivers x u := MkUsb x (dbuf u) (num_configurations u) (config_index u) (is_initialized u) (initialize_phase u) (ep_configs u) (num_ep_configs u) (event_waiters u).
Definition set_dbuf x u := MkUsb (class_drivers u) x (num_configurations u) (config_index u) (is_initialized u) (initialize_phase u) (ep_configs u) (num_ep_configs u) (event_waiters u).
Definition set_configurations n i u := MkUsb (class_drivers u) (dbuf u) n i (is_initialized u) (initialize_phase u) (ep_configs u) (num_ep_configs u) (event_waiters u).
Definition set_initialized b u := MkUsb (class_drivers u) (dbuf u) (num_configurations u) (config_index u) b (initialize_phase u) (ep_configs u) (num_ep_configs u) (event_waiters u).
Definition set_phase p u := MkUsb (class_drivers u) (dbuf u) (num_configurations u) (config_index u) (is_initialized u) p (ep_configs u) (num_ep_configs u) (event_waiters u).
Definition set_ep_configs l n u := MkUsb (class_drivers u) (dbuf u) (num_configurations u) (config_index u) (is_initialized u) (initialize_phase u) l n (event_waiters u).
Definition set_event_waiters x u := MkUsb (class_drivers u) (dbuf u) (num_configurations u) (config_index u) (is_initialized u) (initialize_phase u) (ep_configs u) (num_ep_configs u) x.

(** What the driver does to the outside: rings the doorbell of a slot, or
    notifies the observer of a keyboard or a mouse. *)
Inductive action :=
| Doorbell (slot target : Z)
| KeyPush (modifier keycode : Z) (press : bool)
| MouseMove (buttons dx dy : Z).

(** A device, the drivers made so far, the pointer of the memory pool and what
    was done. [buf_addr] is the address of [dbuf].
    [src/kernel/usb/xhci/device.hpp:54-67] [Device] *)
Record Device := MkDevice {
  usb : UsbPart;
  slot_id : Z;
  buf_addr : Z;
  transfer_rings : list (option TransferRing);
  setup_stage_map : ArrayMap Z Z;
  drivers : list HIDDriver;
  pool : Z;
  acts : list action;
}.
Definition on_usb f d := MkDevice (f (usb d)) (slot_id d) (buf_addr d) (transfer_rings d) (setup_stage_map d) (drivers d) (pool d) (acts d).
Definition set_rings x d := MkDevice (usb d) (slot_id d) (buf_addr d) x (setup_stage_map d) (drivers d) (pool d) (acts d).
Definition set_setup_map x d := MkDevice (usb d) (slot_id d) (buf_addr d) (transfer_rings d) x (drivers d) (pool d) (acts d).
Definition set_drivers x d := MkDevice (usb d) (slot_id d) (buf_addr d) (transfer_rings d) (setup_stage_map d) x (pool d) (acts d).
Definition set_pool x d := MkDevice (usb d) (slot_id d) (buf_addr d) (transfer_rings d) (setup_stage_map d) (drivers d) x (acts d).
Definition act (a : action) d := MkDevice (usb d) (slot_id d) (buf_addr d) (transfer_rings d) (setup_stage_map d) (drivers d) (pool d) (acts d ++ [a]).

(** An operation of a device: its code, or undefined behaviour. *)
Abbreviation run := (outcome (Code * Device)).

(** ** Transfer rings *)

(** The stores of a push, one after the other. *)
Fixpoint do_stores (ss : list store) (mem : list Z) : option (list Z) :=
  match ss with
  | [] => Some mem
  | (a, v) :: ss' => mem ← setZ mem a v; do_stores ss' mem
  end.

(** The address of the block pushed, and the ring after it.
    [src/kernel/usb/xhci/ring.cpp:39-54] [Ring::Push] *)
Definition push_to (d : TRB) (t : TransferRing) : option (Z * TransferRing) :=
  let '(r, ss) := UsbRing.Push d (tr t) in
  mem ← do_stores ss (words t);
  Some (buf (tr t) + 16 * write_index (tr t), MkTR r mem).

(** The block of a ring at an address. *)
Definition trb_in (p : Z) (t : TransferRing) : option TRB :=
  let off := p - buf (tr t) in
  if decide (0 <= off < 16 * buf_size (tr t) /\ off mod 16 = 0) then Some (entry (words t) (off / 16)) else None.
Fixpoint trb_at (p : Z) (rings : list (option TransferRing)) : option TRB :=
  match rings with
  | [] => None
  | None :: rings' => trb_at p rings'
  | Some t :: rings' => match trb_in p t with Some d => Some d | None => trb_at p rings' end
  end.

(** [tr->Push] on the ring of an endpoint that has one. *)
Definition ring_push (ep : Z) (t : TransferRing) (trb : TRB) (d : Device) : option (Z * TransferRing * Device) :=
  '(p, t) ← push_to trb t;
  rings ← setZ (transfer_rings d) (ep - 1) (Some t);
  Some (p, t, set_rings rings d).

Section device.
(** The address of the memory pool, the sizes of the driver classes and the
    offset of their buffer; the sizes of [Ring] is that of its four members. *)
Context (memory_pool sizeof_keyboard sizeof_mouse hid_buf_offset : Z).

(** A null pointer is stored when the pool is exhausted.
    [src/kernel/usb/xhci/device.cpp:97-105] [Device::AllocTransferRing] *)
Definition AllocTransferRing (dci buf_size : Z) (d : Device) : outcome (option TransferRing * Device) :=
  let '(alloc_ptr, p) := AllocArray memory_pool 32 1 64 4096 (pool d) in
  let '(alloc_ptr, t) := match p with
                         | None => (alloc_ptr, None)
                         | Some _ => let '(alloc_ptr, (r, mem, _)) := UsbRing.Initialize memory_pool buf_size alloc_ptr in
                                     (alloc_ptr, Some (MkTR r mem))
                         end in
  rings ← defined (setZ (transfer_rings d) (dci - 1) t);
  Ok (t, set_rings rings (set_pool alloc_ptr d)).

(** ** Requests *)

(** The issuer waits for the completion.
    [src/kernel/usb/device.cpp:107-121] [Device::ControlIn] *)
Definition wait_for (setup : SetupData) (issuer : option nat) (d : Device) : Device :=
  match issuer with
  | Some w => on_usb (fun u => set_event_waiters (Put setup w (event_waiters u)) u) d
  | None => d
  end.

(** The three or two blocks of a control transfer, and the setup block noted for
    the block whose completion is reported.
    [src/kernel/usb/xhci/device.cpp:126-147] [Device::ControlIn] *)
Definition control_blocks (ep : Z) (t : TransferRing) (setup : SetupData) (buf len data_stage : Z) (dir_in : bool) (d : Device) :
    option Device :=
  if decide (buf <> 0) then
    '(setup_pos, t, d) ← ring_push ep t (SetupStageTRB setup data_stage) d;
    '(data_pos, t, d) ← ring_push ep t (DataStageTRB buf len dir_in true) d;
    '(_, t, d) ← ring_push ep t (StatusStageTRB (negb dir_in) false) d;
    Some (set_setup_map (Put data_pos setup_pos (setup_stage_map d)) d)
  else
    '(setup_pos, t, d) ← ring_push ep t (SetupStageTRB setup kNoDataStage) d;
    '(status_pos, t, d) ← ring_push ep t (StatusStageTRB true true) d;
    Some (set_setup_map (Put status_pos setup_pos (setup_stage_map d)) d).

(** [src/kernel/usb/xhci/device.cpp:107-152] [Device::ControlIn] *)
Definition ControlIn (ep : Z) (setup : SetupData) (buf len : Z) (issuer : option nat) (d : Device) : run :=
  let d := wait_for setup issuer d in
  if decide (Number ep < 0 \/ 15 < Number ep) then Ok (kInvalidEndpointNumber, d)
  else
    t ← defined (getZ (transfer_rings d) (ep - 1));
    match t with
    | None => Ok (kTransferRingNotSet, d)
    | Some t => d ← defined (control_blocks ep t setup buf len kInDataStage true d); Ok (kSuccess, act (Doorbell (slot_id d) ep) d)
    end.

(** The status block goes in in both cases.
    [src/kernel/usb/xhci/device.cpp:154-199] [Device::ControlOut] *)
Definition ControlOut (ep : Z) (setup : SetupData) (buf len : Z) (issuer : option nat) (d : Device) : run :=
  let d := wait_for setup issuer d in
  if decide (Number ep < 0 \/ 15 < Number ep) then Ok (kInvalidEndpointNumber, d)
  else
    t ← defined (getZ (transfer_rings d) (ep - 1));
    match t with
    | None => Ok (kTransferRingNotSet, d)
    | Some t => d ← defined (control_blocks ep t setup buf len kOutDataStage false d); Ok (kSuccess, act (Doorbell (slot_id d) ep) d)
    end.

(** [src/kernel/usb/xhci/device.cpp:201-223] [Device::InterruptIn] *)
Definition InterruptIn (ep buf len : Z) (d : Device) : run :=
  t ← defined (getZ (transfer_rings d) (ep - 1));
  match t with
  | None => Ok (kTransferRingNotSet, d)
  | Some t => '(_, _, d) ← defined (ring_push ep t (NormalTRB buf len) d); Ok (kSuccess, act (Doorbell (slot_id d) ep) d)
  end.

(** [src/kernel/usb/xhci/device.cpp:225-233] [Device::InterruptOut] *)
Definition InterruptOut (ep buf len : Z) (d : Device) : run := Ok (kNotImplemented, d).

(** Requests and types of descriptors.
    [src/kernel/usb/setupdata.hpp:26-29] [request] *)
Definition kGetDescriptor : Z := 6.
Definition kSetConfiguration : Z := 9.
Definition kSetProtocol : Z := 11.

(** [src/kernel/usb/device.cpp:257-269] [GetDescriptor] *)
Definition GetDescriptor (ep desc_type desc_index buf len : Z) (d : Device) : run :=
  ControlIn ep (MkSetup (request_bits 1 0 0) kGetDescriptor (u16 (Z.lor (Z.shiftl desc_type 8) desc_index)) 0 (u16 len)) buf len None d.

(** [src/kernel/usb/device.cpp:271-282] [SetConfiguration] *)
Definition SetConfiguration (ep config_value : Z) (d : Device) : run :=
  ControlOut ep (MkSetup (request_bits 0 0 0) kSetConfiguration (u16 config_value) 0 0) 0 0 None d.

(** [src/kernel/usb/device.cpp:131-136] [Device::StartInitialize] *)
Definition StartInitialize (d : Device) : run :=
  GetDescriptor kDefaultControlPipeID 1 0 (buf_addr d) 256 (on_usb (fun u => set_phase 1 (set_initialized false u)) d).

(** ** Drivers for keyboards and mice *)

(** What a driver does with itself. *)
Definition on_driver (w : nat) (f : HIDDriver -> HIDDriver) (d : Device) : Device := set_drivers (alter f w (drivers d)) d.

(** [src/kernel/usb/classdriver/hid.cpp:18-25] [HIDBaseDriver::SetEndpoint] *)
Definition HID_SetEndpoint (config : EndpointConfig) (h : HIDDriver) : HIDDriver :=
  if decide (ep_type config = kInterrupt) then
    if IsIn (ep_id config) then set_ep_in (ep_id config) h else set_ep_out (ep_id config) h
  else h.

(** [src/kernel/usb/classdriver/hid.cpp:27-39] [HIDBaseDriver::OnEndpointsConfigured] *)
Definition HID_OnEndpointsConfigured (w : nat) (d : Device) : run :=
  h ← defined (drivers d !! w);
  ControlOut kDefaultControlPipeID (MkSetup (request_bits 0 1 1) kSetProtocol 0 (u16 (UsbDevice.interface_index h)) 0) 0 0 (Some w)
    (on_driver w (set_hid_phase 1) d).

(** [src/kernel/usb/classdriver/hid.cpp:41-51] [HIDBaseDriver::OnControlCompleted] *)
Definition HID_OnControlCompleted (w : nat) (d : Device) : run :=
  h ← defined (drivers d !! w);
  if decide (hid_phase h = 1) then
    InterruptIn (ep_interrupt_in h) (hid_addr h) (in_packet_size h) (on_driver w (set_hid_phase 2) d)
  else Ok (kNotImplemented, d).

(** The keys of a report, and whether one is among them.
    [src/kernel/usb/classdriver/keyboard.cpp:14-18] [HIDKeyboardDriver::OnDataReceived] *)
Definition keys (b : list Z) : list Z := take 6 (drop 2 b).
Definition down (b : list Z) (key : Z) : bool := bool_decide (key ∈ keys b).

(** The keys that changed, from 1 to 255.
    [src/kernel/usb/classdriver/keyboard.cpp:19-25] [HIDKeyboardDriver::OnDataReceived] *)
Definition key_events (modifier : Z) (prev cur : list Z) : list action :=
  omap (fun key => if xorb (down prev key) (down cur key) then Some (KeyPush modifier key (down cur key)) else None) (seqZ 1 255).

(** Two's complement of 8 bits. *)
Definition s8 (x : Z) : Z := (x + 128) mod 256 - 128.

(** [src/kernel/usb/classdriver/mouse.cpp:13-20] [HIDMouseDriver::OnDataReceived] *)
Definition mouse_events (b : list Z) : list action :=
  [MouseMove (default 0 (b !! 0%nat)) (s8 (default 0 (b !! 1%nat))) (s8 (default 0 (b !! 2%nat)))].

(** [src/kernel/usb/classdriver/keyboard.cpp:13-27] [HIDKeyboardDriver::OnDataReceived] *)
Definition OnDataReceived (h : HIDDriver) : list action :=
  match kind h with
  | Keyboard => key_events (default 0 (hid_buf h !! 0%nat)) (previous_buf h) (hid_buf h)
  | Mouse => mouse_events (hid_buf h)
  end.

(** [src/kernel/usb/classdriver/hid.cpp:53-61] [HIDBaseDriver::OnInterruptCompleted] *)
Definition HID_OnInterruptCompleted (w : nat) (ep len : Z) (d : Device) : run :=
  h ← defined (drivers d !! w);
  if IsIn ep then
    let d := fold_left (fun d a => act a d) (OnDataReceived h) d in
    if decide (kBufferSize < len) then Undefined
    else
      let n := Z.to_nat len in
      let d := on_driver w (set_previous (take n (hid_buf h) ++ drop n (previous_buf h))) d in
      InterruptIn (ep_interrupt_in h) (hid_addr h) (in_packet_size h) d
  else Ok (kNotImplemented, d).

(** ** Descriptors *)

Section reader.
(** The buffer, and the length that was received. *)
Context (b : list Z) (len : Z).

(** Reading [p_[0]] behind the buffer is undefined.
    [src/kernel/usb/device.cpp:20-26] [ConfigurationDescriptorReader::Next] *)
Definition Next (p : Z) : option (Z * bool) :=
  n ← getZ b p; Some (p + n, bool_decide (p + n < len)).

(** The next descriptor of a type; a descriptor of length 0 makes the loop turn
    for ever, otherwise [len] turns are enough.
    [src/kernel/usb/device.cpp:28-36] [ConfigurationDescriptorReader::Next] *)
Fixpoint Next_of (fuel : nat) (kType p : Z) : option (Z * bool) :=
  match fuel with
  | O => None
  | S fuel' =>
      '(p, more) ← Next p;
      if (more : bool) then
        t ← getZ b (p + 1);
        if decide (t = kType) then Some (p, true) else Next_of fuel' kType p
      else Some (p, false)
  end.

(** [src/kernel/usb/device.cpp:44-54] [MakeEPConfig] *)
Definition MakeEPConfig (p : Z) : option EndpointConfig :=
  address ← getZ b (p + 2); attributes ← getZ b (p + 3); lo ← getZ b (p + 4); hi ← getZ b (p + 5); i ← getZ b (p + 6);
  Some (MkEP (EndpointID (bits_at 0 4 address) (bool_decide (bits_at 7 1 address = 1))) (endpoint_type (bits_at 0 2 attributes))
    (lo + 256 * hi) i).

(** The endpoints of an interface: the table, how many there are, the endpoint
    numbers of the driver. A null descriptor is dereferenced.
    [src/kernel/usb/device.cpp:221-233] [Device::InitializePhase2] *)
Fixpoint read_endpoints (fuel : nat) (w : nat) (num_endpoints p : Z) (configs : list EndpointConfig) (n : Z) (cds : list (option nat)) :
    option (list EndpointConfig * Z * list (option nat)) :=
  match fuel with
  | O => None
  | S fuel' =>
      if decide (n < num_endpoints) then
        '(p, more) ← Next p;
        if (more : bool) then
          t ← getZ b (p + 1);
          if decide (t = 5) then
            conf ← MakeEPConfig p;
            configs ← setZ configs n conf;
            cds ← setZ cds (Number (ep_id conf)) (Some w);
            read_endpoints fuel' w num_endpoints p configs (n + 1) cds
          else read_endpoints fuel' w num_endpoints p configs n cds
        else None
      else Some (configs, n, cds)
  end.
End reader.

(** The class of an interface that has a driver.
    [src/kernel/usb/device.cpp:57-73] [NewClassDriver] *)
Definition driver_for (if_class sub_class protocol : Z) : option driver_kind :=
  if decide (if_class = 3 /\ sub_class = 1) then
    if decide (protocol = 1) then Some Keyboard else if decide (protocol = 2) then Some Mouse else None
  else None.

(** The constructor is run on the null pointer when the pool is exhausted.
    [src/kernel/usb/device.cpp:56-74] [NewClassDriver] *)
Definition NewClassDriver (if_class sub_class protocol if_number : Z) (d : Device) : outcome (option nat * Device) :=
  match driver_for if_class sub_class protocol with
  | None => Ok (None, d)
  | Some k =>
      let '(alloc_ptr, p) := AllocMem memory_pool (match k with Keyboard => sizeof_keyboard | Mouse => sizeof_mouse end) 0 0 (pool d) in
      p ← defined p;
      let h := MkHID k if_number (match k with Keyboard => 8 | Mouse => 3 end) 0 0 0 (replicate 1024 0) (replicate 1024 0) (p + hid_buf_offset) in
      Ok (Some (length (drivers d)), set_pool alloc_ptr (set_drivers (drivers d ++ [h]) d))
  end.

(** The first interface with a driver.
    [src/kernel/usb/device.cpp:208-236] [Device::InitializePhase2] *)
Fixpoint find_interface (fuel : nat) (b : list Z) (len p : Z) (d : Device) : outcome (option nat * Device) :=
  match fuel with
  | O => Undefined
  | S fuel' =>
      '(p, more) ← defined (Next_of b len (S (Z.to_nat len)) 4 p);
      if (more : bool) then
        number ← defined (getZ b (p + 2)); num_endpoints ← defined (getZ b (p + 4));
        if_class ← defined (getZ b (p + 5)); sub_class ← defined (getZ b (p + 6)); protocol ← defined (getZ b (p + 7));
        '(w, d) ← NewClassDriver if_class sub_class protocol number d;
        match w with
        | None => find_interface fuel' b len p d
        | Some w =>
            '(configs, n, cds) ← defined (read_endpoints b len (S (Z.to_nat len)) w num_endpoints p (ep_configs (usb d)) 0 (class_drivers (usb d)));
            Ok (Some w, on_usb (fun u => set_class_drivers cds (set_ep_configs configs n u)) d)
        end
      else Ok (None, d)
  end.

(** ** The phases of the initialisation *)

(** [src/kernel/usb/device.cpp:191-200] [Device::InitializePhase1] *)
Definition InitializePhase1 (b : list Z) (d : Device) : run :=
  n ← defined (getZ b 17);
  GetDescriptor kDefaultControlPipeID 2 0 (buf_addr d) 256 (on_usb (fun u => set_phase 2 (set_configurations n 0 u)) d).

(** [src/kernel/usb/device.cpp:202-246] [Device::InitializePhase2] *)
Definition InitializePhase2 (b : list Z) (len : Z) (d : Device) : run :=
  t ← defined (getZ b 1);
  if decide (t <> 2) then Ok (kInvalidDescriptor, d)
  else
    '(w, d) ← find_interface (S (Z.to_nat len)) b len 0 d;
    match w with
    | None => Ok (kSuccess, d)
    | Some _ => v ← defined (getZ b 5); SetConfiguration kDefaultControlPipeID v (on_usb (set_phase 3) d)
    end.

(** Every endpoint is given to its driver.
    [src/kernel/usb/device.cpp:249-251] [Device::InitializePhase3] *)
Fixpoint set_endpoints (configs : list EndpointConfig) (d : Device) : option Device :=
  match configs with
  | [] => Some d
  | c :: configs' => w ← getZ (class_drivers (usb d)) (Number (ep_id c)); w ← w; set_endpoints configs' (on_driver w (HID_SetEndpoint c) d)
  end.

(** [src/kernel/usb/device.cpp:248-255] [Device::InitializePhase3] *)
Definition InitializePhase3 (d : Device) : run :=
  d ← defined (set_endpoints (take (Z.to_nat (num_ep_configs (usb d))) (ep_configs (usb d))) d);
  Ok (kSuccess, on_usb (fun u => set_initialized true (set_phase 4 u)) d).

(** The buffer at an address; another pointer is undefined. *)
Definition buffer_at (p : Z) (d : Device) : option (list Z) := if decide (p = buf_addr d) then Some (dbuf (usb d)) else None.

(** [src/kernel/usb/device.cpp:149-181] [Device::OnControlCompleted] *)
Definition OnControlCompleted (setup : SetupData) (buf len : Z) (d : Device) : run :=
  if is_initialized (usb d) then
    match Get setup (event_waiters (usb d)) with
    | Some w => HID_OnControlCompleted w d
    | None => Ok (kNoWaiter, d)
    end
  else if decide (initialize_phase (usb d) = 1) then
    if decide (request setup = kGetDescriptor) then
      b ← defined (buffer_at buf d); t ← defined (getZ b 1);
      if decide (t = 1) then InitializePhase1 b d else Ok (kInvalidPhase, d)
    else Ok (kInvalidPhase, d)
  else if decide (initialize_phase (usb d) = 2) then
    if decide (request setup = kGetDescriptor) then
      b ← defined (buffer_at buf d); t ← defined (getZ b 1);
      if decide (t = 2) then InitializePhase2 b len d else Ok (kInvalidPhase, d)
    else Ok (kInvalidPhase, d)
  else if decide (initialize_phase (usb d) = 3) then
    if decide (request setup = kSetConfiguration) then InitializePhase3 d else Ok (kInvalidPhase, d)
  else Ok (kNotImplemented, d).

(** [src/kernel/usb/device.cpp:183-189] [Device::OnInterruptCompleted] *)
Definition OnInterruptCompleted (ep buf len : Z) (d : Device) : run :=
  w ← defined (getZ (class_drivers (usb d)) (Number ep));
  match w with
  | Some w => HID_OnInterruptCompleted w ep len d
  | None => Ok (kNoWaiter, d)
  end.

(** Every driver of the table in turn, until one fails.
    [src/kernel/usb/device.cpp:138-147] [Device::OnEndpointsConfigured] *)
Fixpoint endpoints_configured (ws : list (option nat)) (d : Device) : run :=
  match ws with
  | [] => Ok (kSuccess, d)
  | None :: ws' => endpoints_configured ws' d
  | Some w :: ws' =>
      '(err, d) ← HID_OnEndpointsConfigured w d;
      if decide (err <> kSuccess) then Ok (err, d) else endpoints_configured ws' d
  end.
Definition OnEndpointsConfigured (d : Device) : run := endpoints_configured (class_drivers (usb d)) d.

(** The completion of a transfer. A pointer to no block is undefined.
    [src/kernel/usb/xhci/device.cpp:235-285] [Device::OnTransferEventReceived] *)
Definition OnTransferEventReceived (e : TRB) (d : Device) : run :=
  let residual_length := te_residual e in
  if decide (te_completion_code e <> 1 /\ te_completion_code e <> 13) then Ok (kTransferFailed, d)
  else
    issuer ← defined (trb_at (pointer e) (transfer_rings d));
    if decide (trb_type (d3 issuer) = Type_Normal) then
      OnInterruptCompleted (te_endpoint_id e) (pointer issuer) (trb_transfer_length issuer - residual_length) d
    else
      match Get (pointer e) (setup_stage_map d) with
      | None => Ok (kNoCorrespondingSetupStage, d)
      | Some setup_pos =>
          let d := set_setup_map (Delete (pointer e) (setup_stage_map d)) d in
          setup ← defined (trb_at setup_pos (transfer_rings d));
          let setup_data := setup_data_of setup in
          if decide (trb_type (d3 issuer) = Type_DataStage) then
            OnControlCompleted setup_data (pointer issuer) (trb_transfer_length issuer - residual_length) d
          else if decide (trb_type (d3 issuer) = Type_StatusStage) then OnControlCompleted setup_data 0 0 d
          else Ok (kNotImplemented, d)
      end.
End device.

(** A device as it is made; its rings are null, since the pool holds zeros. The
    second address is that of its buffer.
    [src/kernel/usb/xhci/device.cpp:80-82] [Device::Device] *)
Definition new_Device (slot_id buf_addr pool : Z) : Device :=
  MkDevice (MkUsb (replicate 16 None) (replicate 256 0) 0 0 false 0 (replicate 16 (MkEP 0 kControl 0 0)) 0 (replicate 4 None))
    slot_id buf_addr (replicate 31 None) (replicate 16 None) [] pool [].
