(* ===== verification/UsbTransfer.v ===== *)
(** * Laws of the transfer rings of a device

    What a push leaves in a ring when the driver is alone with it, which block a
    pointer names, and the way of a request from its setup block to the event
    that completes it. *)

From stdpp Require Import base list numbers option.
From Stdlib Require Import ZArith Lia.
From S2P Require Import Prelude Bytes UsbMemory UsbRing BitField UsbTrb UsbDevice.

Local Open Scope Z_scope.

(** ** One ring *)

(** Room for three blocks and the link, in memory that exists. *)
Record tring_ok (t : TransferRing) : Prop := {
  tg_size : 4 <= buf_size (tr t) <= 2 ^ 16;
  tg_index : 0 <= write_index (tr t) < buf_size (tr t) - 1;
  tg_words : Z.of_nat (length (words t)) = 4 * buf_size (tr t);
  tg_buf : 0 < buf (tr t) /\ buf (tr t) + 16 * buf_size (tr t) < 2 ^ 64;
}.

(** The blocks of a ring by their number. *)
Definition block_of (t : TransferRing) (i : Z) : TRB := entry (words t) i.
Definition next_index (t : TransferRing) : Z := if decide (write_index (tr t) = buf_size (tr t) - 2) then 0 else write_index (tr t) + 1.

Lemma do_stores_app ss1 : forall ss2 mem, do_stores (ss1 ++ ss2) mem = (m ← do_stores ss1 mem; do_stores ss2 m).
Proof. induction ss1 as [|[a v] ss1 IH]; intros ss2 mem; [done|]. cbn. destruct (setZ mem a v); [apply IH|done]. Qed.

(** Four stores write a block. *)
Lemma do_stores_block mem s d :
  0 <= s -> 4 * s + 4 <= Z.of_nat (length mem) ->
  exists mem', do_stores [(4 * s + 0, d0 d); (4 * s + 1, d1 d); (4 * s + 2, d2 d); (4 * s + 3, d3 d)] mem = Some mem' /\
    length mem' = length mem /\ entry mem' s = d /\ forall i, 0 <= i -> i <> s -> entry mem' i = entry mem i.
Proof.
  intros Hs Hl. cbn [do_stores].
  rewrite (setZ_Some mem) by lia. cbn [mbind option_bind]. rewrite setZ_Some by (rewrite length_insert; lia). cbn [mbind option_bind].
  rewrite setZ_Some by (rewrite !length_insert; lia). cbn [mbind option_bind]. rewrite setZ_Some by (rewrite !length_insert; lia). cbn [mbind option_bind].
  eexists. split; [reflexivity|]. split; [by rewrite !length_insert|].
  assert (Hw : forall i k, 0 <= i -> 0 <= k <= 3 -> word (<[Z.to_nat (4 * s + 3):=d3 d]> (<[Z.to_nat (4 * s + 2):=d2 d]>
      (<[Z.to_nat (4 * s + 1):=d1 d]> (<[Z.to_nat (4 * s + 0):=d0 d]> mem)))) i k = if decide (i = s) then trb_word d k else word mem i k).
  { intros i k Hi Hk. unfold word, getZ. rewrite decide_True by lia.
    assert (Hb : (Z.to_nat (4 * s + 3) < length mem)%nat) by lia. rewrite !list_lookup_insert. rewrite !length_insert.
    destruct (decide (i = s)) as [->|Hd].
    - assert (k = 0 \/ k = 1 \/ k = 2 \/ k = 3) as [->|[->|[->| ->]]] by lia; repeat (first [rewrite decide_True by lia|rewrite decide_False by lia]); done.
    - repeat (rewrite (decide_False (P := _ /\ _)) by lia). by rewrite decide_True by lia. }
  split.
  - apply entry_words. intros i Hi. rewrite Hw by lia. by rewrite decide_True.
  - intros i Hi Hne. unfold entry. rewrite !Hw by lia. by rewrite !decide_False by done.
Qed.

(** A push always succeeds; it changes its own block and the link. *)
Lemma push_to_spec d t :
  tring_ok t ->
  exists t', push_to d t = Some (buf (tr t) + 16 * write_index (tr t), t') /\ tring_ok t' /\
    buf (tr t') = buf (tr t) /\ buf_size (tr t') = buf_size (tr t) /\ write_index (tr t') = next_index t /\
    block_of t' (write_index (tr t)) = tagged d (cycle_bit (tr t)) /\
    forall i, 0 <= i < buf_size (tr t) - 1 -> i <> write_index (tr t) -> block_of t' i = block_of t i.
Proof.
  intros [Hs Hi Hw Hb]. unfold push_to, UsbRing.Push. cbn [buf buf_size cycle_bit write_index].
  rewrite (u64_small (write_index (tr t) + 1)), (u64_small (buf_size (tr t) - 1)) by lia.
  destruct (do_stores_block (words t) (write_index (tr t)) (tagged d (cycle_bit (tr t)))) as (m1 & E1 & L1 & B1 & O1); [lia..|].
  unfold next_index, block_of. case_decide as He.
  - set (l := tagged (LinkTRB (buf (tr t))) (cycle_bit (tr t))).
    destruct (do_stores_block m1 (write_index (tr t) + 1) l) as (m2 & E2 & L2 & B2 & O2); [lia..|].
    rewrite do_stores_app. change (CopyToLast d (tr t)) with
      [(4 * write_index (tr t) + 0, d0 (tagged d (cycle_bit (tr t)))); (4 * write_index (tr t) + 1, d1 (tagged d (cycle_bit (tr t))));
       (4 * write_index (tr t) + 2, d2 (tagged d (cycle_bit (tr t)))); (4 * write_index (tr t) + 3, d3 (tagged d (cycle_bit (tr t))))].
    rewrite E1. cbn [mbind option_bind]. unfold l in E2. cbn [d0 d1 d2 d3 tagged] in E2. unfold CopyToLast. cbn [write_index cycle_bit]. rewrite E2.
    eexists. split; [reflexivity|]. cbn [tr words]. split_and!; try done.
    + split; cbn; lia.
    + cbn. by rewrite decide_True by lia.
    + rewrite O2 by lia. done.
    + intros i Hr Hne. rewrite O2, O1 by lia. done.
  - change (CopyToLast d (tr t)) with
      [(4 * write_index (tr t) + 0, d0 (tagged d (cycle_bit (tr t)))); (4 * write_index (tr t) + 1, d1 (tagged d (cycle_bit (tr t))));
       (4 * write_index (tr t) + 2, d2 (tagged d (cycle_bit (tr t)))); (4 * write_index (tr t) + 3, d3 (tagged d (cycle_bit (tr t))))].
    rewrite E1. cbn [mbind option_bind]. eexists. split; [reflexivity|]. cbn [tr words]. split_and!; try done.
    + split; cbn; lia.
    + cbn. by rewrite decide_False by lia.
    + intros i Hr Hne. by rewrite O1 by lia.
Qed.

(** A pointer into a ring names its block. *)
Lemma trb_in_block t i : 0 <= i < buf_size (tr t) -> trb_in (buf (tr t) + 16 * i) t = Some (block_of t i).
Proof.
  intros Hi. unfold trb_in, block_of. replace (buf (tr t) + 16 * i - buf (tr t)) with (i * 16) by lia.
  rewrite decide_True by (split; [lia|by rewrite Z.mod_mul]). by rewrite Z.div_mul.
Qed.

(** The cycle bit is not part of what a block says. *)
Lemma tagged_fields d c :
  trb_type (d3 (tagged d c)) = trb_type (d3 d) /\ pointer (tagged d c) = pointer d /\ setup_data_of (tagged d c) = setup_data_of d /\
  trb_transfer_length (tagged d c) = trb_transfer_length d.
Proof. split; [apply cycle_type|done]. Qed.

(** ** A control request *)

(** The default control endpoint has a ring. *)
Definition ep0 (d : Device) (t : TransferRing) : Prop := transfer_rings d !! 0%nat = Some (Some t) /\ tring_ok t.

(** No request on the ring is under way. *)
Definition quiet (d : Device) (t : TransferRing) : Prop :=
  None ∈ setup_stage_map d /\ forall i, Get (buf (tr t) + 16 * i) (setup_stage_map d) = None.

Definition set_ring0 (t : TransferRing) (d : Device) : Device := set_rings (<[0%nat := Some t]> (transfer_rings d)) d.

Lemma set_ring0_twice t t' d : set_ring0 t' (set_ring0 t d) = set_ring0 t' d.
Proof. unfold set_ring0. destruct d. cbn. by rewrite list_insert_insert_eq. Qed.

Lemma ring_push_ep0 x d t :
  ep0 d t ->
  exists t', ring_push 1 t x d = Some (buf (tr t) + 16 * write_index (tr t), t', set_ring0 t' d) /\ ep0 (set_ring0 t' d) t' /\
    buf (tr t') = buf (tr t) /\ buf_size (tr t') = buf_size (tr t) /\ write_index (tr t') = next_index t /\
    block_of t' (write_index (tr t)) = tagged x (cycle_bit (tr t)) /\
    forall i, 0 <= i < buf_size (tr t) - 1 -> i <> write_index (tr t) -> block_of t' i = block_of t i.
Proof.
  intros [Hr Ht]. destruct (push_to_spec x t Ht) as (t' & E & Ht' & Hb & Hs & Hi & Hblk & Ho). exists t'.
  assert (Hl : (0 < length (transfer_rings d))%nat) by (by eapply lookup_lt_Some).
  split; [|split; [|by split_and!]].
  - unfold ring_push. rewrite E. cbn [mbind option_bind]. rewrite setZ_Some by lia. done.
  - split; [|done]. unfold set_ring0. cbn [transfer_rings set_rings]. by rewrite list_lookup_insert_eq.
Qed.

(** The request of the awaited block: what its completion hands over. *)
Record requested (d : Device) (setup : SetupData) (b len p : Z) : Prop := {
  rq_ring : exists t, ep0 d t /\ exists issuer block sp,
    trb_in p t = Some issuer /\ trb_in sp t = Some block /\ Get p (setup_stage_map d) = Some sp /\ setup_data_of block = setup /\
    (b <> 0 /\ trb_type (d3 issuer) = Type_DataStage /\ pointer issuer = b /\ trb_transfer_length issuer = len \/
     b = 0 /\ trb_type (d3 issuer) = Type_StatusStage);
}.

Lemma data_stage_fields p len dir_in ioc :
  0 <= p < 2 ^ 64 -> 0 <= len < 2 ^ 17 ->
  trb_type (d3 (DataStageTRB p len dir_in ioc)) = Type_DataStage /\ pointer (DataStageTRB p len dir_in ioc) = p /\
  trb_transfer_length (DataStageTRB p len dir_in ioc) = len.
Proof.
  intros Hp Hl. split; [by destruct ioc, dir_in|]. split; [by apply pointer_pair|].
  etransitivity; [exact (bits_at_pack [] 17 len [(5, 0); (10, 0)] eq_refl)|by apply Z.mod_small].
Qed.

Lemma next_index_ne t : tring_ok t -> next_index t <> write_index (tr t) /\ 0 <= next_index t < buf_size (tr t) - 1.
Proof. intros [Hs Hi _ _]. unfold next_index. case_decide; lia. Qed.

(** A setup block and the block awaited lie in the ring. *)
Lemma requested_at d t i j setup b len stage x c c' :
  ep0 d t -> 0 <= i < buf_size (tr t) -> 0 <= j < buf_size (tr t) -> setup_ok setup ->
  Get (buf (tr t) + 16 * i) (setup_stage_map d) = Some (buf (tr t) + 16 * j) ->
  block_of t j = tagged (SetupStageTRB setup stage) c -> block_of t i = tagged x c' ->
  (b <> 0 /\ trb_type (d3 x) = Type_DataStage /\ pointer x = b /\ trb_transfer_length x = len \/
   b = 0 /\ trb_type (d3 x) = Type_StatusStage) ->
  requested d setup b len (buf (tr t) + 16 * i).
Proof.
  intros H0 Hi Hj Hs Hg Hbj Hbi Hx. split. exists t. split; [done|]. exists (tagged x c'), (tagged (SetupStageTRB setup stage) c), (buf (tr t) + 16 * j).
  rewrite !trb_in_block, Hbi, Hbj by done. split; [done|]. split; [done|]. split; [done|].
  destruct (tagged_fields x c') as (-> & -> & _ & ->). destruct (tagged_fields (SetupStageTRB setup stage) c) as (_ & _ & -> & _).
  split; [by apply setup_data_roundtrip|done].
Qed.

(** A device in which only the ring and the request differ. *)
Definition with_request (t : TransferRing) (p sp : Z) (d : Device) : Device :=
  set_setup_map (Put p sp (setup_stage_map d)) (set_ring0 t d).

(** The blocks are pushed, and the completion of the block awaited is noted. *)
Lemma data_blocks_spec t setup b len stage dir_in d :
  ep0 d t -> quiet d t -> setup_ok setup -> 0 < b < 2 ^ 64 -> 0 <= len < 2 ^ 17 ->
  exists t' p sp, control_blocks 1 t setup b len stage dir_in d = Some (with_request t' p sp d) /\
    buf (tr t') = buf (tr t) /\ Get p (setup_stage_map d) = None /\ requested (with_request t' p sp d) setup b len p.
Proof.
  intros H0 [Hroom Hquiet] Hsetup Hb Hlen. unfold control_blocks. rewrite decide_True by lia.
  destruct (ring_push_ep0 (SetupStageTRB setup stage) d t H0) as (t1 & E1 & H1 & B1 & S1 & I1 & K1 & O1).
  rewrite E1. cbn [mbind option_bind].
  destruct (ring_push_ep0 (DataStageTRB b len dir_in true) _ t1 H1) as (t2 & E2 & H2 & B2 & S2 & I2 & K2 & O2).
  rewrite E2. cbn [mbind option_bind].
  destruct (ring_push_ep0 (StatusStageTRB (negb dir_in) false) _ t2 H2) as (t3 & E3 & H3 & B3 & S3 & I3 & K3 & O3).
  rewrite E3. cbn [mbind option_bind]. rewrite !set_ring0_twice in *.
  pose proof (next_index_ne _ (proj2 H0)) as [N0 R0]. pose proof (next_index_ne _ (proj2 H1)) as [N1 R1].
  pose proof (proj2 H0) as [Z1 Z2 _ _].
  exists t3, (buf (tr t1) + 16 * write_index (tr t1)), (buf (tr t) + 16 * write_index (tr t)). split; [reflexivity|].
  split; [congruence|]. rewrite B1. split; [apply Hquiet|]. replace (buf (tr t)) with (buf (tr t3)) by congruence.
  assert (Hne : write_index (tr t) <> write_index (tr t2)) by (rewrite I2; unfold next_index in *; rewrite I1, S1; repeat case_decide; lia).
  apply requested_at with (j := write_index (tr t)) (stage := stage) (x := DataStageTRB b len dir_in true)
    (c := cycle_bit (tr t)) (c' := cycle_bit (tr t1)); rewrite ?S3, ?S2, ?S1, ?I1; try done; try lia.
  - apply Get_Put; [|done]. rewrite B3, B2, B1. apply Hquiet.
  - rewrite O3, O2, K1 by (rewrite ?S2, ?S1, ?I1; lia). done.
  - rewrite <- I1, O3 by (rewrite ?S2, ?S1, ?I2; rewrite ?I1 in *; lia). done.
  - left. split; [lia|]. apply data_stage_fields; lia.
Qed.

Lemma status_blocks_spec t setup len stage dir_in d :
  ep0 d t -> quiet d t -> setup_ok setup ->
  exists t' p sp, control_blocks 1 t setup 0 len stage dir_in d = Some (with_request t' p sp d) /\
    buf (tr t') = buf (tr t) /\ Get p (setup_stage_map d) = None /\ requested (with_request t' p sp d) setup 0 len p.
Proof.
  intros H0 [Hroom Hquiet] Hsetup. unfold control_blocks. rewrite decide_False by lia.
  destruct (ring_push_ep0 (SetupStageTRB setup kNoDataStage) d t H0) as (t1 & E1 & H1 & B1 & S1 & I1 & K1 & O1).
  rewrite E1. cbn [mbind option_bind].
  destruct (ring_push_ep0 (StatusStageTRB true true) _ t1 H1) as (t2 & E2 & H2 & B2 & S2 & I2 & K2 & O2).
  rewrite E2. cbn [mbind option_bind]. rewrite !set_ring0_twice in *.
  pose proof (next_index_ne _ (proj2 H0)) as [N0 R0]. pose proof (proj2 H0) as [Z1 Z2 _ _].
  exists t2, (buf (tr t1) + 16 * write_index (tr t1)), (buf (tr t) + 16 * write_index (tr t)). split; [reflexivity|].
  split; [congruence|]. rewrite B1. split; [apply Hquiet|]. replace (buf (tr t)) with (buf (tr t2)) by congruence.
  apply requested_at with (j := write_index (tr t)) (stage := kNoDataStage) (x := StatusStageTRB true true)
    (c := cycle_bit (tr t)) (c' := cycle_bit (tr t1)); rewrite ?S2, ?S1, ?I1; try done; try lia.
  - apply Get_Put; [|done]. rewrite B2, B1. apply Hquiet.
  - rewrite O2, K1 by (rewrite ?S1, ?I1; lia). done.
  - by rewrite <- I1.
  - by right.
Qed.

(** ** Its completion *)

(** Only the rings and the map of the requests matter. *)
Lemma requested_ext d d' setup b len p :
  transfer_rings d' = transfer_rings d -> setup_stage_map d' = setup_stage_map d -> requested d setup b len p -> requested d' setup b len p.
Proof.
  intros Hr Hm [(t & [Ht1 Ht2] & issuer & block & sp & H1 & H2 & H3 & H4)]. split. exists t. split; [by split; [rewrite Hr|]|].
  exists issuer, block, sp. by rewrite Hm.
Qed.

Lemma trb_at_ep0 d t p x : ep0 d t -> trb_in p t = Some x -> trb_at p (transfer_rings d) = Some x.
Proof. intros [Hr _] Hp. destruct (transfer_rings d) as [|o rs]; [done|]. injection Hr as ->. cbn [trb_at]. by rewrite Hp. Qed.

Section completion.
Context (memory_pool sizeof_keyboard sizeof_mouse hid_buf_offset : Z).
#[local] Abbreviation OnControlCompleted := (OnControlCompleted memory_pool sizeof_keyboard sizeof_mouse hid_buf_offset).
#[local] Abbreviation OnTransferEventReceived := (OnTransferEventReceived memory_pool sizeof_keyboard sizeof_mouse hid_buf_offset).

(** The event of a transfer that succeeded, or came short. *)
Definition completes (e : TRB) (p : Z) : Prop := pointer e = p /\ (te_completion_code e = 1 \/ te_completion_code e = 13).

Lemma requested_completes d setup b len p e :
  requested d setup b len p -> completes e p ->
  OnTransferEventReceived e d =
  OnControlCompleted setup b (if decide (b = 0) then 0 else len - te_residual e) (set_setup_map (Delete p (setup_stage_map d)) d).
Proof.
  intros [(t & H0 & issuer & block & sp & Hi & Hb & Hg & Hs & Hx)] [Hp Hc]. unfold UsbDevice.OnTransferEventReceived.
  rewrite decide_False by lia. rewrite Hp, (trb_at_ep0 d t p issuer) by done. cbn [defined mbind outcome_bind].
  assert (Hn : trb_type (d3 issuer) <> Type_Normal) by (destruct Hx as [(_ & -> & _)|(_ & ->)]; done).
  rewrite decide_False by done. rewrite Hg. cbn [transfer_rings set_setup_map].
  rewrite (trb_at_ep0 d t sp block) by done. cbn [defined mbind outcome_bind]. rewrite Hs.
  destruct Hx as [(Hb0 & Hty & Hptr & Hlen)|(-> & Hty)].
  - rewrite decide_True by done. by rewrite Hptr, Hlen, decide_False by done.
  - rewrite decide_False by (by rewrite Hty). by rewrite !decide_True by done.
Qed.

(** A control transfer in either direction. *)
Definition Control (dir_in : bool) := if dir_in then ControlIn else ControlOut.

Lemma Control_spec dir_in d t setup b len issuer :
  ep0 d t -> quiet d t -> setup_ok setup -> 0 <= b < 2 ^ 64 -> 0 <= len < 2 ^ 17 ->
  exists t' p sp d', Control dir_in 1 setup b len issuer d = Ok (kSuccess, d') /\
    d' = act (Doorbell (slot_id d) 1) (with_request t' p sp (wait_for setup issuer d)) /\
    buf (tr t') = buf (tr t) /\ Get p (setup_stage_map d) = None /\ requested d' setup b len p.
Proof.
  intros H0 Hq Hs Hb Hl.
  assert (Hw : ep0 (wait_for setup issuer d) t /\ quiet (wait_for setup issuer d) t) by by destruct issuer.
  assert (Hblocks : forall stage, exists t' p sp, control_blocks 1 t setup b len stage dir_in (wait_for setup issuer d) =
    Some (with_request t' p sp (wait_for setup issuer d)) /\ buf (tr t') = buf (tr t) /\ Get p (setup_stage_map (wait_for setup issuer d)) = None /\
    requested (with_request t' p sp (wait_for setup issuer d)) setup b len p).
  { intros stage. destruct (decide (b = 0)) as [->|]; [apply status_blocks_spec; [apply Hw|apply Hw|done]|apply data_blocks_spec; [apply Hw|apply Hw|done|lia|done]]. }
  assert (Hring : getZ (transfer_rings (wait_for setup issuer d)) (1 - 1) = Some (Some t)) by (destruct Hw as [[E _] _]; exact E).
  assert (Hmap : setup_stage_map (wait_for setup issuer d) = setup_stage_map d) by by destruct issuer.
  assert (Hslot : slot_id (wait_for setup issuer d) = slot_id d) by by destruct issuer.
  destruct (Hblocks (if dir_in then kInDataStage else kOutDataStage)) as (t' & p & sp & E & Hbuf & Hget & Hreq). rewrite Hmap in Hget.
  exists t', p, sp, (act (Doorbell (slot_id d) 1) (with_request t' p sp (wait_for setup issuer d))).
  split; [|split; [done|split; [done|split; [done|by eapply requested_ext; [..|exact Hreq]]]]].
  destruct dir_in; unfold Control, ControlIn, ControlOut; cbv zeta; rewrite decide_False by (change (Number 1) with 0; lia);
    rewrite Hring; cbn [defined mbind outcome_bind]; rewrite E; cbn [defined mbind outcome_bind]; unfold with_request at 1 3; cbn [slot_id set_setup_map set_ring0 set_rings];
    by rewrite Hslot.
Qed.

(** C32. A control request finds its way back: its blocks are pushed on the ring
    of the default endpoint, and when an event names the block that reports,
    whatever data has arrived meanwhile, the completion is handed over with the
    request that was made, its buffer and the length that was transferred, and
    the request is forgotten. *)
Theorem control_roundtrip dir_in d t setup b len issuer :
  ep0 d t -> quiet d t -> setup_ok setup -> 0 <= b < 2 ^ 64 -> 0 <= len < 2 ^ 17 ->
  exists d' p, Control dir_in 1 setup b len issuer d = Ok (kSuccess, d') /\
    forall e d'', transfer_rings d'' = transfer_rings d' -> setup_stage_map d'' = setup_stage_map d' -> completes e p ->
      OnTransferEventReceived e d'' =
      OnControlCompleted setup b (if decide (b = 0) then 0 else len - te_residual e) (set_setup_map (setup_stage_map d) d'').
Proof.
  intros H0 Hq Hs Hb Hl. destruct (Control_spec dir_in d t setup b len issuer) as (t' & p & sp & d' & E & Hd' & _ & Hg & Hreq); try done.
  exists d', p. split; [done|]. intros e d'' Hr Hm He.
  rewrite (requested_completes d'' setup b len p e) by (done || by eapply requested_ext; [exact Hr|exact Hm|]).
  f_equal. rewrite Hm, Hd'. cbn [setup_stage_map act with_request set_setup_map]. destruct Hq as [Hroom _].
  assert (Hmap : setup_stage_map (wait_for setup issuer d) = setup_stage_map d) by by destruct issuer.
  rewrite Hmap. by rewrite Delete_Put.
Qed.
End completion.

(** *** Witness: the request for the device descriptor of a new device *)

Definition sample_setup : SetupData := MkSetup (request_bits 1 0 0) kGetDescriptor 256 0 18.
Definition sample_pipe : Device :=
  set_rings (<[0%nat := Some (MkTR (MkRing 0x1000 32 true 0) (replicate 128 0))]> (replicate 31 None)) (new_Device 1 0x8000 0x10000).

Lemma control_roundtrip_witness :
  exists d' p, ControlIn 1 sample_setup 0x8000 18 None sample_pipe = Ok (kSuccess, d') /\
    forall e, completes e p ->
      OnTransferEventReceived 0x10000 64 64 0 e d' = OnControlCompleted 0x10000 64 64 0 sample_setup 0x8000 (18 - te_residual e) (set_setup_map (setup_stage_map sample_pipe) d').
Proof.
  destruct (control_roundtrip 0x10000 64 64 0 true sample_pipe (MkTR (MkRing 0x1000 32 true 0) (replicate 128 0)) sample_setup 0x8000 18 None) as (d' & p & E & H).
  - split; [done|]. by split; cbn; lia.
  - split; [by left|intros i; reflexivity].
  - by vm_compute.
  - lia.
  - lia.
  - exists d', p. split; [exact E|]. intros e He. exact (H e d' eq_refl eq_refl He).
Defined.
