(* ===== verification/UsbEnum.v ===== *)
(** * The initialisation of a USB device (kernel/usb/device.cpp)

    A device that answers with its descriptors is brought by the driver, request
    by request, to the state in which its keyboard or mouse is served. The
    descriptors are a sequence of blocks that say their own length. *)

From stdpp Require Import base list numbers option.
From Stdlib Require Import ZArith Lia.
From S2P Require Import Prelude Bytes UsbMemory UsbRing BitField UsbTrb UsbDevice UsbTransfer.

Local Open Scope Z_scope.

(** ** Descriptors *)

(** A descriptor starts with its length and its type. *)
Definition descriptor_ok (x : list Z) : Prop :=
  (2 <= length x)%nat /\ x !! 0%nat = Some (Z.of_nat (length x)) /\ bytes x.
Definition byte_of (x : list Z) (i : nat) : Z := default 0 (x !! i).
Definition type_of (x : list Z) : Z := byte_of x 1.

(** What the standard says of the lengths. *)
Definition sized (x : list Z) : Prop :=
  (type_of x = 4 -> (9 <= length x)%nat) /\ (type_of x = 5 -> (7 <= length x)%nat).

(** A configuration: its own descriptor and those that follow. *)
Record config_ok (header : list Z) (ds : list (list Z)) : Prop := {
  cf_header : descriptor_ok header /\ type_of header = 2 /\ (9 <= length header)%nat;
  cf_descs : Forall (fun x => descriptor_ok x /\ sized x) ds;
  cf_total : (length (concat (header :: ds)) <= 256)%nat;
}.

(** The next descriptor of a type and what follows it. *)
Fixpoint find_type (k : Z) (ds : list (list Z)) : option (list Z * list (list Z)) :=
  match ds with
  | [] => None
  | x :: ds' => if decide (type_of x = k) then Some (x, ds') else find_type k ds'
  end.

(** The driver an interface asks for. *)
Definition interface_driver (x : list Z) : option driver_kind := driver_for (byte_of x 5) (byte_of x 6) (byte_of x 7).

(** The first interface that has a driver. *)
Fixpoint first_interface (ds : list (list Z)) : option (driver_kind * list Z * list (list Z)) :=
  match ds with
  | [] => None
  | x :: ds' =>
      if decide (type_of x = 4) then
        match interface_driver x with Some k => Some (k, x, ds') | None => first_interface ds' end
      else first_interface ds'
  end.

(** Its endpoints: the next so many descriptors of endpoints. *)
Definition config_of (x : list Z) : EndpointConfig :=
  MkEP (EndpointID (bits_at 0 4 (byte_of x 2)) (bool_decide (bits_at 7 1 (byte_of x 2) = 1))) (endpoint_type (bits_at 0 2 (byte_of x 3)))
    (byte_of x 4 + 256 * byte_of x 5) (byte_of x 6).
Definition endpoint_descs (ds : list (list Z)) : list (list Z) := filter (fun x => type_of x = 5) ds.
Definition endpoints (n : nat) (ds : list (list Z)) : list EndpointConfig := map config_of (take n (endpoint_descs ds)).

(** ** The reader *)

(** From [p] on the buffer holds the descriptors, and they end at [len]. *)
Definition holds (b : list Z) (len p : Z) (ds : list (list Z)) : Prop :=
  0 <= p /\ (exists post, drop (Z.to_nat p) b = concat ds ++ post) /\ len = p + Z.of_nat (length (concat ds)).

Lemma holds_byte b len p x ds k : holds b len p (x :: ds) -> 0 <= k < Z.of_nat (length x) -> getZ b (p + k) = Some (byte_of x (Z.to_nat k)).
Proof.
  intros (Hp & [post E] & _) Hk. unfold getZ. rewrite decide_True by lia.
  replace (Z.to_nat (p + k)) with (Z.to_nat p + Z.to_nat k)%nat by lia. assert (Hi : (Z.to_nat k < length x)%nat) by lia. revert Hi.
  generalize (Z.to_nat k). intros i Hi. rewrite <- lookup_drop, E. cbn [concat]. rewrite <- app_assoc, lookup_app_l by done. unfold byte_of.
  destruct (lookup_lt_is_Some_2 x i Hi) as [v ->]. done.
Qed.

Lemma holds_tail b len p x ds : holds b len p (x :: ds) -> holds b len (p + Z.of_nat (length x)) ds.
Proof.
  intros (Hp & [post E] & Hl). cbn [concat] in Hl. rewrite length_app in Hl. split; [lia|]. split; [|lia]. exists post.
  replace (Z.to_nat (p + Z.of_nat (length x))) with (Z.to_nat p + length x)%nat by lia.
  rewrite <- drop_drop, E. cbn [concat]. rewrite <- app_assoc. by rewrite drop_app_length.
Qed.

Section reader.
Context (b : list Z) (len : Z).

(** The reader steps from a descriptor to the next. *)
Lemma Next_spec p x ds :
  holds b len p (x :: ds) -> descriptor_ok x -> Forall (fun y => descriptor_ok y /\ sized y) ds ->
  Next b len p = Some (p + Z.of_nat (length x), match ds with [] => false | _ => true end) /\ holds b len (p + Z.of_nat (length x)) ds.
Proof.
  intros Hh (Hx & H0 & _) Hds. split; [|by apply holds_tail]. unfold Next.
  replace p with (p + 0) at 1 by lia. rewrite (holds_byte _ _ _ _ _ 0 Hh) by lia. change (Z.to_nat 0) with 0%nat. unfold byte_of. rewrite H0. cbn [default mbind option_bind id from_option].
  do 2 f_equal. destruct (holds_tail _ _ _ _ _ Hh) as (_ & _ & Hl). destruct ds as [|y ds].
  - apply bool_decide_eq_false. cbn in Hl. lia.
  - apply bool_decide_eq_true. apply Forall_cons_1 in Hds as [[(Hy & _) _] _]. cbn [concat] in Hl. rewrite length_app in Hl. lia.
Qed.

Lemma Next_of_spec k ds : forall fuel p x,
  holds b len p (x :: ds) -> descriptor_ok x -> Forall (fun y => descriptor_ok y /\ sized y) ds -> (length ds < fuel)%nat ->
  match find_type k ds with
  | Some (y, ds') => exists p', Next_of b len fuel k p = Some (p', true) /\ holds b len p' (y :: ds')
  | None => exists p', Next_of b len fuel k p = Some (p', false)
  end.
Proof.
  induction ds as [|y ds IH]; intros fuel p x Hh Hx Hds Hf; (destruct fuel as [|fuel]; [cbn in Hf; lia|]); cbn [find_type Next_of];
    destruct (Next_spec _ _ _ Hh Hx Hds) as [-> Hh']; cbn [mbind option_bind]; [by eexists|].
  apply Forall_cons_1 in Hds as [[Hy Hsz] Hds]. pose proof Hy as (Hy2 & _).
  rewrite (holds_byte _ _ _ _ _ 1 Hh') by lia. cbn [mbind option_bind]. change (byte_of y (Z.to_nat 1)) with (type_of y).
  case_decide; [by eexists|]. apply (IH _ _ y); [done|done|done|cbn in Hf; lia].
Qed.

(** *** The endpoints of an interface *)

(** Entries put into the table from place [n] on. *)
Fixpoint fill (l : list EndpointConfig) (n : nat) (configs : list EndpointConfig) : list EndpointConfig :=
  match l with [] => configs | c :: l' => fill l' (S n) (<[n := c]> configs) end.
Definition mark (w : nat) (l : list EndpointConfig) (cds : list (option nat)) : list (option nat) :=
  fold_left (fun cds c => <[Z.to_nat (Number (ep_id c)) := Some w]> cds) l cds.

Lemma MakeEPConfig_spec p x ds : holds b len p (x :: ds) -> (7 <= length x)%nat -> MakeEPConfig b p = Some (config_of x).
Proof.
  intros Hh Hx. unfold MakeEPConfig. rewrite !(holds_byte _ _ _ _ _ _ Hh) by lia. done.
Qed.

(** The number of an endpoint fits the table of the drivers. *)
Lemma Number_config x : 0 <= Number (ep_id (config_of x)) < 16.
Proof.
  unfold config_of, Number, EndpointID. cbn [ep_id]. rewrite (bits_at_mod 0 4) by lia. rewrite Z.div_1_r.
  pose proof (Z.mod_pos_bound (byte_of x 2) (2 ^ 4) ltac:(lia)). revert H. generalize (byte_of x 2 mod 2 ^ 4). intros v Hv.
  rewrite Z.shiftr_lor, Z.shiftr_shiftl_l by lia. cbn [Z.sub Z.shiftl]. rewrite Z.shiftl_0_r.
  replace (Z.shiftr (if bool_decide _ then 1 else 0) 1) with 0 by (by case_bool_decide). rewrite Z.lor_0_r. lia.
Qed.

Lemma read_endpoints_spec w ds : forall fuel N p x configs n cds,
  holds b len p (x :: ds) -> descriptor_ok x -> Forall (fun y => descriptor_ok y /\ sized y) ds -> (length ds < fuel)%nat ->
  (n <= N)%nat -> (N - n <= length (endpoint_descs ds))%nat -> (N <= length configs)%nat -> length cds = 16%nat ->
  read_endpoints b len fuel w (Z.of_nat N) p configs (Z.of_nat n) cds =
  Some (fill (endpoints (N - n) ds) n configs, Z.of_nat N, mark w (endpoints (N - n) ds) cds).
Proof.
  induction ds as [|y ds IH]; intros fuel N p x configs n cds Hh Hx Hds Hf Hn HN Hc Hl;
    (destruct fuel as [|fuel]; [cbn in Hf; lia|]); cbn [read_endpoints].
  - cbn in HN. rewrite decide_False by lia. replace (N - n)%nat with 0%nat by lia. cbn. by replace n with N by lia.
  - destruct (decide (n = N)) as [->|Hne]; [rewrite decide_False, Nat.sub_diag by lia; done|].
    rewrite decide_True by lia. destruct (Next_spec _ _ _ Hh Hx Hds) as [-> Hh']. cbn [mbind option_bind].
    apply Forall_cons_1 in Hds as [[Hy Hsz] Hds]. pose proof Hy as (Hy2 & _).
    rewrite (holds_byte _ _ _ _ _ 1 Hh') by lia. cbn [mbind option_bind]. change (byte_of y (Z.to_nat 1)) with (type_of y).
    unfold endpoints, endpoint_descs in *. rewrite filter_cons in *. case_decide as Ht.
    + rewrite (MakeEPConfig_spec _ _ _ Hh') by (by apply Hsz). cbn [mbind option_bind].
      assert (Hin : 0 <= Z.of_nat n < Z.of_nat (length configs)) by (clear - Hn Hne Hc; lia).
      rewrite (setZ_Some configs) by exact Hin. cbn [mbind option_bind]. pose proof (Number_config y) as Hnum.
      rewrite (setZ_Some cds) by (rewrite Hl; exact Hnum). cbn [mbind option_bind].
      replace (Z.of_nat n + 1) with (Z.of_nat (S n)) by lia. cbn [length] in HN, Hf.
      rewrite (IH fuel N _ y) by (done || rewrite ?length_insert; lia).
      replace (N - n)%nat with (S (N - S n)) by lia. cbn [take map fill]. by rewrite !Nat2Z.id.
    + cbn [length] in Hf. apply (IH fuel N _ y); (done || lia).
Qed.
End reader.

(** ** A device that answers *)

(** The request that is awaited: the block that reports and its setup block. *)
Definition awaited (d : Device) : option (Z * Z) := head (omap id (setup_stage_map d)).

(** The event of a transfer on the default endpoint. *)
Definition transfer_event (p residual code slot : Z) : TRB :=
  trb (low p) (high p) [(24, residual); (8, code)] [(1, 0); (1, 0); (1, 0); (7, 0); (6, Type_TransferEvent); (5, 1); (3, 0); (8, slot)].

Section device.
(** Its two descriptors. *)
Context (device_desc config_desc : list Z).

Definition answer (s : SetupData) : list Z :=
  if decide (request s = kGetDescriptor) then if decide (value s / 256 = 1) then device_desc else config_desc else [].
Definition sent (s : SetupData) : list Z := take (Z.to_nat (setup_length s)) (answer s).

(** The controller carries out the request: the data goes to the buffer, and the
    event says how much was left. *)
Definition respond (d : Device) : option (TRB * Device) :=
  '(p, sp) ← awaited d;
  block ← trb_at sp (transfer_rings d);
  let s := setup_data_of block in
  let residual := setup_length s - Z.of_nat (length (sent s)) in
  Some (transfer_event p residual (if decide (residual = 0) then 1 else 13) (slot_id d),
    on_usb (set_dbuf (sent s ++ drop (length (sent s)) (dbuf (usb d)))) d).

Context (memory_pool sizeof_keyboard sizeof_mouse hid_buf_offset : Z).
#[local] Abbreviation OnControlCompleted := (OnControlCompleted memory_pool sizeof_keyboard sizeof_mouse hid_buf_offset).
#[local] Abbreviation OnTransferEventReceived := (OnTransferEventReceived memory_pool sizeof_keyboard sizeof_mouse hid_buf_offset).
#[local] Abbreviation InitializePhase2 := (InitializePhase2 memory_pool sizeof_keyboard sizeof_mouse hid_buf_offset).
#[local] Abbreviation find_interface := (find_interface memory_pool sizeof_keyboard sizeof_mouse hid_buf_offset).

(** The device answers and the driver handles the event. *)
Definition serve (d : Device) : run := '(e, d) ← defined (respond d); OnTransferEventReceived e d.

(** No request under way. *)
Definition idle (d : Device) : Prop := setup_stage_map d = replicate 16 None.

Lemma idle_quiet d t : idle d -> quiet d t.
Proof. intros H. unfold quiet. rewrite H. split; [by left|done]. Qed.

Lemma transfer_event_fields p residual code slot :
  0 <= p < 2 ^ 64 -> 0 <= residual < 2 ^ 24 -> 0 <= code < 2 ^ 8 ->
  pointer (transfer_event p residual code slot) = p /\ te_residual (transfer_event p residual code slot) = residual /\
  te_completion_code (transfer_event p residual code slot) = code.
Proof.
  intros Hp Hr Hc. split; [by apply pointer_pair|]. split.
  - etransitivity; [exact (bits_at_pack [] 24 residual [(8, code)] eq_refl)|by apply Z.mod_small].
  - etransitivity; [exact (bits_at_pack [(24, residual)] 8 code [] eq_refl)|by apply Z.mod_small].
Qed.

(** The request a device is asked to carry out. *)
Definition asks (d : Device) (s : SetupData) : Prop :=
  exists p sp block, awaited d = Some (p, sp) /\ trb_at sp (transfer_rings d) = Some block /\ setup_data_of block = s.

(** What is known of a device between two requests: the next request has been
    answered, and the ring is the only thing that changed. *)
Definition requested_once (t : TransferRing) (s : SetupData) (d : Device) : Device :=
  on_usb (set_dbuf (sent s ++ drop (length (sent s)) (dbuf (usb d)))) (act (Doorbell (slot_id d) 1) (set_ring0 t d)).

(** A request and its answer. *)
Lemma request_step dir_in d t s b :
  ep0 d t -> idle d -> setup_ok s -> 0 <= b < 2 ^ 64 -> (b = 0 -> sent s = []) ->
  exists t' d1, Control dir_in 1 s b (setup_length s) None d = Ok (kSuccess, d1) /\ asks d1 s /\
    serve d1 = OnControlCompleted s b (Z.of_nat (length (sent s))) (requested_once t' s d) /\
    ep0 (requested_once t' s d) t' /\ idle (requested_once t' s d).
Proof.
  intros H0 Hi Hs Hb Hnull. pose proof Hs as (_ & _ & _ & _ & Hlen).
  destruct (Control_spec dir_in d t s b (setup_length s) None) as (t' & p & sp & d1 & E & Hd1 & Hbuf & Hg & Hreq);
    try done; [by apply idle_quiet|lia|]. cbn [wait_for] in Hd1.
  exists t', d1. split; [done|].
  assert (Hmap : setup_stage_map d1 = Some (p, sp) :: replicate 15 None) by (rewrite Hd1; cbn; by rewrite Hi).
  pose proof Hreq as [(t1 & H1 & issuer & block & sp' & Hin & Hblk & Hget & Hset & _)].
  rewrite Hmap in Hget. cbn [Get] in Hget. rewrite decide_True in Hget by done. injection Hget as <-.
  assert (Ht1 : t1 = t').
  { destruct H1 as [E1 _]. rewrite Hd1 in E1. cbn in E1. destruct H0 as [E0 _]. rewrite list_lookup_insert_eq in E1 by (by eapply lookup_lt_Some).
    by injection E1. }
  subst t1. assert (Hrb : 0 <= p < 2 ^ 64).
  { destruct H1 as [_ [? ? ? [? ?]]]. unfold trb_in in Hin. case_decide as Hp; [|done]. lia. }
  split.
  { exists p, sp, block. split; [unfold awaited; by rewrite Hmap|]. split; [by apply (trb_at_ep0 d1 t')|done]. }
  unfold serve, respond, awaited. rewrite Hmap. cbn [omap head list_omap mbind option_bind id]. rewrite (trb_at_ep0 d1 t' sp block H1 Hblk).
  cbn [mbind option_bind defined outcome_bind]. rewrite Hset.
  set (residual := setup_length s - Z.of_nat (length (sent s))).
  assert (Hres : 0 <= residual < 2 ^ 24) by (unfold residual, sent; rewrite length_take; lia).
  destruct (transfer_event_fields p residual (if decide (residual = 0) then 1 else 13) (slot_id d1)) as (F1 & F2 & F3); [done|done|case_decide; lia|].
  set (d2 := on_usb _ d1).
  rewrite (requested_completes memory_pool sizeof_keyboard sizeof_mouse hid_buf_offset d2 s b (setup_length s) p);
    [|by eapply requested_ext; [..|exact Hreq]|split; [done|rewrite F3; case_decide; auto]].
  rewrite F2. split.
  - f_equal.
    + destruct (decide (b = 0)) as [Hb0|]; [by rewrite Hnull by done|]. unfold residual. lia.
    + unfold d2. rewrite Hd1. unfold requested_once, with_request, set_ring0, act, on_usb, set_rings, set_setup_map. cbn. rewrite Hi. cbn.
      by rewrite decide_True.
  - split; [|done]. destruct H1 as [E1 Ht']. split; [|done]. rewrite Hd1 in E1. exact E1.
Qed.

(** *** Finding the interface *)

(** The driver made for an interface. *)
Definition new_driver (k : driver_kind) (x : list Z) (p : Z) : HIDDriver :=
  MkHID k (byte_of x 2) (match k with Keyboard => 8 | Mouse => 3 end) 0 0 0 (replicate 1024 0) (replicate 1024 0) (p + hid_buf_offset).
Definition driver_size (k : driver_kind) : Z := match k with Keyboard => sizeof_keyboard | Mouse => sizeof_mouse end.

(** The device once the interface is found. *)
Definition with_interface (k : driver_kind) (x : list Z) (rest : list (list Z)) (pool' p : Z) (d : Device) : Device :=
  let eps := endpoints (Z.to_nat (byte_of x 4)) rest in
  on_usb (fun u => set_class_drivers (mark (length (drivers d)) eps (class_drivers u))
    (set_ep_configs (fill eps 0 (ep_configs u)) (byte_of x 4) u))
    (set_pool pool' (set_drivers (drivers d ++ [new_driver k x p]) d)).

(** The interface has as many endpoints as it says, and the table has room. *)
Definition interface_ok (x : list Z) (rest : list (list Z)) : Prop :=
  (Z.to_nat (byte_of x 4) <= length (endpoint_descs rest))%nat /\ 0 <= byte_of x 4 <= 16.

Lemma find_type_interface ds : find_type 4 ds = None -> first_interface ds = None.
Proof. induction ds as [|x ds IH]; cbn; [done|]. by case_decide. Qed.

Lemma find_type_first ds y ds' :
  find_type 4 ds = Some (y, ds') ->
  type_of y = 4 /\ (length ds' < length ds)%nat /\
  first_interface ds = match interface_driver y with Some k => Some (k, y, ds') | None => first_interface ds' end.
Proof.
  induction ds as [|x ds IH]; cbn; [done|]. case_decide.
  - intros [= <- <-]. split; [done|]. split; [lia|done].
  - intros E. destruct (IH E) as (H1 & H2 & H3). split; [done|]. split; [lia|done].
Qed.

Lemma find_type_Forall (P : list Z -> Prop) k ds y ds' : find_type k ds = Some (y, ds') -> Forall P ds -> P y /\ Forall P ds'.
Proof.
  induction ds as [|x ds IH]; cbn; [done|]. intros E HF. apply Forall_cons_1 in HF as [Hx HF]. case_decide; [|by apply IH].
  by injection E as <- <-.
Qed.

Lemma find_interface_spec b len d k x rest pool' q : forall fuel ds p y,
  holds b len p (y :: ds) -> descriptor_ok y -> Forall (fun z => descriptor_ok z /\ sized z) ds ->
  (length ds < fuel)%nat -> (length ds <= Z.to_nat len)%nat ->
  first_interface ds = Some (k, x, rest) -> interface_ok x rest ->
  length (ep_configs (usb d)) = 16%nat -> length (class_drivers (usb d)) = 16%nat ->
  AllocMem memory_pool (driver_size k) 0 0 (pool d) = (pool', Some q) ->
  find_interface fuel b len p d = Ok (Some (length (drivers d)), with_interface k x rest pool' q d).
Proof.
  induction fuel as [|fuel IH]; intros ds p y Hh Hy Hds Hf Hlen Hfirst Hok Hec Hcd Hal; [lia|]. cbn [UsbDevice.find_interface].
  pose proof (Next_of_spec b len 4 ds (S (Z.to_nat len)) p y Hh Hy Hds ltac:(lia)) as Hn.
  destruct (find_type 4 ds) as [[z ds']|] eqn:Eft; [|by rewrite find_type_interface in Hfirst].
  destruct Hn as (p' & -> & Hh'). cbn [defined mbind outcome_bind].
  destruct (find_type_first _ _ _ Eft) as (Hz4 & Hlt & Hff). rewrite Hff in Hfirst.
  destruct (find_type_Forall _ _ _ _ _ Eft Hds) as [[Hz Hsz] Hds']. pose proof (proj1 Hsz Hz4) as Hl9.
  rewrite (holds_byte _ _ _ _ _ 2 Hh'), (holds_byte _ _ _ _ _ 4 Hh'), (holds_byte _ _ _ _ _ 5 Hh'), (holds_byte _ _ _ _ _ 6 Hh'),
    (holds_byte _ _ _ _ _ 7 Hh') by lia. cbn [defined mbind outcome_bind]. unfold NewClassDriver.
  change (driver_for (byte_of z (Z.to_nat 5)) (byte_of z (Z.to_nat 6)) (byte_of z (Z.to_nat 7))) with (interface_driver z).
  destruct (interface_driver z) as [k'|] eqn:Ek.
  - injection Hfirst as -> -> ->. fold (driver_size k). rewrite Hal. cbn [defined mbind outcome_bind].
    destruct Hok as [Hok1 Hok2]. change (Z.to_nat 4) with 4%nat. change (Z.to_nat 2) with 2%nat.
    assert (E : read_endpoints b len (S (Z.to_nat len)) (length (drivers d)) (byte_of x 4) p' (ep_configs (usb d)) 0 (class_drivers (usb d)) =
      Some (fill (endpoints (Z.to_nat (byte_of x 4)) rest) 0 (ep_configs (usb d)), byte_of x 4,
        mark (length (drivers d)) (endpoints (Z.to_nat (byte_of x 4)) rest) (class_drivers (usb d)))).
    { pose proof (read_endpoints_spec b len (length (drivers d)) rest (S (Z.to_nat len)) (Z.to_nat (byte_of x 4)) p' x
        (ep_configs (usb d)) 0 (class_drivers (usb d))) as E. rewrite Nat.sub_0_r, Z2Nat.id in E by lia. apply E; (done || lia). }
    cbn [usb set_pool set_drivers]. rewrite E. done.
  - cbn [mbind outcome_bind]. apply (IH ds' p' z); (done || lia).
Qed.

(** *** The phases *)

Lemma fill_app l : forall n configs, (n + length l <= length configs)%nat -> fill l n configs = take n configs ++ l ++ drop (n + length l) configs.
Proof.
  induction l as [|c l IH]; intros n configs Hl; cbn [fill length app] in *; [by rewrite Nat.add_0_r, take_drop|].
  rewrite IH by (rewrite length_insert; lia). rewrite (insert_take_drop configs) by lia.
  rewrite take_app, take_take, length_take, Nat.min_r, Nat.min_l by lia. replace (S n - n)%nat with 1%nat by lia. cbn [take].
  rewrite drop_app_ge by (rewrite length_take; lia). rewrite <- app_assoc. cbn [app]. rewrite length_take, Nat.min_l by lia.
  replace (S n + length l - n)%nat with (S (length l)) by lia. cbn [drop]. rewrite drop_drop.
  by replace (S n + length l)%nat with (n + S (length l))%nat by lia.
Qed.

Lemma mark_keeps w l : forall cds i, cds !! i = Some (Some w) -> mark w l cds !! i = Some (Some w).
Proof.
  induction l as [|c l IH]; intros cds i Hi; [done|]. apply IH. rewrite list_lookup_insert. case_decide as H; [done|done].
Qed.

Lemma length_mark w l : forall cds, length (mark w l cds) = length cds.
Proof. induction l as [|c l IH]; intros cds; [done|]. cbn. etransitivity; [apply IH|]. apply length_insert. Qed.

(** Every endpoint leads to its driver. *)
Lemma mark_lookup w l : forall cds,
  length cds = 16%nat -> Forall (fun c => 0 <= Number (ep_id c) < 16) l ->
  Forall (fun c => getZ (mark w l cds) (Number (ep_id c)) = Some (Some w)) l.
Proof.
  induction l as [|c l IH]; intros cds Hl HF; constructor; apply Forall_cons_1 in HF as [Hc HF].
  - unfold getZ. rewrite decide_True by lia. cbn [mark fold_left]. apply mark_keeps. apply list_lookup_insert_eq. lia.
  - apply IH; [by rewrite length_insert|done].
Qed.

Definition serve_endpoints (l : list EndpointConfig) (h : HIDDriver) : HIDDriver := fold_left (fun h c => HID_SetEndpoint c h) l h.

Lemma alter_twice {A} (f g : A -> A) (l : list A) : forall i : nat, alter g i (alter f i l) = alter (fun x => g (f x)) i l.
Proof. induction l as [|x l IH]; intros [|i]; [done|done|done|]. change (x :: alter g i (alter f i l) = x :: alter (fun x => g (f x)) i l). by rewrite IH. Qed.

Lemma set_endpoints_spec w l : forall d,
  Forall (fun c => getZ (class_drivers (usb d)) (Number (ep_id c)) = Some (Some w)) l ->
  set_endpoints l d = Some (on_driver w (serve_endpoints l) d).
Proof.
  induction l as [|c l IH]; intros d HF.
  - cbn. destruct d. unfold on_driver, set_drivers. cbn. by rewrite list_alter_id.
  - apply Forall_cons_1 in HF as [Hc HF]. cbn [set_endpoints]. rewrite Hc. cbn [mbind option_bind]. rewrite IH by done.
    f_equal. unfold on_driver, set_drivers. cbn. by rewrite alter_twice.
Qed.

(** The third phase. *)
Lemma InitializePhase3_spec w l d :
  take (Z.to_nat (num_ep_configs (usb d))) (ep_configs (usb d)) = l ->
  Forall (fun c => getZ (class_drivers (usb d)) (Number (ep_id c)) = Some (Some w)) l ->
  InitializePhase3 d = Ok (kSuccess, on_usb (fun u => set_initialized true (set_phase 4 u)) (on_driver w (serve_endpoints l) d)).
Proof. intros Hl HF. unfold InitializePhase3. by rewrite Hl, (set_endpoints_spec w). Qed.

(** A device that was just given its address. *)
Record fresh (d : Device) (t : TransferRing) : Prop := {
  fr_ring : ep0 d t;
  fr_idle : idle d;
  fr_drivers : drivers d = [] /\ class_drivers (usb d) = replicate 16 None;
  fr_configs : length (ep_configs (usb d)) = 16%nat;
  fr_buf : length (dbuf (usb d)) = 256%nat /\ 0 < buf_addr d < 2 ^ 64;
}.

(** The device descriptor. *)
Definition device_desc_ok (x : list Z) : Prop := (18 <= length x <= 256)%nat /\ type_of x = 1.

(** The interface [x] is served by a driver whose buffer is at [q]. *)
Record served (d : Device) (k : driver_kind) (x : list Z) (rest : list (list Z)) (q : Z) : Prop := {
  sv_initialized : is_initialized (usb d) = true /\ initialize_phase (usb d) = 4;
  sv_endpoints : num_ep_configs (usb d) = byte_of x 4 /\
    take (Z.to_nat (byte_of x 4)) (ep_configs (usb d)) = endpoints (Z.to_nat (byte_of x 4)) rest;
  sv_driver : drivers d = [serve_endpoints (endpoints (Z.to_nat (byte_of x 4)) rest) (new_driver k x q)];
  sv_table : Forall (fun c => getZ (class_drivers (usb d)) (Number (ep_id c)) = Some (Some 0%nat)) (endpoints (Z.to_nat (byte_of x 4)) rest);
}.

(** The three requests. *)
Definition ask_device : SetupData := MkSetup (request_bits 1 0 0) kGetDescriptor (1 * 256) 0 256.
Definition ask_config : SetupData := MkSetup (request_bits 1 0 0) kGetDescriptor (2 * 256) 0 256.
Definition ask_configure (v : Z) : SetupData := MkSetup (request_bits 0 0 0) kSetConfiguration v 0 0.

(** The device between the requests: it is not initialised yet. *)
Definition in_phase (ph : Z) (d : Device) (t : TransferRing) : Prop :=
  fresh d t /\ is_initialized (usb d) = false /\ initialize_phase (usb d) = ph.

(** A descriptor arrives in the buffer. *)
Lemma get_step ph d t ask data :
  in_phase ph d t -> setup_ok ask -> setup_length ask = 256 -> answer ask = data -> (length data <= 256)%nat ->
  exists d1 d' t', ControlIn 1 ask (buf_addr d) 256 None d = Ok (kSuccess, d1) /\ asks d1 ask /\
    serve d1 = OnControlCompleted ask (buf_addr d') (Z.of_nat (length data)) d' /\
    in_phase ph d' t' /\ pool d' = pool d /\ dbuf (usb d') = data ++ drop (length data) (dbuf (usb d)).
Proof.
  intros ([H0 Hi Hd Hc [Hb Ha]] & Hin & Hph) Hok H256 Hans Hl.
  destruct (request_step true d t ask (buf_addr d)) as (t' & d1 & E & Hask & Es & H1 & Hi1); [done|done|done|lia|intros ?; exfalso; lia|].
  rewrite H256 in E. assert (Hsent : sent ask = data) by (unfold sent; rewrite Hans, H256; by apply take_ge).
  exists d1, (requested_once t' ask d), t'. split; [exact E|]. split; [done|]. split; [by rewrite Es, Hsent|].
  assert (Hbuf : dbuf (usb (requested_once t' ask d)) = data ++ drop (length data) (dbuf (usb d))).
  { unfold requested_once. cbn [usb on_usb set_dbuf dbuf act set_ring0 set_rings]. by rewrite Hsent. }
  split; [|done]. split; [|done]. split; [done|done|done|done|]. split; [|done]. rewrite Hbuf, length_app, length_drop. lia.
Qed.

(** A byte of the descriptor in the buffer. *)
Lemma data_byte data b0 i : 0 <= i < Z.of_nat (length data) -> getZ (data ++ b0) i = Some (byte_of data (Z.to_nat i)).
Proof.
  intros Hi. unfold getZ. rewrite decide_True, lookup_app_l by lia. unfold byte_of.
  destruct (lookup_lt_is_Some_2 data (Z.to_nat i)) as [v ->]; [lia|done].
Qed.

(** The first request. *)
Lemma start_step d t :
  fresh d t -> device_desc_ok device_desc ->
  exists d1 d' t', StartInitialize d = Ok (kSuccess, d1) /\ asks d1 ask_device /\
    serve d1 = GetDescriptor kDefaultControlPipeID 2 0 (buf_addr d') 256 d' /\ in_phase 2 d' t' /\ pool d' = pool d.
Proof.
  intros Hf [Hl Hty].
  destruct (get_step 1 (on_usb (fun u => set_phase 1 (set_initialized false u)) d) t ask_device device_desc)
    as (d1 & d' & t' & E & Hask & Es & (Hf' & Hin & Hph) & Hp & Hbuf); [by destruct Hf|by vm_compute|done|done|lia|].
  exists d1, (on_usb (fun u => set_phase 2 (set_configurations (byte_of device_desc 17) 0 u)) d'), t'.
  split; [exact E|]. split; [done|]. split; [|by destruct Hf'].
  rewrite Es. unfold UsbDevice.OnControlCompleted. rewrite Hin, Hph. cbn match. rewrite decide_True by done. rewrite decide_True by done.
  unfold buffer_at. rewrite decide_True by done. cbn [defined mbind outcome_bind]. rewrite Hbuf, (data_byte device_desc _ 1) by lia.
  cbn [defined mbind outcome_bind]. rewrite decide_True by exact Hty. unfold InitializePhase1.
  rewrite (data_byte device_desc _ 17) by lia. done.
Qed.

(** The second. *)
Lemma config_step d t header ds k x rest pool' q :
  in_phase 2 d t -> config_desc = concat (header :: ds) -> config_ok header ds -> first_interface ds = Some (k, x, rest) ->
  interface_ok x rest -> AllocMem memory_pool (driver_size k) 0 0 (pool d) = (pool', Some q) ->
  exists d1 d' t', GetDescriptor kDefaultControlPipeID 2 0 (buf_addr d) 256 d = Ok (kSuccess, d1) /\ asks d1 ask_config /\
    serve d1 = SetConfiguration kDefaultControlPipeID (byte_of header 5) (on_usb (set_phase 3) (with_interface k x rest pool' q d')) /\
    in_phase 2 d' t'.
Proof.
  intros Hph Hcd [(Hh & Hty & Hh9) Hds Htot] Hfirst Hok Hal. rewrite <- Hcd in Htot.
  destruct (get_step 2 d t ask_config config_desc) as (d1 & d' & t' & E & Hask & Es & Hph' & Hp & Hbuf);
    [done|by vm_compute|done|done|done|].
  exists d1, d', t'. split; [exact E|]. split; [done|]. split; [|done]. pose proof Hph' as (Hf' & Hin & Hp2).
  assert (Hlh : Z.of_nat (length header) <= Z.of_nat (length config_desc)) by (rewrite Hcd; cbn [concat]; rewrite length_app; lia).
  assert (Hbyte : forall i, 0 <= i < Z.of_nat (length header) -> getZ (dbuf (usb d')) i = Some (byte_of header (Z.to_nat i))).
  { intros i Hi. rewrite Hbuf, Hcd. cbn [concat]. rewrite <- app_assoc. by apply data_byte. }
  rewrite Es. unfold UsbDevice.OnControlCompleted. rewrite Hin, Hp2. cbn match. rewrite decide_False by done. rewrite decide_True by done. rewrite decide_True by done.
  unfold buffer_at. rewrite decide_True by done. cbn [defined mbind outcome_bind]. rewrite (Hbyte 1) by lia.
  cbn [defined mbind outcome_bind]. rewrite decide_True by exact Hty. unfold UsbDevice.InitializePhase2. rewrite (Hbyte 1) by lia.
  cbn [defined mbind outcome_bind]. rewrite decide_False by (intros ?; by apply H).
  assert (Hcount : (length ds <= length (concat ds))%nat).
  { clear - Hds. induction Hds as [|y ds [(Hy & _) _] _ IH]; [done|]. cbn [concat length]. rewrite length_app. lia. }
  assert (Hlds : (length ds < length config_desc)%nat) by (rewrite Hcd; cbn [concat]; rewrite length_app; lia).
  rewrite (find_interface_spec (dbuf (usb d')) (Z.of_nat (length config_desc)) d' k x rest pool' q _ ds 0 header);
    try done; try lia; try apply Hf'.
  - cbn [mbind outcome_bind]. rewrite (Hbyte 5) by lia. done.
  - split; [lia|]. split; [|by rewrite Hcd; lia]. eexists. rewrite drop_0, Hbuf, Hcd. reflexivity.
  - destruct Hf' as [_ _ [_ ->] _ _]. done.
  - by rewrite Hp.
Qed.

(** The third. *)
Lemma configure_step d t k x rest pool' q v :
  in_phase 2 d t -> interface_ok x rest -> 0 <= v < 256 ->
  exists d1 d', SetConfiguration kDefaultControlPipeID v (on_usb (set_phase 3) (with_interface k x rest pool' q d)) = Ok (kSuccess, d1) /\
    asks d1 (ask_configure v) /\ serve d1 = Ok (kSuccess, d') /\ served d' k x rest q.
Proof.
  intros ([[Hr Ht] Hi [Hd Hcd] Hc [Hb Ha]] & Hin & Hph) [Hn1 Hn2] Hv.
  set (d0 := on_usb (set_phase 3) (with_interface k x rest pool' q d)).
  assert (Hsent : sent (ask_configure v) = []) by (unfold sent, answer; rewrite decide_False by done; apply take_nil).
  destruct (request_step false d0 t (ask_configure v) 0) as (t' & d1 & E & Hask & Es & H1 & Hi1);
    [by split|done|unfold setup_ok; cbn [request_type request value index setup_length ask_configure]; change (request_bits 0 0 0) with 0; unfold kSetConfiguration; lia|lia|done|].
  set (eps := endpoints (Z.to_nat (byte_of x 4)) rest) in *.
  assert (Hleps : length eps = Z.to_nat (byte_of x 4)) by (unfold eps, endpoints; rewrite length_map, length_take; lia).
  exists d1, (on_usb (fun u => set_initialized true (set_phase 4 u)) (on_driver 0 (serve_endpoints eps) (requested_once t' (ask_configure v) d0))).
  split; [unfold SetConfiguration; unfold u16; rewrite Z.mod_small by lia; exact E|]. split; [done|].
  assert (Hcfg : take (Z.to_nat (byte_of x 4)) (fill eps 0 (ep_configs (usb d))) = eps).
  { rewrite fill_app by lia. rewrite take_0, app_nil_l. rewrite <- Hleps. by rewrite take_app_length. }
  assert (Htab : Forall (fun c => getZ (mark 0 eps (class_drivers (usb d))) (Number (ep_id c)) = Some (Some 0%nat)) eps).
  { apply mark_lookup; [by rewrite Hcd|]. unfold eps, endpoints. apply List.Forall_map, Forall_true. intros y. apply Number_config. }
  assert (Hd0 : length (drivers d) = 0%nat) by by rewrite Hd.
  split.
  - rewrite Es, Hsent. unfold UsbDevice.OnControlCompleted. change (is_initialized (usb (requested_once t' (ask_configure v) d0))) with (is_initialized (usb d)).
    rewrite Hin. change (initialize_phase (usb (requested_once t' (ask_configure v) d0))) with 3. cbn match.
    rewrite decide_False, decide_False, decide_True, decide_True by done.
    apply (InitializePhase3_spec 0); [exact Hcfg|].
    change (Forall (fun c => getZ (mark (length (drivers d)) eps (class_drivers (usb d))) (Number (ep_id c)) = Some (Some 0%nat)) eps).
    by rewrite Hd0.
  - split; [done|split; [done|exact Hcfg]| |].
    + change (alter (serve_endpoints eps) 0%nat (drivers d ++ [new_driver k x q]) = [serve_endpoints eps (new_driver k x q)]). by rewrite Hd.
    + change (Forall (fun c => getZ (mark (length (drivers d)) eps (class_drivers (usb d))) (Number (ep_id c)) = Some (Some 0%nat)) eps).
      by rewrite Hd0.
Qed.

(** C31. A USB device that answers with well-formed descriptors is initialised: it
    is asked for its device descriptor, for its configuration, and to use that
    configuration; after the third answer the first interface with a driver is
    served, with the endpoints that follow it in the configuration, each known to
    the table of drivers. *)
Theorem device_enumerated d t header ds k x rest pool' q :
  fresh d t -> device_desc_ok device_desc -> config_desc = concat (header :: ds) -> config_ok header ds ->
  first_interface ds = Some (k, x, rest) -> interface_ok x rest -> AllocMem memory_pool (driver_size k) 0 0 (pool d) = (pool', Some q) ->
  exists d1 d2 d3 d4, StartInitialize d = Ok (kSuccess, d1) /\ asks d1 ask_device /\
    serve d1 = Ok (kSuccess, d2) /\ asks d2 ask_config /\
    serve d2 = Ok (kSuccess, d3) /\ asks d3 (ask_configure (byte_of header 5)) /\
    serve d3 = Ok (kSuccess, d4) /\ served d4 k x rest q.
Proof.
  intros Hf Hdd Hcd Hcfg Hfirst Hok Hal.
  destruct (start_step d t Hf Hdd) as (d1 & da & ta & E1 & A1 & S1 & Ha & Hpa).
  rewrite <- Hpa in Hal.
  destruct (config_step da ta header ds k x rest pool' q Ha Hcd Hcfg Hfirst Hok Hal) as (d2 & db & tb & E2 & A2 & S2 & Hb).
  assert (Hv : 0 <= byte_of header 5 < 256).
  { destruct Hcfg as [((_ & _ & Hbytes) & _ & Hl) _ _]. unfold byte_of. destruct (lookup_lt_is_Some_2 header 5) as [v Hv]; [lia|].
    rewrite Hv. exact (proj1 (list.Forall_lookup _ _) Hbytes _ _ Hv). }
  destruct (configure_step db tb k x rest pool' q (byte_of header 5) Hb Hok Hv) as (d3 & d4 & E3 & A3 & S3 & Hs).
  exists d1, d2, d3, d4. rewrite S1, S2. by split_and!.
Qed.
End device.

(** *** Witness: a keyboard *)

Definition keyboard_device_desc : list Z := [18; 1; 0; 2; 0; 0; 0; 8; 39; 6; 1; 0; 0; 0; 0; 0; 0; 1].
Definition keyboard_header : list Z := [9; 2; 34; 0; 1; 1; 0; 160; 50].
Definition keyboard_descs : list (list Z) := [[9; 4; 0; 0; 1; 3; 1; 1; 0]; [9; 33; 17; 1; 0; 1; 34; 63; 0]; [7; 5; 129; 3; 8; 0; 7]].

Definition sample_ring0 : TransferRing := MkTR (MkRing 0x1000 32 true 0) (replicate 128 0).
Definition sample_device : Device := set_ring0 sample_ring0 (new_Device 1 0x8000 0x10000).

Lemma sample_fresh : fresh sample_device sample_ring0.
Proof. split; [split; [done|]|done|done|done|done]. by split; cbn; lia. Qed.

Lemma device_enumerated_witness :
  exists d1 d2 d3 d4, StartInitialize sample_device = Ok (kSuccess, d1) /\
    serve keyboard_device_desc (concat (keyboard_header :: keyboard_descs)) 0x10000 4096 4096 16 d1 = Ok (kSuccess, d2) /\
    serve keyboard_device_desc (concat (keyboard_header :: keyboard_descs)) 0x10000 4096 4096 16 d2 = Ok (kSuccess, d3) /\
    serve keyboard_device_desc (concat (keyboard_header :: keyboard_descs)) 0x10000 4096 4096 16 d3 = Ok (kSuccess, d4) /\
    map ep_interrupt_in (drivers d4) = [3].
Proof.
  destruct (device_enumerated keyboard_device_desc (concat (keyboard_header :: keyboard_descs)) 0x10000 4096 4096 16
    sample_device sample_ring0 keyboard_header keyboard_descs Keyboard [9; 4; 0; 0; 1; 3; 1; 1; 0]
    [[9; 33; 17; 1; 0; 1; 34; 63; 0]; [7; 5; 129; 3; 8; 0; 7]] 0x11000 0x10000)
    as (d1 & d2 & d3 & d4 & E1 & _ & E2 & _ & E3 & _ & E4 & [_ _ Hd _]).
  - exact sample_fresh.
  - split; [cbn; lia|done].
  - done.
  - split; [split; [split; [cbn; lia|split; [done|repeat constructor; unfold is_byte; lia]]|split; [done|cbn; lia]]| |cbn; lia].
    repeat constructor; unfold is_byte; cbn; try lia; try done.
  - done.
  - split; [apply (proj1 (Nat.leb_le _ _)); by vm_compute|by vm_compute].
  - by vm_compute.
  - exists d1, d2, d3, d4. split; [exact E1|]. split; [exact E2|]. split; [exact E3|]. split; [exact E4|]. rewrite Hd. by vm_compute.
Defined.
