(* ===== verification/Keyboard.v ===== *)
(** * Keys and movements on their way to the GUI (kernel/keyboard.cpp,
    kernel/mouse.cpp)

    What the observers of the class drivers send to the GUI server; and that the
    reports of a keyboard, however they come, are told as key presses and
    releases that are never lost and never repeated. *)

From stdpp Require Import base list numbers option gmap strings.
From Stdlib Require Import ZArith Lia.
From S2P Require Import Prelude Bytes Message Task UsbMemory UsbRing BitField UsbTrb UsbDevice UsbTransfer.

Local Open Scope Z_scope.

(** ** Characters *)

Definition zeros (n : nat) : list Z := replicate n 0.

(** The map of the keys, row by row.
    [src/kernel/keyboard.cpp:10-29] [keycode_map] *)
Definition keycode_map : list Z :=
  [0; 0; 0; 0; 97; 98; 99; 100;
   101; 102; 103; 104; 105; 106; 107; 108;
   109; 110; 111; 112; 113; 114; 115; 116;
   117; 118; 119; 120; 121; 122; 49; 50;
   51; 52; 53; 54; 55; 56; 57; 48;
   10; 8; 8; 9; 32; 45; 61; 91;
   93; 92; 35; 59; 39; 96; 44; 46;
   47] ++ zeros 27 ++
  [47; 42; 45; 43;
   10; 49; 50; 51; 52; 53; 54; 55;
   56; 57; 48; 46; 92; 0; 0; 61] ++ zeros 33 ++ [92] ++ zeros 118.

(** [src/kernel/keyboard.cpp:31-50] [keycode_map_shifted] *)
Definition keycode_map_shifted : list Z :=
  [0; 0; 0; 0; 65; 66; 67; 68;
   69; 70; 71; 72; 73; 74; 75; 76;
   77; 78; 79; 80; 81; 82; 83; 84;
   85; 86; 87; 88; 89; 90; 33; 64;
   35; 36; 37; 94; 38; 42; 40; 41;
   10; 8; 8; 9; 32; 95; 43; 123;
   125; 124; 126; 58; 34; 126; 60; 62;
   63] ++ zeros 27 ++
  [47; 42; 45; 43;
   10; 49; 50; 51; 52; 53; 54; 55;
   56; 57; 48; 46; 92; 0; 0; 61] ++ zeros 33 ++ [124] ++ zeros 118.

(** [src/kernel/keyboard.hpp:13-17] [kLShiftBitMask] *)
Definition kLShiftBitMask : Z := 2.
Definition kRShiftBitMask : Z := 32.

(** [src/kernel/keyboard.cpp:57-61] [InitializeKeyboard] *)
Definition ascii_of (modifier keycode : Z) : Z :=
  default 0 ((if decide (Z.land modifier (Z.lor kLShiftBitMask kRShiftBitMask) <> 0) then keycode_map_shifted else keycode_map) !! Z.to_nat keycode).

(** ** Messages *)

(** [src/kernel/keyboard.cpp:63-67] [InitializeKeyboard] *)
Definition key_message (modifier keycode : Z) (press : bool) : Message :=
  setF keyboard_press (if press then 1 else 0) (setF keyboard_ascii (ascii_of modifier keycode)
    (setF keyboard_keycode keycode (setF keyboard_modifier modifier (zero_message kKeyPush)))).

(** [src/kernel/mouse.cpp:9-17] [Mouse::OnInterrupt] *)
Definition mouse_message (buttons dx dy : Z) : Message :=
  setF mouse_move_buttons buttons (setF mouse_move_dy dy (setF mouse_move_dx dx (zero_message kMouseMove))).

(** A doorbell is no message.
    [src/kernel/keyboard.cpp:54-71] [InitializeKeyboard] *)
Definition message_of (a : action) : option Message :=
  match a with
  | KeyPush modifier keycode press => Some (key_message modifier keycode press)
  | MouseMove buttons dx dy => Some (mouse_message buttons dx dy)
  | Doorbell _ _ => None
  end.

Definition gui_name : list Z := [115; 101; 114; 118; 101; 114; 115; 47; 103; 117; 105].

(** The observer of an action.
    [src/kernel/keyboard.cpp:68-69] [InitializeKeyboard] *)
Definition observe (a : action) (tm : TaskManager) : option TaskManager :=
  match message_of a with
  | Some m => fst <$> SendMessage (FindTask_name gui_name tm) m tm
  | None => Some tm
  end.

(** What a driver did, in turn. *)
Fixpoint observe_all (l : list action) (tm : TaskManager) : option TaskManager :=
  match l with [] => Some tm | a :: l' => tm ← observe a tm; observe_all l' tm end.

(** *** Delivery *)

(** Sending changes no name. *)
Definition idents (tm : TaskManager) : list (Z * list Z) := map (fun t => (id t, name t)) (tasks tm).

Lemma idents_upd i g tm : (forall t, id (g t) = id t /\ name (g t) = name t) -> idents (upd_task i g tm) = idents tm.
Proof.
  intros Hg. unfold idents. cbn [tasks upd_task set_tasks]. induction (tasks tm) as [|t ts IH]; [done|]. cbn [alter_key map].
  destruct (Hg t) as [Hi Hn]. case_match; cbn [map]; [by rewrite Hi, Hn|by rewrite IH].
Qed.

Lemma SendMessage_idents i m tm tm' c : SendMessage i m tm = Some (tm', c) -> idents tm' = idents tm.
Proof.
  unfold SendMessage. destruct (find_task tm i) as [t|]; [|by intros [= <- _]]. unfold Task_SendMessage, Wakeup.
  set (f := fun t => set_msgs _ t). intros H. bind_in H. injection H as <- <-. bind_in E.
  assert (Hf : idents (upd_task i f tm) = idents tm) by by apply idents_upd.
  case_match.
  - unfold ChangeLevelRunning in E. bind_in E. by injection E as <-.
  - bind_in E. injection E as <-. rewrite <- Hf.
    rewrite <- (idents_upd i (fun t => SetRunning true (SetLevel (level t1) t)) (upd_task i f tm)) by by intros [].
    by case_decide.
Qed.

Lemma FindTask_idents n tm tm' : idents tm' = idents tm -> FindTask_name n tm' = FindTask_name n tm.
Proof.
  unfold idents, FindTask_name. generalize (tasks tm) as l, (tasks tm') as l'. intros l l'. revert l.
  induction l' as [|t' l' IH]; intros [|t l] E; try done. cbn in E. injection E as Hi Hn E. cbn. rewrite Hn.
  case_bool_decide; [done|by apply IH].
Qed.

(** Everything that was noticed is in the mailbox of the GUI, in its order. *)
Lemma observe_all_mail l : forall tm t,
  sched_ok tm -> find_task tm (FindTask_name gui_name tm) = Some t ->
  exists tm' t', observe_all l tm = Some tm' /\ sched_ok tm' /\ FindTask_name gui_name tm' = FindTask_name gui_name tm /\
    find_task tm' (FindTask_name gui_name tm) = Some t' /\ msgs t' = msgs t ++ omap message_of l /\
    forall j, j <> FindTask_name gui_name tm -> find_task tm' j = find_task tm j.
Proof.
  induction l as [|a l IH]; intros tm t H Ht; [by exists tm, t; rewrite app_nil_r|].
  cbn [observe_all omap list_omap]. unfold observe. destruct (message_of a) as [m|]; [|by apply IH].
  unfold SendMessage at 1. rewrite Ht. destruct (Task_SendMessage_ok _ m t tm H Ht) as (tm1 & E & H1 & _ & Ho).
  rewrite E. cbn [mbind option_bind fmap option_map fst].
  assert (Hid : idents tm1 = idents tm).
  { apply (SendMessage_idents (FindTask_name gui_name tm) m tm tm1 kSuccess). unfold SendMessage. rewrite Ht, E. done. }
  pose proof (FindTask_idents gui_name _ _ Hid) as Hg. destruct (IH tm1 (SetRunning true (set_msgs (msgs t ++ [m]) t)) H1) as (tm2 & t2 & E2 & H2 & Hg2 & Ht2 & Hm2 & Ho2).
  - rewrite Hg, (Ho _), decide_True, Ht by done. done.
  - exists tm2, t2. rewrite Hg in *. split; [done|]. split; [done|]. split; [done|]. split; [done|]. split.
    + rewrite Hm2. cbn. by rewrite <- app_assoc.
    + intros j Hj. rewrite Ho2, (Ho j) by done. by rewrite decide_False.
Qed.

(** ** Keys that are held *)

(** The keys of a report; 0 is no key. *)
Definition held (b : list Z) : gset Z := list_to_set (filter (fun k => k <> 0) (keys b)).

(** Events that follow each other: a key that is pressed was up, a key that is
    released was down. *)
Definition key_step (s : gset Z) (a : action) : option (gset Z) :=
  match a with
  | KeyPush _ k true => if decide (k ∈ s) then None else Some ({[k]} ∪ s)
  | KeyPush _ k false => if decide (k ∈ s) then Some (s ∖ {[k]}) else None
  | _ => Some s
  end.
Fixpoint replay (l : list action) (s : gset Z) : option (gset Z) :=
  match l with [] => Some s | a :: l' => s ← key_step s a; replay l' s end.

Lemma replay_app l1 l2 : forall s, replay (l1 ++ l2) s = (s ← replay l1 s; replay l2 s).
Proof. induction l1 as [|a l1 IH]; intros s; [done|]. cbn. destruct (key_step s a); [apply IH|done]. Qed.

Lemma elem_of_held b k : k ∈ held b <-> k <> 0 /\ down b k = true.
Proof. unfold held, down. by rewrite elem_of_list_to_set, list_elem_of_filter, bool_decide_eq_true. Qed.

Lemma bytes_down b k : bytes b -> down b k = true -> 0 <= k < 256.
Proof.
  unfold down, keys. rewrite bool_decide_eq_true. intros Hb Hk. apply list_elem_of_In in Hk.
  assert (Hb' : bytes (take 6 (drop 2 b))) by by apply Forall_take, Forall_drop.
  apply list_elem_of_In in Hk. exact (proj1 (list.Forall_forall _ _) Hb' k Hk).
Qed.

(** The events of some keys turn the keys held before into those held now. *)
Lemma replay_keys m prev cur ks : forall s,
  NoDup ks -> (forall k, k ∈ ks -> k ∈ s <-> down prev k = true) ->
  exists s', replay (omap (fun key => if xorb (down prev key) (down cur key) then Some (KeyPush m key (down cur key)) else None) ks) s = Some s' /\
    forall x, x ∈ s' <-> if decide (x ∈ ks) then down cur x = true else x ∈ s.
Proof.
  induction ks as [|k ks IH]; intros s Hnd Hs; [by exists s; split; [|intros x; rewrite decide_False by apply not_elem_of_nil]|].
  apply NoDup_cons in Hnd as [Hk Hnd]. cbn [omap list_omap].
  assert (Hk' : k ∈ s <-> down prev k = true) by (apply Hs; by left).
  assert (Hstep : exists s1, (forall rest, replay (match (if xorb (down prev k) (down cur k) then Some (KeyPush m k (down cur k)) else None) with
      Some a => a :: rest | None => rest end) s = replay rest s1) /\ forall x, x ∈ s1 <-> if decide (x = k) then down cur k = true else x ∈ s).
  { destruct (down prev k) eqn:Ep, (down cur k) eqn:Ec; cbn [xorb].
    - exists s. split; [done|]. intros x. case_decide; [subst; naive_solver|done].
    - exists (s ∖ {[k]}). split; [intros rest; cbn [replay key_step]; rewrite decide_True by (by apply Hk'); done|].
      intros x. case_decide; [subst; set_solver|set_solver].
    - exists ({[k]} ∪ s). split; [intros rest; cbn [replay key_step]; rewrite decide_False by (intros H; by apply Hk' in H); done|].
      intros x. case_decide; [subst; set_solver|set_solver].
    - exists s. split; [done|]. intros x. case_decide; [subst; naive_solver|done]. }
  destruct Hstep as (s1 & E1 & Hs1). destruct (IH s1 Hnd) as (s2 & E2 & Hs2).
  { intros x Hx. rewrite Hs1. rewrite decide_False by (intros ->; done). apply Hs. by right. }
  exists s2. split; [etransitivity; [apply E1|exact E2]|]. intros x. rewrite Hs2.
  destruct (decide (x ∈ ks)) as [Hin|Hin]; [rewrite decide_True by (by right); done|].
  rewrite Hs1. destruct (decide (x = k)) as [->|Hne]; [by rewrite decide_True by (by left)|].
  rewrite decide_False; [done|]. intros [?|?]%elem_of_cons; done.
Qed.

Lemma key_events_replay m prev cur : bytes prev -> bytes cur -> replay (key_events m prev cur) (held prev) = Some (held cur).
Proof.
  intros Hp Hc. unfold key_events. destruct (replay_keys m prev cur (seqZ 1 255) (held prev)) as (s' & E & Hs').
  - apply NoDup_seqZ.
  - intros k Hk. apply elem_of_seqZ in Hk. rewrite elem_of_held. split; [tauto|split; [lia|done]].
  - etransitivity; [exact E|]. f_equal. apply set_eq. intros x. rewrite Hs', (elem_of_held cur). destruct (decide (x ∈ seqZ 1 255)) as [Hx|Hx].
    + apply elem_of_seqZ in Hx. split; [split; [lia|done]|tauto].
    + rewrite elem_of_held. rewrite elem_of_seqZ in Hx. split; intros [Hx0 Hd]; apply bytes_down in Hd; (done || lia).
Qed.

(** ** A keyboard that is served *)

(** Rings in different memory. *)
Definition apart (t t' : TransferRing) : Prop :=
  buf (tr t) + 16 * buf_size (tr t) <= buf (tr t') \/ buf (tr t') + 16 * buf_size (tr t') <= buf (tr t).

Lemma trb_in_range p t x : trb_in p t = Some x -> buf (tr t) <= p < buf (tr t) + 16 * buf_size (tr t).
Proof. unfold trb_in. case_decide; [intros _; lia|done]. Qed.

Lemma trb_in_apart p t t' x : trb_in p t = Some x -> apart t t' -> trb_in p t' = None.
Proof. intros H%trb_in_range Ha. unfold trb_in. rewrite decide_False; [done|]. unfold apart in Ha. lia. Qed.

Lemma trb_at_lookup rings : forall i t p x,
  rings !! i = Some (Some t) -> trb_in p t = Some x -> (forall j t', j <> i -> rings !! j = Some (Some t') -> apart t t') -> trb_at p rings = Some x.
Proof.
  induction rings as [|o rings IH]; intros i t p x Hi Hx Ha; [done|]. destruct i as [|i]; cbn in Hi.
  - injection Hi as ->. cbn. by rewrite Hx.
  - assert (Hrest : trb_at p rings = Some x) by (eapply IH; [exact Hi|done|]; intros j t' Hj Ht; by apply (Ha (S j) t'); [lia|]).
    destruct o as [t'|]; [|done]. cbn. by rewrite (trb_in_apart _ _ _ _ Hx (Ha 0%nat t' ltac:(done) eq_refl)).
Qed.

(** The ring of an endpoint, apart from all others. *)
Record endpoint_ring (d : Device) (ep : Z) (t : TransferRing) : Prop := {
  er_ring : 1 <= ep /\ transfer_rings d !! Z.to_nat (ep - 1) = Some (Some t) /\ tring_ok t;
  er_apart : forall j t', j <> Z.to_nat (ep - 1) -> transfer_rings d !! j = Some (Some t') -> apart t t';
}.

(** The driver [w] of the endpoint serves a keyboard, its last two reports are
    the same, and the block at [p] asks for the next one. *)
Record keyboard (d : Device) (w : nat) (ep p : Z) (h : HIDDriver) (t : TransferRing) : Prop := {
  kb_driver : drivers d !! w = Some h /\ kind h = Keyboard /\ ep_interrupt_in h = ep /\ in_packet_size h = 8;
  kb_buf : previous_buf h = hid_buf h /\ length (hid_buf h) = 1024%nat /\ bytes (hid_buf h) /\ 0 <= hid_addr h < 2 ^ 64;
  kb_table : ep < 32 /\ IsIn ep = true /\ getZ (class_drivers (usb d)) (Number ep) = Some (Some w);
  kb_ring : endpoint_ring d ep t;
  kb_asked : exists x, trb_in p t = Some x /\ trb_type (d3 x) = Type_Normal /\ pointer x = hid_addr h /\ trb_transfer_length x = 8;
}.

(** The controller stores a report and tells of it. *)
Definition receive (addr : Z) (r : list Z) (d : Device) : Device :=
  set_drivers (map (fun h => if decide (hid_addr h = addr) then set_hid_buf (r ++ drop (length r) (hid_buf h)) h else h) (drivers d)) d.
Definition interrupt_event (p residual ep slot : Z) : TRB :=
  trb (low p) (high p) [(24, residual); (8, if decide (residual = 0) then 1 else 13)]
    [(1, 0); (1, 0); (1, 0); (7, 0); (6, Type_TransferEvent); (5, ep); (3, 0); (8, slot)].

(** The next block of the ring of an endpoint. *)
Definition next_block (ep : Z) (d : Device) : Z :=
  match transfer_rings d !! Z.to_nat (ep - 1) with Some (Some t) => buf (tr t) + 16 * write_index (tr t) | _ => 0 end.

Section reports.
Context (memory_pool sizeof_keyboard sizeof_mouse hid_buf_offset : Z).
#[local] Abbreviation OnTransferEventReceived := (OnTransferEventReceived memory_pool sizeof_keyboard sizeof_mouse hid_buf_offset).

Definition report (ep : Z) (r : list Z) (p : Z) (d : Device) : run :=
  x ← defined (trb_at p (transfer_rings d));
  OnTransferEventReceived (interrupt_event p (trb_transfer_length x - Z.of_nat (length r)) ep (slot_id d)) (receive (pointer x) r d).

(** Reports one after the other, each to the block the driver asked with. *)
Fixpoint type_reports (ep : Z) (rs : list (list Z)) (p : Z) (d : Device) : outcome (Z * Device) :=
  match rs with
  | [] => Ok (p, d)
  | r :: rs' => let p' := next_block ep d in '(_, d) ← report ep r p d; type_reports ep rs' p' d
  end.

(** A report as the standard has it, and what the buffer holds then. *)
Definition report_ok (r : list Z) : Prop := (length r <= 8)%nat /\ bytes r.
Definition after (r b : list Z) : list Z := r ++ drop (length r) b.

(** *** One report *)

Lemma normal_fields p len :
  0 <= p < 2 ^ 64 -> 0 <= len < 2 ^ 17 ->
  trb_type (d3 (NormalTRB p len)) = Type_Normal /\ pointer (NormalTRB p len) = p /\ trb_transfer_length (NormalTRB p len) = len.
Proof.
  intros Hp Hl. split; [done|]. split; [by apply pointer_pair|].
  etransitivity; [exact (bits_at_pack [] 17 len [(5, 0); (10, 0)] eq_refl)|by apply Z.mod_small].
Qed.

Lemma interrupt_event_fields p residual ep slot :
  0 <= p < 2 ^ 64 -> 0 <= residual < 2 ^ 24 -> 0 <= ep < 32 ->
  let e := interrupt_event p residual ep slot in
  pointer e = p /\ te_residual e = residual /\ te_endpoint_id e = ep /\ (te_completion_code e = 1 \/ te_completion_code e = 13).
Proof.
  intros Hp Hr He e. split; [by apply pointer_pair|]. split; [|split].
  - etransitivity; [exact (bits_at_pack [] 24 residual [(8, if decide (residual = 0) then 1 else 13)] eq_refl)|by apply Z.mod_small].
  - etransitivity; [exact (bits_at_pack [(1, 0); (1, 0); (1, 0); (7, 0); (6, Type_TransferEvent)] 5 ep [(3, 0); (8, slot)] eq_refl)|by apply Z.mod_small].
  - assert (te_completion_code e = if decide (residual = 0) then 1 else 13) as ->; [|case_decide; auto].
    etransitivity; [exact (bits_at_pack [(24, residual)] 8 (if decide (residual = 0) then 1 else 13) [] eq_refl)|]. apply Z.mod_small. case_decide; lia.
Qed.

(** The driver asks for the next report. *)
Lemma InterruptIn_spec ep addr d t :
  endpoint_ring d ep t -> 0 <= addr < 2 ^ 64 ->
  exists t', InterruptIn ep addr 8 d = Ok (kSuccess, act (Doorbell (slot_id d) ep) (set_rings (<[Z.to_nat (ep - 1) := Some t']> (transfer_rings d)) d)) /\
    endpoint_ring (set_rings (<[Z.to_nat (ep - 1) := Some t']> (transfer_rings d)) d) ep t' /\
    exists x, trb_in (next_block ep d) t' = Some x /\ trb_type (d3 x) = Type_Normal /\ pointer x = addr /\ trb_transfer_length x = 8.
Proof.
  intros [(Hep & Hr & Ht) Ha] Haddr. destruct (push_to_spec (NormalTRB addr 8) t Ht) as (t' & E & Ht' & Hb & Hs & Hi & Hblk & _).
  assert (Hl : (Z.to_nat (ep - 1) < length (transfer_rings d))%nat) by (by eapply lookup_lt_Some).
  assert (Hg : getZ (transfer_rings d) (ep - 1) = Some (Some t)) by (unfold getZ; by rewrite decide_True by lia).
  exists t'. split; [|split].
  - unfold InterruptIn, ring_push. rewrite Hg. cbn [defined mbind outcome_bind]. rewrite E. cbn [mbind option_bind].
    rewrite setZ_Some by lia. done.
  - split; cbn [transfer_rings set_rings]; [split; [done|]; split; [by rewrite list_lookup_insert_eq|done]|].
    intros j t2 Hj Ht2. rewrite list_lookup_insert_ne in Ht2 by done. specialize (Ha j t2 Hj Ht2). unfold apart in *. by rewrite Hb, Hs.
  - unfold next_block. rewrite Hr, <- Hb. pose proof Ht as [_ ? _ _]. rewrite trb_in_block, Hblk by (rewrite Hs; lia).
    eexists. split; [reflexivity|]. destruct (tagged_fields (NormalTRB addr 8) (cycle_bit (tr t))) as (-> & -> & _ & ->).
    by apply normal_fields.
Qed.

Lemma fold_act l : forall d, fold_left (fun d a => act a d) l d =
  MkDevice (usb d) (slot_id d) (buf_addr d) (transfer_rings d) (setup_stage_map d) (drivers d) (pool d) (acts d ++ l).
Proof. induction l as [|a l IH]; intros d; cbn; [rewrite app_nil_r; by destruct d|]. rewrite IH. cbn. by rewrite <- app_assoc. Qed.

(** A report is told as the keys that changed, and the next one is asked for. *)
Lemma report_step d w ep p h t r :
  keyboard d w ep p h t -> report_ok r ->
  exists d' h' t' m, report ep r p d = Ok (kSuccess, d') /\ keyboard d' w ep (next_block ep d) h' t' /\
    hid_buf h' = after r (hid_buf h) /\ slot_id d' = slot_id d /\
    acts d' = acts d ++ key_events m (hid_buf h) (hid_buf h') ++ [Doorbell (slot_id d) ep].
Proof.
  intros [(Hw & Hk & Hin & Hsize) (Hprev & Hlb & Hbb & Haddr) (Hep & HIn & Htab) Hring (x & Hx & Hty & Hptr & Hlen)] [Hlr Hbr].
  pose proof Hring as [(Hep1 & Hr & Ht) Hapart]. set (b' := after r (hid_buf h)).
  assert (Hat : trb_at p (transfer_rings d) = Some x) by by eapply trb_at_lookup.
  assert (Hp : 0 <= p < 2 ^ 64) by (apply trb_in_range in Hx; destruct Ht as [_ _ _ ?]; lia).
  unfold report. rewrite Hat. cbn [defined mbind outcome_bind]. rewrite Hlen, Hptr.
  destruct (interrupt_event_fields p (8 - Z.of_nat (length r)) ep (slot_id d)) as (F1 & F2 & F3 & F4); [done|lia|lia|].
  unfold UsbDevice.OnTransferEventReceived. rewrite decide_False by lia. rewrite F1, F2, F3. cbn [transfer_rings receive set_drivers]. rewrite Hat.
  cbn [defined mbind outcome_bind]. rewrite decide_True by done. rewrite Hlen. replace (8 - (8 - Z.of_nat (length r))) with (Z.of_nat (length r)) by lia.
  unfold OnInterruptCompleted. change (class_drivers (usb (receive (hid_addr h) r d))) with (class_drivers (usb d)). rewrite Htab. cbn [defined mbind outcome_bind].
  unfold HID_OnInterruptCompleted.
  set (h1 := set_hid_buf b' h).
  assert (Hw1 : drivers (receive (hid_addr h) r d) !! w = Some h1).
  { cbn [drivers receive set_drivers]. rewrite list_lookup_fmap, Hw. cbn. by rewrite decide_True. }
  rewrite Hw1. cbn [defined mbind outcome_bind]. rewrite HIn, fold_act. unfold OnDataReceived. cbn [kind h1 set_hid_buf hid_buf previous_buf]. rewrite Hk.
  rewrite decide_False by (unfold kBufferSize; lia). rewrite Nat2Z.id.
  set (m := default 0 (b' !! 0%nat)).
  assert (Hcopy : take (length r) b' ++ drop (length r) (previous_buf h) = b').
  { unfold b', after. rewrite take_app_length. by rewrite Hprev. }
  rewrite Hcopy. cbn [ep_interrupt_in hid_addr in_packet_size h1 set_hid_buf]. rewrite Hin, Hsize. set (d1 := on_driver w (set_previous b') _).
  assert (Hring1 : endpoint_ring d1 ep t) by done.
  destruct (InterruptIn_spec ep (hid_addr h) d1 t Hring1 Haddr) as (t' & E & Hr' & Hasked).
  eexists _, (set_previous b' h1), t', m. split; [exact E|].
  assert (Hb' : length b' = 1024%nat) by (unfold b', after; rewrite length_app, length_drop; lia).
  assert (Hbytes : bytes b') by (apply list.Forall_app; split; [done|by apply Forall_drop]).
  split; [|split; [done|split; [done|]]].
  - split; [split; [|done]|done|done|by destruct Hr'; split|exact Hasked].
    cbn [drivers act set_rings d1 on_driver set_drivers]. rewrite list_lookup_alter_eq. cbn [drivers]. by rewrite Hw1.
  - cbn [acts act set_rings d1 on_driver set_drivers receive]. rewrite <- app_assoc. by rewrite Hprev.
Qed.

(** ** All reports *)

Definition is_doorbell (a : action) : bool := match a with Doorbell _ _ => true | _ => false end.

Lemma key_events_no_doorbell m prev cur : List.filter is_doorbell (key_events m prev cur) = [].
Proof.
  unfold key_events. induction (seqZ 1 255) as [|k ks IH]; [done|]. cbn [omap list_omap].
  by destruct (xorb (down prev k) (down cur k)).
Qed.

Lemma reports_run ep w rs : forall d p h t,
  keyboard d w ep p h t -> Forall report_ok rs ->
  exists d' p' h' t' new, type_reports ep rs p d = Ok (p', d') /\ keyboard d' w ep p' h' t' /\
    hid_buf h' = fold_left (fun b r => after r b) rs (hid_buf h) /\ slot_id d' = slot_id d /\ acts d' = acts d ++ new /\
    replay new (held (hid_buf h)) = Some (held (hid_buf h')) /\
    List.filter is_doorbell new = replicate (length rs) (Doorbell (slot_id d) ep).
Proof.
  induction rs as [|r rs IH]; intros d p h t Hk HF; [exists d, p, h, t, []; rewrite app_nil_r; by split_and!|].
  apply Forall_cons_1 in HF as [Hr HF]. destruct (report_step d w ep p h t r Hk Hr) as (d1 & h1 & t1 & m & E & Hk1 & Hb1 & Hs1 & Ha1).
  destruct (IH d1 (next_block ep d) h1 t1 Hk1 HF) as (d2 & p2 & h2 & t2 & new & E2 & Hk2 & Hb2 & Hs2 & Ha2 & Hrep & Hbell).
  exists d2, p2, h2, t2, ((key_events m (hid_buf h) (hid_buf h1) ++ [Doorbell (slot_id d) ep]) ++ new).
  cbn [type_reports]. rewrite E. cbn [mbind outcome_bind]. split; [exact E2|]. split; [exact Hk2|].
  split; [by rewrite Hb2, Hb1|]. split; [by rewrite Hs2|]. split; [by rewrite Ha2, Ha1, <- !app_assoc|]. split.
  - destruct (kb_buf _ _ _ _ _ _ Hk) as (_ & _ & Hb0 & _), (kb_buf _ _ _ _ _ _ Hk1) as (_ & _ & Hb01 & _).
    rewrite !replay_app, key_events_replay by done. exact Hrep.
  - rewrite !List.filter_app, key_events_no_doorbell, Hbell, Hs1. done.
Qed.

(** C33. Keys are neither lost nor invented: for any sequence of reports of a
    keyboard, short ones too, the driver tells presses of keys that were up and
    releases of keys that were down, in an order that takes the keys held before
    to the keys held now; it asks for every next report exactly once; and the GUI
    server finds the message of every event in its mailbox, in that order. *)
Theorem keyboard_tracks ep w rs d p h t tm gui :
  keyboard d w ep p h t -> Forall report_ok rs -> sched_ok tm -> find_task tm (FindTask_name gui_name tm) = Some gui ->
  exists d' p' h' t' new, type_reports ep rs p d = Ok (p', d') /\ keyboard d' w ep p' h' t' /\ acts d' = acts d ++ new /\
    hid_buf h' = fold_left (fun b r => after r b) rs (hid_buf h) /\
    replay new (held (hid_buf h)) = Some (held (hid_buf h')) /\
    List.filter is_doorbell new = replicate (length rs) (Doorbell (slot_id d) ep) /\
    exists tm' gui', observe_all new tm = Some tm' /\ sched_ok tm' /\
      find_task tm' (FindTask_name gui_name tm) = Some gui' /\ msgs gui' = msgs gui ++ omap message_of new /\
      forall j, j <> FindTask_name gui_name tm -> find_task tm' j = find_task tm j.
Proof.
  intros Hk HF Htm Hgui. destruct (reports_run ep w rs d p h t Hk HF) as (d' & p' & h' & t' & new & E & Hk' & Hb & _ & Ha & Hrep & Hbell).
  destruct (observe_all_mail new tm gui Htm Hgui) as (tm' & gui' & E' & Htm' & _ & Hg' & Hm & Ho).
  exists d', p', h', t', new. split_and!; try done. by exists tm', gui'.
Qed.
End reports.

(** *** Witness: two keys, the first released while the second is held *)

Definition sample_hid : HIDDriver := MkHID Keyboard 0 8 3 0 2 (replicate 1024 0) (replicate 1024 0) 0x20000.
Definition asked_ring : TransferRing :=
  default (MkTR (MkRing 0x2000 32 true 0) (replicate 128 0)) (snd <$> push_to (NormalTRB 0x20000 8) (MkTR (MkRing 0x2000 32 true 0) (replicate 128 0))).
Definition sample_keyboard : Device :=
  MkDevice (set_class_drivers (<[1%nat := Some 0%nat]> (replicate 16 None)) (usb (new_Device 1 0x8000 0x10000))) 1 0x8000
    (<[2%nat := Some asked_ring]> (replicate 31 None)) (replicate 16 None) [sample_hid] 0x10000 [].
Definition sample_reports : list (list Z) := [[2; 0; 4; 0; 0; 0; 0; 0]; [2; 0; 4; 5; 0; 0; 0; 0]; [0; 0; 5; 0]].
Definition sample_gui : TaskManager := upd_task 3 (SetName gui_name) sample_tm.

Lemma sample_keyboard_ok : keyboard sample_keyboard 0 3 0x2000 sample_hid asked_ring.
Proof.
  split.
  - done.
  - split; [done|]. split; [done|]. split; [apply Forall_replicate; unfold is_byte; lia|change (hid_addr sample_hid) with 0x20000; lia].
  - done.
  - split; [split; [done|split; [done|]]|].
    + split; [by vm_compute|by vm_compute|by vm_compute|split; [done|by vm_compute]].
    + intros j t' Hj Ht. do 31 (destruct j as [|j]; [done|]). done.
  - eexists. split; [vm_compute; reflexivity|]. by vm_compute.
Qed.

Lemma sample_mailbox_ok : sched_ok sample_gui.
Proof. apply upd_ok; [by split; intros []|apply reachable_ok, sample_tm_reachable]. Qed.

Lemma keyboard_tracks_witness :
  exists d' p' new tm' gui', type_reports 0x10000 4096 4096 16 3 sample_reports 0x2000 sample_keyboard = Ok (p', d') /\
    replay new ∅ = Some (held [0; 0; 5; 0; 0; 0; 0; 0]) /\ observe_all new sample_gui = Some tm' /\ find_task tm' 3 = Some gui' /\
    map (getU keyboard_ascii) (msgs gui') = [65; 66; 97].
Proof.
  destruct (keyboard_tracks 0x10000 4096 4096 16 3 0 sample_reports sample_keyboard 0x2000 sample_hid asked_ring sample_gui
    (default (MakeTask 3) (find_task sample_gui 3)))
    as (d' & p' & h' & t' & new & E & _ & Ha & Hb & Hrep & _ & tm' & gui' & Eo & _ & Hg & Hm & _).
  - exact sample_keyboard_ok.
  - repeat constructor; unfold is_byte; cbn; lia.
  - exact sample_mailbox_ok.
  - by vm_compute.
  - exists d', p', new, tm', gui'. split; [exact E|]. split.
    + rewrite Hb in Hrep. exact Hrep.
    + split; [exact Eo|]. split; [exact Hg|]. rewrite Hm.
      assert (Hnew : new = [KeyPush 2 4 true; Doorbell 1 3; KeyPush 2 5 true; Doorbell 1 3; KeyPush 0 4 false; Doorbell 1 3]).
      { assert (Hc : acts <$> (match type_reports 0x10000 4096 4096 16 3 sample_reports 0x2000 sample_keyboard with Ok (_, d) => Some d | _ => None end) =
          Some [KeyPush 2 4 true; Doorbell 1 3; KeyPush 2 5 true; Doorbell 1 3; KeyPush 0 4 false; Doorbell 1 3]) by by vm_compute.
        rewrite E in Hc. injection Hc as Hc. rewrite <- Hc. exact (eq_sym Ha). }
      subst new. by vm_compute.
Defined.
