(* ===== verification/Xhci.v ===== *)
(** * The USB host controller (kernel/usb/xhci/xhci.cpp, port.cpp, devmgr.cpp)

    Events bring the ports of the root hub from phase to phase. Only one port at
    a time may be between its reset and its address, so the others wait. What
    the controller writes, its registers and the contexts of the devices, is an
    argument of the handlers. *)

From stdpp Require Import base list numbers option.
From Stdlib Require Import ZArith Lia.
From S2P Require Import Prelude Bytes UsbMemory UsbRing BitField UsbTrb UsbDevice.

Local Open Scope Z_scope.

(** ** Data *)

(** [src/kernel/usb/xhci/xhci.cpp:25-34] [ConfigPhase] *)
Inductive ConfigPhase :=
| kNotConnected | kWaitingAddressed | kResettingPort | kEnablingSlot | kAddressingDevice
| kInitializingDevice | kConfiguringEndpoints | kConfigured.
#[export] Instance ConfigPhase_eq_dec : EqDecision ConfigPhase.
Proof. solve_decision. Defined.

(** [src/kernel/usb/xhci/context.hpp:9-34] [SlotContext] *)
Record SlotContext := MkSlot { route_string : Z; speed : Z; context_entries : Z; root_hub_port_num : Z }.

(** [src/kernel/usb/xhci/context.hpp:36-70] [EndpointContext] *)
Record EndpointContext := MkEPC {
  ec_type : Z; ec_max_packet_size : Z; ec_max_burst_size : Z; ec_interval : Z; ec_max_primary_streams : Z; ec_mult : Z;
  ec_error_count : Z; ec_dequeue_cycle_state : Z; ec_dequeue_pointer : Z; ec_average_trb_length : Z }.
Definition zero_epc : EndpointContext := MkEPC 0 0 0 0 0 0 0 0 0 0.

(** [src/kernel/usb/xhci/context.hpp:90-103] [InputContext] *)
Record InputContext := MkInput { drop_flags : Z; add_flags : Z; in_slot : SlotContext; in_eps : list EndpointContext }.

(** A device of a slot with its contexts, the input context of the commands and
    the one the controller writes, and their addresses.
    [src/kernel/usb/xhci/device.hpp:54-57] [Device] *)
Record XDevice := MkXDevice {
  dev : Device;
  ctx : SlotContext;
  input_ctx : InputContext;
  ctx_addr : Z;
  input_addr : Z;
}.
Definition set_dev d x := MkXDevice d (ctx x) (input_ctx x) (ctx_addr x) (input_addr x).
Definition set_ctx c x := MkXDevice (dev x) c (input_ctx x) (ctx_addr x) (input_addr x).
Definition set_input i x := MkXDevice (dev x) (ctx x) i (ctx_addr x) (input_addr x).

(** What the driver writes to registers. *)
Inductive write := PORTSC (port value : Z) | CommandDoorbell.

(** [src/kernel/usb/xhci/xhci.hpp:33-33] [kDeviceSize] *)
Definition kDeviceSize : Z := 8.

(** The variables of the driver.
    [src/kernel/usb/xhci/xhci.cpp:41-46] [port_config_phase] *)
Record XHC := MkXHC {
  port_config_phase : list ConfigPhase;
  addressing_port : Z;
  devices : list (option XDevice);
  context_pointers : list Z;
  command_ring : TransferRing;
  alloc_ptr : Z;
  writes : list write;
}.
Definition set_phases l x := MkXHC l (addressing_port x) (devices x) (context_pointers x) (command_ring x) (alloc_ptr x) (writes x).
Definition set_addressing p x := MkXHC (port_config_phase x) p (devices x) (context_pointers x) (command_ring x) (alloc_ptr x) (writes x).
Definition set_devices l x := MkXHC (port_config_phase x) (addressing_port x) l (context_pointers x) (command_ring x) (alloc_ptr x) (writes x).
Definition set_pointers l x := MkXHC (port_config_phase x) (addressing_port x) (devices x) l (command_ring x) (alloc_ptr x) (writes x).
Definition set_commands r x := MkXHC (port_config_phase x) (addressing_port x) (devices x) (context_pointers x) r (alloc_ptr x) (writes x).
Definition set_alloc p x := MkXHC (port_config_phase x) (addressing_port x) (devices x) (context_pointers x) (command_ring x) p (writes x).
Definition wrote w x := MkXHC (port_config_phase x) (addressing_port x) (devices x) (context_pointers x) (command_ring x) (alloc_ptr x) (writes x ++ [w]).

(** An operation of the driver. *)
Abbreviation xrun := (outcome (Code * XHC)).

Definition phase_of (p : Z) (x : XHC) : ConfigPhase := default kNotConnected (getZ (port_config_phase x) p).
(** [port_config_phase[p] = c]. *)
Definition set_port_phase (p : Z) (c : ConfigPhase) (x : XHC) : XHC :=
  set_phases (default (port_config_phase x) (setZ (port_config_phase x) p c)) x.

(** ** Ports *)

(** The bits of PORTSC.
    [src/kernel/usb/xhci/registers.hpp:200-226] [PORTSC_Bitmap] *)
Definition current_connect_status (r : Z) : bool := Z.testbit r 0.
Definition port_enabled_disabled (r : Z) : bool := Z.testbit r 1.
Definition port_speed (r : Z) : Z := bits_at 10 4 r.
Definition port_reset_change (r : Z) : bool := Z.testbit r 21.

(** The loop that waits for the end of the reset is not modelled.
    [src/kernel/usb/xhci/port.cpp:31-38] [Port::Reset] *)
Definition Port_Reset (p r : Z) (x : XHC) : XHC := wrote (PORTSC p (Z.lor (Z.land r 0x0e00c3e0) 0x00020010)) x.

(** [src/kernel/usb/xhci/port.hpp:8-14] [CLEAR_STATUS_BIT] *)
Definition ClearPortResetChange (p r : Z) (x : XHC) : XHC := wrote (PORTSC p (Z.setbit (Z.land r 0x0e01c3e0) 21)) x.

(** ** Slots *)

(** [src/kernel/usb/xhci/devmgr.cpp:54-59] [DeviceManager::FindBySlot] *)
Definition FindBySlot (slot_id : Z) (x : XHC) : option XDevice :=
  if decide (slot_id > kDeviceSize) then None else d ← getZ (devices x) slot_id; d.

Definition put_device (slot_id : Z) (d : XDevice) (x : XHC) : XHC :=
  set_devices (default (devices x) (setZ (devices x) slot_id (Some d))) x.

(** An operation of the device of a slot. *)
Definition on_device {A} (slot_id : Z) (d : XDevice) (f : Device -> outcome (A * Device)) (x : XHC) : outcome (A * XHC) :=
  '(a, d') ← f (UsbDevice.set_pool (alloc_ptr x) (dev d));
  Ok (a, set_alloc (pool d') (put_device slot_id (set_dev d' d) x)).

(** A command: pushed, and the doorbell rung.
    [src/kernel/usb/xhci/xhci.cpp:127-129] [EnableSlot] *)
Definition command (d : TRB) (x : XHC) : option XHC :=
  '(_, r) ← push_to d (command_ring x); Some (wrote CommandDoorbell (set_commands r x)).

Section driver.
(** The memory pool, the sizes of the classes and where their members are. *)
Context (memory_pool sizeof_keyboard sizeof_mouse hid_buf_offset sizeof_device off_buf off_ctx off_input : Z).
(** The values of the PORTSC registers. *)
Context (portsc : Z -> Z).

Definition IsConnected (p : Z) : bool := current_connect_status (portsc p).

Definition new_XDevice (slot_id a pool : Z) : XDevice :=
  MkXDevice (new_Device slot_id (a + off_buf) pool) (MkSlot 0 0 0 0) (MkInput 0 0 (MkSlot 0 0 0 0) (replicate 31 zero_epc)) (a + off_ctx) (a + off_input).

(** [src/kernel/usb/xhci/devmgr.cpp:70-82] [DeviceManager::AllocDevice] *)
Definition AllocDevice (slot_id : Z) (x : XHC) : xrun :=
  if decide (slot_id > kDeviceSize) then Ok (kInvalidSlotID, x)
  else
    d ← defined (getZ (devices x) slot_id);
    match d with
    | Some _ => Ok (kAlreadyAllocated, x)
    | None =>
        let '(ptr, a) := AllocArray memory_pool sizeof_device 1 64 4096 (alloc_ptr x) in
        a ← defined a;
        Ok (kSuccess, set_alloc ptr (put_device slot_id (new_XDevice slot_id a ptr) x))
    end.

(** [src/kernel/usb/xhci/devmgr.cpp:84-92] [DeviceManager::LoadDCBAA] *)
Definition LoadDCBAA (slot_id : Z) (x : XHC) : xrun :=
  if decide (slot_id > kDeviceSize) then Ok (kInvalidSlotID, x)
  else
    d ← defined (getZ (devices x) slot_id); d ← defined d;
    l ← defined (setZ (context_pointers x) slot_id (ctx_addr d));
    Ok (kSuccess, set_pointers l x).

(** [src/kernel/usb/xhci/devmgr.cpp:94-99] [DeviceManager::Remove] *)
Definition Remove (slot_id : Z) (x : XHC) : option XHC :=
  l ← setZ (context_pointers x) slot_id 0; ds ← setZ (devices x) slot_id None; Some (set_devices ds (set_pointers l x)).

(** ** The phases of a port *)

(** [src/kernel/usb/xhci/xhci.cpp:91-113] [ResetPort] *)
Definition ResetPort (p : Z) (x : XHC) : Code * XHC :=
  if negb (IsConnected p) then (kSuccess, x)
  else if decide (addressing_port x <> 0) then (kSuccess, set_port_phase p kWaitingAddressed x)
  else if decide (phase_of p x <> kNotConnected /\ phase_of p x <> kWaitingAddressed) then (kInvalidPhase, x)
  else (kSuccess, Port_Reset p (portsc p) (set_port_phase p kResettingPort (set_addressing p x))).

(** [src/kernel/usb/xhci/xhci.cpp:115-132] [EnableSlot] *)
Definition EnableSlot (p : Z) (x : XHC) : xrun :=
  if port_enabled_disabled (portsc p) && port_reset_change (portsc p) then
    let x := set_port_phase p kEnablingSlot (ClearPortResetChange p (portsc p) x) in
    x ← defined (command EnableSlotCommandTRB x); Ok (kSuccess, x)
  else Ok (kSuccess, x).

(** [src/kernel/usb/xhci/xhci.cpp:55-64] [DetermineMaxPacketSizeForControlPipe] *)
Definition DetermineMaxPacketSizeForControlPipe (slot_speed : Z) : Z :=
  if decide (slot_speed = 4) then 512 else if decide (slot_speed = 3) then 64 else 8.

(** [src/kernel/usb/xhci/xhci.cpp:48-53] [InitializeSlotContext] *)
Definition InitializeSlotContext (p : Z) : SlotContext := MkSlot 0 (port_speed (portsc p)) 1 p.

(** [src/kernel/usb/xhci/xhci.cpp:77-89] [InitializeEP0Context] *)
Definition InitializeEP0Context (ring max_packet_size : Z) (c : EndpointContext) : EndpointContext :=
  MkEPC 4 max_packet_size 0 0 0 0 3 1 (Z.shiftr ring 4) (ec_average_trb_length c).

(** [src/kernel/usb/xhci/xhci.cpp:134-167] [AddressDevice] *)
Definition AddressDevice (p slot : Z) (x : XHC) : xrun :=
  '(_, x) ← AllocDevice slot x;
  match FindBySlot slot x with
  | None => Ok (kInvalidSlotID, x)
  | Some d =>
      '(t, x) ← on_device slot d (AllocTransferRing memory_pool 1 32) x;
      t ← defined t;
      d ← defined (FindBySlot slot x);
      let s := InitializeSlotContext p in
      eps ← defined (setZ (in_eps (input_ctx d)) 0
        (InitializeEP0Context (buf (tr t)) (DetermineMaxPacketSizeForControlPipe (speed s)) (default zero_epc (in_eps (input_ctx d) !! 0%nat))));
      let x := put_device slot (set_input (MkInput 0 3 s eps) d) x in
      '(_, x) ← LoadDCBAA slot x;
      let x := set_port_phase p kAddressingDevice x in
      x ← defined (command (AddressDeviceCommandTRB (input_addr d) slot) x);
      Ok (kSuccess, x)
  end.

(** The code of [StartInitialize] is not looked at.
    [src/kernel/usb/xhci/xhci.cpp:169-181] [InitializeDevice] *)
Definition InitializeDevice (p slot : Z) (x : XHC) : xrun :=
  match FindBySlot slot x with
  | None => Ok (kInvalidSlotID, x)
  | Some d =>
      let x := set_port_phase p kInitializingDevice x in
      '(_, x) ← on_device slot d StartInitialize x; Ok (kSuccess, x)
  end.

(** [src/kernel/usb/xhci/xhci.cpp:183-195] [CompleteConfiguration] *)
Definition CompleteConfiguration (p slot : Z) (x : XHC) : xrun :=
  match FindBySlot slot x with
  | None => Ok (kInvalidSlotID, x)
  | Some d =>
      '(_, x) ← on_device slot d OnEndpointsConfigured x;
      Ok (kSuccess, set_port_phase p kConfigured x)
  end.

(** ** The endpoints of a device *)

(** [src/kernel/usb/xhci/xhci.cpp:66-75] [MostSignificantBit] *)
Definition MostSignificantBit (v : Z) : Z := if decide (v = 0) then -1 else Z.log2 v.

(** [src/kernel/usb/xhci/xhci.cpp:463-471] [ConfigureEndpoints] *)
Definition convert_interval (s : Z) (t : EndpointType) (i : Z) : Z :=
  if decide (s = 1 \/ s = 2) then if decide (t = kIsochronous) then i + 2 else MostSignificantBit i + 3 else i - 1.

(** [src/kernel/usb/xhci/xhci.cpp:476-489] [ConfigureEndpoints] *)
Definition context_type (c : EndpointConfig) : Z :=
  match ep_type c with
  | kControl => 4
  | kIsochronous => if IsIn (ep_id c) then 5 else 1
  | kBulk => if IsIn (ep_id c) then 6 else 2
  | kInterrupt => if IsIn (ep_id c) then 7 else 3
  end.

(** A context for each endpoint, and its ring.
    [src/kernel/usb/xhci/xhci.cpp:473-501] [ConfigureEndpoints] *)
Fixpoint configure_endpoints (slot s : Z) (cs : list EndpointConfig) (x : XHC) : outcome XHC :=
  match cs with
  | [] => Ok x
  | c :: cs' =>
      d ← defined (FindBySlot slot x);
      '(t, x) ← on_device slot d (AllocTransferRing memory_pool (ep_id c) 32) x;
      t ← defined t;
      d ← defined (FindBySlot slot x);
      let i := input_ctx d in
      old ← defined (getZ (in_eps i) (ep_id c - 1));
      eps ← defined (setZ (in_eps i) (ep_id c - 1)
        (MkEPC (context_type c) (u16 (max_packet_size c)) (ec_max_burst_size old) (u8 (convert_interval s (ep_type c) (interval c))) 0 0 3 1
          (Z.shiftr (buf (tr t)) 4) 1));
      configure_endpoints slot s cs'
        (put_device slot (set_input (MkInput (drop_flags i) (Z.lor (add_flags i) (Z.shiftl 1 (ep_id c))) (in_slot i) eps) d) x)
  end.

(** [src/kernel/usb/xhci/xhci.cpp:447-510] [ConfigureEndpoints] *)
Definition ConfigureEndpoints (slot : Z) (x : XHC) : xrun :=
  d ← defined (FindBySlot slot x);
  let p := root_hub_port_num (ctx d) in
  let s := MkSlot (route_string (ctx d)) (speed (ctx d)) 31 p in
  let x := put_device slot (set_input (MkInput 0 1 s (in_eps (input_ctx d))) d) x in
  let v := port_speed (portsc p) in
  if decide (v = 0 \/ v > 5) then Ok (kUnknownXHCISpeedID, x)
  else
    x ← configure_endpoints slot v (take (Z.to_nat (num_ep_configs (usb (dev d)))) (ep_configs (usb (dev d)))) x;
    let x := set_port_phase p kConfiguringEndpoints x in
    x ← defined (command (ConfigureEndpointCommandTRB (input_addr d) (slot_id (dev d))) x);
    Ok (kSuccess, x).

(** ** Events *)

(** [src/kernel/usb/xhci/xhci.cpp:197-210] [OnEvent(PortStatusChangeEventTRB)] *)
Definition OnPortStatusChange (e : TRB) (x : XHC) : xrun :=
  let p := ps_port_id e in
  match phase_of p x with
  | kNotConnected => Ok (ResetPort p x)
  | kResettingPort => EnableSlot p x
  | _ => Ok (kInvalidPhase, x)
  end.

(** [src/kernel/usb/xhci/xhci.cpp:212-228] [OnEvent(TransferEventTRB)] *)
Definition OnTransfer (e : TRB) (x : XHC) : xrun :=
  let slot := te_slot_id e in
  match FindBySlot slot x with
  | None => Ok (kInvalidSlotID, x)
  | Some d =>
      '(err, x) ← on_device slot d (OnTransferEventReceived memory_pool sizeof_keyboard sizeof_mouse hid_buf_offset e) x;
      if decide (err <> kSuccess) then Ok (err, x)
      else
        d ← defined (FindBySlot slot x);
        if is_initialized (usb (dev d)) && bool_decide (phase_of (root_hub_port_num (ctx d)) x = kInitializingDevice)
        then ConfigureEndpoints slot x else Ok (kSuccess, x)
  end.

(** The first port that waits.
    [src/kernel/usb/xhci/xhci.cpp:258-266] [OnEvent(CommandCompletionEventTRB)] *)
Fixpoint first_waiting (l : list ConfigPhase) (i : Z) : option Z :=
  match l with
  | [] => None
  | c :: l' => if decide (c = kWaitingAddressed) then Some i else first_waiting l' (i + 1)
  end.

(** [src/kernel/usb/xhci/xhci.cpp:230-284] [OnEvent(CommandCompletionEventTRB)] *)
Definition OnCommandCompletion (e : TRB) (x : XHC) : xrun :=
  issuer ← defined (trb_in (cc_pointer e) (command_ring x));
  let issuer_type := trb_type (d3 issuer) in
  let slot := cc_slot_id e in
  if decide (issuer_type = Type_EnableSlotCommand) then
    if decide (phase_of (addressing_port x) x <> kEnablingSlot) then Ok (kInvalidPhase, x)
    else AddressDevice (addressing_port x) slot x
  else if decide (issuer_type = Type_AddressDeviceCommand) then
    match FindBySlot slot x with
    | None => Ok (kInvalidSlotID, x)
    | Some d =>
        let p := root_hub_port_num (ctx d) in
        if decide (p <> addressing_port x) then Ok (kInvalidPhase, x)
        else if decide (phase_of p x <> kAddressingDevice) then Ok (kInvalidPhase, x)
        else
          let x := set_addressing 0 x in
          let '(err, x) := match first_waiting (port_config_phase x) 0 with Some i => ResetPort i x | None => (kSuccess, x) end in
          if decide (err <> kSuccess) then Ok (err, x) else InitializeDevice p slot x
    end
  else if decide (issuer_type = Type_ConfigureEndpointCommand) then
    match FindBySlot slot x with
    | None => Ok (kInvalidSlotID, x)
    | Some d =>
        let p := root_hub_port_num (ctx d) in
        if decide (phase_of p x <> kConfiguringEndpoints) then Ok (kInvalidPhase, x)
        else CompleteConfiguration p slot x
    end
  else Ok (kInvalidPhase, x).

(** [src/kernel/usb/xhci/xhci.cpp:517-525] [ProcessEvent] *)
Definition OnEvent (e : TRB) (x : XHC) : xrun :=
  let t := trb_type (d3 e) in
  if decide (t = Type_TransferEvent) then OnTransfer e x
  else if decide (t = Type_PortStatusChangeEvent) then OnPortStatusChange e x
  else if decide (t = Type_CommandCompletionEvent) then OnCommandCompletion e x
  else Ok (kNotImplemented, x).

(** [src/kernel/usb/xhci/xhci.cpp:440-445] [ConfigurePort] *)
Definition ConfigurePort (p : Z) (x : XHC) : Code * XHC :=
  if decide (phase_of p x = kNotConnected) then ResetPort p x else (kSuccess, x).

(** The connected ports when the controller starts.
    [src/kernel/usb/xhci/xhci.cpp:580-591] [Initialize] *)
Definition configure_ports (max_ports : nat) (x : XHC) : XHC :=
  fold_left (fun x p => if IsConnected p then snd (ConfigurePort p x) else x) (seqZ 1 (Z.of_nat max_ports)) x.
End driver.
