(* ===== verification/XhciPorts.v ===== *)
(** * The ports of the root hub (kernel/usb/xhci/xhci.cpp)

    Whatever events come in whatever order, and whatever the controller writes
    to memory meanwhile: at most one port is between its reset and its address,
    every port follows its life cycle, and a port that waits is not forgotten. *)

From stdpp Require Import base list numbers option.
From Stdlib Require Import ZArith Lia.
From S2P Require Import Prelude Bytes UsbMemory UsbRing BitField UsbTrb UsbDevice UsbTransfer Xhci.

Local Open Scope Z_scope.

(** ** Specification *)

(** From the reset of a port to its address nothing else may happen. *)
Definition busy (c : ConfigPhase) : bool :=
  match c with kResettingPort | kEnablingSlot | kAddressingDevice => true | _ => false end.

(** The life of a port. *)
Inductive edge : ConfigPhase -> ConfigPhase -> Prop :=
| edge_wait : edge kNotConnected kWaitingAddressed
| edge_reset : edge kNotConnected kResettingPort
| edge_turn : edge kWaitingAddressed kResettingPort
| edge_enable : edge kResettingPort kEnablingSlot
| edge_address : edge kEnablingSlot kAddressingDevice
| edge_initialize : edge kAddressingDevice kInitializingDevice
| edge_configure : edge kInitializingDevice kConfiguringEndpoints
| edge_done : edge kConfiguringEndpoints kConfigured.

Definition moved (x x' : XHC) : Prop := forall p, phase_of p x' = phase_of p x \/ edge (phase_of p x) (phase_of p x').

(** The port that is busy is the one noted. *)
Record exclusive (x : XHC) : Prop := {
  ex_length : length (port_config_phase x) = 256%nat;
  ex_busy : forall p, busy (phase_of p x) = true -> p = addressing_port x /\ p <> 0;
  ex_noted : addressing_port x <> 0 -> busy (phase_of (addressing_port x) x) = true;
  ex_zero : phase_of 0 x = kNotConnected;
}.

(** Some port is busy while others wait. *)
Definition not_forgotten (x : XHC) : Prop := forall p, phase_of p x = kWaitingAddressed -> addressing_port x <> 0.

(** ** Phases *)

Lemma phase_of_set p q c x :
  length (port_config_phase x) = 256%nat -> 0 <= p < 256 ->
  phase_of q (set_port_phase p c x) = if decide (q = p) then c else phase_of q x.
Proof.
  intros Hl Hp. unfold phase_of, set_port_phase. rewrite setZ_Some by lia. cbn [default option_map id from_option port_config_phase set_phases].
  unfold getZ. case_decide as Hq; [|by rewrite decide_False by (intros ->; lia)].
  destruct (decide (q = p)) as [->|Hne]; [by rewrite list_lookup_insert_eq by lia|]. by rewrite list_lookup_insert_ne by lia.
Qed.

Lemma length_set_phase p c x : length (port_config_phase x) = 256%nat -> length (port_config_phase (set_port_phase p c x)) = 256%nat.
Proof.
  intros Hl. unfold set_port_phase. cbn. destruct (setZ _ p c) eqn:E; [|done]. cbn. by rewrite (length_setZ _ _ _ _ E).
Qed.

Lemma phase_in_range p x : length (port_config_phase x) = 256%nat -> phase_of p x <> kNotConnected -> 0 <= p < 256.
Proof.
  intros Hl. unfold phase_of. destruct (getZ _ p) eqn:E; [|done]. intros _. apply getZ_inv in E. lia.
Qed.

(** What the phases and the note depend on. *)
Definition same_ports (x x' : XHC) : Prop := port_config_phase x' = port_config_phase x /\ addressing_port x' = addressing_port x.

Lemma same_phase x x' p : same_ports x x' -> phase_of p x' = phase_of p x.
Proof. intros [H _]. unfold phase_of. by rewrite H. Qed.

Lemma same_ports_refl x : same_ports x x.
Proof. done. Qed.

Lemma same_ports_trans x y z : same_ports x y -> same_ports y z -> same_ports x z.
Proof. intros [H1 H2] [H3 H4]. split; congruence. Qed.

Lemma same_moved x x' : same_ports x x' -> moved x x'.
Proof. intros H p. left. by apply same_phase. Qed.

Lemma exclusive_ext x x' : same_ports x x' -> exclusive x -> exclusive x'.
Proof.
  intros H [H1 H2 H3 H4]. pose proof (fun p => same_phase _ _ p H) as Hp. destruct H as [Hl Ha].
  split; [by rewrite Hl|intros p; rewrite Hp, Ha|rewrite Ha, Hp|rewrite Hp]; auto.
Qed.

(** ** What leaves the ports alone *)

Lemma put_device_ports slot d x : same_ports x (put_device slot d x).
Proof. done. Qed.

Lemma on_device_ports {A} slot d (f : Device -> outcome (A * Device)) x a x' : on_device slot d f x = Ok (a, x') -> same_ports x x'.
Proof. unfold on_device. intros H. apply ok_bind in H as ([b d'] & _ & H). by simplify_eq. Qed.

Lemma command_ports d x x' : command d x = Some x' -> same_ports x x'.
Proof. unfold command. intros ([? r] & _ & H)%bind_Some. by simplify_eq. Qed.

Lemma defined_command_ports d x x' : defined (command d x) = Ok x' -> same_ports x x'.
Proof. destruct (command d x) eqn:E; [|done]. intros [= <-]. by apply command_ports in E. Qed.

Create HintDb ports.
#[local] Hint Resolve same_ports_refl same_ports_trans put_device_ports on_device_ports defined_command_ports : ports.

Section driver.
Context (memory_pool sizeof_keyboard sizeof_mouse hid_buf_offset sizeof_device off_buf off_ctx off_input : Z).
Context (portsc : Z -> Z).

Let AllocDevice := AllocDevice memory_pool sizeof_device off_buf off_ctx off_input.
Let AddressDevice := AddressDevice memory_pool sizeof_device off_buf off_ctx off_input portsc.
Let ConfigureEndpoints := ConfigureEndpoints memory_pool portsc.
Let OnEvent := OnEvent memory_pool sizeof_keyboard sizeof_mouse hid_buf_offset sizeof_device off_buf off_ctx off_input portsc.

Lemma AllocDevice_ports slot x c x' : AllocDevice slot x = Ok (c, x') -> same_ports x x'.
Proof.
  unfold AllocDevice, Xhci.AllocDevice. destruct (decide _); [by intros [= <- <-]|]. intros H. apply ok_bind in H as ([d|] & _ & H); [by simplify_eq|].
  destruct (AllocArray _ _ _ _ _ _) as [ptr a]. apply ok_bind in H as (? & _ & H). by simplify_eq.
Qed.

Lemma LoadDCBAA_ports slot x c x' : LoadDCBAA slot x = Ok (c, x') -> same_ports x x'.
Proof.
  unfold LoadDCBAA. destruct (decide _); [by intros [= <- <-]|]. intros H.
  do 3 apply ok_bind in H as (? & _ & H). by simplify_eq.
Qed.

Lemma configure_endpoints_ports slot s cs : forall x x', configure_endpoints memory_pool slot s cs x = Ok x' -> same_ports x x'.
Proof.
  induction cs as [|c cs IH]; intros x x' H; [by simplify_eq/=|]. cbn [configure_endpoints] in H.
  apply ok_bind in H as (d & _ & H). apply ok_bind in H as ([t y] & Hy & H). do 4 apply ok_bind in H as (? & _ & H).
  apply IH in H. eauto with ports.
Qed.

(** ** Each handler moves at most one port, by one edge *)

(** [x'] is [x] with port [p] moved to [c], up to what the ports do not depend on. *)
Definition moves (p : Z) (c : ConfigPhase) (x x' : XHC) : Prop :=
  addressing_port x' = addressing_port x /\ port_config_phase x' = port_config_phase (set_port_phase p c x).

Lemma moves_phase p c x x' q :
  length (port_config_phase x) = 256%nat -> 0 <= p < 256 -> moves p c x x' -> phase_of q x' = if decide (q = p) then c else phase_of q x.
Proof. intros Hl Hp [_ H]. rewrite <- (phase_of_set p q c x Hl Hp). unfold phase_of. by rewrite H. Qed.

Lemma set_port_phase_moves p c x : moves p c x (set_port_phase p c x).
Proof. done. Qed.

Lemma ports_moves p c x y z : same_ports x y -> moves p c y z -> moves p c x z.
Proof. intros [H1 H2] [H3 H4]. split; [congruence|]. rewrite H4. unfold set_port_phase. cbn. by rewrite H1. Qed.

Lemma moves_ports p c x y z : moves p c x y -> same_ports y z -> moves p c x z.
Proof. intros [H1 H2] [H3 H4]. split; congruence. Qed.

Lemma AddressDevice_moves p slot x c x' :
  AddressDevice p slot x = Ok (c, x') -> same_ports x x' \/ moves p kAddressingDevice x x'.
Proof.
  unfold AddressDevice, Xhci.AddressDevice. intros H. apply ok_bind in H as ([c0 y] & Hy & H). apply AllocDevice_ports in Hy.
  destruct (FindBySlot slot y) as [d|]; [|left; by simplify_eq].
  apply ok_bind in H as ([t z] & Hz%on_device_ports & H). do 3 apply ok_bind in H as (? & _ & H).
  apply ok_bind in H as ([c1 u] & Hu%LoadDCBAA_ports & H). apply ok_bind in H as (v & Hv%defined_command_ports & H).
  simplify_eq. right. apply moves_ports with (2 := Hv). apply ports_moves with (2 := set_port_phase_moves _ _ _).
  eauto with ports.
Qed.

Lemma InitializeDevice_moves p slot x c x' :
  InitializeDevice p slot x = Ok (c, x') -> FindBySlot slot x <> None -> moves p kInitializingDevice x x'.
Proof.
  unfold InitializeDevice. destruct (FindBySlot slot x) as [d|]; [|done]. intros H _.
  apply ok_bind in H as ([t z] & Hz%on_device_ports & H). simplify_eq. exact (moves_ports _ _ _ _ _ (set_port_phase_moves _ _ _) Hz).
Qed.

Lemma CompleteConfiguration_moves p slot x c x' :
  CompleteConfiguration p slot x = Ok (c, x') -> same_ports x x' \/ moves p kConfigured x x'.
Proof.
  unfold CompleteConfiguration. destruct (FindBySlot slot x) as [d|]; [|intros [= <- <-]; by left]. intros H.
  apply ok_bind in H as ([t z] & Hz%on_device_ports & H). simplify_eq. right. exact (ports_moves _ _ _ _ _ Hz (set_port_phase_moves _ _ _)).
Qed.

Lemma ConfigureEndpoints_moves slot x d c x' :
  ConfigureEndpoints slot x = Ok (c, x') -> FindBySlot slot x = Some d ->
  same_ports x x' \/ moves (root_hub_port_num (ctx d)) kConfiguringEndpoints x x'.
Proof.
  unfold ConfigureEndpoints, Xhci.ConfigureEndpoints. intros H Hd. rewrite Hd in H. cbn [defined mbind outcome_bind] in H.
  destruct (decide _); [left; by simplify_eq|].
  apply ok_bind in H as (y & Hy%configure_endpoints_ports & H). apply ok_bind in H as (z & Hz%defined_command_ports & H). simplify_eq.
  right. apply moves_ports with (2 := Hz). apply ports_moves with (2 := set_port_phase_moves _ _ _). eauto with ports.
Qed.

(** ** What an operation may do to the ports *)

(** The port noted stays the only one that is busy, every port follows its
    life, and while the ports that wait stay connected some port is busy. *)
Record good (x x' : XHC) : Prop := {
  good_exclusive : exclusive x';
  good_moved : moved x x';
  good_remembered : (forall p, phase_of p x = kWaitingAddressed -> IsConnected portsc p = true) -> not_forgotten x -> not_forgotten x';
}.

Lemma good_same x x' : exclusive x -> same_ports x x' -> good x x'.
Proof.
  intros Hx H. split; [exact (exclusive_ext _ _ H Hx)|exact (same_moved _ _ H)|].
  intros _ Hn p. rewrite (same_phase _ _ p H), (proj2 H). apply Hn.
Qed.

Lemma busy_edge c c' : edge c c' -> c <> kNotConnected -> c' <> kWaitingAddressed.
Proof. by inversion 1. Qed.

Lemma good_moves p c x x' :
  exclusive x -> moves p c x x' -> 0 <= p < 256 -> edge (phase_of p x) c -> busy c = busy (phase_of p x) ->
  (c = kWaitingAddressed -> addressing_port x <> 0) -> p <> 0 -> good x x'.
Proof.
  intros [H1 H2 H3 H4] Hm Hp He Hb Hw Hp0. pose proof (moves_phase p c x x') as Hph. destruct Hm as [Ha Hl].
  assert (forall q, phase_of q x' = if decide (q = p) then c else phase_of q x) as Hq by (intros q; apply Hph; [done..|by split]).
  split; [split|..].
  - by rewrite Hl, length_set_phase.
  - intros q. rewrite Hq, Ha. destruct (decide (q = p)) as [->|]; [rewrite Hb|]; apply H2.
  - rewrite Ha, Hq. destruct (decide (addressing_port x = p)) as [<-|]; [rewrite Hb|]; apply H3.
  - rewrite Hq. by rewrite decide_False by lia.
  - intros q. rewrite Hq. destruct (decide (q = p)) as [->|]; [by right|by left].
  - intros _ Hn q. rewrite Hq, Ha. destruct (decide (q = p)) as [->|]; [done|apply Hn].
Qed.

(** A port that has left the first phase. *)
Lemma started_port p x : exclusive x -> phase_of p x <> kNotConnected -> 0 <= p < 256 /\ p <> 0.
Proof. intros Hx H. split; [by apply phase_in_range with x; [apply Hx|]|intros ->; by rewrite (ex_zero _ Hx) in H]. Qed.

Lemma good_next p c x x' :
  exclusive x -> moves p c x x' -> phase_of p x <> kNotConnected -> edge (phase_of p x) c -> busy c = busy (phase_of p x) -> good x x'.
Proof.
  intros Hx Hm Hs He Hb. destruct (started_port p x Hx Hs) as [Hp Hp0]. apply (good_moves p c); try done.
  intros ->. by destruct (busy_edge _ _ He Hs).
Qed.

(** ** The reset of a port *)

Lemma reset_busy p x x' :
  length (port_config_phase x) = 256%nat -> 0 < p < 256 -> (forall q, q <> p -> busy (phase_of q x) = false) -> phase_of 0 x = kNotConnected ->
  port_config_phase x' = port_config_phase (set_port_phase p kResettingPort x) -> addressing_port x' = p -> exclusive x'.
Proof.
  intros Hl Hp Hf H0 Hph Ha.
  assert (forall q, phase_of q x' = if decide (q = p) then kResettingPort else phase_of q x) as Hq.
  { intros q. rewrite <- (phase_of_set p q) by (done || lia). unfold phase_of. by rewrite Hph. }
  split; [by rewrite Hph, length_set_phase|intros q|..]; rewrite ?Ha, Hq.
  - destruct (decide (q = p)) as [->|Hne]; [intros; lia|by rewrite Hf].
  - intros _. by rewrite decide_True.
  - by rewrite decide_False by lia.
Qed.

Lemma ResetPort_good p x c x' :
  exclusive x -> 0 < p < 256 -> phase_of p x = kNotConnected -> ResetPort portsc p x = (c, x') -> good x x'.
Proof.
  intros Hx Hp Hph. unfold ResetPort. destruct (IsConnected portsc p); cbn [negb]; [|intros [= <- <-]; by apply good_same].
  destruct (decide (addressing_port x <> 0)) as [Ha|Ha].
  { intros [= <- <-]. apply (good_moves p kWaitingAddressed); try done; try lia; rewrite Hph; [constructor|done]. }
  rewrite decide_False by naive_solver. intros [= <- <-]. split.
  - apply (reset_busy p x); [apply Hx|done| |apply Hx|done..].
    intros q _. destruct (busy (phase_of q x)) eqn:E; [|done]. apply Hx in E. lia.
  - intros q. pose proof (phase_of_set p q kResettingPort (set_addressing p x) (ex_length _ Hx) ltac:(lia)) as Hq.
    change (phase_of q (Port_Reset _ _ _)) with (phase_of q (set_port_phase p kResettingPort (set_addressing p x))). rewrite Hq.
    destruct (decide (q = p)) as [->|]; [|by left]. right. rewrite Hph. constructor.
  - intros _ Hn q _. cbn. lia.
Qed.

(** ** The events *)

Lemma EnableSlot_good p x c x' : exclusive x -> phase_of p x = kResettingPort -> EnableSlot portsc p x = Ok (c, x') -> good x x'.
Proof.
  intros Hx Hp. unfold EnableSlot. destruct (_ && _); [|intros [= <- <-]; by apply good_same].
  intros H. apply ok_bind in H as (y & Hy%defined_command_ports & H). simplify_eq.
  apply (good_next p kEnablingSlot); rewrite ?Hp; [done| |done|constructor|done]. by apply moves_ports with (2 := Hy).
Qed.

Lemma ps_port_id_range e : 0 <= ps_port_id e < 256.
Proof. unfold ps_port_id, bits_at. rewrite Z.land_ones by lia. apply Z.mod_pos_bound. lia. Qed.

Lemma OnPortStatusChange_good e x c x' :
  exclusive x -> ps_port_id e <> 0 -> OnPortStatusChange portsc e x = Ok (c, x') -> good x x'.
Proof.
  intros Hx He. pose proof (ps_port_id_range e). unfold OnPortStatusChange.
  destruct (phase_of (ps_port_id e) x) eqn:Hp; try (intros [= <- <-]; by apply good_same).
  - destruct (ResetPort _ _ _) eqn:E. intros [= <- <-]. apply ResetPort_good with (4 := E); [done|lia|done].
  - by apply EnableSlot_good.
Qed.

Lemma good_after x y x' : same_ports x y -> good y x' -> good x x'.
Proof.
  intros H [H1 H2 H3]. split; [done|intros p; rewrite <- (same_phase _ _ p H); apply H2|].
  intros Hc Hn. apply H3; intros p; rewrite (same_phase _ _ p H); [apply Hc|rewrite (proj2 H); apply Hn].
Qed.

Lemma OnTransfer_good e x c x' :
  exclusive x -> OnTransfer memory_pool sizeof_keyboard sizeof_mouse hid_buf_offset portsc e x = Ok (c, x') -> good x x'.
Proof.
  intros Hx. unfold OnTransfer. destruct (FindBySlot (te_slot_id e) x) as [d|]; [|intros [= <- <-]; by apply good_same].
  intros H. apply ok_bind in H as ([err y] & Hy%on_device_ports & H). apply (good_after _ _ _ Hy).
  assert (exclusive y) as Hy' by exact (exclusive_ext _ _ Hy Hx).
  destruct (decide _); [simplify_eq; by apply good_same|].
  destruct (FindBySlot (te_slot_id e) y) as [d'|] eqn:Hd; [|done]. cbn [defined mbind outcome_bind] in H.
  destruct (is_initialized _); cbn [andb] in H; [|simplify_eq; by apply good_same].
  destruct (bool_decide _) eqn:Hp; [|simplify_eq; by apply good_same]. apply bool_decide_eq_true in Hp.
  destruct (ConfigureEndpoints_moves _ _ _ _ _ H Hd) as [Hs|Hm]; [by apply good_same|].
  apply good_next with (2 := Hm); rewrite ?Hp; try done. constructor.
Qed.

(** ** The completion of a command *)

Lemma first_waiting_Some l : forall i p, first_waiting l i = Some p -> exists n, p = i + Z.of_nat n /\ l !! n = Some kWaitingAddressed.
Proof.
  induction l as [|c l IH]; intros i p H; [done|]. cbn in H. destruct (decide _) as [->|Hc]; [exists 0%nat; simplify_eq; split; [lia|done]|].
  apply IH in H as (n & -> & Hn). exists (S n). split; [lia|done].
Qed.

Lemma first_waiting_None l : forall i n, first_waiting l i = None -> l !! n <> Some kWaitingAddressed.
Proof.
  induction l as [|c l IH]; intros i [|n] H; try done; cbn in H; (destruct (decide _) as [|]; [done|]); [cbn; congruence|]. by apply (IH (i + 1)).
Qed.

Lemma first_waiting_phase x p : first_waiting (port_config_phase x) 0 = Some p -> phase_of p x = kWaitingAddressed.
Proof.
  intros (n & -> & Hn)%first_waiting_Some. unfold phase_of, getZ. rewrite decide_True by lia.
  replace (Z.to_nat (0 + Z.of_nat n)) with n by lia. by rewrite Hn.
Qed.

Lemma first_waiting_none x p : first_waiting (port_config_phase x) 0 = None -> phase_of p x <> kWaitingAddressed.
Proof.
  intros H Hp. unfold phase_of in Hp. destruct (getZ _ p) eqn:E; cbn in Hp; [|done]. subst.
  apply getZ_lookup in E. by apply (first_waiting_None _ _ _ H) in E.
Qed.


Lemma reset_waiting_phases x j c y :
  exclusive x -> phase_of j x = kWaitingAddressed -> ResetPort portsc j (set_addressing 0 x) = (c, y) ->
  c = kSuccess /\ length (port_config_phase y) = 256%nat /\
  ((IsConnected portsc j = false /\ addressing_port y = 0 /\ forall q, phase_of q y = phase_of q x) \/
   (addressing_port y = j /\ forall q, phase_of q y = if decide (q = j) then kResettingPort else phase_of q x)).
Proof.
  intros Hx Hj. assert (0 <= j < 256) by (apply (started_port j x Hx); by rewrite Hj).
  unfold ResetPort. destruct (IsConnected portsc j); cbn [negb]; [|intros [= <- <-]; split; [done|]; split; [apply Hx|by left]].
  rewrite decide_False by (cbn; lia). rewrite decide_False by (intros [_ []]; exact Hj). intros [= <- <-]. split; [done|].
  pose proof (fun q => phase_of_set j q kResettingPort (set_addressing j x) (ex_length _ Hx) ltac:(lia)) as Hq.
  split; [exact (length_set_phase j _ (set_addressing j x) (ex_length _ Hx))|]. right. split; [done|exact Hq].
Qed.

(** The port that was addressed is no longer busy, and no other port was. *)
Lemma addressed_phases p x y x' :
  exclusive x -> phase_of p x = kAddressingDevice -> length (port_config_phase y) = 256%nat ->
  (forall q, q <> p -> phase_of q y = phase_of q x) -> moves p kInitializingDevice y x' ->
  forall q, phase_of q x' = if decide (q = p) then kInitializingDevice else phase_of q x.
Proof.
  intros Hx Hp Hl Hy Hm q. assert (0 <= p < 256) by (apply (started_port p x Hx); by rewrite Hp).
  rewrite (moves_phase p kInitializingDevice y x') by done. destruct (decide (q = p)); [done|by apply Hy].
Qed.

Lemma others_idle p q x : exclusive x -> busy (phase_of p x) = true -> q <> p -> busy (phase_of q x) = false.
Proof.
  intros Hx Hp Hq. destruct (busy (phase_of q x)) eqn:E; [|done]. apply (ex_busy _ Hx) in E as [-> _].
  by apply (ex_busy _ Hx) in Hp as [-> _].
Qed.

(** No port was reset. *)
Lemma addressed_alone p x y x' :
  exclusive x -> phase_of p x = kAddressingDevice -> length (port_config_phase y) = 256%nat -> addressing_port y = 0 ->
  (forall q, phase_of q y = phase_of q x) -> moves p kInitializingDevice y x' -> exclusive x' /\ moved x x'.
Proof.
  intros Hx Hp Hl Ha Hy Hm. pose proof (addressed_phases p x y x' Hx Hp Hl ltac:(auto) Hm) as Hq.
  destruct (started_port p x Hx) as [_ Hp0]; [by rewrite Hp|]. destruct Hm as [Ha' Hl']. split; [split|].
  - by rewrite Hl', length_set_phase.
  - intros q. rewrite Hq. destruct (decide (q = p)); [done|]. rewrite (others_idle p) by (done || by rewrite Hp). done.
  - by rewrite Ha', Ha.
  - rewrite Hq, decide_False by done. apply Hx.
  - intros q. rewrite Hq. destruct (decide (q = p)) as [->|]; [right; rewrite Hp; constructor|by left].
Qed.

(** Port [j] was reset. *)
Lemma addressed_reset p j x y x' :
  exclusive x -> phase_of p x = kAddressingDevice -> phase_of j x = kWaitingAddressed -> length (port_config_phase y) = 256%nat -> addressing_port y = j ->
  (forall q, phase_of q y = if decide (q = j) then kResettingPort else phase_of q x) -> moves p kInitializingDevice y x' -> exclusive x' /\ moved x x'.
Proof.
  intros Hx Hp Hj Hl Ha Hy Hm. destruct (started_port p x Hx) as [Hpr Hp0]; [by rewrite Hp|]. destruct (started_port j x Hx) as [_ Hj0]; [by rewrite Hj|].
  pose proof (fun q => moves_phase p kInitializingDevice y x' q Hl Hpr Hm) as Hq. destruct Hm as [Ha' Hl'].
  assert (j <> p) by (intros ->; congruence). split; [split|].
  - by rewrite Hl', length_set_phase.
  - intros q. rewrite Hq, Hy, Ha', Ha. destruct (decide (q = p)); [done|]. destruct (decide (q = j)) as [->|]; [done|].
    rewrite (others_idle p) by (done || by rewrite Hp). done.
  - rewrite Ha', Ha, Hq, Hy. intros _. by rewrite decide_False, decide_True.
  - rewrite Hq, Hy, !decide_False by congruence. apply Hx.
  - intros q. rewrite Hq, Hy. destruct (decide (q = p)) as [->|]; [right; rewrite Hp; constructor|].
    destruct (decide (q = j)) as [->|]; [right; rewrite Hj; constructor|by left].
Qed.

Lemma address_completed slot p x c x' :
  exclusive x -> phase_of p x = kAddressingDevice -> FindBySlot slot x <> None ->
  (let '(err, y) := match first_waiting (port_config_phase x) 0 with Some i => ResetPort portsc i (set_addressing 0 x) | None => (kSuccess, set_addressing 0 x) end in
   if decide (err <> kSuccess) then Ok (err, y) else InitializeDevice p slot y) = Ok (c, x') -> good x x'.
Proof.
  intros Hx Hp Hd. destruct (first_waiting _ _) as [j|] eqn:Hw.
  - apply first_waiting_phase in Hw. destruct (ResetPort _ _ _) as [err y] eqn:Hy.
    assert (FindBySlot slot y = FindBySlot slot x) as Hs.
    { revert Hy. unfold ResetPort. repeat (destruct (decide _) || destruct (negb _)); by intros [= <- <-]. }
    destruct (reset_waiting_phases x j err y Hx Hw Hy) as (-> & Hl & Hc). intros Hi. apply InitializeDevice_moves in Hi; [|by rewrite Hs].
    destruct Hc as [(Hn & Ha & Hq)|[Ha Hq]].
    + destruct (addressed_alone p x y x') as [? ?]; try done. split; [done..|]. intros Hcon _. by rewrite Hcon in Hn.
    + destruct (addressed_reset p j x y x') as [? ?]; try done. split; [done..|].
      intros _ _ q _. rewrite (proj1 Hi), Ha. apply (started_port j x Hx). by rewrite Hw.
  - intros Hi. apply InitializeDevice_moves in Hi; [|done].
    destruct (addressed_alone p x (set_addressing 0 x) x') as [? Hmv]; try done; [apply Hx|]. split; [done..|].
    intros _ _ q Hq. exfalso. destruct (Hmv q) as [He|He]; [|rewrite Hq in He].
    + apply (first_waiting_none x q Hw). congruence.
    + pose proof (addressed_phases p x (set_addressing 0 x) x' Hx Hp (ex_length _ Hx) ltac:(done) Hi q) as Hq'.
      destruct (decide (q = p)); [congruence|]. apply (first_waiting_none x q Hw). congruence.
Qed.

Lemma OnCommandCompletion_good e x c x' :
  exclusive x -> OnCommandCompletion memory_pool sizeof_device off_buf off_ctx off_input portsc e x = Ok (c, x') -> good x x'.
Proof.
  intros Hx. unfold OnCommandCompletion. intros H. apply ok_bind in H as (issuer & _ & H).
  destruct (decide _); [|destruct (decide _); [|destruct (decide _); [|simplify_eq; by apply good_same]]].
  - destruct (decide (_ <> _)) as [|Hp%dec_stable]; [simplify_eq; by apply good_same|].
    apply AddressDevice_moves in H as [H|H]; [by apply good_same|]. apply good_next with (2 := H); rewrite ?Hp; try done. constructor.
  - destruct (FindBySlot _ x) as [d|] eqn:Hd; [|simplify_eq; by apply good_same].
    destruct (decide (_ <> addressing_port x)); [simplify_eq; by apply good_same|].
    destruct (decide (phase_of _ _ <> _)) as [|Hp%dec_stable]; [simplify_eq; by apply good_same|].
    apply (address_completed (cc_slot_id e) (root_hub_port_num (ctx d)) x c x'); [done|done|by rewrite Hd|exact H].
  - destruct (FindBySlot _ x) as [d|] eqn:Hd; [|simplify_eq; by apply good_same].
    destruct (decide (phase_of _ _ <> _)) as [|Hp%dec_stable]; [simplify_eq; by apply good_same|].
    apply CompleteConfiguration_moves in H as [H|H]; [by apply good_same|]. apply good_next with (2 := H); rewrite ?Hp; try done. constructor.
Qed.

Lemma OnEvent_good e x c x' :
  exclusive x -> (trb_type (d3 e) = Type_PortStatusChangeEvent -> ps_port_id e <> 0) -> OnEvent e x = Ok (c, x') -> good x x'.
Proof.
  intros Hx He. unfold OnEvent, Xhci.OnEvent. repeat destruct (decide _).
  - by apply OnTransfer_good.
  - apply OnPortStatusChange_good; auto.
  - by apply OnCommandCompletion_good.
  - intros [= <- <-]. by apply good_same.
Qed.

(** ** The ports connected at the start *)

Definition fresh (x : XHC) : Prop := port_config_phase x = replicate 256 kNotConnected /\ addressing_port x = 0.

Lemma fresh_phase x p : fresh x -> phase_of p x = kNotConnected.
Proof.
  intros [H _]. unfold phase_of, getZ. rewrite H. case_decide; [|done].
  destruct (decide (Z.to_nat p < 256)%nat); [by rewrite lookup_replicate_2|]. by rewrite lookup_ge_None_2 by (rewrite length_replicate; lia).
Qed.

Lemma fresh_exclusive x : fresh x -> exclusive x.
Proof.
  intros H. pose proof (fun p => fresh_phase x p H) as Hp. destruct H as [Hl Ha].
  split; [by rewrite Hl|intros p; by rewrite Hp|done|by apply Hp].
Qed.

Lemma ResetPort_remembers p x c x' : exclusive x -> 0 < p < 256 -> not_forgotten x -> ResetPort portsc p x = (c, x') -> not_forgotten x'.
Proof.
  intros Hx Hp Hn. unfold ResetPort. destruct (IsConnected portsc p); cbn [negb]; [|by intros [= <- <-]].
  destruct (decide (_ <> 0)); [by intros [= <- <-] q _|]. destruct (decide _); [by intros [= <- <-]|]. intros [= <- <-] q _. cbn. lia.
Qed.

Lemma ConfigurePort_keeps p x :
  0 < p < 256 -> exclusive x -> not_forgotten x -> exclusive (snd (ConfigurePort portsc p x)) /\ not_forgotten (snd (ConfigurePort portsc p x)).
Proof.
  intros Hp Hx Hn. unfold ConfigurePort. destruct (decide _) as [Hph|]; [|done]. destruct (ResetPort portsc p x) as [c x'] eqn:E.
  split; [exact (good_exclusive _ _ (ResetPort_good p x c x' Hx Hp Hph E))|exact (ResetPort_remembers p x c x' Hx Hp Hn E)].
Qed.

Lemma configure_ports_keeps ps : forall x,
  Forall (fun p => 0 < p < 256) ps -> exclusive x -> not_forgotten x ->
  let x' := fold_left (fun x p => if IsConnected portsc p then snd (ConfigurePort portsc p x) else x) ps x in exclusive x' /\ not_forgotten x'.
Proof.
  induction ps as [|p ps IH]; intros x Hps Hx Hn; [done|]. apply list.Forall_cons in Hps as [Hp Hps]. cbn [fold_left].
  destruct (IsConnected portsc p); [|by apply IH]. destruct (ConfigurePort_keeps p x Hp Hx Hn). by apply IH.
Qed.

Lemma configure_ports_good n x :
  (n < 256)%nat -> fresh x -> exclusive (configure_ports portsc n x) /\ not_forgotten (configure_ports portsc n x).
Proof.
  intros Hn Hx. apply configure_ports_keeps; [|by apply fresh_exclusive|intros p; by rewrite fresh_phase].
  apply list.Forall_forall. intros p Hp%elem_of_seqZ. lia.
Qed.
End driver.

(** ** Runs of the driver *)

Section runs.
Context (memory_pool sizeof_keyboard sizeof_mouse hid_buf_offset sizeof_device off_buf off_ctx off_input : Z).

Abbreviation OnEvent := (OnEvent memory_pool sizeof_keyboard sizeof_mouse hid_buf_offset sizeof_device off_buf off_ctx off_input).

(** The states after the start, events in any order, each with any value of the
    registers that [env] allows, and any writes of the controller to the
    contexts and buffers of the devices. A port event names a port. *)
Inductive reach (env : (Z -> Z) -> XHC -> Prop) : XHC -> Prop :=
| reach_start portsc n x : (n < 256)%nat -> fresh x -> reach env (configure_ports portsc n x)
| reach_event portsc e c x x' :
    reach env x -> env portsc x -> (trb_type (d3 e) = Type_PortStatusChangeEvent -> ps_port_id e <> 0) ->
    OnEvent portsc e x = Ok (c, x') -> reach env x'
| reach_written ds x : reach env x -> reach env (set_devices ds x).

Lemma reach_exclusive env x : reach env x -> exclusive x.
Proof.
  induction 1 as [portsc n x Hn Hx|portsc e c x x' _ IH _ He H|ds x _ IH].
  - by apply configure_ports_good.
  - exact (good_exclusive _ _ _ (OnEvent_good _ _ _ _ _ _ _ _ _ e x c x' IH He H)).
  - by apply exclusive_ext with x.
Qed.

(** While the ports that wait stay connected. *)
Definition waiters_connected (portsc : Z -> Z) (x : XHC) : Prop := forall p, phase_of p x = kWaitingAddressed -> IsConnected portsc p = true.

Lemma reach_not_forgotten x : reach waiters_connected x -> not_forgotten x.
Proof.
  induction 1 as [portsc n x Hn Hx|portsc e c x x' Hr IH Henv He H|ds x _ IH].
  - by apply configure_ports_good.
  - exact (good_remembered _ _ _ (OnEvent_good _ _ _ _ _ _ _ _ _ e x c x' (reach_exclusive _ _ Hr) He H) Henv IH).
  - exact IH.
Qed.

(** C30. In every state the driver reaches, whatever events the controller sends
    in whatever order and whatever it writes meanwhile: the port in
    [addressing_port] is the only one between its reset and its address, and
    each event moves every port by at most one step of its life cycle; while
    the ports that wait stay connected, one port is on its way to its address
    as long as another waits, so that its completion resets the next. *)
Theorem ports_exclusive env x :
  reach env x ->
  exclusive x /\
  (forall portsc e c x', (trb_type (d3 e) = Type_PortStatusChangeEvent -> ps_port_id e <> 0) -> OnEvent portsc e x = Ok (c, x') -> moved x x') /\
  ((forall portsc y, env portsc y -> waiters_connected portsc y) -> not_forgotten x).
Proof.
  intros H. pose proof (reach_exclusive env x H) as Hx. split; [done|]. split.
  - intros portsc e c x' He Hev. exact (good_moved _ _ _ (OnEvent_good _ _ _ _ _ _ _ _ _ e x c x' Hx He Hev)).
  - intros Henv. apply reach_not_forgotten. clear Hx. induction H; eauto using reach.
Qed.
End runs.

Lemma waiters_check portsc x :
  length (port_config_phase x) = 256%nat ->
  forallb (fun p => negb (bool_decide (phase_of p x = kWaitingAddressed)) || IsConnected portsc p) (seqZ 0 256) = true -> waiters_connected portsc x.
Proof.
  intros Hl H p Hp. rewrite forallb_forall in H. specialize (H p). rewrite (bool_decide_eq_true_2 _ Hp) in H. apply H.
  apply list_elem_of_In, elem_of_seqZ. apply (phase_in_range p x Hl). by rewrite Hp.
Qed.

(** Ports 1 and 2 are connected; port 1 has been reset, and is given a slot. *)
Definition sample_portsc (p : Z) : Z := if decide (p = 1 \/ p = 2) then 0x200e03 else 0.
Definition sample_xhc : XHC :=
  MkXHC (replicate 256 kNotConnected) 0 (replicate 9 None) (replicate 9 0) (MkTR (MkRing 0x20000 32 true 0) (replicate 128 0)) 0x30000 [].
Definition sample_started : XHC := configure_ports sample_portsc 4 sample_xhc.
Definition port_event (p : Z) : TRB := MkTRB (Z.shiftl p 24) 0 0 (Z.shiftl 34 10).

Lemma ports_exclusive_witness :
  exists x c, OnEvent 0x10000 64 64 0 4096 0 1024 2048 sample_portsc (port_event 1) sample_started = Ok (c, x) /\
    phase_of 1 x = kEnablingSlot /\ phase_of 2 x = kWaitingAddressed /\ exclusive x /\ not_forgotten x.
Proof.
  destruct (OnEvent 0x10000 64 64 0 4096 0 1024 2048 sample_portsc (port_event 1) sample_started) as [[c x]| |] eqn:E; [|by vm_compute in E..].
  exists x, c. split; [done|].
  assert (phase_of 1 x = kEnablingSlot /\ phase_of 2 x = kWaitingAddressed) as [H1 H2].
  { revert E. vm_compute. by intros [= <- <-]. }
  split; [done|]. split; [done|].
  destruct (ports_exclusive 0x10000 64 64 0 4096 0 1024 2048 waiters_connected x) as (Hx & _ & Hn); [|split; [exact Hx|exact (Hn (fun _ _ H => H))]].
  apply (reach_event _ _ _ _ _ _ _ _ _ sample_portsc (port_event 1) c sample_started); [apply reach_start; [lia|done]| |done|exact E].
  apply waiters_check; by vm_compute.
Defined.
