(* ===== verification/EventRing.v ===== *)
(** * The event ring (kernel/usb/xhci/ring.cpp, xhci.cpp)

    The controller stores events in a ring of memory while the driver takes
    them out; a cycle bit in the last word of a block tells whether it is new,
    and the driver tells the controller how far it is by a register. The steps
    of both interleave. *)

From stdpp Require Import base list numbers option sets.
From Stdlib Require Import ZArith Lia.
From S2P Require Import Prelude UsbMemory UsbRing BitField UsbTrb UsbDevice Xhci.

Local Open Scope Z_scope.

(** ** The ring of the driver *)

(** The pointer of the register, and a new one; the low bits stay.
    [src/kernel/usb/xhci/registers.hpp:318-333] [ERDP_Bitmap] *)
Definition Pointer (erdp : Z) : Z := Z.shiftl (Z.shiftr erdp 4) 4.
Definition SetPointer (p erdp : Z) : Z := Z.shiftl (Z.shiftr p 4) 4 + bits_at 0 4 erdp.

(** The registers of the interrupter that the ring uses.
    [src/kernel/usb/xhci/registers.hpp:335-342] [InterrupterRegisterSet] *)
Record Interrupter := MkInterrupter { ERSTSZ : Z; ERSTBA : Z; ERDP : Z }.

(** The members, with the one entry of the segment table and the registers.
    [src/kernel/usb/xhci/ring.hpp:92-98] [EventRing] *)
Record EventRing := MkER {
  er_buf : Z;
  er_size : Z;
  er_cycle : bool;
  segment_base : Z;
  segment_size : Z;
  interrupter : Interrupter;
}.

(** [src/kernel/usb/xhci/ring.cpp:95-99] [EventRing::WriteDequeuePointer] *)
Definition WriteDequeuePointer (p : Z) (e : EventRing) : EventRing :=
  let i := interrupter e in
  MkER (er_buf e) (er_size e) (er_cycle e) (segment_base e) (segment_size e) (MkInterrupter (ERSTSZ i) (ERSTBA i) (SetPointer p (ERDP i))).

(** [src/kernel/usb/xhci/ring.hpp:76-78] [EventRing::ReadDequeuePointer] *)
Definition ReadDequeuePointer (e : EventRing) : Z := Pointer (ERDP (interrupter e)).

(** The blocks are those of the memory at the segment.
    [src/kernel/usb/xhci/ring.hpp:86-88] [EventRing::Front] *)
Definition Front (mem : list Z) (e : EventRing) : TRB := entry mem ((ReadDequeuePointer e - er_buf e) / 16).

(** [src/kernel/usb/xhci/ring.hpp:82-84] [EventRing::HasFront] *)
Definition HasFront (mem : list Z) (e : EventRing) : bool := eqb (Z.testbit (d3 (Front mem e)) 0) (er_cycle e).

(** [src/kernel/usb/xhci/ring.cpp:101-114] [EventRing::Pop] *)
Definition Pop (e : EventRing) : EventRing :=
  let p := ReadDequeuePointer e + 16 in
  let segment_end := segment_base e + 16 * segment_size e in
  if decide (p = segment_end) then
    WriteDequeuePointer (segment_base e)
      (MkER (er_buf e) (er_size e) (negb (er_cycle e)) (segment_base e) (segment_size e) (interrupter e))
  else WriteDequeuePointer p e.

(** The ring, its memory and the allocator. The buffer a ring had before is
    freed, which does nothing. [None] is [kNoEnoughMemory]. The segment size is a field of 16 bits, the
    pointer to the table one of 58 bits.
    [src/kernel/usb/xhci/ring.cpp:56-93] [EventRing::Initialize] *)
Definition Initialize (memory_pool n alloc_ptr : Z) (i : Interrupter) : Z * option (EventRing * list Z) :=
  let '(alloc_ptr, p) := AllocArray memory_pool 16 n 64 (64 * 1024) alloc_ptr in
  match p with
  | None => (alloc_ptr, None)
  | Some p =>
      let '(alloc_ptr, t) := AllocArray memory_pool 16 1 64 (64 * 1024) alloc_ptr in
      match t with
      | None => (alloc_ptr, None)
      | Some t =>
          let i := MkInterrupter (Z.shiftl (Z.shiftr (ERSTSZ i) 16) 16 + 1) (ERSTBA i) (ERDP i) in
          let e := WriteDequeuePointer p (MkER p n true p (u16 n) i) in
          let i := interrupter e in
          (alloc_ptr, Some (MkER p n true p (u16 n) (MkInterrupter (ERSTSZ i) (Z.shiftl (Z.shiftr t 6) 6 + bits_at 0 6 (ERSTBA i)) (ERDP i)),
            replicate (Z.to_nat (4 * n)) 0))
      end
  end.

(** ** Events *)

(** An operation of the driver on an event. *)
Section process.
Context {X : Type} (OnEvent : TRB -> X -> outcome (Code * X)).

(** [src/kernel/usb/xhci/xhci.cpp:512-530] [ProcessEvent] *)
Definition ProcessEvent (mem : list Z) (e : EventRing) (x : X) : outcome (Code * EventRing * X) :=
  if HasFront mem e then '(err, x) ← OnEvent (Front mem e) x; Ok (err, Pop e, x) else Ok (kSuccess, e, x).

(** While nothing arrives; errors are only logged.
    [src/kernel/usb/xhci/xhci.cpp:594-601] [ProcessEvents] *)
Fixpoint ProcessEvents (fuel : nat) (mem : list Z) (e : EventRing) (x : X) : outcome (EventRing * X) :=
  match fuel with
  | O => Waits
  | S fuel' => if HasFront mem e then '(_, e, x) ← ProcessEvent mem e x; ProcessEvents fuel' mem e x else Ok (e, x)
  end.

(** The events of a list, in order. *)
Fixpoint process_all (l : list TRB) (x : X) : outcome X :=
  match l with
  | [] => Ok x
  | d :: l' => '(_, x) ← OnEvent d x; process_all l' x
  end.
End process.

(** ** Driver and controller together *)

(** The ring, its memory, the words of the event under way that the controller
    has still to store, the driver between the test of the loop and the event it
    found, and the events posted and handled so far. *)
Record State := MkState {
  ring : EventRing;
  memory : list Z;
  pending : list nat;
  seen : bool;
  posted : list TRB;
  handled : list TRB;
}.

(** Where the controller stores the last event: after all the earlier ones, the
    lap in its cycle bit. *)
Section run.
Context (n : Z).

Definition event_slot (s : State) : Z := (Z.of_nat (length (posted s)) - 1) mod n.
Definition event_block (s : State) : TRB :=
  tagged (default (MkTRB 0 0 0 0) (posted s !! (length (posted s) - 1)%nat)) (lap_bit n (Z.of_nat (length (posted s)) - 1)).

(** The controller begins an event when the last one is complete and the
    driver has left a block of room; it stores its words in any order but the
    last, which holds the cycle bit; it may change the low bits of the pointer
    register. The driver looks at the ring; when it has found an event, it
    handles it and takes it out. *)
Inductive step (s : State) : State -> Prop :=
| step_post d :
    pending s = [] -> Z.of_nat (length (posted s) - length (handled s)) < n - 1 ->
    step s (MkState (ring s) (memory s) [0; 1; 2; 3]%nat (seen s) (posted s ++ [d]) (handled s))
| step_word l1 i l2 mem :
    pending s = l1 ++ i :: l2 -> (i = 3%nat -> l1 ++ l2 = []) ->
    setZ (memory s) (4 * event_slot s + Z.of_nat i) (trb_word (event_block s) (Z.of_nat i)) = Some mem ->
    step s (MkState (ring s) mem (l1 ++ l2) (seen s) (posted s) (handled s))
| step_low b :
    0 <= b < 16 ->
    step s (MkState (let e := ring s in let i := interrupter e in
      MkER (er_buf e) (er_size e) (er_cycle e) (segment_base e) (segment_size e) (MkInterrupter (ERSTSZ i) (ERSTBA i) (Pointer (ERDP i) + b)))
      (memory s) (pending s) (seen s) (posted s) (handled s))
| step_look :
    HasFront (memory s) (ring s) = true ->
    step s (MkState (ring s) (memory s) (pending s) true (posted s) (handled s))
| step_take :
    seen s = true ->
    step s (MkState (Pop (ring s)) (memory s) (pending s) false (posted s) (handled s ++ [Front (memory s) (ring s)])).

Inductive reachable (s0 : State) : State -> Prop :=
| reach_refl : reachable s0 s0
| reach_next s s' : reachable s0 s -> step s s' -> reachable s0 s'.
End run.

(** ** The pointer register *)

Lemma Pointer_div r : Pointer r = 16 * (r / 16).
Proof. unfold Pointer. rewrite Z.shiftr_div_pow2, Z.shiftl_mul_pow2 by lia. change (2 ^ 4) with 16. lia. Qed.

Lemma Pointer_low r b : 0 <= b < 16 -> Pointer (Pointer r + b) = Pointer r.
Proof.
  intros Hb. rewrite (Pointer_div (_ + b)), (Pointer_div r). f_equal. symmetry. apply Z.div_unique with b; lia.
Qed.

Lemma Pointer_SetPointer p r : p mod 16 = 0 -> Pointer (SetPointer p r) = p.
Proof.
  intros Hp. unfold SetPointer. rewrite bits_at_mod by lia. fold (Pointer p).
  rewrite Pointer_low by (apply Z.mod_pos_bound; lia). rewrite Pointer_div. pose proof (Z.div_mod p 16). lia.
Qed.

(** ** The invariant *)

Section invariant.
Context (n base : Z).
Hypothesis (Hn : 3 <= n < 2 ^ 16) (Hbase : 0 <= base < 2 ^ 64 - 16 * 2 ^ 16) (Halign : base mod 16 = 0).

Definition count (l : list TRB) : Z := Z.of_nat (length l).
(** The events that are complete. *)
Definition complete (s : State) : Z := match pending s with [] => count (posted s) | _ => count (posted s) - 1 end.

(** The ring after [c] events. *)
Record ring_at (c : Z) (e : EventRing) : Prop := {
  ra_buf : er_buf e = base;
  ra_base : segment_base e = base;
  ra_size : segment_size e = n;
  ra_cycle : er_cycle e = lap_bit n c;
  ra_pointer : ReadDequeuePointer e = base + 16 * (c mod n);
}.

(** The words that are stored of the event under way. *)
Definition under_way (s : State) : Prop :=
  pending s <> [] ->
  1 <= count (posted s) /\ NoDup (pending s) /\ 3%nat ∈ pending s /\ Forall (fun i => i <= 3)%nat (pending s) /\
  forall i, (i <= 3)%nat -> i ∈ pending s \/ word (memory s) (event_slot n s) (Z.of_nat i) = trb_word (event_block n s) (Z.of_nat i).

Record inv (s : State) : Prop := {
  iv_mem : Z.of_nat (length (memory s)) = 4 * n;
  iv_ring : ring_at (count (handled s)) (ring s);
  iv_handled : map payload (handled s) = map payload (take (length (handled s)) (posted s));
  iv_counts : count (handled s) <= complete s /\ count (posted s) - count (handled s) <= n - 1;
  iv_unread t d : count (handled s) <= t < complete s -> posted s !! Z.to_nat t = Some d -> entry (memory s) (t mod n) = tagged d (lap_bit n t);
  iv_free t : complete s <= t < complete s + n -> Z.testbit (word (memory s) (t mod n) 3) 0 = negb (lap_bit n t);
  iv_pending : under_way s;
  iv_seen : seen s = true -> count (handled s) < complete s;
}.

Lemma count_app l d : count (l ++ [d]) = count l + 1.
Proof. unfold count. rewrite length_app. cbn. lia. Qed.

Lemma Front_slot c mem e : ring_at c e -> Front mem e = entry mem (c mod n).
Proof.
  intros [H1 _ _ _ H5]. unfold Front. rewrite H1, H5. f_equal. replace (base + 16 * (c mod n) - base) with (c mod n * 16) by lia.
  apply Z.div_mul. lia.
Qed.

(** The driver finds an event exactly when one is complete. *)
Lemma HasFront_spec s : inv s -> HasFront (memory s) (ring s) = true <-> count (handled s) < complete s.
Proof.
  intros [H1 H2 H3 H4 H5 H6 _ _]. unfold HasFront. rewrite (Front_slot _ _ _ H2), (ra_cycle _ _ H2). cbn [entry d3]. rewrite eqb_true_iff.
  assert (0 <= count (handled s)) by (unfold count; lia). destruct (decide (count (handled s) < complete s)) as [Hlt|Hge].
  - split; [done|]. intros _. assert (complete s <= count (posted s)) by (unfold complete; destruct (pending s); lia).
    destruct (lookup_lt_is_Some_2 (posted s) (Z.to_nat (count (handled s)))) as [d Hd]; [unfold count in *; lia|].
    specialize (H5 (count (handled s)) d ltac:(lia) Hd). injection H5 as _ _ _ ->. by rewrite cycle_bits.
  - split; [|lia]. rewrite H6 by lia. by destruct (lap_bit n _).
Qed.

(** What the driver takes is the event posted. *)
Lemma Front_posted s :
  inv s -> count (handled s) < complete s ->
  exists d, posted s !! length (handled s) = Some d /\ Front (memory s) (ring s) = tagged d (lap_bit n (count (handled s))).
Proof.
  intros [H1 H2 H3 H4 H5 H6 _ _] Hlt. assert (complete s <= count (posted s)) by (unfold complete; destruct (pending s); lia).
  destruct (lookup_lt_is_Some_2 (posted s) (length (handled s))) as [d Hd]; [unfold count in *; lia|]. exists d. split; [done|].
  rewrite (Front_slot _ _ _ H2). apply H5; [unfold count in *; lia|]. unfold count. by rewrite Nat2Z.id.
Qed.

Lemma Pop_ring c e : 0 <= c -> ring_at c e -> ring_at (c + 1) (Pop e).
Proof.
  intros Hc [H1 H2 H3 H4 H5]. unfold Pop. rewrite H2, H3, H5.
  assert (forall k, (base + 16 * k) mod 16 = 0) as Hal.
  { intros k. replace (base + 16 * k) with (base + k * 16) by lia. by rewrite Z_mod_plus_full. }
  destruct (next_slot n ltac:(lia) c Hc) as [(N1 & N2 & N3)|(N1 & N2 & N3)].
  - rewrite decide_False by lia. split; cbn [er_buf segment_base segment_size er_cycle WriteDequeuePointer]; [done..| |].
    + rewrite H4. unfold lap_bit. by rewrite N3.
    + unfold ReadDequeuePointer. cbn [interrupter WriteDequeuePointer ERDP]. rewrite Pointer_SetPointer; [lia|].
      replace (base + 16 * (c mod n) + 16) with (base + 16 * (c mod n + 1)) by lia. apply Hal.
  - rewrite decide_True by lia. split; cbn [er_buf segment_base segment_size er_cycle WriteDequeuePointer]; [done..| |].
    + rewrite H4. unfold lap_bit. rewrite N3, Z.even_add. change (Z.even 1) with false. by destruct (Z.even _).
    + unfold ReadDequeuePointer. cbn [interrupter WriteDequeuePointer ERDP]. rewrite Pointer_SetPointer; [lia|done].
Qed.

(** *** The steps *)

Lemma handled_prefix s d :
  inv s -> posted s !! length (handled s) = Some d ->
  map payload (handled s ++ [tagged d (lap_bit n (count (handled s)))]) = map payload (take (length (handled s) + 1) (posted s)).
Proof.
  intros Hi Hd. rewrite Nat.add_1_r, (take_S_r _ _ d) by done. rewrite !map_app, (iv_handled _ Hi). cbn. by rewrite payload_tagged.
Qed.

Lemma take_inv s : inv s -> seen s = true -> inv (MkState (Pop (ring s)) (memory s) (pending s) false (posted s) (handled s ++ [Front (memory s) (ring s)])).
Proof.
  intros Hi Hs. pose proof (iv_seen _ Hi Hs) as Hlt. destruct (Front_posted s Hi Hlt) as (d & Hd & ->).
  pose proof (handled_prefix s d Hi Hd) as Hpre. destruct Hi as [H1 H2 H3 H4 H5 H6 H7 H8].
  split; cbn [memory ring pending seen posted handled]; try done; unfold complete in *; cbn [pending posted handled] in *; rewrite ?count_app.
  - apply Pop_ring; [unfold count; lia|done].
  - rewrite Hpre, length_app. done.
  - lia.
  - intros t x Ht. apply H5. lia.
Qed.

Lemma post_inv s d :
  inv s -> pending s = [] -> Z.of_nat (length (posted s) - length (handled s)) < n - 1 ->
  inv (MkState (ring s) (memory s) [0; 1; 2; 3]%nat (seen s) (posted s ++ [d]) (handled s)).
Proof.
  intros Hi Hp Hroom. destruct Hi as [H1 H2 H3 H4 H5 H6 H7 H8].
  assert (complete s = count (posted s)) as Hc by (unfold complete; by rewrite Hp).
  assert (complete (MkState (ring s) (memory s) [0; 1; 2; 3]%nat (seen s) (posted s ++ [d]) (handled s)) = complete s) as Hc'.
  { unfold complete at 1. cbn [pending posted]. rewrite count_app. lia. }
  split; rewrite ?Hc'; cbn [memory ring pending seen posted handled]; try done.
  - rewrite take_app_le; [done|]. unfold count in *. lia.
  - rewrite count_app. split; [lia|]. unfold count in *. lia.
  - intros t x Ht Hx. apply H5; [done|]. rewrite lookup_app_l in Hx; [done|]. unfold count in *. lia.
  - intros _. cbn [memory pending posted]. split; [rewrite count_app; unfold count; lia|]. split; [repeat constructor; set_solver|].
    split; [set_solver|]. split; [repeat constructor; lia|]. intros i Hi. left. do 4 (destruct i as [|i]; [set_solver|]). lia.
Qed.

Lemma low_inv s b :
  0 <= b < 16 -> inv s ->
  inv (MkState (MkER (er_buf (ring s)) (er_size (ring s)) (er_cycle (ring s)) (segment_base (ring s)) (segment_size (ring s))
    (MkInterrupter (ERSTSZ (interrupter (ring s))) (ERSTBA (interrupter (ring s))) (Pointer (ERDP (interrupter (ring s))) + b)))
    (memory s) (pending s) (seen s) (posted s) (handled s)).
Proof.
  intros Hb [H1 [R1 R2 R3 R4 R5] H3 H4 H5 H6 H7 H8]. split; try done. split; try done.
  unfold ReadDequeuePointer. cbn [ring interrupter ERDP]. rewrite Pointer_low by done. exact R5.
Qed.

(** The block under way is neither one the driver may read nor another of the
    free ones. *)
Lemma slot_apart s t :
  inv s -> pending s <> [] -> count (handled s) <= t < complete s + n -> t <> complete s -> t mod n <> event_slot n s.
Proof.
  intros Hi Hp Ht Hne. destruct (iv_counts _ Hi) as [Hc1 Hc2]. unfold event_slot.
  assert (complete s = count (posted s) - 1) as Hc by (unfold complete; by destruct (pending s)).
  unfold count in Hc. rewrite <- Hc. destruct (decide (t < complete s)); [|apply not_eq_sym]; apply slot_ne; unfold count in *; lia.
Qed.

Lemma word_kept mem mem' p i k v :
  (forall s j, 0 <= j <= 3 -> word mem' s j = if decide (s = p /\ j = k) then v else word mem s j) -> 0 <= i <= 3 ->
  forall s, s <> p \/ i <> k -> word mem' s i = word mem s i.
Proof. intros H Hi s Hs. rewrite H by done. by rewrite decide_False by naive_solver. Qed.

(** A word but the last. *)
Lemma word_early s l1 i l2 mem :
  inv s -> pending s = l1 ++ i :: l2 -> i <> 3%nat ->
  setZ (memory s) (4 * event_slot n s + Z.of_nat i) (trb_word (event_block n s) (Z.of_nat i)) = Some mem ->
  inv (MkState (ring s) mem (l1 ++ l2) (seen s) (posted s) (handled s)).
Proof.
  intros Hi Hp Hi3 E. assert (pending s <> []) as Hne by (rewrite Hp; by destruct l1).
  destruct (iv_pending _ Hi Hne) as (U1 & U2 & U3 & U4 & U5). rewrite Hp in U2, U3, U4, U5.
  assert (3%nat ∈ l1 ++ l2) as U3' by set_solver. assert (i <= 3)%nat as Hi4 by (rewrite list.Forall_forall in U4; apply U4; set_solver).
  assert (l1 ++ l2 <> []) as Hne' by (intros Hnil; rewrite Hnil in U3'; set_solver).
  pose proof (fun q j Hj => word_store _ _ _ _ q j (Z.of_nat i) E Hj ltac:(lia) _ eq_refl) as Hw.
  assert (forall c, complete (MkState (ring s) mem (l1 ++ l2) c (posted s) (handled s)) = complete s) as Hc.
  { intros c. unfold complete. cbn [pending posted]. destruct (pending s); [done|]. by destruct (l1 ++ l2). }
  pose proof (slot_apart s) as Hap. destruct Hi as [H1 H2 H3 H4 H5 H6 H7 H8] eqn:Heq. clear Heq.
  split; rewrite ?Hc; cbn [memory ring pending seen posted handled]; try done.
  - by rewrite (length_setZ _ _ _ _ E).
  - intros t x Ht Hx. rewrite <- (H5 t x Ht Hx). assert (t mod n <> event_slot n s) by (apply Hap; [done|done|lia|lia]).
    unfold entry. rewrite !Hw by lia. by rewrite !decide_False by naive_solver.
  - intros t Ht. rewrite Hw by lia. rewrite decide_False by lia. by apply H6.
  - intros _. cbn [memory pending posted]. split; [done|]. split; [|split; [done|split]].
    + apply NoDup_app in U2 as (N1 & N2 & N3). apply NoDup_cons in N3 as [N3 N4]. apply NoDup_app. split_and!; [done|set_solver|done].
    + apply list.Forall_app in U4 as [F1 F2]. apply list.Forall_cons in F2 as [_ F2]. by apply list.Forall_app.
    + intros j Hj. change (event_slot n _) with (event_slot n s). change (event_block n _) with (event_block n s). rewrite Hw by lia.
      destruct (decide (j = i)) as [->|Hji]; [right; by rewrite decide_True|]. rewrite decide_False by lia. destruct (U5 j Hj); [left; set_solver|by right].
Qed.

(** The last word: the event is complete. *)
Lemma word_last s mem :
  inv s -> pending s = [3%nat] ->
  setZ (memory s) (4 * event_slot n s + 3) (trb_word (event_block n s) 3) = Some mem ->
  inv (MkState (ring s) mem [] (seen s) (posted s) (handled s)).
Proof.
  intros Hi Hp E. assert (pending s <> []) as Hne by by rewrite Hp.
  destruct (iv_pending _ Hi Hne) as (U1 & U2 & U3 & U4 & U5). rewrite Hp in U5.
  pose proof (fun q j Hj => word_store _ _ _ _ q j 3 E Hj ltac:(lia) _ eq_refl) as Hw.
  pose proof (fun t => slot_apart s t Hi Hne) as Hap.
  assert (complete s = count (posted s) - 1) as Hc by (unfold complete; by rewrite Hp).
  assert (complete (MkState (ring s) mem [] (seen s) (posted s) (handled s)) = complete s + 1) as Hc' by (unfold complete at 1; cbn [pending posted]; lia).
  assert (event_slot n s = complete s mod n) as Hsl by (unfold event_slot; rewrite Hc; done).
  assert (entry mem (event_slot n s) = event_block n s) as Hent.
  { apply entry_words. intros j Hj. rewrite Hw by done. destruct (decide (j = 3)) as [->|Hj3]; [by rewrite decide_True|]. rewrite decide_False by lia.
    destruct (U5 (Z.to_nat j) ltac:(lia)) as [Hin|Hword]; [set_solver by lia|]. rewrite Z2Nat.id in Hword by lia. exact Hword. }
  destruct Hi as [H1 H2 H3 H4 H5 H6 H7 H8]. split; rewrite ?Hc'; cbn [memory ring pending seen posted handled]; try done.
  - by rewrite (length_setZ _ _ _ _ E).
  - lia.
  - intros t x Ht Hx. destruct (decide (t = complete s)) as [->|Hne'].
    + rewrite <- Hsl, Hent. unfold event_block. replace (length (posted s) - 1)%nat with (Z.to_nat (complete s)) by (unfold count in *; lia).
      rewrite Hx. cbn. f_equal. f_equal. unfold count in *. lia.
    + rewrite <- (H5 t x ltac:(lia) Hx). specialize (Hap t ltac:(lia) Hne'). unfold entry. rewrite !Hw by lia. by rewrite !decide_False by naive_solver.
  - intros t Ht. destruct (decide (t = complete s + n)) as [->|Hne'].
    + assert ((complete s + n) mod n = event_slot n s) as -> by (rewrite Hsl, <- (Z_mod_plus_full (complete s) 1 n); f_equal; lia).
      rewrite Hw, decide_True by (done || lia). unfold event_block. rewrite word3_tagged. rewrite lap_bit_next, negb_involutive by lia.
      f_equal. unfold count in *. lia.
    + specialize (Hap t ltac:(lia) ltac:(lia)). rewrite Hw by lia. rewrite decide_False by naive_solver. apply H6. lia.
  - intros Hs. specialize (H8 Hs). lia.
Qed.

Lemma event_step_inv s s' : inv s -> step n s s' -> inv s'.
Proof.
  intros Hi [d Hp Hr|l1 i l2 mem Hp Hlast E|b Hb|Hf|Hs].
  - by apply post_inv.
  - destruct (decide (i = 3%nat)) as [->|H3]; [|by apply (word_early s l1 i l2)].
    specialize (Hlast eq_refl). apply app_eq_nil in Hlast as [-> ->]. by apply word_last.
  - by apply low_inv.
  - pose proof (proj1 (HasFront_spec s Hi) Hf). destruct Hi. by split.
  - by apply take_inv.
Qed.

(** *** The start *)

Definition start (e : EventRing) (mem : list Z) : State := MkState e mem [] false [] [].

Lemma event_start_inv e : ring_at 0 e -> inv (start e (replicate (Z.to_nat (4 * n)) 0)).
Proof.
  intros He. split; cbn [memory ring pending seen posted handled start]; unfold complete; cbn [pending start]; try done.
  - rewrite length_replicate. lia.
  - cbn. lia.
  - intros t Ht. assert (0 <= t < n) as Ht' by exact Ht. assert (lap_bit n t = true) as -> by (unfold lap_bit; by rewrite Z.div_small).
    unfold word, getZ. case_decide; [|done]. destruct (replicate _ _ !! _) eqn:El; [by apply lookup_replicate in El as [-> _]|done].
Qed.

Lemma event_reachable_inv e s : ring_at 0 e -> reachable n (start e (replicate (Z.to_nat (4 * n)) 0)) s -> inv s.
Proof. intros He. induction 1 as [|s s' _ IH Hs]; [by apply event_start_inv|by apply (event_step_inv s)]. Qed.

(** ** The loop of the driver *)

(** The events the driver has not taken, as it reads them. *)
Definition waiting (s : State) : list TRB :=
  map (fun t => entry (memory s) (t mod n)) (seqZ (count (handled s)) (complete s - count (handled s))).

Lemma waiting_events s : inv s -> map payload (waiting s) = map payload (take (Z.to_nat (complete s) - length (handled s)) (drop (length (handled s)) (posted s))).
Proof.
  intros Hi. destruct (iv_counts _ Hi) as [Hc _]. assert (complete s <= count (posted s)) as Hle by (unfold complete; destruct (pending s); lia).
  unfold count in *. apply list_eq. intros j. unfold waiting. rewrite !list_lookup_fmap.
  destruct (decide (Z.of_nat j < complete s - count (handled s))) as [Hj|Hj]; unfold count in *.
  - rewrite lookup_seqZ_lt by lia. rewrite lookup_take_lt, lookup_drop by lia. cbn [fmap option_fmap option_map].
    destruct (lookup_lt_is_Some_2 (posted s) (length (handled s) + j)) as [d Hd]; [lia|]. rewrite Hd. cbn.
    rewrite (iv_unread _ Hi (Z.of_nat (length (handled s)) + Z.of_nat j) d); [by rewrite payload_tagged|unfold count; lia|].
    rewrite <- Hd. f_equal. lia.
  - rewrite lookup_seqZ_ge by lia. rewrite lookup_take_ge by lia. done.
Qed.

Lemma pops_ring k c e : 0 <= c -> ring_at c e -> ring_at (c + Z.of_nat k) (Nat.iter k Pop e).
Proof.
  intros Hc He. induction k as [|k IH]; [by replace (c + Z.of_nat 0) with c by lia|].
  replace (c + Z.of_nat (S k)) with (c + Z.of_nat k + 1) by lia. cbn. by apply Pop_ring; [lia|].
Qed.

(** Without new events the loop handles those that wait, and returns. *)
Lemma ProcessEvents_spec {X} (OnEvent : TRB -> X -> outcome (Code * X)) k : forall fuel s x,
  inv s -> complete s - count (handled s) = Z.of_nat k -> (k < fuel)%nat ->
  ProcessEvents OnEvent fuel (memory s) (ring s) x = (y ← process_all OnEvent (waiting s) x; Ok (Nat.iter k Pop (ring s), y)).
Proof.
  induction k as [|k IH]; intros [|fuel] s x Hi Hk Hf; [lia| |lia|].
  - unfold waiting. rewrite Hk. cbn [ProcessEvents]. destruct (HasFront _ _) eqn:E; [|done]. apply (HasFront_spec s Hi) in E. lia.
  - pose proof (proj2 (HasFront_spec s Hi) ltac:(lia)) as Hh.
    assert (inv (MkState (ring s) (memory s) (pending s) true (posted s) (handled s))) as Hi'.
    { assert (count (handled s) < complete s) by lia. destruct Hi. by split. }
    pose proof (take_inv _ Hi' eq_refl) as Hi2. cbn [ring memory pending posted handled] in Hi2. set (s2 := MkState _ _ _ _ _ _) in Hi2.
    assert (waiting s = Front (memory s) (ring s) :: waiting s2) as Hw.
    { unfold waiting, s2, complete. cbn [memory posted handled pending]. rewrite count_app. fold (complete s).
      replace (complete s - count (handled s)) with (Z.succ (complete s - (count (handled s) + 1))) by lia.
      rewrite seqZ_cons by lia. rewrite Z.pred_succ. cbn [map]. by rewrite (Front_slot _ _ _ (iv_ring _ Hi)). }
    rewrite Hw. cbn [ProcessEvents process_all]. unfold ProcessEvent. rewrite Hh.
    destruct (OnEvent (Front (memory s) (ring s)) x) as [[c y]| |]; cbn [mbind outcome_bind]; [|done..].
    rewrite Nat.iter_succ_r. apply (IH fuel s2 y Hi2); [|lia].
    change (complete s2) with (complete s). unfold s2. cbn [handled]. rewrite count_app. lia.
Qed.

(** *** Properties of the runs *)

Lemma complete_bounds s : inv s -> count (posted s) - 1 <= complete s <= count (posted s) /\ (pending s = [] -> complete s = count (posted s)).
Proof. intros _. unfold complete. destruct (pending s); split; try done; lia. Qed.

(** The stores of the controller stay in the ring. *)
Lemma store_fits s l1 i l2 :
  inv s -> pending s = l1 ++ i :: l2 ->
  is_Some (setZ (memory s) (4 * event_slot n s + Z.of_nat i) (trb_word (event_block n s) (Z.of_nat i))).
Proof.
  intros Hi Hp. destruct (iv_pending _ Hi) as (_ & _ & _ & U4 & _); [rewrite Hp; by destruct l1|].
  rewrite Hp in U4. apply list.Forall_app in U4 as [_ U4]. apply list.Forall_cons in U4 as [U4 _].
  pose proof (Z.mod_pos_bound (Z.of_nat (length (posted s)) - 1) n ltac:(lia)). pose proof (iv_mem _ Hi).
  rewrite setZ_Some; [by eexists|]. unfold event_slot. lia.
Qed.
End invariant.

Section initialize.
Context (memory_pool : Z).
Hypothesis pool_range : 0 <= memory_pool /\ memory_pool + kMemoryPoolSize < 2 ^ 62.

Lemma Initialize_ring n a i a' e mem :
  3 <= n < 2 ^ 16 -> ptr_in_range memory_pool a -> Initialize memory_pool n a i = (a', Some (e, mem)) ->
  0 <= er_buf e < 2 ^ 64 - 16 * 2 ^ 16 /\ er_buf e mod 16 = 0 /\ ring_at n (er_buf e) 0 e /\ mem = replicate (Z.to_nat (4 * n)) 0.
Proof.
  intros Hn Ha. unfold Initialize, AllocArray. rewrite (u64_small (16 * n)) by lia.
  assert (request_ok (MkRequest (16 * n) 64 65536)) as Hq by (split; [cbn; lia|split; right; [exists 6|exists 16]; cbn; lia]).
  destruct (AllocMem_spec memory_pool pool_range _ a Hq Ha) as (a1 & p & E & _ & _ & Hp). cbn [req_size req_alignment req_boundary] in E.
  change (64 * 1024) with 65536. rewrite E. destruct p as [p|]; [|done]. destruct (Hp p eq_refl) as [(B1 & B2 & B3 & _) _].
  destruct (AllocMem _ (u64 (16 * 1)) 64 65536 a1) as [a2 [t|]]; [|done]. intros [= _ <- <-].
  assert (p mod 16 = 0) as Hal by (apply Z.mod_divide; [done|]; transitivity 64; [by exists 4|apply B3; cbn; lia]).
  unfold pool_end, kMemoryPoolSize in *. cbn [er_buf req_size] in *. split; [lia|]. split; [done|]. split; [|done].
  split; cbn [er_buf segment_base segment_size er_cycle]; try done.
  - apply u16_small. lia.
  - unfold ReadDequeuePointer. cbn [interrupter ERDP WriteDequeuePointer]. rewrite Pointer_SetPointer by done. rewrite Z.mod_0_l by lia. lia.
Qed.
End initialize.

(** C35. However the stores of the controller, which writes the last word of an
    event last, interleave with the driver: the driver handles exactly the
    events posted, complete, once and in order, around the end of the ring as
    well; it finds one exactly when the next is complete; the event it has found
    stays as it is until it is taken out; no store leaves the ring; and the
    loop of [ProcessEvents] handles all that are complete and returns. *)
Theorem event_ring_delivers memory_pool n a i a' e mem s :
  0 <= memory_pool /\ memory_pool + kMemoryPoolSize < 2 ^ 62 -> ptr_in_range memory_pool a -> 3 <= n < 2 ^ 16 ->
  Initialize memory_pool n a i = (a', Some (e, mem)) -> reachable n (start e mem) s ->
  map payload (handled s) = map payload (take (length (handled s)) (posted s)) /\
  (length (handled s) <= length (posted s))%nat /\
  (HasFront (memory s) (ring s) = true <-> count (handled s) < complete s) /\
  (pending s = [] -> complete s = count (posted s)) /\
  (seen s = true -> exists d, posted s !! length (handled s) = Some d /\ payload (Front (memory s) (ring s)) = payload d) /\
  (forall l1 j l2, pending s = l1 ++ j :: l2 ->
    is_Some (setZ (memory s) (4 * event_slot n s + Z.of_nat j) (trb_word (event_block n s) (Z.of_nat j)))) /\
  (pending s = [] -> exists e' ds, map payload ds = map payload (drop (length (handled s)) (posted s)) /\
    forall X (OnEvent : TRB -> X -> outcome (Code * X)) x fuel, (length (posted s) < fuel)%nat ->
      ProcessEvents OnEvent fuel (memory s) (ring s) x = (y ← process_all OnEvent ds x; Ok (e', y))).
Proof.
  intros Hr Ha Hn Hini Hs. destruct (Initialize_ring memory_pool Hr n a i a' e mem Hn Ha Hini) as (Hb & Hal & He & ->).
  pose proof (event_reachable_inv n (er_buf e) Hn Hb Hal e s He Hs) as Hi.
  pose proof (complete_bounds n _ s Hi) as [Hc Hc0]. destruct (iv_counts _ _ _ Hi) as [Hh _]. unfold count in *.
  split; [apply Hi|]. split; [lia|]. split; [exact (HasFront_spec n _ Hn s Hi)|]. split; [done|]. split; [|split].
  - intros Hseen. destruct (Front_posted n _ s Hi (iv_seen _ _ _ Hi Hseen)) as (d & Hd & ->). exists d. split; [done|apply payload_tagged].
  - intros l1 j l2 Hp. by eapply store_fits.
  - intros Hp. specialize (Hc0 Hp). exists (Nat.iter (length (posted s) - length (handled s)) Pop (ring s)), (waiting n s). split.
    + rewrite (waiting_events n _ s Hi). rewrite Hc0, Nat2Z.id, take_ge; [done|rewrite length_drop; lia].
    + intros X OnEvent x fuel Hf. apply (ProcessEvents_spec n _ Hn Hal OnEvent); [done|unfold count; lia|lia].
Qed.

(** *** Witness: one event, its words stored out of order *)

Definition sample_interrupter : Interrupter := MkInterrupter 0 0 8.
Definition sample_event : TRB := MkTRB (Z.shiftl 1 24) 0 0 (Z.shiftl 34 10).
Definition sample_start : EventRing * list Z := default (MkER 0 0 true 0 0 sample_interrupter, []) (snd (Initialize 0x100000 4 0x100000 sample_interrupter)).
Definition controller_store (j : nat) (s : State) : State :=
  MkState (ring s) (default [] (setZ (memory s) (4 * event_slot 4 s + Z.of_nat j) (trb_word (event_block 4 s) (Z.of_nat j))))
    (List.filter (fun k => negb (k =? j)%nat) (pending s)) (seen s) (posted s) (handled s).
Definition sample_begun : State :=
  MkState (fst sample_start) (snd sample_start) [0; 1; 2; 3]%nat false [sample_event] [].
Definition sample_stored : State := controller_store 3 (controller_store 0 (controller_store 2 (controller_store 1 sample_begun))).

Lemma event_ring_delivers_witness :
  HasFront (memory sample_begun) (ring sample_begun) = false /\
  HasFront (memory sample_stored) (ring sample_stored) = true /\
  exists e ds, map payload ds = [payload sample_event] /\
    forall X (OnEvent : TRB -> X -> outcome (Code * X)) x,
      ProcessEvents OnEvent 2 (memory sample_stored) (ring sample_stored) x = (y ← process_all OnEvent ds x; Ok (e, y)).
Proof.
  assert (Hr : reachable 4 (start (fst sample_start) (snd sample_start)) sample_stored).
  { eapply reach_next; [eapply reach_next; [eapply reach_next; [eapply reach_next; [eapply reach_next; [apply reach_refl|]|]|]|]|].
    - apply (step_post _ _ sample_event); [done|cbn; lia].
    - apply (step_word _ _ [0]%nat 1 [2; 3]%nat); [done|lia|by vm_compute].
    - apply (step_word _ _ [0]%nat 2 [3]%nat); [done|lia|by vm_compute].
    - apply (step_word _ _ [] 0 [3]%nat); [done|lia|by vm_compute].
    - apply (step_word _ _ [] 3 []); [done|done|by vm_compute]. }
  destruct (event_ring_delivers 0x100000 4 0x100000 sample_interrupter (fst (Initialize 0x100000 4 0x100000 sample_interrupter))
    (fst sample_start) (snd sample_start) sample_stored) as (_ & _ & Hf & _ & _ & _ & H).
  - unfold kMemoryPoolSize. lia.
  - unfold ptr_in_range, pool_limit, pool_end, kMemoryPoolSize. by vm_compute.
  - lia.
  - by vm_compute.
  - exact Hr.
  - split; [by vm_compute|]. split; [apply Hf; by vm_compute|]. destruct (H eq_refl) as (e & ds & Hds & Hp).
    exists e, ds. split; [exact Hds|]. intros X OnEvent x. apply Hp. cbn. lia.
Defined.
