(* ===== verification/SystemTask.v ===== *)
(** * The system task (kernel/main.cpp, kernel/system.cpp)

    The main task of the kernel serves requests: it grows the buffer of a task,
    starts servers and applications, and runs the USB driver when the controller
    interrupts. A task it starts reports its end when its program has returned. *)

From stdpp Require Import base list numbers option gmap.
From Stdlib Require Import ZArith Lia.
From S2P Require Import UsbRing BitField UsbTrb UsbDevice Keyboard Xhci EventRing.
From S2P Require Import Prelude Bytes Message Task Timer KernelLog Syscall.

Local Open Scope Z_scope.

(** What a task does next: goes on, or the processor switches. *)
Section system.
Context {Q : Type} `{!PriorityQueue Q}.

(** The kernel with the USB driver: the event ring, its memory, the ports and
    devices. *)
Record System := MkSystem { kernel : @Kernel Q; er : EventRing; er_memory : list Z; xhc : XHC }.
Definition set_kernel k s := MkSystem k (er s) (er_memory s) (xhc s).
Definition tasks_of (s : System) : TaskManager := task_manager (kernel s).
Definition set_tasks_of tm s := set_kernel (set_tm tm (kernel s)) s.

(** The page table of the kernel, the end of the stack of a task, the entries of
    the tasks, what the uninitialised message [smsg] holds, and the texts that
    [printk] makes of a format and two numbers. *)
Context (kernel_cr3 : Z) (stack_end : Z -> Z) (TaskServer TaskApp TaskInitServer : Z) (smsg_arg : list Z).
Context (text_started : Z -> list Z) (text_unknown : MsgType -> Z -> list Z) (text_finished : Z -> list Z).
(** The parameters of the USB driver, and its registers. *)
Context (memory_pool sizeof_keyboard sizeof_mouse hid_buf_offset sizeof_device off_buf off_ctx off_input : Z) (portsc : Z -> Z).

(** [src/kernel/system.cpp:456-467] [printk] *)
Definition printk (text : list Z) (s : System) : option System :=
  l ← KernelLogWrite text (kernel_log (kernel s)); Some (set_kernel (set_log l (kernel s)) s).

(** ** The USB driver *)

(** What the drivers of a device noticed since then. *)
Definition new_acts (d d' : option XDevice) : list UsbDevice.action :=
  match d' with
  | None => []
  | Some d' => drop (match d with Some d => length (acts (dev d)) | None => 0%nat end) (acts (dev d'))
  end.

Fixpoint observe_devices (ds ds' : list (option XDevice)) (tm : TaskManager) : option TaskManager :=
  match ds, ds' with
  | d :: ds, d' :: ds' => tm ← observe_all (new_acts d d') tm; observe_devices ds ds' tm
  | _, _ => Some tm
  end.

(** An event, and the messages of the observers of the device it is for. *)
Definition usb_event (e : TRB) (st : XHC * TaskManager) : outcome (Code * (XHC * TaskManager)) :=
  let '(x, tm) := st in
  '(c, x') ← Xhci.OnEvent memory_pool sizeof_keyboard sizeof_mouse hid_buf_offset sizeof_device off_buf off_ctx off_input portsc e x;
  tm ← defined (observe_devices (devices x) (devices x') tm);
  Ok (c, (x', tm)).

(** The ring holds fewer events than it has blocks.
    [src/kernel/main.cpp:85-87] [KernelMainNewStack] *)
Definition usb_events (s : System) : outcome System :=
  '(e, (x, tm)) ← ProcessEvents usb_event (S (Z.to_nat (er_size (er s)))) (er_memory s) (er s) (xhc s, tasks_of s);
  Ok (MkSystem (set_tm tm (kernel s)) e (er_memory s) x).

(** ** Requests *)

(** The reply has the sender 1.
    [src/kernel/main.cpp:89-97] [KernelMainNewStack] *)
Definition expand_request (m : Message) (s : System) : outcome System :=
  let '(tm, _) := ExpandTaskBuffer (getU expand_id m) (getU expand_bytes m) (tasks_of s) in
  '(tm, _) ← defined (SendMessage (src_task m) (MkMessage kExpandTaskBuffer 1 smsg_arg) tm);
  Ok (set_tasks_of tm s).

(** [src/kernel/main.cpp:99-109] [KernelMainNewStack] *)
Definition start_request (f : Z) (m : Message) (s : System) : outcome System :=
  let i := getU starttask_id m in
  '(tm, _) ← defined (StartTask kernel_cr3 (stack_end i) f i (src_task m) (tasks_of s));
  Ok (set_tasks_of tm s).

(** [src/kernel/main.cpp:84-114] [KernelMainNewStack] *)
Definition dispatch (m : Message) (s : System) : outcome System :=
  match type m with
  | kInterruptXHCI => usb_events s
  | kExpandTaskBuffer => expand_request m s
  | kStartServer => start_request TaskServer m s
  | kStartApp => s ← start_request TaskApp m s; defined (printk (text_started (getU starttask_id m)) s)
  | _ => defined (printk (text_unknown (type m) (src_task m)) s)
  end.

Definition system_id : Z := 1.

(** A turn of the loop.
    [src/kernel/main.cpp:74-116] [KernelMainNewStack] *)
Definition turn (s : System) : outcome (System * control) :=
  t ← defined (find_task (tasks_of s) system_id);
  match Task_ReceiveMessage t with
  | (None, _) => '(tm, c) ← defined (Sleep system_id (tasks_of s)); Ok (set_tasks_of tm s, c)
  | (Some m, t') => s ← dispatch m (set_tasks_of (upd_task system_id (set_msgs (msgs t')) (tasks_of s)) s); Ok (s, Continue)
  end.

(** The turns up to the first that finds no message and sleeps. *)
Fixpoint run (fuel : nat) (s : System) : outcome System :=
  match fuel with
  | O => Waits
  | S fuel' =>
      t ← defined (find_task (tasks_of s) system_id);
      '(s, _) ← turn s;
      match msgs t with [] => Ok s | _ => run fuel' s end
  end.

(** *** What a turn does *)

(** A request to grow the buffer of [n], and its answer. *)
Lemma turn_expands (s : System) m t1 ti tn n q :
  sched_ok (tasks_of s) -> find_task (tasks_of s) system_id = Some t1 -> msgs t1 = m :: q -> type m = kExpandTaskBuffer ->
  getU expand_id m = n -> find_task (tasks_of s) n = Some tn -> find_task (tasks_of s) (src_task m) = Some ti ->
  src_task m <> system_id -> n <> system_id -> n <> src_task m ->
  exists tm, turn s = Ok (set_tasks_of tm s, Continue) /\ sched_ok tm /\ same_rest (tasks_of s) tm /\
    find_task tm system_id = Some (set_msgs q t1) /\
    find_task tm (src_task m) = Some (SetRunning true (set_msgs (msgs ti ++ [MkMessage kExpandTaskBuffer 1 smsg_arg]) ti)) /\
    find_task tm n = Some (set_buf (resize (Z.to_nat (getU expand_bytes m)) 0 (buf tn)) tn) /\
    forall j, j <> system_id -> j <> src_task m -> j <> n -> find_task tm j = find_task (tasks_of s) j.
Proof.
  intros H H1 Hm Hty Hn Htn Hti Hme Hn1 Hnme.
  destruct (popped_ok system_id q (tasks_of s) H) as [Hp Op].
  set (tma := upd_task system_id (set_msgs q) (tasks_of s)) in *.
  set (f := set_buf (resize (Z.to_nat (getU expand_bytes m)) 0 (buf tn))).
  assert (sched_ok (upd_task n f tma)) as Hb by (apply upd_ok; [apply set_buf_keeps|done]).
  assert (only_task n f tma (upd_task n f tma)) as Ob by by apply upd_only.
  set (tmb := upd_task n f tma) in *.
  destruct (send_ok (src_task m) (MkMessage kExpandTaskBuffer 1 smsg_arg) ti tmb Hb) as (tmc & Ec & Hc & Rc & Oc).
  { by rewrite (only_other _ _ _ _ _ Ob), (only_other _ _ _ _ _ Op) by done. }
  exists tmc. split; [|split; [exact Hc|split; [exact Rc|split_and!]]].
  - unfold turn. rewrite H1. cbn [defined mbind outcome_bind]. unfold Task_ReceiveMessage. rewrite Hm. cbn [msgs set_msgs]. fold tma.
    unfold dispatch. rewrite Hty. unfold expand_request. change (tasks_of (set_tasks_of tma s)) with tma.
    unfold ExpandTaskBuffer. rewrite Hn, (only_other _ _ _ _ _ Op), Htn by done. fold f tmb. by rewrite Ec.
  - rewrite (only_other _ _ _ _ _ Oc), (only_other _ _ _ _ _ Ob) by done. exact (only_at _ _ _ _ _ Op H1).
  - apply (only_at _ _ _ _ _ Oc). by rewrite (only_other _ _ _ _ _ Ob), (only_other _ _ _ _ _ Op) by done.
  - rewrite (only_other _ _ _ _ _ Oc) by done. apply (only_at _ _ _ _ _ Ob). by rewrite (only_other _ _ _ _ _ Op) by done.
  - intros j J1 J2 J3. by rewrite (only_other _ _ _ _ _ Oc), (only_other _ _ _ _ _ Ob), (only_other _ _ _ _ _ Op).
Qed.

(** A task started at [f], with what it is told. *)
Lemma request_starts (s : System) f m tn n :
  sched_ok (tasks_of s) -> getU starttask_id m = n -> find_task (tasks_of s) n = Some tn ->
  exists tm, start_request f m s = Ok (set_tasks_of tm s) /\ sched_ok tm /\ same_rest (tasks_of s) tm /\
    only_task n (fun t => SetRunning true (InitContext kernel_cr3 (stack_end n) f (src_task m) t)) (tasks_of s) tm.
Proof.
  intros H Hn Htn. set (g := InitContext kernel_cr3 (stack_end n) f (src_task m)).
  assert (sched_ok (upd_task n g (tasks_of s))) as Hb by (apply upd_ok; [apply InitContext_keeps|done]).
  assert (only_task n g (tasks_of s) (upd_task n g (tasks_of s))) as Ob by by apply upd_only.
  destruct (Wakeup_ok n (-1) (g tn) _ Hb (only_at _ _ _ _ _ Ob Htn)) as (tmc & Ec & [Hc Rc Oc]); [split; unfold kMaxLevel; lia|].
  exists tmc. split; [|split; [exact Hc|split; [exact Rc|]]].
  - unfold start_request, StartTask. rewrite Hn, Htn. fold g. by rewrite Ec.
  - intros j. rewrite (Oc j). case_decide as E; [subst j|by rewrite (only_other _ _ _ _ _ Ob)]. rewrite (only_at _ _ _ _ _ Ob Htn), Htn. by destruct tn.
Qed.

Lemma turn_starts (s : System) m t1 tn n q :
  sched_ok (tasks_of s) -> find_task (tasks_of s) system_id = Some t1 -> msgs t1 = m :: q -> type m = kStartServer ->
  getU starttask_id m = n -> find_task (tasks_of s) n = Some tn -> n <> system_id ->
  exists tm, turn s = Ok (set_tasks_of tm s, Continue) /\ sched_ok tm /\ same_rest (tasks_of s) tm /\
    find_task tm system_id = Some (set_msgs q t1) /\
    find_task tm n = Some (SetRunning true (InitContext kernel_cr3 (stack_end n) TaskServer (src_task m) tn)) /\
    forall j, j <> system_id -> j <> n -> find_task tm j = find_task (tasks_of s) j.
Proof.
  intros H H1 Hm Hty Hn Htn Hn1. destruct (popped_ok system_id q (tasks_of s) H) as [Hp Op].
  set (tma := upd_task system_id (set_msgs q) (tasks_of s)) in *.
  assert (find_task tma n = Some tn) as Hna by (by rewrite (only_other _ _ _ _ _ Op)).
  destruct (request_starts (set_tasks_of tma s) TaskServer m tn n Hp Hn Hna) as (tmc & Ec & Hc & Rc & Oc).
  change (tasks_of (set_tasks_of tma s)) with tma in *.
  exists tmc. split; [|split; [exact Hc|split; [exact Rc|split_and!]]].
  - unfold turn. rewrite H1. cbn [defined mbind outcome_bind]. unfold Task_ReceiveMessage. rewrite Hm. cbn [msgs set_msgs]. fold tma.
    unfold dispatch. rewrite Hty. by rewrite Ec.
  - rewrite (only_other _ _ _ _ _ Oc) by done. exact (only_at _ _ _ _ _ Op H1).
  - exact (only_at _ _ _ _ _ Oc Hna).
  - intros j J1 J2. by rewrite (only_other _ _ _ _ _ Oc), (only_other _ _ _ _ _ Op).
Qed.

(** An application is started, and the log told. *)
Lemma turn_starts_app (s : System) m t1 tn n q :
  sched_ok (tasks_of s) -> find_task (tasks_of s) system_id = Some t1 -> msgs t1 = m :: q -> type m = kStartApp ->
  getU starttask_id m = n -> find_task (tasks_of s) n = Some tn -> n <> system_id ->
  log_ok (kernel_log (kernel s)) -> Z.of_nat (pending_len (kernel_log (kernel s)) + length (text_started n)) < log_size ->
  exists tm l, turn s = Ok (set_kernel (set_log l (kernel (set_tasks_of tm s))) s, Continue) /\ sched_ok tm /\ same_rest (tasks_of s) tm /\
    log_ok l /\ pending l = pending (kernel_log (kernel s)) ++ text_started n /\ find_task tm system_id = Some (set_msgs q t1) /\
    find_task tm n = Some (SetRunning true (InitContext kernel_cr3 (stack_end n) TaskApp (src_task m) tn)) /\
    forall j, j <> system_id -> j <> n -> find_task tm j = find_task (tasks_of s) j.
Proof.
  intros H H1 Hm Hty Hn Htn Hn1 Hlog Hroom. destruct (popped_ok system_id q (tasks_of s) H) as [Hp Op].
  set (tma := upd_task system_id (set_msgs q) (tasks_of s)) in *.
  assert (find_task tma n = Some tn) as Hna by (by rewrite (only_other _ _ _ _ _ Op)).
  destruct (request_starts (set_tasks_of tma s) TaskApp m tn n Hp Hn Hna) as (tmc & Ec & Hc & Rc & Oc).
  change (tasks_of (set_tasks_of tma s)) with tma in *.
  destruct (KernelLogWrite_spec (text_started n) _ Hlog Hroom) as (l & El & Hl & Hpl).
  exists tmc, l. split; [|split; [exact Hc|split; [exact Rc|split; [done|split; [done|split_and!]]]]].
  - unfold turn. rewrite H1. cbn [defined mbind outcome_bind]. unfold Task_ReceiveMessage. rewrite Hm. cbn [msgs set_msgs]. fold tma.
    unfold dispatch. rewrite Hty, Ec. cbn [mbind outcome_bind]. rewrite Hn. unfold printk.
    change (kernel_log (kernel (set_tasks_of tmc (set_tasks_of tma s)))) with (kernel_log (kernel s)). by rewrite El.
  - rewrite (only_other _ _ _ _ _ Oc) by done. exact (only_at _ _ _ _ _ Op H1).
  - exact (only_at _ _ _ _ _ Oc Hna).
  - intros j J1 J2. by rewrite (only_other _ _ _ _ _ Oc), (only_other _ _ _ _ _ Op).
Qed.

(** ** The tasks it starts *)

(** [DataOfServer] is passed to [TaskInitServer]; [data] is its address.
    [src/kernel/system.cpp:380-396] [InitializeSystemTask] *)
Definition InitializeSystemTask (image : list Z) (data : Z) (k : @Kernel Q) : option Kernel :=
  let '(tm, i) := NewTask (task_manager k) in
  tm ← Wakeup i (-1) (upd_task i (InitContext kernel_cr3 (stack_end i) TaskInitServer data) tm);
  Some (set_tm tm (set_log (MkLog (log_buf (kernel_log k)) 0 0 false) (set_image image k))).

(** After [ExecuteServer] has returned in the current task: [init_id] is told its
    name, and the task finishes. [junk] is what the message holds.
    [src/kernel/system.cpp:314-321] [TaskServer] *)
Definition TaskServer_end (init_id : Z) (junk : list Z) (tm : TaskManager) : outcome (TaskManager * control) :=
  i ← defined (CurrentTask tm); t ← defined (find_task tm i);
  name ← defined (c_str (arg_ t));
  m ← defined (putS exitserver_name name (MkMessage kExitServer 1 junk));
  '(tm, _) ← defined (SendMessage init_id m tm);
  defined (Finish 1 tm).

(** The message of an application whose program has returned [ec].
    [src/kernel/system.cpp:336-340] [TaskApp] *)
Definition exit_message (i ec : Z) (junk : list Z) : Message :=
  setF exitapp_result (u64 ec) (setF exitapp_id i (MkMessage kExitApp i junk)).

(** It is sent again when [am_id] asks for it, until its receipt is
    acknowledged; [None] in the result: the task sleeps.
    [src/kernel/system.cpp:343-369] [TaskApp] *)
Fixpoint TaskApp_wait (fuel : nat) (i am_id ec : Z) (m : Message) (s : System) : outcome (System * control) :=
  match fuel with
  | O => Waits
  | S fuel' =>
      t ← defined (find_task (tasks_of s) i);
      match Task_ReceiveMessage t with
      | (None, _) => '(tm, c) ← defined (Sleep i (tasks_of s)); Ok (set_tasks_of tm s, c)
      | (Some r, t') =>
          let s := set_tasks_of (upd_task i (set_msgs (msgs t')) (tasks_of s)) s in
          match type r with
          | kError =>
              if decide (getI error_retry r <> 0) then
                '(tm, _) ← defined (SendMessage am_id m (tasks_of s)); TaskApp_wait fuel' i am_id ec m (set_tasks_of tm s)
              else TaskApp_wait fuel' i am_id ec m s
          | kReceived =>
              s ← defined (printk (text_finished i) s);
              '(tm, c) ← defined (Finish ec (tasks_of s)); Ok (set_tasks_of tm s, c)
          | _ => TaskApp_wait fuel' i am_id ec m s
          end
      end
  end.

(** After [ExecuteApp] has returned [ec] in the current task.
    [src/kernel/system.cpp:326-371] [TaskApp] *)
Definition TaskApp_end (am_id ec : Z) (junk : list Z) (s : System) : outcome (System * control) :=
  i ← defined (CurrentTask (tasks_of s)); t ← defined (find_task (tasks_of s) i);
  let m := exit_message i ec junk in
  '(tm, _) ← defined (SendMessage am_id m (tasks_of s));
  TaskApp_wait (S (S (length (msgs t)))) i am_id ec m (set_tasks_of tm s).
End system.
