(* ===== verification/Init.v ===== *)
(** * The init server (servers/init/init.cpp)

    The first program starts the servers, reading their files from the volume by
    a file system of its own, and starts one again when it has ended. The kernel
    is a class: the system calls with their effect. *)

From S2P Require Import Prelude Bytes Message KernelLog Fat.
From stdpp Require Import base list numbers option.
From Stdlib Require Import ZArith Lia.

Local Open Scope Z_scope.

(** The system calls the server makes, on a state that holds the kernel; a
    receive that gets no message does not return. *)
Class SystemCalls (K : Type) := {
  SyscallCreateNewTask : K -> K * Z;
  SyscallSendMessage : Message -> Z -> K -> outcome K;
  SyscallClosedReceiveMessage : Z -> K -> outcome (Message * K);
  SyscallOpenReceiveMessage : K -> outcome (Message * K);
  SyscallCopyToTaskBuffer : Z -> list Z -> Z -> K -> outcome K;
  SyscallSetArgument : Z -> list Z -> K -> outcome K;
}.

Section init.
Context {D : Type} `{!BlockDevice D} {K : Type} `{!SystemCalls K} (fuel : nat).

(** Its buffers and boot sector are those of [FileSystem]; it has no member
    [cluster_num], which no operation here uses.
    [src/servers/init/init.hpp:80-105] [InitServer] *)
Record InitServer := MkInit {
  ifs : @FileSystem D;
  send_message : Message;
  received_message : Message;
  target_task_id : Z;
  sys : K;
}.
Definition set_ifs f s := MkInit f (send_message s) (received_message s) (target_task_id s) (sys s).
Definition set_send m s := MkInit (ifs s) m (received_message s) (target_task_id s) (sys s).
Definition set_received m s := MkInit (ifs s) (send_message s) m (target_task_id s) (sys s).
Definition set_target i s := MkInit (ifs s) (send_message s) (received_message s) i (sys s).
Definition set_sys k s := MkInit (ifs s) (send_message s) (received_message s) (target_task_id s) k.

(** ** Its file system *)

(** [src/servers/init/init.cpp:84-106] [InitServer::NextCluster] *)
Definition NextCluster (cluster : Z) (f : @FileSystem D) : option (@FileSystem D * Z) :=
  let per_sector := bytes_per_sector (bpb f) / 4 in
  if decide (per_sector = 0) then None
  else
    let sector_offset := cluster / per_sector in
    data ← bd_read (dev f) (u64 (reserved_sector_count (bpb f) + sector_offset)) 1;
    buf ← write_at (fat_ f) 0 data;
    let f := set_fat_buf buf f in
    next ← fat_ref (cluster - per_sector * sector_offset) f;
    Some (f, if decide (eoc_min <= next) then end_of_chain else next).

(** [src/servers/init/init.cpp:108-121] [InitServer::ReadCluster] *)
Definition ReadCluster (cluster : Z) (f : @FileSystem D) : option (@FileSystem D) :=
  data ← bd_read (dev f) (cluster_sector cluster f) (sectors_per_cluster (bpb f));
  buf ← write_at (cluster_buf f) 0 data;
  Some (set_cluster_buf buf f).

(** The boot sector, and the buffers, whose contents are not initialised; the
    other types of FAT are not supported.
    [src/servers/init/init.cpp:12-30] [InitServer::Initialize] *)
Definition Initialize (d : D) (fat0 buf0 : Z -> list Z) : option (option (@FileSystem D)) :=
  sector ← bd_read d 0 1;
  let b := parse_bpb sector in
  Some (if decide (total_sectors_16 b = 0) then
    let bpc := bytes_per_sector b * sectors_per_cluster b in Some (MkFS d b (fat0 (bytes_per_sector b)) (buf0 bpc) 0 bpc)
  else None).

(** The same code as in the file system server.
    [src/servers/init/init.cpp:123-137] [InitServer::NameIsEqual] *)
Definition NameIsEqual (e : list Z) (name : list Z) : bool := bool_decide (entry_name e = name83_loop name 0 (replicate 11 32)).

(** [src/servers/init/init.cpp:139-151] [InitServer::NextPathElement] *)
Definition NextPathElement (path : list Z) : option (list Z * option (list Z) * bool) :=
  let '(elem, next) := split_slash path in
  _ ← strcpy (replicate 13 0) 0 elem;
  Some (elem, next, match next with None => false | Some _ => true end).

(** [src/servers/init/init.cpp:170-185] [InitServer::FindFile] *)
Fixpoint scan_dir (n i : nat) (elem : list Z) (f : @FileSystem D) : option nat :=
  match n with
  | O => None
  | S n' => if NameIsEqual (entry_at i f) elem then Some i else scan_dir n' (S i) elem f
  end.

(** The loop over the clusters of a directory.
    [src/servers/init/init.cpp:166-187] [InitServer::FindFile] *)
Fixpoint find_cluster (turns : nat) (elem : list Z) (directory_cluster : Z) (f : @FileSystem D) : option (@FileSystem D * option nat) :=
  match turns with
  | O => None
  | S turns' =>
      if decide (directory_cluster = end_of_chain) then Some (f, None)
      else
        f1 ← ReadCluster directory_cluster f;
        match scan_dir (num_entries f1) 0 elem f1 with
        | Some i => Some (f1, Some i)
        | None => '(f2, next) ← NextCluster directory_cluster f1; find_cluster turns' elem next f2
        end
  end.

(** [src/servers/init/init.cpp:153-190] [InitServer::FindFile] *)
Fixpoint FindFile_rec (depth : nat) (path : list Z) (directory_cluster : Z) (f : @FileSystem D) :
    option (@FileSystem D * option nat * bool) :=
  match depth with
  | O => None
  | S depth' =>
      let '(path, directory_cluster) :=
        match path with
        | c :: path' => if decide (c = char_slash) then (path', root_cluster (bpb f))
                        else (path, if decide (directory_cluster = 0) then root_cluster (bpb f) else directory_cluster)
        | [] => (path, if decide (directory_cluster = 0) then root_cluster (bpb f) else directory_cluster)
        end in
      '(path_elem, next_path, post_slash) ← NextPathElement path;
      let path_last := match next_path with None | Some [] => true | _ => false end in
      '(f1, found) ← find_cluster fuel path_elem directory_cluster f;
      match found with
      | None => Some (f1, None, post_slash)
      | Some i =>
          if bool_decide (attr (entry_at i f1) = kDirectory) && negb path_last then
            FindFile_rec depth' (default [] next_path) (FirstCluster (entry_at i f1)) f1
          else Some (f1, Some i, post_slash)
      end
  end.
Definition FindFile (path : list Z) (directory_cluster : Z) (f : @FileSystem D) : option (@FileSystem D * option nat * bool) :=
  FindFile_rec (S (length path)) path directory_cluster f.

(** ** Starting servers *)

(** [const char *server_name] is one of the literals of [servers], or points to
    the name inside [received_message_], where the next message received is
    stored too.
    [src/servers/init/init.cpp:32] [server_name] *)
Inductive ServerName := Literal (l : list Z) | ExitName.
(** The name is read through the pointer at each use.
    [src/servers/init/init.cpp:65] [InitServer::StartServers] *)
Definition read_name (p : ServerName) (s : InitServer) : option (list Z) :=
  match p with Literal l => Some l | ExitName => getS exitserver_name (received_message s) end.

Definition send_to_kernel (s : InitServer) : outcome InitServer :=
  k ← SyscallSendMessage (send_message s) 1 (sys s); Ok (set_sys k s).

(** [src/servers/init/init.cpp:50-64] [InitServer::StartServers] *)
Fixpoint copy_loop (turns : nat) (cluster remain_bytes offset : Z) (s : InitServer) : outcome InitServer :=
  match turns with
  | O => Undefined
  | S turns' =>
      if decide (cluster <> 0 /\ cluster <> end_of_chain) then
        f1 ← defined (ReadCluster cluster (ifs s));
        let bpc := bytes_per_cluster f1 in
        let whole := bool_decide (bpc <= remain_bytes) in
        data ← defined (read_at (cluster_buf f1) 0 (Z.to_nat (if whole then bpc else remain_bytes)));
        k ← SyscallCopyToTaskBuffer (target_task_id s) data (u64 offset) (sys s);
        '(f2, next) ← defined (NextCluster cluster f1);
        copy_loop turns' next (if whole then remain_bytes - bpc else remain_bytes) (if whole then s32 (offset + bpc) else offset)
          (set_sys k (set_ifs f2 s))
      else Ok s
  end.

(** What the server logs is left out. The name is read for [FindFile], and again
    for [strcpy], after the answer has been received.
    [src/servers/init/init.cpp:32-74] [InitServer::StartServers] *)
Definition StartServers (server_name : ServerName) (s : InitServer) : outcome InitServer :=
  path ← defined (read_name server_name s);
  '(f, file_entry, _) ← defined (FindFile path 0 (ifs s));
  let s := set_ifs f s in
  match file_entry with
  | None => Ok s
  | Some i =>
      let e := entry_at i f in
      let '(k, id) := SyscallCreateNewTask (sys s) in
      let s := set_target id (set_sys k s) in
      let s := set_send (setF expand_bytes (file_size e) (setF expand_id id (set_type kExpandTaskBuffer (send_message s)))) s in
      s ← send_to_kernel s;
      '(m, k) ← SyscallClosedReceiveMessage 1 (sys s);
      let s := set_received m (set_sys k s) in
      if decide (type m = kExpandTaskBuffer) then
        s ← copy_loop fuel (FirstCluster e) (file_size e) 0 s;
        text ← defined (read_name server_name s);
        bufc ← defined (strcpy (replicate 32 0) 0 text); name ← defined (c_str bufc);
        k ← SyscallSetArgument (target_task_id s) name (sys s);
        let s := set_sys k s in
        send_to_kernel (set_send (setF starttask_id (target_task_id s) (set_type kStartServer (send_message s))) s)
      else Ok s
  end.

(** The name is handed over as a pointer into [received_message_].
    [src/servers/init/init.cpp:76-82] [InitServer::WaitingForMessage] *)
Definition WaitingForMessage (s : InitServer) : outcome InitServer :=
  '(m, k) ← SyscallOpenReceiveMessage (sys s);
  let s := set_received m (set_sys k s) in
  if decide (type m = kExitServer) then StartServers ExitName s else Ok s.

Fixpoint start_all (names : list (list Z)) (s : InitServer) : outcome InitServer :=
  match names with [] => Ok s | n :: names' => s ← StartServers (Literal n) s; start_all names' s end.

(** "servers/gui", "servers/log", "servers/am", "servers/fs",
    "servers/terminal".
    [src/servers/init/init.hpp:74-78] [servers] *)
Definition servers : list (list Z) :=
  let dir := [115; 101; 114; 118; 101; 114; 115; 47] in
  [dir ++ [103; 117; 105]; dir ++ [108; 111; 103]; dir ++ [97; 109]; dir ++ [102; 115]; dir ++ [116; 101; 114; 109; 105; 110; 97; 108]].

(** [turns] messages after the start.
    [src/servers/init/init.cpp:205-215] [main] *)
Fixpoint wait_for_messages (turns : nat) (s : InitServer) : outcome InitServer :=
  match turns with O => Ok s | S turns' => s ← WaitingForMessage s; wait_for_messages turns' s end.
Definition main (turns : nat) (s : InitServer) : outcome InitServer := s ← start_all servers s; wait_for_messages turns s.
End init.
