(* ===== verification/Supervisor.v ===== *)
(** * Servers are started, and started again (servers/init/init.cpp, kernel/main.cpp, kernel/system.cpp)

    The init server over the kernel: its system calls are those of the task
    manager, and while it waits for the system task that task handles its
    messages. A server that ends is started again from its file. *)

From S2P Require Import UsbRing BitField UsbTrb UsbDevice Keyboard Xhci EventRing.
From S2P Require Import Fat FatChain FatSample FatDir FsServer FsExec.
From S2P Require Import Prelude Bytes Message Task Timer KernelLog Syscall SystemTask Init.
From stdpp Require Import base list numbers option gmap.
From Stdlib Require Import ZArith Lia.

Local Open Scope Z_scope.

(** ** The file system of the init server *)

Section files.
Context {D : Type} `{!BlockDevice D} (M : Z) (fuel : nat).
Implicit Types f : @FileSystem D.

(** It does what the file system server does, which also notes the cluster it
    read. *)
Definition noted (n : Z) (r : @FileSystem D * Z) : @FileSystem D * Z := (set_cluster_num n (fst r), snd r).

Lemma NextCluster_noted n c f : Fat.NextCluster c (set_cluster_num n f) = noted n <$> Init.NextCluster c f.
Proof.
  unfold Fat.NextCluster, Init.NextCluster, GetFAT, entries_per_sector. cbn [bpb dev fat_ set_cluster_num].
  destruct (decide _); [done|]. destruct (bd_read _ _ _); [|done]. cbn [mbind option_bind]. destruct (write_at _ _ _); [|done].
  cbn [mbind option_bind]. unfold fat_ref. cbn [fat_ set_fat_buf set_cluster_num]. by destruct (decide _).
Qed.

Lemma NextCluster_same c f : Init.NextCluster c f = Fat.NextCluster c f.
Proof.
  unfold Fat.NextCluster, Init.NextCluster, GetFAT, entries_per_sector. destruct (decide _); [done|].
  destruct (bd_read _ _ _); [|done]. cbn. by destruct (write_at _ _ _).
Qed.

Lemma ReadCluster_noted n c f : Fat.ReadCluster c (set_cluster_num n f) = set_cluster_num c <$> Init.ReadCluster c f.
Proof.
  unfold Fat.ReadCluster, Init.ReadCluster, cluster_sector. cbn [bpb dev cluster_buf set_cluster_num].
  destruct (bd_read _ _ _); [|done]. cbn. by destruct (write_at _ _ _).
Qed.

Lemma scan_dir_noted n k elem f : forall i, Fat.scan_dir k i elem (set_cluster_num n f) = Init.scan_dir k i elem f.
Proof. induction k as [|k IH]; intros i; [done|]. cbn. by rewrite IH. Qed.

Lemma find_cluster_noted turns elem : forall c n f f' r,
  Fat.find_cluster turns elem c (set_cluster_num n f) = Some (f', r) ->
  exists f1 n1, Init.find_cluster turns elem c f = Some (f1, r) /\ f' = set_cluster_num n1 f1.
Proof.
  induction turns as [|turns IH]; intros c n f f' r; [done|]. cbn [Fat.find_cluster Init.find_cluster].
  destruct (decide _); [intros [= <- <-]; by exists f, n|]. rewrite ReadCluster_noted.
  destruct (Init.ReadCluster c f) as [f1|]; [|done]. cbn [fmap option_fmap option_map mbind option_bind].
  change (num_entries (set_cluster_num c f1)) with (num_entries f1). rewrite scan_dir_noted.
  destruct (Init.scan_dir _ _ _ _); [intros [= <- <-]; by exists f1, c|]. rewrite NextCluster_noted.
  destruct (Init.NextCluster c f1) as [[f2 next]|]; [|done]. cbn. apply IH.
Qed.

Lemma FindFile_rec_noted depth : forall path c n f f' r b,
  Fat.FindFile_rec fuel depth path c (set_cluster_num n f) = Some (f', r, b) ->
  exists f1 n1, Init.FindFile_rec fuel depth path c f = Some (f1, r, b) /\ f' = set_cluster_num n1 f1.
Proof.
  induction depth as [|depth IH]; intros path c n f f' r b; [done|]. cbn [Fat.FindFile_rec Init.FindFile_rec].
  change (bpb (set_cluster_num n f)) with (bpb f).
  destruct (match path with [] => _ | _ => _ end) as [path1 c1].
  change (Init.NextPathElement path1) with (Fat.NextPathElement path1).
  destruct (Fat.NextPathElement path1) as [[[elem next] post]|]; [|done]. cbn [mbind option_bind].
  destruct (Fat.find_cluster _ _ _ _) as [[f2 i]|] eqn:E; [|done]. apply find_cluster_noted in E as (f3 & n3 & -> & ->). cbn [mbind option_bind].
  destruct i as [i|]; [|intros [= <- <- <-]; by exists f3, n3].
  change (entry_at i (set_cluster_num n3 f3)) with (entry_at i f3).
  destruct (_ && _); [apply IH|intros [= <- <- <-]; by exists f3, n3].
Qed.

(** So it resolves paths as the file system server does. *)
Lemma Init_FindFile_spec ns r f :
  fs_ok M f -> Forall name_ok ns -> resolve M f (dir_start f 0) ns r -> (Z.to_nat M <= fuel)%nat ->
  exists f' i post, Init.FindFile fuel (path_of ns) 0 f = Some (f', i, post) /\ reading M f f' /\
    match r, i with Some e, Some i => entry_at i f' = e | None, None => True | _, _ => False end.
Proof.
  intros H Hok Hres Hf. destruct (FindFile_spec M fuel false ns 0 r f H Hok Hres Hf) as (f' & i & post & E & Hr & Hfd).
  cbn [app] in E. destruct f as [d b ft cb cn bpc]. pose proof (FindFile_rec_noted (S (length (path_of ns))) (path_of ns) 0 cn (MkFS d b ft cb cn bpc) f' i post E) as (f1 & n1 & E1 & ->).
  exists f1, i, post. split; [exact E1|]. split.
  - destruct Hr as [[] R2 R3 R4]. by split.
  - destruct r, i; try done. apply Hfd.
Qed.

(** *** Copying a file *)

Lemma Init_ReadCluster_spec f c : fs_ok M f -> is_cluster M c -> Init.ReadCluster c f = Some (set_cluster_buf (data_of f c) f).
Proof.
  intros H Hc. unfold Init.ReadCluster. rewrite (cluster_sector_spec M) by done.
  pose proof (data_sector_bound M f c H Hc). pose proof (ok_spc _ _ H). rewrite bd_read_spec by lia. cbn [mbind option_bind]. fold (data_of f c).
  pose proof (length_data M f c H Hc). pose proof (ok_buf _ _ H). rewrite write_at_Some by lia. cbn [mbind option_bind]. by rewrite splice_all by lia.
Qed.

Lemma buf_reading f c : fs_ok M f -> is_cluster M c -> reading M f (set_cluster_buf (data_of f c) f).
Proof. intros H Hc. pose proof (length_data M f c H Hc). split; try done. destruct H. by split. Qed.

Context {K : Type} `{!SystemCalls K}.

(** The copies of a trace as system calls. *)
Fixpoint copy_all (acts : list FsServer.action) (k : K) : outcome K :=
  match acts with
  | [] => Ok k
  | CopyToBuffer id data off :: acts' => k ← SyscallCopyToTaskBuffer id data off k; copy_all acts' k
  | Send _ _ :: acts' => copy_all acts' k
  end.

(** One turn on cluster [c]: how much is copied, and what is left. *)
Definition whole f remain : bool := bool_decide (bytes_per_cluster f <= remain).
Definition chunk f c remain : list Z := take (Z.to_nat (if whole f remain then bytes_per_cluster f else remain)) (data_of f c).
Definition rest_of f remain : Z := if whole f remain then remain - bytes_per_cluster f else remain.
Definition next_offset f remain off : Z := if whole f remain then off + bytes_per_cluster f else off.

Lemma copies_cons f id c l remain off :
  fs_ok M f -> is_cluster M c ->
  copies f id (c :: l) remain off = CopyToBuffer id (chunk f c remain) off :: copies f id l (rest_of f remain) (next_offset f remain off).
Proof.
  intros H Hc. pose proof (length_data M f c H Hc). cbn [copies]. unfold chunk, rest_of, next_offset, whole.
  destruct (decide (_ <= remain)) as [Hd|Hd]; [rewrite bool_decide_true by done; by rewrite take_ge by lia|by rewrite bool_decide_false by done].
Qed.

Lemma init_copy_turn turns f c remain off f2 next (s : @InitServer D K) :
  ifs s = f -> fs_ok M f -> is_cluster M c -> 0 <= remain -> 0 <= off -> off + remain < 2 ^ 31 ->
  Fat.NextCluster c (set_cluster_buf (data_of f c) f) = Some (f2, next) ->
  Init.copy_loop (S turns) c remain off s =
    (k ← SyscallCopyToTaskBuffer (target_task_id s) (chunk f c remain) off (sys s);
     Init.copy_loop turns next (rest_of f remain) (next_offset f remain off) (set_sys k (set_ifs f2 s))).
Proof.
  intros Hf H Hc Hr Ho Hb Hnext. pose proof (ok_bpc _ _ H). pose proof (ok_spc _ _ H). pose proof (ok_M _ _ H). pose proof (length_data M f c H Hc) as Hl.
  cbn [Init.copy_loop]. rewrite decide_True by (unfold is_cluster, end_of_chain, eoc_min in *; lia).
  rewrite Hf, Init_ReadCluster_spec by done. cbn [defined mbind outcome_bind].
  change (bytes_per_cluster (set_cluster_buf _ f)) with (bytes_per_cluster f). fold (whole f remain).
  assert (Hn : 0 <= (if whole f remain then bytes_per_cluster f else remain) <= bytes_per_cluster f)
    by (unfold whole; destruct (bool_decide_reflect (bytes_per_cluster f <= remain)); lia).
  change (cluster_buf (set_cluster_buf (data_of f c) f)) with (data_of f c). rewrite read_at_Some by lia. cbn [defined mbind outcome_bind].
  rewrite (u64_small off) by lia. rewrite NextCluster_same, Hnext. cbn [defined mbind outcome_bind]. unfold slice. rewrite drop_0.
  fold (chunk f c remain). unfold rest_of, next_offset, whole.
  destruct (bool_decide_reflect (bytes_per_cluster f <= remain)); [|done]. by rewrite s32_small by lia.
Qed.

Lemma init_copy_loop turns : forall l c remain off f,
  fs_ok M f -> chain M (fat_at f) c l -> (S (length l) < turns)%nat ->
  0 <= remain -> 0 <= off -> off + remain < 2 ^ 31 ->
  exists f', reading M f f' /\ forall s : @InitServer D K, ifs s = f ->
    Init.copy_loop turns c remain off s =
      (k ← copy_all (copies f (target_task_id s) (c :: l) remain off) (sys s); Ok (set_sys k (set_ifs f' s))).
Proof.
  induction turns as [|turns IH]; intros l c remain off f H Hch Ht Hr Ho Hb; [lia|].
  pose proof (Forall_inv (ch_range _ _ _ _ Hch)) as Hc. pose proof (ok_M _ _ H) as HM. pose proof (ok_bpc _ _ H). pose proof (ok_spc _ _ H).
  pose proof (buf_reading f c H Hc) as Hrd. set (f1 := set_cluster_buf (data_of f c) f) in *.
  destruct (NextCluster_reading M f1 c (rd_ok _ _ _ Hrd)) as (f2 & Hnext & Hrd2 & _); [unfold is_cluster in Hc; lia|].
  rewrite (reading_fat M f) in Hnext by done. pose proof (reading_trans M _ _ _ Hrd Hrd2) as Hrd02.
  assert (Hb' : 0 <= rest_of f remain /\ 0 <= next_offset f remain off /\ next_offset f remain off + rest_of f remain < 2 ^ 31)
    by (unfold rest_of, next_offset, whole; destruct (bool_decide_reflect (bytes_per_cluster f <= remain)); lia).
  destruct l as [|d l].
  - pose proof (ch_end _ _ _ _ Hch) as He. cbn in He. rewrite decide_True in Hnext by done. exists f2. split; [done|]. intros s Hs.
    rewrite (init_copy_turn turns f c remain off f2 _ s Hs H Hc Hr Ho Hb Hnext), copies_cons by done. cbn [copy_all copies].
    destruct (SyscallCopyToTaskBuffer _ _ _ _); [|done..]. cbn [mbind outcome_bind].
    destruct turns; [cbn in Ht; lia|]. cbn [Init.copy_loop]. by rewrite decide_False by naive_solver.
  - apply chain_cons in Hch as [Hd Hch]. pose proof (Forall_inv (ch_range _ _ _ _ Hch)) as Hdr.
    rewrite Hd, decide_False in Hnext by (unfold is_cluster, eoc_min in *; lia).
    destruct (IH l d (rest_of f remain) (next_offset f remain off) f2) as (f3 & Hrd3 & E); [apply Hrd02|by apply (reading_chain M f)|cbn in Ht; lia|apply Hb'..|].
    exists f3. split; [exact (reading_trans M _ _ _ Hrd02 Hrd3)|]. intros s Hs.
    rewrite (init_copy_turn turns f c remain off f2 _ s Hs H Hc Hr Ho Hb Hnext), copies_cons by done. cbn [copy_all].
    destruct (SyscallCopyToTaskBuffer _ _ _ _) as [k| |]; [|done..]. cbn [mbind outcome_bind].
    rewrite E by done. by rewrite (reading_copies M f f2) by done.
Qed.
End files.

(** ** The kernel under the init server *)

Section kernel.
Context {Q : Type} `{!PriorityQueue Q}.
Context (kernel_cr3 : Z) (stack_end : Z -> Z) (TaskServer TaskApp : Z) (smsg_arg : list Z).
Context (text_started : Z -> list Z) (text_unknown : MsgType -> Z -> list Z).
Context (memory_pool sizeof_keyboard sizeof_mouse hid_buf_offset sizeof_device off_buf off_ctx off_input : Z) (portsc : Z -> Z).

#[local] Abbreviation turn := (SystemTask.turn kernel_cr3 stack_end TaskServer TaskApp smsg_arg text_started text_unknown
  memory_pool sizeof_keyboard sizeof_mouse hid_buf_offset sizeof_device off_buf off_ctx off_input portsc).
#[local] Abbreviation run := (SystemTask.run kernel_cr3 stack_end TaskServer TaskApp smsg_arg text_started text_unknown
  memory_pool sizeof_keyboard sizeof_mouse hid_buf_offset sizeof_device off_buf off_ctx off_input portsc).

(** The identifier of the init server, and what an uninitialised message of the
    system call holds. *)
Context (me : Z) (junk : list Z).

(** Its mailbox; the system task gets its turns when the server sleeps. *)
Definition closed_receive (from : Z) (s : @System Q) : outcome (list Message + control) * @System Q :=
  match (t ← find_task (tasks_of s) me; ClosedReceive_loop me 1 from junk (S (length (msgs t))) 0 [] (tasks_of s)) with
  | Some (tm, r) => (Ok r, set_tasks_of tm s)
  | None => (Undefined, s)
  end.

Definition receive_from (from : Z) (s : @System Q) : outcome (Message * System) :=
  let '(r, s) := closed_receive from s in
  r ← r;
  match r with
  | inl (m :: _) => Ok (m, s)
  | inl [] => Undefined
  | inr _ =>
      t ← defined (find_task (tasks_of s) system_id);
      s ← run (S (length (msgs t))) s;
      let '(r, s) := closed_receive from s in
      r ← r;
      match r with inl (m :: _) => Ok (m, s) | inl [] => Undefined | inr _ => Waits end
  end.

#[export] Instance kernel_calls : SystemCalls (@System Q) := {|
  SyscallCreateNewTask s := let '(tm, i) := NewTask (tasks_of s) in (set_tasks_of tm s, i);
  SyscallSendMessage m to s := '(tm, _) ← defined (SendMessage to (set_src me m) (tasks_of s)); Ok (set_tasks_of tm s);
  SyscallClosedReceiveMessage := receive_from;
  SyscallOpenReceiveMessage s :=
    '(tm, r) ← defined (t ← find_task (tasks_of s) me; OpenReceive_loop me 1 (S (length (msgs t))) 0 [] (tasks_of s));
    match r with inl (m :: _) => Ok (m, set_tasks_of tm s) | inl [] => Undefined | inr _ => Waits end;
  SyscallCopyToTaskBuffer id data off s :=
    '(tm, _) ← defined (CopyToTaskBuffer id data off (Z.of_nat (length data)) (tasks_of s)); Ok (set_tasks_of tm s);
  SyscallSetArgument id name s := '(k, _) ← defined (Syscall.SetArgument id name (kernel s)); Ok (set_kernel k s);
|}.

(** *** Turns of the system task *)

(** The last turn: nothing to do. *)
Lemma idle_turn (s : @System Q) t fuel :
  sched_ok (tasks_of s) -> find_task (tasks_of s) system_id = Some t -> msgs t = [] ->
  exists tm, run (S fuel) s = Ok (set_tasks_of tm s) /\ sched_ok tm /\ same_rest (tasks_of s) tm /\ only_task system_id (SetRunning false) (tasks_of s) tm.
Proof.
  intros H Ht Hm. destruct (Sleep_ok system_id t (tasks_of s) H Ht) as (tm & c & E & [H1 H2 H3 _]); [done|].
  exists tm. cbn [SystemTask.run]. unfold SystemTask.turn. rewrite Ht. cbn [defined mbind outcome_bind]. unfold Task_ReceiveMessage. by rewrite Hm, E.
Qed.

(** The system task answers one request to grow the buffer of [n]. *)
Lemma expand_run (s : @System Q) m t1 ti tn n fuel :
  sched_ok (tasks_of s) -> find_task (tasks_of s) system_id = Some t1 -> msgs t1 = [m] -> type m = kExpandTaskBuffer -> src_task m = me ->
  getU expand_id m = n -> find_task (tasks_of s) n = Some tn -> find_task (tasks_of s) me = Some ti ->
  me <> system_id -> n <> system_id -> n <> me ->
  exists tm, run (S (S fuel)) s = Ok (set_tasks_of tm s) /\ sched_ok tm /\ same_rest (tasks_of s) tm /\
    find_task tm system_id = Some (SetRunning false (set_msgs [] t1)) /\
    find_task tm me = Some (SetRunning true (set_msgs (msgs ti ++ [MkMessage kExpandTaskBuffer 1 smsg_arg]) ti)) /\
    find_task tm n = Some (set_buf (resize (Z.to_nat (getU expand_bytes m)) 0 (buf tn)) tn) /\
    forall j, j <> system_id -> j <> me -> j <> n -> find_task tm j = find_task (tasks_of s) j.
Proof.
  intros H H1 Hm Hty Hsrc Hn Htn Hti Hme Hn1 Hnme. rewrite <- Hsrc in Hti, Hme, Hnme.
  destruct (turn_expands kernel_cr3 stack_end TaskServer TaskApp smsg_arg text_started text_unknown memory_pool sizeof_keyboard sizeof_mouse
    hid_buf_offset sizeof_device off_buf off_ctx off_input portsc s m t1 ti tn n [] H H1 Hm Hty Hn Htn Hti Hme Hn1 Hnme)
    as (tmc & Hturn & Hc & Rc & C1 & Cme & Cn & Co). rewrite Hsrc in *.
  destruct (idle_turn (set_tasks_of tmc s) (set_msgs [] t1) fuel Hc C1 eq_refl) as (tmd & Ed & Hd & Rd & Od).
  exists tmd. split; [|split; [exact Hd|split; [exact (same_rest_trans _ _ _ Rc Rd)|]]].
  - cbn [SystemTask.run]. rewrite H1. cbn [defined mbind outcome_bind]. rewrite Hturn. cbn [mbind outcome_bind]. rewrite Hm. exact Ed.
  - change (tasks_of (set_tasks_of tmc s)) with tmc in Od. split_and!.
    + exact (only_at _ _ _ _ _ Od C1).
    + by rewrite (only_other _ _ _ _ _ Od).
    + by rewrite (only_other _ _ _ _ _ Od).
    + intros j J1 J2 J3. by rewrite (only_other _ _ _ _ _ Od), Co.
Qed.

(** The system task starts the task [n] at [TaskServer]. *)
Lemma start_run (s : @System Q) m t1 tn n fuel :
  sched_ok (tasks_of s) -> find_task (tasks_of s) system_id = Some t1 -> msgs t1 = [m] -> type m = kStartServer -> src_task m = me ->
  getU starttask_id m = n -> find_task (tasks_of s) n = Some tn -> n <> system_id ->
  exists tm, run (S (S fuel)) s = Ok (set_tasks_of tm s) /\ sched_ok tm /\ same_rest (tasks_of s) tm /\
    find_task tm system_id = Some (SetRunning false (set_msgs [] t1)) /\
    find_task tm n = Some (SetRunning true (InitContext kernel_cr3 (stack_end n) TaskServer me tn)) /\
    forall j, j <> system_id -> j <> n -> find_task tm j = find_task (tasks_of s) j.
Proof.
  intros H H1 Hm Hty Hsrc Hn Htn Hn1.
  destruct (turn_starts kernel_cr3 stack_end TaskServer TaskApp smsg_arg text_started text_unknown memory_pool sizeof_keyboard sizeof_mouse
    hid_buf_offset sizeof_device off_buf off_ctx off_input portsc s m t1 tn n [] H H1 Hm Hty Hn Htn Hn1)
    as (tmc & Hturn & Hc & Rc & C1 & Cn & Co). rewrite Hsrc in *.
  destruct (idle_turn (set_tasks_of tmc s) (set_msgs [] t1) fuel Hc C1 eq_refl) as (tmd & Ed & Hd & Rd & Od).
  exists tmd. split; [|split; [exact Hd|split; [exact (same_rest_trans _ _ _ Rc Rd)|]]].
  - cbn [SystemTask.run]. rewrite H1. cbn [defined mbind outcome_bind]. rewrite Hturn. cbn [mbind outcome_bind]. rewrite Hm. exact Ed.
  - change (tasks_of (set_tasks_of tmc s)) with tmc in Od. split_and!.
    + exact (only_at _ _ _ _ _ Od C1).
    + by rewrite (only_other _ _ _ _ _ Od).
    + intros j J1 J2. by rewrite (only_other _ _ _ _ _ Od), Co.
Qed.

(** *** Waiting for the reply *)

Lemma closed_receive_sleeps from (s : @System Q) ti :
  sched_ok (tasks_of s) -> find_task (tasks_of s) me = Some ti -> msgs ti = [] -> me <> idle_id ->
  exists tm c, closed_receive from s = (Ok (inr c), set_tasks_of tm s) /\ sched_ok tm /\ same_rest (tasks_of s) tm /\ only_task me (SetRunning false) (tasks_of s) tm.
Proof.
  intros H Ht Hm Hid. destruct (Sleep_ok me ti (tasks_of s) H Ht Hid) as (tm & c & E & [H1 H2 H3 _]). exists tm, c.
  unfold closed_receive. rewrite Ht. cbn [mbind option_bind]. rewrite Hm. cbn [length ClosedReceive_loop]. rewrite decide_True by lia.
  rewrite Ht. cbn [mbind option_bind]. unfold Task_ReceiveMessage. by rewrite Hm, decide_True, E by done.
Qed.

Lemma closed_receive_gets (s : @System Q) ti m :
  sched_ok (tasks_of s) -> find_task (tasks_of s) me = Some ti -> msgs ti = [m] ->
  closed_receive (src_task m) s = (Ok (inl [m]), set_tasks_of (upd_task me (set_msgs []) (tasks_of s)) s).
Proof.
  intros H Ht Hm. unfold closed_receive. rewrite Ht. cbn [mbind option_bind]. rewrite Hm. cbn [length ClosedReceive_loop]. rewrite decide_True by lia.
  rewrite Ht. cbn [mbind option_bind]. unfold Task_ReceiveMessage. rewrite Hm, decide_False by (intros Hx; by apply Hx). done.
Qed.

(** The request is in the mailbox of the system task; the reply is received. *)
Lemma receive_reply (s : @System Q) m t1 ti tn n :
  sched_ok (tasks_of s) -> find_task (tasks_of s) system_id = Some t1 -> msgs t1 = [m] -> type m = kExpandTaskBuffer -> src_task m = me ->
  getU expand_id m = n -> find_task (tasks_of s) n = Some tn -> find_task (tasks_of s) me = Some ti -> msgs ti = [] ->
  me <> system_id -> me <> idle_id -> n <> system_id -> n <> me ->
  exists tm, receive_from 1 s = Ok (MkMessage kExpandTaskBuffer 1 smsg_arg, set_tasks_of tm s) /\ sched_ok tm /\ same_rest (tasks_of s) tm /\
    find_task tm system_id = Some (SetRunning false (set_msgs [] t1)) /\ find_task tm me = Some (SetRunning true ti) /\
    find_task tm n = Some (set_buf (resize (Z.to_nat (getU expand_bytes m)) 0 (buf tn)) tn) /\
    forall j, j <> system_id -> j <> me -> j <> n -> find_task tm j = find_task (tasks_of s) j.
Proof.
  intros H H1 Hm Hty Hsrc Hn Htn Hti Hmt Hme Hid Hn1 Hnme.
  destruct (closed_receive_sleeps 1 s ti H Hti Hmt Hid) as (tma & c & Ea & Ha & Ra & Oa).
  destruct (expand_run (set_tasks_of tma s) m t1 (SetRunning false ti) tn n 0) as (tmb & Eb & Hb & Rb & B1 & Bme & Bn & Bo); try done.
  { by rewrite (only_other _ _ _ _ _ Oa). }
  { by rewrite (only_other _ _ _ _ _ Oa). }
  { exact (only_at _ _ _ _ _ Oa Hti). }
  change (tasks_of (set_tasks_of tma s)) with tma in *. change (msgs (SetRunning false ti)) with (msgs ti) in Bme. rewrite Hmt in Bme. cbn [app] in Bme.
  destruct (popped_ok me [] tmb Hb) as [Hc Oc].
  exists (upd_task me (set_msgs []) tmb). split; [|split; [exact Hc|split; [exact (same_rest_trans _ _ _ Ra Rb)|]]].
  - unfold receive_from. rewrite Ea. cbn [mbind outcome_bind]. change (tasks_of (set_tasks_of tma s)) with tma.
    rewrite (only_other _ _ _ _ _ Oa), H1 by done. cbn [defined mbind outcome_bind]. rewrite Hm. cbn [length]. rewrite Eb. cbn [mbind outcome_bind].
    pose proof (closed_receive_gets (set_tasks_of tmb s) _ (MkMessage kExpandTaskBuffer 1 smsg_arg) Hb Bme eq_refl) as E. cbn [src_task] in E.
    change (set_tasks_of tmb (set_tasks_of tma s)) with (set_tasks_of tmb s). rewrite E. done.
  - split_and!.
    + by rewrite (only_other _ _ _ _ _ Oc).
    + rewrite (only_at _ _ _ _ _ Oc Bme). by destruct ti; cbn in Hmt; subst.
    + by rewrite (only_other _ _ _ _ _ Oc).
    + intros j J1 J2 J3. rewrite (only_other _ _ _ _ _ Oc), Bo by done. by rewrite (only_other _ _ _ _ _ Oa).
Qed.

(** *** Copying *)

Lemma copy_all_replay {D : Type} `{!BlockDevice D} (f : @FileSystem D) n cs : forall remain off (s : @System Q) tm',
  replay (copies f n cs remain off) (tasks_of s) = Some tm' -> copy_all (copies f n cs remain off) s = Ok (set_tasks_of tm' s).
Proof.
  assert (Hstep : forall data off acts (s : @System Q) tm', replay (CopyToBuffer n data off :: acts) (tasks_of s) = Some tm' ->
    (forall s1 : @System Q, replay acts (tasks_of s1) = Some tm' -> copy_all acts s1 = Ok (set_tasks_of tm' s1)) ->
    copy_all (CopyToBuffer n data off :: acts) s = Ok (set_tasks_of tm' s)).
  { intros data off acts s tm' Hr IH. cbn [replay] in Hr. cbn [copy_all SyscallCopyToTaskBuffer kernel_calls].
    destruct (CopyToTaskBuffer n data off _ _) as [[tm1 r]|]; [|done]. exact (IH (set_tasks_of tm1 s) Hr). }
  induction cs as [|c cs IH]; intros remain off s tm' Hr.
  { cbn in *. injection Hr as <-. by destruct s as [[]]. }
  cbn [copies] in *. destruct (decide _); (apply Hstep; [done|]; intros s1 Hr1; by apply IH).
Qed.

(** ** Starting a server *)

Section start.
Context {D : Type} `{!BlockDevice D} (M : Z) (fuel : nat).

(** Nobody has written to the server or the system task. *)
Record settled (tm : TaskManager) (ti t1 : Task) : Prop := {
  se_ok : sched_ok tm;
  se_me : find_task tm me = Some ti;
  se_mail : msgs ti = [];
  se_system : find_task tm system_id = Some t1;
  se_idle : msgs t1 = [];
  se_ids : me <> system_id /\ me <> idle_id /\ system_id <> idle_id;
}.

(** After [StartServers]: the new task has the image and the name; the system
    task has the request to start it. *)
Record loaded (tm tm' : TaskManager) (ti t1 : Task) (data name : list Z) : Prop := {
  ld_ok : sched_ok tm';
  ld_latest : latest_id tm' = latest_id tm + 1;
  ld_task : exists tn, find_task tm' (latest_id tm + 1) = Some tn /\ buf tn = data /\ c_str (arg_ tn) = Some name /\ msgs tn = [];
  ld_me : find_task tm' me = Some (SetRunning true ti);
  ld_system : exists t m, find_task tm' system_id = Some t /\ msgs t = [m] /\ type m = kStartServer /\ src_task m = me /\ getU starttask_id m = latest_id tm + 1;
  ld_other j : j <> me -> j <> system_id -> j <> latest_id tm + 1 -> find_task tm' j = find_task tm j;
}.

(** The request and its answer: the new task has a buffer of the size asked. *)
Lemma new_buffer (s : @System Q) m size ti t1 :
  settled (tasks_of s) ti t1 -> latest_id (tasks_of s) < 2 ^ 64 - 1 -> message_ok m -> 0 <= size < 2 ^ 31 ->
  let n := latest_id (tasks_of s) + 1 in
  let m := setF expand_bytes size (setF expand_id n (set_type kExpandTaskBuffer m)) in
  exists tm t1', (k ← SyscallSendMessage m 1 (fst (SyscallCreateNewTask s)); SyscallClosedReceiveMessage 1 k) =
      Ok (MkMessage kExpandTaskBuffer 1 smsg_arg, set_tasks_of tm s) /\
    settled tm (SetRunning true ti) t1' /\ latest_id tm = n /\
    find_task tm n = Some (set_buf (replicate (Z.to_nat size) 0) (MakeTask n)) /\
    forall j, j <> me -> j <> system_id -> j <> n -> find_task tm j = find_task (tasks_of s) j.
Proof.
  intros [H Hme Hmail Hsys Hidle (I1 & I2 & I3)] Hlat Hm Hsize n m'. set (tm := tasks_of s) in *. pose proof (proj1 (so_latest _ H _ _ Hme)).
  assert (message_ok m') as Hm' by (unfold m'; auto with bytes).
  assert (getU expand_id m' = n) as Hid.
  { unfold m'. rewrite getU_setF_ne by auto with bytes. rewrite getU_setF by auto with bytes. apply Z.mod_small. cbn. unfold n. lia. }
  assert (getU expand_bytes m' = size) as Hsz.
  { unfold m'. rewrite getU_setF by auto with bytes. apply Z.mod_small. cbn. lia. }
  pose proof (NewTask_ok tm H) as Ha. pose proof (fun i => NewTask_find tm i H) as Fa. set (tma := fst (NewTask tm)) in *.
  assert (me <> n) as Hmen by (unfold n; by eapply task_below). assert (system_id <> n) as Hsn by (unfold n; by eapply task_below).
  destruct (send_ok system_id (set_src me m') t1 tma Ha) as (tmb & Eb & Hb & Rb & Ob); [by rewrite Fa, decide_False|].
  assert (Htm : SyscallSendMessage m' 1 (fst (SyscallCreateNewTask s)) = Ok (set_tasks_of tmb s)).
  { cbn [SyscallSendMessage SyscallCreateNewTask kernel_calls]. fold tm. change (NewTask tm) with (tma, n). cbn [fst]. change (tasks_of (set_tasks_of tma s)) with tma.
    change 1 with system_id. by rewrite Eb. }
  rewrite Htm. cbn [mbind outcome_bind].
  assert (find_task tma system_id = Some t1) as F1 by by rewrite Fa, decide_False.
  pose proof (only_at _ _ _ _ _ Ob F1) as B1. cbn beta in B1. rewrite Hidle in B1. cbn [app] in B1.
  destruct (receive_reply (set_tasks_of tmb s) (set_src me m') _ ti (MakeTask n) n Hb B1) as (tmc & Ec & Hc & Rc & C1 & Cme & Cn & Co); try done.
  { change (tasks_of (set_tasks_of tmb s)) with tmb. by rewrite (only_other _ _ _ _ _ Ob), Fa, decide_True by done. }
  { change (tasks_of (set_tasks_of tmb s)) with tmb. by rewrite (only_other _ _ _ _ _ Ob), Fa, decide_False by done. }
  change (tasks_of (set_tasks_of tmb s)) with tmb in *.
  exists tmc, (SetRunning false (set_msgs [] (SetRunning true (set_msgs [set_src me m'] t1)))). split; [exact Ec|].
  destruct Rb as (Rb & _ & _), Rc as (Rc & _ & _). change (latest_id tma) with n in Rb.
  split; [split; try done|split; [congruence|split]].
  - rewrite Cn. change (getU expand_bytes (set_src me m')) with (getU expand_bytes m'). rewrite Hsz. cbn [buf MakeTask]. by rewrite resize_nil.
  - intros j J1 J2 J3. rewrite Co by done. rewrite (only_other _ _ _ _ _ Ob) by done. by rewrite Fa, decide_False.
Qed.

(** The file is copied to the buffer. *)
Lemma copy_image (s : @InitServer D System) ns e l tn n :
  fs_ok M (ifs s) -> stored_file M (ifs s) ns e l -> (Z.to_nat M <= fuel)%nat -> target_task_id s = n ->
  sched_ok (tasks_of (sys s)) -> find_task (tasks_of (sys s)) n = Some tn -> Z.of_nat (length (buf tn)) = file_size e ->
  exists f tm, Init.copy_loop fuel (FirstCluster e) (file_size e) 0 s = Ok (set_sys (set_tasks_of tm (sys s)) (set_ifs f s)) /\
    reading M (ifs s) f /\ sched_ok tm /\ same_rest (tasks_of (sys s)) tm /\ find_task tm n = Some (set_buf (image (ifs s) e l) tn) /\
    forall j, j <> n -> find_task tm j = find_task (tasks_of (sys s)) j.
Proof.
  intros H [_ _ _ S4 S5 S6] Hf Hn Hs Ht Hb. pose proof (ok_M _ _ H) as HM. pose proof (chain_length _ _ (proj2 HM) _ _ S4).
  destruct (init_copy_loop M (K := @System Q) fuel l (FirstCluster e) (file_size e) 0 (ifs s) H S4) as (f & Hr & E); [lia..|].
  destruct (replay_copies M (ifs s) n (FirstCluster e :: l) (file_size e) 0 (tasks_of (sys s)) tn H) as (tm & tn' & Er & Ht' & Hb'); try (done || lia).
  { apply S4. }
  { cbn [length]. lia. }
  pose proof (copy_all_replay (ifs s) n (FirstCluster e :: l) (file_size e) 0 (sys s) tm Er) as Ec.
  destruct (replay_copies_only (ifs s) n (FirstCluster e :: l) (file_size e) 0 _ _ Er) as [O1 O2 O3 O4].
  exists f, tm. split; [rewrite E, Hn, Ec by done; done|]. split; [done|]. split; [auto|]. split; [done|]. split; [|done].
  destruct (O3 tn' Ht') as (t0 & Ht0 & E0). assert (t0 = tn) as -> by congruence. rewrite Ht', E0. do 2 f_equal.
  by rewrite Hb'.
Qed.

(** The name, and the request to start the task. *)
Lemma name_and_start (s : @InitServer D System) name tn n ti t1 :
  settled (tasks_of (sys s)) ti t1 -> find_task (tasks_of (sys s)) n = Some tn -> n <> me -> n <> system_id -> 0 <= n < 2 ^ 64 ->
  target_task_id s = n -> message_ok (send_message s) -> no_nul name -> (length name < 32)%nat -> length (arg_ tn) = 32%nat ->
  exists a tm m, (bufc ← defined (strcpy (replicate 32 0) 0 name); name ← defined (c_str bufc);
      k ← SyscallSetArgument (target_task_id s) name (sys s);
      send_to_kernel (set_send (setF starttask_id (target_task_id s) (set_type kStartServer (send_message s))) (set_sys k s))) =
      Ok (set_sys (set_tasks_of tm (sys s)) (set_send m s)) /\
    sched_ok tm /\ same_rest (tasks_of (sys s)) tm /\ find_task tm n = Some (set_arg_ a tn) /\ c_str a = Some name /\
    find_task tm me = Some ti /\ message_ok m /\ type m = kStartServer /\ getU starttask_id m = n /\
    find_task tm system_id = Some (SetRunning true (set_msgs [set_src me m] t1)) /\
    forall j, j <> n -> j <> system_id -> find_task tm j = find_task (tasks_of (sys s)) j.
Proof.
  intros [H Hme Hmail Hsys Hidle (I1 & I2 & I3)] Hn N1 N2 Hrange Ht Hm Hnul Hlen Harg.
  assert (exists bufc, strcpy (replicate 32 0) 0 name = Some bufc) as [bufc Eb] by (unfold strcpy; rewrite write_at_Some; [eauto|]; rewrite length_c_chars, length_replicate; lia).
  destruct (c_str_strcpy _ _ _ _ Hnul Eb) as [Hc _]. rewrite drop_0 in Hc.
  assert (exists a, strcpy (arg_ tn) 0 name = Some a) as [a Ea] by (unfold strcpy; rewrite write_at_Some; [eauto|]; rewrite length_c_chars; lia).
  destruct (c_str_strcpy _ _ _ _ Hnul Ea) as [Hca _]. rewrite drop_0 in Hca.
  set (m := setF starttask_id (target_task_id s) (set_type kStartServer (send_message s))).
  set (tma := upd_task n (set_arg_ a) (tasks_of (sys s))).
  assert (only_task n (set_arg_ a) (tasks_of (sys s)) tma) as Oa by by apply upd_only.
  assert (sched_ok tma) as Ha by (apply upd_ok; [by split|done]).
  destruct (send_ok system_id (set_src me m) t1 tma Ha) as (tmb & Es & Hb & Rb & Ob); [by rewrite (only_other _ _ _ _ _ Oa) by done|].
  exists a, tmb, m. split.
  - rewrite Eb. cbn [defined mbind outcome_bind]. rewrite Hc. cbn [defined mbind outcome_bind SyscallSetArgument kernel_calls].
    unfold Syscall.SetArgument, FindTask_id. rewrite Ht. change (task_manager (kernel (sys s))) with (tasks_of (sys s)). rewrite Hn. cbn [fmap option_fmap option_map mbind option_bind].
    rewrite (proj2 (find_task_in _ _ _ Hn)), Hn. cbn [mbind option_bind]. rewrite Ea. cbn [mbind option_bind defined outcome_bind].
    unfold send_to_kernel. cbn [send_message set_send sys set_sys SyscallSendMessage kernel_calls].
    change (tasks_of (set_kernel (set_tm _ _) _)) with tma. change 1 with system_id. rewrite <- Ht. fold m. by rewrite Es.
  - split; [done|]. split; [exact Rb|]. split; [rewrite (only_other _ _ _ _ _ Ob) by done; exact (only_at _ _ _ _ _ Oa Hn)|]. split; [done|].
    split; [by rewrite (only_other _ _ _ _ _ Ob), (only_other _ _ _ _ _ Oa)|].
    split; [unfold m; auto with bytes|]. split; [done|]. split; [unfold m; rewrite getU_setF by auto with bytes; rewrite Ht; apply Z.mod_small; cbn; lia|].
    split.
    + assert (find_task tma system_id = Some t1) as F1 by (by rewrite (only_other _ _ _ _ _ Oa) by done).
      rewrite (only_at _ _ _ _ _ Ob F1). by rewrite Hidle.
    + intros j J1 J2. by rewrite (only_other _ _ _ _ _ Ob), (only_other _ _ _ _ _ Oa).
Qed.

(** The answer of the system task, and the name read through the pointer once it
    has been received. *)
Definition answer : Message := MkMessage kExpandTaskBuffer 1 smsg_arg.
Definition name_left (p : ServerName) : option (list Z) :=
  match p with Literal name => Some name | ExitName => getS exitserver_name answer end.

(** The file is found, the task made, filled, named and asked to be started. *)
Lemma StartServers_spec (s : @InitServer D System) p ns e l left ti t1 :
  Init.read_name p s = Some (path_of ns) -> name_left p = Some left -> no_nul left -> (length left < 32)%nat ->
  settled (tasks_of (sys s)) ti t1 -> latest_id (tasks_of (sys s)) < 2 ^ 64 - 1 -> message_ok (send_message s) ->
  fs_ok M (ifs s) -> stored_file M (ifs s) ns e l -> (Z.to_nat M <= fuel)%nat ->
  exists f m tm, Init.StartServers fuel p s =
      Ok (MkInit f m answer (latest_id (tasks_of (sys s)) + 1) (set_tasks_of tm (sys s))) /\
    reading M (ifs s) f /\ loaded (tasks_of (sys s)) tm ti t1 (image (ifs s) e l) left /\ message_ok m.
Proof.
  intros Hname Hleft Hnul Hlen Hset Hlat Hm Hfs Hfile Hfuel. pose proof Hfile as [F1 (F2 & F3 & F4) F5 F6 F7 F8].
  destruct (Init_FindFile_spec M fuel ns (Some e) (ifs s) Hfs F1 F5 Hfuel) as (f1 & [i|] & post & Efind & Hr1 & He); [|done].
  destruct (new_buffer (sys s) (send_message s) (file_size e) ti t1 Hset Hlat Hm F7) as (tm1 & t1' & Ereq & Hset1 & Hlat1 & Hn1 & Ho1).
  set (n := latest_id (tasks_of (sys s)) + 1) in *. set (m1 := setF expand_bytes _ _) in Ereq.
  apply ok_bind in Ereq as (k1 & Es & Er).
  set (s1 := MkInit f1 m1 answer n (set_tasks_of tm1 (sys s))).
  destruct (copy_image s1 ns e l _ n (rd_ok _ _ _ Hr1) (reading_stored M _ _ _ _ _ Hfs Hr1 Hfile) Hfuel eq_refl (se_ok _ _ _ Hset1) Hn1)
    as (f2 & tm2 & Ecopy & Hr2 & Hok2 & Hrest2 & Hn2 & Ho2).
  { cbn [buf set_buf]. rewrite length_replicate. lia. }
  change (ifs s1) with f1 in *. change (tasks_of (sys s1)) with tm1 in *.
  rewrite (reading_image M (ifs s) f1) in Hn2 by done.
  set (s2 := set_sys (set_tasks_of tm2 (sys s1)) (set_ifs f2 s1)).
  destruct Hset as [H0 Hme Hmail Hsys Hidle (I1 & I2 & I3)]. destruct Hset1 as [H1 Hme1 Hmail1 Hsys1 Hidle1 _].
  assert (me <> n /\ system_id <> n) as [N1 N2] by (split; by eapply task_below).
  pose proof (proj1 (so_latest _ H0 _ _ Hme)).
  assert (settled (tasks_of (sys s2)) (SetRunning true ti) t1') as Hset2.
  { change (tasks_of (sys s2)) with tm2. split; try done; by rewrite Ho2 by done. }
  destruct (name_and_start s2 left (set_buf (image (ifs s) e l) (set_buf (replicate (Z.to_nat (file_size e)) 0) (MakeTask n))) n
    (SetRunning true ti) t1' Hset2 Hn2)
    as (a & tm3 & m3 & Estart & Hok3 & (Hl3 & _) & Hn3 & Ha & Hme3 & Hok & Hty & Hid & Hs3 & Ho3);
    try done; [unfold n; lia|unfold s2, s1; cbn [send_message set_sys set_ifs]; unfold m1; auto with bytes|].
  exists f2, m3, tm3. split; [|split; [exact (reading_trans M _ _ _ Hr1 Hr2)|split; [|done]]].
  - unfold Init.StartServers. rewrite Hname. cbn [defined mbind outcome_bind]. rewrite Efind. cbn [defined mbind outcome_bind]. rewrite He.
    change (sys (set_ifs f1 s)) with (sys s). destruct (SyscallCreateNewTask (sys s)) as [k0 id] eqn:Ek.
    assert (id = n) as -> by (cbn [SyscallCreateNewTask kernel_calls] in Ek; injection Ek as <- <-; done).
    assert (send_to_kernel (set_send m1 (set_target n (set_sys k0 (set_ifs f1 s)))) = Ok (MkInit f1 m1 (received_message s) n k1)) as Esend
      by (unfold send_to_kernel; cbn [send_message set_send sys set_target set_sys]; cbn [fst] in Es; by rewrite Es).
    match goal with |- (send_to_kernel ?x ≫= _) = _ => change x with (set_send m1 (set_target n (set_sys k0 (set_ifs f1 s)))) end. rewrite Esend. cbn [mbind outcome_bind sys]. rewrite Er. cbn [mbind outcome_bind type set_received]. rewrite decide_True by done.
    match goal with |- (Init.copy_loop _ _ _ _ ?x ≫= _) = _ => change x with s1 end. rewrite Ecopy.
    cbn [mbind outcome_bind]. change (Init.read_name p _) with (name_left p). rewrite Hleft. exact Estart.
  - destruct Hrest2 as (Hl2 & _ & _). split; [done|exact (eq_trans Hl3 (eq_trans Hl2 Hlat1))|exists (set_arg_ a (set_buf (image (ifs s) e l) (set_buf (replicate (Z.to_nat (file_size e)) 0) (MakeTask n))))|done| |].
    + by split_and!.
    + exists (SetRunning true (set_msgs [set_src me m3] t1')), (set_src me m3). by split_and!.
    + intros j J1 J2 J3. rewrite Ho3, Ho2, Ho1 by done. done.
Qed.

(** *** A server ends *)

(** The init server is told the name of the server that ends. *)
Lemma server_end tm c tc ti t1 name junkc :
  settled tm ti t1 -> CurrentTask tm = Some c -> c <> idle_id -> c <> me -> c <> system_id ->
  (forall t w, finish_waiter tm !! t = Some w -> w <> c) -> finish_waiter tm !! c = None ->
  find_task tm c = Some tc -> c_str (arg_ tc) = Some name -> (length name < 32)%nat -> bytes name -> message_ok (MkMessage kExitServer 1 junkc) ->
  exists tm' now m, TaskServer_end me junkc tm = Ok (tm', RestoreContext now) /\ sched_ok tm' /\ latest_id tm' = latest_id tm /\
    type m = kExitServer /\ getS exitserver_name m = Some name /\
    find_task tm' c = None /\ find_task tm' me = Some (SetRunning true (set_msgs [m] ti)) /\
    forall j, j <> c -> j <> me -> find_task tm' j = find_task tm j.
Proof.
  intros [H Hme Hmail Hsys Hidle (I1 & I2 & I3)] Hcur Hci Hcm Hcs Hw Hwc Htc Hname Hlen Hbytes Hjunk.
  destruct (putS_spec exitserver_name name _ Hjunk (c_str_no_nul _ _ Hname) Hbytes) as (m & Em & _ & Hget & Hty & _); [unfold exitserver_name, arg_size; lia|].
  destruct (send_ok me m ti tm H Hme) as (tma & Ea & Ha & (Ra & _ & Rw) & Oa).
  pose proof (SendMessage_current _ _ _ _ _ _ Ea Hcur) as Hcura.
  destruct (Finish_ok tma c 1 Ha Hcura Hci) as (tmb & now & Eb & [Hb _ Bgone _ _ Bo Bl]); [by rewrite Rw|].
  exists tmb, now, m. split; [|split; [done|split; [congruence|split; [done|split; [done|split; [done|]]]]]].
  - unfold TaskServer_end. rewrite Hcur. cbn [defined mbind outcome_bind]. rewrite Htc. cbn [defined mbind outcome_bind]. rewrite Hname.
    cbn [defined mbind outcome_bind]. rewrite Em. cbn [defined mbind outcome_bind]. rewrite Ea. cbn [defined mbind outcome_bind]. by rewrite Eb.
  - assert (forall j, j <> c -> find_task tmb j = find_task tma j) as Bo'.
    { intros j Hj. rewrite Bo by done. by rewrite Rw, Hwc. }
    split; [rewrite Bo', (only_at _ _ _ _ _ Oa Hme) by done; by rewrite Hmail|].
    intros j J1 J2. rewrite Bo' by done. by apply (only_other _ _ _ _ _ Oa).
Qed.

(** C34. A server task ends: the init server is told, finds the file of that name,
    has a task made and filled with it, and the system task starts the task at
    [TaskServer]. The argument of the new task is not the name of the server: the
    pointer to the name is read once more after the answer has overwritten the
    message, and gives [left], what the message of the system task, whose
    argument is never initialised, holds there. That text is to be shorter than
    the 32 bytes it is copied to. *)
Theorem server_restarts (s : @InitServer D System) ns e l c tc ti t1 junkc left :
  let tm := tasks_of (sys s) in
  let n := latest_id tm + 1 in
  settled tm ti t1 -> latest_id tm < 2 ^ 64 - 1 -> message_ok (send_message s) ->
  fs_ok M (ifs s) -> stored_file M (ifs s) ns e l -> (Z.to_nat M <= fuel)%nat ->
  CurrentTask tm = Some c -> c <> idle_id -> c <> me -> c <> system_id ->
  (forall t w, finish_waiter tm !! t = Some w -> w <> c) -> finish_waiter tm !! c = None ->
  find_task tm c = Some tc -> c_str (arg_ tc) = Some (path_of ns) -> message_ok (MkMessage kExitServer 1 junkc) ->
  getS exitserver_name (MkMessage kExpandTaskBuffer 1 smsg_arg) = Some left -> (length left < 32)%nat ->
  exists tm1 now, TaskServer_end me junkc tm = Ok (tm1, RestoreContext now) /\ find_task tm1 c = None /\
  exists s2, Init.WaitingForMessage fuel (set_sys (set_tasks_of tm1 (sys s)) s) = Ok s2 /\ reading M (ifs s) (ifs s2) /\ message_ok (send_message s2) /\
  exists tm3 tn t1', run 2 (sys s2) = Ok (set_tasks_of tm3 (sys s)) /\ settled tm3 (SetRunning true ti) t1' /\
    find_task tm3 n = Some (SetRunning true (InitContext kernel_cr3 (stack_end n) TaskServer me tn)) /\
    buf tn = image (ifs s) e l /\ c_str (arg_ tn) = Some left /\
    find_task tm3 c = None /\ forall j, j <> me -> j <> system_id -> j <> n -> j <> c -> find_task tm3 j = find_task tm j.
Proof.
  intros tm n Hset Hlat Hm Hfs Hfile Hfuel Hcur Hci Hcm Hcs Hw Hwc Htc Hname Hjunk Hleft Hleftlen.
  destruct (server_end tm c tc ti t1 (path_of ns) junkc) as (tm1 & now & m & E1 & H1 & Hl1 & Hty & Hget & Hgone & Hme1 & Ho1); try done; [apply Hfile..|].
  exists tm1, now. split; [done|]. split; [done|]. destruct Hset as [H0 Hme Hmail Hsys Hidle (I1 & I2 & I3)].
  destruct (popped_ok me [] tm1 H1) as [Hp Op]. set (tmp := upd_task me (set_msgs []) tm1) in *.
  assert (settled tmp (SetRunning true ti) t1) as Hsetp.
  { split; [done|rewrite (only_at _ _ _ _ _ Op Hme1); by destruct ti; cbn in Hmail; subst|done|by rewrite (only_other _ _ _ _ _ Op), Ho1 by done|done|done]. }
  set (s1 := set_received m (set_sys (set_tasks_of tmp (sys s)) s)).
  destruct (StartServers_spec s1 ExitName ns e l left (SetRunning true ti) t1) as (f & m' & tm2 & E2 & Hr2 & [L1 L2 (tn & L3 & L3b & L3a & L3m) L4 (t1' & mr & L5 & L5a & L5b & L5c & L5d) L6] & L7);
    [exact Hget|exact Hleft|exact (c_str_no_nul _ _ Hleft)|exact Hleftlen|exact Hsetp|change (latest_id tm1 < 2 ^ 64 - 1); lia|done..|].
  change (latest_id (tasks_of (sys s1))) with (latest_id tm1) in *. rewrite Hl1 in *. fold n in L2, L3, L5d, L6, E2.
  exists (MkInit f m' answer n (set_tasks_of tm2 (sys s1))). split; [|split; [exact Hr2|split; [exact L7|]]].
  - unfold Init.WaitingForMessage. cbn [SyscallOpenReceiveMessage kernel_calls sys set_sys]. change (tasks_of (set_tasks_of tm1 (sys s))) with tm1.
    rewrite Hme1. cbn [mbind option_bind msgs SetRunning set_msgs length OpenReceive_loop]. rewrite decide_True by lia. rewrite Hme1. cbn [mbind option_bind].
    unfold Task_ReceiveMessage. cbn [msgs SetRunning set_msgs]. rewrite decide_False by lia. cbn [defined mbind outcome_bind app]. rewrite decide_True by done.
    exact E2.
  - cbn [sys]. assert (n <> system_id /\ n <> c /\ n <> me) as (N1 & N2 & N3) by (split_and!; intros E; symmetry in E; revert E; by eapply task_below).
    destruct (start_run (set_tasks_of tm2 (sys s)) mr t1' tn n 0) as (tm3 & E3 & H3 & _ & S3 & T3 & O3); try done.
    exists tm3, tn, (SetRunning false (set_msgs [] t1')). split; [exact E3|]. split; [split; try done|].
    + rewrite O3 by done. exact L4.
    + split_and!; try done.
      * rewrite O3 by done. change (tasks_of (set_tasks_of tm2 (sys s))) with tm2. rewrite L6 by done. by rewrite (only_other _ _ _ _ _ Op).
      * intros j J1 J2 J3 J4. rewrite O3 by done. change (tasks_of (set_tasks_of tm2 (sys s))) with tm2. rewrite L6 by done.
        rewrite (only_other _ _ _ _ _ Op) by done. by apply Ho1.
Qed.
End start.
End kernel.

(** ** A server on the sample volume *)

(** "HELLO.TXT" is the program of task 4, which runs; the system task and the
    init server, task 3, wait for messages. *)
Definition running_calls : list call :=
  [CNewTask; CNewTask; CUpdate 4 (set_arg_ (hello_name ++ zeros 23)); CStart 0 0 0 3 0; CStart 0 0 0 4 3; CSleep 1; CSleep 3].
Definition running_tm : TaskManager := exec_calls running_calls.
Definition running_system : @System SortedTimers :=
  MkSystem (MkKernel running_tm sample_timers (MkLog [] 0 0 false) []) (fst sample_start) (snd sample_start)
    (MkXHC [] 0 [] [] (MkTR (MkRing 0x20000 32 true 0) []) 0 []).
Definition running_init : @InitServer (list Z) (@System SortedTimers) :=
  MkInit sample_fs (zero_message kError) (zero_message kError) 0 running_system.

Lemma running_ok : sched_ok running_tm.
Proof. apply exec_calls_ok. by repeat constructor. Qed.

Definition task_of (i : Z) : Task := default (MakeTask 0) (find_task running_tm i).

#[local] Abbreviation running_kernel := (kernel_calls 0 (fun _ => 0) 4096 8192 (zeros arg_size) (fun _ => []) (fun _ _ => []) 0 0 0 0 0 0 0 0 (fun _ => 0) 3 []).

Lemma running_settled : settled 3 (tasks_of (sys running_init)) (task_of 3) (task_of 1).
Proof. split; [exact running_ok|vm_compute; reflexivity..|]. split_and!; done. Qed.

Lemma running_current : CurrentTask (tasks_of (sys running_init)) = Some 4 /\ latest_id (tasks_of (sys running_init)) = 4 /\
  finish_waiter (tasks_of (sys running_init)) = ∅ /\ find_task (tasks_of (sys running_init)) 4 = Some (task_of 4) /\ c_str (arg_ (task_of 4)) = Some hello_name.
Proof. split_and!; vm_compute; reflexivity. Qed.

(** Task 4 ends; task 5 starts with the 600 bytes of the file; the message of the
    system task holds zeros, so its name is empty. *)
Lemma server_restarts_witness :
  exists tm1 now, TaskServer_end 3 (zeros arg_size) (tasks_of (sys running_init)) = Ok (tm1, RestoreContext now) /\
  exists s2, @Init.WaitingForMessage _ _ _ running_kernel 10 (set_sys (set_tasks_of tm1 (sys running_init)) running_init) = Ok s2 /\
  exists tm3 t, run 0 (fun _ => 0) 4096 8192 (zeros arg_size) (fun _ => []) (fun _ _ => []) 0 0 0 0 0 0 0 0 (fun _ => 0) 2 (sys s2) = Ok (set_tasks_of tm3 (sys running_init)) /\
    find_task tm3 (latest_id (tasks_of (sys running_init)) + 1) = Some t /\ is_running t = true /\ buf t = replicate 512 7 ++ replicate 88 9 /\ c_str (arg_ t) = Some [].
Proof.
  destruct running_current as (Hc & Hl & Hw & Ht & Ha).
  destruct (server_restarts 0 (fun _ => 0) 4096 8192 (zeros arg_size) (fun _ => []) (fun _ _ => []) 0 0 0 0 0 0 0 0 (fun _ => 0) 3 [] 10 10
    running_init [hello_name] hello_entry [5] 4 (task_of 4) (task_of 3) (task_of 1) (zeros arg_size) [] running_settled)
    as (tm1 & now & E1 & _ & s2 & E2 & _ & _ & tm3 & tn & t1' & E3 & _ & Ht' & Hb & Hn & _);
    [rewrite Hl; lia|apply zero_message_ok|exact sample_fs_ok|exact hello_stored|cbn; lia|exact Hc|done..| | |exact Ht|exact Ha| | | |].
  - intros t w. by rewrite Hw, lookup_empty.
  - by rewrite Hw, lookup_empty.
  - split; [reflexivity|]. by apply Forall_replicate.
  - reflexivity.
  - cbn. lia.
  - exists tm1, now. split; [exact E1|]. exists s2. split; [exact E2|]. eexists tm3, _. split; [exact E3|]. split; [exact Ht'|].
    split; [reflexivity|]. cbn [buf arg_ SetRunning InitContext set_context]. split; [rewrite Hb; vm_compute; reflexivity|exact Hn].
Defined.

(** A server that ends while the init server waits for the answer of the system
    task: its message has the sender 1 too, and is taken for the answer. The
    server whose name it holds is not started, and neither is the new task. *)
Definition ending_init : @InitServer (list Z) (@System SortedTimers) :=
  set_sys (set_tasks_of (upd_task 3 (set_msgs [default (zero_message kError) (putS exitserver_name hello_name (MkMessage kExitServer 1 (zeros arg_size)))]) running_tm) running_system) running_init.

Lemma exit_taken_for_answer :
  match @Init.StartServers _ _ _ running_kernel 10 (Literal hello_name) ending_init with
  | Ok s => type (received_message s) = kExitServer /\ target_task_id s = 5 /\
      (is_running <$> find_task (tasks_of (sys s)) 5) = Some false /\ (msgs <$> find_task (tasks_of (sys s)) 3) = Some [] /\
      (map type ∘ msgs <$> find_task (tasks_of (sys s)) system_id) = Some [kExpandTaskBuffer]
  | _ => False
  end.
Proof. vm_compute. repeat split. Qed.
