(* ===== verification/Launch.v ===== *)
(** * A program is launched (servers/am, servers/fs, kernel/main.cpp, kernel/task.cpp)

    The application manager, the file system server and the system task over one
    kernel. The mailbox of a server is that of its task, and what a server does
    in a turn is carried out by the task manager. A turn is taken without an
    interruption, and a server that has nothing to receive takes none. *)

From S2P Require Import UsbRing BitField UsbTrb UsbDevice Keyboard Xhci EventRing.
From S2P Require Import Fat FatChain FatDir FsServer FsExec FatSample.
From S2P Require Import AmFd AmApps AmServer AmExec.
From S2P Require Import Prelude Bytes Message Task Timer KernelLog Syscall SystemTask.
From stdpp Require Import base list numbers option gmap.
From Stdlib Require Import ZArith Lia.

Local Open Scope Z_scope.

(** ** Mailboxes *)

Definition mailbox (tm : TaskManager) (i : Z) : option (list Message) := msgs <$> find_task tm i.

(** The mailbox of [i] has become [q], and nothing else differs. *)
Record boxed (i : Z) (q : list Message) (tm tm' : TaskManager) : Prop := {
  bx_ok : sched_ok tm';
  bx_latest : latest_id tm' = latest_id tm;
  bx_mail : mailbox tm' i = Some q;
  bx_other j : j <> i -> find_task tm' j = find_task tm j;
}.

Lemma boxed_other i q tm tm' j : boxed i q tm tm' -> j <> i -> mailbox tm' j = mailbox tm j.
Proof. intros H Hj. unfold mailbox. by rewrite (bx_other _ _ _ _ H). Qed.

Lemma sent i m q tm :
  sched_ok tm -> mailbox tm i = Some q -> exists tm', Task.SendMessage i m tm = Some (tm', kSuccess) /\ boxed i (q ++ [m]) tm tm'.
Proof.
  intros H Hi. unfold mailbox in Hi. destruct (find_task tm i) as [t|] eqn:Ht; [|done]. injection Hi as <-.
  destruct (send_ok i m t tm H Ht) as (tm' & E & H' & (Hl & _) & O). exists tm'. split; [done|]. split; [done|done| |].
  - unfold mailbox. by rewrite (only_at _ _ _ _ _ O Ht).
  - intros j Hj. exact (only_other _ _ _ _ _ O Hj).
Qed.

Lemma popped i q q' tm : sched_ok tm -> mailbox tm i = Some q -> boxed i q' tm (upd_task i (set_msgs q') tm).
Proof.
  intros H Hi. destruct (popped_ok i q' tm H) as [H' O]. split; [done|done| |intros j Hj; exact (only_other _ _ _ _ _ O Hj)].
  unfold mailbox in *. destruct (find_task tm i) as [t|] eqn:Ht; [|done]. by rewrite (only_at _ _ _ _ _ O Ht).
Qed.

(** ** The turns of the file system server *)

Section fs_turns.
Context {D : Type} `{!BlockDevice D} (M : Z) (fuel : nat).
Implicit Types s : @FsServer.Server D.

(** It waits with an empty mailbox and no answer given. *)
Record hears (st : FsServer.State) (s s' : FsServer.Server) : Prop := {
  hs_state : FsServer.state s' = st;
  hs_inbox : FsServer.inbox s' = [];
  hs_am : am_id s' = am_id s;
  hs_fs : reading M (fs s) (fs s');
  hs_sm : message_ok (FsServer.sm s');
}.

(** The program is looked for. *)
Lemma fs_turn_finds s m ns e l :
  FsServer.state s = FsServer.StateInit -> FsServer.inbox s = [m] -> FsServer.out s = [] -> message_ok (FsServer.sm s) ->
  type m = kExecuteFile -> getS executefile_filename m = Some (path_of ns) ->
  fs_ok M (fs s) -> stored_file M (fs s) ns e l -> attr e <> kDirectory -> (Z.to_nat M <= fuel)%nat ->
  exists s', FsServer.turn fuel s = Some s' /\ hears FsServer.StateExecFile s s' /\
    FsServer.out s' = [FsServer.Send (FsServer.sm s') (am_id s)] /\ type (FsServer.sm s') = kExecuteFile /\ target s' = Some e.
Proof.
  intros Hst Hin Hout Hsm Hty Hname Hfs [F1 _ F5 _ _ _] Hdir Hfuel.
  destruct (FindFile_spec M fuel false ns 0 (Some e) (fs s) Hfs F1 F5 Hfuel) as (f' & [i|] & post & Efind & Hr & Hfd); [|done].
  cbn [app] in Efind. destruct Hfd as [He _].
  destruct s as [f am0 st sm0 rm0 te ti ib o]. cbn [fs am_id FsServer.state FsServer.sm FsServer.inbox FsServer.out] in *. subst st ib o.
  unfold FsServer.turn, FsServer.ReceiveMessage. cbn [FsServer.state FsServer.inbox FsServer.InitState_ReceiveMessage]. rewrite Hty.
  unfold FsServer.HandleMessage. cbn [FsServer.state FsServer.set_state FsServer.received].
  unfold FsServer.ExecFileState_HandleMessage. cbn [FsServer.rm fs FsServer.set_state FsServer.received]. rewrite Hname. cbn [mbind option_bind]. rewrite Efind.
  cbn [mbind option_bind]. rewrite decide_False by (intros Hx; apply Hdir; by rewrite <- He). eexists. split; [reflexivity|].
  split; [split; try done|]; [cbn; auto with bytes|]. split; [done|]. split; [done|]. unfold target. cbn. exact (f_equal Some He).
Qed.

(** The buffer is asked for. *)
Lemma fs_turn_expands s m e :
  FsServer.state s = FsServer.StateExecFile -> FsServer.inbox s = [m] -> FsServer.out s = [] -> message_ok (FsServer.sm s) ->
  type m = kExecuteFile -> message_ok m -> target s = Some e -> fs_ok M (fs s) -> 0 <= file_size e < 2 ^ 31 ->
  exists s', FsServer.turn fuel s = Some s' /\ hears FsServer.StateExpandBuffer s s' /\
    FsServer.out s' = [FsServer.Send (FsServer.sm s') 1] /\ type (FsServer.sm s') = kExpandTaskBuffer /\ target s' = Some e /\
    FsServer.target_id s' = getU executefile_id m /\ getU expand_id (FsServer.sm s') = getU executefile_id m /\
    getU expand_bytes (FsServer.sm s') = file_size e.
Proof.
  intros Hst Hin Hout Hsm Hty Hm Hte Hfs Hsz.
  destruct s as [f am0 st sm0 rm0 te ti ib o]. cbn [fs am_id FsServer.state FsServer.sm FsServer.inbox FsServer.out] in *. subst st ib o.
  unfold FsServer.turn, FsServer.ReceiveMessage. cbn [FsServer.state FsServer.inbox FsServer.ExecFileState_ReceiveMessage]. rewrite Hty.
  unfold FsServer.HandleMessage. cbn [FsServer.state FsServer.set_state FsServer.received].
  unfold FsServer.ExpandBufferState_HandleMessage. cbn [FsServer.rm FsServer.set_state FsServer.received].
  replace (target _) with (Some e) by (symmetry; exact Hte). cbn [mbind option_bind]. eexists. split; [reflexivity|].
  cbn [FsServer.SendMessage FsServer.state FsServer.set_sm FsServer.set_target_id FsServer.target_id FsServer.sm FsServer.act].
  pose proof (reading_refl M f Hfs) as Hrefl.
  assert (message_ok (setF expand_id (getU executefile_id m) (set_type kExpandTaskBuffer sm0))) by auto with bytes.
  split; [split; try done; cbn; auto with bytes|]. split; [done|]. split; [done|]. split; [exact Hte|]. split; [done|]. split.
  - change (getU expand_id (setF expand_bytes (file_size e) (setF expand_id (getU executefile_id m) (set_type kExpandTaskBuffer sm0))) = getU executefile_id m).
    rewrite getU_setF_ne by auto with bytes. rewrite getU_setF by auto with bytes. by apply Z.mod_small, (getU_range executefile_id).
  - change (getU expand_bytes (setF expand_bytes (file_size e) (setF expand_id (getU executefile_id m) (set_type kExpandTaskBuffer sm0))) = file_size e).
    rewrite getU_setF by auto with bytes. apply Z.mod_small. generalize dependent (file_size e). cbn. lia.
Qed.

(** The program is copied. *)
Lemma fs_turn_copies s m e l :
  FsServer.state s = FsServer.StateExpandBuffer -> FsServer.inbox s = [m] -> FsServer.out s = [] -> message_ok (FsServer.sm s) ->
  type m = kExpandTaskBuffer -> target s = Some e -> fs_ok M (fs s) -> chain M (fat_at (fs s)) (FirstCluster e) l ->
  0 <= file_size e < 2 ^ 31 -> (Z.to_nat M <= fuel)%nat ->
  exists s', FsServer.turn fuel s = Some s' /\ hears FsServer.StateInit s s' /\
    FsServer.out s' = copies (fs s) (FsServer.target_id s) (FirstCluster e :: l) (file_size e) 0 ++ [FsServer.Send (FsServer.sm s') (am_id s)] /\
    type (FsServer.sm s') = kReady.
Proof.
  intros Hst Hin Hout Hsm Hty Hte Hfs Hch Hsz Hfuel. pose proof (ok_M _ _ Hfs) as HM. pose proof (chain_length _ _ (proj2 HM) _ _ Hch).
  unfold FsServer.turn, FsServer.ReceiveMessage. rewrite Hst, Hin. cbn [FsServer.ExpandBufferState_ReceiveMessage]. rewrite Hty.
  set (s1 := FsServer.set_state FsServer.StateCopyToBuffer (FsServer.received m [] s)).
  unfold FsServer.HandleMessage. cbn [FsServer.state FsServer.set_state FsServer.received]. unfold FsServer.CopyToBufferState_HandleMessage.
  change (target s1) with (target s). rewrite Hte. cbn [mbind option_bind].
  destruct (copy_loop_spec M fuel l (FirstCluster e) (file_size e) 0 s1 Hfs Hch) as (s' & -> & [R1 R2 R3 (R4 & R5 & R6 & R7 & R8 & R9)]); [lia..|].
  cbn [mbind option_bind]. eexists. split; [reflexivity|].
  change (fs s1) with (fs s) in *. change (FsServer.out s1) with (FsServer.out s) in R2. change (am_id s1) with (am_id s) in R4.
  change (FsServer.sm s1) with (FsServer.sm s) in R6. change (FsServer.inbox s1) with (@nil Message) in R9. change (FsServer.target_id s1) with (FsServer.target_id s) in *.
  assert (FsServer.state (FsServer.set_sm (set_type kReady (FsServer.sm s')) s') = FsServer.StateCopyToBuffer) as Est by exact R5.
  unfold FsServer.SendMessage. rewrite Est. split; [split; try done|].
  - cbn. by rewrite R6.
  - split; [|done]. cbn. by rewrite R2, Hout, R4.
Qed.
End fs_turns.

Section launch.
Context {Q : Type} `{!PriorityQueue Q} {D : Type} `{!BlockDevice D} (fuel : nat).
Context (kernel_cr3 : Z) (stack_end : Z -> Z) (TaskServer TaskApp : Z) (smsg_arg : list Z).
Context (text_started : Z -> list Z) (text_unknown : MsgType -> Z -> list Z).
Context (memory_pool sizeof_keyboard sizeof_mouse hid_buf_offset sizeof_device off_buf off_ctx off_input : Z) (portsc : Z -> Z).
Context (junk : list Z).

#[local] Abbreviation system_turn := (SystemTask.turn kernel_cr3 stack_end TaskServer TaskApp smsg_arg text_started text_unknown
  memory_pool sizeof_keyboard sizeof_mouse hid_buf_offset sizeof_device off_buf off_ctx off_input portsc).

(** The tasks of the two servers. *)
Context (A F : Z).

Record World := MkWorld { am : AmServer.Server; fsv : @FsServer.Server D; sys : @System Q }.
Definition tm_of (w : World) : TaskManager := tasks_of (sys w).
Definition set_tm_of tm w := MkWorld (am w) (fsv w) (set_tasks_of tm (sys w)).

(** ** The system calls of the servers *)

Definition perform_am (a : AmFd.action) (k : @Kernel Q) : option Kernel :=
  match a with
  | AmFd.Send m to => '(tm, _) ← Task.SendMessage to (set_src A m) (task_manager k); Some (set_tm tm k)
  | Refused m => '(tm, _) ← Task.SendMessage (src_task m) (retry_message A junk) (task_manager k); Some (set_tm tm k)
  | AmFd.CreateNewTask => Some (fst (Syscall.CreateNewTask k))
  | AmFd.SetCommand id c => fst <$> Syscall.SetCommand id c k
  | AmFd.SetArgument id a => fst <$> Syscall.SetArgument id a k
  end.

Definition perform_fs (a : FsServer.action) (k : @Kernel Q) : option Kernel :=
  match a with
  | FsServer.Send m to => '(tm, _) ← Task.SendMessage to (set_src F m) (task_manager k); Some (set_tm tm k)
  | CopyToBuffer id data off => fst <$> SysCopyToTaskBuffer id data off (Z.of_nat (length data)) k
  end.

Fixpoint perform {X : Type} (f : X -> @Kernel Q -> option Kernel) (l : list X) (k : Kernel) : option Kernel :=
  match l with [] => Some k | a :: l' => k ← f a k; perform f l' k end.

(** ** Turns *)

Definition with_mail (q : list Message) (a : AmServer.Server) : AmServer.Server := set_mail (MkMail q []) a.
Definition ask_kernel (k : @Kernel Q) (name : list Z) : Z * Z := let r := Syscall.FindServer name k in (value r, error r).

Definition am_step (w : World) : option World :=
  t ← find_task (tm_of w) A;
  match AmServer.turn junk (ask_kernel (kernel (sys w))) (fun _ => (latest_id (tm_of w) + 1, 0)) (with_mail (msgs t) (am w)) with
  | Ok a =>
      k ← perform perform_am (AmFd.out (mail a)) (set_tm (upd_task A (set_msgs (AmFd.inbox (mail a))) (tm_of w)) (kernel (sys w)));
      Some (MkWorld a (fsv w) (set_kernel k (sys w)))
  | _ => None
  end.

(** The file system server hears the manager, and the system task while a buffer
    grows; a message of another task is not for it. *)
Definition with_inbox (q : list Message) (s : @FsServer.Server D) : FsServer.Server :=
  FsServer.MkServer (fs s) (am_id s) (FsServer.state s) (FsServer.sm s) (FsServer.rm s) (target_entry s) (FsServer.target_id s) q [].
Definition heard (s : @FsServer.Server D) : Z := match FsServer.state s with FsServer.StateExpandBuffer => system_id | _ => am_id s end.

Definition fs_step (w : World) : option World :=
  t ← find_task (tm_of w) F;
  guard (Forall (fun m => src_task m = heard (fsv w)) (msgs t));;
  _ ← FsServer.ReceiveMessage (with_inbox (msgs t) (fsv w));
  s ← FsServer.turn fuel (with_inbox (msgs t) (fsv w));
  k ← perform perform_fs (FsServer.out s) (set_tm (upd_task F (set_msgs (FsServer.inbox s)) (tm_of w)) (kernel (sys w)));
  Some (MkWorld (am w) s (set_kernel k (sys w))).

(** The system task handles a message. *)
Definition system_step (w : World) : option World :=
  t ← find_task (tm_of w) system_id;
  match msgs t with
  | [] => None
  | _ => match system_turn (sys w) with Ok (s, _) => Some (MkWorld (am w) (fsv w) s) | _ => None end
  end.

(** Every turn that can be taken, and all that can come of [n] turns in any
    order. *)
Definition moves (w : World) : list World := omap (fun f => f w) [am_step; fs_step; system_step].
Fixpoint outcomes (n : nat) (w : World) : list World :=
  match n with O => [w] | S n' => w' ← moves w; outcomes n' w' end.

(** ** Who can take a turn *)

Definition am_waits (st : AmServer.State) : bool :=
  match st with AmServer.StateInit | AmServer.StateExecFile | StateCreateTask => true | _ => false end.
Definition fs_waits (st : FsServer.State) : bool :=
  match st with FsServer.StateInit | FsServer.StateExecFile | FsServer.StateExpandBuffer => true | _ => false end.

Lemma am_step_waits w : mailbox (tm_of w) A = Some [] -> am_waits (AmServer.state (am w)) = true -> am_step w = None.
Proof.
  unfold am_step, mailbox. destruct (find_task (tm_of w) A) as [t|]; [|done]. cbn. intros [= ->] Hst.
  unfold AmServer.turn, AmServer.ReceiveMessage. change (AmServer.state (with_mail [] (am w))) with (AmServer.state (am w)).
  by destruct (AmServer.state (am w)).
Qed.

Lemma fs_step_waits w : mailbox (tm_of w) F = Some [] -> fs_waits (FsServer.state (fsv w)) = true -> fs_step w = None.
Proof.
  unfold fs_step, mailbox. destruct (find_task (tm_of w) F) as [t|]; [|done]. cbn [fmap option_fmap option_map mbind option_bind]. intros [= ->] Hst.
  case_guard; [|done]. cbn [mbind option_bind]. unfold FsServer.ReceiveMessage. change (FsServer.state (with_inbox [] (fsv w))) with (FsServer.state (fsv w)).
  by destruct (FsServer.state (fsv w)).
Qed.

Lemma system_step_waits w : mailbox (tm_of w) system_id = Some [] -> system_step w = None.
Proof. unfold system_step, mailbox. destruct (find_task (tm_of w) system_id) as [t|]; [|done]. cbn. by intros [= ->]. Qed.

Record boxes (tm : TaskManager) (qA qF q1 : list Message) : Prop := {
  bs_ok : sched_ok tm;
  bs_am : mailbox tm A = Some qA;
  bs_fs : mailbox tm F = Some qF;
  bs_system : mailbox tm system_id = Some q1;
}.

Context (Hids : A <> F /\ A <> system_id /\ F <> system_id).
Context (sy : @System Q).

Definition world a s tm : World := MkWorld a s (set_tasks_of tm sy).

Lemma am_moves a s tm q a' tm' :
  boxes tm q [] [] -> fs_waits (FsServer.state s) = true ->
  AmServer.turn junk (ask_kernel (set_tm tm (kernel sy))) (fun _ => (latest_id tm + 1, 0)) (with_mail q a) = Ok a' -> AmFd.inbox (mail a') = [] ->
  perform perform_am (AmFd.out (mail a')) (set_tm (upd_task A (set_msgs []) tm) (kernel sy)) = Some (set_tm tm' (kernel sy)) ->
  moves (world a s tm) = [world a' s tm'].
Proof.
  intros [B1 B2 B3 B4] Hs Ht Hin Hp. unfold moves. cbn [omap list_omap].
  rewrite fs_step_waits, system_step_waits by done. replace (am_step (world a s tm)) with (Some (world a' s tm')); [done|].
  unfold am_step. change (tm_of (world a s tm)) with tm. unfold mailbox in B2. destruct (find_task tm A) as [t|]; [|done]. cbn in B2. injection B2 as <-.
  cbn [mbind option_bind]. change (kernel (sys (world a s tm))) with (set_tm tm (kernel sy)). change (am (world a s tm)) with a.
  rewrite Ht, Hin. change (set_tm ?x (set_tm tm ?k)) with (set_tm x k). by rewrite Hp.
Qed.

Lemma fs_moves a s tm q s' tm' :
  boxes tm [] q [] -> am_waits (AmServer.state a) = true -> Forall (fun m => src_task m = heard s) q ->
  is_Some (FsServer.ReceiveMessage (with_inbox q s)) -> FsServer.turn fuel (with_inbox q s) = Some s' -> FsServer.inbox s' = [] ->
  perform perform_fs (FsServer.out s') (set_tm (upd_task F (set_msgs []) tm) (kernel sy)) = Some (set_tm tm' (kernel sy)) ->
  moves (world a s tm) = [world a s' tm'].
Proof.
  intros [B1 B2 B3 B4] Hs Hf [r Hr] Ht Hin Hp. unfold moves. cbn [omap list_omap].
  rewrite am_step_waits, system_step_waits by done. replace (fs_step (world a s tm)) with (Some (world a s' tm')); [done|].
  unfold fs_step. change (tm_of (world a s tm)) with tm. unfold mailbox in B3. destruct (find_task tm F) as [t|]; [|done]. cbn in B3. injection B3 as <-.
  cbn [mbind option_bind]. change (kernel (sys (world a s tm))) with (set_tm tm (kernel sy)). change (fsv (world a s tm)) with s.
  case_guard; [|done]. cbn [mbind option_bind].
  rewrite Hr. cbn [mbind option_bind]. rewrite Ht. cbn [mbind option_bind]. rewrite Hin. change (set_tm ?x (set_tm tm ?k)) with (set_tm x k). by rewrite Hp.
Qed.

Lemma system_moves a s tm q sy' :
  boxes tm [] [] q -> q <> [] -> am_waits (AmServer.state a) = true -> fs_waits (FsServer.state s) = true ->
  system_turn (set_tasks_of tm sy) = Ok (sy', Continue) -> moves (world a s tm) = [MkWorld a s sy'].
Proof.
  intros [B1 B2 B3 B4] Hq Ha Hs Ht. unfold moves. cbn [omap list_omap].
  rewrite am_step_waits, fs_step_waits by done. replace (system_step (world a s tm)) with (Some (MkWorld a s sy')); [done|].
  unfold system_step. change (tm_of (world a s tm)) with tm. unfold mailbox in B4. destruct (find_task tm system_id) as [t|]; [|done]. cbn in B4. injection B4 as <-.
  cbn [mbind option_bind]. destruct (msgs t); [done|]. change (sys (world a s tm)) with (set_tasks_of tm sy). by rewrite Ht.
Qed.

(** ** The dialogue *)

(** Only the tasks of [l] differ. *)
Definition keeps (l : list Z) (tm tm' : TaskManager) : Prop := forall j, j ∉ l -> find_task tm' j = find_task tm j.

Lemma keeps_boxed i q l tm tm' : i ∈ l -> boxed i q tm tm' -> keeps l tm tm'.
Proof. intros Hi H j Hj. apply (bx_other _ _ _ _ H). by intros ->. Qed.

Lemma keeps_trans l tm1 tm2 tm3 : keeps l tm1 tm2 -> keeps l tm2 tm3 -> keeps l tm1 tm3.
Proof. intros H1 H2 j Hj. by rewrite H2, H1. Qed.

Lemma keeps_mail l tm tm' j : keeps l tm tm' -> j ∉ l -> mailbox tm' j = mailbox tm j.
Proof. intros H Hj. unfold mailbox. by rewrite H. Qed.

Lemma mailbox_below tm i q : sched_ok tm -> mailbox tm i = Some q -> i <> latest_id tm + 1.
Proof. intros H Hi. unfold mailbox in Hi. destruct (find_task tm i) eqn:E; [|done]. by eapply task_below. Qed.

(** A message taken, and one sent. *)
Lemma relay i j q q' m tm :
  sched_ok tm -> i <> j -> mailbox tm i = Some q -> mailbox tm j = Some q' ->
  exists tm', Task.SendMessage j m (upd_task i (set_msgs []) tm) = Some (tm', kSuccess) /\ sched_ok tm' /\ latest_id tm' = latest_id tm /\
    mailbox tm' i = Some [] /\ mailbox tm' j = Some (q' ++ [m]) /\ keeps [i; j] tm tm'.
Proof.
  intros H Hij Hi Hj. pose proof (popped i q [] tm H Hi) as P.
  destruct (sent j m q' _ (bx_ok _ _ _ _ P)) as (tm' & E & S); [by rewrite (boxed_other _ _ _ _ _ P)|].
  exists tm'. split; [done|]. split; [apply S|]. split; [by rewrite (bx_latest _ _ _ _ S)|].
  split; [rewrite (boxed_other _ _ _ _ _ S) by done; apply P|]. split; [apply S|].
  eapply keeps_trans; eapply keeps_boxed; try done; set_solver.
Qed.

Lemma ask_fs a s tm m T cmd args :
  boxes tm [m] [] [] -> AmExec.idle a -> exec_request T cmd args m -> ask_kernel (set_tm tm (kernel sy)) servers_fs = (F, 0) ->
  fs_waits (FsServer.state s) = true ->
  exists a1 tm1, moves (world a s tm) = [world a1 s tm1] /\
    asking F T cmd args [] [AmFd.Send (AmServer.sm a1) F] (with_mail [m] a) a1 /\
    boxes tm1 [] [set_src A (AmServer.sm a1)] [] /\ latest_id tm1 = latest_id tm /\ keeps [A; F] tm tm1.
Proof.
  intros HB Hidle Hreq HF Hs. pose proof HB as [B1 B2 B3 B4]. destruct Hids as (I1 & I2 & I3).
  destruct (exec_turn_asks junk _ (fun _ => (latest_id tm + 1, 0)) F HF T cmd args m [] (with_mail [m] a) Hidle Hreq eq_refl) as (a1 & Et & Hask).
  pose proof Hask as (_ & _ & _ & _ & _ & _ & _ & _ & _ & _ & Hmail & _ & _). cbn [AmFd.out with_mail mail set_mail app] in Hmail.
  destruct (relay A F [m] [] (set_src A (AmServer.sm a1)) tm B1 I1 B2 B3) as (tm1 & Es & H1 & Hl & M1 & M2 & K).
  exists a1, tm1. split; [|split; [exact Hask|split; [split; [done|done|done|]|done]]].
  - eapply am_moves; [done|done|exact Et|by rewrite Hmail|]. rewrite Hmail. cbn [AmFd.out perform perform_am]. cbn [task_manager set_tm]. by rewrite Es.
  - rewrite (keeps_mail _ _ _ _ K); [done|set_solver].
Qed.

Lemma find_program M a s tm m ns e l :
  boxes tm [] [m] [] -> am_waits (AmServer.state a) = true -> src_task m = A -> type m = kExecuteFile -> getS executefile_filename m = Some (path_of ns) ->
  FsServer.state s = FsServer.StateInit -> am_id s = A -> message_ok (FsServer.sm s) ->
  fs_ok M (fs s) -> stored_file M (fs s) ns e l -> attr e <> kDirectory -> (Z.to_nat M <= fuel)%nat ->
  exists s1 tm1, moves (world a s tm) = [world a s1 tm1] /\ hears M FsServer.StateExecFile s s1 /\ target s1 = Some e /\
    type (FsServer.sm s1) = kExecuteFile /\ boxes tm1 [set_src F (FsServer.sm s1)] [] [] /\ latest_id tm1 = latest_id tm /\ keeps [F; A] tm tm1.
Proof.
  intros HB Ha Hsrc Hty Hname Hst Ham Hsm Hfs Hfile Hdir Hfuel. pose proof HB as [B1 B2 B3 B4]. destruct Hids as (I1 & I2 & I3).
  destruct (fs_turn_finds M fuel (with_inbox [m] s) m ns e l Hst eq_refl eq_refl Hsm Hty Hname Hfs Hfile Hdir Hfuel) as (s1 & Et & Hh & Hout & Hty1 & Hte).
  change (am_id (with_inbox [m] s)) with (am_id s) in Hout. rewrite Ham in Hout.
  destruct (relay F A [m] [] (set_src F (FsServer.sm s1)) tm B1 (not_eq_sym I1) B3 B2) as (tm1 & Es & H1 & Hl & M1 & M2 & K).
  exists s1, tm1. split; [|split; [destruct Hh; by split|split; [done|split; [done|split; [split; [done|done|done|]|done]]]]].
  - eapply fs_moves; [done|done|repeat constructor; unfold heard; by rewrite Hst, Ham| |exact Et|apply Hh|].
    + unfold FsServer.ReceiveMessage. change (FsServer.state (with_inbox [m] s)) with (FsServer.state s). rewrite Hst.
      cbn [FsServer.InitState_ReceiveMessage FsServer.inbox with_inbox]. rewrite Hty. by eexists.
    + rewrite Hout. cbn [perform perform_fs]. cbn [task_manager set_tm]. by rewrite Es.
  - rewrite (keeps_mail _ _ _ _ K); [done|set_solver].
Qed.

Lemma am_fs_done w :
  boxes (tm_of w) [] [] [] -> am_waits (AmServer.state (am w)) = true -> fs_waits (FsServer.state (fsv w)) = true -> moves w = [].
Proof. intros [_ B2 B3 B4] Ha Hs. unfold moves. cbn [omap list_omap]. by rewrite am_step_waits, fs_step_waits, system_step_waits. Qed.

Lemma asking_remail T cmd args q o q' s0 a : asking F T cmd args q o s0 a -> asking F T cmd args q' [] s0 (with_mail q' a).
Proof. unfold asking. intuition. Qed.

Lemma loading_remail id T cmd args q o q' s0 a : loading F id T cmd args q o s0 a -> loading F id T cmd args q' [] s0 (with_mail q' a).
Proof. unfold loading. intuition. Qed.

Lemma make_task a0 a s tm m T cmd args q o :
  boxes tm [m] [] [] -> asking F T cmd args q o a0 a -> answer F kExecuteFile m -> fs_waits (FsServer.state s) = true -> latest_id tm + 1 < 2 ^ 64 ->
  let n := latest_id tm + 1 in
  exists a1 tm1, moves (world a s tm) = [world a1 s tm1] /\
    loading F n T cmd args [] [AmFd.CreateNewTask; AmFd.Send (AmServer.sm a1) F] a0 a1 /\
    boxes tm1 [] [set_src A (AmServer.sm a1)] [] /\ latest_id tm1 = n /\ find_task tm1 n = Some (MakeTask n) /\ keeps [A; F; n] tm tm1.
Proof.
  intros HB Hask Hans Hs Hlat n. pose proof HB as [B1 B2 B3 B4]. destruct Hids as (I1 & I2 & I3).
  pose proof (mailbox_below _ _ _ B1 B2). pose proof (mailbox_below _ _ _ B1 B3). pose proof (mailbox_below _ _ _ B1 B4). fold n in H, H0, H1.
  assert (0 <= latest_id tm) by (unfold mailbox in B2; destruct (find_task tm A) eqn:E; [|done]; apply (so_latest _ B1) in E; lia).
  destruct (exec_turn_creates junk (ask_kernel (set_tm tm (kernel sy))) (fun _ => (n, 0)) F n T cmd args [] m [] [] a0 (with_mail [m] a)) as (a1 & Et & Hload);
    [by apply (asking_remail _ _ _ q o)|done|done|done|unfold n; lia|].
  pose proof Hload as (_ & _ & _ & _ & _ & _ & _ & _ & _ & _ & _ & _ & _ & Hmail & _ & _). cbn [app replicate length] in Hmail.
  pose proof (popped A [m] [] tm B1 B2) as P. set (tma := upd_task A (set_msgs []) tm) in *. pose proof (NewTask_ok tma (bx_ok _ _ _ _ P)) as Hn.
  pose proof (fun j => NewTask_find tma j (bx_ok _ _ _ _ P)) as Fn. change (latest_id tma + 1) with n in Fn. set (tmb := fst (NewTask tma)) in *.
  assert (forall j, j <> n -> find_task tmb j = find_task tma j) as Fo by (intros j Hj; by rewrite Fn, decide_False).
  destruct (sent F (set_src A (AmServer.sm a1)) [] tmb Hn) as (tm1 & Es & S).
  { unfold mailbox. rewrite Fo by done. fold (mailbox tma F). by rewrite (boxed_other _ _ _ _ _ P). }
  exists a1, tm1. split; [|split; [exact Hload|split; [split; [apply S| |apply S|]|split; [|split]]]].
  - eapply am_moves; [done|done|exact Et|by rewrite Hmail|]. rewrite Hmail. cbn [AmFd.out perform perform_am]. fold tma.
    unfold Syscall.CreateNewTask. cbn [task_manager set_tm]. change (NewTask tma) with (tmb, n). cbn [fst mbind option_bind task_manager set_tm]. by rewrite Es.
  - rewrite (boxed_other _ _ _ _ _ S) by done. unfold mailbox. rewrite Fo by done. apply P.
  - rewrite (boxed_other _ _ _ _ _ S) by done. unfold mailbox. rewrite Fo by done. fold (mailbox tma system_id). by rewrite (boxed_other _ _ _ _ _ P).
  - by rewrite (bx_latest _ _ _ _ S).
  - rewrite (bx_other _ _ _ _ S) by done. by rewrite Fn, decide_True.
  - intros j Hj. rewrite !not_elem_of_cons in Hj. destruct Hj as (J1 & J2 & J3 & _). rewrite (bx_other _ _ _ _ S), Fo, (bx_other _ _ _ _ P) by done. done.
Qed.

Lemma ask_buffer M a s tm m e :
  boxes tm [] [m] [] -> am_waits (AmServer.state a) = true -> src_task m = A -> type m = kExecuteFile -> message_ok m ->
  FsServer.state s = FsServer.StateExecFile -> am_id s = A -> message_ok (FsServer.sm s) -> target s = Some e -> fs_ok M (fs s) -> 0 <= file_size e < 2 ^ 31 ->
  exists s1 tm1, moves (world a s tm) = [world a s1 tm1] /\ hears M FsServer.StateExpandBuffer s s1 /\ target s1 = Some e /\
    type (FsServer.sm s1) = kExpandTaskBuffer /\ FsServer.target_id s1 = getU executefile_id m /\
    getU expand_id (FsServer.sm s1) = getU executefile_id m /\ getU expand_bytes (FsServer.sm s1) = file_size e /\
    boxes tm1 [] [] [set_src F (FsServer.sm s1)] /\ latest_id tm1 = latest_id tm /\ keeps [F; system_id] tm tm1.
Proof.
  intros HB Ha Hsrc Hty Hm Hst Ham Hsm Hte Hfs Hsz. pose proof HB as [B1 B2 B3 B4]. destruct Hids as (I1 & I2 & I3).
  destruct (fs_turn_expands M fuel (with_inbox [m] s) m e Hst eq_refl eq_refl Hsm Hty Hm Hte Hfs Hsz) as (s1 & Et & Hh & Hout & Hty1 & Hte1 & Hid & Hid' & Hsz').
  destruct (relay F system_id [m] [] (set_src F (FsServer.sm s1)) tm B1 I3 B3 B4) as (tm1 & Es & H1 & Hl & M1 & M2 & K).
  exists s1, tm1. split; [|split; [destruct Hh; by split|do 5 (split; [done|]); split; [split; [done| |done|done]|done]]].
  - eapply fs_moves; [done|done|repeat constructor; unfold heard; by rewrite Hst, Ham| |exact Et|apply Hh|].
    + unfold FsServer.ReceiveMessage. change (FsServer.state (with_inbox [m] s)) with (FsServer.state s). rewrite Hst.
      cbn [FsServer.ExecFileState_ReceiveMessage FsServer.inbox with_inbox]. rewrite Hty. by eexists.
    + rewrite Hout. cbn [perform perform_fs]. cbn [task_manager set_tm]. change 1 with system_id. by rewrite Es.
  - rewrite (keeps_mail _ _ _ _ K); [done|set_solver].
Qed.

Lemma give_buffer a s tm m n tn :
  boxes tm [] [] [m] -> am_waits (AmServer.state a) = true -> fs_waits (FsServer.state s) = true -> src_task m = F -> type m = kExpandTaskBuffer ->
  getU expand_id m = n -> find_task tm n = Some tn -> n <> F -> n <> system_id -> n <> A ->
  exists tm1, moves (world a s tm) = [world a s tm1] /\ boxes tm1 [] [MkMessage kExpandTaskBuffer 1 smsg_arg] [] /\ latest_id tm1 = latest_id tm /\
    find_task tm1 n = Some (set_buf (resize (Z.to_nat (getU expand_bytes m)) 0 (buf tn)) tn) /\ keeps [system_id; F; n] tm tm1.
Proof.
  intros HB Ha Hs Hsrc Hty Hn Htn N1 N2 N3. pose proof HB as [B1 B2 B3 B4]. destruct Hids as (I1 & I2 & I3).
  unfold mailbox in B2, B3, B4. destruct (find_task tm F) as [tf|] eqn:EF; [|done]. destruct (find_task tm system_id) as [t1|] eqn:E1; [|done]. cbn in B3, B4.
  injection B3 as B3. injection B4 as B4. rewrite <- Hsrc in EF, I3, N1.
  destruct (turn_expands kernel_cr3 stack_end TaskServer TaskApp smsg_arg text_started text_unknown memory_pool sizeof_keyboard sizeof_mouse
    hid_buf_offset sizeof_device off_buf off_ctx off_input portsc (set_tasks_of tm sy) m t1 tf tn n [] B1 E1 B4 Hty Hn Htn EF I3 N2 N1)
    as (tm1 & Et & H1 & (Hl & _) & T1 & Tf & Tn & To). rewrite Hsrc in *. change (tasks_of (set_tasks_of tm sy)) with tm in *.
  exists tm1. split; [exact (system_moves a s tm [m] _ HB ltac:(done) Ha Hs Et)|]. split; [split|].
  - done.
  - unfold mailbox. rewrite To by done. exact B2.
  - unfold mailbox. rewrite Tf. cbn. by rewrite B3.
  - unfold mailbox. by rewrite T1.
  - split; [done|]. split; [done|]. intros j Hj. rewrite !not_elem_of_cons in Hj. destruct Hj as (J1 & J2 & J3 & _). by apply To.
Qed.

Lemma perform_copies (f : @FileSystem D) id cs rest k : forall remain off tm tm', replay (copies f id cs remain off) tm = Some tm' ->
  perform perform_fs (copies f id cs remain off ++ rest) (set_tm tm k) = perform perform_fs rest (set_tm tm' k).
Proof.
  assert (Hstep : forall data off acts tm tm', replay (CopyToBuffer id data off :: acts) tm = Some tm' ->
    (forall tm1, replay acts tm1 = Some tm' -> perform perform_fs (acts ++ rest) (set_tm tm1 k) = perform perform_fs rest (set_tm tm' k)) ->
    perform perform_fs ((CopyToBuffer id data off :: acts) ++ rest) (set_tm tm k) = perform perform_fs rest (set_tm tm' k)).
  { intros data off acts tm tm' Hr IH. cbn [replay] in Hr. cbn [app perform perform_fs]. unfold SysCopyToTaskBuffer. cbn [task_manager set_tm].
    destruct (CopyToTaskBuffer id data off _ tm) as [[tm1 r]|]; [|done]. cbn [mbind option_bind fmap option_fmap option_map fst]. by apply IH. }
  induction cs as [|c cs IH]; intros remain off tm tm' Hr; [by injection Hr as <-|].
  cbn [copies] in *. destruct (decide _); (apply Hstep; [done|]; intros tm1; apply IH).
Qed.

Lemma copy_program M a s tm m n tn ns e l :
  boxes tm [] [m] [] -> am_waits (AmServer.state a) = true -> src_task m = system_id -> type m = kExpandTaskBuffer ->
  FsServer.state s = FsServer.StateExpandBuffer -> am_id s = A -> message_ok (FsServer.sm s) -> target s = Some e -> FsServer.target_id s = n ->
  fs_ok M (fs s) -> stored_file M (fs s) ns e l -> (Z.to_nat M <= fuel)%nat ->
  find_task tm n = Some tn -> Z.of_nat (length (buf tn)) = file_size e -> n <> F -> n <> A -> n <> system_id ->
  exists s1 tm1, moves (world a s tm) = [world a s1 tm1] /\ hears M FsServer.StateInit s s1 /\ type (FsServer.sm s1) = kReady /\
    boxes tm1 [set_src F (FsServer.sm s1)] [] [] /\ latest_id tm1 = latest_id tm /\
    find_task tm1 n = Some (set_buf (image (fs s) e l) tn) /\ keeps [F; A; n] tm tm1.
Proof.
  intros HB Ha Hsrc Hty Hst Ham Hsm Hte Htn Hfs [_ _ _ F6 F7 F8] Hfuel Hn Hbuf N1 N2 N3. pose proof HB as [B1 B2 B3 B4]. destruct Hids as (I1 & I2 & I3).
  destruct (fs_turn_copies M fuel (with_inbox [m] s) m e l Hst eq_refl eq_refl Hsm Hty Hte Hfs F6 F7 Hfuel) as (s1 & Et & Hh & Hout & Hty1).
  change (fs (with_inbox [m] s)) with (fs s) in *. change (FsServer.target_id (with_inbox [m] s)) with (FsServer.target_id s) in *.
  change (am_id (with_inbox [m] s)) with (am_id s) in *. rewrite Ham, Htn in Hout.
  pose proof (popped F [m] [] tm B1 B3) as P. set (tma := upd_task F (set_msgs []) tm) in *.
  assert (find_task tma n = Some tn) as Hna by (by rewrite (bx_other _ _ _ _ P)).
  destruct (replay_copies M (fs s) n (FirstCluster e :: l) (file_size e) 0 tma tn Hfs) as (tmb & tn' & Er & Htn' & Hb'); try (done || lia).
  { apply F6. }
  { cbn [length]. lia. }
  pose proof (replay_copies_only (fs s) n _ _ _ _ _ Er) as [O1 (O2 & _) O3 O4].
  destruct (O3 tn' Htn') as (t0 & Ht0 & E0). assert (t0 = tn) as -> by congruence.
  destruct (sent A (set_src F (FsServer.sm s1)) [] tmb (O1 (bx_ok _ _ _ _ P))) as (tm1 & Es & S).
  { unfold mailbox. rewrite O4 by done. fold (mailbox tma A). by rewrite (boxed_other _ _ _ _ _ P). }
  exists s1, tm1. split; [|split; [destruct Hh; by split|split; [done|split; [split; [apply S|apply S| |]|split; [|split]]]]].
  - eapply fs_moves; [done|done|repeat constructor; unfold heard; by rewrite Hst, Hsrc| |exact Et|apply Hh|].
    + unfold FsServer.ReceiveMessage. change (FsServer.state (with_inbox [m] s)) with (FsServer.state s). rewrite Hst.
      cbn [FsServer.ExpandBufferState_ReceiveMessage FsServer.inbox with_inbox]. rewrite Hty. by eexists.
    + rewrite Hout. fold tma. rewrite (perform_copies _ _ _ _ _ _ _ _ _ Er). cbn [perform perform_fs]. cbn [task_manager set_tm]. by rewrite Es.
  - rewrite (boxed_other _ _ _ _ _ S) by done. unfold mailbox. rewrite O4 by done. apply P.
  - rewrite (boxed_other _ _ _ _ _ S) by done. unfold mailbox. rewrite O4 by done. fold (mailbox tma system_id). by rewrite (boxed_other _ _ _ _ _ P).
  - rewrite (bx_latest _ _ _ _ S), O2. apply P.
  - rewrite (bx_other _ _ _ _ S), Htn', E0 by done. do 2 f_equal. by rewrite Hb'.
  - intros j Hj. rewrite !not_elem_of_cons in Hj. destruct Hj as (J1 & J2 & J3 & _). rewrite (bx_other _ _ _ _ S), O4, (bx_other _ _ _ _ P) by done. done.
Qed.

(** A string written over a block of 32 characters. *)
Lemma strcpy_fits b cmd : length b = 32%nat -> no_nul cmd -> (length cmd < 32)%nat -> exists b', strcpy b 0 cmd = Some b' /\ c_str b' = Some cmd.
Proof.
  intros Hb Hn Hl. assert (exists b', strcpy b 0 cmd = Some b') as [b' E] by (unfold strcpy; rewrite write_at_Some; [eauto|]; rewrite length_c_chars; lia).
  exists b'. split; [done|]. destruct (c_str_strcpy _ _ _ _ Hn E) as [Hc _]. by rewrite drop_0 in Hc.
Qed.

Lemma SetCommand_spec n c tn (k : @Kernel Q) :
  find_task (task_manager k) n = Some tn -> length (command tn) = 32%nat -> no_nul c -> (length c < 32)%nat ->
  exists b, fst <$> Syscall.SetCommand n c k = Some (set_tm (upd_task n (set_command b) (task_manager k)) k) /\ c_str b = Some c.
Proof.
  intros Hn Hl Hc Hcl. destruct (strcpy_fits _ c Hl Hc Hcl) as (b & E & Hb). exists b. split; [|done].
  unfold Syscall.SetCommand, FindTask_id. rewrite Hn. cbn [fmap option_fmap option_map mbind option_bind]. rewrite (proj2 (find_task_in _ _ _ Hn)), Hn.
  cbn [mbind option_bind]. by rewrite E.
Qed.

Lemma SetArgument_spec n c tn (k : @Kernel Q) :
  find_task (task_manager k) n = Some tn -> length (arg_ tn) = 32%nat -> no_nul c -> (length c < 32)%nat ->
  exists b, fst <$> Syscall.SetArgument n c k = Some (set_tm (upd_task n (set_arg_ b) (task_manager k)) k) /\ c_str b = Some c.
Proof.
  intros Hn Hl Hc Hcl. destruct (strcpy_fits _ c Hl Hc Hcl) as (b & E & Hb). exists b. split; [|done].
  unfold Syscall.SetArgument, FindTask_id. rewrite Hn. cbn [fmap option_fmap option_map mbind option_bind]. rewrite (proj2 (find_task_in _ _ _ Hn)), Hn.
  cbn [mbind option_bind]. by rewrite E.
Qed.

Lemma start_program a0 a s tm m n tn T cmd args q o qT :
  boxes tm [m] [] [] -> loading F n T cmd args q o a0 a -> answer F kReady m -> fs_waits (FsServer.state s) = true ->
  GetAppInfo n (AmServer.app_manager a0) = None -> n <> T -> 0 <= n < 2 ^ 64 -> n <> A -> n <> F -> n <> system_id ->
  T <> A -> T <> F -> T <> system_id -> mailbox tm T = Some qT ->
  find_task tm n = Some tn -> length (command tn) = 32%nat -> length (arg_ tn) = 32%nat ->
  no_nul cmd -> (length cmd < 32)%nat -> no_nul args -> (length args < 32)%nat ->
  exists a1 tm1 q3 q4 c b, moves (world a s tm) = [world a1 s tm1] /\
    started (ask_kernel (set_tm tm (kernel sy))) n T cmd args [] a0 a1 /\ boxes tm1 [] [] [set_src A q4] /\ latest_id tm1 = latest_id tm /\
    find_task tm1 n = Some (set_arg_ b (set_command c tn)) /\ c_str c = Some cmd /\ c_str b = Some args /\
    mailbox tm1 T = Some (qT ++ [set_src A q3]) /\ type q3 = kExecuteFile /\ getU executefile_id q3 = n /\
    type q4 = kStartApp /\ getU starttask_id q4 = n /\ keeps [A; T; system_id; n] tm tm1.
Proof.
  intros HB Hload Hans Hs Hfree HnT Hrange N1 N2 N3 T1 T2 T3 HT Hn Hlc Hla Hnc Hcl Hna Hal.
  pose proof HB as [B1 B2 B3 B4]. destruct Hids as (I1 & I2 & I3).
  destruct (exec_turn_starts junk (ask_kernel (set_tm tm (kernel sy))) (fun _ => (latest_id tm + 1, 0)) F n T cmd args [] m [] [] a0 (with_mail [m] a))
    as (a1 & q3 & q4 & Et & Hst & Hout & E1 & E2 & E3 & E4); [by apply (loading_remail _ _ _ _ q o)|done..|].
  cbn [app replicate length] in Hout. pose proof Hst as (_ & Hin & _).
  pose proof (popped A [m] [] tm B1 B2) as P. set (tma := upd_task A (set_msgs []) tm) in *.
  assert (find_task tma n = Some tn) as Fa by (by rewrite (bx_other _ _ _ _ P)).
  destruct (SetCommand_spec n cmd tn (set_tm tma (kernel sy)) Fa Hlc Hnc Hcl) as (c & Ec & Hc). cbn [task_manager set_tm] in Ec.
  set (tmb := upd_task n (set_command c) tma) in *.
  assert (sched_ok tmb) as Hb by (apply upd_ok; [by split|apply P]).
  assert (only_task n (set_command c) tma tmb) as Ob by by apply upd_only.
  destruct (SetArgument_spec n args (set_command c tn) (set_tm tmb (kernel sy)) (only_at _ _ _ _ _ Ob Fa) Hla Hna Hal) as (b & Eb & Hbs).
  cbn [task_manager set_tm] in Eb. set (tmc := upd_task n (set_arg_ b) tmb) in *.
  assert (sched_ok tmc) as Hcc by (apply upd_ok; [by split|done]).
  assert (only_task n (set_arg_ b) tmb tmc) as Oc by by apply upd_only.
  assert (forall j, j <> n -> find_task tmc j = find_task tma j) as Fo.
  { intros j Hj. by rewrite (only_other _ _ _ _ _ Oc), (only_other _ _ _ _ _ Ob). }
  assert (forall j, j <> n -> j <> A -> mailbox tmc j = mailbox tm j) as Mo.
  { intros j Hj Hj'. unfold mailbox. by rewrite Fo, (bx_other _ _ _ _ P). }
  destruct (sent T (set_src A q3) qT tmc Hcc) as (tmd & Ed & Sd); [by rewrite Mo|].
  destruct (sent system_id (set_src A q4) [] tmd (bx_ok _ _ _ _ Sd)) as (tme & Ee & Se); [by rewrite (boxed_other _ _ _ _ _ Sd), Mo|].
  assert (forall j, j <> system_id -> j <> T -> find_task tme j = find_task tmc j) as Fe.
  { intros j J1 J2. by rewrite (bx_other _ _ _ _ Se), (bx_other _ _ _ _ Sd). }
  exists a1, tme, q3, q4, c, b. split; [|split; [exact Hst|split; [split; [apply Se| | |apply Se]|split; [|split; [|split; [done|split; [done|split; [|]]]]]]]].
  - eapply am_moves; [done|done|exact Et|done|]. rewrite Hout. cbn [perform perform_am]. fold tma. rewrite Ec. cbn [mbind option_bind].
    change (set_tm tmb (set_tm tma (kernel sy))) with (set_tm tmb (kernel sy)). rewrite Eb. cbn [mbind option_bind task_manager set_tm]. rewrite Ed.
    cbn [mbind option_bind task_manager set_tm]. change 1 with system_id. by rewrite Ee.
  - unfold mailbox. rewrite Fe, Fo by done. apply P.
  - unfold mailbox. rewrite Fe by done. fold (mailbox tmc F). by rewrite Mo.
  - by rewrite (bx_latest _ _ _ _ Se), (bx_latest _ _ _ _ Sd).
  - rewrite Fe by done. exact (only_at _ _ _ _ _ Oc (only_at _ _ _ _ _ Ob Fa)).
  - rewrite (boxed_other _ _ _ _ _ Se) by done. apply Sd.
  - do 4 (split; [done|]). intros j Hj. rewrite !not_elem_of_cons in Hj. destruct Hj as (J1 & J2 & J3 & J4 & _).
    by rewrite Fe, Fo, (bx_other _ _ _ _ P).
Qed.

Lemma enter_program a s tm m n tn :
  boxes tm [] [] [m] -> am_waits (AmServer.state a) = true -> fs_waits (FsServer.state s) = true -> src_task m = A -> type m = kStartApp ->
  getU starttask_id m = n -> find_task tm n = Some tn -> n <> system_id -> n <> A -> n <> F ->
  log_ok (kernel_log (kernel sy)) -> Z.of_nat (pending_len (kernel_log (kernel sy)) + length (text_started n)) < log_size ->
  exists tm1 lg, moves (world a s tm) = [MkWorld a s (set_kernel (set_log lg (set_tm tm1 (kernel sy))) sy)] /\ boxes tm1 [] [] [] /\ latest_id tm1 = latest_id tm /\
    log_ok lg /\ pending lg = pending (kernel_log (kernel sy)) ++ text_started n /\
    find_task tm1 n = Some (SetRunning true (InitContext kernel_cr3 (stack_end n) TaskApp A tn)) /\ keeps [system_id; n] tm tm1.
Proof.
  intros HB Ha Hs Hsrc Hty Hn Htn N1 N2 N3 Hlog Hroom. pose proof HB as [B1 B2 B3 B4]. destruct Hids as (I1 & I2 & I3).
  unfold mailbox in B4. destruct (find_task tm system_id) as [t1|] eqn:E1; [|done]. cbn in B4. injection B4 as B4.
  destruct (turn_starts_app kernel_cr3 stack_end TaskServer TaskApp smsg_arg text_started text_unknown memory_pool sizeof_keyboard sizeof_mouse
    hid_buf_offset sizeof_device off_buf off_ctx off_input portsc (set_tasks_of tm sy) m t1 tn n [] B1 E1 B4 Hty Hn Htn N1 Hlog Hroom)
    as (tm1 & lg & Et & H1 & (Hl & _) & L1 & L2 & T1 & Tn & To). rewrite Hsrc in *. change (tasks_of (set_tasks_of tm sy)) with tm in *.
  exists tm1, lg. split; [exact (system_moves a s tm [m] _ HB ltac:(done) Ha Hs Et)|]. split; [split|].
  - done.
  - unfold mailbox. rewrite To by done. exact B2.
  - unfold mailbox. rewrite To by done. exact B3.
  - unfold mailbox. by rewrite T1.
  - do 4 (split; [done|]). intros j Hj. rewrite !not_elem_of_cons in Hj. destruct Hj as (J1 & J2 & _). by apply To.
Qed.

Lemma outcomes_step k w w' : moves w = [w'] -> outcomes (S k) w = outcomes k w'.
Proof. intros E. cbn [outcomes]. rewrite E. cbn. apply app_nil_r. Qed.

Lemma keeps_weaken l l' tm tm' : l ⊆ l' -> keeps l tm tm' -> keeps l' tm tm'.
Proof. intros Hl H j Hj. apply H. by intros ?%Hl. Qed.

(** C1. A program is launched: when a task has asked the application manager for
    the program of a path and everyone else waits, then in whatever order turns
    are taken there are eight of them: the two servers, the system task
    and the task manager together make a task, put the bytes of the file in its
    buffer and its name and arguments in their places, start it, register
    it as an application, and tell the task that asked its number. After that nobody
    has a turn to take: the servers wait for the next request, and no other task
    has been touched. *)
Theorem program_launched M a s tm m ns T args e l qT :
  let n := latest_id tm + 1 in
  boxes tm [m] [] [] -> AmExec.idle a -> exec_request T (path_of ns) args m -> T <> A -> T <> F -> T <> system_id -> mailbox tm T = Some qT ->
  ask_kernel (set_tm tm (kernel sy)) servers_fs = (F, 0) -> GetAppInfo n (AmServer.app_manager a) = None -> n < 2 ^ 64 ->
  FsServer.state s = FsServer.StateInit -> am_id s = A -> message_ok (FsServer.sm s) ->
  fs_ok M (fs s) -> stored_file M (fs s) ns e l -> attr e <> kDirectory -> (Z.to_nat M <= fuel)%nat ->
  log_ok (kernel_log (kernel sy)) -> Z.of_nat (pending_len (kernel_log (kernel sy)) + length (text_started n)) < log_size ->
  exists w tn q, outcomes 8 (world a s tm) = [w] /\ moves w = [] /\ boxes (tm_of w) [] [] [] /\
    find_task (tm_of w) n = Some (SetRunning true (InitContext kernel_cr3 (stack_end n) TaskApp A tn)) /\
    buf tn = image (fs s) e l /\ c_str (command tn) = Some (path_of ns) /\ c_str (arg_ tn) = Some args /\
    mailbox (tm_of w) T = Some (qT ++ [q]) /\ type q = kExecuteFile /\ src_task q = A /\ getU executefile_id q = n /\
    (exists k, started (ask_kernel k) n T (path_of ns) args [] a (am w)) /\
    FsServer.state (fsv w) = FsServer.StateInit /\ am_id (fsv w) = A /\ reading M (fs s) (fs (fsv w)) /\
    keeps [A; F; system_id; T; n] tm (tm_of w).
Proof.
  intros n HB Hidle Hreq T1 T2 T3 HT HF Hfree Hlat Hst Ham Hsm Hfs Hfile Hdir Hfuel Hlog Hroom.
  pose proof HB as [B1 B2 B3 B4]. pose proof (mailbox_below _ _ _ B1 B2) as NA. pose proof (mailbox_below _ _ _ B1 B3) as NF.
  pose proof (mailbox_below _ _ _ B1 B4) as N1. pose proof (mailbox_below _ _ _ B1 HT) as NT. fold n in NA, NF, N1, NT.
  assert (0 <= n) by (unfold mailbox in B2; destruct (find_task tm A) eqn:E; [|done]; apply (so_latest _ B1) in E; lia).
  pose proof Hreq as (Hm & _ & _ & Hcmd & Hcl & Hargs & Hal & _). destruct (getS_bytes _ _ _ Hm Hcmd) as [Hcn _]. destruct (getS_bytes _ _ _ Hm Hargs) as [Han _].
  (* the manager asks for the file *)
  destruct (ask_fs a s tm m T (path_of ns) args HB Hidle Hreq HF) as (a1 & tm1 & E1 & Hask & HB1 & L1 & K1); [by rewrite Hst|].
  pose proof Hask as (A1 & _ & _ & _ & _ & _ & _ & _ & _ & _ & _ & A2 & A3).
  destruct (find_program M a1 s tm1 (set_src A (AmServer.sm a1)) ns e l HB1) as (s1 & tm2 & E2 & [S1 _ S2 S3 S4] & Hte1 & Ht1 & HB2 & L2 & K2); try done.
  { by rewrite A1. }
  (* a task is made *)
  destruct (make_task (with_mail [m] a) a1 s1 tm2 (set_src F (FsServer.sm s1)) T (path_of ns) args _ _ HB2 Hask) as (a2 & tm3 & E3 & Hload & HB3 & L3 & F3 & K3);
    [done|by rewrite S1|rewrite L2, L1; exact Hlat|].
  rewrite L2, L1 in *. fold n in Hload, F3, K3, L3. pose proof Hload as (C1 & _ & C2 & _ & _ & _ & _ & _ & _ & _ & _ & _ & _ & _ & C3 & C4).
  (* its buffer *)
  destruct (ask_buffer M a2 s1 tm3 (set_src A (AmServer.sm a2)) e HB3) as (s2 & tm4 & E4 & [U1 _ U2 U3 U4] & Hte2 & Ht2 & Hti & Hei & Heb & HB4 & L4 & K4); try done.
  { by rewrite C1. } { by rewrite S2. } { apply S3. } { apply Hfile. }
  change (getU executefile_id (set_src A (AmServer.sm a2))) with (getU executefile_id (AmServer.sm a2)) in *. rewrite C4 in Hti, Hei.
  assert (find_task tm4 n = Some (MakeTask n)) as F4 by (rewrite K4; [done|rewrite !not_elem_of_cons; split_and!; [done..|apply not_elem_of_nil]]).
  destruct (give_buffer a2 s2 tm4 (set_src F (FsServer.sm s2)) n (MakeTask n) HB4) as (tm5 & E5 & HB5 & L5 & F5 & K5); try done.
  { by rewrite C1. } { by rewrite U1. }
  change (getU expand_bytes (set_src F (FsServer.sm s2))) with (getU expand_bytes (FsServer.sm s2)) in F5. rewrite Heb in F5.
  set (t5 := set_buf _ _) in F5.
  (* the file *)
  pose proof (reading_trans M _ _ _ S3 U3) as R2. pose proof (reading_stored M _ _ _ _ _ Hfs R2 Hfile) as Hfile2.
  destruct (copy_program M a2 s2 tm5 (MkMessage kExpandTaskBuffer 1 smsg_arg) n t5 ns e l HB5) as (s3 & tm6 & E6 & [V1 _ V2 V3 V4] & Ht3 & HB6 & L6 & F6 & K6);
    [by rewrite C1|done|done|done|by rewrite U2, S2|done|done|done|apply R2|done|done|exact F5| |done|done|done|].
  { unfold t5. cbn [buf set_buf MakeTask]. rewrite resize_nil, length_replicate. destruct Hfile. lia. }
  rewrite (reading_image M (fs s)) in F6 by done.
  (* the start *)
  assert (mailbox tm6 T = Some qT) as HT6.
  { rewrite (keeps_mail _ _ _ _ K6), (keeps_mail _ _ _ _ K5), (keeps_mail _ _ _ _ K4), (keeps_mail _ _ _ _ K3), (keeps_mail _ _ _ _ K2), (keeps_mail _ _ _ _ K1);
      [done|rewrite !not_elem_of_cons; split_and!; done || apply not_elem_of_nil..]. }
  destruct (start_program (with_mail [m] a) a2 s3 tm6 (set_src F (FsServer.sm s3)) n (set_buf (image (fs s) e l) t5) T (path_of ns) args _ _ qT HB6 Hload)
    as (a3 & tm7 & q3 & q4 & c & b & E7 & Hstart & HB7 & L7 & F7 & Hc & Hb & HT7 & Q1 & Q2 & Q3 & Q4 & K7); try done; [by rewrite V1|].
  pose proof Hstart as ((I1 & _) & _).
  destruct (enter_program a3 s3 tm7 (set_src A q4) n (set_arg_ b (set_command c (set_buf (image (fs s) e l) t5))) HB7) as (tm8 & lg & E8 & HB8 & L8 & _ & _ & F8 & K8); try done; [by rewrite I1|by rewrite V1|].
  exists (MkWorld a3 s3 (set_kernel (set_log lg (set_tm tm8 (kernel sy))) sy)), (set_arg_ b (set_command c (set_buf (image (fs s) e l) t5))), (set_src A q3).
  split; [|split; [|split; [exact HB8|split; [exact F8|]]]].
  - by rewrite (outcomes_step _ _ _ E1), (outcomes_step _ _ _ E2), (outcomes_step _ _ _ E3), (outcomes_step _ _ _ E4),
      (outcomes_step _ _ _ E5), (outcomes_step _ _ _ E6), (outcomes_step _ _ _ E7), (outcomes_step _ _ _ E8).
  - apply am_fs_done; [exact HB8|cbn; by rewrite I1|cbn; by rewrite V1].
  - split_and!; try done.
    + by rewrite (keeps_mail _ _ _ _ K8) by (rewrite !not_elem_of_cons; split_and!; done || apply not_elem_of_nil).
    + by eexists.
    + change (am_id s3 = A). by rewrite V2, U2, S2.
    + exact (reading_trans M _ _ _ R2 V3).
    + change (keeps [A; F; system_id; T; n] tm tm8).
      do 7 (eapply keeps_trans; [eapply keeps_weaken; [|first [exact K1|exact K2|exact K3|exact K4|exact K5|exact K6|exact K7]]; set_solver|]).
      eapply keeps_weaken; [|exact K8]. set_solver.
Qed.
End launch.

(** ** "HELLO.TXT" on the sample volume *)

(** Task 5 has asked the manager, task 3, for the program "HELLO.TXT" with the
    argument "/"; task 4 is the file system server. *)
Definition hello_request : Message :=
  let m := default (zero_message kExecuteFile) (putS executefile_filename hello_name (zero_message kExecuteFile)) in
  set_src 5 (default m (putS executefile_arg [47] m)).
Definition launch_tm : TaskManager :=
  exec_calls [CNewTask; CNewTask; CNewTask; CUpdate 4 (SetName servers_fs); CStart 0 0 0 3 0; CStart 0 0 0 4 0; CStart 0 0 0 5 0; CSend 3 hello_request].
Definition launch_sys : @System unit :=
  MkSystem (MkKernel launch_tm (MkTimerManager 0 tt) InitialLog []) (fst sample_start) (snd sample_start)
    (MkXHC [] 0 [] [] (MkTR (MkRing 0x20000 32 true 0) []) 0 []).
Definition launch_fs : @FsServer.Server (list Z) :=
  FsServer.MkServer sample_fs 3 FsServer.StateInit (zero_message kError) (zero_message kError) None 0 [] [].

Lemma launch_ids : 3 <> 4 /\ 3 <> system_id /\ 4 <> system_id.
Proof. by split_and!. Qed.

Lemma launch_boxes : boxes 3 4 launch_tm [hello_request] [] [].
Proof. split; [apply exec_calls_ok; by repeat constructor|vm_compute; reflexivity..]. Qed.

Lemma launch_request : exec_request 5 (path_of [hello_name]) [47] hello_request.
Proof.
  split; [split; [by vm_compute|by apply (bool_decide_unpack (Forall (fun b => 0 <= b < 256) _)); vm_compute]|].
  split_and!; vm_compute; try reflexivity; lia.
Qed.

Lemma launch_facts : latest_id launch_tm = 5 /\ mailbox launch_tm 5 = Some [] /\
  ask_kernel (set_tm launch_tm (kernel launch_sys)) servers_fs = (4, 0).
Proof. vm_compute. by split_and!. Qed.

(** Task 6 runs, with the 600 bytes of the file in its buffer. *)
Lemma program_launched_witness :
  exists w tn q,
    outcomes 10 0 (fun _ => 0) 4096 8192 [] (fun _ => []) (fun _ _ => []) 0 0 0 0 0 0 0 0 (fun _ => 0) [] 3 4 8
      (world launch_sys (AmServer.Initialize []) launch_fs launch_tm) = [w] /\
    find_task (tm_of w) (latest_id launch_tm + 1) = Some (SetRunning true (InitContext 0 0 8192 3 tn)) /\
    buf tn = replicate 512 7 ++ replicate 88 9 /\ mailbox (tm_of w) 5 = Some [q] /\ getU executefile_id q = latest_id launch_tm + 1.
Proof.
  destruct launch_facts as (Hl & HT & HF).
  destruct (program_launched 10 0 (fun _ => 0) 4096 8192 [] (fun _ => []) (fun _ _ => []) 0 0 0 0 0 0 0 0 (fun _ => 0) [] 3 4
    launch_ids
    launch_sys 10 (AmServer.Initialize []) launch_fs launch_tm hello_request [hello_name] 5 [47] hello_entry [5] [] launch_boxes)
    as (w & tn & q & E & _ & _ & Hn & Hb & _ & _ & Hq & _ & _ & Hi & _);
    [split; [done|split; [done|apply zero_message_ok]]|exact launch_request|done|done|done|exact HT|exact HF|done|rewrite Hl; lia|done|done|apply zero_message_ok
    |exact sample_fs_ok|exact hello_stored|vm_compute; congruence|cbn; lia|exact InitialLog_ok|vm_compute; reflexivity|].
  exists w, tn, q. split; [exact E|]. split; [exact Hn|]. split; [rewrite Hb; vm_compute; reflexivity|]. split; [exact Hq|exact Hi].
Defined.
