(* ===== verification/Pci.v ===== *)
(** * PCI devices (kernel/pci.cpp)

    The functions of the PCI buses, found through the configuration space, which
    is what the two ports of the configuration mechanism answer: the value read
    for an address. Registers written are a list of addresses and values. *)

From S2P Require Import Prelude BitField.
From stdpp Require Import base list numbers option.
From Stdlib Require Import ZArith Lia.

Local Open Scope Z_scope.

(** [src/kernel/pci.hpp:15-23] [ClassCode] *)
Record ClassCode := MkClass { base : Z; sub : Z; interface : Z }.
Definition Match2 (b s : Z) (c : ClassCode) : bool := bool_decide (b = base c /\ s = sub c).
Definition Match3 (b s i : Z) (c : ClassCode) : bool := Match2 b s c && bool_decide (i = interface c).

(** [src/kernel/pci.hpp:26-29] [Device] *)
Record Device := MkDevice { bus : Z; device : Z; function : Z; header_type : Z; class_code : ClassCode }.

(** The array of devices, of which the first [num_device] are in use.
    [src/kernel/pci.hpp:62-63] [devices] *)
Record Devices := MkDevices { devices : list Device; num_device : Z }.
Definition kMaxDevices : Z := 32.

(** [src/kernel/pci.cpp:10-17] [MakeAddress] *)
Definition MakeAddress (b d f reg_addr : Z) : Z :=
  Z.lor (Z.lor (Z.lor (Z.lor (Z.shiftl 1 31) (Z.shiftl b 16)) (Z.shiftl d 11)) (Z.shiftl f 8)) (Z.land reg_addr 0xfc).

(** [src/kernel/pci.cpp:20-28] [AddDevice] *)
Definition AddDevice (dev : Device) (s : Devices) : option (Devices * Code) :=
  if decide (num_device s = kMaxDevices) then Some (s, kFull)
  else ds ← setZ (devices s) (num_device s) dev; Some (MkDevices ds (num_device s + 1), kSuccess).

Section config.
(** The configuration space; every register has 32 bits. *)
Context (conf : Z -> Z).

(** [src/kernel/pci.cpp:159-162] [ReadVendorId] *)
Definition ReadVendorId (b d f : Z) : Z := Z.land (conf (MakeAddress b d f 0)) 0xffff.
(** [src/kernel/pci.cpp:169-172] [ReadHeaderType] *)
Definition ReadHeaderType (b d f : Z) : Z := Z.land (Z.shiftr (conf (MakeAddress b d f 0x0c)) 16) 0xff.
(** [src/kernel/pci.cpp:174-182] [ReadClassCode] *)
Definition ReadClassCode (b d f : Z) : ClassCode :=
  let reg := conf (MakeAddress b d f 0x08) in
  MkClass (Z.land (Z.shiftr reg 24) 0xff) (Z.land (Z.shiftr reg 16) 0xff) (Z.land (Z.shiftr reg 8) 0xff).
(** [src/kernel/pci.cpp:184-187] [ReadBusNumbers] *)
Definition ReadBusNumbers (b d f : Z) : Z := conf (MakeAddress b d f 0x18).
(** [src/kernel/pci.cpp:189-191] [IsSingleFunctionDevice] *)
Definition IsSingleFunctionDevice (header : Z) : bool := bool_decide (Z.land header 0x80 = 0).
(** [src/kernel/pci.cpp:212-215] [ReadConfReg] *)
Definition ReadConfReg (dev : Device) (reg_addr : Z) : Z := conf (MakeAddress (bus dev) (device dev) (function dev) (u8 reg_addr)).

(** ** The scan *)

(** The loops over the devices of a bus and the functions of a device: what does
    not answer is skipped, an error ends them. *)
Fixpoint scan_loop (present : Z -> bool) (scan : Z -> Devices -> option (Devices * Code)) (l : list Z) (s : Devices) : option (Devices * Code) :=
  match l with
  | [] => Some (s, kSuccess)
  | i :: l' =>
      if present i then '(s, err) ← scan i s; if is_error err then Some (s, err) else scan_loop present scan l' s
      else scan_loop present scan l' s
  end.
Definition answers (b d f : Z) : bool := bool_decide (ReadVendorId b d f <> 0xffff).

(** [src/kernel/pci.cpp:35-38] [ScanFunction] *)
Definition found_device (b d f : Z) : Device := MkDevice b d f (ReadHeaderType b d f) (ReadClassCode b d f).
(** A PCI-PCI bridge, and the bus behind it.
    [src/kernel/pci.cpp:43-47] [ScanFunction] *)
Definition secondary_bus (b d f : Z) : option Z :=
  if Match2 0x06 0x04 (ReadClassCode b d f) then Some (u8 (Z.land (Z.shiftr (ReadBusNumbers b d f) 8) 0xff)) else None.

(** [src/kernel/pci.cpp:35-51] [ScanFunction] *)
Definition ScanFunction (scan_bus : Z -> Devices -> option (Devices * Code)) (b d f : Z) (s : Devices) : option (Devices * Code) :=
  '(s, err) ← AddDevice (found_device b d f) s;
  if is_error err then Some (s, err)
  else match secondary_bus b d f with Some b' => scan_bus b' s | None => Some (s, kSuccess) end.

(** [src/kernel/pci.cpp:53-70] [ScanDevice] *)
Definition ScanDevice (scan_bus : Z -> Devices -> option (Devices * Code)) (b d : Z) (s : Devices) : option (Devices * Code) :=
  '(s, err) ← ScanFunction scan_bus b d 0 s;
  if is_error err then Some (s, err)
  else if IsSingleFunctionDevice (ReadHeaderType b d 0) then Some (s, kSuccess)
  else scan_loop (answers b d) (ScanFunction scan_bus b d) (seqZ 1 7) s.

(** The bus behind a bridge is scanned by the function itself.
    [src/kernel/pci.cpp:72-82] [ScanBus] *)
Fixpoint ScanBus (fuel : nat) (b : Z) (s : Devices) : option (Devices * Code) :=
  match fuel with
  | O => None
  | S fuel' => scan_loop (fun d => answers b d 0) (ScanDevice (ScanBus fuel') b) (seqZ 0 32) s
  end.

(** [src/kernel/pci.cpp:193-210] [ScanAllBus] *)
Definition ScanAllBus (fuel : nat) (s : Devices) : option (Devices * Code) :=
  let s := MkDevices (devices s) 0 in
  if IsSingleFunctionDevice (ReadHeaderType 0 0 0) then ScanBus fuel 0 s
  else scan_loop (answers 0 0) (ScanBus fuel) (seqZ 0 8) s.

(** ** Base addresses *)

(** [src/kernel/pci.hpp:71-73] [CalcBarAddress] *)
Definition CalcBarAddress (bar_index : Z) : Z := u8 (0x10 + 4 * bar_index).

(** [src/kernel/pci.cpp:222-243] [ReadBar] *)
Definition ReadBar (dev : Device) (bar_index : Z) : WithError Z :=
  if decide (6 <= bar_index) then (0, kIndexOutOfRange)
  else
    let addr := CalcBarAddress bar_index in
    let bar := ReadConfReg dev addr in
    if decide (Z.land bar 4 = 0) then (bar, kSuccess)
    else if decide (5 <= bar_index) then (0, kIndexOutOfRange)
    else (Z.lor bar (Z.shiftl (ReadConfReg dev (addr + 4)) 32), kSuccess).

(** ** Message signalled interrupts *)

(** [src/kernel/pci.hpp:86-87] [kCapabilityMSI] *)
Definition kCapabilityMSI : Z := 0x05.
Definition kCapabilityMSIX : Z := 0x11.

(** The fields of the header of a capability.
    [src/kernel/pci.hpp:91-111] [MSICapability] *)
Record MSICapability := MkMSI { header : Z; msg_addr : Z; msg_upper_addr : Z; msg_data : Z; mask_bits : Z; pending_bits : Z }.
Definition cap_id (h : Z) : Z := bits_at 0 8 h.
Definition next_ptr (h : Z) : Z := bits_at 8 8 h.
Definition msi_enable (h : Z) : Z := bits_at 16 1 h.
Definition multi_msg_capable (h : Z) : Z := bits_at 17 3 h.
Definition multi_msg_enable (h : Z) : Z := bits_at 20 3 h.
Definition addr_64_capable (h : Z) : bool := bool_decide (bits_at 23 1 h <> 0).
Definition per_vector_mask_capable (h : Z) : bool := bool_decide (bits_at 24 1 h <> 0).

(** What is written to registers of a device: their numbers and the values. *)
Definition writes : Type := list (Z * Z).

(** [src/kernel/pci.cpp:84-104] [ReadMSICapability] *)
Definition ReadMSICapability (dev : Device) (cap_addr : Z) : MSICapability :=
  let h := ReadConfReg dev cap_addr in
  let msg_data_addr := u8 (if addr_64_capable h then cap_addr + 12 else cap_addr + 8) in
  MkMSI h (ReadConfReg dev (cap_addr + 4)) (if addr_64_capable h then ReadConfReg dev (cap_addr + 8) else 0) (ReadConfReg dev msg_data_addr)
    (if per_vector_mask_capable h then ReadConfReg dev (msg_data_addr + 4) else 0)
    (if per_vector_mask_capable h then ReadConfReg dev (msg_data_addr + 8) else 0).

(** [src/kernel/pci.cpp:106-123] [WriteMSICapability] *)
Definition WriteMSICapability (cap_addr : Z) (c : MSICapability) : writes :=
  let h := header c in
  let msg_data_addr := u8 (if addr_64_capable h then cap_addr + 12 else cap_addr + 8) in
  [(u8 cap_addr, h); (u8 (cap_addr + 4), msg_addr c)] ++ (if addr_64_capable h then [(u8 (cap_addr + 8), msg_upper_addr c)] else []) ++
  [(msg_data_addr, msg_data c)] ++
  (if per_vector_mask_capable h then [(u8 (msg_data_addr + 4), mask_bits c); (u8 (msg_data_addr + 8), pending_bits c)] else []).

(** [src/kernel/pci.cpp:125-143] [ConfigureMSIRegister] *)
Definition ConfigureMSIRegister (dev : Device) (cap_addr addr data num_vector_exponent : Z) : writes * Code :=
  let c := ReadMSICapability dev cap_addr in
  let n := multi_msg_capable (header c) in
  let h := put_bits 20 3 (if decide (n <= num_vector_exponent) then n else num_vector_exponent) (header c) in
  (WriteMSICapability cap_addr (MkMSI (put_bits 16 1 1 h) addr (msg_upper_addr c) data (mask_bits c) (pending_bits c)), kSuccess).

(** The search of the list of capabilities, for the last one of each kind.
    [src/kernel/pci.cpp:255-263] [ConfigureMSI] *)
Fixpoint find_capabilities (fuel : nat) (dev : Device) (cap_addr msi msix : Z) : option (Z * Z) :=
  match fuel with
  | O => None
  | S fuel' =>
      if decide (cap_addr = 0) then Some (msi, msix)
      else
        let h := ReadConfReg dev cap_addr in
        if decide (cap_id h = kCapabilityMSI) then find_capabilities fuel' dev (next_ptr h) cap_addr msix
        else if decide (cap_id h = kCapabilityMSIX) then find_capabilities fuel' dev (next_ptr h) msi cap_addr
        else find_capabilities fuel' dev (next_ptr h) msi msix
  end.

(** MSI-X is not implemented. A list that ends has less than 256 capabilities; the
    code does not return from one that does not end.
    [src/kernel/pci.cpp:251-273] [ConfigureMSI] *)
Definition ConfigureMSI (dev : Device) (addr data num_vector_exponent : Z) : option (writes * Code) :=
  '(msi, msix) ← find_capabilities 256 dev (Z.land (ReadConfReg dev 0x34) 0xff) 0 0;
  Some (if decide (msi <> 0) then ConfigureMSIRegister dev msi addr data num_vector_exponent
        else if decide (msix <> 0) then ([], kNotImplemented) else ([], kNoPCIMSI)).

(** [level] is the trigger mode.
    [src/kernel/pci.cpp:275-286] [ConfigureMSIFixedDestination] *)
Definition ConfigureMSIFixedDestination (dev : Device) (apic_id : Z) (level : bool) (delivery_mode vector num_vector_exponent : Z) : option (writes * Code) :=
  let data := Z.lor (Z.shiftl delivery_mode 8) vector in
  ConfigureMSI dev (Z.lor 0xfee00000 (Z.shiftl apic_id 12)) (if level then Z.lor data 0xc000 else data) num_vector_exponent.

(** ** The host controller *)

(** The Intel one is preferred.
    [src/kernel/usb/xhci/xhci.cpp:535-544] [Initialize] *)
Fixpoint find_xhc (l : list Device) (xhc_dev : option Device) : option Device :=
  match l with
  | [] => xhc_dev
  | d :: l' =>
      if Match3 0x0c 0x03 0x30 (class_code d) then
        if decide (ReadVendorId (bus d) (device d) (function d) = 0x8086) then Some d else find_xhc l' (Some d)
      else find_xhc l' xhc_dev
  end.

(** [src/kernel/usb/xhci/xhci.cpp:561-563] [Initialize] *)
Definition xhc_mmio_base (dev : Device) : Z := Z.ldiff (fst (ReadBar dev 0)) 0xf.

(** [src/kernel/usb/xhci/xhci.cpp:315-333] [SwitchEhci2Xhci] *)
Definition SwitchEhci2Xhci (s : Devices) (xhc_dev : Device) : writes :=
  if existsb (fun d => Match3 0x0c 0x03 0x20 (class_code d) && bool_decide (ReadVendorId (bus d) (device d) (function d) = 0x8086))
       (take (Z.to_nat (num_device s)) (devices s))
  then [(0xd8, ReadConfReg xhc_dev 0xdc); (0xd0, ReadConfReg xhc_dev 0xd4)] else [].

(** ** What the scan is to find *)

(** The functions of a device that answer. *)
Definition functions_of (b d : Z) : list Z :=
  if answers b d 0 then 0 :: (if IsSingleFunctionDevice (ReadHeaderType b d 0) then [] else filter (fun f => answers b d f = true) (seqZ 1 7)) else [].

(** A device on a bus, or on the bus behind a bridge on it. *)
Inductive on_bus : Z -> Device -> Prop :=
| on_here b d f : 0 <= d < 32 -> f ∈ functions_of b d -> on_bus b (found_device b d f)
| on_behind b d f b' dev : 0 <= d < 32 -> f ∈ functions_of b d -> secondary_bus b d f = Some b' -> on_bus b' dev -> on_bus b dev.

(** The buses of the host bridges. *)
Definition host_buses : list Z :=
  if IsSingleFunctionDevice (ReadHeaderType 0 0 0) then [0] else filter (fun f => answers 0 0 f = true) (seqZ 0 8).
Definition exposed (dev : Device) : Prop := exists b, b ∈ host_buses /\ on_bus b dev.

(** The devices in the order of the search, behind at most [k] bridges. *)
Definition function_list (lists : Z -> list Device) (b d f : Z) : list Device :=
  found_device b d f :: match secondary_bus b d f with Some b' => lists b' | None => [] end.
Definition device_list (lists : Z -> list Device) (b d : Z) : list Device := f ← functions_of b d; function_list lists b d f.
Fixpoint bus_list (k : nat) (b : Z) : list Device :=
  match k with O => [] | S k' => d ← seqZ 0 32; device_list (bus_list k') b d end.

Lemma bus_list_on k : forall b dev, dev ∈ bus_list k b -> on_bus b dev.
Proof.
  induction k as [|k IH]; intros b dev; [by intros ?%elem_of_nil|]. cbn [bus_list]. unfold device_list, function_list.
  rewrite list_elem_of_bind. intros (d & Hd & Hin). apply list_elem_of_bind in Hd as (f & Hf & Hfs). apply elem_of_seqZ in Hin.
  apply elem_of_cons in Hf as [->|Hf]; [constructor; [lia|done]|]. destruct (secondary_bus b d f) as [b'|] eqn:E; [|by apply elem_of_nil in Hf].
  eapply on_behind; [|done|done|by apply IH]. lia.
Qed.

(** What is on the bus is on the list, or the list is long. *)
Lemma on_bus_list b dev : on_bus b dev -> forall k, dev ∈ bus_list k b \/ (k <= length (bus_list k b))%nat.
Proof.
  induction 1 as [b d f Hd Hf|b d f b' dev Hd Hf Hs _ IH]; intros [|k]; [right; cbn; lia| |right; cbn; lia|].
  - left. cbn [bus_list]. apply list_elem_of_bind. exists d. split; [|by apply elem_of_seqZ]. apply list_elem_of_bind. exists f. split; [by left|done].
  - cbn [bus_list]. assert (forall x, x ∈ function_list (bus_list k) b d f -> x ∈ (d ← seqZ 0 32; device_list (bus_list k) b d)) as Hin.
    { intros x Hx. apply list_elem_of_bind. exists d. split; [|by apply elem_of_seqZ]. apply list_elem_of_bind. by exists f. }
    destruct (IH k) as [Hk|Hk]; [left; apply Hin; unfold function_list; rewrite Hs; by right|right].
    destruct (list_elem_of_split (seqZ 0 32) d) as (l1 & l2 & ->); [by apply elem_of_seqZ|]. rewrite bind_app, bind_cons, !length_app.
    unfold device_list at 2. destruct (list_elem_of_split (functions_of b d) f Hf) as (m1 & m2 & ->). rewrite bind_app, bind_cons, !length_app.
    unfold function_list at 2. rewrite Hs. cbn [length]. lia.
Qed.

(** ** The scan *)

Record devices_ok (s : Devices) : Prop := {
  do_length : length (devices s) = 32%nat;
  do_num : 0 <= num_device s <= 32;
}.
Definition found (s : Devices) : list Device := take (Z.to_nat (num_device s)) (devices s).

(** The step adds the devices of [l], as many as there is room for. *)
Definition adds (l : list Device) (s : Devices) (r : option (Devices * Code)) : Prop :=
  exists s', r = Some (s', if decide (length (found s ++ l) <= 32)%nat then kSuccess else kFull) /\ devices_ok s' /\ found s' = take 32 (found s ++ l).

Lemma length_found s : devices_ok s -> Z.of_nat (length (found s)) = num_device s.
Proof. intros [H1 H2]. unfold found. rewrite length_take. lia. Qed.

Lemma adds_nil s : devices_ok s -> adds [] s (Some (s, kSuccess)).
Proof.
  intros H. pose proof (length_found s H). destruct H as [H1 H2]. exists s. rewrite app_nil_r, decide_True, take_ge by lia. by split_and!.
Qed.

(** One step after the other; the first that fails is the last. *)
Lemma adds_app l1 l2 s r f :
  adds l1 s r -> (forall s', devices_ok s' -> (length (found s ++ l1) <= 32)%nat -> found s' = found s ++ l1 -> adds l2 s' (f s')) ->
  adds (l1 ++ l2) s ('(s', err) ← r; if is_error err then Some (s', err) else f s').
Proof.
  intros (s1 & -> & H1 & E1) H2. cbn [mbind option_bind]. destruct (decide (length (found s ++ l1) <= 32)%nat) as [Hl|Hl].
  - rewrite take_ge in E1 by lia. change (is_error kSuccess) with false. cbn iota. destruct (H2 s1 H1 Hl E1) as (s2 & -> & H3 & E3).
    exists s2. by rewrite E3, E1, <- app_assoc.
  - change (is_error kFull) with true. exists s1. rewrite decide_False by (rewrite !length_app in *; lia). split_and!; [done|done|].
    rewrite E1, app_assoc. by rewrite (take_app_le (found s ++ l1)) by lia.
Qed.

Lemma AddDevice_adds dev s : devices_ok s -> adds [dev] s (AddDevice dev s).
Proof.
  intros H. pose proof (length_found s H) as Hf. destruct H as [H1 H2]. unfold AddDevice, kMaxDevices. destruct (decide (num_device s = 32)) as [E|E].
  - exists s. rewrite decide_False by (rewrite length_app; cbn; lia). split; [done|]. split; [by split|]. rewrite take_app_le, take_ge by lia. done.
  - rewrite setZ_Some by lia. cbn [mbind option_bind]. eexists. rewrite decide_True by (rewrite length_app; cbn; lia). split; [done|].
    split; [split; cbn; [by rewrite length_insert|lia]|]. unfold found in *. cbn [devices num_device].
    rewrite (take_ge (_ ++ [dev])) by (rewrite length_app; cbn; lia). replace (Z.to_nat (num_device s + 1)) with (S (Z.to_nat (num_device s))) by lia.
    rewrite (take_S_r _ _ dev); [by rewrite take_insert_ge by lia|]. apply list_lookup_insert_eq. lia.
Qed.

(** The scan does what it should with less than [room] places left. *)
Definition scans (lists : Z -> list Device) (room : Z) (scan : Z -> Devices -> option (Devices * Code)) : Prop :=
  forall i s, devices_ok s -> 32 - num_device s < room -> adds (lists i) s (scan i s).

Lemma found_grows s s' l : devices_ok s -> devices_ok s' -> found s' = found s ++ l -> num_device s' = num_device s + Z.of_nat (length l).
Proof. intros H H' E. rewrite <- (length_found s), <- (length_found s'), E, length_app by done. lia. Qed.

Lemma scan_loop_adds (present : Z -> bool) scan lists room l : scans lists room scan ->
  forall s, devices_ok s -> 32 - num_device s < room -> adds (i ← filter (fun i => present i = true) l; lists i) s (scan_loop present scan l s).
Proof.
  intros Hscan. induction l as [|i l IH]; intros s H Hroom; [by apply adds_nil|]. cbn [scan_loop]. rewrite filter_cons.
  destruct (present i) eqn:E; [|rewrite decide_False by done; by apply IH]. rewrite decide_True by done. rewrite bind_cons.
  apply adds_app; [by apply Hscan|]. intros s' H' _ Ef. apply IH; [done|]. rewrite (found_grows s s' _ H H' Ef). lia.
Qed.

Lemma ScanFunction_adds scan_bus lists room b d : scans lists room scan_bus -> scans (function_list lists b d) (room + 1) (ScanFunction scan_bus b d).
Proof.
  intros Hs f s H Hroom. unfold ScanFunction, function_list. apply (adds_app [_]); [by apply AddDevice_adds|].
  intros s' H' _ Ef. pose proof (found_grows s s' _ H H' Ef) as En. cbn in En.
  destruct (secondary_bus b d f) as [b'|]; [apply Hs; [done|lia]|by apply adds_nil].
Qed.

Lemma ScanDevice_adds scan_bus lists room b d s :
  scans lists room scan_bus -> devices_ok s -> 32 - num_device s < room + 1 -> answers b d 0 = true -> adds (device_list lists b d) s (ScanDevice scan_bus b d s).
Proof.
  intros Hs H Hroom Ha. unfold ScanDevice, device_list, functions_of. rewrite Ha, bind_cons.
  apply adds_app; [by apply (ScanFunction_adds _ _ room)|]. intros s' H' _ Ef. pose proof (found_grows s s' _ H H' Ef).
  destruct (IsSingleFunctionDevice _); [by apply adds_nil|]. apply (scan_loop_adds _ _ _ (room + 1)); [by apply ScanFunction_adds|done|lia].
Qed.

Lemma ScanBus_adds fuel : scans (bus_list fuel) (Z.of_nat fuel) (ScanBus fuel).
Proof.
  induction fuel as [|fuel IH]; intros b s H Hroom; [destruct H; lia|]. cbn [ScanBus bus_list].
  assert (forall l, (d ← l; device_list (bus_list fuel) b d) = (d ← filter (fun d => answers b d 0 = true) l; device_list (bus_list fuel) b d)) as ->.
  { induction l as [|d l IHl]; [done|]. rewrite filter_cons, bind_cons, IHl. case_decide as E; [done|]. unfold device_list, functions_of.
    by destruct (answers b d 0). }
  revert s H Hroom. generalize (seqZ 0 32). induction l as [|d l IHl]; intros s H Hroom; [by apply adds_nil|]. cbn [scan_loop]. rewrite filter_cons.
  destruct (answers b d 0) eqn:E; [|rewrite decide_False by done; by apply IHl]. rewrite decide_True by done. rewrite bind_cons.
  apply adds_app; [apply (ScanDevice_adds _ _ (Z.of_nat fuel)); [done|done|lia|done]|]. intros s' H' _ Ef. apply IHl; [done|]. rewrite (found_grows s s' _ H H' Ef). lia.
Qed.

(** C38. The scan of the PCI buses ends whatever the configuration space says, even
    if bridges form a loop, and never leaves its array. Without an error it
    has found exactly the functions that answer on the buses of the host bridges and
    behind the bridges on them, each as it describes itself; the only error is that
    there are more than the array holds, which is then full of such functions. *)
Theorem ScanAllBus_finds fuel s :
  length (devices s) = 32%nat -> (33 <= fuel)%nat ->
  exists s' err, ScanAllBus fuel s = Some (s', err) /\ devices_ok s' /\ (forall dev, dev ∈ found s' -> exposed dev) /\
    (err = kSuccess /\ (forall dev, exposed dev -> dev ∈ found s') \/ err = kFull /\ num_device s' = 32).
Proof.
  intros Hlen Hfuel. set (s0 := MkDevices (devices s) 0). assert (devices_ok s0) as H0 by (split; cbn; lia).
  assert (adds (b ← host_buses; bus_list fuel b) s0 (ScanAllBus fuel s)) as (s' & E & H' & Ef).
  { unfold ScanAllBus, host_buses. fold s0. destruct (IsSingleFunctionDevice _).
    - rewrite bind_singleton. apply ScanBus_adds; [done|cbn; lia].
    - apply (scan_loop_adds _ _ _ (Z.of_nat fuel)); [apply ScanBus_adds|done|cbn; lia]. }
  change (found s0) with (@nil Device) in *. cbn [app] in *. set (all := b ← host_buses; bus_list fuel b) in *.
  eexists s', _. split; [exact E|]. split; [done|]. split.
  - intros dev Hd. rewrite Ef in Hd. assert (dev ∈ all) as Hj by (rewrite <- (take_drop 32 all); apply elem_of_app; by left).
    apply list_elem_of_bind in Hj as (b & Hin & Hb). exists b. split; [done|]. by apply (bus_list_on fuel).
  - destruct (decide (length all <= 32)%nat) as [Hl|Hl]; [left|right]; (split; [done|]).
    + intros dev (b & Hb & Hon). rewrite Ef, take_ge by done. destruct (on_bus_list b dev Hon fuel) as [Hk|Hk]; [apply list_elem_of_bind; by exists b|].
      exfalso. unfold all in Hl. destruct (list_elem_of_split host_buses b Hb) as (l1 & l2 & E2). rewrite E2, bind_app, bind_cons, !length_app in Hl. lia.
    + rewrite <- (length_found s' H'), Ef, length_take. lia.
Qed.

(** ** Capabilities *)

(** The capabilities of a device from one on: where they are, and their kinds. *)
Inductive capabilities (dev : Device) : Z -> list (Z * Z) -> Prop :=
| caps_end : capabilities dev 0 []
| caps_next a l : a <> 0 -> capabilities dev (next_ptr (ReadConfReg dev a)) l -> capabilities dev a ((a, cap_id (ReadConfReg dev a)) :: l).

Definition last_of (kind : Z) (l : list (Z * Z)) (before : Z) : Z :=
  foldl (fun a c => if decide (snd c = kind) then fst c else a) before l.

Lemma find_capabilities_last dev a l : capabilities dev a l -> forall fuel msi msix, (length l < fuel)%nat ->
  find_capabilities fuel dev a msi msix = Some (last_of kCapabilityMSI l msi, last_of kCapabilityMSIX l msix).
Proof.
  induction 1 as [|a l Ha _ IH]; intros [|fuel] msi msix Hf; try (cbn in Hf; lia); cbn [find_capabilities]; [done|].
  rewrite decide_False by done. cbn [length] in Hf. unfold last_of. cbn [foldl fst snd]. unfold last_of in IH.
  destruct (decide (cap_id _ = kCapabilityMSI)) as [E|E].
  - rewrite E. rewrite decide_False by done. apply IH. lia.
  - destruct (decide (cap_id _ = kCapabilityMSIX)); apply IH; lia.
Qed.

(** The pointers have eight bits, so a list that ends is short. *)
Lemma capabilities_fun dev a l l' : capabilities dev a l -> capabilities dev a l' -> l = l'.
Proof. intros H. revert l'. induction H as [|a l Ha _ IH]; intros l' H'; inversion H'; subst; try done. f_equal. by apply IH. Qed.

Lemma capabilities_range dev a l : 0 <= a < 256 -> capabilities dev a l -> Forall (fun c => 1 <= fst c < 256) l.
Proof.
  intros Ha H. induction H as [|a l Hn _ IH]; [done|]. constructor; [cbn; lia|]. apply IH. unfold next_ptr. rewrite bits_at_mod by lia.
  apply Z.mod_pos_bound. lia.
Qed.

Lemma capabilities_later dev a l c k : capabilities dev a l -> (c, k) ∈ l -> exists l', capabilities dev c l' /\ (length l' <= length l)%nat.
Proof.
  induction 1 as [|a l Hn H IH]; intros Hin; [by apply elem_of_nil in Hin|]. apply elem_of_cons in Hin as [[= -> ->]|Hin].
  - exists ((a, cap_id (ReadConfReg dev a)) :: l). split; [by constructor|done].
  - destruct (IH Hin) as (l' & H' & Hl). exists l'. split; [done|cbn; lia].
Qed.

Lemma capabilities_short dev a l : 0 <= a < 256 -> capabilities dev a l -> (length l < 256)%nat.
Proof.
  intros Ha H. assert (NoDup (fst <$> l)) as Hn.
  { induction H as [|a l Hz H IH]; [constructor|]. cbn. constructor.
    - intros ((c & k) & E & Hin)%list_elem_of_fmap. cbn in E. subst c. destruct (capabilities_later _ _ _ _ _ H Hin) as (l' & H' & Hl).
      pose proof (capabilities_fun _ _ _ _ (caps_next dev a l Hz H) H') as El. rewrite <- El in Hl. cbn in Hl. lia.
    - apply IH. unfold next_ptr. rewrite bits_at_mod by lia. apply Z.mod_pos_bound. lia. }
  pose proof (capabilities_range dev a l Ha H) as Hr. assert ((fst <$> l) ⊆ seqZ 1 255) as Hs.
  { intros x (c & -> & Hc)%list_elem_of_fmap. apply elem_of_seqZ. rewrite list.Forall_forall in Hr. specialize (Hr c Hc). lia. }
  pose proof (submseteq_length _ _ (NoDup_submseteq _ _ Hn Hs)) as Hl. rewrite length_fmap, length_seqZ in Hl. lia.
Qed.

(** The last MSI capability is enabled, with the message asked for and at most as
    many vectors as it can send; the fields that say what it is stay. *)
Theorem ConfigureMSI_enables dev l addr data n :
  let first := Z.land (ReadConfReg dev 0x34) 0xff in
  let a := last_of kCapabilityMSI l 0 in
  capabilities dev first l -> 0 <= n ->
  if decide (a = 0) then ConfigureMSI dev addr data n = Some ([], if decide (last_of kCapabilityMSIX l 0 = 0) then kNoPCIMSI else kNotImplemented)
  else exists h rest, ConfigureMSI dev addr data n = Some ((u8 a, h) :: (u8 (a + 4), addr) :: rest, kSuccess) /\
    msi_enable h = 1 /\ multi_msg_enable h = Z.min (multi_msg_capable (ReadConfReg dev a)) n mod 8 /\
    cap_id h = cap_id (ReadConfReg dev a) /\ next_ptr h = next_ptr (ReadConfReg dev a) /\ addr_64_capable h = addr_64_capable (ReadConfReg dev a) /\
    (u8 (if addr_64_capable h then a + 12 else a + 8), data) ∈ rest.
Proof.
  intros first a Hc Hn. assert (0 <= first < 256) as Hf by (unfold first; change 0xff with (Z.ones 8); rewrite Z.land_ones by lia; apply Z.mod_pos_bound; lia).
  unfold ConfigureMSI. fold first. rewrite (find_capabilities_last dev first l Hc) by (by eapply capabilities_short). cbn [mbind option_bind]. fold a.
  destruct (decide (a = 0)) as [Ea|Ea]; [by rewrite decide_False by tauto; repeat case_decide|]. rewrite decide_True by done.
  unfold ConfigureMSIRegister, WriteMSICapability. cbn [header msg_addr msg_data ReadMSICapability]. set (h0 := ReadConfReg dev a).
  set (h := put_bits 16 1 1 _). eexists h, _. split; [reflexivity|].
  assert (forall off w, 0 <= off -> 0 <= w -> off + w <= 16 \/ 17 <= off /\ off + w <= 20 \/ 23 <= off -> bits_at off w h = bits_at off w h0) as Hk.
  { intros off w H1 H2 H3. unfold h. rewrite !bits_at_put_other by lia. done. }
  split; [unfold msi_enable, h; by rewrite bits_at_put|]. split.
  { unfold multi_msg_enable, h. rewrite bits_at_put_other, bits_at_put by lia. f_equal. case_decide; lia. }
  unfold cap_id, next_ptr, addr_64_capable. rewrite !Hk by lia. do 3 (split; [done|]).
  case_decide; apply elem_of_app; right; by left.
Qed.
End config.

(** ** A small machine *)

(** The host bridge 0.0.0, a bridge 0.1.0 to bus [behind], and the host controller 1.0.0. *)
Definition sample_conf (behind : Z) (a : Z) : Z :=
  if decide (a = MakeAddress 0 0 0 0 \/ a = MakeAddress 0 1 0 0 \/ a = MakeAddress 1 0 0 0) then 0x12348086
  else if decide (a = MakeAddress 0 1 0 8) then 0x06040000
  else if decide (a = MakeAddress 0 1 0 0x18) then Z.shiftl behind 8
  else if decide (a = MakeAddress 1 0 0 8) then 0x0c033000
  else if decide (a = MakeAddress 0 0 0 0x0c \/ a = MakeAddress 0 1 0 0x0c \/ a = MakeAddress 1 0 0 0x0c) then 0
  else 0xffffffff.
Definition no_devices : Devices := MkDevices (replicate 32 (MkDevice 0 0 0 0 (MkClass 0 0 0))) 0.

Lemma ScanAllBus_finds_witness :
  exists s', ScanAllBus (sample_conf 1) 33 no_devices = Some (s', kSuccess) /\ num_device s' = 3 /\
    (exposed (sample_conf 1) (found_device (sample_conf 1) 1 0 0) -> found_device (sample_conf 1) 1 0 0 ∈ found s').
Proof.
  destruct (ScanAllBus_finds (sample_conf 1) 33 no_devices) as (s' & err & E & _ & _ & Hres); [reflexivity|lia|].
  destruct Hres as [[-> H]|[-> _]].
  - exists s'. split; [exact E|]. split; [|exact (H _)]. vm_compute in E. injection E as <-. reflexivity.
  - exfalso. vm_compute in E. discriminate E.
Defined.

(** A bridge to its own bus: the search ends when the array is full. *)
Lemma bridge_loop : exists s', ScanAllBus (sample_conf 0) 33 no_devices = Some (s', kFull) /\ num_device s' = 32.
Proof. eexists. split; vm_compute; reflexivity. Qed.
