(* ===== verification/XhciStart.v ===== *)
(** * Starting the USB host controller (kernel/usb/xhci/xhci.cpp, registers.cpp)

    The driver takes the controller from the firmware, stops and resets it, tells
    it where the tables and rings are and lets it run. The controller is whatever
    answers the reads of its registers and takes the writes. *)

From stdpp Require Import base list numbers option.
From Stdlib Require Import ZArith Lia.
From S2P Require Import Prelude BitField UsbTrb UsbDevice Xhci Pci UsbMemory UsbRing.

Local Open Scope Z_scope.

(** ** Registers *)

(** Those of the operational set, of the first interrupter, and extended ones at an address.
    [src/kernel/usb/xhci/registers.hpp:188-198] [OperationalRegisters] *)
Inductive Reg := USBCMD | USBSTS | CRCR | DCBAAP | CONFIG | IMAN | ERSTSZ | ERSTBA | ERDP | Ext (a : Z).
#[export] Instance Reg_eq_dec : EqDecision Reg.
Proof. solve_decision. Defined.

(** Reading may change the state: time passes. *)
Class Hardware (H : Type) := {
  rd : Reg -> H -> Z * H;
  wr : Reg -> Z -> H -> H;
}.

(** The registers of the capabilities the driver looks at: they never change. *)
Record Caps := MkCaps { HCSPARAMS2 : Z; HCCPARAMS1 : Z }.

Section start.
Context {H : Type} `{!Hardware H}.

(** [while (busy(reg.Read()));] *)
Fixpoint poll (r : Reg) (busy : Z -> bool) (fuel : nat) (h : H) : option H :=
  match fuel with
  | O => None
  | S fuel' => let '(v, h) := rd r h in if busy v then poll r busy fuel' h else Some h
  end.

Definition bit (k v : Z) : bool := Z.testbit v k.

(** The null pointer is [None].
    [src/kernel/usb/xhci/registers.cpp:4-7] [AddOrNull] *)
Definition AddOrNull (p d : Z) : option Z := if decide (d = 0) then None else Some (p + 4 * d).

(** The first register with the identifier of the legacy support, in the list from [p].
    [src/kernel/usb/xhci/xhci.cpp:289-291] [RequestHCOwnership] *)
Fixpoint find_usblegsup (fuel : nat) (p : option Z) (h : H) : option (option Z * H) :=
  match fuel with
  | O => None
  | S fuel' =>
      match p with
      | None => Some (None, h)
      | Some a =>
          let '(v, h) := rd (Ext a) h in
          if decide (bits_at 0 8 v = 1) then Some (Some a, h)
          else let '(v, h) := rd (Ext a) h in find_usblegsup fuel' (AddOrNull a (bits_at 8 8 v)) h
      end
  end.

(** [src/kernel/usb/xhci/xhci.cpp:286-313] [RequestHCOwnership] *)
Definition RequestHCOwnership (fuel : nat) (mmio_base hccp : Z) (h : H) : option H :=
  '(reg, h) ← find_usblegsup fuel (AddOrNull mmio_base (bits_at 16 16 hccp)) h;
  match reg with
  | None => Some h
  | Some a =>
      let '(r, h) := rd (Ext a) h in
      if bit 24 r then Some h
      else poll (Ext a) (fun r => bit 16 r || negb (bit 24 r)) fuel (wr (Ext a) (put_bits 24 1 1 r) h)
  end.

(** [src/kernel/usb/xhci/xhci.cpp:15-23] [RegisterCommandRing] *)
Definition RegisterCommandRing (buf : Z) (h : H) : H :=
  let '(value, h) := rd CRCR h in
  let value := put_bits 0 1 1 value in
  let value := put_bits 1 1 0 value in
  let value := put_bits 2 1 0 value in
  wr CRCR (put_bits 6 58 (Z.shiftr buf 6) value) h.

(** [src/kernel/usb/xhci/ring.cpp:82-90] [EventRing::Initialize] *)
Definition RegisterEventRing (buf erst : Z) (h : H) : H :=
  let '(erstsz, h) := rd ERSTSZ h in
  let h := wr ERSTSZ (put_bits 0 16 1 erstsz) h in
  let '(erdp, h) := rd ERDP h in
  let h := wr ERDP (put_bits 4 60 (Z.shiftr buf 4) erdp) h in
  let '(erstba, h) := rd ERSTBA h in
  wr ERSTBA (put_bits 6 58 (Z.shiftr erst 6) erstba) h.

Section controller.
Context (memory_pool mmio_base : Z) (caps : Caps).

(** [src/kernel/usb/xhci/xhci.cpp:381-383] [Controller::Initialize] *)
Definition max_scratchpad_buffers : Z :=
  u16 (Z.lor (bits_at 27 5 (HCSPARAMS2 caps)) (Z.shiftl (bits_at 21 5 (HCSPARAMS2 caps)) 5)).

(** Pages, or null pointers when the pool is exhausted.
    [src/kernel/usb/xhci/xhci.cpp:386-390] [Controller::Initialize] *)
Fixpoint scratchpads (n : nat) (a : Z) : Z * list (option Z) :=
  match n with
  | O => (a, [])
  | S n' => let '(a, p) := AllocMem memory_pool 4096 4096 4096 a in let '(a, ps) := scratchpads n' a in (a, p :: ps)
  end.

(** What the driver has set up: the array of the device contexts and its first
    entry, the pages of the controller, the rings, the segment table. *)
Record Started := MkStarted {
  alloc_ptr : Z;
  device_contexts : Z;
  context0 : Z;
  pages : list (option Z);
  command_ring : Ring;
  event_buf : Z;
  erst : Z;
}.

(** The array and its pages; a null array is written through: undefined.
    [src/kernel/usb/xhci/xhci.cpp:384-394] [Controller::Initialize] *)
Definition scratchpad_array (a : Z) : option (Z * Z * list (option Z)) :=
  if decide (max_scratchpad_buffers > 0) then
    let '(a, arr) := AllocArray memory_pool 8 max_scratchpad_buffers 64 4096 a in
    arr ← arr;
    let '(a, ps) := scratchpads (Z.to_nat max_scratchpad_buffers) a in
    Some (a, arr, ps)
  else Some (a, 0, []).

(** [src/kernel/usb/xhci/xhci.cpp:355-372] [Controller::Initialize] *)
Definition stop_and_reset (fuel : nat) (h : H) : option H :=
  let '(usbcmd, h) := rd USBCMD h in
  let usbcmd := put_bits 10 1 0 (put_bits 3 1 0 (put_bits 2 1 0 usbcmd)) in
  let '(usbsts, h) := rd USBSTS h in
  let usbcmd := if negb (bit 0 usbsts) then put_bits 0 1 0 usbcmd else usbcmd in
  let h := wr USBCMD usbcmd h in
  h ← poll USBSTS (fun v => negb (bit 0 v)) fuel h;
  let '(usbcmd, h) := rd USBCMD h in
  let h := wr USBCMD (put_bits 1 1 1 usbcmd) h in
  h ← poll USBCMD (bit 1) fuel h;
  poll USBSTS (bit 11) fuel h.

(** [src/kernel/usb/xhci/xhci.cpp:376-378] [Controller::Initialize] *)
Definition configure_slots (h : H) : H :=
  let '(config, h) := rd CONFIG h in wr CONFIG (put_bits 0 8 kDeviceSize config) h.

(** The interrupts of the first interrupter, and those of the controller.
    [src/kernel/usb/xhci/xhci.cpp:410-419] [Controller::Initialize] *)
Definition enable_interrupts (h : H) : H :=
  let '(iman, h) := rd IMAN h in
  let h := wr IMAN (put_bits 1 1 1 (put_bits 0 1 1 iman)) h in
  let '(usbcmd, h) := rd USBCMD h in
  wr USBCMD (put_bits 2 1 1 usbcmd) h.

(** With the memory of the device manager: [devices_] and [device_context_pointers_].
    [src/kernel/usb/xhci/xhci.cpp:348-422] [Controller::Initialize] *)
Definition Initialize (fuel : nat) (a : Z) (h : H) : option (Code * option Started * H) :=
  let '(a, devices) := AllocArray memory_pool 8 (kDeviceSize + 1) 0 0 a in
  match devices with
  | None => Some (kNoEnoughMemory, None, h)
  | Some _ =>
      let '(a, contexts) := AllocArray memory_pool 8 (kDeviceSize + 1) 64 4096 a in
      match contexts with
      | None => Some (kNoEnoughMemory, None, h)
      | Some contexts =>
          h ← RequestHCOwnership fuel mmio_base (HCCPARAMS1 caps) h;
          h ← stop_and_reset fuel h;
          let h := configure_slots h in
          '(a, context0, pages) ← scratchpad_array a;
          let h := wr DCBAAP (put_bits 6 26 (Z.shiftr contexts 6) 0) h in
          let '(a, (cr, _, err)) := UsbRing.Initialize memory_pool 32 a in
          if is_error err then Some (err, None, h)
          else
            let h := RegisterCommandRing (buf cr) h in
            let '(a, buf) := AllocArray memory_pool 16 32 64 (64 * 1024) a in
            match buf with
            | None => Some (kNoEnoughMemory, None, h)
            | Some buf =>
                let '(a, erst) := AllocArray memory_pool 16 1 64 (64 * 1024) a in
                match erst with
                | None => Some (kNoEnoughMemory, None, h)
                | Some erst =>
                    let h := RegisterEventRing buf erst h in
                    Some (kSuccess, Some (MkStarted a contexts context0 pages cr buf erst), enable_interrupts h)
                end
            end
      end
  end.

(** [src/kernel/usb/xhci/xhci.cpp:424-434] [Controller::Run] *)
Definition Run (fuel : nat) (h : H) : option H :=
  let '(usbcmd, h) := rd USBCMD h in
  let h := wr USBCMD (put_bits 0 1 1 usbcmd) h in
  let '(_, h) := rd USBCMD h in
  poll USBSTS (bit 0) fuel h.

(** ** The start of the driver *)

(** The variables of the driver after it has set up the controller. *)
Definition driver_state (s : Started) : XHC :=
  MkXHC (replicate 256 kNotConnected) 0 (replicate (Z.to_nat (kDeviceSize + 1)) None) (context0 s :: replicate (Z.to_nat kDeviceSize) 0)
    (MkTR (command_ring s) (replicate 128 0)) (alloc_ptr s) [].

End controller.

(** What is written to the configuration space, the controller and the driver; [None]
    at first: the kernel exits. The capabilities are those of the controller at an address.
    [src/kernel/usb/xhci/xhci.cpp:533-592] [Initialize] *)
Definition StartXhci (fuel : nat) (conf : Z -> Z) (ds : Devices) (bsp_local_apic_id memory_pool : Z) (caps : Z -> Caps) (portsc : Z -> Z)
    (max_ports : nat) (a : Z) (h : H) : option (option (Pci.writes * H * XHC)) :=
  match find_xhc conf (take (Z.to_nat (num_device ds)) (Pci.devices ds)) None with
  | None => Some None
  | Some xhc_dev =>
      '(msi, _) ← ConfigureMSIFixedDestination conf xhc_dev bsp_local_apic_id true 0 0x40 0;
      let base := xhc_mmio_base conf xhc_dev in
      let switch := if decide (ReadVendorId conf (bus xhc_dev) (device xhc_dev) (function xhc_dev) = 0x8086) then SwitchEhci2Xhci conf ds xhc_dev else [] in
      '(err, so, h) ← Initialize memory_pool base (caps base) fuel a h;
      match so with
      | None => Some None
      | Some s => h ← Run fuel h; Some (Some (msi ++ switch, h, configure_ports portsc max_ports (driver_state s)))
      end
  end.

Section proofs.
Context (memory_pool mmio_base : Z) (caps : Caps).
#[local] Abbreviation Initialize := (Initialize memory_pool mmio_base caps).
#[local] Abbreviation scratchpad_array := (scratchpad_array memory_pool caps).
#[local] Abbreviation scratchpads := (scratchpads memory_pool).
#[local] Abbreviation max_scratchpad_buffers := (max_scratchpad_buffers caps).

(** ** It starts *)

(** The writes so far. *)
Context (written : H -> list (Reg * Z)).
Hypothesis rd_written : forall r h, written (snd (rd r h)) = written h.
Hypothesis wr_written : forall r v h, written (wr r v h) = written h ++ [(r, v)].

(** A condition on a register ends, if it is looked at again and again. *)
Definition settles (r : Reg) (busy : Z -> bool) (h : H) : Prop := exists fuel h', poll r busy fuel h = Some h'.

(** What the specification of the controller promises: the list of extended registers
    ends and the firmware gives the controller away; a controller told to stop halts, one found
    halted had been told to; a reset ends, and the controller becomes ready; one told to run
    does. *)
Hypothesis list_ends : forall h, exists fuel r, find_usblegsup fuel (AddOrNull mmio_base (bits_at 16 16 (HCCPARAMS1 caps))) h = Some r.
Hypothesis firmware_yields : forall a v h, bit 24 v = true -> settles (Ext a) (fun r => bit 16 r || negb (bit 24 r)) (wr (Ext a) v h).
Hypothesis told_to_stop : forall h, bit 0 (fst (rd USBSTS (snd (rd USBCMD h)))) = true -> bit 0 (fst (rd USBCMD h)) = false.
Hypothesis halts : forall v h, bit 0 v = false -> settles USBSTS (fun v => negb (bit 0 v)) (wr USBCMD v h).
Hypothesis resets : forall v h, bit 1 v = true -> settles USBCMD (bit 1) (wr USBCMD v h).
Hypothesis ready : forall h, settles USBSTS (bit 11) h.
Hypothesis runs : forall v h, bit 0 v = true -> settles USBSTS (bit 0) (snd (rd USBCMD (wr USBCMD v h))).

Lemma poll_more r busy fuel : forall h h' fuel', poll r busy fuel h = Some h' -> (fuel <= fuel')%nat -> poll r busy fuel' h = Some h'.
Proof.
  induction fuel as [|fuel IH]; intros h h' [|fuel'] E Hf; try done; [lia|]. cbn [poll] in *.
  destruct (rd r h) as [v h1]. destruct (busy v); [|done]. apply (IH _ _ _ E). lia.
Qed.

Lemma poll_written r busy fuel : forall h h', poll r busy fuel h = Some h' -> written h' = written h.
Proof.
  induction fuel as [|fuel IH]; intros h h' E; [done|]. cbn [poll] in E. pose proof (rd_written r h) as Hw.
  destruct (rd r h) as [v h1]. cbn [snd] in Hw. destruct (busy v); [|by injection E as <-]. rewrite (IH _ _ E). done.
Qed.

Lemma find_more fuel : forall p h r fuel', find_usblegsup fuel p h = Some r -> (fuel <= fuel')%nat -> find_usblegsup fuel' p h = Some r.
Proof.
  induction fuel as [|fuel IH]; intros p h r [|fuel'] E Hf; try done; [lia|]. cbn [find_usblegsup] in *. destruct p as [a|]; [|done].
  destruct (rd (Ext a) h) as [v h1]. case_decide; [done|]. destruct (rd (Ext a) h1) as [v' h2]. apply (IH _ _ _ _ E). lia.
Qed.

Lemma find_written fuel : forall p h r h', find_usblegsup fuel p h = Some (r, h') -> written h' = written h.
Proof.
  induction fuel as [|fuel IH]; intros p h r h' E; [done|]. cbn [find_usblegsup] in E. destruct p as [a|]; [|by injection E as <- <-].
  pose proof (rd_written (Ext a) h) as Hw. destruct (rd (Ext a) h) as [v h1]. cbn [snd] in Hw. case_decide; [by injection E as <- <-|].
  pose proof (rd_written (Ext a) h1) as Hw1. destruct (rd (Ext a) h1) as [v' h2]. cbn [snd] in Hw1. rewrite (IH _ _ _ _ E). congruence.
Qed.

(** From some fuel on. *)
Definition enough (P : nat -> Prop) : Prop := exists fuel0, forall fuel, (fuel0 <= fuel)%nat -> P fuel.

(** The bits of a word after a store of one bit. *)
Lemma bit_put k v x : 0 <= k -> bit k (put_bits k 1 v x) = Z.testbit v 0.
Proof. intros Hk. unfold bit. rewrite testbit_put, decide_True by lia. f_equal. lia. Qed.
Lemma bit_put_ne j k v x : 0 <= k -> 0 <= j -> j <> k -> bit j (put_bits k 1 v x) = bit j x.
Proof. intros Hk Hj Hn. unfold bit. by rewrite testbit_put, decide_False by lia. Qed.

(** The ownership takes at most one write. *)
Lemma RequestHCOwnership_ok h : exists h' own, enough (fun fuel => RequestHCOwnership fuel mmio_base (HCCPARAMS1 caps) h = Some h') /\
  written h' = written h ++ own /\ (own = [] \/ exists a v, own = [(Ext a, v)] /\ bit 24 v = true).
Proof.
  destruct (list_ends h) as (f1 & [r h1] & E1). pose proof (find_written _ _ _ _ _ E1) as W1. destruct r as [a|].
  2: { exists h1, []. split; [|rewrite app_nil_r; split; [done|by left]].
       exists f1. intros fuel Hf. unfold RequestHCOwnership. by rewrite (find_more _ _ _ _ fuel E1 Hf). }
  pose proof (rd_written (Ext a) h1) as W2. destruct (rd (Ext a) h1) as [v h2] eqn:E2. cbn [snd] in W2.
  destruct (bit 24 v) eqn:Eb.
  { exists h2, []. split; [|rewrite app_nil_r; split; [congruence|by left]].
    exists f1. intros fuel Hf. unfold RequestHCOwnership. rewrite (find_more _ _ _ _ fuel E1 Hf). cbn [mbind option_bind]. by rewrite E2, Eb. }
  destruct (firmware_yields a (put_bits 24 1 1 v) h2) as (f2 & h3 & E3); [by apply bit_put|].
  exists h3, [(Ext a, put_bits 24 1 1 v)]. split.
  { exists (f1 + f2)%nat. intros fuel Hf. unfold RequestHCOwnership.
    rewrite (find_more _ _ _ _ fuel E1) by lia. cbn [mbind option_bind]. by rewrite E2, Eb, (poll_more _ _ _ _ _ fuel E3) by lia. }
  split; [by rewrite (poll_written _ _ _ _ _ E3), wr_written, W2, W1|]. right. exists a, (put_bits 24 1 1 v). split; [done|by apply bit_put].
Qed.

Lemma stop_and_reset_ok h : exists h' v1 v2, enough (fun fuel => stop_and_reset fuel h = Some h') /\
  written h' = written h ++ [(USBCMD, v1); (USBCMD, v2)] /\ bit 0 v1 = false /\ bit 2 v1 = false /\ bit 1 v2 = true.
Proof.
  pose proof (rd_written USBCMD h) as W1. pose proof (told_to_stop h) as Htold. destruct (rd USBCMD h) as [c h1] eqn:E1. cbn [fst snd] in *.
  pose proof (rd_written USBSTS h1) as W2. destruct (rd USBSTS h1) as [st h2] eqn:E2. cbn [fst snd] in *.
  set (c1 := put_bits 10 1 0 (put_bits 3 1 0 (put_bits 2 1 0 c))). set (v1 := if negb (bit 0 st) then put_bits 0 1 0 c1 else c1).
  assert (bit 0 v1 = false) as Hv1.
  { unfold v1. destruct (bit 0 st) eqn:Eb; cbn [negb]; [|by apply bit_put]. unfold c1. rewrite !bit_put_ne by lia. by apply Htold. }
  assert (bit 2 v1 = false) as Hv2.
  { assert (bit 2 c1 = false) as Hc by (unfold c1; rewrite !bit_put_ne, bit_put by lia; done).
    unfold v1. destruct (negb (bit 0 st)); [|done]. by rewrite bit_put_ne by lia. }
  destruct (halts v1 h2 Hv1) as (f1 & h3 & E3). pose proof (rd_written USBCMD h3) as W4. destruct (rd USBCMD h3) as [c2 h4] eqn:E4. cbn [snd] in W4.
  destruct (resets (put_bits 1 1 1 c2) h4) as (f2 & h5 & E5); [by apply bit_put|]. destruct (ready h5) as (f3 & h6 & E6).
  exists h6, v1, (put_bits 1 1 1 c2). split.
  { exists (f1 + f2 + f3)%nat. intros fuel Hf. unfold stop_and_reset. rewrite E1. fold c1. rewrite E2. fold v1.
    rewrite (poll_more _ _ _ _ _ fuel E3) by lia. cbn [mbind option_bind]. rewrite E4, (poll_more _ _ _ _ _ fuel E5) by lia. cbn [mbind option_bind].
    by rewrite (poll_more _ _ _ _ _ fuel E6) by lia. }
  split.
  { rewrite (poll_written _ _ _ _ _ E6), (poll_written _ _ _ _ _ E5), wr_written, W4, (poll_written _ _ _ _ _ E3), wr_written, W2, W1, <- app_assoc. done. }
  split_and!; [done|done|by apply bit_put].
Qed.

(** *** The registers that name memory *)

Lemma pointer_field k w p v : 0 <= k -> 0 <= w -> (2 ^ k | p) -> 0 <= p < 2 ^ (k + w) -> 2 ^ k * bits_at k w (put_bits k w (Z.shiftr p k) v) = p.
Proof.
  intros Hk Hw [c ->] Hp. assert (0 < 2 ^ k) by (by apply Z.pow_pos_nonneg). rewrite bits_at_put, Z.shiftr_div_pow2, Z.div_mul by lia.
  rewrite Z.pow_add_r in Hp by done. rewrite Z.mod_small by nia. lia.
Qed.

Lemma pointer_only k w p : 0 <= k -> 0 <= w -> (2 ^ k | p) -> 0 <= p < 2 ^ (k + w) -> put_bits k w (Z.shiftr p k) 0 = p.
Proof.
  intros Hk Hw [c ->] Hp. assert (0 < 2 ^ k) by (by apply Z.pow_pos_nonneg). unfold put_bits.
  rewrite Z.ldiff_0_l, Z.lor_0_l, Z.shiftr_div_pow2, Z.div_mul, Z.shiftl_mul_pow2 by lia.
  rewrite Z.pow_add_r in Hp by done. rewrite Z.mod_small by nia. lia.
Qed.

Lemma RegisterCommandRing_ok buf h : (2 ^ 6 | buf) -> 0 <= buf < 2 ^ 64 -> exists v, written (RegisterCommandRing buf h) = written h ++ [(CRCR, v)] /\
  2 ^ 6 * bits_at 6 58 v = buf /\ bit 0 v = true.
Proof.
  intros Ha Hb. unfold RegisterCommandRing. pose proof (rd_written CRCR h) as W. destruct (rd CRCR h) as [c h1]. cbn [snd] in W.
  eexists. rewrite wr_written, W. split; [done|]. split; [by apply pointer_field|].
  unfold bit. rewrite testbit_put, decide_False by lia. rewrite !testbit_put by lia. done.
Qed.

Lemma RegisterEventRing_ok buf erst h : (2 ^ 6 | buf) -> 0 <= buf < 2 ^ 64 -> (2 ^ 6 | erst) -> 0 <= erst < 2 ^ 64 ->
  exists z d t, written (RegisterEventRing buf erst h) = written h ++ [(ERSTSZ, z); (ERDP, d); (ERSTBA, t)] /\
    bits_at 0 16 z = 1 /\ 2 ^ 4 * bits_at 4 60 d = buf /\ 2 ^ 6 * bits_at 6 58 t = erst.
Proof.
  intros Ha Hb Hc Hd. unfold RegisterEventRing. pose proof (rd_written ERSTSZ h) as W1. destruct (rd ERSTSZ h) as [z h1]. cbn [snd] in W1.
  match goal with |- context [rd ERDP ?x] => pose proof (rd_written ERDP x) as W2; destruct (rd ERDP x) as [d h2] end. cbn [snd] in W2.
  match goal with |- context [rd ERSTBA ?x] => pose proof (rd_written ERSTBA x) as W3; destruct (rd ERSTBA x) as [t h3] end. cbn [snd] in W3.
  eexists _, _, _. rewrite wr_written, W3, wr_written, W2, wr_written, W1, <- !app_assoc. split; [done|].
  split; [by rewrite bits_at_put|]. split; [|by apply pointer_field]. apply pointer_field; [done|done| |done].
  transitivity (2 ^ 6); [by exists 4|done].
Qed.

Lemma enable_interrupts_ok h : exists i v, written (enable_interrupts h) = written h ++ [(IMAN, i); (USBCMD, v)] /\ bit 1 i = true /\ bit 2 v = true.
Proof.
  unfold enable_interrupts. pose proof (rd_written IMAN h) as W1. destruct (rd IMAN h) as [i h1]. cbn [snd] in W1.
  match goal with |- context [rd USBCMD ?x] => pose proof (rd_written USBCMD x) as W2; destruct (rd USBCMD x) as [v h2] end. cbn [snd] in W2.
  eexists _, _. rewrite wr_written, W2, wr_written, W1, <- app_assoc. split; [done|]. split; by rewrite bit_put.
Qed.

Lemma configure_slots_ok h : exists c, written (configure_slots h) = written h ++ [(CONFIG, c)] /\ bits_at 0 8 c = kDeviceSize.
Proof.
  unfold configure_slots. pose proof (rd_written CONFIG h) as W1. destruct (rd CONFIG h) as [c h1]. cbn [snd] in W1.
  eexists. rewrite wr_written, W1. split; [done|by rewrite bits_at_put].
Qed.

Lemma Run_ok h : exists h' v, enough (fun fuel => Run fuel h = Some h') /\ written h' = written h ++ [(USBCMD, v)] /\ bit 0 v = true.
Proof.
  unfold Run. pose proof (rd_written USBCMD h) as W1. destruct (rd USBCMD h) as [v h1]. cbn [snd] in W1.
  destruct (runs (put_bits 0 1 1 v) h1) as (f & h2 & E); [by apply bit_put|]. pose proof (rd_written USBCMD (wr USBCMD (put_bits 0 1 1 v) h1)) as W2.
  exists h2, (put_bits 0 1 1 v). destruct (rd USBCMD _) as [x h3]. cbn [snd] in *.
  split; [exists f; intros fuel Hf; by apply (poll_more _ _ _ _ _ fuel E)|]. split; [|by apply bit_put]. by rewrite (poll_written _ _ _ _ _ E), W2, wr_written, W1.
Qed.

(** *** The blocks of memory *)

Hypothesis pool_range : 0 <= memory_pool /\ memory_pool + kMemoryPoolSize <= 2 ^ 32.

Lemma array_block size n boundary a a' b : 0 < size * n < 2 ^ 32 -> constraint_ok boundary -> ptr_in_range memory_pool a ->
  AllocArray memory_pool size n 64 boundary a = (a', Some b) -> (2 ^ 6 | b) /\ 0 <= b < 2 ^ 32.
Proof.
  intros Hs Hc Ha. unfold AllocArray. rewrite u64_small by lia. assert (0 <= memory_pool /\ memory_pool + kMemoryPoolSize < 2 ^ 62) as Hr by lia.
  destruct (AllocMem_spec memory_pool Hr (MkRequest (size * n) 64 boundary) a) as (a1 & p & E & _ & _ & Hp); [|done|].
  { split; [cbn; lia|]. split; [right; exists 6; cbn; lia|done]. }
  cbn [req_size req_alignment req_boundary] in E. rewrite E. intros [= -> ->]. destruct (Hp b eq_refl) as [(B1 & B2 & B3 & _) _].
  cbn in B2, B3. split; [apply B3; lia|]. unfold pool_end in B2. lia.
Qed.

Lemma array_range size n al boundary a : 0 <= size * n < 2 ^ 32 -> constraint_ok al -> constraint_ok boundary -> ptr_in_range memory_pool a ->
  ptr_in_range memory_pool (fst (AllocArray memory_pool size n al boundary a)).
Proof.
  intros Hs Hal Hc Ha. unfold AllocArray. rewrite u64_small by lia. assert (0 <= memory_pool /\ memory_pool + kMemoryPoolSize < 2 ^ 62) as Hr by lia.
  destruct (AllocMem_spec memory_pool Hr (MkRequest (size * n) al boundary) a) as (a1 & p & E & Hi & _); [by split|done|].
  cbn [req_size req_alignment req_boundary] in E. by rewrite E.
Qed.

Lemma scratchpads_range n : forall a, ptr_in_range memory_pool a -> ptr_in_range memory_pool (fst (scratchpads n a)).
Proof.
  assert (0 <= memory_pool /\ memory_pool + kMemoryPoolSize < 2 ^ 62) as Hr by lia.
  assert (constraint_ok 4096) as Hk by (right; by exists 12). induction n as [|n IH]; intros a Ha; [done|]. cbn [scratchpads].
  destruct (AllocMem_spec memory_pool Hr (MkRequest 4096 4096 4096) a) as (a1 & p & E & Hi & _); [split; [cbn; lia|by split]|done|].
  cbn [req_size req_alignment req_boundary] in E. rewrite E. specialize (IH a1 Hi). by destruct (scratchpads n a1).
Qed.

(** The scratchpad buffers, whose array the driver does not check for null. *)
Lemma scratchpad_range a a' c ps : ptr_in_range memory_pool a -> scratchpad_array a = Some (a', c, ps) -> ptr_in_range memory_pool a'.
Proof.
  intros Ha. unfold scratchpad_array. case_decide as Hn; [|by intros [= <- _ _]].
  assert (max_scratchpad_buffers < 2 ^ 16) by apply Z.mod_pos_bound, eq_refl.
  pose proof (array_range 8 max_scratchpad_buffers 64 4096 a ltac:(lia) ltac:(right; by exists 6) ltac:(right; by exists 12) Ha) as Hr.
  destruct (AllocArray _ _ _ _ _ _) as [a1 [arr|]]; [|done]. cbn [mbind option_bind fst] in *.
  pose proof (scratchpads_range (Z.to_nat max_scratchpad_buffers) a1 Hr) as Hr2. destruct (scratchpads _ a1) as [a2 l]. by intros [= <- _ _].
Qed.

(** Where the scratchpad buffers are asked for. *)
Definition scratchpads_at (a : Z) : Z :=
  fst (AllocArray memory_pool 8 (kDeviceSize + 1) 64 4096 (fst (AllocArray memory_pool 8 (kDeviceSize + 1) 0 0 a))).

(** What the controller has been told, in this order: to stop and to reset itself,
    which it has done; how many slots there are and where the contexts are; where the
    command ring is and its cycle; the event ring, its table of one segment; to
    interrupt; and to run. *)
Record told (s : Started) (ws : list (Reg * Z)) : Prop := {
  to_writes : exists v1 v2 c r z d t i v3 v4,
    ws = [(USBCMD, v1); (USBCMD, v2); (CONFIG, c); (DCBAAP, device_contexts s); (CRCR, r); (ERSTSZ, z); (ERDP, d); (ERSTBA, t); (IMAN, i); (USBCMD, v3); (USBCMD, v4)] /\
    (bit 0 v1 = false /\ bit 1 v2 = true) /\ bits_at 0 8 c = kDeviceSize /\
    (2 ^ 6 * bits_at 6 58 r = buf (command_ring s) /\ bit 0 r = cycle_bit (command_ring s)) /\
    (bits_at 0 16 z = 1 /\ 2 ^ 4 * bits_at 4 60 d = event_buf s /\ 2 ^ 6 * bits_at 6 58 t = erst s) /\
    (bit 1 i = true /\ bit 2 v3 = true) /\ bit 0 v4 = true;
  to_aligned : (2 ^ 6 | device_contexts s) /\ (2 ^ 6 | buf (command_ring s)) /\ (2 ^ 6 | event_buf s) /\ (2 ^ 6 | erst s);
}.

Lemma bind_Some {A B : Type} (x : A) (f : A -> option B) : (Some x ≫= f) = f x.
Proof. done. Qed.
Lemma ok_continues {A : Type} (x y : A) : (if is_error kSuccess then x else y) = y.
Proof. done. Qed.

(** The driver starts the controller: every wait ends, and unless the memory of the driver is
    exhausted the controller has been told all it needs, in the order the
    specification asks for, and runs. *)
Theorem controller_starts a h :
  ptr_in_range memory_pool a -> is_Some (scratchpad_array (scratchpads_at a)) ->
  exists code so h1, enough (fun fuel => Initialize fuel a h = Some (code, so, h1)) /\
    (code = kNoEnoughMemory /\ so = None \/
     code = kSuccess /\ exists s h2 own ws, so = Some s /\ enough (fun fuel => Run fuel h1 = Some h2) /\ written h2 = written h ++ own ++ ws /\
       (own = [] \/ exists a v, own = [(Ext a, v)] /\ bit 24 v = true) /\ told s ws).
Proof.
  intros Ha [[[a3 c0] pgs] Hscr]. pose proof Hscr as Hscr'. unfold scratchpads_at in Hscr'.
  assert (constraint_ok 0) as K0 by by left. assert (constraint_ok 64) as K64 by (right; by exists 6).
  assert (constraint_ok 4096) as K4096 by (right; by exists 12). assert (constraint_ok (64 * 1024)) as K64k by (right; by exists 16).
  pose proof (array_range 8 (kDeviceSize + 1) 0 0 a ltac:(done) K0 K0 Ha) as Hr1. unfold Initialize.
  destruct (AllocArray memory_pool 8 (kDeviceSize + 1) 0 0 a) as [a1 [devs|]]; cbn [fst] in *.
  2: { exists kNoEnoughMemory, None, h. split; [by exists 0%nat|by left]. }
  pose proof (array_range 8 (kDeviceSize + 1) 64 4096 a1 ltac:(done) K64 K4096 Hr1) as Hr2.
  destruct (AllocArray memory_pool 8 (kDeviceSize + 1) 64 4096 a1) as [a2 [dc|]] eqn:E2; cbn [fst] in *.
  2: { exists kNoEnoughMemory, None, h. split; [by exists 0%nat|by left]. }
  destruct (array_block 8 (kDeviceSize + 1) 4096 a1 a2 dc ltac:(done) K4096 Hr1 E2) as [Hdc1 Hdc2].
  pose proof (scratchpad_range a2 a3 c0 pgs Hr2 Hscr') as Hr3.
  destruct (RequestHCOwnership_ok h) as (h1 & own & [f1 H1] & W1 & Hown). destruct (stop_and_reset_ok h1) as (h2 & v1 & v2 & [f2 H2] & W2 & Hv1 & _ & Hv2).
  destruct (configure_slots_ok h2) as (c & W3 & Hc). set (h3 := configure_slots h2) in *.
  set (h4 := wr DCBAAP (put_bits 6 26 (Z.shiftr dc 6) 0) h3). assert (written h4 = written h3 ++ [(DCBAAP, dc)]) as W4 by (unfold h4; rewrite wr_written, pointer_only; done).
  unfold UsbRing.Initialize. pose proof (array_range 16 32 64 (64 * 1024) a3 ltac:(done) K64 K64k Hr3) as Hr4.
  destruct (AllocArray memory_pool 16 32 64 (64 * 1024) a3) as [a4 [cr|]] eqn:E4; cbn [fst] in *.
  2: { exists kNoEnoughMemory, None, h4. split; [|by left]. exists (f1 + f2)%nat. intros fuel Hf. rewrite H1, bind_Some by lia. rewrite H2, bind_Some by lia. rewrite Hscr', bind_Some. rewrite E4. done. }
  destruct (array_block 16 32 (64 * 1024) a3 a4 cr ltac:(done) K64k Hr3 E4) as [Hcr1 Hcr2].
  destruct (RegisterCommandRing_ok cr h4 Hcr1 ltac:(lia)) as (r & W5 & Hr & Hrc). set (h5 := RegisterCommandRing cr h4) in *.
  pose proof (array_range 16 32 64 (64 * 1024) a4 ltac:(done) K64 K64k Hr4) as Hr5.
  destruct (AllocArray memory_pool 16 32 64 (64 * 1024) a4) as [a5 [eb|]] eqn:E5; cbn [fst] in *.
  2: { exists kNoEnoughMemory, None, h5. split; [|by left]. exists (f1 + f2)%nat. intros fuel Hf. rewrite H1, bind_Some by lia. rewrite H2, bind_Some by lia. rewrite Hscr', bind_Some. rewrite E4. cbv beta iota zeta. rewrite ok_continues. rewrite E5. done. }
  destruct (array_block 16 32 (64 * 1024) a4 a5 eb ltac:(done) K64k Hr4 E5) as [Heb1 Heb2].
  destruct (AllocArray memory_pool 16 1 64 (64 * 1024) a5) as [a6 [et|]] eqn:E6; cbn [fst] in *.
  2: { exists kNoEnoughMemory, None, h5. split; [|by left]. exists (f1 + f2)%nat. intros fuel Hf. rewrite H1, bind_Some by lia. rewrite H2, bind_Some by lia. rewrite Hscr', bind_Some. rewrite E4. cbv beta iota zeta. rewrite ok_continues. rewrite E5. rewrite E6. done. }
  destruct (array_block 16 1 (64 * 1024) a5 a6 et ltac:(done) K64k Hr5 E6) as [Het1 Het2].
  destruct (RegisterEventRing_ok eb et h5 Heb1 ltac:(lia) Het1 ltac:(lia)) as (z & d & t & W6 & Hz & Hd & Ht). set (h6 := RegisterEventRing eb et h5) in *.
  destruct (enable_interrupts_ok h6) as (i & v3 & W7 & Hi & Hv3). set (h7 := enable_interrupts h6) in *.
  destruct (Run_ok h7) as (h8 & v4 & Hrun & W8 & Hv4).
  exists kSuccess, (Some (MkStarted a6 dc c0 pgs (MkRing cr 32 true 0) eb et)), h7. split.
  { exists (f1 + f2)%nat. intros fuel Hf. rewrite H1, bind_Some by lia. rewrite H2, bind_Some by lia. rewrite Hscr', bind_Some. rewrite E4. cbv beta iota zeta. rewrite ok_continues. by rewrite E5, E6. }
  right. split; [done|]. eexists _, h8, own, _. split; [done|]. split; [exact Hrun|]. split; [|split; [exact Hown|split; [|done]]].
  - rewrite W8, W7, W6, W5, W4, W3, W2, W1, <- !app_assoc. cbn [app]. reflexivity.
  - by exists v1, v2, c, r, z, d, t, i, v3, v4.
Qed.
End proofs.
End start.

(** ** A controller that obeys at once *)

#[local] Instance sample_hardware : Hardware (bool * list (Reg * Z)) := {|
  rd := fun r h => (match r with USBCMD => Z.b2z (fst h) | USBSTS => Z.b2z (negb (fst h)) | Ext _ => 2 ^ 24 | _ => 0 end, h);
  wr := fun r v h => (match r with USBCMD => Z.testbit v 0 | _ => fst h end, snd h ++ [(r, v)]);
|}.

(** It was running; it has no extended registers and wants two pages. *)
Lemma controller_starts_witness : exists s h1,
  enough (fun fuel => Initialize 0x100000 0 (MkCaps (Z.shiftl 2 27) 0) fuel 0x100000 (true, []) = Some (kSuccess, Some s, h1)) /\
  exists own ws run, told s ws /\ enough (fun fuel => Run fuel h1 = Some (run, own ++ ws)).
Proof.
  destruct (controller_starts 0x100000 0 (MkCaps (Z.shiftl 2 27) 0) snd) with (a := 0x100000) (h := (true, @nil (Reg * Z))) as (code & so & h1 & [f Hf] & Hres).
  1,2: done.
  - intros h. by exists 1%nat, (None, h).
  - intros a v h Hv. exists 1%nat. by eexists.
  - intros [[] tr]; done.
  - intros v [b tr] Hv. exists 1%nat. cbn -[Z.testbit]. unfold bit in Hv. rewrite Hv. by eexists.
  - intros v [b tr] _. exists 1%nat. cbn -[Z.testbit]. by destruct (Z.testbit v 0); eexists.
  - intros [[] tr]; exists 1%nat; by eexists.
  - intros v [b tr] Hv. exists 1%nat. cbn -[Z.testbit]. unfold bit in Hv. rewrite Hv. by eexists.
  - unfold kMemoryPoolSize. lia.
  - unfold ptr_in_range. split; [lia|by vm_compute].
  - eexists. vm_compute. reflexivity.
  - destruct Hres as [[-> ->]|(-> & s & [run ws'] & own & ws & -> & Hrun & Hw & Hown & Ht)].
    + exfalso. specialize (Hf (10 + f)%nat ltac:(lia)). vm_compute in Hf. discriminate Hf.
    + exists s, h1. split; [by exists f|]. exists own, ws, run. split; [exact Ht|]. cbn [snd app] in Hw. by rewrite <- Hw.
Defined.
