(* ===== verification/Acpi.v ===== *)
(** * ACPI (kernel/acpi.cpp, kernel/timer.cpp)

    The search for the FADT among the tables of the firmware, and the power
    management timer it names, with which the kernel waits and finds the frequency
    of the timer of the local APIC. *)

From S2P Require Import Prelude Bytes.
From stdpp Require Import base list numbers option.
From Stdlib Require Import ZArith Lia.

Local Open Scope Z_scope.

(** ** Tables *)

Section tables.
(** The bytes of memory. *)
Context (mem : Z -> Z).

Definition bytes_from (a : Z) (n : nat) : list Z := mem <$> seqZ a (Z.of_nat n).
Definition load (n : nat) (a : Z) : Z := le_num (bytes_from a n).

(** [src/kernel/acpi.cpp:16-23] [SumBytes] *)
Fixpoint sum_loop (l : list Z) (sum : Z) : Z := match l with [] => sum | b :: l' => sum_loop l' (u8 (sum + b)) end.
Definition SumBytes (data n : Z) : Z := sum_loop (bytes_from data (Z.to_nat n)) 0.

(** "RSD PTR ". *)
Definition sig_RSDP : list Z := [82; 83; 68; 32; 80; 84; 82; 32].
(** "XSDT", "FACP". *)
Definition sig_XSDT : list Z := [88; 83; 68; 84].
Definition sig_FACP : list Z := [70; 65; 67; 80].

(** The members of the structures at an address.
    [src/kernel/acpi.hpp:8-20] [RSDP] *)
Definition revision (p : Z) : Z := load 1 (p + 15).
Definition xsdt_address (p : Z) : Z := load 8 (p + 24).
(** [src/kernel/acpi.hpp:22-34] [DescriptionHeader] *)
Definition table_length (t : Z) : Z := load 4 (t + 4).
Definition header_size : Z := 36.
(** [src/kernel/acpi.hpp:43-51] [FADT] *)
Definition pm_tmr_blk (t : Z) : Z := load 4 (t + 76).
Definition fadt_flags (t : Z) : Z := load 4 (t + 112).

(** [src/kernel/acpi.cpp:27-45] [RSDP::IsValid] *)
Definition IsValid (p : Z) : bool :=
  bool_decide (bytes_from p 8 = sig_RSDP) && bool_decide (revision p = 2) && bool_decide (SumBytes p 20 = 0) && bool_decide (SumBytes p 36 = 0).

(** [src/kernel/acpi.cpp:47-57] [DescriptionHeader::Isvalid] *)
Definition Isvalid (t : Z) (expected_signature : list Z) : bool :=
  bool_decide (bytes_from t 4 = expected_signature) && bool_decide (SumBytes t (table_length t) = 0).

(** [src/kernel/acpi.cpp:59-62] [XSDT::operator[]] *)
Definition entry (xsdt i : Z) : Z := load 8 (xsdt + header_size + 8 * i).
(** [src/kernel/acpi.cpp:64-66] [XSDT::Count] *)
Definition Count (xsdt : Z) : Z := u64 (table_length xsdt - header_size) / 8.

(** [src/kernel/acpi.cpp:84-90] [Initialize] *)
Fixpoint find_fadt (n : nat) (xsdt i : Z) : option Z :=
  match n with
  | O => None
  | S n' => if Isvalid (entry xsdt i) sig_FACP then Some (entry xsdt i) else find_fadt n' xsdt (i + 1)
  end.

(** The FADT; [None]: the kernel exits.
    [src/kernel/acpi.cpp:70-96] [Initialize] *)
Definition Initialize (rsdp : Z) : option Z :=
  if IsValid rsdp then
    let xsdt := xsdt_address rsdp in
    if Isvalid xsdt sig_XSDT then find_fadt (Z.to_nat (Count xsdt)) xsdt 0 else None
  else None.

(** The sum is that of the bytes, in eight bits. *)
Lemma sum_loop_total l : forall s, 0 <= s < 256 -> sum_loop l s = u8 (s + foldr Z.add 0 l).
Proof.
  induction l as [|b l IH]; intros s Hs; cbn [sum_loop foldr]; [by rewrite Z.add_0_r, u8_small|]. rewrite IH by apply u8_range.
  unfold u8. rewrite Zplus_mod_idemp_l. f_equal. lia.
Qed.

(** The table found is the first of the list with its signature and a sum of zero. *)
Lemma find_fadt_first n xsdt : forall i t, find_fadt n xsdt i = Some t <->
  exists j, i <= j < i + Z.of_nat n /\ entry xsdt j = t /\ Isvalid t sig_FACP = true /\ forall k, i <= k < j -> Isvalid (entry xsdt k) sig_FACP = false.
Proof.
  induction n as [|n IH]; intros i t; cbn [find_fadt].
  { split; [done|]. intros (j & Hj & _). lia. }
  destruct (Isvalid (entry xsdt i) sig_FACP) eqn:E.
  - split; [intros [= <-]; exists i; split_and!; [lia|lia|done|done|intros k Hk; lia]|].
    intros (j & Hj & <- & Hv & Hk). destruct (decide (j = i)) as [->|Hn]; [done|]. rewrite (Hk i) in E by lia. done.
  - rewrite IH. split; intros (j & Hj & He & Hv & Hk); exists j.
    + split_and!; [lia|lia|done|done|]. intros k Hk'. destruct (decide (k = i)) as [->|]; [done|]. apply Hk. lia.
    + assert (j <> i) by (intros ->; congruence). split_and!; [lia|lia|done|done|]. intros k Hk'. apply Hk. lia.
Qed.
End tables.

(** ** Waiting *)

(** [src/kernel/acpi.hpp:54-54] [kPMTimerFreq] *)
Definition kPMTimerFreq : Z := 3579545.
(** How long that is in ticks of the timer. *)
Definition pm_ticks (msec : Z) : Z := u64 (kPMTimerFreq * msec) / 1000.

Section wait.
(** The values read from the timer, one after the other. *)
Context (reads : nat -> Z).

(** Reading while the value is not as it should be; the number of the read
    after the last.
    [src/kernel/acpi.cpp:106-107] [WaitMilliseconds] *)
Fixpoint read_while (f : Z -> bool) (fuel k : nat) : option nat :=
  match fuel with O => None | S fuel' => if f (reads k) then read_while f fuel' (S k) else Some (S k) end.

(** [src/kernel/acpi.cpp:98-110] [WaitMilliseconds] *)
Definition WaitMilliseconds (fuel : nat) (flags msec : Z) : option nat :=
  let pm_timer_32 := bool_decide (Z.land (Z.shiftr flags 8) 1 <> 0) in
  let start := reads 0 in
  let end0 := u32 (start + pm_ticks msec) in
  let end_ := if pm_timer_32 then end0 else Z.land end0 0x00ffffff in
  k ← (if decide (end_ < start) then read_while (fun v => start <=? v) fuel 1 else Some 1%nat);
  read_while (fun v => v <? end_) fuel k.
End wait.

(** *** How long it waits *)

Section counter.
(** The timer counts up: [t k] ticks have passed at the [k]-th read, of which it
    shows the lower [w] bits. *)
Context (w : Z) (Hw : 0 < w) (t : nat -> Z) (Hstart : 0 <= t 0%nat) (Hmono : forall k, t k <= t (S k)).
Definition shown (k : nat) : Z := t k mod 2 ^ w.

Lemma t_mono j k : (j <= k)%nat -> t j <= t k.
Proof. induction 1 as [|k _ IH]; [lia|]. specialize (Hmono k). lia. Qed.

Lemma modulus_pos : 0 < 2 ^ w.
Proof. apply Z.pow_pos_nonneg; lia. Qed.

(** In the window that starts at [W]. *)
Lemma shown_range k : 0 <= shown k < 2 ^ w.
Proof. apply Z.mod_pos_bound, modulus_pos. Qed.

Lemma shown_at W k : W mod 2 ^ w = 0 -> W <= t k < W + 2 ^ w -> shown k = t k - W.
Proof.
  intros HW Hx. pose proof modulus_pos. pose proof (Z.div_mod W (2 ^ w) ltac:(lia)) as E. rewrite HW, Z.add_0_r in E.
  symmetry. unfold shown. apply (Z.mod_unique_pos _ _ (W / 2 ^ w)); lia.
Qed.

(** The loop returns at the first read that does not satisfy its condition. *)
Lemma read_while_returns f fuel : forall k j, read_while shown f fuel k = Some j ->
  exists i, j = S i /\ (k <= i)%nat /\ f (shown i) = false /\ forall x, (k <= x < i)%nat -> f (shown x) = true.
Proof.
  induction fuel as [|fuel IH]; intros k j; cbn [read_while]; [done|]. destruct (f (shown k)) eqn:E.
  - intros (i & -> & Hi & Hf & Hx)%IH. exists i. split_and!; [done|lia|done|]. intros x ?. destruct (decide (x = k)) as [->|]; [done|]. apply Hx. lia.
  - intros [= <-]. exists k. split_and!; [done|lia|done|intros; lia].
Qed.

Lemma read_while_enough f i fuel : forall k, (k <= i)%nat -> f (shown i) = false -> (i - k < fuel)%nat -> exists j, read_while shown f fuel k = Some j.
Proof.
  induction fuel as [|fuel IH]; intros k Hk Hf Hl; [lia|]. cbn [read_while]. destruct (f (shown k)) eqn:E; [|eauto].
  apply IH; [|done|]; (destruct (decide (k = i)) as [->|]; [congruence|lia]).
Qed.

(** The target, [d] ticks after the start, seen in the window of the counter it is in. *)
Context (d : Z) (Hd : 0 <= d < 2 ^ w).
#[local] Abbreviation start := (shown 0%nat).
#[local] Abbreviation end_ := ((start + d) mod 2 ^ w).
#[local] Abbreviation base := (t 0%nat - start).

Lemma base_window : base mod 2 ^ w = 0 /\ 0 <= start < 2 ^ w.
Proof.
  pose proof modulus_pos. split; [|apply shown_range]. unfold shown.
  rewrite (Z.div_mod (t 0%nat) (2 ^ w)) at 1 by lia. replace (_ - _) with (t 0%nat / 2 ^ w * 2 ^ w) by lia. apply Z.mod_mul. lia.
Qed.

Lemma end_case : (start + d < 2 ^ w /\ end_ = start + d) \/ (2 ^ w <= start + d /\ end_ = start + d - 2 ^ w /\ end_ < start).
Proof.
  pose proof modulus_pos. destruct base_window as [_ Hs]. destruct (decide (start + d < 2 ^ w)) as [H1|H1]; [left|right].
  - split; [done|]. apply Z.mod_small. lia.
  - split; [lia|]. assert (end_ = start + d - 2 ^ w) as E; [|lia]. symmetry. apply (Z.mod_unique_pos _ _ 1); lia.
Qed.

Definition wait_loops (fuel : nat) : option nat :=
  k ← (if decide (end_ < start) then read_while shown (fun v => start <=? v) fuel 1 else Some 1%nat);
  read_while shown (fun v => v <? end_) fuel k.

(** It never waits too short. *)
Lemma wait_at_least fuel j : wait_loops fuel = Some j -> exists i, j = S i /\ t 0%nat + d <= t i.
Proof.
  unfold wait_loops. pose proof modulus_pos as Hp. destruct base_window as [Hb Hs].
  assert (forall i, t i - shown i = base \/ base + 2 ^ w <= t i - shown i) as Hwin.
  { intros i. unfold shown. pose proof (t_mono 0%nat i ltac:(lia)). pose proof (Z.div_mod (t 0%nat) (2 ^ w)). pose proof (Z.div_mod (t i) (2 ^ w)).
    assert (t 0%nat / 2 ^ w <= t i / 2 ^ w) by (apply Z.div_le_mono; lia). destruct (decide (t 0%nat / 2 ^ w = t i / 2 ^ w)); [left; nia|right; nia]. }
  destruct end_case as [[H1 E]|(H1 & E & H2)].
  - rewrite decide_False by lia. cbn [mbind option_bind]. intros (i & -> & Hi & Hf & _)%read_while_returns. exists i. split; [done|].
    apply Z.ltb_ge in Hf. destruct (Hwin i); lia.
  - rewrite decide_True by done. destruct (read_while _ _ _ 1) as [k|] eqn:E1; [|done]. cbn [mbind option_bind].
    apply read_while_returns in E1 as (i1 & -> & Hi1 & Hf1 & _). intros (i & -> & Hi & Hf & _)%read_while_returns. exists i. split; [done|].
    apply Z.leb_gt in Hf1. apply Z.ltb_ge in Hf. pose proof (t_mono i1 i ltac:(lia)). destruct (Hwin i1) as [Hw1|Hw1]; [pose proof (t_mono 0%nat i1 ltac:(lia)); lia|].
    destruct (Hwin i) as [Hw2|Hw2]; [pose proof (shown_range i); pose proof (shown_range i1); lia|lia].
Qed.

(** The time goes on, in steps of at most [g] ticks, two of which fit between the
    target and the end of its window, and one before the start in the next one. *)
Context (g : Z) (Hgap : forall k, t (S k) - t k <= g) (Hgoes : forall x, exists k, x <= t k).
Context (Hg : 2 * g <= 2 ^ w - end_ /\ (end_ < start -> g <= start)).

(** The first read from a time on. *)
Lemma first_read x : t 0%nat < x -> exists k, (1 <= k)%nat /\ x <= t k < x + g /\ forall j, (j < k)%nat -> t j < x.
Proof.
  intros Hx. destruct (Hgoes x) as [n Hn]. revert Hn. induction n as [|n IH]; intros Hn; [lia|].
  destruct (decide (x <= t n)) as [H1|H1]; [by apply IH|]. exists (S n). split; [lia|]. split; [specialize (Hgap n); lia|].
  intros j Hj. pose proof (t_mono j n ltac:(lia)). lia.
Qed.

Lemma wait_at_most : exists fuel j i, wait_loops fuel = Some j /\ j = S i /\ t i <= t 0%nat + d + 2 * g.
Proof.
  unfold wait_loops. pose proof modulus_pos as Hp. destruct base_window as [Hb Hs]. destruct Hg as [Hg1 Hg2].
  assert (Hb2 : (base + 2 ^ w) mod 2 ^ w = 0) by (rewrite Z.add_mod, Hb, Z.mod_same, Z.mod_0_l by lia; done).
  destruct end_case as [[H1 E]|(H1 & E & H2)].
  - destruct (decide (end_ < start)) as [Hc|_]; [lia|]. cbn [mbind option_bind]. destruct (decide (d = 0)) as [Hz|Hz].
    + exists 1%nat. cbn [read_while]. destruct (Z.ltb_spec (shown 1%nat) end_) as [Hlt|Hlt].
      * (* the counter has passed its end meanwhile *)
        exfalso. pose proof (Hgap 0%nat). pose proof (Hmono 0%nat).
        rewrite (shown_at base 1%nat) in Hlt by lia. lia.
      * exists 2%nat, 1%nat. split; [done|]. split; [done|]. specialize (Hgap 0%nat). specialize (Hmono 0%nat). lia.
    + destruct (first_read (t 0%nat + d)) as (k & Hk & Ht & Hbefore); [lia|].
      pose proof (Hgap 0%nat). pose proof (Hmono 0%nat). rewrite E in Hg1 |- *.
      assert ((shown k <? start + d) = false) as Hf by (apply Z.ltb_ge; rewrite (shown_at base k) by lia; lia).
      destruct (read_while_enough (fun v => v <? start + d) k (S k) 1 Hk Hf ltac:(lia)) as [j Hj]. exists (S k), j. rewrite Hj.
      apply read_while_returns in Hj as (i & -> & Hi & Hf' & Hall). exists i. split; [done|]. split; [done|].
      destruct (decide (i <= k)%nat) as [Hle|Hle]; [pose proof (t_mono i k Hle); lia|]. specialize (Hall k ltac:(lia)). rewrite Hall in Hf. done.
  - destruct (decide (end_ < start)) as [_|Hc]; [|lia]. specialize (Hg2 H2).
    destruct (first_read (base + 2 ^ w)) as (k & Hk & Ht & Hbefore); [lia|].
    assert ((start <=? shown k) = false) as Hf by (apply Z.leb_gt; rewrite (shown_at (base + 2 ^ w) k) by lia; lia).
    destruct (first_read (t 0%nat + d)) as (k2 & Hk2 & Ht2 & Hbefore2); [destruct Hd; lia|].
    destruct (read_while_enough (fun v => start <=? v) k (k + k2 + 2) 1 Hk Hf ltac:(lia)) as [j1 Hj1].
    pose proof Hj1 as (i1 & -> & Hi1 & Hf1 & Hall1)%read_while_returns.
    assert (i1 <= k)%nat as Hle1 by (destruct (decide (i1 <= k)%nat); [done|]; specialize (Hall1 k ltac:(lia)); congruence).
    pose proof (t_mono i1 k Hle1).
    destruct (decide (S i1 <= k2)%nat) as [Hle|Hle].
    + assert ((shown k2 <? end_) = false) as Hf2 by (apply Z.ltb_ge; rewrite (shown_at (base + 2 ^ w) k2) by lia; lia).
      destruct (read_while_enough (fun v => v <? end_) k2 (k + k2 + 2) (S i1) Hle Hf2 ltac:(lia)) as [j Hj].
      exists (k + k2 + 2)%nat, j. rewrite Hj1. cbn [mbind option_bind]. rewrite Hj.
      apply read_while_returns in Hj as (i & -> & Hi & Hf' & Hall). exists i. split; [done|]. split; [done|].
      destruct (decide (i <= k2)%nat) as [Hle2|Hle2]; [pose proof (t_mono i k2 Hle2); lia|]. specialize (Hall k2 ltac:(lia)). congruence.
    + (* the read that sees the next window is late enough *)
      pose proof (t_mono k2 i1 ltac:(lia)). pose proof (Hgap i1). pose proof (Hmono i1).
      assert ((shown (S i1) <? end_) = false) as Hf2 by (apply Z.ltb_ge; rewrite (shown_at (base + 2 ^ w) (S i1)) by lia; lia).
      destruct (read_while_enough (fun v => v <? end_) (S i1) (k + k2 + 2) (S i1) ltac:(lia) Hf2 ltac:(lia)) as [j Hj].
      exists (k + k2 + 2)%nat, j. rewrite Hj1. cbn [mbind option_bind]. rewrite Hj.
      apply read_while_returns in Hj as (i & -> & Hi & Hf' & Hall). exists i. split; [done|]. split; [done|].
      destruct (decide (i <= S i1)%nat) as [Hle2|Hle2]; [pose proof (t_mono i (S i1) Hle2); lia|]. specialize (Hall (S i1) ltac:(lia)). congruence.
Qed.
End counter.

(** The width of the timer, and the wait in the words above. *)
Definition timer_bits (flags : Z) : Z := if bool_decide (Z.land (Z.shiftr flags 8) 1 <> 0) then 32 else 24.

Lemma timer_bits_pos flags : 0 < timer_bits flags.
Proof. unfold timer_bits. by case_bool_decide. Qed.

Lemma pm_ticks_nonneg msec : 0 <= pm_ticks msec.
Proof. apply Z.div_pos; [|done]. by apply Z.mod_pos_bound. Qed.

Lemma WaitMilliseconds_loops t fuel flags msec :
  WaitMilliseconds (shown (timer_bits flags) t) fuel flags msec = wait_loops (timer_bits flags) t (pm_ticks msec) fuel.
Proof.
  unfold WaitMilliseconds, wait_loops, timer_bits. set (x := _ + pm_ticks msec). case_bool_decide; cbn zeta; [done|].
  replace (Z.land (u32 x) 0xffffff) with (x mod 2 ^ 24); [done|].
  change 0xffffff with (Z.ones 24). rewrite Z.land_ones by done. unfold u32.
  symmetry. apply Z.mod_mod_divide. by exists 256.
Qed.

(** Whole turns of the timer are lost. *)
Lemma wait_loops_mod w t d fuel : wait_loops w t d fuel = wait_loops w t (d mod 2 ^ w) fuel.
Proof. unfold wait_loops. by rewrite Zplus_mod_idemp_r. Qed.

(** C39. Waiting by the ACPI timer of 24 or 32 bits, also when it wraps around
    meanwhile: with [r] the ticks of the milliseconds without whole turns of the
    timer, which is all of them when the wait is shorter than a turn (4.7 seconds
    with 24 bits), it never returns before [r] ticks have passed; and it does
    return, at most two readings later, provided that the timer is read often enough
    to be seen between the end of the wait and the end of the turn, and before it is
    back at the value of the start. A longer wait returns after [r] ticks, not after
    all of them. *)
Theorem WaitMilliseconds_waits flags msec (t : nat -> Z) (g : Z) :
  let w := timer_bits flags in let r := pm_ticks msec mod 2 ^ w in
  0 <= t 0%nat -> (forall k, t k <= t (S k) <= t k + g) -> (forall x, exists k, x <= t k) ->
  (pm_ticks msec < 2 ^ w -> r = pm_ticks msec) /\
  (forall fuel j, WaitMilliseconds (shown w t) fuel flags msec = Some j -> exists i, j = S i /\ t 0%nat + r <= t i) /\
  (2 * g <= 2 ^ w - (shown w t 0 + r) mod 2 ^ w -> (2 ^ w <= shown w t 0 + r -> g <= shown w t 0) ->
   exists fuel i, WaitMilliseconds (shown w t) fuel flags msec = Some (S i) /\ t 0%nat + r <= t i <= t 0%nat + r + 2 * g).
Proof.
  intros w r H0 Hstep Hgoes. pose proof (timer_bits_pos flags) as Hw. pose proof (pm_ticks_nonneg msec) as Hd0. fold w in Hw.
  assert (0 <= r < 2 ^ w) as Hr by (apply Z.mod_pos_bound, modulus_pos; done).
  assert (forall fuel, WaitMilliseconds (shown w t) fuel flags msec = wait_loops w t r fuel) as Hloops
    by (intros; unfold w, r; by rewrite WaitMilliseconds_loops, wait_loops_mod).
  assert (forall k, t k <= t (S k)) as Hm by (intros k; specialize (Hstep k); lia).
  assert (forall fuel j, wait_loops w t r fuel = Some j -> exists i, j = S i /\ t 0%nat + r <= t i) as Hleast by (intros; by eapply wait_at_least).
  split; [by intros; apply Z.mod_small|]. split.
  - intros fuel j. rewrite Hloops. apply Hleast.
  - intros Hg1 Hg2. destruct (wait_at_most w Hw t Hm r Hr g) as (fuel & j & i & E & -> & Hi).
    + intros k. specialize (Hstep k). lia.
    + done.
    + split; [done|]. intros Hlt. apply Hg2. destruct (end_case w Hw t r Hr) as [[? E]|(? & ? & ?)]; [|done]. rewrite E in Hlt. lia.
    + exists fuel, i. rewrite Hloops. split; [done|]. destruct (Hleast _ _ E) as (i' & [= <-] & ?). lia.
Qed.

(** One millisecond on a timer of 24 bits, read every 500 ticks, which wraps around
    at the third reading. *)
Lemma WaitMilliseconds_waits_witness :
  pm_ticks 1 = 3579 /\ exists fuel i, WaitMilliseconds (shown 24 (fun k => 0xfffc00 + 500 * Z.of_nat k)) fuel 0 1 = Some (S i) /\
    0xfffc00 + 3579 <= 0xfffc00 + 500 * Z.of_nat i <= 0xfffc00 + 4579.
Proof.
  split; [by vm_compute|].
  destruct (WaitMilliseconds_waits 0 1 (fun k => 0xfffc00 + 500 * Z.of_nat k) 500) as (_ & _ & H).
  - lia.
  - intros k. lia.
  - intros x. exists (Z.to_nat x). lia.
  - destruct H as (fuel & i & E & Hi); [by vm_compute|by vm_compute|]. exists fuel, i. split; [exact E|].
    change (pm_ticks 1 mod 2 ^ timer_bits 0) with 3579 in Hi. lia.
Defined.

(** *** The timer of the local APIC *)

(** [src/kernel/timer.cpp:9-9] [kCountMax] *)
Definition kCountMax : Z := 0xffffffff.
(** The frequency, and the count after which it interrupts, from the value of the counter after
    100 milliseconds.
    [src/kernel/timer.cpp:22-30] [InitializeLAPICTimer] *)
Definition calibrate (kTimerFreq current_count : Z) : Z * Z :=
  let elapsed := u32 (kCountMax - current_count) in
  let lapic_timer_freq := u64 (elapsed * 10) in
  (lapic_timer_freq, u32 (lapic_timer_freq / kTimerFreq)).
