(* ===== verification/Segment.v ===== *)
(** * Segments and the task state segment (kernel/segment.cpp)

    The descriptors of the global descriptor table, written field by field, and
    what the processor reads in them; the stacks of the task state segment. *)

From S2P Require Import Prelude BitField FrameBitmap.
From stdpp Require Import base list numbers option.
From Stdlib Require Import ZArith Lia.

Local Open Scope Z_scope.

(** ** Fields *)

(** A bit field: its lowest bit and its width. *)
Record Field := F { lowest : Z; size : Z }.
Definition get (f : Field) (d : Z) : Z := bits_at (lowest f) (size f) d.
Definition put (f : Field) (v d : Z) : Z := put_bits (lowest f) (size f) v d.

Definition field_ok (f : Field) : bool := (0 <=? lowest f) && (0 <=? size f).
Definition apart (f g : Field) : bool :=
  field_ok f && field_ok g && ((lowest f + size f <=? lowest g) || (lowest g + size g <=? lowest f)).

Lemma get_put f v d : field_ok f = true -> get f (put f v d) = v mod 2 ^ size f.
Proof. unfold field_ok. rewrite andb_true_iff, !Z.leb_le. intros []. by apply bits_at_put. Qed.

Lemma get_put_ne f g v d : apart f g = true -> get f (put g v d) = get f d.
Proof.
  unfold apart, field_ok. rewrite !andb_true_iff, orb_true_iff, !Z.leb_le. intros [[[] []] ?]. apply bits_at_put_other; lia.
Qed.

Lemma get_zero f : get f 0 = 0.
Proof. unfold get, bits_at. by rewrite Z.shiftr_0_l, Z.land_0_l. Qed.

(** The value of a field of a word built by stores. *)
Ltac field_step := match goal with
  | |- context [get ?f (put ?g ?v ?d)] => first [rewrite (get_put_ne f g v d) by reflexivity | rewrite (get_put f v d) by reflexivity]
  end.
Ltac fields := repeat field_step; rewrite ?get_zero.

(** ** Descriptors *)

(** [src/kernel/x86_descriptor.hpp:3-15] [DescriptorType] *)
Definition kTSSAvailable : Z := 9.
Definition kInterruptGate : Z := 14.
Definition kReadWrite : Z := 2.
Definition kExecuteRead : Z := 10.

(** [src/kernel/segment.hpp:8-25] [SegmentDescriptor] *)
Definition limit_low := F 0 16.
Definition base_low := F 16 16.
Definition base_middle := F 32 8.
Definition type := F 40 4.
Definition system_segment := F 44 1.
Definition descriptor_privilege_level := F 45 2.
Definition present := F 47 1.
Definition limit_high := F 48 4.
Definition available := F 52 1.
Definition long_mode := F 53 1.
Definition default_operation_size := F 54 1.
Definition granularity := F 55 1.
Definition base_high := F 56 8.

(** The descriptor.
    [src/kernel/segment.cpp:31-53] [SetCodeSegment] *)
Definition SetCodeSegment (ty dpl base limit : Z) : Z :=
  let d := 0 in
  let d := put base_low (Z.land base 0xffff) d in
  let d := put base_middle (Z.land (Z.shiftr base 16) 0xff) d in
  let d := put base_high (Z.land (Z.shiftr base 24) 0xff) d in
  let d := put limit_low (Z.land limit 0xffff) d in
  let d := put limit_high (Z.land (Z.shiftr limit 16) 0xf) d in
  let d := put type ty d in
  let d := put system_segment 1 d in
  let d := put descriptor_privilege_level dpl d in
  let d := put present 1 d in
  let d := put available 0 d in
  let d := put long_mode 1 d in
  let d := put default_operation_size 0 d in
  put granularity 1 d.

(** [src/kernel/segment.cpp:55-63] [SetDataSegment] *)
Definition SetDataSegment (ty dpl base limit : Z) : Z :=
  put default_operation_size 1 (put long_mode 0 (SetCodeSegment ty dpl base limit)).

(** [src/kernel/segment.cpp:66-74] [SetSystemSegment] *)
Definition SetSystemSegment (ty dpl base limit : Z) : Z :=
  put long_mode 0 (put system_segment 0 (SetCodeSegment ty dpl base limit)).

(** What the processor reads: the base, and the limit in units of bytes or of pages. *)
Definition seg_base (d : Z) : Z := get base_low d + 2 ^ 16 * get base_middle d + 2 ^ 24 * get base_high d.
Definition seg_limit (d : Z) : Z := get limit_low d + 2 ^ 16 * get limit_high d.

(** Pieces of a number put together. *)
Lemma piece x m n k : 0 <= m -> 0 <= n -> k = Z.ones n -> Z.land (Z.shiftr x m) k mod 2 ^ n = x / 2 ^ m mod 2 ^ n.
Proof. intros Hm Hn ->. rewrite Z.land_ones, Z.shiftr_div_pow2 by done. apply Z.mod_mod. lia. Qed.

Lemma piece0 x n k : 0 <= n -> k = Z.ones n -> Z.land x k mod 2 ^ n = x mod 2 ^ n.
Proof. intros Hn ->. rewrite Z.land_ones by done. apply Z.mod_mod. lia. Qed.

Lemma split_mod x m n : 0 <= m -> 0 <= n -> x mod 2 ^ (m + n) = x mod 2 ^ m + 2 ^ m * (x / 2 ^ m mod 2 ^ n).
Proof. intros Hm Hn. rewrite Z.pow_add_r by done. apply Z.rem_mul_r; lia. Qed.

Lemma code_base ty dpl base limit : 0 <= base < 2 ^ 32 -> seg_base (SetCodeSegment ty dpl base limit) = base.
Proof.
  intros Hb. unfold seg_base, SetCodeSegment. fields. cbn [size base_low base_middle base_high].
  rewrite (piece0 base 16), (piece base 16 8), (piece base 24 8) by done.
  pose proof (split_mod base 16 8 ltac:(done) ltac:(done)) as E1. pose proof (split_mod base 24 8 ltac:(done) ltac:(done)) as E2. change (16 + 8) with 24 in E1. change (24 + 8) with 32 in E2.
  rewrite (Z.mod_small base (2 ^ 32)) in E2 by done. lia.
Qed.

Lemma code_limit ty dpl base limit : seg_limit (SetCodeSegment ty dpl base limit) = limit mod 2 ^ 20.
Proof.
  unfold seg_limit, SetCodeSegment. fields. cbn [size limit_low limit_high].
  rewrite (piece0 limit 16), (piece limit 16 4) by done. change 20 with (16 + 4). by rewrite split_mod.
Qed.

Lemma system_base ty dpl base limit : seg_base (SetSystemSegment ty dpl base limit) = seg_base (SetCodeSegment ty dpl base limit).
Proof. unfold seg_base, SetSystemSegment. generalize (SetCodeSegment ty dpl base limit). intros d. by fields. Qed.

Lemma system_limit ty dpl base limit : seg_limit (SetSystemSegment ty dpl base limit) = seg_limit (SetCodeSegment ty dpl base limit).
Proof. unfold seg_limit, SetSystemSegment. generalize (SetCodeSegment ty dpl base limit). intros d. by fields. Qed.

Lemma system_fields ty dpl base limit : let d := SetSystemSegment ty dpl base limit in
  get type d = ty mod 16 /\ get system_segment d = 0 /\ get present d = 1 /\ get granularity d = 1.
Proof. cbv zeta. unfold SetSystemSegment, SetCodeSegment. cbv zeta. split_and!; by fields. Qed.

(** ** The tables *)

(** [src/kernel/segment.hpp:34-37] [kKernelCS] *)
Definition kKernelCS : Z := Z.shiftl 1 3.
Definition kKernelSS : Z := Z.shiftl 2 3.
Definition kKernelDS : Z := 0.
Definition kTSS : Z := Z.shiftl 5 3.
(** [src/kernel/interrupt.hpp:47-47] [kISTForTimer] *)
Definition kISTForTimer : Z := 1.

(** The tables, the registers of the processor that name them, and the frames.
    [src/kernel/segment.cpp:10-11] [gdt] *)
Record Segments := MkSegments {
  gdt : list Z;
  tss : list Z;
  GDTR : Z * Z;
  DS : Z; CS : Z; SS : Z; TR : Z;
  memory_manager : BitmapMemoryManager;
}.
Definition InitialSegments (m : BitmapMemoryManager) : Segments :=
  MkSegments (replicate 7 0) (replicate 26 0) (0, 0) 0 0 0 0 m.
Definition set_gdt x s := MkSegments x (tss s) (GDTR s) (DS s) (CS s) (SS s) (TR s) (memory_manager s).

(** [src/kernel/segment.cpp:15-18] [SetTSS] *)
Definition SetTSS (index value : Z) (t : list Z) : option (list Z) :=
  t ← setZ t index (Z.land value 0xffffffff); setZ t (index + 1) (u32 (Z.shiftr value 32)).

(** The end of the stack; [None]: the kernel exits.
    [src/kernel/segment.cpp:20-27] [AllocateStackArea] *)
Definition AllocateStackArea (num_4kframes : Z) (m : BitmapMemoryManager) : option (Z * BitmapMemoryManager) :=
  '(m, (stk, err)) ← Allocate m num_4kframes;
  if is_error err then None else Some (stk * kBytesPerFrame + num_4kframes * 4096, m).

Section addresses.
(** Where the linker put the tables. *)
Context (gdt_addr tss_addr : Z).

(** [src/kernel/segment.cpp:76-83] [SetupSegments] *)
Definition SetupSegments (s : Segments) : option Segments :=
  g ← setZ (gdt s) 0 0;
  g ← setZ g 1 (SetCodeSegment kExecuteRead 0 0 0xfffff);
  g ← setZ g 2 (SetDataSegment kReadWrite 0 0 0xfffff);
  g ← setZ g 3 (SetDataSegment kReadWrite 3 0 0xfffff);
  g ← setZ g 4 (SetCodeSegment kExecuteRead 3 0 0xfffff);
  Some (MkSegments g (tss s) (7 * 8 - 1, gdt_addr) (DS s) (CS s) (SS s) (TR s) (memory_manager s)).

(** [src/kernel/segment.cpp:85-90] [InitializeSegmentation] *)
Definition InitializeSegmentation (s : Segments) : option Segments :=
  s ← SetupSegments s;
  Some (MkSegments (gdt s) (tss s) (GDTR s) kKernelDS kKernelCS kKernelSS (TR s) (memory_manager s)).

(** [src/kernel/segment.cpp:93-104] [InitializeTSS] *)
Definition InitializeTSS (s : Segments) : option Segments :=
  '(top, m) ← AllocateStackArea 8 (memory_manager s);
  t ← SetTSS 1 top (tss s);
  '(top, m) ← AllocateStackArea 8 m;
  t ← SetTSS (7 + 2 * kISTForTimer) top t;
  g ← setZ (gdt s) (Z.shiftr kTSS 3) (SetSystemSegment kTSSAvailable 0 (Z.land tss_addr 0xffffffff) (4 * 26 - 1));
  g ← setZ g (Z.shiftr kTSS 3 + 1) (Z.shiftr tss_addr 32);
  Some (MkSegments g t (GDTR s) (DS s) (CS s) (SS s) kTSS m).

(** ** What the processor finds *)

(** A flat segment of the whole address space, present, for one level of privilege;
    code runs in 64 bits. *)
Record flat_segment (ty dpl long d : Z) : Prop := {
  fl_base : seg_base d = 0;
  fl_limit : seg_limit d = 0xfffff;
  fl_pages : get granularity d = 1;
  fl_type : get type d = ty;
  fl_application : get system_segment d = 1;
  fl_level : get descriptor_privilege_level d = dpl;
  fl_present : get present d = 1;
  fl_long : get long_mode d = long;
  fl_size : get default_operation_size d = 1 - long;
}.

(** The segments the kernel loads, and those that [syscall] and [CallApp] enter
    programs with. *)
Theorem InitializeSegmentation_flat s : length (gdt s) = 7%nat ->
  exists s', InitializeSegmentation s = Some s' /\ GDTR s' = (55, gdt_addr) /\ length (gdt s') = 7%nat /\
    getZ (gdt s') 0 = Some 0 /\ CS s' = 8 /\ SS s' = 16 /\ DS s' = 0 /\
    (exists d, getZ (gdt s') (CS s' / 8) = Some d /\ flat_segment kExecuteRead 0 1 d) /\
    (exists d, getZ (gdt s') (SS s' / 8) = Some d /\ flat_segment kReadWrite 0 0 d) /\
    (exists d, getZ (gdt s') 3 = Some d /\ flat_segment kReadWrite 3 0 d) /\
    (exists d, getZ (gdt s') 4 = Some d /\ flat_segment kExecuteRead 3 1 d) /\
    tss s' = tss s /\ memory_manager s' = memory_manager s.
Proof.
  intros Hl. unfold InitializeSegmentation, SetupSegments. destruct (gdt s) as [|a0 [|a1 [|a2 [|a3 [|a4 [|a5 [|a6 [|]]]]]]]]; try done.
  eexists. split; [reflexivity|]. split_and!; try reflexivity; eexists; (split; [reflexivity|by constructor; vm_compute]).
Qed.

(** [src/kernel/msr.hpp:5-8] [kIA32_EFER] *)
Definition kIA32_EFER : Z := 0xc0000080.
Definition kIA32_STAR : Z := 0xc0000081.
Definition kIA32_LSTAR : Z := 0xc0000082.
Definition kIA32_FMASK : Z := 0xc0000084.

(** The registers written, in order, with the address of the entry of system calls.
    [src/kernel/syscall.cpp:317-323] [InitializeSyscall] *)
Definition InitializeSyscall (SyscallEntry : Z) : list (Z * Z) :=
  [(kIA32_EFER, 0x0501); (kIA32_LSTAR, SyscallEntry); (kIA32_STAR, Z.lor (Z.shiftl 8 32) (Z.shiftl (Z.lor 16 3) 48)); (kIA32_FMASK, 0)].

(** The selectors the processor derives from STAR: those of [syscall], and those of
    [sysret] to 64 bits, with their level of privilege. *)
Definition syscall_cs (star : Z) : Z := Z.land (Z.shiftr star 32) 0xfffc.
Definition syscall_ss (star : Z) : Z := u16 (Z.shiftr star 32) + 8.
Definition sysret_cs (star : Z) : Z := Z.lor (u16 (Z.shiftr star 48) + 16) 3.
Definition sysret_ss (star : Z) : Z := Z.lor (u16 (Z.shiftr star 48) + 8) 3.

(** A system call enters the kernel's own segments, and returns to those of the
    programs. *)
Theorem InitializeSyscall_segments s s' entry star : length (gdt s) = 7%nat -> InitializeSegmentation s = Some s' ->
  (kIA32_STAR, star) ∈ InitializeSyscall entry ->
  syscall_cs star = CS s' /\ syscall_ss star = SS s' /\
  (exists d, getZ (gdt s') (sysret_cs star / 8) = Some d /\ flat_segment kExecuteRead 3 1 d) /\
  (exists d, getZ (gdt s') (sysret_ss star / 8) = Some d /\ flat_segment kReadWrite 3 0 d).
Proof.
  intros Hl E Hin. destruct (InitializeSegmentation_flat s Hl) as (s1 & E1 & _ & _ & _ & Hcs & Hss & _ & _ & _ & Hd & Hc & _).
  rewrite E in E1. injection E1 as <-. unfold InitializeSyscall in Hin. rewrite !elem_of_cons in Hin.
  assert (star = 0x13000800000000) as ->.
  { destruct Hin as [[=]|[[=]|[[= ->]|[[=]|Hin%not_elem_of_nil]]]]; [done|done]. }
  rewrite Hcs, Hss. split_and!; [done|done|exact Hc|exact Hd].
Qed.

(** A word of 64 bits of the task state segment. *)
Definition tss_qword (t : list Z) (index : Z) : option Z :=
  lo ← getZ t index; hi ← getZ t (index + 1); Some (lo + 2 ^ 32 * hi).

Lemma SetTSS_spec index value t : length t = 26%nat -> 0 <= index < 25 -> 0 <= value < 2 ^ 64 ->
  exists t', SetTSS index value t = Some t' /\ length t' = 26%nat /\ tss_qword t' index = Some value /\
    (forall j, j <> index -> j <> index + 1 -> getZ t' j = getZ t j).
Proof.
  intros Hl Hi Hv. unfold SetTSS. destruct (setZ t index _) as [t1|] eqn:E1; [|rewrite setZ_Some in E1; [done|lia]].
  cbn [mbind option_bind]. pose proof (length_setZ _ _ _ _ E1).
  destruct (setZ t1 (index + 1) _) as [t2|] eqn:E2; [|rewrite setZ_Some in E2; [done|lia]].
  pose proof (length_setZ _ _ _ _ E2). exists t2. split; [done|]. split; [lia|]. split.
  - unfold tss_qword. rewrite !(getZ_setZ _ _ _ _ _ E2), (decide_False (P := index + 1 = index)) by lia.
    rewrite (decide_True (P := index + 1 = index + 1)), (getZ_setZ _ _ _ _ _ E1), decide_True by lia. cbn [mbind option_bind]. f_equal.
    change 0xffffffff with (Z.ones 32). rewrite Z.land_ones, Z.shiftr_div_pow2 by done. unfold u32.
    rewrite (Z.mod_small (value / 2 ^ 32)) by (split; [apply Z.div_pos; lia|apply Z.div_lt_upper_bound; lia]).
    pose proof (Z.div_mod value (2 ^ 32) ltac:(done)). lia.
  - intros j H1 H2. by rewrite (getZ_setZ _ _ _ _ _ E2), decide_False, (getZ_setZ _ _ _ _ _ E1), decide_False by lia.
Qed.

Lemma AllocateStackArea_spec n m top m' : manager_ok m -> 0 < n -> AllocateStackArea n m = Some (top, m') ->
  exists f, top = (f + n) * kBytesPerFrame /\ range_begin m <= f /\ f + n <= range_end m /\ free_run m f n /\ frames_set m m' f n true.
Proof.
  intros Hok Hn. unfold AllocateStackArea. destruct (decide (range_begin m <= kFrameCount)) as [Hb|Hb].
  - destruct (Allocate_spec m n Hok) as ([m1 [f e]] & -> & Hp); [lia|done|]. cbn [mbind option_bind].
    destruct Hp as [(-> & Hf & Hend & Hfree & _ & Hset)|(-> & _)]; [|done]. cbn. intros [= <- <-].
    exists f. split; [unfold kBytesPerFrame; lia|]. split; [done|]. split; [by apply Hend|]. done.
  - pose proof (ok_end m Hok). unfold Allocate, Allocate_loop. fold Allocate_loop. destruct (Z.to_nat n) as [|k] eqn:E; [lia|]. cbn [scan].
    by rewrite decide_True by lia.
Qed.

(** The segment of the task state describes the whole of [tss] wherever the linker
    put it, and the two stacks in it, the one of the interrupts of programs and
    the one of the timer, are separate runs of frames that were free and are now taken. *)
Theorem InitializeTSS_stacks s s' : length (gdt s) = 7%nat -> length (tss s) = 26%nat -> manager_ok (memory_manager s) -> 0 <= tss_addr < 2 ^ 64 ->
  InitializeTSS s = Some s' ->
  TR s' = kTSS /\
  (exists lo hi, getZ (gdt s') (kTSS / 8) = Some lo /\ getZ (gdt s') (kTSS / 8 + 1) = Some hi /\ seg_base lo + 2 ^ 32 * hi = tss_addr /\
     seg_limit lo = 103 /\ get type lo = kTSSAvailable /\ get system_segment lo = 0 /\ get present lo = 1) /\
  (forall j, j <> 5 -> j <> 6 -> getZ (gdt s') j = getZ (gdt s) j) /\
  exists f1 f2, tss_qword (tss s') 1 = Some ((f1 + 8) * 4096) /\ tss_qword (tss s') 9 = Some ((f2 + 8) * 4096) /\
    (range_begin (memory_manager s) <= f1 /\ f1 + 8 <= range_end (memory_manager s)) /\ (range_begin (memory_manager s) <= f2 /\ f2 + 8 <= range_end (memory_manager s)) /\
    free_run (memory_manager s) f1 8 /\ free_run (memory_manager s) f2 8 /\ (f1 + 8 <= f2 \/ f2 + 8 <= f1) /\
    manager_ok (memory_manager s') /\ range_end (memory_manager s') = range_end (memory_manager s) /\
    forall g, 0 <= g -> allocated (memory_manager s') g = bool_decide (f1 <= g < f1 + 8 \/ f2 <= g < f2 + 8) || allocated (memory_manager s) g.
Proof.
  intros Hg Ht Hok Ha. unfold InitializeTSS. destruct (AllocateStackArea 8 _) as [[top1 m1]|] eqn:E1; [|done].
  apply AllocateStackArea_spec in E1 as (f1 & -> & Hb1 & He1 & Hfree1 & Hset1); [|done|done]. pose proof (ok_begin _ Hok). pose proof (ok_end _ Hok).
  assert (forall f, 0 <= f -> f + 8 <= kFrameCount -> 0 <= (f + 8) * kBytesPerFrame < 2 ^ 64) as Hrange by (change kFrameCount with (2 ^ 25); change kBytesPerFrame with 4096; lia).
  destruct (SetTSS_spec 1 ((f1 + 8) * kBytesPerFrame) (tss s) Ht ltac:(lia) ltac:(apply Hrange; lia)) as (t1 & Et1 & Hl1 & Hq1 & _).
  cbn [mbind option_bind]. rewrite Et1. cbn [mbind option_bind].
  destruct (AllocateStackArea 8 m1) as [[top2 m2]|] eqn:E2; [|done]. pose proof (fs_ok _ _ _ _ _ Hset1) as Hok1.
  pose proof (fs_begin _ _ _ _ _ Hset1). pose proof (fs_end _ _ _ _ _ Hset1).
  apply AllocateStackArea_spec in E2 as (f2 & -> & Hb2 & He2 & Hfree2 & Hset2); [|done|done].
  destruct (SetTSS_spec 9 ((f2 + 8) * kBytesPerFrame) t1 Hl1 ltac:(lia) ltac:(apply Hrange; lia)) as (t2 & Et2 & Hl2 & Hq2 & Hother).
  change (7 + 2 * kISTForTimer) with 9. cbn [mbind option_bind]. rewrite Et2. cbn [mbind option_bind].
  destruct (gdt s) as [|a0 [|a1 [|a2 [|a3 [|a4 [|a5 [|a6 [|]]]]]]]]; try done. intros [= <-]. cbn [TR gdt tss memory_manager].
  split; [done|]. split.
  { eexists _, _. split; [reflexivity|]. split; [reflexivity|].
    change 0xffffffff with (Z.ones 32). rewrite Z.land_ones, Z.shiftr_div_pow2 by done.
    assert (0 <= tss_addr mod 2 ^ 32 < 2 ^ 32) by (by apply Z.mod_pos_bound). split_and!.
    - rewrite system_base, code_base by done. pose proof (Z.div_mod tss_addr (2 ^ 32) ltac:(done)). lia.
    - rewrite system_limit. by rewrite code_limit.
    - by destruct (system_fields kTSSAvailable 0 (tss_addr mod 2 ^ 32) (4 * 26 - 1)) as (-> & _).
    - by destruct (system_fields kTSSAvailable 0 (tss_addr mod 2 ^ 32) (4 * 26 - 1)) as (_ & -> & _).
    - by destruct (system_fields kTSSAvailable 0 (tss_addr mod 2 ^ 32) (4 * 26 - 1)) as (_ & _ & -> & _). }
  split.
  { intros j H5 H6. unfold getZ. case_decide; [|done]. cbn. destruct (Z.to_nat j) as [|[|[|[|[|[|[|n]]]]]]] eqn:Ej; (done || lia). }
  exists f1, f2. pose proof (fs_bits _ _ _ _ _ Hset1) as B1. pose proof (fs_bits _ _ _ _ _ Hset2) as B2.
  assert (f1 + 8 <= f2 \/ f2 + 8 <= f1) as Hapart.
  { destruct (decide (f1 + 8 <= f2)); [by left|]. destruct (decide (f2 + 8 <= f1)); [by right|]. exfalso.
    pose proof (Hfree2 (Z.max f1 f2) ltac:(lia)) as Hx. rewrite B1, decide_True in Hx by lia. done. }
  split; [by unfold tss_qword; rewrite !Hother by lia|]. split; [done|]. split; [lia|]. split; [lia|]. split; [done|]. split; [|split; [done|split; [by apply Hset2|split; [by rewrite (fs_end _ _ _ _ _ Hset2)|]]]].
  - intros g Hgr. pose proof (Hfree2 g Hgr) as Hx. rewrite B1 in Hx by lia. by case_decide.
  - intros g Hg0. rewrite B2, B1 by done. repeat case_decide; case_bool_decide; (done || lia || tauto).
Qed.
End addresses.

(** The other words stay. *)
Lemma SetTSS_other index value t t' j : SetTSS index value t = Some t' -> j <> index -> j <> index + 1 -> getZ t' j = getZ t j.
Proof.
  unfold SetTSS. destruct (setZ t index _) as [t1|] eqn:E1; [|done]. cbn [mbind option_bind]. intros E2 H1 H2.
  by rewrite (getZ_setZ _ _ _ _ _ E2), decide_False, (getZ_setZ _ _ _ _ _ E1), decide_False by lia.
Qed.

(** The base of the map of input and output permissions, the upper half of the last
    word, stays zero, and the limit is counted in pages: the map of the processor
    starts at the state itself, whose first word is zero, and every port below 32
    is open to programs. *)
Lemma io_map_at_start tss_addr s s' : tss s = replicate 26 0 -> InitializeTSS tss_addr s = Some s' ->
  getZ (tss s') 25 = Some 0 /\ getZ (tss s') 0 = Some 0 /\ exists d, getZ (gdt s') 5 = Some d /\ get granularity d = 1.
Proof.
  intros Ht. unfold InitializeTSS. destruct (AllocateStackArea 8 _) as [[top1 m1]|]; [|done]. cbn [mbind option_bind].
  destruct (SetTSS 1 top1 _) as [t1|] eqn:E1; [|done]. cbn [mbind option_bind].
  destruct (AllocateStackArea 8 m1) as [[top2 m2]|]; [|done]. cbn [mbind option_bind].
  destruct (SetTSS _ top2 t1) as [t2|] eqn:E2; [|done]. cbn [mbind option_bind].
  destruct (setZ (gdt s) _ _) as [g1|] eqn:E3; [|done]. cbn [mbind option_bind].
  destruct (setZ g1 _ _) as [g2|] eqn:E4; [|done]. cbn [mbind option_bind]. intros [= <-]. cbn [tss gdt].
  change (7 + 2 * kISTForTimer) with 9 in E2.
  rewrite !(SetTSS_other _ _ _ _ _ E2), !(SetTSS_other _ _ _ _ _ E1), Ht by done. split; [done|]. split; [done|].
  rewrite (getZ_setZ _ _ _ _ _ E4), decide_False, (getZ_setZ _ _ _ _ _ E3), decide_True by done. eexists. split; [done|]. apply system_fields.
Qed.
