(* ===== verification/Interrupt.v ===== *)
(** * Interrupts and faults (kernel/interrupt.cpp)

    The gates of the interrupt descriptor table, and what the handlers do: a
    message for the event of the USB controller, demand paging, the end of a
    faulty program, the report of a fault of the kernel. *)

From S2P Require Import Prelude BitField Message Task FrameBitmap Paging GuiGraphics Segment.
From stdpp Require Import base list numbers option.
From Stdlib Require Import ZArith Lia.

Local Open Scope Z_scope.

(** ** Gates *)

(** [src/kernel/interrupt.hpp:11-21] [InterruptDescriptorAttribute] *)
Definition interrupt_stack_table := F 0 3.
Definition gate_type := F 8 4.
Definition gate_privilege_level := F 13 2.
Definition gate_present := F 15 1.

(** [src/kernel/interrupt.hpp:23-30] [InterruptDescriptor] *)
Record InterruptDescriptor := MkDescriptor {
  offset_low : Z; segment_selector : Z; attr : Z; offset_middle : Z; offset_high : Z;
}.

(** [src/kernel/interrupt.hpp:34-45] [MakeIDTAttr] *)
Definition MakeIDTAttr (type dpl : Z) (present : bool) (ist : Z) : Z :=
  let attr := put interrupt_stack_table ist 0 in
  let attr := put gate_type type attr in
  let attr := put gate_privilege_level dpl attr in
  put gate_present (Z.b2z present) attr.

(** [src/kernel/interrupt.cpp:14-21] [SetIDTEntry] *)
Definition SetIDTEntry (attr offset selector : Z) : InterruptDescriptor :=
  MkDescriptor (Z.land offset 0xffff) selector attr (Z.land (Z.shiftr offset 16) 0xffff) (u32 (Z.shiftr offset 32)).

(** The handlers, by name.
    [src/kernel/interrupt.cpp:101-109] [FaultHandlerNoError] *)
Inductive Handler :=
  | IntHandlerXHCI | IntHandlerLAPICTimer | IntHandlerPF
  | IntHandlerDE | IntHandlerDB | IntHandlerBP | IntHandlerOF | IntHandlerBR | IntHandlerUD | IntHandlerNM
  | IntHandlerDF | IntHandlerTS | IntHandlerNP | IntHandlerSS | IntHandlerGP | IntHandlerMF | IntHandlerAC
  | IntHandlerMC | IntHandlerXM | IntHandlerVE.
#[export] Instance Handler_eq_dec : EqDecision Handler.
Proof. solve_decision. Defined.

(** [src/kernel/interrupt.hpp:54-60] [InterruptVector] *)
Definition vec_XHCI : Z := 0x40.
Definition vec_LAPICTimer : Z := 0x41.

(** The exceptions with their handlers, in the order of their entries.
    [src/kernel/interrupt.cpp:123-140] [InitializeInterrupt] *)
Definition fault_entries : list (Z * Handler) :=
  [(0, IntHandlerDE); (1, IntHandlerDB); (3, IntHandlerBP); (4, IntHandlerOF); (5, IntHandlerBR); (6, IntHandlerUD);
   (7, IntHandlerNM); (8, IntHandlerDF); (10, IntHandlerTS); (11, IntHandlerNP); (12, IntHandlerSS); (13, IntHandlerGP);
   (14, IntHandlerPF); (16, IntHandlerMF); (17, IntHandlerAC); (18, IntHandlerMC); (19, IntHandlerXM); (20, IntHandlerVE)].

(** Before the kernel starts, the table is zero. *)
Definition InitialIDT : list InterruptDescriptor := replicate 256 (MkDescriptor 0 0 0 0 0).

Section table.
(** Where the linker put the handlers and the table. *)
Context (address : Handler -> Z) (idt_addr : Z).

(** [src/kernel/interrupt.cpp:114-117] [InitializeInterrupt] *)
Definition set_idt_entry (irq : Z) (h : Handler) (idt : list InterruptDescriptor) : option (list InterruptDescriptor) :=
  setZ idt irq (SetIDTEntry (MakeIDTAttr kInterruptGate 0 true 0) (address h) kKernelCS).

Fixpoint set_entries (es : list (Z * Handler)) (idt : list InterruptDescriptor) : option (list InterruptDescriptor) :=
  match es with [] => Some idt | (irq, h) :: es' => idt' ← set_idt_entry irq h idt; set_entries es' idt' end.

(** The table, and the IDTR.
    [src/kernel/interrupt.cpp:113-142] [InitializeInterrupt] *)
Definition InitializeInterrupt (idt : list InterruptDescriptor) : option (list InterruptDescriptor * (Z * Z)) :=
  idt ← set_idt_entry vec_XHCI IntHandlerXHCI idt;
  idt ← setZ idt vec_LAPICTimer (SetIDTEntry (MakeIDTAttr kInterruptGate 0 true kISTForTimer) (address IntHandlerLAPICTimer) kKernelCS);
  idt ← set_entries fault_entries idt;
  Some (idt, (256 * 16 - 1, idt_addr)).

(** What the processor finds in a gate: where it jumps, in which segment, on which
    of the stacks of the task state segment; whether programs may call it. *)
Record gate (selector offset ist dpl : Z) (d : InterruptDescriptor) : Prop := {
  ga_offset : offset_low d + 2 ^ 16 * offset_middle d + 2 ^ 32 * offset_high d = offset;
  ga_selector : segment_selector d = selector;
  ga_stack : get interrupt_stack_table (attr d) = ist;
  ga_type : get gate_type (attr d) = kInterruptGate;
  ga_level : get gate_privilege_level (attr d) = dpl;
  ga_present : get gate_present (attr d) = 1;
}.

Lemma SetIDTEntry_gate ist offset selector : 0 <= ist < 8 -> 0 <= offset < 2 ^ 64 ->
  gate selector offset ist 0 (SetIDTEntry (MakeIDTAttr kInterruptGate 0 true ist) offset selector).
Proof.
  intros Hi Ho. constructor; cbn [SetIDTEntry offset_low offset_middle offset_high segment_selector attr]; try done;
    try (unfold MakeIDTAttr; fields; cbn; rewrite ?Z.mod_small by lia; done).
  change 0xffff with (Z.ones 16). rewrite !Z.land_ones, !Z.shiftr_div_pow2 by done. unfold u32.
  assert (0 <= offset / 2 ^ 32 < 2 ^ 32) by (split; [apply Z.div_pos; lia|apply Z.div_lt_upper_bound; lia]).
  rewrite (Z.mod_small (offset / 2 ^ 32)) by done.
  pose proof (split_mod offset 16 16 ltac:(done) ltac:(done)) as E. change (16 + 16) with 32 in E.
  pose proof (Z.div_mod offset (2 ^ 32) ltac:(done)). lia.
Qed.

(** The handler of a vector. *)
Definition handler_of (v : Z) : option Handler :=
  snd <$> List.find (fun e => fst e =? v) ((vec_XHCI, IntHandlerXHCI) :: (vec_LAPICTimer, IntHandlerLAPICTimer) :: fault_entries).

Lemma set_entries_lookup es : forall idt v, Forall (fun e => 0 <= fst e < Z.of_nat (length idt)) es -> NoDup (fst <$> es) ->
  exists idt', set_entries es idt = Some idt' /\ length idt' = length idt /\
    getZ idt' v = match List.find (fun e => fst e =? v) es with
      | Some e => Some (SetIDTEntry (MakeIDTAttr kInterruptGate 0 true 0) (address (snd e)) kKernelCS)
      | None => getZ idt v
      end.
Proof.
  induction es as [|[irq h] es IH]; intros idt v Hr Hn; cbn [set_entries List.find fst snd]; [eauto|].
  inversion Hr as [|? ? Hi Hr']; subst. cbn in Hn, Hi. inversion Hn as [|? ? Hni Hn']; subst. unfold set_idt_entry.
  destruct (setZ idt irq _) as [idt1|] eqn:E; [|rewrite setZ_Some in E; done]. cbn [mbind option_bind].
  pose proof (length_setZ _ _ _ _ E) as Hl. destruct (IH idt1 v) as (idt' & -> & Hl' & Hg); [by rewrite Hl|done|].
  exists idt'. split; [done|]. split; [congruence|]. rewrite Hg, (getZ_setZ _ _ _ _ _ E). destruct (Z.eqb_spec irq v) as [->|Hv].
  - rewrite decide_True by done. destruct (List.find _ es) as [e|] eqn:Ef; [|done]. exfalso. apply Hni.
    apply List.find_some in Ef as [Hin Hv%Z.eqb_eq]. rewrite <- Hv. apply list_elem_of_In, in_map, Hin.
  - by rewrite decide_False by done.
Qed.

(** Every vector that is handled jumps to its handler in the kernel's code segment,
    which programs cannot call; only the timer has a stack of its own; the other
    vectors have no gate. *)
Theorem InitializeInterrupt_gates v : (forall h, 0 <= address h < 2 ^ 64) -> 0 <= v < 256 ->
  exists idt d, InitializeInterrupt InitialIDT = Some (idt, (4095, idt_addr)) /\ length idt = 256%nat /\ getZ idt v = Some d /\
    match handler_of v with
    | Some h => gate kKernelCS (address h) (if decide (h = IntHandlerLAPICTimer) then kISTForTimer else 0) 0 d
    | None => get gate_present (attr d) = 0
    end.
Proof.
  intros Ha Hv. unfold InitializeInterrupt, set_idt_entry. assert (length InitialIDT = 256%nat) as H0 by done.
  destruct (setZ InitialIDT _ _) as [idt1|] eqn:E1; [|rewrite setZ_Some in E1; done]. cbn [mbind option_bind].
  pose proof (length_setZ _ _ _ _ E1) as H1. rewrite H0 in H1.
  destruct (setZ idt1 _ _) as [idt2|] eqn:E2; [|rewrite setZ_Some in E2; [done|rewrite H1; done]]. cbn [mbind option_bind].
  pose proof (length_setZ _ _ _ _ E2) as H2. rewrite H1 in H2.
  destruct (set_entries_lookup fault_entries idt2 v) as (idt & -> & Hl & Hg).
  { rewrite H2. repeat constructor; cbn; lia. }
  { by apply (bool_decide_unpack _). }
  cbn [mbind option_bind]. destruct (getZ_Some idt v) as [d Hd]; [lia|]. exists idt, d. split; [done|]. split; [lia|]. split; [done|].
  rewrite Hd in Hg. unfold handler_of. cbn [List.find fst snd]. destruct (Z.eqb_spec vec_XHCI v) as [<-|Hx].
  { cbn in Hg. rewrite (getZ_setZ _ _ _ _ _ E2), decide_False, (getZ_setZ _ _ _ _ _ E1), decide_True in Hg by done.
    injection Hg as ->. by apply SetIDTEntry_gate. }
  destruct (Z.eqb_spec vec_LAPICTimer v) as [<-|Ht].
  { cbn in Hg. rewrite (getZ_setZ _ _ _ _ _ E2), decide_True in Hg by done. injection Hg as ->. by apply SetIDTEntry_gate. }
  destruct (List.find _ fault_entries) as [[irq h]|] eqn:Ef; cbn [fmap option_fmap option_map snd].
  - injection Hg as ->. apply List.find_some in Ef as [Hin _].
    assert (h <> IntHandlerLAPICTimer) by (cbn in Hin; naive_solver). rewrite decide_False by done. by apply SetIDTEntry_gate.
  - rewrite (getZ_setZ _ _ _ _ _ E2), decide_False, (getZ_setZ _ _ _ _ _ E1), decide_False in Hg by done.
    unfold getZ, InitialIDT in Hg. rewrite decide_True, lookup_replicate_2 in Hg by lia. injection Hg as ->. by vm_compute.
Qed.
End table.

(** ** Handlers *)

(** What the USB controller causes: the main task gets a message.
    [src/kernel/interrupt.cpp:29-32] [IntHandlerXHCI] *)
Definition IntHandlerXHCI_run (tm : TaskManager) : option TaskManager :=
  fst <$> SendMessage 1 (zero_message kInterruptXHCI) tm.

(** Text on the screen: where, what, its colour. *)
Definition Drawn : Type := Vector2D * list Z * PixelColor.
Definition red : PixelColor := Color 255 0 0.
Definition black : PixelColor := Color 0 0 0.

(** [src/kernel/interrupt.cpp:36-41] [PrintHex] *)
Definition hex_char (value width i : Z) : Z :=
  let x := Z.land (Z.shiftr value (4 * (width - i - 1))) 0xf in
  if decide (10 <= x) then x + (97 - 10) else x + 48.

(** [src/kernel/interrupt.cpp:34-45] [PrintHex] *)
Definition PrintHex (value : Z) (width : nat) (pos : Vector2D) : list Drawn :=
  (fun i => (vadd pos (V (8 * Z.of_nat i) 0), [hex_char value (Z.of_nat width) (Z.of_nat i)], red)) <$> seq 0 width.

(** [src/kernel/interrupt.hpp:62-68] [InterruptFrame] *)
Record InterruptFrame := MkFrame { rip : Z; cs : Z; rflags : Z; rsp : Z; ss : Z }.

(** "CS:RIP", "RFLAGS", "SS:RSP", "ERR". *)
Definition s_csrip : list Z := [67; 83; 58; 82; 73; 80].
Definition s_rflags : list Z := [82; 70; 76; 65; 71; 83].
Definition s_ssrsp : list Z := [83; 83; 58; 82; 83; 80].
Definition s_err : list Z := [69; 82; 82].

(** [src/kernel/interrupt.cpp:47-57] [PrintFrame] *)
Definition PrintFrame (frame : InterruptFrame) (exp_name : list Z) : list Drawn :=
  [(V 500 (16 * 0), exp_name, red); (V 500 (16 * 1), s_csrip, red)] ++
  PrintHex (cs frame) 4 (V (500 + 8 * 7) (16 * 1)) ++ PrintHex (rip frame) 16 (V (500 + 8 * 12) (16 * 1)) ++
  [(V 500 (16 * 2), s_rflags, red)] ++ PrintHex (rflags frame) 16 (V (500 + 8 * 7) (16 * 2)) ++
  [(V 500 (16 * 3), s_ssrsp, red)] ++ PrintHex (ss frame) 4 (V (500 + 8 * 7) (16 * 3)) ++
  PrintHex (rsp frame) 16 (V (500 + 8 * 12) (16 * 3)).

(** How a fault ends: the faulting code goes on; its program ends, [CallApp] returning
    the status on the stack of the system; the processor halts with a report on the screen. *)
Inductive Ending := Resumes | AppExits (rsp status : Z) | Halts (screen : list Drawn).

Definition SIGSEGV : Z := 11.

(** [None]: it returns.
    [src/kernel/interrupt.cpp:59-68] [KillApp] *)
Definition KillApp (os_stack_ptr : Z) (frame : InterruptFrame) : option Ending :=
  let cpl := Z.land (cs frame) 0x3 in
  if decide (cpl <> 3) then None else Some (AppExits os_stack_ptr (128 + SIGSEGV)).

Definition kill_or (os_stack_ptr : Z) (frame : InterruptFrame) (screen : list Drawn) : Ending :=
  default (Halts screen) (KillApp os_stack_ptr frame).

(** [src/kernel/interrupt.cpp:93-99] [FaultHandlerNoError] *)
Definition FaultHandlerNoError (fault_name : list Z) (os_stack_ptr : Z) (frame : InterruptFrame) : Ending :=
  kill_or os_stack_ptr frame (PrintFrame frame (35 :: fault_name)).

(** [src/kernel/interrupt.cpp:83-91] [FaultHandlerWithError] *)
Definition FaultHandlerWithError (fault_name : list Z) (os_stack_ptr : Z) (frame : InterruptFrame) (error_code : Z) : Ending :=
  kill_or os_stack_ptr frame
    (PrintFrame frame (35 :: fault_name) ++ [(V 500 (16 * 4), s_err, red)] ++ PrintHex error_code 16 (V (500 + 8 * 4) (16 * 4))).

Section page_fault.
Context {A : Type} `{!FrameAllocator A}.

(** "#PF"; the report of the error code is begun in black.
    [src/kernel/interrupt.cpp:70-81] [IntHandlerPF] *)
Definition IntHandlerPF_run (dpaging_begin dpaging_end os_stack_ptr cr2 : Z) (frame : InterruptFrame) (error_code : Z) (st : @Machine A) :
    option (@Machine A * Ending) :=
  '(st, err) ← HandlePageFault dpaging_begin dpaging_end error_code cr2 st;
  if negb (is_error err) then Some (st, Resumes)
  else Some (st, kill_or os_stack_ptr frame
    (PrintFrame frame [35; 80; 70] ++ [(V 500 (16 * 4), s_err, black)] ++ PrintHex error_code 16 (V (500 + 8 * 4) (16 * 4)))).
End page_fault.

(** A fault in a program ends that program and no more; one of the kernel never
    goes on. *)
Lemma kill_or_cases os_stack_ptr frame screen :
  kill_or os_stack_ptr frame screen = if decide (Z.land (cs frame) 3 = 3) then AppExits os_stack_ptr 139 else Halts screen.
Proof. unfold kill_or, KillApp. by repeat case_decide. Qed.

(** The value of hexadecimal digits. *)
Definition hex_digit (c : Z) : Z := if decide (97 <= c) then c - 87 else c - 48.
Definition hex_value (cs : list Z) : Z := foldl (fun v c => 16 * v + hex_digit c) 0 cs.
Definition chars (ds : list Drawn) : list Z := mjoin (snd ∘ fst <$> ds).

Lemma hex_char_digit value width i : i < width -> hex_digit (hex_char value width i) = value / 2 ^ (4 * (width - i - 1)) mod 16.
Proof.
  intros Hi. unfold hex_char. change 0xf with (Z.ones 4). rewrite Z.land_ones, Z.shiftr_div_pow2 by lia. change (2 ^ 4) with 16.
  pose proof (Z.mod_pos_bound (value / 2 ^ (4 * (width - i - 1))) 16 ltac:(done)). unfold hex_digit. repeat case_decide; lia.
Qed.

(** The digits on the screen are those of the value, cut to their number. *)
Theorem PrintHex_reads value width pos : 0 <= value -> hex_value (chars (PrintHex value width pos)) = value mod 16 ^ Z.of_nat width.
Proof.
  intros Hv. unfold chars, PrintHex, hex_value. rewrite <- list_fmap_compose. cbn [compose].
  set (f := fun i => _). assert (forall k, (k <= width)%nat ->
    foldl (fun v c => 16 * v + hex_digit c) 0 (mjoin ((fun i => [hex_char value (Z.of_nat width) (Z.of_nat i)]) <$> seq 0 k)) =
    value / 2 ^ (4 * (Z.of_nat width - Z.of_nat k)) mod 16 ^ Z.of_nat k) as H.
  { induction k as [|k IH]; intros Hk; [cbn; by rewrite Z.mod_1_r|].
    rewrite seq_S, fmap_app, join_app, foldl_app, IH by lia. cbn [fmap list_fmap mjoin list_join app foldl Nat.add].
    rewrite hex_char_digit by lia. set (q := value / 2 ^ (4 * (Z.of_nat width - Z.of_nat (S k)))).
    replace (Z.of_nat width - Z.of_nat k - 1) with (Z.of_nat width - Z.of_nat (S k)) by lia. fold q.
    replace (value / 2 ^ (4 * (Z.of_nat width - Z.of_nat k))) with (q / 16).
    - rewrite Nat2Z.inj_succ, (Z.pow_succ_r 16 (Z.of_nat k)) by lia.
      pose proof (Z.pow_pos_nonneg 16 (Z.of_nat k) ltac:(lia) ltac:(lia)). rewrite Z.rem_mul_r by lia. lia.
    - unfold q. rewrite Z.div_div by lia. f_equal. change 16 with (2 ^ 4). rewrite <- Z.pow_add_r by lia. f_equal. lia. }
  specialize (H width ltac:(lia)). rewrite Z.sub_diag in H. by rewrite Z.div_1_r in H.
Qed.
