(* ===== verification/Logging.v ===== *)
(** * The log from end to end (kernel/logger.cpp, kernel/system.cpp,
    kernel/syscall.cpp, libs/kinos/common/print.cpp, servers/log/log.cpp)

    What the kernel and the programs print goes into the ring of the kernel log;
    the log server reads it and writes it into a window. *)

From S2P Require Import Prelude Bytes Message Task Timer KernelLog Syscall AmFd GuiClient GuiGraphics TextArea.
From stdpp Require Import base list numbers option.
From Stdlib Require Import ZArith Lia.

Local Open Scope Z_scope.

(** ** Printing *)

Section print.
Context {Q : Type} `{!PriorityQueue Q}.

(** The C library's [vsprintf] of a format and its arguments: the text; [None] where
    it has no defined result, as for a conversion without an argument. *)
Context {Arg : Type} (vsprintf : list Z -> list Arg -> option (list Z)).

(** The text in a buffer of [size] bytes. *)
Definition formatted (size : nat) (format : list Z) (ap : list Arg) : option (list Z) :=
  s ← vsprintf format ap; if decide (length s < size)%nat then Some s else None.

(** [src/kernel/system.cpp:456-467] [printk] *)
Definition printk (format : list Z) (ap : list Arg) (l : Log) : option Log :=
  s ← formatted 1024 format ap; KernelLogWrite s l.

(** [src/kernel/logger.hpp:3-8] [LogLevel] *)
Inductive LogLevel := kLogError | kLogWarn | kLogInfo | kLogDebug.
Definition level_value (l : LogLevel) : Z := match l with kLogError => 3 | kLogWarn => 4 | kLogInfo => 6 | kLogDebug => 7 end.

(** What it has formatted is the format of [printk].
    [src/kernel/logger.cpp:14-30] [Log] *)
Definition LogAt (log_level level : LogLevel) (format : list Z) (ap : list Arg) (l : Log) : option Log :=
  if decide (level_value level > level_value log_level) then Some l
  else s ← formatted 1024 format ap; printk s [] l.

(** The text of the caller is the format of [printk].
    [src/kernel/syscall.cpp:281-285] [WriteKernelLog] *)
Definition WriteKernelLog (buf : list Z) (k : @Kernel Q) : option (@Kernel Q * Result) :=
  l ← printk buf [] (kernel_log k); Some (set_log l k, MkResult 0 0).

(** A program's [Print].
    [src/libs/kinos/common/print.cpp:8-19] [Print] *)
Definition PrintLog (format : list Z) (ap : list Arg) (k : @Kernel Q) : option (@Kernel Q) :=
  s ← formatted 1024 format ap; fst <$> WriteKernelLog s k.

(** ** The log server

    Its window, cursor and scrolling are those of [TextArea]. *)

Section server.
Context (find_server : list Z -> Z * Z) (layer_id : Z).

(** [src/servers/log/log.cpp:17-38] [Print] *)
Definition LogPrint_char (c : Z) : Area -> Area := TextArea.Print_char find_server layer_id c.

(** [src/servers/log/log.cpp:40-52] [Print] *)
Definition LogPrint (s : list Z) (a : Area) : Area := put_string LogPrint_char s a.

(** [src/servers/log/log.cpp:54-65] [PrintToTerminal] *)
Definition PrintToTerminal (format : list Z) (ap : list Arg) (a : Area) : option Area :=
  s ← formatted 128 format ap; Some (LogPrint s a).

(** One turn of the loop; the buffer of 128 zeros is printed as a string, which is
    the format.
    [src/servers/log/log.cpp:77-84] [main] *)
Definition log_turn (a : Area) (k : @Kernel Q) : option (Area * @Kernel Q) :=
  '(k, out, r) ← ReadKernelLog 128 k;
  if decide (error r <> 0) then Some (a, k)
  else
    buf ← write_at (replicate 128 0) 0 out;
    s ← c_str buf;
    a ← PrintToTerminal s [] a;
    Some (a, k).
End server.

(** "log". *)
Definition s_log : list Z := [108; 111; 103].

(** The window and its number, or the server exits.
    [src/servers/log/log.cpp:67-75] [main] *)
Definition log_start (find_server : list Z -> Z * Z) (w : Mail) : outcome (option (Z * Area)) :=
  '(layer_id, w) ← OpenWindow find_server (kColumns * 8 + 12 + Marginx) (kRows * 16 + 12 + Marginy) 20 20 s_log w;
  if decide (layer_id = -1) then Ok None
  else Ok (Some (layer_id, MkArea 0 0 (WinFillRectangle find_server layer_id true Marginx Marginy kCanvasWidth kCanvasHeight 0 w))).
End print.

(** ** Where characters go *)

(** A character drawn: where, and which. *)
Definition glyph (a : action) : option (Z * Z * Z) :=
  match a with
  | Send m _ => if decide (Message.type m = kWinWriteChar) then Some (getI winwritechar_x m, getI winwritechar_y m, getU winwritechar_c m) else None
  | _ => None
  end.

(** The reference: 60 columns of 8 pixels, 15 rows of 16, the last of which is written
    again and again after it has been scrolled. *)
Definition next_row (y : Z) : Z := Z.min (y + 1) 14.
Fixpoint layout (x y : Z) (s : list Z) : list (Z * Z * Z) :=
  match s with
  | [] => []
  | c :: s' =>
      if decide (c = 10) then layout 0 (next_row y) s'
      else (8 + 8 * x, 28 + 16 * y, c) :: (if decide (x = 59) then layout 0 (next_row y) s' else layout (x + 1) y s')
  end.
Fixpoint cursor_after (x y : Z) (s : list Z) : Z * Z :=
  match s with
  | [] => (x, y)
  | c :: s' =>
      if decide (c = 10) then cursor_after 0 (next_row y) s'
      else if decide (x = 59) then cursor_after 0 (next_row y) s' else cursor_after (x + 1) y s'
  end.

Section shows.
Context (find_server : list Z -> Z * Z) (layer_id gui : Z) (Hgui : find_server servers_gui = (gui, 0)).

Lemma gui_sends m w : gui_send find_server m w = send m gui w.
Proof. unfold gui_send. by rewrite Hgui, decide_False by lia. Qed.

Lemma char_glyph x y c : 0 <= x < 2 ^ 31 -> 0 <= y < 2 ^ 31 -> 0 <= c < 256 ->
  glyph (Send (char_message layer_id true x y 0xffffff c) gui) = Some (x, y, c).
Proof.
  intros Hx Hy Hc. unfold glyph, char_message. rewrite (proj1 (with_fields_type _ _)). rewrite decide_True by done.
  unfold getI.
  pose proof (with_fields_get winwritechar_x x [(winwritechar_layer_id, layer_id); (winwritechar_draw, flag true)]
    [(winwritechar_y, y); (winwritechar_color, 0xffffff); (winwritechar_c, c)] (zero_message kWinWriteChar) (zero_message_ok _) eq_refl) as Ex.
  pose proof (with_fields_get winwritechar_y y [(winwritechar_layer_id, layer_id); (winwritechar_draw, flag true); (winwritechar_x, x)]
    [(winwritechar_color, 0xffffff); (winwritechar_c, c)] (zero_message kWinWriteChar) (zero_message_ok _) eq_refl) as Ey.
  pose proof (with_fields_get winwritechar_c c [(winwritechar_layer_id, layer_id); (winwritechar_draw, flag true); (winwritechar_x, x); (winwritechar_y, y);
    (winwritechar_color, 0xffffff)] [] (zero_message kWinWriteChar) (zero_message_ok _) eq_refl) as Ec.
  cbn [app] in Ex, Ey, Ec. rewrite Ex, Ey, Ec.
  cbn [f_width winwritechar_x winwritechar_y winwritechar_c]. rewrite !Z.mod_small, !s32_small by lia. done.
Qed.

(** The end of a line draws no character. *)
Lemma newline_shows a : cursor_ok a -> exists o, out (mail (newline find_server layer_id a)) = out (mail a) ++ o /\ omap glyph o = [] /\
  cursorx (newline find_server layer_id a) = 0 /\ cursory (newline find_server layer_id a) = next_row (cursory a).
Proof.
  unfold cursor_ok, kRows. intros [_ Hy]. unfold newline, next_row, kRows. cbn [cursory set_cursorx]. case_decide as Hd.
  - exists []. rewrite app_nil_r. cbn. split_and!; [done..|lia].
  - unfold Scroll1, draws, WinRedraw, WinFillRectangle, WinMoveRec. rewrite !gui_sends. cbn [mail set_mail out send act cursorx cursory set_cursorx].
    eexists. rewrite <- !app_assoc. split; [done|]. cbn [app omap list_omap]. unfold glyph, fill_message.
    rewrite !(proj1 (with_fields_type _ _)). split_and!; [done|done|lia].
Qed.

Lemma put_char_shows c a : cursor_ok a -> 0 <= c < 256 -> exists o, out (mail (LogPrint_char find_server layer_id c a)) = out (mail a) ++ o /\
  forall s, layout (cursorx a) (cursory a) (c :: s) = omap glyph o ++ layout (cursorx (LogPrint_char find_server layer_id c a)) (cursory (LogPrint_char find_server layer_id c a)) s /\
    cursor_after (cursorx a) (cursory a) (c :: s) = cursor_after (cursorx (LogPrint_char find_server layer_id c a)) (cursory (LogPrint_char find_server layer_id c a)) s.
Proof.
  intros Ha Hc. unfold LogPrint_char, TextArea.Print_char, put_char. cbn [layout cursor_after]. case_decide as Hn.
  { destruct (newline_shows a Ha) as (o & E & Ho & Hx & Hy). exists o. split; [done|]. intros s. by rewrite Ho, Hx, Hy. }
  destruct Ha as [Hx Hy]. unfold kColumns, kRows in Hx, Hy. set (m := Send (char_message layer_id true (8 + 8 * cursorx a) (28 + 16 * cursory a) 0xffffff c) gui).
  set (b := write_char find_server layer_id 0xffffff c a).
  assert (out (mail b) = out (mail a) ++ [m] /\ cursorx b = cursorx a /\ cursory b = cursory a) as (Eb & Ex & Ey).
  { unfold b, write_char, draws, WinWriteChar, CalcCursorPos, vadd, kTopLeftMargin. rewrite gui_sends. cbn [mail set_mail vx vy out send act cursorx cursory].
    split_and!; [|done|done]. unfold m. do 4 f_equal; lia. }
  assert (omap glyph [m] = [(8 + 8 * cursorx a, 28 + 16 * cursory a, c)]) as Hm by (unfold m; cbn [omap list_omap]; rewrite char_glyph by lia; done).
  replace (kColumns - 1) with 59 by done. rewrite Ex. case_decide as H59.
  - destruct (newline_shows b) as (o & E & Ho & Hx' & Hy'); [unfold cursor_ok, kColumns, kRows; lia|].
    exists ([m] ++ o). rewrite E, Eb, app_assoc. split; [done|]. intros s. rewrite omap_app, Hm, Ho, Hx', Hy', Ey. done.
  - exists [m]. cbn [mail set_cursorx cursorx cursory]. split; [done|]. intros s. by rewrite Hm, Ey.
Qed.

(** A text appears where the reference puts it. *)
Lemma LogPrint_shows s : forall a, cursor_ok a -> Forall (fun c => 0 <= c < 256) s ->
  exists o, out (mail (LogPrint find_server layer_id s a)) = out (mail a) ++ o /\ omap glyph o = layout (cursorx a) (cursory a) s /\
    (cursorx (LogPrint find_server layer_id s a), cursory (LogPrint find_server layer_id s a)) = cursor_after (cursorx a) (cursory a) s /\
    cursor_ok (LogPrint find_server layer_id s a).
Proof.
  induction s as [|c s IH]; intros a Ha Hs.
  - exists []. by rewrite app_nil_r.
  - inversion Hs as [|? ? Hc Hs']; subst. destruct (put_char_shows c a Ha Hc) as (o & E & Hl). destruct (Hl s) as [Hl1 Hl2].
    destruct (IH (LogPrint_char find_server layer_id c a) (put_char_ok _ _ _ _ _ Ha) Hs') as (o' & E' & Ho' & Hcur & Hok).
    exists (o ++ o'). change (LogPrint find_server layer_id (c :: s) a) with (LogPrint find_server layer_id s (LogPrint_char find_server layer_id c a)).
    rewrite E', E, app_assoc, omap_app, Hl1, Hl2, Ho'. done.
Qed.
End shows.

(** ** From the programs to the window *)

Section end_to_end.
Context {Q : Type} `{!PriorityQueue Q}.
Context {Arg : Type} (vsprintf : list Z -> list Arg -> option (list Z)).

(** C: a format without a conversion is the text. *)
Context (Hplain : forall f, 37 ∉ f -> vsprintf f [] = Some f).

Lemma formatted_plain size f : 37 ∉ f -> (length f < size)%nat -> formatted vsprintf size f [] = Some f.
Proof. intros Hf Hl. unfold formatted. rewrite Hplain by done. cbn [mbind option_bind]. by rewrite decide_True. Qed.

(** Programs print one after the other: formats with their arguments. *)
Fixpoint prints (cs : list (list Z * list Arg)) (k : @Kernel Q) : option (@Kernel Q) :=
  match cs with [] => Some k | (f, ap) :: cs' => k' ← PrintLog vsprintf f ap k; prints cs' k' end.
(** What the C library makes of them. *)
Definition texts (cs : list (list Z * list Arg)) (ss : list (list Z)) : Prop := Forall2 (fun c s => vsprintf (fst c) (snd c) = Some s) cs ss.

(** A text that can be printed. *)
Definition printable (s : list Z) : Prop := Forall (fun c => 0 < c < 256 /\ c <> 37) s.

Lemma printable_plain s : printable s -> 37 ∉ s.
Proof. intros H Hin. apply (proj1 (list.Forall_forall _ _) H) in Hin. by destruct Hin. Qed.

Lemma PrintLog_appends f ap s (k : @Kernel Q) : vsprintf f ap = Some s -> printable s -> log_ok (kernel_log k) -> Z.of_nat (length (pending (kernel_log k)) + length s) < log_size ->
  exists l, PrintLog vsprintf f ap k = Some (set_log l k) /\ log_ok l /\ pending l = pending (kernel_log k) ++ s /\ changed l = true.
Proof.
  intros Hf Hp%printable_plain Hok Hl. unfold pending in Hl at 1. rewrite length_ring in Hl.
  destruct (KernelLogWrite_spec s (kernel_log k) Hok Hl) as (l & E & Hok' & Hpend). exists l.
  assert (formatted vsprintf 1024 f ap = Some s) as E0 by (unfold formatted; rewrite Hf; cbn [mbind option_bind]; by rewrite decide_True by (unfold log_size in Hl; lia)).
  unfold PrintLog, WriteKernelLog, printk. rewrite E0. cbn [mbind option_bind fmap option_fmap option_map].
  rewrite (formatted_plain 1024 s) by (done || (unfold log_size in Hl; lia)). cbn [mbind option_bind]. rewrite E. split; [done|]. split; [done|]. split; [done|].
  revert E. unfold KernelLogWrite. destruct (log_put _ _ _) as [[b h]|]; [|done]. by intros [= <-].
Qed.

Lemma prints_append cs : forall ss (k : @Kernel Q), texts cs ss -> Forall printable ss -> log_ok (kernel_log k) -> cs <> [] \/ changed (kernel_log k) = true ->
  Z.of_nat (length (pending (kernel_log k)) + length (concat ss)) < log_size ->
  exists l, prints cs k = Some (set_log l k) /\ log_ok l /\ pending l = pending (kernel_log k) ++ concat ss /\ changed l = true.
Proof.
  induction cs as [|[f ap] cs IH]; intros ss k Ht Hs Hok Hne Hl; inversion Ht as [|? s ? ss' Hf Ht']; subst; cbn [prints concat].
  - destruct Hne as [?|Hc]; [done|]. exists (kernel_log k). rewrite app_nil_r. by destruct k.
  - inversion Hs as [|? ? Hs1 Hss]; subst. cbn [concat] in Hl. rewrite length_app in Hl.
    destruct (PrintLog_appends f ap s k Hf Hs1 Hok) as (l & -> & Hok' & Hp & Hc); [lia|]. cbn [mbind option_bind].
    destruct (IH ss' (set_log l k) Ht' Hss Hok') as (l' & -> & Hok2 & Hp2 & Hc2); [by right|cbn [kernel_log set_log]; rewrite Hp, length_app; lia|].
    exists l'. cbn [kernel_log set_log] in *. rewrite Hp2, Hp, app_assoc. done.
Qed.

Context (find_server : list Z -> Z * Z) (layer_id gui : Z) (Hgui : find_server servers_gui = (gui, 0)).

(** C40. What programs print appears in the window of the log server: the texts of
    their formats and arguments, in the order they printed them, one turn of the
    server writes exactly these characters, each where the text has come to, and
    takes them out of the log, so that the next turn writes nothing. That holds when
    what is pending in the log, the new texts included, is shorter than the 128 bytes
    of the server's buffer and has no percent sign: the texts are the formats of the
    system call and of the server. *)
Theorem log_shown cs ss (k : @Kernel Q) (a : Area) :
  cs <> [] -> texts cs ss -> Forall printable ss -> log_ok (kernel_log k) -> (length (pending (kernel_log k)) + length (concat ss) < 128)%nat ->
  printable (pending (kernel_log k)) -> cursor_ok a ->
  exists k1 k2 a' o, prints cs k = Some k1 /\ log_turn vsprintf find_server layer_id a k1 = Some (a', k2) /\
    out (mail a') = out (mail a) ++ o /\ omap glyph o = layout (cursorx a) (cursory a) (pending (kernel_log k) ++ concat ss) /\
    (cursorx a', cursory a') = cursor_after (cursorx a) (cursory a) (pending (kernel_log k) ++ concat ss) /\ cursor_ok a' /\
    pending (kernel_log k2) = [] /\ log_turn vsprintf find_server layer_id a' k2 = Some (a', k2).
Proof.
  intros Hne Htexts Hs Hok Hlen Hold Ha. destruct (prints_append cs ss k Htexts Hs Hok) as (l & -> & Hok1 & Hp & Hc); [by left|unfold log_size; lia|].
  set (text := pending (kernel_log k) ++ concat ss) in *. assert (length text < 128)%nat as Ht by (unfold text; rewrite length_app; lia).
  assert (printable text) as Hp2 by (apply Forall_app; split; [done|by apply Forall_concat]).
  pose proof (printable_plain _ Hp2) as Hp1.
  destruct (KernelLogRead_spec 128 l Hok1) as (l2 & E & Hok2 & Hp3); [pose proof (length_ring (log_buf l) (KernelLog.head l) (pending_len l)) as E0; fold (pending l) in E0; rewrite Hp in E0; lia|].
  assert (changed l2 = false) as Hc2.
  { revert E. unfold KernelLogRead. destruct (if decide _ then _ else _) as [[[o1 r1] h1]|]; [|done]. cbn [mbind option_bind].
    destruct (read_at _ _ _) as [o2|]; [|done]. cbn [mbind option_bind]. by intros [= _ _ <-]. }
  destruct (LogPrint_shows find_server layer_id gui Hgui text a Ha) as (o & Eo & Ho & Hcur & Hcok).
  { eapply list.Forall_impl; [exact Hp2|]. intros x Hx. cbn in Hx. lia. }
  exists (set_log l k), (set_log l2 k), (LogPrint find_server layer_id text a), o. split; [done|].
  assert (log_turn vsprintf find_server layer_id a (set_log l k) = Some (LogPrint find_server layer_id text a, set_log l2 k)) as Eturn.
  { unfold log_turn, ReadKernelLog. cbn [kernel_log set_log]. rewrite Hc, E, Hp. cbn [mbind option_bind error]. rewrite decide_False by (by intros []).
    rewrite write_at_Some by (rewrite length_replicate; lia). cbn [mbind option_bind].
    assert (splice (replicate 128 0) 0 text = c_chars text ++ replicate (127 - length text) 0) as ->.
    { unfold splice, c_chars. rewrite take_0, drop_replicate, <- app_assoc. cbn [app Nat.add]. f_equal. by replace (128 - length text)%nat with (S (127 - length text)) by lia. }
    rewrite c_str_chars by (eapply list.Forall_impl; [exact Hp2|]; intros x [Hx _]; lia). cbn [mbind option_bind].
    unfold PrintToTerminal. by rewrite formatted_plain. }
  split; [done|]. split; [done|]. split; [done|]. split; [done|]. split; [done|]. split; [done|].
  unfold log_turn, ReadKernelLog. cbn [kernel_log set_log]. by rewrite Hc2.
Qed.
End end_to_end.

(** ** "hi", then "!" on a line of its own, at the lower right corner *)

(** "%s" is its argument; a format without conversions is the text. *)
Definition sample_vsprintf (f : list Z) (ap : list (list Z)) : option (list Z) :=
  if decide (37 ∈ f) then if decide (f = [37; 115]) then head ap else None else Some f.
Definition sample_server (name : list Z) : Z * Z := (2, 0).
Definition sample_kernel : @Kernel SortedTimers := MkKernel sample_tm sample_timers InitialLog [].
Definition sample_prints : list (list Z * list (list Z)) := [([37; 115], [[104; 105]]); ([10; 33], [])].

Lemma log_shown_witness :
  exists k1 k2 a' o, prints sample_vsprintf sample_prints sample_kernel = Some k1 /\
    log_turn sample_vsprintf sample_server 7 (MkArea 59 14 (MkMail [] [])) k1 = Some (a', k2) /\
    out (mail a') = o /\ omap glyph o = [(480, 252, 104); (8, 252, 105); (8, 252, 33)] /\ (cursorx a', cursory a') = (1, 14).
Proof.
  destruct (log_shown sample_vsprintf (fun f Hf => decide_False _ _ Hf) sample_server 7 2 eq_refl sample_prints [[104; 105]; [10; 33]] sample_kernel (MkArea 59 14 (MkMail [] [])))
    as (k1 & k2 & a' & o & E1 & E2 & Eo & Ho & Hc & _).
  - done.
  - repeat constructor; by vm_compute.
  - repeat constructor; done.
  - apply InitialLog_ok.
  - vm_compute. lia.
  - constructor.
  - split; cbn; unfold kColumns, kRows; lia.
  - exists k1, k2, a', o. split_and!; [exact E1|exact E2|exact Eo|rewrite Ho; reflexivity|rewrite Hc; reflexivity].
Defined.
