(* ===== verification/Boot.v ===== *)
(** * The boot loader (kinLoaderPkg/Main.c)

    It reads the kernel into the addresses it is linked for, the volume into memory,
    and leaves the firmware with the final map of the memory. What the firmware
    does is an interface, of which [documented] says what UEFI promises; the memory
    is the one the kernel starts in, without what the firmware keeps for itself: a
    call stores only in the buffers it is given. *)

From S2P Require Import Prelude Bytes FrameBitmap Loader LoadElf GuiGraphics.
From stdpp Require Import base list numbers option.
From Stdlib Require Import ZArith Lia.

Local Open Scope Z_scope.

(** ** The image of the kernel *)

(** The bytes of the physical memory. *)
Definition Memory : Type := Z -> Z.

Definition store_bytes (a : Z) (bs : list Z) (m : Memory) : Memory :=
  fun x => if decide (a <= x) then default (m x) (bs !! Z.to_nat (x - a)) else m x.

Definition MAX_UINT64 : Z := 2 ^ 64 - 1.

(** [k] headers are left from [i] on.
    [src/kinLoaderPkg/Main.c:180-184] [CalcLoadAddressRange] *)
Fixpoint range_loop (file : list Z) (phdr : Z) (k i : nat) (first last : Z) : option (Z * Z) :=
  match k with
  | O => Some (first, last)
  | S k' =>
      p ← read_phdr file phdr i;
      if decide (p_type p <> PT_LOAD) then range_loop file phdr k' (S i) first last
      else range_loop file phdr k' (S i) (Z.min first (p_vaddr p)) (Z.max last (u64 (p_vaddr p + p_memsz p)))
  end.

(** [src/kinLoaderPkg/Main.c:174-185] [CalcLoadAddressRange] *)
Definition CalcLoadAddressRange (file : list Z) : option (Z * Z) :=
  phdr ← GetProgramHeader file;
  phnum ← e_phnum file;
  range_loop file phdr (Z.to_nat phnum) 0 MAX_UINT64 0.

(** The bytes from an address on. *)
Definition bytes_at (m : Memory) (a : Z) (n : nat) : list Z := (fun i => m (a + Z.of_nat i)) <$> seq 0 n.

(** The file is in the [n] bytes at [ehdr]; each header is read there again when it
    is used. A [SetMem] of a negative length fills the whole address space:
    undefined.
    [src/kinLoaderPkg/Main.c:190-196] [CopyLoadSegments] *)
Definition boot_segment (ehdr : Z) (n : nat) (phdr : Z) (i : nat) (m : Memory) : option Memory :=
  p ← read_phdr (bytes_at m ehdr n) phdr i;
  if decide (p_type p <> PT_LOAD) then Some m
  else
    src ← read_at (bytes_at m ehdr n) (Z.to_nat (p_offset p)) (Z.to_nat (p_filesz p));
    let m := store_bytes (p_vaddr p) src m in
    p ← read_phdr (bytes_at m ehdr n) phdr i;
    if decide (p_memsz p < p_filesz p) then None
    else Some (store_bytes (u64 (p_vaddr p + p_filesz p)) (replicate (Z.to_nat (p_memsz p - p_filesz p)) 0) m).

(** The number of headers is read before each turn; a copy that makes it larger
    than it was is left undefined.
    [src/kinLoaderPkg/Main.c:189-197] [CopyLoadSegments] *)
Fixpoint boot_segments (ehdr : Z) (n : nat) (phdr : Z) (turns i : nat) (m : Memory) : option Memory :=
  match turns with
  | O => None
  | S turns' =>
      phnum ← e_phnum (bytes_at m ehdr n);
      if decide (phnum <= Z.of_nat i) then Some m
      else m' ← boot_segment ehdr n phdr i m; boot_segments ehdr n phdr turns' (S i) m'
  end.

(** [src/kinLoaderPkg/Main.c:187-198] [CopyLoadSegments] *)
Definition BootLoadSegments (ehdr : Z) (n : nat) (m : Memory) : option Memory :=
  phdr ← GetProgramHeader (bytes_at m ehdr n);
  phnum ← e_phnum (bytes_at m ehdr n);
  boot_segments ehdr n phdr (S (Z.to_nat phnum)) 0 m.

(** The pages from the first address to the last; the difference is taken in 64 bits.
    [src/kinLoaderPkg/Main.c:361-361] [UefiMain] *)
Definition kernel_pages (first last : Z) : Z := u64 (u64 (last - first) + 0xfff) / 0x1000.

(** ** What is loaded where *)

Lemma store_bytes_at a bs m x : store_bytes a bs m x = if decide (a <= x < a + Z.of_nat (length bs)) then default 0 (bs !! Z.to_nat (x - a)) else m x.
Proof.
  unfold store_bytes. repeat case_decide; try lia; [|by rewrite lookup_ge_None_2 by lia].
  by destruct (lookup_lt_is_Some_2 bs (Z.to_nat (x - a)) ltac:(lia)) as [b ->].
Qed.

(** A segment that can be loaded: its data in the file, no larger there than in memory. *)
Record boot_ok (file : list Z) (p : Phdr) : Prop := {
  bo_vaddr : 0 <= p_vaddr p;
  bo_top : p_vaddr p + p_memsz p < 2 ^ 64;
  bo_size : 0 <= p_filesz p <= p_memsz p;
  bo_offset : 0 <= p_offset p;
  bo_file : p_offset p + p_filesz p <= Z.of_nat (length file);
}.

(** A segment in the memory. *)
Definition placed_in (file : list Z) (m : Memory) (p : Phdr) : Prop := forall j, 0 <= j < p_memsz p -> image file p j = Some (m (p_vaddr p + j)).

(** *** Bytes in memory *)

Lemma length_bytes_at m a n : length (bytes_at m a n) = n.
Proof. unfold bytes_at. by rewrite length_fmap, length_seq. Qed.

Lemma bytes_at_same m m' a n : (forall x, a <= x < a + Z.of_nat n -> m' x = m x) -> bytes_at m' a n = bytes_at m a n.
Proof. intros H. apply list_fmap_ext. intros i j [-> Hj]%lookup_seq. apply H. lia. Qed.

Lemma bytes_at_store m a bs : bytes_at (store_bytes a bs m) a (length bs) = bs.
Proof.
  apply list_eq. intros i. unfold bytes_at. rewrite list_lookup_fmap. destruct (decide (i < length bs)%nat) as [Hi|Hi].
  - rewrite lookup_seq_lt by done. cbn [fmap option_fmap option_map Nat.add]. rewrite store_bytes_at, decide_True by lia.
    replace (Z.to_nat (a + Z.of_nat i - a)) with i by lia. by destruct (lookup_lt_is_Some_2 bs i Hi) as [b ->].
  - rewrite lookup_seq_ge by lia. by rewrite lookup_ge_None_2 by lia.
Qed.

(** The file lies outside the segment. *)
Definition clear_of (ehdr : Z) (n : nat) (p : Phdr) : Prop := forall x, ehdr <= x < ehdr + Z.of_nat n -> ~ in_segment p x.

Lemma boot_segment_spec file ehdr phdr i p m :
  bytes_at m ehdr (length file) = file -> read_phdr file phdr i = Some p -> p_type p = PT_LOAD -> boot_ok file p -> clear_of ehdr (length file) p ->
  exists m', boot_segment ehdr (length file) phdr i m = Some m' /\ bytes_at m' ehdr (length file) = file /\
    placed_in file m' p /\ forall x, ~ in_segment p x -> m' x = m x.
Proof.
  intros Hm Hp Ht [H1 H2 H3 H4 H5] Hc. unfold boot_segment. rewrite Hm, Hp. cbn [mbind option_bind]. rewrite decide_False by (intros ?; done).
  rewrite read_at_Some by lia. cbn [mbind option_bind].
  assert (length (slice file (Z.to_nat (p_offset p)) (Z.to_nat (p_filesz p))) = Z.to_nat (p_filesz p)) as Hl by (apply length_slice; lia).
  assert (forall x, ~ in_segment p x -> store_bytes (p_vaddr p) (slice file (Z.to_nat (p_offset p)) (Z.to_nat (p_filesz p))) m x = m x) as Hs.
  { intros x Hx. unfold in_segment in Hx. by rewrite store_bytes_at, Hl, decide_False by lia. }
  rewrite (bytes_at_same m), Hm, Hp by (intros x Hx; apply Hs, Hc; lia). cbn [mbind option_bind]. rewrite decide_False, u64_small by lia.
  match goal with |- exists m', Some ?m2 = Some m' /\ _ => set (m' := m2) end. exists m'.
  assert (forall x, ~ in_segment p x -> m' x = m x) as Hout.
  { intros x Hx. rewrite <- (Hs x Hx). unfold in_segment in Hx. unfold m'. by rewrite store_bytes_at, length_replicate, decide_False by lia. }
  split; [done|]. split; [|split; [|done]].
  - rewrite (bytes_at_same m); [done|]. intros x Hx. apply Hout, Hc. lia.
  - intros j Hj. unfold image, m'. rewrite !store_bytes_at, length_replicate, Hl. case_decide as Hf.
    + rewrite decide_False, decide_True by lia. replace (p_vaddr p + j - p_vaddr p) with j by lia.
      rewrite lookup_slice, decide_True by lia. replace (Z.to_nat (p_offset p) + Z.to_nat j)%nat with (Z.to_nat (p_offset p + j)) by lia.
      destruct (lookup_lt_is_Some_2 file (Z.to_nat (p_offset p + j)) ltac:(lia)) as [b ->]. done.
    + rewrite decide_True by lia. by rewrite lookup_replicate_2 by lia.
Qed.

(** All segments are in memory afterwards, and nothing else has changed. *)
Lemma boot_segments_spec file ehdr phdr phnum k : e_phnum file = Some phnum -> forall i ps m,
  bytes_at m ehdr (length file) = file -> Z.to_nat phnum = (i + k)%nat ->
  load_segments file phdr k i = Some ps -> Forall (boot_ok file) ps -> ForallOrdPairs disjoint_segments ps -> Forall (clear_of ehdr (length file)) ps ->
  exists m', boot_segments ehdr (length file) phdr (S k) i m = Some m' /\ Forall (placed_in file m') ps /\ forall x, Forall (fun p => ~ in_segment p x) ps -> m' x = m x.
Proof.
  intros Hn. induction k as [|k IH]; intros i ps m Hm Hk Hl Hok Hd Hc.
  { cbn in *. injection Hl as <-. rewrite Hm, Hn. cbn [mbind option_bind]. rewrite decide_True by lia. by exists m. }
  change (boot_segments ehdr (length file) phdr (S (S k)) i m) with
    (phnum ← e_phnum (bytes_at m ehdr (length file)); if decide (phnum <= Z.of_nat i) then Some m
     else m' ← boot_segment ehdr (length file) phdr i m; boot_segments ehdr (length file) phdr (S k) (S i) m').
  rewrite Hm, Hn. cbn [mbind option_bind]. rewrite decide_False by lia. cbn [load_segments] in Hl.
  destruct (read_phdr file phdr i) as [p|] eqn:Ep; [|done]. cbn [mbind option_bind] in *.
  destruct (load_segments file phdr k (S i)) as [qs|] eqn:Eqs; [|done]. cbn [mbind option_bind] in Hl. injection Hl as <-.
  destruct (decide (p_type p = PT_LOAD)) as [Hp|Hp].
  2: { unfold boot_segment. rewrite Hm, Ep. cbn [mbind option_bind]. rewrite decide_True by done. cbn [mbind option_bind]. apply IH; try done. lia. }
  inversion Hok as [|? ? Hpok Hqs]; inversion Hd as [|? ? Hpd Hqd]; inversion Hc as [|? ? Hpc Hqc]; subst.
  destruct (boot_segment_spec file ehdr phdr i p m Hm Ep Hp Hpok Hpc) as (m1 & -> & Hm1 & Hin & Hout). cbn [mbind option_bind].
  destruct (IH (S i) qs m1 Hm1 ltac:(lia) Eqs Hqs Hqd Hqc) as (m2 & -> & Hins & Houts). exists m2. split; [done|]. split.
  - constructor; [|done]. intros j Hj. rewrite Houts; [by apply Hin|]. apply list.Forall_forall. intros q Hq Hqj.
    rewrite list.Forall_forall in Hpd. apply (Hpd q Hq (p_vaddr p + j)). split; [split; lia|done].
  - intros x Hx. inversion Hx; subst. by rewrite Houts, Hout.
Qed.

(** The range is the smallest that holds the segments. *)
Definition in_range (first last : Z) (p : Phdr) : Prop := first <= p_vaddr p /\ p_vaddr p + p_memsz p <= last.

Lemma range_loop_spec file phdr k : forall i ps first last, load_segments file phdr k i = Some ps -> Forall (boot_ok file) ps ->
  exists f l, range_loop file phdr k i first last = Some (f, l) /\ f <= first /\ last <= l /\ Forall (in_range f l) ps /\
    (f = first \/ Exists (fun p => p_vaddr p = f) ps) /\ (l = last \/ Exists (fun p => p_vaddr p + p_memsz p = l) ps).
Proof.
  induction k as [|k IH]; intros i ps first last Hl Hok; cbn [load_segments range_loop] in *.
  { injection Hl as <-. exists first, last. split_and!; [done|lia|lia|done|by left|by left]. }
  destruct (read_phdr file phdr i) as [p|]; [|done]. cbn [mbind option_bind] in *.
  destruct (load_segments file phdr k (S i)) as [qs|] eqn:Eqs; [|done]. cbn [mbind option_bind] in Hl. injection Hl as <-.
  destruct (decide (p_type p = PT_LOAD)) as [Hp|Hp]; [|rewrite decide_True by done; by apply (IH (S i))].
  rewrite decide_False by (intros ?; done). inversion Hok as [|? ? Hpok Hqs]; subst. destruct Hpok as [P1 P2 P3 _ _].
  rewrite u64_small by lia.
  destruct (IH (S i) qs (Z.min first (p_vaddr p)) (Z.max last (p_vaddr p + p_memsz p)) Eqs Hqs) as (f & l & -> & Hf & Hla & Hin & Hf' & Hl').
  exists f, l. split; [done|]. split; [lia|]. split; [lia|]. split; [constructor; [split; lia|done]|]. split.
  - destruct Hf' as [->|?]; [|right; by constructor 2]. destruct (Z.min_spec first (p_vaddr p)) as [[_ ->]|[_ ->]]; [by left|right; by constructor].
  - destruct Hl' as [->|?]; [|right; by constructor 2]. destruct (Z.max_spec last (p_vaddr p + p_memsz p)) as [[_ ->]|[_ ->]]; [right; by constructor|by left].
Qed.

(** The pages hold the range: from [first], at the start of a page, as many as reach to [last]. *)
Lemma kernel_pages_hold first last : 0 <= first <= last -> last - first + 0xfff < 2 ^ 64 ->
  last <= first + kernel_pages first last * 4096 < last + 4096.
Proof. intros H1 H2. unfold kernel_pages. rewrite (u64_small (last - first)), u64_small by lia.
  pose proof (Z.div_mod (last - first + 4095) 4096 ltac:(done)). pose proof (Z.mod_pos_bound (last - first + 4095) 4096 ltac:(done)). lia.
Qed.

(** ** The services of the firmware *)

(** [EFI_STATUS]: the highest bit marks errors. *)
Definition EFI_SUCCESS : Z := 0.
Definition EFI_ERROR (status : Z) : bool := Z.testbit status 63.
Definition EFI_BUFFER_TOO_SMALL : Z := 2 ^ 63 + 5.

Inductive Protocol := LoadedImage | SimpleFileSystem | GraphicsOutput | BlockIo.

(** The kernel receives the descriptors and the key of the map.
    [src/kernel/memory_map.hpp:5-12] [MemoryMap] *)
Record MemoryMap := MkMap { buffer_size : Z; map_descs : list MemoryDescriptor; map_key : Z }.

Record Mode := MkMode { FrameBufferBase : Z; PixelsPerScanLine : Z; HorizontalResolution : Z; VerticalResolution : Z; ModePixelFormat : Z }.
Record Media := MkMedia { MediaId : Z; BlockSize : Z; LastBlock : Z }.

(** What the loader asks of the firmware, in whose state [Fw] its calls may change
    anything; the status comes first. A read gives the bytes it stores in the
    buffer of the caller. *)
Class Firmware (Fw : Type) := {
  fw_memory_map : Z -> Fw -> Fw * (Z * (list MemoryDescriptor * Z));
  fw_open_protocol : Z -> Protocol -> Fw -> Fw * (Z * Z);
  fw_device : Z -> Fw -> Z;
  fw_locate_gop : Fw -> Fw * (Z * list Z);
  fw_mode : Z -> Fw -> Mode;
  fw_media : Z -> Fw -> Media;
  fw_open_volume : Z -> Fw -> Fw * (Z * Z);
  fw_open : Z -> list Z -> Fw -> Fw * (Z * Z);
  fw_write : Z -> list Z -> Fw -> Fw * Z;
  fw_close : Z -> Fw -> Fw * Z;
  fw_file_size : Z -> Fw -> Fw * (Z * Z);
  fw_allocate_pool : Z -> Fw -> Fw * (Z * Z);
  fw_free_pool : Z -> Fw -> Fw * Z;
  fw_read : Z -> Z -> Fw -> Fw * (Z * list Z);
  fw_read_blocks : Z -> Z -> Z -> Fw -> Fw * (Z * list Z);
  fw_allocate_pages : Z -> Z -> Fw -> Fw * Z;
  fw_exit : Z -> Fw -> Fw * Z;
}.

(** How a part of the loader ends: with a result, halted after a message, or undefined. *)
Inductive ended (A : Type) := Done (a : A) | Halted | Undef.
Arguments Done {A} _.
Arguments Halted {A}.
Arguments Undef {A}.

Section loader.
Context {Fw : Type} `{!Firmware Fw}.

(** The state is the firmware and the memory. *)
Definition M (A : Type) : Type := Fw * Memory -> (Fw * Memory) * ended A.
#[local] Instance M_ret : MRet M := fun _ a s => (s, Done a).
#[local] Instance M_bind : MBind M := fun _ _ f m s =>
  match m s with (s', Done a) => f a s' | (s', Halted) => (s', Halted) | (s', Undef) => (s', Undef) end.
Definition call {A : Type} (f : Fw -> Fw * A) : M A := fun s => let '(w, a) := f (fst s) in ((w, snd s), Done a).
Definition ask {A : Type} (f : Fw -> A) : M A := fun s => (s, Done (f (fst s))).
(** [src/kinLoaderPkg/Main.c:169-171] [Halt] *)
Definition Halt {A : Type} : M A := fun s => (s, Halted).
(** An error is reported, and the loader halts. *)
Definition check (status : Z) : M unit := if EFI_ERROR status then Halt else mret tt.
(** A read into the buffer at [a]. *)
Definition call_into (a : Z) (f : Fw -> Fw * (Z * list Z)) : M Z :=
  fun s => let '(w, (status, bs)) := f (fst s) in ((w, store_bytes a bs (snd s)), Done status).
Definition with_memory {A : Type} (f : Memory -> A) : M A := fun s => (s, Done (f (snd s))).
Definition option_M {A : Type} (o : option A) : M A := fun s => (s, match o with Some a => Done a | None => Undef end).

(** The buffer is never null.
    [src/kinLoaderPkg/Main.c:16-26] [GetMemoryMap] *)
Definition GetMemoryMap (map : MemoryMap) : M (MemoryMap * Z) :=
  '(status, (descs, key)) ← call (fw_memory_map (buffer_size map));
  mret (if EFI_ERROR status then map else MkMap (buffer_size map) descs key, status).

(** A line of the file, as the library formats it. *)
Context (line : nat -> MemoryDescriptor -> list Z) (header : list Z).

(** [src/kinLoaderPkg/Main.c:84-100] [SaveMemoryMap] *)
Fixpoint save_lines (file : Z) (i : nat) (descs : list MemoryDescriptor) : M Z :=
  match descs with
  | [] => mret EFI_SUCCESS
  | d :: descs' => status ← call (fw_write file (line i d)); if EFI_ERROR status then mret status else save_lines file (S i) descs'
  end.

(** [src/kinLoaderPkg/Main.c:68-101] [SaveMemoryMap] *)
Definition SaveMemoryMap (map : MemoryMap) (file : Z) : M Z :=
  status ← call (fw_write file header);
  if EFI_ERROR status then mret status else save_lines file 0 (map_descs map).

(** [src/kinLoaderPkg/Main.c:103-123] [OpenRootDir] *)
Definition OpenRootDir (image_handle : Z) : M (Z * Z) :=
  '(status, loaded_image) ← call (fw_open_protocol image_handle LoadedImage);
  if EFI_ERROR status then mret (status, 0)
  else
    device ← ask (fw_device loaded_image);
    '(status, fs) ← call (fw_open_protocol device SimpleFileSystem);
    if EFI_ERROR status then mret (status, 0) else call (fw_open_volume fs).

(** [src/kinLoaderPkg/Main.c:127-150] [OpenGOP] *)
Definition OpenGOP (image_handle : Z) : M (Z * Z) :=
  '(status, gop_handles) ← call fw_locate_gop;
  if EFI_ERROR status then mret (status, 0)
  else
    handle ← option_M (gop_handles !! 0%nat);
    '(status, gop) ← call (fw_open_protocol handle GraphicsOutput);
    if EFI_ERROR status then mret (status, 0)
    else _ ← call (fw_free_pool 0); mret (EFI_SUCCESS, gop).

(** The status and the buffer.
    [src/kinLoaderPkg/Main.c:200-220] [ReadFile] *)
Definition ReadFile (file : Z) : M (Z * Z) :=
  '(status, file_size) ← call (fw_file_size file);
  if EFI_ERROR status then mret (status, 0)
  else
    '(status, buffer) ← call (fw_allocate_pool file_size);
    if EFI_ERROR status then mret (status, buffer)
    else status ← call_into buffer (fw_read file file_size); mret (status, buffer).

(** [src/kinLoaderPkg/Main.c:222-239] [OpenBlockIoProtocolForLoadedImage] *)
Definition OpenBlockIoProtocolForLoadedImage (image_handle : Z) : M (Z * Z) :=
  '(status, loaded_image) ← call (fw_open_protocol image_handle LoadedImage);
  if EFI_ERROR status then mret (status, 0)
  else device ← ask (fw_device loaded_image); call (fw_open_protocol device BlockIo).

(** [src/kinLoaderPkg/Main.c:241-253] [ReadBlocks] *)
Definition ReadBlocks (block_io media_id read_bytes : Z) : M (Z * Z) :=
  '(status, buffer) ← call (fw_allocate_pool read_bytes);
  if EFI_ERROR status then mret (status, buffer)
  else status ← call_into buffer (fw_read_blocks block_io media_id read_bytes); mret (status, buffer).

(** ** The loader *)

(** [src/kernel/frame_buffer_config.hpp:10-16] [FrameBufferConfig] *)
Record Config := MkConfig { cfg_frame_buffer : Z; cfg_pixels_per_scan_line : Z; cfg_horizontal : Z; cfg_vertical : Z; cfg_pixel_format : PixelFormat }.

(** What the kernel is entered with. *)
Record Start := MkStart { entry_addr : Z; config : Config; memmap : MemoryMap; acpi_table : Z; volume_image : Z }.

(** The names of the files: "\memmap", "\kernel.elf", "\fat_disk". *)
Context (name_memmap name_kernel name_fat_disk : list Z).
(** The table of the system with its identifiers. *)
Context (tables : list (Z * Z)) (acpi_guid image_handle : Z).

Definition modify_memory (f : Memory -> option Memory) : M unit :=
  fun s => match f (snd s) with Some m => ((fst s, m), Done tt) | None => (s, Undef) end.

(** [src/kinLoaderPkg/Main.c:289-307] [UefiMain] *)
Definition write_map (root_dir : Z) (map : MemoryMap) : M unit :=
  '(status, memmap_file) ← call (fw_open root_dir name_memmap);
  if EFI_ERROR status then mret tt
  else
    status ← SaveMemoryMap map memmap_file;
    _ ← check status;
    status ← call (fw_close memmap_file);
    check status.

(** The first address of the kernel. The buffer is as large as the file is said to
    be; what of it the read does not fill stays as it was.
    [src/kinLoaderPkg/Main.c:321-377] [UefiMain] *)
Definition load_kernel (root_dir : Z) : M Z :=
  '(status, kernel_file) ← call (fw_open root_dir name_kernel);
  _ ← check status;
  '(status, kernel_file_size) ← call (fw_file_size kernel_file);
  _ ← check status;
  '(status, kernel_buffer) ← call (fw_allocate_pool kernel_file_size);
  _ ← check status;
  status ← call_into kernel_buffer (fw_read kernel_file kernel_file_size);
  _ ← check status;
  let n := Z.to_nat kernel_file_size in
  range ← with_memory (fun m => CalcLoadAddressRange (bytes_at m kernel_buffer n));
  '(kernel_first_addr, kernel_last_addr) ← option_M range;
  status ← call (fw_allocate_pages (kernel_pages kernel_first_addr kernel_last_addr) kernel_first_addr);
  _ ← check status;
  _ ← modify_memory (BootLoadSegments kernel_buffer n);
  status ← call (fw_free_pool kernel_buffer);
  _ ← check status;
  mret kernel_first_addr.

(** At most 32 MiB of a volume.
    [src/kinLoaderPkg/Main.c:399-402] [UefiMain] *)
Definition volume_bytes (media : Media) : Z := Z.min (u64 (BlockSize media * (LastBlock media + 1))) (32 * 1024 * 1024).

(** [src/kinLoaderPkg/Main.c:379-416] [UefiMain] *)
Definition read_volume (root_dir : Z) : M Z :=
  '(status, volume_file) ← call (fw_open root_dir name_fat_disk);
  if decide (status = EFI_SUCCESS) then
    '(status, image) ← ReadFile volume_file;
    _ ← check status; mret image
  else
    '(status, block_io) ← OpenBlockIoProtocolForLoadedImage image_handle;
    _ ← check status;
    media ← ask (fw_media block_io);
    '(status, image) ← ReadBlocks block_io (MediaId media) (volume_bytes media);
    _ ← check status; mret image.

(** When the key is not that of the current map, the map is fetched again.
    [src/kinLoaderPkg/Main.c:418-430] [UefiMain] *)
Definition leave_firmware (map : MemoryMap) : M MemoryMap :=
  status ← call (fw_exit (map_key map));
  if EFI_ERROR status then
    '(map, status) ← GetMemoryMap map;
    _ ← check status;
    status ← call (fw_exit (map_key map));
    _ ← check status;
    mret map
  else mret map.

(** Another format is reported with a service of the firmware, which has been left:
    undefined.
    [src/kinLoaderPkg/Main.c:438-449] [UefiMain] *)
Definition pixel_format_of (f : Z) : M PixelFormat :=
  if decide (f = 0) then mret kPixelRGBResv8BitPerColor
  else if decide (f = 1) then mret kPixelBGRResv8BitPerColor else option_M None.

(** [src/kinLoaderPkg/Main.c:451-458] [UefiMain] *)
Definition find_acpi : Z := default 0 (snd <$> List.find (fun t => fst t =? acpi_guid) tables).

(** The eight bytes at an address. *)
Definition word_at (m : Memory) (a : Z) : Z := le_num (bytes_at m a 8).

(** How the kernel is entered.
    [src/kinLoaderPkg/Main.c:255-468] [UefiMain] *)
Definition UefiMain : M Start :=
  '(map, status) ← GetMemoryMap (MkMap (4096 * 4) [] 0);
  _ ← check status;
  '(status, root_dir) ← OpenRootDir image_handle;
  _ ← check status;
  _ ← write_map root_dir map;
  '(status, gop) ← OpenGOP image_handle;
  _ ← check status;
  kernel_first_addr ← load_kernel root_dir;
  image ← read_volume root_dir;
  map ← leave_firmware map;
  entry ← with_memory (fun m => word_at m (kernel_first_addr + 24));
  mode ← ask (fw_mode gop);
  format ← pixel_format_of (ModePixelFormat mode);
  mret (MkStart entry (MkConfig (FrameBufferBase mode) (PixelsPerScanLine mode) (HorizontalResolution mode) (VerticalResolution mode) format)
    map find_acpi image).

(** ** What the firmware promises *)

Definition apart (a n b k : Z) : Prop := forall x, ~ (a <= x < a + n /\ b <= x < b + k).

(** Any call but those that give or take back memory. *)
Inductive other_call (w w' : Fw) : Prop :=
  | call_protocol h p r : fw_open_protocol h p w = (w', r) -> other_call w w'
  | call_open d name r : fw_open d name w = (w', r) -> other_call w w'
  | call_size h r : fw_file_size h w = (w', r) -> other_call w w'
  | call_read h n r : fw_read h n w = (w', r) -> other_call w w'
  | call_blocks b i n r : fw_read_blocks b i n w = (w', r) -> other_call w w'.

(** [contents] and [position] of an open file, the bytes of a [device], the memory
    [allocated] to the loader, and the current map with its key. A file is opened
    at its start; a read gives the bytes from the position on, at most as many as
    asked for; allocated memory is not given out again before it is freed; the map
    given is the current one, and services end with its key only. *)
Record documented (contents : Z -> Fw -> list Z) (position : Z -> Fw -> nat) (device : Z -> Fw -> list Z)
    (allocated : Fw -> Z -> Z -> Prop) (current_map : Fw -> list MemoryDescriptor) (current_key : Fw -> Z) : Prop := {
  doc_open dir name w w' st h : fw_open dir name w = (w', (st, h)) -> EFI_ERROR st = false -> position h w' = 0%nat;
  doc_size h w w' st n : fw_file_size h w = (w', (st, n)) -> EFI_ERROR st = false ->
    n = Z.of_nat (length (contents h w)) /\ contents h w' = contents h w /\ position h w' = position h w;
  doc_read h n w w' st bs : fw_read h n w = (w', (st, bs)) -> EFI_ERROR st = false ->
    bs = take (Z.to_nat n) (drop (position h w) (contents h w));
  doc_blocks b i n w w' st bs : fw_read_blocks b i n w = (w', (st, bs)) -> EFI_ERROR st = false ->
    bs = take (Z.to_nat n) (device b w) /\ n <= Z.of_nat (length (device b w));
  doc_pool n w w' st a : fw_allocate_pool n w = (w', (st, a)) -> EFI_ERROR st = false ->
    allocated w' a n /\ (forall b k, allocated w b k -> allocated w' b k /\ apart a n b k) /\
    forall h, contents h w' = contents h w /\ position h w' = position h w;
  doc_pages n a w w' st : fw_allocate_pages n a w = (w', st) -> EFI_ERROR st = false ->
    allocated w' a (n * 4096) /\ forall b k, allocated w b k -> allocated w' b k /\ apart a (n * 4096) b k;
  doc_free a w w' st b k : fw_free_pool a w = (w', st) -> allocated w b k -> b <> a -> allocated w' b k;
  doc_kept w w' b k : other_call w w' -> allocated w b k -> allocated w' b k;
  doc_gop w w' st hs : fw_locate_gop w = (w', (st, hs)) -> EFI_ERROR st = false -> hs <> [];
  doc_map size w w' st ds key : fw_memory_map size w = (w', (st, (ds, key))) -> EFI_ERROR st = false ->
    ds = current_map w' /\ key = current_key w';
  doc_exit key w w' st : fw_exit key w = (w', st) -> EFI_ERROR st = false -> key = current_key w;
  doc_key w1 w2 : current_key w1 = current_key w2 -> current_map w1 = current_map w2;
}.

(** ** Runs *)

(** The part is never undefined, and [Q] holds when it ends with a result. *)
Definition wp {A : Type} (m : M A) (Q : A -> Fw * Memory -> Prop) (s : Fw * Memory) : Prop :=
  match m s with (s', Done a) => Q a s' | (_, Halted) => True | (_, Undef) => False end.

Lemma wp_bind {A B : Type} (m : M A) (f : A -> M B) Q s : wp m (fun a => wp (f a) Q) s -> wp (a ← m; f a) Q s.
Proof. unfold wp, mbind, M_bind. by destruct (m s) as [s1 [a| |]]. Qed.
Lemma wp_mono {A : Type} (m : M A) (Q Q' : A -> Fw * Memory -> Prop) s : wp m Q s -> (forall a s', Q a s' -> Q' a s') -> wp m Q' s.
Proof. unfold wp. destruct (m s) as [s1 [a| |]]; auto. Qed.
Lemma wp_call {A B : Type} (f : Fw -> Fw * A) (g : A -> M B) Q w m :
  (forall w' a, f w = (w', a) -> wp (g a) Q (w', m)) -> wp (a ← call f; g a) Q (w, m).
Proof. unfold wp, mbind, M_bind, call. cbn [fst snd]. destruct (f w) as [w' a]. intros H. exact (H _ _ eq_refl). Qed.
Lemma wp_ask {A B : Type} (f : Fw -> A) (g : A -> M B) Q w m : wp (g (f w)) Q (w, m) -> wp (a ← ask f; g a) Q (w, m).
Proof. done. Qed.
Lemma wp_last {A : Type} (f : Fw -> Fw * A) Q w m : (forall w' a, f w = (w', a) -> Q a (w', m)) -> wp (call f) Q (w, m).
Proof. unfold wp, call. cbn [fst snd]. destruct (f w) as [w' a]. intros H. exact (H _ _ eq_refl). Qed.
Lemma wp_into {B : Type} a f (g : Z -> M B) Q w m :
  (forall w' st bs, f w = (w', (st, bs)) -> wp (g st) Q (w', store_bytes a bs m)) -> wp (st ← call_into a f; g st) Q (w, m).
Proof. unfold wp, mbind, M_bind, call_into. cbn [fst snd]. destruct (f w) as [w' [st bs]]. intros H. exact (H _ _ _ eq_refl). Qed.
Lemma wp_check {B : Type} status (g : unit -> M B) Q s : (EFI_ERROR status = false -> wp (g tt) Q s) -> wp (u ← check status; g u) Q s.
Proof. unfold wp, mbind, M_bind, check. destruct (EFI_ERROR status); [done|]. intros H. by apply H. Qed.
Lemma wp_some {A B : Type} (o : option A) a (g : A -> M B) Q s : o = Some a -> wp (g a) Q s -> wp (a ← option_M o; g a) Q s.
Proof. by intros ->. Qed.
Lemma wp_modify {B : Type} f m' (g : unit -> M B) Q w m : f m = Some m' -> wp (g tt) Q (w, m') -> wp (u ← modify_memory f; g u) Q (w, m).
Proof. unfold wp, mbind, M_bind, modify_memory. cbn [fst snd]. by intros ->. Qed.

(** *** Parts that leave the memory as it is *)

Definition keeps {A : Type} (m : M A) : Prop := forall s, wp m (fun _ s' => snd s' = snd s) s.

Lemma keeps_bind {A B : Type} (m : M A) (f : A -> M B) : keeps m -> (forall a, keeps (f a)) -> keeps (a ← m; f a).
Proof. intros Hm Hf s. apply wp_bind. eapply wp_mono; [apply Hm|]. intros a s1 <-. apply Hf. Qed.
Lemma keeps_ret {A : Type} (a : A) : keeps (mret a).
Proof. by intros s. Qed.
Lemma keeps_call {A : Type} (f : Fw -> Fw * A) : keeps (call f).
Proof. intros s. unfold wp, call. by destruct (f (fst s)). Qed.
Lemma keeps_ask {A : Type} (f : Fw -> A) : keeps (ask f).
Proof. by intros s. Qed.
Lemma keeps_check status : keeps (check status).
Proof. intros s. unfold wp, check. by destruct (EFI_ERROR status). Qed.

Ltac keeps := repeat first
  [ apply keeps_bind; [|intros ?] | apply keeps_ret | apply keeps_call | apply keeps_ask | apply keeps_check
  | match goal with |- keeps (let '(_, _) := ?x in _) => destruct x | |- keeps (if ?b then _ else _) => destruct b end ].

Lemma save_lines_keeps file descs : forall i, keeps (save_lines file i descs).
Proof. induction descs as [|d descs IH]; intros i; cbn [save_lines]; keeps. apply IH. Qed.
Lemma write_map_keeps root map : keeps (write_map root map).
Proof. unfold write_map, SaveMemoryMap. keeps. apply save_lines_keeps. Qed.
Lemma OpenRootDir_keeps h : keeps (OpenRootDir h).
Proof. unfold OpenRootDir. keeps. Qed.

(** ** The kernel that starts *)

(** A kernel that can be loaded: the first of its segments begins with the header
    of the file. *)
Record bootable (file : list Z) (ps : list Phdr) : Prop := {
  bt_segments : exists phoff phnum, e_phoff file = Some phoff /\ e_phnum file = Some phnum /\ load_segments file phoff (Z.to_nat phnum) 0 = Some ps;
  bt_ok : Forall (boot_ok file) ps;
  bt_disjoint : ForallOrdPairs disjoint_segments ps;
  bt_header : Exists (fun p => p_offset p = 0 /\ 32 <= p_filesz p /\ Forall (fun q => p_vaddr p <= p_vaddr q) ps) ps;
  bt_low : Forall (fun p => p_vaddr p + p_memsz p < 2 ^ 63) ps;
}.

Lemma bootable_range file ps : bootable file ps -> exists first last, CalcLoadAddressRange file = Some (first, last) /\
  0 <= first <= last /\ last < 2 ^ 63 /\ Forall (in_range first last) ps /\
  exists p, p ∈ ps /\ p_vaddr p = first /\ p_offset p = 0 /\ 32 <= p_filesz p.
Proof.
  intros [(phoff & phnum & E1 & E2 & Hl) Hok _ Hh Hlow]. unfold CalcLoadAddressRange, GetProgramHeader. rewrite E1, E2. cbn [mbind option_bind].
  destruct (range_loop_spec file phoff (Z.to_nat phnum) 0 ps MAX_UINT64 0 Hl Hok) as (f & l & -> & Hf & Hl0 & Hin & Hf' & Hl').
  apply list.Exists_exists in Hh as (p & Hp & Ho & Hsz & Hmin). exists f, l. split; [done|].
  rewrite !list.Forall_forall in Hin, Hmin, Hlow, Hok. pose proof (Hin p Hp) as [Hp1 Hp2]. pose proof (bo_vaddr _ _ (Hok p Hp)). pose proof (Hlow p Hp).
  pose proof (bo_size _ _ (Hok p Hp)).
  assert (p_vaddr p = f) as Hpf.
  { destruct Hf' as [->|(q & Hq & Hqf)%list.Exists_exists]; [unfold MAX_UINT64 in *; lia|]. pose proof (Hmin q Hq). lia. }
  split; [lia|]. split.
  { destruct Hl' as [->|(q & Hq & Hql)%list.Exists_exists]; [done|]. rewrite <- Hql. by apply Hlow. }
  split; [by apply list.Forall_forall|]. by exists p.
Qed.

(** The entry point is read from the header where it has been loaded. *)
Lemma entry_loaded file m p : boot_ok file p -> placed_in file m p -> p_offset p = 0 -> 32 <= p_filesz p -> e_entry file = Some (word_at m (p_vaddr p + 24)).
Proof.
  intros Hok Hin Ho Hsz. pose proof (bo_size _ _ Hok). pose proof (bo_file _ _ Hok). unfold e_entry, file_field. rewrite decide_True by lia.
  rewrite read_at_Some by lia. cbn [mbind option_bind]. f_equal. unfold word_at, bytes_at. f_equal. apply list_eq. intros i. rewrite lookup_slice, list_lookup_fmap.
  case_decide as Hi.
  - rewrite lookup_seq_lt by lia. cbn [fmap option_fmap option_map Nat.add]. pose proof (Hin (24 + Z.of_nat i) ltac:(lia)) as Hb. unfold image in Hb.
    rewrite decide_True, Ho in Hb by lia. rewrite <- Z.add_assoc, <- Hb. f_equal. lia.
  - by rewrite lookup_seq_ge by lia.
Qed.

(** ** A firmware as documented *)

Section run.
Context {contents : Z -> Fw -> list Z} {position : Z -> Fw -> nat} {device : Z -> Fw -> list Z}.
Context {allocated : Fw -> Z -> Z -> Prop} {current_map : Fw -> list MemoryDescriptor} {current_key : Fw -> Z}.
Hypothesis doc : documented contents position device allocated current_map current_key.

Lemma OpenGOP_keeps h : keeps (OpenGOP h).
Proof.
  intros [w m]. unfold OpenGOP. apply wp_call. intros w1 [st hs] E. destruct (EFI_ERROR st) eqn:C; [done|].
  destruct hs as [|x hs]; [by destruct (doc_gop _ _ _ _ _ _ doc _ _ _ _ E C)|]. eapply wp_some; [done|].
  apply wp_call. intros w2 [st2 gop] _. destruct (EFI_ERROR st2); [done|]. by apply wp_call.
Qed.

(** A map that has been the current one. *)
Definition genuine (map : MemoryMap) : Prop := exists w, map_descs map = current_map w /\ map_key map = current_key w.

Lemma GetMemoryMap_wp map w m :
  wp (GetMemoryMap map) (fun r s' => snd s' = m /\ (EFI_ERROR (snd r) = false -> genuine (fst r))) (w, m).
Proof.
  unfold GetMemoryMap. apply wp_call. intros w1 [st [ds key]] E. split; [done|]. cbn [fst snd]. intros C. rewrite C.
  destruct (doc_map _ _ _ _ _ _ doc _ _ _ _ _ _ E C) as [-> ->]. by exists w1.
Qed.

(** The firmware has been left with the map. *)
Definition left_with (map : MemoryMap) (w' : Fw) : Prop :=
  exists w st, fw_exit (map_key map) w = (w', st) /\ EFI_ERROR st = false /\ map_descs map = current_map w.

Lemma exit_genuine map w w' st : genuine map -> fw_exit (map_key map) w = (w', st) -> EFI_ERROR st = false -> left_with map w'.
Proof.
  intros (w0 & Hd & Hk) E C. exists w, st. split; [done|]. split; [done|]. rewrite Hd. apply (doc_key _ _ _ _ _ _ doc).
  rewrite <- Hk. by eapply (doc_exit _ _ _ _ _ _ doc).
Qed.

Lemma leave_firmware_wp map w m : genuine map -> wp (leave_firmware map) (fun map' s' => snd s' = m /\ left_with map' (fst s')) (w, m).
Proof.
  intros Hg. unfold leave_firmware. apply wp_call. intros w1 st E. destruct (EFI_ERROR st) eqn:C.
  - apply wp_bind. eapply wp_mono; [apply GetMemoryMap_wp|]. intros [map2 st2] [w2 m2] [Hm H2]. cbn [fst snd] in Hm, H2. subst m2.
    apply wp_check. intros C2. apply wp_call. intros w3 st3 E3. apply wp_check. intros C3. split; [done|].
    exact (exit_genuine _ _ _ _ (H2 C2) E3 C3).
  - split; [done|]. by eapply exit_genuine.
Qed.

(** *** The kernel *)

Context (kernel : list Z) (ps : list Phdr).
Hypothesis boots : bootable kernel ps.
Hypothesis doc_kernel : forall dir w w' st h, fw_open dir name_kernel w = (w', (st, h)) -> EFI_ERROR st = false -> contents h w' = kernel.

(** Outside the segments. *)
Definition outside (x : Z) : Prop := Forall (fun p => ~ in_segment p x) ps.

(** The pages given by the firmware hold the segments. *)
Definition pages_given (first n : Z) : Prop :=
  (exists w w' st, fw_allocate_pages n first w = (w', st) /\ EFI_ERROR st = false) /\
  Forall (fun p => first <= p_vaddr p /\ p_vaddr p + p_memsz p <= first + n * 4096) ps.
(** A buffer given by the firmware. *)
Definition buffer_given (a n : Z) : Prop := exists w w' st, fw_allocate_pool n w = (w', (st, a)) /\ EFI_ERROR st = false.

Record kernel_loaded (m m' : Memory) (w' : Fw) (first n buffer : Z) : Prop := {
  kl_segments : Forall (placed_in kernel m') ps;
  kl_pages : pages_given first n;
  kl_size : 32 <= n * 4096;
  kl_allocated : allocated w' first (n * 4096);
  kl_buffer : buffer_given buffer (Z.of_nat (length kernel));
  kl_rest x : outside x -> ~ (buffer <= x < buffer + Z.of_nat (length kernel)) -> m' x = m x;
  kl_entry : e_entry kernel = Some (word_at m' (first + 24));
}.

Lemma segments_stored file ehdr m : bytes_at m ehdr (length file) = file -> bootable file ps -> Forall (clear_of ehdr (length file)) ps ->
  exists m', BootLoadSegments ehdr (length file) m = Some m' /\ Forall (placed_in file m') ps /\ forall x, outside x -> m' x = m x.
Proof.
  intros Hm [(phoff & phnum & E1 & E2 & Hl) Hok Hdis _ _] Hc. unfold BootLoadSegments, GetProgramHeader. rewrite Hm, E1, E2. cbn [mbind option_bind].
  exact (boot_segments_spec file ehdr phoff phnum _ E2 0 ps m Hm eq_refl Hl Hok Hdis Hc).
Qed.

Lemma load_kernel_wp root w m : wp (load_kernel root) (fun first s' => exists n buffer, kernel_loaded m (snd s') (fst s') first n buffer) (w, m).
Proof.
  unfold load_kernel. apply wp_call. intros w1 [st1 h] E1. apply wp_check. intros C1.
  pose proof (doc_kernel _ _ _ _ _ E1 C1) as Hk1. pose proof (doc_open _ _ _ _ _ _ doc _ _ _ _ _ _ E1 C1) as Hp1.
  apply wp_call. intros w2 [st2 size] E2. apply wp_check. intros C2. destruct (doc_size _ _ _ _ _ _ doc _ _ _ _ _ E2 C2) as (-> & Hk2 & Hp2).
  apply wp_call. intros w3 [st3 kb] E3. apply wp_check. intros C3. destruct (doc_pool _ _ _ _ _ _ doc _ _ _ _ _ E3 C3) as (A3 & _ & Hk3).
  destruct (Hk3 h) as [Hk3' Hp3]. rewrite Hk1 in *. apply wp_into. intros w4 st4 bs E4. apply wp_check. intros C4.
  pose proof (doc_read _ _ _ _ _ _ doc _ _ _ _ _ _ E4 C4) as Hbs. rewrite Hk3', Hk2, Hp3, Hp2, Hp1, drop_0, Nat2Z.id, firstn_all in Hbs. subst bs.
  pose proof (doc_kept _ _ _ _ _ _ doc _ _ _ _ (call_read _ _ _ _ _ E4) A3) as A4. rewrite Nat2Z.id.
  destruct (bootable_range kernel ps boots) as (first & last & Er & Hfl & Hl63 & Hin & p & Hp & Hpv & Hpo & Hps).
  pose proof (bytes_at_store m kb kernel) as Hb. set (m1 := store_bytes kb kernel m) in *.
  apply wp_bind. unfold wp at 1, with_memory. cbn [fst snd]. rewrite Hb, Er. eapply wp_some; [done|]. cbn [fst snd].
  apply wp_call. intros w5 st5 E5. apply wp_check. intros C5. destruct (doc_pages _ _ _ _ _ _ doc _ _ _ _ _ E5 C5) as [A5 K5].
  destruct (K5 _ _ A4) as [_ Hap]. pose proof (kernel_pages_hold first last Hfl ltac:(lia)) as Hpages.
  destruct (segments_stored kernel kb m1 Hb boots) as (m2 & E6 & Hpl & Hout).
  { eapply list.Forall_impl; [exact Hin|]. intros q [Hq1 Hq2] x Hx Hxq. apply (Hap x). unfold in_segment in Hxq. lia. }
  eapply wp_modify; [exact E6|]. apply wp_call. intros w7 st7 E7. apply wp_check. intros C7. exists (kernel_pages first last), kb.
  rewrite list.Forall_forall in Hin. pose proof (Hin p Hp) as [Hp1' Hp2'].
  pose proof (list.Forall_forall (boot_ok kernel) ps) as [Hok _]. pose proof (Hok (bt_ok _ _ boots) p Hp) as Hpok. pose proof (bo_size _ _ Hpok). pose proof (bo_file _ _ Hpok).
  split; try done.
  - split; [by eexists _, _, _|]. apply list.Forall_forall. intros q Hq. destruct (Hin q Hq). lia.
  - lia.
  - cbn [fst]. apply (doc_free _ _ _ _ _ _ doc _ _ _ _ _ _ E7 A5). intros ->. apply (Hap kb). lia.
  - by eexists _, _, _.
  - intros x Hx Hn. cbn [snd]. rewrite Hout by done. unfold m1. by rewrite store_bytes_at, decide_False.
  - cbn [snd]. rewrite <- Hpv. apply (entry_loaded kernel m2 p); try done. rewrite list.Forall_forall in Hpl. by apply Hpl.
Qed.

(** *** The volume *)

(** The whole file of the volume, or the first bytes of the device. *)
Definition volume_source (bs : list Z) : Prop :=
  (exists dir h w w', fw_open dir name_fat_disk w = (w', (EFI_SUCCESS, h)) /\ bs = contents h w') \/
  (exists b w w', bs = take (Z.to_nat (volume_bytes (fw_media b w))) (device b w')).

Record volume_loaded (m m' : Memory) (first n v : Z) (bs : list Z) : Prop := {
  vl_source : volume_source bs;
  vl_bytes : bytes_at m' v (length bs) = bs;
  vl_buffer : buffer_given v (Z.of_nat (length bs));
  vl_apart : apart v (Z.of_nat (length bs)) first (n * 4096);
  vl_rest x : ~ (v <= x < v + Z.of_nat (length bs)) -> m' x = m x;
}.

(** A buffer of the size of the data read. *)
Lemma stored_volume m first n v bs : volume_source bs -> buffer_given v (Z.of_nat (length bs)) -> apart v (Z.of_nat (length bs)) first (n * 4096) ->
  volume_loaded m (store_bytes v bs m) first n v bs.
Proof. intros H1 H2 H3. split; try done; [apply bytes_at_store|]. intros x Hx. by rewrite store_bytes_at, decide_False. Qed.

Lemma volume_bytes_pos media : 0 <= volume_bytes media.
Proof. unfold volume_bytes. pose proof (u64_range (BlockSize media * (LastBlock media + 1))). lia. Qed.

Lemma read_volume_wp root w m first n : allocated w first (n * 4096) ->
  wp (read_volume root) (fun v s' => exists bs, volume_loaded m (snd s') first n v bs) (w, m).
Proof.
  intros A. unfold read_volume. apply wp_call. intros w1 [st1 h] E1. pose proof (doc_kept _ _ _ _ _ _ doc _ _ _ _ (call_open _ _ _ _ _ E1) A) as A1.
  case_decide as C1.
  - subst st1. apply wp_bind. unfold ReadFile. apply wp_call. intros w2 [st2 size] E2.
    pose proof (doc_kept _ _ _ _ _ _ doc _ _ _ _ (call_size _ _ _ _ E2) A1) as A2. destruct (EFI_ERROR st2) eqn:C2; [apply wp_check; intros ?; congruence|].
    destruct (doc_size _ _ _ _ _ _ doc _ _ _ _ _ E2 C2) as (-> & Hk2 & Hp2). apply wp_call. intros w3 [st3 v] E3.
    destruct (EFI_ERROR st3) eqn:C3; [apply wp_check; intros ?; congruence|]. destruct (doc_pool _ _ _ _ _ _ doc _ _ _ _ _ E3 C3) as (_ & K3 & Hk3).
    destruct (K3 _ _ A2) as [_ Hap]. destruct (Hk3 h) as [Hk Hp]. apply wp_into. intros w4 st4 bs E4. apply wp_check. intros C4. exists bs.
    pose proof (doc_read _ _ _ _ _ _ doc _ _ _ _ _ _ E4 C4) as Hbs. rewrite Hp, Hp2, (doc_open _ _ _ _ _ _ doc _ _ _ _ _ _ E1 eq_refl), drop_0, Hk, Hk2, Nat2Z.id, firstn_all in Hbs.
    subst bs. apply stored_volume; [left; by eexists _, _, _, _|by eexists _, _, _|done].
  - apply wp_bind. unfold OpenBlockIoProtocolForLoadedImage. apply wp_call. intros w2 [st2 li] E2.
    pose proof (doc_kept _ _ _ _ _ _ doc _ _ _ _ (call_protocol _ _ _ _ _ E2) A1) as A2. destruct (EFI_ERROR st2) eqn:C2; [apply wp_check; intros ?; congruence|].
    apply wp_ask, wp_last. intros w3 [st3 b] E3. pose proof (doc_kept _ _ _ _ _ _ doc _ _ _ _ (call_protocol _ _ _ _ _ E3) A2) as A3.
    apply wp_check. intros C3. apply wp_ask, wp_bind. unfold ReadBlocks. apply wp_call. intros w4 [st4 v] E4.
    destruct (EFI_ERROR st4) eqn:C4; [apply wp_check; intros ?; congruence|]. destruct (doc_pool _ _ _ _ _ _ doc _ _ _ _ _ E4 C4) as (_ & K4 & _).
    destruct (K4 _ _ A3) as [_ Hap]. apply wp_into. intros w5 st5 bs E5. apply wp_check. intros C5. exists bs.
    destruct (doc_blocks _ _ _ _ _ _ doc _ _ _ _ _ _ _ E5 C5) as [Hbs Hlen]. pose proof (volume_bytes_pos (fw_media b w3)).
    assert (volume_bytes (fw_media b w3) = Z.of_nat (length bs)) as Hn by (subst bs; rewrite length_take; lia).
    rewrite Hn in E4, Hap. apply stored_volume; [right; by eexists _, _, _|by eexists _, _, _|done].
Qed.

(** *** The whole loader *)

(** What the kernel is entered with. *)
Record enters (m m' : Memory) (w' : Fw) (st : Start) : Prop := {
  en_segments : Forall (placed_in kernel m') ps;
  en_pages : exists first n, pages_given first n;
  en_entry : e_entry kernel = Some (entry_addr st);
  en_volume : exists buffer image, buffer_given buffer (Z.of_nat (length kernel)) /\
    buffer_given (volume_image st) (Z.of_nat (length image)) /\ volume_source image /\
    bytes_at m' (volume_image st) (length image) = image /\
    forall x, outside x -> ~ (buffer <= x < buffer + Z.of_nat (length kernel)) ->
      ~ (volume_image st <= x < volume_image st + Z.of_nat (length image)) -> m' x = m x;
  en_map : left_with (memmap st) w';
}.

Lemma loaded_enters m m1 m2 w1 w2 first n buffer v bs map config acpi :
  kernel_loaded m m1 w1 first n buffer -> volume_loaded m1 m2 first n v bs -> left_with map w2 ->
  enters m m2 w2 (MkStart (word_at m2 (first + 24)) config map acpi v).
Proof.
  intros [K1 K2 K3 _ K4 K5 K6] [V1 V2 V3 V4 V5] Hmap. destruct K2 as [K2 K2'].
  assert (forall x, first <= x < first + n * 4096 -> m2 x = m1 x) as Hpages by (intros x Hx; apply V5; intros Hv; by apply (V4 x)).
  split; cbn [entry_addr volume_image memmap]; [| | | |done].
  - apply list.Forall_forall. intros p Hp j Hj. rewrite !list.Forall_forall in *. pose proof (K2' p Hp) as [? ?].
    rewrite Hpages by lia. by apply K1.
  - by exists first, n.
  - rewrite K6. unfold word_at. do 2 f_equal. symmetry. apply bytes_at_same. intros x Hx. apply Hpages. lia.
  - exists buffer, bs. split_and!; try done. intros x H1 H2 H3. rewrite V5 by done. by apply K5.
Qed.

(** C37. On a firmware that keeps what is documented of it, the boot loader never does
    anything undefined, when the pixel formats are the two it knows: it halts when the
    firmware fails, or enters the kernel, loaded: every segment is in memory where it
    is linked, its data followed by zeros, in pages the firmware gave away for it, and
    the address entered is that of the header of the file. The volume, the file or the
    first 32 MiB of the device, is in a buffer. Apart from the segments and the two
    buffers, for the file and the volume, the loader has changed nothing in memory.
    The map of the memory the kernel is given is the one the firmware was left with. *)
Theorem UefiMain_enters w m :
  (forall gop w, ModePixelFormat (fw_mode gop w) = 0 \/ ModePixelFormat (fw_mode gop w) = 1) ->
  snd (UefiMain (w, m)) <> Undef /\ forall w' m' st, UefiMain (w, m) = ((w', m'), Done st) -> enters m m' w' st.
Proof.
  intros Hformat. assert (wp UefiMain (fun st s' => enters m (snd s') (fst s') st) (w, m)) as H.
  2: { unfold wp in H. destruct (UefiMain (w, m)) as [[w' m'] [st| |]]; [|split; [done|congruence]|done]. split; [done|]. by intros ? ? ? [= <- <- <-]. }
  unfold UefiMain. apply wp_bind. eapply wp_mono; [apply GetMemoryMap_wp|]. intros [map st1] [w1 m1] [Hm1 Hg]. cbn [fst snd] in Hm1, Hg. subst m1.
  apply wp_check. intros C1. specialize (Hg C1). apply wp_bind. eapply wp_mono; [apply OpenRootDir_keeps|]. intros [st2 root] [w2 m2] Hm2. cbn [snd] in Hm2. subst m2.
  apply wp_check. intros C2. apply wp_bind. eapply wp_mono; [apply write_map_keeps|]. intros [] [w3 m3] Hm3. cbn [snd] in Hm3. subst m3.
  apply wp_bind. eapply wp_mono; [apply OpenGOP_keeps|]. intros [st4 gop] [w4 m4] Hm4. cbn [snd] in Hm4. subst m4. apply wp_check. intros C4.
  apply wp_bind. eapply wp_mono; [apply load_kernel_wp|]. intros first [w5 m5] (n & buffer & Hk). cbn [fst snd] in Hk.
  apply wp_bind. eapply wp_mono; [by apply (read_volume_wp root w5 m5 first n), Hk|]. intros v [w6 m6] [bs Hv]. cbn [snd] in Hv.
  apply wp_bind. eapply wp_mono; [by apply leave_firmware_wp|]. intros map' [w7 m7] [Hm7 Hmap]. cbn [fst snd] in Hm7, Hmap. subst m7.
  apply wp_bind. unfold wp at 1, with_memory. cbn [snd]. apply wp_ask, wp_bind. unfold pixel_format_of.
  pose proof (loaded_enters m m5 m6 w5 w7 first n buffer v bs map') as He.
  destruct (Hformat gop w7) as [-> | ->]; unfold wp, mret, M_ret; repeat case_decide; try done; cbn [fst snd]; by apply He.
Qed.
End run.
End loader.

(** ** A machine with a small kernel *)

(** The state is the memory given out so far. *)
Definition Given : Type := list (Z * Z).
Definition sample_error : Z := 2 ^ 63 + 14.
Definition sample_map (w : Given) : list MemoryDescriptor := [MkDescriptor 7 0 (512 - Z.of_nat (length w))].
Definition sample_top (w : Given) : Z := foldr (fun r t => Z.max (fst r + snd r) t) 0x3000 w.
Definition sample_free (a n : Z) (w : Given) : bool := forallb (fun r => (a + n <=? fst r) || (fst r + snd r <=? a)) w.

(** One segment of 200 bytes, of which 128 are in the file, at 1 MiB. *)
Definition sample_elf : list Z :=
  replicate 24 0 ++ le_bytes 8 0x100040 ++ le_bytes 8 64 ++ replicate 16 0 ++ le_bytes 2 1 ++ replicate 6 0 ++
  le_bytes 4 PT_LOAD ++ replicate 4 0 ++ le_bytes 8 0 ++ le_bytes 8 0x100000 ++ replicate 8 0 ++ le_bytes 8 128 ++ le_bytes 8 200 ++ replicate 8 0 ++
  replicate 8 9.
Definition sample_phdr : Phdr := MkPhdr PT_LOAD 0 0x100000 128 200.

Definition sample_contents (h : Z) : list Z := if decide (h = 1) then sample_elf else [].
Definition sample_device : list Z := replicate 4096 4.

#[local] Instance sample_firmware : Firmware Given := {|
  fw_memory_map := fun _ w => (w, (0, (sample_map w, Z.of_nat (length w))));
  fw_open_protocol := fun h _ w => (w, (0, h));
  fw_device := fun h _ => h;
  fw_locate_gop := fun w => (w, (0, [5]));
  fw_mode := fun _ _ => MkMode 0x80000000 800 800 600 1;
  fw_media := fun _ _ => MkMedia 1 512 7;
  fw_open_volume := fun h w => (w, (0, h));
  fw_open := fun _ name w => (w, if decide (name = [1]) then (0, 1) else (sample_error, 0));
  fw_write := fun _ _ w => (w, 0);
  fw_close := fun _ w => (w, 0);
  fw_file_size := fun h w => (w, (0, Z.of_nat (length (sample_contents h))));
  fw_allocate_pool := fun n w => ((sample_top w, n) :: w, (0, sample_top w));
  fw_free_pool := fun a w => (filter (fun r => fst r <> a) w, 0);
  fw_read := fun h n w => (w, (0, take (Z.to_nat n) (sample_contents h)));
  fw_read_blocks := fun _ _ n w => (w, if decide (n <= 4096) then (0, take (Z.to_nat n) sample_device) else (sample_error, []));
  fw_allocate_pages := fun n a w => if sample_free a (n * 4096) w then ((a, n * 4096) :: w, 0) else (w, sample_error);
  fw_exit := fun key w => (w, if decide (key = Z.of_nat (length w)) then 0 else sample_error);
|}.

Lemma sample_top_spec w b k : (b, k) ∈ w -> b + k <= sample_top w.
Proof. induction w as [|r w IH]; [by intros ?%elem_of_nil|]. intros [<-|H]%elem_of_cons; cbn [sample_top foldr fst snd]; [lia|]. pose proof (IH H). unfold sample_top in *. lia. Qed.

Lemma sample_free_spec a n w b k : sample_free a n w = true -> (b, k) ∈ w -> apart a n b k.
Proof.
  intros H Hin x. unfold sample_free in H. rewrite forallb_forall in H.
  specialize (H (b, k) (proj1 (list_elem_of_In _ _) Hin)). cbn [fst snd] in H. lia.
Qed.

Lemma sample_documented : documented (fun h _ => sample_contents h) (fun _ _ => 0%nat) (fun _ _ => sample_device) (fun w b k => (b, k) ∈ w)
  sample_map (fun w => Z.of_nat (length w)).
Proof.
  split; cbn.
  - done.
  - intros h w w' st n [= <- <- <-] _. done.
  - intros h n w w' st bs [= <- <- <-] _. by rewrite drop_0.
  - intros b i n w w' st bs. case_decide; [intros [= <- <- <-] _; by split|by intros [= _ <- _]].
  - intros n w w' st a [= <- <- <-] _. split; [by left|]. split; [|done]. intros b k H. split; [by right|].
    pose proof (sample_top_spec w b k H). intros x. lia.
  - intros n a w w' st. destruct (sample_free a (n * 4096) w) eqn:E; [|by intros [= _ <-]]. intros [= <- <-] _. split; [by left|].
    intros b k H. split; [by right|by eapply sample_free_spec].
  - intros a w w' st b k [= <- _] H Hb. by apply list_elem_of_filter.
  - intros w w' b k []; simplify_eq/=; done.
  - by intros w w' st hs [= _ _ <-].
  - intros size w w' st ds key [= <- <- <- <-] _. done.
  - intros key w w' st. case_decide; [done|]. by intros [= _ <-].
  - intros w1 w2 H. unfold sample_map. by rewrite H.
Qed.

Definition sample_boot : (Given * Memory) * ended Start :=
  UefiMain (fun _ _ => []) [] [0] [1] [2] [(3, 0xe0000)] 3 8 ([], fun _ => 77).

Lemma sample_bootable : bootable sample_elf [sample_phdr].
Proof.
  split.
  - exists 64, 1. split_and!; vm_compute; reflexivity.
  - repeat constructor; cbn; lia.
  - repeat constructor.
  - constructor. cbn. split_and!; [done|lia|]. repeat constructor. cbn. lia.
  - repeat constructor.
Qed.

Definition start_of (e : ended Start) : option Start := match e with Done st => Some st | _ => None end.

Lemma sample_boot_start : (fun st => (entry_addr st, map_descs (memmap st), volume_image st)) <$> start_of (snd sample_boot) =
  Some (0x100040, [MkDescriptor 7 0 510], 0x101000).
Proof. by vm_compute. Qed.

(** The first attempt to leave fails, for memory has been given out since; the map
    handed over is the one with two allocations: the kernel and the volume. *)
Lemma UefiMain_enters_witness : exists w' m' st, sample_boot = ((w', m'), Done st) /\
  Forall (placed_in sample_elf m') [sample_phdr] /\ e_entry sample_elf = Some (entry_addr st) /\
  entry_addr st = 0x100040 /\ map_descs (memmap st) = [MkDescriptor 7 0 510] /\ volume_image st = 0x101000.
Proof.
  pose proof sample_boot_start as Hst. destruct sample_boot as [[w' m'] e] eqn:E. cbn [snd] in Hst.
  destruct e as [st| |]; [|done|done]. injection Hst as E1 E2 E3.
  destruct (UefiMain_enters (fun _ _ => []) [] [0] [1] [2] [(3, 0xe0000)] 3 8 sample_documented sample_elf [sample_phdr] sample_bootable)
    with (w := [] : Given) (m := fun _ : Z => 77) as [_ H].
  - intros dir w w2 st0 h. cbn. intros [= _ <- <-] _. done.
  - intros gop w. by right.
  - pose proof E as E'. unfold sample_boot in E'. destruct (H w' m' st E') as [H1 _ H3 _ _]. exists w', m', st. split; [reflexivity|]. split_and!; assumption.
Defined.
