(* ===== verification/KernelStart.v ===== *)
(** * The start of the kernel (kernel/main.cpp)

    What the kernel sets up before anything can interrupt it: segments, page
    tables, the frames left by the boot loader, the stacks of interrupts, the gates. *)

From S2P Require Import Prelude BitField FrameBitmap Paging LoadApp IdentityMap Segment Interrupt.
From stdpp Require Import base list numbers option gmap.
From Stdlib Require Import ZArith Lia.

Local Open Scope Z_scope.

(** The frames of the machine are those of the bitmap. *)
#[local] Abbreviation Machine := (@Machine BitmapMemoryManager).

(** What has been set up: the machine with its tables and frames, the heap, the segments,
    the gates and the register that names them. *)
Record Kernel0 := MkKernel0 {
  machine : Machine;
  heap : option (Z * Z);
  segments : Segments;
  idt : list InterruptDescriptor;
  IDTR : Z * Z;
}.

Definition with_frames (m : BitmapMemoryManager) (s : Segments) : Segments :=
  MkSegments (gdt s) (tss s) (GDTR s) (DS s) (CS s) (SS s) (TR s) m.

Section start.
(** Where the linker put the tables and the handlers. *)
Context (gdt_addr tss_addr idt_addr : Z) (address : Handler -> Z) (pml4_table pdp_table page_directory : Z).

(** The kernel exits, [Some None], when the memory of the map does not do.
    [src/kernel/main.cpp:42-46] [KernelMainNewStack] *)
Definition KernelStart (memory_map : list MemoryDescriptor) (st : Machine) : option (option Kernel0) :=
  s ← InitializeSegmentation gdt_addr (InitialSegments NewManager);
  st ← InitializePaging pml4_table pdp_table page_directory st;
  '(m, (heap, err)) ← InitializeMemoryManager memory_map;
  if is_error err then Some None
  else
    match InitializeTSS tss_addr (with_frames m s) with
    | None => Some None
    | Some s =>
        '(idt, idtr) ← InitializeInterrupt address idt_addr InitialIDT;
        Some (Some (MkKernel0 (set_manager (Segment.memory_manager s) st) heap s idt idtr))
    end.
End start.

(** ** Memory for the stacks *)

(** A stack is refused only when there is no run of its length. *)
Lemma AllocateStackArea_None n m : manager_ok m -> 0 < n -> range_begin m <= kFrameCount -> AllocateStackArea n m = None ->
  forall s, range_begin m <= s -> s + n <= range_end m -> ~ free_run m s n.
Proof.
  intros Hok Hn Hb. unfold AllocateStackArea. destruct (Allocate_spec m n Hok) as ([m1 [f e]] & -> & Hp); [lia|done|]. cbn [mbind option_bind].
  destruct Hp as [(-> & _)|(-> & _ & _ & Hno)]; [done|]. by intros _.
Qed.

(** The stacks are at the first runs, so sixteen free frames in a row are enough. *)
Lemma InitializeTSS_room tss_addr s :
  length (gdt s) = 7%nat -> length (tss s) = 26%nat -> manager_ok (Segment.memory_manager s) -> range_begin (Segment.memory_manager s) <= kFrameCount ->
  InitializeTSS tss_addr s = None ->
  forall f, range_begin (Segment.memory_manager s) <= f -> f + 16 <= range_end (Segment.memory_manager s) -> ~ free_run (Segment.memory_manager s) f 16.
Proof.
  intros Hg Ht Hok Hb Hnone f Hf He Hfree. set (m := Segment.memory_manager s) in *. unfold InitializeTSS in Hnone. fold m in Hnone.
  destruct (Allocate_spec m 8 Hok) as ([m1 [f1 e]] & E1 & Hp); [lia|done|].
  destruct Hp as [(-> & Hf1 & Hend1 & Hfree1 & Hfirst & Hset)|(-> & _ & _ & Hno)].
  2: { apply (Hno f); [lia|lia|]. intros x Hx. apply Hfree. lia. }
  assert (AllocateStackArea 8 m = Some ((f1 + 8) * kBytesPerFrame, m1)) as Ea by (unfold AllocateStackArea; rewrite E1; cbn; unfold kBytesPerFrame; do 2 f_equal; lia).
  rewrite Ea in Hnone. cbn [mbind option_bind] in Hnone. pose proof (ok_begin _ Hok). pose proof (ok_end _ Hok). specialize (Hend1 ltac:(lia)).
  assert (forall g, 0 <= g -> g + 8 <= kFrameCount -> 0 <= (g + 8) * kBytesPerFrame < 2 ^ 64) as Hrange by (change kFrameCount with (2 ^ 25); change kBytesPerFrame with 4096; lia).
  destruct (SetTSS_spec 1 ((f1 + 8) * kBytesPerFrame) (tss s) Ht ltac:(lia) ltac:(apply Hrange; lia)) as (t1 & Et1 & Hl1 & _).
  rewrite Et1 in Hnone. cbn [mbind option_bind] in Hnone. destruct Hset as [Hok1 Hb1 He1 Hbits].
  destruct (AllocateStackArea 8 m1) as [[top2 m2]|] eqn:Ea2.
  - apply AllocateStackArea_spec in Ea2 as (f2 & -> & Hf2 & He2 & _); [|done|done]. cbn [mbind option_bind] in Hnone.
    change (7 + 2 * kISTForTimer) with 9 in Hnone.
    destruct (SetTSS_spec 9 ((f2 + 8) * kBytesPerFrame) t1 Hl1 ltac:(lia) ltac:(apply Hrange; lia)) as (t2 & Et2 & _). rewrite Et2 in Hnone.
    cbn [mbind option_bind] in Hnone. destruct (gdt s) as [|a0 [|a1 [|a2 [|a3 [|a4 [|a5 [|a6 [|]]]]]]]]; done.
  - assert (f1 <= f) as Hle.
    { destruct (decide (f1 <= f)); [done|]. exfalso. apply (Hfirst f); [lia|]. intros x Hx. apply Hfree. lia. }
    apply (AllocateStackArea_None 8 m1 Hok1 ltac:(lia) ltac:(lia) Ea2 (f + 8)); [lia|lia|]. intros x Hx.
    rewrite Hbits, decide_False by lia. apply Hfree. lia.
Qed.

(** ** What interrupts find *)

(** A stack in eight frames from [f]: memory the boot loader left, not of the heap, taken by
    nobody else, mapped to itself and writable. *)
Definition stack_at (memory_map : list MemoryDescriptor) (k : Kernel0) (f : Z) : Prop :=
  forall g, f <= g < f + 8 ->
    frame_available memory_map g = true /\ in_heap (heap k) g = false /\ allocated (Paging.memory_manager (machine k)) g = true /\
    forall addr, addr / 2 ^ 12 = g -> translate (machine k) 4 (CR3 (machine k)) (page_no addr) = Some (g, true, false).

(** The map gives no run of frames that is long enough for the heap and, wherever in it
    the heap is put, sixteen more. *)
Definition no_room (memory_map : list MemoryDescriptor) : Prop :=
  forall s, 1 <= s -> ~ available_run memory_map s (kHeapFrames + 32).

(** The identity map covers what the boot loader left. *)
Definition low_memory (memory_map : list MemoryDescriptor) : Prop := Forall (fun d => desc_end d <= 2 ^ 36) memory_map.

Lemma available_low memory_map g : low_memory memory_map -> frame_available memory_map g = true -> g < 2 ^ 24.
Proof.
  intros Hl (d & Hd & [_ Hin]%andb_true_iff)%existsb_exists. apply bool_decide_eq_true in Hin. unfold low_memory in Hl. rewrite List.Forall_forall in Hl. specialize (Hl d Hd).
  unfold kBytesPerFrame in Hin. lia.
Qed.

(** Setting up the task state leaves the segments of the kernel. *)
Lemma InitializeTSS_selectors tss_addr s s' : InitializeTSS tss_addr s = Some s' -> CS s' = CS s /\ SS s' = SS s.
Proof.
  unfold InitializeTSS. destruct (AllocateStackArea _ _) as [[top1 m1]|]; [|done]. cbn [mbind option_bind].
  destruct (SetTSS _ top1 _) as [t1|]; [|done]. cbn [mbind option_bind]. destruct (AllocateStackArea 8 m1) as [[top2 m2]|]; [|done]. cbn [mbind option_bind].
  destruct (SetTSS _ top2 _) as [t2|]; [|done]. cbn [mbind option_bind]. destruct (setZ (gdt s) _ _) as [g1|]; [|done]. cbn [mbind option_bind].
  destruct (setZ g1 _ _) as [g2|]; [|done]. by intros [= <-].
Qed.

(** A run of the bitmap that was free and is now taken is a stack. *)
Lemma stack_taken memory_map m brk (k : Kernel0) f : low_memory memory_map -> 0 <= f -> free_run m f 8 -> heap k = brk ->
  (forall g, f <= g < f + 8 -> allocated m g = negb (frame_available memory_map g) || in_heap brk g) ->
  (forall g, f <= g < f + 8 -> allocated (Paging.memory_manager (machine k)) g = true) ->
  (forall addr, 0 <= addr < kPageDirectoryCount * kPageSize1G -> translate (machine k) 4 (CR3 (machine k)) (page_no addr) = Some (page_no addr, true, false)) ->
  stack_at memory_map k f.
Proof.
  intros Hlow Hf Hfree Hbrk Hex Hset Hid g Hg. rewrite Hbrk. specialize (Hfree g Hg). rewrite (Hex g Hg) in Hfree.
  apply orb_false_iff in Hfree as [Hav%negb_false_iff Hheap]. split_and!; [done|done|by apply Hset|]. intros addr Ha.
  pose proof (available_low _ _ Hlow Hav) as Hg24. pose proof (Z.div_mod addr (2 ^ 12) ltac:(done)) as Hdm. pose proof (Z.mod_pos_bound addr (2 ^ 12) ltac:(done)).
  assert (0 <= addr < kPageDirectoryCount * kPageSize1G) as Hr by (unfold kPageDirectoryCount, kPageSize1G, kPageSize2M, kPageSize4K; lia).
  rewrite (Hid addr Hr). unfold page_no. rewrite Ha, Z.mod_small by lia. done.
Qed.

(** Wherever the heap is, there are sixteen frames before or behind it. *)
Lemma no_stacks memory_map m b e s : 1 <= s -> e = b + kHeapFrames * kBytesPerFrame ->
  (forall f, 0 <= f < range_end m -> allocated m f = negb (frame_available memory_map f) || in_heap (Some (b, e)) f) ->
  (forall f, range_end m <= f -> frame_available memory_map f = false) -> available_run memory_map s (kHeapFrames + 32) ->
  ~ forall f, 1 <= f -> f + 16 <= range_end m -> ~ free_run m f 16.
Proof.
  intros Hs -> Hex Hout Hrun Hno. assert (s + (kHeapFrames + 32) <= range_end m) as Hend.
  { destruct (decide (s + (kHeapFrames + 32) <= range_end m)); [done|]. exfalso. unfold available_run in Hrun.
    specialize (Hrun (s + (kHeapFrames + 32) - 1) ltac:(unfold kHeapFrames; lia)). rewrite Hout in Hrun by lia. done. }
  assert (forall f, s <= f -> f + 16 <= s + (kHeapFrames + 32) -> (forall g, f <= g < f + 16 -> ~ b <= g * kBytesPerFrame < b + kHeapFrames * kBytesPerFrame) -> False) as Hfit.
  { intros f Hf He Hheap. apply (Hno f); [lia|lia|]. intros g Hg. rewrite Hex, (Hrun g) by lia. cbn [negb orb in_heap]. apply bool_decide_eq_false. by apply Hheap. }
  unfold kHeapFrames, kBytesPerFrame in *. destruct (decide ((s + 16) * 4096 <= b)); [apply (Hfit s); intros; lia|]. apply (Hfit (s + (64 * 512 + 32) - 16)); intros; lia.
Qed.

(** C25. The kernel that is started with a map of the memory is ready for interrupts,
    or exits because the memory does not do. The map is taken as the code takes it: its
    regions page-aligned, in increasing order, without overlap ([map_from]) and below
    64 GiB ([low_memory]); none of it is checked. Above 64 GiB the frames handed out
    would not be mapped, above 128 GiB the bitmap is overrun
    ([InitializeMemoryManager_overrun]). Then the segments of the kernel are flat; the
    first 64 GiB are mapped to themselves; the frames taken are those the map does not
    give, those of the heap and those of two stacks. An interrupt of a program finds the
    first stack, the timer, whose gate names an entry of the task state, the second: both
    in memory the map gives, apart from each other and from the heap, and writable where
    they are; every handled vector enters its handler. *)
Theorem kernel_starts gdt_addr tss_addr idt_addr address P Q D memory_map (st : Machine) :
  map_from 0 memory_map -> low_memory memory_map -> static_tables P Q D st ->
  (forall h, 0 <= address h < 2 ^ 64) -> 0 <= tss_addr < 2 ^ 64 ->
  exists r, KernelStart gdt_addr tss_addr idt_addr address (P * 2 ^ 12) (Q * 2 ^ 12) (D * 2 ^ 12) memory_map st = Some r /\
    match r with
    | None => no_room memory_map
    | Some k =>
        (exists d, getZ (gdt (segments k)) (CS (segments k) / 8) = Some d /\ flat_segment kExecuteRead 0 1 d) /\
        (exists d, getZ (gdt (segments k)) (SS (segments k) / 8) = Some d /\ flat_segment kReadWrite 0 0 d) /\
        (forall addr, 0 <= addr < kPageDirectoryCount * kPageSize1G ->
           translate (machine k) 4 (CR3 (machine k)) (page_no addr) = Some (page_no addr, true, false)) /\
        (exists f1 f2 d, tss_qword (tss (segments k)) 1 = Some ((f1 + 8) * 4096) /\
           getZ (idt k) vec_LAPICTimer = Some d /\ gate kKernelCS (address IntHandlerLAPICTimer) 1 0 d /\ tss_qword (tss (segments k)) (7 + 2 * 1) = Some ((f2 + 8) * 4096) /\
           stack_at memory_map k f1 /\ stack_at memory_map k f2 /\ (f1 + 8 <= f2 \/ f2 + 8 <= f1) /\
           let m := Paging.memory_manager (machine k) in
           forall g, 0 <= g < range_end m -> allocated m g =
             negb (frame_available memory_map g) || in_heap (heap k) g || bool_decide (f1 <= g < f1 + 8 \/ f2 <= g < f2 + 8)) /\
        (forall v h, 0 <= v < 256 -> handler_of v = Some h -> exists d, getZ (idt k) v = Some d /\ gate kKernelCS (address h) (if decide (h = IntHandlerLAPICTimer) then 1 else 0) 0 d)
    end.
Proof.
  intros Hmap Hlow Htab Haddr Htss. unfold KernelStart.
  destruct (InitializeSegmentation_flat gdt_addr (InitialSegments NewManager) eq_refl) as (s1 & -> & _ & Hg1 & _ & Hcs & Hss & _ & Hcode & Hdata & _ & _ & Htss1 & _).
  cbn [mbind option_bind]. destruct (identity_map st P Q D Htab) as (st1 & -> & Hcr3 & Hid). cbn [mbind option_bind].
  destruct (InitializeMemoryManager_spec memory_map Hmap) as (m & brk & err & Em & Hok & Hb & Hex & Hout & Hbrk). rewrite Em. cbn [mbind option_bind].
  destruct brk as [[b e]|].
  2: { destruct Hbrk as (-> & Hno). exists None. split; [done|]. intros f Hf Hrun. apply (Hno f Hf). intros g Hg. apply Hrun. lia. }
  destruct Hbrk as (-> & He & _). change (is_error kSuccess) with false. cbn match. set (s2 := with_frames m s1).
  assert (length (gdt s2) = 7%nat) as Hg2 by done. assert (length (tss s2) = 26%nat) as Ht2 by (unfold s2; cbn; by rewrite Htss1).
  assert (range_begin m <= kFrameCount) as Hbk by (rewrite Hb; done).
  destruct (InitializeTSS tss_addr s2) as [s3|] eqn:E3.
  2: { exists None. split; [done|]. intros f Hf Hrun. apply (no_stacks memory_map m b e f Hf He Hex Hout Hrun). rewrite <- Hb. exact (InitializeTSS_room tss_addr s2 Hg2 Ht2 Hok Hbk E3). }
  destruct (InitializeTSS_stacks tss_addr s2 s3 Hg2 Ht2 Hok Htss E3) as (_ & _ & Hgdt & f1 & f2 & Hq1 & Hq2 & [Hr1 Hr1'] & [Hr2 Hr2'] & Hf1 & Hf2 & Hapart & Hok3 & Hend & Hbits).
  destruct (InitializeInterrupt_gates address idt_addr vec_LAPICTimer Haddr ltac:(done)) as (idt0 & d & Ei & _ & Hd & Hgate). rewrite Ei. cbn [mbind option_bind].
  eexists. split; [reflexivity|]. cbn [segments idt machine heap].
  destruct (InitializeTSS_selectors _ _ _ E3) as [Ecs Ess]. change (CS s2) with (CS s1) in Ecs. change (SS s2) with (SS s1) in Ess.
  rewrite Ecs, Ess, Hcs, Hss in *. rewrite !Hgdt by done. split; [exact Hcode|]. split; [exact Hdata|].
  change (memory_manager s2) with m in *.
  assert (forall addr, 0 <= addr < kPageDirectoryCount * kPageSize1G ->
    translate (set_manager (memory_manager s3) st1) 4 (CR3 st1) (page_no addr) = Some (page_no addr, true, false)) as Hid'.
  { intros addr Ha. rewrite <- (Hid addr Ha). by apply (translate_mem st1). }
  split; [exact Hid'|].
  assert (forall f, range_begin m <= f -> f + 8 <= range_end m -> free_run m f 8 -> (forall g, f <= g < f + 8 -> f1 <= g < f1 + 8 \/ f2 <= g < f2 + 8) ->
    stack_at memory_map (MkKernel0 (set_manager (memory_manager s3) st1) (Some (b, e)) s3 idt0 (4095, idt_addr)) f) as Hstack.
  { intros f Hf Hf' Hfree Hin. apply (stack_taken memory_map m (Some (b, e))); cbn [machine heap Paging.memory_manager set_manager CR3]; [done|lia|done|done|intros; apply Hex; lia|..].
    - intros g Hg. rewrite Hbits, bool_decide_true by (lia || by apply Hin). done.
    - exact Hid'. }
  split.
  - exists f1, f2, d. split_and!; [done|done|exact Hgate|done|apply Hstack; [done..|lia]|apply Hstack; [done..|lia]|done|].
    cbn [Paging.memory_manager set_manager]. intros g Hg. rewrite Hend in Hg. rewrite Hbits, Hex by (done || lia). by rewrite orb_comm.
  - intros v h Hv Hh. destruct (InitializeInterrupt_gates address idt_addr v Haddr Hv) as (idt1 & d1 & Ei1 & _ & Hd1 & Hgate1).
    rewrite Ei in Ei1. injection Ei1 as <-. exists d1. split; [done|]. by rewrite Hh in Hgate1.
Qed.

(** The map of the sample has 65536 frames in a row. *)
Lemma sample_room : available_run sample_map 256 (kHeapFrames + 32).
Proof.
  intros f Hf. unfold kHeapFrames in Hf. unfold frame_available, sample_map. cbn [existsb]. apply orb_true_iff. right. apply orb_true_iff. left.
  apply andb_true_iff. split; [done|]. apply bool_decide_eq_true. unfold desc_end; cbn [physical_start number_of_pages]. unfold kUEFIPageSize, kBytesPerFrame. lia.
Qed.

(** The tables and the map of the boot loader. *)
Lemma kernel_starts_witness :
  exists k f1 f2, KernelStart 0x120000 0x121000 0x122000 (fun _ => 0x100000) (1 * 2 ^ 12) (2 * 2 ^ 12) (16 * 2 ^ 12) sample_map sample_tables = Some (Some k) /\
    tss_qword (tss (segments k)) 1 = Some ((f1 + 8) * 4096) /\ stack_at sample_map k f1 /\ stack_at sample_map k f2.
Proof.
  destruct (kernel_starts 0x120000 0x121000 0x122000 (fun _ => 0x100000) 1 2 16 sample_map sample_tables) as ([k|] & E & H).
  - vm_compute; repeat split; intros Hc; discriminate Hc.
  - repeat constructor; vm_compute; intros Hc; discriminate Hc.
  - apply sample_tables_ok.
  - intros h. lia.
  - lia.
  - destruct H as (_ & _ & _ & (f1 & f2 & d & Hq & _ & _ & _ & Hs1 & Hs2 & _) & _).
    exists k, f1, f2. split; [exact E|]. split; [exact Hq|]. split; [exact Hs1|exact Hs2].
  - exfalso. apply (H 256); [lia|]. apply sample_room.
Defined.
