(* ===== verification/Programs.v ===== *)
(** * Programs (apps/)

    The calculator, the tools on files and text, and the listing of directories,
    over the C library and the application manager. *)

From stdpp Require Import base list numbers option strings sorting.
From Stdlib Require Import ZArith Lia.
From S2P Require Import Syscall Newlib Prelude Bytes Message AmFd GuiClient.

Local Open Scope Z_scope.

(** ** The C library

    What the programs use of it, on characters as numbers. *)

(** A [long] expression; overflow is undefined. *)
Definition long (x : Z) : option Z := if decide (- 2 ^ 63 <= x < 2 ^ 63) then Some x else None.

Definition isspace (c : Z) : bool := bool_decide (c = 32 \/ 9 <= c <= 13).
Definition isdigit (c : Z) : bool := bool_decide (48 <= c <= 57).

Fixpoint digits (s : list Z) (acc : Z) : Z :=
  match s with
  | c :: s' => if isdigit c then digits s' (10 * acc + (c - 48)) else acc
  | [] => acc
  end.

Fixpoint ato (s : list Z) : Z :=
  match s with
  | c :: s' => if isspace c then ato s' else if decide (c = 45) then - digits s' 0 else if decide (c = 43) then digits s' 0 else digits s 0
  | [] => 0
  end.

(** A number that does not fit is undefined. *)
Definition atol (s : list Z) : option Z := long (ato s).
Definition atoi (s : list Z) : option Z := int (ato s).

(** At most [n] characters, up to the end of the line; the rest. *)
Fixpoint get_line (n : nat) (text : list Z) : list Z * list Z :=
  match n, text with
  | S n', c :: text' => if decide (c = 10) then ([c], text') else let '(l, r) := get_line n' text' in (c :: l, r)
  | _, _ => ([], text)
  end.

Definition fgets (size : nat) (text : list Z) : option (list Z * list Z) :=
  match text with [] => None | _ => Some (get_line (size - 1) text) end.

(** [while (fgets(line, size, fp))]: the lines. *)
Fixpoint lines_loop (fuel size : nat) (text : list Z) : list (list Z) :=
  match fuel, fgets size text with
  | S fuel', Some (l, r) => l :: lines_loop fuel' size r
  | _, _ => []
  end.
Definition read_lines (size : nat) (text : list Z) : list (list Z) := lines_loop (length text) size text.

(** What [%s] prints of a line kept with its terminator. *)
Definition shown (line : list Z) : list Z := default line (c_str (c_chars line)).

Lemma get_line_app n : forall text l r, get_line n text = (l, r) -> l ++ r = text.
Proof.
  induction n as [|n IH]; intros [|c text] l r; cbn; try by intros [= <- <-].
  case_decide; [by intros [= <- <-]|]. destruct (get_line n text) as [l' r'] eqn:E. intros [= <- <-]. cbn. f_equal. by apply IH.
Qed.

(** Every turn takes a character, so no line is lost. *)
Lemma lines_loop_join size : (2 <= size)%nat -> forall fuel text, (length text <= fuel)%nat -> mjoin (lines_loop fuel size text) = text.
Proof.
  intros Hs. induction fuel as [|fuel IH]; intros text Hl; [by destruct text; [|cbn in Hl; lia]|]. destruct text as [|c text]; [done|].
  cbn [lines_loop fgets]. destruct (get_line (size - 1) (c :: text)) as [l r] eqn:E. pose proof (get_line_app _ _ _ _ E) as Ha.
  cbn [mjoin list_join]. rewrite IH; [done|]. destruct (size - 1)%nat as [|k] eqn:Ek; [lia|]. cbn in E.
  case_decide; [injection E as <- <-; cbn in Hl; lia|]. destruct (get_line k text) as [l' r'] eqn:E'. injection E as <- <-.
  apply (f_equal length) in Ha. rewrite length_app in Ha. cbn in Ha, Hl. lia.
Qed.

Lemma read_lines_join size text : (2 <= size)%nat -> mjoin (read_lines size text) = text.
Proof. intros. by apply lines_loop_join. Qed.

Lemma shown_no_nul l : no_nul l -> shown l = l.
Proof. intros H. unfold shown. pose proof (c_str_chars l [] H) as E. rewrite app_nil_r in E. by rewrite E. Qed.

Lemma lines_no_nul size text x : (2 <= size)%nat -> no_nul text -> x ∈ read_lines size text -> no_nul x.
Proof.
  intros Hs Hn Hx. rewrite <- (read_lines_join size text Hs) in Hn. unfold no_nul in *. rewrite list.Forall_forall in Hn |- *.
  intros c Hc. apply Hn. rewrite list_elem_of_join. by exists x.
Qed.

Lemma shown_lines size text : (2 <= size)%nat -> no_nul text -> shown <$> read_lines size text = read_lines size text.
Proof.
  intros Hs Hn. assert (forall x, x ∈ read_lines size text -> no_nul x) as H by (intros x; by apply lines_no_nul). clear Hn.
  induction (read_lines size text) as [|x ls IH]; [done|]. cbn. rewrite shown_no_nul by (apply H; left). f_equal. apply IH. intros y Hy. apply H. by right.
Qed.

(** ** rpn *)

Module Rpn.

(** [src/apps/rpn/rpn.cpp:5-6] [stack] *)
Record State := MkState { stack_ptr : Z; stack : list Z }.

(** [src/apps/rpn/rpn.cpp:8-12] [Pop] *)
Definition Pop (s : State) : option (Z * State) :=
  value ← getZ (stack s) (stack_ptr s); Some (value, MkState (stack_ptr s - 1) (stack s)).

(** [src/apps/rpn/rpn.cpp:14-17] [Push] *)
Definition Push (value : Z) (s : State) : option State :=
  stk ← setZ (stack s) (stack_ptr s + 1) value; Some (MkState (stack_ptr s + 1) stk).

(** [src/apps/rpn/rpn.cpp:25-37] [main] *)
Definition step (w : list Z) (s : State) : option State :=
  if decide (w = chars "+") then '(b, s) ← Pop s; '(a, s) ← Pop s; v ← long (a + b); Push v s
  else if decide (w = chars "-") then '(b, s) ← Pop s; '(a, s) ← Pop s; v ← long (a - b); Push v s
  else a ← atol w; Push a s.

Fixpoint steps (ws : list (list Z)) (s : State) : option State :=
  match ws with [] => Some s | w :: ws' => s ← step w s; steps ws' s end.

(** The number printed and the exit code.
    [src/apps/rpn/rpn.cpp:21-46] [main] *)
Definition rpn_main (argv : list (list Z)) : option (Z * Z) :=
  s ← steps (tail argv) (MkState (-1) (replicate 100 0));
  '(result, _) ← (if decide (0 <= stack_ptr s) then Pop s else Some (0, s));
  Some (result, s32 result).

(** *** What it computes *)

(** Sums and differences of numbers as they are typed. *)
Inductive expr := Num (w : list Z) | Add (a b : expr) | Sub (a b : expr).

Fixpoint words (e : expr) : list (list Z) :=
  match e with
  | Num w => [w]
  | Add a b => words a ++ words b ++ [chars "+"]
  | Sub a b => words a ++ words b ++ [chars "-"]
  end.

(** Nothing if a number or a result does not fit in 64 bits. *)
Fixpoint eval (e : expr) : option Z :=
  match e with
  | Num w => atol w
  | Add a b => x ← eval a; y ← eval b; long (x + y)
  | Sub a b => x ← eval a; y ← eval b; long (x - y)
  end.

Fixpoint numbers (e : expr) : Prop :=
  match e with Num w => w <> chars "+" /\ w <> chars "-" | Add a b | Sub a b => numbers a /\ numbers b end.

(** The places of the stack it needs. *)
Fixpoint depth (e : expr) : nat :=
  match e with Num _ => 1 | Add a b | Sub a b => depth a `max` S (depth b) end.

(** The stack holds [xs], the top last. *)
Record holds (xs : list Z) (s : State) : Prop := {
  ho_ptr : stack_ptr s = Z.of_nat (length xs) - 1;
  ho_size : length (stack s) = 100%nat;
  ho_values : take (length xs) (stack s) = xs;
}.

Lemma Push_holds xs s v : holds xs s -> (length xs < 100)%nat -> exists s', Push v s = Some s' /\ holds (xs ++ [v]) s'.
Proof.
  intros [Hp Hs Hv] Hl. unfold Push. rewrite Hp, setZ_Some by (rewrite Hs; lia). cbn [mbind option_bind]. eexists. split; [done|].
  replace (Z.to_nat (Z.of_nat (length xs) - 1 + 1)) with (length xs) by lia. constructor; cbn [stack_ptr stack].
  - rewrite length_app. cbn. lia.
  - by rewrite length_insert.
  - rewrite length_app, Nat.add_comm. cbn [length Nat.add]. rewrite (take_S_r _ _ v) by (apply list_lookup_insert_eq; lia).
    rewrite take_insert_ge by lia. by rewrite Hv.
Qed.

Lemma Pop_holds xs v s : holds (xs ++ [v]) s -> exists s', Pop s = Some (v, s') /\ holds xs s'.
Proof.
  intros [Hp Hs Hv]. rewrite length_app in Hp, Hv. cbn in Hp, Hv. unfold Pop. rewrite Hp. unfold getZ. rewrite decide_True by lia.
  replace (Z.to_nat (Z.of_nat (length xs + 1) - 1)) with (length xs) by lia.
  assert (stack s !! length xs = Some v) as ->.
  { rewrite <- (lookup_take_lt _ (length xs + 1)) by lia. rewrite Hv. by apply list_lookup_middle. }
  cbn [mbind option_bind]. eexists. split; [done|]. constructor; cbn [stack_ptr stack]; [lia|done|].
  apply (f_equal (take (length xs))) in Hv. rewrite take_take, take_app_length in Hv. by rewrite Nat.min_l in Hv by lia.
Qed.

Lemma steps_app ws ws' s : steps (ws ++ ws') s = (s ← steps ws s; steps ws' s).
Proof. revert s. induction ws as [|w ws IH]; intros s; [done|]. cbn. destruct (step w s); [apply IH|done]. Qed.

(** The words of an expression push its value. *)
Lemma words_eval e : numbers e -> forall xs s, holds xs s -> (length xs + depth e <= 100)%nat ->
  match eval e with
  | Some v => exists s', steps (words e) s = Some s' /\ holds (xs ++ [v]) s'
  | None => steps (words e) s = None
  end.
Proof.
  assert (forall op a b xs s w, (forall x y s1 s2 s3, Pop s1 = Some (y, s2) -> Pop s2 = Some (x, s3) -> step w s1 = (v ← long (op x y); Push v s3)) ->
    (forall xs s, holds xs s -> (length xs + depth a <= 100)%nat ->
      match eval a with Some v => exists s', steps (words a) s = Some s' /\ holds (xs ++ [v]) s' | None => steps (words a) s = None end) ->
    (forall xs s, holds xs s -> (length xs + depth b <= 100)%nat ->
      match eval b with Some v => exists s', steps (words b) s = Some s' /\ holds (xs ++ [v]) s' | None => steps (words b) s = None end) ->
    holds xs s -> (length xs + depth a `max` S (depth b) <= 100)%nat ->
    match (x ← eval a; y ← eval b; long (op x y)) with
    | Some v => exists s', steps (words a ++ words b ++ [w]) s = Some s' /\ holds (xs ++ [v]) s'
    | None => steps (words a ++ words b ++ [w]) s = None
    end) as Hop.
  { intros op a b xs s w Hstep Ha Hb Hh Hd. rewrite steps_app. specialize (Ha xs s Hh ltac:(lia)). destruct (eval a) as [x|]; [|by rewrite Ha].
    destruct Ha as (s1 & -> & H1). cbn [mbind option_bind]. rewrite steps_app. specialize (Hb _ _ H1 ltac:(rewrite length_app; cbn; lia)).
    destruct (eval b) as [y|]; [|by rewrite Hb]. destruct Hb as (s2 & -> & H2). cbn [mbind option_bind steps].
    destruct (Pop_holds _ _ _ H2) as (s3 & E3 & H3). destruct (Pop_holds _ _ _ H3) as (s4 & E4 & H4). rewrite (Hstep _ _ _ _ _ E3 E4).
    destruct (long (op x y)) as [v|]; [|done]. cbn [mbind option_bind]. destruct (Push_holds xs s4 v H4 ltac:(lia)) as (s5 & -> & H5). by exists s5. }
  induction e as [w|a IHa b IHb|a IHa b IHb]; cbn [numbers eval words depth]; intros Hn xs s Hh Hd.
  - cbn [steps]. unfold step. rewrite !decide_False by tauto. destruct (atol w) as [v|]; [|done]. cbn [mbind option_bind].
    destruct (Push_holds xs s v Hh ltac:(lia)) as (s' & -> & H'). by exists s'.
  - apply (Hop Z.add); [|apply IHa; tauto|apply IHb; tauto|done|done].
    intros x y s1 s2 s3 E1 E2. unfold step. rewrite decide_True, E1 by done. cbn [mbind option_bind]. by rewrite E2.
  - apply (Hop Z.sub); [|apply IHa; tauto|apply IHb; tauto|done|done].
    intros x y s1 s2 s3 E1 E2. unfold step. rewrite decide_False, decide_True, E1 by done. cbn [mbind option_bind]. by rewrite E2.
Qed.

(** The program prints the value of the expression it is given, for expressions that
    need at most a hundred places; only an overflow is undefined. *)
Theorem rpn_evaluates name e : numbers e -> (depth e <= 100)%nat ->
  rpn_main (name :: words e) = (v ← eval e; Some (v, s32 v)).
Proof.
  intros Hn Hd. unfold rpn_main. cbn [tail].
  assert (holds [] (MkState (-1) (replicate 100 0))) as H0 by (by constructor).
  pose proof (words_eval e Hn [] _ H0 Hd) as H. destruct (eval e) as [v|]; [|by rewrite H]. destruct H as (s & -> & Hs). cbn [mbind option_bind app].
  rewrite decide_True by (rewrite (ho_ptr _ _ Hs); cbn; lia). destruct (Pop_holds [] v s Hs) as (s' & -> & _). done.
Qed.

(** An operator without its operands reads before the stack. *)
Lemma rpn_underflow : rpn_main [chars "rpn"; chars "1"; chars "+"] = None.
Proof. reflexivity. Qed.
End Rpn.

(** ** sort *)

Module Sort.

(** [a] and [b] from the place reached; [shorter] compares their lengths.
    [src/apps/sort/sort.cpp:23-30] [main] *)
Fixpoint comp_from (a b : list Z) (shorter : bool) : bool :=
  match a, b with
  | x :: a', y :: b' => if decide (x < y) then true else if decide (y < x) then false else comp_from a' b' shorter
  | _, _ => shorter
  end.

(** The order of lines.
    [src/apps/sort/sort.cpp:22-31] [main] *)
Definition comp (a b : list Z) : bool := comp_from a b (bool_decide (length a < length b)%nat).

Lemma comp_cons x y a b : comp (x :: a) (y :: b) = if decide (x < y) then true else if decide (y < x) then false else comp a b.
Proof.
  unfold comp. cbn [comp_from length]. destruct (decide (x < y)); [done|]. destruct (decide (y < x)); [done|]. f_equal. apply bool_decide_ext. lia.
Qed.

Lemma comp_nil_r a : comp a [] = false.
Proof. by destruct a. Qed.

Lemma comp_nil_l b : comp [] b = bool_decide (b <> []).
Proof. by destruct b. Qed.

(** What [std::sort] asks of an order, and that different lines are told apart. *)
#[export] Instance comp_strict : StrictOrder (fun a b => comp a b = true).
Proof.
  split.
  - intros a H. induction a as [|x a IH]; [by rewrite comp_nil_r in H|]. rewrite comp_cons, !decide_False in H by lia. done.
  - intros a. induction a as [|x a IH]; intros [|y b] [|z c] H1 H2; rewrite ?comp_nil_r, ?comp_nil_l in *; try done.
    rewrite comp_cons in *. repeat case_decide; try done; try lia. by apply (IH b c).
Qed.

Lemma comp_total a : forall b, comp a b = false -> comp b a = false -> a = b.
Proof.
  induction a as [|x a IH]; intros [|y b] H1 H2; rewrite ?comp_nil_r, ?comp_nil_l in *; try done.
  rewrite comp_cons in *. repeat case_decide; try done; try lia. assert (x = y) as -> by lia. f_equal. by apply IH.
Qed.

(** No line is before an earlier one. *)
Definition in_order : list (list Z) -> Prop := StronglySorted (fun a b => comp b a = false).

(** A sorted arrangement of lines is the only one. *)
Lemma in_order_unique l l' : in_order l -> in_order l' -> l ≡ₚ l' -> l = l'.
Proof. apply StronglySorted_unique. intros a b H1 H2. by apply comp_total. Qed.

Section sort.
(** The files, what the terminal types, and [std::sort]. *)
Context (fopen : list Z -> option (list Z)) (stdin : list Z) (std_sort : (list Z -> list Z -> bool) -> list (list Z) -> list (list Z)).

(** What is printed, and the exit code.
    [src/apps/sort/sort.cpp:6-38] [main] *)
Definition sort_main (argv : list (list Z)) : list Z * Z :=
  let print text := (mjoin (std_sort comp (shown <$> read_lines 1024 text)), 0) in
  match argv with
  | _ :: path :: _ => match fopen path with Some text => print text | None => (chars "failed to open '" ++ path ++ chars "'" ++ [10], 1) end
  | _ => print stdin
  end.

(** With any [std::sort] that sorts, the lines of the file are printed in their
    order. *)
Theorem sort_prints (Hsort : forall less l, StrictOrder (fun a b => less a b = true) ->
    std_sort less l ≡ₚ l /\ StronglySorted (fun a b => less b a = false) (std_sort less l)) name path rest text l :
  fopen path = Some text -> no_nul text -> l ≡ₚ read_lines 1024 text -> in_order l ->
  sort_main (name :: path :: rest) = (mjoin l, 0).
Proof.
  intros Hf Hn Hp Ho. unfold sort_main. rewrite Hf, shown_lines by (lia || done). destruct (Hsort comp (read_lines 1024 text) comp_strict) as [Hp' Ho'].
  by rewrite (in_order_unique _ l Ho' Ho) by (by rewrite Hp', Hp).
Qed.
End sort.
End Sort.

(** ** cat and cp *)

Module Files.
Section files.
Context (fopen : list Z -> option (list Z)).

(** What is printed, and the exit code; [argv] holds the name at least.
    [src/apps/cat/cat.cpp:4-25] [main] *)
Definition cat (argv : list (list Z)) : list Z * Z :=
  match argv with
  | _ :: path :: _ =>
      match fopen path with
      | None => (chars "failed to open: " ++ path ++ [10], 1)
      | Some text => (mjoin (shown <$> read_lines 256 text), 0)
      end
  | _ => (chars "Usage: " ++ default [] (head argv) ++ chars " <file>" ++ [10], 1)
  end.

(** A text is printed as it is. *)
Theorem cat_prints name path rest text : fopen path = Some text -> no_nul text -> cat (name :: path :: rest) = (text, 0).
Proof.
  intros Hf Hn. unfold cat. by rewrite Hf, shown_lines, read_lines_join by (lia || done).
Qed.

(** The file that is written, and [fwrite]. *)
Context {W : Type} (fopen_w : list Z -> option W) (fwrite : list Z -> W -> Z * W).

(** The exit code, and the file as far as it was written.
    [src/apps/cp/cp.cpp:22-31] [main] *)
Fixpoint copy (fuel : nat) (src : list Z) (w : W) : option (Z * W) :=
  match fuel with
  | O => None
  | S fuel' =>
      let buf := take 256 src in
      if decide (0 < length buf)%nat then
        let '(written, w) := fwrite buf w in
        if decide (Z.of_nat (length buf) <> written) then Some (1, w) else copy fuel' (drop 256 src) w
      else Some (0, w)
  end.

(** What is printed about errors is left out.
    [src/apps/cp/cp.cpp:4-32] [main] *)
Definition cp (argv : list (list Z)) : option (Z * option W) :=
  match argv with
  | _ :: src :: dest :: _ =>
      match fopen src with
      | None => Some (1, None)
      | Some text =>
          match fopen_w dest with
          | None => Some (1, None)
          | Some w => '(code, w) ← copy (S (length text)) text w; Some (code, Some w)
          end
      end
  | _ => Some (1, None)
  end.

Context (contents : W -> list Z).

(** [fwrite] appends as many bytes as it says. *)
Context (fwrite_appends : forall buf w, 0 <= fst (fwrite buf w) <= Z.of_nat (length buf) /\
  contents (snd (fwrite buf w)) = contents w ++ take (Z.to_nat (fst (fwrite buf w))) buf).

Lemma copy_spec fuel : forall src w, (length src < fuel)%nat ->
  exists code w' n, copy fuel src w = Some (code, w') /\ contents w' = contents w ++ take n src /\
    (code = 0 /\ contents w' = contents w ++ src \/ code = 1 /\ (n < length src)%nat).
Proof.
  induction fuel as [|fuel IH]; intros src w Hl; [lia|]. cbn [copy]. case_decide as Hd.
  - pose proof (fwrite_appends (take 256 src) w) as [Hr Hc]. destruct (fwrite _ w) as [written w1]. cbn [fst snd] in *. rewrite length_take in *. case_decide as Hw.
    + exists 1, w1, (Z.to_nat written). split; [done|]. rewrite Hc, take_take, Nat.min_l by lia. split; [done|]. right. split; [done|]. lia.
    + destruct (IH (drop 256 src) w1) as (code & w' & n & -> & Hc' & Hcase); [rewrite length_drop; lia|].
      rewrite take_ge in Hc by (rewrite length_take; lia). rewrite Hc in Hc', Hcase. rewrite <- !app_assoc in Hc', Hcase. exists code, w', (256 `min` length src + n)%nat. split; [done|]. split.
      * rewrite Hc'. f_equal. rewrite <- (take_drop 256 src) at 4. rewrite take_app, length_take.
        rewrite (take_ge (take 256 src)) by (rewrite length_take; lia). do 2 f_equal. lia.
      * destruct Hcase as [[-> Hcase]|[-> Hn]]; [left|right]; (split; [done|]); [by rewrite Hcase, take_drop|]. rewrite length_drop in Hn. lia.
  - exists 0, w, 0%nat. rewrite length_take in Hd. destruct src; [|cbn in Hd; lia]. split; [done|]. cbn. rewrite app_nil_r. split; [done|]. by left.
Qed.

(** The copy ends. With the exit code 0 the file has grown by the whole of the
    source, otherwise by a beginning of it. *)
Theorem cp_copies name src dest rest text w : fopen src = Some text -> fopen_w dest = Some w ->
  exists code w' n, cp (name :: src :: dest :: rest) = Some (code, Some w') /\ contents w' = contents w ++ take n text /\
    (code = 0 /\ contents w' = contents w ++ text \/ code = 1 /\ (n < length text)%nat).
Proof.
  intros Hf Hw. unfold cp. rewrite Hf, Hw. destruct (copy_spec (S (length text)) text w ltac:(lia)) as (code & w' & n & -> & H).
  exists code, w', n. split; [done|exact H].
Qed.
End files.
End Files.

(** ** more *)

Module More.

(** What appears: a line, or the mark at which the program waits. *)
Inductive event := Text (l : list Z) | Pause.

Definition is_pause (e : event) : bool := match e with Pause => true | _ => false end.

Section more.
Context (junk : list Z) (find_server : list Z -> Z * Z) (fopen : list Z -> option (list Z)) (stdin : list Z).

(** The press of a key, [None]: the program is told to end. A receive that fails is not
    modelled.
    [src/apps/more/more.cpp:34-48] [WaitKey] *)
Fixpoint key_loop (msgs : list Message) (o : list action) : outcome (option Message * Mail)%type :=
  match msgs with
  | [] => Waits
  | m :: msgs' =>
      if decide (type m = kQuit) then Ok (None, MkMail msgs' o)
      else if decide (type m = kKeyPush /\ getI keyboard_press m <> 0) then Ok (Some m, MkMail msgs' o)
      else key_loop msgs' o
  end.

(** The answer of the manager; [None]: an error.
    [src/apps/more/more.cpp:18-31] [WaitKey] *)
Definition answer (sm : Message) (am_id : Z) (rm : Message) (w : Mail) : outcome (Mail + option Mail)%type :=
  if decide (type rm = kError) then
    if decide (getI error_retry rm <> 0) then Ok (inl (send sm am_id w)) else Ok (inr None)
  else if decide (type rm = kReceived) then Ok (inr (Some w))
  else Ok (inl w).

(** The key, or the exit code.
    [src/apps/more/more.cpp:9-50] [WaitKey] *)
Definition WaitKey (w : Mail) : outcome (Z + Message * Mail)%type :=
  let '(am_id, err1) := find_server servers_am in
  if decide (err1 <> 0) then Ok (inl 1)
  else
    let sm := MkMessage kWaitingKey 0 junk in
    r ← receive_loop id (fun w _ => w) am_id (answer sm am_id) (S (length (inbox w))) (send sm am_id w);
    match r with
    | None => Ok (inl 1)
    | Some w =>
        '(k, w) ← key_loop (inbox w) (out w);
        Ok (match k with None => inl 0 | Some m => inr (m, w) end)
    end.

(** What is shown until the program ends or waits for ever, and its exit code.
    [src/apps/more/more.cpp:75-81] [main] *)
Fixpoint show (page_size i : Z) (lines : list (list Z)) (w : Mail) : (list event * outcome Z)%type :=
  match lines with
  | [] => ([], Ok 0)
  | l :: lines' =>
      if decide (0 < i /\ page_size = 0) then ([], Undefined)
      else if decide (0 < i /\ Z.rem i page_size = 0) then
        match WaitKey w with
        | Ok (inr (_, w)) => let '(es, r) := show page_size (i + 1) lines' w in (Pause :: Text (shown l) :: es, r)
        | Ok (inl code) => ([Pause], Ok code)
        | Waits => ([Pause], Waits)
        | Undefined => ([Pause], Undefined)
        end
      else let '(es, r) := show page_size (i + 1) lines' w in (Text (shown l) :: es, r)
  end.

(** The options: the lines of a page, and the argument that names the file.
    [src/apps/more/more.cpp:53-58] [main] *)
Definition options (argv : list (list Z)) : option (Z * nat) :=
  match argv with
  | _ :: (45 :: c :: n) :: _ => if isdigit c then p ← atoi (c :: n); Some (p, 2%nat) else Some (10, 1%nat)
  | _ => Some (10, 1%nat)
  end.

(** [src/apps/more/more.cpp:52-83] [main] *)
Definition more_main (argv : list (list Z)) (w : Mail) : (list event * outcome Z)%type :=
  match options argv with
  | None => ([], Undefined)
  | Some (page_size, arg_file) =>
      match argv !! arg_file with
      | None => show page_size 0 (read_lines 256 stdin) w
      | Some path =>
          match fopen path with
          | None => ([Text (chars "failed to open '" ++ path ++ chars "'" ++ [10])], Ok 1)
          | Some text => show page_size 0 (read_lines 256 text) w
          end
      end
  end.

(** *** What is shown *)

(** Whole pages with a pause between them: from the [i]th line on, there has been a
    pause for every full page before a line. *)
Definition paged (p : Z) (i : Z) (lines : list (list Z)) (es : list event) : Prop :=
  forall j l, lines !! j = Some l -> exists pre post, es = pre ++ Text (shown l) :: post /\
    length (filter (fun e => is_pause e = false) pre) = j /\
    Z.of_nat (length (filter (fun e => is_pause e = true) pre)) = (i + Z.of_nat j) / p - (i - 1) / p.

Lemma step_div p i : 0 < p -> i / p = (i - 1) / p + (if decide (i mod p = 0) then 1 else 0).
Proof.
  intros Hp. pose proof (Z.div_mod i p ltac:(lia)) as E. pose proof (Z.mod_pos_bound i p Hp) as B. case_decide as H.
  - rewrite H in E. rewrite <- (Z.div_unique (i - 1) p (i / p - 1) (p - 1)); lia.
  - rewrite <- (Z.div_unique (i - 1) p (i / p) (i mod p - 1)); lia.
Qed.

Lemma paged_cons p i l lines es pauses : 0 < p -> paged p (i + 1) lines es ->
  pauses = (if decide (i mod p = 0) then [Pause] else []) -> paged p i (l :: lines) (pauses ++ Text (shown l) :: es).
Proof.
  intros Hp H -> [|j] x Hx; cbn in Hx.
  - injection Hx as ->. eexists _, es. split; [reflexivity|]. rewrite Z.add_0_r. rewrite (step_div p i Hp). repeat (case_decide; cbn); try done; split; (done || lia).
  - destruct (H j x Hx) as (pre & post & -> & Hc & Hn). eexists (_ ++ Text (shown l) :: pre), post. split; [by rewrite <- app_assoc|].
    rewrite !filter_app, !length_app, !filter_cons. cbn [is_pause]. rewrite (decide_True (P := false = false)), (decide_False (P := false = true)) by done. cbn [length]. rewrite Hc.
    replace (i + 1 - 1) with i in Hn by lia. replace (i + Z.of_nat (S j)) with (i + 1 + Z.of_nat j) by lia. pose proof (step_div p i Hp). repeat (case_decide; cbn); try done; split; lia.
Qed.

Lemma key_loop_safe msgs : forall o, key_loop msgs o <> Undefined.
Proof. induction msgs as [|m msgs IH]; intros o; cbn; [done|]. by repeat case_decide. Qed.

Lemma closed_receive_safe from msgs : forall o, closed_receive from msgs o <> Undefined.
Proof. induction msgs as [|m msgs IH]; intros o; cbn; [done|]. by case_decide. Qed.

Lemma WaitKey_safe w : WaitKey w <> Undefined.
Proof.
  unfold WaitKey. destruct (find_server servers_am) as [am_id err1]. case_decide; [done|].
  set (sm := MkMessage _ _ _). generalize (S (length (inbox w))). intros fuel. generalize (send sm am_id w). clear w.
  assert (forall w, receive_loop id (fun w _ => w) am_id (answer sm am_id) fuel w <> Undefined) as Hloop.
  { induction fuel as [|fuel IH]; intros w; [done|]. cbn [receive_loop]. unfold ClosedReceive. cbn [id].
    pose proof (closed_receive_safe am_id (inbox w) (out w)). destruct (closed_receive _ _ _) as [[m w']| |]; try done. cbn [mbind outcome_bind].
    unfold answer. repeat case_decide; cbn [mbind outcome_bind]; try done; apply IH. }
  intros w. specialize (Hloop w). destruct (receive_loop _ _ _ _ _ _) as [[w'|]| |]; try done. cbn [mbind outcome_bind].
  pose proof (key_loop_safe (inbox w') (out w')). by destruct (key_loop _ _) as [[[m|] w'']| |].
Qed.

(** What was shown when the program stopped: the first [k] lines in pages; it stopped
    behind the last line, or at a pause. *)
Definition stopped (p i : Z) (lines : list (list Z)) (es : list event) (r : outcome Z) : Prop :=
  exists k, paged p i (take k lines) es /\ length (filter (fun e => is_pause e = false) es) = length (take k lines) /\
    (take k lines = lines /\ r = Ok 0 \/ last es = Some Pause /\ r <> Undefined).

Lemma stopped_cons p i l lines es r pauses : 0 < p -> stopped p (i + 1) lines es r ->
  pauses = (if decide (i mod p = 0) then [Pause] else []) -> stopped p i (l :: lines) (pauses ++ Text (shown l) :: es) r.
Proof.
  intros Hp (k & H & Hc & He) E. exists (S k). cbn [take]. split; [by apply paged_cons|]. split.
  - rewrite filter_app, length_app, filter_cons, decide_True by done. cbn [length]. rewrite Hc, E. by case_decide.
  - destruct He as [[Ht ->]|[Hl Hr]]; [left; by rewrite Ht|right; split; [|done]]. rewrite last_app, last_cons, Hl. done.
Qed.

Lemma show_stopped p lines : 0 < p -> forall i w es r, 0 < i -> show p i lines w = (es, r) -> stopped p i lines es r.
Proof.
  intros Hp. induction lines as [|l lines IH]; intros i w es r Hi H.
  { injection H as <- <-. exists 0%nat. split; [by intros [|j] l Hl|]. split; [done|]. by left. }
  cbn [show] in H. rewrite decide_False in H by lia. rewrite Z.rem_mod_nonneg in H by lia.
  destruct (decide (0 < i /\ i mod p = 0)) as [[_ Hm]|Hm].
  - assert (forall r', r' <> Undefined -> stopped p i (l :: lines) [Pause] r') as Hstop.
    { intros r' Hr. exists 0%nat. split; [by intros [|j] x Hx|]. split; [done|]. by right. }
    pose proof (WaitKey_safe w). destruct (WaitKey w) as [[code|[k w1]]| |]; try (injection H as <- <-; by apply Hstop); try done.
    destruct (show p (i + 1) lines w1) as [es' r'] eqn:Es. injection H as <- <-.
    apply (stopped_cons p i l lines es' r' [Pause]); [done|by apply (IH _ w1); [lia|]|by rewrite decide_True].
  - destruct (show p (i + 1) lines w) as [es' r'] eqn:Es. injection H as <- <-.
    apply (stopped_cons p i l lines es' r' []); [done|by apply (IH _ w); [lia|]|]. rewrite decide_False; [done|]. intros Hz. apply Hm. by split.
Qed.

(** The lines of the file appear in order, the [j]th one behind [j / p] pauses, where [p] is
    the size of a page; the program ends behind the last one, or at a pause. *)
Theorem more_pages argv p a path text w es r : options argv = Some (p, a) -> argv !! a = Some path -> fopen path = Some text -> 0 < p ->
  more_main argv w = (es, r) ->
  exists lines, lines `prefix_of` read_lines 256 text /\
    (forall j l, lines !! j = Some l -> exists pre post, es = pre ++ Text (shown l) :: post /\
       length (filter (fun e => is_pause e = false) pre) = j /\
       Z.of_nat (length (filter (fun e => is_pause e = true) pre)) = Z.of_nat j / p) /\
    length (filter (fun e => is_pause e = false) es) = length lines /\
    (lines = read_lines 256 text /\ r = Ok 0 \/ last es = Some Pause /\ r <> Undefined).
Proof.
  intros Ho Ha Hf Hp. unfold more_main. rewrite Ho, Ha, Hf. destruct (read_lines 256 text) as [|l lines].
  { intros [= <- <-]. exists []. split; [done|]. split; [by intros [|j]|]. split; [done|]. by left. }
  cbn [show]. rewrite !decide_False by lia. destruct (show p (0 + 1) lines w) as [es' r'] eqn:Es. intros [= <- <-].
  destruct (show_stopped p lines Hp 1 w es' r' ltac:(lia) Es) as (k & Hpg & Hc & He). exists (l :: take k lines).
  split; [apply prefix_cons; exists (drop k lines); by rewrite take_drop|]. split.
  - intros [|j] x Hx; cbn in Hx.
    + injection Hx as ->. exists [], es'. split; [done|]. split; [done|]. by rewrite Z.div_0_l by lia.
    + destruct (Hpg j x Hx) as (pre & post & -> & Hc' & Hn). exists (Text (shown l) :: pre), post. split; [done|].
      rewrite !filter_cons. cbn [is_pause]. rewrite (decide_True (P := false = false)), (decide_False (P := false = true)) by done. cbn [length]. rewrite Hc', Hn.
      change (1 - 1) with 0. rewrite Z.div_0_l by lia. split; [done|]. replace (1 + Z.of_nat j) with (Z.of_nat (S j)) by lia. lia.
  - split; [rewrite filter_cons, decide_True by done; cbn; by rewrite Hc|]. destruct He as [[-> ->]|[Hl Hr]]; [by left|right].
    split; [by rewrite last_cons, Hl|done].
Qed.

(** A page of no lines divides by zero. *)
Lemma more_zero name path text rest w l1 l2 ls : fopen path = Some text -> read_lines 256 text = l1 :: l2 :: ls ->
  more_main (name :: chars "-0" :: path :: rest) w = ([Text (shown l1)], Undefined).
Proof.
  intros Hf Hl. unfold more_main. change (options _) with (Some (0, 2%nat)). cbn [lookup list_lookup]. by rewrite Hf, Hl.
Qed.
End more.
End More.

(** ** ls *)

Module Ls.
Section ls.
(** The manager's task, or an error; what memory holds that is not initialised. *)
Context (found : Z) (junk : list Z).

(** [src/apps/ls/ls.cpp:42-52] [opendir] *)
Fixpoint copy_dirname (name : list Z) (i : nat) (m : Message) : option (option Message) :=
  match name with
  | [] => m' ← putB (opendir_dirname + i) [0] m; Some (Some m')
  | c :: name' =>
      if decide (25 < i)%nat then Some None
      else m' ← putB (opendir_dirname + i) [c] m; copy_dirname name' (S i) m'
  end.

(** The descriptor and [errno]; a name that is too long gives the descriptor 0.
    [src/apps/ls/ls.cpp:35-74] [opendir] *)
Definition opendir (name : list Z) (inbox : list Message) : option reply :=
  if decide (found <> 0) then Some (Some (-1, found), inbox, [])
  else
    r ← copy_dirname name 0 (MkMessage kOpenDir 0 junk);
    match r with
    | None => Some (Some (0, EINVAL), inbox, [])
    | Some smsg =>
        let '(o, inbox, sent) := await kOpenDir smsg inbox [smsg] in
        Some (match o with
              | Waiting => None
              | Failed rmsg => Some (-1, getI error_err rmsg)
              | Got rmsg => Some (getI opendir_fd rmsg, 0)
              end, inbox, sent)
    end.

(** Every part is taken to be nine characters, of which the next one overwrites the last.
    [src/apps/ls/ls.cpp:89-109] [readdir] *)
Fixpoint readdir_loop (smsg : Message) (inbox sent : list Message) (buf : list Z) (read_bytes : nat) : option (reply * list Z) :=
  match inbox with
  | [] => Some ((None, [], sent), buf)
  | rmsg :: inbox =>
      if decide (type rmsg = kError) then
        if decide (getI error_retry rmsg <> 0) then readdir_loop smsg inbox (sent ++ [smsg]) buf read_bytes
        else Some ((Some (0, getI error_err rmsg), inbox, sent), buf)
      else if decide (type rmsg = kRead) then
        if decide (getU read_len rmsg <> 0) then
          data ← read_at (arg rmsg) read_data 9;
          buf ← write_at buf read_bytes data;
          readdir_loop smsg inbox sent buf (read_bytes + 8)
        else Some ((Some (Z.of_nat read_bytes, 0), inbox, sent), buf)
      else readdir_loop smsg inbox sent buf read_bytes
  end.

(** [src/apps/ls/ls.cpp:76-113] [readdir] *)
Definition readdir (fd : Z) (buf : list Z) (inbox : list Message) : option (reply * list Z) :=
  if decide (found <> 0) then Some ((Some (0, 0), inbox, []), buf)
  else
    let smsg := setF read_count (8 + 1) (setF read_fd fd (MkMessage kRead 0 junk)) in
    readdir_loop smsg inbox [smsg] buf 0.

(** The names printed, the exit code unless it waits, the messages left.
    [src/apps/ls/ls.cpp:28-32] [main] *)
Fixpoint list_names (fuel : nat) (fd : Z) (dirname : list Z) (inbox : list Message) : option (list (list Z) * option Z * list Message) :=
  match fuel with
  | O => None
  | S fuel' =>
      '((r, inbox, _), dirname) ← readdir fd dirname inbox;
      match r with
      | None => Some ([], None, inbox)
      | Some (n, _) =>
          if decide (n = 0) then Some ([], Some 0, inbox)
          else
            name ← c_str dirname;
            '(names, code, inbox) ← list_names fuel' fd dirname inbox;
            Some (name :: names, code, inbox)
      end
  end.

(** [stack] is what [dirname] holds; every turn of the loop takes a message.
    [src/apps/ls/ls.cpp:13-33] [main] *)
Definition ls_main (argv : list (list Z)) (stack : list Z) (inbox : list Message) : option (list (list Z) * option Z * list Message) :=
  let path := default (chars "/") (argv !! 1%nat) in
  '(r, inbox, _) ← opendir path inbox;
  match r with
  | None => Some ([], None, inbox)
  | Some (fd, _) =>
      if decide (fd = -1) then Some ([chars "unable to opendir " ++ path], Some 1, inbox)
      else list_names (S (length inbox)) fd stack inbox
  end.

(** *** A listing *)

(** A part of the listing with a name in it, and the end of a part. *)
Definition names_part (m : Message) (name : list Z) : Prop :=
  type m = kRead /\ length (arg m) = arg_size /\ getU read_len m <> 0 /\ c_str (slice (arg m) read_data 9) = Some name.
Definition ends_part (m : Message) : Prop := type m = kRead /\ getU read_len m = 0.

(** The answers to the reads: each a name and an end, the last an end only. *)
Inductive listing : list (list Z) -> list Message -> Prop :=
| listing_end e : ends_part e -> listing [] [e]
| listing_name name names m e ms : names_part m name -> ends_part e -> listing names ms -> listing (name :: names) (m :: e :: ms).

Lemma c_str_app l r s : c_str l = Some s -> c_str (l ++ r) = Some s.
Proof. intros H. pose proof (c_str_no_nul _ _ H). apply c_str_split in H as [r' ->]. rewrite <- app_assoc. by apply c_str_chars. Qed.

Lemma read_end smsg e ms sent buf n : ends_part e -> readdir_loop smsg (e :: ms) sent buf n = Some ((Some (Z.of_nat n, 0), ms, sent), buf).
Proof. intros [Ht Hl]. cbn [readdir_loop]. by rewrite Ht, Hl. Qed.

Lemma read_name smsg m name ms sent buf n : names_part m name -> (n + 9 <= length buf)%nat ->
  readdir_loop smsg (m :: ms) sent buf n = readdir_loop smsg ms sent (splice buf n (slice (arg m) read_data 9)) (n + 8).
Proof.
  intros (Ht & Ha & Hl & _) Hn. cbn [readdir_loop]. assert (read_data + 9 <= length (arg m))%nat as Hd by (rewrite Ha; unfold arg_size, read_data; lia).
  rewrite Ht, decide_False, decide_True, decide_True, read_at_Some by done. cbn [mbind option_bind]. by rewrite write_at_Some by (by rewrite length_slice).
Qed.

Lemma list_names_listing names ms : listing names ms -> forall fuel fd buf rest, found = 0 -> length buf = 256%nat -> (length ms < fuel)%nat ->
  list_names fuel fd buf (ms ++ rest) = Some (names, Some 0, rest).
Proof.
  induction 1 as [e He|name names m e ms Hm He _ IH]; intros [|fuel] fd buf rest Hf Hb Hfuel; try (cbn in Hfuel; lia); cbn [list_names app];
    unfold readdir; rewrite decide_False by lia; [by rewrite read_end|].
  rewrite (read_name _ m name) by (done || lia). rewrite read_end by done. cbn [mbind option_bind]. rewrite decide_False by lia.
  destruct Hm as (_ & Ha & _ & Hc). assert (length (slice (arg m) read_data 9) = 9%nat) as H9 by (rewrite length_slice; [done|rewrite Ha; unfold arg_size, read_data; lia]).
  assert (c_str (splice buf 0 (slice (arg m) read_data 9)) = Some name) as -> by exact (c_str_app _ (drop (0 + length (slice (arg m) read_data 9)) buf) name Hc). cbn [mbind option_bind].
  rewrite IH; [done|done|rewrite length_splice; [done|rewrite H9, Hb; lia]|cbn in Hfuel; lia].
Qed.

(** The program prints the names of a directory in the order in which the manager
    lists them, and ends. *)
Theorem ls_lists argv stack o names ms rest : found = 0 -> length junk = arg_size -> length stack = 256%nat ->
  (length (default (chars "/") (argv !! 1%nat)) <= 26)%nat -> type o = kOpenDir -> getI opendir_fd o <> -1 -> listing names ms ->
  ls_main argv stack (o :: ms ++ rest) = Some (names, Some 0, rest).
Proof.
  intros Hf Hj Hs Hp Ho Hfd Hl. unfold ls_main. set (path := default _ _) in *. unfold opendir. rewrite decide_False by lia.
  assert (forall p i m, length (arg m) = arg_size -> (i + length p <= 26)%nat -> exists m', copy_dirname p i m = Some (Some m')) as Hcopy.
  { intros p. induction p as [|c p IH]; intros i m Hm Hi; cbn [copy_dirname]; cbn in Hi; unfold putB.
    - rewrite write_at_Some by (rewrite Hm; unfold arg_size, opendir_dirname; cbn; lia). cbn. eauto.
    - rewrite decide_False by lia. rewrite write_at_Some by (rewrite Hm; unfold arg_size, opendir_dirname; cbn; lia). cbn [mbind option_bind]. apply IH; [|lia].
      cbn [arg set_arg]. rewrite length_splice; [done|]. rewrite Hm. unfold arg_size, opendir_dirname. cbn. lia. }
  destruct (Hcopy path 0%nat (MkMessage kOpenDir 0 junk) Hj ltac:(lia)) as (smsg & ->). cbn [mbind option_bind await]. rewrite Ho, decide_False, decide_True by done.
  cbn [mbind option_bind]. rewrite decide_False by done. apply list_names_listing; [done|done|done|]. rewrite length_app. lia.
Qed.

End ls.
End Ls.
