(* ===== verification/Blocks.v ===== *)
(** * A game (apps/blocks/blocks.cpp)

    The whole program over the window calls and the messages it gets: what it draws
    stays in its window, and it never does anything undefined. *)

From stdpp Require Import base list numbers option strings.
From Stdlib Require Import ZArith Lia.
From S2P Require Import Syscall Newlib Prelude Bytes Message AmFd GuiClient.

Local Open Scope Z_scope.

(** [src/apps/blocks/blocks.cpp:10-13] [kNumBlocksX] *)
Definition kNumBlocksX : Z := 10.
Definition kNumBlocksY : Z := 5.
Definition kBlockWidth : Z := 20.
Definition kBlockHeight : Z := 10.
Definition kBarWidth : Z := 30.
Definition kBarHeight : Z := 5.
Definition kBallRadius : Z := 5.
Definition kGapWidth : Z := 30.
Definition kGapHeight : Z := 30.
Definition kGapBar : Z := 80.
Definition kBarFloat : Z := 10.

(** [src/apps/blocks/blocks.cpp:15-22] [kCanvasWidth] *)
Definition kCanvasWidth : Z := kNumBlocksX * kBlockWidth + 2 * kGapWidth.
Definition kCanvasHeight : Z := kGapHeight + kNumBlocksY * kBlockHeight + kGapBar + kBarHeight + kBarFloat.
Definition kBarY : Z := kCanvasHeight - kBarFloat - kBarHeight.
Definition kFrameRate : Z := 60.
Definition kBarSpeed : Z := Z.quot kCanvasWidth 2.

(** [src/apps/blocks/blocks.cpp:76-78] [main] *)
Definition kBallX : Z := Z.quot kCanvasWidth 2 - kBallRadius - 20.
Definition kBallY : Z := kCanvasHeight - kBarFloat - kBarHeight - kBallRadius - 20.

(** The variables of the program, and the timers it has asked for, by mode and time.
    [src/apps/blocks/blocks.cpp:80-84] [main] *)
Record Game := MkGame {
  blocks : list (list bool);
  bar_x : Z;
  ball_x : Z; ball_y : Z;
  move_dir : Z;
  ball_dir : Z;
  ball_dx : Z; ball_dy : Z;
  prev_timeout : Z;
  timers : list (Z * Z);
}.

(** [src/apps/blocks/blocks.cpp:72-84] [main] *)
Definition InitialGame : Game :=
  MkGame (replicate 5 (replicate 10 true)) (Z.quot kCanvasWidth 2 - Z.quot kBarWidth 2) kBallX kBallY 0 0 0 0 0 [].

Definition set_bar_x b g := MkGame (blocks g) b (ball_x g) (ball_y g) (move_dir g) (ball_dir g) (ball_dx g) (ball_dy g) (prev_timeout g) (timers g).
Definition set_move_dir m g := MkGame (blocks g) (bar_x g) (ball_x g) (ball_y g) m (ball_dir g) (ball_dx g) (ball_dy g) (prev_timeout g) (timers g).
Definition set_ball x y d g := MkGame (blocks g) (bar_x g) x y (move_dir g) d (ball_dx g) (ball_dy g) (prev_timeout g) (timers g).
Definition add_timer mode t v g := MkGame (blocks g) (bar_x g) (ball_x g) (ball_y g) (move_dir g) (ball_dir g) (ball_dx g) (ball_dy g) v (timers g ++ [(mode, t)]).

(** ** Drawing *)

(** A filled rectangle: its place, its size, its colour. *)
Definition Rect : Type := Z * Z * Z * Z * Z.

(** [src/apps/blocks/blocks.cpp:26-40] [DrawBlocks] *)
Definition DrawBlocks (bs : list (list bool)) : list Rect :=
  mjoin (imap (fun by_ row =>
    let y := 24 + kGapHeight + Z.of_nat by_ * kBlockHeight in
    let color := Z.shiftl 0xff (Z.of_nat (by_ mod 3) * 8) in
    mjoin (imap (fun bx (b : bool) =>
      if b then
        let x := 4 + kGapWidth + Z.of_nat bx * kBlockWidth in
        let c := Z.lor color (Z.shiftl 0xff (Z.of_nat ((bx + by_) mod 3) * 8)) in
        [(x, y, kBlockWidth, kBlockHeight, c)]
      else []) row)) bs).

(** [src/apps/blocks/blocks.cpp:42-45] [DrawBar] *)
Definition DrawBar (bar_x : Z) : list Rect := [(4 + bar_x, 24 + kBarY, kBarWidth, kBarHeight, 0xffffff)].

(** [src/apps/blocks/blocks.cpp:47-53] [DrawBall] *)
Definition DrawBall (x y : Z) : list Rect :=
  [(4 + x - kBallRadius, 24 + y - kBallRadius, 2 * kBallRadius, 2 * kBallRadius, 0x007f00);
   (4 + x - Z.quot kBallRadius 2, 24 + y - Z.quot kBallRadius 2, kBallRadius, kBallRadius, 0x00ff00)].

(** [src/apps/blocks/blocks.cpp:88-95] [main] *)
Definition frame (g : Game) : list Rect :=
  [(4, 24, kCanvasWidth, kCanvasHeight, 0)] ++ DrawBlocks (blocks g) ++ DrawBar (bar_x g) ++
  (if decide (0 <= ball_y g) then DrawBall (ball_x g) (ball_y g) else []).

(** ** Keys and moves *)

(** [src/apps/blocks/blocks.cpp:55-63] [LimitRange] *)
Definition LimitRange (x min max : Z) : Z := if decide (x < min) then min else if decide (max < x) then max else x.

(** [src/apps/blocks/blocks.cpp:119-137] [main] *)
Definition press (keycode : Z) (g : Game) : Game :=
  let g :=
    if decide (keycode = 79) then set_move_dir 1 g
    else if decide (keycode = 80) then set_move_dir (-1) g
    else if decide (keycode = 44) then
      if decide (ball_dir g = 0 /\ ball_y g < 0) then set_ball kBallX kBallY 0 g
      else if decide (ball_dir g = 0) then set_ball (ball_x g) (ball_y g) 45 g
      else g
    else g in
  if decide (bar_x g = 0 /\ move_dir g < 0) then set_move_dir 0 g
  else if decide (bar_x g + kBarWidth = kCanvasWidth - 1 /\ 0 < move_dir g) then set_move_dir 0 g
  else g.

(** The direction off the walls, the ceiling and the bar; [None]: the ball is lost.
    [src/apps/blocks/blocks.cpp:149-164] [main] *)
Definition bounce (bar x_ y_ dx dy dir : Z) : option (option Z) :=
  dir ← (if decide (dx < 0 /\ x_ < kBallRadius \/ 0 < dx /\ kCanvasWidth - kBallRadius <= x_) then int (180 - dir) else Some dir);
  if decide (dy < 0 /\ y_ < kBallRadius) then Some <$> int (- dir)
  else if decide (bar <= x_ /\ x_ < bar + kBarWidth /\ 0 < dy /\ kBarY - kBallRadius <= y_) then Some <$> int (- dir)
  else if decide (0 < dy /\ kCanvasHeight - kBallRadius <= y_) then Some None
  else Some (Some dir).

(** The block at the next place of the ball is taken away, and turns the ball.
    [src/apps/blocks/blocks.cpp:166-194] [main] *)
Definition hit (bs : list (list bool)) (x y x_ y_ dir : Z) : option (list (list bool) * Z) :=
  if decide (x_ < kGapWidth \/ kCanvasWidth - kGapWidth <= x_ \/ y_ < kGapHeight \/ kGapHeight + kNumBlocksY * kBlockHeight <= y_)
  then Some (bs, dir)
  else
    let index_x := Z.quot (x_ - kGapWidth) kBlockWidth in
    let index_y := Z.quot (y_ - kGapHeight) kBlockHeight in
    row ← getZ bs index_y;
    b ← getZ row index_x;
    if negb b then Some (bs, dir)
    else
      row ← setZ row index_x false;
      bs ← setZ bs index_y row;
      let block_left := kGapWidth + index_x * kBlockWidth in
      let block_right := kGapWidth + (index_x + 1) * kBlockWidth in
      let block_top := kGapHeight + index_y * kBlockHeight in
      let block_bottom := kGapHeight + (index_y + 1) * kBlockHeight in
      dir ← (if decide (x < block_left /\ block_left <= x_ \/ block_right < x /\ x_ <= block_right) then int (180 - dir) else Some dir);
      dir ← (if decide (y < block_top /\ block_top <= y_ \/ block_bottom < y /\ y_ <= block_bottom) then int (- dir) else Some dir);
      Some (bs, dir).

Section game.
(** What a direction in degrees makes of the ball: [ball_dx] and [ball_dy], computed
    with the cosine and the sine of the C library. *)
Context (velocity : Z -> Z * Z).

(** [src/apps/blocks/blocks.cpp:142-199] [main] *)
Definition move (g : Game) : option Game :=
  let bar := LimitRange (bar_x g + Z.quot (move_dir g * kBarSpeed) kFrameRate) 0 (kCanvasWidth - kBarWidth - 1) in
  let g := set_bar_x bar g in
  if decide (ball_dir g = 0) then Some g
  else
    let x_ := ball_x g + ball_dx g in
    let y_ := ball_y g + ball_dy g in
    r ← bounce bar x_ y_ (ball_dx g) (ball_dy g) (ball_dir g);
    match r with
    | None => Some (set_ball (ball_x g) (-1) 0 g)
    | Some dir =>
        '(bs, dir) ← hit (blocks g) (ball_x g) (ball_y g) x_ y_ dir;
        let '(dx, dy) := velocity dir in
        Some (MkGame bs bar (ball_x g + dx) (ball_y g + dy) (move_dir g) dir dx dy (prev_timeout g) (timers g))
    end.

(** ** The program *)

Context (junk : list Z) (find_server : list Z -> Z * Z) (first_timeout : Z).

Definition draw (layer_id : Z) (rs : list Rect) (w : Mail) : Mail :=
  fold_left (fun w '(x, y, wd, h, c) => WinFillRectangle find_server layer_id false x y wd h c w) rs w.

(** [first_timeout] is what the system answers.
    [src/apps/blocks/blocks.cpp:98-106] [main] *)
Definition next_timer (g : Game) : Game :=
  if decide (prev_timeout g = 0) then add_timer 1 (Z.quot 1000 kFrameRate) first_timeout g
  else let t := u64 (prev_timeout g + Z.quot 1000 kFrameRate) in add_timer 0 t t g.

(** How the wait for a timeout ends. *)
Inductive wait := Timeout (g : Game) | Quit | Waiting.

(** [src/apps/blocks/blocks.cpp:108-140] [main] *)
Fixpoint events (msgs : list Message) (g : Game) : wait * list Message :=
  match msgs with
  | [] => (Waiting, [])
  | m :: msgs' =>
      if decide (type m = kTimerTimeout) then (Timeout g, msgs')
      else if decide (type m = kQuit) then (Quit, msgs')
      else if decide (type m = kKeyPush) then
        if decide (getI keyboard_press m = 0) then events msgs' (set_move_dir 0 g)
        else events msgs' (press (getU keyboard_keycode m) g)
      else events msgs' g
  end.

(** The messages left with what was sent; the exit code, if it ends. Every frame takes
    a message.
    [src/apps/blocks/blocks.cpp:86-204] [main] *)
Fixpoint frames (fuel : nat) (layer_id : Z) (g : Game) (w : Mail) : Mail * outcome Z :=
  match fuel with
  | O => (w, Waits)
  | S fuel' =>
      let w := WinRedraw find_server layer_id (draw layer_id (frame g) w) in
      let g := next_timer g in
      match events (inbox w) g with
      | (Waiting, msgs) => (MkMail msgs (out w), Waits)
      | (Quit, msgs) => (CloseWindow find_server layer_id (MkMail msgs (out w)), Ok 0)
      | (Timeout g, msgs) =>
          match move g with
          | None => (MkMail msgs (out w), Undefined)
          | Some g => frames fuel' layer_id g (MkMail msgs (out w))
          end
      end
  end.

(** [src/apps/blocks/blocks.cpp:65-205] [main] *)
Definition main (w : Mail) : Mail * outcome Z :=
  match OpenWindow find_server (kCanvasWidth + 8) (kCanvasHeight + 28) 10 10 (chars "blocks") w with
  | Ok (layer_id, w) =>
      if decide (layer_id = -1) then (w, Ok 1) else frames (S (length (inbox w))) layer_id InitialGame w
  | Waits => (w, Waits)
  | Undefined => (w, Undefined)
  end.
End game.

(** ** The ball *)

(** The directions of the ball, and the steps that go with them: 130 pixels per second
    at 60 frames, times the cosine or sine of an odd multiple of 45 degrees. *)
Definition diagonal (d : Z) : Prop := d mod 90 = 45.
Definition sx (d : Z) : Z := if decide (d mod 360 = 45 \/ d mod 360 = 315) then 2 else -2.
Definition sy (d : Z) : Z := if decide (d mod 360 = 45 \/ d mod 360 = 135) then 2 else -2.

Ltac degrees := unfold diagonal, sx, sy; intros; repeat case_decide; Z.to_euclidean_division_equations; lia.

Lemma diagonal_flip d : diagonal d -> diagonal (180 - d). Proof. degrees. Qed.
Lemma diagonal_opp d : diagonal d -> diagonal (- d). Proof. degrees. Qed.
Lemma sx_flip d : diagonal d -> sx (180 - d) = - sx d. Proof. degrees. Qed.
Lemma sy_flip d : diagonal d -> sy (180 - d) = sy d. Proof. degrees. Qed.
Lemma sx_opp d : diagonal d -> sx (- d) = sx d. Proof. degrees. Qed.
Lemma sy_opp d : diagonal d -> sy (- d) = - sy d. Proof. degrees. Qed.
Lemma sx_cases d : sx d = 2 \/ sx d = -2. Proof. unfold sx. case_decide; auto. Qed.
Lemma sy_cases d : sy d = 2 \/ sy d = -2. Proof. unfold sy. case_decide; auto. Qed.

Lemma int_some x : - 2 ^ 31 <= x < 2 ^ 31 -> int x = Some x.
Proof. intros. unfold int. by rewrite decide_True. Qed.

(** Five rows of ten. *)
Definition rows (bs : list (list bool)) : Prop := length bs = 5%nat /\ Forall (fun r => length r = 10%nat) bs.

(** The ball in the canvas, moving in its direction or about to start. *)
Record flying (g : Game) : Prop := {
  fy_dir : diagonal (ball_dir g);
  fy_x : 5 <= ball_x g <= 254;
  fy_y : 5 <= ball_y g <= 169;
  fy_step : (ball_dx g = sx (ball_dir g) /\ ball_dy g = sy (ball_dir g)) \/ (ball_x g = 105 /\ ball_y g = 135);
}.

(** After at most [n] frames. *)
Record playing (n : Z) (g : Game) : Prop := {
  pl_rows : rows (blocks g);
  pl_bar : 0 <= bar_x g <= 229;
  pl_move : -1 <= move_dir g <= 1;
  pl_turns : Z.abs (ball_dir g) <= 45 + 360 * n;
  pl_dx : -2 <= ball_dx g <= 2;
  pl_dy : -2 <= ball_dy g <= 2;
  pl_ball : (ball_dir g = 0 /\ (ball_y g = -1 \/ (ball_x g = 105 /\ ball_y g = 135))) \/ flying g;
}.

Ltac geometry := unfold kNumBlocksX, kNumBlocksY, kBlockWidth, kBlockHeight, kBarWidth, kBarHeight, kBallRadius, kGapWidth, kGapHeight, kGapBar, kBarFloat,
  kCanvasWidth, kCanvasHeight, kBarY, kFrameRate, kBarSpeed, kBallX, kBallY in *.

(** Where the canvas ends, in numbers. *)
Lemma sizes : kCanvasWidth = 260 /\ kCanvasHeight = 175 /\ kBarY = 160 /\ kBarSpeed = 130 /\ kBallX = 105 /\ kBallY = 135.
Proof. done. Qed.

Lemma bounce_spec bar x_ y_ dx dy dir : diagonal dir -> Z.abs dir < 2 ^ 31 - 180 ->
  exists r, bounce bar x_ y_ dx dy dir = Some r /\
    match r with
    | None => True
    | Some d => diagonal d /\ Z.abs d <= Z.abs dir + 180 /\
        ((dx < 0 /\ x_ < 5 \/ 0 < dx /\ 255 <= x_) /\ sx d = - sx dir \/ (~ (dx < 0 /\ x_ < 5) /\ ~ (0 < dx /\ 255 <= x_)) /\ sx d = sx dir) /\
        ((dy < 0 /\ y_ < 5 \/ 0 < dy /\ 155 <= y_) /\ sy d = - sy dir \/ (~ (dy < 0 /\ y_ < 5) /\ ~ (0 < dy /\ 170 <= y_)) /\ sy d = sy dir)
    end.
Proof.
  intros Hd Hb. unfold bounce. destruct sizes as (-> & -> & -> & _). unfold kBallRadius, kBarWidth.
  assert (exists d, (if decide (dx < 0 /\ x_ < 5 \/ 0 < dx /\ 260 - 5 <= x_) then int (180 - dir) else Some dir) = Some d /\ diagonal d /\ Z.abs d <= Z.abs dir + 180 /\
    ((dx < 0 /\ x_ < 5 \/ 0 < dx /\ 255 <= x_) /\ sx d = - sx dir \/ (~ (dx < 0 /\ x_ < 5) /\ ~ (0 < dx /\ 255 <= x_)) /\ sx d = sx dir) /\ sy d = sy dir) as (d & -> & Hd1 & Hb1 & Hx & Hy).
  { case_decide as Hw; [exists (180 - dir); rewrite int_some by lia|exists dir]; (split; [done|]).
    - split; [by apply diagonal_flip|]. split; [lia|]. rewrite sx_flip, sy_flip by done. split; [left; split; [lia|done]|done].
    - split; [done|]. split; [lia|]. split; [right; split; [lia|done]|done]. }
  cbn [mbind option_bind]. rewrite int_some by lia. repeat case_decide; eexists; (split; [reflexivity|]); cbn; try done;
    rewrite ?sx_opp, ?sy_opp, <- ?Hy by done; (split; [by try apply diagonal_opp|]); (split; [lia|]); (split; [exact Hx|]).
  - left. split; [lia|done].
  - left. split; [lia|done].
  - right. split; [lia|done].
Qed.

Lemma rows_set bs i row j b bs' row' : rows bs -> getZ bs i = Some row -> setZ row j b = Some row' -> setZ bs i row' = Some bs' -> rows bs'.
Proof.
  intros [Hl Hr] Hi Hj Hs. split; [by rewrite (length_setZ _ _ _ _ Hs)|]. apply setZ_inv in Hs as [_ ->]. apply Forall_insert; [done|].
  rewrite (length_setZ _ _ _ _ Hj). rewrite list.Forall_forall in Hr. apply Hr. apply getZ_lookup in Hi. by eapply list_elem_of_lookup_2.
Qed.

Lemma hit_spec bs x y x_ y_ dir : rows bs -> diagonal dir -> Z.abs dir < 2 ^ 31 - 360 ->
  exists bs' d, hit bs x y x_ y_ dir = Some (bs', d) /\ rows bs' /\ diagonal d /\ Z.abs d <= Z.abs dir + 180 /\
    (~ (30 <= x_ < 230 /\ 30 <= y_ < 80) -> d = dir).
Proof.
  intros Hr Hd Hb. unfold hit. destruct sizes as (-> & _). change (kGapHeight + kNumBlocksY * kBlockHeight) with 80. unfold kGapWidth, kGapHeight, kBlockWidth, kBlockHeight.
  case_decide as Hz. { exists bs, dir. split; [done|]. split; [done|]. split; [done|]. split; [lia|done]. }
  assert (0 <= Z.quot (x_ - 30) 20 < 10) as Hx by (rewrite Z.quot_div_nonneg by lia; split; [apply Z.div_pos; lia|apply Z.div_lt_upper_bound; lia]).
  assert (0 <= Z.quot (y_ - 30) 10 < 5) as Hy by (rewrite Z.quot_div_nonneg by lia; split; [apply Z.div_pos; lia|apply Z.div_lt_upper_bound; lia]).
  set (ix := Z.quot (x_ - 30) 20) in *. set (iy := Z.quot (y_ - 30) 10) in *. destruct Hr as [Hl Hr].
  destruct (getZ_Some bs iy ltac:(rewrite Hl; lia)) as [row Erow]. rewrite Erow. cbn [mbind option_bind].
  assert (length row = 10%nat) as Hrow. { rewrite list.Forall_forall in Hr. apply Hr. apply getZ_lookup in Erow. by eapply list_elem_of_lookup_2. }
  destruct (getZ_Some row ix ltac:(rewrite Hrow; lia)) as [b Eb]. rewrite Eb. cbn [mbind option_bind].
  destruct (negb b). { exists bs, dir. split; [done|]. split; [done|]. split; [done|]. split; [lia|done]. }
  destruct (setZ row ix false) as [row'|] eqn:E1; [|rewrite setZ_Some in E1 by (rewrite Hrow; lia); done]. cbn [mbind option_bind].
  destruct (setZ bs iy row') as [bs'|] eqn:E2; [|rewrite setZ_Some in E2 by (rewrite Hl; lia); done]. cbn [mbind option_bind].
  pose proof (rows_set bs iy row ix false bs' row' (conj Hl Hr) Erow E1 E2) as Hr'.
  match goal with |- context [if decide ?P then int (180 - dir) else Some dir] =>
    assert (exists d, (if decide P then int (180 - dir) else Some dir) = Some d /\ diagonal d /\ (d = dir \/ d = 180 - dir)) as (d & -> & Hd1 & Hb1) end.
  { case_decide; [exists (180 - dir); rewrite int_some by lia; split; [done|]; split; [by apply diagonal_flip|by right]|exists dir; split; [done|]; split; [done|by left]]. }
  cbn [mbind option_bind]. rewrite int_some by lia. case_decide; cbn [mbind option_bind]; eexists _, _; (split; [reflexivity|]); (split; [done|]);
    (split; [by try apply diagonal_opp|]); (split; [lia|intros; exfalso; lia]).
Qed.

Section play.
Context (velocity : Z -> Z * Z).

(** The documented cosine and sine. *)
Context (velocity_diagonal : forall d, diagonal d -> velocity d = (sx d, sy d)).

Lemma LimitRange_in x min max : min <= max -> min <= LimitRange x min max <= max.
Proof. intros. unfold LimitRange. repeat case_decide; lia. Qed.

Lemma move_playing n g : 0 <= n < 5000000 -> playing n g -> exists g', move velocity g = Some g' /\ playing (n + 1) g'.
Proof.
  intros Hn [Hr Hb Hm Ht Hdx Hdy Hball]. unfold move. destruct sizes as (-> & _ & _ & -> & _). change (260 - kBarWidth - 1) with 229.
  set (bar := LimitRange _ 0 229). assert (0 <= bar <= 229) as Hbar by (apply LimitRange_in; lia). cbn [ball_dir set_bar_x].
  destruct (decide (ball_dir g = 0)) as [H0|H0].
  { eexists. split; [done|]. constructor; cbn [set_bar_x blocks bar_x move_dir ball_dir ball_dx ball_dy ball_x ball_y]; try done; [lia|]. destruct Hball as [Hball|[Hd Hx Hy Hs]]; [by left|right].
    by constructor. }
  destruct Hball as [[? _]|[Hd Hx Hy Hs]]; [done|]. cbn [ball_x ball_y ball_dx ball_dy blocks move_dir set_bar_x].
  destruct (bounce_spec bar (ball_x g + ball_dx g) (ball_y g + ball_dy g) (ball_dx g) (ball_dy g) (ball_dir g) Hd ltac:(lia)) as (r & -> & Hbounce).
  cbn [mbind option_bind]. destruct r as [d1|].
  2: { eexists. split; [done|]. constructor; cbn; try done; [lia|]. left. split; [done|by left]. }
  destruct Hbounce as (Hd1 & Hb1 & Hsx & Hsy).
  destruct (hit_spec (blocks g) (ball_x g) (ball_y g) (ball_x g + ball_dx g) (ball_y g + ball_dy g) d1 Hr Hd1 ltac:(lia)) as (bs & d2 & -> & Hr2 & Hd2 & Hb2 & Hout).
  cbn [mbind option_bind]. rewrite velocity_diagonal by done. eexists. split; [done|].
  pose proof (sx_cases d2). pose proof (sy_cases d2). pose proof (sx_cases (ball_dir g)). pose proof (sy_cases (ball_dir g)).
  assert (30 <= ball_x g + ball_dx g < 230 /\ 30 <= ball_y g + ball_dy g < 80 \/ d2 = d1) as Hzone by (destruct (decide (30 <= ball_x g + ball_dx g < 230 /\ 30 <= ball_y g + ball_dy g < 80)); auto).
  constructor; cbn; try done; try lia. right. constructor; cbn; [done| | |by left].
  - destruct Hzone as [?| ->]; lia.
  - destruct Hzone as [?| ->]; lia.
Qed.

(** *** Keys *)

Lemma press_playing n keycode g : 0 <= n -> playing n g -> playing n (press keycode g).
Proof.
  intros Hn H. unfold press. set (g1 := if decide (keycode = 79) then _ else _).
  assert (playing n g1) as [Hr Hb Hm Ht Hdx Hdy Hball].
  { destruct H as [Hr Hb Hm Ht Hdx Hdy Hball]. subst g1. destruct sizes as (_ & _ & _ & _ & EX & EY).
    assert (forall m, -1 <= m <= 1 -> playing n (set_move_dir m g)) as Hmove.
    { intros m Hm'. constructor; cbn; try done. destruct Hball as [?|[? ? ? ?]]; [by left|right; by constructor]. }
    destruct (decide (keycode = 79)); [apply Hmove; lia|]. destruct (decide (keycode = 80)); [apply Hmove; lia|]. destruct (decide (keycode = 44)); [|by constructor].
    destruct (decide (ball_dir g = 0 /\ ball_y g < 0)) as [H0|H0]; [constructor; cbn; try done; [lia|left; split; [done|]; right; by rewrite EX, EY]|].
    destruct (decide (ball_dir g = 0)) as [Hz|Hz]; [|by constructor].
    destruct Hball as [[_ Hpos]|[Hd _ _ _]]; [|exfalso; unfold diagonal in Hd; by rewrite Hz in Hd].
    constructor; cbn; try done; [lia|]. right. constructor; cbn; [done|lia|lia|right; lia]. }
  repeat case_decide; constructor; cbn; try done; destruct Hball as [?|[? ? ? ?]]; (by left) || (right; by constructor).
Qed.

Lemma stop_playing n g : playing n g -> playing n (set_move_dir 0 g).
Proof. intros [Hr Hb Hm Ht Hdx Hdy Hball]. constructor; cbn; try done. destruct Hball as [?|[? ? ? ?]]; [by left|right; by constructor]. Qed.

Lemma events_playing n msgs : 0 <= n -> forall g g' msgs', playing n g -> events msgs g = (Timeout g', msgs') ->
  playing n g' /\ (length msgs' < length msgs)%nat.
Proof.
  intros Hn. induction msgs as [|m msgs IH]; intros g g' msgs' Hg H; cbn [events] in H; [done|]. cbn [length].
  repeat case_decide; try done; try (apply IH in H; [split; [apply H|lia]|by apply stop_playing || by apply press_playing || done]).
  injection H as <- <-. split; [done|lia].
Qed.

Lemma timer_playing n t g : playing n g -> playing n (next_timer t g).
Proof.
  intros [Hr Hb Hm Ht Hdx Hdy Hball]. unfold next_timer. case_decide; constructor; cbn; try done; destruct Hball as [?|[? ? ? ?]]; (by left) || (right; by constructor).
Qed.

Lemma InitialGame_playing : playing 0 InitialGame.
Proof.
  constructor; cbn; try (by vm_compute; split; intros Hc; discriminate Hc); [split; [done|repeat constructor]|lia|]. left. split; [done|]. by right.
Qed.

(** *** What is drawn *)

(** In the canvas, which the window has at (4, 24). *)
Definition in_canvas (x y w h : Z) : Prop := 4 <= x /\ 0 <= w /\ x + w <= 4 + 260 /\ 24 <= y /\ 0 <= h /\ y + h <= 24 + 175.

Lemma DrawBlocks_in bs : rows bs -> Forall (fun '(x, y, w, h, c) => in_canvas x y w h) (DrawBlocks bs).
Proof.
  intros [Hl Hr]. apply list.Forall_forall. intros r Hin. unfold DrawBlocks in Hin. apply list_elem_of_join in Hin as (l & Hin & Hl').
  apply elem_of_lookup_imap in Hl' as (i & row & -> & Hi). apply list_elem_of_join in Hin as (l & Hin & Hl').
  apply elem_of_lookup_imap in Hl' as (j & b & -> & Hj). destruct b; [|by apply not_elem_of_nil in Hin]. apply list_elem_of_singleton in Hin as ->.
  apply lookup_lt_Some in Hj. pose proof (lookup_lt_Some _ _ _ Hi). rewrite list.Forall_forall in Hr. specialize (Hr row ltac:(by eapply list_elem_of_lookup_2)).
  unfold in_canvas, kGapWidth, kGapHeight, kBlockWidth, kBlockHeight. lia.
Qed.

Lemma frame_in n g : playing n g -> Forall (fun '(x, y, w, h, c) => in_canvas x y w h) (frame g).
Proof.
  intros [Hr Hb _ _ _ _ Hball]. unfold frame. destruct sizes as (-> & -> & E & _). rewrite !Forall_app. split; [|split; [by apply DrawBlocks_in|split]].
  - repeat constructor; unfold in_canvas; lia.
  - unfold DrawBar. rewrite E. repeat constructor; unfold in_canvas, kBarWidth, kBarHeight; lia.
  - case_decide as Hy; [|constructor]. assert (5 <= ball_x g <= 254 /\ 5 <= ball_y g <= 169) as [Hx Hy'] by (destruct Hball as [[_ [?|[? ?]]]|[_ ? ? _]]; lia).
    unfold DrawBall. change (Z.quot kBallRadius 2) with 2. unfold kBallRadius. repeat constructor; unfold in_canvas; lia.
Qed.

(** A message that fills a rectangle fills one in the canvas. *)
Definition drawn_in (a : action) : Prop :=
  match a with
  | Send m _ => type m = kWinFillRectangle ->
      in_canvas (getI winfillrectangle_x m) (getI winfillrectangle_y m) (getI winfillrectangle_w m) (getI winfillrectangle_h m)
  | _ => True
  end.

Context (find_server : list Z -> Z * Z) (first_timeout : Z).

(** What was sent from one mail to the other. *)
Definition sent (w w' : Mail) : Prop := exists acts, out w' = out w ++ acts /\ Forall drawn_in acts.

#[local] Instance sent_preorder : PreOrder sent.
Proof.
  split.
  - intros w. exists []. by rewrite app_nil_r.
  - intros w1 w2 w3 (a & E1 & H1) (b & E2 & H2). exists (a ++ b). rewrite E2, E1, app_assoc. split; [done|by apply Forall_app].
Qed.

Lemma gui_sent m w : (forall id, drawn_in (Send m id)) -> sent w (gui_send find_server m w) /\ inbox (gui_send find_server m w) = inbox w.
Proof.
  intros H. unfold gui_send. destruct (find_server servers_gui) as [id err]. case_decide; [split; [reflexivity|done]|]. split; [|done].
  exists [Send m id]. split; [done|]. constructor; [apply H|constructor].
Qed.

Lemma fill_in_canvas layer_id draw x y wd h c id : in_canvas x y wd h -> drawn_in (Send (fill_message layer_id draw x y wd h c) id).
Proof.
  intros Hin _. set (fs := [(winfillrectangle_layer_id, layer_id); (winfillrectangle_draw, flag draw); (winfillrectangle_x, x);
    (winfillrectangle_y, y); (winfillrectangle_w, wd); (winfillrectangle_h, h); (winfillrectangle_color, c)]).
  assert (forall f v pre post, fs = pre ++ (f, v) :: post -> f_width f = 4%nat -> - 2 ^ 31 <= v < 2 ^ 31 -> getI f (with_fields fs (zero_message kWinFillRectangle)) = v) as Hget.
  { intros f v pre post E Hw Hv. unfold getI. rewrite E, with_fields_get by (apply zero_message_ok || by rewrite <- E). rewrite Hw. change (256 ^ Z.of_nat 4) with (2 ^ 32).
    unfold s32. rewrite Z.add_mod_idemp_l by done. rewrite Z.mod_small by lia. lia. }
  unfold in_canvas in Hin. unfold fill_message. fold fs.
  rewrite (Hget winfillrectangle_x x (take 2 fs) (drop 3 fs)), (Hget winfillrectangle_y y (take 3 fs) (drop 4 fs)),
    (Hget winfillrectangle_w wd (take 4 fs) (drop 5 fs)), (Hget winfillrectangle_h h (take 5 fs) (drop 6 fs)) by (done || lia). exact Hin.
Qed.

Lemma draw_sent layer_id rs : forall w, Forall (fun '(x, y, wd, h, c) => in_canvas x y wd h) rs ->
  sent w (draw find_server layer_id rs w) /\ inbox (draw find_server layer_id rs w) = inbox w.
Proof.
  induction rs as [|[[[[x y] wd] h] c] rs IH]; intros w H; [split; [reflexivity|done]|]. inversion H as [|? ? Hin Hrs]; subst. cbn [draw fold_left].
  destruct (gui_sent (fill_message layer_id false x y wd h c) w) as [S1 I1]; [intros id; by apply fill_in_canvas|].
  destruct (IH (WinFillRectangle find_server layer_id false x y wd h c w) Hrs) as [S2 I2]. split; [by etrans|]. unfold draw in I2. rewrite I2. exact I1.
Qed.

Lemma frames_safe layer_id fuel : forall n g w, 0 <= n -> playing n g -> n + Z.of_nat (length (inbox w)) < 5000000 ->
  sent w (fst (frames velocity find_server first_timeout fuel layer_id g w)) /\ snd (frames velocity find_server first_timeout fuel layer_id g w) <> Undefined.
Proof.
  induction fuel as [|fuel IH]; intros n g w Hn Hg Hlen; [split; [reflexivity|done]|]. cbn [frames].
  destruct (draw_sent layer_id (frame g) w (frame_in n g Hg)) as [S1 I1]. set (w1 := draw find_server layer_id (frame g) w) in *.
  assert (sent w1 (WinRedraw find_server layer_id w1) /\ inbox (WinRedraw find_server layer_id w1) = inbox w1) as [S2 I2] by (apply gui_sent; intros id; done).
  set (w2 := WinRedraw find_server layer_id w1) in *. assert (sent w w2) as S by (by etrans).
  assert (forall msgs, sent w (MkMail msgs (out w2))) as Sm by (intros msgs; exact S).
  pose proof (timer_playing n first_timeout g Hg) as Hg1. destruct (events (inbox w2) (next_timer first_timeout g)) as [[g'| |] msgs] eqn:Ee; [|split; [|done]|done].
  - destruct (events_playing n _ Hn _ _ _ Hg1 Ee) as [Hg' Hlt]. rewrite I2, I1 in Hlt. destruct (move_playing n g' ltac:(lia) Hg') as (g2 & -> & Hg2).
    destruct (IH (n + 1) g2 (MkMail msgs (out w2)) ltac:(lia) Hg2 ltac:(cbn; lia)) as [S3 H3]. split; [|done]. etrans; [apply (Sm msgs)|exact S3].
  - cbn [fst]. etrans; [apply (Sm msgs)|]. apply gui_sent. done.
Qed.

(** The game does nothing undefined and draws inside its canvas only, whatever keys are
    pressed and however its timers come, in its first five million messages. *)
Theorem blocks_safe w layer_id w1 : OpenWindow find_server (kCanvasWidth + 8) (kCanvasHeight + 28) 10 10 (chars "blocks") w = Ok (layer_id, w1) ->
  Z.of_nat (length (inbox w1)) < 5000000 ->
  sent w1 (fst (main velocity find_server first_timeout w)) /\ snd (main velocity find_server first_timeout w) <> Undefined.
Proof.
  intros E Hlen. unfold main. rewrite E. case_decide; [split; [reflexivity|done]|]. apply (frames_safe layer_id _ 0); [done|apply InitialGame_playing|lia].
Qed.
End play.
